(* ===== verification/_CoqProject ===== *)
-Q . S2P
Prelude.v
Cstring.v
Spinlock.v
Kalloc.v
PageTable.v
Uvm.v
Kstack.v
Encrypt.v
Aspace.v
Clock.v
Exec.v
ExecImage.v
ExecLoad.v
ExecCommit.v
ExecArgs.v
ExecSafe.v
ExecRun.v
Sched.v
RunQueue.v
SchedSafe.v
Sleeplock.v
Fork.v
ForkSafe.v
ForkWait.v
ForkRun.v
Cache.v
Bio.v
Ide.v
IdeSafe.v
IdeSystem.v
Log.v
LogBio.v
Journal.v
LogJournal.v
Fs.v
FsAlloc.v
FsFile.v
FsWrite.v
FsInode.v
FsPath.v
FsDir.v
FsAtomic.v
FsBio.v
Pipe.v
Syscall.v
File.v
FileRef.v
FileWrite.v
FileBio.v
Counters.v
Mysh.v
MyshParse.v
MyshAlias.v
Ulib.v
Grep.v
Filters.v
Umalloc.v
Console.v
Sh.v
ShParse.v
ShRun.v
