(* ===== verification/Prelude.v ===== *)
(** * Verified models of the CS537 kernel, shell and utilities

    The repository holds six course projects: two filters (p1), the xv6 kernel with
    system call counters (p2), a shell (p3), xv6 with a time-slice scheduler (p4), and
    xv6 with page encryption (p5) and with a clock working set on top of it (p6). The
    xv6 files that no project changes are the same in p2, p4, p5 and p6; they are
    modelled once, from p6.

    ** How the parts fit together

    The kernel is layered, and so is the development; each file models what it names
    and uses only the layers below it.

    - This file: machine integers ([u32], [s32], [u8] wrap as C does), the
      state-and-outcome monad [M], the byte memory, and lemmas shared by all.
      A C function is a program in [M]: it returns [Ok], stops the kernel with
      [Panic], waits for another process or runs out of fuel in [Hang], and [Undef]
      is undefined behaviour (a wild pointer, a store past an array).
    - Memory. [Cstring] (p6/string.c, x86.h), [Spinlock] (p6/spinlock.c and mycpu,
      myproc of p6/proc.c; its module [Smp] interleaves CPUs), [Kalloc]
      (p6/kalloc.c), [PageTable] (walkpgdir and mappages of p6/vm.c), [Uvm] (address
      spaces of p6/vm.c), [Encrypt] (mencrypt, mdecrypt, getpgtable and the array of
      the working set in p6/vm.c; growproc of p6/proc.c), [Aspace] (the pages of a process
      as a whole) and [Clock] (the array as a second-chance queue).
    - Running a program. [Exec] (p6/exec.c, loaduvm of p6/vm.c, the headers of p6/elf.h)
      reaches files through the class [ExecFiles]; [ExecImage] is the address space under
      construction, [ExecLoad] the loops of exec against reference functions on the
      contents of the file, [ExecCommit] the change of address space, [ExecArgs] what main
      finds on its stack, [ExecSafe] the whole call, [ExecRun] files in memory and a run.
    - Making a process. [Kstack] (the stack that allocproc prepares), [Fork] (allocproc,
      fork and wait of p6/proc.c over [Kalloc], [Uvm] and the queue of the working set),
      [ForkSafe] (what fork does), [ForkWait] (what wait does, and a fork that is waited
      for), [ForkRun] (runs). What fork does to the descriptors is a parameter there and
      modelled in [File].
    - Processes. [Sched] (p4/src/proc.c, sysproc.c and the paths of trap.c that end
      in the scheduler), [RunQueue] (the linked run queue as a list), [SchedSafe]
      (the step relation of the running system and its invariant). Pages and files
      reach the scheduler through the class [Sched.Services]. [Counters] is what p2
      adds (p2/src/syscall.c, proc.c); it runs on [Kalloc] and [Uvm].
    - Storage. [Sleeplock] (p6/sleeplock.c), [Cache] (blocks, and the class
      [BlockCache] that states what the block cache promises), [Bio] (p6/bio.c over
      p6/memide.c; the instance of the class), [Ide] (p6/ide.c over the class [Ide.IdeDisk] of
      disks), [IdeSafe] and [IdeSystem] (what one call does, and the driver with its callers,
      disk and interrupts), [Log] (p6/log.c against the class),
      [Journal] (the class that states what the log promises to the file system),
      [LogJournal] (the log over any block cache is a journal), [Fs] (p6/fs.c
      against the class), [FsAlloc], [FsFile], [FsWrite], [FsInode], [FsDir],
      [FsPath] (its theorems by part), [FsAtomic] (whole operations, from begin_op
      to end_op). [LogBio] and [FsBio] run the stack on the real cache.
    - [Pipe] (p6/pipe.c), [Syscall] (the argument routines of p6/syscall.c and the
      argument vector of sys_exec in p6/sysfile.c), [File] (the file table of p6/file.c,
      the other calls of p6/sysfile.c, pipealloc, and the descriptors in fork and exit,
      over [Fs], [Pipe], [Kalloc] and [Syscall]), [FileRef] (reference counts under every
      sequence of calls of all processes), [FileWrite] (long writes), [FileBio] (runs).
    - [Console] (p6/console.c and uartputc of p6/uart.c): the keyboard buffer with its
      three indices, reads of lines, the text screen.
    - User programs. [Ulib] (p6/ulib.c and p6/printf.c), [Grep] (p6/grep.c), [Filters]
      (p1/my-look.c, p1/my-rev.c and p6/wc.c). Their strings are lists of bytes. [Umalloc]
      (p6/umalloc.c: the circular free list inside the memory it manages; whether the
      kernel grows the process is a parameter).
    - The shell of xv6. [Sh] (the parser of p6/sh.c with its pointers into the line),
      [ShParse] (the parser against a grammar on tokens), [ShRun] (runcmd and main).
    - The shell of p3. [Mysh] (p3/mysh.c), [MyshParse] (its lexing), [MyshAlias] (its
      alias list, and a reference semantics of batch files).

    State is as in the C code: arrays are lists with indices for pointers, linked
    structures keep their link fields, and kernel memory is a map from addresses to
    bytes. A spinlock is modelled with its CPU and interrupt state where that matters
    ([Spinlock], [Kalloc], [Sched]) and as a flag elsewhere.

    ** What the theorems show

    - Crash safety: a crash after any number of the block writes of a commit leaves,
      after recovery, either none or all of the transaction, and recovery can itself
      be cut short ([Log.commit_crash_safe], [Log.recovery_idempotent]); how much an
      operation may log and when the log panics ([Log.log_reservation],
      [LogBio.log_full_panics]).
    - The scheduler: every reachable state of the system satisfies the invariant on
      the table, the run queue and the locks ([SchedSafe.scheduler_safe]), the queue
      is round robin with the slices and compensation ticks accounted
      ([RunQueue.scheduler_round_robin]), and what its calls do wrong
      ([SchedSafe.killed_sleeper_lost], [SchedSafe.slice_calls]).
    - Memory: the allocator is a free list that loses no page, page tables map what
      they are asked to and nothing else, address spaces are built, copied and freed
      without leaking, encryption is an involution on what the user sees, and the
      working set is second-chance replacement (the groups [Kalloc], [PageTable],
      [Uvm], [Encrypt], [Clock]).
    - The disk driver carries out the requests in the order of the calls, as a memory disk
      would that may fail, and every caller returns; a failed request is reported to nobody
      ([IdeSystem.ide_refines_memory_disk]).
    - Files: the cache returns the contents of the disk and evicts the least recently used
      buffer that nobody uses ([Bio.buffer_cache]), the bitmap is a set of blocks
      ([FsAlloc.block_allocator]), writing a file changes its bytes and no other
      file ([FsWrite.writei_spec]), a write is atomic under crashes
      ([FsAtomic.file_write_atomic]) and a long one is a sequence of atomic chunks
      ([FileWrite.filewrite_chunks]), what iupdate stores ilock loads
      ([FsInode.inode_roundtrip]), directories are finite maps from names
      ([FsDir.directory_entries]), paths are split at their slashes ([FsPath]).
    - Programs: exec either leaves the process and every page as they were or runs the
      program of the reference, encrypted, with no page lost, and it fails only for a bad
      file or too little memory ([ExecSafe.exec_spec]); main finds its arguments
      ([ExecSafe.exec_arguments]); malloc and free keep the heap a set of apart blocks
      ([Umalloc.heap_safe]).
    - A forked child is a copy of its parent, with the same working set, or nothing has
      happened ([ForkSafe.fork_spec]); a child that is waited for leaves no trace in memory
      ([ForkWait.fork_wait_roundtrip]).
    - Descriptors: the count of a file is the number of descriptors of all processes
      that name it, and a pipe lives as long as one of its ends is open
      ([FileRef.file_references]).
    - The shell of xv6 parses its grammar, and panics where a line is not of it
      ([ShParse.parser_grammar], [ShParse.parse_unparse]), and runs what it parsed
      ([ShRun.shell_session]).
    - Pipes are bounded queues under every interleaving ([Pipe.pipe_fifo]), arguments
      of system calls lie in the process ([Syscall.argument_bounds]), the counters of
      p2 count ([Counters]), the console delivers the edited lines in order and nothing
      else ([Console.line_discipline]) and its screen is the last lines of the output
      ([Console.screen_window]), grep prints the lines that contain a word of its pattern
      ([Grep.grep_selects]), my-rev is its own inverse ([Filters.my_rev]), my-look, wc
      and printf write what they should ([Filters], [Ulib]), batch files of the shell do what the script semantics
      says ([MyshAlias.batch_mode_script]), and its alias command has three defects
      ([MyshAlias.alias_defects]).

    ** Bounds and fuel

    Loops are structural where the C loop counts down or runs over an array. The
    others take fuel, and a theorem says that it is enough: [walk] loops over pages
    take the number of pages of the range plus one, list walks the number of slots,
    [acquire] one turn (on one CPU a taken lock is never released), the scheduler one
    turn of the queue, the loops of fs.c the number of bytes or blocks, which each
    turn reduces. Integers are [Z] with the wrap of their width written out where
    the code can reach it.

    ** Not modelled

    Hardware and its set-up: keyboard and serial input, interrupt
    controllers, segment and control registers, trap entry, assembly and the boot
    sequence; port accesses and instructions have no meaning in the model,
    except those of the disk, whose documented behaviour [Ide.IdeDisk] states. mkfs, which runs
    on the host. The short user programs that pass their arguments to a system call (cat,
    ls, ln, ...) and programs that only test. exit, sleep and the scheduler of p6 are
    modelled in their p4 form, with the descriptors in [File]. The other copies of xv6 in
    p2, p4 and p5: the files are those of p6, and what p5 does for encryption (p5/src/vm.c)
    is the first form of what p6 does.

    Of the concurrency, a call of the file system is run by one process between its
    sleeps; the interleavings modelled are those of CPUs on a spinlock, of processes under
    the scheduler, of log operations, of pipe calls, of the keyboard with readers, and of the
    callers of the disk driver with the disk and its interrupts, which do not come while it works.
    A timer interrupt comes in user mode or in the idle scheduler, not inside a system call. exec
    is proved against [ExecFiles], not against [Fs]. *)

From stdpp Require Export base numbers list gmap option strings.
From Stdlib Require Export ZArith Lia.

Global Set Default Goal Selector "1".
Open Scope Z_scope.

Declare Scope kernel_scope.
Delimit Scope kernel_scope with K.
(** The facts on bytes, words and memories that side conditions ask for. *)
Create HintDb bytes.

(** ** Machine integers *)

Definition u32 (x : Z) : Z := x `mod` 2 ^ 32.
Definition s32 (x : Z) : Z := (x + 2 ^ 31) `mod` 2 ^ 32 - 2 ^ 31.
Definition u8 (x : Z) : Z := x `mod` 256.

Definition is_u32 (x : Z) : Prop := 0 <= x < 2 ^ 32.

(** ** Outcomes and the state-and-panic monad *)

Inductive outcome (S A : Type) : Type :=
  | Ok (a : A) (s : S)
  | Panic (msg : string)
  | Hang
  | Undef.
Arguments Ok {S A} _ _.
Arguments Panic {S A} _.
Arguments Hang {S A}.
Arguments Undef {S A}.

Definition M (S A : Type) : Type := S -> outcome S A.

#[export] Instance M_ret {S} : MRet (M S) := fun A a s => Ok a s.
#[export] Instance M_bind {S} : MBind (M S) := fun A B f m s =>
  match m s with
  | Ok a s' => f a s'
  | Panic msg => Panic msg
  | Hang => Hang
  | Undef => Undef
  end.

Definition panic {S A} (msg : string) : M S A := fun _ => Panic msg.
Definition hang {S A} : M S A := fun _ => Hang.
Definition undef {S A} : M S A := fun _ => Undef.
Definition gets {S A} (f : S -> A) : M S A := fun s => Ok (f s) s.
Definition modify {S} (f : S -> S) : M S unit := fun s => Ok tt (f s).
Definition when {S} (b : bool) (m : M S unit) : M S unit :=
  if b then m else mret tt.
Definition of_option {S A} (o : option A) : M S A :=
  match o with Some a => mret a | None => undef end.

(** [m] takes the state [s] to the result [a] and the state [s']. *)
Notation "⟨ m , s ⟩ ⇓ ⟨ a , t ⟩" := (m s = Ok a t)
  (at level 70, m at level 200, s at level 200, a at level 200, t at level 200) : kernel_scope.
Open Scope kernel_scope.

(** Run a computation of a sub-state inside a larger state. *)
Definition zoom {S T A} (get : S -> T) (put : T -> S -> S) (m : M T A) : M S A :=
  fun s => match m (get s) with
           | Ok a t => Ok a (put t s)
           | Panic msg => Panic msg
           | Hang => Hang
           | Undef => Undef
           end.

Lemma bind_Ok {S A B} (m : M S A) (f : A -> M S B) s a s' :
  m s = Ok a s' -> (m ≫= f) s = f a s'.
Proof. intros H. unfold mbind, M_bind. by rewrite H. Qed.

Lemma bind_inv {S A B} (m : M S A) (f : A -> M S B) s b s' :
  (m ≫= f) s = Ok b s' -> exists a s1, m s = Ok a s1 /\ f a s1 = Ok b s'.
Proof. unfold mbind, M_bind. destruct (m s); intros; eauto; discriminate. Qed.

Lemma bind_Panic {S A B} (m : M S A) (f : A -> M S B) s msg :
  m s = Panic msg -> (m ≫= f) s = Panic msg.
Proof. intros H. unfold mbind, M_bind. by rewrite H. Qed.

Lemma bind_Hang {S A B} (m : M S A) (f : A -> M S B) s : m s = Hang -> (m ≫= f) s = Hang.
Proof. intros H. unfold mbind, M_bind. by rewrite H. Qed.

Lemma zoom_Ok {S T A} get put (m : M T A) (s : S) a t :
  m (get s) = Ok a t -> zoom get put m s = Ok a (put t s).
Proof. intros H. unfold zoom. by rewrite H. Qed.

(** [mstep H] runs the head of a bind with the equation [H]. *)
Tactic Notation "mstep" uconstr(H) := erewrite bind_Ok; [|eapply H].
Section monad_laws.
  Context {S A B C : Type}.
  Implicit Types (s : S) (m : M S A) (k : A -> M S B).

Lemma bind_gets (f : S -> A) k s : (gets f ≫= k) s = k (f s) s.
Proof. done. Qed.
Lemma bind_modify (f : S -> S) (k : unit -> M S B) s : (modify f ≫= k) s = k tt (f s).
Proof. done. Qed.
Lemma bind_ret (a : A) k s : ((mret a : M S A) ≫= k) s = k a s.
Proof. done. Qed.
Lemma bind_panic msg k s : ((panic msg : M S A) ≫= k) s = Panic msg.
Proof. done. Qed.
Lemma bind_undef k s : ((undef : M S A) ≫= k) s = Undef.
Proof. done. Qed.
Lemma bind_of_Some (a : A) k s : ((of_option (Some a) : M S A) ≫= k) s = k a s.
Proof. done. Qed.
Lemma bind_assoc m k (l : B -> M S C) s : ((m ≫= k) ≫= l) s = (m ≫= (fun a => k a ≫= l)) s.
Proof. unfold mbind, M_bind. by destruct (m s). Qed.
Lemma bind_ret_r m s : (m ≫= mret) s = m s.
Proof. unfold mbind, M_bind. by destruct (m s). Qed.
Lemma ret_Ok (a : A) s : (mret a : M S A) s = Ok a s.
Proof. done. Qed.
End monad_laws.

(** [mgo] evaluates the head of a program as long as it is pure. *)
Ltac mgo :=
  unfold when in *;
  repeat (first [ rewrite bind_gets | rewrite bind_modify | rewrite bind_ret
                | rewrite bind_panic | rewrite bind_undef | rewrite bind_of_Some
                | rewrite bind_assoc | rewrite ret_Ok ]; cbv beta).

(** ** Memory: little-endian bytes, every address readable *)

Notation memory := (gmap Z Z).

Definition rd8 (m : memory) (a : Z) : Z := default 0 (m !! a).
Definition wr8 (m : memory) (a v : Z) : memory := <[a := u8 v]> m.
Definition rd32 (m : memory) (a : Z) : Z :=
  rd8 m a + 256 * rd8 m (a + 1) + 65536 * rd8 m (a + 2) + 16777216 * rd8 m (a + 3).
Definition wr32 (m : memory) (a v : Z) : memory :=
  wr8 (wr8 (wr8 (wr8 m a v) (a + 1) (v / 256)) (a + 2) (v / 65536)) (a + 3) (v / 16777216).

Definition bytes_ok (m : memory) : Prop := forall a, 0 <= rd8 m a < 256.

(** Two memories are equivalent when every byte reads the same: the model's
    maps may differ in which zero bytes they store. *)
Definition mem_eq (m1 m2 : memory) : Prop := forall a, rd8 m1 a = rd8 m2 a.

#[export] Instance mem_eq_equiv : Equivalence mem_eq.
Proof. split; red; unfold mem_eq; intros; auto; etrans; eauto. Qed.

Lemma rd8_wr8 m a v b : rd8 (wr8 m a v) b = if decide (a = b) then u8 v else rd8 m b.
Proof. unfold rd8, wr8. rewrite lookup_insert. by case_decide. Qed.

Lemma rd8_wr8_eq m a v : rd8 (wr8 m a v) a = u8 v.
Proof. rewrite rd8_wr8. by case_decide. Qed.

Lemma rd8_wr8_ne m a v b : a <> b -> rd8 (wr8 m a v) b = rd8 m b.
Proof. intros. rewrite rd8_wr8. by case_decide. Qed.

#[export] Instance rd8_proper : Proper (mem_eq ==> eq ==> eq) rd8.
Proof. intros m1 m2 H a ? <-. apply H. Qed.

#[export] Instance wr8_proper : Proper (mem_eq ==> eq ==> eq ==> mem_eq) wr8.
Proof. intros m1 m2 H a ? <- v ? <- b. rewrite !rd8_wr8. by case_decide. Qed.

#[export] Instance rd32_proper : Proper (mem_eq ==> eq ==> eq) rd32.
Proof. intros m1 m2 H a ? <-. unfold rd32. by rewrite !H. Qed.

#[export] Instance wr32_proper : Proper (mem_eq ==> eq ==> eq ==> mem_eq) wr32.
Proof. intros m1 m2 H a ? <- v ? <-. unfold wr32. by repeat f_equiv. Qed.

Lemma u8_range v : 0 <= u8 v < 256.
Proof. apply Z.mod_pos_bound. lia. Qed.

Lemma u8_small v : 0 <= v < 256 -> u8 v = v.
Proof. apply Z.mod_small. Qed.

Lemma u32_range v : is_u32 (u32 v).
Proof. apply Z.mod_pos_bound. lia. Qed.

Lemma u32_small v : is_u32 v -> u32 v = v.
Proof. apply Z.mod_small. Qed.
Lemma s32_small x : - 2 ^ 31 <= x < 2 ^ 31 -> s32 x = x.
Proof. intros H. unfold s32. rewrite Z.mod_small; lia. Qed.
Lemma s32_range x : - 2 ^ 31 <= s32 x < 2 ^ 31.
Proof. unfold s32. pose proof (Z.mod_pos_bound (x + 2 ^ 31) (2 ^ 32)). lia. Qed.
Lemma s32_u32 x : - 2 ^ 31 <= x < 2 ^ 31 -> s32 (u32 x) = x.
Proof. intros. unfold s32, u32. Z.div_mod_to_equations. lia. Qed.
Lemma u32_s32 x : is_u32 x -> u32 (s32 x) = x.
Proof. unfold is_u32, s32, u32. intros. Z.div_mod_to_equations. lia. Qed.
Lemma insert_mid {A} (l : list A) x y r : <[length l := y]> (l ++ x :: r) = l ++ y :: r.
Proof. rewrite insert_app_r_alt by lia. by rewrite Nat.sub_diag. Qed.

Lemma bytes_ok_wr8 m a v : bytes_ok m -> bytes_ok (wr8 m a v).
Proof. intros H b. rewrite rd8_wr8. case_decide; [apply u8_range | apply H]. Qed.

Lemma bytes_ok_wr32 m a v : bytes_ok m -> bytes_ok (wr32 m a v).
Proof. intros. unfold wr32. by repeat apply bytes_ok_wr8. Qed.

Lemma rd32_range m a : bytes_ok m -> is_u32 (rd32 m a).
Proof.
  intros H. unfold rd32, is_u32.
  pose proof (H a). pose proof (H (a+1)). pose proof (H (a+2)). pose proof (H (a+3)). lia.
Qed.

Lemma rd8_wr32 m a v b :
  rd8 (wr32 m a v) b =
    if decide (a + 3 = b) then u8 (v / 16777216) else
    if decide (a + 2 = b) then u8 (v / 65536) else
    if decide (a + 1 = b) then u8 (v / 256) else
    if decide (a = b) then u8 v else rd8 m b.
Proof. unfold wr32. by rewrite !rd8_wr8. Qed.

Lemma rd8_wr32_ne m a v b : b < a \/ a + 4 <= b -> rd8 (wr32 m a v) b = rd8 m b.
Proof. intros. rewrite rd8_wr32. repeat case_decide; lia || done. Qed.

Lemma rd32_wr32_eq m a v : is_u32 v -> rd32 (wr32 m a v) a = v.
Proof.
  intros Hv. unfold rd32. rewrite !rd8_wr32.
  repeat (case_decide; try lia). unfold u8, is_u32 in *.
  Z.div_mod_to_equations. lia.
Qed.

Lemma wr32_wr32 m a v w : wr32 (wr32 m a v) a w = wr32 m a w.
Proof.
  apply map_eq. intros i. unfold wr32, wr8. rewrite !lookup_insert.
  repeat case_decide; done.
Qed.

Lemma rd32_wr32_ne m a v b : b + 4 <= a \/ a + 4 <= b -> rd32 (wr32 m a v) b = rd32 m b.
Proof. intros. unfold rd32. rewrite !rd8_wr32_ne by lia. done. Qed.

Lemma rd32_ext m1 m2 a :
  (forall b, a <= b < a + 4 -> rd8 m1 b = rd8 m2 b) -> rd32 m1 a = rd32 m2 a.
Proof. intros H. unfold rd32. rewrite !H by lia. done. Qed.

#[export] Hint Resolve u8_range u32_range bytes_ok_wr8 bytes_ok_wr32 rd32_range : bytes.
#[export] Hint Rewrite rd8_wr8_eq u8_small u32_small rd32_wr32_eq wr32_wr32 using (by auto with bytes) : bytes.

(** ** Decisions *)

Lemma decide_and_r {A} (P Q : Prop) `{Decision P, Decision Q, Decision (P /\ Q)} (x y : A) :
  Q -> (if decide (P /\ Q) then x else y) = if decide P then x else y.
Proof. intros HQ. repeat case_decide; tauto. Qed.

(** ** Lists *)

Lemma omap_ext_in {A B} (f g : A -> option B) (l : list A) :
  (forall x, x ∈ l -> f x = g x) -> omap f l = omap g l.
Proof.
  induction l as [|x l IH]; intros H; [done|]. cbn.
  rewrite (H x) by (by left). destruct (g x); [f_equal|]; apply IH; intros; apply H; by right.
Qed.

(** Defining a partial function at one more point adds its value. *)
Lemma omap_add {A B} (f g : A -> option B) (l : list A) (x : A) (y : B) :
  NoDup l -> x ∈ l -> f x = None -> g x = Some y ->
  (forall z, z ∈ l -> z <> x -> g z = f z) -> omap g l ≡ₚ y :: omap f l.
Proof.
  intros Hn Hx Hf Hg Hz. apply list_elem_of_split in Hx as (l1 & l2 & ->).
  apply NoDup_app in Hn as (_ & H1 & H2). apply NoDup_cons in H2 as [H2 _].
  rewrite !omap_app. cbn. rewrite Hf, Hg.
  rewrite (omap_ext_in g f l1), (omap_ext_in g f l2).
  - by rewrite Permutation_middle.
  - intros z Hi. apply Hz; [rewrite elem_of_app; right; by right|]. by intros ->.
  - intros z Hi. apply Hz; [rewrite elem_of_app; by left|]. intros ->.
    apply (H1 _ Hi). by left.
Qed.

Lemma NoDup_app_singleton {A} (l : list A) x : NoDup l /\ x ∉ l -> NoDup (l ++ [x]).
Proof.
  intros [Hl Hx]. apply NoDup_app. split_and!; [done| |apply NoDup_singleton].
  intros y Hy ->%list_elem_of_singleton. done.
Qed.

(** ** Outcomes of a program: a result, or one of the allowed panics *)

Definition hoare {S A} (m : M S A) (s : S) (Q : A -> S -> Prop) (E : string -> Prop) : Prop :=
  match m s with Ok a s' => Q a s' | Panic e => E e | _ => False end.

Lemma hoare_bind {S A B} (m : M S A) (k : A -> M S B) s Q1 Q E :
  hoare m s Q1 E -> (forall a s', Q1 a s' -> hoare (k a) s' Q E) -> hoare (m ≫= k) s Q E.
Proof.
  unfold hoare, mbind, M_bind. intros H1 H2. destruct (m s); [by apply H2|done..].
Qed.

Lemma hoare_step {S A B} (m : M S A) (k : A -> M S B) s a s' Q E :
  m s = Ok a s' -> hoare (k a) s' Q E -> hoare (m ≫= k) s Q E.
Proof. intros H. unfold hoare. by rewrite (bind_Ok _ _ _ _ _ H). Qed.

Lemma hoare_Ok {S A} (m : M S A) s a s' (Q : A -> S -> Prop) E : m s = Ok a s' -> Q a s' -> hoare m s Q E.
Proof. intros H HQ. unfold hoare. by rewrite H. Qed.

Lemma hoare_ret {S A} (a : A) (s : S) (Q : A -> S -> Prop) E : Q a s -> hoare (mret a) s Q E.
Proof. done. Qed.

Lemma hoare_weaken {S A} (m : M S A) s (Q Q' : A -> S -> Prop) (E E' : string -> Prop) :
  hoare m s Q E -> (forall a s', Q a s' -> Q' a s') -> (forall e, E e -> E' e) -> hoare m s Q' E'.
Proof. unfold hoare. destruct (m s); auto. Qed.

Lemma hoare_assoc {S A B C} (m : M S A) (k : A -> M S B) (l : B -> M S C) s Q E :
  hoare (m ≫= fun a => k a ≫= l) s Q E -> hoare ((m ≫= k) ≫= l) s Q E.
Proof. unfold hoare. by rewrite bind_assoc. Qed.
