(* ===== verification/Cstring.v ===== *)
(** * C strings and memory blocks: p6/string.c

    The functions of string.c over the byte memory of the prelude, with the
    pointers as addresses. A C loop that counts [n] down is a [Fixpoint] on
    [n]; [strlen], whose loop has no bound, takes fuel. *)

From S2P Require Import Prelude.

(** ** stosb and stosl (x86.h): [rep stos] *)

Fixpoint stosb (m : memory) (addr data : Z) (cnt : nat) : memory :=
  match cnt with
  | O => m
  | S cnt' => stosb (wr8 m addr data) (addr + 1) data cnt'
  end.

Fixpoint stosl (m : memory) (addr data : Z) (cnt : nat) : memory :=
  match cnt with
  | O => m
  | S cnt' => stosl (wr32 m addr data) (addr + 4) data cnt'
  end.

Definition memset (m : memory) (dst c n : Z) : memory :=
  if (dst `mod` 4 =? 0) && (n `mod` 4 =? 0) then
    let c := Z.land c 255 in
    stosl m dst (Z.lor (Z.lor (Z.lor (Z.shiftl c 24) (Z.shiftl c 16)) (Z.shiftl c 8)) c)
      (Z.to_nat (n / 4))
  else stosb m dst c (Z.to_nat n).

Fixpoint memcmp (m : memory) (s1 s2 : Z) (n : nat) : Z :=
  match n with
  | O => 0
  | S n' => if rd8 m s1 =? rd8 m s2 then memcmp m (s1 + 1) (s2 + 1) n'
            else rd8 m s1 - rd8 m s2
  end.

(** [while(n-- > 0) *--d = *--s;] *)
Fixpoint move_down (m : memory) (d s : Z) (n : nat) : memory :=
  match n with
  | O => m
  | S n' => move_down (wr8 m (d - 1) (rd8 m (s - 1))) (d - 1) (s - 1) n'
  end.

(** [while(n-- > 0) *d++ = *s++;] *)
Fixpoint move_up (m : memory) (d s : Z) (n : nat) : memory :=
  match n with
  | O => m
  | S n' => move_up (wr8 m d (rd8 m s)) (d + 1) (s + 1) n'
  end.

Definition memmove (m : memory) (dst src n : Z) : memory :=
  if (src <? dst) && (dst <? src + n) then
    move_down m (dst + n) (src + n) (Z.to_nat n)
  else move_up m dst src (Z.to_nat n).

Definition memcpy (m : memory) (dst src n : Z) : memory := memmove m dst src n.

Fixpoint strncmp (m : memory) (p q : Z) (n : nat) : Z :=
  match n with
  | O => 0
  | S n' => if (negb (rd8 m p =? 0)) && (rd8 m p =? rd8 m q)
            then strncmp m (p + 1) (q + 1) n'
            else rd8 m p - rd8 m q
  end.

(** [while(n-- > 0) *s++ = 0;] is [stosb] with 0; the copying loop hands it the
    rest of the count when it meets the NUL. *)
Fixpoint strncpy (m : memory) (s t : Z) (n : nat) : memory :=
  match n with
  | O => m
  | S n' => let m' := wr8 m s (rd8 m t) in
            if rd8 m' s =? 0 then stosb m' (s + 1) 0 n' else strncpy m' (s + 1) (t + 1) n'
  end.

(** [while(--n > 0 && ( *s++ = *t++ ) != 0); *s = 0;] with [n] counting the
    bytes left for the copying loop. *)
Fixpoint safecpy (m : memory) (s t : Z) (n : nat) : memory :=
  match n with
  | O => wr8 m s 0
  | S n' => let m' := wr8 m s (rd8 m t) in
            if rd8 m' s =? 0 then wr8 m' (s + 1) 0 else safecpy m' (s + 1) (t + 1) n'
  end.

Definition safestrcpy (m : memory) (s t n : Z) : memory :=
  if n <=? 0 then m else safecpy m s t (Z.to_nat (n - 1)).

Fixpoint strlen_from (m : memory) (s n : Z) (fuel : nat) : option Z :=
  match fuel with
  | O => None
  | S fuel' => if rd8 m (s + n) =? 0 then Some n else strlen_from m s (n + 1) fuel'
  end.
Definition strlen (fuel : nat) (m : memory) (s : Z) : option Z := strlen_from m s 0 fuel.

#[local] Coercion Z.of_nat : nat >-> Z.

(** ** Block operations *)

Lemma rd8_stosb m a v n b :
  rd8 (stosb m a v n) b = if decide (a <= b < a + n) then u8 v else rd8 m b.
Proof.
  revert m a. induction n as [|n IH]; intros m a; cbn [stosb].
  - rewrite decide_False by lia. done.
  - rewrite IH, rd8_wr8. repeat case_decide; lia || done.
Qed.

Lemma rd8_stosl m a v c n b :
  u8 v = c -> u8 (v / 256) = c -> u8 (v / 65536) = c -> u8 (v / 16777216) = c ->
  rd8 (stosl m a v n) b = if decide (a <= b < a + 4 * n) then c else rd8 m b.
Proof.
  intros H0 H1 H2 H3. revert m a. induction n as [|n IH]; intros m a; cbn [stosl].
  - rewrite decide_False by lia. done.
  - rewrite IH, rd8_wr32, H0, H1, H2, H3. repeat case_decide; lia || done.
Qed.

Definition fill_word (c : Z) : Z :=
  Z.lor (Z.lor (Z.lor (Z.shiftl c 24) (Z.shiftl c 16)) (Z.shiftl c 8)) c.

Lemma fill_word_bytes c :
  0 <= c < 256 ->
  u8 (fill_word c) = c /\ u8 (fill_word c / 256) = c /\
  u8 (fill_word c / 65536) = c /\ u8 (fill_word c / 16777216) = c.
Proof.
  intros Hc.
  assert (forallb (fun n => let c := Z.of_nat n in
    (u8 (fill_word c) =? c) && (u8 (fill_word c / 256) =? c) &&
    (u8 (fill_word c / 65536) =? c) && (u8 (fill_word c / 16777216) =? c))
    (seq 0 256) = true) as H by (vm_compute; reflexivity).
  rewrite forallb_forall in H. specialize (H (Z.to_nat c)).
  rewrite in_seq, Z2Nat.id in H by lia. specialize (H ltac:(lia)).
  rewrite !andb_true_iff, !Z.eqb_eq in H. tauto.
Qed.

Lemma land_255 c : Z.land c 255 = u8 c.
Proof. apply (Z.land_ones c 8). lia. Qed.

Lemma rd8_memset m dst c n b :
  0 <= n ->
  rd8 (memset m dst c n) b = if decide (dst <= b < dst + n) then u8 c else rd8 m b.
Proof.
  intros Hn. unfold memset. destruct (_ && _) eqn:E.
  - apply andb_true_iff in E as [_ E%Z.eqb_eq]. rewrite land_255.
    destruct (fill_word_bytes (u8 c) (u8_range c)) as (H0 & H1 & H2 & H3).
    fold (fill_word (u8 c)). rewrite (rd8_stosl _ _ _ (u8 c)) by done.
    replace (4 * Z.of_nat (Z.to_nat (n / 4))) with n by (Z.div_mod_to_equations; lia).
    done.
  - rewrite rd8_stosb. by rewrite Z2Nat.id by lia.
Qed.

Lemma rd8_move_up m d s (n : nat) b :
  bytes_ok m -> ~ (s < d < s + n) ->
  rd8 (move_up m d s n) b = if decide (d <= b < d + n) then rd8 m (s + (b - d)) else rd8 m b.
Proof.
  revert m d s. induction n as [|n IH]; intros m d s Hm Ho; cbn [move_up].
  - rewrite decide_False by lia. done.
  - rewrite IH by (lia || by apply bytes_ok_wr8). rewrite !rd8_wr8, u8_small by apply Hm.
    repeat case_decide; try lia; f_equal; lia.
Qed.

Lemma rd8_move_down m d s (n : nat) b :
  bytes_ok m -> s < d ->
  rd8 (move_down m d s n) b = if decide (d - n <= b < d) then rd8 m (s - (d - b)) else rd8 m b.
Proof.
  revert m d s. induction n as [|n IH]; intros m d s Hm Ho; cbn [move_down].
  - rewrite decide_False by lia. done.
  - rewrite IH by (lia || by apply bytes_ok_wr8). rewrite !rd8_wr8, u8_small by apply Hm.
    repeat case_decide; try lia; f_equal; lia.
Qed.

Lemma rd8_memmove m dst src n b :
  bytes_ok m -> 0 <= n ->
  rd8 (memmove m dst src n) b =
    if decide (dst <= b < dst + n) then rd8 m (src + (b - dst)) else rd8 m b.
Proof.
  intros Hm Hn. unfold memmove. destruct (_ && _) eqn:E.
  - rewrite rd8_move_down by (done || lia). rewrite Z2Nat.id by lia.
    repeat case_decide; try lia; f_equal; lia.
  - rewrite rd8_move_up by (done || lia). rewrite Z2Nat.id by lia.
    repeat case_decide; try lia; f_equal; lia.
Qed.

Lemma bytes_ok_stosb m a v n : bytes_ok m -> bytes_ok (stosb m a v n).
Proof. intros H b. rewrite rd8_stosb. case_decide; [apply u8_range | apply H]. Qed.

Lemma bytes_ok_memset m dst c n : bytes_ok m -> 0 <= n -> bytes_ok (memset m dst c n).
Proof. intros H Hn b. rewrite rd8_memset by done. case_decide; [apply u8_range | apply H]. Qed.

Lemma bytes_ok_memmove m dst src n : bytes_ok m -> 0 <= n -> bytes_ok (memmove m dst src n).
Proof. intros H Hn b. rewrite rd8_memmove by done. case_decide; apply H. Qed.

#[export] Hint Resolve bytes_ok_stosb bytes_ok_memset bytes_ok_memmove : bytes.

(** ** Strings *)

(** [cstr m a l]: the bytes of [l], none of them NUL, are at [a] and a NUL follows. *)
Fixpoint cstr (m : memory) (a : Z) (l : list Z) : Prop :=
  match l with
  | [] => rd8 m a = 0
  | c :: l' => c <> 0 /\ rd8 m a = c /\ cstr m (a + 1) l'
  end.

Lemma strlen_from_cstr m a l n fuel :
  cstr m (a + n) l -> (length l < fuel)%nat ->
  strlen_from m a n fuel = Some (n + length l).
Proof.
  revert n fuel. induction l as [|c l IH]; intros n [|fuel] H Hf; simpl in *; try lia.
  - rewrite H. simpl. f_equal. lia.
  - destruct H as (Hc & Hr & H). rewrite Hr, (proj2 (Z.eqb_neq c 0)) by done.
    rewrite IH; [f_equal; lia| |lia]. by replace (a + (n + 1)) with (a + n + 1) by lia.
Qed.

Lemma strlen_cstr m a l fuel :
  cstr m a l -> (length l < fuel)%nat -> strlen fuel m a = Some (Z.of_nat (length l)).
Proof. intros H Hf. unfold strlen. rewrite (strlen_from_cstr m a l); auto. by rewrite Z.add_0_r. Qed.

(** The order [strncmp] computes on the strings themselves. *)
Fixpoint lexcmp (l1 l2 : list Z) (n : nat) {struct n} : Z :=
  match n with
  | O => 0
  | S n' => match l1, l2 with
            | [], [] => 0
            | [], d :: _ => - d
            | c :: _, [] => c
            | c :: l1', d :: l2' => if c =? d then lexcmp l1' l2' n' else c - d
            end
  end.

Lemma strncmp_lexcmp m p q l1 l2 n :
  cstr m p l1 -> cstr m q l2 -> strncmp m p q n = lexcmp l1 l2 n.
Proof.
  revert p q l1 l2. induction n as [|n IH]; intros p q l1 l2 H1 H2; [done|].
  destruct l1 as [|c l1], l2 as [|d l2]; cbn [cstr strncmp lexcmp] in *.
  - rewrite H1. simpl. lia.
  - destruct H2 as (Hd & Hr & _). rewrite H1, Hr. simpl. lia.
  - destruct H1 as (Hd & Hr & _). rewrite H2, Hr.
    rewrite (proj2 (Z.eqb_neq c 0)) by done. simpl. lia.
  - destruct H1 as (Hc & Hr & H1), H2 as (Hd & Hs & H2). rewrite Hr, Hs.
    rewrite (proj2 (Z.eqb_neq c 0)) by done. simpl. case_match; eauto.
Qed.

Lemma lexcmp_zero l1 l2 n :
  Forall (fun c => 0 < c) l1 -> Forall (fun c => 0 < c) l2 ->
  lexcmp l1 l2 n = 0 <-> take n l1 = take n l2.
Proof.
  revert l1 l2. induction n as [|n IH]; intros l1 l2 H1 H2; [done|].
  destruct H1 as [|c l1 Hc H1], H2 as [|d l2 Hd H2]; simpl; try done; try lia.
  - split; [lia|done].
  - split; [lia|done].
  - destruct (Z.eqb_spec c d) as [->|Hne].
    + rewrite IH by done. split; congruence.
    + split; [lia|]. congruence.
Qed.

Lemma cstr_ext m1 m2 a l :
  (forall b, a <= b <= a + length l -> rd8 m1 b = rd8 m2 b) -> cstr m1 a l -> cstr m2 a l.
Proof.
  revert a. induction l as [|c l IH]; intros a H; cbn [cstr length] in *.
  - by rewrite H by lia.
  - intros (Hc & Hr & Hl). rewrite <- (H a) by lia. split_and!; auto.
    apply IH; [|done]. intros b Hb. apply H. lia.
Qed.

(** The source string and the destination block do not overlap. *)
Definition apart (s : Z) (n : nat) (t : Z) (l : list Z) : Prop :=
  s + n <= t \/ t + length l + 1 <= s.

Lemma rd8_strncpy m s t l n b :
  bytes_ok m -> cstr m t l -> apart s n t l ->
  rd8 (strncpy m s t n) b =
    if decide (s <= b < s + n) then default 0 (l !! Z.to_nat (b - s)) else rd8 m b.
Proof.
  revert m s t l. induction n as [|n IH]; intros m s t l Hm H Ha; cbn [strncpy]; cbv zeta.
  - rewrite decide_False by lia. done.
  - rewrite rd8_wr8_eq, u8_small by apply Hm. unfold apart in *.
    destruct l as [|c l]; cbn [cstr length] in *.
    + rewrite H, Z.eqb_refl, rd8_stosb, rd8_wr8.
      repeat case_decide; try lia; rewrite ?lookup_nil; try done.
    + destruct H as (Hc & Hr & H). rewrite Hr, (proj2 (Z.eqb_neq c 0)) by done.
      rewrite (IH _ _ _ l); [|by apply bytes_ok_wr8| |lia].
      * repeat case_decide; try lia.
        -- by replace (Z.to_nat (b - s)) with (S (Z.to_nat (b - (s + 1)))) by lia.
        -- replace (b - s) with 0 by lia. replace b with s by lia.
           rewrite rd8_wr8_eq, u8_small by (rewrite <- Hr; apply Hm). done.
        -- by rewrite rd8_wr8_ne by lia.
      * eapply cstr_ext; [|done]. intros. rewrite rd8_wr8_ne by lia. done.
Qed.

Lemma safecpy_spec m s t l n :
  bytes_ok m -> cstr m t l -> apart s (S n) t l ->
  cstr (safecpy m s t n) s (take n l) /\
  (forall b, ~ (s <= b < s + S n) -> rd8 (safecpy m s t n) b = rd8 m b).
Proof.
  revert m s t l. induction n as [|n IH]; intros m s t l Hm H Ha; cbn [safecpy take]; cbv zeta.
  - split; [apply rd8_wr8_eq|]. intros b Hb. by rewrite rd8_wr8_ne by lia.
  - rewrite rd8_wr8_eq, u8_small by apply Hm. unfold apart in *.
    destruct l as [|c l]; cbn [cstr length take] in *.
    + rewrite H, Z.eqb_refl. split; [by rewrite rd8_wr8_ne, rd8_wr8_eq by lia|].
      intros b Hb. by rewrite !rd8_wr8_ne by lia.
    + destruct H as (Hc & Hr & H). rewrite Hr, (proj2 (Z.eqb_neq c 0)) by done.
      edestruct (IH (wr8 m s c) (s + 1) (t + 1) l) as [H1 H2]; [by apply bytes_ok_wr8| |lia|].
      { eapply cstr_ext; [|done]. intros. by rewrite rd8_wr8_ne by lia. }
      split_and!; auto.
      * rewrite H2 by lia. rewrite rd8_wr8_eq. apply u8_small. rewrite <- Hr. apply Hm.
      * intros b Hb. rewrite H2 by lia. by rewrite rd8_wr8_ne by lia.
Qed.

Lemma memcmp_zero m p q n :
  memcmp m p q n = 0 <-> forall i : nat, (i < n)%nat -> rd8 m (p + i) = rd8 m (q + i).
Proof.
  revert p q. induction n as [|n IH]; intros p q; cbn [memcmp]; [split; [lia|done]|].
  destruct (Z.eqb_spec (rd8 m p) (rd8 m q)) as [E|E].
  - rewrite IH. split; intros H i Hi.
    + destruct i as [|i]; [by rewrite !Z.add_0_r|].
      specialize (H i ltac:(lia)). by rewrite !Nat2Z.inj_succ, <- !Z.add_1_l, !Z.add_assoc.
    + specialize (H (S i) ltac:(lia)).
      by rewrite !Nat2Z.inj_succ, <- !Z.add_1_l, !Z.add_assoc in H.
  - split; [lia|]. intros H. specialize (H 0%nat ltac:(lia)).
    rewrite !Z.add_0_r in H. done.
Qed.

(** Store the bytes [l] from address [a] on. *)
Fixpoint store_bytes (m : memory) (a : Z) (l : list Z) : memory :=
  match l with [] => m | c :: l' => store_bytes (wr8 m a c) (a + 1) l' end.

Lemma bytes_ok_store m a l : bytes_ok m -> bytes_ok (store_bytes m a l).
Proof. revert m a. induction l; intros; simpl; auto using bytes_ok_wr8. Qed.

Lemma bytes_ok_empty : bytes_ok ∅.
Proof. intros a. unfold rd8. rewrite lookup_empty. simpl. lia. Qed.

(** The block operations move and fill whole ranges and nothing else:
    [memmove] (and [memcpy]) copies the [n] source bytes as they were before the
    call, overlapping or not, [memset] fills with the low byte of [c] on both its
    word and its byte path, and [memcmp] is 0 exactly when the ranges agree. *)
Theorem block_operations (m : memory) (dst src c n : Z) (Hm : bytes_ok m) (Hn : 0 <= n) :
  (forall b, rd8 (memmove m dst src n) b =
     if decide (dst <= b < dst + n) then rd8 m (src + (b - dst)) else rd8 m b) /\
  mem_eq (memcpy m dst src n) (memmove m dst src n) /\
  (forall b, rd8 (memset m dst c n) b =
     if decide (dst <= b < dst + n) then u8 c else rd8 m b) /\
  (memcmp (memmove m dst src n) dst src (Z.to_nat n) = 0 <->
     forall i : nat, (i < Z.to_nat n)%nat ->
       rd8 m (src + i) = rd8 (memmove m dst src n) (src + i)).
Proof.
  split_and!.
  - intros b. by apply rd8_memmove.
  - done.
  - intros b. by apply rd8_memset.
  - rewrite memcmp_zero. split; intros H i Hi; specialize (H i Hi);
      rewrite (rd8_memmove m dst src n (dst + i)) in * by done;
      rewrite decide_True in * by lia; by replace (dst + i - dst) with (Z.of_nat i) in * by lia.
Qed.

Lemma block_operations_witness :
  rd8 (memmove (store_bytes ∅ 100 [1; 2; 3; 4]) 102 100 4) 105 = 4.
Proof.
  destruct (block_operations (store_bytes ∅ 100 [1; 2; 3; 4]) 102 100 0 4
              (bytes_ok_store _ _ _ bytes_ok_empty) ltac:(lia)) as (H & _).
  rewrite H. reflexivity.
Defined.

(** The string functions compute on the strings they are given: for NUL
    terminated strings [l1], [l2] at [p], [q] and a destination apart from the
    source, [strlen] is the length, [strncmp] is 0 exactly when the first [n]
    bytes agree, [strncpy] writes the first [n] bytes padded with NULs, and
    [safestrcpy] leaves a NUL-terminated prefix of at most [n - 1] bytes without
    writing past the [n] bytes of its destination. *)
Theorem string_functions (m : memory) (p q s : Z) (l1 l2 : list Z) (n fuel : nat)
  (Hm : bytes_ok m) (H1 : cstr m p l1) (H2 : cstr m q l2)
  (Hs : apart s n p l1) (Hn : (0 < n)%nat) (Hf : (length l1 < fuel)%nat) :
  strlen fuel m p = Some (Z.of_nat (length l1)) /\
  (strncmp m p q n = 0 <-> take n l1 = take n l2) /\
  (forall b, rd8 (strncpy m s p n) b =
     if decide (s <= b < s + n) then default 0 (l1 !! Z.to_nat (b - s)) else rd8 m b) /\
  cstr (safestrcpy m s p n) s (take (n - 1) l1) /\
  (forall b, ~ (s <= b < s + n) -> rd8 (safestrcpy m s p n) b = rd8 m b).
Proof.
  assert (forall a l, cstr m a l -> Forall (fun c => 0 < c) l) as Hpos.
  { intros a l. revert a. induction l as [|c l IH]; intros a H; [constructor|].
    destruct H as (Hc & Hr & H). constructor; [|eauto]. pose proof (Hm a). lia. }
  assert (safestrcpy m s p n = safecpy m s p (n - 1)) as ->.
  { unfold safestrcpy. rewrite (proj2 (Z.leb_gt _ _)) by lia. f_equal. lia. }
  destruct (safecpy_spec m s p l1 (n - 1) Hm H1) as [H3 H4].
  { by replace (S (n - 1)) with n by lia. }
  split_and!; auto.
  - by apply strlen_cstr.
  - rewrite (strncmp_lexcmp _ _ _ _ _ _ H1 H2). apply lexcmp_zero; eauto.
  - intros b. by apply rd8_strncpy.
  - intros b Hb. apply H4. lia.
Qed.

Lemma string_functions_witness :
  let m := store_bytes (store_bytes ∅ 100 [104; 105; 0]) 200 [104; 111; 0] in
  strlen 9 m 100 = Some 2 /\ strncmp m 100 200 1 = 0.
Proof.
  intros m.
  assert (bytes_ok m) as Hm by (repeat apply bytes_ok_store; apply bytes_ok_empty).
  assert (cstr m 100 [104; 105]) as H1 by (repeat split; done).
  assert (cstr m 200 [104; 111]) as H2 by (repeat split; done).
  destruct (string_functions m 100 200 300 _ _ 1 9 Hm H1 H2) as (A & B & _);
    [right; simpl; lia | lia | simpl; lia |].
  split; [exact A | apply B; reflexivity].
Defined.
