(* ===== verification/Spinlock.v ===== *)
(** * Spinlock: p6/spinlock.c and the per-CPU part of p6/proc.c

    [hw] is the view one CPU has of the machine: its interrupt flag, its local
    APIC id and the shared [cpus] array. [pushcli]/[popcli], [holding],
    [acquire] and [release] are the C functions, run by that CPU; the busy-wait
    of [acquire] on a lock that another CPU holds is the outcome [Hang].
    Module [Smp] takes the same code apart into its atomic steps and runs any
    number of CPUs against one lock. The debugging fields [name] and [pcs] of
    the lock are not modelled. *)

From S2P Require Import Prelude.

Record cpu := Cpu {
  apicid : Z;
  ncli : Z;
  intena : bool;
  c_proc : option nat
}.

Record hw := Hw {
  eflags_IF : bool;
  lapic_id : Z;
  cpus : list cpu
}.

Record spinlock := Spinlock {
  locked : bool;
  lk_cpu : option nat
}.

Definition set_IF (b : bool) (h : hw) : hw := Hw b (lapic_id h) (cpus h).
Definition set_cpus (cs : list cpu) (h : hw) : hw := Hw (eflags_IF h) (lapic_id h) cs.
Definition set_ncli (n : Z) (c : cpu) : cpu := Cpu (apicid c) n (intena c) (c_proc c).
Definition set_intena (b : bool) (c : cpu) : cpu := Cpu (apicid c) (ncli c) b (c_proc c).

Definition initlock : spinlock := Spinlock false None.

(** The search of [mycpu] through [cpus]. *)
Fixpoint find_apic (id : Z) (cs : list cpu) (i : nat) : option nat :=
  match cs with
  | [] => None
  | c :: cs' => if apicid c =? id then Some i else find_apic id cs' (S i)
  end.

Definition mycpu : M hw nat := fun h =>
  if eflags_IF h then Panic "mycpu called with interrupts enabled" else
  match find_apic (lapic_id h) (cpus h) 0 with
  | Some i => Ok i h
  | None => Panic "unknown apicid"
  end.

Definition cpu_at (i : nat) : M hw cpu := fun h =>
  match cpus h !! i with Some c => Ok c h | None => Undef end.
Definition upd_cpu (i : nat) (f : cpu -> cpu) : M hw unit :=
  modify (fun h => set_cpus (alter f i (cpus h)) h).

Definition pushcli : M hw unit :=
  eflags ← gets eflags_IF;
  modify (set_IF false);;
  i ← mycpu;
  c ← cpu_at i;
  when (ncli c =? 0) (upd_cpu i (set_intena eflags));;
  j ← mycpu;
  upd_cpu j (fun c => set_ncli (ncli c + 1) c).

Definition popcli : M hw unit :=
  eflags ← gets eflags_IF;
  if (eflags : bool) then panic "popcli - interruptible" else
  i ← mycpu;
  upd_cpu i (fun c => set_ncli (ncli c - 1) c);;
  c ← cpu_at i;
  if ncli c <? 0 then panic "popcli" else
  when ((ncli c =? 0) && intena c) (modify (set_IF true)).

Definition holding (lk : spinlock) : M hw bool :=
  pushcli;;
  i ← mycpu;
  let r := locked lk && bool_decide (lk_cpu lk = Some i) in
  popcli;;
  mret r.

Definition acquire (lk : spinlock) : M hw spinlock :=
  pushcli;;
  r ← holding lk;
  if (r : bool) then panic "acquire" else
  if locked lk then hang else
  i ← mycpu;
  mret (Spinlock true (Some i)).

Definition release (lk : spinlock) : M hw spinlock :=
  r ← holding lk;
  if negb r then panic "release" else
  popcli;;
  mret (Spinlock false None).

(** [myproc] reads the process of this CPU with interrupts off. *)
Definition myproc : M hw (option nat) :=
  pushcli;;
  i ← mycpu;
  c ← cpu_at i;
  popcli;;
  mret (c_proc c).

(** ** The view of a CPU is consistent *)

(** [on_cpu h me c]: the code runs on CPU [me], whose entry is [c]. *)
Record on_cpu (h : hw) (me : nat) (c : cpu) : Prop := OnCpu {
  oc_find : find_apic (lapic_id h) (cpus h) 0 = Some me;
  oc_cpu : cpus h !! me = Some c;
  oc_ncli : 0 <= ncli c;
  oc_off : 0 < ncli c -> eflags_IF h = false
}.

(** The state after [pushcli] on CPU [me]. *)
Definition pushed (h : hw) (me : nat) (c : cpu) : hw :=
  Hw false (lapic_id h)
     (<[me := Cpu (apicid c) (ncli c + 1)
                (if ncli c =? 0 then eflags_IF h else intena c) (c_proc c)]> (cpus h)).

Lemma find_apic_insert id cs i me c c' :
  cs !! me = Some c -> apicid c' = apicid c ->
  find_apic id (<[me := c']> cs) i = find_apic id cs i.
Proof.
  revert i me. induction cs as [|d cs IH]; intros i [|me] H Ha; simplify_eq/=; auto.
  - by rewrite Ha.
  - case_match; auto.
Qed.

Lemma mycpu_ok h me c : on_cpu h me c -> eflags_IF h = false -> mycpu h = Ok me h.
Proof. intros H E. unfold mycpu. by rewrite E, (oc_find _ _ _ H). Qed.


Lemma alter_insert_Some {A} (l : list A) (i : nat) (f : A -> A) x :
  l !! i = Some x -> alter f i l = <[i := f x]> l.
Proof.
  revert i. induction l as [|y l IH]; intros [|i] H; simplify_eq/=; auto.
  f_equal. by apply IH.
Qed.

Lemma cpu_at_ok h i c : cpus h !! i = Some c -> cpu_at i h = Ok c h.
Proof. intros H. unfold cpu_at. by rewrite H. Qed.

Lemma upd_cpu_ok h i f c :
  cpus h !! i = Some c ->
  upd_cpu i f h = Ok tt (set_cpus (<[i := f c]> (cpus h)) h).
Proof. intros H. unfold upd_cpu, modify. by erewrite alter_insert_Some. Qed.

Lemma on_cpu_set h me c c' b :
  on_cpu h me c -> apicid c' = apicid c -> 0 <= ncli c' -> (0 < ncli c' -> b = false) ->
  on_cpu (Hw b (lapic_id h) (<[me := c']> (cpus h))) me c'.
Proof.
  intros [Hf Hc Hn Ho] Ha Hn' Hb. split; cbn [lapic_id cpus eflags_IF]; auto.
  - by erewrite find_apic_insert.
  - apply list_lookup_insert_eq. by eapply lookup_lt_Some.
Qed.

Lemma on_cpu_IF_off h me c :
  on_cpu h me c -> on_cpu (set_IF false h) me c.
Proof. intros []. by split. Qed.

Lemma pushcli_ok h me c : on_cpu h me c -> pushcli h = Ok tt (pushed h me c).
Proof.
  intros H. pose proof (oc_cpu _ _ _ H) as Hc.
  pose proof (on_cpu_IF_off _ _ _ H) as H0.
  unfold pushcli. mgo. mstep mycpu_ok; [|done|done]. mstep cpu_at_ok; [|done].
  unfold pushed. destruct (ncli c =? 0) eqn:E.
  - mstep upd_cpu_ok; [|done].
    eassert (on_cpu (set_cpus _ (set_IF false h)) me (set_intena (eflags_IF h) c)) as H1.
    { apply (on_cpu_set (set_IF false h) me c); simpl; auto; apply H. }
    mstep mycpu_ok; [|done|done]. erewrite upd_cpu_ok by apply (oc_cpu _ _ _ H1).
    unfold set_cpus; simpl. by rewrite list_insert_insert_eq.
  - mgo. mstep mycpu_ok; [|done|done]. by erewrite upd_cpu_ok.
Qed.

(** The state after [popcli]: interrupts come back on when the outermost
    [pushcli] had found them on. *)
Definition popped (h : hw) (me : nat) (c : cpu) : hw :=
  Hw ((ncli c =? 1) && intena c) (lapic_id h)
     (<[me := set_ncli (ncli c - 1) c]> (cpus h)).

Lemma popcli_ok h me c :
  on_cpu h me c -> 0 < ncli c -> popcli h = Ok tt (popped h me c).
Proof.
  intros H Hn. pose proof (oc_off _ _ _ H Hn) as HIF.
  unfold popcli. mgo. rewrite HIF. mstep mycpu_ok; [|done|done].
  mstep upd_cpu_ok; [|apply (oc_cpu _ _ _ H)].
  assert (on_cpu (set_cpus (<[me := set_ncli (ncli c - 1) c]> (cpus h)) h) me
            (set_ncli (ncli c - 1) c)) as H1.
  { apply (on_cpu_set h me c); simpl; auto; lia. }
  mstep cpu_at_ok; [|apply (oc_cpu _ _ _ H1)].
  cbn [ncli set_ncli intena]. rewrite (proj2 (Z.ltb_ge _ _)) by lia.
  replace (ncli c - 1 =? 0) with (ncli c =? 1) by lia.
  unfold popped, when. destruct (_ && _).
  - done.
  - rewrite ret_Ok. unfold set_cpus. by rewrite HIF.
Qed.

Lemma popcli_unmatched h me c :
  on_cpu h me c -> eflags_IF h = false -> ncli c = 0 -> popcli h = Panic "popcli".
Proof.
  intros H HIF Hn. unfold popcli. mgo. rewrite HIF. mstep mycpu_ok; [|done|done].
  mstep upd_cpu_ok; [|apply (oc_cpu _ _ _ H)].
  mstep cpu_at_ok; [|apply list_lookup_insert_eq; eapply lookup_lt_Some, H].
  cbn [ncli set_ncli]. by rewrite (proj2 (Z.ltb_lt _ _)) by lia.
Qed.

(** A matched [pushcli]/[popcli] pair only refreshes [intena]. *)
Definition touched_cpu (h : hw) (c : cpu) : cpu :=
  if ncli c =? 0 then set_intena (eflags_IF h) c else c.
Definition touched (h : hw) (me : nat) (c : cpu) : hw :=
  set_cpus (<[me := touched_cpu h c]> (cpus h)) h.

Definition pushed_cpu (h : hw) (c : cpu) : cpu :=
  Cpu (apicid c) (ncli c + 1) (if ncli c =? 0 then eflags_IF h else intena c) (c_proc c).

Lemma pushed_on_cpu h me c : on_cpu h me c -> on_cpu (pushed h me c) me (pushed_cpu h c).
Proof. intros H. pose proof (oc_ncli _ _ _ H). apply (on_cpu_set h me c); simpl; auto; lia. Qed.

Lemma touched_on_cpu h me c : on_cpu h me c -> on_cpu (touched h me c) me (touched_cpu h c).
Proof.
  intros H. unfold touched, touched_cpu.
  apply (on_cpu_set h me c); auto; destruct (ncli c =? 0); simpl; auto; apply H.
Qed.

Lemma popped_pushed h me c :
  on_cpu h me c -> popped (pushed h me c) me (pushed_cpu h c) = touched h me c.
Proof.
  intros H. pose proof (oc_ncli _ _ _ H). pose proof (oc_off _ _ _ H).
  unfold popped, pushed, pushed_cpu, touched, touched_cpu, set_ncli, set_intena, set_cpus.
  simpl. rewrite list_insert_insert_eq.
  replace (ncli c + 1 - 1) with (ncli c) by lia.
  replace (ncli c + 1 =? 1) with (ncli c =? 0) by lia.
  destruct (ncli c =? 0) eqn:E; simpl.
  - done.
  - f_equal; [symmetry; auto with lia|]. by destruct c.
Qed.

Lemma touched_id h me c : on_cpu h me c -> 0 < ncli c -> touched h me c = h.
Proof.
  intros H Hn. unfold touched, touched_cpu. rewrite (proj2 (Z.eqb_neq _ _)) by lia.
  rewrite list_insert_id by apply H. by destruct h.
Qed.

Definition holds (lk : spinlock) (me : nat) : bool :=
  locked lk && bool_decide (lk_cpu lk = Some me).

Lemma holding_ok h me c lk :
  on_cpu h me c -> holding lk h = Ok (holds lk me) (touched h me c).
Proof.
  intros H. pose proof (oc_ncli _ _ _ H). pose proof (pushed_on_cpu _ _ _ H) as H1.
  unfold holding. mstep pushcli_ok; [|done]. mstep mycpu_ok; [|done|done]. cbv zeta.
  mstep popcli_ok; [|done|simpl; lia]. by rewrite popped_pushed.
Qed.

Lemma acquire_ok h me c lk :
  on_cpu h me c -> locked lk = false ->
  acquire lk h = Ok (Spinlock true (Some me)) (pushed h me c).
Proof.
  intros H Hl. pose proof (oc_ncli _ _ _ H). pose proof (pushed_on_cpu _ _ _ H) as H1.
  unfold acquire. mstep pushcli_ok; [|done]. mstep holding_ok; [|done].
  rewrite touched_id by (auto; simpl; lia).
  unfold holds. rewrite Hl. simpl. by mstep mycpu_ok.
Qed.

Lemma acquire_twice h me c lk :
  on_cpu h me c -> holds lk me = true -> acquire lk h = Panic "acquire".
Proof.
  intros H Hl. pose proof (pushed_on_cpu _ _ _ H) as H1.
  unfold acquire. mstep pushcli_ok; [|done]. mstep holding_ok; [|done]. by rewrite Hl.
Qed.

Lemma acquire_spins h me c lk :
  on_cpu h me c -> locked lk = true -> lk_cpu lk <> Some me -> acquire lk h = Hang.
Proof.
  intros H Hl Hc. pose proof (pushed_on_cpu _ _ _ H) as H1.
  unfold acquire. mstep pushcli_ok; [|done]. mstep holding_ok; [|done].
  unfold holds. rewrite Hl, bool_decide_false by done. done.
Qed.

Lemma release_ok h me c lk :
  on_cpu h me c -> 0 < ncli c -> holds lk me = true ->
  release lk h = Ok initlock (popped h me c).
Proof.
  intros H Hn Hl. unfold release. mstep holding_ok; [|done].
  rewrite touched_id by done. rewrite Hl. simpl. by mstep popcli_ok.
Qed.

Lemma release_unheld h me c lk :
  on_cpu h me c -> holds lk me = false -> release lk h = Panic "release".
Proof. intros H Hl. unfold release. mstep holding_ok; [|done]. by rewrite Hl. Qed.

Lemma myproc_ok h me c : on_cpu h me c -> myproc h = Ok (c_proc c) (touched h me c).
Proof.
  intros H. pose proof (oc_ncli _ _ _ H). pose proof (pushed_on_cpu _ _ _ H) as H1.
  unfold myproc. mstep pushcli_ok; [|done]. mstep mycpu_ok; [|done|done].
  mstep cpu_at_ok; [|apply H1]. mstep popcli_ok; [|done|simpl; lia].
  by rewrite popped_pushed.
Qed.

(** ** Locks inside a larger state

    [settle me h] is [h] after one matched [pushcli]/[popcli] pair; further
    pairs leave it unchanged. *)
Definition settle (me : nat) (h : hw) : hw :=
  match cpus h !! me with Some c => touched h me c | None => h end.

Lemma settle_touched h me c : on_cpu h me c -> settle me h = touched h me c.
Proof. intros H. unfold settle. by rewrite (oc_cpu _ _ _ H). Qed.

Lemma settle_idem h me : settle me (settle me h) = settle me h.
Proof.
  unfold settle. destruct (cpus h !! me) as [c|] eqn:E; [|by rewrite E].
  assert ((me < length (cpus h))%nat) by (by eapply lookup_lt_Some).
  unfold touched, set_cpus. cbn [cpus eflags_IF lapic_id].
  rewrite list_lookup_insert_eq by done. cbn [cpus eflags_IF lapic_id].
  rewrite list_insert_insert_eq. do 2 f_equal.
  unfold touched_cpu. destruct (ncli c =? 0) eqn:E'; cbn [ncli set_intena]; by rewrite E'.
Qed.

Definition runs_on (h : hw) (me : nat) : Prop := exists c, on_cpu h me c.

Lemma settle_runs_on h me : runs_on h me -> runs_on (settle me h) me.
Proof. intros [c H]. rewrite (settle_touched _ _ _ H). eexists. by apply touched_on_cpu. Qed.

Section locks.
  Context {S : Type} (get_hw : S -> hw) (put_hw : hw -> S -> S).
  Context (get_lk : S -> spinlock) (put_lk : spinlock -> S -> S).

Definition acquire_in : M S unit :=
  lk ← gets get_lk; lk' ← zoom get_hw put_hw (acquire lk); modify (put_lk lk').
Definition release_in : M S unit :=
  lk ← gets get_lk; lk' ← zoom get_hw put_hw (release lk); modify (put_lk lk').

Lemma acquire_in_ok s me c :
  on_cpu (get_hw s) me c -> locked (get_lk s) = false ->
  acquire_in s =
    Ok tt (put_lk (Spinlock true (Some me)) (put_hw (pushed (get_hw s) me c) s)).
Proof.
  intros H Hl. unfold acquire_in. mgo.
  erewrite bind_Ok by (apply zoom_Ok, acquire_ok; eauto). done.
Qed.

Lemma acquire_in_twice s me c :
  on_cpu (get_hw s) me c -> holds (get_lk s) me = true -> acquire_in s = Panic "acquire".
Proof.
  intros H Hl. unfold acquire_in. mgo. apply bind_Panic. unfold zoom.
  by erewrite acquire_twice.
Qed.

Lemma release_in_ok s me c :
  on_cpu (get_hw s) me c -> 0 < ncli c -> holds (get_lk s) me = true ->
  release_in s = Ok tt (put_lk initlock (put_hw (popped (get_hw s) me c) s)).
Proof.
  intros H Hn Hl. unfold release_in. mgo.
  erewrite bind_Ok by (apply zoom_Ok, release_ok; eauto). done.
Qed.

Lemma release_in_unheld s me c :
  on_cpu (get_hw s) me c -> holds (get_lk s) me = false -> release_in s = Panic "release".
Proof.
  intros H Hl. unfold release_in. mgo. apply bind_Panic. unfold zoom.
  by erewrite release_unheld.
Qed.
End locks.

Lemma holds_self me : holds (Spinlock true (Some me)) me = true.
Proof. unfold holds. simpl. by rewrite bool_decide_true. Qed.

(** A critical section restores the CPU: on a free lock [acquire] takes it with
    interrupts off and one more level of [pushcli], a second [acquire] on the same
    CPU panics, an [acquire] on a lock another CPU holds spins, and the matching
    [release] frees the lock and brings back the interrupt flag and the nesting
    depth the caller had; [release] of a lock this CPU does not hold panics. *)
Theorem critical_section (h : hw) (me : nat) (c : cpu) (H : on_cpu h me c) :
  (exists h' c', acquire initlock h = Ok (Spinlock true (Some me)) h' /\
     on_cpu h' me c' /\ eflags_IF h' = false /\ ncli c' = ncli c + 1 /\
     acquire (Spinlock true (Some me)) h' = Panic "acquire" /\
     exists h'' c'', release (Spinlock true (Some me)) h' = Ok initlock h'' /\
       on_cpu h'' me c'' /\ eflags_IF h'' = eflags_IF h /\ ncli c'' = ncli c) /\
  (forall other, other <> me -> acquire (Spinlock true (Some other)) h = Hang) /\
  (forall lk, holds lk me = false -> release lk h = Panic "release").
Proof.
  pose proof (pushed_on_cpu _ _ _ H) as H1. pose proof (touched_on_cpu _ _ _ H) as H2.
  pose proof (oc_ncli _ _ _ H). split_and!.
  - exists (pushed h me c), (pushed_cpu h c). split_and!; auto.
    + by apply acquire_ok.
    + apply (acquire_twice _ _ _ _ H1), holds_self.
    + exists (touched h me c), (touched_cpu h c). split_and!; auto.
      * rewrite <- popped_pushed by done. apply (release_ok _ _ _ _ H1); [simpl; lia|].
        apply holds_self.
      * unfold touched_cpu. by destruct (ncli c =? 0).
  - intros other Hne. apply (acquire_spins _ _ _ _ H); [done|]. simpl. congruence.
  - intros lk. by apply (release_unheld _ _ _ _ H).
Qed.

(** A machine with two CPUs, seen from the second one. *)
Definition hw2 : hw := Hw true 7 [Cpu 3 0 false None; Cpu 7 0 false None].

Lemma hw2_on_cpu : on_cpu hw2 1 (Cpu 7 0 false None).
Proof. split; simpl; done || lia. Qed.

Lemma critical_section_witness :
  acquire (Spinlock true (Some 0%nat)) hw2 = Hang /\
  exists h' c', acquire initlock hw2 = Ok (Spinlock true (Some 1%nat)) h' /\ ncli c' = 1.
Proof.
  destruct (critical_section hw2 1 _ hw2_on_cpu) as ((h' & c' & A & _ & _ & N & _) & B & _).
  split; [apply B; lia | exists h', c'; split; [exact A | exact N]].
Defined.

(** ** Any number of CPUs against one lock

    One step is one access to the shared lock record by one CPU, in the order
    [acquire] and [release] make them; a CPU that is [Idle] may call [acquire],
    one that is [Held] may call [release]. *)
Module Smp.

Inductive lpc :=
  | Idle
  | AcqRead       (* pushcli done; holding(): about to read lk->locked *)
  | AcqCmp        (* holding(): about to compare lk->cpu *)
  | AcqXchg       (* while(xchg(&lk->locked, 1) != 0) *)
  | AcqRecord     (* about to set lk->cpu *)
  | Held
  | RelRead       (* release(): holding() read lk->locked *)
  | RelCmp
  | RelClear      (* about to clear lk->cpu *)
  | RelStore      (* about to store 0 to lk->locked *)
  | RelPop        (* about to popcli *)
  | Panicked (msg : string).

#[export] Instance lpc_eq_dec : EqDecision lpc.
Proof. solve_decision. Defined.

Record smp := MkSmp { pcs : list lpc; s_lk : spinlock }.

Definition cpu_step (i : nat) (pc : lpc) (lk : spinlock) : lpc * spinlock :=
  match pc with
  | Idle => (AcqRead, lk)
  | AcqRead => (if locked lk then AcqCmp else AcqXchg, lk)
  | AcqCmp => (if bool_decide (lk_cpu lk = Some i) then Panicked "acquire" else AcqXchg, lk)
  | AcqXchg => (if locked lk then AcqXchg else AcqRecord, Spinlock true (lk_cpu lk))
  | AcqRecord => (Held, Spinlock (locked lk) (Some i))
  | Held => (RelRead, lk)
  | RelRead => (if locked lk then RelCmp else Panicked "release", lk)
  | RelCmp => (if bool_decide (lk_cpu lk = Some i) then RelClear else Panicked "release", lk)
  | RelClear => (RelStore, Spinlock (locked lk) None)
  | RelStore => (RelPop, Spinlock false (lk_cpu lk))
  | RelPop => (Idle, lk)
  | Panicked msg => (Panicked msg, lk)
  end.

Definition smp_step (i : nat) (s : smp) : smp :=
  match pcs s !! i with
  | None => s
  | Some pc => let '(pc', lk') := cpu_step i pc (s_lk s) in
               MkSmp (<[i := pc']> (pcs s)) lk'
  end.

Definition init (n : nat) : smp := MkSmp (replicate n Idle) initlock.

(** Any schedule: the list of the CPUs in the order they step. *)
Definition run (sched : list nat) (s : smp) : smp := foldl (fun s i => smp_step i s) s sched.

Definition owns (pc : lpc) : bool :=
  match pc with
  | AcqRecord | Held | RelRead | RelCmp | RelClear | RelStore => true
  | _ => false
  end.
Definition recorded (pc : lpc) : bool :=
  match pc with Held | RelRead | RelCmp | RelClear => true | _ => false end.
Definition panicked (pc : lpc) : bool :=
  match pc with Panicked _ => true | _ => false end.

(** The invariant names the CPU [o] that owns the lock, if any: a CPU is inside
    its critical section exactly when it is [o], and [lk->cpu] records it
    between [AcqRecord] and [RelClear]. *)
Definition cpu_ok (o c : option nat) (i : nat) (pc : lpc) : Prop :=
  owns pc = bool_decide (o = Some i) /\
  recorded pc = bool_decide (c = Some i) /\
  panicked pc = false.

Record inv (o : option nat) (s : smp) : Prop := Inv {
  inv_locked : locked (s_lk s) = bool_decide (is_Some o);
  inv_cpus : forall i pc, pcs s !! i = Some pc -> cpu_ok o (lk_cpu (s_lk s)) i pc;
  inv_range : forall i, o = Some i -> (i < length (pcs s))%nat
}.

Definition next_owner (i : nat) (pc : lpc) (o : option nat) : option nat :=
  match pc with
  | AcqXchg => match o with None => Some i | Some _ => o end
  | RelStore => None
  | _ => o
  end.

Lemma inv_init n : inv None (init n).
Proof. split; [done| |done]. by intros i pc [-> _]%lookup_replicate. Qed.

Ltac decide_bools :=
  repeat match goal with
  | H : context [bool_decide ?P] |- _ => destruct (bool_decide_reflect P)
  | |- context [bool_decide ?P] => destruct (bool_decide_reflect P)
  end; simplify_eq/=; try done.

Lemma step_self o l c i pc :
  cpu_ok o c i pc -> l = bool_decide (is_Some o) ->
  let '(pc', lk') := cpu_step i pc (Spinlock l c) in
  cpu_ok (next_owner i pc o) (lk_cpu lk') i pc' /\
  locked lk' = bool_decide (is_Some (next_owner i pc o)).
Proof.
  intros (O & R & P) ->. unfold cpu_ok.
  destruct pc, o as [k|]; simpl in *; try done; decide_bools.
Qed.

Lemma step_other o l c i pc j q :
  cpu_ok o c i pc -> l = bool_decide (is_Some o) -> i <> j ->
  cpu_ok o c j q ->
  cpu_ok (next_owner i pc o) (lk_cpu (snd (cpu_step i pc (Spinlock l c)))) j q.
Proof.
  intros (O & R & P) -> Hne (O' & R' & P'). unfold cpu_ok. rewrite O', R', P'.
  destruct pc, o; simpl in *; try done; split_and!; try done; decide_bools.
  by destruct q.
Qed.

Lemma inv_step o s i : inv o s -> exists o', inv o' (smp_step i s).
Proof.
  intros [HL HC HR]. unfold smp_step.
  destruct (pcs s !! i) as [pc|] eqn:E; [|by exists o].
  pose proof (HC i pc E) as Hi. exists (next_owner i pc o).
  destruct (s_lk s) as [l c] eqn:EL. simpl in *.
  pose proof (step_self _ _ _ _ _ Hi HL) as Hs.
  pose proof (fun j q => step_other _ _ _ _ _ j q Hi HL) as Ho.
  destruct (cpu_step i pc (Spinlock l c)) as [pc' lk']. destruct Hs as [H1 H2].
  split; [done| |]; simpl.
  - intros j q Hj. apply list_lookup_insert_Some in Hj as [(<- & <- & _)|[Hne Hj]]; [done|].
    apply Ho; [done|]. by apply HC.
  - intros j Hj. rewrite length_insert. apply lookup_lt_Some in E.
    destruct pc, o; simplify_eq/=; auto.
Qed.

Lemma inv_run sched o s : inv o s -> exists o', inv o' (run sched s).
Proof.
  revert o s. induction sched as [|i sched IH]; intros o s H; [by exists o|].
  destruct (inv_step o s i H) as [o' H']. by apply (IH o').
Qed.

(** C34. Mutual exclusion of [acquire]/[release]: whatever the number of CPUs and
    the order in which they step, at most one of them is between the winning
    [xchg] and the store that frees the lock, the lock word is set while it is
    there, no CPU ever panics in [acquire] or [release], and a spinning CPU wins
    at its next [xchg] once no CPU is in its critical section. *)
Theorem mutual_exclusion (n : nat) (sched : list nat) :
  let s := run sched (init n) in
  (forall i j p q, pcs s !! i = Some p -> pcs s !! j = Some q ->
     owns p = true -> owns q = true -> i = j) /\
  (forall i p, pcs s !! i = Some p -> owns p = true -> locked (s_lk s) = true) /\
  (forall i p, pcs s !! i = Some p -> panicked p = false) /\
  (forall i, pcs s !! i = Some AcqXchg -> forallb (fun q => negb (owns q)) (pcs s) = true ->
     pcs (smp_step i s) !! i = Some AcqRecord).
Proof.
  destruct (inv_run sched _ _ (inv_init n)) as [o [HL HC HR]]. simpl.
  set (s := run sched (init n)) in *. split_and!.
  - intros i j p q Hi Hj Oi Oj. destruct (HC i p Hi) as (O & _), (HC j q Hj) as (O' & _).
    rewrite Oi in O. rewrite Oj in O'. by decide_bools.
  - intros i p Hi Oi. destruct (HC i p Hi) as (O & _). rewrite Oi in O. rewrite HL.
    decide_bools. by destruct n0; eexists.
  - intros i p Hi. apply (HC i p Hi).
  - intros i Hi Hall. rewrite forallb_forall in Hall.
    assert (locked (s_lk s) = false) as Hl.
    { rewrite HL. apply bool_decide_eq_false. intros [k Hk].
      destruct (lookup_lt_is_Some_2 (pcs s) k (HR k Hk)) as [q Hq].
      destruct (HC k q Hq) as (O & _). rewrite Hk, bool_decide_true in O by done.
      assert (In q (pcs s)) as Hin by (eapply list_elem_of_In, list_elem_of_lookup_2, Hq).
      apply Hall in Hin. by rewrite O in Hin. }
    unfold smp_step. rewrite Hi. simpl. rewrite Hl. simpl.
    apply list_lookup_insert_eq. by eapply lookup_lt_Some.
Qed.

End Smp.
