(* ===== verification/Kalloc.v ===== *)
(** * The physical page allocator: p6/kalloc.c

    The free list is threaded through the free pages: [r->next] is the first
    word of the page. Kernel pointers are virtual addresses; the kernel part of
    every page table maps [KERNBASE, KERNBASE + PHYSTOP) to physical memory, so
    an access at [v] is an access to physical [V2P v]. *)

From S2P Require Import Prelude Cstring Spinlock.

Definition PGSIZE : Z := 4096.
Definition KERNBASE : Z := 0x80000000.
Definition PHYSTOP : Z := 0xE000000.
Definition PGROUNDUP (sz : Z) : Z := Z.land (u32 (sz + PGSIZE - 1)) (Z.lnot (PGSIZE - 1)).
Definition PGROUNDDOWN (a : Z) : Z := Z.land a (Z.lnot (PGSIZE - 1)).
Definition V2P (a : Z) : Z := u32 (a - KERNBASE).
Definition P2V (a : Z) : Z := u32 (a + KERNBASE).

Record kst := KSt {
  k_mem : memory;
  k_hw : hw;
  k_lock : spinlock;       (* kmem.lock *)
  k_use_lock : bool;       (* kmem.use_lock *)
  k_freelist : Z;          (* kmem.freelist *)
  k_end : Z                (* end[]: first address after the kernel *)
}.

Definition set_mem (m : memory) (s : kst) : kst :=
  KSt m (k_hw s) (k_lock s) (k_use_lock s) (k_freelist s) (k_end s).
Definition set_hw (h : hw) (s : kst) : kst :=
  KSt (k_mem s) h (k_lock s) (k_use_lock s) (k_freelist s) (k_end s).
Definition set_lock (l : spinlock) (s : kst) : kst :=
  KSt (k_mem s) (k_hw s) l (k_use_lock s) (k_freelist s) (k_end s).
Definition set_use_lock (b : bool) (s : kst) : kst :=
  KSt (k_mem s) (k_hw s) (k_lock s) b (k_freelist s) (k_end s).
Definition set_freelist (f : Z) (s : kst) : kst :=
  KSt (k_mem s) (k_hw s) (k_lock s) (k_use_lock s) f (k_end s).

Definition acquire_kmem : M kst unit := acquire_in k_hw set_hw k_lock set_lock.
Definition release_kmem : M kst unit := release_in k_hw set_hw k_lock set_lock.

(** Word access through a kernel pointer. *)
Definition kptr (p : Z) : bool := (KERNBASE <=? p) && (p + 4 <=? KERNBASE + PHYSTOP).
Definition kload (p : Z) : M kst Z := fun s =>
  if kptr p then Ok (rd32 (k_mem s) (V2P p)) s else Undef.
Definition kstore (p v : Z) : M kst unit := fun s =>
  if kptr p then Ok tt (set_mem (wr32 (k_mem s) (V2P p) v) s) else Undef.
Definition kmemset (p c n : Z) : M kst unit := fun s =>
  if (KERNBASE <=? p) && (p + n <=? KERNBASE + PHYSTOP)
  then Ok tt (set_mem (memset (k_mem s) (V2P p) c n) s) else Undef.

(** [if(kmem.use_lock) acquire(&kmem.lock); ... if(kmem.use_lock) release(&kmem.lock);] *)
Definition with_kmem_lock {A} (body : M kst A) : M kst A :=
  ul ← gets k_use_lock;
  when ul acquire_kmem;;
  x ← body;
  ul' ← gets k_use_lock;
  when ul' release_kmem;;
  mret x.

Definition kfree (v : Z) : M kst unit :=
  e ← gets k_end;
  if negb (v `mod` PGSIZE =? 0) || (v <? e) || (PHYSTOP <=? V2P v) then panic "kfree" else
  kmemset v 1 PGSIZE;;
  with_kmem_lock
    (fl ← gets k_freelist;
     kstore v fl;;
     modify (set_freelist v)).

Definition kalloc : M kst Z :=
  with_kmem_lock
    (r ← gets k_freelist;
     when (negb (r =? 0)) (n ← kload r; modify (set_freelist n));;
     mret r).

Fixpoint freerange_loop (fuel : nat) (p vend : Z) : M kst unit :=
  match fuel with
  | O => hang
  | S fuel' => if p + PGSIZE <=? vend then kfree p;; freerange_loop fuel' (p + PGSIZE) vend
               else mret tt
  end.
Definition freerange (vstart vend : Z) : M kst unit :=
  let p := PGROUNDUP vstart in
  freerange_loop (S (Z.to_nat ((vend - p) / PGSIZE))) p vend.

Definition kinit1 (vstart vend : Z) : M kst unit :=
  modify (set_lock initlock);;
  modify (set_use_lock false);;
  freerange vstart vend.

Definition kinit2 (vstart vend : Z) : M kst unit :=
  freerange vstart vend;;
  modify (set_use_lock true).

(** ** Pages and the free list *)

Record page_ok (e v : Z) : Prop := PageOk {
  pg_align : v `mod` PGSIZE = 0;
  pg_end : e <= v;
  pg_kern : KERNBASE <= v;
  pg_top : v + PGSIZE <= KERNBASE + PHYSTOP
}.

(** [chain m e v l]: from [v] the next pointers go through the pages [l] to 0. *)
Fixpoint chain (m : memory) (e v : Z) (l : list Z) : Prop :=
  match l with
  | [] => v = 0
  | w :: l' => v = w /\ page_ok e w /\ chain m e (rd32 m (V2P w)) l'
  end.

(** The allocator's abstract state is the list of its free pages. *)
Record kinv (me : nat) (s : kst) (l : list Z) : Prop := KInv {
  ki_chain : chain (k_mem s) (k_end s) (k_freelist s) l;
  ki_nodup : NoDup l;
  ki_bytes : bytes_ok (k_mem s);
  ki_run : runs_on (k_hw s) me;
  ki_lock : k_lock s = initlock
}.

Definition in_page (v a : Z) : Prop := V2P v <= a < V2P v + PGSIZE.

(** The hardware view after an operation: unchanged before [kinit2], settled after. *)
Definition locked_hw (me : nat) (s : kst) : hw :=
  if k_use_lock s then settle me (k_hw s) else k_hw s.

Lemma page_V2P e v : page_ok e v -> V2P v = v - KERNBASE /\ 0 <= V2P v /\ V2P v + PGSIZE <= PHYSTOP.
Proof.
  intros [? ? ? ?]. unfold V2P. rewrite u32_small; [lia|].
  unfold is_u32, KERNBASE, PHYSTOP, PGSIZE in *. lia.
Qed.

Lemma page_kptr e v : page_ok e v -> kptr v = true.
Proof.
  intros [? ? ? ?]. unfold kptr, PGSIZE in *.
  apply andb_true_iff. rewrite !Z.leb_le. lia.
Qed.

Lemma page_nonzero e v : page_ok e v -> v <> 0.
Proof. intros [? ? ? ?]. unfold KERNBASE in *. lia. Qed.

(** Distinct pages do not overlap. *)
Lemma page_disjoint e v w a :
  page_ok e v -> page_ok e w -> v <> w -> in_page v a -> ~ in_page w a.
Proof.
  intros Hv Hw Hne. pose proof (page_V2P _ _ Hv). pose proof (page_V2P _ _ Hw).
  destruct Hv as [Av _ _ _], Hw as [Aw _ _ _]. unfold in_page, PGSIZE in *.
  intros. Z.div_mod_to_equations. lia.
Qed.

Lemma chain_pages m e v l : chain m e v l -> Forall (page_ok e) l.
Proof. revert v. induction l; intros v H; [constructor|]. destruct H as (_ & ? & ?). eauto. Qed.

Lemma chain_ext m1 m2 e v l :
  (forall w, In w l -> rd32 m1 (V2P w) = rd32 m2 (V2P w)) -> chain m1 e v l -> chain m2 e v l.
Proof.
  revert v. induction l as [|w l IH]; intros v H; simpl; [done|].
  intros (-> & Hp & Hc). split_and!; auto. rewrite <- H by (by left).
  apply IH; [|done]. intros; apply H. by right.
Qed.

Lemma rd32_in_page m1 m2 e w :
  page_ok e w -> (forall a, in_page w a -> rd8 m1 a = rd8 m2 a) ->
  rd32 m1 (V2P w) = rd32 m2 (V2P w).
Proof. intros Hw H. apply rd32_ext. intros b Hb. apply H. unfold in_page, PGSIZE. lia. Qed.

Lemma kload_ok p s : kptr p = true -> kload p s = Ok (rd32 (k_mem s) (V2P p)) s.
Proof. intros H. unfold kload. by rewrite H. Qed.

Lemma kstore_ok p v s :
  kptr p = true -> kstore p v s = Ok tt (set_mem (wr32 (k_mem s) (V2P p) v) s).
Proof. intros H. unfold kstore. by rewrite H. Qed.

Lemma kmemset_page e v c s :
  page_ok e v -> kmemset v c PGSIZE s = Ok tt (set_mem (memset (k_mem s) (V2P v) c PGSIZE) s).
Proof.
  intros [_ _ H1 H2]. apply Z.leb_le in H1, H2. unfold kmemset. by rewrite H1, H2.
Qed.

(** The two critical sections of the allocator: [body] runs between an optional
    [acquire] and an optional [release] of [kmem.lock]. *)
Lemma kmem_section {A} me s (body : M kst A) a s' :
  runs_on (k_hw s) me -> k_lock s = initlock ->
  (forall h lk, body (set_lock lk (set_hw h s)) = Ok a (set_lock lk (set_hw h s'))) ->
  k_use_lock s' = k_use_lock s ->
  with_kmem_lock body s =
  Ok a (set_lock initlock (set_hw (locked_hw me s) s')).
Proof.
  intros [c Hc] Hl Hb Hul. unfold with_kmem_lock. mgo. unfold locked_hw.
  destruct (k_use_lock s) eqn:E.
  - unfold acquire_kmem. mstep acquire_in_ok; [|done|by rewrite Hl].
    mstep Hb. mgo. cbn [k_use_lock set_lock set_hw]. rewrite Hul.
    unfold release_kmem. erewrite bind_Ok.
    2:{ eapply (release_in_ok _ _ _ _ _ me (pushed_cpu (k_hw s) c)).
        - simpl. by apply pushed_on_cpu.
        - simpl. pose proof (oc_ncli _ _ _ Hc). lia.
        - apply holds_self. }
    cbn [k_hw set_hw set_lock]. rewrite popped_pushed by done.
    by rewrite (settle_touched _ _ _ Hc).
  - mgo. destruct s as [m h lk ul f e]. simpl in *. subst.
    pose proof (Hb h initlock) as Hb'. unfold set_lock, set_hw in Hb'. simpl in Hb'.
    mstep Hb'. mgo. cbn [k_use_lock]. rewrite Hul. mgo.
    unfold set_lock, set_hw. simpl. by rewrite Hul.
Qed.

(** ** What the operations do *)

Lemma kalloc_empty me s :
  kinv me s [] -> kalloc s = Ok 0 (set_hw (locked_hw me s) s).
Proof.
  intros [Hc _ _ Hr Hl]. simpl in Hc. unfold kalloc.
  erewrite (kmem_section me s _ 0 s); auto.
  - destruct s; simpl in *; by subst.
  - intros h lk. mgo. simpl. by rewrite Hc.
Qed.

Lemma kalloc_cons me s v l :
  kinv me s (v :: l) ->
  kalloc s = Ok v (set_freelist (rd32 (k_mem s) (V2P v)) (set_hw (locked_hw me s) s)).
Proof.
  intros [(Hv & Hp & Hc) _ _ Hr Hl]. unfold kalloc.
  erewrite (kmem_section me s _ v (set_freelist (rd32 (k_mem s) (V2P v)) s)); auto.
  - destruct s; simpl in *; by subst.
  - intros h lk. mgo. simpl. rewrite Hv.
    rewrite (proj2 (Z.eqb_neq v 0)) by (by eapply page_nonzero). simpl. mgo.
    mstep kload_ok; [|by eapply page_kptr]. mgo. done.
Qed.

Lemma kalloc_inv me s v l s' :
  kinv me s (v :: l) -> kalloc s = Ok v s' -> kinv me s' l.
Proof.
  intros H. pose proof H as [(Hv & Hp & Hc) Hn Hb Hr Hl]. rewrite (kalloc_cons _ _ _ _ H).
  intros [= <-]. apply NoDup_cons in Hn as [_ Hn]. split; simpl; auto.
  unfold locked_hw. case_match; auto using settle_runs_on.
Qed.

Definition freed_mem (m : memory) (v fl : Z) : memory :=
  wr32 (memset m (V2P v) 1 PGSIZE) (V2P v) fl.

Lemma kfree_ok me s v l :
  kinv me s l -> page_ok (k_end s) v ->
  kfree v s = Ok tt (set_freelist v
    (set_mem (freed_mem (k_mem s) v (k_freelist s)) (set_hw (locked_hw me s) s))).
Proof.
  intros [_ _ _ Hr Hl] Hp. unfold kfree. mgo.
  pose proof Hp as [Ha He _ _]. pose proof (page_V2P _ _ Hp) as (_ & Hlo & Hhi).
  rewrite Ha, (proj2 (Z.ltb_ge _ _) He), (proj2 (Z.leb_gt PHYSTOP (V2P v)))
    by (unfold PGSIZE in Hhi; lia).
  simpl. mstep kmemset_page; [|done].
  set (s1 := set_mem _ s).
  erewrite (kmem_section me s1 _ tt
    (set_freelist v (set_mem (wr32 (k_mem s1) (V2P v) (k_freelist s)) s1))); auto.
  - destruct s; simpl in *; by subst.
  - intros h lk. mgo. mstep kstore_ok; [|by eapply page_kptr]. done.
Qed.

Lemma rd8_freed_other m v fl a :
  ~ in_page v a -> rd8 (freed_mem m v fl) a = rd8 m a.
Proof.
  unfold in_page, freed_mem, PGSIZE. intros H.
  rewrite rd8_wr32_ne by lia. rewrite rd8_memset by lia. by rewrite decide_False by lia.
Qed.

Lemma bytes_ok_freed m v fl : bytes_ok m -> bytes_ok (freed_mem m v fl).
Proof. intros. apply bytes_ok_wr32, bytes_ok_memset; [done|unfold PGSIZE; lia]. Qed.

Lemma chain_head m e v l : chain m e v l -> is_u32 v.
Proof.
  destruct l; simpl; [intros ->; unfold is_u32; lia|]. intros (-> & Hp & _).
  destruct Hp. unfold is_u32, KERNBASE, PHYSTOP, PGSIZE in *. lia.
Qed.

Lemma kfree_inv me s v l s' :
  kinv me s l -> page_ok (k_end s) v -> v ∉ l -> kfree v s = Ok tt s' -> kinv me s' (v :: l).
Proof.
  intros H Hp Hn. rewrite (kfree_ok _ _ _ _ H Hp). intros [= <-].
  destruct H as [Hc Hd Hb Hr Hl].
  split; cbn [k_mem k_end k_freelist k_hw k_lock set_freelist set_mem set_hw chain]; auto.
  - split_and!; auto. 
    assert (rd32 (freed_mem (k_mem s) v (k_freelist s)) (V2P v) = k_freelist s) as ->
      by (apply rd32_wr32_eq; by eapply chain_head).
    eapply chain_ext; [|done]. intros w Hw. apply list_elem_of_In in Hw.
    symmetry. eapply rd32_in_page.
    + pose proof (chain_pages _ _ _ _ Hc) as Hall. rewrite Forall_forall in Hall. by apply Hall.
    + intros a Ha. apply rd8_freed_other.
      apply (page_disjoint (k_end s) w v); [|done|by intros ->|done].
      pose proof (chain_pages _ _ _ _ Hc) as Hall. rewrite Forall_forall in Hall. by apply Hall.
  - by apply NoDup_cons.
  - by apply bytes_ok_freed.
  - unfold locked_hw. case_match; auto using settle_runs_on.
Qed.

(** The operations as steps on the abstract free list. *)
Lemma kalloc_step me s v l :
  kinv me s (v :: l) ->
  exists s', kalloc s = Ok v s' /\ kinv me s' l /\ k_mem s' = k_mem s /\ k_end s' = k_end s.
Proof.
  intros H. pose proof (kalloc_cons _ _ _ _ H) as E. eexists. split_and!; [exact E| |done|done].
  by eapply kalloc_inv.
Qed.

Lemma kalloc_none me s :
  kinv me s [] ->
  exists s', kalloc s = Ok 0 s' /\ kinv me s' [] /\ k_mem s' = k_mem s /\ k_end s' = k_end s.
Proof.
  intros H. eexists. split_and!; [by eapply kalloc_empty| |done|done].
  destruct H. split; simpl; auto. unfold locked_hw. case_match; auto using settle_runs_on.
Qed.

Lemma kfree_step me s v l :
  kinv me s l -> page_ok (k_end s) v -> v ∉ l ->
  exists s', kfree v s = Ok tt s' /\ kinv me s' (v :: l) /\ k_end s' = k_end s /\
    (forall a, ~ in_page v a -> rd8 (k_mem s') a = rd8 (k_mem s) a).
Proof.
  intros H Hp Hn. pose proof (kfree_ok _ _ _ _ H Hp) as E. eexists.
  split_and!; [exact E|by eapply kfree_inv|done|].
  intros a Ha. by apply rd8_freed_other.
Qed.

(** ** Page rounding *)

Lemma PGROUNDDOWN_eq a : PGROUNDDOWN a = PGSIZE * (a / PGSIZE).
Proof.
  unfold PGROUNDDOWN, PGSIZE. change (4096 - 1) with (Z.ones 12).
  rewrite <- Z.ldiff_land, Z.ldiff_ones_r by lia.
  rewrite Z.shiftl_mul_pow2, Z.shiftr_div_pow2 by lia. change (2 ^ 12) with 4096. lia.
Qed.

Lemma PGROUNDDOWN_bounds a : PGROUNDDOWN a <= a < PGROUNDDOWN a + PGSIZE.
Proof. rewrite PGROUNDDOWN_eq. unfold PGSIZE. Z.div_mod_to_equations. lia. Qed.

Lemma PGROUNDDOWN_aligned a : PGROUNDDOWN a `mod` PGSIZE = 0.
Proof. rewrite PGROUNDDOWN_eq. unfold PGSIZE. Z.div_mod_to_equations. lia. Qed.

Lemma PGROUNDDOWN_id a : a `mod` PGSIZE = 0 -> PGROUNDDOWN a = a.
Proof. rewrite PGROUNDDOWN_eq. unfold PGSIZE. intros. Z.div_mod_to_equations. lia. Qed.

Lemma PGROUNDUP_bounds a :
  0 <= a -> a + PGSIZE <= 2 ^ 32 -> a <= PGROUNDUP a < a + PGSIZE.
Proof.
  intros H0 H1. unfold PGROUNDUP. fold (PGROUNDDOWN (u32 (a + PGSIZE - 1))).
  rewrite u32_small by (unfold is_u32, PGSIZE in *; lia).
  pose proof (PGROUNDDOWN_bounds (a + PGSIZE - 1)). lia.
Qed.

Lemma PGROUNDUP_aligned a : PGROUNDUP a `mod` PGSIZE = 0.
Proof. unfold PGROUNDUP. apply PGROUNDDOWN_aligned. Qed.

(** ** [freerange] frees every whole page of the range *)

Fixpoint page_seq (p : Z) (n : nat) : list Z :=
  match n with O => [] | S n' => p :: page_seq (p + PGSIZE) n' end.

Lemma elem_of_page_seq p n v :
  v ∈ page_seq p n <-> exists i : nat, (i < n)%nat /\ v = p + PGSIZE * Z.of_nat i.
Proof.
  revert p. induction n as [|n IH]; intros p; cbn [page_seq].
  - split; [by intros ?%elem_of_nil|]. intros (i & ? & _). lia.
  - rewrite elem_of_cons, IH. split.
    + intros [->|(i & Hi & ->)]; [exists 0%nat|exists (S i)]; split; lia.
    + intros ([|i] & Hi & ->); [left; lia|right; exists i; split; lia].
Qed.

Lemma npages_step p vend :
  Z.to_nat ((vend - p) / PGSIZE) =
    if p + PGSIZE <=? vend then S (Z.to_nat ((vend - (p + PGSIZE)) / PGSIZE)) else 0%nat.
Proof.
  unfold PGSIZE. destruct (Z.leb_spec (p + 4096) vend); Z.div_mod_to_equations; lia.
Qed.

Lemma freerange_loop_ok me fuel p vend s l :
  kinv me s l -> p `mod` PGSIZE = 0 -> k_end s <= p -> KERNBASE <= p ->
  vend <= KERNBASE + PHYSTOP -> (forall v, v ∈ l -> v < p \/ vend <= v) ->
  (Z.to_nat ((vend - p) / PGSIZE) < fuel)%nat ->
  exists s', freerange_loop fuel p vend s = Ok tt s' /\ k_end s' = k_end s /\
    k_use_lock s' = k_use_lock s /\
    kinv me s' (reverse (page_seq p (Z.to_nat ((vend - p) / PGSIZE))) ++ l).
Proof.
  revert p s l. induction fuel as [|fuel IH]; intros p s l Hi Ha He Hk Hv Hl Hf; [lia|].
  cbn [freerange_loop]. rewrite npages_step in *.
  destruct (Z.leb_spec (p + PGSIZE) vend) as [Hle|Hgt]; [|by exists s].
  assert (page_ok (k_end s) p) as Hp by (split; auto; lia).
  assert (p ∉ l) as Hn by (intros Hin; specialize (Hl _ Hin); unfold PGSIZE in *; lia).
  pose proof (kfree_ok _ _ _ _ Hi Hp) as Hk1.
  pose proof (kfree_inv _ _ _ _ _ Hi Hp Hn Hk1) as Hi1.
  rewrite (bind_Ok _ _ _ _ _ Hk1).
  eassert _ as HIH; [eapply (IH (p + PGSIZE) _ (p :: l) Hi1)|]; auto.
  - unfold PGSIZE in *. Z.div_mod_to_equations. lia.
  - cbn [k_end set_freelist set_mem set_hw]. unfold PGSIZE in *. lia.
  - unfold PGSIZE in *. lia.
  - intros v [->|Hin]%elem_of_cons; [unfold PGSIZE; lia|].
    specialize (Hl _ Hin). unfold PGSIZE in *. lia.
  - lia.
  - destruct HIH as (s' & H1 & H2 & H3 & H4). exists s'. split_and!; auto.
    cbn [page_seq]. rewrite reverse_cons. by rewrite <- app_assoc.
Qed.

Lemma freerange_ok me vstart vend s l :
  kinv me s l -> KERNBASE <= vstart -> k_end s <= vstart -> vend <= KERNBASE + PHYSTOP ->
  vstart <= KERNBASE + PHYSTOP ->
  (forall v, v ∈ l -> v < vstart \/ vend <= v) ->
  exists s', freerange vstart vend s = Ok tt s' /\ k_end s' = k_end s /\
    k_use_lock s' = k_use_lock s /\
    let p := PGROUNDUP vstart in
    kinv me s' (reverse (page_seq p (Z.to_nat ((vend - p) / PGSIZE))) ++ l).
Proof.
  intros Hi Hk He Hv Hs Hl. unfold freerange. cbv zeta.
  pose proof (PGROUNDUP_bounds vstart) as Hb.
  unfold KERNBASE, PHYSTOP, PGSIZE in *. specialize (Hb ltac:(lia) ltac:(lia)).
  apply freerange_loop_ok; auto; unfold KERNBASE, PHYSTOP, PGSIZE in *; try lia.
  - apply PGROUNDUP_aligned.
  - intros v Hin. specialize (Hl _ Hin). lia.
Qed.

Lemma elem_of_pages p n v :
  p `mod` PGSIZE = 0 ->
  v ∈ page_seq p n <-> p <= v /\ v + PGSIZE <= p + PGSIZE * Z.of_nat n /\ v `mod` PGSIZE = 0.
Proof.
  intros Hp. rewrite elem_of_page_seq. unfold PGSIZE in *. split.
  - intros (i & Hi & ->). split_and!; try lia. Z.div_mod_to_equations. lia.
  - intros (H1 & H2 & H3). exists (Z.to_nat ((v - p) / 4096)).
    split; Z.div_mod_to_equations; lia.
Qed.

Lemma kfree_bad_page s v :
  is_u32 v -> KERNBASE <= k_end s -> ~ page_ok (k_end s) v -> kfree v s = Panic "kfree".
Proof.
  intros Hv He Hp. unfold kfree. mgo.
  destruct (negb (v `mod` PGSIZE =? 0) || (v <? k_end s) || (PHYSTOP <=? V2P v)) eqn:E; [done|].
  apply orb_false_iff in E as [[E1%negb_false_iff E2]%orb_false_iff E3].
  apply Z.eqb_eq in E1. apply Z.ltb_ge in E2. apply Z.leb_gt in E3.
  destruct Hp. unfold V2P, is_u32, PGSIZE, KERNBASE, PHYSTOP in *.
  rewrite u32_small in E3 by (unfold is_u32; lia).
  split; unfold KERNBASE, PHYSTOP, PGSIZE; auto; try lia. Z.div_mod_to_equations. lia.
Qed.


(** Booting the allocator terminates and hands out every page once: from an empty
    free list, [kinit1] on the memory mapped early and [kinit2] on the rest leave
    locking on and a free list that holds, without repetition, exactly the
    aligned pages between [vstart] and the top of memory. *)
Theorem kinit_frees_all (me : nat) (s : kst) (vstart mid : Z)
  (Hb : bytes_ok (k_mem s)) (Hr : runs_on (k_hw s) me) (Hf : k_freelist s = 0)
  (Hk : KERNBASE <= k_end s) (He : k_end s <= vstart) (Hm : mid `mod` PGSIZE = 0)
  (Hv : PGROUNDUP vstart <= mid) (Ht : mid <= KERNBASE + PHYSTOP) (Hvm : vstart <= mid) :
  exists s' l,
    (kinit1 vstart mid;; kinit2 mid (KERNBASE + PHYSTOP)) s = Ok tt s' /\
    k_use_lock s' = true /\ kinv me s' l /\
    (forall v, v ∈ l <->
       vstart <= v /\ v + PGSIZE <= KERNBASE + PHYSTOP /\ v `mod` PGSIZE = 0).
Proof.
  set (s0 := set_use_lock false (set_lock initlock s)).
  assert (kinv me s0 []) as H0 by (split; simpl; auto; constructor).
  pose proof (PGROUNDUP_bounds vstart) as Hpb.
  pose proof (PGROUNDUP_aligned vstart) as Hpa.
  assert (PGROUNDUP mid = mid) as Hmid.
  { unfold PGROUNDUP. fold (PGROUNDDOWN (u32 (mid + PGSIZE - 1))).
    rewrite u32_small by (unfold is_u32, KERNBASE, PHYSTOP, PGSIZE in *; lia).
    rewrite PGROUNDDOWN_eq. unfold PGSIZE in *. Z.div_mod_to_equations. lia. }
  unfold KERNBASE, PHYSTOP, PGSIZE in Hpb, Hk, Ht. specialize (Hpb ltac:(lia) ltac:(lia)).
  destruct (freerange_ok me vstart mid s0 [] H0) as (s1 & E1 & He1 & Hu1 & Hi1);
    try (unfold KERNBASE, PHYSTOP in *; simpl; lia); [set_solver|].
  cbv zeta in Hi1. rewrite app_nil_r in Hi1.
  set (l1 := reverse _) in Hi1.
  assert (forall v, v ∈ l1 <-> vstart <= v /\ v + PGSIZE <= mid /\ v `mod` PGSIZE = 0) as Hl1.
  { intros v. unfold l1. rewrite elem_of_reverse, elem_of_pages by done.
    unfold PGSIZE in *. Z.div_mod_to_equations. lia. }
  destruct (freerange_ok me mid (KERNBASE + PHYSTOP) s1 l1 Hi1) as (s2 & E2 & He2 & Hu2 & Hi2);
    try (rewrite ?He1; simpl; unfold KERNBASE, PHYSTOP in *; lia).
  { intros v Hin%Hl1. unfold PGSIZE in *. lia. }
  cbv zeta in Hi2. rewrite Hmid in Hi2.
  exists (set_use_lock true s2). eexists. split_and!; [| |destruct Hi2; by split|].
  - unfold kinit1, kinit2. mgo. fold s0. mstep E1. mstep E2. done.
  - done.
  - intros v. rewrite elem_of_app, elem_of_reverse, elem_of_pages, Hl1 by done.
    unfold PGSIZE, KERNBASE, PHYSTOP in *. Z.div_mod_to_equations. lia.
Qed.

Definition demo_kst : kst :=
  KSt ∅ hw2 initlock false 0 (KERNBASE + 0x100000).

Definition demo_page : Z := KERNBASE + 0x200000.

Definition demo_kst1 : kst :=
  KSt ∅ hw2 initlock true demo_page (KERNBASE + 0x100000).

Lemma demo_page_ok : page_ok (KERNBASE + 0x100000) demo_page.
Proof. by split. Qed.

Lemma demo_kinv : kinv 1 demo_kst1 [demo_page].
Proof.
  split; simpl; auto using bytes_ok_empty.
  - split_and!; auto using demo_page_ok.
  - apply NoDup_singleton.
  - eexists. apply hw2_on_cpu.
Qed.


Lemma kinit_frees_all_witness :
  exists s' l, kinv 1 s' l /\ demo_page ∈ l.
Proof.
  destruct (kinit_frees_all 1 demo_kst (KERNBASE + 0x100000) (KERNBASE + 0x400000)
    bytes_ok_empty (ex_intro _ _ hw2_on_cpu) eq_refl ltac:(discriminate) ltac:(discriminate)
    eq_refl ltac:(discriminate) ltac:(discriminate) ltac:(discriminate))
    as (s' & l & _ & _ & A & B).
  exists s', l. split; [exact A|]. apply B. repeat split; discriminate.
Defined.
