(* ===== verification/PageTable.v ===== *)
(** * Two-level page tables: walkpgdir and mappages of p6/vm.c

    A page directory and its page tables are pages of the byte memory; a
    pointer to an entry is a kernel virtual address, read and written with
    [kload] and [kstore]. [tables], [lookup] and [user_pages] are the abstract
    view of a directory: its page tables, the entry of each virtual page, the
    pages it maps. *)

From S2P Require Import Prelude Cstring Spinlock Kalloc.

Definition PTE_P : Z := 0x001.
Definition PTE_W : Z := 0x002.
Definition PTE_U : Z := 0x004.
Definition PTE_A : Z := 0x020.
Definition PTE_E : Z := 0x200.
Definition NPDENTRIES : Z := 1024.
Definition PDX (va : Z) : Z := Z.land (Z.shiftr va 22) 0x3FF.
Definition PTX (va : Z) : Z := Z.land (Z.shiftr va 12) 0x3FF.
Definition PGADDR (d t o : Z) : Z := u32 (Z.lor (Z.lor (Z.shiftl d 22) (Z.shiftl t 12)) o).
Definition PTE_ADDR (pte : Z) : Z := Z.land pte (Z.lnot 0xFFF).
Definition PTE_FLAGS (pte : Z) : Z := Z.land pte 0xFFF.

(** [*pte & b] as a C condition. *)
Definition flag (pte b : Z) : bool := negb (Z.land pte b =? 0).

Definition walkpgdir (pgdir va : Z) (alloc : bool) : M kst Z :=
  let pde := pgdir + 4 * PDX va in
  e ← kload pde;
  if flag e PTE_P then mret (P2V (PTE_ADDR e) + 4 * PTX va) else
  if negb alloc then mret 0 else
  pgtab ← kalloc;
  if pgtab =? 0 then mret 0 else
  kmemset pgtab 0 PGSIZE;;
  kstore pde (Z.lor (Z.lor (Z.lor (V2P pgtab) PTE_P) PTE_W) PTE_U);;
  mret (pgtab + 4 * PTX va).

(** The entry [mappages] stores for [pa] and [perm]. *)
Definition mk_pte (pa perm : Z) : Z :=
  if flag perm PTE_E then Z.land (Z.lor (Z.lor pa perm) PTE_E) (Z.lnot PTE_P)
  else Z.lor (Z.lor pa perm) PTE_P.

Fixpoint mappages_loop (fuel : nat) (pgdir a last pa perm : Z) : M kst Z :=
  match fuel with
  | O => hang
  | S fuel' =>
    pte ← walkpgdir pgdir a true;
    if pte =? 0 then mret (-1) else
    v ← kload pte;
    if flag v (Z.lor PTE_P PTE_E) then panic "remap" else
    kstore pte (mk_pte pa perm);;
    if a =? last then mret 0 else
    mappages_loop fuel' pgdir (u32 (a + PGSIZE)) last (u32 (pa + PGSIZE)) perm
  end.

Definition mappages (pgdir va size pa perm : Z) : M kst Z :=
  let a := PGROUNDDOWN va in
  let last := PGROUNDDOWN (u32 (va + size - 1)) in
  mappages_loop (S (Z.to_nat (u32 (last - a) / PGSIZE))) pgdir a last pa perm.

(** ** Arithmetic of entries *)

Lemma PDX_eq va : PDX va = (va / 2 ^ 22) `mod` 1024.
Proof.
  unfold PDX. rewrite Z.shiftr_div_pow2 by lia. change 0x3FF with (Z.ones 10).
  rewrite Z.land_ones by lia. done.
Qed.

Lemma PTX_eq va : PTX va = (va / 4096) `mod` 1024.
Proof.
  unfold PTX. rewrite Z.shiftr_div_pow2 by lia. change 0x3FF with (Z.ones 10).
  rewrite Z.land_ones by lia. done.
Qed.

Lemma PDX_range va : 0 <= PDX va < 1024.
Proof. rewrite PDX_eq. apply Z.mod_pos_bound. lia. Qed.

Lemma PTX_range va : 0 <= PTX va < 1024.
Proof. rewrite PTX_eq. apply Z.mod_pos_bound. lia. Qed.

Lemma same_page va vb :
  is_u32 va -> is_u32 vb -> PDX va = PDX vb -> PTX va = PTX vb ->
  va / PGSIZE = vb / PGSIZE.
Proof.
  unfold is_u32, PGSIZE. rewrite !PDX_eq, !PTX_eq. intros.
  Z.div_mod_to_equations. lia.
Qed.

Lemma PDX_page va vb : va / PGSIZE = vb / PGSIZE -> PDX va = PDX vb.
Proof.
  rewrite !PDX_eq. change (2 ^ 22) with (4096 * 1024). unfold PGSIZE. intros H.
  rewrite <- !Zdiv.Zdiv_Zdiv by lia. by rewrite H.
Qed.

Lemma PTX_page va vb : va / PGSIZE = vb / PGSIZE -> PTX va = PTX vb.
Proof. rewrite !PTX_eq. unfold PGSIZE. by intros ->. Qed.

Lemma PTE_ADDR_eq x : PTE_ADDR x = PGSIZE * (x / PGSIZE).
Proof. apply PGROUNDDOWN_eq. Qed.

Lemma PTE_FLAGS_eq x : PTE_FLAGS x = x `mod` PGSIZE.
Proof. unfold PTE_FLAGS. change 0xFFF with (Z.ones 12). by rewrite Z.land_ones by lia. Qed.

Lemma lor_flags pa f : pa `mod` PGSIZE = 0 -> 0 <= f < PGSIZE -> Z.lor pa f = pa + f.
Proof.
  intros Ha Hf. symmetry. apply Z.add_nocarry_lor.
  assert (Z.land pa 0xFFF = 0) as Hp by (rewrite <- Ha; apply PTE_FLAGS_eq).
  assert (Z.land f 0xFFF = f) as <-.
  { fold (PTE_FLAGS f). rewrite PTE_FLAGS_eq. by apply Z.mod_small. }
  by rewrite (Z.land_comm f), Z.land_assoc, Hp.
Qed.

Lemma flag_low x b : 0 <= b < PGSIZE -> flag x b = flag (PTE_FLAGS x) b.
Proof.
  intros Hb. unfold flag, PTE_FLAGS.
  replace b with (Z.land 0xFFF b) at 1; [by rewrite Z.land_assoc|].
  rewrite Z.land_comm. fold (PTE_FLAGS b). rewrite PTE_FLAGS_eq. by apply Z.mod_small.
Qed.

(** A fact about all flag words is checked by enumeration. *)
Lemma all_flags (P : Z -> bool) :
  forallb (fun n => P (Z.of_nat n)) (seq 0 4096) = true -> forall f, 0 <= f < PGSIZE -> P f = true.
Proof.
  intros H f Hf. rewrite forallb_forall in H. specialize (H (Z.to_nat f)).
  rewrite Z2Nat.id in H by lia. apply H. apply in_seq. unfold PGSIZE in Hf. lia.
Qed.

(** The flags [mappages] stores for [perm]. *)
Definition pte_flags (perm : Z) : Z :=
  if flag perm PTE_E then Z.land (Z.lor perm PTE_E) (Z.lnot PTE_P) else Z.lor perm PTE_P.

Lemma pte_flags_ok perm :
  0 <= perm < PGSIZE ->
  0 <= pte_flags perm < PGSIZE /\ flag (pte_flags perm) (Z.lor PTE_P PTE_E) = true /\
  flag (pte_flags perm) PTE_E = flag perm PTE_E /\
  flag (pte_flags perm) PTE_P = negb (flag perm PTE_E) /\
  flag (pte_flags perm) PTE_U = flag perm PTE_U /\
  flag (pte_flags perm) PTE_W = flag perm PTE_W.
Proof.
  intros H.
  pose proof (all_flags (fun p =>
    (0 <=? pte_flags p) && (pte_flags p <? 4096) && flag (pte_flags p) (Z.lor PTE_P PTE_E) &&
    eqb (flag (pte_flags p) PTE_E) (flag p PTE_E) &&
    eqb (flag (pte_flags p) PTE_P) (negb (flag p PTE_E)) &&
    eqb (flag (pte_flags p) PTE_U) (flag p PTE_U) &&
    eqb (flag (pte_flags p) PTE_W) (flag p PTE_W))) as A.
  specialize (A ltac:(vm_compute; reflexivity) perm H). simpl in A.
  rewrite !andb_true_iff, Z.leb_le, Z.ltb_lt, !eqb_true_iff in A. unfold PGSIZE. tauto.
Qed.

Lemma mk_pte_eq pa perm :
  pa `mod` PGSIZE = 0 -> 0 <= perm < PGSIZE -> mk_pte pa perm = pa + pte_flags perm.
Proof.
  intros Ha Hp. pose proof (pte_flags_ok perm Hp) as [H _].
  rewrite <- lor_flags by done. unfold mk_pte, pte_flags.
  destruct (flag perm PTE_E); [|by rewrite Z.lor_assoc].
  rewrite <- Z.lor_assoc, Z.land_lor_distr_l. f_equal.
  assert (Z.land pa (Z.lnot 0xFFF) = pa) as <-; [|by rewrite <- Z.land_assoc].
  fold (PTE_ADDR pa). rewrite PTE_ADDR_eq. unfold PGSIZE in *. Z.div_mod_to_equations. lia.
Qed.

Lemma PTE_ADDR_add pa f : pa `mod` PGSIZE = 0 -> 0 <= f < PGSIZE -> PTE_ADDR (pa + f) = pa.
Proof. rewrite PTE_ADDR_eq. unfold PGSIZE. intros. Z.div_mod_to_equations. lia. Qed.

Lemma PTE_FLAGS_add pa f : pa `mod` PGSIZE = 0 -> 0 <= f < PGSIZE -> PTE_FLAGS (pa + f) = f.
Proof. rewrite PTE_FLAGS_eq. unfold PGSIZE. intros. Z.div_mod_to_equations. lia. Qed.

(** ** The abstract view of a page directory *)

Definition table (m : memory) (d : Z) (i : Z) : option Z :=
  let e := rd32 m (V2P d + 4 * i) in
  if flag e PTE_P then Some (P2V (PTE_ADDR e)) else None.

Definition pt_pages (m : memory) (d : Z) : list Z := d :: omap (table m d) (seqZ 0 1024).

(** The entry of the page of [va]; 0 when its page table is missing. *)
Definition lookup (m : memory) (d va : Z) : Z :=
  match table m d (PDX va) with
  | Some t => rd32 m (V2P t + 4 * PTX va)
  | None => 0
  end.

Definition mapped (pte : Z) : bool := flag pte (Z.lor PTE_P PTE_E).

(** The kernel address of the page that [va] is mapped to. *)
Definition page_of (m : memory) (d va : Z) : option Z :=
  let pte := lookup m d va in
  if mapped pte then Some (P2V (PTE_ADDR pte)) else None.

Definition page_eq (m1 m2 : memory) (v : Z) : Prop := forall a, in_page v a -> rd8 m1 a = rd8 m2 a.

(** [rest] are the pages in use elsewhere. *)
Record pt_inv (me : nat) (s : kst) (d : Z) (rest l : list Z) : Prop := PtInv {
  pi_k : kinv me s l;
  pi_end : KERNBASE < k_end s;
  pi_ok : Forall (page_ok (k_end s)) (pt_pages (k_mem s) d ++ rest);
  pi_nodup : NoDup (pt_pages (k_mem s) d ++ rest ++ l)
}.

Lemma page_eq_sym m1 m2 v : page_eq m1 m2 v -> page_eq m2 m1 v.
Proof. unfold page_eq. intros. symmetry. auto. Qed.

Lemma page_eq_rd32 m1 m2 v i :
  page_eq m1 m2 v -> 0 <= i < 1024 -> rd32 m1 (V2P v + 4 * i) = rd32 m2 (V2P v + 4 * i).
Proof. intros H Hi. apply rd32_ext. intros b Hb. apply H. unfold in_page, PGSIZE. lia. Qed.

Lemma table_ext m1 m2 d i : page_eq m1 m2 d -> 0 <= i < 1024 -> table m1 d i = table m2 d i.
Proof. intros H Hi. unfold table. by rewrite (page_eq_rd32 _ _ _ _ H). Qed.

Lemma pt_pages_ext m1 m2 d : page_eq m1 m2 d -> pt_pages m1 d = pt_pages m2 d.
Proof.
  intros H. unfold pt_pages. f_equal. apply omap_ext_in. intros i Hi%elem_of_seqZ.
  by apply table_ext.
Qed.

Lemma table_in m d i t : 0 <= i < 1024 -> table m d i = Some t -> t ∈ pt_pages m d.
Proof.
  intros Hi Ht. right. apply list_elem_of_omap. exists i. split; [|done]. by apply elem_of_seqZ.
Qed.

Lemma lookup_ext m1 m2 d va :
  (forall v, v ∈ pt_pages m1 d -> page_eq m1 m2 v) -> lookup m1 d va = lookup m2 d va.
Proof.
  intros H. pose proof (PDX_range va). unfold lookup.
  rewrite <- (table_ext m1 m2) by (auto; apply H; by left).
  destruct (table m1 d (PDX va)) as [t|] eqn:E; [|done].
  apply page_eq_rd32; [|apply PTX_range]. apply H. by eapply table_in.
Qed.

Lemma lookup_page m d va vb : va / PGSIZE = vb / PGSIZE -> lookup m d va = lookup m d vb.
Proof. intros H. unfold lookup. by rewrite (PDX_page _ _ H), (PTX_page _ _ H). Qed.

(** ** Memory accesses inside pages *)

Lemma kptr_slot e t i : page_ok e t -> 0 <= i < 1024 -> kptr (t + 4 * i) = true.
Proof.
  intros [_ _ H1 H2] Hi. unfold kptr, PGSIZE in *.
  apply andb_true_iff. rewrite !Z.leb_le. lia.
Qed.

Lemma V2P_slot e t i : page_ok e t -> 0 <= i < 1024 -> V2P (t + 4 * i) = V2P t + 4 * i.
Proof.
  intros H Hi. pose proof (page_V2P _ _ H) as (E & _ & _). rewrite E. unfold V2P.
  rewrite u32_small; [lia|]. destruct H as [_ _ H1 H2].
  unfold is_u32, KERNBASE, PHYSTOP, PGSIZE in *. lia.
Qed.

Lemma P2V_V2P v : is_u32 v -> P2V (V2P v) = v.
Proof.
  unfold P2V, V2P, u32, is_u32, KERNBASE. intros H. Z.div_mod_to_equations. lia.
Qed.

Lemma page_u32 e v : page_ok e v -> is_u32 v.
Proof. intros [_ _ H1 H2]. unfold is_u32, KERNBASE, PHYSTOP, PGSIZE in *. lia. Qed.

Lemma page_phys_aligned e v : page_ok e v -> V2P v `mod` PGSIZE = 0.
Proof.
  intros H. destruct (page_V2P _ _ H) as (-> & _ & _). destruct H as [H _ _ _].
  unfold PGSIZE, KERNBASE in *. Z.div_mod_to_equations. lia.
Qed.

Lemma kload_slot e t i s :
  page_ok e t -> 0 <= i < 1024 -> kload (t + 4 * i) s = Ok (rd32 (k_mem s) (V2P t + 4 * i)) s.
Proof. intros H Hi. rewrite kload_ok by eauto using kptr_slot. by erewrite V2P_slot. Qed.

Lemma kstore_slot e t i v s :
  page_ok e t -> 0 <= i < 1024 ->
  kstore (t + 4 * i) v s = Ok tt (set_mem (wr32 (k_mem s) (V2P t + 4 * i) v) s).
Proof. intros H Hi. rewrite kstore_ok by eauto using kptr_slot. by erewrite V2P_slot. Qed.

Lemma page_eq_wr32 e m t w i v :
  page_ok e t -> page_ok e w -> w <> t -> 0 <= i < 1024 ->
  page_eq m (wr32 m (V2P t + 4 * i) v) w.
Proof.
  intros Ht Hw Hne Hi a Ha. symmetry. apply rd8_wr32_ne.
  destruct (decide (in_page t a)) as [Hin|Hin].
  - by destruct (page_disjoint e w t a).
  - unfold in_page, PGSIZE in Hin. lia.
Qed.

Lemma page_eq_memset e m t w c :
  page_ok e t -> page_ok e w -> w <> t -> page_eq m (memset m (V2P t) c PGSIZE) w.
Proof.
  intros Ht Hw Hne a Ha. rewrite rd8_memset by (unfold PGSIZE; lia). rewrite decide_False; [done|].
  intros Hin. by apply (page_disjoint e w t a).
Qed.

Lemma page_eq_trans m1 m2 m3 v : page_eq m1 m2 v -> page_eq m2 m3 v -> page_eq m1 m3 v.
Proof. intros H1 H2 a Ha. rewrite H1 by done. by apply H2. Qed.

Lemma kinv_mem me s l m :
  kinv me s l -> bytes_ok m -> (forall v, v ∈ l -> page_eq (k_mem s) m v) ->
  kinv me (set_mem m s) l.
Proof.
  intros [Hc Hn Hb Hr Hl] Hm H. split; simpl; auto.
  eapply chain_ext; [|done]. intros w Hw%list_elem_of_In.
  pose proof (page_eq_rd32 _ _ w 0 (H w Hw) ltac:(lia)) as E.
  by rewrite !Z.add_0_r in E.
Qed.

(** ** Writing an entry *)

Section entries.
  Context (me : nat) (s : kst) (d : Z) (rest l : list Z).
  Context (H : pt_inv me s d rest l).

Lemma pt_page v : v ∈ pt_pages (k_mem s) d -> page_ok (k_end s) v.
Proof.
  intros Hv. pose proof (pi_ok _ _ _ _ _ H) as Hf. rewrite Forall_forall in Hf.
  apply Hf. rewrite elem_of_app. by left.
Qed.

Lemma rest_page v : v ∈ rest -> page_ok (k_end s) v.
Proof.
  intros Hv. pose proof (pi_ok _ _ _ _ _ H) as Hf. rewrite Forall_forall in Hf.
  apply Hf. rewrite elem_of_app. by right.
Qed.

Lemma free_page v : v ∈ l -> page_ok (k_end s) v.
Proof.
  intros Hv. pose proof (chain_pages _ _ _ _ (ki_chain _ _ _ (pi_k _ _ _ _ _ H))) as Hf.
  rewrite Forall_forall in Hf. by apply Hf.
Qed.

Lemma dir_page : page_ok (k_end s) d.
Proof. apply pt_page. by left. Qed.

Lemma table_page i t : 0 <= i < 1024 -> table (k_mem s) d i = Some t -> page_ok (k_end s) t.
Proof. intros Hi Ht. apply pt_page. by eapply table_in. Qed.

Lemma free_not_pt v : v ∈ l -> v ∉ pt_pages (k_mem s) d.
Proof.
  intros Hv Hp. pose proof (pi_nodup _ _ _ _ _ H) as Hn. apply NoDup_app in Hn as (_ & Hn & _).
  apply (Hn _ Hp). rewrite elem_of_app. by right.
Qed.

Lemma rest_not_pt v : v ∈ rest -> v ∉ pt_pages (k_mem s) d.
Proof.
  intros Hv Hp. pose proof (pi_nodup _ _ _ _ _ H) as Hn. apply NoDup_app in Hn as (_ & Hn & _).
  apply (Hn _ Hp). rewrite elem_of_app. by left.
Qed.

Lemma table_not_dir i t : 0 <= i < 1024 -> table (k_mem s) d i = Some t -> t <> d.
Proof.
  intros Hi Ht ->. pose proof (pi_nodup _ _ _ _ _ H) as Hn.
  apply NoDup_app in Hn as (Hn & _ & _). apply NoDup_cons in Hn as [Hn _].
  apply Hn. apply list_elem_of_omap. exists i. split; [by apply elem_of_seqZ|done].
Qed.

Lemma omap_NoDup_inj {A B} (f : A -> option B) (k : list A) x y z :
  NoDup (omap f k) -> x ∈ k -> y ∈ k -> f x = Some z -> f y = Some z -> x = y.
Proof.
  induction k as [|w k IH]; [by intros _ ?%elem_of_nil|].
  cbn. intros Hn Hx Hy Ex Ey. rewrite elem_of_cons in Hx, Hy.
  destruct Hx as [->|Hx], Hy as [->|Hy]; auto.
  - rewrite Ex in Hn. apply NoDup_cons in Hn as [[] _]. apply list_elem_of_omap. eauto.
  - rewrite Ey in Hn. apply NoDup_cons in Hn as [[] _]. apply list_elem_of_omap. eauto.
  - apply IH; auto. destruct (f w); [by apply NoDup_cons in Hn as [_ ?]|done].
Qed.

Lemma table_inj i j t :
  0 <= i < 1024 -> 0 <= j < 1024 -> table (k_mem s) d i = Some t -> table (k_mem s) d j = Some t ->
  i = j.
Proof.
  intros Hi Hj Ei Ej. pose proof (pi_nodup _ _ _ _ _ H) as Hn.
  apply NoDup_app in Hn as (Hn & _ & _). apply NoDup_cons in Hn as [_ Hn].
  eapply omap_NoDup_inj; [exact Hn| | |exact Ei|exact Ej]; by apply elem_of_seqZ.
Qed.

(** Writing the entry of [va] changes the lookups of its page only. *)
Context (va t v : Z) (Hva : is_u32 va) (Ht : table (k_mem s) d (PDX va) = Some t).
Context (Hv : is_u32 v).
Let m' : memory := wr32 (k_mem s) (V2P t + 4 * PTX va) v.

Lemma set_pte_page w : page_ok (k_end s) w -> w <> t -> page_eq (k_mem s) m' w.
Proof.
  intros Hw Hne. eapply page_eq_wr32; eauto using PTX_range.
  eapply table_page; [apply PDX_range|done].
Qed.

Lemma set_pte_dir : page_eq (k_mem s) m' d.
Proof.
  apply set_pte_page; [apply dir_page|]. intros E.
  eapply table_not_dir; [apply PDX_range|exact Ht|done].
Qed.

Lemma set_pte_tables i : 0 <= i < 1024 -> table m' d i = table (k_mem s) d i.
Proof. intros Hi. symmetry. apply table_ext; [apply set_pte_dir|done]. Qed.

Lemma set_pte_lookup vb :
  is_u32 vb ->
  lookup m' d vb = if decide (va / PGSIZE = vb / PGSIZE) then v else lookup (k_mem s) d vb.
Proof.
  intros Hvb. pose proof (PDX_range va) as R1. pose proof (PDX_range vb) as R2.
  pose proof (PTX_range va). pose proof (PTX_range vb).
  unfold lookup. rewrite set_pte_tables by done.
  destruct (decide (va / PGSIZE = vb / PGSIZE)) as [E|E].
  - rewrite <- (PDX_page _ _ E), Ht, <- (PTX_page _ _ E). by apply rd32_wr32_eq.
  - destruct (table (k_mem s) d (PDX vb)) as [t'|] eqn:Et'; [|done].
    destruct (decide (t' = t)) as [->|Hne].
    + apply rd32_wr32_ne. assert (PDX va = PDX vb) as ED by by eapply table_inj.
      destruct (decide (PTX va = PTX vb)) as [ET|ET]; [|lia].
      destruct E. by apply same_page.
    + symmetry. apply page_eq_rd32; [|done]. apply set_pte_page; [|done]. by eapply (table_page (PDX vb)).
Qed.

Lemma set_pte_inv : pt_inv me (set_mem m' s) d rest l.
Proof.
  pose proof (PDX_range va) as R1.
  assert (pt_pages m' d = pt_pages (k_mem s) d) as Ep
    by (symmetry; apply pt_pages_ext, set_pte_dir).
  destruct H as [Hk He Hok Hn]. split; cbn [k_mem set_mem k_end]; rewrite ?Ep; auto.
  apply kinv_mem; [done| |].
  - apply bytes_ok_wr32, Hk.
  - intros w Hw. apply set_pte_page; [by apply free_page|].
    intros ->. apply (free_not_pt _ Hw). by eapply table_in.
Qed.

End entries.

Lemma pde_word t e :
  page_ok e t ->
  let w := Z.lor (Z.lor (Z.lor (V2P t) PTE_P) PTE_W) PTE_U in
  is_u32 w /\ flag w PTE_P = true /\ P2V (PTE_ADDR w) = t.
Proof.
  intros H. cbv zeta. pose proof (page_phys_aligned _ _ H) as Ha.
  rewrite <- !Z.lor_assoc. change (Z.lor PTE_P (Z.lor PTE_W PTE_U)) with 7.
  rewrite lor_flags by (unfold PGSIZE in *; lia).
  rewrite (flag_low _ PTE_P) by (unfold PTE_P, PGSIZE; lia).
  rewrite PTE_FLAGS_add, PTE_ADDR_add by (unfold PGSIZE in *; lia).
  pose proof (page_V2P _ _ H) as (_ & H0 & H1). split_and!; [|done|].
  - unfold is_u32, PHYSTOP, PGSIZE in *. lia.
  - apply P2V_V2P. by eapply page_u32.
Qed.

(** Adding an empty page table. *)
Definition new_table_mem (m : memory) (d va t : Z) : memory :=
  wr32 (memset m (V2P t) 0 PGSIZE) (V2P d + 4 * PDX va)
    (Z.lor (Z.lor (Z.lor (V2P t) PTE_P) PTE_W) PTE_U).

Section new_table.
  Context (me : nat) (s : kst) (d : Z) (rest l : list Z) (t va : Z).
  Context (H : pt_inv me s d rest (t :: l)).
  Context (Hnone : table (k_mem s) d (PDX va) = None).
Let m' := new_table_mem (k_mem s) d va t.

Lemma new_page : page_ok (k_end s) t.
Proof. eapply free_page; [done|by left]. Qed.

Lemma new_not_dir : t <> d.
Proof. intros ->. apply (free_not_pt _ _ _ _ _ H d); [by left|by left]. Qed.

Lemma new_table_page w : page_ok (k_end s) w -> w <> t -> w <> d -> page_eq (k_mem s) m' w.
Proof.
  intros Hw Ht Hd. eapply page_eq_trans.
  - eapply page_eq_memset; [apply new_page|done|done].
  - eapply page_eq_wr32; [by eapply dir_page|done|done|apply PDX_range].
Qed.

Lemma new_table_entry i :
  0 <= i < 1024 -> table m' d i = if decide (i = PDX va) then Some t else table (k_mem s) d i.
Proof.
  intros Hi. pose proof new_page as Hp. pose proof (pde_word _ _ Hp) as (W1 & W2 & W3).
  pose proof (PDX_range va). unfold table, m', new_table_mem. case_decide as E.
  - subst i. rewrite rd32_wr32_eq by done. by rewrite W2, W3.
  - rewrite rd32_wr32_ne by lia.
    rewrite <- (page_eq_rd32 (k_mem s) (memset (k_mem s) (V2P t) 0 PGSIZE) d i); [done| |done].
    eapply page_eq_memset; [done|by eapply dir_page|apply not_eq_sym, new_not_dir].
Qed.

Lemma new_table_zero i : 0 <= i < 1024 -> rd32 m' (V2P t + 4 * i) = 0.
Proof.
  intros Hi. pose proof (PDX_range va). unfold m', new_table_mem.
  rewrite <- (page_eq_rd32 (memset (k_mem s) (V2P t) 0 PGSIZE)); [| |done].
  - unfold rd32. rewrite !rd8_memset by (unfold PGSIZE; lia).
    rewrite !decide_True by (unfold PGSIZE; lia). done.
  - eapply page_eq_wr32; [by eapply dir_page|apply new_page|apply new_not_dir|done].
Qed.

Lemma new_table_lookup vb : lookup m' d vb = lookup (k_mem s) d vb.
Proof.
  pose proof (PDX_range vb) as R. pose proof (PTX_range vb) as RT. unfold lookup.
  rewrite new_table_entry by done. case_decide as E.
  - rewrite E, Hnone. by apply new_table_zero.
  - destruct (table (k_mem s) d (PDX vb)) as [w|] eqn:Ew; [|done].
    symmetry. apply page_eq_rd32; [|done]. apply new_table_page.
    + by eapply (table_page _ _ _ _ _ H (PDX vb)).
    + intros ->. apply (free_not_pt _ _ _ _ _ H t); [by left|by eapply (table_in _ _ (PDX vb))].
    + by eapply (table_not_dir _ _ _ _ _ H (PDX vb)).
Qed.

Lemma new_table_pages : pt_pages m' d ≡ₚ t :: pt_pages (k_mem s) d.
Proof.
  unfold pt_pages. rewrite Permutation_swap. constructor.
  apply omap_add with (PDX va); [apply NoDup_seqZ|apply elem_of_seqZ, PDX_range|done| |].
  - rewrite new_table_entry by apply PDX_range. by case_decide.
  - intros i Hi%elem_of_seqZ Hne. rewrite new_table_entry by done. by case_decide.
Qed.

Lemma new_table_inv s1 :
  kinv me s1 l -> k_mem s1 = k_mem s -> k_end s1 = k_end s ->
  pt_inv me (set_mem m' s1) d rest l.
Proof.
  intros Hk Em Ee. pose proof (pi_ok _ _ _ _ _ H) as Hok. pose proof (pi_nodup _ _ _ _ _ H) as Hn.
  split; cbn [k_mem set_mem k_end]; rewrite ?new_table_pages, ?Ee.
  - apply kinv_mem; [done| |].
    + apply bytes_ok_wr32, bytes_ok_memset; [apply H|unfold PGSIZE; lia].
    + intros w Hw. rewrite Em. apply new_table_page.
      * eapply free_page; [done|by right].
      * intros ->. pose proof (ki_nodup _ _ _ (pi_k _ _ _ _ _ H)) as Hd.
        by apply NoDup_cons in Hd as [? _].
      * intros ->. apply (free_not_pt _ _ _ _ _ H d); [by right|by left].
  - apply H.
  - constructor; [apply new_page|done].
  - revert Hn. apply NoDup_Permutation_proper.
    rewrite <- app_comm_cons, !app_assoc. by rewrite Permutation_middle.
Qed.
End new_table.

(** ** walkpgdir *)

(** What [walkpgdir] and [mappages] may do: turn free pages into page tables. *)
Record pt_step (d : Z) (s : kst) (l : list Z) (s' : kst) (l' : list Z) : Prop := PtStep {
  ps_end : k_end s' = k_end s;
  ps_perm : pt_pages (k_mem s') d ++ l' ≡ₚ pt_pages (k_mem s) d ++ l;
  ps_mono : forall v, v ∈ pt_pages (k_mem s) d -> v ∈ pt_pages (k_mem s') d;
  ps_frame : forall v, page_ok (k_end s) v -> v ∉ pt_pages (k_mem s') d ->
               page_eq (k_mem s) (k_mem s') v
}.

Lemma pt_step_refl d s l : pt_step d s l s l.
Proof. split; auto. by intros v _ _ a _. Qed.

Lemma pt_step_trans d s1 l1 s2 l2 s3 l3 :
  pt_step d s1 l1 s2 l2 -> pt_step d s2 l2 s3 l3 -> pt_step d s1 l1 s3 l3.
Proof.
  intros [E1 P1 M1 F1] [E2 P2 M2 F2]. split; auto.
  - by rewrite E2.
  - by rewrite P2.
  - intros v Hv Hn. eapply page_eq_trans; [apply F1|apply F2]; auto. by rewrite E1.
Qed.

Lemma pt_step_set_pte me s d rest l va t v :
  pt_inv me s d rest l -> table (k_mem s) d (PDX va) = Some t ->
  pt_step d s l (set_mem (wr32 (k_mem s) (V2P t + 4 * PTX va) v) s) l.
Proof.
  intros H Ht.
  assert (pt_pages (wr32 (k_mem s) (V2P t + 4 * PTX va) v) d = pt_pages (k_mem s) d) as E.
  { symmetry. apply pt_pages_ext. by eapply set_pte_dir. }
  split; cbn [k_mem set_mem k_end]; rewrite ?E; auto.
  intros w Hw Hn. eapply set_pte_page; eauto. intros ->. apply Hn.
  eapply table_in; [apply PDX_range|done].
Qed.

Lemma walkpgdir_lookup me s d rest l va :
  pt_inv me s d rest l ->
  walkpgdir d va false s =
  Ok (match table (k_mem s) d (PDX va) with Some t => t + 4 * PTX va | None => 0 end) s.
Proof.
  intros H. unfold walkpgdir. mstep kload_slot; [|by eapply dir_page|apply PDX_range].
  unfold table. by destruct (flag _ _).
Qed.

Lemma walkpgdir_alloc me s d rest l va :
  pt_inv me s d rest l ->
  exists r s' l', walkpgdir d va true s = Ok r s' /\ pt_inv me s' d rest l' /\
    pt_step d s l s' l' /\ (forall vb, lookup (k_mem s') d vb = lookup (k_mem s) d vb) /\
    match table (k_mem s') d (PDX va) with
    | Some t => r = t + 4 * PTX va
    | None => r = 0 /\ l = [] /\ k_mem s' = k_mem s
    end.
Proof.
  intros H. unfold walkpgdir.
  pose proof (dir_page _ _ _ _ _ H) as Hd. pose proof (PDX_range va) as R.
  destruct (table (k_mem s) d (PDX va)) as [t|] eqn:Et.
  - eexists _, s, l. split_and!; eauto using pt_step_refl; [|by rewrite Et].
    mstep kload_slot; [|done|done]. unfold table in Et.
    destruct (flag _ _); [|done]. by injection Et as <-.
  - pose proof Et as Et'. unfold table in Et'.
    destruct (flag _ _) eqn:F; [done|].
    destruct l as [|t l].
    + destruct (kalloc_none _ _ (pi_k _ _ _ _ _ H)) as (s1 & E1 & K1 & M1 & N1).
      exists 0, s1, []. split_and!.
      * mstep kload_slot; [|done|done]. rewrite F. cbn. by mstep E1.
      * destruct H as [_ He Hok Hn]. by split; rewrite ?M1, ?N1.
      * split; rewrite ?M1; auto. by intros v _ _ a _.
      * by rewrite M1.
      * by rewrite M1, Et.
    + destruct (kalloc_step _ _ _ _ (pi_k _ _ _ _ _ H)) as (s1 & E1 & K1 & M1 & N1).
      pose proof (new_page _ _ _ _ _ _ H) as Hp.
      exists (t + 4 * PTX va), (set_mem (new_table_mem (k_mem s) d va t) s1), l. split_and!.
      * mstep kload_slot; [|done|done]. rewrite F. cbn. mstep E1.
        rewrite (proj2 (Z.eqb_neq t 0)) by (by eapply page_nonzero).
        mstep kmemset_page; [|done]. mstep kstore_slot; [|done|done].
        cbn [k_mem set_mem]. by rewrite M1.
      * by eapply new_table_inv.
      * split; cbn [k_mem set_mem k_end]; auto.
        -- rewrite (new_table_pages _ _ _ _ _ _ _ H Et). rewrite <- app_comm_cons. by rewrite Permutation_middle.
        -- intros v Hv. rewrite (new_table_pages _ _ _ _ _ _ _ H Et). by right.
        -- intros v Hv. rewrite (new_table_pages _ _ _ _ _ _ _ H Et). intros Hn.
           apply (new_table_page _ _ _ _ _ _ _ H); [done| |]; intros ->; apply Hn; [by left|by right; left].
      * intros vb. by eapply new_table_lookup.
      * cbn [k_mem set_mem]. rewrite (new_table_entry _ _ _ _ _ _ _ H) by done. by case_decide.
Qed.

(** ** Allocating and freeing under a directory *)

Lemma pt_rest_perm me s d rest rest' l :
  rest ≡ₚ rest' -> pt_inv me s d rest l -> pt_inv me s d rest' l.
Proof. intros P [Hk He Hok Hn]. split; auto; by rewrite <- P. Qed.

Lemma pt_kalloc me s d rest v l :
  pt_inv me s d rest (v :: l) ->
  exists s', kalloc s = Ok v s' /\ pt_inv me s' d (v :: rest) l /\
    k_mem s' = k_mem s /\ k_end s' = k_end s.
Proof.
  intros H. destruct (kalloc_step _ _ _ _ (pi_k _ _ _ _ _ H)) as (s' & E & K & Em & Ee).
  exists s'. split_and!; auto. pose proof (free_page _ _ _ _ _ H v) as Hp.
  destruct H as [Hk He Hok Hn]. split; rewrite ?Em, ?Ee; auto.
  - rewrite <- Permutation_middle. constructor; [apply Hp; by left|done].
  - revert Hn. apply NoDup_Permutation_proper. cbn [app]. by rewrite (Permutation_middle rest).
Qed.

Lemma pt_kalloc_none me s d rest :
  pt_inv me s d rest [] ->
  exists s', kalloc s = Ok 0 s' /\ pt_inv me s' d rest [] /\ k_mem s' = k_mem s /\
    k_end s' = k_end s.
Proof.
  intros H. destruct (kalloc_none _ _ (pi_k _ _ _ _ _ H)) as (s' & E & K & Em & Ee).
  exists s'. split_and!; auto. destruct H as [Hk He Hok Hn]. by split; rewrite ?Em, ?Ee.
Qed.

Lemma page_eq_off e m1 m2 v :
  page_ok e v -> (forall a, ~ in_page v a -> rd8 m2 a = rd8 m1 a) ->
  forall w, page_ok e w -> w <> v -> page_eq m1 m2 w.
Proof. intros Hv H w Hw Hne a Ha. symmetry. apply H. intros Hin. by apply (page_disjoint e w v a). Qed.

(** Changing the contents of a page in use keeps the directory. *)
Lemma pt_write me s d v rest l m :
  pt_inv me s d (v :: rest) l -> bytes_ok m ->
  (forall w, page_ok (k_end s) w -> w <> v -> page_eq (k_mem s) m w) ->
  pt_inv me (set_mem m s) d (v :: rest) l /\
  pt_pages m d = pt_pages (k_mem s) d /\
  (forall va, lookup m d va = lookup (k_mem s) d va).
Proof.
  intros H Hm Hw.
  assert (v ∉ pt_pages (k_mem s) d) as Hv by (eapply rest_not_pt; [done|by left]).
  assert (forall w, w ∈ pt_pages (k_mem s) d -> page_eq (k_mem s) m w) as Hp.
  { intros w Hin. apply Hw; [by eapply pt_page|]. by intros ->. }
  assert (pt_pages m d = pt_pages (k_mem s) d) as Ep
    by (symmetry; apply pt_pages_ext, Hp; by left).
  split_and!; auto.
  - pose proof (free_page _ _ _ _ _ H) as Hf. destruct H as [Hk He Hok Hn].
    split; cbn [k_mem set_mem k_end]; rewrite ?Ep; auto.
    apply kinv_mem; auto. intros w Hin. apply Hw; [auto|]. intros ->.
    apply NoDup_app in Hn as (_ & _ & Hn). cbn [app] in Hn. apply NoDup_cons in Hn as [Hn _].
    apply Hn. rewrite elem_of_app. by right.
  - intros va. symmetry. by apply lookup_ext.
Qed.

Lemma pt_kfree me s d v rest l :
  pt_inv me s d (v :: rest) l ->
  exists s', kfree v s = Ok tt s' /\ pt_inv me s' d rest (v :: l) /\ k_end s' = k_end s /\
    pt_pages (k_mem s') d = pt_pages (k_mem s) d /\
    (forall va, lookup (k_mem s') d va = lookup (k_mem s) d va) /\
    (forall w, page_ok (k_end s) w -> w <> v -> page_eq (k_mem s) (k_mem s') w).
Proof.
  intros H. assert (page_ok (k_end s) v) as Hv by (eapply rest_page; [done|by left]).
  assert (v ∉ l) as Hl.
  { pose proof (pi_nodup _ _ _ _ _ H) as Hn. apply NoDup_app in Hn as (_ & _ & Hn).
    cbn [app] in Hn. apply NoDup_cons in Hn as [Hn _]. set_solver. }
  destruct (kfree_step _ _ _ _ (pi_k _ _ _ _ _ H) Hv Hl) as (s' & E & K & Ee & Em).
  pose proof (page_eq_off _ _ _ _ Hv Em) as Hw.
  destruct (pt_write me s d v rest l (k_mem s') H) as (_ & Ep & El); auto; [apply K|].
  exists s'. split_and!; auto. destruct H as [Hk He Hok Hn].
  split; rewrite ?Ep, ?Ee; auto.
  - apply Forall_app in Hok as [H1 H2]. apply Forall_app. split; [done|].
    by apply Forall_cons in H2 as [_ ?].
  - revert Hn. apply NoDup_Permutation_proper. cbn [app]. by rewrite (Permutation_middle rest).
Qed.

(** ** mappages *)

(** [maps m d a k pa perm m']: [m'] maps the [k] pages from [a] to [pa] on and
    looks up everything else as [m] does. *)
Definition maps (d : Z) (m : memory) (a k pa perm : Z) (m' : memory) : Prop :=
  forall vb, is_u32 vb ->
    lookup m' d vb =
      if decide (a <= vb < a + k * PGSIZE)
      then pa + PGSIZE * ((vb - a) / PGSIZE) + pte_flags perm else lookup m d vb.

Lemma page_index a vb :
  a `mod` PGSIZE = 0 -> a / PGSIZE = vb / PGSIZE <-> a <= vb < a + PGSIZE.
Proof. unfold PGSIZE. intros. split; intros; Z.div_mod_to_equations; lia. Qed.

Lemma aligned_add a k : a `mod` PGSIZE = 0 -> (a + k * PGSIZE) `mod` PGSIZE = 0.
Proof. intros. by rewrite Z.mod_add by done. Qed.

Lemma mapped_entry pa perm :
  pa `mod` PGSIZE = 0 -> 0 <= perm < PGSIZE -> mapped (pa + pte_flags perm) = true.
Proof.
  intros Ha Hp. pose proof (pte_flags_ok _ Hp) as (R & F & _). unfold mapped.
  rewrite flag_low by (vm_compute; split; done || discriminate).
  by rewrite PTE_FLAGS_add.
Qed.

Lemma entry_u32 pa perm :
  pa `mod` PGSIZE = 0 -> 0 <= pa -> pa + PGSIZE <= 2 ^ 32 -> 0 <= perm < PGSIZE ->
  is_u32 (pa + pte_flags perm).
Proof.
  intros Ha H0 H1 Hp. pose proof (pte_flags_ok _ Hp) as (R & _). unfold is_u32, PGSIZE in *. lia.
Qed.

Section mappages.
  Context (me : nat) (d : Z) (rest : list Z) (perm : Z) (Hperm : 0 <= perm < PGSIZE).

(** One turn of the loop: the page table is found or made, the entry is set. *)
Lemma mappages_one s l a pa :
  pt_inv me s d rest l -> is_u32 a -> a `mod` PGSIZE = 0 -> pa `mod` PGSIZE = 0 ->
  0 <= pa -> pa + PGSIZE <= 2 ^ 32 -> mapped (lookup (k_mem s) d a) = false ->
  exists pte s1 l1, walkpgdir d a true s = Ok pte s1 /\
    ((pte = 0 /\ l1 = [] /\ pt_inv me s1 d rest l1 /\ pt_step d s l s1 l1 /\
      maps d (k_mem s) a 0 pa perm (k_mem s1)) \/
     (pte <> 0 /\ exists s2,
      kload pte s1 = Ok (lookup (k_mem s) d a) s1 /\
      kstore pte (mk_pte pa perm) s1 = Ok tt s2 /\
      pt_inv me s2 d rest l1 /\ pt_step d s l s2 l1 /\
      maps d (k_mem s) a 1 pa perm (k_mem s2))).
Proof.
  intros H Ha Haa Hpa Hp0 Hp1 Hun.
  destruct (walkpgdir_alloc me s d rest l a H) as (r & s1 & l1 & E1 & H1 & St1 & L1 & R1).
  exists r, s1, l1. split; [done|].
  destruct (table (k_mem s1) d (PDX a)) as [t|] eqn:Et.
  - right. pose proof (PTX_range a) as RT.
    assert (page_ok (k_end s1) t) as Ht by (eapply table_page; [done|apply PDX_range|done]).
    split; [pose proof (page_nonzero _ _ Ht); destruct Ht; unfold KERNBASE in *; lia|].
    eexists. split_and!.
    + rewrite R1. rewrite (kload_slot _ _ _ _ Ht RT). f_equal.
      rewrite <- L1. unfold lookup. by rewrite Et.
    + rewrite R1. by apply (kstore_slot _ _ _ _ _ Ht RT).
    + by eapply set_pte_inv.
    + eapply pt_step_trans; [done|]. by eapply pt_step_set_pte.
    + intros vb Hvb. cbn [k_mem set_mem]. rewrite mk_pte_eq by done.
      rewrite (set_pte_lookup me s1 d rest l1 H1 a) by (done || by apply entry_u32).
      rewrite L1, Z.mul_1_l. pose proof (page_index a vb Haa) as PI.
      repeat case_decide; try done; try tauto.
      rewrite Z.div_small by lia. lia.
  - left. destruct R1 as (-> & -> & Em).
    assert (l1 = []) as ->.
    { pose proof (ps_perm _ _ _ _ _ St1) as P. rewrite Em, app_nil_r in P.
      apply Permutation_length in P. rewrite length_app in P. destruct l1; [done|cbn [length] in P; lia]. }
    split_and!; auto. intros vb _. rewrite L1. rewrite decide_False by lia. done.
Qed.

Lemma mappages_loop_ok n : forall s l a pa fuel,
  pt_inv me s d rest l -> 0 <= a -> a `mod` PGSIZE = 0 -> pa `mod` PGSIZE = 0 -> 0 <= pa ->
  a + Z.of_nat (S n) * PGSIZE <= 2 ^ 32 -> pa + Z.of_nat (S n) * PGSIZE <= 2 ^ 32 ->
  (forall vb, a <= vb < a + Z.of_nat (S n) * PGSIZE -> mapped (lookup (k_mem s) d vb) = false) ->
  (n < fuel)%nat ->
  exists r s' l' k,
    mappages_loop fuel d a (a + Z.of_nat n * PGSIZE) pa perm s = Ok r s' /\
    pt_inv me s' d rest l' /\ pt_step d s l s' l' /\
    maps d (k_mem s) a k pa perm (k_mem s') /\
    ((r = 0 /\ k = Z.of_nat (S n)) \/ (r = -1 /\ 0 <= k < Z.of_nat (S n) /\ l' = [])).
Proof.
  induction n as [|n IH]; intros s l a pa [|fuel] H Ha Haa Hpa Hp0 Hl1 Hl2 Hun Hf; try lia;
    cbn [mappages_loop];
    (destruct (mappages_one s l a pa H) as (pte & s1 & l1 & E1 & [(-> & -> & H1 & S1 & M1)|
      (Hne & s2 & E2 & E3 & H2 & S2 & M2)]);
      [unfold is_u32, PGSIZE in *; lia|done|done|done|unfold PGSIZE in *; lia|
       apply Hun; unfold PGSIZE; lia| |]; mstep E1).
  1,3: exists (-1), s1, [], 0; split_and!; auto; right; split_and!; auto; lia.
  all: rewrite (proj2 (Z.eqb_neq pte 0)) by done; mstep E2;
    fold (mapped (lookup (k_mem s) d a)); rewrite Hun by (unfold PGSIZE in *; lia); mstep E3.
  - rewrite (proj2 (Z.eqb_eq a _)) by lia. eexists 0, s2, l1, 1. split_and!; auto.
  - rewrite (proj2 (Z.eqb_neq a _)) by (unfold PGSIZE in *; lia).
    rewrite !u32_small by (unfold is_u32, PGSIZE in *; lia).
    destruct (IH s2 l1 (a + PGSIZE) (pa + PGSIZE) fuel H2) as (r & s' & l' & k & E & H' & S' & M' & R).
    + unfold PGSIZE; lia.
    + by apply (aligned_add a 1).
    + by apply (aligned_add pa 1).
    + unfold PGSIZE in *; lia.
    + lia.
    + lia.
    + intros vb Hvb. rewrite M2 by (unfold is_u32, PGSIZE in *; lia).
      rewrite decide_False by lia. apply Hun. unfold PGSIZE in *; lia.
    + lia.
    + exists r, s', l', (k + 1). split_and!.
      * rewrite <- E. f_equal. lia.
      * done.
      * by eapply pt_step_trans.
      * assert (0 <= k) by (destruct R as [(_ & ->)|(_ & ? & _)]; lia).
        intros vb Hvb. rewrite M', M2 by done. unfold PGSIZE in *.
        repeat case_decide; try lia; f_equal.
        replace (vb - a) with (vb - (a + 4096) + 1 * 4096) by lia.
        rewrite (Z.div_add _ 1) by lia. lia.
      * destruct R as [(-> & ->)|(-> & ? & ->)]; [left; lia|right; split_and!; auto; lia].
Qed.
End mappages.

Lemma mappages_ok me s d rest l perm va n pa :
  pt_inv me s d rest l -> 0 <= perm < PGSIZE -> 0 <= va -> va `mod` PGSIZE = 0 ->
  pa `mod` PGSIZE = 0 -> 0 <= pa -> 0 < n ->
  va + n * PGSIZE <= 2 ^ 32 -> pa + n * PGSIZE <= 2 ^ 32 ->
  (forall vb, va <= vb < va + n * PGSIZE -> mapped (lookup (k_mem s) d vb) = false) ->
  exists r s' l' k,
    mappages d va (n * PGSIZE) pa perm s = Ok r s' /\
    pt_inv me s' d rest l' /\ pt_step d s l s' l' /\
    maps d (k_mem s) va k pa perm (k_mem s') /\
    ((r = 0 /\ k = n) \/ (r = -1 /\ 0 <= k < n /\ l' = [])).
Proof.
  intros H Hp Hv Hva Hpa Hp0 Hn Hl1 Hl2 Hun.
  assert (exists n', n = Z.of_nat (S n')) as [n' ->] by (exists (Z.to_nat (n - 1)); lia).
  unfold mappages. rewrite (PGROUNDDOWN_id va) by done.
  assert (PGROUNDDOWN (u32 (va + Z.of_nat (S n') * PGSIZE - 1)) = va + Z.of_nat n' * PGSIZE) as ->.
  { rewrite u32_small by (unfold is_u32, PGSIZE in *; lia).
    rewrite PGROUNDDOWN_eq. unfold PGSIZE in *. clear -Hva. Z.div_mod_to_equations. lia. }
  replace (u32 (va + Z.of_nat n' * PGSIZE - va) / PGSIZE) with (Z.of_nat n').
  2:{ rewrite u32_small by (unfold is_u32, PGSIZE in *; lia).
      replace (va + Z.of_nat n' * PGSIZE - va) with (Z.of_nat n' * PGSIZE) by lia.
      by rewrite Z.div_mul. }
  destruct (mappages_loop_ok me d rest perm Hp n' s l va pa (S (Z.to_nat (Z.of_nat n'))))
    as (r & s' & l' & k & R); auto; [lia|].
  by exists r, s', l', k.
Qed.

(** A mapped page has a page table, and mapping it again panics. *)
Lemma mapped_table m d va : mapped (lookup m d va) = true -> is_Some (table m d (PDX va)).
Proof. unfold lookup. by destruct (table m d (PDX va)). Qed.

Lemma lookup_table m d va t :
  table m d (PDX va) = Some t -> rd32 m (V2P t + 4 * PTX va) = lookup m d va.
Proof. intros E. unfold lookup. by rewrite E. Qed.

Lemma mappages_remap me s d rest l va size pa perm :
  pt_inv me s d rest l -> mapped (lookup (k_mem s) d va) = true ->
  mappages d va size pa perm s = Panic "remap".
Proof.
  intros H Hm.
  assert (mapped (lookup (k_mem s) d (PGROUNDDOWN va)) = true) as Hm'.
  { rewrite <- Hm. f_equal. apply lookup_page. rewrite PGROUNDDOWN_eq. unfold PGSIZE.
    clear. Z.div_mod_to_equations. lia. }
  destruct (mapped_table _ _ _ Hm') as [t Et].
  unfold mappages. cbn [mappages_loop].
  destruct (walkpgdir_alloc me s d rest l (PGROUNDDOWN va) H) as (r & s1 & l1 & E1 & H1 & St1 & L1 & R1).
  mstep E1. rewrite <- L1 in Hm'. destruct (mapped_table _ _ _ Hm') as [t1 Et1].
  rewrite Et1 in R1.
  assert (page_ok (k_end s1) t1) as Ht by (eapply table_page; [done|apply PDX_range|done]).
  rewrite (proj2 (Z.eqb_neq r 0)).
  - rewrite R1. mstep kload_slot; [|done|apply PTX_range].
    rewrite (lookup_table _ _ _ _ Et1). fold (mapped (lookup (k_mem s1) d (PGROUNDDOWN va))).
    by rewrite Hm'.
  - pose proof (PTX_range (PGROUNDDOWN va)).
    pose proof (page_nonzero _ _ Ht). destruct Ht. unfold KERNBASE in *. lia.
Qed.

(** [walkpgdir] finds the entry of an address: without [alloc] it changes nothing
    and returns 0 exactly when the page table is missing; with [alloc] it fails only
    when the free list is empty, and otherwise the page table exists, the result is
    the address of the entry, every translation is as before, the only pages
    written are page tables, and the pages taken from the free list are exactly the
    new page tables. *)
Theorem walkpgdir_spec (me : nat) (s : kst) (d : Z) (rest l : list Z) (va : Z)
  (H : pt_inv me s d rest l) :
  (exists r, walkpgdir d va false s = Ok r s /\
     (r = 0 <-> table (k_mem s) d (PDX va) = None) /\
     (r <> 0 -> kload r s = Ok (lookup (k_mem s) d va) s)) /\
  (exists r s' l', walkpgdir d va true s = Ok r s' /\ pt_inv me s' d rest l' /\
     (forall vb, lookup (k_mem s') d vb = lookup (k_mem s) d vb) /\
     pt_pages (k_mem s') d ++ l' ≡ₚ pt_pages (k_mem s) d ++ l /\
     (forall v, page_ok (k_end s) v -> v ∉ pt_pages (k_mem s') d ->
        page_eq (k_mem s) (k_mem s') v) /\
     (r = 0 -> l = []) /\
     (r <> 0 -> kload r s' = Ok (lookup (k_mem s') d va) s')).
Proof.
  assert (forall s l t, pt_inv me s d rest l -> table (k_mem s) d (PDX va) = Some t ->
    t + 4 * PTX va <> 0 /\ kload (t + 4 * PTX va) s = Ok (lookup (k_mem s) d va) s) as Hslot.
  { intros s0 l0 t H0 Et. pose proof (PTX_range va).
    assert (page_ok (k_end s0) t) as Ht by (eapply table_page; [done|apply PDX_range|done]).
    split.
    - pose proof (page_nonzero _ _ Ht). destruct Ht. unfold KERNBASE in *. lia.
    - erewrite kload_slot by done. by rewrite (lookup_table _ _ _ _ Et). }
  split.
  - eexists. split; [by eapply walkpgdir_lookup|].
    destruct (table (k_mem s) d (PDX va)) as [t|] eqn:Et; [|done].
    by destruct (Hslot _ _ _ H Et).
  - destruct (walkpgdir_alloc me s d rest l va H) as (r & s' & l' & E & H' & [] & L & R).
    exists r, s', l'. split_and!; auto.
    + intros ->. destruct (table (k_mem s') d (PDX va)) as [t|] eqn:Et; [|by destruct R as (_ & ? & _)].
      by destruct (Hslot _ _ _ H' Et).
    + intros Hr. destruct (table (k_mem s') d (PDX va)) as [t|] eqn:Et; [|by destruct R].
      subst r. by apply (Hslot _ l').
Qed.

(** [mappages] of [n] unmapped pages returns 0 with every page of the range mapped
    to its frame with the permission bits and the present bit, or, for an encrypted
    mapping, the encrypted bit and no present bit; every other
    translation is unchanged. When page tables run out it returns -1 with a prefix of
    the range mapped and the free list empty, and on a page already mapped it panics. *)
Theorem mappages_spec (me : nat) (s : kst) (d : Z) (rest l : list Z) (perm va n pa : Z)
  (H : pt_inv me s d rest l) (Hp : 0 <= perm < PGSIZE) (Hv : 0 <= va)
  (Hva : va `mod` PGSIZE = 0) (Hpa : pa `mod` PGSIZE = 0) (Hp0 : 0 <= pa) (Hn : 0 < n)
  (Hl1 : va + n * PGSIZE <= 2 ^ 32) (Hl2 : pa + n * PGSIZE <= 2 ^ 32) :
  (mapped (lookup (k_mem s) d va) = true ->
     mappages d va (n * PGSIZE) pa perm s = Panic "remap") /\
  ((forall vb, va <= vb < va + n * PGSIZE -> mapped (lookup (k_mem s) d vb) = false) ->
   exists r s' l' k, mappages d va (n * PGSIZE) pa perm s = Ok r s' /\
     pt_inv me s' d rest l' /\
     pt_pages (k_mem s') d ++ l' ≡ₚ pt_pages (k_mem s) d ++ l /\
     ((r = 0 /\ k = n) \/ (r = -1 /\ 0 <= k < n /\ l' = [])) /\
     forall vb, is_u32 vb ->
       if decide (va <= vb < va + k * PGSIZE) then
         PTE_ADDR (lookup (k_mem s') d vb) = pa + PGSIZE * ((vb - va) / PGSIZE) /\
         flag (lookup (k_mem s') d vb) PTE_E = flag perm PTE_E /\
         flag (lookup (k_mem s') d vb) PTE_P = negb (flag perm PTE_E) /\
         flag (lookup (k_mem s') d vb) PTE_U = flag perm PTE_U /\
         flag (lookup (k_mem s') d vb) PTE_W = flag perm PTE_W
       else lookup (k_mem s') d vb = lookup (k_mem s) d vb).
Proof.
  split; [by eapply mappages_remap|]. intros Hun.
  destruct (mappages_ok me s d rest l perm va n pa) as (r & s' & l' & k & E & H' & [_ P _ _] & M & R);
    auto.
  exists r, s', l', k. split_and!; auto. intros vb Hvb. rewrite (M vb Hvb).
  case_decide as Hr; [|done].
  assert ((pa + PGSIZE * ((vb - va) / PGSIZE)) `mod` PGSIZE = 0) as Ha
    by (rewrite (Z.mul_comm PGSIZE); by apply aligned_add).
  pose proof (pte_flags_ok _ Hp) as (F0 & _ & F1 & F2 & F3 & F4).
  rewrite PTE_ADDR_add by done. split; [done|].
  rewrite !(flag_low (_ + _)) by (unfold PTE_E, PTE_P, PTE_U, PTE_W, PGSIZE; lia).
  by rewrite PTE_FLAGS_add by done.
Qed.

(** An empty directory, and one free page. *)
Definition demo_dir : Z := KERNBASE + 0x300000.

Lemma demo_pt_inv : pt_inv 1 demo_kst1 demo_dir [] [demo_page].
Proof.
  assert (pt_pages (k_mem demo_kst1) demo_dir = [demo_dir]) as E by (vm_compute; reflexivity).
  split; rewrite ?E; cbn [app].
  - apply demo_kinv.
  - done.
  - repeat constructor; vm_compute; congruence.
  - apply (bool_decide_unpack _). vm_compute. done.
Qed.

Lemma demo_unmapped va : lookup (k_mem demo_kst1) demo_dir va = 0.
Proof.
  assert (forall i, table (k_mem demo_kst1) demo_dir i = None) as E by done.
  unfold lookup. by rewrite E.
Qed.

Lemma walkpgdir_spec_witness :
  exists s', walkpgdir demo_dir 0x1000 false demo_kst1 = Ok 0 demo_kst1 /\
    exists r, walkpgdir demo_dir 0x1000 true demo_kst1 = Ok r s' /\ r <> 0.
Proof.
  destruct (walkpgdir_spec 1 demo_kst1 demo_dir [] [demo_page] 0x1000 demo_pt_inv)
    as ((r & E & R & _) & (r' & s' & l' & E' & _ & _ & _ & _ & Z0 & _)).
  exists s'. split; [rewrite E; f_equal; apply R; reflexivity|].
  exists r'. split; [exact E'|]. intros Hr. discriminate (Z0 Hr).
Defined.

Lemma mappages_spec_witness :
  exists r s', mappages demo_dir 0x1000 PGSIZE 0x400000 6 demo_kst1 = Ok r s' /\ -1 <= r <= 0.
Proof.
  destruct (mappages_spec 1 demo_kst1 demo_dir [] [demo_page] 6 0x1000 1 0x400000 demo_pt_inv
    ltac:(unfold PGSIZE; lia) ltac:(lia) eq_refl eq_refl ltac:(lia) ltac:(lia)
    ltac:(unfold PGSIZE; lia) ltac:(unfold PGSIZE; lia)) as (_ & A).
  destruct A as (r & s' & l' & k & E & _ & _ & R & _).
  - intros vb _. rewrite demo_unmapped. reflexivity.
  - exists r, s'. split; [exact E|]. destruct R as [[-> _]|[-> _]]; lia.
Defined.
