(* ===== verification/Uvm.v ===== *)
(** * User address spaces: the rest of p6/vm.c

    Growing, shrinking, copying, freeing an address space and copying out to it,
    on top of [walkpgdir] and [mappages]. The conditions on an address space
    say which virtual pages are mapped and to which pages; the page accounting
    of every operation is a permutation between the page tables, the pages
    mapped and the free list. *)

From S2P Require Import Prelude Cstring Spinlock Kalloc PageTable.

Definition EXTMEM : Z := 0x100000.
Definition KERNLINK : Z := KERNBASE + EXTMEM.
Definition DEVSPACE : Z := 0xFE000000.
Definition KSTACKSIZE : Z := 4096.
Definition NPTENTRIES : Z := 1024.

Definition kmemmove (dst src n : Z) : M kst unit := fun s =>
  if (KERNBASE <=? dst) && (dst + n <=? KERNBASE + PHYSTOP) &&
     (KERNBASE <=? src) && (src + n <=? KERNBASE + PHYSTOP)
  then Ok tt (set_mem (memmove (k_mem s) (V2P dst) (V2P src) n) s) else Undef.

(** ** deallocuvm and freevm *)

Fixpoint deallocuvm_loop (fuel : nat) (pgdir a oldsz : Z) : M kst unit :=
  match fuel with
  | O => hang
  | S fuel' =>
    if a <? oldsz then
      pte ← walkpgdir pgdir a false;
      if pte =? 0 then
        deallocuvm_loop fuel' pgdir (u32 (u32 (PGADDR (PDX a + 1) 0 0 - PGSIZE) + PGSIZE)) oldsz
      else
        v ← kload pte;
        (if mapped v then
           let pa := PTE_ADDR v in
           if pa =? 0 then panic "kfree" else
           kfree (P2V pa);;
           kstore pte 0
         else mret tt);;
        deallocuvm_loop fuel' pgdir (u32 (a + PGSIZE)) oldsz
    else mret tt
  end.

Definition deallocuvm (pgdir oldsz newsz : Z) : M kst Z :=
  if oldsz <=? newsz then mret (s32 oldsz) else
  deallocuvm_loop (S (S (Z.to_nat (oldsz / PGSIZE)))) pgdir (PGROUNDUP newsz) oldsz;;
  mret (s32 newsz).

(** [for(i = 0; i < NPDENTRIES; i++)] of [freevm], counting the entries left. *)
Fixpoint freevm_loop (n : nat) (pgdir : Z) : M kst unit :=
  match n with
  | O => mret tt
  | S n' =>
    let i := NPDENTRIES - Z.of_nat n in
    e ← kload (pgdir + 4 * i);
    when (flag e PTE_P) (kfree (P2V (PTE_ADDR e)));;
    freevm_loop n' pgdir
  end.

Definition freevm (pgdir : Z) : M kst unit :=
  if pgdir =? 0 then panic "freevm: no pgdir" else
  deallocuvm pgdir KERNBASE 0;;
  freevm_loop (Z.to_nat NPDENTRIES) pgdir;;
  kfree pgdir.

(** ** setupkvm *)

Record kmap_entry := KMap { virt : Z; phys_start : Z; phys_end : Z; kperm : Z }.

(** [data] is the address the linker script gives the data section. *)
Definition kmap (data : Z) : list kmap_entry :=
  [ KMap KERNBASE 0 EXTMEM PTE_W;
    KMap KERNLINK (V2P KERNLINK) (V2P data) 0;
    KMap data (V2P data) PHYSTOP PTE_W;
    KMap DEVSPACE DEVSPACE 0 PTE_W ].

Fixpoint setupkvm_loop (pgdir : Z) (ks : list kmap_entry) : M kst Z :=
  match ks with
  | [] => mret pgdir
  | k :: ks' =>
    r ← mappages pgdir (virt k) (u32 (phys_end k - phys_start k)) (phys_start k) (kperm k);
    if r <? 0 then freevm pgdir;; mret 0 else setupkvm_loop pgdir ks'
  end.

Definition setupkvm (data : Z) : M kst Z :=
  pgdir ← kalloc;
  if pgdir =? 0 then mret 0 else
  kmemset pgdir 0 PGSIZE;;
  if DEVSPACE <? P2V PHYSTOP then panic "PHYSTOP too high" else
  setupkvm_loop pgdir (kmap data).

(** ** inituvm, allocuvm *)

Definition inituvm (pgdir init sz : Z) : M kst unit :=
  if PGSIZE <=? sz then panic "inituvm: more than a page" else
  mem ← kalloc;
  kmemset mem 0 PGSIZE;;
  mappages pgdir 0 PGSIZE (V2P mem) (Z.lor PTE_W PTE_U);;
  kmemmove mem init sz.

Fixpoint allocuvm_loop (fuel : nat) (pgdir a oldsz newsz : Z) : M kst Z :=
  match fuel with
  | O => hang
  | S fuel' =>
    if a <? newsz then
      mem ← kalloc;
      if mem =? 0 then deallocuvm pgdir newsz oldsz;; mret 0 else
      kmemset mem 0 PGSIZE;;
      r ← mappages pgdir a PGSIZE (V2P mem) (Z.lor PTE_W PTE_U);
      if r <? 0 then deallocuvm pgdir newsz oldsz;; kfree mem;; mret 0 else
      allocuvm_loop fuel' pgdir (u32 (a + PGSIZE)) oldsz newsz
    else mret (s32 newsz)
  end.

Definition allocuvm (pgdir oldsz newsz : Z) : M kst Z :=
  if KERNBASE <=? newsz then mret 0 else
  if newsz <? oldsz then mret (s32 oldsz) else
  allocuvm_loop (S (S (Z.to_nat (newsz / PGSIZE)))) pgdir (PGROUNDUP oldsz) oldsz newsz.

Definition clearpteu (pgdir uva : Z) : M kst unit :=
  pte ← walkpgdir pgdir uva false;
  if pte =? 0 then panic "clearpteu" else
  v ← kload pte;
  kstore pte (Z.land v (Z.lnot PTE_U)).

(** ** copyuvm *)

Fixpoint copyuvm_loop (fuel : nat) (pgdir d i sz : Z) : M kst Z :=
  match fuel with
  | O => hang
  | S fuel' =>
    if i <? sz then
      pte ← walkpgdir pgdir i false;
      if pte =? 0 then panic "copyuvm: pte should exist" else
      v ← kload pte;
      if negb (mapped v) then panic "copyuvm: page not present" else
      let pa := PTE_ADDR v in
      let flags := PTE_FLAGS v in
      mem ← kalloc;
      if mem =? 0 then freevm d;; mret 0 else
      kmemmove mem (P2V pa) PGSIZE;;
      r ← mappages d i PGSIZE (V2P mem) flags;
      if r <? 0 then kfree mem;; freevm d;; mret 0 else
      copyuvm_loop fuel' pgdir d (u32 (i + PGSIZE)) sz
    else mret d
  end.

Definition copyuvm (data pgdir sz : Z) : M kst Z :=
  d ← setupkvm data;
  if d =? 0 then mret 0 else
  copyuvm_loop (S (S (Z.to_nat (sz / PGSIZE)))) pgdir d 0 sz.

(** ** uva2ka and copyout *)

(** [*pte] is read without a test of [pte]: for a missing page table that is a
    load through the null pointer. *)
Definition uva2ka (pgdir uva : Z) : M kst Z :=
  pte ← walkpgdir pgdir uva false;
  v ← kload pte;
  if Z.lor (Z.land v PTE_P) (Z.land v PTE_E) =? 0 then mret 0 else
  if Z.land v PTE_U =? 0 then mret 0 else
  mret (P2V (PTE_ADDR v)).

Fixpoint copyout_loop (fuel : nat) (pgdir va buf len : Z) : M kst Z :=
  match fuel with
  | O => hang
  | S fuel' =>
    if 0 <? len then
      let va0 := PGROUNDDOWN va in
      pa0 ← uva2ka pgdir va0;
      if pa0 =? 0 then mret (-1) else
      let n := if len <? PGSIZE - (va - va0) then len else PGSIZE - (va - va0) in
      kmemmove (pa0 + (va - va0)) buf n;;
      copyout_loop fuel' pgdir (u32 (va0 + PGSIZE)) (buf + n) (len - n)
    else mret 0
  end.

Definition copyout (pgdir va p len : Z) : M kst Z :=
  copyout_loop (S (S (Z.to_nat (len / PGSIZE + 1)))) pgdir va p len.

(** ** The pages of an address range *)

Definition pages (a hi : Z) : list Z := page_seq a (Z.to_nat ((hi - a + PGSIZE - 1) / PGSIZE)).

Lemma elem_of_pages_range a hi v :
  a `mod` PGSIZE = 0 -> v ∈ pages a hi <-> a <= v < hi /\ v `mod` PGSIZE = 0.
Proof.
  intros Ha. unfold pages. rewrite elem_of_page_seq. unfold PGSIZE in *. split.
  - intros (i & Hi & ->). Z.div_mod_to_equations. lia.
  - intros (H1 & H2). exists (Z.to_nat ((v - a) / 4096)). Z.div_mod_to_equations. lia.
Qed.

Lemma NoDup_page_seq p n : NoDup (page_seq p n).
Proof.
  revert p. induction n as [|n IH]; intros p; cbn [page_seq]; constructor; [|apply IH].
  rewrite elem_of_page_seq. unfold PGSIZE. intros (i & _ & E). lia.
Qed.

Lemma NoDup_pages a hi : NoDup (pages a hi).
Proof. apply NoDup_page_seq. Qed.

Lemma pages_nil a hi : hi <= a -> pages a hi = [].
Proof.
  intros H. unfold pages. replace (Z.to_nat _) with 0%nat; [done|].
  unfold PGSIZE. Z.div_mod_to_equations. lia.
Qed.

Lemma npages_cons a hi :
  a < hi -> Z.to_nat ((hi - a + PGSIZE - 1) / PGSIZE) =
            S (Z.to_nat ((hi - (a + PGSIZE) + PGSIZE - 1) / PGSIZE)).
Proof. unfold PGSIZE. intros. Z.div_mod_to_equations. lia. Qed.

Lemma npages_lt a b hi :
  a `mod` PGSIZE = 0 -> b `mod` PGSIZE = 0 -> a < b -> a < hi ->
  (Z.to_nat ((hi - b + PGSIZE - 1) / PGSIZE) < Z.to_nat ((hi - a + PGSIZE - 1) / PGSIZE))%nat.
Proof. unfold PGSIZE. intros. Z.div_mod_to_equations. lia. Qed.

Lemma pages_cons a hi : a < hi -> pages a hi = a :: pages (a + PGSIZE) hi.
Proof. intros H. unfold pages. by rewrite npages_cons. Qed.

Lemma pages_split a b hi :
  a `mod` PGSIZE = 0 -> b `mod` PGSIZE = 0 -> a <= b ->
  pages a hi ≡ₚ pages a (Z.min b hi) ++ pages b hi.
Proof.
  intros Ha Hb Hab. apply NoDup_Permutation; [apply NoDup_pages| |].
  - apply NoDup_app. split_and!; [apply NoDup_pages| |apply NoDup_pages].
    intros v. rewrite !elem_of_pages_range by done. lia.
  - intros v. rewrite elem_of_app, !elem_of_pages_range by done. lia.
Qed.

Lemma omap_nil_all {A B} (f : A -> option B) (k : list A) :
  (forall x, x ∈ k -> f x = None) -> omap f k = [].
Proof.
  induction k as [|x k IH]; intros H; [done|]. cbn. rewrite (H x) by (by left).
  apply IH. intros; apply H. by right.
Qed.

(** The pages mapped in a range. *)
Definition range_pages (m : memory) (d a hi : Z) : list Z := omap (page_of m d) (pages a hi).

(** Page [vb] with the range [a, hi) unmapped. *)
Definition in_range (a hi vb : Z) : bool := (a <=? PGROUNDDOWN vb) && (PGROUNDDOWN vb <? hi).
Definition unmapped (d : Z) (m : memory) (a hi : Z) (m' : memory) : Prop :=
  forall vb, is_u32 vb ->
    lookup m' d vb = if in_range a hi vb && mapped (lookup m d vb) then 0 else lookup m d vb.

Lemma PGROUNDDOWN_page vb : PGROUNDDOWN vb / PGSIZE = vb / PGSIZE.
Proof. rewrite PGROUNDDOWN_eq. unfold PGSIZE. Z.div_mod_to_equations. lia. Qed.

Lemma page_of_ext m m' d va : lookup m' d va = lookup m d va -> page_of m' d va = page_of m d va.
Proof. intros E. unfold page_of. by rewrite E. Qed.

Lemma range_pages_ext m m' d a hi :
  (forall v, v ∈ pages a hi -> lookup m' d v = lookup m d v) ->
  range_pages m' d a hi = range_pages m d a hi.
Proof. intros H. apply omap_ext_in. intros v Hv. by apply page_of_ext, H. Qed.

Lemma range_pages_nil m d a hi :
  (forall v, v ∈ pages a hi -> mapped (lookup m d v) = false) -> range_pages m d a hi = [].
Proof. intros H. apply omap_nil_all. intros v Hv. unfold page_of. by rewrite H. Qed.

Lemma range_pages_cons m d a hi :
  a < hi -> range_pages m d a hi =
    match page_of m d a with
    | Some v => v :: range_pages m d (a + PGSIZE) hi
    | None => range_pages m d (a + PGSIZE) hi
    end.
Proof. intros H. unfold range_pages. by rewrite pages_cons. Qed.

Lemma range_pages_skip m d a b hi :
  a `mod` PGSIZE = 0 -> b `mod` PGSIZE = 0 -> a <= b ->
  (forall v, a <= v < b -> lookup m d v = 0) -> range_pages m d a hi ≡ₚ range_pages m d b hi.
Proof.
  intros Ha Hb Hab H. unfold range_pages. rewrite (pages_split a b hi), omap_app by done.
  rewrite (omap_nil_all _ (pages a (Z.min b hi))); [done|].
  intros v Hv. apply elem_of_pages_range in Hv as [Hv _]; [|done].
  unfold page_of. by rewrite H by lia.
Qed.

Lemma range_pages_inj m d lo hi a b v :
  NoDup (range_pages m d lo hi) -> a ∈ pages lo hi -> b ∈ pages lo hi ->
  page_of m d a = Some v -> page_of m d b = Some v -> a = b.
Proof. intros Hn Ha Hb Ea Eb. eapply omap_NoDup_inj; [exact Hn|exact Ha|exact Hb|exact Ea|exact Eb]. Qed.

Lemma elem_of_range_pages m d lo hi a v :
  a ∈ pages lo hi -> page_of m d a = Some v -> v ∈ range_pages m d lo hi.
Proof. intros Ha Hv. apply list_elem_of_omap. eauto. Qed.

(** The first address of the next page directory entry. *)
Lemma next_table a :
  0 <= a < KERNBASE -> a `mod` PGSIZE = 0 ->
  let b := u32 (u32 (PGADDR (PDX a + 1) 0 0 - PGSIZE) + PGSIZE) in
  b = (a / 2 ^ 22 + 1) * 2 ^ 22 /\ a < b /\ b <= KERNBASE /\ b `mod` PGSIZE = 0 /\
  forall v, a <= v < b -> PDX v = PDX a.
Proof.
  intros Ha Hal. cbv zeta. set (q := a / 2 ^ 22).
  assert (0 <= q < 512) as Hq by (unfold q, KERNBASE in *; clear -Ha; Z.div_mod_to_equations; lia).
  assert (PDX a = q) as Hp by (rewrite PDX_eq; fold q; apply Z.mod_small; lia).
  assert (u32 (u32 (PGADDR (PDX a + 1) 0 0 - PGSIZE) + PGSIZE) = (q + 1) * 2 ^ 22) as ->.
  { rewrite Hp. unfold PGADDR. rewrite Z.shiftl_0_l, !Z.lor_0_r, Z.shiftl_mul_pow2 by lia.
    rewrite (u32_small ((q + 1) * 2 ^ 22)) by (unfold is_u32; lia).
    rewrite (u32_small ((q + 1) * 2 ^ 22 - PGSIZE)) by (unfold is_u32, PGSIZE; lia).
    rewrite Z.sub_add. apply u32_small. unfold is_u32. lia. }
  split_and!; [done| | | |].
  - unfold q. clear. Z.div_mod_to_equations. lia.
  - unfold KERNBASE. lia.
  - unfold PGSIZE. change (2 ^ 22) with (1024 * 4096). rewrite Z.mul_assoc. by rewrite Z.mod_mul.
  - intros v Hv. rewrite Hp, PDX_eq.
    assert (v / 2 ^ 22 = q) as -> by (unfold q in *; clear -Hv; Z.div_mod_to_equations; lia).
    apply Z.mod_small. lia.
Qed.

(** ** deallocuvm *)

Section uvm.
  Context (me : nat) (d : Z).

(** Unmapping the page of [a]. *)
Lemma unmap_page s rest l a v :
  pt_inv me s d (v :: rest) l -> is_u32 a -> a `mod` PGSIZE = 0 -> page_of (k_mem s) d a = Some v ->
  exists t s1 s2, table (k_mem s) d (PDX a) = Some t /\
    kfree v s = Ok tt s1 /\ kstore (t + 4 * PTX a) 0 s1 = Ok tt s2 /\
    pt_inv me s2 d rest (v :: l) /\ k_end s2 = k_end s /\
    pt_pages (k_mem s2) d = pt_pages (k_mem s) d /\
    unmapped d (k_mem s) a (a + PGSIZE) (k_mem s2) /\
    (forall w, page_ok (k_end s) w -> w <> v -> w ∉ pt_pages (k_mem s) d ->
       page_eq (k_mem s) (k_mem s2) w).
Proof.
  intros H Ha Hal Hv. unfold page_of in Hv. destruct (mapped _) eqn:Hm; [|done].
  destruct (mapped_table _ _ _ Hm) as [t Et].
  destruct (pt_kfree _ _ _ _ _ _ H) as (s1 & E1 & H1 & Ee & Ep & El & Hw).
  assert (table (k_mem s1) d (PDX a) = Some t) as Et1.
  { rewrite <- Et. symmetry. apply table_ext; [|apply PDX_range].
    apply Hw; [by eapply dir_page|]. intros ->.
    eapply (rest_not_pt _ _ _ _ _ H v); [by left|by left]. }
  assert (page_ok (k_end s1) t) as Ht by (eapply table_page; [done|apply PDX_range|done]).
  exists t, s1, (set_mem (wr32 (k_mem s1) (V2P t + 4 * PTX a) 0) s1). split_and!; auto.
  - by apply (kstore_slot _ _ _ _ _ Ht), PTX_range.
  - by eapply set_pte_inv.
  - cbn [k_mem set_mem]. rewrite <- Ep. symmetry. apply pt_pages_ext. by eapply set_pte_dir.
  - intros vb Hvb. cbn [k_mem set_mem].
    rewrite (set_pte_lookup _ _ _ _ _ H1 a) by (done || by apply (u32_range 0)).
    rewrite El. pose proof (page_index a (PGROUNDDOWN vb) Hal) as PI.
    rewrite PGROUNDDOWN_page in PI. unfold in_range.
    case_decide as E.
    + rewrite (proj2 (Z.leb_le _ _)), (proj2 (Z.ltb_lt _ _)) by tauto.
      by rewrite <- (lookup_page _ _ _ _ E), Hm.
    + destruct (Z.leb_spec a (PGROUNDDOWN vb)), (Z.ltb_spec (PGROUNDDOWN vb) (a + PGSIZE));
        try done. destruct E. tauto.
  - intros w Hwk Hne Hnp. eapply page_eq_trans; [by apply Hw|].
    eapply set_pte_page; eauto; [by rewrite Ee|]. intros ->. apply Hnp. rewrite <- Ep.
    eapply table_in; [apply PDX_range|done].
Qed.

Lemma unmapped_cons m1 m2 m3 a c :
  a `mod` PGSIZE = 0 -> a < c ->
  unmapped d m1 a (a + PGSIZE) m2 -> unmapped d m2 (a + PGSIZE) c m3 -> unmapped d m1 a c m3.
Proof.
  intros Ha Hc H1 H2 vb Hvb. pose proof (H1 vb Hvb) as E1. rewrite H2 by done. unfold in_range in *.
  assert (a <= PGROUNDDOWN vb -> PGROUNDDOWN vb < a + PGSIZE -> PGROUNDDOWN vb = a) as Hp.
  { pose proof (PGROUNDDOWN_aligned vb). unfold PGSIZE in *. Z.div_mod_to_equations. lia. }
  destruct (mapped (lookup m1 d vb)) eqn:E; [|rewrite !andb_false_r in *; cbv iota in *; by rewrite E1, E, ?andb_false_r].
  destruct (Z.leb_spec a (PGROUNDDOWN vb)), (Z.leb_spec (a + PGSIZE) (PGROUNDDOWN vb)),
    (Z.ltb_spec (PGROUNDDOWN vb) (a + PGSIZE)), (Z.ltb_spec (PGROUNDDOWN vb) c);
    try (unfold PGSIZE in *; lia); cbn [andb] in *; rewrite ?E1, ?E; done.
Qed.

Lemma unmapped_nil m a : unmapped d m a a m.
Proof.
  intros vb _. unfold in_range.
  destruct (Z.leb_spec a (PGROUNDDOWN vb)), (Z.ltb_spec (PGROUNDDOWN vb) a); lia || done.
Qed.

(** A step that unmaps nothing. *)
Lemma unmapped_skip m m' a b c :
  a <= b -> (forall vb, is_u32 vb -> a <= PGROUNDDOWN vb < Z.min b c -> mapped (lookup m d vb) = false) ->
  unmapped d m b c m' -> unmapped d m a c m'.
Proof.
  intros Hab Hn H vb Hvb. rewrite H by done. unfold in_range.
  destruct (mapped (lookup m d vb)) eqn:E; [|by rewrite !andb_false_r].
  rewrite !andb_true_r. specialize (Hn vb Hvb).
  destruct (Z.leb_spec a (PGROUNDDOWN vb)), (Z.leb_spec b (PGROUNDDOWN vb)),
    (Z.ltb_spec (PGROUNDDOWN vb) c); try done; try lia.
  rewrite E in Hn. discriminate Hn. lia.
Qed.

Lemma deallocuvm_loop_ok hi fuel : forall s a rest l,
  pt_inv me s d (range_pages (k_mem s) d a hi ++ rest) l ->
  0 <= a -> a `mod` PGSIZE = 0 -> hi <= KERNBASE ->
  (Z.to_nat ((hi - a + PGSIZE - 1) / PGSIZE) < fuel)%nat ->
  exists s' l', deallocuvm_loop fuel d a hi s = Ok tt s' /\
    pt_inv me s' d rest l' /\ l' ≡ₚ range_pages (k_mem s) d a hi ++ l /\
    k_end s' = k_end s /\ pt_pages (k_mem s') d = pt_pages (k_mem s) d /\
    unmapped d (k_mem s) a hi (k_mem s') /\
    (forall w, page_ok (k_end s) w -> w ∉ range_pages (k_mem s) d a hi ->
       w ∉ pt_pages (k_mem s) d -> page_eq (k_mem s) (k_mem s') w).
Proof.
  induction fuel as [|fuel IH]; intros s a rest l H Ha Hal Hhi Hf; [lia|].
  cbn [deallocuvm_loop]. destruct (Z.ltb_spec a hi) as [Hlt|Hge].
  2:{ exists s, l. unfold range_pages in *. rewrite pages_nil in * by lia. split_and!; auto.
      - intros vb _. unfold in_range. destruct (Z.leb_spec a (PGROUNDDOWN vb)),
          (Z.ltb_spec (PGROUNDDOWN vb) hi); lia || done.
      - by intros w _ _ _ b _. }
  mstep walkpgdir_lookup; [|done].
  destruct (table (k_mem s) d (PDX a)) as [t|] eqn:Et.
  - assert (page_ok (k_end s) t) as Ht by (eapply table_page; [done|apply PDX_range|done]).
    rewrite (proj2 (Z.eqb_neq _ 0)).
    2:{ pose proof (PTX_range a). pose proof (page_nonzero _ _ Ht).
        destruct Ht. unfold KERNBASE in *. lia. }
    mstep kload_slot; [|done|apply PTX_range]. rewrite (lookup_table _ _ _ _ Et).
    rewrite (u32_small (a + PGSIZE)) by (unfold is_u32, KERNBASE, PGSIZE in *; lia).
    assert (page_eq_all : forall m w, page_eq m m w) by (by intros m w b _).
    assert ((a + PGSIZE) `mod` PGSIZE = 0) as Hal' by by apply (aligned_add a 1).
    rewrite npages_cons in Hf by done.
    rewrite range_pages_cons in H by done. rewrite (range_pages_cons _ _ a) by done.
    destruct (page_of (k_mem s) d a) as [v|] eqn:Hv.
    + assert (mapped (lookup (k_mem s) d a) = true) as Hm
        by (unfold page_of in Hv; by destruct (mapped _)).
      rewrite Hm.
      destruct (unmap_page s _ l a v H) as (t' & s1 & s2 & Et' & E1 & E2 & H2 & Ee & Ep & U & W);
        [unfold is_u32, KERNBASE, PGSIZE in *; lia|done|done|].
      rewrite Et in Et'. injection Et' as <-.
      assert (P2V (PTE_ADDR (lookup (k_mem s) d a)) = v) as Hpv
        by (unfold page_of in Hv; rewrite Hm in Hv; congruence).
      cbv zeta. rewrite Hpv. rewrite (proj2 (Z.eqb_neq _ 0)).
      2:{ intros E0. rewrite E0 in Hpv. assert (page_ok (k_end s) v) as Hpk
            by (eapply rest_page; [exact H|by left]).
          destruct Hpk as [_ Hpk _ _]. pose proof (pi_end _ _ _ _ _ H).
          rewrite <- Hpv in Hpk. change (P2V 0) with KERNBASE in Hpk. lia. }
      mgo. mstep E1. mstep E2.
      assert (range_pages (k_mem s2) d (a + PGSIZE) hi = range_pages (k_mem s) d (a + PGSIZE) hi) as Er.
      { apply range_pages_ext. intros w Hw. apply elem_of_pages_range in Hw as [Hw1 Hw2]; [|done].
        rewrite U by (unfold is_u32, KERNBASE, PGSIZE in *; lia). unfold in_range.
        rewrite PGROUNDDOWN_id by done. rewrite (proj2 (Z.ltb_ge _ _)) by lia.
        by rewrite andb_false_r. }
      destruct (IH s2 (a + PGSIZE) rest (v :: l)) as (s' & l' & E & H' & P' & Ee' & Ep' & U' & W');
        [by rewrite Er|unfold PGSIZE; lia|done|done|lia|].
      exists s', l'. split_and!; auto.
      * rewrite P', Er. by rewrite <- Permutation_middle.
      * by rewrite Ee'.
      * by rewrite Ep'.
      * by eapply unmapped_cons.
      * intros w Hwk Hwn Hwp. eapply page_eq_trans; [apply W|apply W']; auto.
        -- intros ->. apply Hwn. by left.
        -- by rewrite Ee.
        -- rewrite Er. intros Hi. apply Hwn. by right.
        -- by rewrite Ep.
    + assert (mapped (lookup (k_mem s) d a) = false) as Hm
        by (unfold page_of in Hv; by destruct (mapped _)).
      rewrite Hm. mgo.
      destruct (IH s (a + PGSIZE) rest l) as (s' & l' & E & H' & P' & Ee' & Ep' & U' & W');
        [done|unfold PGSIZE; lia|done|done|lia|].
      exists s', l'. split_and!; auto.
      eapply unmapped_cons; [done|done| |exact U'].
      intros vb Hvb. destruct (in_range a (a + PGSIZE) vb) eqn:Er; [|done].
      unfold in_range in Er. apply andb_true_iff in Er as [E1%Z.leb_le E2%Z.ltb_lt].
      rewrite (lookup_page _ _ vb a); [by rewrite Hm|].
      rewrite <- PGROUNDDOWN_page. symmetry. by apply page_index.
  - change (0 =? 0) with true. cbv iota.
    destruct (next_table a) as (Eb & Hb1 & Hb2 & Hb3 & Hb4); [lia|done|].
    set (b := u32 (u32 (PGADDR (PDX a + 1) 0 0 - PGSIZE) + PGSIZE)) in *.
    assert (forall v, a <= v < b -> lookup (k_mem s) d v = 0) as H0
      by (intros v Hv; unfold lookup; by rewrite Hb4, Et).
    assert (range_pages (k_mem s) d a hi ≡ₚ range_pages (k_mem s) d b hi) as Er
      by (apply range_pages_skip; auto; lia).
    destruct (IH s b rest l) as (s' & l' & E & H' & P' & Ee' & Ep' & U' & W').
    + eapply pt_rest_perm; [|done]. by rewrite Er.
    + lia.
    + done.
    + done.
    + pose proof (npages_lt a b hi Hal Hb3 Hb1 Hlt). clear -H1 Hf. lia.
    + exists s', l'. split_and!; auto.
      * by rewrite P', Er.
      * eapply unmapped_skip; [|intros vb _ Hvb|exact U']; [lia|].
        rewrite (lookup_page _ _ vb (PGROUNDDOWN vb)) by (symmetry; apply PGROUNDDOWN_page).
        by rewrite H0 by lia.
      * intros w Hwk Hwn. apply W'; [done|]. by rewrite <- Er.
Qed.

(** What freeing the pages mapped in [a, hi) does. *)
Record range_freed (s : kst) (a hi : Z) (rest l : list Z) (s' : kst) (l' : list Z) : Prop :=
  RangeFreed {
  rf_inv : pt_inv me s' d rest l';
  rf_perm : l' ≡ₚ range_pages (k_mem s) d a hi ++ l;
  rf_end : k_end s' = k_end s;
  rf_tables : pt_pages (k_mem s') d = pt_pages (k_mem s) d;
  rf_lookup : unmapped d (k_mem s) a hi (k_mem s');
  rf_frame : forall w, page_ok (k_end s) w -> w ∉ range_pages (k_mem s) d a hi ->
    w ∉ pt_pages (k_mem s) d -> page_eq (k_mem s) (k_mem s') w
}.

Lemma deallocuvm_ok s rest l oldsz newsz :
  0 <= newsz < oldsz -> oldsz <= KERNBASE ->
  pt_inv me s d (range_pages (k_mem s) d (PGROUNDUP newsz) oldsz ++ rest) l ->
  exists s' l', deallocuvm d oldsz newsz s = Ok (s32 newsz) s' /\
    range_freed s (PGROUNDUP newsz) oldsz rest l s' l'.
Proof.
  intros Hn Ho H. unfold deallocuvm. rewrite (proj2 (Z.leb_gt _ _)) by lia.
  pose proof (PGROUNDUP_bounds newsz) as Hb.
  unfold KERNBASE, PGSIZE in *. specialize (Hb ltac:(lia) ltac:(lia)).
  destruct (deallocuvm_loop_ok oldsz (S (S (Z.to_nat (oldsz / 4096)))) s (PGROUNDUP newsz) rest l H)
    as (s' & l' & E & H' & P & Ee & Ep & U & W).
  - lia.
  - apply PGROUNDUP_aligned.
  - done.
  - unfold PGSIZE. clear -Hn Hb. Z.div_mod_to_equations. lia.
  - exists s', l'. split; [by mstep E|by split].
Qed.

Lemma deallocuvm_same s oldsz newsz : oldsz <= newsz -> deallocuvm d oldsz newsz s = Ok (s32 oldsz) s.
Proof. intros H. unfold deallocuvm. by rewrite (proj2 (Z.leb_le _ _)). Qed.

(** ** freevm *)

Lemma seqZ_step i n : 0 < n -> seqZ i n = i :: seqZ (i + 1) (n - 1).
Proof. intros H. rewrite seqZ_cons by done. by rewrite <- Z.add_1_r, <- Z.sub_1_r. Qed.

Lemma freevm_loop_ok m0 (n : nat) : forall s l T k i,
  k = Z.of_nat n -> i + k = 1024 -> 0 <= i -> T = omap (table m0 d) (seqZ i k) ->
  kinv me s l -> page_ok (k_end s) d -> Forall (page_ok (k_end s)) T ->
  page_eq m0 (k_mem s) d -> NoDup (d :: T ++ l) ->
  exists s' l', freevm_loop n d s = Ok tt s' /\ kinv me s' l' /\ l' ≡ₚ T ++ l /\
    k_end s' = k_end s /\
    (forall w, page_ok (k_end s) w -> w ∉ T -> page_eq (k_mem s) (k_mem s') w).
Proof.
  induction n as [|n IH]; intros s l T k i Ek Ei Hi0 ET Hk Hd Hok Hm Hnd.
  { subst k T. exists s, l. split_and!; auto. by intros w _ _ b _. }
  cbn [freevm_loop]. replace (NPDENTRIES - Z.of_nat (S n)) with i by (unfold NPDENTRIES; lia).
  assert (0 <= i < 1024) as Hi by lia.
  mstep kload_slot; [|done|done]. rewrite <- (page_eq_rd32 m0) by done.
  rewrite seqZ_step in ET by lia. cbn in ET.
  remember (omap (table m0 d) (seqZ (i + 1) (k - 1))) as T' eqn:ET'.
  unfold table in ET at 1.
  specialize (fun s l => IH s l T' (k - 1) (i + 1) ltac:(lia) ltac:(lia) ltac:(lia) ET').
  destruct (flag _ PTE_P) eqn:F; subst T; mgo.
  2:{ destruct (IH s l) as (s' & l' & E & K & P & Ee & W); auto. }
  set (t := P2V _) in *. clearbody t.
  apply Forall_cons in Hok as [Ht Hok]. apply NoDup_cons in Hnd as [Hd1 Hd2].
  apply NoDup_cons in Hd2 as [Ht1 Hd2].
  destruct (kfree_step me s t l Hk Ht) as (s1 & E1 & K1 & Ee1 & W1);
    [intros Hin; apply Ht1, elem_of_app; by right|].
  pose proof (page_eq_off _ _ _ _ Ht W1) as W1'.
  mstep E1. destruct (IH s1 (t :: l)) as (s' & l' & E & K & P & Ee & W); rewrite ?Ee1; auto.
  - eapply page_eq_trans; [done|]. apply W1'; [done|]. intros ->. apply Hd1. by left.
  - rewrite <- Permutation_middle. apply NoDup_cons. split; [done|]. by apply NoDup_cons.
  - exists s', l'. split_and!; auto.
    + rewrite P. by rewrite <- Permutation_middle.
    + by rewrite Ee.
    + intros w Hw Hnw. eapply page_eq_trans; [apply W1'|apply W]; auto.
      * intros ->. apply Hnw. by left.
      * by rewrite Ee1.
      * intros Hin. apply Hnw. by right.
Qed.

Definition tables (m : memory) : list Z := omap (table m d) (seqZ 0 1024).

Lemma pt_pages_tables m : pt_pages m d = d :: tables m.
Proof. unfold pt_pages, tables. exact eq_refl. Qed.

Lemma freevm_tables s l :
  kinv me s l -> page_ok (k_end s) d -> Forall (page_ok (k_end s)) (tables (k_mem s)) ->
  NoDup (d :: tables (k_mem s) ++ l) ->
  exists s' l', freevm_loop (Z.to_nat NPDENTRIES) d s = Ok tt s' /\ kinv me s' l' /\
    l' ≡ₚ tables (k_mem s) ++ l /\ k_end s' = k_end s /\
    (forall w, page_ok (k_end s) w -> w ∉ tables (k_mem s) -> page_eq (k_mem s) (k_mem s') w).
Proof.
  intros Hk Hd Hok Hn.
  assert (Z.of_nat (Z.to_nat NPDENTRIES) = 1024) as E by (unfold NPDENTRIES; lia).
  destruct (freevm_loop_ok (k_mem s) (Z.to_nat NPDENTRIES) s l (tables (k_mem s)) 1024 0)
    as (s' & l' & R); [done|done|done|done|done|done|done|by intros b _|done|].
  by exists s', l'.
Qed.

Lemma freevm_ok s rest l :
  pt_inv me s d (range_pages (k_mem s) d 0 KERNBASE ++ rest) l ->
  exists s' l', freevm d s = Ok tt s' /\ kinv me s' l' /\
    l' ≡ₚ pt_pages (k_mem s) d ++ range_pages (k_mem s) d 0 KERNBASE ++ l /\
    k_end s' = k_end s /\
    (forall w, w ∈ rest -> page_eq (k_mem s) (k_mem s') w).
Proof.
  intros H. pose proof (dir_page _ _ _ _ _ H) as Hd. unfold freevm.
  rewrite (proj2 (Z.eqb_neq d 0)) by (by eapply page_nonzero).
  assert (PGROUNDUP 0 = 0) as P0 by done.
  destruct (deallocuvm_ok s rest l KERNBASE 0) as (s1 & l1 & E1 & F1);
    [unfold KERNBASE; lia|done|by rewrite P0|]. rewrite P0 in F1.
  pose proof (rest_page _ _ _ _ _ H) as Hr.
  destruct F1 as [H1 P1 Ee1 Ep1 _ W1].
  mstep E1. destruct H1 as [K1 _ Hok1 Hn1].
  rewrite pt_pages_tables in Hok1, Hn1.
  apply Forall_app in Hok1 as [Hok1 _]. apply Forall_cons in Hok1 as [Hd1 Hok1].
  cbn [app] in Hn1. apply NoDup_cons in Hn1 as [Hn0 Hn1].
  assert (NoDup (tables (k_mem s1) ++ l1)) as Hn2.
  { apply NoDup_app in Hn1 as (N1 & N2 & N3). apply NoDup_app in N3 as (_ & _ & N3).
    apply NoDup_app. split_and!; auto. intros w Hw Hl. apply (N2 w Hw). rewrite elem_of_app. by right. }
  assert (d ∉ tables (k_mem s1) ++ l1) as Hd2
    by (rewrite !elem_of_app in *; tauto).
  destruct (freevm_tables s1 l1 K1 Hd1 Hok1) as (s2 & l2 & E2 & K2 & P2 & Ee2 & W2);
    [by apply NoDup_cons|].
  mstep E2.
  assert (page_ok (k_end s2) d) as Hd' by by rewrite Ee2.
  destruct (kfree_step me s2 d l2 K2 Hd') as (s3 & E3 & K3 & Ee3 & W3); [by rewrite P2|].
  exists s3, (d :: l2). split_and!; auto.
  - rewrite <- Ep1, pt_pages_tables. by rewrite P2, P1.
  - by rewrite Ee3, Ee2.
  - intros w Hw. assert (w ∈ range_pages (k_mem s) d 0 KERNBASE ++ rest) as Hw'
      by (rewrite elem_of_app; by right).
    pose proof (Hr w Hw') as Hwk. pose proof (rest_not_pt _ _ _ _ _ H w Hw') as Hwn.
    rewrite <- Ep1, pt_pages_tables in Hwn. pose proof Hwn as [Hwd Hwt]%not_elem_of_cons.
    eapply page_eq_trans; [apply W1|eapply page_eq_trans; [apply W2|]]; auto.
    + pose proof (pi_nodup _ _ _ _ _ H) as Hn. apply NoDup_app in Hn as (_ & _ & Hn).
      rewrite <- app_assoc in Hn. apply NoDup_app in Hn as (_ & Hn & _). intros Hin. apply (Hn w Hin).
      rewrite elem_of_app. by left.
    + by rewrite <- Ep1, pt_pages_tables.
    + by rewrite Ee1.
    + eapply page_eq_off; [exact Hd'|exact W3| |done]. by rewrite Ee2, Ee1.
Qed.

End uvm.

(** ** A new directory *)

(** The pages in use and the free list, before there is a directory. *)
Record page_inv (me : nat) (s : kst) (rest l : list Z) : Prop := PageInv {
  gi_k : kinv me s l;
  gi_end : KERNBASE < k_end s;
  gi_ok : Forall (page_ok (k_end s)) rest;
  gi_nodup : NoDup (rest ++ l)
}.

Lemma pt_page_inv me s d rest l :
  pt_inv me s d rest l -> page_inv me s (pt_pages (k_mem s) d ++ rest) l.
Proof. intros [Hk He Hok Hn]. split; auto. by rewrite <- app_assoc. Qed.

Lemma page_inv_perm me s rest rest' l :
  rest ≡ₚ rest' -> page_inv me s rest l -> page_inv me s rest' l.
Proof. intros P [Hk He Hok Hn]. split; auto; by rewrite <- P. Qed.

Lemma page_inv_ok me s rest l v : page_inv me s rest l -> v ∈ rest ++ l -> page_ok (k_end s) v.
Proof.
  intros [Hk He Hok Hn] [Hv|Hv]%elem_of_app.
  - rewrite Forall_forall in Hok. auto.
  - pose proof (chain_pages _ _ _ _ (ki_chain _ _ _ Hk)) as Hf. rewrite Forall_forall in Hf. auto.
Qed.

Lemma pt_of_page_inv me s d rest l tabs :
  page_inv me s (tabs ++ rest) l -> pt_pages (k_mem s) d = tabs -> pt_inv me s d rest l.
Proof. intros [Hk He Hok Hn] E. split; rewrite ?E; auto. by rewrite app_assoc. Qed.

Lemma table_zero m d i :
  (forall a, in_page d a -> rd8 m a = 0) -> 0 <= i < 1024 -> table m d i = None.
Proof.
  intros H Hi. unfold table, rd32. rewrite !H; [done|..]; unfold in_page, PGSIZE; lia.
Qed.

Lemma new_directory me s rest d l :
  page_inv me s rest (d :: l) ->
  exists s1, kalloc s = Ok d s1 /\
  let s2 := set_mem (memset (k_mem s1) (V2P d) 0 PGSIZE) s1 in
  kmemset d 0 PGSIZE s1 = Ok tt s2 /\ d <> 0 /\
  pt_inv me s2 d rest l /\ k_end s2 = k_end s /\ pt_pages (k_mem s2) d = [d] /\
  (forall va, lookup (k_mem s2) d va = 0) /\
  (forall w, page_ok (k_end s) w -> w <> d -> page_eq (k_mem s) (k_mem s2) w).
Proof.
  intros H. pose proof H as [Hk He Hok Hn].
  assert (page_ok (k_end s) d) as Hd by (eapply page_inv_ok; [done|]; rewrite elem_of_app; right; by left).
  destruct (kalloc_step _ _ _ _ Hk) as (s1 & E1 & K1 & Em & Ee). exists s1. split; [done|].
  set (s2 := set_mem _ s1). cbv zeta.
  assert (forall a, in_page d a -> rd8 (k_mem s2) a = 0) as Hz.
  { intros a Ha. unfold in_page in Ha. cbn [s2 k_mem set_mem].
    rewrite rd8_memset by (unfold PGSIZE; lia). by rewrite decide_True. }
  assert (forall i, 0 <= i < 1024 -> table (k_mem s2) d i = None) as Ht by (intros; by apply table_zero).
  assert (pt_pages (k_mem s2) d = [d]) as Ep.
  { unfold pt_pages. f_equal. apply omap_nil_all. intros i Hi%elem_of_seqZ. apply Ht. lia. }
  assert (forall w, page_ok (k_end s) w -> w <> d -> page_eq (k_mem s) (k_mem s2) w) as Hw.
  { intros w Hw Hne. rewrite <- Em. eapply page_eq_memset; [exact Hd|exact Hw|done]. }
  split_and!; auto.
  - by eapply kmemset_page.
  - by eapply page_nonzero.
  - apply (pt_of_page_inv _ _ _ _ _ [d]); [|done]. split; cbn [s2 k_end set_mem]; rewrite ?Ee; auto.
    + apply kinv_mem; [done| |].
      * apply bytes_ok_memset; [apply K1|unfold PGSIZE; lia].
      * intros w Hin. rewrite Em at 1. apply (Hw w).
        -- eapply page_inv_ok; [exact H|]. rewrite elem_of_app. right. by right.
        -- intros ->. apply NoDup_app in Hn as (_ & _ & Hn). by apply NoDup_cons in Hn as [? _].
    + by constructor.
    + revert Hn. apply NoDup_Permutation_proper. cbn [app]. by rewrite Permutation_middle.
  - intros va. unfold lookup. by rewrite Ht by apply PDX_range.
Qed.

(** ** setupkvm *)

Definition ksize (k : kmap_entry) : Z := u32 (phys_end k - phys_start k).

Definition add_map (f : Z -> Z) (k : kmap_entry) (vb : Z) : Z :=
  if decide (virt k <= vb < virt k + ksize k)
  then phys_start k + (PGROUNDDOWN vb - virt k) + pte_flags (kperm k) else f vb.

Record kmap_ok (f : Z -> Z) (k : kmap_entry) : Prop := KmapOk {
  km_virt : KERNBASE <= virt k;
  km_virt_al : virt k `mod` PGSIZE = 0;
  km_phys : 0 <= phys_start k;
  km_phys_al : phys_start k `mod` PGSIZE = 0;
  km_size : 0 < ksize k;
  km_size_al : ksize k `mod` PGSIZE = 0;
  km_virt_end : virt k + ksize k <= 2 ^ 32;
  km_phys_end : phys_start k + ksize k <= 2 ^ 32;
  km_perm : 0 <= kperm k < PGSIZE;
  km_fresh : forall vb, virt k <= vb < virt k + ksize k -> mapped (f vb) = false
}.

Fixpoint kmaps_ok (f : Z -> Z) (ks : list kmap_entry) : Prop :=
  match ks with
  | [] => True
  | k :: ks' => kmap_ok f k /\ kmaps_ok (add_map f k) ks'
  end.

Definition kvm_entry (data : Z) : Z -> Z := foldl add_map (fun _ => 0) (kmap data).

Lemma length_omap_le {A B} (f : A -> option B) (l : list A) : (length (omap f l) <= length l)%nat.
Proof.
  induction l as [|x l IH]; [done|]. change (omap f (x :: l)) with (match f x with Some y => y :: omap f l | None => omap f l end).
  destruct (f x); cbn [length]; lia.
Qed.
(** A directory and its page tables. *)
Lemma pt_pages_length m d : Z.of_nat (length (pt_pages m d)) <= 1025.
Proof.
  unfold pt_pages. rewrite length_cons. pose proof (length_omap_le (table m d) (seqZ 0 1024)) as H.
  apply Nat2Z.inj_le in H. rewrite length_seqZ, Z2Nat.id in H by lia. lia.
Qed.

Section setupkvm.
  Context (me : nat) (rest : list Z).

Lemma add_map_maps d m m' f k :
  kmap_ok f k -> (forall vb, is_u32 vb -> lookup m d vb = f vb) ->
  maps d m (virt k) (ksize k / PGSIZE) (phys_start k) (kperm k) m' ->
  forall vb, is_u32 vb -> lookup m' d vb = add_map f k vb.
Proof.
  intros [] Hf Hm vb Hvb. rewrite Hm, Hf by done. unfold add_map.
  assert (ksize k / PGSIZE * PGSIZE = ksize k) as E
    by (unfold PGSIZE in *; clear -km_size_al0; Z.div_mod_to_equations; lia).
  rewrite E. case_decide; [|done]. f_equal. f_equal. rewrite PGROUNDDOWN_eq.
  unfold PGSIZE in *. clear -km_virt_al0. Z.div_mod_to_equations. lia.
Qed.

(** The outcome of [setupkvm] and [setupkvm_loop]: a directory with the kernel
    mappings, or 0 with every page back on the free list. *)
Definition kvm_outcome (s : kst) (l : list Z) (g : Z -> Z) (r : Z) (s' : kst) (l' : list Z) : Prop :=
  k_end s' = k_end s /\
  (forall w, w ∈ rest -> page_eq (k_mem s) (k_mem s') w) /\
  ((r = 0 /\ page_inv me s' rest l' /\ l' ≡ₚ l /\ Z.of_nat (length l) <= 1025) \/
   (r <> 0 /\ pt_inv me s' r rest l' /\ pt_pages (k_mem s') r ++ l' ≡ₚ l /\
    forall vb, is_u32 vb -> lookup (k_mem s') r vb = g vb)).

Lemma setupkvm_loop_ok d ks : forall s l f,
  pt_inv me s d rest l -> (forall vb, is_u32 vb -> lookup (k_mem s) d vb = f vb) ->
  (forall vb, vb < KERNBASE -> f vb = 0) -> kmaps_ok f ks ->
  exists r s' l', setupkvm_loop d ks s = Ok r s' /\
    kvm_outcome s (pt_pages (k_mem s) d ++ l) (foldl add_map f ks) r s' l'.
Proof.
  induction ks as [|k ks IH]; intros s l f H Hf Hlow Hks; cbn [setupkvm_loop foldl].
  - pose proof (page_nonzero _ _ (dir_page _ _ _ _ _ H)).
    exists d, s, l. split; [done|]. split_and!; [done|by intros w _ b _|]. right. auto.
  - destruct Hks as [Hk Hks].
    destruct (mappages_ok me s d rest l (kperm k) (virt k) (ksize k / PGSIZE) (phys_start k))
      as (r & s1 & l1 & n & E & H1 & S1 & M1 & R); try apply Hk; auto.
    1-4: destruct Hk; unfold KERNBASE, PGSIZE in *;
      clear -km_virt0 km_size0 km_size_al0 km_virt_end0 km_phys_end0; Z.div_mod_to_equations; lia.
    { intros vb Hvb. destruct Hk. rewrite Hf; [apply km_fresh0|];
      unfold is_u32, KERNBASE, PGSIZE in *; 
      clear -Hvb km_virt0 km_size0 km_size_al0 km_virt_end0; Z.div_mod_to_equations; lia. }
    replace (ksize k / PGSIZE * PGSIZE) with (ksize k) in E.
    2:{ destruct Hk. unfold PGSIZE in *. clear -km_size_al0. Z.div_mod_to_equations. lia. }
    mstep E.
    pose proof (ps_end _ _ _ _ _ S1) as Ee.
    assert (forall w, w ∈ rest -> page_eq (k_mem s) (k_mem s1) w) as Hw.
    { intros w Hw. apply (ps_frame _ _ _ _ _ S1); [by eapply rest_page|by eapply rest_not_pt]. }
    destruct R as [(-> & ->)|(-> & Hn & ->)]; cbn [Z.ltb Z.compare].
    + destruct (IH s1 l1 (add_map f k) H1) as (r & s' & l' & E' & Ee' & W' & O); auto.
      * by apply (add_map_maps d (k_mem s)).
      * intros vb Hvb. unfold add_map. rewrite decide_False; [by apply Hlow|]. destruct Hk. lia.
      * exists r, s', l'. split; [done|]. split_and!; [by rewrite Ee'| |].
        -- intros w Hin. eapply page_eq_trans; [by apply Hw|by apply W'].
        -- by rewrite (ps_perm _ _ _ _ _ S1) in O.
    + assert (range_pages (k_mem s1) d 0 KERNBASE = []) as Er.
      { apply range_pages_nil. intros v Hv. apply elem_of_pages_range in Hv as [Hv _]; [|done].
        assert (is_u32 v) by (unfold is_u32, KERNBASE in *; lia).
        rewrite M1 by done. rewrite decide_False by (destruct Hk; lia).
        rewrite Hf, Hlow by (done || lia). done. }
      destruct (freevm_ok me d s1 rest []) as (s2 & l2 & E2 & K2 & P2 & Ee2 & W2);
        [by rewrite Er|].
      mstep E2. rewrite Er in P2. cbn [app] in P2.
      exists 0, s2, l2. split; [done|]. split_and!; [by rewrite Ee2| |].
      * intros w Hin. eapply page_eq_trans; [by apply Hw|by apply W2].
      * left. assert (l2 ≡ₚ pt_pages (k_mem s) d ++ l) as P by by rewrite <- (ps_perm _ _ _ _ _ S1).
        split_and!; auto. pose proof H as [_ He Hok Hn']. split; rewrite ?Ee2, ?Ee; auto.
        -- by apply Forall_app in Hok as [_ ?].
        -- rewrite P. revert Hn'. apply NoDup_Permutation_proper. rewrite !app_assoc.
           f_equiv. apply Permutation_app_comm.
        -- pose proof (Permutation_length (ps_perm _ _ _ _ _ S1)) as PL. rewrite app_nil_r in PL.
           rewrite <- PL. apply pt_pages_length.
Qed.
End setupkvm.

Record data_ok (data : Z) : Prop := DataOk {
  dt_low : KERNLINK < data;
  dt_high : data < KERNBASE + PHYSTOP;
  dt_al : data `mod` PGSIZE = 0
}.

Lemma data_V2P data : data_ok data -> V2P data = data - KERNBASE.
Proof.
  intros [H1 H2 _]. unfold V2P. apply u32_small.
  unfold is_u32, KERNLINK, KERNBASE, EXTMEM, PHYSTOP in *. lia.
Qed.

Lemma ksize_kmap data : data_ok data ->
  ksize (KMap KERNBASE 0 EXTMEM PTE_W) = EXTMEM /\
  ksize (KMap KERNLINK (V2P KERNLINK) (V2P data) 0) = data - KERNLINK /\
  ksize (KMap data (V2P data) PHYSTOP PTE_W) = KERNBASE + PHYSTOP - data /\
  ksize (KMap DEVSPACE DEVSPACE 0 PTE_W) = 0x2000000.
Proof.
  intros H. pose proof (data_V2P _ H) as E. destruct H as [H1 H2 _].
  unfold ksize. cbn [phys_start phys_end]. rewrite E.
  change (V2P KERNLINK) with 0x100000.
  unfold KERNLINK, KERNBASE, EXTMEM, PHYSTOP, DEVSPACE in *.
  split_and!; [done| | |done]; rewrite u32_small by (unfold is_u32; lia); lia.
Qed.

Lemma kmaps_ok_kmap data : data_ok data -> kmaps_ok (fun _ => 0) (kmap data).
Proof.
  intros H. pose proof (data_V2P _ H) as E. pose proof (ksize_kmap _ H) as S.
  destruct S as (S1 & S2 & S3 & S4).
  destruct H as [H1 H2 H3]. unfold kmap, kmaps_ok.
  assert (V2P KERNLINK = EXTMEM) as EL by done.
  assert (exists q, data = 4096 * q) as [q Hq].
  { exists (data / 4096). unfold PGSIZE in H3. clear -H3. Z.div_mod_to_equations. lia. }
  assert (forall a, (a * 4096) `mod` PGSIZE = 0) as Hmul by (intros; by apply Z.mod_mul).
  rewrite EL, E in S2. rewrite E in S3. rewrite EL, !E.
  split_and!; try done; split; rewrite ?S1, ?S2, ?S3, ?S4; cbn [virt phys_start kperm];
    unfold KERNLINK, KERNBASE, EXTMEM, PHYSTOP, DEVSPACE, PTE_W in *;
    try done; try lia; try (unfold PGSIZE; lia).
  all: try (intros vb Hvb; cbn [virt] in Hvb; rewrite ?S1, ?S2, ?S3, ?S4 in Hvb;
    unfold add_map; cbn [virt]; rewrite ?S1, ?S2, ?S3; rewrite ?decide_False by lia; done).
  - replace (data - (0x80000000 + 0x100000)) with ((q - 524544) * 4096) by lia. apply Hmul.
  - replace (data - 0x80000000) with ((q - 524288) * 4096) by lia. apply Hmul.
  - replace (0x80000000 + 0xE000000 - data) with ((581632 - q) * 4096) by lia. apply Hmul.
Qed.

(** [setupkvm] either returns a directory of the kernel mappings or gives back
    every page it took. *)
Lemma setupkvm_ok me s rest l data :
  page_inv me s rest l -> data_ok data ->
  exists r s' l', setupkvm data s = Ok r s' /\ kvm_outcome me rest s l (kvm_entry data) r s' l'.
Proof.
  intros H Hd. unfold setupkvm. destruct l as [|d l].
  - destruct (kalloc_none _ _ (gi_k _ _ _ _ H)) as (s1 & E1 & K1 & Em & Ee).
    exists 0, s1, []. split; [by mstep E1|]. split_and!; [done|by rewrite Em; intros w _ b _|].
    left. split_and!; auto; [|done]. destruct H as [_ He Hok Hn]. by split; rewrite ?Ee.
  - destruct (new_directory _ _ _ _ _ H) as (s1 & E1 & E2 & Hne & H2 & Ee & Ep & L & W).
    mstep E1. rewrite (proj2 (Z.eqb_neq d 0)) by done. mstep E2.
    set (s2 := set_mem _ s1) in *.
    change (DEVSPACE <? P2V PHYSTOP) with false. cbv iota.
    destruct (setupkvm_loop_ok me rest d (kmap data) s2 l (fun _ => 0) H2)
      as (r & s' & l' & E & Ee' & W' & O); [auto|auto|by apply kmaps_ok_kmap|].
    rewrite Ep in O. cbn [app] in O.
    exists r, s', l'. split; [done|]. split_and!; [by rewrite Ee'| |done].
    intros w Hw. eapply page_eq_trans; [apply W|by apply W'].
    + eapply page_inv_ok; [exact H|]. rewrite elem_of_app. by left.
    + intros ->. pose proof (gi_nodup _ _ _ _ H) as Hn. apply NoDup_app in Hn as (_ & Hn & _).
      apply (Hn d Hw). by left.
Qed.

(** The kernel part of every directory. *)
Lemma kvm_entry_eq data va :
  data_ok data -> is_u32 va ->
  kvm_entry data va =
    if decide (KERNBASE <= va < KERNLINK \/ data <= va < KERNBASE + PHYSTOP)
    then PGROUNDDOWN va - KERNBASE + Z.lor PTE_P PTE_W else
    if decide (KERNLINK <= va < data) then PGROUNDDOWN va - KERNBASE + PTE_P else
    if decide (DEVSPACE <= va) then PGROUNDDOWN va + Z.lor PTE_P PTE_W else 0.
Proof.
  intros H Hva. pose proof (data_V2P _ H) as E. pose proof (ksize_kmap _ H) as S.
  destruct S as (S1 & S2 & S3 & S4).
  destruct H as [H1 H2 _]. unfold kvm_entry, kmap. cbn [foldl]. unfold add_map.
  cbn [virt phys_start kperm]. rewrite S1, S2, S3, S4, E.
  change (pte_flags PTE_W) with 3. change (pte_flags 0) with 1. change (V2P KERNLINK) with EXTMEM.
  change (Z.lor PTE_P PTE_W) with 3. change PTE_P with 1.
  unfold is_u32, KERNLINK, KERNBASE, EXTMEM, PHYSTOP, DEVSPACE in *.
  repeat case_decide; lia.
Qed.

(** ** allocuvm *)

Lemma pages_snoc a0 a :
  a0 `mod` PGSIZE = 0 -> a `mod` PGSIZE = 0 -> a0 <= a ->
  pages a0 (a + PGSIZE) ≡ₚ a :: pages a0 a.
Proof.
  intros H0 H1 Hle. rewrite (pages_split a0 a) by done.
  rewrite Z.min_l by (unfold PGSIZE; lia).
  rewrite (pages_cons a) by (unfold PGSIZE; lia). rewrite (pages_nil (a + PGSIZE)) by lia.
  by rewrite Permutation_app_comm.
Qed.

Lemma range_pages_snoc m d a0 a v :
  a0 `mod` PGSIZE = 0 -> a `mod` PGSIZE = 0 -> a0 <= a -> page_of m d a = Some v ->
  range_pages m d a0 (a + PGSIZE) ≡ₚ v :: range_pages m d a0 a.
Proof.
  intros H0 H1 Hle Hv. unfold range_pages. rewrite pages_snoc by done. cbn. by rewrite Hv.
Qed.

Lemma range_pages_prefix m d a0 a hi :
  a0 `mod` PGSIZE = 0 -> a `mod` PGSIZE = 0 -> a0 <= a <= hi ->
  (forall v, v ∈ pages a hi -> mapped (lookup m d v) = false) ->
  range_pages m d a0 hi ≡ₚ range_pages m d a0 a.
Proof.
  intros H0 H1 Hle Hn. unfold range_pages at 1. rewrite (pages_split a0 a), omap_app by (done || lia).
  rewrite Z.min_l by lia. fold (range_pages m d a0 a) (range_pages m d a hi).
  by rewrite (range_pages_nil m d a hi), app_nil_r.
Qed.

Section allocuvm.
  Context (me : nat) (d : Z).

(** Mapping a page already allocated at an unmapped address. *)
Lemma map_page s rest l a perm v :
  pt_inv me s d (v :: rest) l -> 0 <= a -> a + PGSIZE <= 2 ^ 32 -> a `mod` PGSIZE = 0 ->
  0 <= perm < PGSIZE -> mapped (lookup (k_mem s) d a) = false ->
  exists r s' l', mappages d a PGSIZE (V2P v) perm s = Ok r s' /\
    pt_inv me s' d (v :: rest) l' /\ pt_step d s l s' l' /\
    (forall w, w ∈ v :: rest -> page_eq (k_mem s) (k_mem s') w) /\
    ((r = 0 /\ forall vb, is_u32 vb -> lookup (k_mem s') d vb =
        if decide (a <= vb < a + PGSIZE) then V2P v + pte_flags perm else lookup (k_mem s) d vb) \/
     (r = -1 /\ l' = [] /\ forall vb, is_u32 vb -> lookup (k_mem s') d vb = lookup (k_mem s) d vb)).
Proof.
  intros H Ha Hae Hal Hp Hm.
  assert (page_ok (k_end s) v) as Hv by (eapply rest_page; [exact H|by left]).
  pose proof (page_V2P _ _ Hv) as (_ & V1 & V2). pose proof (page_phys_aligned _ _ Hv) as V3.
  destruct (mappages_ok me s d (v :: rest) l perm a 1 (V2P v)) as (r & s' & l' & k & E & H' & S & M & R);
    auto; try lia.
  { unfold PHYSTOP, PGSIZE in *. lia. }
  { intros vb Hvb. rewrite (lookup_page _ _ vb a); [done|]. symmetry. apply page_index; [done|lia]. }
  rewrite Z.mul_1_l in E. exists r, s', l'. split_and!; auto.
  - intros w Hw. apply (ps_frame _ _ _ _ _ S); [by eapply rest_page|].
    eapply (rest_not_pt _ _ _ _ _ H'). done.
  - destruct R as [(-> & ->)|(-> & Hk & Hl)].
    + left. split; [done|]. intros vb Hvb. rewrite M, Z.mul_1_l by done.
      case_decide; [|done]. rewrite Z.div_small by lia. lia.
    + right. split; [done|]. split; [done|]. assert (k = 0) as -> by lia.
      intros vb Hvb. rewrite M by done. by rewrite decide_False by lia.
Qed.

Definition zero_page (m : memory) (v : Z) : Prop := forall a, in_page v a -> rd8 m a = 0.

(** [s'] is [s] with new zeroed pages mapped in [a0, a). *)
Record grown (s : kst) (a0 a : Z) (rest l : list Z) (s' : kst) (l' : list Z) : Prop := Grown {
  gr_inv : pt_inv me s' d (range_pages (k_mem s') d a0 a ++ rest) l';
  gr_perm : pt_pages (k_mem s') d ++ range_pages (k_mem s') d a0 a ++ l' ≡ₚ
            pt_pages (k_mem s) d ++ l;
  gr_end : k_end s' = k_end s;
  gr_out : forall vb, is_u32 vb -> in_range a0 a vb = false ->
             lookup (k_mem s') d vb = lookup (k_mem s) d vb;
  gr_in : forall va, va ∈ pages a0 a -> exists v,
            lookup (k_mem s') d va = V2P v + Z.lor (Z.lor PTE_P PTE_W) PTE_U /\
            page_of (k_mem s') d va = Some v /\ zero_page (k_mem s') v;
  gr_frame : forall w, w ∈ rest -> page_eq (k_mem s) (k_mem s') w
}.

(** [s'] is [s] after a failure: nothing is mapped in the range, no page is lost; there
    were not enough pages for the range and the page tables. *)
Record not_grown (s : kst) (a0 hi : Z) (rest l : list Z) (s' : kst) (l' : list Z) : Prop :=
  NotGrown {
  ng_inv : pt_inv me s' d rest l';
  ng_perm : pt_pages (k_mem s') d ++ l' ≡ₚ pt_pages (k_mem s) d ++ l;
  ng_end : k_end s' = k_end s;
  ng_out : forall vb, is_u32 vb -> in_range a0 hi vb = false ->
             lookup (k_mem s') d vb = lookup (k_mem s) d vb;
  ng_in : forall vb, is_u32 vb -> in_range a0 hi vb = true ->
             mapped (lookup (k_mem s') d vb) = false;
  ng_frame : forall w, w ∈ rest -> page_eq (k_mem s) (k_mem s') w;
  ng_short : Z.of_nat (length (pt_pages (k_mem s) d ++ l)) <= 1025 + Z.of_nat (length (pages a0 hi))
}.

Lemma grown_refl s a0 rest l : pt_inv me s d rest l -> grown s a0 a0 rest l s l.
Proof.
  intros H. split; unfold range_pages; rewrite ?(pages_nil a0 a0) by lia; auto.
  - by intros va ?%elem_of_nil.
  - by intros w _ b _.
Qed.

(** Undoing a partial growth, with [extra] a page allocated but not mapped. *)
Lemma shrink_back s s1 oldsz newsz a rest extra l l1 :
  0 <= oldsz <= newsz -> newsz < KERNBASE -> a `mod` PGSIZE = 0 ->
  PGROUNDUP oldsz <= a < newsz ->
  pt_inv me s1 d (range_pages (k_mem s1) d (PGROUNDUP oldsz) a ++ extra ++ rest) l1 ->
  pt_pages (k_mem s1) d ++ range_pages (k_mem s1) d (PGROUNDUP oldsz) a ++ extra ++ l1 ≡ₚ
    pt_pages (k_mem s) d ++ l ->
  k_end s1 = k_end s ->
  (forall vb, is_u32 vb -> in_range (PGROUNDUP oldsz) a vb = false ->
     lookup (k_mem s1) d vb = lookup (k_mem s) d vb) ->
  (forall w, w ∈ rest -> page_eq (k_mem s) (k_mem s1) w) ->
  (forall va, va ∈ pages a newsz -> mapped (lookup (k_mem s1) d va) = false) ->
  exists s2 l2, deallocuvm d newsz oldsz s1 = Ok (s32 oldsz) s2 /\
    pt_inv me s2 d (extra ++ rest) l2 /\
    pt_pages (k_mem s2) d ++ extra ++ l2 ≡ₚ pt_pages (k_mem s) d ++ l /\
    k_end s2 = k_end s /\
    (forall vb, is_u32 vb -> in_range (PGROUNDUP oldsz) newsz vb = false ->
       lookup (k_mem s2) d vb = lookup (k_mem s) d vb) /\
    (forall vb, is_u32 vb -> in_range (PGROUNDUP oldsz) newsz vb = true ->
       mapped (lookup (k_mem s2) d vb) = false) /\
    (forall w, w ∈ rest -> page_eq (k_mem s) (k_mem s2) w).
Proof.
  intros Ho Hn Hal Ha H P Ee Hout Hw Hun.
  assert (oldsz <= PGROUNDUP oldsz) as Hup
    by (apply PGROUNDUP_bounds; unfold PGSIZE, KERNBASE in *; lia).
  assert (range_pages (k_mem s1) d (PGROUNDUP oldsz) newsz ≡ₚ
          range_pages (k_mem s1) d (PGROUNDUP oldsz) a) as Er
    by (apply range_pages_prefix; auto using PGROUNDUP_aligned; lia).
  assert (pt_inv me s1 d (range_pages (k_mem s1) d (PGROUNDUP oldsz) newsz ++ extra ++ rest) l1) as H'
    by (eapply pt_rest_perm; [|exact H]; by rewrite Er).
  destruct (deallocuvm_ok me d s1 (extra ++ rest) l1 newsz oldsz) as (s2 & l2 & E2 & [H2 P2 Ee2 Et2 U2 W2]);
    [lia|lia|done|].
  exists s2, l2. split_and!; auto.
  - rewrite <- P, Et2, P2, Er. f_equiv. rewrite !app_assoc. f_equiv. apply Permutation_app_comm.
  - by rewrite Ee2.
  - intros vb Hvb Hr. rewrite U2, Hr by done. cbn [andb]. apply Hout; [done|].
    unfold in_range in *. destruct (Z.leb_spec (PGROUNDUP oldsz) (PGROUNDDOWN vb)),
      (Z.ltb_spec (PGROUNDDOWN vb) newsz), (Z.ltb_spec (PGROUNDDOWN vb) a); try done; lia.
  - intros vb Hvb Hr. rewrite U2, Hr by done. cbn [andb].
    by destruct (mapped (lookup (k_mem s1) d vb)) eqn:E.
  - intros w Hin. eapply page_eq_trans; [by apply Hw|]. apply W2.
    + eapply rest_page; [exact H|]. rewrite !elem_of_app. auto.
    + intros Hi. pose proof (pi_nodup _ _ _ _ _ H') as Hnd.
      apply NoDup_app in Hnd as (_ & _ & Hnd). rewrite <- app_assoc in Hnd.
      apply NoDup_app in Hnd as (_ & Hnd & _). apply (Hnd w Hi). rewrite !elem_of_app. auto.
    + eapply (rest_not_pt _ _ _ _ _ H). rewrite !elem_of_app. auto.
Qed.

(** A page of [rest] is not the page at its head. *)
Lemma head_not_rest s v rest l w : pt_inv me s d (v :: rest) l -> w ∈ rest -> w <> v.
Proof.
  intros H Hw ->. pose proof (pi_nodup _ _ _ _ _ H) as Hnd.
  apply NoDup_app in Hnd as (_ & _ & Hnd). cbn [app] in Hnd. apply NoDup_cons in Hnd as [Hnd _].
  apply Hnd. rewrite elem_of_app. by left.
Qed.

(** Taking a page and filling it: [f] is the memory after the fill. *)
Lemma alloc_filled s v rest l f :
  pt_inv me s d rest (v :: l) -> bytes_ok f ->
  (forall w, page_ok (k_end s) w -> w <> v -> page_eq (k_mem s) f w) ->
  exists s1, kalloc s = Ok v s1 /\ v <> 0 /\ page_ok (k_end s) v /\ k_mem s1 = k_mem s /\
    let s2 := set_mem f s1 in
    pt_inv me s2 d (v :: rest) l /\ k_end s2 = k_end s /\
    pt_pages (k_mem s2) d = pt_pages (k_mem s) d /\
    (forall va, lookup (k_mem s2) d va = lookup (k_mem s) d va) /\
    (forall w, w ∈ rest -> page_eq (k_mem s) (k_mem s2) w).
Proof.
  intros H Hf Hw. destruct (pt_kalloc _ _ _ _ _ _ H) as (s1 & E1 & H1 & Em1 & Ee1).
  assert (page_ok (k_end s) v) as Hv by (eapply free_page; [exact H|by left]).
  destruct (pt_write me s1 d v rest l f H1 Hf) as (H2 & Ep2 & L2).
  { rewrite Em1, Ee1. exact Hw. }
  rewrite Em1 in Ep2, L2. pose proof (page_nonzero _ _ Hv).
  exists s1. cbv zeta. split_and!; auto.
  intros w Hin. apply Hw; [eapply rest_page; [exact H|done]|by eapply head_not_rest].
Qed.

(** Taking a page and clearing it. *)
Lemma alloc_zeroed s v rest l :
  pt_inv me s d rest (v :: l) ->
  exists s1, kalloc s = Ok v s1 /\ v <> 0 /\
    let s2 := set_mem (memset (k_mem s1) (V2P v) 0 PGSIZE) s1 in
    kmemset v 0 PGSIZE s1 = Ok tt s2 /\ pt_inv me s2 d (v :: rest) l /\ k_end s2 = k_end s /\
    pt_pages (k_mem s2) d = pt_pages (k_mem s) d /\
    (forall va, lookup (k_mem s2) d va = lookup (k_mem s) d va) /\
    (forall w, w ∈ rest -> page_eq (k_mem s) (k_mem s2) w) /\ zero_page (k_mem s2) v.
Proof.
  intros H. assert (page_ok (k_end s) v) as Hv by (eapply free_page; [exact H|by left]).
  destruct (alloc_filled s v rest l (memset (k_mem s) (V2P v) 0 PGSIZE) H) as (s1 & E1 & Hne & _ & Em & R).
  { apply bytes_ok_memset; [apply H|unfold PGSIZE; lia]. }
  { intros w Hw Hne. by eapply page_eq_memset. }
  exists s1. rewrite Em. destruct R as (H2 & Ee & Ep & L & W). cbv zeta. split_and!; auto.
  - rewrite (kmemset_page _ _ _ _ Hv). by rewrite Em.
  - intros a Ha. cbn [k_mem set_mem]. unfold in_page in Ha.
    rewrite rd8_memset by (unfold PGSIZE; lia). by rewrite decide_True.
Qed.

(** A new page [v] mapped at the end of the pages mapped in [a0, a). *)
Lemma range_step a0 a rest s1 l1 v s2 s3 l3 perm :
  0 <= a0 -> a0 <= a -> a + PGSIZE <= KERNBASE -> a0 `mod` PGSIZE = 0 -> a `mod` PGSIZE = 0 ->
  0 <= perm < PGSIZE ->
  pt_inv me s2 d (v :: range_pages (k_mem s1) d a0 a ++ rest) l1 ->
  pt_pages (k_mem s2) d = pt_pages (k_mem s1) d ->
  (forall va, lookup (k_mem s2) d va = lookup (k_mem s1) d va) ->
  pt_inv me s3 d (v :: range_pages (k_mem s1) d a0 a ++ rest) l3 -> pt_step d s2 l1 s3 l3 ->
  (forall vb, is_u32 vb -> lookup (k_mem s3) d vb =
     if decide (a <= vb < a + PGSIZE) then V2P v + pte_flags perm
     else lookup (k_mem s2) d vb) ->
  pt_inv me s3 d (range_pages (k_mem s3) d a0 (a + PGSIZE) ++ rest) l3 /\
  pt_pages (k_mem s3) d ++ range_pages (k_mem s3) d a0 (a + PGSIZE) ++ l3 ≡ₚ
    pt_pages (k_mem s1) d ++ range_pages (k_mem s1) d a0 a ++ v :: l1 /\
  (forall va, va ∈ pages a0 a -> lookup (k_mem s3) d va = lookup (k_mem s1) d va) /\
  lookup (k_mem s3) d a = V2P v + pte_flags perm /\ page_of (k_mem s3) d a = Some v /\
  (forall vb, is_u32 vb -> in_range a0 (a + PGSIZE) vb = false ->
     in_range a0 a vb = false /\ lookup (k_mem s3) d vb = lookup (k_mem s1) d vb).
Proof.
  intros Ha0 Ha Hae Hal0 Hal Hp H2 Ep2 L2 H3 S3 L3.
  assert (page_ok (k_end s2) v) as Hv by (eapply rest_page; [exact H2|by left]).
  assert (forall va, va ∈ pages a0 a -> lookup (k_mem s3) d va = lookup (k_mem s1) d va) as Lold.
  { intros va Hva. apply elem_of_pages_range in Hva as [Hva _]; [|done].
    rewrite L3, decide_False by (unfold is_u32, KERNBASE, PGSIZE in *; lia). apply L2. }
  assert (lookup (k_mem s3) d a = V2P v + pte_flags perm) as Ea.
  { rewrite L3 by (unfold is_u32, KERNBASE, PGSIZE in *; lia).
    by rewrite decide_True by (unfold PGSIZE; lia). }
  assert (page_of (k_mem s3) d a = Some v) as Pa.
  { pose proof (page_phys_aligned _ _ Hv) as Va. pose proof (pte_flags_ok _ Hp) as (F & _).
    unfold page_of. rewrite Ea, mapped_entry, PTE_ADDR_add by done.
    by rewrite P2V_V2P by (by eapply page_u32). }
  assert (range_pages (k_mem s3) d a0 a = range_pages (k_mem s1) d a0 a) as Er
    by (by apply range_pages_ext).
  assert (range_pages (k_mem s3) d a0 (a + PGSIZE) ≡ₚ v :: range_pages (k_mem s1) d a0 a) as Er'
    by (rewrite <- Er; by apply range_pages_snoc).
  split_and!; auto.
  - eapply pt_rest_perm; [|exact H3]. by rewrite Er'.
  - rewrite Er', <- Ep2. pose proof (ps_perm _ _ _ _ _ S3) as PS.
    rewrite (Permutation_app_comm (v :: _) l3), app_assoc, PS, <- !app_assoc. f_equiv.
    rewrite <- Permutation_middle. rewrite <- Permutation_middle. f_equiv. apply Permutation_app_comm.
  - intros vb Hvb Hr. assert (in_range a0 a vb = false) as Hr'.
    { unfold in_range in *. destruct (Z.leb_spec a0 (PGROUNDDOWN vb)), (Z.ltb_spec (PGROUNDDOWN vb) a),
        (Z.ltb_spec (PGROUNDDOWN vb) (a + PGSIZE)); try done. unfold PGSIZE in *; lia. }
    split; [done|]. rewrite L3, L2 by done. apply decide_False.
    intros Hin. assert (PGROUNDDOWN vb = a) as E.
    { apply page_index in Hin; [|done]. rewrite PGROUNDDOWN_eq, <- Hin.
      rewrite <- PGROUNDDOWN_eq. by apply PGROUNDDOWN_id. }
    unfold in_range in Hr. rewrite E in Hr.
    rewrite (proj2 (Z.leb_le _ _)), (proj2 (Z.ltb_lt _ _)) in Hr by (unfold PGSIZE; lia). done.
Qed.

(** One turn of the loop of [allocuvm]. *)
Lemma grown_page s a0 a rest l s1 l1 v s2 s3 l3 :
  0 <= a0 -> a0 <= a -> a + PGSIZE <= KERNBASE -> a0 `mod` PGSIZE = 0 -> a `mod` PGSIZE = 0 ->
  grown s a0 a rest l s1 (v :: l1) ->
  pt_inv me s2 d (v :: range_pages (k_mem s1) d a0 a ++ rest) l1 ->
  pt_pages (k_mem s2) d = pt_pages (k_mem s1) d -> k_end s2 = k_end s ->
  (forall va, lookup (k_mem s2) d va = lookup (k_mem s1) d va) ->
  (forall w, w ∈ range_pages (k_mem s1) d a0 a ++ rest -> page_eq (k_mem s1) (k_mem s2) w) ->
  zero_page (k_mem s2) v ->
  pt_inv me s3 d (v :: range_pages (k_mem s1) d a0 a ++ rest) l3 -> pt_step d s2 l1 s3 l3 ->
  (forall w, w ∈ v :: range_pages (k_mem s1) d a0 a ++ rest -> page_eq (k_mem s2) (k_mem s3) w) ->
  (forall vb, is_u32 vb -> lookup (k_mem s3) d vb =
     if decide (a <= vb < a + PGSIZE) then V2P v + pte_flags (Z.lor PTE_W PTE_U)
     else lookup (k_mem s2) d vb) ->
  grown s a0 (a + PGSIZE) rest l s3 l3.
Proof.
  intros Ha0 Ha Hae Hal0 Hal [H1 P1 Ee1 Out1 In1 W1] H2 Ep2 Ee2 L2 W2 Z2 H3 S3 W3 L3.
  destruct (range_step a0 a rest s1 l1 v s2 s3 l3 (Z.lor PTE_W PTE_U)) as (H & P & Lold & Ea & Pa & O);
    auto; [vm_compute; split; done || discriminate|].
  split; auto.
  - by rewrite P.
  - by rewrite (ps_end _ _ _ _ _ S3).
  - intros vb Hvb Hr. destruct (O vb Hvb Hr) as [Hr' ->]. by apply Out1.
  - intros va Hva. rewrite pages_snoc in Hva by done. apply elem_of_cons in Hva as [->|Hva].
    + exists v. split_and!; auto. intros b Hb. rewrite <- (W3 v) by (by left || done). by apply Z2.
    + destruct (In1 va Hva) as (p & L & Pv & Z). exists p.
      rewrite (page_of_ext _ _ _ _ (Lold va Hva)), Lold by done. split_and!; auto.
      assert (p ∈ range_pages (k_mem s1) d a0 a) as Hp by (apply list_elem_of_omap; eauto).
      intros b Hb. rewrite <- (W3 p), <- (W2 p); auto; [rewrite elem_of_app; by left|].
      right. rewrite elem_of_app. by left.
  - intros w Hw. eapply page_eq_trans; [by apply W1|]. eapply page_eq_trans; [apply W2|apply W3].
    + rewrite elem_of_app. by right.
    + right. rewrite elem_of_app. by right.
Qed.

(** Memory that runs out while the pages from [a] on are added. *)
Lemma range_short m1 a0 a hi n : a0 `mod` PGSIZE = 0 -> a `mod` PGSIZE = 0 -> a0 <= a < hi ->
  (n = length (pt_pages m1 d) + length (range_pages m1 d a0 a) + 1 \/
   n = length (pt_pages m1 d) + length (range_pages m1 d a0 a))%nat -> Z.of_nat n <= 1025 + Z.of_nat (length (pages a0 hi)).
Proof.
  intros H0 H1 H Hn. pose proof (pt_pages_length m1 d). pose proof (length_omap_le (page_of m1 d) (pages a0 a)) as Hr.
  fold (range_pages m1 d a0 a) in Hr. pose proof (Permutation_length (pages_split a0 a hi H0 H1 ltac:(lia))) as Hp.
  rewrite length_app, Z.min_l, (pages_cons a hi) in Hp by lia. cbn [length] in Hp. lia.
Qed.

(** The page that could not be mapped is given back with the others. *)
Lemma undo_page s0 s s2 s3 oldsz newsz a rest l0 l l3 v :
  0 <= oldsz <= newsz -> newsz < KERNBASE -> a `mod` PGSIZE = 0 ->
  PGROUNDUP oldsz <= a < newsz ->
  grown s0 (PGROUNDUP oldsz) a rest l0 s (v :: l) ->
  pt_pages (k_mem s2) d = pt_pages (k_mem s) d -> k_end s2 = k_end s0 ->
  (forall va, lookup (k_mem s2) d va = lookup (k_mem s) d va) ->
  (forall w, w ∈ range_pages (k_mem s) d (PGROUNDUP oldsz) a ++ rest ->
     page_eq (k_mem s) (k_mem s2) w) ->
  pt_inv me s3 d (v :: range_pages (k_mem s) d (PGROUNDUP oldsz) a ++ rest) l3 ->
  pt_step d s2 l s3 l3 -> l3 = [] ->
  (forall w, w ∈ v :: range_pages (k_mem s) d (PGROUNDUP oldsz) a ++ rest ->
     page_eq (k_mem s2) (k_mem s3) w) ->
  (forall vb, is_u32 vb -> lookup (k_mem s3) d vb = lookup (k_mem s2) d vb) ->
  (forall va, va ∈ pages a newsz -> mapped (lookup (k_mem s) d va) = false) ->
  range_pages (k_mem s3) d (PGROUNDUP oldsz) a = range_pages (k_mem s) d (PGROUNDUP oldsz) a ->
  exists r s' l', (deallocuvm d newsz oldsz;; kfree v;; mret 0) s3 = Ok r s' /\
    ((r = s32 newsz /\ grown s0 (PGROUNDUP oldsz) (PGROUNDUP newsz) rest l0 s' l') \/
     (r = 0 /\ not_grown s0 (PGROUNDUP oldsz) newsz rest l0 s' l')).
Proof.
  intros Ho Hn Hal Ha [H P Ee Out In W] Ep2 Ee2 L2 W2 H3 S3 El3 W3 L3 Hun Er.
  assert (0 <= PGROUNDUP oldsz) as Hup
    by (pose proof (PGROUNDUP_bounds oldsz); unfold PGSIZE, KERNBASE in *; lia).
  destruct (shrink_back s0 s3 oldsz newsz a rest [v] l0 l3)
    as (s4 & l4 & E4 & H4 & P4 & Ee4 & O4 & I4 & W4); auto.
  - rewrite Er. eapply pt_rest_perm; [|exact H3]. cbn [app]. by rewrite Permutation_middle.
  - rewrite Er. rewrite <- P, <- Ep2. pose proof (ps_perm _ _ _ _ _ S3) as PS.
    rewrite (Permutation_app_comm _ ([v] ++ l3)), <- app_assoc. cbn [app].
    rewrite <- Permutation_middle, app_assoc, PS, <- app_assoc.
    rewrite (Permutation_app_comm _ (v :: l)). cbn [app]. by rewrite <- Permutation_middle.
  - rewrite (ps_end _ _ _ _ _ S3). done.
  - intros vb Hvb Hr. rewrite L3, L2 by done. by apply Out.
  - intros w Hw. eapply page_eq_trans; [by apply W|]. eapply page_eq_trans; [apply W2|apply W3].
    + rewrite elem_of_app. by right.
    + right. rewrite elem_of_app. by right.
  - intros va Hva. pose proof Hva as Hva'. apply elem_of_pages_range in Hva' as [Hva' _]; [|done].
    rewrite L3, L2 by (unfold is_u32, KERNBASE in *; lia). by apply Hun.
  - mstep E4. destruct (pt_kfree _ _ _ _ _ _ H4) as (s5 & E5 & H5 & Ee5 & Ep5 & L5 & W5).
    mstep E5. exists 0, s5, (v :: l4). split; [done|]. right. split; [done|]. split; auto.
    + rewrite Ep5, <- P4. done.
    + by rewrite Ee5.
    + intros vb Hvb Hr. rewrite L5. by apply O4.
    + intros vb Hvb Hr. rewrite L5. by apply I4.
    + intros w Hw. eapply page_eq_trans; [by apply W4|]. apply W5.
      * eapply rest_page; [exact H4|]. by right.
      * by eapply head_not_rest.
    + apply (range_short (k_mem s3) _ a); auto using PGROUNDUP_aligned. left.
      pose proof (Permutation_length (ps_perm _ _ _ _ _ S3)) as PS. rewrite El3, app_nil_r, Ep2 in PS.
      rewrite <- (Permutation_length P), PS, Er. rewrite !length_app. cbn [length]. lia.
Qed.

Lemma PGROUNDUP_least a newsz :
  0 <= newsz <= KERNBASE -> a `mod` PGSIZE = 0 -> newsz <= a -> a <= PGROUNDUP newsz ->
  a = PGROUNDUP newsz.
Proof.
  intros Hn Ha H1 H2. pose proof (PGROUNDUP_bounds newsz) as B.
  unfold KERNBASE, PGSIZE in *. specialize (B ltac:(lia) ltac:(lia)).
  pose proof (PGROUNDUP_aligned newsz) as A. unfold PGSIZE in *.
  clear Hn. Z.div_mod_to_equations. lia.
Qed.

Lemma PGROUNDUP_next a newsz :
  0 <= newsz <= KERNBASE -> a `mod` PGSIZE = 0 -> a < newsz -> a + PGSIZE <= PGROUNDUP newsz <= KERNBASE.
Proof.
  intros Hn Ha H1. pose proof (PGROUNDUP_bounds newsz) as B.
  unfold KERNBASE, PGSIZE in *. specialize (B ltac:(lia) ltac:(lia)).
  pose proof (PGROUNDUP_aligned newsz) as A. unfold PGSIZE in *.
  Z.div_mod_to_equations. lia.
Qed.

Lemma allocuvm_loop_ok s0 rest l0 oldsz newsz fuel : forall s a l,
  0 <= oldsz <= newsz -> newsz < KERNBASE -> a `mod` PGSIZE = 0 ->
  PGROUNDUP oldsz <= a <= PGROUNDUP newsz ->
  grown s0 (PGROUNDUP oldsz) a rest l0 s l ->
  (forall va, va ∈ pages a newsz -> mapped (lookup (k_mem s) d va) = false) ->
  (Z.to_nat ((newsz - a + PGSIZE - 1) / PGSIZE) < fuel)%nat ->
  exists r s' l', allocuvm_loop fuel d a oldsz newsz s = Ok r s' /\
    ((r = s32 newsz /\ grown s0 (PGROUNDUP oldsz) (PGROUNDUP newsz) rest l0 s' l') \/
     (r = 0 /\ not_grown s0 (PGROUNDUP oldsz) newsz rest l0 s' l')).
Proof.
  induction fuel as [|fuel IH]; intros s a l Ho Hn Hal Ha G Hun Hf; [lia|].
  cbn [allocuvm_loop]. destruct (Z.ltb_spec a newsz) as [Hlt|Hge].
  2:{ exists (s32 newsz), s, l. split; [done|]. left. split; [done|].
      by rewrite <- (PGROUNDUP_least a newsz) by (done || lia). }
  assert (oldsz <= PGROUNDUP oldsz) as Hup
    by (apply PGROUNDUP_bounds; unfold PGSIZE, KERNBASE in *; lia).
  pose proof (PGROUNDUP_next a newsz ltac:(lia) Hal Hlt) as Hnext.
  pose proof G as [H P Ee Out In W].
  destruct l as [|v l].
  - destruct (pt_kalloc_none _ _ _ _ H) as (s1 & E1 & H1 & Em1 & Ee1).
    mstep E1. change (0 =? 0) with true. cbv iota.
    destruct (shrink_back s0 s1 oldsz newsz a rest [] l0 []) as (s2 & l2 & E2 & H2 & P2 & Ee2 & O2 & I2 & W2);
      rewrite ?Em1, ?Ee1; auto; [lia|].
    mstep E2. exists 0, s2, l2. split; [done|]. right. split; [done|]. split; auto.
    apply (range_short (k_mem s) _ a); auto using PGROUNDUP_aligned; [lia|]. right.
    rewrite <- (Permutation_length P), !length_app. cbn [length]. lia.
  - destruct (alloc_zeroed s v _ l H) as (s1 & E1 & Hne & E2 & H2 & Ee2 & Ep2 & L2 & W2 & Z2).
    mstep E1. rewrite (proj2 (Z.eqb_neq v 0)) by done. mstep E2.
    set (s2 := set_mem _ s1) in *. clearbody s2. rewrite Ee in Ee2.
    assert (a ∈ pages a newsz) as Hin by (apply elem_of_pages_range; auto; lia).
    destruct (map_page s2 _ l a (Z.lor PTE_W PTE_U) v H2) as (r & s3 & l3 & E3 & H3 & S3 & W3 & R);
      [lia|unfold KERNBASE in *; lia|done|vm_compute; split; done || discriminate
      |rewrite L2; by apply Hun|].
    mstep E3. destruct R as [(-> & L3)|(-> & El3 & L3)]; cbn [Z.ltb Z.compare].
    + rewrite (u32_small (a + PGSIZE)) by (unfold is_u32, KERNBASE, PGSIZE in *; lia).
      rewrite npages_cons in Hf by done. assert ((a + PGSIZE) `mod` PGSIZE = 0) as Hal' by by apply (aligned_add a 1).
      apply (IH s3 (a + PGSIZE) l3); auto; [unfold PGSIZE in *; lia| | |lia].
      * eapply (grown_page s0 (PGROUNDUP oldsz) a rest l0 s l v s2 s3 l3); auto using PGROUNDUP_aligned; lia.
      * intros va Hva. apply elem_of_pages_range in Hva as [Hva Hvl]; [|done].
        rewrite L3, decide_False by (unfold is_u32, KERNBASE, PGSIZE in *; lia).
        rewrite L2. apply Hun, elem_of_pages_range; [done|]. unfold PGSIZE in *. split; [lia|done].
    + assert (forall va, va ∈ pages (PGROUNDUP oldsz) newsz -> lookup (k_mem s3) d va = lookup (k_mem s) d va) as L3'.
      { intros va Hva. apply elem_of_pages_range in Hva as [Hva _]; [|apply PGROUNDUP_aligned].
        rewrite L3; [apply L2|]. unfold is_u32, KERNBASE in *. lia. }
      assert (range_pages (k_mem s3) d (PGROUNDUP oldsz) a = range_pages (k_mem s) d (PGROUNDUP oldsz) a) as Er.
      { apply range_pages_ext. intros va Hva. apply L3'. rewrite elem_of_pages_range in *;
          auto using PGROUNDUP_aligned. split; [lia|tauto]. }
      eapply (undo_page s0 s s2 s3); eauto; lia.
Qed.

End allocuvm.

(** ** copyuvm *)

(** The page of [va] in [d] is a copy of its page in [p]. *)
Definition copied_page (m0 : memory) (p : Z) (m : memory) (d va : Z) : Prop :=
  exists v w, page_of m d va = Some v /\ page_of m0 p va = Some w /\
    PTE_FLAGS (lookup m d va) = pte_flags (PTE_FLAGS (lookup m0 p va)) /\
    forall j, 0 <= j < PGSIZE -> rd8 m (V2P v + j) = rd8 m0 (V2P w + j).

Lemma kmemmove_pages e1 e2 v w s :
  page_ok e1 v -> page_ok e2 w ->
  kmemmove v w PGSIZE s = Ok tt (set_mem (memmove (k_mem s) (V2P v) (V2P w) PGSIZE) s).
Proof.
  intros [_ _ A1 A2] [_ _ B1 B2]. unfold kmemmove.
  apply Z.leb_le in A1, A2, B1, B2. by rewrite A1, A2, B1, B2.
Qed.

Section copyuvm.
  Context (me : nat) (data : Z) (Hdata : data_ok data).
  Context (s0 : kst) (p : Z) (R l0 : list Z).
  Context (H0 : pt_inv me s0 p R l0).

(** The parent's pages and the other pages in use. *)
Let PR : list Z := pt_pages (k_mem s0) p ++ R.

(** A child directory with pages mapped in [0, i). *)
Record child (d i : Z) (s : kst) (l : list Z) : Prop := Child {
  ch_inv : pt_inv me s d (range_pages (k_mem s) d 0 i ++ PR) l;
  ch_perm : pt_pages (k_mem s) d ++ range_pages (k_mem s) d 0 i ++ l ≡ₚ l0;
  ch_end : k_end s = k_end s0;
  ch_out : forall vb, is_u32 vb -> in_range 0 i vb = false -> lookup (k_mem s) d vb = kvm_entry data vb;
  ch_frame : forall w, w ∈ PR -> page_eq (k_mem s0) (k_mem s) w
}.

Lemma perm_shuffle (A B C D : list Z) : A ++ B ++ C ++ D ≡ₚ C ++ A ++ B ++ D.
Proof. rewrite !app_assoc. f_equiv. rewrite <- !app_assoc. by rewrite (app_assoc A), Permutation_app_comm. Qed.

(** Seen from the parent, the child is more pages in use. *)
Lemma child_parent d i s l :
  child d i s l ->
  pt_inv me s p (pt_pages (k_mem s) d ++ range_pages (k_mem s) d 0 i ++ R) l /\
  (forall va, lookup (k_mem s) p va = lookup (k_mem s0) p va).
Proof.
  intros [H _ _ _ F].
  assert (pt_pages (k_mem s0) p = pt_pages (k_mem s) p) as Ep
    by (apply pt_pages_ext, F; unfold PR; rewrite elem_of_app; left; by left).
  split.
  - eapply pt_of_page_inv; [|done]. eapply page_inv_perm; [|by apply pt_page_inv].
    unfold PR. rewrite Ep. apply perm_shuffle.
  - intros va. symmetry. apply lookup_ext. intros w Hw. apply F. unfold PR. rewrite elem_of_app. by left.
Qed.

Lemma kvm_entry_user vb : 0 <= vb < KERNBASE -> kvm_entry data vb = 0.
Proof.
  intros Hvb. rewrite kvm_entry_eq by (done || (unfold is_u32, KERNBASE in *; lia)).
  destruct Hdata. unfold KERNLINK, KERNBASE, EXTMEM, DEVSPACE in *. by rewrite !decide_False by lia.
Qed.

Lemma child_unmapped d i s l va :
  child d i s l -> i `mod` PGSIZE = 0 -> va ∈ pages i KERNBASE -> 0 <= i ->
  mapped (lookup (k_mem s) d va) = false.
Proof.
  intros [_ _ _ O _] Hal Hva Hi. apply elem_of_pages_range in Hva as [Hva Hvl]; [|done].
  rewrite O, kvm_entry_user; [done|lia|unfold is_u32, KERNBASE in *; lia|].
  unfold in_range. rewrite PGROUNDDOWN_id by done. rewrite (proj2 (Z.ltb_ge _ _)) by lia.
  apply andb_false_r.
Qed.

(** The outcome of a failed [copyuvm]: every page is back on the free list. *)
Definition all_back (s' : kst) (l' : list Z) : Prop :=
  page_inv me s' PR l' /\ l' ≡ₚ l0 /\ k_end s' = k_end s0 /\
  (forall w, w ∈ PR -> page_eq (k_mem s0) (k_mem s') w).

Lemma child_undo d i s l :
  child d i s l -> 0 <= i <= KERNBASE -> i `mod` PGSIZE = 0 ->
  exists s' l', freevm d s = Ok tt s' /\ all_back s' l'.
Proof.
  intros C Hi Hal. pose proof C as [H P Ee _ F].
  assert (range_pages (k_mem s) d 0 KERNBASE ≡ₚ range_pages (k_mem s) d 0 i) as Er.
  { apply range_pages_prefix; try done. intros v Hv. eapply child_unmapped; eauto. lia. }
  destruct (freevm_ok me d s PR l) as (s' & l' & E & K & P' & Ee' & F').
  { eapply pt_rest_perm; [|exact H]. by rewrite Er. }
  exists s', l'. split; [done|]. rewrite Er, P in P'. split_and!; auto.
  - pose proof (pt_page_inv _ _ _ _ _ H) as [_ He Hok Hnd]. split; rewrite ?Ee'; auto.
    + rewrite !Forall_app in Hok. tauto.
    + rewrite P', <- P. revert Hnd. apply NoDup_Permutation_proper.
      rewrite <- !app_assoc. symmetry. apply perm_shuffle.
  - by rewrite Ee'.
  - intros w Hw. eapply page_eq_trans; [by apply F|by apply F'].
Qed.

(** The next page is copied: [v] is the new page, [w] the parent's. *)
Lemma child_step d i s1 l1 v w s2 s3 l3 perm :
  0 <= i -> i + PGSIZE <= KERNBASE -> i `mod` PGSIZE = 0 -> 0 <= perm < PGSIZE ->
  perm = PTE_FLAGS (lookup (k_mem s0) p i) -> page_of (k_mem s0) p i = Some w ->
  child d i s1 (v :: l1) ->
  (forall va, va ∈ pages 0 i -> copied_page (k_mem s0) p (k_mem s1) d va) ->
  pt_inv me s2 d (v :: range_pages (k_mem s1) d 0 i ++ PR) l1 ->
  pt_pages (k_mem s2) d = pt_pages (k_mem s1) d -> k_end s2 = k_end s0 ->
  (forall va, lookup (k_mem s2) d va = lookup (k_mem s1) d va) ->
  (forall x, x ∈ range_pages (k_mem s1) d 0 i ++ PR -> page_eq (k_mem s1) (k_mem s2) x) ->
  (forall j, 0 <= j < PGSIZE -> rd8 (k_mem s2) (V2P v + j) = rd8 (k_mem s0) (V2P w + j)) ->
  pt_inv me s3 d (v :: range_pages (k_mem s1) d 0 i ++ PR) l3 -> pt_step d s2 l1 s3 l3 ->
  (forall x, x ∈ v :: range_pages (k_mem s1) d 0 i ++ PR -> page_eq (k_mem s2) (k_mem s3) x) ->
  (forall vb, is_u32 vb -> lookup (k_mem s3) d vb =
     if decide (i <= vb < i + PGSIZE) then V2P v + pte_flags perm
     else lookup (k_mem s2) d vb) ->
  child d (i + PGSIZE) s3 l3 /\
  (forall va, va ∈ pages 0 (i + PGSIZE) -> copied_page (k_mem s0) p (k_mem s3) d va).
Proof.
  intros Hi Hie Hal Hp -> Hw [H1 P1 Ee1 Out1 W1] In1 H2 Ep2 Ee2 L2 W2 C2 H3 S3 W3 L3.
  destruct (range_step me d 0 i PR s1 l1 v s2 s3 l3 (PTE_FLAGS (lookup (k_mem s0) p i)))
    as (H & P & Lold & Ea & Pa & O); auto; [done|].
  assert (forall x, x ∈ range_pages (k_mem s1) d 0 i ++ PR -> page_eq (k_mem s1) (k_mem s3) x) as W13.
  { intros x Hx. eapply page_eq_trans; [by apply W2|]. apply W3. by right. }
  split; [split; auto|].
  - by rewrite P.
  - by rewrite (ps_end _ _ _ _ _ S3).
  - intros vb Hvb Hr. destruct (O vb Hvb Hr) as [Hr' ->]. by apply Out1.
  - intros x Hx. eapply page_eq_trans; [by apply W1|]. apply W13. rewrite elem_of_app. by right.
  - intros va Hva. rewrite pages_snoc in Hva by (done || lia). apply elem_of_cons in Hva as [->|Hva].
    + exists v, w. split_and!; auto.
      * assert (page_ok (k_end s2) v) as Hv by (eapply rest_page; [exact H2|by left]).
        rewrite Ea. apply PTE_FLAGS_add; [by eapply page_phys_aligned|by apply pte_flags_ok].
      * intros j Hj. rewrite <- (W3 v); [by apply C2|by left|]. unfold in_page. lia.
    + destruct (In1 va Hva) as (v' & w' & Pv & Pw & Fl & Cp). exists v', w'.
      rewrite (page_of_ext _ _ _ _ (Lold va Hva)), Lold by done. split_and!; auto.
      intros j Hj. rewrite <- (W13 v'); [by apply Cp| |unfold in_page; lia].
      rewrite elem_of_app. left. apply list_elem_of_omap. eauto.
Qed.

(** The pages of the parent below [sz] are mapped. *)
Definition parent_ok (sz : Z) : Prop :=
  0 <= sz <= KERNBASE /\
  forall va, va ∈ pages 0 sz -> exists w, page_of (k_mem s0) p va = Some w /\ w ∈ R.

Lemma PTE_FLAGS_range x : 0 <= PTE_FLAGS x < PGSIZE.
Proof. rewrite PTE_FLAGS_eq. apply Z.mod_pos_bound. done. Qed.

(** Finding the parent's entry. *)
Lemma parent_entry d i s l va w :
  child d i s l -> page_of (k_mem s0) p va = Some w ->
  exists pte, walkpgdir p va false s = Ok pte s /\ pte <> 0 /\
    kload pte s = Ok (lookup (k_mem s0) p va) s /\ mapped (lookup (k_mem s0) p va) = true /\
    P2V (PTE_ADDR (lookup (k_mem s0) p va)) = w.
Proof.
  intros C Hw. destruct (child_parent _ _ _ _ C) as [Hp L].
  unfold page_of in Hw. destruct (mapped _) eqn:Hm; [|done]. injection Hw as Hw.
  rewrite <- L in Hm. destruct (mapped_table _ _ _ Hm) as [t Et].
  assert (page_ok (k_end s) t) as Ht by (eapply table_page; [exact Hp|apply PDX_range|done]).
  exists (t + 4 * PTX va). rewrite (walkpgdir_lookup _ _ _ _ _ _ Hp), Et.
  rewrite (kload_slot _ _ _ _ Ht) by apply PTX_range. rewrite (lookup_table _ _ _ _ Et), L.
  split_and!; auto. pose proof (PTX_range va). pose proof (page_nonzero _ _ Ht).
  destruct Ht. unfold KERNBASE in *. lia.
Qed.

Lemma copyuvm_loop_ok sz fuel : forall d i s l,
  parent_ok sz -> 0 <= i -> i `mod` PGSIZE = 0 -> i <= PGROUNDUP sz ->
  child d i s l -> (forall va, va ∈ pages 0 i -> copied_page (k_mem s0) p (k_mem s) d va) ->
  (Z.to_nat ((sz - i + PGSIZE - 1) / PGSIZE) < fuel)%nat ->
  exists r s' l', copyuvm_loop fuel p d i sz s = Ok r s' /\
    ((r = 0 /\ all_back s' l' /\ Z.of_nat (length l0) <= 1025 + Z.of_nat (length (pages 0 sz))) \/
     (r = d /\ child d (PGROUNDUP sz) s' l' /\
      forall va, va ∈ pages 0 (PGROUNDUP sz) -> copied_page (k_mem s0) p (k_mem s') d va)).
Proof.
  induction fuel as [|fuel IH]; intros d i s l Hpar Hi Hal Hiu C Cp Hf; [lia|].
  pose proof Hpar as [Hsz Hmap]. cbn [copyuvm_loop]. destruct (Z.ltb_spec i sz) as [Hlt|Hge].
  2:{ exists d, s, l. split; [done|]. right. split; [done|].
      by rewrite <- (PGROUNDUP_least i sz) by (done || lia). }
  pose proof (PGROUNDUP_next i sz Hsz Hal Hlt) as Hnext.
  destruct (Hmap i) as (w & Hw & HwR); [apply elem_of_pages_range; auto; lia|].
  destruct (parent_entry _ _ _ _ _ _ C Hw) as (pte & E1 & Hne & E2 & Hm & Hpv).
  mstep E1. rewrite (proj2 (Z.eqb_neq pte 0)) by done. mstep E2. rewrite Hm. cbn [negb]. cbv zeta.
  rewrite Hpv. pose proof C as [H P Ee Out W].
  assert (w ∈ PR) as HwPR by (unfold PR; rewrite elem_of_app; by right).
  assert (page_ok (k_end s) w) as Hwp by (eapply rest_page; [exact H|rewrite elem_of_app; by right]).
  destruct l as [|v l].
  - destruct (pt_kalloc_none _ _ _ _ H) as (s1 & E3 & H1 & Em1 & Ee1).
    mstep E3. change (0 =? 0) with true. cbv iota.
    destruct (child_undo d i s1 []) as (s2 & l2 & E4 & B); [|lia|done|].
    { split; rewrite ?Em1, ?Ee1; auto. }
    mstep E4. exists 0, s2, l2. split; [done|]. left. split; [done|]. split; [done|].
    apply (range_short d (k_mem s) 0 i); [done|done|lia|]. right. rewrite <- (Permutation_length P), !length_app. cbn [length]. lia.
  - set (m2 := memmove (k_mem s) (V2P v) (V2P w) PGSIZE).
    assert (forall b, rd8 m2 b = if decide (V2P v <= b < V2P v + PGSIZE)
      then rd8 (k_mem s) (V2P w + (b - V2P v)) else rd8 (k_mem s) b) as Rm
      by (intros b; apply rd8_memmove; [apply H|done]).
    destruct (alloc_filled me d s v _ l m2 H) as (s1 & E3 & Hv0 & Hv & Em1 & H2 & Ee2 & Ep2 & L2 & W2).
    { apply bytes_ok_memmove; [apply H|done]. }
    { intros x Hx Hxv b Hb. rewrite Rm, decide_False; [done|]. intros Hin.
      eapply (page_disjoint _ x v); [exact Hx| |exact Hxv|exact Hb|exact Hin].
      eapply free_page; [exact H|by left]. }
    mstep E3. rewrite (proj2 (Z.eqb_neq v 0)) by done.
    mstep kmemmove_pages; [|exact Hv|exact Hwp]. rewrite Em1. fold m2.
    set (s2 := set_mem m2 s1) in *.
    destruct (map_page me d s2 _ l i (PTE_FLAGS (lookup (k_mem s0) p i)) v H2)
      as (r & s3 & l3 & E5 & H3 & S3 & W3 & Rr);
      [lia|unfold KERNBASE in *; lia|done|apply PTE_FLAGS_range| |].
    { rewrite L2. eapply child_unmapped; [exact C|done| |done]. apply elem_of_pages_range; [done|]. lia. }
    mstep E5. destruct Rr as [(-> & L3)|(-> & El3 & L3)]; cbn [Z.ltb Z.compare].
    + rewrite (u32_small (i + PGSIZE)) by (unfold is_u32, KERNBASE, PGSIZE in *; lia).
      rewrite npages_cons in Hf by done.
      destruct (child_step d i s l v w s2 s3 l3 (PTE_FLAGS (lookup (k_mem s0) p i))) as [C' Cp'];
        auto using PTE_FLAGS_range; [lia|by rewrite Ee2| |].
      { intros j Hj. cbn [s2 k_mem set_mem]. rewrite Rm, decide_True by lia.
        rewrite (W w) by (done || (unfold in_page; lia)). f_equal. lia. }
      apply (IH d (i + PGSIZE) s3 l3); auto; [unfold PGSIZE; lia|by apply (aligned_add i 1)|lia|lia].
    + assert (pt_pages (k_mem s3) d ++ v :: l3 ≡ₚ pt_pages (k_mem s) d ++ v :: l) as PS.
      { rewrite <- Ep2, <- !Permutation_middle. f_equiv. apply S3. }
      assert (range_pages (k_mem s3) d 0 i = range_pages (k_mem s) d 0 i) as Er.
      { apply range_pages_ext. intros va Hva. apply elem_of_pages_range in Hva as [Hva _]; [|done].
        rewrite L3; [apply L2|]. unfold is_u32, KERNBASE in *. lia. }
      destruct (pt_kfree _ _ _ _ _ _ H3) as (s4 & E6 & H4 & Ee4 & Ep4 & L4 & W4).
      mstep E6. destruct (child_undo d i s4 (v :: l3)) as (s5 & l5 & E7 & B); [|lia|done|].
      { assert (range_pages (k_mem s4) d 0 i = range_pages (k_mem s) d 0 i) as Er4
          by (rewrite <- Er; by apply range_pages_ext).
        split; rewrite ?Er4; auto.
        - rewrite Ep4, <- P, (Permutation_app_comm _ (v :: l3)), app_assoc, PS, <- app_assoc.
          f_equiv. apply Permutation_app_comm.
        - by rewrite Ee4, (ps_end _ _ _ _ _ S3), Ee2.
        - intros vb Hvb Hr. rewrite L4, L3, L2 by done. by apply Out.
        - intros x Hx. assert (x ∈ range_pages (k_mem s) d 0 i ++ PR) as Hx'
            by (rewrite elem_of_app; by right).
          eapply page_eq_trans; [by apply W|]. eapply page_eq_trans; [by apply W2|].
          eapply page_eq_trans; [apply W3; by right|].
          apply W4; [eapply rest_page; [exact H3|by right]|by eapply head_not_rest]. }
      mstep E7. exists 0, s5, l5. split; [done|]. left. split; [done|]. split; [done|].
      apply (range_short d (k_mem s3) 0 i); [done|done|lia|]. left. rewrite <- (Permutation_length P), Er.
      apply Permutation_length in PS. rewrite El3, !length_app in PS. rewrite !length_app. cbn [length] in *. lia.
Qed.

(** Together with [setupkvm]. *)
Lemma copyuvm_ok sz :
  parent_ok sz ->
  exists r s' l', copyuvm data p sz s0 = Ok r s' /\
    ((r = 0 /\ all_back s' l' /\ Z.of_nat (length l0) <= 1025 + Z.of_nat (length (pages 0 sz))) \/
     (r <> 0 /\ child r (PGROUNDUP sz) s' l' /\
      forall va, va ∈ pages 0 (PGROUNDUP sz) -> copied_page (k_mem s0) p (k_mem s') r va)).
Proof.
  intros Hpar. unfold copyuvm.
  destruct (setupkvm_ok me s0 PR l0 data) as (d & s1 & l1 & E1 & Ee1 & W1 & O);
    [by apply pt_page_inv|done|].
  mstep E1. destruct O as [(-> & K1 & P1 & Hs)|(Hd & H1 & P1 & L1)].
  - exists 0, s1, l1. split; [done|]. left. split; [done|]. split; [by split_and!|lia].
  - rewrite (proj2 (Z.eqb_neq d 0)) by done. pose proof Hpar as [Hsz _].
    assert (range_pages (k_mem s1) d 0 0 = []) as Er
      by (unfold range_pages; by rewrite pages_nil by lia).
    destruct (copyuvm_loop_ok sz (S (S (Z.to_nat (sz / PGSIZE)))) d 0 s1 l1)
      as (r & s' & l' & E & [O|(-> & C & Cp)]); auto.
    + lia.
    + pose proof (PGROUNDUP_bounds sz). unfold PGSIZE, KERNBASE in *. lia.
    + split; rewrite ?Er; auto.
    + intros va Hva. rewrite pages_nil in Hva by lia. by apply elem_of_nil in Hva.
    + unfold PGSIZE. clear -Hsz. Z.div_mod_to_equations. lia.
    + exists r, s', l'. split; [done|]. by left.
    + exists d, s', l'. split; [done|]. by right.
Qed.
End copyuvm.

(** ** The contracts of the address-space operations *)

(** [setupkvm] builds the kernel part of an address space or nothing: it returns
    a directory in which every kernel address has the entry of [kmap] (text read-only,
    the rest writable, never accessible to the user) and nothing is mapped below
    [KERNBASE], or it returns 0, which takes at most 1025 free pages, and every page it
    had taken is free again; [freevm] of the new directory frees exactly the pages [setupkvm] took; pages in use elsewhere
    keep their contents, and [freevm] of the null directory panics. *)
Theorem setupkvm_freevm (me : nat) (data : Z) (s : kst) (rest l : list Z)
  (Hd : data_ok data) (H : page_inv me s rest l) :
  (exists r s' l', setupkvm data s = Ok r s' /\
    (forall w, w ∈ rest -> page_eq (k_mem s) (k_mem s') w) /\
    ((r = 0 /\ page_inv me s' rest l' /\ l' ≡ₚ l /\ Z.of_nat (length l) <= 1025) \/
     (r <> 0 /\ pt_inv me s' r rest l' /\ pt_pages (k_mem s') r ++ l' ≡ₚ l /\
      (forall va, 0 <= va < KERNBASE -> mapped (lookup (k_mem s') r va) = false) /\
      (forall va, KERNBASE <= va < KERNBASE + PHYSTOP ->
         lookup (k_mem s') r va = PGROUNDDOWN va - KERNBASE +
           (if decide (KERNLINK <= va < data) then PTE_P else Z.lor PTE_P PTE_W)) /\
      (forall va, DEVSPACE <= va < 2 ^ 32 ->
         lookup (k_mem s') r va = PGROUNDDOWN va + Z.lor PTE_P PTE_W) /\
      exists s'' l'', freevm r s' = Ok tt s'' /\ kinv me s'' l'' /\ l'' ≡ₚ l))) /\
  freevm 0 s = Panic "freevm: no pgdir".
Proof.
  split; [|done].
  destruct (setupkvm_ok me s rest l data H Hd) as (r & s' & l' & E & Ee & W & O).
  exists r, s', l'. split_and!; auto. destruct O as [O|(Hr & H' & P & L)]; [by left|right].
  assert (forall va, 0 <= va < KERNBASE -> lookup (k_mem s') r va = 0) as Hu.
  { intros va Hva. rewrite L, (kvm_entry_user data Hd) by (done || (unfold is_u32, KERNBASE in *; lia)).
    done. }
  split_and!; auto.
  - intros va Hva. by rewrite Hu.
  - intros va Hva. assert (is_u32 va) by (unfold is_u32, KERNBASE, PHYSTOP in *; lia).
    rewrite L, kvm_entry_eq by done. destruct Hd. unfold KERNLINK in *.
    repeat case_decide; unfold KERNBASE, EXTMEM, DEVSPACE, PHYSTOP in *; lia.
  - intros va Hva. assert (is_u32 va) by (unfold is_u32, DEVSPACE in *; lia).
    rewrite L, kvm_entry_eq by done. destruct Hd.
    repeat case_decide; unfold KERNLINK, KERNBASE, EXTMEM, DEVSPACE, PHYSTOP in *; lia.
  - assert (range_pages (k_mem s') r 0 KERNBASE = []) as Er.
    { apply range_pages_nil. intros v [Hv _]%elem_of_pages_range; [|done]. by rewrite Hu. }
    destruct (freevm_ok me r s' rest l') as (s'' & l'' & E'' & K'' & P'' & _); [by rewrite Er|].
    rewrite Er in P''. exists s'', l''. split_and!; auto. by rewrite P''.
Qed.

Lemma allocuvm_ok (me : nat) (d : Z) (s : kst) (rest l : list Z) (oldsz newsz : Z)
  (H : pt_inv me s d rest l) (Ho : 0 <= oldsz) (Hn : is_u32 newsz)
  (Hun : forall va, va ∈ pages (PGROUNDUP oldsz) newsz -> mapped (lookup (k_mem s) d va) = false) :
  (KERNBASE <= newsz -> allocuvm d oldsz newsz s = Ok 0 s) /\
  (newsz < KERNBASE -> newsz < oldsz -> allocuvm d oldsz newsz s = Ok (s32 oldsz) s) /\
  (newsz < KERNBASE -> oldsz <= newsz ->
   exists r s' l', allocuvm d oldsz newsz s = Ok r s' /\
     ((r = newsz /\ grown me d s (PGROUNDUP oldsz) (PGROUNDUP newsz) rest l s' l') \/
      (r = 0 /\ not_grown me d s (PGROUNDUP oldsz) newsz rest l s' l'))).
Proof.
  unfold allocuvm. split_and!.
  - intros Hk. by rewrite (proj2 (Z.leb_le _ _)).
  - intros Hk Hlt. by rewrite (proj2 (Z.leb_gt _ _)), (proj2 (Z.ltb_lt _ _)) by lia.
  - intros Hk Hle. rewrite (proj2 (Z.leb_gt _ _)), (proj2 (Z.ltb_ge _ _)) by lia.
    assert (oldsz <= PGROUNDUP oldsz /\ PGROUNDUP oldsz <= PGROUNDUP newsz) as [B1 B2].
    { pose proof (PGROUNDUP_bounds oldsz) as B1. pose proof (PGROUNDUP_bounds newsz) as B2.
      pose proof (PGROUNDUP_aligned oldsz) as A1. pose proof (PGROUNDUP_aligned newsz) as A2.
      unfold PGSIZE, KERNBASE in *. specialize (B1 ltac:(lia) ltac:(lia)).
      specialize (B2 ltac:(lia) ltac:(lia)). clear Hun. Z.div_mod_to_equations. lia. }
    destruct (allocuvm_loop_ok me d s rest l oldsz newsz (S (S (Z.to_nat (newsz / PGSIZE)))) s
      (PGROUNDUP oldsz) l) as (r & s' & l' & E & R); auto using PGROUNDUP_aligned; [lia|by apply grown_refl| |].
    + unfold PGSIZE. clear -Ho Hle B1. Z.div_mod_to_equations. lia.
    + exists r, s', l'. split; [done|]. destruct R as [(-> & G)|R]; [left|by right].
      split; [|done]. unfold s32, KERNBASE in *. rewrite Z.mod_small; lia.
Qed.

(** C31. [allocuvm] grows an address space or leaves it as it was: when the pages from
    [PGROUNDUP oldsz] to [newsz] are unmapped it returns [newsz] with each of them
    mapped, user-writable, to a fresh page of zeroes and every other translation
    unchanged, or it returns 0 with none of them mapped and no page lost, because there
    were too few pages for the range and the page tables ([ng_short]); it refuses
    sizes that reach the kernel, and does nothing when [newsz] is smaller. Pages in
    use elsewhere keep their contents. *)
Theorem allocuvm_spec (me : nat) (d : Z) (s : kst) (rest l : list Z) (oldsz newsz : Z)
  (H : pt_inv me s d rest l) (Ho : 0 <= oldsz) (Hn : is_u32 newsz)
  (Hun : forall va, va ∈ pages (PGROUNDUP oldsz) newsz -> mapped (lookup (k_mem s) d va) = false) :
  (KERNBASE <= newsz -> allocuvm d oldsz newsz s = Ok 0 s) /\
  (newsz < KERNBASE -> newsz < oldsz -> allocuvm d oldsz newsz s = Ok (s32 oldsz) s) /\
  (newsz < KERNBASE -> oldsz <= newsz ->
   exists r s' l', allocuvm d oldsz newsz s = Ok r s' /\
     ((r = newsz /\ grown me d s (PGROUNDUP oldsz) (PGROUNDUP newsz) rest l s' l') \/
      (r = 0 /\ not_grown me d s (PGROUNDUP oldsz) newsz rest l s' l'))).
Proof. by apply allocuvm_ok. Qed.

(** C32. [deallocuvm] frees exactly the pages mapped between [PGROUNDUP newsz] and
    [oldsz], whether present or encrypted: it terminates with the new size, those pages are on the free
    list and unmapped, every other translation, the page tables and all other pages are
    unchanged; and [freevm] gives back the whole address space: every page mapped
    below [KERNBASE], every page table and the directory. *)
Theorem deallocuvm_freevm_spec (me : nat) (d : Z) (s : kst) (rest l : list Z) (oldsz newsz : Z)
  (Hn : 0 <= newsz) (Ho : oldsz <= KERNBASE) :
  (oldsz <= newsz -> deallocuvm d oldsz newsz s = Ok (s32 oldsz) s) /\
  (newsz < oldsz ->
   pt_inv me s d (range_pages (k_mem s) d (PGROUNDUP newsz) oldsz ++ rest) l ->
   exists s' l', deallocuvm d oldsz newsz s = Ok newsz s' /\ pt_inv me s' d rest l' /\
     l' ≡ₚ range_pages (k_mem s) d (PGROUNDUP newsz) oldsz ++ l /\
     pt_pages (k_mem s') d = pt_pages (k_mem s) d /\
     unmapped d (k_mem s) (PGROUNDUP newsz) oldsz (k_mem s') /\
     (forall w, w ∈ rest -> page_eq (k_mem s) (k_mem s') w)) /\
  (pt_inv me s d (range_pages (k_mem s) d 0 KERNBASE ++ rest) l ->
   exists s' l', freevm d s = Ok tt s' /\ kinv me s' l' /\
     l' ≡ₚ pt_pages (k_mem s) d ++ range_pages (k_mem s) d 0 KERNBASE ++ l /\
     (forall w, w ∈ rest -> page_eq (k_mem s) (k_mem s') w)).
Proof.
  split_and!.
  - by apply deallocuvm_same.
  - intros Hlt H. destruct (deallocuvm_ok me d s rest l oldsz newsz) as (s' & l' & E & [H' P Ee Et U W]); auto.
    exists s', l'. split_and!; auto.
    + rewrite E. f_equal. unfold s32, KERNBASE in *. rewrite Z.mod_small; lia.
    + intros w Hw. apply W.
      * eapply rest_page; [exact H|]. rewrite elem_of_app. by right.
      * intros Hi. pose proof (pi_nodup _ _ _ _ _ H) as Hnd.
        apply NoDup_app in Hnd as (_ & _ & Hnd). rewrite <- app_assoc in Hnd.
        apply NoDup_app in Hnd as (_ & Hnd & _). apply (Hnd w Hi). rewrite elem_of_app. by left.
      * eapply (rest_not_pt _ _ _ _ _ H). rewrite elem_of_app. by right.
  - intros H. destruct (freevm_ok me d s rest l H) as (s' & l' & E & K & P & _ & W).
    by exists s', l'.
Qed.

(** C30. [copyuvm] makes a faithful, separate copy or nothing: given a parent whose pages
    below [sz] are mapped, it returns a new directory with the kernel mappings in
    which each of these pages is mapped, with the parent's flags (present xor
    encrypted), to a fresh page with the same bytes, or it returns 0 with every
    page it took free again because there were too few for the copy and its page tables;
    either way the parent's directory, page tables and
    pages, and all other pages in use, are unchanged. *)
Theorem copyuvm_spec (me : nat) (data : Z) (s : kst) (p : Z) (R l : list Z) (sz : Z)
  (Hd : data_ok data) (H : pt_inv me s p R l) (Hsz : 0 <= sz <= KERNBASE)
  (Hp : forall va, va ∈ pages 0 sz -> exists w, page_of (k_mem s) p va = Some w /\ w ∈ R) :
  exists r s' l', copyuvm data p sz s = Ok r s' /\
    (forall w, w ∈ pt_pages (k_mem s) p ++ R -> page_eq (k_mem s) (k_mem s') w) /\
    ((r = 0 /\ page_inv me s' (pt_pages (k_mem s) p ++ R) l' /\ l' ≡ₚ l /\
      Z.of_nat (length l) <= 1025 + Z.of_nat (length (pages 0 sz))) \/
     (r <> 0 /\
      pt_inv me s' r (range_pages (k_mem s') r 0 (PGROUNDUP sz) ++ pt_pages (k_mem s) p ++ R) l' /\
      pt_pages (k_mem s') r ++ range_pages (k_mem s') r 0 (PGROUNDUP sz) ++ l' ≡ₚ l /\
      (forall va, va ∈ pages 0 sz -> copied_page (k_mem s) p (k_mem s') r va) /\
      (forall va, is_u32 va -> PGROUNDUP sz <= va -> lookup (k_mem s') r va = kvm_entry data va))).
Proof.
  destruct (copyuvm_ok me data Hd s p R l H sz) as (r & s' & l' & E & O); [by split|].
  exists r, s', l'. split; [done|]. destruct O as [(-> & (K & P & _ & W) & Hs)|(Hr & C & Cp)].
  - split; [done|]. by left.
  - destruct C as [H' P _ O W]. split; [done|]. right.
    assert (sz <= PGROUNDUP sz) as B by (apply PGROUNDUP_bounds; unfold PGSIZE, KERNBASE in *; lia).
    split_and!; auto.
    + intros va Hva. apply Cp. rewrite elem_of_pages_range in * by done. lia.
    + intros va Hva Hge. apply O; [done|]. unfold in_range.
      rewrite (proj2 (Z.ltb_ge (PGROUNDDOWN va) _)); [by rewrite andb_false_r|].
      pose proof (PGROUNDUP_aligned sz) as A. rewrite PGROUNDDOWN_eq. unfold PGSIZE in *.
      clear -A Hge. Z.div_mod_to_equations. lia.
Qed.

(** ** Witnesses: one free page; an address space of one page *)

Definition demo_data : Z := KERNBASE + 0x108000.

Lemma demo_data_ok : data_ok demo_data.
Proof. split; reflexivity. Qed.

Lemma demo_range_pages a hi : range_pages (k_mem demo_kst1) demo_dir a hi = [].
Proof. apply range_pages_nil. intros v _. by rewrite demo_unmapped. Qed.

Definition demo_table : Z := KERNBASE + 0x301000.
Definition demo_upage : Z := KERNBASE + 0x302000.
Definition demo_mem2 : memory :=
  wr32 (wr32 ∅ (V2P demo_dir) (V2P demo_table + 7)) (V2P demo_table) (V2P demo_upage + 7).
Definition demo_kst2 : kst := set_mem demo_mem2 demo_kst1.

Lemma demo_pt_inv2 : pt_inv 1 demo_kst2 demo_dir [demo_upage] [demo_page].
Proof.
  assert (pt_pages (k_mem demo_kst2) demo_dir = [demo_dir; demo_table]) as E by (vm_compute; reflexivity).
  split; rewrite ?E; cbn [app].
  - apply kinv_mem; [apply demo_kinv| |].
    + apply bytes_ok_wr32, bytes_ok_wr32, bytes_ok_empty.
    + intros v ->%list_elem_of_singleton a Ha. unfold in_page in Ha.
      change (V2P demo_page) with 0x200000 in Ha. unfold PGSIZE in Ha.
      unfold demo_mem2. change (V2P demo_table) with 0x301000. change (V2P demo_dir) with 0x300000.
      rewrite !rd8_wr32_ne by lia. done.
  - done.
  - repeat constructor; vm_compute; congruence.
  - apply (bool_decide_unpack _). vm_compute. done.
Qed.

Lemma setupkvm_freevm_witness :
  exists r s' l', setupkvm demo_data demo_kst1 = Ok r s' /\ (r = 0 -> l' ≡ₚ [demo_page]).
Proof.
  destruct (setupkvm_freevm 1 demo_data demo_kst1 [demo_dir] [demo_page] demo_data_ok
    (pt_page_inv _ _ _ _ _ demo_pt_inv)) as ((r & s' & l' & E & _ & [(_ & _ & P & _)|(Hr & _)]) & _).
  - exists r, s', l'. split; [exact E|]. intros _. exact P.
  - exists r, s', l'. split; [exact E|]. intros E0. destruct (Hr E0).
Defined.

Lemma allocuvm_spec_witness :
  allocuvm demo_dir 0 KERNBASE demo_kst1 = Ok 0 demo_kst1.
Proof.
  assert (is_u32 KERNBASE) as Hu by (unfold is_u32, KERNBASE; lia).
  destruct (allocuvm_spec 1 demo_dir demo_kst1 [] [demo_page] 0 KERNBASE demo_pt_inv (Z.le_refl 0) Hu)
    as (A & _).
  - intros va _. rewrite demo_unmapped. reflexivity.
  - apply A. apply Z.le_refl.
Defined.

Lemma deallocuvm_freevm_spec_witness :
  (exists s' l', deallocuvm demo_dir 8192 0 demo_kst1 = Ok 0 s' /\ l' ≡ₚ [demo_page] /\
    pt_inv 1 s' demo_dir [] l') /\
  exists s' l', freevm demo_dir demo_kst1 = Ok tt s' /\ kinv 1 s' l'.
Proof.
  destruct (deallocuvm_freevm_spec 1 demo_dir demo_kst1 [] [demo_page] 8192 0) as (_ & A & B).
  - lia.
  - unfold KERNBASE. lia.
  - rewrite demo_range_pages in A, B. split.
    + destruct (A ltac:(lia) demo_pt_inv) as (s' & l' & E & I & P & _).
      exists s', l'. split; [exact E|]. split; [exact P|exact I].
    + destruct (B demo_pt_inv) as (s' & l' & E & K & _). exists s', l'. split; [exact E|exact K].
Defined.

Lemma copyuvm_spec_witness :
  exists r s', copyuvm demo_data demo_dir 4096 demo_kst2 = Ok r s'.
Proof.
  destruct (copyuvm_spec 1 demo_data demo_kst2 demo_dir [demo_upage] [demo_page] 4096
    demo_data_ok demo_pt_inv2) as (r & s' & l' & E & _).
  - unfold KERNBASE. lia.
  - intros va Hva. change (pages 0 4096) with [0] in Hva.
    apply list_elem_of_singleton in Hva as ->. exists demo_upage.
    split; [vm_compute; reflexivity|left].
  - exists r, s'. exact E.
Defined.
