(* ===== verification/Kstack.v ===== *)
(** * The kernel stack of a new process

    What allocproc writes at the top of the stack page: room for the trap frame, the return
    address of forkret, and a context of zeros that starts at forkret. *)

From S2P Require Import Prelude Cstring Spinlock Kalloc PageTable Uvm.

Definition TRAPFRAME : Z := 76.                         (* sizeof(struct trapframe) *)
Definition CONTEXT : Z := 20.                           (* sizeof(struct context) *)
Definition frame_at (k : Z) : Z := k + KSTACKSIZE - TRAPFRAME.
Definition context_at (k : Z) : Z := frame_at k - 4 - CONTEXT.
Ltac addr := unfold context_at, frame_at, KSTACKSIZE, TRAPFRAME, CONTEXT; lia.

Section stack.
Context (trapret forkret : Z).                          (* where the stack returns to *)

(** The kernel memory after [allocproc] has prepared the stack in page [k]. *)
Definition stack_mem (m : memory) (k : Z) : memory :=
  wr32 (memset (wr32 m (V2P (frame_at k - 4)) trapret) (V2P (context_at k)) 0 CONTEXT) (V2P (context_at k + 16)) forkret.
(** The stack [swtch] finds: a context of zeros that returns to [forkret], then to [trapret]. *)
Definition new_stack (m : memory) (k : Z) : Prop :=
  (forall i, 0 <= i < 16 -> rd8 m (V2P (context_at k) + i) = 0) /\
  rd32 m (V2P (context_at k) + 16) = forkret /\ rd32 m (V2P (context_at k) + CONTEXT) = trapret.


Lemma V2P_off e k i : page_ok e k -> 0 <= i < PGSIZE -> V2P (k + i) = V2P k + i.
Proof.
  intros H Hi. destruct (page_V2P _ _ H) as (E & H0 & H1). rewrite E. destruct H as [_ _ Hk Hp]. unfold V2P. rewrite u32_small; [lia|].
  unfold is_u32, PGSIZE, KERNBASE, PHYSTOP in *. lia.
Qed.

Lemma stack_mem_ok e m k : page_ok e k -> bytes_ok m -> is_u32 trapret -> is_u32 forkret ->
  bytes_ok (stack_mem m k) /\ new_stack (stack_mem m k) k /\ forall a, ~ in_page k a -> rd8 (stack_mem m k) a = rd8 m a.
Proof.
  intros Hk Hm Ht Hf. unfold new_stack, stack_mem, in_page, context_at, frame_at, KSTACKSIZE, TRAPFRAME, CONTEXT.
  replace (k + 4096 - 76 - 4 - 20 + 16) with (k + 4012) by lia. replace (k + 4096 - 76 - 4 - 20) with (k + 3996) by lia.
  replace (k + 4096 - 76 - 4) with (k + 4016) by lia. rewrite !(V2P_off e) by (done || unfold PGSIZE; lia).
  split_and!.
  - apply bytes_ok_wr32, bytes_ok_memset; [by apply bytes_ok_wr32|lia].
  - intros i Hi. rewrite rd8_wr32_ne, rd8_memset by lia. by rewrite decide_True by lia.
  - replace (V2P k + 3996 + 16) with (V2P k + 4012) by lia. by apply rd32_wr32_eq.
  - replace (V2P k + 3996 + 20) with (V2P k + 4016) by lia. rewrite rd32_wr32_ne by lia.
    erewrite rd32_ext; [by apply rd32_wr32_eq|]. intros b Hb. rewrite rd8_memset by lia. by rewrite decide_False by lia.
  - intros a Ha. unfold PGSIZE in Ha. rewrite rd8_wr32_ne, rd8_memset by lia. rewrite decide_False by lia. by rewrite rd8_wr32_ne by lia.
Qed.

Lemma andb_true_if {A} a b c d (x y : A) : a <= b -> c <= d -> (if (a <=? b) && (c <=? d) then x else y) = x.
Proof. intros H1%Z.leb_le H2%Z.leb_le. by rewrite H1, H2. Qed.
Lemma kstore_page e k i a v s : page_ok e k -> a = k + i -> (0 <=? i) && (i <=? PGSIZE - 4) = true ->
  kstore a v s = Ok tt (set_mem (wr32 (k_mem s) (V2P a) v) s).
Proof.
  intros [_ _ H1 H2] -> [Hi Hj]%andb_true_iff. rewrite Z.leb_le in Hi, Hj. apply kstore_ok. unfold kptr.
  apply andb_true_iff. rewrite !Z.leb_le. lia.
Qed.
Lemma kmemset_in_page e k i a c n s : page_ok e k -> a = k + i -> (0 <=? i) && (i + n <=? PGSIZE) = true ->
  kmemset a c n s = Ok tt (set_mem (memset (k_mem s) (V2P a) c n) s).
Proof.
  intros [_ _ H1 H2] -> [Hi Hj]%andb_true_iff. rewrite Z.leb_le in Hi, Hj. unfold kmemset. apply andb_true_if; lia.
Qed.
End stack.
