(* ===== verification/Encrypt.v ===== *)
(** * Page encryption and the clock: mencrypt, mdecrypt and the working set of p6

    The second half of p6/vm.c and [growproc] of p6/proc.c, for the current
    process. A user access goes through the page table that cr3 points to: the
    MMU requires the present bit and sets the accessed and dirty bits of the
    entry ([uaccess]); an access to a page that is not present traps, and is
    outside the model ([Undef]). The accessed bit is the reference bit of the
    clock. The contents of a page are encrypted by complementing every byte. *)

From S2P Require Import Prelude Cstring Spinlock Kalloc PageTable Uvm.

Definition CLOCKSIZE : Z := 8.
Definition NOPAGE : Z := 0xFFFFFFFF.      (* (char* )-1 *)
Definition PTE_D : Z := 0x040.            (* set by the MMU on a write *)

Record uproc := UProc {
  sz : Z;
  pgdir : Z;
  kstack : Z;
  clockqueue : list Z;
  clockhand : Z
}.

Record ust := USt { us_k : kst; us_p : uproc; us_cr3 : Z; us_esp0 : Z }.

Definition set_k (k : kst) (s : ust) : ust := USt k (us_p s) (us_cr3 s) (us_esp0 s).
Definition set_p (p : uproc) (s : ust) : ust := USt (us_k s) p (us_cr3 s) (us_esp0 s).
Definition set_umem (m : memory) (s : ust) : ust := set_k (set_mem m (us_k s)) s.
Definition umem (s : ust) : memory := k_mem (us_k s).

Definition set_sz (n : Z) (p : uproc) : uproc := UProc n (pgdir p) (kstack p) (clockqueue p) (clockhand p).
Definition set_queue (q : list Z) (p : uproc) : uproc := UProc (sz p) (pgdir p) (kstack p) q (clockhand p).
Definition set_hand (h : Z) (p : uproc) : uproc := UProc (sz p) (pgdir p) (kstack p) (clockqueue p) h.

Definition lift {A} (m : M kst A) : M ust A := zoom us_k set_k m.
Definition upd_p (f : uproc -> uproc) : M ust unit := modify (fun s => set_p (f (us_p s)) s).

(** [clockqueue[i]]; an index outside the array is undefined behaviour. *)
Definition qidx (i : Z) : option nat := if (0 <=? i) && (i <? CLOCKSIZE) then Some (Z.to_nat i) else None.
Definition qget (i : Z) : M ust Z := fun s =>
  match qidx i ≫= (fun j => clockqueue (us_p s) !! j) with Some v => Ok v s | None => Undef end.
Definition qset (i v : Z) : M ust unit := fun s =>
  match qidx i with
  | Some j => Ok tt (set_p (set_queue (<[j := v]> (clockqueue (us_p s))) (us_p s)) s)
  | None => Undef
  end.

(** A write to the user address [va], through the MMU: its physical address. The kernel maps every user
    page writable, so the test of PTE_W that CR0_WP asks for is left out. *)
Definition uaccess (va : Z) : M ust Z := fun s =>
  match table (umem s) (P2V (us_cr3 s)) (PDX va) with
  | None => Undef
  | Some t =>
    let a := V2P t + 4 * PTX va in
    let pte := rd32 (umem s) a in
    if negb (flag pte PTE_P) then Undef else
    Ok (PTE_ADDR pte + va `mod` PGSIZE)
       (set_umem (wr32 (umem s) a (Z.lor pte (Z.lor PTE_A PTE_D))) s)
  end.

(** [*slider = ~*slider; slider++;], [n] times. *)
Fixpoint flip_bytes (n : nat) (slider : Z) : M ust unit :=
  match n with
  | O => mret tt
  | S n' =>
    pa ← uaccess slider;
    modify (fun s => set_umem (wr8 (umem s) pa (Z.lnot (rd8 (umem s) pa))) s);;
    flip_bytes n' (u32 (slider + 1))
  end.

Definition switchuvm : M ust unit :=
  p ← gets us_p;
  if kstack p =? 0 then panic "switchuvm: no kstack" else
  if pgdir p =? 0 then panic "switchuvm: no pgdir" else
  lift (zoom k_hw set_hw pushcli);;
  modify (fun s => USt (us_k s) (us_p s) (V2P (pgdir p)) (u32 (kstack p + KSTACKSIZE)));;
  lift (zoom k_hw set_hw popcli).

(** ** mencrypt *)

(** All or nothing: every page must be accessible. *)
Fixpoint mencrypt_check (len : nat) (mypd slider : Z) : M ust bool :=
  match len with
  | O => mret true
  | S len' =>
    kvp ← lift (uva2ka mypd slider);
    if kvp =? 0 then mret false else mencrypt_check len' mypd (u32 (slider + PGSIZE))
  end.

(** One page: complement it, then set the encrypted bit and clear the present and
    accessed bits, unless it is encrypted already. *)
Definition encrypt_one (mypd slider : Z) : M ust unit :=
  mypte ← lift (walkpgdir mypd slider false);
  e ← lift (kload mypte);
  if flag e PTE_E then mret tt else
  flip_bytes (Z.to_nat PGSIZE) slider;;
  e1 ← lift (kload mypte); lift (kstore mypte (Z.land e1 (Z.lnot PTE_P)));;
  e2 ← lift (kload mypte); lift (kstore mypte (Z.lor e2 PTE_E));;
  e3 ← lift (kload mypte); lift (kstore mypte (Z.land e3 (Z.lnot PTE_A))).

Fixpoint mencrypt_pages (len : nat) (mypd slider : Z) : M ust unit :=
  match len with
  | O => mret tt
  | S len' => encrypt_one mypd slider;; mencrypt_pages len' mypd (u32 (slider + PGSIZE))
  end.

Definition mencrypt (virtual_addr len : Z) : M ust Z :=
  p ← gets us_p;
  let va := PGROUNDDOWN virtual_addr in
  ok ← mencrypt_check (Z.to_nat len) (pgdir p) va;
  if negb ok then mret (-1) else
  mencrypt_pages (Z.to_nat len) (pgdir p) va;;
  switchuvm;;
  mret 0.

(** ** The working set *)

Fixpoint wsetinsert_loop (fuel : nat) (virtual_addr : Z) : M ust Z :=
  match fuel with
  | O => hang
  | S fuel' =>
    upd_p (fun p => set_hand (Z.rem (clockhand p + 1) CLOCKSIZE) p);;
    p ← gets us_p;
    let hand := clockhand p in
    page ← qget hand;
    pte ← lift (walkpgdir (pgdir p) (PGROUNDDOWN page) false);
    if page =? NOPAGE then qset hand virtual_addr;; mret 0 else
    e ← lift (kload pte);
    if negb (flag e PTE_A) then
      r ← mencrypt page 1;
      if negb (r =? 0) then mret (-1) else
      qset hand virtual_addr;; mret 0
    else
      lift (kstore pte (Z.land e (Z.lnot PTE_A)));;
      wsetinsert_loop fuel' virtual_addr
  end.

(** One full turn of the hand clears every reference bit, so the turn after it
    stops: [CLOCKSIZE + 1] steps. *)
Definition wsetinsert (virtual_addr : Z) : M ust Z := wsetinsert_loop 9 virtual_addr.

Fixpoint wsetdelete_find (i : Z) (n : nat) (virtual_address found : Z) : M ust Z :=
  match n with
  | O => mret found
  | S n' =>
    p ← gets us_p;
    let j := Z.rem (clockhand p + i) CLOCKSIZE in
    v ← qget j;
    wsetdelete_find (i + 1) n' virtual_address (if v =? virtual_address then j else found)
  end.

Fixpoint wsetdelete_shift (fuel : nat) (i tail : Z) : M ust unit :=
  match fuel with
  | O => hang
  | S fuel' =>
    if i =? tail then mret tt else
    v ← qget (Z.rem (i + 1) CLOCKSIZE);
    qset i v;;
    wsetdelete_shift fuel' (Z.rem (i + 1) CLOCKSIZE) tail
  end.

Definition wsetdelete (virtual_address : Z) : M ust Z :=
  p ← gets us_p;
  let tail := clockhand p in
  found ← wsetdelete_find 0 8 virtual_address (-1);
  if negb (found =? -1) then
    wsetdelete_shift 8 found tail;;
    qset tail NOPAGE;;
    upd_p (fun p => set_hand (if clockhand p =? 0 then CLOCKSIZE - 1 else clockhand p - 1) p);;
    mret 0
  else mret (-1).

Fixpoint clearwset_loop (i : Z) (n : nat) : M ust unit :=
  match n with O => mret tt | S n' => qset i NOPAGE;; clearwset_loop (i + 1) n' end.
Definition clearwset : M ust unit :=
  clearwset_loop 0 8;; upd_p (set_hand (-1)).

Fixpoint searchwset_loop (i : Z) (n : nat) (virtual_address : Z) : M ust Z :=
  match n with
  | O => mret (-1)
  | S n' =>
    v ← qget i;
    if negb (v =? NOPAGE) && (v =? virtual_address) then mret 1
    else searchwset_loop (i + 1) n' virtual_address
  end.
Definition searchwset (virtual_address : Z) : M ust Z := searchwset_loop 0 8 virtual_address.

(** ** mdecrypt *)

Definition mdecrypt (virtual_addr : Z) : M ust Z :=
  p ← gets us_p;
  if KERNBASE <=? virtual_addr then mret (-1) else
  pte ← lift (walkpgdir (pgdir p) virtual_addr false);
  if pte =? 0 then mret (-1) else
  e ← lift (kload pte);
  if e =? 0 then mret (-1) else
  lift (kstore pte (Z.land e (Z.lnot PTE_E)));;
  e1 ← lift (kload pte);
  lift (kstore pte (Z.lor e1 PTE_P));;
  let va := PGROUNDDOWN virtual_addr in
  flip_bytes (Z.to_nat PGSIZE) va;;
  wsetinsert va.

(** ** getpgtable and dump_rawphymem *)

Record pt_entry := PtEntry {
  pdx : Z; ptx : Z; ppage : Z;
  present : bool; writable : bool; encrypted : bool; user : bool; ref : bool
}.

Definition entry_of (i pte : Z) : pt_entry :=
  PtEntry (PDX i) (PTX i) (Z.shiftr pte 12)
    (flag pte PTE_P) (flag pte PTE_W) (flag pte PTE_E) (flag pte PTE_U) (flag pte PTE_A).

(** The entries are written in order from [entries[0]]; the result is the list. *)
Fixpoint getpgtable_loop (fuel : nat) (i num : Z) (wsetOnly : bool) (acc : list pt_entry) :
    M ust (list pt_entry) :=
  match fuel with
  | O => hang
  | S fuel' =>
    p ← gets us_p;
    pte ← lift (walkpgdir (pgdir p) i false);
    e ← lift (kload pte);
    take ← (if e =? 0 then mret false else
            if wsetOnly then (r ← searchwset i; mret (negb (r =? -1))) else mret true);
    let acc' := if (take : bool) then acc ++ [entry_of i e] else acc in
    if (i =? 0) || (num <=? Z.of_nat (length acc')) then mret acc'
    else getpgtable_loop fuel' (i - PGSIZE) num wsetOnly acc'
  end.

Definition getpgtable (num wsetOnly : Z) : M ust (Z * list pt_entry) :=
  if negb (wsetOnly =? 0) && negb (wsetOnly =? 1) then mret (-1, []) else
  p ← gets us_p;
  let i := PGROUNDDOWN (sz p) in
  es ← getpgtable_loop (S (Z.to_nat (i / PGSIZE))) i num (wsetOnly =? 1) [];
  mret (Z.of_nat (length es), es).

Definition dump_rawphymem (physical_addr buffer : Z) : M ust Z :=
  pa ← uaccess buffer;
  p ← gets us_p;
  r ← lift (copyout (pgdir p) buffer (P2V physical_addr) PGSIZE);
  if negb (r =? 0) then mret (-1) else mret 0.

(** ** growproc *)

Fixpoint growproc_unset (i : Z) (n : nat) (newsz : Z) : M ust bool :=
  match n with
  | O => mret true
  | S n' =>
    r ← wsetdelete (u32 (newsz - i * PGSIZE));
    if negb (r =? 0) then mret false else growproc_unset (i + 1) n' newsz
  end.

Definition growproc (n : Z) : M ust Z :=
  p ← gets us_p;
  let sz0 := sz p in
  r ← (if 0 <? n then
         sz1 ← lift (allocuvm (pgdir p) sz0 (u32 (sz0 + n)));
         if u32 sz1 =? 0 then mret None else
         r ← mencrypt (u32 (sz1 - n)) (Z.quot n PGSIZE);
         if negb (r =? 0) then mret None else mret (Some (u32 sz1))
       else if n <? 0 then
         sz1 ← lift (deallocuvm (pgdir p) sz0 (u32 (sz0 + n)));
         if u32 sz1 =? 0 then mret None else
         ok ← growproc_unset 0 (Z.to_nat (Z.quot (- n) PGSIZE)) (u32 sz1);
         if negb ok then mret None else mret (Some (u32 sz1))
       else mret (Some sz0));
  match r with
  | None => mret (-1)
  | Some sz1 => upd_p (set_sz sz1);; switchuvm;; mret 0
  end.

(** ** The address space of the current process *)

(** [R] are the pages in use by others, [l] the free pages. *)
Record uinv (me : nat) (s : ust) (R l : list Z) : Prop := UInv {
  ui_pt : pt_inv me (us_k s) (pgdir (us_p s))
            (range_pages (umem s) (pgdir (us_p s)) 0 KERNBASE ++ R) l;
  ui_cr3 : us_cr3 s = V2P (pgdir (us_p s));
  ui_kstack : kstack (us_p s) <> 0
}.

Definition ulookup (s : ust) (va : Z) : Z := lookup (umem s) (pgdir (us_p s)) va.
Definition upage (s : ust) (va : Z) : option Z := page_of (umem s) (pgdir (us_p s)) va.
Definition enc (s : ust) (va : Z) : bool := flag (ulookup s va) PTE_E.
Definition pres (s : ust) (va : Z) : bool := flag (ulookup s va) PTE_P.
Definition refd (s : ust) (va : Z) : bool := flag (ulookup s va) PTE_A.

(** The byte stored for user address [va]. *)
Definition stored (s : ust) (va : Z) : option Z :=
  v ← upage s va; Some (rd8 (umem s) (V2P v + va `mod` PGSIZE)).

(** The byte the process sees at [va]: encrypted pages are decrypted on access. *)
Definition plain (s : ust) (va : Z) : option Z :=
  b ← stored s va; Some (if enc s va then u8 (Z.lnot b) else b).

Lemma lnot_byte b : 0 <= b < 256 -> u8 (Z.lnot b) = 255 - b.
Proof. intros H. unfold u8, Z.lnot. rewrite <- Z.sub_1_r. Z.div_mod_to_equations. lia. Qed.

Lemma lnot_twice b : 0 <= b < 256 -> u8 (Z.lnot (u8 (Z.lnot b))) = b.
Proof. intros H. rewrite (lnot_byte b), lnot_byte by lia. lia. Qed.

Lemma page_of_page m d va vb : va / PGSIZE = vb / PGSIZE -> page_of m d va = page_of m d vb.
Proof. intros E. unfold page_of. by rewrite (lookup_page _ _ _ _ E). Qed.

Section aspace.
  Context (me : nat) (s : ust) (R l : list Z).
  Context (U : uinv me s R l).
Let m := umem s.
Let d := pgdir (us_p s).

Lemma upage_range va v :
  0 <= va < KERNBASE -> upage s va = Some v -> v ∈ range_pages m d 0 KERNBASE.
Proof.
  intros Hva Hv. apply (elem_of_range_pages _ _ _ _ (PGROUNDDOWN va)).
  - apply elem_of_pages_range; [done|]. pose proof (PGROUNDDOWN_bounds va).
    pose proof (PGROUNDDOWN_aligned va) as A. split; [|done].
    rewrite PGROUNDDOWN_eq. unfold PGSIZE in *. clear -Hva. Z.div_mod_to_equations. lia.
  - rewrite <- Hv. apply page_of_page, PGROUNDDOWN_page.
Qed.

Lemma upage_rest va v :
  0 <= va < KERNBASE -> upage s va = Some v -> v ∈ range_pages m d 0 KERNBASE ++ R.
Proof. intros Hva Hv. rewrite elem_of_app. left. by eapply upage_range. Qed.

Lemma upage_ok va v : 0 <= va < KERNBASE -> upage s va = Some v -> page_ok (k_end (us_k s)) v.
Proof. intros Hva Hv. eapply rest_page; [apply U|]. by eapply upage_rest. Qed.

Lemma upage_not_pt va v :
  0 <= va < KERNBASE -> upage s va = Some v -> v ∉ pt_pages m d.
Proof. intros Hva Hv. eapply rest_not_pt; [apply U|]. by eapply upage_rest. Qed.

(** Different virtual pages are different pages. *)
Lemma upage_inj va vb v :
  0 <= va < KERNBASE -> 0 <= vb < KERNBASE -> upage s va = Some v -> upage s vb = Some v ->
  va / PGSIZE = vb / PGSIZE.
Proof.
  intros Ha Hb Ea Eb. pose proof (pi_nodup _ _ _ _ _ (ui_pt _ _ _ _ U)) as Hn.
  apply NoDup_app in Hn as (_ & _ & Hn). rewrite <- app_assoc in Hn.
  apply NoDup_app in Hn as (Hn & _ & _).
  rewrite <- (PGROUNDDOWN_page va), <- (PGROUNDDOWN_page vb). f_equal.
  assert (forall x, 0 <= x < KERNBASE -> PGROUNDDOWN x ∈ pages 0 KERNBASE) as Hin.
  { intros x Hx. apply elem_of_pages_range; [done|]. pose proof (PGROUNDDOWN_aligned x).
    split; [|done]. rewrite PGROUNDDOWN_eq. unfold PGSIZE. clear -Hx. Z.div_mod_to_equations. lia. }
  eapply range_pages_inj; [exact Hn|by apply Hin|by apply Hin| |].
  - rewrite <- Ea. apply page_of_page, PGROUNDDOWN_page.
  - rewrite <- Eb. apply page_of_page, PGROUNDDOWN_page.
Qed.

Lemma upage_mapped va v : upage s va = Some v -> mapped (ulookup s va) = true /\ P2V (PTE_ADDR (ulookup s va)) = v.
Proof. unfold upage, page_of, ulookup. destruct (mapped _); [|done]. by intros [= <-]. Qed.

Lemma phys_addr va v : upage s va = Some v -> 0 <= va < KERNBASE -> PTE_ADDR (ulookup s va) = V2P v.
Proof.
  intros Hv Hva. destruct (upage_mapped _ _ Hv) as [Hm <-]. unfold ulookup, lookup in *.
  destruct (table _ _ _) as [t|]; [|done]. set (e := rd32 _ _).
  assert (is_u32 e) as [H1 H2] by apply rd32_range, U.
  unfold V2P, P2V. assert (0 <= PTE_ADDR e <= e) as Hb.
  { rewrite PTE_ADDR_eq. unfold PGSIZE. clear -H1. Z.div_mod_to_equations. lia. }
  unfold u32, KERNBASE. clear -Hb H1 H2. Z.div_mod_to_equations. lia.
Qed.

(** Rewriting the entry of a mapped page with the same frame. *)
Lemma set_entry va v e :
  0 <= va < KERNBASE -> upage s va = Some v -> is_u32 e -> mapped e = true ->
  PTE_ADDR e = PTE_ADDR (ulookup s va) ->
  exists t, table m d (PDX va) = Some t /\
    let s' := set_umem (wr32 m (V2P t + 4 * PTX va) e) s in
    uinv me s' R l /\
    (forall vb, is_u32 vb -> ulookup s' vb = if decide (va / PGSIZE = vb / PGSIZE) then e else ulookup s vb) /\
    (forall vb, is_u32 vb -> upage s' vb = upage s vb) /\
    (forall w, w ∈ range_pages m d 0 KERNBASE ++ R -> page_eq m (umem s') w) /\
    (forall i, 0 <= i < 1024 -> table (umem s') d i = table m d i).
Proof.
  intros Hva Hv He Hme Hea. destruct (upage_mapped _ _ Hv) as [Hm Hp].
  destruct (mapped_table _ _ _ Hm) as [t Et]. exists t. split; [done|]. cbv zeta.
  set (s' := set_umem _ s). pose proof (ui_pt _ _ _ _ U) as I.
  assert (is_u32 va) as Hva' by (unfold is_u32, KERNBASE in *; lia).
  assert (forall vb, is_u32 vb -> ulookup s' vb = if decide (va / PGSIZE = vb / PGSIZE) then e else ulookup s vb) as L.
  { intros vb Hvb. by apply (set_pte_lookup _ _ _ _ _ I va t e Hva' Et He). }
  assert (forall vb, is_u32 vb -> upage s' vb = upage s vb) as Pg.
  { intros vb Hvb. unfold upage, page_of. fold (ulookup s' vb) (ulookup s vb). rewrite L by done.
    case_decide as E; [|done]. unfold ulookup at 1 2. rewrite <- (lookup_page _ _ _ _ E).
    fold (ulookup s va). by rewrite Hme, Hm, Hea. }
  assert (range_pages (umem s') d 0 KERNBASE = range_pages m d 0 KERNBASE) as Er.
  { apply omap_ext_in. intros x Hx. apply elem_of_pages_range in Hx as [Hx _]; [|done].
    apply Pg. unfold is_u32, KERNBASE in *; lia. }
  split_and!; auto.
  - destruct U. split; auto. cbn [us_p s' set_umem set_k] in *. fold d. rewrite Er.
    apply (set_pte_inv _ _ _ _ _ I va t e Et).
  - intros w Hw. eapply set_pte_page; [exact I|exact Et| |].
    + eapply rest_page; [exact I|done].
    + intros ->. eapply rest_not_pt; [exact I|exact Hw|]. eapply table_in; [apply PDX_range|done].
  - intros i Hi. eapply set_pte_tables; [exact I|exact Et|done].
Qed.

(** Writing a byte of a mapped page. *)
Lemma set_byte va v j b :
  0 <= va < KERNBASE -> upage s va = Some v -> 0 <= j < PGSIZE ->
  let s' := set_umem (wr8 m (V2P v + j) b) s in
  uinv me s' R l /\
  (forall vb, ulookup s' vb = ulookup s vb) /\ (forall vb, upage s' vb = upage s vb) /\
  (forall w a, w ∈ range_pages m d 0 KERNBASE ++ R -> in_page w a ->
     rd8 (umem s') a = if decide (a = V2P v + j) then u8 b else rd8 m a) /\
  (forall i, 0 <= i < 1024 -> table (umem s') d i = table m d i).
Proof.
  intros Hva Hv Hj. cbv zeta. set (s' := set_umem _ s). pose proof (ui_pt _ _ _ _ U) as I.
  pose proof (upage_rest _ _ Hva Hv) as Hin. pose proof (upage_ok _ _ Hva Hv) as Hok.
  apply elem_of_Permutation in Hin as [rest' Hperm].
  assert (forall w, page_ok (k_end (us_k s)) w -> w <> v -> page_eq m (wr8 m (V2P v + j) b) w) as Hw.
  { intros w Hwk Hne a Ha. rewrite rd8_wr8_ne; [done|]. intros <-.
    apply (page_disjoint _ w v _ Hwk Hok Hne Ha). unfold in_page. lia. }
  destruct (pt_write me (us_k s) d v rest' l (wr8 m (V2P v + j) b)) as (I' & Ep & L).
  - eapply pt_rest_perm; [exact Hperm|exact I].
  - apply bytes_ok_wr8, I.
  - exact Hw.
  - assert (forall vb, upage s' vb = upage s vb) as Pg
      by (intros vb; apply page_of_ext, L).
    split_and!; auto.
    + destruct U. split; auto. cbn [us_p s' set_umem set_k] in *. fold d.
      eapply pt_rest_perm; [|exact I'].
      rewrite <- Hperm. f_equiv. unfold range_pages.
      apply reflexive_eq, omap_ext_in. intros x _. symmetry. apply Pg.
    + intros w a _ _. cbn [s' umem set_umem set_k us_k k_mem set_mem]. rewrite rd8_wr8.
      repeat case_decide; done || congruence.
    + intros i Hi. symmetry. apply table_ext; [|done]. apply Hw; [by eapply dir_page|].
      intros E. apply (upage_not_pt va v Hva Hv). rewrite <- E. by left.
Qed.
End aspace.

(** ** Bits of an entry *)

Lemma lor_entry e b :
  0 <= b < PGSIZE ->
  PTE_ADDR (Z.lor e b) = PTE_ADDR e /\ PTE_FLAGS (Z.lor e b) = Z.lor (PTE_FLAGS e) b.
Proof.
  intros Hb. assert (PTE_FLAGS b = b) as Eb by (rewrite PTE_FLAGS_eq; by apply Z.mod_small).
  unfold PTE_ADDR. unfold PTE_FLAGS in *. rewrite !Z.land_lor_distr_l, Eb. split; [|done].
  fold (PTE_ADDR b). rewrite PTE_ADDR_eq, Z.div_small by done. by rewrite Z.lor_0_r.
Qed.

Lemma land_lnot_entry e b :
  0 <= b < PGSIZE ->
  PTE_ADDR (Z.land e (Z.lnot b)) = PTE_ADDR e /\
  PTE_FLAGS (Z.land e (Z.lnot b)) = Z.land (PTE_FLAGS e) (Z.lnot b).
Proof.
  intros Hb. split.
  - unfold PTE_ADDR. rewrite <- Z.land_assoc. f_equal.
    rewrite <- Z.lnot_lor. f_equal. apply Z.bits_inj'. intros n Hn.
    rewrite Z.lor_spec. change 0xFFF with (Z.ones 12). rewrite Z.testbit_ones_nonneg by lia.
    destruct (Z.ltb_spec n 12); [apply orb_true_r|].
    rewrite orb_false_r. destruct (decide (b = 0)) as [->|]; [by rewrite Z.bits_0|].
    apply Z.bits_above_log2; [lia|]. apply Z.log2_lt_pow2; [lia|].
    apply Z.lt_le_trans with (2 ^ 12); [apply Hb|]. by apply Z.pow_le_mono_r.
  - unfold PTE_FLAGS. by rewrite <- !Z.land_assoc, (Z.land_comm (Z.lnot b)).
Qed.

Lemma entry_split e : e = PTE_ADDR e + PTE_FLAGS e.
Proof. rewrite PTE_ADDR_eq, PTE_FLAGS_eq. by apply Z.div_mod. Qed.

Lemma same_frame_u32 e e' : is_u32 e -> PTE_ADDR e' = PTE_ADDR e -> is_u32 e'.
Proof.
  intros He Ha. rewrite (entry_split e'), Ha. rewrite PTE_ADDR_eq, PTE_FLAGS_eq.
  unfold is_u32, PGSIZE in *. clear Ha. Z.div_mod_to_equations. lia.
Qed.

Lemma mapped_flags e : mapped e = mapped (PTE_FLAGS e).
Proof. unfold mapped. apply flag_low. vm_compute. split; congruence. Qed.

(** What the flag updates of the file do, on the flags of an entry. *)
Definition touch_flags (f : Z) : Z := Z.lor f (Z.lor PTE_A PTE_D).
Definition encrypt_flags (f : Z) : Z :=
  Z.land (Z.lor (Z.land (touch_flags f) (Z.lnot PTE_P)) PTE_E) (Z.lnot PTE_A).
Definition decrypt_flags (f : Z) : Z := Z.lor (Z.land f (Z.lnot PTE_E)) PTE_P.

Definition same_UW (f g : Z) : bool :=
  eqb (flag g PTE_U) (flag f PTE_U) && eqb (flag g PTE_W) (flag f PTE_W).

(** A fact on flags is decided by trying them all. *)
Ltac by_flags f P := let A := fresh in
  pose proof (all_flags P ltac:(vm_compute; reflexivity) f ltac:(assumption)) as A;
  cbv beta in A; rewrite !andb_true_iff, ?eqb_true_iff, ?Z.eqb_eq in A; destruct_and? A; split_and!; assumption.

Lemma touch_flags_ok f :
  0 <= f < PGSIZE ->
  mapped (touch_flags f) = mapped f /\ flag (touch_flags f) PTE_P = flag f PTE_P /\
  flag (touch_flags f) PTE_E = flag f PTE_E /\ flag (touch_flags f) PTE_A = true /\
  same_UW f (touch_flags f) = true.
Proof.
  intros Hf. by_flags f (fun f => eqb (mapped (touch_flags f)) (mapped f) &&
    eqb (flag (touch_flags f) PTE_P) (flag f PTE_P) &&
    eqb (flag (touch_flags f) PTE_E) (flag f PTE_E) &&
    flag (touch_flags f) PTE_A && same_UW f (touch_flags f)).
Qed.

Lemma encrypt_flags_ok f :
  0 <= f < PGSIZE ->
  mapped (encrypt_flags f) = true /\ flag (encrypt_flags f) PTE_P = false /\
  flag (encrypt_flags f) PTE_E = true /\ flag (encrypt_flags f) PTE_A = false /\
  same_UW f (encrypt_flags f) = true.
Proof.
  intros Hf. by_flags f (fun f => mapped (encrypt_flags f) && eqb (flag (encrypt_flags f) PTE_P) false &&
    flag (encrypt_flags f) PTE_E && eqb (flag (encrypt_flags f) PTE_A) false &&
    same_UW f (encrypt_flags f)).
Qed.

Lemma decrypt_flags_ok f :
  0 <= f < PGSIZE ->
  mapped (decrypt_flags f) = true /\ flag (decrypt_flags f) PTE_P = true /\
  flag (decrypt_flags f) PTE_E = false /\ same_UW f (decrypt_flags f) = true.
Proof.
  intros Hf. by_flags f (fun f => mapped (decrypt_flags f) && flag (decrypt_flags f) PTE_P &&
    eqb (flag (decrypt_flags f) PTE_E) false && same_UW f (decrypt_flags f)).
Qed.

Definition unref_flags (f : Z) : Z := Z.land f (Z.lnot PTE_A).

Lemma unref_flags_ok f :
  0 <= f < PGSIZE ->
  mapped (unref_flags f) = mapped f /\ flag (unref_flags f) PTE_P = flag f PTE_P /\
  flag (unref_flags f) PTE_E = flag f PTE_E /\ flag (unref_flags f) PTE_A = false /\
  same_UW f (unref_flags f) = true.
Proof.
  intros Hf. by_flags f (fun f => eqb (mapped (unref_flags f)) (mapped f) &&
    eqb (flag (unref_flags f) PTE_P) (flag f PTE_P) &&
    eqb (flag (unref_flags f) PTE_E) (flag f PTE_E) &&
    eqb (flag (unref_flags f) PTE_A) false && same_UW f (unref_flags f)).
Qed.

(** ** Accesses to the entry of a user page *)

Lemma set_k_id s : set_k (us_k s) s = s.
Proof. by destruct s. Qed.

Lemma lift_Ok {A} (mm : M kst A) s a k : mm (us_k s) = Ok a k -> lift mm s = Ok a (set_k k s).
Proof. intros H. by apply zoom_Ok. Qed.

(** The pointer [walkpgdir] returns for a mapped page, usable in any later state. *)
Record pte_ptr (s : ust) (va pte slot : Z) : Prop := PtePtr {
  pp_walk : lift (walkpgdir (pgdir (us_p s)) va false) s = Ok pte s;
  pp_nz : pte <> 0;
  pp_load : forall s1, lift (kload pte) s1 = Ok (rd32 (umem s1) slot) s1;
  pp_store : forall e s1, lift (kstore pte e) s1 = Ok tt (set_umem (wr32 (umem s1) slot e) s1);
  pp_val : rd32 (umem s) slot = ulookup s va;
  pp_slot : exists t, table (umem s) (pgdir (us_p s)) (PDX va) = Some t /\ slot = V2P t + 4 * PTX va
}.

Lemma get_pte me s R l va :
  uinv me s R l -> mapped (ulookup s va) = true -> exists pte slot, pte_ptr s va pte slot.
Proof.
  intros U Hm. pose proof (ui_pt _ _ _ _ U) as I.
  destruct (mapped_table _ _ _ Hm) as [t Et].
  assert (page_ok (k_end (us_k s)) t) as Ht by (eapply table_page; [exact I|apply PDX_range|exact Et]).
  pose proof (PTX_range va) as Rx. exists (t + 4 * PTX va), (V2P t + 4 * PTX va). split.
  - erewrite lift_Ok by (eapply walkpgdir_lookup; exact I). rewrite set_k_id. fold (umem s). by rewrite Et.
  - pose proof (page_nonzero _ _ Ht). destruct Ht. unfold KERNBASE in *. lia.
  - intros s1. erewrite lift_Ok by (by apply (kload_slot _ _ _ _ Ht)). by rewrite set_k_id.
  - intros e s1. by erewrite lift_Ok by (by apply (kstore_slot _ _ _ _ _ Ht)).
  - by apply lookup_table.
  - by exists t.
Qed.

Lemma set_umem_twice m1 m2 s : set_umem m2 (set_umem m1 s) = set_umem m2 s.
Proof. by destruct s, us_k0. Qed.

(** A store to the entry of a mapped page that keeps its frame. *)
Lemma store_pte me s R l va v slot e :
  uinv me s R l -> 0 <= va < KERNBASE -> upage s va = Some v ->
  (exists t, table (umem s) (pgdir (us_p s)) (PDX va) = Some t /\ slot = V2P t + 4 * PTX va) ->
  mapped e = true -> PTE_ADDR e = PTE_ADDR (ulookup s va) ->
  let s' := set_umem (wr32 (umem s) slot e) s in
  uinv me s' R l /\
  (forall vb, is_u32 vb -> ulookup s' vb = if decide (va / PGSIZE = vb / PGSIZE) then e else ulookup s vb) /\
  (forall vb, is_u32 vb -> upage s' vb = upage s vb) /\
  (forall w, w ∈ range_pages (umem s) (pgdir (us_p s)) 0 KERNBASE ++ R -> page_eq (umem s) (umem s') w) /\
  (forall i, 0 <= i < 1024 -> table (umem s') (pgdir (us_p s)) i = table (umem s) (pgdir (us_p s)) i).
Proof.
  intros U Hva Hv (t & Et & ->) Hm Ha. pose proof (lookup_table _ _ _ _ Et) as Hval.
  fold (ulookup s va) in Hval.
  assert (is_u32 e) as He by (eapply same_frame_u32; [|exact Ha]; rewrite <- Hval; apply rd32_range, U).
  destruct (set_entry me s R l U va v e Hva Hv He Hm Ha) as (t' & Et' & Q).
  rewrite Et in Et'. injection Et' as <-. exact Q.
Qed.

Lemma touch_eq e : PTE_ADDR (Z.lor e (Z.lor PTE_A PTE_D)) = PTE_ADDR e /\
  PTE_FLAGS (Z.lor e (Z.lor PTE_A PTE_D)) = touch_flags (PTE_FLAGS e).
Proof. apply lor_entry. vm_compute. split; congruence. Qed.

Lemma mapped_touch e : mapped (Z.lor e (Z.lor PTE_A PTE_D)) = mapped e.
Proof.
  destruct (touch_eq e) as [_ E]. rewrite mapped_flags, E, (mapped_flags e).
  apply touch_flags_ok, PTE_FLAGS_range.
Qed.

Lemma uaccess_ok me s R l va v pte slot :
  uinv me s R l -> 0 <= va < KERNBASE -> upage s va = Some v -> pres s va = true ->
  pte_ptr s va pte slot ->
  uaccess va s = Ok (V2P v + va `mod` PGSIZE)
    (set_umem (wr32 (umem s) slot (Z.lor (ulookup s va) (Z.lor PTE_A PTE_D))) s).
Proof.
  intros U Hva Hv Hp [_ _ _ _ Hval (t & Et & ->)]. unfold uaccess.
  assert (page_ok (k_end (us_k s)) (pgdir (us_p s))) as Hd by (eapply dir_page; apply U).
  rewrite (ui_cr3 _ _ _ _ U), P2V_V2P by (by eapply page_u32).
  rewrite Et. cbv zeta. rewrite Hval. unfold pres in Hp. rewrite Hp. cbn [negb].
  by rewrite (phys_addr me s R l U va v Hv Hva).
Qed.

(** [n] bytes from offset [k] of the page of [va] are complemented. *)
Record flipped (s : ust) (R : list Z) (va v k n : Z) (s' : ust) : Prop := Flipped {
  fl_proc : us_p s' = us_p s /\ us_cr3 s' = us_cr3 s /\ us_esp0 s' = us_esp0 s;
  fl_end : k_end (us_k s') = k_end (us_k s);
  fl_lookup : forall vb, is_u32 vb -> ulookup s' vb =
    if decide (va / PGSIZE = vb / PGSIZE /\ 0 < n) then Z.lor (ulookup s va) (Z.lor PTE_A PTE_D)
    else ulookup s vb;
  fl_page : forall vb, is_u32 vb -> upage s' vb = upage s vb;
  fl_table : forall i, 0 <= i < 1024 ->
    table (umem s') (pgdir (us_p s)) i = table (umem s) (pgdir (us_p s)) i;
  fl_mem : forall w a, w ∈ range_pages (umem s) (pgdir (us_p s)) 0 KERNBASE ++ R -> in_page w a ->
    rd8 (umem s') a =
      if decide (V2P v + k <= a < V2P v + k + n) then u8 (Z.lnot (rd8 (umem s) a)) else rd8 (umem s) a
}.

Lemma range_pages_upage s s' :
  us_p s' = us_p s -> (forall vb, is_u32 vb -> upage s' vb = upage s vb) ->
  range_pages (umem s') (pgdir (us_p s')) 0 KERNBASE = range_pages (umem s) (pgdir (us_p s)) 0 KERNBASE.
Proof.
  intros E H. apply omap_ext_in. intros x Hx. apply elem_of_pages_range in Hx as [Hx _]; [|done].
  apply H. unfold is_u32, KERNBASE in *; lia.
Qed.

(** One byte. *)
Lemma flip_one me s R l va v k :
  uinv me s R l -> 0 <= va < KERNBASE -> va `mod` PGSIZE = 0 -> upage s va = Some v ->
  pres s va = true -> 0 <= k < PGSIZE ->
  exists s1, uaccess (va + k) s = Ok (V2P v + k) s1 /\
    let s' := set_umem (wr8 (umem s1) (V2P v + k) (Z.lnot (rd8 (umem s1) (V2P v + k)))) s1 in
    uinv me s' R l /\ pres s' va = true /\ flipped s R va v k 1 s'.
Proof.
  intros U Hva Hal Hv Hp Hk.
  assert ((va + k) / PGSIZE = va / PGSIZE) as Epg
    by (symmetry; apply page_index; [done|lia]).
  assert ((va + k) `mod` PGSIZE = k) as Emod.
  { unfold PGSIZE in *. clear -Hal Hk. Z.div_mod_to_equations. lia. }
  assert (0 <= va + k < KERNBASE) as Hvk.
  { unfold KERNBASE, PGSIZE in *. clear -Hal Hk Hva. Z.div_mod_to_equations. lia. }
  assert (forall s, upage s (va + k) = upage s va) as Ep by (intros; by apply page_of_page).
  assert (forall s, ulookup s (va + k) = ulookup s va) as El by (intros; by apply lookup_page).
  destruct (upage_mapped s va v Hv) as [Hm _].
  destruct (get_pte me s R l (va + k) U) as (pte & slot & PP); [by rewrite El|].
  exists (set_umem (wr32 (umem s) slot (Z.lor (ulookup s va) (Z.lor PTE_A PTE_D))) s). split.
  { rewrite (uaccess_ok me s R l _ v pte slot U Hvk); [|by rewrite Ep|unfold pres; by rewrite El|done].
    by rewrite Emod, El. }
  destruct (touch_eq (ulookup s va)) as [Ta Tf].
  destruct (store_pte me s R l (va + k) v slot (Z.lor (ulookup s va) (Z.lor PTE_A PTE_D)) U Hvk)
    as (U1 & L1 & P1 & W1 & T1); [by rewrite Ep|apply PP|by rewrite mapped_touch|by rewrite El|].
  set (s1 := set_umem _ s) in *.
  assert (is_u32 va) as Hvu by (unfold is_u32, KERNBASE in *; lia).
  destruct (set_byte me s1 R l U1 va v k (Z.lnot (rd8 (umem s1) (V2P v + k))) Hva) as (U2 & L2 & P2 & M2 & T2);
    [by rewrite P1|done|].
  cbv zeta. set (s2 := set_umem _ s1) in *.
  assert (range_pages (umem s1) (pgdir (us_p s1)) 0 KERNBASE =
          range_pages (umem s) (pgdir (us_p s)) 0 KERNBASE) as Er by (by apply range_pages_upage).
  split_and!; auto.
  - unfold pres. rewrite L2, L1, decide_True by done.
    rewrite flag_low by (vm_compute; split; congruence). rewrite Tf.
    destruct (touch_flags_ok (PTE_FLAGS (ulookup s va)) (PTE_FLAGS_range _)) as (_ & -> & _).
    rewrite <- flag_low by (vm_compute; split; congruence). done.
  - split; auto.
    + intros vb Hvb. rewrite L2, L1 by done. by rewrite Epg, (decide_and_r (va / PGSIZE = vb / PGSIZE) (0 < 1)) by done.
    + intros vb Hvb. by rewrite P2, P1.
    + intros i Hi. rewrite <- T1 by done. by apply T2.
    + intros w a Hw Ha. rewrite (M2 w) by (done || by rewrite Er). rewrite (W1 w Hw a Ha).
      destruct (decide (a = V2P v + k)) as [->|Hne].
      * by rewrite decide_True by lia.
      * by rewrite decide_False by lia.
Qed.

Lemma lor_touch_twice e : Z.lor (Z.lor e (Z.lor PTE_A PTE_D)) (Z.lor PTE_A PTE_D) = Z.lor e (Z.lor PTE_A PTE_D).
Proof. by rewrite <- Z.lor_assoc, Z.lor_diag. Qed.

Lemma flip_bytes_ok me R l va v n : forall s k,
  uinv me s R l -> 0 <= va < KERNBASE -> va `mod` PGSIZE = 0 -> upage s va = Some v ->
  pres s va = true -> 0 <= k -> k + Z.of_nat n <= PGSIZE ->
  exists s', flip_bytes n (va + k) s = Ok tt s' /\ uinv me s' R l /\
    flipped s R va v k (Z.of_nat n) s'.
Proof.
  induction n as [|n IH]; intros s k U Hva Hal Hv Hp Hk Hn; cbn [flip_bytes].
  - exists s. split_and!; auto. split; auto.
    + intros vb _. by rewrite decide_False by lia.
    + intros w a _ _. by rewrite decide_False by lia.
  - destruct (flip_one me s R l va v k U Hva Hal Hv Hp) as (s1 & E1 & U2 & P2 & F2); [lia|].
    mstep E1. mgo. cbv zeta in *. set (s2 := set_umem _ s1) in *. clearbody s2.
    assert (u32 (va + k + 1) = va + (k + 1)) as ->
      by (rewrite u32_small by (unfold is_u32, KERNBASE, PGSIZE in *; lia); lia).
    assert (is_u32 va) as Hvu by (unfold is_u32, KERNBASE in *; lia).
    destruct F2 as [(A1 & A2 & A3) E2 L2 Pg2 T2 M2].
    destruct (IH s2 (k + 1) U2 Hva Hal) as (s' & E & U' & [(B1 & B2 & B3) E' L' Pg' T' M']);
      [by rewrite Pg2|done|lia|lia|].
    pose proof (range_pages_upage s s2 A1 Pg2) as Er.
    exists s'. split_and!; auto. split.
    + by rewrite B1, B2, B3.
    + by rewrite E'.
    + intros vb Hvb. rewrite L', !L2 by done. rewrite (decide_and_r (va / PGSIZE = va / PGSIZE) (0 < 1)), (decide_and_r (va / PGSIZE = vb / PGSIZE) (0 < 1)) by done.
      rewrite (decide_True (P := va / PGSIZE = va / PGSIZE)) by done.
      rewrite lor_touch_twice, (decide_and_r (va / PGSIZE = vb / PGSIZE) (0 < Z.of_nat (S n))) by lia.
      repeat case_decide; tauto.
    + intros vb Hvb. by rewrite Pg', Pg2.
    + intros i Hi. rewrite A1 in T'. by rewrite T', T2.
    + intros w a Hw Ha. rewrite (M' w) by (done || by rewrite Er). rewrite !(M2 w) by done.
      repeat case_decide; try lia; done.
Qed.

(** Flipping the whole page. *)
Lemma flip_page me s R l va v :
  uinv me s R l -> 0 <= va < KERNBASE -> va `mod` PGSIZE = 0 -> upage s va = Some v ->
  pres s va = true ->
  exists s', flip_bytes (Z.to_nat PGSIZE) va s = Ok tt s' /\ uinv me s' R l /\
    flipped s R va v 0 PGSIZE s'.
Proof.
  intros U Hva Hal Hv Hp.
  assert (Z.of_nat (Z.to_nat PGSIZE) = PGSIZE) as En by (apply Z2Nat.id; done).
  destruct (flip_bytes_ok me R l va v (Z.to_nat PGSIZE) s 0) as (s' & E & U' & F); auto; [lia|lia|].
  rewrite Z.add_0_r in E. rewrite En in F. by exists s'.
Qed.

(** ** Transparency: what the process sees does not change *)

Record same_view (R : list Z) (s s' : ust) : Prop := SameView {
  sv_proc : sz (us_p s') = sz (us_p s) /\ pgdir (us_p s') = pgdir (us_p s) /\
            kstack (us_p s') = kstack (us_p s);
  sv_end : k_end (us_k s') = k_end (us_k s);
  sv_page : forall va, is_u32 va -> upage s' va = upage s va;
  sv_plain : forall va, 0 <= va < KERNBASE -> plain s' va = plain s va;
  sv_UW : forall va, 0 <= va < KERNBASE -> mapped (ulookup s va) = true ->
            same_UW (PTE_FLAGS (ulookup s va)) (PTE_FLAGS (ulookup s' va)) = true;
  sv_table : forall i, 0 <= i < 1024 ->
    table (umem s') (pgdir (us_p s')) i = table (umem s) (pgdir (us_p s)) i;
  sv_rest : forall w, w ∈ R -> page_eq (umem s) (umem s') w
}.

Lemma same_UW_refl f : same_UW f f = true.
Proof. unfold same_UW. by rewrite !eqb_reflx. Qed.

Lemma same_UW_trans f g h : same_UW f g = true -> same_UW g h = true -> same_UW f h = true.
Proof.
  unfold same_UW. rewrite !andb_true_iff, !eqb_true_iff. intros [-> ->] [-> ->]. done.
Qed.

#[export] Instance same_view_preorder R : PreOrder (same_view R).
Proof.
  split.
  - intros s. split; auto; [intros; apply same_UW_refl|by intros w _ a _].
  - intros s1 s2 s3 [(A1 & A2 & A3) A4 A5 A6 A7 A9 A8] [(B1 & B2 & B3) B4 B5 B6 B7 B9 B8]. split.
    + by rewrite B1, B2, B3.
    + by rewrite B4.
    + intros va Hva. by rewrite B5, A5.
    + intros va Hva. by rewrite B6, A6.
    + intros va Hva Hm. eapply same_UW_trans; [by apply A7|]. apply B7; [done|].
      assert (is_u32 va) as Hu by (unfold is_u32, KERNBASE in *; lia).
      specialize (A5 va Hu). unfold upage, page_of in A5. fold (ulookup s1 va) (ulookup s2 va) in A5.
      rewrite Hm in A5. by destruct (mapped (ulookup s2 va)).
    + intros i Hi. by rewrite B9, A9.
    + intros w Hw. eapply page_eq_trans; [by apply A8|by apply B8].
Qed.

(** Complementing a page and toggling its encrypted bit is invisible. *)
Lemma view_flip me s R l va v e' s' :
  uinv me s R l -> 0 <= va < KERNBASE -> upage s va = Some v ->
  (sz (us_p s') = sz (us_p s) /\ pgdir (us_p s') = pgdir (us_p s) /\
   kstack (us_p s') = kstack (us_p s)) ->
  k_end (us_k s') = k_end (us_k s) ->
  (forall vb, is_u32 vb -> upage s' vb = upage s vb) ->
  (forall vb, is_u32 vb -> ulookup s' vb = if decide (va / PGSIZE = vb / PGSIZE) then e' else ulookup s vb) ->
  (forall w a, w ∈ range_pages (umem s) (pgdir (us_p s)) 0 KERNBASE ++ R -> in_page w a ->
     rd8 (umem s') a = if decide (V2P v <= a < V2P v + PGSIZE)
                       then u8 (Z.lnot (rd8 (umem s) a)) else rd8 (umem s) a) ->
  flag e' PTE_E = negb (enc s va) -> same_UW (PTE_FLAGS (ulookup s va)) (PTE_FLAGS e') = true ->
  (forall i, 0 <= i < 1024 -> table (umem s') (pgdir (us_p s')) i = table (umem s) (pgdir (us_p s)) i) ->
  same_view R s s'.
Proof.
  intros U Hva Hv Hp He Hpg HL HM HE HUW HT.
  pose proof (upage_ok _ _ _ _ U va v Hva Hv) as Hvok.
  assert (bytes_ok (umem s)) as Hb by apply U.
  assert (forall x, 0 <= x < KERNBASE -> is_u32 x) as Hu by (unfold is_u32, KERNBASE; lia).
  split; auto.
  - intros vb Hvb. unfold plain, stored. rewrite Hpg by auto.
    destruct (upage s vb) as [w|] eqn:Hw; [|done]. cbn. f_equal.
    pose proof (upage_ok _ _ _ _ U vb w Hvb Hw) as Hwok.
    assert (in_page w (V2P w + vb `mod` PGSIZE)) as Hin
      by (unfold in_page; pose proof (Z.mod_pos_bound vb PGSIZE eq_refl); lia).
    rewrite (HM w) by (done || by eapply upage_rest).
    unfold enc. rewrite HL by auto. case_decide as E.
    + assert (w = v) as ->.
      { assert (upage s vb = upage s va) as Q by (symmetry; by apply page_of_page). congruence. }
      rewrite decide_True by exact Hin. rewrite HE. unfold enc.
      assert (ulookup s vb = ulookup s va) as -> by (symmetry; by apply lookup_page).
      destruct (flag (ulookup s va) PTE_E); cbn [negb]; [done|]. apply lnot_twice, Hb.
    + rewrite decide_False; [done|]. intros Hin'.
      apply (page_disjoint _ w v _ Hwok Hvok) in Hin; [done|]. intros ->. destruct E.
      symmetry. by eapply (upage_inj _ _ _ _ U vb va).
  - intros vb Hvb Hm. rewrite HL by auto. case_decide as E; [|apply same_UW_refl].
    assert (ulookup s vb = ulookup s va) as -> by (symmetry; by apply lookup_page). done.
  - intros w Hw a Ha. rewrite (HM w) by (done || (rewrite elem_of_app; by right)).
    rewrite decide_False; [done|]. intros Hin.
    assert (page_ok (k_end (us_k s)) w) as Hwok
      by (eapply rest_page; [apply U|]; rewrite elem_of_app; by right).
    apply (page_disjoint _ w v a Hwok Hvok); [|done|exact Hin]. intros ->.
    pose proof (pi_nodup _ _ _ _ _ (ui_pt _ _ _ _ U)) as Hn.
    apply NoDup_app in Hn as (_ & _ & Hn). rewrite <- app_assoc in Hn.
    apply NoDup_app in Hn as (_ & Hn & _). apply (Hn v).
    + by apply (upage_range _ va).
    + rewrite elem_of_app. by left.
Qed.

(** ** Encrypting one page *)

Definition encrypted_entry (e : Z) : Z :=
  Z.land (Z.lor (Z.land (Z.lor e (Z.lor PTE_A PTE_D)) (Z.lnot PTE_P)) PTE_E) (Z.lnot PTE_A).

Lemma encrypted_entry_ok e :
  PTE_ADDR (encrypted_entry e) = PTE_ADDR e /\
  PTE_FLAGS (encrypted_entry e) = encrypt_flags (PTE_FLAGS e).
Proof.
  unfold encrypted_entry, encrypt_flags, touch_flags.
  assert (0 <= PTE_A < PGSIZE /\ 0 <= PTE_P < PGSIZE /\ 0 <= PTE_E < PGSIZE /\
    0 <= Z.lor PTE_A PTE_D < PGSIZE) as (A & B & C & D) by (vm_compute; repeat split; congruence).
  destruct (land_lnot_entry (Z.lor (Z.land (Z.lor e (Z.lor PTE_A PTE_D)) (Z.lnot PTE_P)) PTE_E) PTE_A A) as [-> ->].
  destruct (lor_entry (Z.land (Z.lor e (Z.lor PTE_A PTE_D)) (Z.lnot PTE_P)) PTE_E C) as [-> ->].
  destruct (land_lnot_entry (Z.lor e (Z.lor PTE_A PTE_D)) PTE_P B) as [-> ->].
  destruct (lor_entry e (Z.lor PTE_A PTE_D) D) as [-> ->]. done.
Qed.

Lemma flag_of_flags e b : (0 <=? b) && (b <? PGSIZE) = true -> flag e b = flag (PTE_FLAGS e) b.
Proof. rewrite andb_true_iff, Z.leb_le, Z.ltb_lt. apply flag_low. Qed.

(** The effect on the page tables: only the entry of [va] changes, to one of the
    same frame with the flags [f]. *)
Record entry_set (s : ust) (va : Z) (e : Z) (s' : ust) : Prop := EntrySet {
  es_proc : us_p s' = us_p s /\ us_cr3 s' = us_cr3 s;
  es_lookup : forall vb, is_u32 vb -> ulookup s' vb =
    if decide (va / PGSIZE = vb / PGSIZE) then e else ulookup s vb
}.

(** Three stores to the same entry leave the last one. *)
Lemma three_stores s0 va pte slot s1 e :
  pte_ptr s0 va pte slot -> is_u32 e -> rd32 (umem s1) slot = e ->
  (e1 ← lift (kload pte); lift (kstore pte (Z.land e1 (Z.lnot PTE_P)));;
   e2 ← lift (kload pte); lift (kstore pte (Z.lor e2 PTE_E));;
   e3 ← lift (kload pte); lift (kstore pte (Z.land e3 (Z.lnot PTE_A)))) s1 =
  Ok tt (set_umem (wr32 (umem s1) slot
           (Z.land (Z.lor (Z.land e (Z.lnot PTE_P)) PTE_E) (Z.lnot PTE_A))) s1).
Proof.
  intros PP He E1.
  assert (0 <= PTE_P < PGSIZE /\ 0 <= PTE_E < PGSIZE) as (B & C)
    by (vm_compute; repeat split; congruence).
  assert (is_u32 (Z.land e (Z.lnot PTE_P))) as H1
    by (eapply same_frame_u32; [exact He|]; by apply land_lnot_entry).
  assert (is_u32 (Z.lor (Z.land e (Z.lnot PTE_P)) PTE_E)) as H2
    by (eapply same_frame_u32; [exact H1|]; by apply lor_entry).
  rewrite (bind_Ok _ _ _ _ _ (pp_load _ _ _ _ PP _)), E1.
  rewrite (bind_Ok _ _ _ _ _ (pp_store _ _ _ _ PP _ _)).
  rewrite (bind_Ok _ _ _ _ _ (pp_load _ _ _ _ PP _)).
  change (umem (set_umem ?m s1)) with m. rewrite rd32_wr32_eq by done.
  rewrite (bind_Ok _ _ _ _ _ (pp_store _ _ _ _ PP _ _)), set_umem_twice.
  rewrite (bind_Ok _ _ _ _ _ (pp_load _ _ _ _ PP _)).
  cbn [umem set_umem set_k us_k k_mem set_mem]. rewrite !wr32_wr32, rd32_wr32_eq by done.
  rewrite (pp_store _ _ _ _ PP _ _), set_umem_twice.
  cbn [umem set_umem set_k us_k k_mem set_mem]. by rewrite !wr32_wr32.
Qed.

(** The pointer stays good while the page tables stay where they are. *)
Lemma pte_ptr_later s s1 va pte slot :
  pte_ptr s va pte slot -> us_p s1 = us_p s ->
  (forall i, 0 <= i < 1024 -> table (umem s1) (pgdir (us_p s)) i = table (umem s) (pgdir (us_p s)) i) ->
  rd32 (umem s1) slot = ulookup s1 va /\
  exists t, table (umem s1) (pgdir (us_p s1)) (PDX va) = Some t /\ slot = V2P t + 4 * PTX va.
Proof.
  intros PP E T. destruct (pp_slot _ _ _ _ PP) as (t & Et & ->).
  assert (table (umem s1) (pgdir (us_p s1)) (PDX va) = Some t) as Et1
    by (rewrite E, T by apply PDX_range; done).
  split; [by apply lookup_table|by exists t].
Qed.

Lemma encrypt_one_ok me s R l va v :
  uinv me s R l -> 0 <= va < KERNBASE -> va `mod` PGSIZE = 0 -> upage s va = Some v ->
  exists s', encrypt_one (pgdir (us_p s)) va s = Ok tt s' /\ uinv me s' R l /\ same_view R s s' /\
    entry_set s va (if enc s va then ulookup s va else encrypted_entry (ulookup s va)) s'.
Proof.
  intros U Hva Hal Hv. destruct (upage_mapped s va v Hv) as [Hm _].
  destruct (get_pte me s R l va U Hm) as (pte & slot & PP).
  assert (is_u32 va) as Hvu by (unfold is_u32, KERNBASE in *; lia).
  unfold encrypt_one. rewrite (bind_Ok _ _ _ _ _ (pp_walk _ _ _ _ PP)).
  rewrite (bind_Ok _ _ _ _ _ (pp_load _ _ _ _ PP s)). rewrite (pp_val _ _ _ _ PP).
  fold (enc s va). destruct (enc s va) eqn:He.
  { exists s. split_and!; auto; [reflexivity|]. split; auto.
    intros vb Hvb. case_decide as E; [|done]. symmetry. by apply lookup_page. }
  assert (pres s va = true) as Hp.
  { unfold enc, pres, mapped, flag in *. apply negb_true_iff. apply negb_true_iff in Hm.
    apply negb_false_iff, Z.eqb_eq in He. apply Z.eqb_neq in Hm. apply Z.eqb_neq.
    rewrite Z.land_lor_distr_r, He, Z.lor_0_r in Hm. done. }
  destruct (flip_page me s R l va v U Hva Hal Hv Hp) as (s1 & E1 & U1 & [(A1 & A2 & A3) Ee1 L1 P1 T1 M1]).
  mstep E1. destruct (pte_ptr_later _ _ va pte slot PP A1 T1) as [V1 S1].
  assert (ulookup s1 va = Z.lor (ulookup s va) (Z.lor PTE_A PTE_D)) as Hs1
    by (rewrite L1 by done; by rewrite decide_True).
  destruct (encrypted_entry_ok (ulookup s va)) as [Ea Ef].
  rewrite Hs1 in V1.
  assert (is_u32 (Z.lor (ulookup s va) (Z.lor PTE_A PTE_D))) as Hu1
    by (rewrite <- V1; apply rd32_range, U1).
  rewrite (three_stores s va pte slot s1 _ PP Hu1 V1). fold (encrypted_entry (ulookup s va)).
  destruct (encrypt_flags_ok (PTE_FLAGS (ulookup s va)) (PTE_FLAGS_range _)) as (F1 & F2 & F3 & F4 & F5).
  destruct (store_pte me s1 R l va v slot (encrypted_entry (ulookup s va)) U1 Hva)
    as (U2 & L2 & P2 & W2 & T2); [by rewrite P1|done|by rewrite mapped_flags, Ef|
      rewrite Ea, Hs1; symmetry; apply lor_entry; vm_compute; split; congruence|].
  set (s2 := set_umem _ s1) in *. exists s2. split_and!; auto.
  - apply (view_flip me s R l va v (encrypted_entry (ulookup s va))); auto.
    + cbn. by rewrite A1.
    + intros vb Hvb. by rewrite P2, P1.
    + intros vb Hvb. rewrite L2, L1 by done.
      rewrite (decide_and_r (va / PGSIZE = vb / PGSIZE) (0 < PGSIZE)) by done. by repeat case_decide.
    + intros w a Hw Ha. rewrite <- (W2 w) by (done || by rewrite (range_pages_upage s s1 A1 P1)).
      rewrite (M1 w) by done. by replace (V2P v + 0) with (V2P v) by lia.
    + rewrite flag_of_flags, Ef, F3 by done. by rewrite He.
    + by rewrite Ef.
    + intros i Hi. change (us_p s2) with (us_p s1). by rewrite (T2 i Hi), A1, T1.
  - split; [cbn; by rewrite A1, A2|]. intros vb Hvb. rewrite L2, L1 by done.
    rewrite (decide_and_r (va / PGSIZE = vb / PGSIZE) (0 < PGSIZE)) by done. by repeat case_decide.
Qed.

(** ** switchuvm *)

Lemma kinv_hw me k l h : kinv me k l -> runs_on h me -> kinv me (set_hw h k) l.
Proof. intros [] Hr. by split. Qed.

Lemma pt_inv_hw me k d rest l h : pt_inv me k d rest l -> runs_on h me -> pt_inv me (set_hw h k) d rest l.
Proof. intros [] Hr. split; auto. by apply kinv_hw. Qed.

Lemma switchuvm_ok me s R l :
  pt_inv me (us_k s) (pgdir (us_p s)) R l -> kstack (us_p s) <> 0 ->
  exists s', switchuvm s = Ok tt s' /\ us_p s' = us_p s /\ umem s' = umem s /\
    k_end (us_k s') = k_end (us_k s) /\ us_cr3 s' = V2P (pgdir (us_p s)) /\
    pt_inv me (us_k s') (pgdir (us_p s)) R l.
Proof.
  intros I Hks. assert (page_ok (k_end (us_k s)) (pgdir (us_p s))) as Hd by (by eapply dir_page).
  pose proof (ki_run _ _ _ (pi_k _ _ _ _ _ I)) as [c Hc].
  unfold switchuvm. mgo. rewrite (proj2 (Z.eqb_neq _ _) Hks).
  rewrite (proj2 (Z.eqb_neq (pgdir (us_p s)) 0)) by (by eapply page_nonzero).
  erewrite bind_Ok; [|apply lift_Ok, zoom_Ok, pushcli_ok, Hc]. mgo.
  pose proof (pushed_on_cpu _ _ _ Hc) as Hc1. pose proof (oc_ncli _ _ _ Hc).
  erewrite lift_Ok; [|apply zoom_Ok; eapply popcli_ok; [exact Hc1|simpl; lia]].
  eexists. split; [done|]. cbn. split_and!; auto.
  rewrite (popped_pushed _ _ _ Hc). apply pt_inv_hw; [|eexists; by apply touched_on_cpu].
  apply pt_inv_hw; [done|]. by eexists.
Qed.

(** ** mencrypt *)

Definition user_ok (s : ust) (va : Z) : bool := mapped (ulookup s va) && flag (ulookup s va) PTE_U.

Lemma mapped_lor e : (Z.lor (Z.land e PTE_P) (Z.land e PTE_E) =? 0) = negb (mapped e).
Proof. unfold mapped, flag. rewrite Z.land_lor_distr_r. by rewrite negb_involutive. Qed.

Lemma uva2ka_ok me s R l va :
  uinv me s R l -> is_Some (table (umem s) (pgdir (us_p s)) (PDX va)) ->
  lift (uva2ka (pgdir (us_p s)) va) s =
    Ok (if user_ok s va then P2V (PTE_ADDR (ulookup s va)) else 0) s.
Proof.
  intros U [t Et]. pose proof (ui_pt _ _ _ _ U) as I.
  assert (page_ok (k_end (us_k s)) t) as Ht by (eapply table_page; [exact I|apply PDX_range|exact Et]).
  assert (uva2ka (pgdir (us_p s)) va (us_k s) =
    Ok (if user_ok s va then P2V (PTE_ADDR (ulookup s va)) else 0) (us_k s)) as E.
  { unfold uva2ka. mstep walkpgdir_lookup; [|exact I]. fold (umem s). rewrite Et.
    mstep kload_slot; [|exact Ht|apply PTX_range]. fold (umem s). rewrite (lookup_table _ _ _ _ Et).
    fold (ulookup s va). rewrite mapped_lor. unfold user_ok.
    destruct (mapped (ulookup s va)); [|done]. cbn [negb andb]. unfold flag.
    by destruct (Z.land (ulookup s va) PTE_U =? 0). }
  rewrite (lift_Ok _ _ _ _ E). by rewrite set_k_id.
Qed.

Lemma user_page s va :
  user_ok s va = true -> exists v, upage s va = Some v /\ P2V (PTE_ADDR (ulookup s va)) = v.
Proof.
  unfold user_ok, upage, page_of. fold (ulookup s va). rewrite andb_true_iff. intros [Hm _].
  rewrite Hm. eauto.
Qed.

Lemma mencrypt_check_ok me s R l n : forall va,
  uinv me s R l -> 0 <= va -> va + Z.of_nat n * PGSIZE <= KERNBASE ->
  (forall x, x ∈ page_seq va n -> is_Some (table (umem s) (pgdir (us_p s)) (PDX x))) ->
  mencrypt_check n (pgdir (us_p s)) va s = Ok (forallb (user_ok s) (page_seq va n)) s.
Proof.
  induction n as [|n IH]; intros va U Hva Hn Ht; [done|]. cbn [mencrypt_check page_seq forallb].
  rewrite (bind_Ok _ _ _ _ _ (uva2ka_ok me s R l va U (Ht va ltac:(by left)))).
  destruct (user_ok s va) eqn:E; [|done].
  destruct (user_page s va E) as (v & Hv & Hp). rewrite Hp.
  assert (0 <= va < KERNBASE) as Hva' by (unfold PGSIZE in *; lia).
  rewrite (proj2 (Z.eqb_neq v 0)) by (eapply page_nonzero; by eapply upage_ok).
  rewrite (u32_small (va + PGSIZE)) by (unfold is_u32, KERNBASE, PGSIZE in *; lia).
  apply IH; auto; [unfold PGSIZE; lia|lia|]. intros x Hx. apply Ht. by right.
Qed.

(** The entries after encrypting [n] pages from [va]. *)
Definition after_encrypt (s : ust) (va n : Z) (s' : ust) : Prop :=
  forall vb, is_u32 vb -> ulookup s' vb =
    if decide (va <= vb < va + n * PGSIZE)
    then (if enc s vb then ulookup s vb else encrypted_entry (ulookup s vb)) else ulookup s vb.

Lemma mencrypt_pages_ok me R l n : forall s va,
  uinv me s R l -> 0 <= va -> va `mod` PGSIZE = 0 -> va + Z.of_nat n * PGSIZE <= KERNBASE ->
  (forall x, x ∈ page_seq va n -> is_Some (upage s x)) ->
  exists s', mencrypt_pages n (pgdir (us_p s)) va s = Ok tt s' /\ uinv me s' R l /\
    same_view R s s' /\ us_p s' = us_p s /\ us_cr3 s' = us_cr3 s /\
    after_encrypt s va (Z.of_nat n) s'.
Proof.
  induction n as [|n IH]; intros s va U Hva Hal Hn Hp; cbn [mencrypt_pages page_seq].
  - exists s. split_and!; auto; [reflexivity|]. intros vb _. by rewrite decide_False by lia.
  - assert (0 <= va < KERNBASE) as Hva' by (unfold PGSIZE in *; lia).
    destruct (Hp va) as [v Hv]; [by left|].
    destruct (encrypt_one_ok me s R l va v U Hva' Hal Hv) as (s1 & E1 & U1 & V1 & [[A1 A2] L1]).
    mstep E1. rewrite (u32_small (va + PGSIZE)) by (unfold is_u32, KERNBASE, PGSIZE in *; lia).
    rewrite <- A1. assert ((va + PGSIZE) `mod` PGSIZE = 0) as Hal' by by apply (aligned_add va 1).
    destruct (IH s1 (va + PGSIZE) U1) as (s' & E & U' & V' & B1 & B2 & L'); [unfold PGSIZE; lia|done|lia| |].
    { intros x Hx. pose proof Hx as Hx'. apply elem_of_page_seq in Hx as (i & Hi & ->).
      rewrite (sv_page _ _ _ V1); [apply Hp; by right|]. unfold is_u32, KERNBASE, PGSIZE in *. lia. }
    exists s'. split_and!; auto; try congruence; [by etrans|].
    intros vb Hvb. rewrite L' by done. unfold enc. rewrite L1 by done.
    pose proof (page_index va vb Hal) as PI. unfold PGSIZE in *.
    destruct (decide (va / 4096 = vb / 4096)) as [E'|E'].
    + pose proof (proj1 PI E') as Hr. rewrite decide_False by lia. rewrite decide_True by lia.
      assert (ulookup s vb = ulookup s va) as -> by (symmetry; by apply lookup_page). done.
    + assert (~ (va <= vb < va + 4096)) by tauto. repeat case_decide; lia || done.
Qed.

(** The checks pass: every page of the range ends encrypted. *)
Lemma mencrypt_ok me s R l addr n :
  uinv me s R l -> 0 <= n -> 0 <= PGROUNDDOWN addr ->
  PGROUNDDOWN addr + n * PGSIZE <= KERNBASE ->
  (forall x, x ∈ page_seq (PGROUNDDOWN addr) (Z.to_nat n) -> user_ok s x = true) ->
  exists s', mencrypt addr n s = Ok 0 s' /\ uinv me s' R l /\ same_view R s s' /\
    us_p s' = us_p s /\ after_encrypt s (PGROUNDDOWN addr) n s'.
Proof.
  intros U Hn Ha Hend Hok. unfold mencrypt. mgo. cbv zeta.
  set (va := PGROUNDDOWN addr) in *. set (k := Z.to_nat n) in *.
  assert (Z.of_nat k = n) as Ek by (unfold k; lia). clearbody k. subst n.
  mstep mencrypt_check_ok; [|exact U|done|done|].
  2:{ intros x Hx. destruct (user_page s x (Hok x Hx)) as (v & Hv & _).
      destruct (upage_mapped s x v Hv) as [Hm _]. by eapply mapped_table. }
  replace (forallb _ _) with true by (symmetry; apply forallb_forall; intros x Hx%list_elem_of_In; auto).
  cbn [negb].
  destruct (mencrypt_pages_ok me R l k s va U) as (s1 & E1 & U1 & V1 & A1 & A2 & L1); auto.
  { apply PGROUNDDOWN_aligned. }
  { intros x Hx. destruct (user_page s x (Hok x Hx)) as (v & Hv & _). by exists v. }
  mstep E1. pose proof U1 as [I1 C1 K1].
  destruct (switchuvm_ok me s1 _ l I1 K1) as (s2 & E2 & B1 & B2 & B3 & B4 & I2).
  mstep E2. exists s2. split; [done|].
  assert (forall vb, ulookup s2 vb = ulookup s1 vb) as L2 by (intros; unfold ulookup; by rewrite B1, B2).
  split_and!.
  - split; rewrite ?B1, ?B2, ?B4; auto.
  - etrans; [exact V1|]. split; rewrite ?B1, ?B2, ?B3; auto.
    + intros x _. unfold upage. by rewrite B1, B2.
    + intros x _. unfold plain, stored, enc, upage. by rewrite L2, B1, B2.
    + intros x _ _. rewrite L2. apply same_UW_refl.
    + by intros w _ a _.
  - by rewrite B1, A1.
  - intros vb Hvb. rewrite L2. by apply L1.
Qed.

(** A page that is not accessible to the user: nothing happens. *)
Lemma mencrypt_refused me s R l addr n :
  uinv me s R l -> 0 <= n -> 0 <= PGROUNDDOWN addr ->
  PGROUNDDOWN addr + n * PGSIZE <= KERNBASE ->
  (forall x, x ∈ page_seq (PGROUNDDOWN addr) (Z.to_nat n) ->
     is_Some (table (umem s) (pgdir (us_p s)) (PDX x))) ->
  (exists x, x ∈ page_seq (PGROUNDDOWN addr) (Z.to_nat n) /\ user_ok s x = false) ->
  mencrypt addr n s = Ok (-1) s.
Proof.
  intros U Hn Ha Hend Ht (x & Hx & Hbad). unfold mencrypt. mgo. cbv zeta.
  mstep mencrypt_check_ok; [|exact U|done|by rewrite Z2Nat.id|done].
  destruct (forallb _ _) eqn:E; [|done]. rewrite forallb_forall in E.
  rewrite E in Hbad; [done|]. by apply list_elem_of_In.
Qed.

Lemma page_in_seq va n vb :
  va `mod` PGSIZE = 0 -> va <= vb < va + n * PGSIZE -> PGROUNDDOWN vb ∈ page_seq va (Z.to_nat n).
Proof.
  intros Hal Hvb. apply elem_of_page_seq. exists (Z.to_nat ((vb - va) / PGSIZE)).
  rewrite PGROUNDDOWN_eq. unfold PGSIZE in *.
  assert (0 <= (vb - va) / 4096 < n) by (clear Hal; Z.div_mod_to_equations; lia).
  rewrite Z2Nat.id by lia. split; [lia|]. clear -Hal. Z.div_mod_to_equations. lia.
Qed.


(** ** A process of one page, the flags of whose entry are [f] *)

Definition demo_mem (f : Z) : memory :=
  wr32 (wr32 ∅ (V2P demo_dir) (V2P demo_table + 7)) (V2P demo_table) (V2P demo_upage + f).
Definition demo_ust (f : Z) : ust :=
  USt (set_mem (demo_mem f) demo_kst1)
    (UProc 4096 demo_dir (KERNBASE + 0x303000) (repeat NOPAGE 8) (-1)) (V2P demo_dir) 0.

Ltac demo_addr := change (V2P demo_dir) with 0x300000 in *; change (V2P demo_table) with 0x301000 in *;
  change (V2P demo_upage) with 0x302000 in *; change (V2P demo_page) with 0x200000 in *.

Lemma demo_table0 f : table (demo_mem f) demo_dir 0 = Some demo_table.
Proof.
  unfold table, demo_mem. demo_addr. rewrite rd32_wr32_ne by lia. change (0x300000 + 4 * 0) with 0x300000.
  rewrite rd32_wr32_eq by (unfold is_u32; lia). done.
Qed.

Lemma demo_tables f i : 0 < i < 1024 -> table (demo_mem f) demo_dir i = None.
Proof. intros Hi. unfold table, demo_mem. demo_addr. by rewrite !rd32_wr32_ne by lia. Qed.

Lemma demo_entry f : 0 <= f < 4096 -> lookup (demo_mem f) demo_dir 0 = 0x302000 + f.
Proof.
  intros Hf. unfold lookup. change (PDX 0) with 0. rewrite demo_table0. change (PTX 0) with 0.
  unfold demo_mem. demo_addr. change (0x301000 + 4 * 0) with 0x301000.
  by rewrite rd32_wr32_eq by (unfold is_u32; lia).
Qed.

Lemma demo_others f v : PGSIZE <= v < KERNBASE -> lookup (demo_mem f) demo_dir v = 0.
Proof.
  intros Hv. unfold lookup. destruct (decide (PDX v = 0)) as [E|E].
  - rewrite E, demo_table0. unfold demo_mem. demo_addr.
    assert (0 < PTX v < 1024) as Hp.
    { pose proof (PTX_range v). enough (PTX v <> 0) by lia. rewrite PTX_eq, PDX_eq in *.
      unfold PGSIZE, KERNBASE in *. clear -E Hv. Z.div_mod_to_equations. lia. }
    by rewrite !rd32_wr32_ne by lia.
  - pose proof (PDX_range v). by rewrite demo_tables by lia.
Qed.

Lemma demo_pages f : 0 <= f < 4096 -> mapped f = true ->
  range_pages (demo_mem f) demo_dir 0 KERNBASE = [demo_upage].
Proof.
  intros Hf Hm. rewrite range_pages_cons by done.
  rewrite range_pages_nil.
  2:{ intros v [Hv _]%elem_of_pages_range; [|done]. by rewrite demo_others by done. }
  unfold page_of. rewrite demo_entry by done.
  assert (0x302000 + f = 770 * PGSIZE + f) as -> by done.
  rewrite mapped_flags, PTE_FLAGS_add, Hm by done. by rewrite PTE_ADDR_add by done.
Qed.

Lemma demo_pt_pages f : pt_pages (demo_mem f) demo_dir = [demo_dir; demo_table].
Proof.
  unfold pt_pages. rewrite seqZ_step by done. cbn [omap list_omap]. change (0 + 1) with 1.
  rewrite demo_table0, omap_nil_all; [done|]. intros i Hi%elem_of_seqZ. apply demo_tables. lia.
Qed.

Lemma demo_uinv f : 0 <= f < 4096 -> mapped f = true -> uinv 1 (demo_ust f) [] [demo_page].
Proof.
  intros Hf Hm. split; [|done|done]. cbn [demo_ust us_k us_p umem pgdir k_mem set_mem].
  change (k_mem (set_mem (demo_mem f) demo_kst1)) with (demo_mem f). rewrite demo_pages by done.
  pose proof (demo_pt_pages f) as E.
  split; change (k_mem (set_mem (demo_mem f) demo_kst1)) with (demo_mem f); rewrite ?E; cbn [app].
  - apply kinv_mem; [apply demo_kinv| |].
    + apply bytes_ok_wr32, bytes_ok_wr32, bytes_ok_empty.
    + intros v ->%list_elem_of_singleton a Ha. unfold in_page in Ha. unfold demo_mem. demo_addr.
      unfold PGSIZE in Ha. rewrite !rd8_wr32_ne by lia. done.
  - done.
  - repeat constructor; vm_compute; congruence.
  - apply (bool_decide_unpack _). vm_compute. done.
Qed.

