(* ===== verification/Aspace.v ===== *)
(** * The address space of a process as a whole

    Its pages, and what does not change as long as nobody touches them. *)

From S2P Require Import Prelude Cstring Spinlock Kalloc PageTable Uvm Encrypt.

(** The pages of the address space of the current process. *)
Definition own (u : ust) : list Z := pt_pages (umem u) (pgdir (us_p u)) ++ range_pages (umem u) (pgdir (us_p u)) 0 KERNBASE.

Lemma uinv_page_inv me u R l : uinv me u R l -> page_inv me (us_k u) (own u ++ R) l.
Proof. intros U. unfold own. rewrite <- app_assoc. apply pt_page_inv, U. Qed.

Section frame.
Context (u u' : ust) (Hp : us_p u' = us_p u) (F : forall w, w ∈ own u -> page_eq (umem u) (umem u') w).

Lemma frame_lookup va : ulookup u' va = ulookup u va.
Proof. unfold ulookup. rewrite Hp. symmetry. apply lookup_ext. intros w Hw. apply F. unfold own. rewrite elem_of_app. by left. Qed.
Lemma frame_page va : upage u' va = upage u va.
Proof. unfold upage, page_of. fold (ulookup u' va) (ulookup u va). by rewrite frame_lookup. Qed.
Lemma frame_dir : pt_pages (umem u') (pgdir (us_p u')) = pt_pages (umem u) (pgdir (us_p u)).
Proof. rewrite Hp. symmetry. apply pt_pages_ext, F. unfold own. rewrite elem_of_app. left. by left. Qed.
Lemma frame_range : range_pages (umem u') (pgdir (us_p u')) 0 KERNBASE = range_pages (umem u) (pgdir (us_p u)) 0 KERNBASE.
Proof. rewrite Hp. apply range_pages_ext. intros va _. pose proof (frame_lookup va) as E. unfold ulookup in E. by rewrite Hp in E. Qed.
Lemma frame_own : own u' = own u.
Proof. unfold own. by rewrite frame_dir, frame_range. Qed.
Lemma frame_enc va : enc u' va = enc u va.
Proof. unfold enc. by rewrite frame_lookup. Qed.
Lemma frame_user va : user_ok u' va = user_ok u va.
Proof. unfold user_ok. by rewrite frame_lookup. Qed.
Lemma frame_plain va : 0 <= va < KERNBASE -> plain u' va = plain u va.
Proof.
  intros Hva. unfold plain, stored. rewrite frame_page, frame_enc. destruct (upage u va) as [v|] eqn:E; [|done]. cbn [mbind option_bind].
  assert (v ∈ own u) as Hin by (unfold own; rewrite elem_of_app; right; by apply (upage_range u va)).
  assert (in_page v (V2P v + va `mod` PGSIZE)) as Hi by (unfold in_page; pose proof (Z.mod_pos_bound va PGSIZE eq_refl); lia).
  by rewrite (F v Hin _ Hi).
Qed.
Lemma frame_uinv me R l : us_cr3 u' = V2P (pgdir (us_p u)) -> kstack (us_p u) <> 0 -> page_inv me (us_k u') (own u ++ R) l -> uinv me u' R l.
Proof.
  intros Hc Hk H. split; [|by rewrite Hp|by rewrite Hp]. rewrite frame_range. eapply pt_of_page_inv; [|exact frame_dir].
  unfold own in H. by rewrite <- app_assoc in H.
Qed.
Lemma frame_view R : k_end (us_k u') = k_end (us_k u) -> (forall w, w ∈ R -> page_eq (umem u) (umem u') w) -> same_view R u u'.
Proof.
  intros He Hr. split; auto.
  - by rewrite Hp.
  - intros va _. apply frame_page.
  - apply frame_plain.
  - intros va _ _. rewrite frame_lookup. apply same_UW_refl.
  - intros i Hi. rewrite Hp. symmetry. apply table_ext; [|done]. apply F. unfold own. rewrite elem_of_app. left. by left.
Qed.
End frame.

Lemma same_view_own R u u' : same_view R u u' -> own u' = own u.
Proof.
  intros V. unfold own. f_equal.
  - unfold pt_pages. destruct (sv_proc _ _ _ V) as (_ & Ed & _). f_equal; [done|]. apply omap_ext_in. intros i Hi%elem_of_seqZ. by apply V.
  - apply omap_ext_in. intros va [Hva _]%elem_of_pages_range; [|done]. apply (sv_page _ _ _ V). unfold is_u32, KERNBASE in *. lia.
Qed.
