(* ===== verification/Clock.v ===== *)
(** * The working set as a second-chance queue

    The array [clockqueue] with its [clockhand] is a queue of at most
    [CLOCKSIZE] pages, oldest first ([ring]): [wsetdelete], [clearwset] and
    [searchwset] are the list operations, and [wsetinsert] is second-chance
    replacement. On this rest the theorems on [mdecrypt] and [growproc]. *)

From S2P Require Import Prelude Cstring Spinlock Kalloc PageTable Uvm Encrypt.

(** ** The ring *)

(** The page [k] places before the hand. *)
Definition back (p : uproc) (k : Z) : option Z :=
  clockqueue p !! Z.to_nat ((clockhand p - k) `mod` CLOCKSIZE).

Record ring (p : uproc) (L : list Z) : Prop := Ring {
  rg_len : length (clockqueue p) = 8%nat;
  rg_hand : -1 <= clockhand p < CLOCKSIZE;
  rg_fresh : clockhand p = -1 -> L = [];
  rg_size : (length L <= 8)%nat;
  rg_nopage : NOPAGE ∉ L;
  rg_back : forall k, 0 <= k < CLOCKSIZE ->
    back p k = Some (default NOPAGE (reverse L !! Z.to_nat k))
}.

Lemma qidx_ok i : 0 <= i < CLOCKSIZE -> qidx i = Some (Z.to_nat i).
Proof.
  intros Hi. unfold qidx. by rewrite (proj2 (Z.leb_le _ _)), (proj2 (Z.ltb_lt _ _)) by lia.
Qed.

Lemma qget_ok i v s :
  0 <= i < CLOCKSIZE -> clockqueue (us_p s) !! Z.to_nat i = Some v -> qget i s = Ok v s.
Proof. intros Hi Hv. unfold qget. rewrite qidx_ok by done. cbn. by rewrite Hv. Qed.

Lemma qset_ok i v s :
  0 <= i < CLOCKSIZE ->
  qset i v s = Ok tt (set_p (set_queue (<[Z.to_nat i := v]> (clockqueue (us_p s))) (us_p s)) s).
Proof. intros Hi. unfold qset. by rewrite qidx_ok. Qed.

Lemma mod8_range x : 0 <= x `mod` CLOCKSIZE < CLOCKSIZE.
Proof. by apply Z.mod_pos_bound. Qed.

(** The slot after the hand. *)
Definition next_hand (p : uproc) : Z := Z.rem (clockhand p + 1) CLOCKSIZE.

Lemma next_hand_mod p :
  -1 <= clockhand p < CLOCKSIZE -> next_hand p = (clockhand p + 1) `mod` CLOCKSIZE.
Proof. intros H. unfold next_hand. apply Z.rem_mod_nonneg; unfold CLOCKSIZE in *; lia. Qed.

Lemma ring_next p L :
  ring p L -> clockqueue p !! Z.to_nat (next_hand p) = Some (default NOPAGE (reverse L !! 7%nat)).
Proof.
  intros H. rewrite next_hand_mod by apply H.
  pose proof (rg_back _ _ H 7 ltac:(done)) as B. unfold back in B. change (Z.to_nat 7) with 7%nat in B.
  rewrite <- B. do 2 f_equal. unfold CLOCKSIZE. Z.div_mod_to_equations. lia.
Qed.

(** Advance the hand and write [y] there. *)
Definition push_page (y : Z) (p : uproc) : uproc :=
  set_queue (<[Z.to_nat (next_hand p) := y]> (clockqueue p)) (set_hand (next_hand p) p).

Lemma ring_push p L y :
  ring p L -> y <> NOPAGE ->
  ring (push_page y p) ((if decide (length L < 8)%nat then L else drop 1 L) ++ [y]).
Proof.
  intros H Hy. pose proof (next_hand_mod p (rg_hand _ _ H)) as En.
  pose proof (mod8_range (clockhand p + 1)) as Rn. rewrite <- En in Rn.
  destruct H as [Hlen Hhand Hfresh Hsize Hno Hback].
  split; cbn [push_page set_queue set_hand clockqueue clockhand].
  - by rewrite length_insert.
  - lia.
  - lia.
  - rewrite length_app. cbn [length]. case_decide; [|rewrite length_drop]; lia.
  - rewrite elem_of_app, list_elem_of_singleton. intros [Hin|]; [|done]. apply Hno.
    case_decide; [done|]. eapply subseteq_drop. exact Hin.
  - intros k Hk. unfold back, push_page. cbn [set_queue set_hand clockqueue clockhand].
    rewrite reverse_app. cbn [reverse rev_append app].
    destruct (decide (k = 0)) as [->|Hk0].
    + rewrite Z.sub_0_r, Z.mod_small by done. rewrite list_lookup_insert_eq; [done|]. unfold CLOCKSIZE in *; lia.
    + rewrite list_lookup_insert_ne.
      * specialize (Hback (k - 1) ltac:(lia)). unfold back in Hback.
        replace (Z.to_nat ((next_hand p - k) `mod` CLOCKSIZE))
          with (Z.to_nat ((clockhand p - (k - 1)) `mod` CLOCKSIZE))
          by (rewrite En; unfold CLOCKSIZE; f_equal; clear; Z.div_mod_to_equations; lia).
        rewrite Hback. do 2 f_equal.
        replace (Z.to_nat k) with (S (Z.to_nat (k - 1))) by lia. cbn.
        case_decide as Hd; [done|]. destruct L as [|x L]; [done|]. cbn [drop].
        rewrite drop_0, reverse_cons, lookup_app_l; [done|]. rewrite length_reverse.
        cbn [length] in *. unfold CLOCKSIZE in *. lia.
      * rewrite En. unfold CLOCKSIZE in *. intros E. apply Z2Nat.inj in E;
          [|apply Z.mod_pos_bound; lia|apply Z.mod_pos_bound; lia].
        clear -E Hk Hk0. Z.div_mod_to_equations. lia.
Qed.

(** ** wsetdelete *)

Lemma back_set p k j v :
  length (clockqueue p) = 8%nat -> 0 <= k < CLOCKSIZE -> 0 <= j < CLOCKSIZE ->
  back (set_queue (<[Z.to_nat ((clockhand p - k) `mod` CLOCKSIZE) := v]> (clockqueue p)) p) j =
  if decide (j = k) then Some v else back p j.
Proof.
  intros Hlen Hk Hj. unfold back. cbn [set_queue clockqueue clockhand].
  pose proof (mod8_range (clockhand p - k)). pose proof (mod8_range (clockhand p - j)).
  case_decide as E.
  - subst. apply list_lookup_insert_eq. unfold CLOCKSIZE in *. lia.
  - apply list_lookup_insert_ne. intros E'. apply Z2Nat.inj in E'; [|lia|lia].
    unfold CLOCKSIZE in *. clear -E E' Hk Hj. Z.div_mod_to_equations. lia.
Qed.

(** [wsetdelete_find] scans the array from the hand up: places 0, 7, 6, ..., 1. *)
Lemma wsetdelete_find_ok s va n : forall i found,
  0 <= clockhand (us_p s) < CLOCKSIZE -> 0 <= i -> i + Z.of_nat n = 8 ->
  (forall k, 0 <= k < CLOCKSIZE -> is_Some (back (us_p s) k)) ->
  let h := clockhand (us_p s) in
  exists r, wsetdelete_find i n va found s = Ok r s /\
    ((r = found /\ forall j, i <= j < 8 -> back (us_p s) ((- j) `mod` 8) <> Some va) \/
     (exists j, i <= j < 8 /\ r = (h + j) `mod` CLOCKSIZE /\ back (us_p s) ((- j) `mod` 8) = Some va)).
Proof.
  induction n as [|n IH]; intros i found Hh Hi Hn Hb h; cbn [wsetdelete_find].
  - exists found. split; [done|]. left. split; [done|]. lia.
  - mgo. cbv zeta. fold h.
    rewrite Z.rem_mod_nonneg by (unfold h, CLOCKSIZE in *; lia).
    assert (back (us_p s) ((- i) `mod` 8) = clockqueue (us_p s) !! Z.to_nat ((h + i) `mod` CLOCKSIZE)) as Eb.
    { unfold back. fold h. do 2 f_equal. unfold CLOCKSIZE. clear. Z.div_mod_to_equations. lia. }
    destruct (Hb ((- i) `mod` 8)) as [v Hv]; [by apply mod8_range|].
    mstep qget_ok; [|apply mod8_range|by rewrite <- Eb].
    destruct (IH (i + 1) (if v =? va then (h + i) `mod` CLOCKSIZE else found)) as (r & E & O); auto; [lia|lia|].
    exists r. split; [done|]. destruct O as [(-> & O)|(j & Hj & -> & O)].
    + destruct (Z.eqb_spec v va) as [->|Hne].
      * right. exists i. split_and!; auto; lia.
      * left. split; [done|]. intros j Hj. destruct (decide (j = i)) as [->|]; [congruence|].
        apply O. lia.
    + right. exists j. split_and!; auto; lia.
Qed.

(** Moving the [k] pages after the deleted one. *)
Lemma wsetdelete_shift_ok (k : nat) : forall s fuel,
  length (clockqueue (us_p s)) = 8%nat -> 0 <= clockhand (us_p s) < CLOCKSIZE ->
  (k < 8)%nat -> (k < fuel)%nat ->
  exists q, wsetdelete_shift fuel ((clockhand (us_p s) - Z.of_nat k) `mod` CLOCKSIZE) (clockhand (us_p s)) s =
      Ok tt (set_p (set_queue q (us_p s)) s) /\ length q = 8%nat /\
    forall j, 0 <= j < CLOCKSIZE -> back (set_queue q (us_p s)) j =
      if decide (1 <= j <= Z.of_nat k) then back (us_p s) (j - 1) else back (us_p s) j.
Proof.
  induction k as [|k IH]; intros s fuel Hlen Hh Hk Hf; (destruct fuel as [|fuel]; [lia|]); cbn [wsetdelete_shift].
  - rewrite Z.sub_0_r, Z.mod_small, Z.eqb_refl by done.
    exists (clockqueue (us_p s)). split_and!.
    + by destruct s as [? [] ? ?].
    + done.
    + intros j Hj. rewrite decide_False by lia. by destruct (us_p s).
  - set (h := clockhand (us_p s)) in *. set (i := (h - Z.of_nat (S k)) `mod` CLOCKSIZE).
    assert (0 <= i < CLOCKSIZE) as Hi by apply mod8_range.
    rewrite (proj2 (Z.eqb_neq i h))
      by (unfold i, CLOCKSIZE in *; clear -Hk Hh; Z.div_mod_to_equations; lia).
    assert (Z.rem (i + 1) CLOCKSIZE = (h - Z.of_nat k) `mod` CLOCKSIZE) as Ei.
    { rewrite Z.rem_mod_nonneg by (unfold CLOCKSIZE in *; lia).
      unfold i, CLOCKSIZE. rewrite Nat2Z.inj_succ. clear. Z.div_mod_to_equations. lia. }
    rewrite Ei. destruct (lookup_lt_is_Some_2 (clockqueue (us_p s)) (Z.to_nat ((h - Z.of_nat k) `mod` CLOCKSIZE))) as [v Hv].
    { pose proof (mod8_range (h - Z.of_nat k)). unfold CLOCKSIZE in *. lia. }
    mstep qget_ok; [|apply mod8_range|exact Hv].
    mstep qset_ok; [|done]. set (p1 := set_queue _ _). set (s1 := set_p p1 s).
    destruct (IH s1 fuel) as (q & E & Lq & B); auto; [by cbn; rewrite length_insert|lia|lia|].
    exists q. split_and!; [exact E|done|]. intros j Hj. cbn [s1 us_p set_p] in B.
    change (set_queue q (us_p s)) with (set_queue q p1). rewrite B by done.
    assert (forall x, 0 <= x < CLOCKSIZE -> back p1 x = if decide (x = Z.of_nat (S k)) then Some v else back (us_p s) x) as B1.
    { intros x Hx. unfold p1, i, h. apply back_set; auto. unfold CLOCKSIZE. lia. }
    assert (back (us_p s) (Z.of_nat k) = Some v) as Hvk by exact Hv.
    destruct (decide (1 <= j <= Z.of_nat k)) as [Hj1|Hj1].
    + rewrite B1 by lia. rewrite decide_False by lia. by rewrite decide_True by lia.
    + rewrite B1 by lia. case_decide as Hj2.
      * rewrite decide_True by lia. subst j. replace (Z.of_nat (S k) - 1) with (Z.of_nat k) by lia. done.
      * by rewrite decide_False by lia.
Qed.

Lemma filter_ne_delete (N : list Z) (k : nat) x :
  NoDup N -> N !! k = Some x -> filter (fun y => y <> x) N = delete k N.
Proof.
  revert k. induction N as [|y N IH]; intros [|k] Hn Hx; simplify_eq/=.
  - apply NoDup_cons in Hn as [Hn _]. rewrite filter_cons_False by (intros []; done).
    clear IH. induction N as [|z N IH]; [done|]. apply not_elem_of_cons in Hn as [H1 H2].
    rewrite filter_cons_True by congruence. by rewrite IH.
  - apply NoDup_cons in Hn as [Hn Hn']. rewrite filter_cons_True.
    + by rewrite (IH k).
    + intros ->. apply Hn. by eapply list_elem_of_lookup_2.
Qed.

Lemma ring_back_page p L k va :
  ring p L -> 0 <= k < CLOCKSIZE -> va <> NOPAGE -> back p k = Some va ->
  reverse L !! Z.to_nat k = Some va.
Proof.
  intros H Hk Hva Hb. rewrite (rg_back _ _ H k Hk) in Hb. injection Hb as Hb.
  destruct (reverse L !! Z.to_nat k); cbn in Hb; congruence.
Qed.

Lemma ring_find p L va :
  ring p L -> va ∈ L -> exists k, 0 <= k < CLOCKSIZE /\ back p k = Some va.
Proof.
  intros H Hin. apply elem_of_reverse, list_elem_of_lookup in Hin as [i Hi].
  pose proof (lookup_lt_Some _ _ _ Hi) as Hlt. rewrite length_reverse in Hlt.
  pose proof (rg_size _ _ H). exists (Z.of_nat i). unfold CLOCKSIZE. split; [lia|].
  rewrite (rg_back _ _ H) by (unfold CLOCKSIZE; lia). by rewrite Nat2Z.id, Hi.
Qed.

(** The queue after the shift, the clearing of the tail and the step back of the hand. *)
Lemma ring_delete p L k va q :
  ring p L -> NoDup L -> va <> NOPAGE -> 0 <= clockhand p -> 0 <= k < CLOCKSIZE -> back p k = Some va ->
  length q = 8%nat ->
  (forall j, 0 <= j < CLOCKSIZE -> back (set_queue q p) j =
     if decide (1 <= j <= k) then back p (j - 1) else back p j) ->
  ring (set_hand (if clockhand p =? 0 then CLOCKSIZE - 1 else clockhand p - 1)
         (set_queue (<[Z.to_nat (clockhand p) := NOPAGE]> q) p))
       (filter (fun y => y <> va) L).
Proof.
  intros H Hnd Hva Hh Hk Hb Hq Hs. pose proof (ring_back_page _ _ _ _ H Hk Hva Hb) as Hkva.
  pose proof (rg_hand _ _ H) as Hhand. pose proof (rg_size _ _ H) as Hsz.
  set (h := clockhand p) in *. set (h' := if h =? 0 then CLOCKSIZE - 1 else h - 1).
  assert (0 <= h' < CLOCKSIZE /\ h' = (h - 1) `mod` CLOCKSIZE) as [Hh' Eh'].
  { unfold h', CLOCKSIZE in *. destruct (Z.eqb_spec h 0) as [->|]; [done|]. rewrite Z.mod_small; lia. }
  assert (reverse (filter (fun y => y <> va) L) = delete (Z.to_nat k) (reverse L)) as Er.
  { rewrite <- filter_ne_delete with (x := va); [|by rewrite reverse_Permutation|done].
    by rewrite filter_reverse. }
  assert (length (filter (fun y => y <> va) L) < 8)%nat as Hlen.
  { rewrite <- length_reverse, Er. rewrite length_delete by (by eexists). rewrite length_reverse.
    apply lookup_lt_Some in Hkva. rewrite length_reverse in Hkva. lia. }
  split; cbn [set_hand set_queue clockqueue clockhand]; auto; try lia.
  - by rewrite length_insert.
  - intros [_ Hin]%list_elem_of_filter. by apply (rg_nopage _ _ H).
  - intros j Hj. unfold back. cbn [set_hand set_queue clockqueue clockhand].
    replace ((h' - j) `mod` CLOCKSIZE) with ((h - (j + 1)) `mod` CLOCKSIZE)
      by (rewrite Eh'; unfold CLOCKSIZE; clear; Z.div_mod_to_equations; lia).
    rewrite Er. destruct (decide (j = 7)) as [->|Hj7].
    + change (7 + 1) with CLOCKSIZE. rewrite Zminus_mod, Z_mod_same_full, Z.sub_0_r, Zmod_mod, Z.mod_small by lia.
      rewrite list_lookup_insert_eq by (unfold CLOCKSIZE in *; lia).
      rewrite lookup_ge_None_2; [done|]. rewrite <- Er, length_reverse. lia.
    + assert (0 <= j + 1 < CLOCKSIZE) as Hj1 by (unfold CLOCKSIZE in *; lia).
      rewrite list_lookup_insert_ne.
      2:{ intros E. pose proof (mod8_range (h - (j + 1))). apply Z2Nat.inj in E; [|lia|lia].
          unfold CLOCKSIZE in *. clear -E Hj Hj7. Z.div_mod_to_equations. lia. }
      specialize (Hs (j + 1) Hj1). unfold back at 1 in Hs. cbn [set_queue clockqueue clockhand] in Hs.
      fold h in Hs. rewrite Hs. case_decide as Hjk.
      * rewrite list_lookup_delete_lt by lia. replace (j + 1 - 1) with j by lia. by apply (rg_back _ _ H).
      * rewrite list_lookup_delete_ge by lia. rewrite (rg_back _ _ H) by done.
        do 3 f_equal. lia.
Qed.

Lemma wsetdelete_ok s L va :
  ring (us_p s) L -> NoDup L -> va <> NOPAGE -> 0 <= clockhand (us_p s) ->
  (va ∈ L -> exists q h, wsetdelete va s = Ok 0 (set_p (set_hand h (set_queue q (us_p s))) s) /\
     ring (set_hand h (set_queue q (us_p s))) (filter (fun y => y <> va) L)) /\
  (va ∉ L -> wsetdelete va s = Ok (-1) s).
Proof.
  intros H Hnd Hva Hh. pose proof (rg_hand _ _ H) as Hhand.
  unfold wsetdelete.
  destruct (wsetdelete_find_ok s va 8 0 (-1)) as (r & E & O); [lia|lia|lia| |].
  { intros k Hk. rewrite (rg_back _ _ H k Hk). by eexists. }
  split.
  - intros Hin. mgo. cbv zeta. mstep E. destruct O as [(-> & O)|(j & Hj & -> & Hjb)].
    + destruct (ring_find _ _ _ H Hin) as (k & Hk & Hb). exfalso.
      apply (O ((- k) `mod` 8)); [by apply mod8_range|].
      rewrite <- Hb. f_equal. unfold CLOCKSIZE in Hk. clear -Hk. Z.div_mod_to_equations. lia.
    + set (k := (- j) `mod` 8) in *. assert (0 <= k < CLOCKSIZE) as Hk by by apply mod8_range.
      assert ((clockhand (us_p s) + j) `mod` CLOCKSIZE = (clockhand (us_p s) - k) `mod` CLOCKSIZE) as ->.
      { unfold k, CLOCKSIZE. clear. Z.div_mod_to_equations. lia. }
      rewrite (proj2 (Z.eqb_neq _ (-1))) by (pose proof (mod8_range (clockhand (us_p s) - k)); lia).
      cbn [negb].
      destruct (wsetdelete_shift_ok (Z.to_nat k) s 8) as (q & Eq & Lq & Bq);
        [apply H|lia|unfold CLOCKSIZE in *; lia|unfold CLOCKSIZE in *; lia|].
      rewrite Z2Nat.id in Eq, Bq by lia. mstep Eq.
      mstep qset_ok; [|cbn [us_p set_p set_queue clockhand]; lia]. unfold upd_p. mgo.
      eexists _, _. split; [done|]. cbn [us_p set_p set_queue clockhand clockqueue].
      by apply (ring_delete _ _ k).
  - intros Hin. mgo. cbv zeta. mstep E. destruct O as [(-> & O)|(j & Hj & -> & Hjb)]; [done|].
    exfalso. apply Hin. apply elem_of_reverse. eapply list_elem_of_lookup_2.
    eapply (ring_back_page _ _ _ _ H); [|done|exact Hjb]. by apply mod8_range.
Qed.

(** ** clearwset and searchwset *)

Lemma clearwset_loop_ok n : forall s i,
  length (clockqueue (us_p s)) = 8%nat -> 0 <= i -> i + Z.of_nat n = 8 ->
  exists q, clearwset_loop i n s = Ok tt (set_p (set_queue q (us_p s)) s) /\ length q = 8%nat /\
    forall j, (j < 8)%nat -> q !! j = if decide (i <= Z.of_nat j) then Some NOPAGE else clockqueue (us_p s) !! j.
Proof.
  induction n as [|n IH]; intros s i Hlen Hi Hn; cbn [clearwset_loop].
  - exists (clockqueue (us_p s)). split_and!; [by destruct s as [? [] ? ?]|done|].
    intros j Hj. by rewrite decide_False by lia.
  - mstep qset_ok; [|unfold CLOCKSIZE; lia]. set (s1 := set_p _ s).
    destruct (IH s1 (i + 1)) as (q & E & Lq & B); [by cbn; rewrite length_insert|lia|lia|].
    exists q. split_and!; [exact E|done|]. intros j Hj. rewrite B by done.
    cbn [s1 us_p set_p set_queue clockqueue].
    destruct (decide (j = Z.to_nat i)) as [->|Hne].
    + rewrite decide_False, decide_True, list_lookup_insert_eq by lia. done.
    + rewrite list_lookup_insert_ne by done. repeat case_decide; lia || done.
Qed.

Lemma clearwset_ok s :
  length (clockqueue (us_p s)) = 8%nat ->
  exists q, clearwset s = Ok tt (set_p (set_hand (-1) (set_queue q (us_p s))) s) /\
    ring (set_hand (-1) (set_queue q (us_p s))) [].
Proof.
  intros Hlen. destruct (clearwset_loop_ok 8 s 0 Hlen) as (q & E & Lq & B); [done|done|].
  exists q. unfold clearwset. split; [by mstep E|].
  split; cbn [set_hand set_queue clockqueue clockhand]; auto; unfold CLOCKSIZE; try (simpl; lia); [apply not_elem_of_nil|].
  intros k Hk. unfold back. cbn [set_hand set_queue clockqueue clockhand].
  pose proof (mod8_range (-1 - k)). unfold CLOCKSIZE in *.
  rewrite B by lia. by rewrite decide_True by lia.
Qed.

Lemma searchwset_loop_ok s va n : forall i,
  length (clockqueue (us_p s)) = 8%nat -> va <> NOPAGE -> 0 <= i -> i + Z.of_nat n = 8 ->
  searchwset_loop i n va s =
    Ok (if decide (va ∈ drop (Z.to_nat i) (clockqueue (us_p s))) then 1 else -1) s.
Proof.
  induction n as [|n IH]; intros i Hlen Hva Hi Hn; cbn [searchwset_loop].
  - rewrite drop_ge by lia. rewrite decide_False; [done|]. apply not_elem_of_nil.
  - destruct (lookup_lt_is_Some_2 (clockqueue (us_p s)) (Z.to_nat i)) as [v Hv]; [lia|].
    mstep qget_ok; [|unfold CLOCKSIZE; lia|exact Hv].
    rewrite (drop_S _ _ _ Hv).
    destruct (Z.eqb_spec v va) as [->|Hne].
    + rewrite (proj2 (Z.eqb_neq va NOPAGE)) by done. cbn. rewrite decide_True; [done|]. by left.
    + rewrite andb_false_r, IH by (done || lia).
      replace (Z.to_nat (i + 1)) with (S (Z.to_nat i)) by lia. f_equal. apply decide_ext. rewrite elem_of_cons.
      split; [by right|]. by intros [E|E]; [congruence|].
Qed.

Lemma ring_elem p L va :
  ring p L -> va <> NOPAGE -> va ∈ clockqueue p <-> va ∈ L.
Proof.
  intros H Hva. split.
  - intros [i Hi]%list_elem_of_lookup. pose proof (lookup_lt_Some _ _ _ Hi) as Hlt.
    rewrite (rg_len _ _ H) in Hlt. apply elem_of_reverse.
    eapply list_elem_of_lookup_2, (ring_back_page p L ((clockhand p - Z.of_nat i) `mod` 8));
      [done|by apply mod8_range|done|].
    rewrite <- Hi. unfold back. f_equal. unfold CLOCKSIZE. clear -Hlt. Z.div_mod_to_equations. lia.
  - intros Hin. destruct (ring_find _ _ _ H Hin) as (k & Hk & Hb).
    by eapply list_elem_of_lookup_2.
Qed.

Lemma searchwset_ok s L va :
  ring (us_p s) L -> va <> NOPAGE ->
  searchwset va s = Ok (if decide (va ∈ L) then 1 else -1) s.
Proof.
  intros H Hva. unfold searchwset. rewrite searchwset_loop_ok by (apply H || done).
  rewrite drop_0. f_equal. apply decide_ext. by apply ring_elem.
Qed.

(** ** wsetinsert: second chance *)

(** The pages passed over: the referenced pages before the first unreferenced one. *)
Fixpoint passed (ref : Z -> bool) (L : list Z) : list Z :=
  match L with
  | [] => []
  | x :: L' => if ref x then x :: passed ref L' else []
  end.

Definition rest_of (ref : Z -> bool) (L : list Z) : list Z := drop (length (passed ref L)) L.

(** A full queue gives up the first unreferenced page, or the oldest one when all
    are referenced; the pages passed over go to the back. *)
Definition rotated (ref : Z -> bool) (L : list Z) : list Z := rest_of ref L ++ passed ref L.
Definition victim (ref : Z -> bool) (L : list Z) : option Z :=
  if decide (length L < 8)%nat then None else head (rotated ref L).
Definition second_chance (ref : Z -> bool) (L : list Z) (va : Z) : list Z :=
  if decide (length L < 8)%nat then L ++ [va] else tail (rotated ref L) ++ [va].

Lemma passed_split ref L : L = passed ref L ++ rest_of ref L.
Proof.
  unfold rest_of. induction L as [|x L IH]; [done|]. cbn. destruct (ref x); cbn; [|done].
  by rewrite <- IH.
Qed.

Lemma passed_ref ref L : Forall (fun x => ref x = true) (passed ref L).
Proof. induction L as [|x L IH]; cbn; [constructor|]. destruct (ref x) eqn:E; by constructor. Qed.

Lemma rest_unref ref L x : head (rest_of ref L) = Some x -> ref x = false.
Proof.
  unfold rest_of. induction L as [|y L IH]; [done|]. cbn. destruct (ref y) eqn:E; cbn; [done|]. congruence.
Qed.

(** The pages of the working set are distinct, mapped for the user and decrypted. *)
Definition ws_page (s : ust) (x : Z) : Prop :=
  0 <= x < KERNBASE /\ x `mod` PGSIZE = 0 /\ user_ok s x = true /\ enc s x = false.

Record wset (s : ust) (L : list Z) : Prop := WSet {
  ws_ring : ring (us_p s) L;
  ws_nodup : NoDup L;
  ws_pages : Forall (ws_page s) L
}.

Lemma ws_page_in s L x : wset s L -> x ∈ L -> ws_page s x.
Proof. intros H Hx. pose proof (ws_pages _ _ H) as F. rewrite Forall_forall in F. auto. Qed.

Lemma kernbase_nopage x : 0 <= x < KERNBASE -> x <> NOPAGE.
Proof. unfold KERNBASE, NOPAGE. lia. Qed.

Lemma set_p_uinv me s R l p :
  uinv me s R l -> pgdir p = pgdir (us_p s) -> kstack p = kstack (us_p s) -> uinv me (set_p p s) R l.
Proof. intros [I C K] E1 E2. split; cbn [us_p set_p us_k us_cr3 umem]; by rewrite ?E1, ?E2. Qed.

Lemma set_p_ulookup s p va : pgdir p = pgdir (us_p s) -> ulookup (set_p p s) va = ulookup s va.
Proof. intros E. unfold ulookup. cbn [us_p set_p]. by rewrite E. Qed.

Lemma set_p_view R s p :
  sz p = sz (us_p s) -> pgdir p = pgdir (us_p s) -> kstack p = kstack (us_p s) ->
  same_view R s (set_p p s).
Proof.
  intros E1 E2 E3. split; auto.
  - intros va _. unfold upage. cbn [us_p set_p]. by rewrite E2.
  - intros va _. unfold plain, stored, enc, upage. rewrite set_p_ulookup by done.
    cbn [us_p set_p umem us_k]. by rewrite E2.
  - intros va _ _. rewrite set_p_ulookup by done. apply same_UW_refl.
  - intros i _. cbn [us_p set_p]. by rewrite E2.
  - by intros w _ a _.
Qed.

Lemma set_p_id s : set_p (us_p s) s = s.
Proof. by destruct s. Qed.

Lemma set_p_twice p q s : set_p q (set_p p s) = set_p q s.
Proof. done. Qed.

(** There is room: the page is added. *)
Lemma insert_empty me s R l L va fuel :
  uinv me s R l -> ring (us_p s) L -> (length L < 8)%nat ->
  wsetinsert_loop (S fuel) va s = Ok 0 (set_p (push_page va (us_p s)) s).
Proof.
  intros U H Hlen. cbn [wsetinsert_loop]. unfold upd_p. mgo. cbv zeta.
  fold (next_hand (us_p s)). set (s1 := set_p (set_hand (next_hand (us_p s)) (us_p s)) s).
  pose proof (rg_hand _ _ H) as Hh. pose proof (next_hand_mod _ Hh) as En.
  assert (0 <= next_hand (us_p s) < CLOCKSIZE) as Rn by (rewrite En; apply mod8_range).
  change (clockhand (us_p s1)) with (next_hand (us_p s)).
  mstep qget_ok; [|done|].
  2:{ cbn [s1 us_p set_p set_hand clockqueue]. rewrite (ring_next _ _ H).
      rewrite lookup_ge_None_2 by (rewrite length_reverse; lia). done. }
  assert (uinv me s1 R l) as U1 by (by apply set_p_uinv).
  erewrite bind_Ok; [|eapply lift_Ok, walkpgdir_lookup, U1]. cbn [default].
  change (NOPAGE =? NOPAGE) with true. cbv iota. rewrite set_k_id.
  by mstep qset_ok.
Qed.

Lemma push_same p L x :
  ring p (x :: L) -> length (x :: L) = 8%nat -> push_page x p = set_hand (next_hand p) p.
Proof.
  intros H Hlen. unfold push_page. rewrite list_insert_id; [by destruct p|].
  rewrite (ring_next _ _ H), reverse_cons, lookup_app_r by (rewrite length_reverse; cbn in Hlen; lia).
  rewrite length_reverse. cbn in Hlen. by replace (7 - length L)%nat with 0%nat by lia.
Qed.

(** The first steps of a turn of the hand on a full queue: the oldest page [x] and
    its entry. *)
Lemma insert_head me s R l x L va fuel :
  uinv me s R l -> ring (us_p s) (x :: L) -> length (x :: L) = 8%nat -> ws_page s x ->
  let s1 := set_p (set_hand (next_hand (us_p s)) (us_p s)) s in
  exists pte slot, uinv me s1 R l /\ pte_ptr s1 x pte slot /\
    wsetinsert_loop (S fuel) va s =
    (if negb (refd s x) then
       r ← mencrypt x 1;
       if negb (r =? 0) then mret (-1) else
       qset (next_hand (us_p s)) va;; mret 0
     else lift (kstore pte (Z.land (ulookup s x) (Z.lnot PTE_A)));; wsetinsert_loop fuel va) s1.
Proof.
  intros U H Hlen (Hx & Hal & Hu & He) s1.
  assert (uinv me s1 R l) as U1 by (by apply set_p_uinv).
  assert (ulookup s1 x = ulookup s x) as El by (by apply set_p_ulookup).
  destruct (user_page s x Hu) as (v & Hv & _). destruct (upage_mapped _ _ _ Hv) as [Hm _].
  destruct (get_pte me s1 R l x U1) as (pte & slot & PP); [by rewrite El|].
  exists pte, slot. split_and!; auto.
  cbn [wsetinsert_loop]. unfold upd_p. mgo. cbv zeta. fold (next_hand (us_p s)). fold s1.
  pose proof (next_hand_mod _ (rg_hand _ _ H)) as En.
  assert (0 <= next_hand (us_p s) < CLOCKSIZE) as Rn by (rewrite En; apply mod8_range).
  change (clockhand (us_p s1)) with (next_hand (us_p s)).
  assert (clockqueue (us_p s1) !! Z.to_nat (next_hand (us_p s)) = Some x) as Hq.
  { cbn [s1 us_p set_p set_hand clockqueue]. rewrite (ring_next _ _ H), reverse_cons.
    rewrite lookup_app_r by (rewrite length_reverse; cbn in Hlen; lia).
    rewrite length_reverse. cbn in Hlen. by replace (7 - length L)%nat with 0%nat by lia. }
  mstep qget_ok; [|done|exact Hq]. rewrite (PGROUNDDOWN_id x) by done.
  rewrite (bind_Ok _ _ _ _ _ (pp_walk _ _ _ _ PP)).
  rewrite (proj2 (Z.eqb_neq x NOPAGE)) by (by apply kernbase_nopage).
  rewrite (bind_Ok _ _ _ _ _ (pp_load _ _ _ _ PP s1)), (pp_val _ _ _ _ PP), El. done.
Qed.

(** A referenced page gets its second chance. *)
Lemma insert_skip me s R l x L va fuel :
  uinv me s R l -> wset s (x :: L) -> length (x :: L) = 8%nat -> refd s x = true ->
  exists s', wsetinsert_loop (S fuel) va s = wsetinsert_loop fuel va s' /\
    uinv me s' R l /\ same_view R s s' /\ wset s' (L ++ [x]) /\
    forall vb, is_u32 vb -> ulookup s' vb =
      if decide (x / PGSIZE = vb / PGSIZE) then Z.land (ulookup s vb) (Z.lnot PTE_A) else ulookup s vb.
Proof.
  intros U [Hr Hnd Hp] Hlen Href. pose proof (Forall_inv Hp) as Hx.
  destruct (insert_head me s R l x L va fuel U Hr Hlen Hx) as (pte & slot & U1 & PP & E).
  set (s1 := set_p _ s) in *. rewrite E, Href. cbn [negb].
  rewrite (bind_Ok _ _ _ _ _ (pp_store _ _ _ _ PP _ _)).
  destruct Hx as (Hxr & Hal & Hu & He).
  destruct (user_page s x Hu) as (v & Hv & _). destruct (upage_mapped _ _ _ Hv) as [Hm _].
  assert (forall vb, ulookup s1 vb = ulookup s vb) as L1 by (intros; by apply set_p_ulookup).
  assert (0 <= PTE_A < PGSIZE) as HA by (vm_compute; split; congruence).
  destruct (land_lnot_entry (ulookup s x) PTE_A HA) as [Ea Ef].
  destruct (unref_flags_ok (PTE_FLAGS (ulookup s x)) (PTE_FLAGS_range _)) as (F1 & F2 & F3 & F4 & F5).
  fold (unref_flags (PTE_FLAGS (ulookup s x))) in Ef.
  destruct (store_pte me s1 R l x v slot (Z.land (ulookup s x) (Z.lnot PTE_A)) U1 Hxr)
    as (U2 & L2 & P2 & W2 & T2); [done|apply PP|by rewrite mapped_flags, Ef, F1, <- mapped_flags|by rewrite L1|].
  set (s2 := set_umem _ s1) in *. exists s2.
  assert (forall vb, is_u32 vb -> ulookup s2 vb =
    if decide (x / PGSIZE = vb / PGSIZE) then Z.land (ulookup s vb) (Z.lnot PTE_A) else ulookup s vb) as L3.
  { intros vb Hvb. rewrite L2, L1 by done. case_decide as Ev; [|done].
    unfold ulookup at 1 2. by rewrite (lookup_page _ _ _ _ Ev). }
  assert (forall vb, is_u32 vb -> user_ok s2 vb = user_ok s vb /\ enc s2 vb = enc s vb /\
    same_UW (PTE_FLAGS (ulookup s vb)) (PTE_FLAGS (ulookup s2 vb)) = true) as Fl.
  { intros vb Hvb. unfold user_ok, enc. rewrite L3 by done. case_decide; [|by rewrite same_UW_refl].
    destruct (land_lnot_entry (ulookup s vb) PTE_A HA) as [_ Ef'].
    fold (unref_flags (PTE_FLAGS (ulookup s vb))) in Ef'.
    destruct (unref_flags_ok (PTE_FLAGS (ulookup s vb)) (PTE_FLAGS_range _)) as (G1 & _ & G3 & _ & G5).
    rewrite mapped_flags, !(flag_of_flags (Z.land _ _)), Ef' by done.
    rewrite G1, G3, <- mapped_flags, <- flag_of_flags by done. split_and!; auto.
    f_equal. unfold same_UW in G5. rewrite andb_true_iff, !eqb_true_iff in G5.
    rewrite (proj1 G5). by rewrite <- flag_of_flags. }
  split_and!; auto.
  - split; auto.
    + intros va' Hva'. assert (is_u32 va') as Hu' by (unfold is_u32, KERNBASE in *; lia).
      unfold plain, stored. destruct (Fl va' Hu') as (_ & -> & _). rewrite P2 by done.
      change (upage s1 va') with (upage s va'). destruct (upage s va') as [w|] eqn:Hw; [|done].
      assert (in_page w (V2P w + va' `mod` PGSIZE)) as Hin
        by (unfold in_page; pose proof (Z.mod_pos_bound va' PGSIZE eq_refl); lia).
      unfold mbind, option_bind. by rewrite <- (W2 w (upage_rest s R va' w Hva' Hw) _ Hin).
    + intros va' Hva' _. apply Fl. unfold is_u32, KERNBASE in *; lia.
    + intros w Hw. apply W2. rewrite elem_of_app. by right.
  - pose proof (ring_push _ _ x Hr (kernbase_nopage _ Hxr)) as Hr2.
    rewrite decide_False in Hr2 by lia. cbn [drop] in Hr2. rewrite (push_same _ L) in Hr2 by done.
    split.
    + rewrite drop_0 in Hr2. exact Hr2.
    + by rewrite Permutation_app_comm.
    + rewrite (Permutation_app_comm L). eapply Forall_impl; [exact Hp|].
      intros y (Hy1 & Hy2 & Hy3 & Hy4). assert (is_u32 y) as Hu' by (unfold is_u32, KERNBASE in *; lia).
      destruct (Fl y Hu') as (F1' & F2' & _). unfold ws_page. by rewrite F1', F2'.
Qed.

(** An unreferenced page is evicted: encrypted, and its slot taken over. *)
Lemma insert_evict me s R l x L va fuel :
  uinv me s R l -> wset s (x :: L) -> length (x :: L) = 8%nat -> refd s x = false ->
  exists s', wsetinsert_loop (S fuel) va s = Ok 0 s' /\ uinv me s' R l /\ same_view R s s' /\
    us_p s' = push_page va (us_p s) /\
    forall vb, is_u32 vb -> ulookup s' vb =
      if decide (x / PGSIZE = vb / PGSIZE) then encrypted_entry (ulookup s vb) else ulookup s vb.
Proof.
  intros U [Hr Hnd Hp] Hlen Href. pose proof (Forall_inv Hp) as Hx.
  destruct (insert_head me s R l x L va fuel U Hr Hlen Hx) as (pte & slot & U1 & PP & E).
  set (s1 := set_p _ s) in *. rewrite E, Href. cbn [negb].
  destruct Hx as (Hxr & Hal & Hu & He).
  assert (forall vb, ulookup s1 vb = ulookup s vb) as L1 by (intros; by apply set_p_ulookup).
  destruct (mencrypt_ok me s1 R l x 1 U1) as (s2 & E2 & U2 & V2 & A2 & L2);
    [done|rewrite PGROUNDDOWN_id by done; lia| | |].
  { rewrite PGROUNDDOWN_id by done. unfold KERNBASE, PGSIZE in *. clear -Hxr Hal. Z.div_mod_to_equations. lia. }
  { rewrite PGROUNDDOWN_id by done. intros y Hy. change (page_seq x (Z.to_nat 1)) with [x] in Hy.
    apply list_elem_of_singleton in Hy as ->. unfold user_ok. by rewrite L1. }
  mstep E2. change (negb (0 =? 0)) with false. cbv iota.
  assert (0 <= next_hand (us_p s) < CLOCKSIZE) as Rn
    by (rewrite next_hand_mod by apply Hr; apply mod8_range).
  mstep qset_ok; [|done]. eexists. split; [done|].
  set (p' := set_queue _ _). assert (p' = push_page va (us_p s)) as Ep.
  { unfold p', push_page. by rewrite A2. }
  assert (pgdir p' = pgdir (us_p s2) /\ kstack p' = kstack (us_p s2) /\ sz p' = sz (us_p s2)) as (G1 & G2 & G3)
    by done.
  split_and!; auto.
  - by apply set_p_uinv.
  - etrans; [by apply (set_p_view R s (set_hand (next_hand (us_p s)) (us_p s)))|].
    etrans; [exact V2|]. by apply set_p_view.
  - intros vb Hvb. rewrite set_p_ulookup by done. rewrite L2, PGROUNDDOWN_id, L1, Z.mul_1_l by done.
    pose proof (page_index x vb Hal) as PI. unfold enc. rewrite L1.
    destruct (decide (x / PGSIZE = vb / PGSIZE)) as [Ev|Ev].
    + rewrite decide_True by tauto. unfold enc in He.
      assert (ulookup s vb = ulookup s x) as -> by (symmetry; by apply lookup_page). by rewrite He.
    + rewrite decide_False by tauto. done.
Qed.

(** Several second chances. *)
Lemma insert_skips me R l va fuel a : forall s b,
  uinv me s R l -> wset s (a ++ b) -> length (a ++ b) = 8%nat ->
  Forall (fun x => refd s x = true) a ->
  exists s', wsetinsert_loop (length a + fuel) va s = wsetinsert_loop fuel va s' /\
    uinv me s' R l /\ same_view R s s' /\ wset s' (b ++ a) /\
    forall vb, is_u32 vb -> ulookup s' vb =
      if decide (PGROUNDDOWN vb ∈ a) then Z.land (ulookup s vb) (Z.lnot PTE_A) else ulookup s vb.
Proof.
  induction a as [|x a IH]; intros s b U W Hlen Href.
  - exists s. split_and!; auto; [reflexivity|by rewrite app_nil_r].
  - apply Forall_cons in Href as [Hx Href]. cbn [app length Nat.add] in *.
    destruct (insert_skip me s R l x (a ++ b) va (length a + fuel) U W Hlen Hx)
      as (s1 & E1 & U1 & V1 & W1 & L1).
    pose proof (ws_page_in _ _ x W ltac:(by left)) as (Hxr & Hal & _).
    assert (forall vb, x / PGSIZE = vb / PGSIZE <-> PGROUNDDOWN vb = x) as Hpg.
    { intros vb. rewrite PGROUNDDOWN_eq. unfold PGSIZE in *. clear -Hal. split; intros; Z.div_mod_to_equations; lia. }
    rewrite <- app_assoc in W1.
    destruct (IH s1 (b ++ [x]) U1 W1) as (s2 & E2 & U2 & V2 & W2 & L2).
    { revert Hlen. rewrite !length_app. cbn. lia. }
    { rewrite Forall_forall in *. intros y Hy. specialize (Href y Hy).
      pose proof (ws_page_in _ _ y W ltac:(right; rewrite elem_of_app; by left)) as (Hyr & Hyl & _).
      unfold refd. rewrite L1 by (unfold is_u32, KERNBASE in *; lia). rewrite decide_False; [done|].
      intros Exy%Hpg. rewrite PGROUNDDOWN_id in Exy by done. subst y.
      pose proof (ws_nodup _ _ W) as Hnd. apply NoDup_cons in Hnd as [Hnd _]. apply Hnd.
      rewrite elem_of_app. by left. }
    exists s2. rewrite E1, E2. split_and!; auto.
    + by etrans.
    + by rewrite <- app_assoc in W2.
    + intros vb Hvb. rewrite L2, L1 by done.
      destruct (decide (x / PGSIZE = vb / PGSIZE)) as [Ev|Ev].
      * rewrite (decide_True (P := PGROUNDDOWN vb ∈ x :: a)) by (apply elem_of_cons; left; by apply Hpg).
        case_decide; [|done]. by rewrite <- Z.land_assoc, Z.land_diag.
      * apply decide_ext. rewrite elem_of_cons. split; [by right|].
        intros [E|?]; [|done]. by destruct Ev; apply Hpg.
Qed.

Lemma encrypted_unref e : encrypted_entry (Z.land e (Z.lnot PTE_A)) = encrypted_entry e.
Proof.
  unfold encrypted_entry. do 3 f_equal. apply Z.bits_inj'. intros n Hn.
  rewrite !Z.lor_spec, Z.land_spec, Z.lnot_spec by done.
  destruct (Z.testbit e n), (Z.testbit PTE_A n); done.
Qed.

Lemma refd_unref e : flag (Z.land e (Z.lnot PTE_A)) PTE_A = false.
Proof.
  unfold flag. rewrite <- Z.land_assoc. change (Z.land (Z.lnot PTE_A) PTE_A) with 0.
  by rewrite Z.land_0_r.
Qed.

Lemma ws_same_page s L x vb :
  wset s L -> x ∈ L -> x / PGSIZE = vb / PGSIZE <-> PGROUNDDOWN vb = x.
Proof.
  intros W Hx. destruct (ws_page_in _ _ _ W Hx) as (_ & Hal & _).
  rewrite PGROUNDDOWN_eq. unfold PGSIZE in *. clear -Hal. split; intros; Z.div_mod_to_equations; lia.
Qed.

(** What [wsetinsert] does to the entry of the page of [vb]. *)
Definition insert_entry (s : ust) (L : list Z) (vb : Z) : Z :=
  if decide (victim (refd s) L = Some (PGROUNDDOWN vb)) then encrypted_entry (ulookup s vb)
  else if decide (length L = 8%nat /\ PGROUNDDOWN vb ∈ passed (refd s) L)
  then Z.land (ulookup s vb) (Z.lnot PTE_A) else ulookup s vb.

Lemma wsetinsert_ok me s R l L va :
  uinv me s R l -> wset s L -> va <> NOPAGE ->
  exists s', wsetinsert va s = Ok 0 s' /\ uinv me s' R l /\ same_view R s s' /\
    ring (us_p s') (second_chance (refd s) L va) /\
    forall vb, is_u32 vb -> ulookup s' vb = insert_entry s L vb.
Proof.
  intros U W Hva. pose proof (rg_size _ _ (ws_ring _ _ W)) as Hsz. unfold wsetinsert, insert_entry.
  destruct (decide (length L < 8)%nat) as [Hlt|Hge].
  - exists (set_p (push_page va (us_p s)) s). split_and!.
    + change 9%nat with (S 8). by eapply insert_empty; [exact U|apply W|].
    + by apply set_p_uinv.
    + by apply set_p_view.
    + pose proof (ring_push _ _ va (ws_ring _ _ W) Hva) as Hr. unfold second_chance.
      rewrite decide_True in Hr |- * by done. exact Hr.
    + intros vb Hvb. rewrite set_p_ulookup by done. unfold victim. rewrite (decide_True (P := (length L < 8)%nat)) by done.
      rewrite decide_False by done. rewrite decide_False; [done|]. lia.
  - assert (length L = 8%nat) as Hlen by lia.
    set (a := passed (refd s) L). pose proof (passed_split (refd s) L) as HL. fold a in HL.
    assert (length a <= 8)%nat as Ha by (rewrite <- Hlen, HL, length_app; lia).
    assert (wset s (a ++ rest_of (refd s) L)) as W' by by rewrite <- HL.
    destruct (insert_skips me R l va (S (8 - length a)) a s (rest_of (refd s) L) U W')
      as (s1 & E1 & U1 & V1 & W1 & L1); [by rewrite <- HL|by apply passed_ref|].
    assert (rotated (refd s) L = rest_of (refd s) L ++ a) as Erot by done. rewrite <- Erot in W1.
    assert (length (rotated (refd s) L) = 8%nat) as Hrl.
    { rewrite Erot, length_app, Nat.add_comm, <- length_app, <- HL. done. }
    unfold victim, second_chance. rewrite !(decide_False (P := (length L < 8)%nat)) by done.
    destruct (rotated (refd s) L) as [|x t] eqn:Er; [done|].
    assert (x ∈ L) as HxL.
    { assert (x ∈ x :: t) as Hx by (by left).
      rewrite HL. rewrite Erot in Hx. rewrite elem_of_app in *. tauto. }
    destruct (ws_page_in _ _ _ W HxL) as (Hxr & Hxal & _).
    assert (refd s1 x = false) as Hx1.
    { unfold refd. rewrite L1 by (unfold is_u32, KERNBASE in *; lia). rewrite PGROUNDDOWN_id by done.
      destruct (decide (x ∈ a)) as [|Hxa]; [apply refd_unref|].
      clear Er. rename Erot into Er. destruct (rest_of (refd s) L) as [|y b] eqn:Eb.
      - destruct Hxa. cbn in Er. rewrite <- Er. by left.
      - injection Er as -> _. apply (rest_unref (refd s) L). by rewrite Eb. }
    destruct (insert_evict me s1 R l x t va (8 - length a) U1 W1 Hrl Hx1) as (s2 & E2 & U2 & V2 & A2 & L2).
    exists s2. split_and!; auto.
    + rewrite <- E2, <- E1. f_equal. lia.
    + by etrans.
    + pose proof (ring_push _ _ va (ws_ring _ _ W1) Hva) as Hr. rewrite decide_False in Hr by lia.
      rewrite A2. cbn [drop tail] in *. by rewrite drop_0 in Hr.
    + intros vb Hvb. rewrite L2, L1 by done. cbn [head].
      pose proof (ws_same_page _ _ _ vb W HxL) as Hpg.
      destruct (decide (x / PGSIZE = vb / PGSIZE)) as [Ev|Ev].
      * rewrite (decide_True (P := Some x = _)) by (f_equal; symmetry; by apply Hpg).
        case_decide; [apply encrypted_unref|done].
      * rewrite (decide_False (P := Some x = _)) by (intros [= E]; apply Ev, Hpg; done).
        apply decide_ext. tauto.
Qed.

(** ** mdecrypt *)

Definition decrypted_entry (e : Z) : Z := Z.lor (Z.land e (Z.lnot PTE_E)) PTE_P.

Lemma decrypted_entry_ok e :
  PTE_ADDR (decrypted_entry e) = PTE_ADDR e /\ PTE_FLAGS (decrypted_entry e) = decrypt_flags (PTE_FLAGS e).
Proof.
  unfold decrypted_entry, decrypt_flags.
  assert (0 <= PTE_P < PGSIZE /\ 0 <= PTE_E < PGSIZE) as (B & C) by (vm_compute; repeat split; congruence).
  destruct (lor_entry (Z.land e (Z.lnot PTE_E)) PTE_P B) as [-> ->].
  destruct (land_lnot_entry e PTE_E C) as [-> ->]. done.
Qed.

(** The entry after the flip: the MMU has set the accessed and dirty bits. *)
Definition faulted_entry (e : Z) : Z := Z.lor (decrypted_entry e) (Z.lor PTE_A PTE_D).

Lemma faulted_entry_ok e :
  PTE_ADDR (faulted_entry e) = PTE_ADDR e /\
  PTE_FLAGS (faulted_entry e) = touch_flags (decrypt_flags (PTE_FLAGS e)).
Proof.
  unfold faulted_entry. destruct (touch_eq (decrypted_entry e)) as [-> ->].
  destruct (decrypted_entry_ok e) as [-> ->]. done.
Qed.

Lemma faulted_flags e :
  let f := faulted_entry e in
  mapped f = true /\ flag f PTE_P = true /\ flag f PTE_E = false /\ flag f PTE_A = true /\
  same_UW (PTE_FLAGS e) (PTE_FLAGS f) = true.
Proof.
  cbv zeta. destruct (faulted_entry_ok e) as [_ Ef].
  rewrite mapped_flags, !(flag_of_flags (faulted_entry e)), Ef by done.
  destruct (decrypt_flags_ok (PTE_FLAGS e) (PTE_FLAGS_range _)) as (D1 & D2 & D3 & D4).
  assert (0 <= decrypt_flags (PTE_FLAGS e) < PGSIZE) as Hd
    by (destruct (decrypted_entry_ok e) as [_ <-]; apply PTE_FLAGS_range).
  destruct (touch_flags_ok _ Hd) as (T1 & T2 & T3 & T4 & T5).
  rewrite T1, T2, T3. split_and!; auto. by eapply same_UW_trans.
Qed.

(** The fault handler up to the insertion into the working set. *)
Lemma mdecrypt_flip me s R l addr v :
  uinv me s R l -> 0 <= addr < KERNBASE -> upage s addr = Some v ->
  let va := PGROUNDDOWN addr in
  exists s1, mdecrypt addr s = wsetinsert va s1 /\ uinv me s1 R l /\ us_p s1 = us_p s /\
    k_end (us_k s1) = k_end (us_k s) /\
    (forall vb, is_u32 vb -> ulookup s1 vb =
       if decide (va / PGSIZE = vb / PGSIZE) then faulted_entry (ulookup s va) else ulookup s vb) /\
    (forall vb, is_u32 vb -> upage s1 vb = upage s vb) /\
    (forall w a, w ∈ range_pages (umem s) (pgdir (us_p s)) 0 KERNBASE ++ R -> in_page w a ->
       rd8 (umem s1) a = if decide (V2P v <= a < V2P v + PGSIZE)
                         then u8 (Z.lnot (rd8 (umem s) a)) else rd8 (umem s) a) /\
    (forall i, 0 <= i < 1024 -> table (umem s1) (pgdir (us_p s)) i = table (umem s) (pgdir (us_p s)) i).
Proof.
  intros U Haddr Hv va. pose proof (PGROUNDDOWN_aligned addr) as Hal. fold va in Hal.
  assert (0 <= va < KERNBASE) as Hva.
  { unfold va. rewrite PGROUNDDOWN_eq. unfold PGSIZE. clear -Haddr. Z.div_mod_to_equations. lia. }
  assert (forall s, ulookup s addr = ulookup s va) as El
    by (intros; symmetry; apply lookup_page, PGROUNDDOWN_page).
  destruct (upage_mapped _ _ _ Hv) as [Hm _].
  assert (upage s va = Some v) as Hva' by (rewrite <- Hv; apply page_of_page, PGROUNDDOWN_page).
  destruct (get_pte me s R l addr U Hm) as (pte & slot & PP).
  unfold mdecrypt. mgo. rewrite (proj2 (Z.leb_gt _ _)) by lia.
  rewrite (bind_Ok _ _ _ _ _ (pp_walk _ _ _ _ PP)).
  rewrite (proj2 (Z.eqb_neq pte 0)) by apply PP.
  rewrite (bind_Ok _ _ _ _ _ (pp_load _ _ _ _ PP s)), (pp_val _ _ _ _ PP), El.
  rewrite El in Hm. set (e := ulookup s va) in *.
  rewrite (proj2 (Z.eqb_neq e 0)) by (intros E0; by rewrite E0 in Hm).
  assert (is_u32 e) as He by (unfold e; rewrite <- El, <- (pp_val _ _ _ _ PP); apply rd32_range, U).
  assert (0 <= PTE_E < PGSIZE) as HE by (vm_compute; split; congruence).
  assert (is_u32 (Z.land e (Z.lnot PTE_E))) as H1
    by (eapply same_frame_u32; [exact He|]; by apply land_lnot_entry).
  rewrite (bind_Ok _ _ _ _ _ (pp_store _ _ _ _ PP _ _)).
  rewrite (bind_Ok _ _ _ _ _ (pp_load _ _ _ _ PP _)).
  change (umem (set_umem ?m s)) with m. rewrite rd32_wr32_eq by done.
  rewrite (bind_Ok _ _ _ _ _ (pp_store _ _ _ _ PP _ _)), set_umem_twice.
  change (umem (set_umem ?m s)) with m. rewrite wr32_wr32. fold (decrypted_entry e). cbv zeta. fold va.
  destruct (decrypted_entry_ok e) as [Da Df].
  destruct (decrypt_flags_ok (PTE_FLAGS e) (PTE_FLAGS_range _)) as (D1 & D2 & D3 & D4).
  destruct (store_pte me s R l addr v slot (decrypted_entry e) U Haddr Hv (pp_slot _ _ _ _ PP))
    as (U2 & L2 & P2 & W2 & T2); [by rewrite mapped_flags, Df|by rewrite El|].
  set (s2 := set_umem _ s) in *. assert (is_u32 va) as Hvu by (unfold is_u32, KERNBASE in *; lia).
  assert (addr / PGSIZE = va / PGSIZE) as Epg by (symmetry; apply PGROUNDDOWN_page).
  destruct (flip_page me s2 R l va v U2 Hva Hal) as (s3 & E3 & U3 & [(A1 & A2 & A3) Ee3 L3 P3 T3 M3]).
  { by rewrite P2. }
  { unfold pres. rewrite L2, decide_True by done. by rewrite flag_of_flags, Df by done. }
  mstep E3. exists s3. split_and!; auto.
  - intros vb Hvb. rewrite L3, !L2, Epg by done.
    rewrite (decide_and_r (va / PGSIZE = vb / PGSIZE) (0 < PGSIZE)) by done.
    by repeat case_decide.
  - intros vb Hvb. by rewrite P3, P2.
  - intros w a Hw Ha. rewrite (W2 w Hw a Ha), (M3 w a);
      [|by rewrite (range_pages_upage s s2 eq_refl P2)|done].
    by replace (V2P v + 0) with (V2P v) by lia.
  - intros i Hi. change (us_p s2) with (us_p s) in T3. by rewrite (T3 i Hi), (T2 i Hi).
Qed.

(** The fault handler on any mapped user page: the page is complemented and
    marked present and decrypted ([s1]), then inserted. *)
Lemma mdecrypt_ok me s R l L addr :
  uinv me s R l -> wset s L -> 0 <= addr < KERNBASE -> user_ok s addr = true ->
  let va := PGROUNDDOWN addr in
  exists v s1 s', upage s addr = Some v /\ mdecrypt addr s = Ok 0 s' /\
    uinv me s1 R l /\ wset s1 L /\ us_p s1 = us_p s /\ k_end (us_k s1) = k_end (us_k s) /\
    (forall vb, is_u32 vb -> ulookup s1 vb =
       if decide (va / PGSIZE = vb / PGSIZE) then faulted_entry (ulookup s va) else ulookup s vb) /\
    (forall vb, is_u32 vb -> upage s1 vb = upage s vb) /\
    (forall w a, w ∈ range_pages (umem s) (pgdir (us_p s)) 0 KERNBASE ++ R -> in_page w a ->
       rd8 (umem s1) a = if decide (V2P v <= a < V2P v + PGSIZE)
                         then u8 (Z.lnot (rd8 (umem s) a)) else rd8 (umem s) a) /\
    (forall i, 0 <= i < 1024 -> table (umem s1) (pgdir (us_p s)) i = table (umem s) (pgdir (us_p s)) i) /\
    uinv me s' R l /\ same_view R s1 s' /\
    ring (us_p s') (second_chance (refd s1) L va) /\
    forall vb, is_u32 vb -> ulookup s' vb = insert_entry s1 L vb.
Proof.
  intros U W Haddr Hu va. destruct (user_page s addr Hu) as (v & Hv & _).
  pose proof (PGROUNDDOWN_aligned addr) as Hal. fold va in Hal.
  assert (0 <= va < KERNBASE) as Hva.
  { unfold va. rewrite PGROUNDDOWN_eq. unfold PGSIZE. clear -Haddr. Z.div_mod_to_equations. lia. }
  destruct (mdecrypt_flip me s R l addr v U Haddr Hv) as (s1 & E1 & U1 & A1 & A2 & L1 & P1 & M1 & T1).
  cbv zeta in *. fold va in E1, L1.
  assert (wset s1 L) as W1.
  { destruct W as [Wr Wn Wp]. split; [by rewrite A1|done|].
    rewrite Forall_forall in *. intros x Hx. destruct (Wp x Hx) as (B1 & B2 & B3 & B4).
    assert (is_u32 x) as Hxu by (unfold is_u32, KERNBASE in *; lia).
    refine (conj B1 (conj B2 (conj _ _))); unfold user_ok, enc in *; rewrite L1 by done;
      case_decide as Ep; try done.
    - assert (ulookup s va = ulookup s x) as -> by (by apply lookup_page).
      destruct (faulted_flags (ulookup s x)) as (F1 & _ & _ & _ & F5).
      rewrite F1. apply andb_true_iff in B3 as [_ B3].
      rewrite flag_of_flags in B3 |- * by done. unfold same_UW in F5.
      rewrite andb_true_iff, !eqb_true_iff in F5. destruct F5 as [F5 _]. unfold flag in *. by rewrite F5.
    - by destruct (faulted_flags (ulookup s va)) as (_ & _ & F3 & _). }
  destruct (wsetinsert_ok me s1 R l L va U1 W1) as (s' & E' & U' & V' & R' & L').
  { by apply kernbase_nopage. }
  exists v, s1, s'. rewrite E1. split_and!; auto.
Qed.

Lemma mapped_upage s va : mapped (ulookup s va) = match upage s va with Some _ => true | None => false end.
Proof. unfold upage, page_of, ulookup. by destruct (mapped _). Qed.

Lemma user_ok_view R s s' va :
  same_view R s s' -> 0 <= va < KERNBASE -> user_ok s' va = user_ok s va.
Proof.
  intros V Hva. assert (is_u32 va) as Hu by (unfold is_u32, KERNBASE in *; lia).
  pose proof (sv_page _ _ _ V va Hu) as Hp. unfold user_ok.
  rewrite (mapped_upage s' va), Hp, <- mapped_upage.
  destruct (mapped (ulookup s va)) eqn:Hm; [|done]. cbn [andb].
  pose proof (sv_UW _ _ _ V va Hva Hm) as HU. unfold same_UW in HU.
  rewrite andb_true_iff, !eqb_true_iff in HU. destruct HU as [HU _].
  by rewrite (flag_of_flags (ulookup s va)), (flag_of_flags (ulookup s' va)) by done.
Qed.

Lemma enc_encrypted e : flag (encrypted_entry e) PTE_E = true /\ flag (encrypted_entry e) PTE_P = false.
Proof.
  destruct (encrypted_entry_ok e) as [_ Ef]. rewrite !(flag_of_flags (encrypted_entry e)), Ef by done.
  by destruct (encrypt_flags_ok _ (PTE_FLAGS_range e)) as (_ & -> & -> & _).
Qed.

(** The encrypted and present bits of the pages that [wsetinsert] keeps. *)
Lemma kept_entry s L vb :
  victim (refd s) L <> Some (PGROUNDDOWN vb) ->
  flag (insert_entry s L vb) PTE_E = enc s vb /\ flag (insert_entry s L vb) PTE_P = pres s vb.
Proof.
  intros Hv. unfold insert_entry. rewrite decide_False by done.
  case_decide as Hp; [|done].
  assert (0 <= PTE_A < PGSIZE) as HA by (vm_compute; split; congruence).
  destruct (land_lnot_entry (ulookup s vb) PTE_A HA) as [_ Ef].
  rewrite !(flag_of_flags (Z.land _ _)), Ef by done.
  destruct (unref_flags_ok _ (PTE_FLAGS_range (ulookup s vb))) as (_ & D2 & D3 & _).
  unfold unref_flags in *. rewrite D2, D3. unfold enc, pres. by rewrite !(flag_of_flags (ulookup s vb)).
Qed.

Lemma rotated_perm ref L : rotated ref L ≡ₚ L.
Proof. unfold rotated. rewrite Permutation_app_comm. by rewrite <- passed_split. Qed.

Lemma victim_in ref L x : victim ref L = Some x -> x ∈ L.
Proof.
  unfold victim. case_decide; [done|]. intros Hh. rewrite <- (rotated_perm ref L).
  destruct (rotated ref L); [done|]. injection Hh as ->. by left.
Qed.

Lemma passed_ext r r' L : (forall x, x ∈ L -> r x = r' x) -> passed r L = passed r' L.
Proof.
  induction L as [|x L IH]; intros H; cbn; [done|]. rewrite <- (H x) by by left.
  rewrite IH; [done|]. intros y Hy. apply H. by right.
Qed.

Lemma second_chance_ext r r' L va :
  (forall x, x ∈ L -> r x = r' x) ->
  second_chance r L va = second_chance r' L va /\ victim r L = victim r' L.
Proof.
  intros H. unfold second_chance, victim, rotated, rest_of. by rewrite (passed_ext r r' L H).
Qed.

(** The pages of the queue after an insertion: the old ones less the victim, and the new one. *)
Lemma second_chance_elem ref L va x :
  NoDup L ->
  x ∈ second_chance ref L va <-> (x ∈ L /\ victim ref L <> Some x) \/ x = va.
Proof.
  intros Hnd. unfold second_chance, victim. pose proof (rotated_perm ref L) as P. case_decide as Hl.
  - rewrite elem_of_app, list_elem_of_singleton. split; intros [Hx|Hx]; [by left|by right|by left; apply Hx|by right].
  - rewrite elem_of_app, list_elem_of_singleton.
    assert (x ∈ L <-> x ∈ rotated ref L) as -> by by rewrite P.
    assert (NoDup (rotated ref L)) as Hnd' by by rewrite P.
    destruct (rotated ref L) as [|y t]; cbn [tail head].
    + rewrite elem_of_nil. tauto.
    + apply NoDup_cons in Hnd' as [Hy _]. rewrite elem_of_cons. split.
      * intros [Hx|Hx]; [left|by right]. split; [by right|]. intros [= ->]. done.
      * intros [[[->|Hx] Hne]|Hx]; [done|by left|by right].
Qed.

Lemma second_chance_nodup ref L va : NoDup L -> va ∉ L -> NoDup (second_chance ref L va).
Proof.
  intros Hnd Hva. unfold second_chance. pose proof (rotated_perm ref L) as P. case_decide.
  - by apply NoDup_app_singleton.
  - assert (NoDup (rotated ref L)) as Hnd' by by rewrite P.
    assert (va ∉ rotated ref L) as Hva' by by rewrite P. clear Hnd Hva.
    apply NoDup_app_singleton.
    destruct (rotated ref L) as [|y t]; cbn [tail]; [split; [by apply NoDup_nil|by apply not_elem_of_nil]|].
    apply NoDup_cons in Hnd' as [_ Hnd]. apply not_elem_of_cons in Hva' as [_ Hva]. done.
Qed.

(** The decrypted user pages are exactly those of the working set. *)
Record ws_exact (s : ust) (L : list Z) : Prop := WsExact {
  we_wset : wset s L;
  we_all : forall vb, 0 <= vb < KERNBASE -> vb `mod` PGSIZE = 0 ->
             user_ok s vb = true -> enc s vb = false -> vb ∈ L
}.

(** Inserting a decrypted user page keeps the working set exact. *)
Lemma insert_exact R s1 s' L va :
  NoDup L -> va ∉ L -> 0 <= va < KERNBASE -> va `mod` PGSIZE = 0 ->
  user_ok s1 va = true -> enc s1 va = false ->
  (forall x, x ∈ L -> ws_page s1 x) ->
  (forall vb, 0 <= vb < KERNBASE -> vb `mod` PGSIZE = 0 ->
     user_ok s1 vb = true -> enc s1 vb = false -> vb ∈ L \/ vb = va) ->
  same_view R s1 s' -> ring (us_p s') (second_chance (refd s1) L va) ->
  (forall vb, is_u32 vb -> ulookup s' vb = insert_entry s1 L vb) ->
  ws_exact s' (second_chance (refd s1) L va).
Proof.
  intros Hnd Hva Hr Hal Hu He Hpg Hall V HR HL.
  assert (forall x, 0 <= x < KERNBASE -> is_u32 x) as Hu32 by (unfold is_u32, KERNBASE; lia).
  assert (forall x, 0 <= x < KERNBASE -> x `mod` PGSIZE = 0 -> victim (refd s1) L <> Some x ->
    enc s' x = enc s1 x) as Hkeep.
  { intros x Hx Hxal Hv. unfold enc at 1. rewrite HL by auto.
    apply kept_entry. by rewrite PGROUNDDOWN_id. }
  split; [split|].
  - done.
  - by apply second_chance_nodup.
  - apply Forall_forall. intros x [[Hx Hv]| ->]%second_chance_elem; [| |done].
    + destruct (Hpg x Hx) as (B1 & B2 & B3 & B4). refine (conj B1 (conj B2 (conj _ _))).
      * by rewrite (user_ok_view R s1).
      * by rewrite Hkeep.
    + refine (conj Hr (conj Hal (conj _ _))).
      * by rewrite (user_ok_view R s1).
      * rewrite Hkeep; auto. intros Hh%victim_in. done.
  - intros vb Hvb Hval Hvu Hve. apply second_chance_elem; [done|].
    destruct (decide (victim (refd s1) L = Some vb)) as [Ev|Ev].
    + exfalso. unfold enc in Hve. rewrite HL in Hve by auto. unfold insert_entry in Hve.
      rewrite decide_True in Hve by (by rewrite PGROUNDDOWN_id).
      by destruct (enc_encrypted (ulookup s1 vb)) as [E _]; rewrite E in Hve.
    + rewrite Hkeep in Hve by done. rewrite (user_ok_view R s1) in Hvu by done.
      destruct (Hall vb Hvb Hval Hvu Hve) as [?|?]; [by left|by right].
Qed.

(** A fault on an encrypted page: [s1] is the state in which the page is decrypted and
    not yet in the working set. *)
Lemma fault_decrypted me s R l L addr :
  uinv me s R l -> ws_exact s L -> 0 <= addr < KERNBASE -> user_ok s addr = true -> enc s addr = true ->
  let va := PGROUNDDOWN addr in
  exists s1 s', mdecrypt addr s = Ok 0 s' /\ uinv me s' R l /\ same_view R s s1 /\ same_view R s1 s' /\ va ∉ L /\ va `mod` PGSIZE = 0 /\ 0 <= va < KERNBASE /\
    (forall x, x ∈ L -> ws_page s1 x /\ refd s x = refd s1 x) /\
    user_ok s1 va = true /\ refd s1 va = true /\ enc s1 va = false /\ pres s1 va = true /\
    (forall vb, 0 <= vb < KERNBASE -> vb `mod` PGSIZE = 0 -> user_ok s1 vb = true -> enc s1 vb = false -> vb ∈ L \/ vb = va) /\
    ring (us_p s') (second_chance (refd s1) L va) /\ forall vb, is_u32 vb -> ulookup s' vb = insert_entry s1 L vb.
Proof.
  intros U [W Hall] Haddr Hu He va.
  destruct (mdecrypt_ok me s R l L addr U W Haddr Hu)
    as (v & s1 & s' & Hv & E & U1 & W1 & A1 & A2 & L1 & P1 & M1 & T1 & U' & V' & R' & L').
  fold va in L1, R', L'.
  pose proof (PGROUNDDOWN_aligned addr) as Hal. fold va in Hal.
  assert (0 <= va < KERNBASE) as Hva.
  { unfold va. rewrite PGROUNDDOWN_eq. unfold PGSIZE. clear -Haddr. Z.div_mod_to_equations. lia. }
  assert (forall x, 0 <= x < KERNBASE -> is_u32 x) as Hu32 by (unfold is_u32, KERNBASE; lia).
  assert (forall s, ulookup s addr = ulookup s va) as El
    by (intros; symmetry; apply lookup_page, PGROUNDDOWN_page).
  assert (enc s va = true /\ user_ok s va = true) as [He' Hu']
    by (unfold enc, user_ok in *; by rewrite <- El).
  destruct (faulted_flags (ulookup s va)) as (F1 & F2 & F3 & F4 & F5).
  assert (va ∉ L) as HvL.
  { intros Hx. destruct (ws_page_in _ _ _ W Hx) as (_ & _ & _ & Hx'). congruence. }
  assert (same_view R s s1) as V1.
  { apply (view_flip me s R l va v (faulted_entry (ulookup s va)) s1); auto.
    - rewrite <- Hv. apply page_of_page, PGROUNDDOWN_page.
    - by rewrite A1.
    - by rewrite He', F3.
    - intros i Hi. rewrite A1. by apply T1. }
  assert (refd s1 va = true /\ enc s1 va = false /\ pres s1 va = true) as (G1 & G2 & G3)
    by (unfold refd, enc, pres; rewrite L1, decide_True by auto; done).
  assert (forall x, x ∈ L -> refd s x = refd s1 x) as Hext.
  { intros x Hx. pose proof (ws_page_in _ _ _ W Hx) as (Hxr & Hxal & _).
    unfold refd. rewrite L1 by auto. rewrite decide_False; [done|].
    intros Ep. apply HvL. replace va with x; [done|]. unfold PGSIZE in *. clear -Ep Hal Hxal.
    Z.div_mod_to_equations. lia. }
  exists s1, s'. split_and!; auto; try lia.
  - intros x Hx. split; [by apply (ws_page_in s1 L)|auto].
  - by rewrite (user_ok_view R s).
  - intros vb Hvb Hval Hvu Hve. rewrite (user_ok_view R s) in Hvu by done.
    destruct (decide (va / PGSIZE = vb / PGSIZE)) as [Ep|Ep].
    + right. unfold PGSIZE in *. clear -Ep Hal Hval. Z.div_mod_to_equations. lia.
    + left. apply Hall; auto. unfold enc in Hve |- *. by rewrite L1, decide_False in Hve by auto.
Qed.

(** C28. Demand decryption. A fault on an encrypted page of the process: [mdecrypt]
    returns 0; nothing the process can see changes (the byte it reads at every
    address, the permissions, the pages) and no page of anyone else; the page is
    now decrypted and present; the working set is updated by second-chance
    replacement, the page it gives up is encrypted and absent again, and the
    decrypted user pages are still exactly the at most eight of the working set. *)
Theorem mdecrypt_spec me s R l L addr :
  uinv me s R l -> ws_exact s L -> 0 <= addr < KERNBASE ->
  user_ok s addr = true -> enc s addr = true ->
  let va := PGROUNDDOWN addr in
  exists s', mdecrypt addr s = Ok 0 s' /\ uinv me s' R l /\ same_view R s s' /\
    enc s' addr = false /\ pres s' addr = true /\
    ws_exact s' (second_chance (refd s) L va) /\
    (length (second_chance (refd s) L va) <= 8)%nat /\
    forall x, victim (refd s) L = Some x -> x ∈ L /\ enc s' x = true /\ pres s' x = false.
Proof.
  intros U W Haddr Hu He va.
  destruct (fault_decrypted me s R l L addr U W Haddr Hu He)
    as (s1 & s' & E & U' & V1 & V' & HvL & Hal & Hva & HL & G0 & G1 & G2 & G3 & Hall & R' & L').
  fold va in HvL, Hal, Hva, G0, G1, G2, G3, Hall, R'. destruct W as [W _].
  destruct (second_chance_ext (refd s) (refd s1) L va (fun x Hx => proj2 (HL x Hx))) as [-> ->].
  assert (victim (refd s1) L <> Some va) as Hnv by by intros Hh%victim_in.
  assert (ws_exact s' (second_chance (refd s1) L va)) as X
    by (apply (insert_exact R s1); auto; [apply W|intros x Hx; by apply HL]).
  destruct (kept_entry s1 L addr) as [K1 K2]; [done|].
  assert (forall x, 0 <= x < KERNBASE -> is_u32 x) as Hu32 by (unfold is_u32, KERNBASE; lia).
  assert (ulookup s1 addr = ulookup s1 va) as El by (symmetry; apply lookup_page, PGROUNDDOWN_page).
  exists s'. split_and!; auto.
  - by etrans.
  - unfold enc. rewrite L' by auto. rewrite K1. unfold enc. by rewrite El.
  - unfold pres. rewrite L' by auto. rewrite K2. unfold pres. by rewrite El.
  - apply (rg_size _ _ (ws_ring _ _ (we_wset _ _ X))).
  - intros x Hx. pose proof (victim_in _ _ _ Hx) as HxL.
    pose proof (ws_page_in _ _ _ W HxL) as (Hxr & Hxal & _).
    split; [done|]. unfold enc, pres. rewrite L' by auto. unfold insert_entry.
    rewrite decide_True by (by rewrite PGROUNDDOWN_id). apply enc_encrypted.
Qed.

(** A fault on a page that is present and not encrypted (a write to a read-only
    page, say) destroys it: [mdecrypt] does not look at [PTE_E], returns 0, and the
    process then sees the complement of every byte of the page, and every other byte
    as before. *)
Theorem mdecrypt_unencrypted me s R l L addr :
  uinv me s R l -> wset s L -> 0 <= addr < KERNBASE ->
  user_ok s addr = true -> enc s addr = false ->
  exists s', mdecrypt addr s = Ok 0 s' /\ uinv me s' R l /\
    forall vb, 0 <= vb < KERNBASE ->
      plain s' vb = if decide (addr / PGSIZE = vb / PGSIZE)
                    then option_map (fun b => 255 - b) (plain s vb) else plain s vb.
Proof.
  intros U W Haddr Hu He.
  destruct (mdecrypt_ok me s R l L addr U W Haddr Hu)
    as (v & s1 & s' & Hv & E & U1 & W1 & A1 & A2 & L1 & P1 & M1 & T1 & U' & V' & R' & L').
  exists s'. split_and!; auto. intros vb Hvb. rewrite (sv_plain _ _ _ V') by done.
  assert (is_u32 vb) as Hvu by (unfold is_u32, KERNBASE in *; lia).
  assert (PGROUNDDOWN addr / PGSIZE = addr / PGSIZE) as Epg by apply PGROUNDDOWN_page.
  unfold plain, stored. rewrite P1 by done. destruct (upage s vb) as [w|] eqn:Hw; cbn [mbind option_bind option_map];
    [|by case_decide].
  pose proof (upage_ok _ _ _ _ U vb w Hvb Hw) as Hwok.
  pose proof (upage_ok _ _ _ _ U addr v Haddr Hv) as Hvok.
  assert (in_page w (V2P w + vb `mod` PGSIZE)) as Hin
    by (unfold in_page; pose proof (Z.mod_pos_bound vb PGSIZE eq_refl); lia).
  rewrite (M1 w) by (done || by eapply upage_rest). unfold enc. rewrite L1, Epg by done.
  assert (bytes_ok (umem s)) as Hb by apply U.
  destruct (decide (addr / PGSIZE = vb / PGSIZE)) as [Ep|Ep].
  - assert (w = v) as ->.
    { assert (upage s vb = upage s addr) as Q by (symmetry; by apply page_of_page). congruence. }
    rewrite decide_True by exact Hin.
    destruct (faulted_flags (ulookup s (PGROUNDDOWN addr))) as (_ & _ & -> & _).
    assert (ulookup s vb = ulookup s addr) as -> by (symmetry; by apply lookup_page).
    fold (enc s addr). rewrite He. f_equal. by rewrite lnot_byte by apply Hb.
  - rewrite decide_False; [done|]. intros Hin'.
    apply (page_disjoint _ w v _ Hwok Hvok) in Hin; [done|]. intros ->. destruct Ep.
    symmetry. by eapply (upage_inj _ _ _ _ U vb addr).
Qed.

(** The working set is a bounded queue of distinct pages: [searchwset] finds
    exactly the pages it holds; [clearwset] empties it; [wsetdelete] removes the page
    if it is there and returns 0, and otherwise returns -1 and changes nothing,
    whatever rotation of the array the queue is stored in. *)
Theorem working_set_queue s L va :
  ring (us_p s) L -> NoDup L -> va <> NOPAGE ->
  searchwset va s = Ok (if decide (va ∈ L) then 1 else -1) s /\
  (exists q, clearwset s = Ok tt (set_p (set_hand (-1) (set_queue q (us_p s))) s) /\
     ring (set_hand (-1) (set_queue q (us_p s))) []) /\
  (0 <= clockhand (us_p s) ->
   (va ∈ L -> exists q h, wsetdelete va s = Ok 0 (set_p (set_hand h (set_queue q (us_p s))) s) /\
      ring (set_hand h (set_queue q (us_p s))) (filter (fun y => y <> va) L)) /\
   (va ∉ L -> wsetdelete va s = Ok (-1) s)).
Proof.
  intros H Hn Hv. split_and!.
  - by apply searchwset_ok.
  - apply clearwset_ok, H.
  - intros Hh. by apply wsetdelete_ok.
Qed.

Lemma demo_ring f : ring (us_p (demo_ust f)) [].
Proof.
  split; cbn [demo_ust us_p clockqueue clockhand]; auto; try done;
    [simpl; lia|apply not_elem_of_nil|].
  intros k Hk. unfold back. cbn [demo_ust us_p clockqueue clockhand].
  pose proof (mod8_range (-1 - k)) as Hm. unfold CLOCKSIZE in *. change (reverse []) with (@nil Z).
  rewrite lookup_nil.
  assert (Z.to_nat ((-1 - k) `mod` 8) < 8)%nat as Hi by lia. revert Hi.
  generalize (Z.to_nat ((-1 - k) `mod` 8)). intros i Hi. by do 8 (destruct i as [|i]; [done|]); lia.
Qed.

Lemma demo_wset f : wset (demo_ust f) [].
Proof. split; [apply demo_ring|constructor|constructor]. Qed.

Lemma demo_user f : 0 <= f < 4096 -> ulookup (demo_ust f) 0 = 0x302000 + f.
Proof. apply demo_entry. Qed.

Lemma mdecrypt_spec_witness :
  exists s', mdecrypt 5 (demo_ust 0x206) = Ok 0 s' /\ enc s' 5 = false.
Proof.
  assert (uinv 1 (demo_ust 0x206) [] [demo_page]) as U by (apply demo_uinv; [lia|reflexivity]).
  destruct (mdecrypt_spec 1 (demo_ust 0x206) [] [demo_page] [] 5 U) as (s' & E & _ & _ & He & _).
  - split; [apply demo_wset|]. intros vb Hvb Hal Hu He. exfalso.
    destruct (decide (vb = 0)) as [->|Hne].
    + unfold enc in He. rewrite demo_user in He by lia. discriminate He.
    + unfold user_ok in Hu. assert (ulookup (demo_ust 0x206) vb = 0) as E0.
      { apply demo_others. clear Hu He U. unfold PGSIZE in *. Z.div_mod_to_equations. lia. }
      rewrite E0 in Hu. discriminate Hu.
  - unfold KERNBASE. lia.
  - vm_compute. reflexivity.
  - vm_compute. reflexivity.
  - exists s'. split; [exact E|exact He].
Defined.

Lemma mdecrypt_unencrypted_witness :
  exists s', mdecrypt 5 (demo_ust 7) = Ok 0 s' /\ plain (demo_ust 7) 5 = Some 0 /\ plain s' 5 = Some 255.
Proof.
  assert (uinv 1 (demo_ust 7) [] [demo_page]) as U by (apply demo_uinv; [lia|reflexivity]).
  destruct (mdecrypt_unencrypted 1 (demo_ust 7) [] [demo_page] [] 5 U (demo_wset 7)) as (s' & E & _ & P).
  - unfold KERNBASE. lia.
  - vm_compute. reflexivity.
  - vm_compute. reflexivity.
  - assert (plain (demo_ust 7) 5 = Some 0) as E5 by (vm_compute; reflexivity).
    exists s'. split; [exact E|]. split; [exact E5|]. rewrite P by (unfold KERNBASE; lia).
    rewrite E5. reflexivity.
Defined.

Lemma working_set_queue_witness :
  searchwset 0x1000 (demo_ust 7) = Ok (-1) (demo_ust 7).
Proof.
  destruct (working_set_queue (demo_ust 7) [] 0x1000 (demo_ring 7)) as (A & _).
  - constructor.
  - discriminate.
  - rewrite A. reflexivity.
Defined.
