(* ===== verification/Exec.v ===== *)
(** * Running a program: p6/exec.c, and loaduvm of p6/vm.c

    [exec] builds an address space from an ELF file and puts it in the place of the one of
    the process. The file system is reached through the class [ExecFiles], which speaks of
    files and directories (a path that names a device is not covered); the strings of the
    path and of the arguments, which the kernel reads through the old page directory, are
    given as bytes. *)

From S2P Require Import Prelude Cstring Spinlock Kalloc PageTable Uvm Encrypt.

(** What a read of [n] bytes at [off] returns of the contents [c] of a file. *)
Definition read_of (c : list Z) (off n : Z) : Z * list Z :=
  if (Z.of_nat (length c) <? off) || (2 ^ 32 <=? off + n) then (-1, [])
  else let bs := take (Z.to_nat n) (drop (Z.to_nat off) c) in (Z.of_nat (length bs), bs).

(** What exec needs of the file system, and what it is promised: [file_of f path] are the
    contents of the file that [path] names; [files_ref f ip c] holds a reference to the
    inode [ip] with the contents [c] in an operation. *)
Class ExecFiles (F : Type) := {
  begin_op : M F unit;
  end_op : M F unit;
  namei : list Z -> M F (option nat);
  ilock : nat -> M F unit;
  readi : nat -> Z -> Z -> M F (Z * list Z);
  iunlockput : nat -> M F unit;
  file_of : F -> list Z -> option (list Z);
  files_idle : F -> Prop;
  files_busy : F -> Prop;
  files_ref : F -> nat -> list Z -> Prop;
  files_locked : F -> nat -> list Z -> Prop;
  begin_op_ok f : files_idle f -> exists f', begin_op f = Ok tt f' /\ files_busy f' /\
    forall path, file_of f' path = file_of f path;
  end_op_ok f : files_busy f -> exists f', end_op f = Ok tt f' /\ files_idle f';
  namei_ok f path : files_busy f -> exists r f', namei path f = Ok r f' /\
    match r, file_of f path with
    | None, None => files_busy f'
    | Some ip, Some c => files_ref f' ip c
    | _, _ => False
    end;
  ilock_ok f ip c : files_ref f ip c -> exists f', ilock ip f = Ok tt f' /\ files_locked f' ip c;
  readi_ok f ip c off n : files_locked f ip c -> is_u32 off -> 0 <= n < 2 ^ 31 ->
    exists f', readi ip off n f = Ok (read_of c off n) f' /\ files_locked f' ip c;
  contents_ok f ip c : files_locked f ip c -> Forall (fun b => 0 <= b < 256) c /\ Z.of_nat (length c) < 2 ^ 31;
  iunlockput_ok f ip c : files_locked f ip c -> exists f', iunlockput ip f = Ok tt f' /\ files_busy f'
}.

(** ** The ELF headers *)

Definition ELF_MAGIC : Z := 0x464C457F.
Definition ELF_PROG_LOAD : Z := 1.
Definition ELFHDR : Z := 52.
Definition PROGHDR : Z := 32.
Definition byte_at (bs : list Z) (i : Z) : Z := nth (Z.to_nat i) bs 0.
Definition word_at (bs : list Z) (i : Z) : Z :=
  byte_at bs i + 256 * byte_at bs (i + 1) + 65536 * byte_at bs (i + 2) + 16777216 * byte_at bs (i + 3).
Record elfhdr := Elf { magic : Z; entry : Z; phoff : Z; phnum : Z }.
Definition elf_of (bs : list Z) : elfhdr :=
  Elf (word_at bs 0) (word_at bs 24) (word_at bs 28) (byte_at bs 44 + 256 * byte_at bs 45).
Record proghdr := Ph { p_type : Z; p_off : Z; p_vaddr : Z; p_filesz : Z; p_memsz : Z }.
Definition ph_of (bs : list Z) : proghdr :=
  Ph (word_at bs 0) (word_at bs 4) (word_at bs 8) (word_at bs 16) (word_at bs 20).
Definition MAXARG : nat := 32.

Section exec.
Context {F : Type} {files : ExecFiles F} (data : Z).

(** The current process with its kernel, the file system, and what the trap frame and the
    name of the process hold. *)
Record xst := XSt { x_u : ust; x_f : F; x_eip : Z; x_esp : Z; x_name : list Z }.
Definition set_u (u : ust) (x : xst) : xst := XSt u (x_f x) (x_eip x) (x_esp x) (x_name x).
Definition set_f (f : F) (x : xst) : xst := XSt (x_u x) f (x_eip x) (x_esp x) (x_name x).
Definition lu {A} (m : M ust A) : M xst A := zoom x_u set_u m.
Definition lk {A} (m : M kst A) : M xst A := lu (lift m).
Definition lf {A} (m : M F A) : M xst A := zoom x_f set_f m.

(** A copy into kernel memory. *)
Definition kwrite (dst : Z) (bs : list Z) : M kst unit := fun s =>
  if (KERNBASE <=? dst) && (dst + Z.of_nat (length bs) <=? KERNBASE + PHYSTOP)
  then Ok tt (set_mem (store_bytes (k_mem s) (V2P dst) bs) s) else Undef.

(** ** loaduvm *)

Fixpoint loaduvm_loop (fuel : nat) (pgdir addr : Z) (ip : nat) (offset sz i : Z) : M xst Z :=
  match fuel with
  | O => hang
  | S fuel' =>
    if i <? sz then
      pte ← lk (walkpgdir pgdir (u32 (addr + i)) false);
      if pte =? 0 then panic "loaduvm: address should exist" else
      v ← lk (kload pte);
      let pa := PTE_ADDR v in
      let n := if sz - i <? PGSIZE then sz - i else PGSIZE in
      '(r, bs) ← lf (readi ip (u32 (offset + i)) n);
      lk (kwrite (P2V pa) bs);;
      if negb (r =? n) then mret (-1) else loaduvm_loop fuel' pgdir addr ip offset sz (u32 (i + PGSIZE))
    else mret 0
  end.
Definition loaduvm (pgdir addr : Z) (ip : nat) (offset sz : Z) : M xst Z :=
  if negb (addr `mod` PGSIZE =? 0) then panic "loaduvm: addr must be page aligned" else
  loaduvm_loop (S (S (Z.to_nat (sz / PGSIZE)))) pgdir addr ip offset sz 0.

(** ** The parts of exec *)

(** The loop over the program headers, with [n] of them to go; [None] is [goto bad]. *)
Fixpoint exec_segments (n : nat) (pgdir : Z) (ip : nat) (off sz : Z) : M xst (option Z) :=
  match n with
  | O => mret (Some sz)
  | S n' =>
    '(r, bs) ← lf (readi ip off PROGHDR);
    if negb (r =? PROGHDR) then mret None else
    let ph := ph_of bs in
    if negb (p_type ph =? ELF_PROG_LOAD) then exec_segments n' pgdir ip (u32 (off + PROGHDR)) sz else
    if p_memsz ph <? p_filesz ph then mret None else
    if u32 (p_vaddr ph + p_memsz ph) <? p_vaddr ph then mret None else
    sz ← lk (allocuvm pgdir sz (u32 (p_vaddr ph + p_memsz ph)));
    if u32 sz =? 0 then mret None else
    if negb (p_vaddr ph `mod` PGSIZE =? 0) then mret None else
    r ← loaduvm pgdir (p_vaddr ph) ip (p_off ph) (p_filesz ph);
    if r <? 0 then mret None else
    exec_segments n' pgdir ip (u32 (off + PROGHDR)) (u32 sz)
  end.

(** [copyout] from bytes of the kernel. *)
Fixpoint copyout_loop (fuel : nat) (pgdir va : Z) (bs : list Z) : M kst Z :=
  match fuel with
  | O => hang
  | S fuel' =>
    if (0 <? length bs)%nat then
      let va0 := PGROUNDDOWN va in
      pa0 ← uva2ka pgdir va0;
      if pa0 =? 0 then mret (-1) else
      let room := PGSIZE - (va - va0) in
      let n := if Z.of_nat (length bs) <? room then Z.of_nat (length bs) else room in
      kwrite (pa0 + (va - va0)) (take (Z.to_nat n) bs);;
      copyout_loop fuel' pgdir (u32 (va0 + PGSIZE)) (drop (Z.to_nat n) bs)
    else mret 0
  end.
Definition copyout (pgdir va : Z) (bs : list Z) : M kst Z := copyout_loop (S (S (length bs / 4096 + 1))) pgdir va bs.

(** The argument strings, and the words of [ustack] that point to them. *)
Fixpoint push_args (argc : nat) (pgdir sp : Z) (argv : list (list Z)) (ptrs : list Z) : M xst (option (Z * list Z)) :=
  match argv with
  | [] => mret (Some (sp, ptrs))
  | s :: argv' =>
    if (MAXARG <=? argc)%nat then mret None else
    let sp := Z.land (u32 (sp - (Z.of_nat (length s) + 1))) (Z.lnot 3) in
    r ← lk (copyout pgdir sp (s ++ [0]));
    if r <? 0 then mret None else push_args (argc + 1) pgdir sp argv' (ptrs ++ [sp])
  end.
Definition le32 (w : Z) : list Z := [u8 w; u8 (w / 256); u8 (w / 65536); u8 (w / 16777216)].
Definition ustack (sp : Z) (ptrs : list Z) : list Z :=
  let argc := Z.of_nat (length ptrs) in
  [0xffffffff; argc; u32 (sp - (argc + 1) * 4)] ++ ptrs ++ [0].
(** The stack: the size of the image and the stack pointer. *)
Definition exec_stack (pgdir sz : Z) (argv : list (list Z)) : M xst (option (Z * Z)) :=
  let sz := PGROUNDUP sz in
  sz ← lk (allocuvm pgdir sz (u32 (sz + 2 * PGSIZE)));
  if u32 sz =? 0 then mret None else
  lk (clearpteu pgdir (u32 (sz - 2 * PGSIZE)));;
  a ← push_args 0 pgdir (u32 sz) argv [];
  match a with
  | None => mret None
  | Some (sp, ptrs) =>
    let words := ustack sp ptrs in
    let sp := u32 (sp - (3 + Z.of_nat (length ptrs) + 1) * 4) in
    r ← lk (copyout pgdir sp (words ≫= le32));
    if r <? 0 then mret None else mret (Some (u32 sz, sp))
  end.

(** What follows the last slash. *)
Fixpoint last_element (s last : list Z) : list Z :=
  match s with [] => last | c :: s' => last_element s' (if c =? 47 then s' else last) end.

Fixpoint encrypt_loop (fuel : nat) (i sz : Z) : M xst Z :=
  match fuel with
  | O => hang
  | S fuel' =>
    if i <? sz then
      u ← gets x_u;
      pte ← lk (walkpgdir (pgdir (us_p u)) i false);
      v ← lk (kload pte);
      if flag v PTE_U then
        r ← lu (mencrypt i 1);
        if negb (r =? 0) then mret (-1) else encrypt_loop fuel' (i + PGSIZE) sz
      else encrypt_loop fuel' (i + PGSIZE) sz
    else mret 0
  end.
Definition set_image (pgdir sz : Z) (p : uproc) : uproc := UProc sz pgdir (kstack p) (clockqueue p) (clockhand p).
Definition exec_commit (path : list Z) (new sz eip sp : Z) : M xst Z :=
  modify (fun x => XSt (x_u x) (x_f x) (x_eip x) (x_esp x) (take 15 (last_element path path)));;
  u ← gets x_u;
  let oldpgdir := pgdir (us_p u) in
  lu (upd_p (set_image new sz));;
  modify (fun x => XSt (x_u x) (x_f x) eip sp (x_name x));;
  lu switchuvm;;
  lu clearwset;;
  r ← encrypt_loop (S (S (Z.to_nat (sz / PGSIZE)))) 0 sz;
  if r <? 0 then mret (-1) else
  lk (freevm oldpgdir);;
  mret 0.

Definition exec_bad (pgdir : Z) (ip : option nat) : M xst Z :=
  (if negb (pgdir =? 0) then lk (freevm pgdir) else mret tt);;
  match ip with
  | Some ip => lf (iunlockput ip);; lf end_op
  | None => mret tt
  end;;
  mret (-1).

(** ** exec *)

Definition exec (path : list Z) (argv : list (list Z)) : M xst Z :=
  lf begin_op;;
  ip ← lf (namei path);
  match ip with
  | None => lf end_op;; mret (-1)
  | Some ip =>
    lf (ilock ip);;
    '(r, bs) ← lf (readi ip 0 ELFHDR);
    if negb (r =? ELFHDR) then exec_bad 0 (Some ip) else
    let elf := elf_of bs in
    if negb (magic elf =? ELF_MAGIC) then exec_bad 0 (Some ip) else
    pgdir ← lk (setupkvm data);
    if pgdir =? 0 then exec_bad 0 (Some ip) else
    sz ← exec_segments (Z.to_nat (phnum elf)) pgdir ip (phoff elf) 0;
    match sz with
    | None => exec_bad pgdir (Some ip)
    | Some sz =>
      lf (iunlockput ip);;
      lf end_op;;
      st ← exec_stack pgdir sz argv;
      match st with
      | None => exec_bad pgdir None
      | Some (sz, sp) => exec_commit path pgdir sz (entry elf) sp
      end
    end
  end.
End exec.
Arguments xst : clear implicits.
