(* ===== verification/ExecImage.v ===== *)
(** * Building an address space

    The image that exec builds in a new page directory: which pages are mapped, with which
    flags and bytes, and that every page is accounted for. *)

From S2P Require Import Prelude Cstring Spinlock Kalloc PageTable Uvm Encrypt Exec.

(** ** Bytes in memory *)

Lemma rd8_store_bytes bs : forall m a b, rd8 (store_bytes m a bs) b =
  if decide (a <= b < a + Z.of_nat (length bs)) then u8 (byte_at bs (b - a)) else rd8 m b.
Proof.
  induction bs as [|c bs IH]; intros m a b; cbn [store_bytes length].
  { by rewrite decide_False by lia. }
  rewrite IH, rd8_wr8. unfold byte_at. destruct (decide (a + 1 <= b < a + 1 + Z.of_nat (length bs))).
  - rewrite decide_True by lia. f_equal. replace (Z.to_nat (b - a)) with (S (Z.to_nat (b - (a + 1)))) by lia. done.
  - destruct (decide (a = b)) as [->|]; [rewrite decide_True by lia; by rewrite Z.sub_diag|]. by rewrite decide_False by lia.
Qed.

Lemma length_page_seq n : forall a, length (page_seq a n) = n.
Proof. induction n as [|n IH]; intros a; [done|]. cbn [page_seq length]. by rewrite IH. Qed.
Lemma length_pages a hi : a <= hi -> Z.of_nat (length (pages a hi)) = (hi - a + PGSIZE - 1) / PGSIZE.
Proof. intros H. unfold pages. rewrite length_page_seq, Z2Nat.id; [done|]. apply Z.div_pos; unfold PGSIZE; lia. Qed.

(** ** The image *)

Definition PTE_UWP : Z := 7.
Section image.
Context (me : nat) (s0 : kst) (R l0 : list Z) (data : Z) (Hdata : data_ok data).

(** The new directory [d] maps the pages of [0, sz) to fresh pages, for the user but for the
    page [g]; the byte at an address is given by [f]. [R] are the pages of others and [l0]
    was the free list. *)
Record image (d sz g : Z) (f : Z -> Z) (s : kst) (l : list Z) : Prop := Image {
  im_inv : pt_inv me s d (range_pages (k_mem s) d 0 (PGROUNDUP sz) ++ R) l;
  im_perm : pt_pages (k_mem s) d ++ range_pages (k_mem s) d 0 (PGROUNDUP sz) ++ l ≡ₚ l0;
  im_end : k_end s = k_end s0;
  im_sz : 0 <= sz < KERNBASE;
  im_out : forall vb, PGROUNDUP sz <= vb < KERNBASE -> mapped (lookup (k_mem s) d vb) = false;
  im_kern : forall vb, KERNBASE <= vb < 2 ^ 32 -> lookup (k_mem s) d vb = kvm_entry data vb;
  im_in : forall va, 0 <= va < PGROUNDUP sz -> exists v,
    lookup (k_mem s) d va = V2P v + (if PGROUNDDOWN va =? g then 3 else 7) /\ page_of (k_mem s) d va = Some v /\
    rd8 (k_mem s) (V2P v + va `mod` PGSIZE) = f va;
  im_zero : forall va, PGROUNDUP sz <= va -> f va = 0;
  im_frame : forall w, w ∈ R -> page_eq (k_mem s0) (k_mem s) w
}.

Lemma image_up d sz g f s l : image d sz g f s l -> sz <= PGROUNDUP sz <= KERNBASE /\ PGROUNDUP sz `mod` PGSIZE = 0.
Proof.
  intros I. pose proof (im_sz _ _ _ _ _ _ I) as H. pose proof (PGROUNDUP_aligned sz) as A. pose proof (PGROUNDUP_bounds sz ltac:(lia) ltac:(unfold PGSIZE, KERNBASE in *; lia)) as B.
  unfold PGSIZE, KERNBASE in *. split; [|done]. split; [lia|]. Z.div_mod_to_equations. lia.
Qed.
Lemma in_range_page lo hi va : lo `mod` PGSIZE = 0 -> hi `mod` PGSIZE = 0 -> in_range lo hi va = (lo <=? va) && (va <? hi).
Proof.
  intros H0 H. unfold in_range. rewrite PGROUNDDOWN_eq. unfold PGSIZE in *. apply eq_true_iff_eq. rewrite !andb_true_iff, !Z.leb_le, !Z.ltb_lt. split; intros; Z.div_mod_to_equations; lia.
Qed.
Lemma image_page d sz g f s l va v : image d sz g f s l -> 0 <= va < PGROUNDUP sz -> page_of (k_mem s) d va = Some v ->
  v ∈ range_pages (k_mem s) d 0 (PGROUNDUP sz) /\ page_ok (k_end s) v.
Proof.
  intros I Hva Hv. destruct (image_up _ _ _ _ _ _ I) as [B A]. assert (v ∈ range_pages (k_mem s) d 0 (PGROUNDUP sz)) as Hin.
  { apply (elem_of_range_pages _ _ _ _ (PGROUNDDOWN va)).
    - apply elem_of_pages_range; [done|]. split; [|apply PGROUNDDOWN_aligned]. pose proof (PGROUNDDOWN_bounds va). rewrite PGROUNDDOWN_eq in *. unfold PGSIZE in *. Z.div_mod_to_equations. lia.
    - rewrite <- Hv. apply page_of_page, PGROUNDDOWN_page. }
  split; [done|]. eapply rest_page; [apply (im_inv _ _ _ _ _ _ I)|]. rewrite elem_of_app. by left.
Qed.
Lemma image_inj d sz g f s l va vb v : image d sz g f s l -> 0 <= va < PGROUNDUP sz -> 0 <= vb < PGROUNDUP sz ->
  page_of (k_mem s) d va = Some v -> page_of (k_mem s) d vb = Some v -> va / PGSIZE = vb / PGSIZE.
Proof.
  intros I Ha Hb Ea Eb. pose proof (pi_nodup _ _ _ _ _ (im_inv _ _ _ _ _ _ I)) as Hn. apply NoDup_app in Hn as (_ & _ & Hn). rewrite <- app_assoc in Hn.
  apply NoDup_app in Hn as (Hn & _ & _). destruct (image_up _ _ _ _ _ _ I) as [B A].
  rewrite <- (PGROUNDDOWN_page va), <- (PGROUNDDOWN_page vb). f_equal.
  assert (forall x, 0 <= x < PGROUNDUP sz -> PGROUNDDOWN x ∈ pages 0 (PGROUNDUP sz)) as Hin.
  { intros x Hx. apply elem_of_pages_range; [done|]. split; [|apply PGROUNDDOWN_aligned]. rewrite PGROUNDDOWN_eq. unfold PGSIZE in *. Z.div_mod_to_equations. lia. }
  eapply range_pages_inj; [exact Hn|by apply Hin|by apply Hin| |].
  - rewrite <- Ea. apply page_of_page, PGROUNDDOWN_page.
  - rewrite <- Eb. apply page_of_page, PGROUNDDOWN_page.
Qed.

(** There are not enough pages for an image of size [n] and its page tables. *)
Definition too_few (n : Z) : Prop := Z.of_nat (length l0) <= 1025 + (n + PGSIZE - 1) / PGSIZE.
Lemma too_few_mono n n' : n <= n' -> too_few n -> too_few n'.
Proof. unfold too_few, PGSIZE. intros H T. Z.div_mod_to_equations. lia. Qed.

(** [f] with the bytes [bs] at [va]. *)
Definition with_bytes (f : Z -> Z) (va : Z) (bs : list Z) : Z -> Z :=
  fun a => if decide (va <= a < va + Z.of_nat (length bs)) then u8 (byte_at bs (a - va)) else f a.

(** Writing inside a page. *)
Lemma image_write d sz g f s l va v bs : image d sz g f s l -> 0 <= va < PGROUNDUP sz -> page_of (k_mem s) d va = Some v ->
  va `mod` PGSIZE + Z.of_nat (length bs) <= PGSIZE ->
  exists s', kwrite (v + va `mod` PGSIZE) bs s = Ok tt s' /\ image d sz g (with_bytes f va bs) s' l /\
    (forall x, lookup (k_mem s') d x = lookup (k_mem s) d x).
Proof.
  intros I Hva Hv Hlen. destruct (image_page _ _ _ _ _ _ _ _ I Hva Hv) as [Hin Hok]. destruct (page_V2P _ _ Hok) as (E & V0 & V1).
  pose proof (Z.mod_pos_bound va PGSIZE eq_refl) as Hm. set (j := va `mod` PGSIZE) in *. set (m' := store_bytes (k_mem s) (V2P v + j) bs).
  assert (forall w, page_ok (k_end s) w -> w <> v -> page_eq (k_mem s) m' w) as Hw.
  { intros w Hwk Hne a Ha. unfold m'. rewrite rd8_store_bytes. case_decide as Hd; [|done]. exfalso. apply (page_disjoint _ w v a Hwk Hok Hne Ha). unfold in_page. lia. }
  pose proof Hin as Hin'. apply elem_of_Permutation in Hin' as [rest' Hperm]. pose proof I as [H1 H2 H3 H4 H5 H5' H6 H7 H8].
  destruct (pt_write me s d v (rest' ++ R) l m') as (I' & Ep & L).
  { eapply pt_rest_perm; [|exact H1]. by rewrite Hperm. }
  { apply bytes_ok_store, H1. }
  { exact Hw. }
  exists (set_mem m' s). split; [|split; [|exact L]].
  - unfold kwrite. assert (V2P (v + j) = V2P v + j) as Ev by (unfold V2P in *; rewrite !u32_small in * by (destruct Hok; unfold is_u32, KERNBASE, PHYSTOP, PGSIZE in *; lia); lia).
    rewrite Ev. destruct Hok as [_ _ K1 K2]. rewrite (proj2 (Z.leb_le _ _)), (proj2 (Z.leb_le _ _)) by (unfold PGSIZE in *; lia). done.
  - assert (forall x, page_of m' d x = page_of (k_mem s) d x) as Pg by (intros x; apply page_of_ext, L).
    assert (range_pages m' d 0 (PGROUNDUP sz) = range_pages (k_mem s) d 0 (PGROUNDUP sz)) as Er by (apply range_pages_ext; intros; apply L).
    assert (forall w, w ∈ R -> w <> v) as HR.
    { intros w Hwr ->. pose proof (pi_nodup _ _ _ _ _ H1) as Hn. apply NoDup_app in Hn as (_ & _ & Hn). rewrite <- app_assoc in Hn. apply NoDup_app in Hn as (_ & Hn & _). apply (Hn v Hin). rewrite elem_of_app. by left. }
    split; cbn [k_mem set_mem k_end]; rewrite ?Er; try done.
    + eapply pt_rest_perm; [|exact I']. by rewrite Hperm.
    + by rewrite Ep.
    + intros vb Hvb. rewrite L. by apply H5.
    + intros vb Hvb. rewrite L. by apply H5'.
    + intros x Hx. destruct (H6 x Hx) as (w & W1 & W2 & W3). exists w. rewrite L, Pg. split; [done|]. split; [done|].
      unfold m'. rewrite rd8_store_bytes. unfold with_bytes. pose proof (Z.mod_pos_bound x PGSIZE eq_refl) as Hx'. destruct (image_page _ _ _ _ _ _ _ _ I Hx W2) as [_ Hok'].
      destruct (decide (w = v)) as [->|Ne].
      * pose proof (image_inj _ _ _ _ _ _ _ _ _ I Hx Hva W2 Hv) as Eq. assert (x - va = x `mod` PGSIZE - j) as Ed by (unfold j, PGSIZE in *; Z.div_mod_to_equations; lia).
        destruct (decide (va <= x < va + Z.of_nat (length bs))); [rewrite decide_True by lia; do 2 f_equal; lia|by rewrite decide_False by lia].
      * rewrite (decide_False (P := V2P v + j <= _ < _)).
        2: { intros Hd. apply (page_disjoint _ w v (V2P w + x `mod` PGSIZE) Hok' Hok Ne); unfold in_page; lia. }
        rewrite decide_False; [done|]. intros Hd. apply Ne. assert (va / PGSIZE = x / PGSIZE) as Eq by (unfold j, PGSIZE in *; Z.div_mod_to_equations; lia).
        apply (page_of_page (k_mem s) d) in Eq. congruence.
    + intros x Hx. unfold with_bytes. rewrite decide_False; [by apply H7|]. destruct (image_up _ _ _ _ _ _ I) as [_ A]. unfold j, PGSIZE in *. Z.div_mod_to_equations. lia.
    + intros w Hwr. eapply page_eq_trans; [by apply H8|]. apply Hw; [|by apply HR]. eapply rest_page; [exact H1|]. rewrite elem_of_app. by right.
Qed.

(** ** Creating, growing and dropping *)

Lemma range_pages_split m d a b hi : a `mod` PGSIZE = 0 -> b `mod` PGSIZE = 0 -> a <= b <= hi ->
  range_pages m d a hi ≡ₚ range_pages m d a b ++ range_pages m d b hi.
Proof. intros Ha Hb H. unfold range_pages. rewrite (pages_split a b hi Ha Hb) by lia. rewrite omap_app. by rewrite Z.min_l by lia. Qed.

Lemma image_new s l : page_inv me s R l -> l ≡ₚ l0 -> k_end s = k_end s0 -> (forall w, w ∈ R -> page_eq (k_mem s0) (k_mem s) w) ->
  exists d s' l', setupkvm data s = Ok d s' /\
    (d = 0 /\ (page_inv me s' R l' /\ l' ≡ₚ l0 /\ k_end s' = k_end s0 /\ (forall w, w ∈ R -> page_eq (k_mem s0) (k_mem s') w)) /\ too_few 0 \/
     d <> 0 /\ image d 0 (-1) (fun _ => 0) s' l').
Proof.
  intros H Hp He Hf. destruct (setupkvm_ok me s R l data H Hdata) as (d & s' & l' & E & Ee & W & O). exists d, s', l'. split; [done|].
  assert (forall w, w ∈ R -> page_eq (k_mem s0) (k_mem s') w) as Hf' by (intros w Hw; eapply page_eq_trans; [by apply Hf|by apply W]).
  destruct O as [(-> & H' & P & Hs)|(Hd & H' & P & L)]; [left|right].
  { split; [done|]. split; [|unfold too_few; rewrite <- Hp; change ((0 + PGSIZE - 1) / PGSIZE) with 0; lia]. split; [done|]. split; [by rewrite P|]. split; [congruence|done]. }
  split; [done|]. change (PGROUNDUP 0) with 0.
  split; change (PGROUNDUP 0) with 0; rewrite ?(pages_nil 0 0) by lia; try done.
  - by rewrite <- Hp, <- P.
  - congruence.
  - intros vb Hvb. rewrite L by (unfold is_u32, KERNBASE in *; lia). by rewrite (kvm_entry_user data Hdata).
  - intros vb Hvb. apply L. unfold is_u32, KERNBASE in *. lia.
  - intros va Hva. lia.
Qed.

Lemma grow_short d sz f s l newsz : image d sz (-1) f s l -> sz <= newsz ->
  Z.of_nat (length (pt_pages (k_mem s) d ++ l)) <= 1025 + Z.of_nat (length (pages (PGROUNDUP sz) newsz)) -> too_few newsz.
Proof.
  intros I Hn Hs. destruct (image_up _ _ _ _ _ _ I) as [[B1 B2] A]. pose proof (im_sz _ _ _ _ _ _ I) as Hsz. unfold too_few. rewrite <- (Permutation_length (im_perm _ _ _ _ _ _ I)).
  pose proof (length_omap_le (page_of (k_mem s) d) (pages 0 (PGROUNDUP sz))) as Hr. fold (range_pages (k_mem s) d 0 (PGROUNDUP sz)) in Hr. apply Nat2Z.inj_le in Hr.
  rewrite length_pages in Hr by lia. rewrite !length_app in *. pose proof (PGROUNDUP_bounds sz ltac:(lia) ltac:(unfold PGSIZE, KERNBASE in *; lia)) as B3.
  destruct (decide (PGROUNDUP sz <= newsz)) as [Hle|Hgt].
  - rewrite length_pages in Hs by done. unfold PGSIZE in *. clear -Hr Hs A Hle Hsz B1. Z.div_mod_to_equations. lia.
  - rewrite pages_nil in Hs by lia. cbn [length] in Hs. unfold PGSIZE in *. clear -Hr Hs A Hgt B1 B3 Hsz Hn. Z.div_mod_to_equations. lia.
Qed.

Lemma image_grow d sz f s l newsz : image d sz (-1) f s l -> sz <= newsz < KERNBASE ->
  exists r s' l', allocuvm d sz newsz s = Ok r s' /\ (r = newsz /\ image d newsz (-1) f s' l' \/ r = 0 /\ image d sz (-1) f s' l' /\ too_few newsz).
Proof.
  intros I Hn. destruct (image_up _ _ _ _ _ _ I) as [B A]. pose proof I as [H1 H2 H3 H4 H5 H5' H6 H7 H8]. set (a0 := PGROUNDUP sz) in *. set (rest := range_pages (k_mem s) d 0 a0 ++ R) in *.
  destruct (allocuvm_ok me d s rest l sz newsz) as (_ & _ & Hg); [done|lia|unfold is_u32, KERNBASE in *; lia| |].
  { intros va Hva. apply elem_of_pages_range in Hva as [Hva _]; [|done]. apply H5. fold a0. lia. }
  destruct (Hg ltac:(lia) ltac:(lia)) as (r & s' & l' & E & O). exists r, s', l'. split; [done|]. fold a0 in O.
  assert (forall va, 0 <= va < a0 -> lookup (k_mem s') d va = lookup (k_mem s) d va -> exists v,
    lookup (k_mem s') d va = V2P v + (if PGROUNDDOWN va =? -1 then 3 else 7) /\ page_of (k_mem s') d va = Some v /\ (page_eq (k_mem s) (k_mem s') v -> rd8 (k_mem s') (V2P v + va `mod` PGSIZE) = f va) /\ v ∈ rest) as Hold.
  { intros va Hva EL. destruct (H6 va Hva) as (v & L1 & L2 & L3). exists v. rewrite EL. split; [done|]. split; [by rewrite (page_of_ext _ _ _ _ EL)|].
    destruct (image_page _ _ _ _ _ _ _ _ I Hva L2) as [Hin _]. split; [|unfold rest; rewrite elem_of_app; by left]. intros Hq. rewrite <- L3. symmetry. apply Hq.
    unfold in_page. pose proof (Z.mod_pos_bound va PGSIZE eq_refl). lia. }
  destruct O as [(-> & G)|(-> & G)]; [left|right]; (split; [done|]).
  - destruct G as [G1 G2 G3 G4 G5 G6]. set (a := PGROUNDUP newsz) in *.
    assert (a `mod` PGSIZE = 0) as A' by apply PGROUNDUP_aligned. assert (a0 <= a /\ newsz <= a <= KERNBASE) as [B1 B2].
    { pose proof (PGROUNDUP_bounds newsz ltac:(lia) ltac:(unfold PGSIZE, KERNBASE in *; lia)) as B3. pose proof (PGROUNDUP_bounds sz ltac:(lia) ltac:(unfold PGSIZE, KERNBASE in *; lia)) as B4. unfold a, a0, PGSIZE, KERNBASE in *. clear H5 H5' H6 H7 H8 Hold. Z.div_mod_to_equations. lia. }
    assert (forall va, 0 <= va < a0 -> lookup (k_mem s') d va = lookup (k_mem s) d va) as EL.
    { intros va Hva. apply G4; [unfold is_u32, KERNBASE in *; lia|]. rewrite in_range_page by done. rewrite (proj2 (Z.leb_gt _ _)) by lia. done. }
    assert (range_pages (k_mem s') d 0 a0 = range_pages (k_mem s) d 0 a0) as Er by (apply range_pages_ext; intros v [Hv _]%elem_of_pages_range; [by apply EL|done]).
    assert (range_pages (k_mem s') d 0 a ≡ₚ range_pages (k_mem s) d 0 a0 ++ range_pages (k_mem s') d a0 a) as Ea by (rewrite (range_pages_split _ _ 0 a0 a) by (done || lia); by rewrite Er).
    split; fold a; try done.
    + eapply pt_rest_perm; [|exact G1]. rewrite Ea. unfold rest. rewrite !app_assoc. f_equiv. apply Permutation_app_comm.
    + rewrite Ea, <- H2. rewrite <- (app_assoc (range_pages (k_mem s) d 0 a0)). rewrite (Permutation_app_swap_app (pt_pages (k_mem s') d)), G2. by rewrite (Permutation_app_swap_app (pt_pages (k_mem s) d)).
    + congruence.
    + lia.
    + intros vb Hvb. rewrite G4; [|unfold is_u32, KERNBASE in *; lia|]. { apply H5. lia. } rewrite in_range_page by done. rewrite (proj2 (Z.ltb_ge vb a)) by lia. by rewrite andb_false_r.
    + intros vb Hvb. rewrite G4; [by apply H5'|unfold is_u32; lia|]. rewrite in_range_page by done. rewrite (proj2 (Z.ltb_ge vb a)) by lia. by rewrite andb_false_r.
    + intros va Hva. destruct (decide (va < a0)) as [Hlt|Hge].
      * destruct (Hold va ltac:(lia) (EL va ltac:(lia))) as (v & L1 & L2 & L3 & L4). exists v. split; [done|]. split; [done|]. apply L3, G6, L4.
      * destruct (G5 (PGROUNDDOWN va)) as (v & L1 & L2 & L3).
        { apply elem_of_pages_range; [done|]. split; [|apply PGROUNDDOWN_aligned]. rewrite PGROUNDDOWN_eq. unfold PGSIZE in *. clear -Hva Hge A A'. Z.div_mod_to_equations. lia. }
        exists v. rewrite (lookup_page _ _ va (PGROUNDDOWN va)) by (by rewrite PGROUNDDOWN_page). rewrite (page_of_page _ _ va (PGROUNDDOWN va)) by (by rewrite PGROUNDDOWN_page).
        rewrite (proj2 (Z.eqb_neq (PGROUNDDOWN va) (-1))) by (rewrite PGROUNDDOWN_eq; unfold PGSIZE; clear -Hva; Z.div_mod_to_equations; lia).
        split; [done|]. split; [done|]. rewrite L3 by (unfold in_page; pose proof (Z.mod_pos_bound va PGSIZE eq_refl); lia). symmetry. apply H7. lia.
    + intros va Hva. apply H7. lia.
    + intros w Hw. eapply page_eq_trans; [by apply H8|]. apply G6. unfold rest. rewrite elem_of_app. by right.
  - destruct G as [G1 G2 G3 G4 G5 G6 G7]. split; [|apply (grow_short d sz f s l newsz I); [lia|exact G7]].
    assert (forall va, 0 <= va < a0 -> lookup (k_mem s') d va = lookup (k_mem s) d va) as EL.
    { intros va Hva. apply G4; [unfold is_u32, KERNBASE in *; lia|]. unfold in_range. rewrite (proj2 (Z.leb_gt a0 _)); [done|]. pose proof (PGROUNDDOWN_bounds va). lia. }
    assert (range_pages (k_mem s') d 0 a0 = range_pages (k_mem s) d 0 a0) as Er by (apply range_pages_ext; intros v [Hv _]%elem_of_pages_range; [by apply EL|done]).
    split; fold a0; rewrite ?Er; try done.
    + rewrite <- H2. rewrite (Permutation_app_swap_app (pt_pages (k_mem s') d)), G2. by rewrite (Permutation_app_swap_app (pt_pages (k_mem s) d)).
    + congruence.
    + intros vb Hvb. assert (is_u32 vb) as Hu by (unfold is_u32, KERNBASE in *; lia). destruct (in_range a0 newsz vb) eqn:Er'; [by apply G5|]. rewrite G4 by done. by apply H5.
    + intros vb Hvb. rewrite G4; [by apply H5'|unfold is_u32; lia|]. unfold in_range. rewrite (proj2 (Z.ltb_ge _ newsz)); [by rewrite andb_false_r|]. rewrite PGROUNDDOWN_eq. unfold PGSIZE, KERNBASE in *. clear -Hvb Hn. Z.div_mod_to_equations. lia.
    + intros va Hva. destruct (Hold va Hva (EL va Hva)) as (v & L1 & L2 & L3 & L4). exists v. split; [done|]. split; [done|]. apply L3, G6, L4.
    + intros w Hw. eapply page_eq_trans; [by apply H8|]. apply G6. unfold rest. rewrite elem_of_app. by right.
Qed.

(** Everything is as before exec began. *)
Definition undone (s : kst) (l : list Z) : Prop :=
  page_inv me s R l /\ l ≡ₚ l0 /\ k_end s = k_end s0 /\ forall w, w ∈ R -> page_eq (k_mem s0) (k_mem s) w.
Lemma image_whole d sz g f s l : image d sz g f s l -> range_pages (k_mem s) d 0 KERNBASE ≡ₚ range_pages (k_mem s) d 0 (PGROUNDUP sz).
Proof.
  intros I. destruct (image_up _ _ _ _ _ _ I) as [B A]. apply range_pages_prefix; [done|done|pose proof (im_sz _ _ _ _ _ _ I); lia|].
  intros v [Hv _]%elem_of_pages_range; [|done]. apply (im_out _ _ _ _ _ _ I). lia.
Qed.
Lemma image_drop d sz g f s l : image d sz g f s l -> exists s' l', freevm d s = Ok tt s' /\ undone s' l'.
Proof.
  intros I. pose proof (image_whole _ _ _ _ _ _ I) as Er. destruct I as [H1 H2 H3 H4 H5 H5' H6 H7 H8].
  destruct (freevm_ok me d s R l) as (s' & l' & E & K & P & Ee & F).
  { eapply pt_rest_perm; [|exact H1]. by rewrite Er. }
  rewrite Er, H2 in P. exists s', l'. split; [done|]. split; [|split; [done|split; [congruence|intros w Hw; eapply page_eq_trans; [by apply H8|by apply F]]]].
  pose proof (pt_page_inv _ _ _ _ _ H1) as [_ He Hok Hnd]. split; rewrite ?Ee; [done|done| |].
  - rewrite !Forall_app in Hok. tauto.
  - rewrite P, <- H2. revert Hnd. apply NoDup_Permutation_proper. rewrite <- !app_assoc. rewrite (Permutation_app_swap_app R). f_equiv. by rewrite (Permutation_app_swap_app R).
Qed.

(** ** The guard page *)

Lemma entry_value v k : V2P v `mod` PGSIZE = 0 -> 0 <= k < PGSIZE -> PTE_ADDR (V2P v + k) = V2P v /\ PTE_FLAGS (V2P v + k) = k.
Proof. intros Hv Hk. split; [by apply PTE_ADDR_add|by apply PTE_FLAGS_add]. Qed.
Lemma mapped_value v k : V2P v `mod` PGSIZE = 0 -> 0 <= k < PGSIZE -> mapped (V2P v + k) = mapped k.
Proof. intros Hv Hk. rewrite mapped_flags, PTE_FLAGS_add by done. done. Qed.
Lemma flag_value v k b : V2P v `mod` PGSIZE = 0 -> 0 <= k < PGSIZE -> 0 <= b < PGSIZE -> flag (V2P v + k) b = flag k b.
Proof. intros Hv Hk Hb. rewrite flag_low by done. rewrite PTE_FLAGS_add by done. done. Qed.

(** The entry of a page of the image. *)
Lemma image_walk d sz g f s l va : image d sz g f s l -> 0 <= va < PGROUNDUP sz -> exists t v, table (k_mem s) d (PDX va) = Some t /\
  walkpgdir d va false s = Ok (t + 4 * PTX va) s /\ t + 4 * PTX va <> 0 /\ page_ok (k_end s) t /\
  kload (t + 4 * PTX va) s = Ok (V2P v + (if PGROUNDDOWN va =? g then 3 else 7)) s /\
  page_of (k_mem s) d va = Some v /\ page_ok (k_end s) v /\ v ∈ range_pages (k_mem s) d 0 (PGROUNDUP sz).
Proof.
  intros I Hva. destruct (im_in _ _ _ _ _ _ I va Hva) as (v & L1 & L2 & L3). destruct (image_page _ _ _ _ _ _ _ _ I Hva L2) as [Hin Hok].
  pose proof (im_inv _ _ _ _ _ _ I) as H. assert (mapped (lookup (k_mem s) d va) = true) as Hm by (unfold page_of in L2; by destruct (mapped _)).
  destruct (mapped_table _ _ _ Hm) as [t Et]. assert (page_ok (k_end s) t) as Ht by (eapply table_page; [exact H|apply PDX_range|done]).
  exists t, v. split; [done|]. split; [rewrite (walkpgdir_lookup _ _ _ _ _ _ H), Et; done|]. split; [|split; [done|split; [|done]]].
  - pose proof (PTX_range va). destruct Ht. unfold KERNBASE in *. lia.
  - rewrite (kload_slot _ _ _ _ Ht) by apply PTX_range. by rewrite (lookup_table _ _ _ _ Et), L1.
Qed.

Lemma image_guard d sz f s l va : image d sz (-1) f s l -> 0 <= va < PGROUNDUP sz -> va `mod` PGSIZE = 0 ->
  exists s', clearpteu d va s = Ok tt s' /\ image d sz va f s' l.
Proof.
  intros I Hva Hal. destruct (image_walk _ _ _ _ _ _ va I Hva) as (t & v & Et & Ew & Hnz & Hpt & El & Hpg & Hpok & Hin).
  pose proof (page_phys_aligned _ _ Hpok) as Hv. rewrite (proj2 (Z.eqb_neq (PGROUNDDOWN va) (-1))) in El by (rewrite PGROUNDDOWN_id by done; lia).
  assert (Z.land (V2P v + 7) (Z.lnot PTE_U) = V2P v + 3) as Ee.
  { destruct (land_lnot_entry (V2P v + 7) PTE_U ltac:(vm_compute; split; congruence)) as [E1 E2]. destruct (entry_value v 7 Hv ltac:(unfold PGSIZE; lia)) as [E3 E4]. rewrite E3 in E1. rewrite E4 in E2.
    rewrite (entry_split (Z.land _ _)), E1, E2. done. }
  assert (is_u32 (V2P v + 3)) as Hu by (destruct (page_V2P _ _ Hpok) as (_ & V0 & V1); unfold is_u32, PHYSTOP, PGSIZE in *; lia).
  assert (is_u32 va) as Hva' by (destruct (image_up _ _ _ _ _ _ I) as [[_ B] _]; unfold is_u32, KERNBASE in *; lia).
  pose proof I as [H1 H2 H3 H4 H5 H5' H6 H7 H8]. set (m' := wr32 (k_mem s) (V2P t + 4 * PTX va) (V2P v + 3)).
  exists (set_mem m' s). split.
  - unfold clearpteu. mstep Ew. rewrite (proj2 (Z.eqb_neq _ _) Hnz). mstep El. rewrite Ee. apply (kstore_slot _ _ _ _ _ Hpt), PTX_range.
  - assert (forall vb, is_u32 vb -> lookup m' d vb = if decide (va / PGSIZE = vb / PGSIZE) then V2P v + 3 else lookup (k_mem s) d vb) as L by (intros vb Hvb; by apply (set_pte_lookup _ _ _ _ _ H1)).
    assert (forall w, w ∈ range_pages (k_mem s) d 0 (PGROUNDUP sz) ++ R -> page_eq (k_mem s) m' w) as F.
    { intros w Hw. eapply set_pte_page; [exact H1|exact Et|by eapply rest_page|]. intros ->. eapply rest_not_pt; [exact H1|exact Hw|]. eapply table_in; [apply PDX_range|done]. }
    destruct (image_up _ _ _ _ _ _ I) as [[B0 B] A].
    assert (forall x, 0 <= x < PGROUNDUP sz -> is_u32 x) as Hx32 by (intros; unfold is_u32, KERNBASE in *; lia).
    assert (forall x, 0 <= x < PGROUNDUP sz -> page_of m' d x = page_of (k_mem s) d x) as Pg.
    { intros x Hx. unfold page_of at 1. rewrite L by auto. destruct (decide (va / PGSIZE = x / PGSIZE)) as [Eq|Ne]; [|done].
      rewrite mapped_value, PTE_ADDR_add by (done || unfold PGSIZE; lia). change (mapped 3) with true. cbv iota. rewrite <- (page_of_page _ _ _ _ Eq), Hpg. f_equal. apply P2V_V2P. by eapply page_u32. }
    assert (range_pages m' d 0 (PGROUNDUP sz) = range_pages (k_mem s) d 0 (PGROUNDUP sz)) as Er by (apply omap_ext_in; intros x [Hx _]%elem_of_pages_range; [by apply Pg|done]).
    assert (pt_pages m' d = pt_pages (k_mem s) d) as Ep by (symmetry; apply pt_pages_ext; eapply set_pte_dir; [exact H1|exact Et]).
    split; cbn [k_mem set_mem k_end]; rewrite ?Er, ?Ep; try done.
    + apply (set_pte_inv _ _ _ _ _ H1 va t (V2P v + 3) Et).
    + intros vb Hvb. rewrite L by (unfold is_u32, KERNBASE in *; lia). rewrite decide_False; [by apply H5|]. unfold PGSIZE in *. clear -Hva Hvb A. Z.div_mod_to_equations. lia.
    + intros vb Hvb. rewrite L by (unfold is_u32, KERNBASE in *; lia). rewrite decide_False; [by apply H5'|]. unfold PGSIZE in *. clear -Hva Hvb A B. Z.div_mod_to_equations. lia.
    + intros x Hx. destruct (H6 x Hx) as (w & W1 & W2 & W3). exists w. rewrite L, Pg by auto. split; [|split; [done|]].
      * rewrite (proj2 (Z.eqb_neq (PGROUNDDOWN x) (-1))) in W1 by (rewrite PGROUNDDOWN_eq; unfold PGSIZE; clear -Hx; Z.div_mod_to_equations; lia).
        destruct (decide (va / PGSIZE = x / PGSIZE)) as [Eq|Ne].
        -- assert (PGROUNDDOWN x = va) as -> by (rewrite PGROUNDDOWN_eq, <- Eq; unfold PGSIZE in *; clear -Hal; Z.div_mod_to_equations; lia). rewrite Z.eqb_refl.
           apply (page_of_page (k_mem s) d) in Eq. congruence.
        -- rewrite (proj2 (Z.eqb_neq (PGROUNDDOWN x) va)); [done|]. intros E'. apply Ne. rewrite <- E'. apply PGROUNDDOWN_page.
      * destruct (image_page _ _ _ _ _ _ _ _ I Hx W2) as [Hin' _]. rewrite <- W3. symmetry. apply (F w); [rewrite elem_of_app; by left|]. unfold in_page. pose proof (Z.mod_pos_bound x PGSIZE eq_refl). lia.
    + intros w Hw. eapply page_eq_trans; [by apply H8|]. apply F. rewrite elem_of_app. by right.
Qed.

(** ** Copying out *)

Lemma uva2ka_image d sz g f s l va v : image d sz g f s l -> 0 <= va < PGROUNDUP sz -> page_of (k_mem s) d va = Some v ->
  uva2ka d va s = Ok (if PGROUNDDOWN va =? g then 0 else v) s.
Proof.
  intros I Hva Hv. destruct (image_walk _ _ _ _ _ _ va I Hva) as (t & v' & Et & Ew & Hnz & Hpt & El & Hpg & Hpok & Hin). assert (v' = v) as -> by congruence.
  pose proof (page_phys_aligned _ _ Hpok) as Hal. unfold uva2ka. mstep Ew. mstep El. rewrite mapped_lor.
  destruct (PGROUNDDOWN va =? g).
  - rewrite mapped_value by (done || unfold PGSIZE; lia). change (mapped 3) with true. cbn [negb].
    pose proof (flag_value v 3 PTE_U Hal ltac:(unfold PGSIZE; lia) ltac:(unfold PGSIZE, PTE_U; lia)) as Hf. change (flag 3 PTE_U) with false in Hf. apply negb_false_iff in Hf. by rewrite Hf.
  - rewrite mapped_value by (done || unfold PGSIZE; lia). change (mapped 7) with true. cbn [negb].
    pose proof (flag_value v 7 PTE_U Hal ltac:(unfold PGSIZE; lia) ltac:(unfold PGSIZE, PTE_U; lia)) as Hf. change (flag 7 PTE_U) with true in Hf. apply negb_true_iff in Hf. rewrite Hf.
    rewrite PTE_ADDR_add by (done || unfold PGSIZE; lia). rewrite P2V_V2P by (by eapply page_u32). done.
Qed.
(** The devices at the top of memory are not for the user. *)
Lemma uva2ka_device d sz g f s l va : image d sz g f s l -> DEVSPACE <= va < 2 ^ 32 -> uva2ka d va s = Ok 0 s.
Proof.
  intros I Hva. pose proof (im_inv _ _ _ _ _ _ I) as H. pose proof (im_kern _ _ _ _ _ _ I va ltac:(unfold KERNBASE, DEVSPACE in *; lia)) as L.
  rewrite kvm_entry_eq in L by (done || (unfold is_u32, DEVSPACE in *; lia)). destruct Hdata as [D1 D2 D3].
  rewrite !decide_False, decide_True in L by (unfold KERNLINK, KERNBASE, EXTMEM, DEVSPACE, PHYSTOP in *; lia).
  assert (exists t, table (k_mem s) d (PDX va) = Some t) as [t Et].
  { destruct (table (k_mem s) d (PDX va)) as [t|] eqn:E; [by exists t|]. unfold lookup in L. rewrite E in L. pose proof (PGROUNDDOWN_bounds va). change (Z.lor PTE_P PTE_W) with 3 in L. unfold DEVSPACE, PGSIZE in *. lia. }
  assert (page_ok (k_end s) t) as Ht by (eapply table_page; [exact H|apply PDX_range|done]).
  unfold uva2ka. mstep walkpgdir_lookup; [|exact H]. rewrite Et. mstep kload_slot; [|exact Ht|apply PTX_range]. rewrite (lookup_table _ _ _ _ Et), L, mapped_lor.
  change (Z.lor PTE_P PTE_W) with 3. rewrite mapped_flags, PTE_FLAGS_add by (try apply PGROUNDDOWN_aligned; unfold PGSIZE; lia). change (mapped 3) with true. cbn [negb].
  assert (flag (PGROUNDDOWN va + 3) PTE_U = false) as Hf.
  { rewrite flag_low by (unfold PGSIZE, PTE_U; lia). rewrite PTE_FLAGS_add by (try apply PGROUNDDOWN_aligned; unfold PGSIZE; lia). done. }
  unfold flag in Hf. apply negb_false_iff in Hf. by rewrite Hf.
Qed.

Lemma image_ext d sz g f f' s l : (forall a, f a = f' a) -> image d sz g f s l -> image d sz g f' s l.
Proof.
  intros E [H1 H2 H3 H4 H5 H5' H6 H7 H8]. split; try done.
  - intros va Hva. destruct (H6 va Hva) as (v & L1 & L2 & L3). exists v. by rewrite <- E.
  - intros va Hva. rewrite <- E. by apply H7.
Qed.
Lemma with_bytes_app f va b1 b2 a : with_bytes (with_bytes f va b1) (va + Z.of_nat (length b1)) b2 a = with_bytes f va (b1 ++ b2) a.
Proof.
  unfold with_bytes, byte_at. rewrite length_app. destruct (decide (va + Z.of_nat (length b1) <= a < va + Z.of_nat (length b1) + Z.of_nat (length b2))).
  - rewrite decide_True by lia. rewrite app_nth2 by lia. do 2 f_equal. lia.
  - destruct (decide (va <= a < va + Z.of_nat (length b1))); [rewrite decide_True by lia; by rewrite app_nth1 by lia|by rewrite decide_False by lia].
Qed.

Definition meets (g va n : Z) : Prop := va < g + PGSIZE /\ g < va + n.
Lemma copyout_loop_ok d sz g l : g `mod` PGSIZE = 0 -> forall fuel va bs f s, image d sz g f s l -> 0 <= va -> va + Z.of_nat (length bs) <= PGROUNDUP sz ->
  (va `mod` PGSIZE + Z.of_nat (length bs) + PGSIZE - 1) / PGSIZE < Z.of_nat fuel ->
  exists s' f', (image d sz g f' s' l /\ copyout_loop fuel d va bs s = Ok 0 s' /\ ~ (bs <> [] /\ meets g va (Z.of_nat (length bs))) /\ forall a, f' a = with_bytes f va bs a) \/
    (image d sz g f' s' l /\ copyout_loop fuel d va bs s = Ok (-1) s' /\ bs <> [] /\ meets g va (Z.of_nat (length bs))).
Proof.
  intros Hg. induction fuel as [|fuel IH]; intros va bs f s I Hva Hle Hf.
  { exfalso. pose proof (Z.mod_pos_bound va PGSIZE eq_refl). unfold PGSIZE in *. clear -Hf H. Z.div_mod_to_equations. lia. }
  cbn [copyout_loop]. destruct bs as [|b bs].
  { exists s, f. left. split; [done|]. split; [done|]. split; [by intros [? _]|]. intros a. unfold with_bytes. rewrite decide_False by (cbn; lia). done. }
  set (L := b :: bs) in *. assert (0 < length L)%nat as Hl by (cbn; lia). rewrite (proj2 (Nat.ltb_lt _ _) Hl).
  pose proof (PGROUNDDOWN_bounds va) as B. pose proof (PGROUNDDOWN_aligned va) as A. assert (va `mod` PGSIZE = va - PGROUNDDOWN va) as Em by (rewrite PGROUNDDOWN_eq; unfold PGSIZE; Z.div_mod_to_equations; lia).
  destruct (image_up _ _ _ _ _ _ I) as [[_ Bt] At].
  assert (0 <= PGROUNDDOWN va < PGROUNDUP sz) as Hdn by (rewrite PGROUNDDOWN_eq; unfold PGSIZE in *; clear -Hva Hle Hl; Z.div_mod_to_equations; lia).
  destruct (im_in _ _ _ _ _ _ I va ltac:(lia)) as (v & _ & Hpg & _). assert (page_of (k_mem s) d (PGROUNDDOWN va) = Some v) as Hpg' by (rewrite <- Hpg; apply page_of_page, PGROUNDDOWN_page).
  rewrite (bind_Ok _ _ _ _ _ (uva2ka_image _ _ _ _ _ _ _ _ I Hdn Hpg')). rewrite (PGROUNDDOWN_id (PGROUNDDOWN va)) by done.
  destruct (Z.eqb_spec (PGROUNDDOWN va) g) as [Eg|Ng].
  { exists s, f. right. split; [done|]. split; [done|]. split; [done|]. unfold meets. lia. }
  destruct (image_page _ _ _ _ _ _ va v I ltac:(lia) Hpg) as [_ Hok]. rewrite (proj2 (Z.eqb_neq v 0)) by (by eapply page_nonzero).
  set (room := PGSIZE - (va - PGROUNDDOWN va)). set (n := if Z.of_nat (length L) <? room then Z.of_nat (length L) else room).
  assert (0 < room <= PGSIZE) as Hroom by (unfold room; lia).
  assert (0 < n <= Z.of_nat (length L) /\ n <= room) as [Hn1 Hn2] by (unfold n; destruct (Z.ltb_spec (Z.of_nat (length L)) room); lia).
  rewrite <- Em. destruct (image_write _ _ _ _ _ _ va v (take (Z.to_nat n) L) I ltac:(lia) Hpg) as (s1 & E1 & I1 & _).
  { rewrite length_take. unfold room in *. lia. }
  rewrite (bind_Ok _ _ _ _ _ E1). assert (Z.of_nat (length (take (Z.to_nat n) L)) = n) as Ln by (rewrite length_take; lia).
  rewrite u32_small by (unfold is_u32, PGSIZE, KERNBASE in *; lia).
  destruct (decide (Z.of_nat (length L) <= room)) as [Hfit|Hmore].
  - assert (n = Z.of_nat (length L)) as En by (unfold n; destruct (Z.ltb_spec (Z.of_nat (length L)) room); lia). rewrite En, Nat2Z.id, drop_all. rewrite En, Nat2Z.id, firstn_all in I1.
    destruct fuel as [|fuel]; [exfalso; clear -Hf Hl Em; pose proof (Z.mod_pos_bound va PGSIZE eq_refl); unfold PGSIZE in *; Z.div_mod_to_equations; lia|]. cbn [copyout_loop length].
    exists s1, (with_bytes f va L). left. split; [done|]. split; [done|]. split; [|done]. intros [_ [M1 M2]]. apply Ng. unfold room, PGSIZE in *. clear -A Hg M1 M2 Hfit B. Z.div_mod_to_equations. lia.
  - assert (n = room) as En by (unfold n; destruct (Z.ltb_spec (Z.of_nat (length L)) room); lia). assert (PGROUNDDOWN va + PGSIZE = va + n) as Ev by (unfold room in En; lia). rewrite Ev.
    assert (Z.of_nat (length (drop (Z.to_nat n) L)) = Z.of_nat (length L) - n) as Ld by (rewrite length_drop; lia).
    destruct (IH (va + n) (drop (Z.to_nat n) L) _ s1 I1) as (s2 & f2 & O); [lia|lia| |].
    { rewrite Ld. assert ((va + n) `mod` PGSIZE = 0) as -> by (rewrite <- Ev; by apply (aligned_add _ 1)). unfold room in En. clear -Hf Em En Hmore. unfold PGSIZE in *. Z.div_mod_to_equations. lia. }
    assert (forall a, with_bytes (with_bytes f va (take (Z.to_nat n) L)) (va + n) (drop (Z.to_nat n) L) a = with_bytes f va L a) as Ew.
    { intros a. rewrite <- Ln at 2. rewrite with_bytes_app. by rewrite take_drop. }
    assert (drop (Z.to_nat n) L <> []) as Hne by (intros E0; apply (f_equal length) in E0; rewrite length_drop in E0; change (length (@nil Z)) with 0%nat in E0; lia).
    assert (meets g (va + n) (Z.of_nat (length L) - n) <-> meets g va (Z.of_nat (length L))) as Hm.
    { unfold meets. split; intros [M1 M2]; (split; [|lia]); [lia|]. assert (g <> PGROUNDDOWN va) by done. unfold PGSIZE in *. clear -A Hg M1 M2 H B Ev Hva. Z.div_mod_to_equations. lia. }
    exists s2, f2. rewrite Ld in O. destruct O as [(I2 & E2 & M & Ef)|(I2 & E2 & _ & M)]; [left|right].
    + split; [done|]. split; [done|]. split; [intros [_ M']; apply M; split; [done|by apply Hm]|]. intros a. by rewrite Ef.
    + split; [done|]. split; [done|]. split; [done|]. by apply Hm.
Qed.
Lemma copyout_ok d sz g f s l va bs : g `mod` PGSIZE = 0 -> image d sz g f s l -> 0 <= va -> va + Z.of_nat (length bs) <= PGROUNDUP sz -> bs <> [] ->
  exists s', (copyout d va bs s = Ok 0 s' /\ image d sz g (with_bytes f va bs) s' l /\ ~ meets g va (Z.of_nat (length bs))) \/
    (copyout d va bs s = Ok (-1) s' /\ (exists f', image d sz g f' s' l) /\ meets g va (Z.of_nat (length bs))).
Proof.
  intros Hg I Hva Hle Hne. destruct (copyout_loop_ok d sz g l Hg (S (S (length bs / 4096 + 1))) va bs f s I Hva Hle) as (s' & f' & O).
  { rewrite !Nat2Z.inj_succ, Nat2Z.inj_add, Nat2Z.inj_div. change (Z.of_nat 4096) with 4096. change (Z.of_nat 1) with 1. pose proof (Z.mod_pos_bound va PGSIZE eq_refl). unfold PGSIZE in *. clear -H. Z.div_mod_to_equations. lia. }
  exists s'. destruct O as [(I' & E & M & Ef)|(I' & E & _ & M)]; [left|right; split; [done|]; split; [by exists f'|done]].
  split; [done|]. split; [by eapply image_ext|]. intros M'. by apply M.
Qed.
(** Above the devices nothing is copied. *)
Lemma copyout_refused d sz g f s l va bs : image d sz g f s l -> DEVSPACE <= va < 2 ^ 32 -> bs <> [] -> copyout d va bs s = Ok (-1) s.
Proof.
  intros I Hva Hne. unfold copyout. cbn [copyout_loop]. assert (0 < length bs)%nat as Hl by (destruct bs; [done|cbn; lia]). rewrite (proj2 (Nat.ltb_lt _ _) Hl).
  rewrite (bind_Ok _ _ _ _ _ (uva2ka_device _ _ _ _ _ _ (PGROUNDDOWN va) I ltac:(pose proof (PGROUNDDOWN_bounds va); rewrite PGROUNDDOWN_eq in *; unfold DEVSPACE, PGSIZE in *; clear -Hva; Z.div_mod_to_equations; lia))). done.
Qed.
End image.
