(* ===== verification/ExecLoad.v ===== *)
(** * Loading a program

    The loops of exec over the segments of the file and over the arguments, against
    reference functions that compute the bytes of the image. *)

From S2P Require Import Prelude Cstring Spinlock Kalloc PageTable Uvm Encrypt Exec ExecImage.

(** ** The reference *)

(** The segments of the program headers from [off] on: the size and the bytes of the image. *)
Fixpoint ref_segments (n : nat) (c : list Z) (off sz : Z) (f : Z -> Z) : option (Z * (Z -> Z)) :=
  match n with
  | O => Some (sz, f)
  | S n' =>
    let '(r, bs) := read_of c off PROGHDR in
    if negb (r =? PROGHDR) then None else
    let ph := ph_of bs in
    let next := u32 (off + PROGHDR) in
    if negb (p_type ph =? ELF_PROG_LOAD) then ref_segments n' c next sz f else
    let top := p_vaddr ph + p_memsz ph in
    if (p_memsz ph <? p_filesz ph) || (KERNBASE <=? top) || (Z.max sz top =? 0) || negb (p_vaddr ph `mod` PGSIZE =? 0) ||
       ((0 <? p_filesz ph) && (Z.of_nat (length c) <? p_off ph + p_filesz ph)) then None
    else ref_segments n' c next (Z.max sz top) (with_bytes f (p_vaddr ph) (take (Z.to_nat (p_filesz ph)) (drop (Z.to_nat (p_off ph)) c)))
  end.
(** The argument strings from [sp] down, not below [base]. *)
Fixpoint ref_args (base : Z) (argc : nat) (sp : Z) (argv : list (list Z)) (ptrs : list Z) (f : Z -> Z) : option (Z * list Z * (Z -> Z)) :=
  match argv with
  | [] => Some (sp, ptrs, f)
  | s :: argv' =>
    let sp' := 4 * ((sp - (Z.of_nat (length s) + 1)) / 4) in
    if (MAXARG <=? argc)%nat || (sp' <? base) then None
    else ref_args base (argc + 1) sp' argv' (ptrs ++ [sp']) (with_bytes f sp' (s ++ [0]))
  end.

(** The stack above an image of size [sz]: the new size, the guard page, the stack pointer. *)
Definition ref_stack (sz : Z) (argv : list (list Z)) (f : Z -> Z) : option (Z * Z * Z * (Z -> Z)) :=
  let g := PGROUNDUP sz in
  let top := g + 2 * PGSIZE in
  if KERNBASE <=? top then None else
  match ref_args (g + PGSIZE) 0 top argv [] f with
  | None => None
  | Some (sp, ptrs, f') =>
    let sp' := sp - (3 + Z.of_nat (length ptrs) + 1) * 4 in
    if sp' <? g + PGSIZE then None else Some (top, g, sp', with_bytes f' sp' (ustack sp ptrs ≫= le32))
  end.
(** What is run: its size, guard page, first instruction, stack pointer and bytes. *)
Record program := Program { pr_sz : Z; pr_guard : Z; pr_entry : Z; pr_sp : Z; pr_byte : Z -> Z }.
Definition ref_exec (c : list Z) (argv : list (list Z)) : option program :=
  let '(r, bs) := read_of c 0 ELFHDR in
  let elf := elf_of bs in
  if negb (r =? ELFHDR) || negb (magic elf =? ELF_MAGIC) then None else
  match ref_segments (Z.to_nat (phnum elf)) c (phoff elf) 0 (fun _ => 0) with
  | None => None
  | Some (sz, f) =>
    match ref_stack sz argv f with
    | None => None
    | Some (sz', g, sp, f') => Some (Program sz' g (entry elf) sp f')
    end
  end.

Lemma ref_segments_mono n c : forall off sz f sz' f', ref_segments n c off sz f = Some (sz', f') -> sz <= sz'.
Proof.
  induction n as [|n IH]; intros off sz f sz' f' E; cbn [ref_segments] in E; [by simplify_eq|]. destruct (read_of c off PROGHDR) as [r bs].
  destruct (negb (r =? PROGHDR)); [done|]. destruct (negb (p_type _ =? _)); [by eapply IH|]. destruct (_ || _); [done|]. apply IH in E. lia.
Qed.
Lemma byte_at_range bs i : Forall (fun b => 0 <= b < 256) bs -> 0 <= byte_at bs i < 256.
Proof.
  intros H. unfold byte_at. destruct (decide (Z.to_nat i < length bs)%nat) as [Hi|Hi]; [|rewrite nth_overflow by lia; lia].
  rewrite Forall_forall in H. apply H. apply list_elem_of_In, nth_In. lia.
Qed.
Lemma word_at_range bs i : Forall (fun b => 0 <= b < 256) bs -> is_u32 (word_at bs i).
Proof.
  intros H. unfold word_at, is_u32. pose proof (byte_at_range bs i H). pose proof (byte_at_range bs (i + 1) H). pose proof (byte_at_range bs (i + 2) H). pose proof (byte_at_range bs (i + 3) H). lia.
Qed.
Lemma read_bytes c off n : Forall (fun b => 0 <= b < 256) c -> Forall (fun b => 0 <= b < 256) (snd (read_of c off n)).
Proof. intros H. unfold read_of. destruct (_ || _); [constructor|]. cbn. by apply Forall_take, Forall_drop. Qed.

Section load.
Context {F : Type} {files : ExecFiles F}.
Context (me : nat) (x0 : xst F) (R l0 : list Z) (data : Z) (Hdata : data_ok data).
Notation s0 := (us_k (x_u x0)).
Notation img := (image me s0 R l0 data).

(** The states of exec before it commits. *)
Definition at_state (k : kst) (f : F) : xst F := XSt (set_k k (x_u x0)) f (x_eip x0) (x_esp x0) (x_name x0).
Lemma lk_at {A} (m : M kst A) k f a k' : m k = Ok a k' -> lk m (at_state k f) = Ok a (at_state k' f).
Proof. intros H. unfold lk, lu, zoom, lift. cbn. unfold zoom. cbn. by rewrite H. Qed.
Lemma lf_at {A} (m : M F A) k f a f' : m f = Ok a f' -> lf m (at_state k f) = Ok a (at_state k f').
Proof. intros H. unfold lf, zoom. cbn. by rewrite H. Qed.

(** What has been loaded of a segment after [i] bytes. *)
Definition loaded (c : list Z) (f : Z -> Z) (addr off i : Z) : Z -> Z := with_bytes f addr (take (Z.to_nat i) (drop (Z.to_nat off) c)).
Lemma loaded_step c f addr off i n a : 0 <= off -> 0 <= i -> 0 <= n -> off + i <= Z.of_nat (length c) ->
  with_bytes (loaded c f addr off i) (addr + i) (take (Z.to_nat n) (drop (Z.to_nat (off + i)) c)) a = loaded c f addr off (i + n) a.
Proof.
  intros Ho Hi Hn Hle. unfold loaded. assert (Z.of_nat (length (take (Z.to_nat i) (drop (Z.to_nat off) c))) = i) as El by (rewrite length_take, length_drop; lia).
  rewrite <- El at 2. rewrite with_bytes_app. unfold with_bytes. rewrite !length_app, !length_take, !length_drop.
  assert (take (Z.to_nat i) (drop (Z.to_nat off) c) ++ take (Z.to_nat n) (drop (Z.to_nat (off + i)) c) = take (Z.to_nat (i + n)) (drop (Z.to_nat off) c)) as ->.
  { rewrite !Z2Nat.inj_add by lia. rewrite <- drop_drop. by rewrite take_take_drop. }
  destruct (decide (addr <= a < addr + Z.of_nat (Init.Nat.min (Z.to_nat i) (length c - Z.to_nat off) + Init.Nat.min (Z.to_nat n) (length c - Z.to_nat (off + i))))); [rewrite decide_True by lia; done|by rewrite decide_False by lia].
Qed.

Lemma entry_frame v b : V2P v `mod` PGSIZE = 0 -> PTE_ADDR (V2P v + (if (b : bool) then 3 else 7)) = V2P v.
Proof. intros Hv. destruct b; apply PTE_ADDR_add; (done || unfold PGSIZE; lia). Qed.

Lemma loaduvm_loop_ok d sz c ip addr off fsz : is_u32 off -> is_u32 fsz -> 0 <= addr -> addr `mod` PGSIZE = 0 -> addr + fsz <= PGROUNDUP sz -> forall fuel i f0 l k fs,
  img d sz (-1) (loaded c f0 addr off (Z.min i fsz)) k l -> files_locked fs ip c -> 0 <= i -> i `mod` PGSIZE = 0 -> (0 < Z.min i fsz -> off + Z.min i fsz <= Z.of_nat (length c)) ->
  (fsz - i + PGSIZE - 1) / PGSIZE < Z.of_nat fuel -> i < fsz + PGSIZE ->
  exists r k' fs', loaduvm_loop fuel d addr ip off fsz i (at_state k fs) = Ok r (at_state k' fs') /\ files_locked fs' ip c /\
    ((r = 0 /\ img d sz (-1) (loaded c f0 addr off fsz) k' l /\ (0 < fsz -> off + fsz <= Z.of_nat (length c))) \/
     (r = -1 /\ (exists f', img d sz (-1) f' k' l) /\ 0 < fsz /\ Z.of_nat (length c) < off + fsz)).
Proof.
  intros Ho Hf Ha Hal Htop. induction fuel as [|fuel IH]; intros i f0 l k fs I Hl Hi Him Hoff Hfuel Hend.
  { exfalso. unfold PGSIZE in *. clear -Hfuel Hend. Z.div_mod_to_equations. lia. }
  cbn [loaduvm_loop]. destruct (contents_ok _ _ _ Hl) as [_ Hlen]. unfold is_u32 in Ho, Hf. destruct (Z.ltb_spec i fsz) as [Hlt|Hge].
  2: { exists 0, k, fs. rewrite Z.min_r in I, Hoff by lia. split; [done|]. split; [done|]. by left. }
  rewrite Z.min_l in I, Hoff by lia.
  destruct (image_up _ _ _ _ _ _ _ _ _ _ _ I) as [[_ Bt] At].
  assert (0 <= addr + i < PGROUNDUP sz) as Hva by lia. assert ((addr + i) `mod` PGSIZE = 0) as Hvm by (unfold PGSIZE in *; clear -Hal Him; Z.div_mod_to_equations; lia).
  rewrite (u32_small (addr + i)) by (unfold is_u32, KERNBASE in *; lia).
  destruct (image_walk _ _ _ _ _ _ _ _ _ _ _ (addr + i) I Hva) as (t & v & Et & Ew & Hnz & Hpt & El & Hpg & Hpok & Hin).
  rewrite (bind_Ok _ _ _ _ _ (lk_at _ _ fs _ _ Ew)), (proj2 (Z.eqb_neq _ _) Hnz), (bind_Ok _ _ _ _ _ (lk_at _ _ fs _ _ El)).
  pose proof (page_phys_aligned _ _ Hpok) as Hpa. rewrite entry_frame by done. rewrite P2V_V2P by (by eapply page_u32).
  set (n := if fsz - i <? PGSIZE then fsz - i else PGSIZE). assert (0 < n <= PGSIZE /\ n <= fsz - i /\ (n < PGSIZE -> n = fsz - i)) as (Hn & Hn' & Hn2) by (unfold n; destruct (Z.ltb_spec (fsz - i) PGSIZE); unfold PGSIZE in *; lia).
  assert (off + i < 2 ^ 32) as Hoi by (destruct (decide (0 < i)); [specialize (Hoff ltac:(lia)); lia|lia]). rewrite (u32_small (off + i)) by (unfold is_u32; lia).
  destruct (readi_ok fs ip c (off + i) n Hl) as (fs1 & E1 & Hl1); [unfold is_u32; lia|unfold PGSIZE in *; lia|].
  rewrite (bind_Ok _ _ _ _ _ (lf_at _ k _ _ _ E1)).
  assert (length (snd (read_of c (off + i) n)) <= Z.to_nat n)%nat as Hbs by (unfold read_of; destruct (_ || _); cbn [snd length]; [lia|]; rewrite length_take; lia).
  destruct (image_write _ _ _ _ _ _ _ _ _ _ _ (addr + i) v (snd (read_of c (off + i) n)) I Hva Hpg) as (k1 & E2 & I1 & _); [rewrite Hvm; lia|].
  rewrite Hvm, Z.add_0_r in E2. destruct (read_of c (off + i) n) as [r bs] eqn:Er. cbn [snd] in *. rewrite (bind_Ok _ _ _ _ _ (lk_at _ _ fs1 _ _ E2)).
  unfold read_of in Er. destruct ((Z.of_nat (length c) <? off + i) || (2 ^ 32 <=? off + i + n)) eqn:Ec.
  - injection Er as <- <-. rewrite (proj2 (Z.eqb_neq (-1) n)) by lia. cbn [negb]. exists (-1), k1, fs1. split; [done|]. split; [done|]. right. split; [done|]. split; [by eexists|].
    split; [lia|]. apply orb_true_iff in Ec as [Ec%Z.ltb_lt|Ec%Z.leb_le]; [lia|]. unfold PGSIZE in *. lia.
  - apply orb_false_iff in Ec as [Ec1%Z.ltb_ge Ec2%Z.leb_gt]. injection Er as <- <-. rewrite length_take, length_drop in *.
    destruct (decide (off + i + n <= Z.of_nat (length c))) as [Hfit|Hshort].
    + replace (Z.of_nat (Nat.min (Z.to_nat n) (length c - Z.to_nat (off + i)))) with n by lia. rewrite Z.eqb_refl. cbn [negb].
      rewrite (u32_small (i + PGSIZE)) by (unfold is_u32, PGSIZE, KERNBASE in *; lia).
      assert (Z.min (i + PGSIZE) fsz = i + n) as Emin by (destruct (decide (n < PGSIZE)); [specialize (Hn2 ltac:(lia)); lia|lia]).
      apply (IH (i + PGSIZE) f0 l k1 fs1); try done; try lia.
      * rewrite Emin. eapply image_ext; [|exact I1]. intros a. apply loaded_step; lia.
      * unfold PGSIZE in *; clear -Him; Z.div_mod_to_equations; lia.
      * unfold PGSIZE in *. clear -Hfuel. Z.div_mod_to_equations. lia.
    + rewrite (proj2 (Z.eqb_neq _ n)) by lia. cbn [negb]. exists (-1), k1, fs1. split; [done|]. split; [done|]. right. split; [done|]. split; [by eexists|]. lia.
Qed.
Lemma loaduvm_ok d sz c ip addr off fsz f l k fs : is_u32 off -> is_u32 fsz -> 0 <= addr -> addr `mod` PGSIZE = 0 -> addr + fsz <= PGROUNDUP sz ->
  img d sz (-1) f k l -> files_locked fs ip c ->
  exists r k' fs', loaduvm d addr ip off fsz (at_state k fs) = Ok r (at_state k' fs') /\ files_locked fs' ip c /\
    ((r = 0 /\ img d sz (-1) (loaded c f addr off fsz) k' l /\ (0 < fsz -> off + fsz <= Z.of_nat (length c))) \/
     (r = -1 /\ (exists f', img d sz (-1) f' k' l) /\ 0 < fsz /\ Z.of_nat (length c) < off + fsz)).
Proof.
  intros Ho Hf Ha Hal Htop I Hl. unfold loaduvm. rewrite Hal. cbn [Z.eqb negb]. unfold is_u32 in Hf.
  apply (loaduvm_loop_ok d sz c ip addr off fsz Ho Hf Ha Hal Htop _ 0 f l); try done.
  - eapply image_ext; [|exact I]. intros a. unfold loaded. rewrite Z.min_l by lia. change (take (Z.to_nat 0) _) with (@nil Z). unfold with_bytes. cbn [length]. by rewrite decide_False by lia.
  - lia.
  - unfold PGSIZE. rewrite !Nat2Z.inj_succ, Z2Nat.id by (apply Z.div_pos; lia). Z.div_mod_to_equations. lia.
  - unfold PGSIZE. lia.
Qed.

Notation too_few := (too_few l0).

(** ** The segments *)

Ltac bad k fs l := exists None, k, fs, l; split; [done|]; split; [done|]; split; [by do 2 eexists|done].
Lemma grow_or_keep d sz f k l top : img d sz (-1) f k l -> 0 <= top < KERNBASE -> 0 < Z.max sz top ->
  exists r k' l', allocuvm d sz top k = Ok r k' /\ (u32 r = Z.max sz top /\ img d (Z.max sz top) (-1) f k' l' \/ u32 r = 0 /\ img d sz (-1) f k' l' /\ too_few (Z.max sz top)).
Proof.
  intros I Ht Hm. pose proof (im_sz _ _ _ _ _ _ _ _ _ _ _ I) as Hsz. destruct (Z.ltb_spec top sz) as [Hlt|Hge].
  - exists (s32 sz), k, l. split.
    + unfold allocuvm. rewrite (proj2 (Z.leb_gt KERNBASE top)) by lia. by rewrite (proj2 (Z.ltb_lt top sz)) by lia.
    + left. rewrite Z.max_l by lia. split; [|done]. unfold u32, s32, KERNBASE in *. Z.div_mod_to_equations. lia.
  - rewrite Z.max_r in * by lia. destruct (image_grow _ _ _ _ _ _ _ _ _ _ top I ltac:(lia)) as (r & k' & l' & E & O). exists r, k', l'. split; [done|].
    destruct O as [[-> I']|(-> & I' & T)]; [left|right].
    + split; [|done]. apply u32_small. unfold is_u32, KERNBASE in *. lia.
    + by split.
Qed.

Lemma exec_segments_ok d c ip n : forall off sz f l k fs, img d sz (-1) f k l -> files_locked fs ip c -> is_u32 off ->
  exists r k' fs' l', exec_segments n d ip off sz (at_state k fs) = Ok r (at_state k' fs') /\ files_locked fs' ip c /\
    match r with
    | Some sz' => exists f', ref_segments n c off sz f = Some (sz', f') /\ img d sz' (-1) f' k' l'
    | None => (exists sz' f', img d sz' (-1) f' k' l') /\ (forall sz' f', ref_segments n c off sz f = Some (sz', f') -> too_few sz')
    end.
Proof.
  induction n as [|n IH]; intros off sz f l k fs I Hl Hoff; cbn [exec_segments ref_segments].
  { exists (Some sz), k, fs, l. split; [done|]. split; [done|]. by exists f. }
  destruct (contents_ok _ _ _ Hl) as [Hc Hlen]. destruct (readi_ok fs ip c off PROGHDR Hl Hoff) as (fs1 & E1 & Hl1); [unfold PROGHDR; lia|].
  rewrite (bind_Ok _ _ _ _ _ (lf_at _ k _ _ _ E1)). pose proof (read_bytes c off PROGHDR Hc) as Hb. destruct (read_of c off PROGHDR) as [r bs]. cbn [snd] in Hb.
  destruct (Z.eqb_spec r PROGHDR); cbn [negb]; [|bad k fs1 l].
  pose proof (word_at_range bs 4 Hb) as Ho4. pose proof (word_at_range bs 8 Hb) as Hv. pose proof (word_at_range bs 16 Hb) as Hfz. pose proof (word_at_range bs 20 Hb) as Hmz.
  change (word_at bs 4) with (p_off (ph_of bs)) in Ho4. change (word_at bs 8) with (p_vaddr (ph_of bs)) in Hv. change (word_at bs 16) with (p_filesz (ph_of bs)) in Hfz. change (word_at bs 20) with (p_memsz (ph_of bs)) in Hmz.
  set (ph := ph_of bs) in *. assert (is_u32 (u32 (off + PROGHDR))) as Hoff' by (unfold is_u32, u32; apply Z.mod_pos_bound; lia).
  destruct (Z.eqb_spec (p_type ph) ELF_PROG_LOAD); cbn [negb]; [|by apply (IH _ _ _ l)].
  unfold is_u32 in Hv, Hfz, Hmz. destruct (Z.ltb_spec (p_memsz ph) (p_filesz ph)); cbn [orb]; [bad k fs1 l|].
  destruct (Z.ltb_spec (u32 (p_vaddr ph + p_memsz ph)) (p_vaddr ph)) as [Hw|Hw].
  { assert (KERNBASE <= p_vaddr ph + p_memsz ph) as Hk by (unfold u32, KERNBASE in *; clear -Hw Hv Hmz; Z.div_mod_to_equations; lia).
    rewrite (proj2 (Z.leb_le _ _) Hk). bad k fs1 l. }
  assert (u32 (p_vaddr ph + p_memsz ph) = p_vaddr ph + p_memsz ph) as Etop by (unfold u32 in *; clear -Hw Hv Hmz; Z.div_mod_to_equations; lia). rewrite Etop.
  set (top := p_vaddr ph + p_memsz ph) in *. destruct (Z.leb_spec KERNBASE top) as [Hk|Hk]; cbn [orb].
  { rewrite (bind_Ok _ _ _ 0 (at_state k fs1)) by (apply lk_at; unfold allocuvm; by rewrite (proj2 (Z.leb_le _ _) Hk)). change (u32 0 =? 0) with true. bad k fs1 l. }
  pose proof (im_sz _ _ _ _ _ _ _ _ _ _ _ I) as Hsz. destruct (Z.eqb_spec (Z.max sz top) 0) as [H0|H0]; cbn [orb].
  { assert (sz = 0 /\ top = 0) as [-> E0] by lia. rewrite E0. rewrite (bind_Ok _ _ _ 0 (at_state k fs1)) by (by apply lk_at). change (u32 0 =? 0) with true. bad k fs1 l. }
  destruct (grow_or_keep d sz f k l top I) as (r2 & k2 & l2 & E2 & O2); [lia|lia|]. rewrite (bind_Ok _ _ _ _ _ (lk_at _ _ fs1 _ _ E2)).
  destruct O2 as [[-> I2]|(-> & I2 & Hr)].
  2: { change (0 =? 0) with true. exists None, k2, fs1, l2. split; [done|]. split; [done|]. split; [by do 2 eexists|]. intros sz' f' E'. destruct (_ || _); [done|].
       eapply too_few_mono; [by eapply ref_segments_mono|done]. }
  rewrite (proj2 (Z.eqb_neq _ _) H0). destruct (Z.eqb_spec (p_vaddr ph `mod` PGSIZE) 0) as [Hal|]; cbn [negb orb]; [|bad k2 fs1 l2].
  destruct (image_up _ _ _ _ _ _ _ _ _ _ _ I2) as [[B1 B2] _].
  destruct (loaduvm_ok d (Z.max sz top) c ip (p_vaddr ph) (p_off ph) (p_filesz ph) f l2 k2 fs1) as (r3 & k3 & fs3 & E3 & Hl3 & O3); auto; [lia|lia|].
  rewrite (bind_Ok _ _ _ _ _ E3). destruct O3 as [(-> & I3 & Hfit)|(-> & [f3 I3] & Hpos & Hshort)].
  - change (0 <? 0) with false. cbv iota. replace ((0 <? p_filesz ph) && (Z.of_nat (length c) <? p_off ph + p_filesz ph)) with false.
    2: { symmetry. apply andb_false_iff. destruct (decide (0 < p_filesz ph)); [right; apply Z.ltb_ge; auto|left; apply Z.ltb_ge; lia]. }
    by apply (IH _ _ _ l2).
  - change (-1 <? 0) with true. cbv iota. rewrite (proj2 (Z.ltb_lt _ _) Hpos), (proj2 (Z.ltb_lt _ _) Hshort). bad k3 fs3 l2.
Qed.

(** ** The stack *)

Lemma image_round d sz f k l : img d sz (-1) f k l -> PGROUNDUP sz < KERNBASE -> img d (PGROUNDUP sz) (-1) f k l /\ PGROUNDUP (PGROUNDUP sz) = PGROUNDUP sz.
Proof.
  intros I Hlt. destruct (image_up _ _ _ _ _ _ _ _ _ _ _ I) as [[B1 B2] A]. pose proof (im_sz _ _ _ _ _ _ _ _ _ _ _ I) as Hsz.
  assert (PGROUNDUP (PGROUNDUP sz) = PGROUNDUP sz) as E.
  { pose proof (PGROUNDUP_bounds (PGROUNDUP sz) ltac:(lia) ltac:(unfold PGSIZE, KERNBASE in *; lia)) as B3. pose proof (PGROUNDUP_aligned (PGROUNDUP sz)) as A3.
    unfold PGSIZE in *. clear -A B3 A3. Z.div_mod_to_equations. lia. }
  split; [|done]. destruct I as [H1 H2 H3 H4 H5 H5' H6 H7 H8]. split; rewrite ?E; try done. lia.
Qed.
Lemma land_align x : Z.land x (Z.lnot 3) = 4 * (x / 4).
Proof.
  change 3 with (Z.ones 2). rewrite <- Z.ldiff_land, Z.ldiff_ones_r by lia. rewrite Z.shiftl_mul_pow2, Z.shiftr_div_pow2 by lia. change (2 ^ 2) with 4. lia.
Qed.

(** The image with its stack: two pages, the lower one the guard page. *)
Definition has_stack (sz g : Z) : Prop := g `mod` PGSIZE = 0 /\ 0 <= g /\ sz = g + 2 * PGSIZE /\ PGROUNDUP sz = sz /\ sz < KERNBASE.
Lemma copyout_stack d sz g f k l va bs : has_stack sz g -> img d sz g f k l -> 0 <= va -> va + Z.of_nat (length bs) <= sz -> g < va + Z.of_nat (length bs) -> bs <> [] ->
  exists k', if va <? g + PGSIZE then copyout d va bs k = Ok (-1) k' /\ exists f', img d sz g f' k' l
    else copyout d va bs k = Ok 0 k' /\ img d sz g (with_bytes f va bs) k' l.
Proof.
  intros (Hg & Hg0 & Hs & Hup & Hk) I Hva Hle Hlo Hne. destruct (copyout_ok _ _ _ _ _ _ _ _ _ _ _ va bs Hg I Hva ltac:(lia) Hne) as (k' & O). exists k'. unfold meets in O.
  destruct (Z.ltb_spec va (g + PGSIZE)); destruct O as [(E & I' & M)|(E & I' & M)]; try done; exfalso; [apply M|]; lia.
Qed.

Definition short_args (argv : list (list Z)) : Prop := Forall (fun s => Z.of_nat (length s) < 2 ^ 24) argv.
Lemma push_args_ok d sz g l fs argv : has_stack sz g -> short_args argv -> forall argc sp ptrs f k, img d sz g f k l -> g + PGSIZE <= sp <= sz ->
  exists r k', push_args argc d sp argv ptrs (at_state k fs) = Ok r (at_state k' fs) /\
    match r with
    | Some (sp', ptrs') => exists f', ref_args (g + PGSIZE) argc sp argv ptrs f = Some (sp', ptrs', f') /\ img d sz g f' k' l /\ g + PGSIZE <= sp' <= sp
    | None => (exists f', img d sz g f' k' l) /\ ref_args (g + PGSIZE) argc sp argv ptrs f = None
    end.
Proof.
  intros Hst. pose proof Hst as (Hg & Hg0 & Hs & Hup & Hk). induction 1 as [|s argv Hlen Hargs IH]; intros argc sp ptrs f k I Hsp; cbn [push_args ref_args].
  { exists (Some (sp, ptrs)), k. split; [done|]. exists f. split; [done|]. split; [done|]. lia. }
  destruct (MAXARG <=? argc)%nat; cbn [orb]; [exists None, k; split; [done|]; split; [by eexists|done]|].
  set (x := sp - (Z.of_nat (length s) + 1)). rewrite land_align. assert (s ++ [0] <> []) as Hne by (by destruct s).
  assert (Z.of_nat (length (s ++ [0])) = Z.of_nat (length s) + 1) as El by (rewrite length_app; cbn [length]; lia). unfold PGSIZE, KERNBASE in *.
  destruct (Z.ltb_spec x 0) as [Hneg|Hpos].
  - assert (4 * (x / 4) < g + 4096) as Hlow by (clear -Hneg Hg0; Z.div_mod_to_equations; lia). rewrite (proj2 (Z.ltb_lt _ _) Hlow).
    exists None, k. split; [|split; [by eexists|done]].
    rewrite (bind_Ok _ _ _ _ _ (lk_at _ _ fs _ _ (copyout_refused _ _ _ _ _ Hdata _ _ _ _ _ _ (4 * (u32 x / 4)) _ I ltac:(unfold u32, DEVSPACE, x in *; clear -Hneg Hlen Hsp Hg0; Z.div_mod_to_equations; lia) Hne))). done.
  - rewrite (u32_small x) by (unfold is_u32, x in *; lia). set (sp' := 4 * (x / 4)). assert (x - 3 <= sp' <= x) as Hx by (unfold sp'; clear; Z.div_mod_to_equations; lia).
    destruct (copyout_stack d sz g f k l sp' (s ++ [0]) Hst I) as (k' & O); [unfold sp'; clear -Hpos; Z.div_mod_to_equations; lia|lia|lia|done|]. unfold PGSIZE in *.
    destruct (Z.ltb_spec sp' (g + 4096)) as [Hlow|Hhigh].
    + destruct O as [E I']. rewrite (bind_Ok _ _ _ _ _ (lk_at _ _ fs _ _ E)). change (-1 <? 0) with true. exists None, k'. by split.
    + destruct O as [E I']. rewrite (bind_Ok _ _ _ _ _ (lk_at _ _ fs _ _ E)). change (0 <? 0) with false. cbv iota.
      destruct (IH (argc + 1)%nat sp' (ptrs ++ [sp']) _ k' I' ltac:(lia)) as (r & k2 & E2 & O2). exists r, k2. split; [done|]. destruct r as [[sp2 ptrs2]|]; [|done].
      destruct O2 as (f2 & R2 & I2 & B2). exists f2. split; [done|]. split; [done|]. lia.
Qed.

Lemma ref_args_length base argv : forall argc sp ptrs f sp' ptrs' f', length ptrs = argc -> (argc <= MAXARG)%nat ->
  ref_args base argc sp argv ptrs f = Some (sp', ptrs', f') -> (length ptrs' <= MAXARG)%nat.
Proof.
  induction argv as [|s argv IH]; intros argc sp ptrs f sp' ptrs' f' Hl Hm E; cbn [ref_args] in E.
  - by simplify_eq.
  - destruct (Nat.leb_spec MAXARG argc); [done|]. cbn [orb] in E. destruct (_ <? base); [done|]. eapply (IH (argc + 1)%nat); [|lia|exact E]. rewrite length_app. cbn [length]. lia.
Qed.
Lemma ustack_bytes ws : length (ws ≫= le32) = (4 * length ws)%nat.
Proof. induction ws as [|w ws IH]; [done|]. cbn [mbind list_bind] in *. rewrite length_app, IH. cbn [length le32]. lia. Qed.
Lemma ustack_length sp ptrs : Z.of_nat (length (ustack sp ptrs ≫= le32)) = (3 + Z.of_nat (length ptrs) + 1) * 4.
Proof. rewrite ustack_bytes. unfold ustack. rewrite !length_app. cbn [length]. lia. Qed.

Lemma exec_stack_ok d sz f l k fs argv : short_args argv -> img d sz (-1) f k l ->
  exists r k' l', exec_stack d sz argv (at_state k fs) = Ok r (at_state k' fs) /\
    match r with
    | Some (sz', sp) => exists g f', ref_stack sz argv f = Some (sz', g, sp, f') /\ img d sz' g f' k' l'
    | None => (exists sz' g f', img d sz' g f' k' l') /\ (forall sz' g sp f', ref_stack sz argv f = Some (sz', g, sp, f') -> too_few sz')
    end.
Proof.
  intros Ha I. unfold exec_stack, ref_stack. destruct (image_up _ _ _ _ _ _ _ _ _ _ _ I) as [[B1 B2] A]. set (g := PGROUNDUP sz) in *. set (top := g + 2 * PGSIZE).
  assert (u32 top = top) as Et by (apply u32_small; unfold top, is_u32, PGSIZE, KERNBASE in *; pose proof (im_sz _ _ _ _ _ _ _ _ _ _ _ I); lia). rewrite Et.
  assert (0 <= g) as Hg0 by (pose proof (im_sz _ _ _ _ _ _ _ _ _ _ _ I); lia).
  destruct (Z.leb_spec KERNBASE top) as [Hk|Hk].
  { rewrite (bind_Ok _ _ _ 0 (at_state k fs)) by (apply lk_at; unfold allocuvm; by rewrite (proj2 (Z.leb_le _ _) Hk)). change (u32 0 =? 0) with true.
    exists None, k, l. split; [done|]. split; [by do 3 eexists|done]. }
  destruct (image_round d sz f k l I) as [I0 E0]; [unfold top, PGSIZE, g in *; lia|]. fold g in I0, E0.
  destruct (image_grow _ _ _ _ _ _ _ _ _ _ top I0) as (r & k1 & l1 & E1 & O1); [unfold top, PGSIZE in *; lia|]. rewrite (bind_Ok _ _ _ _ _ (lk_at _ _ fs _ _ E1)).
  destruct O1 as [[-> I1]|(-> & I1 & T)].
  2: { change (u32 0 =? 0) with true. exists None, k1, l1. split; [done|]. split; [by do 3 eexists|]. intros sz' g' sp' f' E'. destruct (ref_args _ _ _ _ _ _) as [[[sp1 ptrs] f1]|]; [|done].
       destruct (_ <? _); [done|]. by injection E' as <- _ _ _. }
  rewrite Et, (proj2 (Z.eqb_neq top 0)) by (unfold top, PGSIZE; lia). replace (top - 2 * PGSIZE) with g by (unfold top; lia). rewrite (u32_small g) by (unfold is_u32, top, PGSIZE, KERNBASE in *; lia).
  assert (PGROUNDUP top = top) as Eu.
  { pose proof (PGROUNDUP_bounds top ltac:(unfold top, PGSIZE; lia) ltac:(unfold PGSIZE, KERNBASE in *; lia)) as B3. pose proof (PGROUNDUP_aligned top) as A3. unfold top, PGSIZE in *. clear -A B3 A3. Z.div_mod_to_equations. lia. }
  destruct (image_guard _ _ _ _ _ _ _ _ _ _ g I1) as (k2 & E2 & I2); [rewrite Eu; unfold top, PGSIZE; lia|done|]. rewrite (bind_Ok _ _ _ _ _ (lk_at _ _ fs _ _ E2)).
  assert (has_stack top g) as Hst by (split; [done|split; [done|split; [done|split; [done|lia]]]]).
  destruct (push_args_ok d top g l1 fs argv Hst Ha 0 top [] f k2 I2) as (r & k3 & E3 & O3); [unfold top, PGSIZE; lia|]. rewrite (bind_Ok _ _ _ _ _ E3).
  destruct r as [[sp ptrs]|].
  2: { destruct O3 as [[f' I3] R3]. rewrite R3. exists None, k3, l1. split; [done|]. split; [by do 3 eexists|done]. }
  destruct O3 as (f' & R3 & I3 & Hsp). rewrite R3. assert (length ptrs <= MAXARG)%nat as Hlen by (refine (ref_args_length _ _ 0%nat _ [] _ _ _ _ eq_refl _ R3); unfold MAXARG; lia). unfold MAXARG in Hlen.
  set (n := (3 + Z.of_nat (length ptrs) + 1) * 4). rewrite (u32_small (sp - n)) by (unfold is_u32, n, top, PGSIZE, KERNBASE in *; lia).
  destruct (copyout_stack d top g f' k3 l1 (sp - n) (ustack sp ptrs ≫= le32) Hst I3) as (k4 & O4); try rewrite ustack_length; fold n; try (unfold n, PGSIZE in *; lia).
  { by intros E%(f_equal length). }
  destruct (Z.ltb_spec (sp - n) (g + PGSIZE)); destruct O4 as [E4 I4]; rewrite (bind_Ok _ _ _ _ _ (lk_at _ _ fs _ _ E4)).
  - change (-1 <? 0) with true. destruct I4 as [f4 I4]. exists None, k4, l1. split; [done|]. split; [by do 3 eexists|done].
  - change (0 <? 0) with false. cbv iota. exists (Some (top, sp - n)), k4, l1. split; [done|]. by exists g, (with_bytes f' (sp - n) (ustack sp ptrs ≫= le32)).
Qed.
End load.
