(* ===== verification/ExecCommit.v ===== *)
(** * The commit of exec

    The new image takes the place of the old address space: the process is switched to it,
    its pages are encrypted, and the pages of the old one are freed. *)

From S2P Require Import Prelude Cstring Spinlock Kalloc PageTable Uvm Encrypt Aspace Clock Exec ExecImage ExecLoad.

(** ** Encrypting the image *)

Lemma user_ok_page u va vb : va / PGSIZE = vb / PGSIZE -> user_ok u va = user_ok u vb.
Proof. intros E. unfold user_ok, ulookup. by rewrite (lookup_page _ _ _ _ E). Qed.

Section encrypt.
Context {F : Type} {files : ExecFiles F}.
Context (me : nat) (sz : Z) (R l : list Z) (Hsz : 0 <= sz < KERNBASE).

Definition encrypted_below (u : ust) (i : Z) : Prop := forall va, 0 <= va < i -> user_ok u va = true -> enc u va = true.

(** One page of the loop. *)
Lemma encrypt_page u i : uinv me u R l -> 0 <= i -> i `mod` PGSIZE = 0 -> i + PGSIZE <= KERNBASE -> user_ok u i = true -> encrypted_below u i ->
  exists u', mencrypt i 1 u = Ok 0 u' /\ uinv me u' R l /\ same_view R u u' /\ us_p u' = us_p u /\ encrypted_below u' (i + PGSIZE).
Proof.
  intros U Hi Hal Htop Hok He. pose proof (PGROUNDDOWN_id i Hal) as Ei.
  destruct (mencrypt_ok me u R l i 1 U) as (u' & E & U' & V & P & A); [lia|lia|lia| |].
  { rewrite Ei. change (Z.to_nat 1) with 1%nat. cbn [page_seq]. by intros x ->%list_elem_of_singleton. }
  exists u'. split; [done|]. split; [done|]. split; [done|]. split; [done|]. rewrite Ei in A. intros va Hva Hu. rewrite (user_ok_view _ _ _ _ V) in Hu by (unfold PGSIZE, KERNBASE in *; lia).
  unfold enc. rewrite A by (unfold is_u32, KERNBASE in *; lia). rewrite Z.mul_1_l. destruct (decide (i <= va < i + PGSIZE)).
  - destruct (enc u va) eqn:Ee; [done|apply enc_encrypted].
  - apply He; [lia|done].
Qed.

Lemma encrypt_loop_ok : forall fuel i (x : xst F), uinv me (x_u x) R l -> 0 <= i -> i `mod` PGSIZE = 0 -> i <= PGROUNDUP sz -> (Z.to_nat ((sz - i + PGSIZE - 1) / PGSIZE) < fuel)%nat ->
  (forall va, 0 <= va < PGROUNDUP sz -> is_Some (upage (x_u x) va)) -> encrypted_below (x_u x) i ->
  exists u', encrypt_loop fuel i sz x = Ok 0 (set_u u' x) /\ uinv me u' R l /\ same_view R (x_u x) u' /\ us_p u' = us_p (x_u x) /\ encrypted_below u' sz.
Proof.
  induction fuel as [|fuel IH]; intros i x U Hi Hal Hle Hf Hpg He; [lia|]. cbn [encrypt_loop]. destruct (Z.ltb_spec i sz) as [Hlt|Hge].
  2: { exists (x_u x). split; [by destruct x|]. split; [done|]. split; [done|]. split; [done|]. intros va Hva. apply He. lia. }
  pose proof (PGROUNDUP_next i sz ltac:(lia) Hal Hlt) as Hn. destruct (Hpg i ltac:(unfold PGSIZE in *; lia)) as [v Hv]. destruct (upage_mapped _ _ _ Hv) as [Hm _].
  destruct (get_pte _ _ _ _ _ U Hm) as (pte & slot & [Pw Pnz Pl _ Pv _]). rewrite (bind_Ok (gets x_u) _ x (x_u x) x) by done.
  assert (forall u, set_u (x_u x) (set_u u x) = x) as Ex by (by intros; destruct x).
  assert (lk (walkpgdir (pgdir (us_p (x_u x))) i false) x = Ok pte x) as E1 by (unfold lk, lu, zoom; rewrite Pw; by destruct x).
  assert (lk (kload pte) x = Ok (ulookup (x_u x) i) x) as E2 by (unfold lk, lu, zoom; rewrite Pl, Pv; by destruct x).
  rewrite (bind_Ok _ _ _ _ _ E1), (bind_Ok _ _ _ _ _ E2). assert (user_ok (x_u x) i = flag (ulookup (x_u x) i) PTE_U) as Eu by (unfold user_ok; by rewrite Hm).
  assert ((i + PGSIZE) `mod` PGSIZE = 0) as Hal' by (by apply (aligned_add _ 1)).
  assert ((Z.to_nat ((sz - (i + PGSIZE) + PGSIZE - 1) / PGSIZE) < fuel)%nat) as Hf' by (unfold PGSIZE in *; clear -Hf Hlt; revert Hf; Z.div_mod_to_equations; lia).
  destruct (flag (ulookup (x_u x) i) PTE_U) eqn:Ef.
  - destruct (encrypt_page (x_u x) i U Hi Hal ltac:(lia) Eu He) as (u1 & E3 & U1 & V1 & P1 & He1).
    assert (lu (mencrypt i 1) x = Ok 0 (set_u u1 x)) as E4 by (unfold lu, zoom; by rewrite E3). rewrite (bind_Ok _ _ _ _ _ E4). change (negb (0 =? 0)) with false. cbv iota.
    destruct (IH (i + PGSIZE) (set_u u1 x)) as (u' & E5 & U5 & V5 & P5 & He5); try done; [unfold PGSIZE; lia|lia| |].
    + intros va Hva. cbn [x_u set_u]. rewrite (sv_page _ _ _ V1) by (unfold is_u32, KERNBASE in *; lia). by apply Hpg.
    + exists u'. split; [done|]. split; [done|]. split; [by etrans|]. split; [by etrans|done].
  - apply (IH (i + PGSIZE) x); try done; [unfold PGSIZE; lia|lia|]. intros va Hva Hu. destruct (decide (va < i)) as [Hlt'|Hge]; [apply He; [lia|done]|].
    rewrite (user_ok_page _ va i) in Hu by (unfold PGSIZE in *; clear -Hva Hge Hal; Z.div_mod_to_equations; lia). congruence.
Qed.
End encrypt.

(** A process that has touched no page: the working set is empty, and exact. *)
Lemma no_wset u sz : ring (us_p u) [] -> encrypted_below u sz -> (forall va, PGROUNDUP sz <= va < KERNBASE -> upage u va = None) -> 0 <= sz < KERNBASE -> ws_exact u [].
Proof.
  intros Hr He Ho Hsz. split; [split; [done|constructor|constructor]|]. intros vb Hvb Hal Hu Hn. exfalso.
  destruct (decide (vb < sz)) as [Hlt|Hge]; [rewrite He in Hn; [done|lia|done]|].
  pose proof (PGROUNDUP_bounds sz ltac:(lia) ltac:(unfold PGSIZE, KERNBASE in *; lia)) as B. pose proof (PGROUNDUP_aligned sz) as A.
  assert (upage u vb = None) as En by (apply Ho; unfold PGSIZE in *; clear -B A Hal Hge Hvb; Z.div_mod_to_equations; lia).
  unfold user_ok in Hu. rewrite mapped_upage, En in Hu. done.
Qed.

(** ** The commit *)

Section commit.
Context {F : Type} {files : ExecFiles F}.
Context (me : nat) (x0 : xst F) (R l0 : list Z) (data : Z) (Hdata : data_ok data).
Context (U0 : uinv me (x_u x0) R l0) (Hq : length (clockqueue (us_p (x_u x0))) = 8%nat).
Notation u0 := (x_u x0).
Notation img := (image me (us_k u0) (own u0 ++ R) l0 data).

(** The process runs the program [p]; [l'] are the free pages. *)
Record executed (path : list Z) (p : program) (x' : xst F) (l' : list Z) : Prop := Executed {
  ex_regs : x_eip x' = pr_entry p /\ x_esp x' = pr_sp p /\ x_name x' = take 15 (last_element path path);
  ex_proc : sz (us_p (x_u x')) = pr_sz p /\ kstack (us_p (x_u x')) = kstack (us_p u0);
  ex_wset : ws_exact (x_u x') [];
  ex_inv : uinv me (x_u x') R l';
  ex_pages : own (x_u x') ++ l' ≡ₚ own u0 ++ l0;
  ex_bytes : forall va, 0 <= va < pr_sz p -> plain (x_u x') va = Some (pr_byte p va);
  ex_user : forall va, 0 <= va < pr_sz p -> user_ok (x_u x') va = negb (PGROUNDDOWN va =? pr_guard p);
  ex_enc : encrypted_below (x_u x') (pr_sz p);
  ex_out : forall va, PGROUNDUP (pr_sz p) <= va < KERNBASE -> upage (x_u x') va = None;
  ex_rest : forall w, w ∈ R -> page_eq (umem u0) (umem (x_u x')) w
}.

(** A process whose directory is an image. *)
Lemma image_uinv d sz g f k l u : img d sz g f k l -> pgdir (us_p u) = d -> us_cr3 u = V2P d -> kstack (us_p u) <> 0 -> umem u = k_mem k ->
  pt_inv me (us_k u) d (range_pages (k_mem k) d 0 (PGROUNDUP sz) ++ own u0 ++ R) l ->
  uinv me u (own u0 ++ R) l /\ own u ≡ₚ pt_pages (k_mem k) d ++ range_pages (k_mem k) d 0 (PGROUNDUP sz).
Proof.
  intros I Hd Hc Hk Hm H. pose proof (image_whole _ _ _ _ _ _ _ _ _ _ _ I) as Er. split; [split|].
  - rewrite Hd, Hm. eapply pt_rest_perm; [|exact H]. by rewrite Er.
  - by rewrite Hd.
  - done.
  - unfold own. by rewrite Hd, Hm, Er.
Qed.

(** The image as the process sees it. *)
Lemma image_view d sz g f k l u va : img d sz g f k l -> pgdir (us_p u) = d -> umem u = k_mem k -> 0 <= va < PGROUNDUP sz ->
  plain u va = Some (f va) /\ user_ok u va = negb (PGROUNDDOWN va =? g).
Proof.
  intros I Hd Hm Hva. destruct (im_in _ _ _ _ _ _ _ _ _ _ _ I va Hva) as (v & L & P & B). destruct (image_page _ _ _ _ _ _ _ _ _ _ _ _ _ I Hva P) as [_ Hok].
  pose proof (page_phys_aligned _ _ Hok) as Ha. assert (ulookup u va = V2P v + (if PGROUNDDOWN va =? g then 3 else 7)) as EL by (unfold ulookup; by rewrite Hd, Hm).
  split.
  - unfold plain, stored, upage, enc. rewrite EL, Hd, Hm, P. cbn [mbind option_bind]. rewrite B.
    replace (flag _ PTE_E) with false; [done|]. destruct (PGROUNDDOWN va =? g); rewrite flag_value by (done || unfold PGSIZE, PTE_E; lia); done.
  - unfold user_ok. rewrite EL. destruct (PGROUNDDOWN va =? g); rewrite mapped_value, flag_value by (done || unfold PGSIZE, PTE_U; lia); done.
Qed.

(** The process switches to the image. *)
Lemma switch_image d sz g f k l p1 : img d sz g f k l -> pgdir p1 = d -> kstack p1 = kstack (us_p u0) ->
  exists u, switchuvm (USt k p1 (us_cr3 u0) (us_esp0 u0)) = Ok tt u /\ us_p u = p1 /\ umem u = k_mem k /\ uinv me u (own u0 ++ R) l /\
    own u ≡ₚ pt_pages (k_mem k) d ++ range_pages (k_mem k) d 0 (PGROUNDUP sz).
Proof.
  intros I Hd Hk. assert (kstack p1 <> 0) as Hk' by (rewrite Hk; apply U0). pose proof (im_inv _ _ _ _ _ _ _ _ _ _ _ I) as H.
  destruct (switchuvm_ok me (USt k p1 (us_cr3 u0) (us_esp0 u0)) (range_pages (k_mem k) d 0 (PGROUNDUP sz) ++ own u0 ++ R) l) as (u & E & P & Em & Ee & Ec & I'); [cbn [us_k us_p]; by rewrite Hd|done|].
  cbn [us_p] in *. exists u. split; [done|]. split; [done|]. split; [done|]. rewrite Hd in *. apply (image_uinv _ _ _ _ _ _ _ I); rewrite ?P; done.
Qed.

(** The old address space is freed. *)
Lemma drop_old u l : uinv me u (own u0 ++ R) l -> (forall w, w ∈ own u0 ++ R -> page_eq (umem u0) (umem u) w) ->
  exists k' l', freevm (pgdir (us_p u0)) (us_k u) = Ok tt k' /\ uinv me (set_k k' u) R l' /\ l' ≡ₚ own u0 ++ l /\ forall w, w ∈ own u ++ R -> page_eq (umem u) (k_mem k') w.
Proof.
  intros U Hf. set (uo := set_p (us_p u0) u). assert (forall w, w ∈ own u0 -> page_eq (umem u0) (umem uo) w) as Fo by (intros w Hw; apply Hf; rewrite elem_of_app; by left).
  pose proof (frame_own u0 uo eq_refl Fo) as Eo. pose proof (uinv_page_inv _ _ _ _ U) as G.
  assert (pt_inv me (us_k u) (pgdir (us_p u0)) (range_pages (umem u) (pgdir (us_p u0)) 0 KERNBASE ++ own u ++ R) l) as H.
  { eapply pt_of_page_inv; [|reflexivity]. eapply page_inv_perm; [|exact G]. change (pt_pages (k_mem (us_k u)) (pgdir (us_p u0)) ++ range_pages (umem u) (pgdir (us_p u0)) 0 KERNBASE ++ own u ++ R) with (pt_pages (umem uo) (pgdir (us_p uo)) ++ range_pages (umem uo) (pgdir (us_p uo)) 0 KERNBASE ++ own u ++ R).
    rewrite (app_assoc (pt_pages _ _)). fold (own uo). rewrite Eo. apply Permutation_app_swap_app. }
  destruct (freevm_ok me _ _ _ _ H) as (k' & l' & E & K & P & Ee & W). exists k', l'. split; [done|]. rewrite (app_assoc (pt_pages _ _)) in P.
  change (l' ≡ₚ own uo ++ l) in P. rewrite Eo in P. split; [|by split]. apply (frame_uinv u (set_k k' u)); [done| |apply U|apply U|].
  - intros w Hw. apply W. rewrite elem_of_app. by left.
  - destruct G as [_ Ge Gok Gn]. split; cbn [us_k set_k]; rewrite ?Ee; [done|done| |].
    + rewrite !Forall_app in *. tauto.
    + rewrite P. revert Gn. apply NoDup_Permutation_proper. rewrite <- !app_assoc. f_equiv. apply Permutation_app_swap_app.
Qed.

Lemma exec_commit_ok path p d k fs l : img d (pr_sz p) (pr_guard p) (pr_byte p) k l ->
  exists x' l', exec_commit path d (pr_sz p) (pr_entry p) (pr_sp p) (at_state x0 k fs) = Ok 0 x' /\ x_f x' = fs /\ executed path p x' l'.
Proof.
  intros I. pose proof (im_sz _ _ _ _ _ _ _ _ _ _ _ I) as Hsz. destruct (image_up _ _ _ _ _ _ _ _ _ _ _ I) as [[B1 B2] A]. unfold exec_commit.
  set (name := take 15 (last_element path path)). set (p1 := set_image d (pr_sz p) (us_p u0)).
  rewrite (bind_Ok _ _ _ tt (XSt (set_k k u0) fs (x_eip x0) (x_esp x0) name)) by done. rewrite (bind_Ok _ _ _ (set_k k u0) (XSt (set_k k u0) fs (x_eip x0) (x_esp x0) name)) by done.
  rewrite (bind_Ok _ _ _ tt (XSt (USt k p1 (us_cr3 u0) (us_esp0 u0)) fs (x_eip x0) (x_esp x0) name)) by done.
  rewrite (bind_Ok _ _ _ tt (XSt (USt k p1 (us_cr3 u0) (us_esp0 u0)) fs (pr_entry p) (pr_sp p) name)) by done.
  destruct (switch_image _ _ _ _ _ _ p1 I) as (u3 & E3 & P3 & M3 & U3 & O3); [done|done|].
  rewrite (bind_Ok _ _ _ tt (XSt u3 fs (pr_entry p) (pr_sp p) name)) by (unfold lu, zoom; cbn [x_u]; by rewrite E3).
  destruct (clearwset_ok u3) as (q & E4 & R4); [by rewrite P3|]. set (u4 := set_p _ u3) in E4. rewrite (bind_Ok _ _ _ tt (XSt u4 fs (pr_entry p) (pr_sp p) name)) by (unfold lu, zoom; cbn [x_u]; by rewrite E4).
  assert (uinv me u4 (own u0 ++ R) l) as U4 by (destruct U3; by split). assert (own u4 = own u3) as O4 by done. assert (pgdir (us_p u4) = d) as D4 by (cbn; by rewrite P3). assert (umem u4 = k_mem k) as M4 by exact M3.
  assert (forall va, 0 <= va < PGROUNDUP (pr_sz p) -> plain u4 va = Some (pr_byte p va) /\ user_ok u4 va = negb (PGROUNDDOWN va =? pr_guard p)) as V4 by (intros va Hva; by apply (image_view _ _ _ _ _ _ u4 va I)).
  destruct (encrypt_loop_ok me (pr_sz p) (own u0 ++ R) l ltac:(lia) (S (S (Z.to_nat (pr_sz p / PGSIZE)))) 0 (XSt u4 fs (pr_entry p) (pr_sp p) name)) as (u5 & E5 & U5 & V5 & P5 & He); try done; cbn [x_u] in *.
  { lia. } { unfold PGSIZE. clear -Hsz. Z.div_mod_to_equations. lia. }
  { intros va Hva. destruct (V4 va Hva) as [Ep _]. unfold plain, stored in Ep. destruct (upage u4 va); [by eexists|done]. }
  { intros va Hva. lia. }
  rewrite (bind_Ok _ _ _ _ _ E5). change (0 <? 0) with false. cbv iota. change (set_u u5 _) with (XSt u5 fs (pr_entry p) (pr_sp p) name).
  assert (forall w, w ∈ own u0 ++ R -> page_eq (umem u0) (umem u5) w) as F5.
  { intros w Hw. eapply page_eq_trans; [by apply (im_frame _ _ _ _ _ _ _ _ _ _ _ I)|]. rewrite <- M4. by apply V5. }
  destruct (drop_old u5 l U5 F5) as (k' & l' & E6 & U6 & P6 & F6).
  assert (lk (freevm (pgdir (us_p u0))) (XSt u5 fs (pr_entry p) (pr_sp p) name) = Ok tt (XSt (set_k k' u5) fs (pr_entry p) (pr_sp p) name)) as E7 by (unfold lk, lu, zoom; cbn [x_u]; by rewrite (lift_Ok _ _ _ _ E6)).
  rewrite (bind_Ok _ _ _ tt (XSt (set_k k' u5) fs (pr_entry p) (pr_sp p) name)) by exact E7.
  exists (XSt (set_k k' u5) fs (pr_entry p) (pr_sp p) name), l'. split; [done|]. split; [done|].
  assert (forall w, w ∈ own u5 -> page_eq (umem u5) (umem (set_k k' u5)) w) as Fr by (intros w Hw; apply F6; rewrite elem_of_app; by left).
  assert (own (set_k k' u5) = own u5) as O6 by (by apply frame_own).
  pose proof (same_view_own _ _ _ V5) as O5.
  split; cbn [x_eip x_esp x_name x_u].
  - done.
  - cbn [set_k us_p]. rewrite P5. cbn [u4 us_p set_p set_hand set_queue sz kstack]. by rewrite P3.
  - apply (no_wset _ (pr_sz p)); [cbn [set_k us_p]; rewrite P5; exact R4| | |lia].
    + intros va Hva Hu. rewrite (frame_user u5) in Hu by done. rewrite (frame_enc u5) by done. by apply He.
    + intros va Hva. rewrite (frame_page u5) by done. rewrite (sv_page _ _ _ V5) by (unfold is_u32, KERNBASE in *; lia). unfold upage, page_of. rewrite D4, M4. by rewrite (im_out _ _ _ _ _ _ _ _ _ _ _ I).
  - done.
  - rewrite O6, O5, O4, O3, P6, <- (im_perm _ _ _ _ _ _ _ _ _ _ _ I). rewrite <- !app_assoc. rewrite (Permutation_app_swap_app (own u0)). f_equiv. apply Permutation_app_swap_app.
  - intros va Hva. rewrite (frame_plain u5) by (done || lia). rewrite (sv_plain _ _ _ V5) by lia. apply V4. lia.
  - intros va Hva. rewrite (frame_user u5) by done. rewrite (user_ok_view _ _ _ _ V5) by lia. apply V4. lia.
  - intros va Hva Hu. rewrite (frame_user u5) in Hu by done. rewrite (frame_enc u5) by done. by apply He.
  - intros va Hva. rewrite (frame_page u5) by done. rewrite (sv_page _ _ _ V5) by (unfold is_u32, KERNBASE in *; lia). unfold upage, page_of. rewrite D4, M4. by rewrite (im_out _ _ _ _ _ _ _ _ _ _ _ I).
  - intros w Hw. eapply page_eq_trans; [apply F5; rewrite elem_of_app; by right|]. apply F6. rewrite elem_of_app. by right.
Qed.
End commit.
