(* ===== verification/ExecArgs.v ===== *)
(** * The arguments of a program

    What main finds on its stack: the reference of [ExecLoad] puts the argument strings and
    the vector of pointers to them where the calling convention wants them. *)

From S2P Require Import Prelude Cstring Spinlock Kalloc PageTable Uvm Encrypt Exec ExecImage ExecLoad.

(** The word at [a] of an image. *)
Definition word_of (f : Z -> Z) (a : Z) : Z := f a + 256 * f (a + 1) + 65536 * f (a + 2) + 16777216 * f (a + 3).
(** The string at [a] with the zero that ends it. *)
Definition string_at (f : Z -> Z) (a : Z) (s : list Z) : Prop := forall j c, (s ++ [0]) !! j = Some c -> f (a + Z.of_nat j) = c.

Lemma with_bytes_lookup f va bs j c : bs !! j = Some c -> with_bytes f va bs (va + Z.of_nat j) = u8 c.
Proof.
  intros H. pose proof (lookup_lt_Some _ _ _ H). unfold with_bytes, byte_at. rewrite decide_True by lia.
  replace (Z.to_nat (va + Z.of_nat j - va)) with j by lia. by rewrite (nth_lookup_Some _ _ _ _ H).
Qed.
Lemma with_bytes_above f va bs a : va + Z.of_nat (length bs) <= a -> with_bytes f va bs a = f a.
Proof. intros H. unfold with_bytes. by rewrite decide_False by lia. Qed.

Lemma words_lookup ws : forall i w (j : nat), ws !! i = Some w -> (j < 4)%nat -> (ws ≫= le32) !! (4 * i + j)%nat = le32 w !! j.
Proof.
  induction ws as [|v ws IH]; intros i w j H Hj; [done|]. cbn [mbind list_bind]. destruct i as [|i].
  - injection H as ->. rewrite lookup_app_l by (cbn [length le32]; lia). f_equal; lia.
  - rewrite lookup_app_r by (cbn [length le32]; lia). replace (4 * S i + j - length (le32 v))%nat with (4 * i + j)%nat by (cbn [length le32]; lia). by apply IH.
Qed.
Lemma word_of_words f va ws i w : ws !! i = Some w -> is_u32 w -> word_of (with_bytes f va (ws ≫= le32)) (va + 4 * Z.of_nat i) = w.
Proof.
  intros H Hw. assert (forall (j : nat) c, (j < 4)%nat -> le32 w !! j = Some c -> with_bytes f va (ws ≫= le32) (va + 4 * Z.of_nat i + Z.of_nat j) = u8 c) as B.
  { intros j c Hj Hc. rewrite <- (words_lookup _ _ _ j H Hj) in Hc. rewrite <- (with_bytes_lookup f va _ _ _ Hc). f_equal. lia. }
  unfold word_of. pose proof (B 0%nat _ ltac:(lia) eq_refl) as B0. rewrite Z.add_0_r in B0.
  pose proof (B 1%nat _ ltac:(lia) eq_refl) as B1. pose proof (B 2%nat _ ltac:(lia) eq_refl) as B2. pose proof (B 3%nat _ ltac:(lia) eq_refl) as B3.
  change (Z.of_nat 1) with 1 in B1. change (Z.of_nat 2) with 2 in B2. change (Z.of_nat 3) with 3 in B3. rewrite B0, B1, B2, B3. clear B B0 B1 B2 B3. unfold u8, is_u32 in *. clear -Hw. Z.div_mod_to_equations. lia.
Qed.

(** The strings are apart from each other and from what was there. *)
Definition byte_args (argv : list (list Z)) : Prop := Forall (Forall (fun c => 0 < c < 256)) argv.
Lemma ref_args_strings base argv : byte_args argv -> forall argc sp ptrs f sp' ptrs' f', 0 <= base -> ref_args base argc sp argv ptrs f = Some (sp', ptrs', f') -> base <= sp ->
  base <= sp' <= sp /\ (forall a, sp <= a -> f' a = f a) /\
  exists new, ptrs' = ptrs ++ new /\ Forall2 (fun s a => sp' <= a /\ a + Z.of_nat (length s) < sp /\ string_at f' a s) argv new.
Proof.
  induction 1 as [|s argv Hs Hargs IH]; intros argc sp ptrs f sp' ptrs' f' Hb E Hsp; cbn [ref_args] in E.
  { simplify_eq. split; [lia|]. split; [done|]. exists []. by rewrite app_nil_r. }
  set (x := 4 * ((sp - (Z.of_nat (length s) + 1)) / 4)) in *. destruct (MAXARG <=? argc)%nat; [done|]. cbn [orb] in E. destruct (Z.ltb_spec x base); [done|].
  assert (x + Z.of_nat (length s) + 1 <= sp) as Hx by (unfold x; clear; Z.div_mod_to_equations; lia).
  assert (length (s ++ [0]) = S (length s)) as El by (rewrite length_app; cbn [length]; lia).
  destruct (IH _ _ _ _ _ _ _ Hb E ltac:(lia)) as (B & F & new & -> & N). split; [lia|]. split.
  - intros a Ha. rewrite F by lia. apply with_bytes_above. lia.
  - exists (x :: new). split; [by rewrite <- app_assoc|]. constructor.
    + split; [lia|]. split; [lia|]. intros j c Hc. rewrite F by lia. rewrite (with_bytes_lookup _ _ _ _ _ Hc).
      assert (0 <= c < 256) as Hc'; [|unfold u8; by apply Z.mod_small].
      apply list_elem_of_lookup_2 in Hc. rewrite elem_of_app, list_elem_of_singleton in Hc. destruct Hc as [Hc| ->]; [|lia]. rewrite Forall_forall in Hs. specialize (Hs c Hc). lia.
    + eapply Forall2_impl; [exact N|]. intros t a (A1 & A2 & A3). split; [done|]. split; [lia|done].
Qed.

Lemma stack_arguments sz argv f sz' g sp f' : 0 <= sz < KERNBASE -> byte_args argv -> ref_stack sz argv f = Some (sz', g, sp, f') ->
  g + PGSIZE <= sp /\ sp < sz' /\ word_of f' (sp + 4) = Z.of_nat (length argv) /\ word_of f' (sp + 8) = sp + 12 /\
  word_of f' (sp + 12 + 4 * Z.of_nat (length argv)) = 0 /\
  sp + 12 + 4 * Z.of_nat (length argv) + 4 <= sz' /\
  (forall i s, argv !! i = Some s -> exists a, word_of f' (sp + 12 + 4 * Z.of_nat i) = a /\ sp <= a /\ a + Z.of_nat (length s) < sz' /\ string_at f' a s).
Proof.
  intros Hsz Hb E. unfold ref_stack in E. set (base := PGROUNDUP sz + PGSIZE) in *. set (top := PGROUNDUP sz + 2 * PGSIZE) in *.
  pose proof (PGROUNDUP_bounds sz ltac:(lia) ltac:(unfold PGSIZE, KERNBASE in *; lia)) as Bs. assert (0 <= base /\ base + PGSIZE = top) as [B0 B1] by (unfold base, top, PGSIZE; lia).
  destruct (Z.leb_spec KERNBASE top) as [|Hk]; [done|]. destruct (ref_args base 0 top argv [] f) as [[[sp1 ptrs] f1]|] eqn:Er; [|done].
  destruct (ref_args_strings base argv Hb _ _ _ _ _ _ _ B0 Er ltac:(unfold PGSIZE in *; lia)) as (Hsp1 & F & new & En & N). cbn [app] in En. subst new. pose proof (Forall2_length _ _ _ N) as Hlen.
  set (sp2 := sp1 - (3 + Z.of_nat (length ptrs) + 1) * 4) in *. set (bs := ustack sp1 ptrs ≫= le32) in *. destruct (Z.ltb_spec sp2 base) as [|Hsp2]; [done|]. injection E as <- <- <- <-.
  assert (sp2 + Z.of_nat (length bs) = sp1) as Hend by (unfold bs; rewrite ustack_length; unfold sp2; lia).
  assert (forall i w, ustack sp1 ptrs !! i = Some w -> is_u32 w -> word_of (with_bytes f1 sp2 bs) (sp2 + 4 * Z.of_nat i) = w) as W by (intros; by apply word_of_words).
  assert (u32 (sp1 - (Z.of_nat (length ptrs) + 1) * 4) = sp2 + 12) as Ea by (rewrite u32_small; unfold is_u32, sp2, KERNBASE in *; lia).
  assert (forall a, sp1 <= a -> with_bytes f1 sp2 bs a = f1 a) as Ab by (intros; apply with_bytes_above; lia).
  split; [done|]. split; [unfold sp2; lia|]. split; [|split; [|split; [|split; [lia|]]]].
  - rewrite Hlen. apply (W 1%nat); [done|]. unfold is_u32, sp2, KERNBASE in *. lia.
  - rewrite <- Ea. apply (W 2%nat); [done|]. rewrite Ea. unfold is_u32, KERNBASE in *. lia.
  - replace (sp2 + 12 + 4 * Z.of_nat (length argv)) with (sp2 + 4 * Z.of_nat (3 + length ptrs)) by lia. apply W; [|done].
    change (ustack sp1 ptrs) with ([4294967295; Z.of_nat (length ptrs); u32 (sp1 - (Z.of_nat (length ptrs) + 1) * 4)] ++ (ptrs ++ [0])). rewrite lookup_app_r by (cbn [length]; lia).
    replace (3 + length ptrs - length _)%nat with (length ptrs + 0)%nat by (cbn [length]; lia). rewrite lookup_app_r by lia. by rewrite Nat.add_comm, Nat.add_sub.
  - intros i s Hs. destruct (Forall2_lookup_l _ _ _ _ _ N Hs) as (a & Ha & A1 & A2 & A3).
    exists a. replace (sp2 + 12 + 4 * Z.of_nat i) with (sp2 + 4 * Z.of_nat (3 + i)) by lia. rewrite (W (3 + i)%nat a).
    + split; [done|]. split; [lia|]. split; [lia|]. intros j c Hc. rewrite Ab by lia. by apply A3.
    + change (ustack sp1 ptrs) with ([4294967295; Z.of_nat (length ptrs); u32 (sp1 - (Z.of_nat (length ptrs) + 1) * 4)] ++ (ptrs ++ [0])). rewrite lookup_app_r by (cbn [length]; lia).
      replace (3 + i - length _)%nat with i by (cbn [length]; lia). by apply lookup_app_l_Some.
    + unfold is_u32, KERNBASE in *. lia.
Qed.
