(* ===== verification/ExecSafe.v ===== *)
(** * What exec does

    A failing exec leaves the process and every page as they were; a succeeding one gives
    the process the program of the reference, encrypted, and gives the old pages back. *)

From S2P Require Import Prelude Cstring Spinlock Kalloc PageTable Uvm Encrypt Aspace Clock Exec ExecImage ExecLoad ExecCommit ExecArgs.

(** ** The size of a program *)

Lemma ref_stack_size sz argv f sz' g sp f' : 0 <= sz < KERNBASE -> ref_stack sz argv f = Some (sz', g, sp, f') -> sz <= sz'.
Proof.
  intros Hsz. unfold ref_stack. destruct (_ <=? _); [done|]. destruct (ref_args _ _ _ _ _ _) as [[[sp1 ptrs] f1]|]; [|done]. destruct (_ <? _); [done|]. intros E. injection E as <- _ _ _.
  pose proof (PGROUNDUP_bounds sz ltac:(lia) ltac:(unfold PGSIZE, KERNBASE in *; lia)). unfold PGSIZE. lia.
Qed.
Lemma ref_segments_size n c : forall off sz f sz' f', 0 <= sz < KERNBASE -> ref_segments n c off sz f = Some (sz', f') -> 0 <= sz' < KERNBASE.
Proof.
  induction n as [|n IH]; intros off sz f sz' f' Hsz E; cbn [ref_segments] in E; [by simplify_eq|]. destruct (read_of c off PROGHDR) as [r bs].
  destruct (negb (r =? PROGHDR)); [done|]. destruct (negb (p_type _ =? _)); [by eapply IH|]. destruct (p_memsz _ <? p_filesz _); [done|].
  destruct (Z.leb_spec KERNBASE (p_vaddr (ph_of bs) + p_memsz (ph_of bs))); [done|]. cbn [orb] in E. destruct (_ || _); [done|]. eapply IH; [|exact E]. lia.
Qed.
Lemma ref_exec_stack c argv p : ref_exec c argv = Some p -> exists sz f, 0 <= sz < KERNBASE /\ ref_stack sz argv f = Some (pr_sz p, pr_guard p, pr_sp p, pr_byte p).
Proof.
  unfold ref_exec. destruct (read_of c 0 ELFHDR) as [r bs]. destruct (_ || _); [done|]. destruct (ref_segments _ _ _ _ _) as [[sz f]|] eqn:Es; [|done].
  destruct (ref_stack sz argv f) as [[[[sz' g] sp] f']|] eqn:Et; [|done]. intros [= <-]. exists sz, f. split; [|done]. by eapply ref_segments_size.
Qed.
Lemma ref_exec_size c argv p : ref_exec c argv = Some p -> 0 <= pr_sz p.
Proof. intros H. destruct (ref_exec_stack _ _ _ H) as (sz & f & Hsz & E). apply ref_stack_size in E; lia. Qed.

(** ** Up to the commit point *)

Section build.
Context {F : Type} {files : ExecFiles F}.
Context (me : nat) (x0 : xst F) (R l0 : list Z) (data : Z) (Hdata : data_ok data).
Notation s0 := (us_k (x_u x0)).
Notation img := (image me s0 R l0 data).
Notation at_state := (at_state x0).
Notation undone := (undone me s0 R l0).
Notation too_few := (too_few l0).

Definition failed (o : outcome (xst F) Z) : Prop :=
  exists k fs l, o = Ok (-1) (at_state k fs) /\ files_idle fs /\ undone k l.

Lemma put_back_ok fs ip c k : files_locked fs ip c -> exists f1 fs', files_idle fs' /\
  lf (iunlockput ip) (at_state k fs) = Ok tt (at_state k f1) /\ lf end_op (at_state k f1) = Ok tt (at_state k fs').
Proof.
  intros Hl. destruct (iunlockput_ok _ _ _ Hl) as (f1 & E1 & H1). destruct (end_op_ok _ H1) as (f2 & E2 & H2). exists f1, f2. split; [done|].
  split; by apply lf_at.
Qed.
Lemma bad_file fs ip c k l : files_locked fs ip c -> undone k l -> failed (exec_bad 0 (Some ip) (at_state k fs)).
Proof.
  intros Hl Hu. destruct (put_back_ok _ _ _ k Hl) as (f1 & f2 & H2 & E1 & E2). exists k, f2, l. split; [|done].
  unfold exec_bad. change (negb (0 =? 0)) with false. cbv iota. rewrite (bind_Ok _ _ _ tt (at_state k fs)) by done.
  rewrite (bind_Ok _ _ _ tt (at_state k f2)); [done|]. by rewrite (bind_Ok _ _ _ _ _ E1).
Qed.
Lemma image_dir d sz g f k l : img d sz g f k l -> d <> 0.
Proof. intros I. eapply page_nonzero, dir_page, (im_inv _ _ _ _ _ _ _ _ _ _ _ I). Qed.
Lemma bad_image fs ip c d sz g f k l : files_locked fs ip c -> img d sz g f k l -> failed (exec_bad d (Some ip) (at_state k fs)).
Proof.
  intros Hl I. destruct (image_drop _ _ _ _ _ _ _ _ _ _ _ I) as (k' & l' & E & Hu). destruct (put_back_ok _ _ _ k' Hl) as (f1 & f2 & H2 & E1 & E2). exists k', f2, l'. split; [|done].
  unfold exec_bad. rewrite (proj2 (Z.eqb_neq d 0)) by (by eapply image_dir). cbn [negb]. rewrite (bind_Ok _ _ _ _ _ (lk_at _ _ _ fs _ _ E)).
  rewrite (bind_Ok _ _ _ tt (at_state k' f2)); [done|]. by rewrite (bind_Ok _ _ _ _ _ E1).
Qed.
Lemma bad_stack fs d sz g f k l : files_idle fs -> img d sz g f k l -> failed (exec_bad d None (at_state k fs)).
Proof.
  intros Hi I. destruct (image_drop _ _ _ _ _ _ _ _ _ _ _ I) as (k' & l' & E & Hu). exists k', fs, l'. split; [|done].
  unfold exec_bad. rewrite (proj2 (Z.eqb_neq d 0)) by (by eapply image_dir). cbn [negb]. by rewrite (bind_Ok _ _ _ _ _ (lk_at _ _ _ fs _ _ E)).
Qed.

Definition ref_path (path : list Z) (argv : list (list Z)) : option program := c ← file_of (x_f x0) path; ref_exec c argv.
Definition built (path : list Z) (argv : list (list Z)) (o : outcome (xst F) Z) : Prop :=
  (failed o /\ (forall p, ref_path path argv = Some p -> too_few (pr_sz p))) \/
  (exists p d k fs l, o = exec_commit path d (pr_sz p) (pr_entry p) (pr_sp p) (at_state k fs) /\ files_idle fs /\
     ref_path path argv = Some p /\ img d (pr_sz p) (pr_guard p) (pr_byte p) k l).

Lemma exec_image path argv c ip bs d k l fs :
  short_args argv -> img d 0 (-1) (fun _ => 0) k l -> files_locked fs ip c -> Forall (fun b => 0 <= b < 256) bs ->
  file_of (x_f x0) path = Some c -> read_of c 0 ELFHDR = (ELFHDR, bs) -> magic (elf_of bs) = ELF_MAGIC ->
  built path argv ((sz ← exec_segments (Z.to_nat (phnum (elf_of bs))) d ip (phoff (elf_of bs)) 0;
    match sz with
    | None => exec_bad d (Some ip)
    | Some sz =>
      lf (iunlockput ip);;
      lf end_op;;
      st ← exec_stack d sz argv;
      match st with
      | None => exec_bad d None
      | Some (sz, sp) => exec_commit path d sz (entry (elf_of bs)) sp
      end
    end) (at_state k fs)).
Proof.
  intros Ha I Hl Hb Hf Hr Hm. unfold built, ref_path. rewrite Hf. cbn [mbind option_bind]. unfold ref_exec. rewrite Hr, Hm. change (negb (ELFHDR =? ELFHDR) || negb (ELF_MAGIC =? ELF_MAGIC)) with false. cbv iota.
  set (elf := elf_of bs) in *. destruct (exec_segments_ok me x0 R l0 data d c ip (Z.to_nat (phnum elf)) (phoff elf) 0 _ l k fs I Hl) as (r & k1 & f1 & l1 & E1 & Hl1 & O1); [by apply word_at_range|].
  rewrite (bind_Ok _ _ _ _ _ E1). destruct r as [sz|].
  2: { destruct O1 as [(sz' & f' & I1) Hn]. left. split; [by eapply bad_image|]. intros p Hp. destruct (ref_segments _ _ _ _ _) as [[sz f2]|] eqn:Er'; [|done]. specialize (Hn sz f2 eq_refl).
       destruct (ref_stack sz argv f2) as [[[[sz2 g] sp] f3]|] eqn:Es; [|done]. injection Hp as <-. eapply too_few_mono; [eapply ref_stack_size; [|exact Es]; eapply ref_segments_size; [|exact Er']; unfold KERNBASE; lia|done]. }
  destruct O1 as (f' & -> & I1). destruct (put_back_ok _ _ _ k1 Hl1) as (f2 & f3 & H3 & E2 & E3). rewrite (bind_Ok _ _ _ _ _ E2), (bind_Ok _ _ _ _ _ E3).
  destruct (exec_stack_ok me x0 R l0 data Hdata d sz f' l1 k1 f3 argv Ha I1) as (r & k2 & l2 & E4 & O4). rewrite (bind_Ok _ _ _ _ _ E4). destruct r as [[sz' sp]|].
  - destruct O4 as (g & f4 & -> & I4). right. by exists (Program sz' g (entry elf) sp f4), d, k2, f3, l2.
  - destruct O4 as [(sz' & g & f4 & I4) Hn]. left. split; [by eapply bad_stack|]. intros p Hp. destruct (ref_stack sz argv f') as [[[[sz2 g2] sp] f9]|] eqn:Es; [|done]. injection Hp as <-. by eapply Hn.
Qed.

Lemma exec_build path argv : page_inv me s0 R l0 -> files_idle (x_f x0) -> short_args argv -> built path argv (exec data path argv x0).
Proof.
  intros Hp Hi Ha. assert (x0 = at_state s0 (x_f x0)) as Ex by (destruct x0 as [[] ?]; done). replace (exec data path argv x0) with (exec data path argv (at_state s0 (x_f x0))) by (by rewrite <- Ex). unfold exec.
  destruct (begin_op_ok _ Hi) as (f1 & E1 & H1 & Hf). rewrite (bind_Ok _ _ _ _ _ (lf_at _ _ s0 _ _ _ E1)).
  destruct (namei_ok f1 path H1) as (r & f2 & E2 & O2). rewrite (bind_Ok _ _ _ _ _ (lf_at _ _ s0 _ _ _ E2)). rewrite Hf in O2.
  assert (undone s0 l0) as Hu by (split; [done|]; split; [done|]; split; [done|by intros w _ b _]).
  destruct r as [ip|], (file_of (x_f x0) path) as [c|] eqn:Ec; try done.
  2: { left. split; [|unfold ref_path; by rewrite Ec]. destruct (end_op_ok _ O2) as (f3 & E3 & H3). exists s0, f3, l0. split; [|done]. by rewrite (bind_Ok _ _ _ _ _ (lf_at _ _ s0 _ _ _ E3)). }
  destruct (ilock_ok _ _ _ O2) as (f3 & E3 & H3). rewrite (bind_Ok _ _ _ _ _ (lf_at _ _ s0 _ _ _ E3)).
  destruct (contents_ok _ _ _ H3) as [Hc _]. pose proof (read_bytes c 0 ELFHDR Hc) as Hb.
  destruct (readi_ok f3 ip c 0 ELFHDR H3) as (f4 & E4 & H4); [done|done|]. rewrite (bind_Ok _ _ _ _ _ (lf_at _ _ s0 _ _ _ E4)).
  destruct (read_of c 0 ELFHDR) as [r bs] eqn:Er. cbn [snd] in Hb. destruct (Z.eqb_spec r ELFHDR) as [->|Hne]; cbn [negb].
  2: { left. split; [by eapply bad_file|]. unfold ref_path. rewrite Ec. cbn [mbind option_bind]. unfold ref_exec. rewrite Er. by rewrite (proj2 (Z.eqb_neq _ _) Hne). }
  destruct (Z.eqb_spec (magic (elf_of bs)) ELF_MAGIC) as [Em|Hne]; cbn [negb].
  2: { left. split; [by eapply bad_file|]. unfold ref_path. rewrite Ec. cbn [mbind option_bind]. unfold ref_exec. rewrite Er. rewrite (proj2 (Z.eqb_neq _ _) Hne). by rewrite orb_true_r. }
  destruct (image_new me s0 R l0 data Hdata s0 l0 Hp) as (d & k & l & E5 & O5); [done|done|by intros w _ b _|]. rewrite (bind_Ok _ _ _ _ _ (lk_at _ _ _ f4 _ _ E5)).
  destruct O5 as [(-> & Hu' & T)|[Hd I]].
  - change (0 =? 0) with true. left. split; [by apply (bad_file f4 ip c _ l)|]. intros p Hp'. eapply too_few_mono; [|exact T]. unfold ref_path in Hp'. rewrite Ec in Hp'. cbn [mbind option_bind] in Hp'. by eapply ref_exec_size.
  - rewrite (proj2 (Z.eqb_neq _ _) Hd). by apply (exec_image path argv c ip bs d k l f4).
Qed.
End build.

(** ** exec *)

(** The process is as it was, and every page is where it was. *)
Record as_before {F} (me : nat) (x x' : xst F) (R l l' : list Z) : Prop := AsBefore {
  ab_proc : us_p (x_u x') = us_p (x_u x);
  ab_regs : x_eip x' = x_eip x /\ x_esp x' = x_esp x /\ x_name x' = x_name x;
  ab_inv : uinv me (x_u x') R l';
  ab_free : l' ≡ₚ l;
  ab_view : same_view R (x_u x) (x_u x')
}.

Section exec.
Context {F : Type} {files : ExecFiles F}.
Context (me : nat) (x : xst F) (R l : list Z) (data : Z) (Hdata : data_ok data).
Context (U : uinv me (x_u x) R l) (Hq : length (clockqueue (us_p (x_u x))) = 8%nat) (Hi : files_idle (x_f x)).

Lemma undone_before k fs l' : undone me (us_k (x_u x)) (own (x_u x) ++ R) l k l' -> as_before me x (at_state x k fs) R l l'.
Proof.
  intros (G & P & Ee & W). assert (forall w, w ∈ own (x_u x) -> page_eq (umem (x_u x)) (umem (set_k k (x_u x))) w) as Wo by (intros w Hw; apply W; rewrite elem_of_app; by left).
  split; try done.
  - apply (frame_uinv (x_u x)); [done|done|apply U|apply U|exact G].
  - apply (frame_view (x_u x)); [done|done|exact Ee|]. intros w Hw. apply W. rewrite elem_of_app. by right.
Qed.

Lemma exec_ok path argv : short_args argv ->
  exists r x' l', exec data path argv x = Ok r x' /\ files_idle (x_f x') /\
    ((r = -1 /\ as_before me x x' R l l' /\ (forall p, ref_path x path argv = Some p -> too_few l (pr_sz p))) \/
     (r = 0 /\ exists p, ref_path x path argv = Some p /\ executed me x R l path p x' l')).
Proof.
  intros Ha. destruct (exec_build me x (own (x_u x) ++ R) l data Hdata path argv (uinv_page_inv _ _ _ _ U) Hi Ha) as [[(k & fs & l' & E & If & Hu) Hn]|(p & d & k & fs & l1 & E & If & Hp & I)].
  - exists (-1), (at_state x k fs), l'. split; [done|]. split; [done|]. left. split; [done|]. split; [by apply undone_before|done].
  - destruct (exec_commit_ok me x R l data U Hq path p d k fs l1 I) as (x' & l' & E' & Ef & X). exists 0, x', l'. split; [by rewrite E|]. split; [by rewrite Ef|]. right. split; [done|]. by exists p.
Qed.
End exec.

(** What a process reads. *)
Definition sees (u : ust) (a : Z) : Z := default 0 (plain u a).
Lemma word_of_ext f f' a : (forall b, a <= b < a + 4 -> f b = f' b) -> word_of f a = word_of f' a.
Proof. intros H. unfold word_of. by rewrite !H by lia. Qed.
(** What main finds: its argument count, and a vector of pointers to its arguments. *)
Definition arguments_at (f : Z -> Z) (sp : Z) (argv : list (list Z)) : Prop :=
  word_of f (sp + 4) = Z.of_nat (length argv) /\ word_of f (sp + 8) = sp + 12 /\
  word_of f (sp + 12 + 4 * Z.of_nat (length argv)) = 0 /\
  forall i s, argv !! i = Some s -> string_at f (word_of f (sp + 12 + 4 * Z.of_nat i)) s.

Lemma executed_arguments {F} me (x x' : xst F) R l l' path argv c p : byte_args argv -> ref_exec c argv = Some p -> executed me x R l path p x' l' ->
  arguments_at (sees (x_u x')) (x_esp x') argv.
Proof.
  intros Hb Hp X. destruct (ref_exec_stack _ _ _ Hp) as (sz & f & Hsz & E). destruct (stack_arguments _ _ _ _ _ _ _ Hsz Hb E) as (Hg & Hlt & A1 & A2 & A3 & Hend & A4).
  destruct (ex_regs _ _ _ _ _ _ _ _ X) as (_ & -> & _). pose proof (PGROUNDUP_bounds sz ltac:(lia) ltac:(unfold PGSIZE, KERNBASE in *; lia)) as Bs.
  assert (pr_guard p = PGROUNDUP sz) as Eg by (unfold ref_stack in E; destruct (_ <=? _); [done|]; destruct (ref_args _ _ _ _ _ _) as [[[? ?] ?]|]; [|done]; destruct (_ <? _); [done|]; congruence).
  assert (0 <= pr_sp p) as Hsp by (unfold PGSIZE in *; lia).
  assert (forall a, 0 <= a < pr_sz p -> sees (x_u x') a = pr_byte p a) as S by (intros a Ha; unfold sees; by rewrite (ex_bytes _ _ _ _ _ _ _ _ X a Ha)).
  assert (forall a, pr_sp p <= a -> a + 4 <= pr_sz p -> word_of (sees (x_u x')) a = word_of (pr_byte p) a) as W by (intros a Ha Ht; apply word_of_ext; intros b Hb'; apply S; lia).
  split; [rewrite W by lia; done|]. split; [rewrite W by lia; done|]. split; [rewrite W by lia; done|].
  intros i s Hs. destruct (A4 i s Hs) as (a & Ea & B1 & B2 & B3). pose proof (lookup_lt_Some _ _ _ Hs). rewrite W by lia. rewrite Ea. intros j ch Hj.
  pose proof (lookup_lt_Some _ _ _ Hj) as Hl. rewrite length_app in Hl. cbn [length] in Hl. rewrite S by lia. by apply B3.
Qed.

(** C10. [exec] is all or nothing. It returns, whatever the file holds and however much
    memory there is. If it returns -1 the process is as before: its size, page directory,
    registers and name, every byte it can read, and every free page is free again; that
    happens only if the file is not a program the reference accepts or if no more than
    1025 pages are free beyond the pages of the program. If it returns 0 the process runs
    the program of the reference: it reads the bytes of the segments, zeroes and its
    stack; it may access every page but the guard page; every page it may access is
    encrypted; nothing else is mapped; the working set is empty and exact; the pages of the old
    address space are free, and no page is lost. *)
Theorem exec_spec {F} {files : ExecFiles F} (me : nat) (x : xst F) (R l : list Z) (data : Z) (path : list Z) (argv : list (list Z))
  (Hd : data_ok data) (U : uinv me (x_u x) R l) (Hq : length (clockqueue (us_p (x_u x))) = 8%nat)
  (Hi : files_idle (x_f x)) (Ha : short_args argv) :
  exists r x' l', exec data path argv x = Ok r x' /\ files_idle (x_f x') /\
    ((r = -1 /\ as_before me x x' R l l' /\ (forall p, ref_path x path argv = Some p -> too_few l (pr_sz p))) \/
     (r = 0 /\ exists p, ref_path x path argv = Some p /\ executed me x R l path p x' l')).
Proof. by apply exec_ok. Qed.

(** C11. A program that [exec] starts finds its arguments: the words above its stack
    pointer are the number of arguments and the address of a vector of pointers, the
    [i]-th of which points to the bytes of the [i]-th argument and a zero, and which ends
    with a null pointer. *)
Theorem exec_arguments {F} {files : ExecFiles F} (me : nat) (x x' : xst F) (R l : list Z) (data : Z) (path : list Z) (argv : list (list Z))
  (Hd : data_ok data) (U : uinv me (x_u x) R l) (Hq : length (clockqueue (us_p (x_u x))) = 8%nat)
  (Hi : files_idle (x_f x)) (Ha : short_args argv) (Hb : byte_args argv) (E : exec data path argv x = Ok 0 x') :
  arguments_at (sees (x_u x')) (x_esp x') argv.
Proof.
  destruct (exec_ok me x R l data Hd U Hq Hi path argv Ha) as (r & x2 & l2 & E2 & _ & O). rewrite E in E2. injection E2 as <- <-.
  destruct O as [[Hr _]|(_ & p & Hp & X)]; [done|]. unfold ref_path in Hp. destruct (file_of (x_f x) path) as [c|]; [|done]. by eapply executed_arguments.
Qed.
