(* ===== verification/ExecRun.v ===== *)
(** * exec over files in memory

    An instance of [ExecFiles], and runs of exec on a small program. *)

From S2P Require Import Prelude Cstring Spinlock Kalloc PageTable Uvm Encrypt Aspace Clock Exec ExecImage ExecLoad ExecCommit ExecArgs ExecSafe.

(** ** Files in memory *)

Record ram := Ram { ram_files : list (list Z * list Z); ram_busy : bool; ram_locked : bool }.
Definition ram_index (path : list Z) (f : ram) : option nat := fst <$> list_find (fun e => e.1 = path) (ram_files f).
Definition ram_content (f : ram) (ip : nat) : option (list Z) := snd <$> ram_files f !! ip.
Definition ram_valid (f : ram) : Prop := Forall (fun e => Forall (fun b => 0 <= b < 256) e.2 /\ Z.of_nat (length e.2) < 2 ^ 31) (ram_files f).
Definition ram_set (busy locked : bool) : M ram unit := modify (fun f => Ram (ram_files f) busy locked).
#[export] Program Instance ram_exec : ExecFiles ram := {|
  begin_op := ram_set true false;
  end_op := ram_set false false;
  namei path := gets (ram_index path);
  ilock ip := ram_set true true;
  readi ip off n := fun f => Ok (read_of (default [] (ram_content f ip)) off n) f;
  iunlockput ip := ram_set true false;
  file_of f path := ip ← ram_index path f; ram_content f ip;
  files_idle f := ram_valid f /\ ram_busy f = false;
  files_busy f := ram_valid f /\ ram_busy f = true;
  files_ref f ip c := ram_valid f /\ ram_busy f = true /\ ram_content f ip = Some c;
  files_locked f ip c := ram_valid f /\ ram_locked f = true /\ ram_content f ip = Some c
|}.
Next Obligation. intros f [V _]. eexists. split; [done|]. split; [by split|done]. Qed.
Next Obligation. intros f [V _]. eexists. split; [done|]. by split. Qed.
Next Obligation.
  intros f path [V B]. exists (ram_index path f), f. split; [done|]. unfold ram_index. destruct (list_find _ _) as [[i e]|] eqn:E; cbn [fmap option_fmap option_map mbind option_bind fst]; [|by split].
  apply list_find_Some in E as (E & _ & _). unfold ram_content. by rewrite E.
Qed.
Next Obligation. intros f ip c (V & _ & C). eexists. split; [done|]. by split. Qed.
Next Obligation. intros f ip c off n (V & L & C) Ho Hn. exists f. rewrite C. done. Qed.
Next Obligation.
  intros f ip c (V & L & C). unfold ram_content in C. destruct (ram_files f !! ip) as [e|] eqn:E; [|done]. injection C as <-. unfold ram_valid in V. rewrite Forall_forall in V. apply (V e). by eapply list_elem_of_lookup_2.
Qed.
Next Obligation. intros f ip c (V & _ & C). eexists. split; [done|]. by split. Qed.

(** ** A program of one segment *)

Definition words (ws : list Z) : list Z := ws ≫= le32.
Definition demo_elf : list Z :=
  words [ELF_MAGIC; 0; 0; 0; 0x30002; 1; 4; 52; 0; 0; 0x200034; 1; 0] ++
  words [ELF_PROG_LOAD; 84; 0; 0; 6; 10; 7; 4096] ++ [104; 105; 33; 10; 1; 2].
Definition demo_files : ram := Ram [([47; 97], demo_elf)] false false.

(** ** A process of one page, with [demo_free] free *)

Fixpoint link_pages (l : list Z) (m : memory) : memory :=
  match l with [] => m | v :: l' => wr32 (link_pages l' m) (V2P v) (hd 0 l') end.
Lemma link_other l m a : (forall v, v ∈ l -> ~ in_page v a) -> rd8 (link_pages l m) a = rd8 m a.
Proof.
  induction l as [|v l IH]; intros H; cbn [link_pages]; [done|]. rewrite rd8_wr32_ne.
  - apply IH. intros w Hw. apply H. by right.
  - pose proof (H v ltac:(by left)) as Hv. unfold in_page, PGSIZE in Hv. lia.
Qed.
Lemma link_bytes l m : bytes_ok m -> bytes_ok (link_pages l m).
Proof. induction l; intros H; cbn [link_pages]; [done|]. by apply bytes_ok_wr32, IHl. Qed.
Lemma link_chain e l m : Forall (page_ok e) l -> NoDup l -> chain (link_pages l m) e (hd 0 l) l.
Proof.
  induction 1 as [|v l Hv Hl IH]; intros Hn; [done|]. apply NoDup_cons in Hn as [Hn Hnd]. specialize (IH Hnd). cbn [link_pages chain hd].
  split; [done|]. split; [done|]. rewrite rd32_wr32_eq by (by eapply chain_head). eapply chain_ext; [|exact IH]. intros w Hw%list_elem_of_In.
  rewrite rd32_wr32_ne; [done|]. rewrite Forall_forall in Hl. assert (w <> v) as Hne by congruence.
  pose proof (page_disjoint _ w v (V2P w) (Hl w Hw) Hv Hne) as D. pose proof (page_disjoint _ v w (V2P v) Hv (Hl w Hw) (not_eq_sym Hne)) as D'. unfold in_page, PGSIZE in *. lia.
Qed.

Definition demo_free : list Z := (fun i => KERNBASE + 0x400000 + 4096 * i) <$> seqZ 0 1100.
Lemma demo_free_page v : v ∈ demo_free -> page_ok (KERNBASE + 0x100000) v /\ 0x400000 <= V2P v < 0x900000.
Proof.
  intros (i & -> & Hi%elem_of_seqZ)%list_elem_of_fmap. assert (V2P (KERNBASE + 4194304 + 4096 * i) = 4194304 + 4096 * i) as E.
  { unfold V2P. rewrite u32_small by (unfold is_u32, KERNBASE in *; lia). lia. }
  rewrite E. split; [|lia]. split; rewrite ?E; unfold KERNBASE, PHYSTOP, PGSIZE in *; try lia. replace (2147483648 + 4194304 + 4096 * i) with ((525312 + i) * 4096) by lia. by rewrite Z.mod_mul.
Qed.
Lemma demo_free_nodup : NoDup demo_free.
Proof. apply NoDup_fmap_2; [|apply NoDup_seqZ]. intros i j H. lia. Qed.

Definition demo_kmem : memory := link_pages demo_free (demo_mem 7).
Definition demo_uproc : ust := set_k (set_freelist (hd 0 demo_free) (set_mem demo_kmem demo_kst1)) (demo_ust 7).
Definition demo_xst : xst ram := XSt demo_uproc demo_files 0 0 [].
Definition demo_args : list (list Z) := [[97]; [98; 99]].

Lemma demo_own : own (demo_ust 7) = [demo_dir; demo_table; demo_upage].
Proof.
  unfold own. change (umem (demo_ust 7)) with (demo_mem 7). change (pgdir (us_p (demo_ust 7))) with demo_dir.
  by rewrite demo_pt_pages, demo_pages.
Qed.
Lemma demo_run R : (forall w, w ∈ R -> page_ok (KERNBASE + 0x100000) w /\ V2P w < 0x400000 - PGSIZE) -> NoDup ([demo_dir; demo_table; demo_upage] ++ R) -> uinv 1 demo_uproc R demo_free.
Proof.
  intros HR Hn. assert (forall w, w ∈ own (demo_ust 7) ++ R -> page_ok (KERNBASE + 0x100000) w /\ V2P w < 0x400000 - PGSIZE) as Hw.
  { rewrite demo_own. intros w [Hw|Hw]%elem_of_app; [|by apply HR]. repeat (apply elem_of_cons in Hw as [->|Hw]); [..|by apply elem_of_nil in Hw]; (split; [repeat constructor; vm_compute; congruence|reflexivity]). }
  apply (frame_uinv (demo_ust 7)); [done| |done|done|].
  - intros w Hin a Ha. symmetry. apply link_other. intros v [_ Hv]%demo_free_page Hv'. destruct (Hw w ltac:(rewrite elem_of_app; by left)) as [_ Hlt]. unfold in_page, PGSIZE in *. lia.
  - split; [split| | |].
    + apply link_chain; [|apply demo_free_nodup]. apply Forall_forall. intros v Hv. by apply demo_free_page.
    + apply demo_free_nodup.
    + apply link_bytes, bytes_ok_wr32, bytes_ok_wr32, bytes_ok_empty.
    + eexists. apply hw2_on_cpu.
    + done.
    + done.
    + apply Forall_forall. intros w Hin. by apply Hw.
    + apply NoDup_app. split; [by rewrite demo_own|]. split; [|apply demo_free_nodup].
      intros w Hin [_ Hv]%demo_free_page. destruct (Hw w Hin) as [_ Hlt]. unfold PGSIZE in *. lia.
Qed.
Lemma demo_run_uinv : uinv 1 demo_uproc [] demo_free.
Proof. apply demo_run; [by intros w Hw%elem_of_nil|]. apply (bool_decide_unpack _). vm_compute. done. Qed.
Lemma demo_files_ok : files_idle demo_files.
Proof.
  split; [|done]. constructor; [|constructor]. cbn [snd]. split; [|vm_compute; done].
  apply (bool_decide_unpack _). vm_compute. done.
Qed.
Lemma demo_program : exists p, ref_path demo_xst [47; 97] demo_args = Some p /\ pr_sz p = 12288 /\ pr_entry p = 4 /\ pr_byte p 0 = 104.
Proof.
  assert (option_map (fun p => (pr_sz p, pr_entry p, pr_byte p 0)) (ref_path demo_xst [47; 97] demo_args) = Some (12288, 4, 104)) as E by (vm_compute; reflexivity).
  destruct (ref_path demo_xst [47; 97] demo_args) as [p|]; [|done]. exists p. cbn in E. injection E as E1 E2 E3. done.
Qed.
Lemma demo_enough : ~ (forall p, ref_path demo_xst [47; 97] demo_args = Some p -> too_few demo_free (pr_sz p)).
Proof.
  intros H. destruct demo_program as (p & Hp & Hs & _). specialize (H p Hp). rewrite Hs in H.
  unfold too_few, demo_free in H. rewrite length_fmap, length_seqZ in H. change ((12288 + PGSIZE - 1) / PGSIZE) with 3 in H. lia.
Qed.
Lemma demo_short : short_args demo_args.
Proof. repeat constructor. Qed.

(** The program is started, and its first byte is that of the file. *)
Lemma exec_spec_witness : exists x', exec demo_data [47; 97] demo_args demo_xst = Ok 0 x' /\ x_eip x' = 4 /\ x_name x' = [97] /\ sees (x_u x') 0 = 104.
Proof.
  destruct (exec_spec 1 demo_xst [] demo_free demo_data [47; 97] demo_args demo_data_ok demo_run_uinv eq_refl demo_files_ok demo_short)
    as (r & x' & l' & E & _ & [(_ & _ & N)|(-> & p & Hp & X)]); [destruct (demo_enough N)|].
  exists x'. split; [exact E|]. destruct demo_program as (p' & Hp' & Hs & He & Hb). assert (p' = p) as -> by congruence.
  destruct (ex_regs _ _ _ _ _ _ _ _ X) as (R1 & _ & R3). split; [congruence|]. split; [exact R3|].
  unfold sees. rewrite (ex_bytes _ _ _ _ _ _ _ _ X 0) by lia. exact Hb.
Defined.
Lemma exec_arguments_witness : exists x', exec demo_data [47; 97] demo_args demo_xst = Ok 0 x' /\ arguments_at (sees (x_u x')) (x_esp x') demo_args.
Proof.
  destruct (exec_ok 1 demo_xst [] demo_free demo_data demo_data_ok demo_run_uinv eq_refl demo_files_ok [47; 97] demo_args demo_short)
    as (r & x' & l' & E & _ & [(_ & _ & N)|(-> & _)]); [destruct (demo_enough N)|].
  exists x'. split; [exact E|].
  apply (exec_arguments 1 demo_xst x' [] demo_free demo_data [47; 97] demo_args demo_data_ok demo_run_uinv eq_refl demo_files_ok demo_short); [repeat constructor; lia|exact E].
Defined.
