(* ===== verification/Sched.v ===== *)
(** * The process table and scheduler: p4/src/proc.c, sysproc.c, trap.c

    The table [tab] holds the 64 processes, the run queue threaded through their
    [next] fields, and the clock. Operations on it run inside the critical
    sections of [ptable.lock]; [sst] adds the CPU, the two locks and the state of
    the other kernel services, which come through the interface [Services].
    A kernel thread that gives up the CPU in [sched] leaves behind the point to
    continue from ([kont], the saved context); [resume] runs from there. *)

From S2P Require Import Prelude Spinlock.

Definition NPROC : nat := 64.
Definition NOFILE : nat := 16.

Inductive procstate := UNUSED | EMBRYO | SLEEPING | RUNNABLE | RUNNING | ZOMBIE.
#[export] Instance procstate_eq_dec : EqDecision procstate.
Proof. solve_decision. Defined.

(** What a process sleeps on: [&ticks], a process, or another address. *)
Inductive chan := NoChan | TicksChan | ProcChan (i : nat) | AddrChan (a : Z).
#[export] Instance chan_eq_dec : EqDecision chan.
Proof. solve_decision. Defined.

Inductive lockid := LkPtable | LkTicks.
#[export] Instance lockid_eq_dec : EqDecision lockid.
Proof. solve_decision. Defined.

(** Where a kernel thread continues after [swtch] comes back to it. *)
Inductive kpoint :=
  | KForkret                                (* first run: forkret *)
  | KYield                                  (* yield, called by trap *)
  | KSleep (lk : lockid) (after : wake)     (* sleep *)
  | KDead                                   (* exit: never resumed *)
with wake := WakeSysSleep | WakeWait.
Record kont := Kont { k_point : kpoint; k_intena : bool }.

Record trapframe := Trapframe { tf_eax : Z; tf_regs : list Z }.

Record acct := Acct {
  timeslice : Z; compticks : Z; schedticks : Z; sleepticks : Z; switches : Z;
  sleepdeadline : Z; activeticks : Z; activesleepticks : Z
}.
Record image := Image {
  i_sz : Z; i_pgdir : Z; i_kstack : Z; i_tf : trapframe;
  i_ofile : list Z; i_cwd : Z; i_name : string
}.
Record proc := Proc {
  state : procstate; pid : Z; parent : option nat; p_chan : chan; killed : Z;
  next : option nat; ctx : kont; img : image; acc : acct
}.

Definition set_state v p := Proc v (pid p) (parent p) (p_chan p) (killed p) (next p) (ctx p) (img p) (acc p).
Definition set_pid v p := Proc (state p) v (parent p) (p_chan p) (killed p) (next p) (ctx p) (img p) (acc p).
Definition set_parent v p := Proc (state p) (pid p) v (p_chan p) (killed p) (next p) (ctx p) (img p) (acc p).
Definition set_chan v p := Proc (state p) (pid p) (parent p) v (killed p) (next p) (ctx p) (img p) (acc p).
Definition set_killed v p := Proc (state p) (pid p) (parent p) (p_chan p) v (next p) (ctx p) (img p) (acc p).
Definition set_next v p := Proc (state p) (pid p) (parent p) (p_chan p) (killed p) v (ctx p) (img p) (acc p).
Definition set_ctx v p := Proc (state p) (pid p) (parent p) (p_chan p) (killed p) (next p) v (img p) (acc p).
Definition set_img v p := Proc (state p) (pid p) (parent p) (p_chan p) (killed p) (next p) (ctx p) v (acc p).
Definition set_acc v p := Proc (state p) (pid p) (parent p) (p_chan p) (killed p) (next p) (ctx p) (img p) v.

Definition on_img (f : image -> image) p := set_img (f (img p)) p.
Definition on_acc (f : acct -> acct) p := set_acc (f (acc p)) p.

Definition set_sz v i := Image v (i_pgdir i) (i_kstack i) (i_tf i) (i_ofile i) (i_cwd i) (i_name i).
Definition set_pgdir v i := Image (i_sz i) v (i_kstack i) (i_tf i) (i_ofile i) (i_cwd i) (i_name i).
Definition set_kstack v i := Image (i_sz i) (i_pgdir i) v (i_tf i) (i_ofile i) (i_cwd i) (i_name i).
Definition set_tf v i := Image (i_sz i) (i_pgdir i) (i_kstack i) v (i_ofile i) (i_cwd i) (i_name i).
Definition set_ofile v i := Image (i_sz i) (i_pgdir i) (i_kstack i) (i_tf i) v (i_cwd i) (i_name i).
Definition set_cwd v i := Image (i_sz i) (i_pgdir i) (i_kstack i) (i_tf i) (i_ofile i) v (i_name i).
Definition set_name v i := Image (i_sz i) (i_pgdir i) (i_kstack i) (i_tf i) (i_ofile i) (i_cwd i) v.

Definition set_timeslice v a := Acct v (compticks a) (schedticks a) (sleepticks a) (switches a) (sleepdeadline a) (activeticks a) (activesleepticks a).
Definition set_compticks v a := Acct (timeslice a) v (schedticks a) (sleepticks a) (switches a) (sleepdeadline a) (activeticks a) (activesleepticks a).
Definition set_schedticks v a := Acct (timeslice a) (compticks a) v (sleepticks a) (switches a) (sleepdeadline a) (activeticks a) (activesleepticks a).
Definition set_sleepticks v a := Acct (timeslice a) (compticks a) (schedticks a) v (switches a) (sleepdeadline a) (activeticks a) (activesleepticks a).
Definition set_switches v a := Acct (timeslice a) (compticks a) (schedticks a) (sleepticks a) v (sleepdeadline a) (activeticks a) (activesleepticks a).
Definition set_sleepdeadline v a := Acct (timeslice a) (compticks a) (schedticks a) (sleepticks a) (switches a) v (activeticks a) (activesleepticks a).
Definition set_activeticks v a := Acct (timeslice a) (compticks a) (schedticks a) (sleepticks a) (switches a) (sleepdeadline a) v (activesleepticks a).
Definition set_activesleepticks v a := Acct (timeslice a) (compticks a) (schedticks a) (sleepticks a) (switches a) (sleepdeadline a) (activeticks a) v.

(** ** The table, its run queue and the clock *)

Record tab := Tab {
  procs : list proc; head : option nat; tail : option nat;
  nextpid : Z; initproc : option nat; ticks : Z
}.
Definition set_procs v t := Tab v (head t) (tail t) (nextpid t) (initproc t) (ticks t).
Definition set_head v t := Tab (procs t) v (tail t) (nextpid t) (initproc t) (ticks t).
Definition set_tail v t := Tab (procs t) (head t) v (nextpid t) (initproc t) (ticks t).
Definition set_nextpid v t := Tab (procs t) (head t) (tail t) v (initproc t) (ticks t).
Definition set_initproc v t := Tab (procs t) (head t) (tail t) (nextpid t) v (ticks t).
Definition set_ticks v t := Tab (procs t) (head t) (tail t) (nextpid t) (initproc t) v.

(** Access through a process pointer. *)
Definition get_proc (i : nat) : M tab proc := fun t =>
  match procs t !! i with Some p => Ok p t | None => Undef end.
Definition upd (i : nat) (f : proc -> proc) : M tab unit := fun t =>
  match procs t !! i with
  | Some p => Ok tt (set_procs (<[i := f p]> (procs t)) t)
  | None => Undef
  end.

Definition push (p : option nat) : M tab unit :=
  match p with
  | None => mret tt              (* prints a message *)
  | Some p =>
    h ← gets head;
    match h with
    | None =>
      modify (set_head (Some p));; modify (set_tail (Some p));; upd p (set_next None)
    | Some _ =>
      t ← gets tail;
      t ← of_option t;
      upd t (set_next (Some p));;
      upd p (set_next None);;
      modify (set_tail (Some p))
    end
  end.

Definition pop : M tab unit :=
  h ← gets head;
  match h with
  | None => mret tt              (* prints a message *)
  | Some h =>
    t ← gets tail;
    t ← of_option t;
    ph ← get_proc h;
    pt ← get_proc t;
    if pid ph =? pid pt then modify (set_head None);; modify (set_tail None)
    else modify (set_head (next ph))
  end.

(** The first process of the table with a property: the loops that stop there. *)
Fixpoint scan (f : proc -> bool) (ps : list proc) (i : nat) : option nat :=
  match ps with
  | [] => None
  | p :: ps' => if f p then Some i else scan f ps' (S i)
  end.
Definition find_proc (f : proc -> bool) : M tab (option nat) :=
  t ← gets procs; mret (scan f t 0).

Definition is_state (x : procstate) (p : proc) : bool := bool_decide (state p = x).

Fixpoint wakeup1_loop (ch : chan) (i n : nat) : M tab unit :=
  match n with
  | O => mret tt
  | S n' =>
    p ← get_proc i;
    (if is_state SLEEPING p && bool_decide (p_chan p = ch) then
       if bool_decide (ch = TicksChan) then
         t ← gets ticks;
         if t <? sleepdeadline (acc p) then
           upd i (on_acc (fun a => set_sleepticks (s32 (sleepticks a + 1)) a))
         else
           upd i (on_acc (fun a => set_sleepticks (s32 (sleepticks a + 1)) a));;
           upd i (set_state RUNNABLE);;
           push (Some i);;
           upd i (on_acc (set_activeticks 0))
       else
         upd i (set_state RUNNABLE);;
         push (Some i);;
         upd i (on_acc (set_activeticks 0))
     else mret tt);;
    wakeup1_loop ch (S i) n'
  end.
Definition wakeup1 (ch : chan) : M tab unit := wakeup1_loop ch 0 NPROC.

(** One round of the scheduler's [while] loop is one queue entry looked at; the
    result is the process switched to, or [None] when the queue is empty. *)
Definition has_ticks (p : proc) : bool :=
  activeticks (acc p) <? s32 (timeslice (acc p) + activesleepticks (acc p)).

Definition charge (a : acct) : acct :=
  let a := set_schedticks (s32 (schedticks a + 1)) a in
  let a := set_activeticks (s32 (activeticks a + 1)) a in
  if timeslice a <? activeticks a then set_compticks (s32 (compticks a + 1)) a else a.

Fixpoint scheduler_pick (fuel : nat) : M tab (option nat) :=
  match fuel with
  | O => hang
  | S fuel' =>
    h ← gets head;
    match h with
    | None => mret None
    | Some i =>
      p ← get_proc i;
      if negb (is_state RUNNABLE p) then pop;; scheduler_pick fuel'
      else if has_ticks p then upd i (on_acc charge);; mret (Some i)
      else
        upd i (on_acc (fun a => set_switches (s32 (switches a + 1)) a));;
        upd i (on_acc (set_activesleepticks 0));;
        pop;;
        p' ← get_proc i;
        if negb (is_state SLEEPING p') then
          push (Some i);;
          upd i (on_acc (set_activeticks 0));;
          scheduler_pick fuel'
        else scheduler_pick fuel'
    end
  end.
(** Every entry is looked at twice at most. *)
Definition PICK_FUEL : nat := 2 * NPROC + 1.

(** ** The other kernel services *)

(** What proc.c calls: pages and address spaces, open files and inodes. Addresses
    are nonzero; 0 is failure. *)
Class Services (V : Type) := {
  svc_kalloc : V -> Z * V;
  svc_kfree : Z -> V -> V;
  svc_copyuvm : Z -> Z -> V -> Z * V;      (* page directory, size *)
  svc_setupkvm : V -> Z * V;
  svc_inituvm : Z -> V -> V;               (* page directory; loads initcode *)
  svc_freevm : Z -> V -> V;
  svc_filedup : Z -> V -> Z * V;
  svc_fileclose : Z -> V -> V;
  svc_idup : Z -> V -> Z * V;
  svc_iput_op : Z -> V -> V;               (* begin_op, iput, end_op *)
  svc_namei_root : V -> Z * V;
  svc_fsinit : V -> V;                     (* iinit, initlog *)
  (* which pages and files are in use *)
  svc_eq : V -> V -> Prop;
  svc_eq_equiv :: Equivalence svc_eq;
  svc_kfree_proper :: Proper (eq ==> svc_eq ==> svc_eq) svc_kfree;
  svc_kalloc_free : forall v pg v', svc_kalloc v = (pg, v') -> pg <> 0 -> svc_eq (svc_kfree pg v') v;
  svc_kalloc_fail : forall v v', svc_kalloc v = (0, v') -> svc_eq v' v;
  svc_copyuvm_fail : forall d sz v v', svc_copyuvm d sz v = (0, v') -> svc_eq v' v
}.

Inductive ret := Done (v : Z) | Switched.

Record pstat := Pstat {
  ps_inuse : list Z; ps_pid : list Z; ps_timeslice : list Z; ps_compticks : list Z;
  ps_schedticks : list Z; ps_sleepticks : list Z; ps_switches : list Z
}.

Section kernel.
Context {V : Type} `{Services V}.

Record sst := SSt {
  s_tab : tab; s_hw : hw; s_lk : spinlock; s_tk : spinlock;
  s_cr3 : option Z;            (* None: the kernel's page table *)
  s_svc : V; s_first : bool
}.
Definition set_tab v s := SSt v (s_hw s) (s_lk s) (s_tk s) (s_cr3 s) (s_svc s) (s_first s).
Definition set_shw v s := SSt (s_tab s) v (s_lk s) (s_tk s) (s_cr3 s) (s_svc s) (s_first s).
Definition set_lk v s := SSt (s_tab s) (s_hw s) v (s_tk s) (s_cr3 s) (s_svc s) (s_first s).
Definition set_tk v s := SSt (s_tab s) (s_hw s) (s_lk s) v (s_cr3 s) (s_svc s) (s_first s).
Definition set_cr3 v s := SSt (s_tab s) (s_hw s) (s_lk s) (s_tk s) v (s_svc s) (s_first s).
Definition set_svc v s := SSt (s_tab s) (s_hw s) (s_lk s) (s_tk s) (s_cr3 s) v (s_first s).
Definition set_first v s := SSt (s_tab s) (s_hw s) (s_lk s) (s_tk s) (s_cr3 s) (s_svc s) v.

Definition lt {A} (m : M tab A) : M sst A := zoom s_tab set_tab m.
Definition lh {A} (m : M hw A) : M sst A := zoom s_hw set_shw m.
Definition svc {A} (f : V -> A * V) : M sst A := fun s => Ok (fst (f (s_svc s))) (set_svc (snd (f (s_svc s))) s).
Definition svc_do (f : V -> V) : M sst unit := modify (fun s => set_svc (f (s_svc s)) s).

Definition acquire_ptable : M sst unit := acquire_in s_hw set_shw s_lk set_lk.
Definition release_ptable : M sst unit := release_in s_hw set_shw s_lk set_lk.
Definition acquire_tickslock : M sst unit := acquire_in s_hw set_shw s_tk set_tk.
Definition release_tickslock : M sst unit := release_in s_hw set_shw s_tk set_tk.
Definition acquire_id (l : lockid) : M sst unit :=
  match l with LkPtable => acquire_ptable | LkTicks => acquire_tickslock end.
Definition release_id (l : lockid) : M sst unit :=
  match l with LkPtable => release_ptable | LkTicks => release_tickslock end.

Definition my_proc : M sst (option nat) := lh myproc.
(** [myproc()->...]: a null pointer is undefined behaviour. *)
Definition curproc : M sst nat := p ← my_proc; of_option p.

Definition set_cproc (v : option nat) (c : cpu) : cpu := Cpu (apicid c) (ncli c) (intena c) v.

(** *** Allocation and creation *)

Definition allocproc : M sst (option nat) :=
  acquire_ptable;;
  f ← lt (find_proc (is_state UNUSED));
  match f with
  | None => release_ptable;; mret None
  | Some i =>
    lt (upd i (set_state EMBRYO);;
        n ← gets nextpid;
        upd i (set_pid n);;
        modify (set_nextpid (s32 (n + 1)));;
        upd i (on_acc (fun a => Acct (timeslice a) 0 0 0 0 0 0 0)));;
    release_ptable;;
    k ← svc svc_kalloc;
    lt (upd i (on_img (set_kstack k)));;
    if k =? 0 then lt (upd i (set_state UNUSED));; mret None else
    (* the trap frame and the context are carved from the new stack *)
    lt (upd i (set_ctx (Kont KForkret false)));;
    mret (Some i)
  end.

Fixpoint fork_files (cur np fd n : nat) : M sst unit :=
  match n with
  | O => mret tt
  | S n' =>
    p ← lt (get_proc cur);
    f ← of_option (i_ofile (img p) !! fd);
    (if negb (f =? 0) then
       f' ← svc (svc_filedup f);
       lt (upd np (on_img (fun m => set_ofile (<[fd := f']> (i_ofile m)) m)))
     else mret tt);;
    fork_files cur np (S fd) n'
  end.

(** [safestrcpy] into [name], 16 bytes with the terminator. *)
Definition proc_name (n : string) : string := String.substring 0 15 n.

Definition fork2 (slice : Z) : M sst Z :=
  cur ← my_proc;
  if slice <? 1 then mret (-1) else
  np ← allocproc;
  match np with
  | None => mret (-1)
  | Some np =>
    cur ← of_option cur;
    c ← lt (get_proc cur);
    d ← svc (svc_copyuvm (i_pgdir (img c)) (i_sz (img c)));
    lt (upd np (on_img (set_pgdir d)));;
    if d =? 0 then
      n ← lt (get_proc np);
      svc_do (svc_kfree (i_kstack (img n)));;
      lt (upd np (on_img (set_kstack 0)));;
      lt (upd np (set_state UNUSED));;
      mret (-1)
    else
      lt (upd np (on_img (set_sz (i_sz (img c)))));;
      lt (upd np (set_parent (Some cur)));;
      lt (upd np (on_img (set_tf (i_tf (img c)))));;
      lt (upd np (on_img (fun m => set_tf (Trapframe 0 (tf_regs (i_tf m))) m)));;
      fork_files cur np 0 NOFILE;;
      w ← svc (svc_idup (i_cwd (img c)));
      lt (upd np (on_img (set_cwd w)));;
      lt (upd np (on_img (set_name (proc_name (i_name (img c))))));;
      n ← lt (get_proc np);
      acquire_ptable;;
      lt (upd np (set_state RUNNABLE);;
          upd np (on_acc (set_timeslice slice));;
          push (Some np));;
      release_ptable;;
      mret (pid n)
  end.

(** *** Slices and statistics *)

Definition setslice (pid' slice : Z) : M sst Z :=
  if (slice <? 1) || (pid' <? 0) then mret (-1) else
  acquire_ptable;;
  f ← lt (find_proc (fun p => pid p =? pid'));
  match f with
  | Some i => lt (upd i (on_acc (set_timeslice slice)));; release_ptable;; mret 0
  | None => release_ptable;; mret (-1)
  end.

Definition getslice (pid' : Z) : M sst Z :=
  if pid' <? 0 then mret (-1) else
  acquire_ptable;;
  f ← lt (find_proc (fun p => pid p =? pid'));
  match f with
  | Some i => release_ptable;; p ← lt (get_proc i); mret (timeslice (acc p))
  | None => acquire_ptable;; mret (-1)
  end.

Definition fork : M sst Z :=
  cur ← curproc; p ← lt (get_proc cur); r ← getslice (pid p); fork2 r.

Definition getpinfo (ps_null : bool) : M sst (Z * option pstat) :=
  if ps_null then mret (-1, None) else
  acquire_ptable;;
  ps ← lt (gets procs);
  let col f := map f ps in
  let r := Pstat (col (fun p => if is_state UNUSED p then 0 else 1)) (col pid)
             (col (fun p => timeslice (acc p))) (col (fun p => compticks (acc p)))
             (col (fun p => schedticks (acc p))) (col (fun p => sleepticks (acc p)))
             (col (fun p => switches (acc p))) in
  release_ptable;;
  mret (0, Some r).

(** *** The first process *)

Definition userinit : M sst unit :=
  f ← allocproc;
  lt (modify (set_initproc f));;
  i ← of_option f;
  d ← svc svc_setupkvm;
  lt (upd i (on_img (set_pgdir d)));;
  if d =? 0 then panic "userinit: out of memory?" else
  svc_do (svc_inituvm d);;
  lt (upd i (on_img (set_sz 4096)));;
  (* the registers: zero but the user segments, FL_IF, esp = PGSIZE, eip = 0 *)
  lt (upd i (on_img (set_tf (Trapframe 0 [0x1b; 0x23; 0x23; 0x23; 0x200; 4096; 0]))));;
  lt (upd i (on_img (set_name "initcode")));;
  w ← svc svc_namei_root;
  lt (upd i (on_img (set_cwd w)));;
  acquire_ptable;;
  lt (upd i (set_state RUNNABLE);;
      upd i (on_acc (set_timeslice 1));;
      push (Some i));;
  release_ptable.

(** *** Giving up the CPU *)

(** [sched] up to the [swtch]: the thread will continue at [k]. *)
Definition sched (k : kpoint) : M sst unit :=
  p ← my_proc;
  lk ← gets s_lk;
  held ← lh (holding lk);
  if negb held then panic "sched ptable.lock" else
  c ← lh (i ← mycpu; cpu_at i);
  if negb (ncli c =? 1) then panic "sched locks" else
  p ← of_option p;
  pp ← lt (get_proc p);
  if is_state RUNNING pp then panic "sched running" else
  h ← gets s_hw;
  if eflags_IF h then panic "sched interruptible" else
  c ← lh (i ← mycpu; cpu_at i);
  lt (upd p (set_ctx (Kont k (intena c)))).

(** The rest of [sched], after the [swtch] back. *)
Definition sched_back (b : bool) : M sst unit :=
  lh (i ← mycpu; upd_cpu i (set_intena b)).

Definition yield : M sst unit :=
  acquire_ptable;;
  p ← curproc;
  lt (upd p (set_state RUNNABLE));;
  sched KYield.

Definition sleep (ch : chan) (lk : option lockid) (after : wake) : M sst unit :=
  p ← my_proc;
  match p, lk with
  | None, _ => panic "sleep"
  | Some _, None => panic "sleep without lk"
  | Some p, Some lk =>
    (if bool_decide (lk = LkPtable) then mret tt else acquire_ptable;; release_id lk);;
    lt (upd p (set_chan ch));;
    lt (upd p (set_state SLEEPING));;
    lt pop;;
    sched (KSleep lk after)
  end.

(** The rest of [sleep], on process [p]. *)
Definition sleep_back (p : nat) (lk : lockid) : M sst unit :=
  lt (upd p (set_chan NoChan));;
  if bool_decide (lk = LkPtable) then mret tt else release_ptable;; acquire_id lk.

Definition wakeup (ch : chan) : M sst unit :=
  acquire_ptable;; lt (wakeup1 ch);; release_ptable.

Definition kill (pid' : Z) : M sst Z :=
  acquire_ptable;;
  f ← lt (find_proc (fun p => pid p =? pid'));
  match f with
  | Some i =>
    lt (upd i (set_killed 1));;
    p ← lt (get_proc i);
    (if is_state SLEEPING p then lt (upd i (set_state RUNNABLE)) else mret tt);;
    release_ptable;;
    mret 0
  | None => release_ptable;; mret (-1)
  end.

(** *** exit and wait *)

Fixpoint exit_files (p fd n : nat) : M sst unit :=
  match n with
  | O => mret tt
  | S n' =>
    pp ← lt (get_proc p);
    f ← of_option (i_ofile (img pp) !! fd);
    (if negb (f =? 0) then
       svc_do (svc_fileclose f);;
       lt (upd p (on_img (fun m => set_ofile (<[fd := 0]> (i_ofile m)) m)))
     else mret tt);;
    exit_files p (S fd) n'
  end.

Definition chan_of (p : option nat) : chan :=
  match p with Some i => ProcChan i | None => NoChan end.

(** Pass abandoned children to init. *)
Fixpoint reparent (cur i n : nat) : M tab unit :=
  match n with
  | O => mret tt
  | S n' =>
    p ← get_proc i;
    (if bool_decide (parent p = Some cur) then
       ip ← gets initproc;
       upd i (set_parent ip);;
       (if is_state ZOMBIE p then wakeup1 (chan_of ip) else mret tt)
     else mret tt);;
    reparent cur (S i) n'
  end.

Definition exit : M sst unit :=
  cur ← my_proc;
  ip ← lt (gets initproc);
  if bool_decide (cur = ip) then panic "init exiting" else
  cur ← of_option cur;
  exit_files cur 0 NOFILE;;
  c ← lt (get_proc cur);
  svc_do (svc_iput_op (i_cwd (img c)));;
  lt (upd cur (on_img (set_cwd 0)));;
  acquire_ptable;;
  lt (c ← get_proc cur;
      wakeup1 (chan_of (parent c));;
      reparent cur 0 NPROC;;
      upd cur (set_state ZOMBIE));;
  sched KDead.

(** The scan of [wait]: a zombie child is freed and its pid returned; otherwise
    whether there is a child. *)
Fixpoint wait_scan (cur i n : nat) (havekids : bool) : M sst (option Z * bool) :=
  match n with
  | O => mret (None, havekids)
  | S n' =>
    p ← lt (get_proc i);
    if negb (bool_decide (parent p = Some cur)) then wait_scan cur (S i) n' havekids else
    if is_state ZOMBIE p then
      svc_do (svc_kfree (i_kstack (img p)));;
      lt (upd i (on_img (set_kstack 0)));;
      svc_do (svc_freevm (i_pgdir (img p)));;
      lt (upd i (set_pid 0);;
          upd i (set_parent None);;
          upd i (on_img (set_name EmptyString));;
          upd i (set_killed 0);;
          upd i (set_state UNUSED));;
      mret (Some (pid p), true)
    else wait_scan cur (S i) n' true
  end.

(** One turn of the loop of [wait], with [ptable.lock] held. *)
Definition wait_turn (cur : nat) : M sst ret :=
  r ← wait_scan cur 0 NPROC false;
  match r with
  | (Some pid, _) => release_ptable;; mret (Done pid)
  | (None, havekids) =>
    c ← lt (get_proc cur);
    if negb havekids || negb (killed c =? 0) then release_ptable;; mret (Done (-1))
    else sleep (ProcChan cur) (Some LkPtable) WakeWait;; mret Switched
  end.

Definition wait : M sst ret :=
  cur ← curproc; acquire_ptable;; wait_turn cur.

(** *** System calls of sysproc.c that are more than a call *)

Definition sys_sleep (n : Z) : M sst ret :=
  acquire_tickslock;;
  ticks0 ← lt (gets ticks);
  p ← curproc;
  lt (upd p (on_acc (set_sleepdeadline (u32 (n + ticks0)))));;
  p ← curproc;
  lt (upd p (on_acc (set_activesleepticks n)));;
  p ← curproc;
  lt (upd p (on_acc (set_activeticks 0)));;
  p ← curproc;
  pp ← lt (get_proc p);
  if negb (killed pp =? 0) then release_tickslock;; mret (Done (-1))
  else sleep TicksChan (Some LkTicks) WakeSysSleep;; mret Switched.

Definition sys_uptime : M sst Z :=
  acquire_tickslock;; x ← lt (gets ticks); release_tickslock;; mret x.

Definition sys_getpid : M sst Z := cur ← curproc; p ← lt (get_proc cur); mret (pid p).

(** *** trap *)

(** The timer interrupt proper. *)
Definition timer_tick : M sst unit :=
  c ← lh mycpu;
  if bool_decide (c = O) then
    acquire_tickslock;;
    lt (modify (fun t => set_ticks (u32 (ticks t + 1)) t));;
    wakeup TicksChan;;
    release_tickslock
  else mret tt.

Definition exit_if_killed (k : M sst ret) : M sst ret :=
  cur ← my_proc;
  match cur with
  | None => k
  | Some i =>
    p ← lt (get_proc i);
    if negb (killed p =? 0) then exit;; mret Switched else k
  end.

(** A timer interrupt taken from user mode or from the idle scheduler: the
    interrupt gate turns interrupts off, the return from the trap restores them.
    The last test of [trap], after [yield], is in [resume]. The ticks that p4/trap.c takes in kernel
    mode, between a system call's critical sections, and yields on are not modelled: a call is one step. *)
Definition irq_entry : M sst unit := lh (modify (set_IF false)).
Definition iret : M sst unit := lh (modify (set_IF true)).

Definition trap_timer : M sst ret :=
  irq_entry;;
  timer_tick;;
  exit_if_killed
    (cur ← my_proc;
     match cur with
     | None => iret;; mret (Done 0)
     | Some i =>
       p ← lt (get_proc i);
       if is_state RUNNING p then yield;; mret Switched else iret;; mret (Done 0)
     end).

(** *** The scheduler *)

Definition switchuvm (i : nat) : M sst unit :=
  p ← lt (get_proc i);
  if i_kstack (img p) =? 0 then panic "switchuvm: no kstack" else
  if i_pgdir (img p) =? 0 then panic "switchuvm: no pgdir" else
  lh pushcli;;
  modify (set_cr3 (Some (i_pgdir (img p))));;
  lh popcli.
Definition switchkvm : M sst unit := modify (set_cr3 None).

Definition set_curproc (v : option nat) : M sst unit :=
  lh (i ← mycpu; upd_cpu i (set_cproc v)).

(** The [while] loop from its top to the next [swtch], or to the end. *)
Definition scheduler_while : M sst (option nat) :=
  r ← lt (scheduler_pick PICK_FUEL);
  match r with
  | None => release_ptable;; mret None
  | Some p =>
    set_curproc (Some p);;
    switchuvm p;;
    lt (upd p (set_state RUNNING));;
    mret (Some p)
  end.

(** One turn of the [for] loop up to the first [swtch]. *)
Definition scheduler_enter : M sst (option nat) :=
  lh (modify (set_IF true));;
  p ← lt (gets head);
  acquire_ptable;;
  match p with
  | None => release_ptable;; mret None
  | Some _ => scheduler_while
  end.

(** Back in the scheduler from a process. *)
Definition scheduler_back : M sst (option nat) :=
  switchkvm;;
  set_curproc None;;
  scheduler_while.

Definition forkret : M sst unit :=
  release_ptable;;
  f ← gets s_first;
  if (f : bool) then modify (set_first false);; svc_do svc_fsinit else mret tt.

(** Process [p] runs from its saved context until it is in user mode ([Done]) or
    gives up the CPU again. *)
Definition resume (p : nat) : M sst ret :=
  pp ← lt (get_proc p);
  let k := ctx pp in
  match k_point k with
  | KForkret => forkret;; iret;; mret (Done 0)
  | KYield => sched_back (k_intena k);; release_ptable;; exit_if_killed (iret;; mret (Done 0))
  | KDead => panic "zombie exit"
  | KSleep lk after =>
    sched_back (k_intena k);;
    sleep_back p lk;;
    match after with
    | WakeWait =>
      r ← wait_turn p;
      match r with Done v => exit_if_killed (iret;; mret (Done v)) | Switched => mret Switched end
    | WakeSysSleep => release_tickslock;; exit_if_killed (iret;; mret (Done 0))
    end
  end.

(** *** The system *)

(** [User i]: process [i] is in user mode; [Kern]: a process has just switched to
    the scheduler; [Resuming i]: the scheduler has switched to [i]; [Idle]: the
    scheduler is between two turns of its outer loop. *)
Inductive mode := User (i : nat) | Kern | Resuming (i : nat) | Idle.

Inductive call :=
  | CFork2 (slice : Z) | CFork | CSetslice (pid slice : Z) | CGetslice (pid : Z) | CGetpinfo (null : bool)
  | CKill (pid : Z) | CWakeup (ch : chan) | CSleep (n : Z) | CUptime | CGetpid | CWait | CExit.

Definition done (m : M sst Z) : M sst ret := v ← m; mret (Done v).

(** The system calls, and the wakeups that other parts of the kernel make in them. *)
Definition run_call (c : call) : M sst ret :=
  match c with
  | CFork2 slice => done (fork2 slice)
  | CFork => done fork
  | CSetslice pid slice => done (setslice pid slice)
  | CGetslice pid => done (getslice pid)
  | CGetpinfo null => r ← getpinfo null; mret (Done (fst r))
  | CKill pid => done (kill pid)
  | CWakeup ch => wakeup ch;; mret (Done 0)
  | CSleep n => sys_sleep n
  | CUptime => done sys_uptime
  | CGetpid => done sys_getpid
  | CWait => wait
  | CExit => exit;; mret Switched
  end.
Definition trap_syscall (c : call) : M sst ret :=
  exit_if_killed
    (r ← run_call c;
     match r with Done v => exit_if_killed (iret;; mret (Done v)) | Switched => mret Switched end).

Definition int32 (n : Z) : Prop := - 2 ^ 31 <= n < 2 ^ 31.

(** The arguments of a call are ints, and the process counter has not run out. *)
Definition call_ok (c : call) (s : sst) : Prop :=
  match c with
  | CFork2 sl => int32 sl /\ nextpid (s_tab s) < 2 ^ 31 - 1
  | CFork => nextpid (s_tab s) < 2 ^ 31 - 1
  | CSetslice _ sl => int32 sl
  | _ => True
  end.

Inductive kstep : mode * sst -> mode * sst -> Prop :=
  | step_call i c s r s' :
      call_ok c s ->
      trap_syscall c s = Ok r s' ->
      kstep (User i, s) (match r with Done _ => User i | Switched => Kern end, s')
  | step_timer i s r s' :
      trap_timer s = Ok r s' ->
      kstep (User i, s) (match r with Done _ => User i | Switched => Kern end, s')
  | step_back s r s' :
      scheduler_back s = Ok r s' ->
      kstep (Kern, s) (match r with Some p => Resuming p | None => Idle end, s')
  | step_resume p s r s' :
      resume p s = Ok r s' ->
      kstep (Resuming p, s) (match r with Done _ => User p | Switched => Kern end, s')
  | step_enter s r s' :
      scheduler_enter s = Ok r s' ->
      kstep (Idle, s) (match r with Some p => Resuming p | None => Idle end, s')
  | step_idle_timer s r s' :
      (lh (modify (set_IF true));; trap_timer) s = Ok r s' ->
      kstep (Idle, s) (Idle, s').
End kernel.
Arguments sst : clear implicits.
