(* ===== verification/RunQueue.v ===== *)
(** * The run queue and the table operations

    The queue is the list of processes from [head] through the [next] pointers to
    [tail] ([queue]); [push] and [pop] are its list operations, and [wakeup1] and
    the scheduler's loop are functions of the table without its [next] fields
    ([tview]) and of that list. *)

From S2P Require Import Prelude Spinlock Sched.

(** ** Views *)

Definition bare (p : proc) : proc := set_next None p.
Definition tview (t : tab) : list proc := map bare (procs t).

(** [nxt ps q]: each element's [next] is the following one. *)
Fixpoint nxt (ps : list proc) (q : list nat) : Prop :=
  match q with
  | i :: (j :: _) as q' => (exists p, ps !! i = Some p /\ next p = Some j) /\ nxt ps q'
  | _ => True
  end.

Record queue (t : tab) (q : list nat) : Prop := Queue {
  qu_head : head t = hd_error q;
  qu_tail : q <> [] -> tail t = last q;
  qu_next : nxt (procs t) q;
  qu_nodup : NoDup q;
  qu_valid : Forall (fun i => (i < length (procs t))%nat) q
}.

(** Everything of the table but the processes and the queue. *)
Definition same_rest (t t' : tab) : Prop :=
  nextpid t' = nextpid t /\ initproc t' = initproc t /\ ticks t' = ticks t.

Lemma nxt_ext ps ps' q :
  (forall i, i ∈ q -> next <$> ps' !! i = next <$> ps !! i) -> nxt ps q -> nxt ps' q.
Proof.
  induction q as [|i [|j q] IH]; intros H Hn; [done|done|].
  destruct Hn as [(p & Hp & Ep) Hn]. split.
  - assert (next <$> ps' !! i = next <$> ps !! i) as E by (apply H; by left).
    rewrite Hp in E. destruct (ps' !! i) as [p'|]; [|done]. injection E as E. exists p'. by rewrite E.
  - apply IH; [|done]. intros k Hk. apply H. by right.
Qed.

Lemma get_proc_ok t i p : procs t !! i = Some p -> get_proc i t = Ok p t.
Proof. intros Hp. unfold get_proc. by rewrite Hp. Qed.

Lemma upd_eq t i f p :
  procs t !! i = Some p -> upd i f t = Ok tt (set_procs (<[i := f p]> (procs t)) t).
Proof. intros Hp. unfold upd. by rewrite Hp. Qed.

Lemma tview_lookup t i p : procs t !! i = Some p -> tview t !! i = Some (bare p).
Proof. intros Hp. unfold tview. by rewrite list_lookup_fmap, Hp. Qed.

Lemma tview_proc t i b : tview t !! i = Some b -> exists p, procs t !! i = Some p /\ bare p = b.
Proof.
  unfold tview. rewrite list_lookup_fmap. destruct (procs t !! i) as [p|]; [|done].
  intros [= <-]. by exists p.
Qed.

Lemma tview_length t : length (tview t) = length (procs t).
Proof. apply length_map. Qed.

Lemma tview_insert t i p : tview (set_procs (<[i := p]> (procs t)) t) = <[i := bare p]> (tview t).
Proof. unfold tview. cbn [procs set_procs]. apply list_fmap_insert. Qed.

(** An update that leaves [next] alone. *)
Lemma queue_upd t q i p p' :
  queue t q -> procs t !! i = Some p -> next p' = next p ->
  queue (set_procs (<[i := p']> (procs t)) t) q.
Proof.
  intros [H1 H2 H3 H4 H5] Hp Hn. split; cbn [procs set_procs head tail]; auto.
  - eapply nxt_ext; [|exact H3]. intros j _. destruct (decide (i = j)) as [->|Hne].
    + rewrite list_lookup_insert_eq by (by eapply lookup_lt_Some). rewrite Hp. cbn. by rewrite Hn.
    + by rewrite list_lookup_insert_ne.
  - by rewrite length_insert.
Qed.

(** ** push and pop *)

Lemma nxt_snoc ps q j i :
  nxt ps (q ++ [j]) -> (exists p, ps !! j = Some p /\ next p = Some i) -> nxt ps (q ++ [j; i]).
Proof.
  induction q as [|k [|k' q] IH]; cbn [app nxt]; intros Hn Hj.
  - split; done.
  - destruct Hn as [Hk _]. split; [done|]. split; done.
  - destruct Hn as [Hk Hn]. split; [done|]. by apply IH.
Qed.

(** The [next] of the last element does not matter. *)
Lemma nxt_ext_snoc ps ps' q j :
  (forall i, i ∈ q -> next <$> ps' !! i = next <$> ps !! i) -> nxt ps (q ++ [j]) -> nxt ps' (q ++ [j]).
Proof.
  induction q as [|i q IH]; intros H Hn; [done|].
  assert (next <$> ps' !! i = next <$> ps !! i) as E by (apply H; by left).
  assert (forall k, k ∈ q -> next <$> ps' !! k = next <$> ps !! k) as H' by (intros k Hk; apply H; by right).
  assert (forall x, (exists p, ps !! i = Some p /\ next p = Some x) -> exists p, ps' !! i = Some p /\ next p = Some x) as Hx.
  { intros x (p & Hp & Ep). rewrite Hp in E. destruct (ps' !! i) as [p'|]; [|done].
    injection E as E. exists p'. by rewrite E. }
  destruct q as [|k q]; destruct Hn as [Hn1 Hn2]; (split; [by apply Hx|]); by apply IH.
Qed.

Lemma bare_insert ps i p p' :
  ps !! i = Some p -> bare p' = bare p -> map bare (<[i := p']> ps) = map bare ps.
Proof.
  intros Hp E. rewrite list_fmap_insert, E. apply list_insert_id. by rewrite list_lookup_fmap, Hp.
Qed.

Lemma push_ok t q i :
  queue t q -> i ∉ q -> (i < length (procs t))%nat ->
  exists t', push (Some i) t = Ok tt t' /\ queue t' (q ++ [i]) /\ tview t' = tview t /\ same_rest t t'.
Proof.
  intros Q Hi Hlt. pose proof Q as [H1 H2 H3 H4 H5].
  destruct (lookup_lt_is_Some_2 _ _ Hlt) as [p Hp].
  assert (NoDup (q ++ [i])) as Hn by by apply NoDup_app_singleton.
  assert (Forall (fun k => (k < length (procs t))%nat) (q ++ [i])) as Hv
    by (apply Forall_app; split; [done|]; by apply Forall_singleton).
  unfold push. mgo. rewrite H1. destruct q as [|h q'] eqn:Eq.
  - cbn [hd_error]. mgo. erewrite upd_eq by exact Hp. eexists. split; [done|]. split; [|split; [|done]].
    + split; cbn [app head tail set_procs set_tail set_head procs]; auto. by rewrite length_insert.
    + by apply (bare_insert _ _ p).
  - cbn [hd_error]. mgo. rewrite H2 by done. rewrite <- Eq in *.
    destruct (last q) as [j|] eqn:Ej; [|apply last_None in Ej; congruence].
    mgo. apply last_Some in Ej as (q0 & E0).
    assert (j ∈ q) as Hjq by (rewrite E0, elem_of_app; right; by left).
    assert (j <> i) as Hji by by intros ->.
    assert (j < length (procs t))%nat as Hj by (rewrite Forall_forall in H5; auto).
    destruct (lookup_lt_is_Some_2 _ _ Hj) as [pj Hpj].
    mstep upd_eq; [|exact Hpj].
    mstep upd_eq; [|cbn; by rewrite list_lookup_insert_ne].
    eexists. split; [done|]. cbn [set_procs procs].
    split; [|split; [|done]].
    + split; cbn [procs set_procs set_tail head tail]; auto.
      * rewrite H1. by rewrite E0; destruct q0.
      * intros _. by rewrite last_snoc.
      * rewrite E0 in H3, H4 |- *. rewrite <- app_assoc. apply nxt_snoc.
        -- eapply nxt_ext_snoc; [|exact H3]. intros k Hk.
           rewrite !list_lookup_insert_ne; [done| |].
           ++ intros ->. apply NoDup_app in H4 as (_ & H4 & _). apply (H4 k Hk). by left.
           ++ intros ->. apply Hi. by rewrite E0, elem_of_app; left.
        -- exists (set_next (Some i) pj). split; [|done].
           rewrite list_lookup_insert_ne by done. by rewrite list_lookup_insert_eq.
      * by rewrite !length_insert.
    + unfold tview. cbn [procs set_procs set_tail].
      rewrite (bare_insert _ _ p); [by apply (bare_insert _ _ pj)|by rewrite list_lookup_insert_ne|done].
Qed.

(** The processes of the queue are told apart by their pids. *)
Definition pids_differ (ps : list proc) (q : list nat) : Prop :=
  forall i j p p', i ∈ q -> j ∈ q -> ps !! i = Some p -> ps !! j = Some p' -> pid p = pid p' -> i = j.

Lemma pop_ok t i q :
  queue t (i :: q) -> pids_differ (procs t) (i :: q) ->
  exists t', pop t = Ok tt t' /\ queue t' q /\ procs t' = procs t /\ same_rest t t'.
Proof.
  intros [H1 H2 H3 H4 H5] Hp. unfold pop. mgo. rewrite H1. cbn [hd_error]. mgo.
  rewrite H2 by done. destruct (last (i :: q)) as [j|] eqn:Ej; [|by apply last_None in Ej].
  mgo. rewrite Forall_forall in H5.
  assert (j ∈ i :: q) as Hjq by (apply last_Some in Ej as (q0 & ->); rewrite elem_of_app; right; by left).
  destruct (lookup_lt_is_Some_2 _ _ (H5 i ltac:(by left))) as [p Hpi].
  destruct (lookup_lt_is_Some_2 _ _ (H5 j Hjq)) as [pj Hpj].
  mstep get_proc_ok; [|exact Hpi]. mstep get_proc_ok; [|exact Hpj].
  apply NoDup_cons in H4 as [Hiq H4].
  assert (i = j <-> q = []) as Hone.
  { destruct q as [|k q]; [by injection Ej|]. split; [|done]. intros ->. exfalso. apply Hiq.
    change (last (j :: k :: q)) with (last (k :: q)) in Ej. apply last_Some in Ej as (q0 & ->).
    rewrite elem_of_app. right. by left. }
  destruct (Z.eqb_spec (pid p) (pid pj)) as [Epid|Epid].
  - assert (i = j) as Eij by (eapply Hp; [by left|exact Hjq|exact Hpi|exact Hpj|done]).
    assert (q = []) as -> by by apply Hone.
    mgo. eexists. split; [done|]. by split_and!.
  - assert (q <> []) as Hne by (intros E; apply Epid; apply Hone in E; subst j; congruence).
    eexists. split; [done|]. split_and!; [|done..].
    destruct q as [|k q]; [done|]. destruct H3 as [(p0 & Hp0 & Ep0) H3].
    rewrite Hpi in Hp0. injection Hp0 as <-.
    split; cbn [head tail set_head procs]; [done|intros _; rewrite H2 by done; by rewrite <- Ej|done|done|].
    rewrite Forall_forall. intros x Hx. apply H5. by right.
Qed.

(** ** The table as a list of processes and a queue *)

Record rep (t : tab) (ps : list proc) (q : list nat) : Prop := Rep {
  rep_queue : queue t q;
  rep_view : tview t = ps
}.

Lemma rep_lookup t ps q i b :
  rep t ps q -> ps !! i = Some b -> exists p, procs t !! i = Some p /\ bare p = b.
Proof. intros [_ <-]. apply tview_proc. Qed.

Lemma rep_get t ps q i b :
  rep t ps q -> ps !! i = Some b -> exists p, get_proc i t = Ok p t /\ bare p = b.
Proof.
  intros R Hb. destruct (rep_lookup _ _ _ _ _ R Hb) as (p & Hp & E). exists p. split; [|done].
  by apply get_proc_ok.
Qed.

(** Updates that leave [next] alone. *)
Definition keeps_next (f : proc -> proc) : Prop :=
  forall p, next (f p) = next p /\ bare (f p) = f (bare p).

Lemma rep_upd t ps q i b f :
  rep t ps q -> ps !! i = Some b -> keeps_next f ->
  exists t', upd i f t = Ok tt t' /\ rep t' (<[i := f b]> ps) q /\ same_rest t t'.
Proof.
  intros R Hb Hf. destruct (rep_lookup _ _ _ _ _ R Hb) as (p & Hp & <-). destruct R as [Q V].
  eexists. split; [by apply upd_eq|]. split; [|done]. split.
  - eapply queue_upd; [done|exact Hp|apply Hf].
  - rewrite tview_insert, V. destruct (Hf p) as [_ ->]. done.
Qed.

Lemma rep_push t ps q i :
  rep t ps q -> i ∉ q -> (i < length ps)%nat ->
  exists t', push (Some i) t = Ok tt t' /\ rep t' ps (q ++ [i]) /\ same_rest t t'.
Proof.
  intros [Q V] Hi Hlt. destruct (push_ok t q i Q Hi) as (t' & E & Q' & V' & S).
  { by rewrite <- tview_length, V. }
  exists t'. split; [done|]. split; [|done]. split; [done|]. by rewrite V'.
Qed.

Lemma pids_view t ps q : tview t = ps -> pids_differ ps q -> pids_differ (procs t) q.
Proof.
  intros <- H i j p p' Hi Hj Hp Hp' E.
  eapply (H i j); [exact Hi|exact Hj|by apply tview_lookup|by apply tview_lookup|done].
Qed.

Lemma rep_pop t ps i q :
  rep t ps (i :: q) -> pids_differ ps (i :: q) ->
  exists t', pop t = Ok tt t' /\ rep t' ps q /\ same_rest t t'.
Proof.
  intros [Q V] Hp. destruct (pop_ok t i q Q) as (t' & E & Q' & P & S); [by eapply pids_view|].
  exists t'. split; [done|]. split; [|done]. split; [done|]. unfold tview. by rewrite P.
Qed.

Lemma same_rest_refl t : same_rest t t.
Proof. done. Qed.
Lemma same_rest_trans t1 t2 t3 : same_rest t1 t2 -> same_rest t2 t3 -> same_rest t1 t3.
Proof. intros (A & B & C) (D & E & F). split_and!; congruence. Qed.

Create HintDb sched.
#[export] Hint Resolve same_rest_refl : sched.
#[export] Hint Extern 1 (keeps_next _) => (intro; split; reflexivity) : sched.
Ltac kn := intro; split; reflexivity.

Lemma rep_length t ps q : rep t ps q -> length (procs t) = length ps.
Proof. intros [_ <-]. by rewrite tview_length. Qed.

Lemma rep_nodup t ps q : rep t ps q -> NoDup q.
Proof. intros [Q _]. apply Q. Qed.

Lemma rep_valid t ps q i : rep t ps q -> i ∈ q -> exists b, ps !! i = Some b.
Proof.
  intros R Hi. apply lookup_lt_is_Some_2. rewrite <- (rep_length _ _ _ R).
  pose proof (qu_valid _ _ (rep_queue _ _ _ R)) as Hv. rewrite Forall_forall in Hv. auto.
Qed.

(** ** wakeup1 *)

Definition sleeps_on (ch : chan) (p : proc) : bool := is_state SLEEPING p && bool_decide (p_chan p = ch).

(** Whether [p] is woken by [wakeup1 ch] at clock [now], and what becomes of it. *)
Definition wakes (ch : chan) (now : Z) (p : proc) : bool :=
  sleeps_on ch p && negb (bool_decide (ch = TicksChan) && (now <? sleepdeadline (acc p))).
Definition count_sleep (p : proc) : proc :=
  on_acc (fun a => set_sleepticks (s32 (sleepticks a + 1)) a) p.
Definition make_ready (p : proc) : proc := on_acc (set_activeticks 0) (set_state RUNNABLE p).
Definition wake_proc (ch : chan) (now : Z) (p : proc) : proc :=
  let p1 := if sleeps_on ch p && bool_decide (ch = TicksChan) then count_sleep p else p in
  if wakes ch now p then make_ready p1 else p1.

(** The positions of the woken processes, in the order of the table. *)
Fixpoint woken (f : proc -> bool) (ps : list proc) (i : nat) : list nat :=
  match ps with
  | [] => []
  | p :: ps' => if f p then i :: woken f ps' (S i) else woken f ps' (S i)
  end.

Definition sleepers_out (ps : list proc) (q : list nat) : Prop :=
  forall j p, ps !! j = Some p -> state p = SLEEPING -> j ∉ q.

Lemma lookup_mid (pre post : list proc) p i : length pre = i -> (pre ++ p :: post) !! i = Some p.
Proof. intros <-. by rewrite list_lookup_middle. Qed.

Lemma insert_at_mid (pre post : list proc) p p' i :
  length pre = i -> <[i := p']> (pre ++ p :: post) = pre ++ p' :: post.
Proof. intros <-. rewrite insert_app_r_alt by lia. by rewrite Nat.sub_diag. Qed.

Lemma lookup_mid_ne (pre post : list proc) p p' i j :
  length pre = i -> j <> i -> (pre ++ p' :: post) !! j = (pre ++ p :: post) !! j.
Proof. intros Hi Hne. rewrite <- (insert_at_mid pre post p p' i Hi). by apply list_lookup_insert_ne. Qed.

Lemma wakeup1_loop_ok ch post : forall t pre q i,
  rep t (pre ++ post) q -> length pre = i -> sleepers_out (pre ++ post) q ->
  exists t', wakeup1_loop ch i (length post) t = Ok tt t' /\
    rep t' (pre ++ map (wake_proc ch (ticks t)) post) (q ++ woken (wakes ch (ticks t)) post i) /\
    same_rest t t'.
Proof.
  induction post as [|b post IH]; intros t pre q i R Hi Ho; cbn [length wakeup1_loop map woken].
  { rewrite (app_nil_r q). by exists t. }
  pose proof (lookup_mid pre post b i Hi) as Hb.
  destruct (rep_get _ _ _ _ _ R Hb) as (p & Ep & Ebp). mstep Ep.
  assert (is_state SLEEPING p && bool_decide (p_chan p = ch) = sleeps_on ch b) as -> by by subst b.
  (* the rest of the loop, from a state where [b] has become [b'] *)
  assert (forall t1 b' q', rep t1 (pre ++ b' :: post) q' -> same_rest t t1 ->
    sleepers_out (pre ++ b' :: post) q' ->
    exists t', wakeup1_loop ch (S i) (length post) t1 = Ok tt t' /\
      rep t' (pre ++ b' :: map (wake_proc ch (ticks t)) post)
             (q' ++ woken (wakes ch (ticks t)) post (S i)) /\ same_rest t t') as K.
  { intros t1 b' q' R1 S1 Ho1. assert (ticks t1 = ticks t) as Et by apply S1.
    assert (forall X, pre ++ b' :: X = (pre ++ [b']) ++ X) as Ea by (intros; by rewrite <- app_assoc).
    rewrite Ea in R1, Ho1.
    destruct (IH t1 (pre ++ [b']) q' (S i) R1) as (t' & E' & R' & S'); [rewrite length_app; cbn; lia|done|].
    exists t'. rewrite Ea. rewrite Et in R'. split_and!; [done|done|]. by eapply same_rest_trans. }
  assert (sleeps_on ch b = true -> i ∉ q) as Hout.
  { unfold sleeps_on, is_state. intros [Hs _]%andb_true_iff. apply bool_decide_eq_true in Hs. by eapply Ho. }
  assert (i < length (pre ++ b :: post))%nat as Hlt by (rewrite length_app; cbn; lia).
  (* waking it *)
  assert (forall t1 b1, rep t1 (pre ++ b1 :: post) q -> same_rest t t1 -> sleeps_on ch b = true ->
    exists t', (upd i (set_state RUNNABLE);; push (Some i);; upd i (on_acc (set_activeticks 0))) t1 = Ok tt t' /\
      rep t' (pre ++ make_ready b1 :: post) (q ++ [i]) /\ same_rest t t' /\
      sleepers_out (pre ++ make_ready b1 :: post) (q ++ [i])) as W.
  { intros t1 b1 R1 S1 Hs.
    destruct (rep_upd t1 _ _ i b1 (set_state RUNNABLE) R1) as (t2 & E2 & R2 & S2); [by apply lookup_mid|kn|].
    rewrite insert_at_mid in R2 by done. mstep E2.
    destruct (rep_push t2 _ _ i R2) as (t3 & E3 & R3 & S3); [by apply Hout|by rewrite length_app in *|].
    mstep E3.
    destruct (rep_upd t3 _ _ i (set_state RUNNABLE b1) (on_acc (set_activeticks 0)) R3)
      as (t4 & E4 & R4 & S4); [by apply lookup_mid|kn|].
    rewrite insert_at_mid in R4 by done. exists t4. split_and!; [done|done| |].
    - eapply same_rest_trans; [exact S1|]. eapply same_rest_trans; [exact S2|].
      by eapply same_rest_trans.
    - intros j p' Hj Hst. assert (j <> i) as Hne.
      { intros ->. rewrite lookup_mid in Hj by done. injection Hj as <-. done. }
      rewrite elem_of_app, list_elem_of_singleton. intros [Hjq|?]; [|done].
      eapply (Ho j p'); [|done|done]. by rewrite (lookup_mid_ne pre post (make_ready b1) b i j). }
  assert (forall X, q ++ i :: X = (q ++ [i]) ++ X) as Esnoc by (intros; by rewrite <- app_assoc).
  pose proof (eq_refl : wakes ch (ticks t) b = sleeps_on ch b &&
    negb (bool_decide (ch = TicksChan) && (ticks t <? sleepdeadline (acc b)))) as Ew.
  pose proof (eq_refl : wake_proc ch (ticks t) b =
    let p1 := if sleeps_on ch b && bool_decide (ch = TicksChan) then count_sleep b else b in
    if wakes ch (ticks t) b then make_ready p1 else p1) as Ewp.
  rewrite Ewp, Ew. clear Ew Ewp. cbv zeta.
  destruct (sleeps_on ch b) eqn:Hs; cbn [andb]; mgo.
  2:{ by apply K. }
  specialize (Hout eq_refl).
  destruct (bool_decide_reflect (ch = TicksChan)) as [Hch|Hch]; cbn [andb negb].
  - mgo. assert (sleepdeadline (acc p) = sleepdeadline (acc b)) as -> by by subst b.
    destruct (rep_upd t _ _ i b (fun p => count_sleep p) R Hb) as (t1 & E1 & R1 & S1); [kn|].
    rewrite insert_at_mid in R1 by done.
    destruct (Z.ltb_spec (ticks t) (sleepdeadline (acc b))) as [Hlt'|Hge]; cbn [negb].
    + mstep E1. apply K; [done|done|]. intros j p' Hj Hst.
      destruct (decide (j = i)) as [->|Hne]; [done|].
      eapply (Ho j p'); [|done]. by rewrite (lookup_mid_ne pre post (count_sleep b) b i j).
    + rewrite !bind_assoc. mstep E1. destruct (W t1 (count_sleep b) R1 S1 eq_refl) as (t2 & E2 & R2 & S2 & O2).
      mstep E2. rewrite Esnoc. by apply K.
  - destruct (W t b R (same_rest_refl t) eq_refl) as (t2 & E2 & R2 & S2 & O2).
    mstep E2. rewrite Esnoc. by apply K.
Qed.

Lemma wakeup1_ok ch t ps q :
  rep t ps q -> length ps = NPROC -> sleepers_out ps q ->
  exists t', wakeup1 ch t = Ok tt t' /\ same_rest t t' /\
    rep t' (map (wake_proc ch (ticks t)) ps) (q ++ woken (wakes ch (ticks t)) ps 0).
Proof.
  intros R Hl Ho. destruct (wakeup1_loop_ok ch ps t [] q 0 R eq_refl Ho) as (t' & E & R' & S).
  exists t'. unfold wakeup1. by rewrite <- Hl.
Qed.

Lemma elem_of_woken f ps : forall i j, j ∈ woken f ps i <-> (i <= j)%nat /\ exists p, ps !! (j - i)%nat = Some p /\ f p = true.
Proof.
  induction ps as [|p ps IH]; intros i j; cbn [woken].
  - rewrite elem_of_nil. split; [done|]. intros (_ & p & Hp & _). done.
  - assert (j ∈ woken f ps (S i) <-> (i < j)%nat /\ exists p', (p :: ps) !! (j - i)%nat = Some p' /\ f p' = true) as E.
    { rewrite IH. split; intros (H & p' & Hp & Hf); (split; [lia|]); exists p';
        (split; [|done]); replace (j - i)%nat with (S (j - S i)) in * by lia; done. }
    destruct (f p) eqn:Hf; rewrite ?elem_of_cons, E.
    + split.
      * intros [->|[H1 H2]]; [|split; [lia|done]]. split; [lia|]. exists p. by rewrite Nat.sub_diag.
      * intros [H1 H2]. destruct (decide (j = i)); [by left|right]. split; [lia|done].
    + split; intros [H1 H2]; (split; [lia|done]) || idtac. split; [|done].
      destruct (decide (j = i)) as [->|]; [|lia]. rewrite Nat.sub_diag in H2.
      destruct H2 as (p' & [= <-] & Hf'). congruence.
Qed.

Lemma NoDup_woken f ps : forall i, NoDup (woken f ps i).
Proof.
  induction ps as [|p ps IH]; intros i; cbn [woken]; [apply NoDup_nil_2|].
  destruct (f p); [|apply IH]. apply NoDup_cons. split; [|apply IH].
  rewrite elem_of_woken. lia.
Qed.

(** ** The scheduler's loop *)

(** What the end of a turn does to a process that has used up its ticks. *)
Definition end_turn (p : proc) : proc :=
  on_acc (set_activeticks 0) (on_acc (set_activesleepticks 0)
    (on_acc (fun a => set_switches (s32 (switches a + 1)) a) p)).

(** Apply [f] to the processes of [l]. *)
Definition upd_in (l : list nat) (f : proc -> proc) (ps : list proc) : list proc :=
  imap (fun i p => if decide (i ∈ l) then f p else p) ps.

Lemma lookup_upd_in l f ps i : upd_in l f ps !! i = (fun p => if decide (i ∈ l) then f p else p) <$> ps !! i.
Proof. apply list_lookup_imap. Qed.

Lemma length_upd_in l f ps : length (upd_in l f ps) = length ps.
Proof. apply length_imap. Qed.

Lemma upd_in_nil f ps : upd_in [] f ps = ps.
Proof.
  apply list_eq. intros i. rewrite lookup_upd_in. destruct (ps !! i); [|done]. cbn.
  rewrite decide_False; [done|]. apply not_elem_of_nil.
Qed.

Lemma upd_in_snoc l i f ps b :
  i ∉ l -> upd_in l f ps !! i = Some b -> <[i := f b]> (upd_in l f ps) = upd_in (l ++ [i]) f ps.
Proof.
  intros Hi Hb. apply list_eq. intros j. rewrite lookup_upd_in.
  destruct (decide (i = j)) as [<-|Hne].
  - rewrite list_lookup_insert_eq by (by eapply lookup_lt_Some).
    rewrite lookup_upd_in in Hb. destruct (ps !! i) as [p|]; [|done]. cbn in *.
    rewrite decide_False in Hb by done. injection Hb as <-.
    rewrite decide_True; [done|]. rewrite elem_of_app. right. by left.
  - rewrite list_lookup_insert_ne, lookup_upd_in by done. destruct (ps !! j); [|done]. cbn. f_equal.
    apply decide_ext. rewrite elem_of_app, list_elem_of_singleton. split; [by left|]. by intros [|]; [|congruence].
Qed.

Lemma pids_differ_perm ps q q' : q ≡ₚ q' -> pids_differ ps q -> pids_differ ps q'.
Proof. intros P H i j p p' Hi Hj. rewrite <- P in Hi, Hj. by apply H. Qed.

Lemma pids_differ_same ps ps' q :
  (forall i, pid <$> ps' !! i = pid <$> ps !! i) -> pids_differ ps q -> pids_differ ps' q.
Proof.
  intros E H i j p p' Hi Hj Hp Hp' Ep. pose proof (E i) as Ei. pose proof (E j) as Ej.
  rewrite Hp in Ei. rewrite Hp' in Ej.
  destruct (ps !! i) as [a|] eqn:Ha; [|done]. destruct (ps !! j) as [a'|] eqn:Ha'; [|done].
  injection Ei as Ei. injection Ej as Ej. eapply (H i j); eauto. congruence.
Qed.

(** One process at the end of its turn goes to the back of the queue. *)
Lemma pick_rotate t ps i q b n :
  rep t ps (i :: q) -> pids_differ ps (i :: q) -> ps !! i = Some b ->
  state b = RUNNABLE -> has_ticks b = false ->
  exists t', scheduler_pick (S n) t = scheduler_pick n t' /\
    rep t' (<[i := end_turn b]> ps) (q ++ [i]) /\ same_rest t t'.
Proof.
  intros R Hpid Hb Hs Ht. cbn [scheduler_pick].
  mgo. rewrite (qu_head _ _ (rep_queue _ _ _ R)). cbn [hd_error].
  destruct (rep_get _ _ _ _ _ R Hb) as (p & Ep & Ebp). mstep Ep.
  assert (is_state RUNNABLE p = true) as -> by (subst b; apply bool_decide_eq_true; done).
  assert (has_ticks p = false) as -> by by subst b. cbn [negb].
  set (b1 := on_acc (fun a => set_switches (s32 (switches a + 1)) a) b).
  destruct (rep_upd t ps (i :: q) i b (on_acc (fun a => set_switches (s32 (switches a + 1)) a)) R Hb)
    as (t1 & E1 & R1 & S1); [kn|]. mstep E1.
  assert (i < length ps)%nat as Hlt by by eapply lookup_lt_Some.
  destruct (rep_upd t1 _ _ i b1 (on_acc (set_activesleepticks 0)) R1) as (t2 & E2 & R2 & S2);
    [by apply list_lookup_insert_eq|kn|]. mstep E2. rewrite list_insert_insert_eq in R2.
  set (b2 := on_acc (set_activesleepticks 0) b1) in *.
  assert (pids_differ (<[i := b2]> ps) (i :: q)) as Hpid2.
  { eapply pids_differ_same; [|exact Hpid]. intros j. destruct (decide (i = j)) as [<-|Hne].
    - rewrite list_lookup_insert_eq by done. by rewrite Hb.
    - by rewrite list_lookup_insert_ne. }
  destruct (rep_pop t2 _ i q R2 Hpid2) as (t3 & E3 & R3 & S3). mstep E3.
  destruct (rep_get t3 _ _ i b2 R3) as (p3 & Ep3 & Ebp3); [by apply list_lookup_insert_eq|]. mstep Ep3.
  assert (is_state SLEEPING p3 = false) as ->.
  { apply bool_decide_eq_false. assert (state p3 = state b2) as -> by by rewrite <- Ebp3. cbn. by rewrite Hs. }
  cbn [negb].
  pose proof (rep_nodup _ _ _ R) as Hnd. apply NoDup_cons in Hnd as [Hiq _].
  destruct (rep_push t3 _ q i R3 Hiq) as (t4 & E4 & R4 & S4); [by rewrite length_insert|]. mstep E4.
  destruct (rep_upd t4 _ _ i b2 (on_acc (set_activeticks 0)) R4) as (t5 & E5 & R5 & S5);
    [by apply list_lookup_insert_eq|kn|]. mstep E5. rewrite list_insert_insert_eq in R5.
  exists t5. split; [done|]. split; [exact R5|].
  eapply same_rest_trans; [exact S1|]. eapply same_rest_trans; [exact S2|].
  eapply same_rest_trans; [exact S3|]. by eapply same_rest_trans.
Qed.

Definition out_of_ticks (ps : list proc) (i : nat) : Prop :=
  exists b, ps !! i = Some b /\ state b = RUNNABLE /\ has_ticks b = false.

(** Several of them. *)
Lemma pick_rotates ps pre : forall t done_ q n,
  rep t (upd_in done_ end_turn ps) (pre ++ q ++ done_) -> pids_differ ps (pre ++ q ++ done_) ->
  Forall (out_of_ticks ps) pre ->
  exists t', scheduler_pick (length pre + n) t = scheduler_pick n t' /\
    rep t' (upd_in (done_ ++ pre) end_turn ps) (q ++ done_ ++ pre) /\ same_rest t t'.
Proof.
  induction pre as [|i pre IH]; intros t dn q n R Hpid Hall; cbn [length Nat.add].
  { exists t. by rewrite app_nil_r. }
  apply Forall_cons in Hall as [(b & Hb & Hs & Ht) Hall].
  pose proof (rep_nodup _ _ _ R) as Hnd. cbn [app] in Hnd. apply NoDup_cons in Hnd as [Hi _].
  assert (i ∉ dn) as Hidn by (intros Hd; apply Hi; rewrite !elem_of_app; tauto).
  assert (upd_in dn end_turn ps !! i = Some b) as Hbi.
  { rewrite lookup_upd_in, Hb. cbn. by rewrite decide_False. }
  assert (pids_differ (upd_in dn end_turn ps) ((i :: pre) ++ q ++ dn)) as Hpid'.
  { eapply pids_differ_same; [|exact Hpid]. intros j. rewrite lookup_upd_in.
    destruct (ps !! j); [|done]. cbn. by case_decide. }
  destruct (pick_rotate t _ i (pre ++ q ++ dn) b (length pre + n) R Hpid' Hbi Hs Ht) as (t1 & E1 & R1 & S1).
  rewrite upd_in_snoc in R1 by done. rewrite <- !app_assoc in R1.
  destruct (IH t1 (dn ++ [i]) q n R1) as (t2 & E2 & R2 & S2); [|done|].
  - eapply pids_differ_perm; [|exact Hpid]. cbn [app]. rewrite Permutation_cons_append. by rewrite <- !app_assoc.
  - exists t2. rewrite E1, E2. split; [done|]. rewrite <- !app_assoc in R2.
    split; [done|]. by eapply same_rest_trans.
Qed.

(** The head has ticks left: it is switched to. *)
Lemma pick_run t ps i q b n :
  rep t ps (i :: q) -> ps !! i = Some b -> state b = RUNNABLE -> has_ticks b = true ->
  exists t', scheduler_pick (S n) t = Ok (Some i) t' /\
    rep t' (<[i := on_acc charge b]> ps) (i :: q) /\ same_rest t t'.
Proof.
  intros R Hb Hs Ht. cbn [scheduler_pick].
  mgo. rewrite (qu_head _ _ (rep_queue _ _ _ R)). cbn [hd_error].
  destruct (rep_get _ _ _ _ _ R Hb) as (p & Ep & Ebp). mstep Ep.
  assert (is_state RUNNABLE p = true) as -> by (subst b; apply bool_decide_eq_true; done).
  assert (has_ticks p = true) as -> by by subst b. cbn [negb].
  destruct (rep_upd t ps (i :: q) i b (on_acc charge) R Hb) as (t1 & E1 & R1 & S1); [kn|].
  mstep E1. exists t1. done.
Qed.

(** A head that is not runnable is dropped. *)
Lemma pick_drop t ps i q b n :
  rep t ps (i :: q) -> pids_differ ps (i :: q) -> ps !! i = Some b -> state b <> RUNNABLE ->
  exists t', scheduler_pick (S n) t = scheduler_pick n t' /\ rep t' ps q /\ same_rest t t'.
Proof.
  intros R Hpid Hb Hs. cbn [scheduler_pick].
  mgo. rewrite (qu_head _ _ (rep_queue _ _ _ R)). cbn [hd_error].
  destruct (rep_get _ _ _ _ _ R Hb) as (p & Ep & Ebp). mstep Ep.
  assert (is_state RUNNABLE p = false) as -> by (subst b; apply bool_decide_eq_false; done). cbn [negb].
  destruct (rep_pop t ps i q R Hpid) as (t1 & E1 & R1 & S1). mstep E1. by exists t1.
Qed.

Definition slice_ok (p : proc) : Prop := 1 <= timeslice (acc p) < 2 ^ 31.
Definition runnable_in (ps : list proc) (i : nat) : Prop :=
  exists b, ps !! i = Some b /\ state b = RUNNABLE /\ slice_ok b.


Lemma has_ticks_end_turn b : slice_ok b -> has_ticks (end_turn b) = true.
Proof.
  intros Hs. unfold has_ticks, end_turn, slice_ok in *.
  cbn [acc on_acc set_acc activeticks timeslice activesleepticks set_activeticks set_activesleepticks set_switches].
  rewrite s32_small by lia. apply Z.ltb_lt. lia.
Qed.

(** The outcome of the scheduler's loop: [pre] have used up their ticks, [i] is
    switched to. Either [i] has ticks left, or nobody has and the whole queue went
    round. *)
Inductive picked (ps : list proc) (q : list nat) : nat -> list proc -> list nat -> Prop :=
  | picked_ready pre i post b :
      q = pre ++ i :: post -> Forall (out_of_ticks ps) pre ->
      ps !! i = Some b -> has_ticks b = true ->
      picked ps q i (<[i := on_acc charge b]> (upd_in pre end_turn ps)) (i :: post ++ pre)
  | picked_round i post b :
      q = i :: post -> Forall (out_of_ticks ps) q -> ps !! i = Some b ->
      picked ps q i (<[i := on_acc charge (end_turn b)]> (upd_in q end_turn ps)) (i :: post).

Lemma picked_perm ps q i ps' q' : picked ps q i ps' q' -> q' ≡ₚ q.
Proof.
  intros [pre j post b -> _ _ _|j post b -> _ _]; [|done].
  rewrite app_comm_cons. apply Permutation_app_comm.
Qed.

Lemma split_ticks ps q :
  Forall (runnable_in ps) q ->
  Forall (out_of_ticks ps) q \/
  exists pre i post b, q = pre ++ i :: post /\ Forall (out_of_ticks ps) pre /\
    ps !! i = Some b /\ state b = RUNNABLE /\ has_ticks b = true.
Proof.
  induction q as [|i q IH]; intros Hall; [by left|].
  apply Forall_cons in Hall as [(b & Hb & Hs & _) Hall].
  destruct (has_ticks b) eqn:Ht.
  { right. exists [], i, q, b. done. }
  assert (out_of_ticks ps i) as Hi by by exists b.
  destruct (IH Hall) as [H|(pre & j & post & b' & -> & Hp & Hj)].
  - left. by constructor.
  - right. exists (i :: pre), j, post, b'. split; [done|]. split; [by constructor|done].
Qed.

Lemma pick_ok t ps q n :
  rep t ps q -> pids_differ ps q -> Forall (runnable_in ps) q -> q <> [] -> (length q < n)%nat ->
  exists i t' ps' q', scheduler_pick n t = Ok (Some i) t' /\ picked ps q i ps' q' /\
    rep t' ps' q' /\ same_rest t t'.
Proof.
  intros R Hpid Hall Hne Hn.
  assert (rep t (upd_in [] end_turn ps) q) as R0 by by rewrite upd_in_nil.
  destruct (split_ticks ps q Hall) as [Hout|(pre & i & post & b & Eq & Hpre & Hb & Hs & Ht)].
  - assert (exists m, n = length q + S m)%nat as [m ->] by (exists (n - length q - 1)%nat; lia).
    destruct (pick_rotates ps q t [] [] (S m)) as (t1 & E1 & R1 & S1); [by rewrite !app_nil_r|by rewrite !app_nil_r|done|].
    cbn [app] in R1. destruct q as [|i post]; [done|].
    pose proof (Forall_inv Hout) as (b & Hb & Hs & _).
    pose proof (Forall_inv Hall) as (b' & Hb' & _ & Hsl). rewrite Hb in Hb'. injection Hb' as <-.
    destruct (pick_run t1 _ i post (end_turn b) m R1) as (t2 & E2 & R2 & S2).
    + rewrite lookup_upd_in, Hb. cbn. rewrite decide_True; [done|by left].
    + done.
    + by apply has_ticks_end_turn.
    + exists i, t2. do 2 eexists. split; [by rewrite E1|]. split; [by econstructor 2|].
      split; [done|]. by eapply same_rest_trans.
  - assert (length pre < n)%nat as Hpn by (subst q; rewrite length_app in Hn; cbn in Hn; lia).
    assert (exists m, n = length pre + S m)%nat as [m ->] by (exists (n - length pre - 1)%nat; lia).
    destruct (pick_rotates ps pre t [] (i :: post) (S m)) as (t1 & E1 & R1 & S1);
      [by rewrite app_nil_r, <- Eq|by rewrite app_nil_r, <- Eq|done|].
    cbn [app] in R1.
    assert (i ∉ pre) as Hip.
    { pose proof (rep_nodup _ _ _ R) as Hnd. rewrite Eq in Hnd. apply NoDup_app in Hnd as (_ & Hnd & _).
      intros Hi. apply (Hnd i Hi). by left. }
    destruct (pick_run t1 _ i (post ++ pre) b m R1) as (t2 & E2 & R2 & S2); [|done|done|].
    + rewrite lookup_upd_in, Hb. cbn. by rewrite decide_False.
    + exists i, t2. do 2 eexists. split; [by rewrite E1|]. split; [by econstructor|].
      split; [done|]. by eapply same_rest_trans.
Qed.

Lemma pick_empty t ps n : rep t ps [] -> scheduler_pick (S n) t = Ok None t.
Proof. intros R. cbn [scheduler_pick]. mgo. by rewrite (qu_head _ _ (rep_queue _ _ _ R)). Qed.

(** The run queue threaded through the [next] pointers is a list: [push] appends a
    process that is not in it, [pop] removes the first element, and neither changes
    any other field of any process; [pop] tells the last element by its pid, so the
    queued processes must have different pids. *)
Theorem queue_operations t q i :
  queue t q ->
  (i ∉ q -> (i < length (procs t))%nat ->
   exists t', push (Some i) t = Ok tt t' /\ queue t' (q ++ [i]) /\ tview t' = tview t /\ same_rest t t') /\
  (q = [] -> pop t = Ok tt t) /\
  (forall x q', q = x :: q' -> pids_differ (procs t) q ->
   exists t', pop t = Ok tt t' /\ queue t' q' /\ procs t' = procs t /\ same_rest t t').
Proof.
  intros Q. split_and!.
  - intros Hi Hl. by apply push_ok.
  - intros ->. unfold pop. mgo. by rewrite (qu_head _ _ Q).
  - intros x q' -> Hp. by apply (pop_ok t x).
Qed.


(** A table of three processes, two of them in the queue. *)
Definition demo_img : image := Image 4096 0x1000 0x2000 (Trapframe 0 []) (repeat 0 16) 0 "".
Definition demo_proc (st : procstate) (n : Z) (nx : option nat) (used : Z) : proc :=
  Proc st n None NoChan 0 nx (Kont KYield false) demo_img (Acct 2 0 0 0 0 0 used 0).
Definition demo_tab : tab :=
  Tab [demo_proc RUNNABLE 1 (Some 1%nat) 2; demo_proc RUNNABLE 2 None 0; demo_proc SLEEPING 3 None 0]
    (Some 0%nat) (Some 1%nat) 4 (Some 0%nat) 7.

Lemma demo_queue : queue demo_tab [0%nat; 1%nat].
Proof.
  split; [done|done| | |].
  - split; [by eexists|done].
  - apply (bool_decide_unpack _). vm_compute. done.
  - repeat constructor.
Qed.

Lemma queue_operations_witness :
  exists t', push (Some 2%nat) demo_tab = Ok tt t' /\ queue t' [0%nat; 1%nat; 2%nat].
Proof.
  destruct (queue_operations demo_tab [0%nat; 1%nat] 2 demo_queue) as (A & _).
  destruct A as (t' & E & Q & _).
  - apply (bool_decide_unpack _). vm_compute. exact I.
  - cbn. lia.
  - exists t'. split; [exact E|exact Q].
Defined.

