(* ===== verification/SchedSafe.v ===== *)
(** * The scheduler keeps its invariants

    [table_ok] says which processes are queued in each state; [kern_inv] adds the
    locks and the interrupt state in each mode of the system. Every operation
    keeps it, so it holds in every reachable state. *)

From S2P Require Import Prelude Spinlock Sched RunQueue.

(** ** The CPU and the locks *)

(** CPU [me] with [n] levels of [pushcli], interrupts [b], [intena] and [proc]. *)
Definition cpu_is (me : nat) (h : hw) (n : Z) (b ia : bool) (cp : option nat) : Prop :=
  exists c, on_cpu h me c /\ ncli c = n /\ eflags_IF h = b /\ c_proc c = cp /\ (0 < n -> intena c = ia).

Definition held (me : nat) : spinlock := Spinlock true (Some me).

Section kernel.
Context {V : Type} `{Services V} (me : nat).

(** A process the invariant follows: runnable but not queued ([killed_sleeper_lost]). *)
Context (lost : option nat).
Implicit Types (t : tab) (h : hw) (lk tk : spinlock) (v : V) (cr : option Z) (f : bool).

Lemma lt_Ok {A} (m : M tab A) t a t' h lk tk cr v f :
  m t = Ok a t' -> lt m (SSt t h lk tk cr v f) = Ok a (SSt t' h lk tk cr v f).
Proof. intros E. unfold lt, zoom. cbn. by rewrite E. Qed.

Lemma lh_Ok {A} (m : M hw A) t a h h' lk tk cr v f :
  m h = Ok a h' -> lh m (SSt t h lk tk cr v f) = Ok a (SSt t h' lk tk cr v f).
Proof. intros E. unfold lh, zoom. cbn. by rewrite E. Qed.

Lemma cpu_pushed h n b ia cp c :
  on_cpu h me c -> ncli c = n -> eflags_IF h = b -> c_proc c = cp -> (0 < n -> intena c = ia) ->
  cpu_is me (pushed h me c) (n + 1) false (if n =? 0 then b else ia) cp.
Proof.
  intros Hc Hn Hb Hp Hi. exists (pushed_cpu h c). split_and!; [by apply pushed_on_cpu|cbn; lia|done|done|].
  intros _. cbn. rewrite Hn. destruct (Z.eqb_spec n 0); [done|]. apply Hi.
  pose proof (oc_ncli _ _ _ Hc). lia.
Qed.

Lemma popped_on_cpu h c : on_cpu h me c -> 0 < ncli c -> on_cpu (popped h me c) me (set_ncli (ncli c - 1) c).
Proof.
  intros Hc Hn. apply (on_cpu_set h me c); cbn; [done|done|lia|].
  intros H1. rewrite (proj2 (Z.eqb_neq _ _)) by lia. done.
Qed.

Lemma cpu_popped h n b ia cp c :
  on_cpu h me c -> ncli c = n -> eflags_IF h = b -> c_proc c = cp -> (0 < n -> intena c = ia) -> 0 < n ->
  cpu_is me (popped h me c) (n - 1) ((n =? 1) && ia) ia cp.
Proof.
  intros Hc Hn Hb Hp Hi H0. exists (set_ncli (ncli c - 1) c).
  split_and!; [apply popped_on_cpu; [done|lia]|cbn; lia| |done|by intros _; apply Hi].
  cbn. by rewrite Hn, Hi.
Qed.

Lemma acquire_ptable_ok t h tk cr v f n b ia cp :
  cpu_is me h n b ia cp ->
  exists h', acquire_ptable (SSt t h initlock tk cr v f) = Ok tt (SSt t h' (held me) tk cr v f) /\
    cpu_is me h' (n + 1) false (if n =? 0 then b else ia) cp.
Proof.
  intros (c & Hc & Hn & Hb & Hp & Hi). exists (pushed h me c). split; [|by apply cpu_pushed].
  unfold acquire_ptable. by erewrite acquire_in_ok.
Qed.

Lemma release_ptable_ok t h tk cr v f n b ia cp :
  cpu_is me h n b ia cp -> 0 < n ->
  exists h', release_ptable (SSt t h (held me) tk cr v f) = Ok tt (SSt t h' initlock tk cr v f) /\
    cpu_is me h' (n - 1) ((n =? 1) && ia) ia cp.
Proof.
  intros (c & Hc & Hn & Hb & Hp & Hi) H0. exists (popped h me c). split; [|by eapply cpu_popped].
  unfold release_ptable. erewrite release_in_ok; [done|done|lia|apply holds_self].
Qed.

Lemma acquire_tickslock_ok t h lk cr v f n b ia cp :
  cpu_is me h n b ia cp ->
  exists h', acquire_tickslock (SSt t h lk initlock cr v f) = Ok tt (SSt t h' lk (held me) cr v f) /\
    cpu_is me h' (n + 1) false (if n =? 0 then b else ia) cp.
Proof.
  intros (c & Hc & Hn & Hb & Hp & Hi). exists (pushed h me c). split; [|by apply cpu_pushed].
  unfold acquire_tickslock. by erewrite acquire_in_ok.
Qed.

Lemma release_tickslock_ok t h lk cr v f n b ia cp :
  cpu_is me h n b ia cp -> 0 < n ->
  exists h', release_tickslock (SSt t h lk (held me) cr v f) = Ok tt (SSt t h' lk initlock cr v f) /\
    cpu_is me h' (n - 1) ((n =? 1) && ia) ia cp.
Proof.
  intros (c & Hc & Hn & Hb & Hp & Hi) H0. exists (popped h me c). split; [|by eapply cpu_popped].
  unfold release_tickslock. erewrite release_in_ok; [done|done|lia|apply holds_self].
Qed.

Lemma cpu_touched h n b ia cp c :
  on_cpu h me c -> ncli c = n -> eflags_IF h = b -> c_proc c = cp -> (0 < n -> intena c = ia) ->
  cpu_is me (touched h me c) n b ia cp.
Proof.
  intros Hc Hn Hb Hp Hi. exists (touched_cpu h c). split_and!; [by apply touched_on_cpu| |done| |].
  - unfold touched_cpu. by destruct (ncli c =? 0).
  - unfold touched_cpu. by destruct (ncli c =? 0).
  - intros H0. unfold touched_cpu. rewrite (proj2 (Z.eqb_neq _ _)) by lia. by apply Hi.
Qed.

Lemma my_proc_ok t h lk tk cr v f n b ia cp :
  cpu_is me h n b ia cp ->
  exists h', my_proc (SSt t h lk tk cr v f) = Ok cp (SSt t h' lk tk cr v f) /\ cpu_is me h' n b ia cp.
Proof.
  intros (c & Hc & Hn & Hb & Hp & Hi). exists (touched h me c). split; [|by apply cpu_touched].
  unfold my_proc. rewrite <- Hp. apply lh_Ok. by apply myproc_ok.
Qed.

Lemma curproc_ok t h lk tk cr v f n b ia i :
  cpu_is me h n b ia (Some i) ->
  exists h', curproc (SSt t h lk tk cr v f) = Ok i (SSt t h' lk tk cr v f) /\ cpu_is me h' n b ia (Some i).
Proof.
  intros Hc. destruct (my_proc_ok t h lk tk cr v f _ _ _ _ Hc) as (h' & E & Hc').
  exists h'. split; [|done]. unfold curproc. by mstep E.
Qed.

(** Reading and writing this CPU's entry, with interrupts off. *)
Lemma mycpu_at h n ia cp : cpu_is me h n false ia cp -> mycpu h = Ok me h.
Proof. intros (c & Hc & Hn & Hb & Hp & Hi). by eapply mycpu_ok. Qed.

Lemma set_curproc_ok t h lk tk cr v f n ia cp cp' :
  cpu_is me h n false ia cp ->
  exists h', set_curproc cp' (SSt t h lk tk cr v f) = Ok tt (SSt t h' lk tk cr v f) /\
    cpu_is me h' n false ia cp'.
Proof.
  intros (c & Hc & Hn & Hb & Hp & Hi).
  exists (set_cpus (<[me := set_cproc cp' c]> (cpus h)) h). split.
  - unfold set_curproc. apply lh_Ok. mstep mycpu_ok; [|done|done].
    erewrite upd_cpu_ok; [done|apply Hc].
  - exists (set_cproc cp' c). split_and!; [|done|done|done|done].
    apply (on_cpu_set h me c); [done|done|apply Hc|apply Hc].
Qed.

Lemma sched_back_ok t h lk tk cr v f n ia ia' cp :
  cpu_is me h n false ia cp ->
  exists h', sched_back ia' (SSt t h lk tk cr v f) = Ok tt (SSt t h' lk tk cr v f) /\
    cpu_is me h' n false ia' cp.
Proof.
  intros (c & Hc & Hn & Hb & Hp & Hi).
  exists (set_cpus (<[me := set_intena ia' c]> (cpus h)) h). split.
  - unfold sched_back. apply lh_Ok. mstep mycpu_ok; [|done|done].
    erewrite upd_cpu_ok; [done|apply Hc].
  - exists (set_intena ia' c). split_and!; [|done|done|done|done].
    apply (on_cpu_set h me c); [done|done|apply Hc|apply Hc].
Qed.

Lemma cpu_set_IF h b b' ia cp : cpu_is me h 0 b ia cp -> cpu_is me (set_IF b' h) 0 b' ia cp.
Proof.
  intros (c & [H1 H2 H3 H4] & Hn & Hb & Hp & Hi). exists c.
  split_and!; [|done|done|done|done]. split; cbn; [done|done|done|lia].
Qed.

(** ** The table invariant *)

(** The saved contexts that are resumed. *)
Definition good_point (k : kpoint) : bool :=
  match k with
  | KForkret | KYield | KSleep LkTicks WakeSysSleep | KSleep LkPtable WakeWait => true
  | _ => false
  end.

(** A process that has run or may run has what [switchuvm] wants. *)
Definition live_ok (b : proc) : Prop :=
  slice_ok b /\ i_kstack (img b) <> 0 /\ i_pgdir (img b) <> 0.

(** Slot [i] of the table, when the queue is [q], [run] is running and the zombie
    [z] has just exited. *)
Definition slot_ok (np : Z) (i : nat) (b : proc) (q : list nat) (run z : option nat) : Prop :=
  length (i_ofile (img b)) = NOFILE /\
  (state b <> UNUSED -> 0 < pid b < np) /\
  match state b with
  | UNUSED | EMBRYO => i ∉ q
  | SLEEPING => i ∉ q /\ live_ok b /\ good_point (k_point (ctx b)) = true
  | RUNNABLE => (killed b = 0 -> i ∈ q) /\ live_ok b /\ good_point (k_point (ctx b)) = true
  | RUNNING => run = Some i /\ live_ok b
  | ZOMBIE => i ∈ q -> z = Some i
  end.

Record table_ok (t : tab) (ps : list proc) (q : list nat) (run z : option nat) : Prop := TableOk {
  to_rep : rep t ps q;
  to_len : length ps = NPROC;
  to_slot : forall i b, ps !! i = Some b -> slot_ok (nextpid t) i b q run z;
  to_pids : forall i j b b', ps !! i = Some b -> ps !! j = Some b' ->
    state b <> UNUSED -> state b' <> UNUSED -> pid b = pid b' -> i = j;
  to_run : forall i, run = Some i -> hd_error q = Some i /\ exists b, ps !! i = Some b /\ state b = RUNNING;
  to_zombie : forall i, z = Some i -> hd_error q = Some i;
  to_np : 0 < nextpid t;
  to_int : forall i b, ps !! i = Some b -> int32 (timeslice (acc b));
  to_lost : forall i, lost = Some i -> i ∉ q /\ exists b, ps !! i = Some b /\ state b = RUNNABLE
}.

Lemma to_sleepers t ps q run z : table_ok t ps q run z -> sleepers_out ps q.
Proof.
  intros T j p Hj Hs. pose proof (to_slot _ _ _ _ _ T j p Hj) as (_ & _ & S). rewrite Hs in S. apply S.
Qed.

(** The states found in the queue. *)
Lemma queued_state t ps q run z i :
  table_ok t ps q run z -> i ∈ q -> exists b, ps !! i = Some b /\
    (state b = RUNNABLE \/ (state b = RUNNING /\ run = Some i) \/ (state b = ZOMBIE /\ z = Some i)).
Proof.
  intros T Hi. destruct (rep_valid _ _ _ _ (to_rep _ _ _ _ _ T) Hi) as [b Hb].
  exists b. split; [done|]. pose proof (to_slot _ _ _ _ _ T i b Hb) as (_ & _ & S).
  destruct (state b); tauto.
Qed.

Lemma to_differ t ps q run z : table_ok t ps q run z -> pids_differ ps q.
Proof.
  intros T i j p p' Hi Hj Hp Hp' E.
  destruct (queued_state _ _ _ _ _ i T Hi) as (b & Hb & Sb). rewrite Hp in Hb. injection Hb as <-.
  destruct (queued_state _ _ _ _ _ j T Hj) as (b' & Hb' & Sb'). rewrite Hp' in Hb'. injection Hb' as <-.
  apply (to_pids _ _ _ _ _ T i j p p'); auto; intros S.
  - destruct Sb as [E'|[[E' _]|[E' _]]]; congruence.
  - destruct Sb' as [E'|[[E' _]|[E' _]]]; congruence.
Qed.

Lemma to_queue_length t ps q run z : table_ok t ps q run z -> (length q <= NPROC)%nat.
Proof.
  intros T. pose proof (to_rep _ _ _ _ _ T) as R.
  assert (q ⊆+ seq 0 NPROC) as Hs.
  { apply NoDup_submseteq; [by eapply rep_nodup|]. intros i Hi.
    destruct (rep_valid _ _ _ _ R Hi) as [b Hb]. apply elem_of_seq.
    apply lookup_lt_Some in Hb. rewrite (to_len _ _ _ _ _ T) in Hb. lia. }
  apply submseteq_length in Hs. by rewrite length_seq in Hs.
Qed.

(** One slot changes, and with it its place in the queue and its role. *)
Lemma table_change t t' ps q q' run run' z z' i b b' :
  table_ok t ps q run z -> ps !! i = Some b ->
  rep t' (<[i := b']> ps) q' -> nextpid t <= nextpid t' ->
  (forall j, j <> i -> j ∈ q' <-> j ∈ q) ->
  (forall j, j <> i -> run = Some j -> run' = Some j) ->
  (forall j, j <> i -> z = Some j -> z' = Some j) ->
  slot_ok (nextpid t') i b' q' run' z' ->
  timeslice (acc b') = timeslice (acc b) \/ int32 (timeslice (acc b')) ->
  (state b = RUNNABLE -> lost = Some i -> state b' = RUNNABLE /\ i ∉ q') ->
  (state b' <> UNUSED -> (state b <> UNUSED /\ pid b' = pid b) \/
     forall j c, ps !! j = Some c -> state c <> UNUSED -> pid c <> pid b') ->
  (forall j, run' = Some j -> hd_error q' = Some j /\ exists c, <[i := b']> ps !! j = Some c /\ state c = RUNNING) ->
  (forall j, z' = Some j -> hd_error q' = Some j) ->
  table_ok t' (<[i := b']> ps) q' run' z'.
Proof.
  intros T Hb R Hnp Hq Hrun Hz Hs Hts Hlo Hpid Hr' Hz'. pose proof (lookup_lt_Some _ _ _ Hb) as Hlt.
  pose proof (to_np _ _ _ _ _ T) as Hnp0. split; auto; [| | |lia| |].
  - rewrite length_insert. apply T.
  - intros j c Hc. destruct (decide (i = j)) as [<-|Hne].
    + rewrite list_lookup_insert_eq in Hc by done. by injection Hc as <-.
    + rewrite list_lookup_insert_ne in Hc by done.
      pose proof (to_slot _ _ _ _ _ T j c Hc) as (S1 & S2 & S3). specialize (Hq j ltac:(done)).
      split; [done|]. split; [intros Hu; specialize (S2 Hu); lia|].
      destruct (state c); rewrite ?Hq; auto.
      destruct S3 as [S3 S4]. split; [|done]. by apply (Hrun j); [congruence|].
  - intros j k c d Hc Hd. destruct (decide (i = j)) as [<-|Hij], (decide (i = k)) as [<-|Hik]; [done|..].
    + rewrite list_lookup_insert_eq in Hc by done. injection Hc as <-.
      rewrite list_lookup_insert_ne in Hd by done. intros U1 U2 Ep.
      destruct (Hpid U1) as [[U E]|F]; [|by destruct (F k d Hd U2)].
      apply (to_pids _ _ _ _ _ T i k b d); auto. congruence.
    + rewrite list_lookup_insert_eq in Hd by done. injection Hd as <-.
      rewrite list_lookup_insert_ne in Hc by done. intros U1 U2 Ep.
      destruct (Hpid U2) as [[U E]|F]; [|by destruct (F j c Hc U1)].
      apply (to_pids _ _ _ _ _ T j i c b); auto. congruence.
    + rewrite !list_lookup_insert_ne in * by done. by apply (to_pids _ _ _ _ _ T).
  - intros j c Hc. destruct (decide (i = j)) as [<-|Hne].
    + rewrite list_lookup_insert_eq in Hc by done. injection Hc as <-.
      destruct Hts as [->|]; [by apply (to_int _ _ _ _ _ T i)|done].
    + rewrite list_lookup_insert_ne in Hc by done. by apply (to_int _ _ _ _ _ T j).
  - intros j Hj. destruct (to_lost _ _ _ _ _ T j Hj) as (Hjq & c & Hc & Sc).
    destruct (decide (i = j)) as [<-|Hne].
    + rewrite Hb in Hc. injection Hc as <-. destruct (Hlo Sc Hj) as [A B]. split; [done|].
      exists b'. by rewrite list_lookup_insert_eq.
    + rewrite (Hq j) by done. split; [done|]. exists c. by rewrite list_lookup_insert_ne.
Qed.

(** The common case: an update that leaves the state, the pid and the queue. *)
Lemma table_upd t ps q run z i b g :
  table_ok t ps q run z -> ps !! i = Some b -> keeps_next g ->
  state (g b) = state b -> pid (g b) = pid b -> (killed (g b) = 0 -> killed b = 0) ->
  length (i_ofile (img (g b))) = NOFILE ->
  (state b <> UNUSED -> state b <> EMBRYO -> state b <> ZOMBIE -> live_ok b -> live_ok (g b)) ->
  k_point (ctx (g b)) = k_point (ctx b) \/ state b = RUNNING \/ state b = EMBRYO ->
  timeslice (acc (g b)) = timeslice (acc b) \/ int32 (timeslice (acc (g b))) ->
  exists t', upd i g t = Ok tt t' /\ table_ok t' (<[i := g b]> ps) q run z /\ same_rest t t'.
Proof.
  intros T Hb Hg Es Ep Ek Ho Hl Hc Hts. destruct (rep_upd t ps q i b g (to_rep _ _ _ _ _ T) Hb Hg) as (t' & E & R & S).
  exists t'. split; [done|]. split; [|done]. pose proof S as (Sn & _ & _).
  pose proof (to_slot _ _ _ _ _ T i b Hb) as (S1 & S2 & S3).
  apply (table_change t t' ps q q run run z z i b (g b)); auto.
  - lia.
  - split; [done|]. rewrite Es, Ep, Sn. split; [done|].
    destruct (state b) eqn:Eb; auto.
    + destruct S3 as (A & B & C). split; [done|]. split; [by apply Hl|]. by destruct Hc as [->|[?|?]].
    + destruct S3 as (A & B & C). split; [auto|]. split; [by apply Hl|]. by destruct Hc as [->|[?|?]].
    + destruct S3 as (A & B). split; [done|]. by apply Hl.
  - intros Sb Hlo. rewrite Es. split; [done|]. by apply (to_lost _ _ _ _ _ T i Hlo).
  - rewrite Es, Ep. auto.
  - intros j Hj. destruct (to_run _ _ _ _ _ T j Hj) as (A & c & Hcj & Hsc). split; [done|].
    destruct (decide (i = j)) as [<-|Hne].
    + rewrite list_lookup_insert_eq by (by eapply lookup_lt_Some). exists (g b). split; [done|]. rewrite Es. congruence.
    + rewrite list_lookup_insert_ne by done. by exists c.
  - apply T.
Qed.

(** ** wakeup *)

Lemma wake_fields ch now b :
  (wakes ch now b = true -> state b = SLEEPING) /\
  state (wake_proc ch now b) = (if wakes ch now b then RUNNABLE else state b) /\
  pid (wake_proc ch now b) = pid b /\ killed (wake_proc ch now b) = killed b /\
  img (wake_proc ch now b) = img b /\ ctx (wake_proc ch now b) = ctx b /\
  timeslice (acc (wake_proc ch now b)) = timeslice (acc b).
Proof.
  unfold wake_proc. split.
  - unfold wakes, sleeps_on, is_state. intros [[E%bool_decide_eq_true _]%andb_true_iff _]%andb_true_iff. done.
  - destruct (wakes ch now b), (sleeps_on ch b && bool_decide (ch = TicksChan)); done.
Qed.

Lemma table_wakeup ch t ps q run z :
  table_ok t ps q run z ->
  exists t', wakeup1 ch t = Ok tt t' /\ same_rest t t' /\
    table_ok t' (map (wake_proc ch (ticks t)) ps) (q ++ woken (wakes ch (ticks t)) ps 0) run z.
Proof.
  intros T. destruct (wakeup1_ok ch t ps q (to_rep _ _ _ _ _ T) (to_len _ _ _ _ _ T) (to_sleepers _ _ _ _ _ T))
    as (t' & E & S & R). exists t'. split; [done|]. split; [done|].
  assert (forall i c, map (wake_proc ch (ticks t)) ps !! i = Some c ->
    exists b, ps !! i = Some b /\ c = wake_proc ch (ticks t) b) as Hmap.
  { intros i c Hc. rewrite list_lookup_fmap in Hc. destruct (ps !! i) as [b|]; [|done].
    injection Hc as <-. by exists b. }
  assert (forall i b, ps !! i = Some b -> i ∈ woken (wakes ch (ticks t)) ps 0 <-> wakes ch (ticks t) b = true) as Hw.
  { intros i b Hb. rewrite elem_of_woken, Nat.sub_0_r. split; [|intros ?; split; [lia|by exists b]].
    intros (_ & p & Hp & Hf). congruence. }
  pose proof (to_np _ _ _ _ _ T) as Hnp0. split; auto; [| | | | |destruct S as (-> & _); lia| |].
  - rewrite length_map. apply T.
  - intros i c Hc. destruct (Hmap i c Hc) as (b & Hb & ->).
    destruct (wake_fields ch (ticks t) b) as (F1 & F2 & F3 & F4 & F5 & F6 & F7).
    pose proof (to_slot _ _ _ _ _ T i b Hb) as (S1 & S2 & S3). specialize (Hw i b Hb).
    unfold slot_ok, live_ok, slice_ok in *. rewrite F2, F3, F4, F5, F6, F7.
    split; [done|]. destruct S as (-> & _ & _).
    assert (i ∈ q ++ woken (wakes ch (ticks t)) ps 0 <-> i ∈ q \/ wakes ch (ticks t) b = true) as Hin
      by by rewrite elem_of_app, Hw.
    clear Hw. destruct (wakes ch (ticks t) b) eqn:Ew.
    + specialize (F1 eq_refl). rewrite F1 in S2, S3. split; [intros _; by apply S2|].
      destruct S3 as (_ & L & G). split; [intros _; apply Hin; by right|done].
    + assert (i ∈ q ++ woken (wakes ch (ticks t)) ps 0 <-> i ∈ q) as Hin' by (rewrite Hin; split; [by intros [|]|by left]).
      split; [done|]. destruct (state b); rewrite ?Hin'; done.
  - intros i j c d Hc Hd. destruct (Hmap i c Hc) as (b & Hb & ->). destruct (Hmap j d Hd) as (b' & Hb' & ->).
    destruct (wake_fields ch (ticks t) b) as (F1 & F2 & F3 & _).
    destruct (wake_fields ch (ticks t) b') as (G1 & G2 & G3 & _).
    rewrite F2, F3, G2, G3. intros U1 U2 Ep. apply (to_pids _ _ _ _ _ T i j b b'); auto; intros Eu.
    + destruct (wakes ch (ticks t) b); [|done]. specialize (F1 eq_refl). congruence.
    + destruct (wakes ch (ticks t) b'); [|done]. specialize (G1 eq_refl). congruence.
  - intros i Hi. destruct (to_run _ _ _ _ _ T i Hi) as (A & b & Hb & Sb). split.
    + by destruct q.
    + exists (wake_proc ch (ticks t) b). rewrite list_lookup_fmap, Hb. split; [done|].
      destruct (wake_fields ch (ticks t) b) as (F1 & F2 & _). rewrite F2.
      destruct (wakes ch (ticks t) b); [|done]. specialize (F1 eq_refl). congruence.
  - intros i Hi. pose proof (to_zombie _ _ _ _ _ T i Hi) as A. by destruct q.
  - intros i c Hc. destruct (Hmap i c Hc) as (b & Hb & ->).
    destruct (wake_fields ch (ticks t) b) as (_ & _ & _ & _ & _ & _ & ->). by apply (to_int _ _ _ _ _ T i).
  - intros i Hi. destruct (to_lost _ _ _ _ _ T i Hi) as (Hiq & b & Hb & Sb).
    destruct (wake_fields ch (ticks t) b) as (F1 & F2 & _).
    assert (wakes ch (ticks t) b = false) as Ew.
    { destruct (wakes ch (ticks t) b); [|done]. specialize (F1 eq_refl). congruence. }
    split.
    + rewrite elem_of_app, (Hw i b Hb), Ew. by intros [|].
    + exists (wake_proc ch (ticks t) b). rewrite list_lookup_fmap, Hb, F2, Ew. done.
Qed.

(** ** The state in each mode *)

Definition usr (b : bool) (i : nat) (s : sst V) : Prop :=
  exists t h ia cr v f ps q, s = SSt t h initlock initlock cr v f /\
    cpu_is me h 0 b ia (Some i) /\ table_ok t ps q (Some i) None.
Definition at_kern (s : sst V) : Prop :=
  exists t h ia cp cr v f ps q z, s = SSt t h (held me) initlock cr v f /\
    cpu_is me h 1 false ia cp /\ table_ok t ps q None z.
Definition at_resuming (i : nat) (s : sst V) : Prop :=
  exists t h ia cr v f ps q, s = SSt t h (held me) initlock cr v f /\
    cpu_is me h 1 false ia (Some i) /\ table_ok t ps q (Some i) None /\
    exists b, ps !! i = Some b /\ good_point (k_point (ctx b)) = true.
Definition at_idle (s : sst V) : Prop :=
  exists t h b ia cr v f ps q, s = SSt t h initlock initlock cr v f /\
    cpu_is me h 0 b ia None /\ table_ok t ps q None None.

(** The slot of the running process. *)
Lemma running_slot t ps q i z :
  table_ok t ps q (Some i) z ->
  exists b, ps !! i = Some b /\ state b = RUNNING /\ live_ok b /\ length (i_ofile (img b)) = NOFILE /\
    hd_error q = Some i /\ i ∈ q.
Proof.
  intros T. destruct (to_run _ _ _ _ _ T i eq_refl) as (Hd & b & Hb & Sb). exists b.
  pose proof (to_slot _ _ _ _ _ T i b Hb) as (S1 & S2 & S3). rewrite Sb in S3. destruct S3 as [_ L].
  split_and!; auto; try apply L. destruct q; [done|]. injection Hd as ->. by left.
Qed.

(** [sched] on process [i], which has just changed its state. *)
Lemma sched_ok k t h tk cr v f ia i ps q b :
  cpu_is me h 1 false ia (Some i) -> rep t ps q -> ps !! i = Some b -> state b <> RUNNING ->
  exists t' h', sched k (SSt t h (held me) tk cr v f) = Ok tt (SSt t' h' (held me) tk cr v f) /\
    cpu_is me h' 1 false ia (Some i) /\ same_rest t t' /\
    rep t' (<[i := set_ctx (Kont k ia) b]> ps) q.
Proof.
  intros C R Hb Hs. unfold sched.
  destruct (my_proc_ok t h (held me) tk cr v f _ _ _ _ C) as (h1 & E1 & C1).
  rewrite (bind_Ok _ _ _ _ _ E1). clear E1. mgo. cbn [s_lk].
  pose proof C1 as (c & Hc & Hn & HI & Hp & Hi).
  mstep lh_Ok; [|by apply holding_ok].
  assert (holds (held me) me = true) as -> by apply holds_self. cbn [negb].
  pose proof (cpu_touched _ _ _ _ _ _ Hc Hn HI Hp Hi) as C2.
  pose proof C2 as (c2 & Hc2 & Hn2 & HI2 & Hp2 & Hi2).
  assert ((i0 ← mycpu; cpu_at i0) (touched h1 me c) = Ok c2 (touched h1 me c)) as Ec.
  { mstep mycpu_ok; [|done|done]. apply cpu_at_ok, Hc2. }
  mstep lh_Ok; [|exact Ec]. rewrite Hn2. change (1 =? 1) with true. cbn [negb]. mgo.
  destruct (rep_get _ _ _ _ _ R Hb) as (p & Ep & Ebp).
  mstep lt_Ok; [|exact Ep].
  assert (is_state RUNNING p = false) as ->.
  { apply bool_decide_eq_false. rewrite <- Ebp in Hs. exact Hs. }
  mgo. cbn [s_hw]. rewrite HI2. mstep lh_Ok; [|exact Ec].
  destruct (rep_upd t ps q i b (set_ctx (Kont k (intena c2))) R Hb) as (t' & E & R' & S); [kn|].
  rewrite (Hi2 eq_refl) in *. exists t', (touched h1 me c). split_and!; auto. by apply lt_Ok.
Qed.

Lemma yield_ok b i s : usr b i s -> hoare yield s (fun _ s' => at_kern s') (fun _ => False).
Proof.
  intros (t & h & ia & cr & v & f & ps & q & -> & C & T).
  destruct (running_slot _ _ _ _ _ T) as (bi & Hb & Sb & L & Lo & Hd & Hin).
  unfold yield. destruct (acquire_ptable_ok t h initlock cr v f _ _ _ _ C) as (h1 & E1 & C1).
  eapply hoare_step; [exact E1|]. cbn in C1.
  destruct (curproc_ok t h1 (held me) initlock cr v f _ _ _ _ C1) as (h2 & E2 & C2).
  eapply hoare_step; [exact E2|].
  destruct (rep_upd t ps q i bi (set_state RUNNABLE) (to_rep _ _ _ _ _ T) Hb) as (t3 & E3 & R3 & S3); [kn|].
  eapply hoare_step; [by apply lt_Ok|].
  destruct (sched_ok KYield t3 h2 initlock cr v f _ i _ q (set_state RUNNABLE bi) C2 R3)
    as (t4 & h4 & E4 & C4 & S4 & R4); [apply list_lookup_insert_eq; by eapply lookup_lt_Some|done|].
  eapply hoare_Ok; [exact E4|]. do 10 eexists. split; [done|]. split; [exact C4|].
  rewrite list_insert_insert_eq in R4.
  pose proof (same_rest_trans _ _ _ S3 S4) as (Sn & _ & _).
  pose proof (to_slot _ _ _ _ _ T i bi Hb) as (S1 & S2 & _).
  apply (table_change t t4 ps q q (Some i) None None None i bi); try eassumption; auto; try lia; try done; try (by left); try (cbn; intros; congruence).
  - rewrite Sn. split; [done|]. split; [intros _; apply S2; by rewrite Sb|]. cbn. done.
  - intros _. left. by rewrite Sb.
Qed.

(** The core of [sleep]: with only [ptable.lock] held. *)
Lemma sleep_core lid w ch t h cr v f ia i ps q :
  good_point (KSleep lid w) = true ->
  cpu_is me h 1 false ia (Some i) -> table_ok t ps q (Some i) None ->
  hoare (lt (upd i (set_chan ch));; lt (upd i (set_state SLEEPING));; lt pop;; sched (KSleep lid w))
    (SSt t h (held me) initlock cr v f) (fun _ s' => at_kern s') (fun _ => False).
Proof.
  intros Hg C T. destruct (running_slot _ _ _ _ _ T) as (bi & Hb & Sb & L & Lo & Hd & Hin).
  pose proof (lookup_lt_Some _ _ _ Hb) as Hlt.
  destruct (rep_upd t ps q i bi (set_chan ch) (to_rep _ _ _ _ _ T) Hb) as (t1 & E1 & R1 & S1); [kn|].
  eapply hoare_step; [by apply lt_Ok|].
  destruct (rep_upd t1 _ q i _ (set_state SLEEPING) R1 (list_lookup_insert_eq _ _ _ Hlt)) as (t2 & E2 & R2 & S2); [kn|].
  eapply hoare_step; [by apply lt_Ok|]. rewrite list_insert_insert_eq in R2.
  set (b2 := set_state SLEEPING (set_chan ch bi)) in *.
  destruct q as [|i' q]; [done|]. injection Hd as ->.
  assert (pids_differ (<[i := b2]> ps) (i :: q)) as Hpid.
  { eapply pids_differ_same; [|by eapply to_differ]. intros j. destruct (decide (i = j)) as [<-|Hne].
    - rewrite list_lookup_insert_eq by done. by rewrite Hb.
    - by rewrite list_lookup_insert_ne. }
  destruct (rep_pop t2 _ i q R2 Hpid) as (t3 & E3 & R3 & S3).
  eapply hoare_step; [by apply lt_Ok|].
  destruct (sched_ok (KSleep lid w) t3 h initlock cr v f _ i _ q b2 C R3 (list_lookup_insert_eq _ _ _ Hlt))
    as (t4 & h4 & E4 & C4 & S4 & R4); [done|].
  eapply hoare_Ok; [exact E4|]. do 10 eexists. split; [done|]. split; [exact C4|].
  rewrite list_insert_insert_eq in R4.
  assert (same_rest t t4) as (Sn & _ & _)
    by (eapply same_rest_trans; [exact S1|]; eapply same_rest_trans; [exact S2|]; by eapply same_rest_trans).
  pose proof (to_slot _ _ _ _ _ T i bi Hb) as (P1 & P2 & _).
  pose proof (rep_nodup _ _ _ (to_rep _ _ _ _ _ T)) as Hnd. apply NoDup_cons in Hnd as [Hiq _].
  apply (table_change t t4 ps (i :: q) q (Some i) None None None i bi); try eassumption; auto; try lia; try done; try (by left); try (cbn; intros; congruence).
  - intros j Hj. rewrite elem_of_cons. split; [by right|]. by intros [|].
  - rewrite Sn. split; [done|]. split; [intros _; apply P2; by rewrite Sb|]. cbn. done.
  - intros _. left. by rewrite Sb.
Qed.

(** ** The running process works on its own slot *)

Definition mid (i : nat) (s : sst V) : Prop := exists b, usr b i s.
Definition after (i : nat) (r : ret) (s : sst V) : Prop :=
  match r with Done _ => mid i s | Switched => at_kern s end.

(** Updates of the current process that the invariant does not notice. *)
Definition harmless (g : proc -> proc) : Prop :=
  keeps_next g /\ forall p, state (g p) = state p /\ pid (g p) = pid p /\ killed (g p) = killed p /\
    (length (i_ofile (img p)) = NOFILE -> length (i_ofile (img (g p))) = NOFILE) /\
    (live_ok p -> live_ok (g p)) /\ k_point (ctx (g p)) = k_point (ctx p) /\
    (timeslice (acc (g p)) = timeslice (acc p) \/ int32 (timeslice (acc (g p)))).

Lemma table_harmless t ps q run z i b g :
  table_ok t ps q run z -> ps !! i = Some b -> harmless g ->
  exists t', upd i g t = Ok tt t' /\ table_ok t' (<[i := g b]> ps) q run z /\ same_rest t t'.
Proof.
  intros T Hb [Hg Hh]. destruct (Hh b) as (H1 & H2 & H3 & H4 & H5 & H6 & H7).
  pose proof (to_slot _ _ _ _ _ T i b Hb) as (S1 & _).
  apply (table_upd t ps q run z i b g); auto. congruence.
Qed.

Lemma usr_upd b i s g :
  usr b i s -> harmless g -> exists s', lt (upd i g) s = Ok tt s' /\ usr b i s'.
Proof.
  intros (t & h & ia & cr & v & f & ps & q & -> & C & T) Hg.
  destruct (running_slot _ _ _ _ _ T) as (bi & Hb & _).
  destruct (table_harmless _ _ _ _ _ _ _ _ T Hb Hg) as (t' & E & T' & _).
  eexists. split; [by apply lt_Ok|]. by do 9 eexists.
Qed.

Lemma usr_get b i s :
  usr b i s -> exists p, lt (get_proc i) s = Ok p s /\ state p = RUNNING /\
    length (i_ofile (img p)) = NOFILE /\ live_ok p.
Proof.
  intros (t & h & ia & cr & v & f & ps & q & -> & C & T).
  destruct (running_slot _ _ _ _ _ T) as (bi & Hb & Sb & L & Lo & _).
  destruct (rep_get _ _ _ _ _ (to_rep _ _ _ _ _ T) Hb) as (p & E & <-).
  exists p. split; [|done]. by apply lt_Ok.
Qed.

Lemma usr_svc_do b i s g : usr b i s -> exists s', svc_do g s = Ok tt s' /\ usr b i s'.
Proof.
  intros (t & h & ia & cr & v & f & ps & q & -> & C & T).
  eexists. split; [reflexivity|]. by do 9 eexists.
Qed.

Lemma usr_my_proc b i s : usr b i s -> exists s', my_proc s = Ok (Some i) s' /\ usr b i s'.
Proof.
  intros (t & h & ia & cr & v & f & ps & q & -> & C & T).
  destruct (my_proc_ok t h initlock initlock cr v f _ _ _ _ C) as (h' & E & C').
  eexists. split; [exact E|]. by do 9 eexists.
Qed.

Ltac harm := split; [intro; split; reflexivity|]; intros []; split_and!; cbn; auto.

Lemma exit_files_ok b i n : forall s fd,
  usr b i s -> (fd + n = NOFILE)%nat -> exists s', exit_files i fd n s = Ok tt s' /\ usr b i s'.
Proof.
  induction n as [|n IH]; intros s fd U Hn; cbn [exit_files]; [by exists s|].
  destruct (usr_get _ _ _ U) as (p & E & _ & Lo & _). mstep E.
  destruct (lookup_lt_is_Some_2 (i_ofile (img p)) fd) as [x Hx]; [lia|]. rewrite Hx. mgo.
  destruct (x =? 0); cbn [negb]; mgo.
  - apply IH; [done|lia].
  - destruct (usr_svc_do _ _ _ (svc_fileclose x) U) as (s1 & E1 & U1). mstep E1.
    destruct (usr_upd _ _ _ (on_img (fun m => set_ofile (<[fd := 0]> (i_ofile m)) m)) U1) as (s2 & E2 & U2).
    { harm. by rewrite length_insert. }
    mstep E2. apply IH; [done|lia].
Qed.

Lemma table_wakeup' ch t ps q run z :
  table_ok t ps q run z ->
  exists t' ps' q', wakeup1 ch t = Ok tt t' /\ table_ok t' ps' q' run z /\ same_rest t t'.
Proof. intros T. destruct (table_wakeup ch _ _ _ _ _ T) as (t' & E & S & T'). by exists t'; do 2 eexists. Qed.

Lemma reparent_ok cur run z n : forall t ps q j,
  table_ok t ps q run z -> (j + n = NPROC)%nat ->
  exists t' ps' q', reparent cur j n t = Ok tt t' /\ table_ok t' ps' q' run z /\ same_rest t t'.
Proof.
  induction n as [|n IH]; intros t ps q j T Hn; cbn [reparent].
  { exists t, ps, q. done. }
  destruct (lookup_lt_is_Some_2 ps j) as [b Hb]; [rewrite (to_len _ _ _ _ _ T); lia|].
  destruct (rep_get _ _ _ _ _ (to_rep _ _ _ _ _ T) Hb) as (p & E & Ep). mstep E.
  assert (forall t1 ps1 q1, table_ok t1 ps1 q1 run z -> same_rest t t1 ->
    exists t' ps' q', reparent cur (S j) n t1 = Ok tt t' /\ table_ok t' ps' q' run z /\ same_rest t t') as K.
  { intros t1 ps1 q1 T1 S1. destruct (IH t1 ps1 q1 (S j) T1) as (t' & ps' & q' & E' & T' & S'); [lia|].
    exists t', ps', q'. split_and!; [done|done|]. by eapply same_rest_trans. }
  destruct (bool_decide (parent p = Some cur)); mgo; [|by eapply K].
  destruct (table_harmless t ps q run z j b (set_parent (initproc t)) T Hb) as (t1 & E1 & T1 & S1); [harm|].
  mstep E1. destruct (is_state ZOMBIE p); mgo; [|by eapply K].
  destruct (table_wakeup' (chan_of (initproc t)) _ _ _ _ _ T1) as (t2 & ps2 & q2 & E2 & T2 & S2).
  mstep E2. eapply K; [done|]. by eapply same_rest_trans.
Qed.

Definition init_exits (e : string) : Prop := e = "init exiting".

Lemma exit_ok b i s : usr b i s -> hoare exit s (fun _ s' => at_kern s') init_exits.
Proof.
  intros U. unfold exit. destruct (usr_my_proc _ _ _ U) as (s1 & E1 & U1).
  eapply hoare_step; [exact E1|]. clear s E1 U.
  pose proof U1 as (t & h & ia & cr & v & f & ps & q & -> & C & T).
  eapply hoare_step; [by apply lt_Ok|]. cbn beta.
  destruct (bool_decide_reflect (Some i = initproc t)) as [_|_]; [done|].
  eapply hoare_step; [done|]. clear C T.
  destruct (exit_files_ok _ _ NOFILE _ 0 U1) as (s2 & E2 & U2); [done|]. eapply hoare_step; [exact E2|].
  destruct (usr_get _ _ _ U2) as (p & E3 & _). eapply hoare_step; [exact E3|].
  destruct (usr_svc_do _ _ _ (svc_iput_op (i_cwd (img p))) U2) as (s4 & E4 & U4). eapply hoare_step; [exact E4|].
  destruct (usr_upd _ _ _ (on_img (set_cwd 0)) U4) as (s5 & E5 & U5); [harm|]. eapply hoare_step; [exact E5|].
  clear t h ia cr v f ps q U1 U2 U4 E2 E3 E4 E5 s2 s4 p.
  destruct U5 as (t & h & ia & cr & v & f & ps & q & -> & C & T).
  destruct (acquire_ptable_ok t h initlock cr v f _ _ _ _ C) as (h1 & E1 & C1).
  eapply hoare_step; [exact E1|]. cbn in C1.
  destruct (running_slot _ _ _ _ _ T) as (bi & Hb & _).
  destruct (rep_get _ _ _ _ _ (to_rep _ _ _ _ _ T) Hb) as (p & Ep & _).
  destruct (table_wakeup' (chan_of (parent p)) _ _ _ _ _ T) as (t2 & ps2 & q2 & E2 & T2 & _).
  destruct (reparent_ok i _ _ NPROC t2 ps2 q2 0 T2) as (t3 & ps3 & q3 & E3 & T3 & _); [done|].
  destruct (running_slot _ _ _ _ _ T3) as (b3 & Hb3 & Sb3 & L3 & Lo3 & Hd3 & Hin3).
  destruct (rep_upd t3 ps3 q3 i b3 (set_state ZOMBIE) (to_rep _ _ _ _ _ T3) Hb3) as (t4 & E4 & R4 & S4); [kn|].
  eapply hoare_step.
  { apply lt_Ok. mstep Ep. mstep E2. mstep E3. exact E4. }
  destruct (sched_ok KDead t4 h1 initlock cr v f _ i _ q3 (set_state ZOMBIE b3) C1 R4)
    as (t5 & h5 & E5 & C5 & S5 & R5); [apply list_lookup_insert_eq; by eapply lookup_lt_Some|done|].
  eapply hoare_Ok; [exact E5|]. exists t5, h5. do 6 eexists. exists q3, (Some i).
  split; [done|]. split; [exact C5|]. rewrite list_insert_insert_eq in R5.
  pose proof (same_rest_trans _ _ _ S4 S5) as (Sn & _ & _).
  pose proof (to_slot _ _ _ _ _ T3 i b3 Hb3) as (P1 & P2 & _).
  apply (table_change t3 t5 ps3 q3 q3 (Some i) None None (Some i) i b3); try eassumption; auto; try lia; try done; try (by left); try (cbn; intros; congruence).
  - rewrite Sn. split; [done|]. split; [intros _; apply P2; by rewrite Sb3|done].
  - intros _. left. by rewrite Sb3.
Qed.

(** ** wait *)

(** A zombie is freed. *)
Lemma reap_ok t ps q i j b :
  table_ok t ps q (Some i) None -> ps !! j = Some b -> state b = ZOMBIE ->
  exists t1 t' b', upd j (on_img (set_kstack 0)) t = Ok tt t1 /\ (upd j (set_pid 0);; upd j (set_parent None);;
      upd j (on_img (set_name EmptyString));; upd j (set_killed 0);; upd j (set_state UNUSED)) t1 = Ok tt t' /\
    table_ok t' (<[j := b']> ps) q (Some i) None.
Proof.
  intros T Hb Sb. pose proof (to_rep _ _ _ _ _ T) as R. pose proof (lookup_lt_Some _ _ _ Hb) as Hlt.
  destruct (rep_upd t ps q j b _ R Hb (ltac:(kn) : keeps_next (on_img (set_kstack 0)))) as (t1 & E1 & R1 & S1).
  destruct (rep_upd t1 _ q j _ _ R1 (list_lookup_insert_eq _ _ _ Hlt) (ltac:(kn) : keeps_next (set_pid 0)))
    as (t2 & E2 & R2 & S2). rewrite list_insert_insert_eq in R2.
  destruct (rep_upd t2 _ q j _ _ R2 (list_lookup_insert_eq _ _ _ Hlt) (ltac:(kn) : keeps_next (set_parent None)))
    as (t3 & E3 & R3 & S3). rewrite list_insert_insert_eq in R3.
  destruct (rep_upd t3 _ q j _ _ R3 (list_lookup_insert_eq _ _ _ Hlt) (ltac:(kn) : keeps_next (on_img (set_name EmptyString))))
    as (t4 & E4 & R4 & S4). rewrite list_insert_insert_eq in R4.
  destruct (rep_upd t4 _ q j _ _ R4 (list_lookup_insert_eq _ _ _ Hlt) (ltac:(kn) : keeps_next (set_killed 0)))
    as (t5 & E5 & R5 & S5). rewrite list_insert_insert_eq in R5.
  destruct (rep_upd t5 _ q j _ _ R5 (list_lookup_insert_eq _ _ _ Hlt) (ltac:(kn) : keeps_next (set_state UNUSED)))
    as (t6 & E6 & R6 & S6). rewrite list_insert_insert_eq in R6.
  exists t1, t6. eexists. split; [exact E1|]. split.
  { mstep E2. mstep E3. mstep E4. mstep E5. exact E6. }
  assert (same_rest t t6) as (Sn & _ & _) by (repeat (eapply same_rest_trans; [eassumption|]); done).
  pose proof (to_slot _ _ _ _ _ T j b Hb) as (P1 & P2 & P3). rewrite Sb in P3.
  assert (j ∉ q) as Hj by by intros Hq; specialize (P3 Hq).
  eapply (table_change t t6 ps q q (Some i) (Some i) None None j b); eauto; try lia; try done; try (by left); try (cbn; intros; congruence).
  intros k [= <-]. destruct (to_run _ _ _ _ _ T i eq_refl) as (A & c & Hc & Sc). split; [done|].
  rewrite list_lookup_insert_ne by congruence. by exists c.
Qed.

Lemma wait_scan_ok i cp h tk cr f n : forall t v ps q j kids,
  table_ok t ps q (Some i) None -> (j + n = NPROC)%nat ->
  exists r t' v' ps', wait_scan cp j n kids (SSt t h (held me) tk cr v f) =
      Ok r (SSt t' h (held me) tk cr v' f) /\ table_ok t' ps' q (Some i) None.
Proof.
  induction n as [|n IH]; intros t v ps q j kids T Hn; cbn [wait_scan].
  { by exists (None, kids), t, v, ps. }
  destruct (lookup_lt_is_Some_2 ps j) as [b Hb]; [rewrite (to_len _ _ _ _ _ T); lia|].
  destruct (rep_get _ _ _ _ _ (to_rep _ _ _ _ _ T) Hb) as (p & E & Ep). mstep lt_Ok; [|exact E].
  destruct (negb (bool_decide (parent p = Some cp))); [eapply IH; [done|lia]|].
  destruct (is_state ZOMBIE p) eqn:Ez; [|eapply IH; [done|lia]].
  assert (state b = ZOMBIE) as Sb by (apply bool_decide_eq_true in Ez; by rewrite <- Ep).
  destruct (reap_ok t ps q i j b T Hb Sb) as (t1 & t' & b' & E1 & E' & T').
  unfold svc_do. mgo. cbn [set_svc s_svc]. mstep lt_Ok; [|exact E1].
  mgo. cbn [set_svc s_svc]. mstep lt_Ok; [|exact E'].
  by do 4 eexists.
Qed.

Lemma wait_turn_ok t h ia cr v f i ps q :
  cpu_is me h 1 false ia (Some i) -> table_ok t ps q (Some i) None ->
  hoare (wait_turn i) (SSt t h (held me) initlock cr v f) (after i) (fun _ => False).
Proof.
  intros C T. unfold wait_turn.
  destruct (wait_scan_ok i i h initlock cr f NPROC t v ps q 0 false T) as (r & t' & v' & ps' & E & T'); [done|].
  eapply hoare_step; [exact E|].
  assert (forall x, hoare (release_ptable;; mret (Done x)) (SSt t' h (held me) initlock cr v' f) (after i) (fun _ => False)) as Rel.
  { intros x. destruct (release_ptable_ok t' h initlock cr v' f _ _ _ _ C) as (h1 & E1 & C1); [done|].
    eapply hoare_step; [exact E1|]. apply hoare_ret. exists ia. by do 9 eexists. }
  destruct r as [[x|] kids]; [apply Rel|].
  destruct (running_slot _ _ _ _ _ T') as (bi & Hb & _).
  destruct (rep_get _ _ _ _ _ (to_rep _ _ _ _ _ T') Hb) as (p & Ep & _).
  eapply hoare_step; [by apply lt_Ok|].
  destruct (negb kids || negb (killed p =? 0)); [apply Rel|].
  unfold sleep. apply hoare_assoc.
  destruct (my_proc_ok t' h (held me) initlock cr v' f _ _ _ _ C) as (h1 & E1 & C1).
  eapply hoare_step; [exact E1|]. cbn [bool_decide decide]. rewrite bool_decide_true by done.
  eapply hoare_bind.
  - eapply hoare_step; [reflexivity|]. by eapply sleep_core.
  - intros [] s' Hs. by apply hoare_ret.
Qed.

Lemma wait_ok b i s : usr b i s -> hoare wait s (after i) (fun _ => False).
Proof.
  intros (t & h & ia & cr & v & f & ps & q & -> & C & T). unfold wait.
  destruct (curproc_ok t h initlock initlock cr v f _ _ _ _ C) as (h1 & E1 & C1).
  eapply hoare_step; [exact E1|].
  destruct (acquire_ptable_ok t h1 initlock cr v f _ _ _ _ C1) as (h2 & E2 & C2).
  eapply hoare_step; [exact E2|]. by eapply wait_turn_ok.
Qed.

(** ** Critical sections of [ptable.lock] *)

Definition pt (b : bool) (i : nat) (s : sst V) : Prop :=
  exists t h cr v f ps q, s = SSt t h (held me) initlock cr v f /\
    cpu_is me h 1 false b (Some i) /\ table_ok t ps q (Some i) None.

Lemma usr_acquire b i s : usr b i s -> exists s', acquire_ptable s = Ok tt s' /\ pt b i s'.
Proof.
  intros (t & h & ia & cr & v & f & ps & q & -> & C & T).
  destruct (acquire_ptable_ok t h initlock cr v f _ _ _ _ C) as (h1 & E1 & C1).
  eexists. split; [exact E1|]. by do 7 eexists.
Qed.

Lemma pt_release b i s :
  pt b i s -> exists s', release_ptable s = Ok tt s' /\ usr b i s' /\ s_tab s' = s_tab s.
Proof.
  intros (t & h & cr & v & f & ps & q & -> & C & T).
  destruct (release_ptable_ok t h initlock cr v f _ _ _ _ C) as (h1 & E1 & C1); [done|].
  eexists. split; [exact E1|]. split; [|done]. by do 8 eexists.
Qed.

(** An operation on the table inside the section. *)
Lemma pt_lt {A} b i s (m : M tab A) :
  pt b i s ->
  (forall t ps q, table_ok t ps q (Some i) None ->
     exists a t' ps' q', m t = Ok a t' /\ table_ok t' ps' q' (Some i) None) ->
  exists a s', lt m s = Ok a s' /\ pt b i s'.
Proof.
  intros (t & h & cr & v & f & ps & q & -> & C & T) Hm.
  destruct (Hm t ps q T) as (a & t' & ps' & q' & E & T'). exists a. eexists.
  split; [by apply lt_Ok|]. by do 7 eexists.
Qed.

Lemma scan_Some g ps : forall k j,
  scan g ps k = Some j -> (k <= j)%nat /\ exists p, ps !! (j - k)%nat = Some p /\ g p = true.
Proof.
  induction ps as [|p ps IH]; intros k j E; [done|]. cbn in E. destruct (g p) eqn:Eg.
  - injection E as <-. split; [lia|]. exists p. by rewrite Nat.sub_diag.
  - destruct (IH _ _ E) as (Hk & p' & Hp & Hg). split; [lia|]. exists p'.
    by replace (j - k)%nat with (S (j - S k)) by lia.
Qed.

Lemma scan_None g ps : forall k, scan g ps k = None -> forall p, p ∈ ps -> g p = false.
Proof.
  induction ps as [|p ps IH]; intros k E q Hq; [by apply elem_of_nil in Hq|].
  cbn in E. destruct (g p) eqn:Eg; [done|]. apply elem_of_cons in Hq as [->|Hq]; [done|]. by apply (IH (S k)).
Qed.

(** The searches by pid: the section goes on with a slot of the table. *)
Lemma pt_find b i s g :
  pt b i s -> exists r, lt (find_proc g) s = Ok r s /\
    forall j, r = Some j -> exists p, procs (s_tab s) !! j = Some p /\ g p = true.
Proof.
  intros (t & h & cr & v & f & ps & q & -> & C & T).
  exists (scan g (procs t) 0). split; [by apply lt_Ok|]. intros j Hj.
  apply scan_Some in Hj as (_ & p & Hp & Hg). rewrite Nat.sub_0_r in Hp. by exists p.
Qed.

Lemma lt_get (s : sst V) j p : procs (s_tab s) !! j = Some p -> lt (get_proc j) s = Ok p s.
Proof. intros Hp. destruct s. by apply lt_Ok, get_proc_ok. Qed.

Lemma pt_harmless b i s j p g :
  pt b i s -> procs (s_tab s) !! j = Some p -> harmless g -> exists s', lt (upd j g) s = Ok tt s' /\ pt b i s'.
Proof.
  intros (t & h & cr & v & f & ps & q & -> & C & T) Hp Hg. cbn in Hp.
  assert (ps !! j = Some (bare p)) as Hb.
  { destruct (to_rep _ _ _ _ _ T) as [_ <-]. by apply tview_lookup. }
  destruct (table_harmless _ _ _ _ _ _ _ _ T Hb Hg) as (t' & E' & T' & _).
  eexists. split; [by apply lt_Ok|]. by do 7 eexists.
Qed.

Lemma usr_done b i s x : usr b i s -> after i (Done x) s.
Proof. intros U. by exists b. Qed.

Lemma setslice_ok b i s n sl :
  usr b i s -> int32 sl -> hoare (setslice n sl) s (fun _ => mid i) (fun _ => False).
Proof.
  intros U Hsl. unfold setslice. destruct ((sl <? 1) || (n <? 0)) eqn:Eg; [by apply hoare_ret; exists b|].
  apply orb_false_iff in Eg as [H1%Z.ltb_ge _].
  destruct (usr_acquire _ _ _ U) as (s1 & E1 & P1). eapply hoare_step; [exact E1|].
  destruct (pt_find _ _ _ (fun p => pid p =? n) P1) as (r & E2 & Hr). eapply hoare_step; [exact E2|].
  destruct r as [j|].
  - destruct (Hr j eq_refl) as (p & Ep & _).
    destruct (pt_harmless _ _ _ _ _ (on_acc (set_timeslice sl)) P1 Ep) as (s2 & E3 & P2).
    { harm. intros [_ L]. split; [|done]. unfold slice_ok, int32 in *. cbn. lia. }
    eapply hoare_step; [exact E3|]. destruct (pt_release _ _ _ P2) as (s3 & E4 & U3 & Et).
    eapply hoare_step; [exact E4|]. apply hoare_ret. by exists b.
  - destruct (pt_release _ _ _ P1) as (s3 & E4 & U3 & Et).
    eapply hoare_step; [exact E4|]. apply hoare_ret. by exists b.
Qed.

Definition double_acquire (e : string) : Prop := e = "acquire".

Lemma pt_acquire b i s : pt b i s -> acquire_ptable s = Panic "acquire".
Proof.
  intros (t & h & cr & v & f & ps & q & -> & (c & Hc & _) & T).
  unfold acquire_ptable. eapply acquire_in_twice; [exact Hc|]. apply holds_self.
Qed.

Lemma getslice_ok b i s n : usr b i s -> hoare (getslice n) s (fun _ => mid i) double_acquire.
Proof.
  intros U. unfold getslice. destruct (n <? 0); [by apply hoare_ret; exists b|].
  destruct (usr_acquire _ _ _ U) as (s1 & E1 & P1). eapply hoare_step; [exact E1|].
  destruct (pt_find _ _ _ (fun p => pid p =? n) P1) as (r & E2 & Hr). eapply hoare_step; [exact E2|].
  destruct r as [j|].
  - destruct (Hr j eq_refl) as (p & Ep & _).
    destruct (pt_release _ _ _ P1) as (s3 & E4 & U3 & Et). eapply hoare_step; [exact E4|].
    rewrite <- Et in Ep. eapply hoare_step; [by apply lt_get|]. apply hoare_ret. by exists b.
  - unfold hoare. by erewrite bind_Panic by (by eapply pt_acquire).
Qed.

Lemma getpinfo_ok b i s nl : usr b i s -> hoare (getpinfo nl) s (fun _ => mid i) (fun _ => False).
Proof.
  intros U. unfold getpinfo. destruct nl; [by apply hoare_ret; exists b|].
  destruct (usr_acquire _ _ _ U) as (s1 & E1 & P1). eapply hoare_step; [exact E1|].
  pose proof P1 as (t & h & cr & v & f & ps & q & -> & C & T).
  eapply hoare_step; [by apply lt_Ok|]. cbv zeta.
  destruct (pt_release _ _ _ P1) as (s3 & E4 & U3 & Et). eapply hoare_step; [exact E4|].
  apply hoare_ret. by exists b.
Qed.

Lemma wakeup_ok b i s ch : usr b i s -> exists s', wakeup ch s = Ok tt s' /\ usr b i s'.
Proof.
  intros U. unfold wakeup. destruct (usr_acquire _ _ _ U) as (s1 & E1 & P1). mstep E1.
  destruct (pt_lt _ _ _ (wakeup1 ch) P1) as ([] & s2 & E2 & P2).
  { intros t ps q T. destruct (table_wakeup' ch _ _ _ _ _ T) as (t' & ps' & q' & E & T' & _).
    by exists tt, t', ps', q'. }
  mstep E2. destruct (pt_release _ _ _ P2) as (s3 & E3 & U3 & _). by exists s3.
Qed.

(** Runnable, but in no queue. *)
Definition stranded (j : nat) (t : tab) : Prop :=
  (exists p, procs t !! j = Some p /\ state p = RUNNABLE) /\ forall q, queue t q -> j ∉ q.

Lemma nxt_unique ps : forall q q',
  nxt ps q -> nxt ps q' -> hd_error q = hd_error q' -> last q = last q' -> NoDup q -> NoDup q' -> q = q'.
Proof.
  induction q as [|i q IH]; intros [|i' q'] N N' Hh Hl D D'; [done..|]. injection Hh as <-.
  destruct q as [|j q], q' as [|j' q'].
  - done.
  - exfalso. change (Some i = last (j' :: q')) in Hl. apply NoDup_cons in D' as [D' _]. apply D'.
    symmetry in Hl. apply last_Some in Hl as (l & ->). rewrite elem_of_app. right. by left.
  - exfalso. change (last (j :: q) = Some i) in Hl. apply NoDup_cons in D as [D _]. apply D.
    apply last_Some in Hl as (l & ->). rewrite elem_of_app. right. by left.
  - destruct N as [(p & Hp & En) N], N' as [(p' & Hp' & En') N']. f_equal.
    apply NoDup_cons in D as [_ D]. apply NoDup_cons in D' as [_ D'].
    apply IH; auto. cbn. congruence.
Qed.

Lemma queue_unique t q q' : queue t q -> queue t q' -> q = q'.
Proof.
  intros Q Q'. destruct q as [|i q], q' as [|i' q'].
  - done.
  - pose proof (qu_head _ _ Q) as A. pose proof (qu_head _ _ Q') as B. rewrite A in B. done.
  - pose proof (qu_head _ _ Q) as A. pose proof (qu_head _ _ Q') as B. rewrite A in B. done.
  - apply (nxt_unique (procs t)); try apply Q; try apply Q'.
    + rewrite <- (qu_head _ _ Q). apply Q'.
    + rewrite <- (qu_tail _ _ Q), <- (qu_tail _ _ Q') by done. done.
Qed.

(** [kill] makes a sleeper runnable without queueing it. *)
Lemma kill_full b i s n :
  usr b i s ->
  hoare (kill n) s (fun r s' => usr b i s' /\
    forall j p, scan (fun p => pid p =? n) (procs (s_tab s)) 0 = Some j ->
      procs (s_tab s) !! j = Some p -> state p = SLEEPING -> r = 0 /\ stranded j (s_tab s'))
    (fun _ => False).
Proof.
  intros (t & h & ia & cr & v & f & ps & q & -> & C & T). unfold kill.
  destruct (acquire_ptable_ok t h initlock cr v f _ _ _ _ C) as (h1 & E1 & C1). cbn in C1.
  eapply hoare_step; [exact E1|]. eapply hoare_step; [by apply lt_Ok|].
  (* the end of the section, in a table [t2] *)
  assert (forall t2 ps2 q2 (x : Z), table_ok t2 ps2 q2 (Some i) None ->
    hoare (release_ptable;; mret x) (SSt t2 h1 (held me) initlock cr v f)
      (fun r s' => usr b i s' /\ r = x /\ s_tab s' = t2) (fun _ => False)) as Rel.
  { intros t2 ps2 q2 x T2. destruct (release_ptable_ok t2 h1 initlock cr v f _ _ _ _ C1) as (h2 & E2 & C2); [done|].
    eapply hoare_step; [exact E2|]. apply hoare_ret. split; [by do 8 eexists|done]. }
  cbn [s_tab].
  destruct (scan (fun p => pid p =? n) (procs t) 0) as [j|] eqn:Esc.
  2:{ eapply hoare_weaken; [by eapply Rel| |done]. intros r s' (U' & _). done. }
  pose proof (scan_Some _ _ _ _ Esc) as (_ & p & Hp & _). rewrite Nat.sub_0_r in Hp.
  assert (ps !! j = Some (bare p)) as Hb.
  { destruct (to_rep _ _ _ _ _ T) as [_ <-]. by apply tview_lookup. }
  pose proof (lookup_lt_Some _ _ _ Hb) as Hlt.
  destruct (table_upd t ps q (Some i) None j (bare p) (set_killed 1) T Hb) as (t1 & E1' & T1 & S1);
    [kn|done|done|done|by apply (to_slot _ _ _ _ _ T j (bare p))|done|by left|by left|].
  eapply hoare_step; [by apply lt_Ok|].
  destruct (rep_get _ _ _ _ _ (to_rep _ _ _ _ _ T1) (list_lookup_insert_eq _ _ _ Hlt)) as (p1 & Ep1 & Eb1).
  eapply hoare_step; [by apply lt_Ok|].
  assert (state p1 = state p) as Es1 by (change (state (bare p1) = state p); by rewrite Eb1).
  destruct (is_state SLEEPING p1) eqn:Es.
  2:{ eapply hoare_step; [done|]. eapply hoare_weaken; [by eapply Rel| |done].
      intros r s' (U' & _). split; [done|]. intros j' p' [= <-] Hp' Sp'.
      apply bool_decide_eq_false in Es. congruence. }
  apply bool_decide_eq_true in Es. assert (state p = SLEEPING) as Sp by congruence.
  destruct (rep_upd t1 _ q j _ (set_state RUNNABLE) (to_rep _ _ _ _ _ T1) (list_lookup_insert_eq _ _ _ Hlt))
    as (t2 & E2 & R2 & S2); [kn|].
  eapply hoare_step; [by apply lt_Ok|]. rewrite list_insert_insert_eq in R2.
  pose proof (same_rest_trans _ _ _ S1 S2) as (Sn & _ & _).
  pose proof (to_slot _ _ _ _ _ T j _ Hb) as (P1 & P2 & P3). cbn in P2, P3. rewrite Sp in P2, P3.
  destruct P3 as (Q1 & Q2 & Q3).
  eapply hoare_weaken; [eapply (Rel t2)| |done].
  - apply (table_change t t2 ps q q (Some i) (Some i) None None j (bare p)); try eassumption; auto; try lia; try done; try (by left); try (cbn; intros; congruence).
    + rewrite Sn. split; [done|]. split; [intros _; by apply P2|]. cbn. done.
    + intros _. left. cbn. by rewrite Sp.
    + intros k Hk. destruct (to_run _ _ _ _ _ T k Hk) as (A & c & Hc & Sc). split; [done|].
      rewrite list_lookup_insert_ne; [by exists c|]. intros <-. rewrite Hb in Hc. injection Hc as <-.
      cbn in Sc. congruence.
  - intros r s' (U' & -> & ->). split; [done|]. intros j' p' [= <-] _ _. split; [done|]. split.
    + destruct (rep_lookup _ _ _ _ _ R2 (list_lookup_insert_eq _ _ _ Hlt)) as (p2 & Hp2 & Eb2).
      exists p2. split; [done|]. change (state (bare p2) = RUNNABLE). by rewrite Eb2.
    + intros q' Q'. rewrite (queue_unique _ _ _ Q' (rep_queue _ _ _ R2)). done.
Qed.

Lemma kill_ok b i s n : usr b i s -> hoare (kill n) s (fun _ => mid i) (fun _ => False).
Proof.
  intros U. eapply hoare_weaken; [by apply kill_full| |done]. intros r s' [U' _]. by exists b.
Qed.

(** ** sys_sleep and the small system calls *)

Definition tks (b : bool) (i : nat) (s : sst V) : Prop :=
  exists t h cr v f ps q, s = SSt t h initlock (held me) cr v f /\
    cpu_is me h 1 false b (Some i) /\ table_ok t ps q (Some i) None.

Lemma usr_acquire_ticks b i s : usr b i s -> exists s', acquire_tickslock s = Ok tt s' /\ tks b i s'.
Proof.
  intros (t & h & ia & cr & v & f & ps & q & -> & C & T).
  destruct (acquire_tickslock_ok t h initlock cr v f _ _ _ _ C) as (h1 & E1 & C1).
  eexists. split; [exact E1|]. by do 7 eexists.
Qed.

Lemma tks_release b i s : tks b i s -> exists s', release_tickslock s = Ok tt s' /\ usr b i s'.
Proof.
  intros (t & h & cr & v & f & ps & q & -> & C & T).
  destruct (release_tickslock_ok t h initlock cr v f _ _ _ _ C) as (h1 & E1 & C1); [done|].
  eexists. split; [exact E1|]. by do 8 eexists.
Qed.

Lemma tks_curproc b i s : tks b i s -> exists s', curproc s = Ok i s' /\ tks b i s'.
Proof.
  intros (t & h & cr & v & f & ps & q & -> & C & T).
  destruct (curproc_ok t h initlock (held me) cr v f _ _ _ _ C) as (h1 & E1 & C1).
  eexists. split; [exact E1|]. by do 7 eexists.
Qed.

Lemma tks_upd b i s g : tks b i s -> harmless g -> exists s', lt (upd i g) s = Ok tt s' /\ tks b i s'.
Proof.
  intros (t & h & cr & v & f & ps & q & -> & C & T) Hg.
  destruct (running_slot _ _ _ _ _ T) as (bi & Hb & _).
  destruct (table_harmless _ _ _ _ _ _ _ _ T Hb Hg) as (t' & E' & T' & _).
  eexists. split; [by apply lt_Ok|]. by do 7 eexists.
Qed.

Lemma tks_get b i s : tks b i s -> exists p, lt (get_proc i) s = Ok p s.
Proof.
  intros (t & h & cr & v & f & ps & q & -> & C & T).
  destruct (running_slot _ _ _ _ _ T) as (bi & Hb & _).
  destruct (rep_get _ _ _ _ _ (to_rep _ _ _ _ _ T) Hb) as (p & E & <-). exists p. by apply lt_Ok.
Qed.

Lemma sys_sleep_ok b i s n : usr b i s -> hoare (sys_sleep n) s (after i) (fun _ => False).
Proof.
  intros U. unfold sys_sleep.
  destruct (usr_acquire_ticks _ _ _ U) as (s1 & E1 & K1). eapply hoare_step; [exact E1|]. clear E1 U.
  eapply hoare_step; [reflexivity|].
  destruct (tks_curproc _ _ _ K1) as (s2 & E2 & K2). eapply hoare_step; [exact E2|]. clear E2.
  destruct (tks_upd _ _ _ (on_acc (set_sleepdeadline (u32 (n + ticks (s_tab s1))))) K2) as (s3 & E3 & K3); [harm|].
  eapply hoare_step; [exact E3|]. clear E3 K1 K2.
  destruct (tks_curproc _ _ _ K3) as (s4 & E4 & K4). eapply hoare_step; [exact E4|]. clear E4.
  destruct (tks_upd _ _ _ (on_acc (set_activesleepticks n)) K4) as (s5 & E5 & K5); [harm|].
  eapply hoare_step; [exact E5|]. clear E5 K3 K4.
  destruct (tks_curproc _ _ _ K5) as (s6 & E6 & K6). eapply hoare_step; [exact E6|]. clear E6.
  destruct (tks_upd _ _ _ (on_acc (set_activeticks 0)) K6) as (s7 & E7 & K7); [harm|].
  eapply hoare_step; [exact E7|]. clear E7 K5 K6.
  destruct (tks_curproc _ _ _ K7) as (s8 & E8 & K8). eapply hoare_step; [exact E8|]. clear E8 K7.
  destruct (tks_get _ _ _ K8) as (p & Ep). eapply hoare_step; [exact Ep|].
  destruct (negb (killed p =? 0)).
  - destruct (tks_release _ _ _ K8) as (s9 & E9 & U9). eapply hoare_step; [exact E9|].
    apply hoare_ret. by exists b.
  - destruct K8 as (t & h & cr & v & f & ps & q & -> & C & T). unfold sleep. apply hoare_assoc.
    destruct (my_proc_ok t h initlock (held me) cr v f _ _ _ _ C) as (h1 & E1 & C1).
    eapply hoare_step; [exact E1|]. rewrite bool_decide_false by done.
    destruct (acquire_ptable_ok t h1 (held me) cr v f _ _ _ _ C1) as (h2 & E2 & C2). cbn in C2.
    destruct (release_tickslock_ok t h2 (held me) cr v f _ _ _ _ C2) as (h3 & E3 & C3); [done|]. cbn in C3.
    eapply hoare_bind.
    + eapply hoare_step; [|by eapply sleep_core]. mstep E2. exact E3.
    + intros [] s' Hs. by apply hoare_ret.
Qed.

Lemma sys_uptime_ok b i s : usr b i s -> hoare sys_uptime s (fun _ => mid i) (fun _ => False).
Proof.
  intros U. unfold sys_uptime.
  destruct (usr_acquire_ticks _ _ _ U) as (s1 & E1 & K1). eapply hoare_step; [exact E1|].
  eapply hoare_step; [reflexivity|]. destruct (tks_release _ _ _ K1) as (s2 & E2 & U2).
  destruct s1. eapply hoare_step; [exact E2|]. apply hoare_ret. by exists b.
Qed.

Lemma usr_curproc b i s : usr b i s -> exists s', curproc s = Ok i s' /\ usr b i s'.
Proof.
  intros (t & h & ia & cr & v & f & ps & q & -> & C & T).
  destruct (curproc_ok t h initlock initlock cr v f _ _ _ _ C) as (h1 & E1 & C1).
  eexists. split; [exact E1|]. by do 8 eexists.
Qed.

Lemma sys_getpid_ok b i s : usr b i s -> hoare sys_getpid s (fun _ => mid i) (fun _ => False).
Proof.
  intros U. unfold sys_getpid. destruct (usr_curproc _ _ _ U) as (s1 & E1 & U1).
  eapply hoare_step; [exact E1|]. destruct (usr_get _ _ _ U1) as (p & Ep & _).
  eapply hoare_step; [exact Ep|]. apply hoare_ret. by exists b.
Qed.

(** ** fork2 *)

(** Slot [j] is being set up. *)
Definition embryo (b : bool) (i j : nat) (s : sst V) : Prop :=
  exists t h ia cr v f ps q c, s = SSt t h initlock initlock cr v f /\
    cpu_is me h 0 b ia (Some i) /\ table_ok t ps q (Some i) None /\
    ps !! j = Some c /\ state c = EMBRYO.

Lemma embryo_usr b i j s : embryo b i j s -> usr b i s.
Proof. intros (t & h & ia & cr & v & f & ps & q & c & -> & C & T & _). by do 8 eexists. Qed.

Lemma embryo_slot b i j s : embryo b i j s -> exists p, lt (get_proc j) s = Ok p s /\ state p = EMBRYO.
Proof.
  intros (t & h & ia & cr & v & f & ps & q & c & -> & C & T & Hc & Sc).
  destruct (rep_get _ _ _ _ _ (to_rep _ _ _ _ _ T) Hc) as (p & E & <-). exists p. split; [by apply lt_Ok|done].
Qed.

(** Filling in the slot: any update that keeps the state, the pid and the size of
    the file table. *)
Definition fills (g : proc -> proc) : Prop :=
  keeps_next g /\ forall p, state (g p) = state p /\ pid (g p) = pid p /\ killed (g p) = killed p /\
    (length (i_ofile (img p)) = NOFILE -> length (i_ofile (img (g p))) = NOFILE) /\
    timeslice (acc (g p)) = timeslice (acc p).

Lemma embryo_upd b i j s g :
  embryo b i j s -> fills g ->
  exists s', lt (upd j g) s = Ok tt s' /\ embryo b i j s' /\
    forall p, lt (get_proc j) s = Ok p s -> lt (get_proc j) s' = Ok (g p) s'.
Proof.
  intros (t & h & ia & cr & v & f & ps & q & c & -> & C & T & Hc & Sc) [Hg Hf].
  destruct (Hf c) as (F1 & F2 & F3 & F4 & F5). pose proof (to_slot _ _ _ _ _ T j c Hc) as (S1 & _).
  destruct (table_upd t ps q (Some i) None j c g T Hc Hg) as (t' & E & T' & _);
    [done|done|congruence|by apply F4|done|by right; right|by left|].
  eexists. split; [by apply lt_Ok|]. split.
  - do 9 eexists. split; [done|]. split; [exact C|]. split; [exact T'|].
    rewrite list_lookup_insert_eq by (by eapply lookup_lt_Some). split; [done|congruence].
  - intros p Ep. unfold upd in E. unfold lt, zoom, get_proc in Ep |- *. cbn in *.
    destruct (procs t !! j) as [p'|] eqn:Hp; [|done]. injection Ep as ->. injection E as <-. cbn.
    by rewrite list_lookup_insert_eq by (by eapply lookup_lt_Some).
Qed.

Ltac fil := split; [intro; split; reflexivity|]; intros []; split_and!; cbn; auto.

Lemma embryo_svc {A} b i j s (g : V -> A * V) :
  embryo b i j s -> exists a s', svc g s = Ok a s' /\ embryo b i j s' /\ s_tab s' = s_tab s.
Proof.
  intros (t & h & ia & cr & v & f & ps & q & c & -> & C & T & Hc & Sc).
  do 2 eexists. split; [reflexivity|]. split; [|done]. by do 9 eexists.
Qed.

Lemma embryo_svc_do b i j s g :
  embryo b i j s -> exists s', svc_do g s = Ok tt s' /\ embryo b i j s' /\ s_tab s' = s_tab s.
Proof.
  intros (t & h & ia & cr & v & f & ps & q & c & -> & C & T & Hc & Sc).
  eexists. split; [reflexivity|]. split; [|done]. by do 9 eexists.
Qed.

(** Giving the slot up. *)
Lemma embryo_free b i j s :
  embryo b i j s -> exists s', lt (upd j (set_state UNUSED)) s = Ok tt s' /\ usr b i s'.
Proof.
  intros (t & h & ia & cr & v & f & ps & q & c & -> & C & T & Hc & Sc).
  destruct (rep_upd t ps q j c (set_state UNUSED) (to_rep _ _ _ _ _ T) Hc) as (t' & E & R & S); [kn|].
  eexists. split; [by apply lt_Ok|]. do 8 eexists. split; [done|]. split; [exact C|].
  destruct S as (Sn & _). pose proof (to_slot _ _ _ _ _ T j c Hc) as (P1 & P2 & P3). rewrite Sc in P3.
  apply (table_change t t' ps q q (Some i) (Some i) None None j c); try eassumption; auto; try lia; try done; try (by left); try (cbn; intros; congruence).
  intros k Hk. destruct (to_run _ _ _ _ _ T k Hk) as (A & d & Hd & Sd). split; [done|].
  rewrite list_lookup_insert_ne; [by exists d|]. intros <-. congruence.
Qed.

Lemma allocproc_ok b i s :
  usr b i s -> nextpid (s_tab s) < 2 ^ 31 - 1 ->
  exists r s', allocproc s = Ok r s' /\
    match r with
    | None => usr b i s'
    | Some j => embryo b i j s' /\ exists p, lt (get_proc j) s' = Ok p s' /\
        i_kstack (img p) <> 0 /\ k_point (ctx p) = KForkret
    end.
Proof.
  intros U Hnp. unfold allocproc.
  destruct (usr_acquire _ _ _ U) as (s1 & E1 & P1).
  assert (s_tab s1 = s_tab s) as Et.
  { destruct U as (t & h & ia & cr & v & f & ps & q & -> & C & T).
    destruct (acquire_ptable_ok t h initlock cr v f _ _ _ _ C) as (h1 & E1' & _).
    rewrite E1' in E1. by injection E1 as <-. }
  mstep E1. clear E1 U. destruct (pt_find _ _ _ (is_state UNUSED) P1) as (r & E2 & Hr). mstep E2.
  destruct r as [j|].
  2:{ destruct (pt_release _ _ _ P1) as (s2 & E3 & U2 & _). mstep E3. by exists None, s2. }
  destruct (Hr j eq_refl) as (p & Hp & Sp%bool_decide_eq_true). clear Hr E2.
  rewrite Et in *. destruct P1 as (t & h & cr & v & f & ps & q & -> & C & T). cbn in Et. subst t.
  destruct s as [t h0 lk0 tk0 cr0 v0 f0]. cbn [s_tab] in *. clear h0 lk0 tk0 cr0 v0 f0.
  assert (ps !! j = Some (bare p)) as Hb.
  { destruct (to_rep _ _ _ _ _ T) as [_ <-]. by apply tview_lookup. }
  pose proof (lookup_lt_Some _ _ _ Hb) as Hlt. pose proof (to_rep _ _ _ _ _ T) as R.
  destruct (rep_upd t ps q j _ (set_state EMBRYO) R Hb) as (t1 & E1 & R1 & S1); [kn|].
  destruct (rep_upd t1 _ q j _ (set_pid (nextpid t1)) R1 (list_lookup_insert_eq _ _ _ Hlt)) as (t2 & E2 & R2 & S2); [kn|].
  rewrite list_insert_insert_eq in R2.
  assert (nextpid t1 = nextpid t) as En1 by apply S1.
  set (t3 := set_nextpid (s32 (nextpid t1 + 1)) t2).
  assert (rep t3 (<[j:=set_pid (nextpid t1) (set_state EMBRYO (bare p))]> ps) q) as R3.
  { destruct R2 as [[Q1 Q2 Q3 Q4 Q5] V2]. split; [by split|exact V2]. }
  destruct (rep_upd t3 _ q j _ (on_acc (fun a => Acct (timeslice a) 0 0 0 0 0 0 0)) R3 (list_lookup_insert_eq _ _ _ Hlt))
    as (t4 & E4 & R4 & S4); [kn|].
  rewrite list_insert_insert_eq in R4.
  assert (s32 (nextpid t1 + 1) = nextpid t + 1) as Es.
  { pose proof (to_np _ _ _ _ _ T). rewrite En1, s32_small by lia. done. }
  assert (nextpid t4 = nextpid t + 1) as En4 by (rewrite <- Es; apply S4).
  mstep lt_Ok.
  2:{ mstep E1. mgo. mstep E2. mgo. exact E4. }
  set (b4 := on_acc _ _) in R4.
  assert (table_ok t4 (<[j := b4]> ps) q (Some i) None) as T4.
  { pose proof (to_slot _ _ _ _ _ T j _ Hb) as (P1 & P2 & P3). cbn in P3. rewrite Sp in P3.
    apply (table_change t t4 ps q q (Some i) (Some i) None None j (bare p)); try eassumption; auto; try lia; try done; try (by left); try (cbn; intros; congruence).
    - rewrite En4. split; [done|]. split; [|done]. intros _. cbn. rewrite En1.
      pose proof (to_np _ _ _ _ _ T). lia.
    - intros _. right. intros k c Hc Sc. cbn. rewrite En1.
      pose proof (to_slot _ _ _ _ _ T k c Hc) as (_ & B & _). specialize (B Sc). lia.
    - intros k Hk. destruct (to_run _ _ _ _ _ T k Hk) as (A & c & Hc & Sc). split; [done|].
      rewrite list_lookup_insert_ne; [by exists c|]. intros <-. rewrite Hb in Hc. injection Hc as <-.
      cbn in Sc. congruence. }
  destruct (release_ptable_ok t4 h initlock cr v f _ _ _ _ C) as (h5 & E5 & C5); [done|]. mstep E5.
  assert (embryo b i j (SSt t4 h5 initlock initlock cr v f)) as M5.
  { do 9 eexists. split; [done|]. split; [exact C5|]. split; [exact T4|].
    by rewrite list_lookup_insert_eq. }
  revert M5. generalize (SSt t4 h5 initlock initlock cr v f). intros s5 M5.
  destruct (embryo_svc _ _ _ _ svc_kalloc M5) as (k & s6 & E6 & M6 & _). mstep E6.
  destruct (embryo_upd _ _ _ _ (on_img (set_kstack k)) M6) as (s7 & E7 & M7 & G7); [fil|]. mstep E7.
  destruct (Z.eqb_spec k 0) as [->|Hk].
  - destruct (embryo_free _ _ _ _ M7) as (s8 & E8 & U8). mstep E8. by exists None, s8.
  - destruct (embryo_upd _ _ _ _ (set_ctx (Kont KForkret false)) M7) as (s8 & E8 & M8 & G8); [fil|]. mstep E8.
    exists (Some j), s8. split; [done|]. split; [done|].
    destruct (embryo_slot _ _ _ _ M6) as (p6 & Ep6 & _).
    eexists. split; [by apply G8, G7, Ep6|]. done.
Qed.

Lemma fork_files_ok b i j n : forall s fd,
  embryo b i j s -> (fd + n = NOFILE)%nat ->
  exists s', fork_files i j fd n s = Ok tt s' /\ embryo b i j s' /\
    forall p, lt (get_proc j) s = Ok p s -> exists p', lt (get_proc j) s' = Ok p' s' /\
      i_kstack (img p') = i_kstack (img p) /\ i_pgdir (img p') = i_pgdir (img p) /\ ctx p' = ctx p.
Proof.
  induction n as [|n IH]; intros s fd M Hn; cbn [fork_files].
  { exists s. split_and!; [done|done|]. intros p Ep. by exists p. }
  destruct (usr_get _ _ _ (embryo_usr _ _ _ _ M)) as (p & E & _ & Lo & _). mstep E.
  destruct (lookup_lt_is_Some_2 (i_ofile (img p)) fd) as [x Hx]; [lia|]. rewrite Hx. mgo.
  destruct (x =? 0); cbn [negb]; mgo.
  - apply IH; [done|lia].
  - destruct (embryo_svc _ _ _ _ (svc_filedup x) M) as (y & s1 & E1 & M1 & Et). mstep E1.
    destruct (embryo_upd _ _ _ _ (on_img (fun m => set_ofile (<[fd := y]> (i_ofile m)) m)) M1) as (s2 & E2 & M2 & G2).
    { fil. by rewrite length_insert. }
    mstep E2. destruct (IH s2 (S fd) M2) as (s3 & E3 & M3 & G3); [lia|].
    exists s3. split_and!; [done|done|]. intros p0 Ep0.
    assert (lt (get_proc j) s1 = Ok p0 s1) as Ep1.
    { revert Ep0. unfold lt, zoom, get_proc. rewrite Et. destruct (procs (s_tab s) !! j); [|done].
      intros [= ->]. destruct s1. cbn in *. by subst. }
    destruct (G3 _ (G2 _ Ep1)) as (p3 & Ep3 & A & B & D). by exists p3.
Qed.

(** The child becomes runnable and joins the queue. *)
Lemma embryo_start b i j s slice p :
  embryo b i j s -> lt (get_proc j) s = Ok p s -> 1 <= slice < 2 ^ 31 ->
  i_kstack (img p) <> 0 -> i_pgdir (img p) <> 0 -> k_point (ctx p) = KForkret ->
  forall x : Z, hoare (acquire_ptable;;
    lt (upd j (set_state RUNNABLE);; upd j (on_acc (set_timeslice slice));; push (Some j));;
    release_ptable;; mret x) s (fun r s' => r = x /\ mid i s') (fun _ => False).
Proof.
  intros (t & h & ia & cr & v & f & ps & q & c & -> & C & T & Hc & Sc) Ep Hsl Hk Hd Hp x.
  destruct (rep_get _ _ _ _ _ (to_rep _ _ _ _ _ T) Hc) as (p' & Ep' & Ebp).
  assert (p' = p) as ->.
  { pose proof (lt_Ok _ _ _ _ h initlock initlock cr v f Ep') as E. rewrite E in Ep. by injection Ep. }
  pose proof (lookup_lt_Some _ _ _ Hc) as Hlt.
  destruct (acquire_ptable_ok t h initlock cr v f _ _ _ _ C) as (h1 & E1 & C1). eapply hoare_step; [exact E1|].
  destruct (rep_upd t ps q j c (set_state RUNNABLE) (to_rep _ _ _ _ _ T) Hc) as (t2 & E2 & R2 & S2); [kn|].
  destruct (rep_upd t2 _ q j _ (on_acc (set_timeslice slice)) R2 (list_lookup_insert_eq _ _ _ Hlt))
    as (t3 & E3 & R3 & S3); [kn|]. rewrite list_insert_insert_eq in R3.
  pose proof (to_slot _ _ _ _ _ T j c Hc) as (P1 & P2 & P3). rewrite Sc in P2, P3.
  destruct (rep_push t3 _ q j R3 P3) as (t4 & E4 & R4 & S4); [by rewrite length_insert|].
  eapply hoare_step; [apply lt_Ok; mstep E2; mstep E3; exact E4|].
  destruct (release_ptable_ok t4 h1 initlock cr v f _ _ _ _ C1) as (h5 & E5 & C5); [done|].
  eapply hoare_step; [exact E5|]. apply hoare_ret. split; [done|]. exists b.
  do 8 eexists. split; [done|]. cbn in C5. split; [exact C5|].
  assert (same_rest t t4) as (Sn & _ & _) by (repeat (eapply same_rest_trans; [eassumption|]); done).
  assert (hd_error (q ++ [j]) = hd_error q) as Ehd.
  { destruct (running_slot _ _ _ _ _ T) as (_ & _ & _ & _ & _ & Hh & _). by destruct q. }
  apply (table_change t t4 ps q (q ++ [j]) (Some i) (Some i) None None j c); try eassumption; auto; try lia; try done; try (by left); try (cbn; intros; congruence).
  - intros k Hk'. rewrite elem_of_app, list_elem_of_singleton. split; [by intros [|]|by left].
  - rewrite Sn. split; [done|]. split; [intros _; by apply P2|]. cbn. subst c. cbn in *. rewrite Hp.
    split; [|by split_and!]. intros _. rewrite elem_of_app. right. by left.
  - right. unfold int32. cbn. lia.
  - intros _. left. by rewrite Sc.
  - intros k Hk'. destruct (to_run _ _ _ _ _ T k Hk') as (A & d & Hd' & Sd). split; [by rewrite Ehd|].
    rewrite list_lookup_insert_ne; [by exists d|]. intros <-. congruence.
Qed.

Lemma lt_get_tab (s s' : sst V) j p :
  s_tab s' = s_tab s -> lt (get_proc j) s = Ok p s -> lt (get_proc j) s' = Ok p s'.
Proof.
  intros Et. unfold lt, zoom, get_proc. rewrite Et. destruct (procs (s_tab s) !! j); [|done].
  intros [= ->]. destruct s'. cbn in *. by subst.
Qed.

Lemma fork2_ok b i s slice :
  usr b i s -> nextpid (s_tab s) < 2 ^ 31 - 1 -> int32 slice ->
  hoare (fork2 slice) s (fun _ => mid i) (fun _ => False).
Proof.
  intros U Hnp Hsl. unfold fork2.
  assert (exists s1, my_proc s = Ok (Some i) s1 /\ usr b i s1 /\ s_tab s1 = s_tab s) as (s1 & E1 & U1 & Et).
  { destruct U as (t & h & ia & cr & v & f & ps & q & -> & C & T).
    destruct (my_proc_ok t h initlock initlock cr v f _ _ _ _ C) as (h' & E & C').
    eexists. split; [exact E|]. split; [|done]. by do 9 eexists. }
  eapply hoare_step; [exact E1|]. clear E1 U. rewrite <- Et in Hnp. clear Et s.
  destruct (Z.ltb_spec slice 1) as [|Hge]; [by apply hoare_ret; exists b|].
  destruct (allocproc_ok _ _ _ U1 Hnp) as (r & s2 & E2 & A). eapply hoare_step; [exact E2|]. clear E2 U1 Hnp s1.
  destruct r as [j|]; [|by apply hoare_ret; exists b]. destruct A as (M2 & p2 & Ep2 & Hk & Hc).
  eapply hoare_step; [reflexivity|].
  destruct (usr_get _ _ _ (embryo_usr _ _ _ _ M2)) as (c & Ec & _). eapply hoare_step; [exact Ec|]. clear Ec.
  destruct (embryo_svc _ _ _ _ (svc_copyuvm (i_pgdir (img c)) (i_sz (img c))) M2) as (d & s3 & E3 & M3 & Et).
  eapply hoare_step; [exact E3|]. clear E3. pose proof (lt_get_tab _ _ _ _ Et Ep2) as Ep3.
  destruct (embryo_upd _ _ _ _ (on_img (set_pgdir d)) M3) as (s4 & E4 & M4 & G4); [fil|].
  eapply hoare_step; [exact E4|]. apply G4 in Ep3. clear G4 E4 Et Ep2.
  destruct (Z.eqb_spec d 0) as [->|Hd].
  - eapply hoare_step; [exact Ep3|]. cbv beta.
    destruct (embryo_svc_do _ _ _ _ (svc_kfree (i_kstack (img (on_img (set_pgdir 0) p2)))) M4) as (s5 & E5 & M5 & _).
    eapply hoare_step; [exact E5|].
    destruct (embryo_upd _ _ _ _ (on_img (set_kstack 0)) M5) as (s6 & E6 & M6 & _); [fil|].
    eapply hoare_step; [exact E6|].
    destruct (embryo_free _ _ _ _ M6) as (s7 & E7 & U7). eapply hoare_step; [exact E7|].
    apply hoare_ret. by exists b.
  - destruct (embryo_upd _ _ _ _ (on_img (set_sz (i_sz (img c)))) M4) as (s5 & E5 & M5 & G5); [fil|].
    eapply hoare_step; [exact E5|]. apply G5 in Ep3. clear G5 E5 M4.
    destruct (embryo_upd _ _ _ _ (set_parent (Some i)) M5) as (s6 & E6 & M6 & G6); [fil|].
    eapply hoare_step; [exact E6|]. apply G6 in Ep3. clear G6 E6 M5.
    destruct (embryo_upd _ _ _ _ (on_img (set_tf (i_tf (img c)))) M6) as (s7 & E7 & M7 & G7); [fil|].
    eapply hoare_step; [exact E7|]. apply G7 in Ep3. clear G7 E7 M6.
    destruct (embryo_upd _ _ _ _ (on_img (fun m => set_tf (Trapframe 0 (tf_regs (i_tf m))) m)) M7) as (s8 & E8 & M8 & G8); [fil|].
    eapply hoare_step; [exact E8|]. apply G8 in Ep3. clear G8 E8 M7.
    destruct (fork_files_ok b i j NOFILE s8 0 M8) as (s9 & E9 & M9 & G9); [done|].
    eapply hoare_step; [exact E9|]. destruct (G9 _ Ep3) as (p9 & Ep9 & A1 & A2 & A3). clear G9 E9 M8 Ep3.
    destruct (embryo_svc _ _ _ _ (svc_idup (i_cwd (img c))) M9) as (w & s10 & E10 & M10 & Et).
    eapply hoare_step; [exact E10|]. pose proof (lt_get_tab _ _ _ _ Et Ep9) as Ep10. clear E10 Et M9 Ep9.
    destruct (embryo_upd _ _ _ _ (on_img (set_cwd w)) M10) as (s11 & E11 & M11 & G11); [fil|].
    eapply hoare_step; [exact E11|]. apply G11 in Ep10. clear G11 E11 M10.
    destruct (embryo_upd _ _ _ _ (on_img (set_name (proc_name (i_name (img c))))) M11) as (s12 & E12 & M12 & G12); [fil|].
    eapply hoare_step; [exact E12|]. apply G12 in Ep10. clear G12 E12 M11.
    eapply hoare_step; [exact Ep10|].
    eapply hoare_weaken; [eapply embryo_start; [exact M12|exact Ep10|unfold int32 in Hsl; lia|..]| |done].
    + cbn. by rewrite A1.
    + cbn. by rewrite A2.
    + cbn. by rewrite A3.
    + intros x s' [_ Hm]. exact Hm.
Qed.

(** ** fork *)

(** [fork] asks for the slice of the running process: it is found. *)
Lemma getslice_self b i s p :
  usr b i s -> procs (s_tab s) !! i = Some p -> 0 <= pid p ->
  hoare (getslice (pid p)) s (fun r s' => int32 r /\ usr b i s' /\ s_tab s' = s_tab s) (fun _ => False).
Proof.
  intros U Hp Hpid. unfold getslice. rewrite (proj2 (Z.ltb_ge _ _)) by lia.
  destruct U as (t & h & ia & cr & v & f & ps & q & -> & C & T). cbn in Hp.
  destruct (acquire_ptable_ok t h initlock cr v f _ _ _ _ C) as (h1 & E1 & C1).
  eapply hoare_step; [exact E1|]. eapply hoare_step; [by apply lt_Ok|].
  destruct (scan (fun p0 => pid p0 =? pid p) (procs t) 0) as [j|] eqn:Esc.
  2:{ exfalso. pose proof (scan_None _ _ _ Esc p (list_elem_of_lookup_2 _ _ _ Hp)) as Hf. cbv beta in Hf.
      by rewrite Z.eqb_refl in Hf. }
  apply scan_Some in Esc as (_ & p' & Hp' & _). rewrite Nat.sub_0_r in Hp'.
  destruct (release_ptable_ok t h1 initlock cr v f _ _ _ _ C1) as (h2 & E2 & C2); [done|].
  eapply hoare_step; [exact E2|]. eapply hoare_step; [by apply lt_Ok, get_proc_ok|]. apply hoare_ret.
  split; [|split; [|done]].
  - pose proof (tview_lookup _ _ _ Hp') as Hv. destruct (to_rep _ _ _ _ _ T) as [_ Ev]. rewrite Ev in Hv.
    apply (to_int _ _ _ _ _ T j _ Hv).
  - by do 8 eexists.
Qed.

Lemma fork_ok b i s :
  usr b i s -> nextpid (s_tab s) < 2 ^ 31 - 1 -> hoare fork s (fun _ => mid i) (fun _ => False).
Proof.
  intros U Hnp. unfold fork.
  assert (exists s1, curproc s = Ok i s1 /\ usr b i s1 /\ s_tab s1 = s_tab s) as (s1 & E1 & U1 & Et).
  { destruct U as (t & h & ia & cr & v & f & ps & q & -> & C & T).
    destruct (curproc_ok t h initlock initlock cr v f _ _ _ _ C) as (h' & E & C').
    eexists. split; [exact E|]. split; [|done]. by do 9 eexists. }
  eapply hoare_step; [exact E1|].
  assert (exists p, procs (s_tab s1) !! i = Some p /\ 0 <= pid p) as (p & Hp & Hpid).
  { destruct U1 as (t & h & ia & cr & v & f & ps & q & -> & C & T).
    destruct (running_slot _ _ _ _ _ T) as (c & Hc & Sc & _).
    destruct (rep_lookup _ _ _ _ _ (to_rep _ _ _ _ _ T) Hc) as (p & Hp & <-). exists p. split; [done|].
    pose proof (to_slot _ _ _ _ _ T i _ Hc) as (_ & B & _). cbn in B, Sc. rewrite Sc in B.
    specialize (B ltac:(done)). lia. }
  eapply hoare_step; [by apply lt_get|].
  eapply hoare_bind; [by eapply getslice_self|]. intros r s2 (Hr & U2 & Et2). cbv beta.
  eapply fork2_ok; [done| |done]. by rewrite Et2, Et.
Qed.

(** ** Traps *)

(** The panics that can happen: init exits, and [getslice] on an unknown pid. *)
Definition known_panic (c : call) (e : string) : Prop :=
  init_exits e \/ (e = "acquire" /\ exists n, c = CGetslice n).

Lemma done_ok (m : M (sst V) Z) s i E E' :
  hoare m s (fun _ => mid i) E -> (forall e, E e -> E' e) -> hoare (done m) s (after i) E'.
Proof.
  intros Hm HE. unfold done. eapply hoare_bind; [eapply hoare_weaken; [exact Hm| |exact HE]; intros a s' Ha; exact Ha|].
  intros a s' Ha. by apply hoare_ret.
Qed.

Lemma run_call_ok c b i s :
  usr b i s -> call_ok c s -> hoare (run_call c) s (after i) (known_panic c).
Proof.
  intros U Hc. destruct c; cbn [run_call]; cbn in Hc.
  - eapply done_ok; [by eapply fork2_ok; [exact U|apply Hc|apply Hc]|done].
  - eapply done_ok; [by eapply fork_ok|done].
  - eapply done_ok; [by eapply setslice_ok|done].
  - eapply done_ok; [by eapply getslice_ok|]. intros e ->. right. eauto.
  - eapply hoare_bind; [eapply hoare_weaken; [by eapply (getpinfo_ok _ _ _ null)|intros a s' Ha; exact Ha|done]|].
    intros a s' Ha. by apply hoare_ret.
  - eapply done_ok; [by eapply kill_ok|done].
  - destruct (wakeup_ok _ _ _ ch U) as (s1 & E1 & U1). eapply hoare_step; [exact E1|]. apply hoare_ret. by exists b.
  - eapply hoare_weaken; [by eapply sys_sleep_ok|done|done].
  - eapply done_ok; [by eapply sys_uptime_ok|done].
  - eapply done_ok; [by eapply sys_getpid_ok|done].
  - eapply hoare_weaken; [by eapply wait_ok|done|done].
  - eapply hoare_bind; [eapply hoare_weaken; [by eapply exit_ok|intros a s' Ha; exact Ha|by left]|].
    intros [] s' Ha. by apply hoare_ret.
Qed.

Definition after_user (i : nat) (r : ret) (s : sst V) : Prop :=
  match r with Done _ => usr true i s | Switched => at_kern s end.

Lemma exit_if_killed_ok b i s k Q (E : string -> Prop) :
  usr b i s -> (forall e, init_exits e -> E e) -> (forall s', at_kern s' -> Q Switched s') ->
  (forall s', usr b i s' -> hoare k s' Q E) -> hoare (exit_if_killed k) s Q E.
Proof.
  intros U HE HQ Hk. unfold exit_if_killed.
  destruct (usr_my_proc _ _ _ U) as (s1 & E1 & U1). eapply hoare_step; [exact E1|].
  destruct (usr_get _ _ _ U1) as (p & Ep & _). eapply hoare_step; [exact Ep|].
  destruct (negb (killed p =? 0)); [|by apply Hk].
  eapply hoare_bind; [eapply hoare_weaken; [by eapply exit_ok|intros a s' Ha; exact Ha|done]|].
  intros [] s' Ha. apply hoare_ret. by apply HQ.
Qed.

Lemma iret_ok b i s : usr b i s -> exists s', iret s = Ok tt s' /\ usr true i s'.
Proof.
  intros (t & h & ia & cr & v & f & ps & q & -> & C & T). eexists. split; [reflexivity|].
  do 8 eexists. split; [done|]. split; [by eapply cpu_set_IF|done].
Qed.

Lemma irq_ok b i s : usr b i s -> exists s', irq_entry s = Ok tt s' /\ usr false i s'.
Proof.
  intros (t & h & ia & cr & v & f & ps & q & -> & C & T). eexists. split; [reflexivity|].
  do 8 eexists. split; [done|]. split; [by eapply cpu_set_IF|done].
Qed.

Lemma killed_then_iret b i s x (E : string -> Prop) :
  usr b i s -> (forall e, init_exits e -> E e) ->
  hoare (exit_if_killed (iret;; mret (Done x))) s (after_user i) E.
Proof.
  intros U HE. eapply exit_if_killed_ok; [exact U|done|done|].
  intros s' U'. destruct (iret_ok _ _ _ U') as (s1 & E1 & U1). eapply hoare_step; [exact E1|]. by apply hoare_ret.
Qed.

Lemma trap_syscall_ok c i s :
  usr true i s -> call_ok c s -> hoare (trap_syscall c) s (after_user i) (known_panic c).
Proof.
  intros U Hc. unfold trap_syscall.
  assert (forall s' : sst V, s_tab s' = s_tab s -> call_ok c s') as Hc'.
  { intros s' Et. destruct c; cbn in *; by rewrite ?Et. }
  unfold exit_if_killed at 1.
  assert (exists s1, my_proc s = Ok (Some i) s1 /\ usr true i s1 /\ s_tab s1 = s_tab s) as (s1 & E1 & U1 & Et).
  { destruct U as (t & h & ia & cr & v & f & ps & q & -> & C & T).
    destruct (my_proc_ok t h initlock initlock cr v f _ _ _ _ C) as (h' & E & C').
    eexists. split; [exact E|]. split; [|done]. by do 9 eexists. }
  eapply hoare_step; [exact E1|].
  destruct (usr_get _ _ _ U1) as (p & Ep & _). eapply hoare_step; [exact Ep|].
  destruct (negb (killed p =? 0)).
  - eapply hoare_bind; [eapply hoare_weaken; [by eapply exit_ok|intros a s' Ha; exact Ha|by left]|].
    intros [] s' Ha. by apply hoare_ret.
  - eapply hoare_bind; [eapply run_call_ok; [exact U1|by apply Hc']|].
    intros [x|] s' Ha; [|by apply hoare_ret]. destruct Ha as [b Ha]. eapply killed_then_iret; [exact Ha|by left].
Qed.

(** [timer_tick] from any state with the locks free. *)
Lemma timer_tick_ok t h ia cp cr v f ps q run :
  cpu_is me h 0 false ia cp -> table_ok t ps q run None ->
  exists t' h' ia' ps' q', timer_tick (SSt t h initlock initlock cr v f) = Ok tt (SSt t' h' initlock initlock cr v f) /\
    cpu_is me h' 0 false ia' cp /\ table_ok t' ps' q' run None.
Proof.
  intros C T. unfold timer_tick. mstep lh_Ok; [|by eapply mycpu_at].
  destruct (bool_decide (me = 0%nat)); [|by exists t, h, ia, ps, q].
  destruct (acquire_tickslock_ok t h initlock cr v f _ _ _ _ C) as (h1 & E1 & C1). mstep E1. cbn in C1.
  set (t1 := set_ticks (u32 (ticks t + 1)) t).
  assert (table_ok t1 ps q run None) as T1.
  { destruct T as [[[Q1 Q2 Q3 Q4 Q5] V2] T2 T3 T4 T5 T6 T7 T8]. split; auto. split; [by split|done]. }
  mstep lt_Ok; [|reflexivity]. fold t1. unfold wakeup. rewrite !bind_assoc.
  destruct (acquire_ptable_ok t1 h1 (held me) cr v f _ _ _ _ C1) as (h2 & E2 & C2). mstep E2. cbn in C2.
  destruct (table_wakeup' TicksChan _ _ _ _ _ T1) as (t3 & ps3 & q3 & E3 & T3 & _).
  mgo. mstep lt_Ok; [|exact E3].
  destruct (release_ptable_ok t3 h2 (held me) cr v f _ _ _ _ C2) as (h4 & E4 & C4); [done|]. mstep E4. cbn in C4.
  destruct (release_tickslock_ok t3 h4 initlock cr v f _ _ _ _ C4) as (h5 & E5 & C5); [done|]. cbn in C5.
  do 5 eexists. split; [exact E5|]. by split.
Qed.

Lemma trap_timer_ok i s : usr true i s -> hoare trap_timer s (after_user i) init_exits.
Proof.
  intros U. unfold trap_timer. destruct (irq_ok _ _ _ U) as (s1 & E1 & U1). eapply hoare_step; [exact E1|].
  destruct U1 as (t & h & ia & cr & v & f & ps & q & -> & C & T).
  destruct (timer_tick_ok _ _ _ _ cr v f _ _ _ C T) as (t2 & h2 & ia2 & ps2 & q2 & E2 & C2 & T2).
  eapply hoare_step; [exact E2|].
  assert (usr false i (SSt t2 h2 initlock initlock cr v f)) as U2 by by do 8 eexists.
  eapply exit_if_killed_ok; [exact U2|done|done|]. intros s3 U3.
  destruct (usr_my_proc _ _ _ U3) as (s4 & E4 & U4). eapply hoare_step; [exact E4|].
  destruct (usr_get _ _ _ U4) as (p & Ep & Sp & _). eapply hoare_step; [exact Ep|].
  assert (is_state RUNNING p = true) as -> by by apply bool_decide_eq_true.
  eapply hoare_bind; [eapply hoare_weaken; [by eapply yield_ok|intros a s' Ha; exact Ha|done]|].
  intros [] s5 Ha. by apply hoare_ret.
Qed.

(** ** The scheduler *)

(** The processes in the queue can run, once an exited head is dropped. *)
Lemma table_runnable t ps q : table_ok t ps q None None -> Forall (runnable_in ps) q.
Proof.
  intros T. apply Forall_forall. intros i Hi.
  destruct (queued_state _ _ _ _ _ i T Hi) as (b & Hb & [Sb|[[_ E]|[_ E]]]); [|done..].
  exists b. split; [done|]. split; [done|].
  pose proof (to_slot _ _ _ _ _ T i b Hb) as (_ & _ & S). rewrite Sb in S. apply S.
Qed.

Lemma tail_not_in t ps i q : rep t ps (i :: q) -> i ∉ q.
Proof. intros R. pose proof (rep_nodup _ _ _ R) as Hn. by apply NoDup_cons in Hn as [Hn _]. Qed.

(** Dropping the zombie that has just exited. *)
Lemma table_drop t t' ps i q run :
  table_ok t ps (i :: q) run (Some i) -> run <> Some i -> rep t' ps q -> same_rest t t' ->
  (forall b, ps !! i = Some b -> state b = ZOMBIE) -> run = None ->
  table_ok t' ps q None None.
Proof.
  intros T _ R (Sn & _) Hz ->. pose proof (tail_not_in _ _ _ _ (to_rep _ _ _ _ _ T)) as Hi.
  split; [done|apply T| |apply T|done|done|rewrite Sn; apply T|apply T|].
  2:{ intros j Hj. destruct (to_lost _ _ _ _ _ T j Hj) as (Hjq & Hb). split; [|done].
      intros Hin. apply Hjq. by right. }
  intros j b Hb. pose proof (to_slot _ _ _ _ _ T j b Hb) as (S1 & S2 & S3). rewrite Sn.
  split; [done|]. split; [done|].
  assert (j <> i -> j ∈ q <-> j ∈ i :: q) as Hq by (intros Hne; rewrite elem_of_cons; tauto).
  destruct (decide (j = i)) as [->|Hne].
  - specialize (Hz b Hb). rewrite Hz. done.
  - specialize (Hq Hne). destruct (state b); rewrite ?Hq; auto.
    intros Hj. specialize (S3 Hj). congruence.
Qed.

(** Rotating the queue and charging the process picked. *)
Lemma end_turn_fields b :
  state (end_turn b) = state b /\ pid (end_turn b) = pid b /\ killed (end_turn b) = killed b /\
  img (end_turn b) = img b /\ ctx (end_turn b) = ctx b /\ timeslice (acc (end_turn b)) = timeslice (acc b).
Proof. done. Qed.

Lemma charge_timeslice a : timeslice (charge a) = timeslice a.
Proof. unfold charge. cbv zeta. case_match; done. Qed.

(** A table whose processes only changed their accounts, with the queue permuted. *)
Definition same_but_acc (b c : proc) : Prop :=
  state c = state b /\ pid c = pid b /\ killed c = killed b /\ img c = img b /\ ctx c = ctx b /\
  timeslice (acc c) = timeslice (acc b).

Lemma table_accounts t t' ps ps' q q' :
  table_ok t ps q None None -> rep t' ps' q' -> same_rest t t' -> q' ≡ₚ q -> length ps' = length ps ->
  (forall i c, ps' !! i = Some c -> exists b, ps !! i = Some b /\ same_but_acc b c) ->
  table_ok t' ps' q' None None.
Proof.
  intros T R (Sn & _) P Hl Hsame. split; [done|by rewrite Hl; apply T| | |done|done|rewrite Sn; apply T| |].
  - intros i c Hc. destruct (Hsame i c Hc) as (b & Hb & E1 & E2 & E3 & E4 & E5 & E6).
    pose proof (to_slot _ _ _ _ _ T i b Hb) as (S1 & S2 & S3).
    unfold slot_ok, live_ok, slice_ok in *. rewrite E1, E2, E3, E4, E5, E6, Sn.
    split; [done|]. split; [done|]. destruct (state b); rewrite ?P; done.
  - intros i j c d Hc Hd. destruct (Hsame i c Hc) as (b & Hb & E1 & E2 & _).
    destruct (Hsame j d Hd) as (b' & Hb' & F1 & F2 & _). rewrite E1, E2, F1, F2. by apply (to_pids _ _ _ _ _ T).
  - intros i c Hc. destruct (Hsame i c Hc) as (b & Hb & E1 & E2 & E3 & E4 & E5 & E6). rewrite E6.
    by apply (to_int _ _ _ _ _ T i).
  - intros i Hi. destruct (to_lost _ _ _ _ _ T i Hi) as (Hiq & b & Hb & Sb). rewrite P. split; [done|].
    destruct (lookup_lt_is_Some_2 ps' i) as [c Hc]; [rewrite Hl; by eapply lookup_lt_Some|].
    exists c. split; [done|]. destruct (Hsame i c Hc) as (b' & Hb' & E1 & _). congruence.
Qed.

Lemma picked_accounts ps q i ps' q' :
  picked ps q i ps' q' -> length ps' = length ps /\
  forall j c, ps' !! j = Some c -> exists b, ps !! j = Some b /\ same_but_acc b c.
Proof.
  assert (forall l j c, upd_in l end_turn ps !! j = Some c -> exists b, ps !! j = Some b /\ same_but_acc b c) as U.
  { intros l j c. rewrite lookup_upd_in. destruct (ps !! j) as [b|]; [|done]. cbn. intros [= <-].
    exists b. split; [done|]. by case_decide. }
  assert (forall b, same_but_acc b (on_acc charge b)) as C.
  { intros b. unfold same_but_acc. split_and!; try done. apply charge_timeslice. }
  intros [pre k post b _ _ Hb _|k post b _ _ Hb];
    (split; [by rewrite length_insert, length_upd_in|]); intros j c;
    (destruct (decide (k = j)) as [<-|Hne]; [|rewrite list_lookup_insert_ne by done; apply U]);
    rewrite list_lookup_insert_eq by (rewrite length_upd_in; by eapply lookup_lt_Some);
    intros [= <-]; exists b; (split; [done|]); first [apply (C b)|apply (C (end_turn b))].
Qed.

Lemma table_no_zombie t ps q z :
  table_ok t ps q None z -> (forall i b, z = Some i -> ps !! i = Some b -> state b <> ZOMBIE) ->
  table_ok t ps q None None.
Proof.
  intros T Hz. split; [apply T|apply T| |apply T|done|done|apply T|apply T|apply T].
  intros i b Hb. pose proof (to_slot _ _ _ _ _ T i b Hb) as (S1 & S2 & S3).
  split; [done|]. split; [done|]. destruct (state b) eqn:Sb; try done.
  intros Hi. by destruct (Hz i b (S3 Hi) Hb).
Qed.

(** The pick from any queue the scheduler finds. *)
Lemma table_pick t ps q z :
  table_ok t ps q None z ->
  exists r t' ps' q', scheduler_pick PICK_FUEL t = Ok r t' /\ table_ok t' ps' q' None None /\
    match r with
    | None => True
    | Some i => hd_error q' = Some i /\ exists b, ps' !! i = Some b /\ state b = RUNNABLE
    end.
Proof.
  intros T.
  assert (forall t1 q1 n, table_ok t1 ps q1 None None -> (length q1 < n)%nat ->
    exists r t' ps' q', scheduler_pick n t1 = Ok r t' /\ table_ok t' ps' q' None None /\
      match r with
      | None => True
      | Some i => hd_error q' = Some i /\ exists b, ps' !! i = Some b /\ state b = RUNNABLE
      end) as Go.
  { intros t1 q1 n T1 Hn. pose proof (to_rep _ _ _ _ _ T1) as R1.
    destruct (decide (q1 = [])) as [->|Hne].
    { destruct n; [lia|]. exists None, t1, ps, []. split; [by eapply pick_empty|done]. }
    pose proof (table_runnable _ _ _ T1) as Hall.
    destruct (pick_ok t1 ps q1 n R1 (to_differ _ _ _ _ _ T1) Hall Hne Hn) as (i & t' & ps' & q' & E & P & R' & S).
    destruct (picked_accounts _ _ _ _ _ P) as [Hl Hs].
    exists (Some i), t', ps', q'. split; [done|].
    assert (table_ok t' ps' q' None None) as T' by (eapply table_accounts; eauto using picked_perm).
    split; [done|]. assert (hd_error q' = Some i) as Hh by by destruct P.
    split; [done|]. destruct q' as [|i' q']; [done|]. injection Hh as ->.
    destruct (queued_state _ _ _ _ _ i T') as (b & Hb & [Sb|[[_ ?]|[_ ?]]]); [by left| |done|done]. by exists b. }
  pose proof (to_queue_length _ _ _ _ _ T) as Hlen. unfold NPROC in Hlen.
  destruct z as [i|]; [|apply (Go t q); [done|unfold PICK_FUEL, NPROC; lia]].
  pose proof (to_zombie _ _ _ _ _ T i eq_refl) as Hh.
  destruct q as [|i' q]; [done|]. injection Hh as ->.
  destruct (queued_state _ _ _ _ _ i T) as (b & Hb & Sb); [by left|].
  destruct (decide (state b = ZOMBIE)) as [Ez|Ez].
  - destruct (pick_drop t ps i q b 128 (to_rep _ _ _ _ _ T) (to_differ _ _ _ _ _ T) Hb) as (t1 & E1 & R1 & S1); [congruence|].
    change PICK_FUEL with 129%nat. rewrite E1.
    apply (Go t1 q); [|cbn in Hlen; lia].
    apply (table_drop t t1 ps i q None T); try done. intros c Hc. congruence.
  - apply (Go t (i :: q)); [|unfold PICK_FUEL, NPROC; lia]. eapply table_no_zombie; [done|].
    intros j c [= <-] Hc. congruence.
Qed.

Lemma push_pop_ok t h lk tk cr cr' v f n ia cp :
  cpu_is me h n false ia cp ->
  exists h', (lh pushcli;; modify (set_cr3 cr');; lh popcli) (SSt t h lk tk cr v f) =
      Ok tt (SSt t h' lk tk cr' v f) /\ cpu_is me h' n false ia cp.
Proof.
  intros (c & Hc & Hn & HI & Hp & Hi). exists (touched h me c). split; [|by apply cpu_touched].
  mstep lh_Ok; [|by apply pushcli_ok]. mgo.
  unfold set_cr3. cbn [s_tab s_hw s_lk s_tk s_cr3 s_svc s_first].
  pose proof (pushed_on_cpu _ _ _ Hc) as H1. pose proof (oc_ncli _ _ _ Hc).
  erewrite lh_Ok; [done|]. erewrite popcli_ok; [|exact H1|cbn; lia]. by rewrite popped_pushed.
Qed.

Lemma scheduler_while_ok t h ia cr v f ps q z :
  cpu_is me h 1 false ia None -> table_ok t ps q None z ->
  hoare scheduler_while (SSt t h (held me) initlock cr v f)
    (fun r s' => match r with Some i => at_resuming i s' | None => at_idle s' end) (fun _ => False).
Proof.
  intros C T. unfold scheduler_while.
  destruct (table_pick _ _ _ _ T) as (r & t1 & ps1 & q1 & E1 & T1 & Hr).
  eapply hoare_step; [by apply lt_Ok|].
  destruct r as [i|].
  2:{ destruct (release_ptable_ok t1 h initlock cr v f _ _ _ _ C) as (h2 & E2 & C2); [done|].
      eapply hoare_step; [exact E2|]. apply hoare_ret. by do 9 eexists. }
  destruct Hr as (Hh & b & Hb & Sb).
  destruct (set_curproc_ok t1 h (held me) initlock cr v f _ _ _ (Some i) C) as (h2 & E2 & C2).
  eapply hoare_step; [exact E2|].
  pose proof (to_slot _ _ _ _ _ T1 i b Hb) as (P1 & P2 & P3). rewrite Sb in P2, P3.
  destruct P3 as (Q1 & (L1 & L2 & L3) & Q3).
  destruct (rep_get _ _ _ _ _ (to_rep _ _ _ _ _ T1) Hb) as (p & Ep & Ebp).
  unfold switchuvm. apply hoare_assoc. eapply hoare_step; [by apply lt_Ok|].
  assert (img p = img b) as Ei by by subst b. rewrite Ei.
  rewrite (proj2 (Z.eqb_neq _ _) L2), (proj2 (Z.eqb_neq _ _) L3).
  destruct (push_pop_ok t1 h2 (held me) initlock cr (Some (i_pgdir (img b))) v f _ _ _ C2) as (h3 & E3 & C3).
  eapply hoare_step; [exact E3|].
  destruct (rep_upd t1 ps1 q1 i b (set_state RUNNING) (to_rep _ _ _ _ _ T1) Hb) as (t4 & E4 & R4 & S4); [kn|].
  eapply hoare_step; [by apply lt_Ok|]. apply hoare_ret.
  do 8 eexists. split; [done|]. split; [exact C3|]. pose proof (lookup_lt_Some _ _ _ Hb) as Hlt.
  destruct S4 as (Sn & _).
  split.
  - apply (table_change t1 t4 ps1 q1 q1 None (Some i) None None i b); try eassumption; auto; try lia; try done; try (by left); try (cbn; intros; congruence).
    + rewrite Sn. split; [done|]. split; [intros _; by apply P2|]. by cbn.
    + intros _ Hlo. exfalso. apply (to_lost _ _ _ _ _ T1 i Hlo). destruct q1; [done|]. injection Hh as ->. by left.
    + intros _. left. by rewrite Sb.
    + intros j [= <-]. split; [done|]. rewrite list_lookup_insert_eq by done. by eexists.
  - exists (set_state RUNNING b). by rewrite list_lookup_insert_eq.
Qed.

Lemma scheduler_back_ok s :
  at_kern s ->
  hoare scheduler_back s
    (fun r s' => match r with Some i => at_resuming i s' | None => at_idle s' end) (fun _ => False).
Proof.
  intros (t & h & ia & cp & cr & v & f & ps & q & z & -> & C & T). unfold scheduler_back.
  eapply hoare_step; [reflexivity|].
  destruct (set_curproc_ok t h (held me) initlock None v f _ _ _ None C) as (h2 & E2 & C2).
  eapply hoare_step; [exact E2|]. by eapply scheduler_while_ok.
Qed.

Lemma scheduler_enter_ok s :
  at_idle s ->
  hoare scheduler_enter s
    (fun r s' => match r with Some i => at_resuming i s' | None => at_idle s' end) (fun _ => False).
Proof.
  intros (t & h & b & ia & cr & v & f & ps & q & -> & C & T). unfold scheduler_enter.
  eapply hoare_step; [reflexivity|]. cbn [set_shw s_hw s_tab s_lk s_tk s_cr3 s_svc s_first].
  eapply hoare_step; [reflexivity|].
  destruct (acquire_ptable_ok t (set_IF true h) initlock cr v f _ _ _ _ (cpu_set_IF _ _ true _ _ C)) as (h1 & E1 & C1).
  eapply hoare_step; [exact E1|]. cbn in C1.
  destruct (head _) as [i|]; [by eapply scheduler_while_ok|].
  destruct (release_ptable_ok t h1 initlock cr v f _ _ _ _ C1) as (h2 & E2 & C2); [done|].
  eapply hoare_step; [exact E2|]. apply hoare_ret. by do 9 eexists.
Qed.

(** ** Coming back from the scheduler *)

Lemma resume_ok i s : at_resuming i s -> hoare (resume i) s (after_user i) init_exits.
Proof.
  intros (t & h & ia & cr & v & f & ps & q & -> & C & T & b & Hb & Hg). unfold resume.
  destruct (rep_get _ _ _ _ _ (to_rep _ _ _ _ _ T) Hb) as (p & Ep & Ebp).
  eapply hoare_step; [by apply lt_Ok|]. cbv zeta.
  assert (k_point (ctx p) = k_point (ctx b)) as -> by by subst b.
  destruct (k_point (ctx b)) as [| |lk w|]; [| | |done].
  - unfold forkret.
    destruct (release_ptable_ok t h initlock cr v f _ _ _ _ C) as (h1 & E1 & C1); [done|].
    apply hoare_assoc. eapply hoare_step; [exact E1|].
    assert (forall v' f', usr ia i (SSt t h1 initlock initlock cr v' f')) as U1 by (intros; by do 8 eexists).
    eapply hoare_bind with (Q1 := fun _ s' => usr ia i s').
    + eapply hoare_step; [reflexivity|]. cbn [s_first]. destruct f; [|by apply hoare_ret].
      eapply hoare_step; [reflexivity|]. eapply hoare_Ok; [reflexivity|]. apply U1.
    + intros [] s' U. destruct (iret_ok _ _ _ U) as (s2 & E2 & U2). eapply hoare_step; [exact E2|]. by apply hoare_ret.
  - destruct (sched_back_ok t h (held me) initlock cr v f _ _ (k_intena (ctx p)) _ C) as (h1 & E1 & C1).
    eapply hoare_step; [exact E1|].
    destruct (release_ptable_ok t h1 initlock cr v f _ _ _ _ C1) as (h2 & E2 & C2); [done|].
    eapply hoare_step; [exact E2|]. eapply killed_then_iret; [by do 8 eexists|done].
  - destruct (sched_back_ok t h (held me) initlock cr v f _ _ (k_intena (ctx p)) _ C) as (h1 & E1 & C1).
    eapply hoare_step; [exact E1|]. unfold sleep_back. apply hoare_assoc.
    destruct (table_harmless _ _ _ _ _ _ _ (set_chan NoChan) T Hb) as (t2 & E2 & T2 & _); [harm|].
    eapply hoare_step; [by apply lt_Ok|].
    destruct lk, w; try done.
    + rewrite bool_decide_true by done. eapply hoare_step; [reflexivity|].
      eapply hoare_bind; [eapply hoare_weaken; [by eapply wait_turn_ok|intros a s' Ha; exact Ha|done]|].
      intros [x|] s' Ha; [|by apply hoare_ret]. destruct Ha as [b' Ha]. by eapply killed_then_iret.
    + rewrite bool_decide_false by done. cbn [acquire_id].
      destruct (release_ptable_ok t2 h1 initlock cr v f _ _ _ _ C1) as (h3 & E3 & C3); [done|].
      apply hoare_assoc. eapply hoare_step; [exact E3|]. cbn in C3.
      destruct (acquire_tickslock_ok t2 h3 initlock cr v f _ _ _ _ C3) as (h4 & E4 & C4).
      eapply hoare_step; [exact E4|]. cbn in C4.
      destruct (release_tickslock_ok t2 h4 initlock cr v f _ _ _ _ C4) as (h5 & E5 & C5); [done|].
      eapply hoare_step; [exact E5|]. eapply killed_then_iret; [by do 8 eexists|done].
Qed.

(** The timer while the scheduler is idle. *)
Lemma idle_timer_ok s :
  at_idle s -> hoare (lh (modify (set_IF true));; trap_timer) s (fun _ => at_idle) (fun _ => False).
Proof.
  intros (t & h & b & ia & cr & v & f & ps & q & -> & C & T).
  eapply hoare_step; [reflexivity|]. unfold trap_timer. eapply hoare_step; [reflexivity|].
  unfold set_shw. cbn [s_tab s_hw s_lk s_tk s_cr3 s_svc s_first].
  pose proof (cpu_set_IF _ _ false _ _ (cpu_set_IF _ _ true _ _ C)) as C1.
  destruct (timer_tick_ok _ _ _ _ cr v f _ _ _ C1 T) as (t2 & h2 & ia2 & ps2 & q2 & E2 & C2 & T2).
  eapply hoare_step; [exact E2|]. unfold exit_if_killed.
  destruct (my_proc_ok t2 h2 initlock initlock cr v f _ _ _ _ C2) as (h3 & E3 & C3).
  eapply hoare_step; [exact E3|].
  destruct (my_proc_ok t2 h3 initlock initlock cr v f _ _ _ _ C3) as (h4 & E4 & C4).
  eapply hoare_step; [exact E4|]. eapply hoare_step; [reflexivity|]. apply hoare_ret.
  do 9 eexists. split; [reflexivity|]. split; [by eapply cpu_set_IF|done].
Qed.

(** ** Every reachable state *)

Definition kern_inv (st : mode * sst V) : Prop :=
  match fst st with
  | User i => usr true i (snd st)
  | Kern => at_kern (snd st)
  | Resuming i => at_resuming i (snd st)
  | Idle => at_idle (snd st)
  end.

Lemma hoare_run {S A} (m : M S A) s Q E a s' : hoare m s Q E -> m s = Ok a s' -> Q a s'.
Proof. unfold hoare. intros Hm Em. by rewrite Em in Hm. Qed.

Lemma kern_step st st' : kern_inv st -> kstep st st' -> kern_inv st'.
Proof.
  intros I St. destruct St as [i c s r s' Hc E|i s r s' E|s r s' E|p s r s' E|s r s' E|s r s' E];
    unfold kern_inv in *; cbn [fst snd] in *.
  - pose proof (hoare_run _ _ _ _ _ _ (trap_syscall_ok _ _ _ I Hc) E) as A. by destruct r.
  - pose proof (hoare_run _ _ _ _ _ _ (trap_timer_ok _ _ I) E) as A. by destruct r.
  - pose proof (hoare_run _ _ _ _ _ _ (scheduler_back_ok _ I) E) as A. by destruct r.
  - pose proof (hoare_run _ _ _ _ _ _ (resume_ok _ _ I) E) as A. by destruct r.
  - pose proof (hoare_run _ _ _ _ _ _ (scheduler_enter_ok _ I) E) as A. by destruct r.
  - exact (hoare_run _ _ _ _ _ _ (idle_timer_ok _ I) E).
Qed.

Lemma kern_reach st st' : kern_inv st -> rtc kstep st st' -> kern_inv st'.
Proof. intros I St. induction St as [|x y z St _ IH]; [done|]. apply IH. by eapply kern_step. Qed.

Lemma kern_table st : kern_inv st -> exists ps q run z, table_ok (s_tab (snd st)) ps q run z /\
  forall i, run = Some i <-> fst st = User i \/ fst st = Resuming i.
Proof.
  destruct st as [[i| |i|] s]; unfold kern_inv; cbn [fst snd].
  - intros (t & h & ia & cr & v & f & ps & q & -> & C & T). exists ps, q, (Some i), None. split; [done|].
    intros j. split; [intros [= ->]; by left|]. intros [[= ->]|?]; done.
  - intros (t & h & ia & cp & cr & v & f & ps & q & z & -> & C & T). exists ps, q, None, z. split; [done|].
    intros j. split; [done|]. by intros [|].
  - intros (t & h & ia & cr & v & f & ps & q & -> & C & T & _). exists ps, q, (Some i), None. split; [done|].
    intros j. split; [intros [= ->]; by right|]. intros [?|[= ->]]; done.
  - intros (t & h & b & ia & cr & v & f & ps & q & -> & C & T). exists ps, q, None, None. split; [done|].
    intros j. split; [done|]. by intros [|].
Qed.

(** No operation gets stuck, and only the known panics can happen. *)
Definition answers {A} (m : M (sst V) A) (s : sst V) (E : string -> Prop) : Prop :=
  (exists a s', m s = Ok a s') \/ (exists e, m s = Panic e /\ E e).

Lemma hoare_answers {A} (m : M (sst V) A) s Q E : hoare m s Q E -> answers m s E.
Proof. unfold hoare, answers. destruct (m s) as [a s'|e| |]; [eauto..|done|done]. Qed.

Definition progress (st : mode * sst V) : Prop :=
  match fst st with
  | User i => (forall c, call_ok c (snd st) -> answers (trap_syscall c) (snd st) (known_panic c)) /\
              answers trap_timer (snd st) init_exits
  | Kern => answers scheduler_back (snd st) (fun _ => False)
  | Resuming i => answers (resume i) (snd st) init_exits
  | Idle => answers scheduler_enter (snd st) (fun _ => False)
  end.

Lemma kern_progress st : kern_inv st -> progress st.
Proof.
  destruct st as [[i| |i|] s]; unfold kern_inv, progress; cbn [fst snd]; intros I.
  - split; [|by eapply hoare_answers, trap_timer_ok]. intros c Hc. by eapply hoare_answers, trap_syscall_ok.
  - by eapply hoare_answers, scheduler_back_ok.
  - by eapply hoare_answers, resume_ok.
  - by eapply hoare_answers, scheduler_enter_ok.
Qed.
End kernel.

(** What is visible of the invariant: one running process, and it is the current
    one; the runnable ones are queued, unless they were killed. *)
Definition well_scheduled {V} (st : mode * sst V) : Prop :=
  exists q, queue (s_tab (snd st)) q /\ (length q <= NPROC)%nat /\
  forall i p, procs (s_tab (snd st)) !! i = Some p ->
    (state p = RUNNING <-> fst st = User i \/ fst st = Resuming i) /\
    (state p = RUNNABLE -> killed p = 0 -> i ∈ q) /\
    (state p = SLEEPING -> i ∉ q) /\
    (i ∈ q -> state p = RUNNABLE \/ state p = RUNNING \/ state p = ZOMBIE).


Lemma strand {V} `{Services V} me (st : mode * sst V) j :
  kern_inv me None st -> stranded j (s_tab (snd st)) -> kern_inv me (Some j) st.
Proof.
  intros I [(p & Hp & Sp) Hq].
  assert (forall ps q run z, table_ok None (s_tab (snd st)) ps q run z -> table_ok (Some j) (s_tab (snd st)) ps q run z) as K.
  { intros ps q run z [T1 T2 T3 T4 T5 T6 T7 T8 T9]. split; auto. intros i [= <-]. split; [by apply Hq, T1|].
    exists (bare p). split; [|done]. destruct T1 as [_ <-]. by apply tview_lookup. }
  destruct st as [[i| |i|] s]; unfold kern_inv in *; cbn [fst snd] in *.
  - destruct I as (t & h & ia & cr & v & f & ps & q & -> & C & T). do 8 eexists. split; [done|]. split; [exact C|by apply K].
  - destruct I as (t & h & ia & cp & cr & v & f & ps & q & z & -> & C & T). do 10 eexists. split; [done|]. split; [exact C|by apply K].
  - destruct I as (t & h & ia & cr & v & f & ps & q & -> & C & T & B). do 8 eexists. split; [done|]. split; [exact C|]. split; [by apply K|done].
  - destruct I as (t & h & b & ia & cr & v & f & ps & q & -> & C & T). do 9 eexists. split; [done|]. split; [exact C|by apply K].
Qed.

(** C37. A killed sleeper is lost. [kill] of a sleeping process makes it RUNNABLE but,
    unlike [wakeup1], does not queue it; from then on no sequence of system calls,
    interrupts and switches ever runs it: it stays RUNNABLE outside the queue, so it
    never exits and its parent's [wait] never collects it. *)
Theorem killed_sleeper_lost {V} `{Services V} (me : nat) (i : nat) (s : sst V) n j p :
  usr me None true i s ->
  scan (fun p => pid p =? n) (procs (s_tab s)) 0 = Some j ->
  procs (s_tab s) !! j = Some p -> state p = SLEEPING ->
  exists s', kill n s = Ok 0 s' /\ stranded j (s_tab s') /\
    forall st0 st', kern_inv me None st0 -> s_tab (snd st0) = s_tab s' -> rtc kstep st0 st' ->
      stranded j (s_tab (snd st')) /\ fst st' <> User j /\ fst st' <> Resuming j.
Proof.
  intros U Hsc Hp Sp. pose proof (kill_full me None true i s n U) as K. unfold hoare in K.
  destruct (kill n s) as [r s'| | |]; try done. destruct K as [U' K].
  destruct (K j p Hsc Hp Sp) as [-> St]. exists s'. split; [done|]. split; [done|].
  intros st0 st' I Et Hr. rewrite <- Et in St.
  pose proof (kern_reach _ _ _ _ (strand _ _ _ I St) Hr) as I'.
  destruct (kern_table _ _ _ I') as (ps & q & run & z & T & Hrun).
  destruct (to_lost _ _ _ _ _ _ T j eq_refl) as (Hjq & b & Hb & Sb).
  destruct (rep_lookup _ _ _ _ _ (to_rep _ _ _ _ _ _ T) Hb) as (p' & Hp' & Eb).
  assert (~ (fst st' = User j \/ fst st' = Resuming j)) as Hm.
  { rewrite <- Hrun. intros Er. destruct (to_run _ _ _ _ _ _ T j Er) as (_ & c & Hc & Sc). congruence. }
  split_and!; [|tauto..]. split.
  - exists p'. split; [done|]. change (state (bare p') = RUNNABLE). by rewrite Eb.
  - intros q' Q'. by rewrite (queue_unique _ _ _ Q' (rep_queue _ _ _ (to_rep _ _ _ _ _ _ T))).
Qed.

(** [setslice], [getslice] and [getpinfo] on every branch. [setslice] refuses a slice
    below 1 or a negative pid and otherwise sets the slice of the first process with
    that pid, 0, or returns -1 when there is none; [getslice] returns the slice of
    that process, but when there is none it acquires [ptable.lock] a second time
    instead of releasing it, and the kernel panics; [getpinfo] reports the table. *)
Theorem slice_calls {V} `{Services V} (me : nat) (i : nat) (s : sst V) (n sl : Z) :
  usr me None true i s ->
  (sl < 1 \/ n < 0 -> setslice n sl s = Ok (-1) s) /\
  (n < 0 -> getslice n s = Ok (-1) s) /\
  (1 <= sl -> 0 <= n -> exists r s', setslice n sl s = Ok r s' /\
     match scan (fun p => pid p =? n) (procs (s_tab s)) 0 with
     | Some j => r = 0 /\ exists p, procs (s_tab s) !! j = Some p /\
         s_tab s' = set_procs (<[j := on_acc (set_timeslice sl) p]> (procs (s_tab s))) (s_tab s)
     | None => r = -1 /\ s_tab s' = s_tab s
     end) /\
  (0 <= n ->
     match scan (fun p => pid p =? n) (procs (s_tab s)) 0 with
     | Some j => exists p s', procs (s_tab s) !! j = Some p /\
         getslice n s = Ok (timeslice (acc p)) s' /\ s_tab s' = s_tab s
     | None => getslice n s = Panic "acquire"
     end) /\
  exists s' r, getpinfo false s = Ok (0, Some r) s' /\ s_tab s' = s_tab s /\
    ps_pid r = map pid (procs (s_tab s)) /\
    ps_timeslice r = map (fun p => timeslice (acc p)) (procs (s_tab s)) /\
    ps_inuse r = map (fun p => if decide (state p = UNUSED) then 0 else 1) (procs (s_tab s)).
Proof.
  intros U. destruct U as (t & h & ia & cr & v & f & ps & q & -> & C & T). cbn [s_tab].
  destruct (acquire_ptable_ok me t h initlock cr v f _ _ _ _ C) as (h1 & E1 & C1).
  assert (forall t', exists h2, release_ptable (SSt t' h1 (held me) initlock cr v f) =
    Ok tt (SSt t' h2 initlock initlock cr v f)) as Rel.
  { intros t'. destruct (release_ptable_ok me t' h1 initlock cr v f _ _ _ _ C1) as (h2 & E2 & _); [done|].
    by exists h2. }
  split_and!.
  - intros Hb. unfold setslice. by replace ((sl <? 1) || (n <? 0)) with true by lia.
  - intros Hn. unfold getslice. by rewrite (proj2 (Z.ltb_lt _ _)).
  - intros Hsl Hn. unfold setslice. replace ((sl <? 1) || (n <? 0)) with false by lia.
    mstep E1. mstep lt_Ok; [|reflexivity].
    destruct (scan (fun p => pid p =? n) (procs t) 0) as [j|] eqn:Esc.
    + apply scan_Some in Esc as (_ & p & Hp & _). rewrite Nat.sub_0_r in Hp.
      mstep lt_Ok; [|by apply upd_eq]. destruct (Rel (set_procs (<[j := on_acc (set_timeslice sl) p]> (procs t)) t)) as (h2 & E2).
      mstep E2. do 2 eexists. split; [reflexivity|]. split; [done|]. by exists p.
    + destruct (Rel t) as (h2 & E2). mstep E2. by do 2 eexists.
  - intros Hn. destruct (scan (fun p => pid p =? n) (procs t) 0) as [j|] eqn:Esc.
    + pose proof Esc as Esc'. apply scan_Some in Esc as (_ & p & Hp & _). rewrite Nat.sub_0_r in Hp.
      destruct (Rel t) as (h2 & E2). exists p, (SSt t h2 initlock initlock cr v f).
      split; [done|]. split; [|reflexivity].
      unfold getslice. rewrite (proj2 (Z.ltb_ge _ _)) by lia. mstep E1. mstep lt_Ok; [|reflexivity].
      rewrite Esc'. mstep E2. by mstep lt_Ok; [|by apply get_proc_ok].
    + unfold getslice. rewrite (proj2 (Z.ltb_ge _ _)) by lia. mstep E1. mstep lt_Ok; [|reflexivity].
      rewrite Esc. apply bind_Panic. destruct C1 as (c & Hc & _).
      unfold acquire_ptable. eapply acquire_in_twice; [exact Hc|]. apply holds_self.
  - destruct (Rel t) as (h2 & E2). do 2 eexists. unfold getpinfo. mstep E1. mstep lt_Ok; [|reflexivity].
    cbv zeta. mstep E2. split; [reflexivity|]. split_and!; try done. cbn.
    apply list_fmap_ext. intros k p _. unfold is_state. by case_decide; case_bool_decide.
Qed.

(** ** A concrete kernel *)

(** Services that only count free pages. *)
#[export] Instance page_count : Services Z.
Proof.
  refine {|
    svc_kalloc v := if 0 <? v then (0x80400000, v - 1) else (0, v);
    svc_kfree _ v := v + 1;
    svc_copyuvm _ _ v := if 4 <? v then (0x80500000, v - 4) else (0, v);
    svc_setupkvm v := if 4 <? v then (0x80600000, v - 4) else (0, v);
    svc_inituvm _ v := v - 1;
    svc_freevm _ v := v + 4;
    svc_filedup f v := (f, v);
    svc_fileclose _ v := v;
    svc_idup w v := (w, v);
    svc_iput_op _ v := v;
    svc_namei_root v := (1, v);
    svc_fsinit v := v;
    svc_eq := eq
  |}.
  - intros v pg v'. cbn beta. destruct (0 <? v); intros [= <- <-]; [lia|done].
  - intros v v'. destruct (0 <? v); intros [= <-]; done.
  - intros d sz v v'. destruct (4 <? v); intros [= <-]; done.
Defined.

(** Process 1 runs, process 2 sleeps until tick 20, and the rest of the table is free. *)
Definition demo_slot (st : procstate) (n : Z) (ch : chan) : proc :=
  Proc st n None ch 0 None (Kont (KSleep LkTicks WakeSysSleep) true) demo_img (Acct 1 0 0 0 0 20 0 0).
Definition demo_free : proc :=
  Proc UNUSED 0 None NoChan 0 None (Kont KForkret false) demo_img (Acct 0 0 0 0 0 0 0 0).
Definition demo_kernel : sst Z :=
  SSt (Tab (demo_slot RUNNING 1 NoChan :: demo_slot SLEEPING 2 TicksChan :: replicate 62 demo_free)
         (Some 0%nat) (Some 0%nat) 3 (Some 0%nat) 7)
    (Hw true 7 [Cpu 3 0 false None; Cpu 7 0 false (Some 0%nat)]) initlock initlock (Some 0x1000) 10 false.

Lemma demo_kernel_usr : usr 1 None true 0 demo_kernel.
Proof.
  do 3 eexists. exists (Some 0x1000), 10, false. eexists. exists [0%nat]. split; [reflexivity|]. split.
  { exists (Cpu 7 0 false (Some 0%nat)). split_and!; [|done..]. by split; cbn; try lia. }
  assert (forall i b, tview (s_tab demo_kernel) !! i = Some b ->
    (i = 0%nat /\ b = demo_slot RUNNING 1 NoChan) \/ (i = 1%nat /\ b = demo_slot SLEEPING 2 TicksChan) \/
    ((2 <= i)%nat /\ b = demo_free)) as Hps.
  { intros i b Hb. unfold tview in Hb. cbn [demo_kernel s_tab procs map] in Hb.
    destruct i as [|[|i]].
    - left. injection Hb as <-. done.
    - right. left. injection Hb as <-. done.
    - right. right. cbn [lookup list_lookup] in Hb.
      replace (map bare (replicate 62 demo_free)) with (replicate 62 demo_free) in Hb by done.
      apply lookup_replicate in Hb as [-> _]. split; [lia|done]. }
  assert (forall i, i <> 0%nat -> i ∉ [0%nat]) as Hno by (intros i Hi Hin; by apply list_elem_of_singleton in Hin).
  assert (live_ok (demo_slot RUNNING 1 NoChan)) as HL by (split; [split; cbn; lia|done]).
  split; try done.
  - split; [|reflexivity]. split; [done|done|done|apply NoDup_singleton|]. repeat constructor.
  - by vm_compute.
  - intros i b Hb. destruct (Hps i b Hb) as [[-> ->]|[[-> ->]|[Hi ->]]].
    + split; [done|]. split; [intros _; cbn; lia|]. by split.
    + split; [done|]. split; [intros _; cbn; lia|]. split; [by apply Hno|]. by split.
    + split; [done|]. split; [intros E; by destruct E|]. apply Hno. lia.
  - intros i j b b' Hb Hb' U1 U2 Ep.
    destruct (Hps i b Hb) as [[-> ->]|[[-> ->]|[Hi ->]]], (Hps j b' Hb') as [[-> ->]|[[-> ->]|[Hj ->]]]; done.
  - intros i [= <-]. split; [done|]. by eexists.
  - intros i b Hb. destruct (Hps i b Hb) as [[-> ->]|[[-> ->]|[Hi ->]]]; unfold int32; cbn; lia.
Qed.


Lemma killed_sleeper_lost_witness : exists s', kill 2 demo_kernel = Ok 0 s' /\ stranded 1 (s_tab s').
Proof.
  destruct (killed_sleeper_lost 1 0 demo_kernel 2 1 (demo_slot SLEEPING 2 TicksChan) demo_kernel_usr
    eq_refl eq_refl eq_refl) as (s' & E & St & _).
  exists s'. split; [exact E|exact St].
Defined.

Lemma slice_calls_witness : getslice 9 demo_kernel = Panic "acquire".
Proof.
  destruct (slice_calls 1 0 demo_kernel 9 1 demo_kernel_usr) as (_ & _ & _ & A & _).
  apply A. discriminate.
Defined.
