(* ===== verification/Sleeplock.v ===== *)
(** * Sleep locks: p6/sleeplock.c, run by one process at a time

    The file-system layers (Bio, Log, Fs, File) are modelled as one process runs
    them. Within such a run a spinlock is its [locked] bit: taking it twice and
    releasing it free are the panics of [acquire] and [release], and theorem
    [Spinlock.critical_section] is about the rest of its work. A process that has
    to [sleep] for a lock waits for another process; here nothing else runs, so
    that is the outcome [Hang]. [wakeup] changes only other processes. *)

From S2P Require Import Prelude.

Definition spin_acquire : M bool unit := fun l => if l then Panic "acquire" else Ok tt true.
Definition spin_release : M bool unit := fun l => if l then Ok tt false else Panic "release".

Record sleeplock := Sleeplock { sl_locked : bool; sl_lk : bool; sl_pid : Z }.
Definition set_sl_locked v l := Sleeplock v (sl_lk l) (sl_pid l).
Definition set_sl_lk v l := Sleeplock (sl_locked l) v (sl_pid l).
Definition set_sl_pid v l := Sleeplock (sl_locked l) (sl_lk l) v.

Definition initsleeplock : M sleeplock unit :=
  modify (set_sl_lk false);;
  modify (set_sl_locked false);;
  modify (set_sl_pid 0).

Definition acquiresleep (mypid : Z) : M sleeplock unit :=
  zoom sl_lk set_sl_lk spin_acquire;;
  l ← gets sl_locked;
  if (l : bool) then hang else
  modify (set_sl_locked true);;
  modify (set_sl_pid mypid);;
  zoom sl_lk set_sl_lk spin_release.

Definition releasesleep : M sleeplock unit :=
  zoom sl_lk set_sl_lk spin_acquire;;
  modify (set_sl_locked false);;
  modify (set_sl_pid 0);;
  zoom sl_lk set_sl_lk spin_release.

Definition holdingsleep (mypid : Z) : M sleeplock bool :=
  zoom sl_lk set_sl_lk spin_acquire;;
  l ← gets sl_locked;
  p ← gets sl_pid;
  let r := l && (p =? mypid) in
  zoom sl_lk set_sl_lk spin_release;;
  mret r.

(** A lock that is free, and one that the process [me] holds. *)
Definition sl_free : sleeplock := Sleeplock false false 0.
Definition sl_mine (me : Z) : sleeplock := Sleeplock true false me.

Lemma initsleeplock_ok l : initsleeplock l = Ok tt sl_free.
Proof. done. Qed.
Lemma acquiresleep_ok me : acquiresleep me sl_free = Ok tt (sl_mine me).
Proof. done. Qed.
Lemma acquiresleep_held me l : sl_locked l = true -> sl_lk l = false -> acquiresleep me l = Hang.
Proof. destruct l as [? ? p]; cbn. by intros -> ->. Qed.
Lemma releasesleep_ok me : releasesleep (sl_mine me) = Ok tt sl_free.
Proof. done. Qed.
Lemma holdingsleep_ok me : holdingsleep me (sl_mine me) = Ok true (sl_mine me).
Proof. unfold holdingsleep, sl_mine. mgo. unfold zoom, mbind, M_bind, mret, M_ret; cbn. by rewrite Z.eqb_refl. Qed.
Lemma holdingsleep_free me : holdingsleep me sl_free = Ok false sl_free.
Proof. done. Qed.
