(* ===== verification/Fork.v ===== *)
(** * fork and wait of p6: p6/proc.c

    allocproc, fork and wait over the page allocator and the address spaces: the child gets a
    kernel stack, a copy of the address space, of the trap frame and of the queue of the
    working set. What fork does to the descriptors (modelled in [File]) is a parameter. *)

From S2P Require Import Prelude Cstring Spinlock Kalloc PageTable Uvm Encrypt Aspace Clock Sleeplock Kstack.

Inductive fstate := FUnused | FEmbryo | FSleeping | FRunnable | FRunning | FZombie.
#[export] Instance fstate_eq_dec : EqDecision fstate.
Proof. solve_decision. Defined.

(** A slot of the process table; [f_u] holds its size, page directory, kernel stack and
    the queue of the working set. *)
Record fproc := FProc {
  f_state : fstate; f_pid : Z; f_parent : option nat; f_tf : Z; f_context : Z; f_name : list Z; f_u : uproc; f_killed : Z
}.
Definition set_fstate v p := FProc v (f_pid p) (f_parent p) (f_tf p) (f_context p) (f_name p) (f_u p) (f_killed p).
Definition set_fpid v p := FProc (f_state p) v (f_parent p) (f_tf p) (f_context p) (f_name p) (f_u p) (f_killed p).
Definition set_fparent v p := FProc (f_state p) (f_pid p) v (f_tf p) (f_context p) (f_name p) (f_u p) (f_killed p).
Definition set_fframe tf ctx p := FProc (f_state p) (f_pid p) (f_parent p) tf ctx (f_name p) (f_u p) (f_killed p).
Definition set_fname v p := FProc (f_state p) (f_pid p) (f_parent p) (f_tf p) (f_context p) v (f_u p) (f_killed p).
Definition set_fkilled v p := FProc (f_state p) (f_pid p) (f_parent p) (f_tf p) (f_context p) (f_name p) (f_u p) v.
Definition on_u (g : uproc -> uproc) p := FProc (f_state p) (f_pid p) (f_parent p) (f_tf p) (f_context p) (f_name p) (g (f_u p)) (f_killed p).
Definition set_kstack (v : Z) (u : uproc) : uproc := UProc (sz u) (pgdir u) v (clockqueue u) (clockhand u).
Definition set_pgdir (v : Z) (u : uproc) : uproc := UProc (sz u) v (kstack u) (clockqueue u) (clockhand u).

(** The loops over the array of the queue, which has [CLOCKSIZE] entries. *)
Definition clear_queue (q : list Z) : list Z := foldl (fun q i => <[i := NOPAGE]> q) q (seq 0 8).
Definition copy_queue (from q : list Z) : list Z := foldl (fun q i => <[i := nth i from 0]> q) q (seq 0 8).

Section fork.
Context {F : Type} (fork_files : nat -> nat -> M F unit) (data trapret forkret : Z).

Record fst := FSt { f_procs : list fproc; f_nextpid : Z; f_lock : bool; f_kst : kst; f_files : F }.
Definition set_fprocs v s := FSt v (f_nextpid s) (f_lock s) (f_kst s) (f_files s).
Definition set_fnextpid v s := FSt (f_procs s) v (f_lock s) (f_kst s) (f_files s).
Definition set_flock v s := FSt (f_procs s) (f_nextpid s) v (f_kst s) (f_files s).
Definition set_fkst v s := FSt (f_procs s) (f_nextpid s) (f_lock s) v (f_files s).
Definition set_ffiles v s := FSt (f_procs s) (f_nextpid s) (f_lock s) (f_kst s) v.
Definition fkern {A} (m : M kst A) : M fst A := zoom f_kst set_fkst m.
Definition facquire : M fst unit := zoom f_lock set_flock spin_acquire.
Definition frelease : M fst unit := zoom f_lock set_flock spin_release.
Definition fproc_at (p : nat) : M fst fproc := l ← gets f_procs; of_option (l !! p).
Definition fupd (p : nat) (g : fproc -> fproc) : M fst unit :=
  q ← fproc_at p; modify (fun s => set_fprocs (<[p := g q]> (f_procs s)) s).

(** The scan of the table. *)
Fixpoint unused_slot (i : nat) (l : list fproc) : option nat :=
  match l with
  | [] => None
  | q :: l' => if bool_decide (f_state q = FUnused) then Some i else unused_slot (S i) l'
  end.
Definition allocproc : M fst (option nat) :=
  facquire;;
  l ← gets f_procs;
  match unused_slot 0 l with
  | None => frelease;; mret None
  | Some p =>
    fupd p (set_fstate FEmbryo);;
    n ← gets f_nextpid;
    fupd p (set_fpid n);;
    modify (set_fnextpid (s32 (n + 1)));;
    frelease;;
    k ← fkern kalloc;
    fupd p (on_u (set_kstack k));;
    if k =? 0 then fupd p (set_fstate FUnused);; mret None else
    let tf := k + KSTACKSIZE - TRAPFRAME in
    fkern (kstore (tf - 4) trapret);;
    let ctx := tf - 4 - CONTEXT in
    fkern (kmemset ctx 0 CONTEXT);;
    fkern (kstore (ctx + 16) forkret);;
    fupd p (set_fframe tf ctx);;
    mret (Some p)
  end.

(** [fork] called by the process in slot [cur]; eax is the eighth word of the trap frame. *)
Definition fork (cur : nat) : M fst Z :=
  a ← allocproc;
  match a with
  | None => mret (-1)
  | Some np =>
    fupd np (on_u (fun u => set_hand (-1) (set_queue (clear_queue (clockqueue u)) u)));;
    c ← fproc_at cur;
    d ← fkern (copyuvm data (pgdir (f_u c)) (sz (f_u c)));
    fupd np (on_u (set_pgdir d));;
    if d =? 0 then
      p ← fproc_at np;
      fkern (kfree (kstack (f_u p)));;
      fupd np (on_u (set_kstack 0));;
      fupd np (set_fstate FUnused);;
      mret (-1)
    else
    fupd np (on_u (set_sz (sz (f_u c))));;
    fupd np (set_fparent (Some cur));;
    p ← fproc_at np;
    fkern (kmemmove (f_tf p) (f_tf c) TRAPFRAME);;
    fupd np (on_u (fun u => set_hand (clockhand (f_u c)) (set_queue (copy_queue (clockqueue (f_u c)) (clockqueue u)) u)));;
    fkern (kstore (f_tf p + 28) 0);;
    zoom f_files set_ffiles (fork_files cur np);;
    fupd np (set_fname (take 15 (f_name c)));;
    p ← fproc_at np;
    facquire;;
    fupd np (set_fstate FRunnable);;
    frelease;;
    mret (f_pid p)
  end.

(** The scan of [wait]: a zombie child is freed and its pid returned; otherwise whether
    there is a child. *)
Fixpoint wait_scan (cur i n : nat) (havekids : bool) : M fst (option Z * bool) :=
  match n with
  | O => mret (None, havekids)
  | S n' =>
    p ← fproc_at i;
    if negb (bool_decide (f_parent p = Some cur)) then wait_scan cur (S i) n' havekids else
    if bool_decide (f_state p = FZombie) then
      fkern (kfree (kstack (f_u p)));;
      fupd i (on_u (set_kstack 0));;
      fkern (freevm (pgdir (f_u p)));;
      fupd i (set_fpid 0);;
      fupd i (set_fparent None);;
      fupd i (set_fname []);;
      fupd i (set_fkilled 0);;
      fupd i (set_fstate FUnused);;
      mret (Some (f_pid p), true)
    else wait_scan cur (S i) n' true
  end.
(** One turn of the loop of [wait], from where ptable.lock is taken; [None] when it goes to
    sleep, with the lock. *)
Definition wait_turn (cur : nat) : M fst (option Z) :=
  l ← gets f_procs;
  r ← wait_scan cur 0 (length l) false;
  match r with
  | (Some pid, _) => frelease;; mret (Some pid)
  | (None, havekids) =>
    c ← fproc_at cur;
    if negb havekids || negb (f_killed c =? 0) then frelease;; mret (Some (-1)) else mret None
  end.
Definition wait (cur : nat) : M fst (option Z) := facquire;; wait_turn cur.
End fork.
Arguments fst : clear implicits.
