(* ===== verification/ForkSafe.v ===== *)
(** * What fork does

    The child is a second copy of its parent, with the same working set, or nothing has
    happened; no page is lost. *)

From S2P Require Import Prelude Cstring Spinlock Kalloc PageTable Uvm Encrypt Aspace Clock Sleeplock Kstack Fork.

(** ** Small steps *)

Lemma clear_queue_ok q : length q = 8%nat -> clear_queue q = replicate 8 NOPAGE.
Proof. intros H. do 8 (destruct q as [|? q]; [done|]). by destruct q. Qed.
Lemma copy_queue_ok from q : length from = 8%nat -> length q = 8%nat -> copy_queue from q = from.
Proof. intros H H'. do 8 (destruct from as [|? from]; [done|]). destruct from; [|done]. do 8 (destruct q as [|? q]; [done|]). by destruct q. Qed.

(** A mapped entry keeps its flags but for P, which is the opposite of E. *)
Lemma pte_flags_view f : 0 <= f < PGSIZE -> mapped (pte_flags f) = true /\ flag (pte_flags f) PTE_E = flag f PTE_E /\ flag (pte_flags f) PTE_U = flag f PTE_U.
Proof. intros H. destruct (pte_flags_ok f H) as (_ & M & E & _ & U & _). split; [exact M|by split]. Qed.

Section steps.
Context {F : Type}.
Implicit Types (s : fst F) (ps : list fproc).

Lemma fupd_ok p (g : fproc -> fproc) s q : f_procs s !! p = Some q -> fupd p g s = Ok tt (set_fprocs (<[p := g q]> (f_procs s)) s).
Proof. intros E. unfold fupd, fproc_at. mgo. rewrite E. by mgo. Qed.
Lemma fupd_insert p q g ps n lk k (f : F) : (p < length ps)%nat -> fupd p g (FSt (<[p := q]> ps) n lk k f) = Ok tt (FSt (<[p := g q]> ps) n lk k f).
Proof. intros H. rewrite (fupd_ok p g _ q) by (by apply list_lookup_insert_eq). unfold set_fprocs. cbn. by rewrite list_insert_insert_eq. Qed.
Lemma fproc_at_ok p s q : f_procs s !! p = Some q -> fproc_at p s = Ok q s.
Proof. intros E. unfold fproc_at. mgo. rewrite E. by mgo. Qed.
Lemma fkern_ok {A} (m : M kst A) ps n lk k (f : F) a t : m k = Ok a t -> fkern m (FSt ps n lk k f) = Ok a (FSt ps n lk t f).
Proof. intros E. by apply (zoom_Ok f_kst set_fkst). Qed.
Lemma facquire_ok ps n k (f : F) : facquire (FSt ps n false k f) = Ok tt (FSt ps n true k f).
Proof. done. Qed.
Lemma frelease_ok ps n k (f : F) : frelease (FSt ps n true k f) = Ok tt (FSt ps n false k f).
Proof. done. Qed.

(** The first free slot. *)
Definition first_free (l : list fproc) (p : nat) (q : fproc) : Prop :=
  l !! p = Some q /\ f_state q = FUnused /\ forall j q', (j < p)%nat -> l !! j = Some q' -> f_state q' <> FUnused.
Lemma unused_slot_ok l : forall i, match unused_slot i l with
  | Some p => exists j q, p = (i + j)%nat /\ first_free l j q
  | None => Forall (fun q => f_state q <> FUnused) l
  end.
Proof.
  induction l as [|q l IH]; intros i; cbn [unused_slot]; [constructor|]. case_bool_decide as E.
  - exists 0%nat, q. split; [lia|]. split; [done|]. split; [done|]. intros j q' Hj. lia.
  - specialize (IH (S i)). destruct (unused_slot (S i) l) as [p|]; [|by constructor]. destruct IH as (j & q' & -> & L & Hu & B).
    exists (S j), q'. split; [lia|]. split; [done|]. split; [done|]. intros [|j'] q2 Hj L2; [by injection L2 as <-|]. apply (B j' q2); [lia|done].
Qed.
End steps.

(** ** allocproc *)

Section alloc.
Context {F : Type} (me : nat) (trapret forkret : Z) (Ht : is_u32 trapret) (Hf : is_u32 forkret).

Definition embryo (q : fproc) (n k : Z) : fproc := FProc FEmbryo n (f_parent q) (frame_at k) (context_at k) (f_name q) (set_kstack k (f_u q)) (f_killed q).
Definition unborn (q : fproc) (n : Z) : fproc := FProc FUnused n (f_parent q) (f_tf q) (f_context q) (f_name q) (set_kstack 0 (f_u q)) (f_killed q).

Lemma allocproc_full (s : fst F) : f_lock s = false -> unused_slot 0 (f_procs s) = None -> allocproc trapret forkret s = Ok None s.
Proof. destruct s as [ps n lk k f]. cbn. intros -> E. unfold allocproc. rewrite (bind_Ok _ _ _ _ _ (facquire_ok ps n k f)). mgo. cbn [f_procs]. rewrite E. by rewrite (bind_Ok _ _ _ _ _ (frelease_ok ps n k f)). Qed.

(** The stack page. *)
Lemma stack_init_ok t k rest l : page_inv me t rest (k :: l) -> exists t1, kalloc t = Ok k t1 /\ k <> 0 /\
  let t2 := set_mem (stack_mem trapret forkret (k_mem t1) k) t1 in
  page_inv me t2 (k :: rest) l /\ new_stack trapret forkret (k_mem t2) k /\ k_end t2 = k_end t /\ page_ok (k_end t) k /\ forall w, w ∈ rest -> page_eq (k_mem t) (k_mem t2) w.
Proof.
  intros G. assert (page_ok (k_end t) k) as Hk by (eapply page_inv_ok; [exact G|]; rewrite elem_of_app; right; by left). destruct G as [Gk Ge Gok Gn].
  destruct (kalloc_step _ _ _ _ Gk) as (t1 & E1 & K1 & Em & Ee). exists t1. split; [done|]. split; [by eapply page_nonzero|]. cbv zeta.
  destruct (stack_mem_ok trapret forkret _ (k_mem t1) k Hk (ki_bytes _ _ _ K1) Ht Hf) as (Sb & Sn & So).
  assert (forall w, page_ok (k_end t) w -> w <> k -> page_eq (k_mem t1) (stack_mem trapret forkret (k_mem t1) k) w) as Hw.
  { intros w Hw Hne a Ha. symmetry. apply So. by apply (page_disjoint (k_end t) w k). }
  assert (k ∉ rest /\ k ∉ l) as [N1 N2].
  { split; intros Hin; [apply NoDup_app in Gn as (_ & Gn & _); apply (Gn k Hin); by left|]. apply NoDup_app in Gn as (_ & _ & Gn). by apply NoDup_cons in Gn as [Gn _]. }
  split; [split|split; [done|split; [done|split; [done|]]]]; cbn [k_end set_mem k_mem]; rewrite ?Ee.
  - apply kinv_mem; [done|done|]. intros w Hin. apply Hw; [|by intros ->].
    pose proof (chain_pages _ _ _ _ (ki_chain _ _ _ Gk)) as Hp. rewrite Forall_forall in Hp. apply Hp. by right.
  - done.
  - by constructor.
  - revert Gn. apply NoDup_Permutation_proper. cbn [app]. by rewrite Permutation_middle.
  - intros w Hin. rewrite <- Em. apply Hw; [rewrite Forall_forall in Gok; by apply Gok|]. by intros ->.
Qed.

Lemma alloc_embryo (s : fst F) rest l p : f_lock s = false -> page_inv me (f_kst s) rest l -> unused_slot 0 (f_procs s) = Some p ->
  exists q t l', first_free (f_procs s) p q /\ k_end t = k_end (f_kst s) /\ (forall w, w ∈ rest -> page_eq (k_mem (f_kst s)) (k_mem t) w) /\
    ((l = [] /\ page_inv me t rest l /\
      allocproc trapret forkret s = Ok None (FSt (<[p := unborn q (f_nextpid s)]> (f_procs s)) (s32 (f_nextpid s + 1)) false t (f_files s))) \/
     (exists k, l = k :: l' /\ page_inv me t (k :: rest) l' /\ new_stack trapret forkret (k_mem t) k /\ page_ok (k_end t) k /\
      allocproc trapret forkret s = Ok (Some p) (FSt (<[p := embryo q (f_nextpid s) k]> (f_procs s)) (s32 (f_nextpid s + 1)) false t (f_files s)))).
Proof.
  destruct s as [ps n lk kt f]. cbn [f_lock f_kst f_procs f_nextpid f_files]. intros -> G E.
  pose proof (unused_slot_ok ps 0) as P. rewrite E in P. destruct P as (j & q & -> & Hfree). cbn [Nat.add] in *.
  pose proof Hfree as (Lq & Hu & _). assert (j < length ps)%nat as Hlen by (by eapply lookup_lt_Some).
  unfold allocproc. rewrite (bind_Ok _ _ _ _ _ (facquire_ok ps n kt f)). mgo. cbn [f_procs]. rewrite E.
  rewrite (bind_Ok _ _ _ _ _ (fupd_ok j _ (FSt ps n true kt f) q Lq)). unfold set_fprocs. cbn [f_procs f_nextpid f_lock f_kst f_files]. mgo. cbn [f_nextpid].
  rewrite (bind_Ok _ _ _ _ _ (fupd_insert j _ _ ps n true kt f Hlen)). mgo. unfold set_fnextpid. cbn [f_procs f_nextpid f_lock f_kst f_files].
  rewrite (bind_Ok _ _ _ _ _ (frelease_ok _ _ kt f)).
  destruct l as [|k l].
  - destruct (kalloc_none _ _ (gi_k _ _ _ _ G)) as (t & E1 & K1 & Em & Ee). exists q, t, []. split; [done|]. split; [done|]. split; [rewrite Em; by intros w _ b _|]. left.
    split; [done|]. split; [destruct G as [_ Ge Gok Gn]; split; by rewrite ?Ee|].
    rewrite (bind_Ok _ _ _ _ _ (fkern_ok _ _ _ _ _ f _ _ E1)), (bind_Ok _ _ _ _ _ (fupd_insert j _ _ ps _ false t f Hlen)). change (0 =? 0) with true. cbv iota.
    rewrite (bind_Ok _ _ _ _ _ (fupd_insert j _ _ ps _ false t f Hlen)). done.
  - destruct (stack_init_ok _ _ _ _ G) as (t & E1 & Hk0 & G2 & S2 & Ee2 & Hk & W). exists q, (set_mem (stack_mem trapret forkret (k_mem t) k) t), l.
    split; [done|]. split; [done|]. split; [done|]. right. exists k. split; [done|]. split; [done|]. split; [done|]. split; [by rewrite Ee2|].
    rewrite (bind_Ok _ _ _ _ _ (fkern_ok _ _ _ _ _ f _ _ E1)), (bind_Ok _ _ _ _ _ (fupd_insert j _ _ ps _ false t f Hlen)). rewrite (proj2 (Z.eqb_neq k 0)) by done. cbv zeta.
    change (k + KSTACKSIZE - TRAPFRAME) with (frame_at k). change (frame_at k - 4 - CONTEXT) with (context_at k).
    rewrite (bind_Ok _ _ _ _ _ (fkern_ok _ _ _ _ _ f _ _ (kstore_page _ k 4016 (frame_at k - 4) trapret t Hk ltac:(addr) eq_refl))).
    rewrite (bind_Ok _ _ _ _ _ (fkern_ok _ _ _ _ _ f _ _ (kmemset_in_page _ k 3996 (context_at k) 0 CONTEXT _ Hk ltac:(addr) eq_refl))).
    rewrite (bind_Ok _ _ _ _ _ (fkern_ok _ _ _ _ _ f _ _ (kstore_page _ k 4012 (context_at k + 16) forkret _ Hk ltac:(addr) eq_refl))).
    rewrite (bind_Ok _ _ _ _ _ (fupd_insert j _ _ ps _ false _ f Hlen)). done.
Qed.
End alloc.

(** ** The copy of the address space *)

Definition view (k : kst) (u : uproc) : ust := USt k u (V2P (pgdir u)) 0.
(** The process of [v'] sees what that of [v] sees. *)
Definition sees_same (v v' : ust) : Prop := forall va, 0 <= va < KERNBASE ->
  plain v' va = plain v va /\ user_ok v' va = user_ok v va /\ enc v' va = enc v va.
(** The pages below the size are mapped, and no others. *)
Definition spans (v : ust) : Prop := 0 <= sz (us_p v) < KERNBASE /\ forall va, 0 <= va < KERNBASE -> (exists w, upage v va = Some w) <-> va < PGROUNDUP (sz (us_p v)).

Lemma sees_same_trans v1 v2 v3 : sees_same v1 v2 -> sees_same v2 v3 -> sees_same v1 v3.
Proof. intros H1 H2 va Hva. destruct (H1 va Hva) as (A1 & A2 & A3), (H2 va Hva) as (B1 & B2 & B3). by rewrite B1, B2, B3. Qed.
Lemma frame_sees u u' : us_p u' = us_p u -> (forall w, w ∈ own u -> page_eq (umem u) (umem u') w) -> sees_same u u'.
Proof. intros Hp F va Hva. split; [by apply frame_plain|]. split; [by apply frame_user|by apply frame_enc]. Qed.
Lemma unmapped_view v va : upage v va = None -> user_ok v va = false /\ enc v va = false /\ plain v va = None.
Proof.
  intros E. pose proof (mapped_upage v va) as M. rewrite E in M. split; [unfold user_ok; by rewrite M|]. split.
  - unfold enc, mapped, flag in *. apply negb_false_iff, Z.eqb_eq in M. apply negb_false_iff, Z.eqb_eq. rewrite Z.land_lor_distr_r in M. by apply Z.lor_eq_0_iff in M as [_ ?].
  - unfold plain, stored. by rewrite E.
Qed.

Section copy.
Context (me : nat) (data : Z) (Hdata : data_ok data) (t : kst) (u : uproc) (R l : list Z).
Context (U : uinv me (view t u) R l) (Hspan : spans (view t u)).

Lemma copied_view t' u' v : copied_page (k_mem t) (pgdir u) (k_mem t') (pgdir u') (PGROUNDDOWN v) ->
  plain (view t' u') v = plain (view t u) v /\ user_ok (view t' u') v = user_ok (view t u) v /\ enc (view t' u') v = enc (view t u) v.
Proof.
  intros (a & b & Pa & Pb & Fl & By). assert (PGROUNDDOWN v / PGSIZE = v / PGSIZE) as Ev by apply PGROUNDDOWN_page.
  rewrite (page_of_page (k_mem t') (pgdir u') _ _ Ev) in Pa. rewrite (page_of_page (k_mem t) (pgdir u) _ _ Ev) in Pb.
  rewrite (lookup_page (k_mem t') (pgdir u') _ _ Ev), (lookup_page (k_mem t) (pgdir u) _ _ Ev) in Fl. change (upage (view t' u') v = Some a) in Pa. change (upage (view t u) v = Some b) in Pb.
  change (PTE_FLAGS (ulookup (view t' u') v) = pte_flags (PTE_FLAGS (ulookup (view t u) v))) in Fl. destruct (pte_flags_view _ (PTE_FLAGS_range (ulookup (view t u) v))) as (_ & Fe & Fu). rewrite <- Fl in Fe, Fu.
  rewrite <- !flag_of_flags in Fe, Fu by done. pose proof (mapped_upage (view t' u') v) as Ma. pose proof (mapped_upage (view t u) v) as Mb. rewrite Pa in Ma. rewrite Pb in Mb.
  split; [|split; [unfold user_ok; by rewrite Ma, Mb, Fu|exact Fe]]. unfold plain, stored. rewrite Pa, Pb. cbn [mbind option_bind]. unfold enc. rewrite Fe.
  pose proof (By (v `mod` PGSIZE) (Z.mod_pos_bound v PGSIZE eq_refl)) as B. change (umem (view t' u')) with (k_mem t'). change (umem (view t u)) with (k_mem t). by rewrite B.
Qed.

Lemma copy_space : exists r t' l', copyuvm data (pgdir u) (sz u) t = Ok r t' /\ k_end t' = k_end t /\ (forall w, w ∈ own (view t u) ++ R -> page_eq (k_mem t) (k_mem t') w) /\
  ((r = 0 /\ page_inv me t' (own (view t u) ++ R) l' /\ l' ≡ₚ l /\ Z.of_nat (length l) <= 1025 + Z.of_nat (length (pages 0 (sz u)))) \/
   (r <> 0 /\ forall u', pgdir u' = r -> kstack u' <> 0 -> sz u' = sz u ->
      uinv me (view t' u') (own (view t u) ++ R) l' /\ own (view t' u') ++ l' ≡ₚ l /\ sees_same (view t u) (view t' u') /\ spans (view t' u'))).
Proof.
  destruct Hspan as [Hsz Hmap]. cbn [view us_p] in Hsz, Hmap. pose proof (PGROUNDUP_bounds (sz u) ltac:(lia) ltac:(unfold PGSIZE, KERNBASE in *; lia)) as B. pose proof (PGROUNDUP_aligned (sz u)) as A.
  set (rest := range_pages (k_mem t) (pgdir u) 0 KERNBASE ++ R). assert (own (view t u) ++ R = pt_pages (k_mem t) (pgdir u) ++ rest) as Eo by (unfold own, rest; by rewrite <- app_assoc).
  destruct (copyuvm_ok me data Hdata t (pgdir u) rest l (ui_pt _ _ _ _ U) (sz u)) as (r & t' & l' & E & O).
  { split; [lia|]. intros va [Hva _]%elem_of_pages_range; [|done]. destruct (proj2 (Hmap va ltac:(lia)) ltac:(lia)) as [w Hw]. exists w. split; [done|]. unfold rest. rewrite elem_of_app. left. by apply (upage_range (view t u) va); [lia|]. }
  exists r, t', l'. split; [done|]. destruct O as [(-> & (G & P & Ee & W) & Hs)|(Hr & [G P Ee Out W] & Cp)].
  { split; [done|]. split; [intros w Hw; apply W; by rewrite <- Eo|]. left. by rewrite Eo. }
  split; [done|]. split; [intros w Hw; apply W; by rewrite <- Eo|]. right. split; [done|]. intros u' <- Hk Hsz'.
  assert (forall va, PGROUNDUP (sz u) <= va < KERNBASE -> upage (view t' u') va = None) as Hout.
  { intros va Hva. unfold upage, page_of. change (umem (view t' u')) with (k_mem t'). change (us_p (view t' u')) with u'. rewrite Out.
    - by rewrite (kvm_entry_user data Hdata) by lia.
    - unfold is_u32, KERNBASE in *. lia.
    - unfold in_range. rewrite (proj2 (Z.ltb_ge _ _)); [by rewrite andb_false_r|]. rewrite PGROUNDDOWN_eq. unfold PGSIZE in *. clear -A Hva. Z.div_mod_to_equations. lia. }
  assert (range_pages (k_mem t') (pgdir u') 0 KERNBASE ≡ₚ range_pages (k_mem t') (pgdir u') 0 (PGROUNDUP (sz u))) as Er.
  { apply range_pages_prefix; [done|done|unfold PGSIZE, KERNBASE in *; Z.div_mod_to_equations; lia|]. intros va [Hva _]%elem_of_pages_range; [|done].
    pose proof (mapped_upage (view t' u') va) as M. by rewrite Hout in M. }
  assert (forall va, 0 <= va < KERNBASE -> va < PGROUNDUP (sz u) -> copied_page (k_mem t) (pgdir u) (k_mem t') (pgdir u') (PGROUNDDOWN va)) as Hcp.
  { intros va Hva Hlt. apply Cp, elem_of_pages_range; [done|]. split; [|apply PGROUNDDOWN_aligned]. pose proof (PGROUNDDOWN_bounds va). rewrite PGROUNDDOWN_eq in *. unfold PGSIZE in *. clear -Hva Hlt H. Z.div_mod_to_equations. lia. }
  split; [split; [|done|done]|split; [|split]].
  - cbn [view us_k us_p umem]. eapply pt_rest_perm; [|exact G]. by rewrite Er, Eo.
  - unfold own. cbn [view us_k us_p umem]. rewrite Er, <- app_assoc. exact P.
  - intros va Hva. destruct (decide (va < PGROUNDUP (sz u))) as [Hlt|Hge]; [by apply copied_view, Hcp|].
    destruct (unmapped_view (view t' u') va (Hout va ltac:(lia))) as (-> & -> & ->). assert (upage (view t u) va = None) as En.
    { destruct (upage (view t u) va) eqn:Eq; [|done]. exfalso. apply Hge. apply Hmap; [lia|]. by eexists. }
    by destruct (unmapped_view _ _ En) as (-> & -> & ->).
  - split; [cbn [view us_p]; lia|]. cbn [view us_p]. rewrite Hsz'. intros va Hva. split.
    + intros [w Hw]. destruct (decide (va < PGROUNDUP (sz u))); [done|]. by rewrite Hout in Hw by lia.
    + intros Hlt. destruct (Hcp va Hva Hlt) as (a & _ & Pa & _). exists a. rewrite <- Pa. symmetry. apply page_of_page, PGROUNDDOWN_page.
Qed.
End copy.

(** ** The registers *)

Definition regs_mem (m : memory) (k w : Z) : memory := wr32 (memmove m (V2P (frame_at k)) (V2P (frame_at w)) TRAPFRAME) (V2P (frame_at k + 28)) 0.
(** The trap frame in page [k] is the one in page [w], with 0 in eax. *)
Definition regs_copied (m : memory) (k w : Z) : Prop :=
  (forall i, 0 <= i < TRAPFRAME -> ~ 28 <= i < 32 -> rd8 m (V2P (frame_at k) + i) = rd8 m (V2P (frame_at w) + i)) /\ rd32 m (V2P (frame_at k) + 28) = 0.

Lemma frame_V2P e k i : page_ok e k -> 0 <= i < TRAPFRAME -> V2P (frame_at k + i) = V2P k + (4020 + i).
Proof. intros H Hi. unfold TRAPFRAME in Hi. replace (frame_at k + i) with (k + (4020 + i)) by addr. apply (V2P_off e); [done|unfold PGSIZE; lia]. Qed.
Lemma frame_V2P0 e k : page_ok e k -> V2P (frame_at k) = V2P k + 4020.
Proof. intros H. rewrite <- (Z.add_0_r (frame_at k)). by apply (frame_V2P e). Qed.

Lemma regs_mem_ok e m k w trapret forkret : page_ok e k -> page_ok e w -> k <> w -> bytes_ok m -> new_stack trapret forkret m k ->
  bytes_ok (regs_mem m k w) /\ regs_copied (regs_mem m k w) k w /\ new_stack trapret forkret (regs_mem m k w) k /\ forall a, ~ in_page k a -> rd8 (regs_mem m k w) a = rd8 m a.
Proof.
  intros Hk Hw Hne Hm (S1 & S2 & S3). assert (bytes_ok (regs_mem m k w)) as Hb by (unfold regs_mem; by apply bytes_ok_wr32, bytes_ok_memmove).
  assert (forall a, rd8 (regs_mem m k w) a = if decide (V2P k + 4048 <= a < V2P k + 4052) then rd8 (regs_mem m k w) a else if decide (V2P k + 4020 <= a < V2P k + PGSIZE) then rd8 m (V2P w + (a - V2P k)) else rd8 m a) as Hrd.
  { intros a. case_decide as H; [done|]. unfold regs_mem. rewrite (frame_V2P e k 28), (frame_V2P0 e k), (frame_V2P0 e w) by (done || unfold TRAPFRAME; lia).
    rewrite rd8_wr32_ne, rd8_memmove by (done || unfold TRAPFRAME; lia). unfold TRAPFRAME, PGSIZE. case_decide; case_decide; try lia; f_equal; lia. }
  assert (forall a, ~ (V2P k + 4020 <= a < V2P k + PGSIZE) -> rd8 (regs_mem m k w) a = rd8 m a) as Hlow.
  { intros a Ha. unfold PGSIZE in Ha. rewrite Hrd. rewrite decide_False by lia. rewrite decide_False by (unfold PGSIZE; lia). done. }
  split; [done|]. split; [split|split; [split; [|split]|]].
  - intros i Hi Hn. rewrite (frame_V2P0 e k), (frame_V2P0 e w) by done. unfold TRAPFRAME in Hi. rewrite Hrd. rewrite decide_False by lia. rewrite decide_True by (unfold PGSIZE; lia).
    rewrite Hlow; [f_equal; lia|]. intros Hin. apply (page_disjoint e k w (V2P w + 4020 + i)); unfold in_page, PGSIZE in *; try done; lia.
  - unfold regs_mem at 1. replace (V2P (frame_at k) + 28) with (V2P (frame_at k + 28)) by (rewrite (frame_V2P e k 28), (frame_V2P0 e k) by (done || unfold TRAPFRAME; lia); lia). by apply rd32_wr32_eq.
  - intros i Hi. rewrite <- (S1 i Hi). apply Hlow. replace (context_at k) with (k + 3996) by addr. rewrite (V2P_off e) by (done || unfold PGSIZE; lia). unfold PGSIZE; lia.
  - rewrite <- S2. apply rd32_ext. intros b Hbb. apply Hlow. revert Hbb. replace (context_at k) with (k + 3996) by addr. rewrite (V2P_off e) by (done || unfold PGSIZE; lia). unfold PGSIZE; lia.
  - rewrite <- S3. apply rd32_ext. intros b Hbb. apply Hlow. revert Hbb. replace (context_at k) with (k + 3996) by addr. rewrite (V2P_off e) by (done || unfold PGSIZE; lia). unfold CONTEXT, PGSIZE; lia.
  - intros a Ha. apply Hlow. unfold in_page, PGSIZE in *. lia.
Qed.

(** Writing a page in use. *)
Lemma page_inv_write me t pages l k m : page_inv me t pages l -> k ∈ pages -> bytes_ok m -> (forall a, ~ in_page k a -> rd8 m a = rd8 (k_mem t) a) ->
  page_inv me (set_mem m t) pages l /\ forall w, w ∈ pages ++ l -> w <> k -> page_eq (k_mem t) m w.
Proof.
  intros G Hk Hm H. assert (forall w, w ∈ pages ++ l -> w <> k -> page_eq (k_mem t) m w) as Hw.
  { intros w Hw Hne a Ha. symmetry. apply H. apply (page_disjoint (k_end t) w k); try done; eapply page_inv_ok; try exact G; [done|]. rewrite elem_of_app. by left. }
  split; [|done]. destruct G as [Gk Ge Gok Gn]. split; [|done|done|done]. apply kinv_mem; [done|done|]. intros v Hv. apply Hw; [rewrite elem_of_app; by right|].
  intros ->. apply NoDup_app in Gn as (_ & Gn & _). by apply (Gn k Hk).
Qed.

(** Giving a page back. *)
Lemma free_one me t pages l k : page_inv me t (k :: pages) l -> page_ok (k_end t) k ->
  exists t', kfree k t = Ok tt t' /\ page_inv me t' pages (k :: l) /\ forall w, w ∈ pages -> page_eq (k_mem t) (k_mem t') w.
Proof.
  intros G Hk. pose proof (gi_nodup _ _ _ _ G) as Hn. cbn [app] in Hn. apply NoDup_cons in Hn as [Hn Hnd]. rewrite elem_of_app in Hn.
  destruct (kfree_step _ _ _ _ (gi_k _ _ _ _ G) Hk ltac:(tauto)) as (t' & E & K & Ee & F). exists t'. split; [done|]. split.
  - destruct G as [Gk Ge Gok Gn]. apply Forall_cons in Gok as [_ Gok]. split; [done|by rewrite Ee|by rewrite Ee|]. rewrite <- Permutation_middle. exact Gn.
  - intros w Hw a Ha. symmetry. apply F. apply (page_disjoint (k_end t) w k); [|done|intros ->; tauto|done]. eapply page_inv_ok; [exact G|]. rewrite elem_of_app. left. by right.
Qed.

(** The working set depends on what the process sees and on its queue. *)
Lemma ws_exact_same v v' L : sees_same v v' -> clockqueue (us_p v') = clockqueue (us_p v) -> clockhand (us_p v') = clockhand (us_p v) -> ws_exact v L -> ws_exact v' L.
Proof.
  intros S Eq Eh [[Wr Wn Wp] Wa]. split; [split; [|done|]|].
  - destruct Wr as [W1 W2 W3 W4 W5 W6]. unfold back in W6. split; unfold back; by rewrite ?Eq, ?Eh.
  - eapply Forall_impl; [exact Wp|]. intros x (H1 & H2 & H3 & H4). destruct (S x H1) as (_ & Su & Se). split; [done|]. split; [done|]. split; congruence.
  - intros vb Hvb Ha Hu He. destruct (S vb Hvb) as (_ & Su & Se). apply Wa; [done|done|congruence|congruence].
Qed.

(** ** The child *)

Section child.
Context (me : nat) (data trapret forkret : Z) (Hdata : data_ok data) (Ht : is_u32 trapret) (Hf : is_u32 forkret).
Context (t : kst) (P : fproc) (w : Z) (R l0 l : list Z) (Hw : w ∈ R) (Htf : f_tf P = frame_at w).
Notation par t := (view t (f_u P)).
Context (k : Z) (t1 : kst) (Hk : page_ok (k_end t1) k) (Hl : k :: l ≡ₚ l0) (Hspan : spans (par t)) (U0 : uinv me (par t) R l0).
Context (W1 : forall v, v ∈ own (par t) ++ R -> page_eq (k_mem t) (k_mem t1) v) (G1 : page_inv me t1 (k :: own (par t) ++ R) l) (S1 : new_stack trapret forkret (k_mem t1) k).

(** The child's part of the process table, with page directory [d]. *)
Definition child_u (d : Z) : uproc := UProc (sz (f_u P)) d k (clockqueue (f_u P)) (clockhand (f_u P)).

Record copied (t' : kst) (d : Z) (l' : list Z) : Prop := Copied {
  cp_stack : new_stack trapret forkret (k_mem t') k;
  cp_regs : regs_copied (k_mem t') k w;
  cp_parent : uinv me (par t') (k :: own (view t' (child_u d)) ++ R) l';
  cp_child : uinv me (view t' (child_u d)) (k :: own (par t) ++ R) l';
  cp_pages : k :: own (view t' (child_u d)) ++ l' ≡ₚ l0;
  cp_sees : sees_same (par t) (view t' (child_u d));
  cp_spans : spans (view t' (child_u d));
  cp_rest : forall v, v ∈ own (par t) ++ R -> page_eq (k_mem t) (k_mem t') v
}.

Lemma parent_frame t' : (forall v, v ∈ own (par t) ++ R -> page_eq (k_mem t) (k_mem t') v) -> own (par t') = own (par t) /\ sees_same (par t) (par t') /\
  forall R' l', page_inv me t' (own (par t) ++ R') l' -> uinv me (par t') R' l'.
Proof.
  intros F. assert (forall v, v ∈ own (par t) -> page_eq (umem (par t)) (umem (par t')) v) as Fo by (intros v Hv; apply F; rewrite elem_of_app; by left).
  split; [by apply frame_own|]. split; [by apply frame_sees|]. intros R' l' G. eapply (frame_uinv (par t)); [done|exact Fo|done|exact (ui_kstack _ _ _ _ U0)|exact G].
Qed.

Lemma child_memory : exists r t2 l', copyuvm data (pgdir (f_u P)) (sz (f_u P)) t1 = Ok r t2 /\
  ((r = 0 /\ page_inv me t2 (k :: own (par t) ++ R) l' /\ l' ≡ₚ l /\ Z.of_nat (length l) <= 1025 + Z.of_nat (length (pages 0 (sz (f_u P)))) /\
    k_end t2 = k_end t1 /\ forall v, v ∈ own (par t) ++ R -> page_eq (k_mem t) (k_mem t2) v) \/
   (r <> 0 /\ kmemmove (frame_at k) (f_tf P) TRAPFRAME t2 = Ok tt (set_mem (memmove (k_mem t2) (V2P (frame_at k)) (V2P (frame_at w)) TRAPFRAME) t2) /\
    kstore (frame_at k + 28) 0 (set_mem (memmove (k_mem t2) (V2P (frame_at k)) (V2P (frame_at w)) TRAPFRAME) t2) = Ok tt (set_mem (regs_mem (k_mem t2) k w) t2) /\
    copied (set_mem (regs_mem (k_mem t2) k w) t2) r l')).
Proof.
  destruct (parent_frame t1 W1) as (Eo & Sp & Up). assert (uinv me (par t1) (k :: R) l) as U1.
  { apply Up. eapply page_inv_perm; [|exact G1]. by rewrite Permutation_middle. }
  assert (spans (par t1)) as Hspan1.
  { destruct Hspan as [A B]. split; [done|]. intros va Hva. rewrite <- (B va Hva). rewrite (frame_page (par t)); [done|done|]. intros v Hv. apply W1. rewrite elem_of_app; by left. }
  destruct (copy_space me data Hdata t1 (f_u P) (k :: R) l U1 Hspan1) as (r & t2 & l' & E & Ee & W & O). exists r, t2, l'. split; [done|]. rewrite Eo in *.
  assert (own (par t) ++ k :: R ≡ₚ k :: own (par t) ++ R) as Pm by (by rewrite Permutation_middle).
  assert (forall v, v ∈ own (par t) ++ R -> page_eq (k_mem t) (k_mem t2) v) as W2.
  { intros v Hv a Ha. rewrite (W1 v Hv a Ha). apply (W v); [|done]. rewrite Pm. by right. }
  destruct O as [(-> & G & Pl & Hs)|(Hr & Hc)].
  { left. split; [done|]. split; [by eapply page_inv_perm|]. done. }
  right. split; [done|]. assert (k <> 0) as Hk0 by (by eapply page_nonzero). destruct (Hc (child_u r) eq_refl Hk0 eq_refl) as (U2 & P2 & S2 & Sp2).
  set (C := view t2 (child_u r)) in *. pose proof (uinv_page_inv _ _ _ _ U2) as G2. change (us_k C) with t2 in G2.
  assert (k ∈ own C ++ own (par t) ++ k :: R) as Hkin by (rewrite !elem_of_app, elem_of_cons; tauto).
  assert (w ∈ own (par t) ++ R) as Hwin by (rewrite elem_of_app; by right).
  assert (NoDup (own C ++ k :: own (par t) ++ R)) as Hnd by (rewrite <- Pm; exact (proj1 (proj1 (NoDup_app _ _) (gi_nodup _ _ _ _ G2)))).
  assert (forall v, v ∈ own C ++ own (par t) ++ R -> v <> k) as Hnek.
  { intros v Hv ->. rewrite <- Permutation_middle in Hnd. apply NoDup_cons in Hnd as [Hn _]. by apply Hn. }
  assert (page_ok (k_end t2) w) as Hwok by (eapply page_inv_ok; [exact G2|]; rewrite !elem_of_app, elem_of_cons; tauto). assert (page_ok (k_end t2) k) as Hkok by (by rewrite Ee).
  assert (k <> w) as Hkw by (apply not_eq_sym, Hnek; rewrite elem_of_app; by right).
  assert (new_stack trapret forkret (k_mem t2) k) as St2.
  { assert (page_eq (k_mem t1) (k_mem t2) k) as F by (apply W; rewrite Pm; by left). destruct S1 as (A1 & A2 & A3). unfold context_at, frame_at, KSTACKSIZE, TRAPFRAME, CONTEXT in *.
    replace (k + 4096 - 76 - 4 - 20) with (k + 3996) in * by lia. rewrite !(V2P_off _ k 3996 Hkok) in * by (unfold PGSIZE; lia). unfold new_stack, context_at, frame_at, KSTACKSIZE, TRAPFRAME, CONTEXT.
    replace (k + 4096 - 76 - 4 - 20) with (k + 3996) by lia. rewrite !(V2P_off _ k 3996 Hkok) by (unfold PGSIZE; lia). split_and!; [|rewrite <- A2|rewrite <- A3].
    - intros i Hi. rewrite <- (A1 i Hi). symmetry. apply F. unfold in_page, PGSIZE. lia.
    - apply rd32_ext. intros b Hb. symmetry. apply F. unfold in_page, PGSIZE. lia.
    - apply rd32_ext. intros b Hb. symmetry. apply F. unfold in_page, PGSIZE. lia. }
  destruct (regs_mem_ok _ (k_mem t2) k w trapret forkret Hkok Hwok Hkw (ki_bytes _ _ _ (gi_k _ _ _ _ G2)) St2) as (Rb & Rc & Rs & Ro).
  destruct (page_inv_write me t2 _ l' k (regs_mem (k_mem t2) k w) G2 Hkin Rb Ro) as [G3 W3]. set (t3 := set_mem (regs_mem (k_mem t2) k w) t2) in *.
  split; [|split; [by apply (kstore_page (k_end t2) k (4020 + 28)); [exact Hkok|addr|]|]].
  { rewrite Htf. unfold kmemmove. destruct Hkok as [_ _ K1 K2], Hwok as [_ _ V1 V2]. rewrite !(proj2 (Z.leb_le _ _)); [done|..]; revert K1 K2 V1 V2; unfold PGSIZE; clear; intros; addr. }
  assert (forall v, v ∈ own C -> page_eq (umem C) (umem (view t3 (child_u r))) v) as FC.
  { intros v Hv. apply W3; [rewrite !elem_of_app; tauto|]. apply Hnek. rewrite elem_of_app. by left. }
  assert (own (view t3 (child_u r)) = own C) as Ec by (by apply (frame_own C)).
  assert (forall v, v ∈ own (par t) ++ R -> page_eq (k_mem t) (k_mem t3) v) as Wt3.
  { intros v Hv a Ha. rewrite (W2 v Hv a Ha). apply (W3 v); [|apply Hnek; rewrite elem_of_app; by right|done]. revert Hv. rewrite !elem_of_app, elem_of_cons. tauto. }
  destruct (parent_frame t3 Wt3) as (Eo3 & Sp3 & Up3). split; [done|done|..]; rewrite ?Ec.
  - apply Up3. eapply page_inv_perm; [|exact G3]. rewrite Pm. rewrite <- !Permutation_middle. f_equiv. rewrite !app_assoc. f_equiv. apply Permutation_app_comm.
  - eapply (frame_uinv C); [done|exact FC|done|exact Hk0|]. eapply page_inv_perm; [|exact G3]. by rewrite Pm.
  - by rewrite P2, Hl.
  - eapply sees_same_trans; [exact Sp|]. eapply sees_same_trans; [exact S2|]. by apply frame_sees.
  - destruct Sp2 as [A B]. split; [done|]. intros va Hva. change (us_p (view t3 (child_u r))) with (us_p C). rewrite <- (B va Hva). by rewrite (frame_page C).
  - done.
Qed.
End child.

(** ** fork *)

Section fork_defs.
Context {F : Type} (fork_files : nat -> nat -> M F unit) (me : nat) (trapret forkret : Z).
Context (s : fst F) (cur : nat) (P : fproc) (w : Z) (R l : list Z).
Notation par s := (view (f_kst s) (f_u P)).

(** The process in slot [cur] calls fork, with its trap frame in page [w]. *)
Record forking : Prop := Forking {
  fg_cur : f_procs s !! cur = Some P;
  fg_live : f_state P <> FUnused;
  fg_queues : Forall (fun q => length (clockqueue (f_u q)) = 8%nat) (f_procs s);
  fg_lock : f_lock s = false;
  fg_frame : f_tf P = frame_at w /\ w ∈ R;
  fg_inv : uinv me (par s) R l;
  fg_spans : spans (par s)
}.

(** No child: no slot, or too few pages, and then none is lost. *)
Definition not_forked (s' : fst F) : Prop :=
  (s' = s /\ Forall (fun q => f_state q <> FUnused) (f_procs s)) \/
  (exists np q Q l', first_free (f_procs s) np q /\ f_procs s' = <[np := Q]> (f_procs s) /\ f_state Q = FUnused /\ kstack (f_u Q) = 0 /\
     f_nextpid s' = s32 (f_nextpid s + 1) /\ f_lock s' = false /\ f_files s' = f_files s /\
     uinv me (par s') R l' /\ l' ≡ₚ l /\ (forall v, v ∈ own (par s) ++ R -> page_eq (k_mem (f_kst s)) (k_mem (f_kst s')) v) /\
     Z.of_nat (length l) <= 1026 + Z.of_nat (length (pages 0 (sz (f_u P))))).

Definition child (q : fproc) (n k d : Z) : fproc := FProc FRunnable n (Some cur) (frame_at k) (context_at k) (take 15 (f_name P)) (child_u P k d) (f_killed q).
(** A child in slot [np], with kernel stack [k], page directory [d], and [l'] still free. *)
Record forked (s' : fst F) (np : nat) (k d : Z) (l' : list Z) : Prop := Forked {
  fk_slot : exists q, first_free (f_procs s) np q /\ f_procs s' = <[np := child q (f_nextpid s) k d]> (f_procs s);
  fk_pid : f_nextpid s' = s32 (f_nextpid s + 1) /\ f_lock s' = false;
  fk_copied : copied me trapret forkret (f_kst s) P w R l k (f_kst s') d l';
  fk_wset : forall L, ws_exact (par s) L -> ws_exact (view (f_kst s') (child_u P k d)) L;
  fk_files : fork_files cur np (f_files s) = Ok tt (f_files s')
}.

End fork_defs.

Section fork_spec.
Context {F : Type} (fork_files : nat -> nat -> M F unit) (me : nat) (data trapret forkret : Z).
Context (Hdata : data_ok data) (Ht : is_u32 trapret) (Hf : is_u32 forkret).

Lemma fork_outcome s cur P w R l : forking me s cur P w R l -> (forall np, exists f, fork_files cur np (f_files s) = Ok tt f) ->
  exists r s', fork fork_files data trapret forkret cur s = Ok r s' /\
    ((r = -1 /\ not_forked me s P R l s') \/
     (r = f_nextpid s /\ exists np k d l', forked fork_files me trapret forkret s cur P w R l s' np k d l')).
Proof.
  intros [Hcur Hlive Hq Hlock [Htf Hw] U Hspan] Hfiles. pose proof (uinv_page_inv _ _ _ _ U) as G. unfold fork.
  destruct (unused_slot 0 (f_procs s)) as [np|] eqn:Es; swap 1 2.
  { rewrite (bind_Ok _ _ _ _ _ (allocproc_full trapret forkret s Hlock Es)). exists (-1), s. split; [done|]. left. split; [done|]. left. split; [done|].
    pose proof (unused_slot_ok (f_procs s) 0) as X. by rewrite Es in X. }
  destruct (alloc_embryo me trapret forkret Ht Hf s _ l np Hlock G Es) as (q & t1 & l1 & Hfree & Ee & W1 & O). pose proof Hfree as (Lq & Hu & _).
  assert (np < length (f_procs s))%nat as Hlen by (by eapply lookup_lt_Some). assert (np <> cur) as Hne by (intros ->; congruence).
  destruct O as [(El & G1 & E1)|(k & El & G1 & S1 & Hk & E1)]; rewrite (bind_Ok _ _ _ _ _ E1).
  { eexists (-1), _. split; [done|]. left. split; [done|]. right. exists np, q, (unborn q (f_nextpid s)), []. do 7 (split; [done|]). cbn [f_kst].
    rewrite El in *. split; [|split; [done|split; [done|cbn [length]; lia]]]. by apply (parent_frame me (f_kst s) P R [] U t1 W1). }
  destruct (child_memory me data trapret forkret Hdata (f_kst s) P w R l l1 Hw Htf k t1 Hk ltac:(by rewrite El) Hspan U W1 G1 S1) as (d & t2 & l' & E2 & O).
  assert (length (clockqueue (f_u q)) = 8%nat /\ length (clockqueue (f_u P)) = 8%nat) as [Q8 P8].
  { rewrite Forall_forall in Hq. split; apply Hq; by eapply list_elem_of_lookup_2. }
  destruct s as [ps n lk kt f]. cbn [f_procs f_nextpid f_lock f_kst f_files] in *.
  rewrite (bind_Ok _ _ _ _ _ (fupd_insert np _ _ ps _ false t1 f Hlen)).
  assert (forall q' n' lk' t', fproc_at (F := F) cur (FSt (<[np := q']> ps) n' lk' t' f) = Ok P (FSt (<[np := q']> ps) n' lk' t' f)) as Ecur by (intros; apply fproc_at_ok; cbn [f_procs]; by rewrite list_lookup_insert_ne).
  assert (forall q' n' lk' t' f', fproc_at (F := F) np (FSt (<[np := q']> ps) n' lk' t' f') = Ok q' (FSt (<[np := q']> ps) n' lk' t' f')) as Enp by (intros; apply fproc_at_ok; cbn [f_procs]; by apply list_lookup_insert_eq).
  rewrite (bind_Ok _ _ _ _ _ (Ecur _ _ _ _)), (bind_Ok _ _ _ _ _ (fkern_ok _ _ _ _ _ f _ _ E2)), (bind_Ok _ _ _ _ _ (fupd_insert np _ _ ps _ false t2 f Hlen)).
  destruct O as [(-> & G2 & Pl & Hs & Ee2 & W2)|(Hd & E3 & E4 & Cp)].
  - change (0 =? 0) with true. cbv iota. rewrite (bind_Ok _ _ _ _ _ (Enp _ _ _ _ _)). change (kstack (f_u _)) with k.
    destruct (free_one _ _ _ _ _ G2 ltac:(by rewrite Ee2)) as (t3 & E3 & G3 & F3).
    rewrite (bind_Ok _ _ _ _ _ (fkern_ok _ _ _ _ _ f _ _ E3)), (bind_Ok _ _ _ _ _ (fupd_insert np _ _ ps _ false t3 f Hlen)), (bind_Ok _ _ _ _ _ (fupd_insert np _ _ ps _ false t3 f Hlen)).
    eexists (-1), _. split; [done|]. left. split; [done|]. right. eexists np, q, _, (k :: l'). do 7 (split; [done|]). cbn [f_kst].
    assert (forall v, v ∈ own (view kt (f_u P)) ++ R -> page_eq (k_mem kt) (k_mem t3) v) as W3 by (intros v Hv a Ha; rewrite (W2 v Hv a Ha); by apply (F3 v)).
    split; [|split; [by rewrite El, Pl|split; [done|rewrite El; cbn [length] in *; lia]]]. by apply (parent_frame me kt P R l U t3 W3).
  - rewrite (proj2 (Z.eqb_neq d 0)) by done. rewrite (bind_Ok _ _ _ _ _ (fupd_insert np _ _ ps _ false t2 f Hlen)), (bind_Ok _ _ _ _ _ (fupd_insert np _ _ ps _ false t2 f Hlen)), (bind_Ok _ _ _ _ _ (Enp _ _ _ _ _)).
    change (f_tf (set_fparent _ _)) with (frame_at k). rewrite (bind_Ok _ _ _ _ _ (fkern_ok _ _ _ _ _ f _ _ E3)), (bind_Ok _ _ _ _ _ (fupd_insert np _ _ ps _ false _ f Hlen)), (bind_Ok _ _ _ _ _ (fkern_ok _ _ _ _ _ f _ _ E4)).
    destruct (Hfiles np) as [f' Ef]. rewrite (bind_Ok _ _ _ _ _ (zoom_Ok f_files set_ffiles _ (FSt _ _ _ _ f) _ _ Ef)). unfold set_ffiles. cbn [f_procs f_nextpid f_lock f_kst].
    rewrite (bind_Ok _ _ _ _ _ (fupd_insert np _ _ ps _ false _ f' Hlen)), (bind_Ok _ _ _ _ _ (Enp _ _ _ _ _)).
    rewrite (bind_Ok _ _ _ _ _ (facquire_ok _ _ _ f')), (bind_Ok _ _ _ _ _ (fupd_insert np _ _ ps _ true _ f' Hlen)), (bind_Ok _ _ _ _ _ (frelease_ok _ _ _ f')).
    eexists n, _. split; [done|]. right. split; [done|]. exists np, k, d, l'. split; cbn [f_procs f_nextpid f_lock f_kst f_files].
    + exists q. split; [done|]. f_equal. cbv [set_fstate set_fname set_fparent set_fframe set_fpid on_u set_kstack set_pgdir embryo child child_u f_state f_pid f_parent f_tf f_context f_name f_u f_killed].
      rewrite clear_queue_ok by done. cbn [set_sz set_hand set_queue sz pgdir kstack clockqueue clockhand]. by rewrite copy_queue_ok.
    + done.
    + exact Cp.
    + intros L. apply ws_exact_same; [apply Cp|done|done].
    + exact Ef.
Qed.
(** C12. fork called with its registers on the kernel stack: it always returns. It returns -1 and
    makes no child only if the table is full or there are not pages for the child and the page
    tables; then every page is free or in use as before and the parent's memory is the same.
    Otherwise it returns the pid of a runnable child that has its own page for each of the
    parent's, sees the same bytes with the same pages encrypted, has the same registers but
    for a 0 in eax, a stack that returns to user space, and the parent's queue, which
    is exact for the child if it was for the parent; the pages used are the child's. *)
Theorem fork_spec s cur P w R l : forking me s cur P w R l -> (forall np, exists f, fork_files cur np (f_files s) = Ok tt f) ->
  exists r s', fork fork_files data trapret forkret cur s = Ok r s' /\
    ((r = -1 /\ not_forked me s P R l s') \/
     (r = f_nextpid s /\ exists np k d l', forked fork_files me trapret forkret s cur P w R l s' np k d l')).
Proof. apply fork_outcome. Qed.
End fork_spec.
