(* ===== verification/ForkWait.v ===== *)
(** * What wait does, and fork followed by wait

    wait returns -1, sleeps, or frees a zombie child and returns its pid; a child that
    has been forked, has exited and has been waited for leaves no trace in memory. *)

From S2P Require Import Prelude Cstring Spinlock Kalloc PageTable Uvm Encrypt Aspace Clock Sleeplock Kstack Fork ForkSafe.

(** ** The scan *)

Definition zombie_of (cur : nat) (q : fproc) : Prop := f_parent q = Some cur /\ f_state q = FZombie.
Definition is_child (cur : nat) (q : fproc) : bool := bool_decide (f_parent q = Some cur).
Definition first_zombie (l : list fproc) (cur i : nat) (q : fproc) : Prop :=
  l !! i = Some q /\ zombie_of cur q /\ forall j q', (j < i)%nat -> l !! j = Some q' -> ~ zombie_of cur q'.
Definition reaped (q : fproc) : fproc := FProc FUnused 0 None (f_tf q) (f_context q) [] (set_kstack 0 (f_u q)) 0.

Section wait.
Context {F : Type}.

Lemma scan_none cur n : forall i hk (s : fst F), (i + n = length (f_procs s))%nat ->
  (forall j q, (i <= j)%nat -> f_procs s !! j = Some q -> ~ zombie_of cur q) ->
  wait_scan cur i n hk s = Ok (None, hk || existsb (is_child cur) (drop i (f_procs s))) s.
Proof.
  induction n as [|n IH]; intros i hk s Hl Hz; cbn [wait_scan].
  - rewrite drop_ge by lia. cbn [existsb]. by rewrite orb_false_r.
  - destruct (lookup_lt_is_Some_2 (f_procs s) i ltac:(lia)) as [q Hq]. rewrite (bind_Ok _ _ _ _ _ (fproc_at_ok _ _ _ Hq)). rewrite (drop_S _ q) by done. cbn [existsb]. unfold is_child at 1.
    destruct (bool_decide (f_parent q = Some cur)) eqn:Ep; cbn [negb].
    + apply bool_decide_eq_true in Ep. rewrite bool_decide_eq_false_2 by (intros E; by apply (Hz i q)).
      rewrite IH; [by rewrite orb_true_r|lia|]. intros j q' Hj. apply Hz. lia.
    + rewrite IH; [done|lia|]. intros j q' Hj. apply Hz. lia.
Qed.

(** The pages of a zombie. *)
Lemma reap_pages me t u R l : uinv me (view t u) (kstack u :: R) l -> exists t1 t2 l', kfree (kstack u) t = Ok tt t1 /\ freevm (pgdir u) t1 = Ok tt t2 /\
  page_inv me t2 R l' /\ l' ≡ₚ kstack u :: own (view t u) ++ l /\ forall v, v ∈ R -> page_eq (k_mem t) (k_mem t2) v.
Proof.
  intros U. pose proof (uinv_page_inv _ _ _ _ U) as G. change (us_k (view t u)) with t in G.
  assert (page_inv me t (kstack u :: own (view t u) ++ R) l) as G0 by (eapply page_inv_perm; [|exact G]; by rewrite Permutation_middle).
  destruct (free_one me t _ l (kstack u) G0) as (t1 & E1 & G1 & F1); [eapply page_inv_ok; [exact G0|]; by left|].
  assert (forall v, v ∈ own (view t u) -> page_eq (umem (view t u)) (umem (view t1 u)) v) as Fo by (intros v Hv; apply F1; rewrite elem_of_app; by left).
  assert (uinv me (view t1 u) R (kstack u :: l)) as U1 by (eapply (frame_uinv (view t u)); [done|exact Fo|done|exact (ui_kstack _ _ _ _ U)|exact G1]).
  destruct (freevm_ok me (pgdir u) t1 R _ (ui_pt _ _ _ _ U1)) as (t2 & l2 & E2 & K2 & P2 & Ee2 & F2).
  change (pt_pages (k_mem t1) (pgdir u)) with (pt_pages (umem (view t1 u)) (pgdir (us_p (view t1 u)))) in P2.
  change (range_pages (k_mem t1) (pgdir u)) with (range_pages (umem (view t1 u)) (pgdir (us_p (view t1 u)))) in P2.
  rewrite app_assoc in P2. fold (own (view t1 u)) in P2. rewrite (frame_own (view t u) (view t1 u) eq_refl Fo) in P2.
  exists t1, t2, l2. split; [done|]. split; [done|]. split; [|split].
  - destruct G1 as [_ Ge Gok Gn]. apply Forall_app in Gok as [_ Gok]. split; [done|by rewrite Ee2|by rewrite Ee2|]. rewrite P2, app_assoc. revert Gn.
    apply NoDup_Permutation_proper. f_equiv. apply Permutation_app_comm.
  - rewrite P2. by rewrite Permutation_middle.
  - intros v Hv a Ha. rewrite (F1 v ltac:(rewrite elem_of_app; by right) a Ha). by apply (F2 v).
Qed.

Lemma scan_zombie me cur n : forall i hk z q ps nx lk t (f : F) R l, (i + n = length ps)%nat -> (i <= z)%nat -> first_zombie ps cur z q ->
  uinv me (view t (f_u q)) (kstack (f_u q) :: R) l -> exists t' l',
  wait_scan cur i n hk (FSt ps nx lk t f) = Ok (Some (f_pid q), true) (FSt (<[z := reaped q]> ps) nx lk t' f) /\
  page_inv me t' R l' /\ l' ≡ₚ kstack (f_u q) :: own (view t (f_u q)) ++ l /\ forall v, v ∈ R -> page_eq (k_mem t) (k_mem t') v.
Proof.
  induction n as [|n IH]; intros i hk z q ps nx lk t f R l Hl Hi (Lz & Hz & Hb) U.
  - apply lookup_lt_Some in Lz. lia.
  - cbn [wait_scan]. destruct (decide (i = z)) as [->|Hne].
    + destruct (reap_pages _ _ _ _ _ U) as (t1 & t2 & l' & E1 & E2 & G & P & W). exists t2, l'. split; [|done].
      assert (z < length ps)%nat as Hlen by (by eapply lookup_lt_Some). destruct Hz as [Hp Hs].
      rewrite (bind_Ok _ _ _ _ _ (fproc_at_ok z (FSt ps nx lk t f) q Lz)). rewrite !bool_decide_eq_true_2 by done. cbn [negb].
      rewrite (bind_Ok _ _ _ _ _ (fkern_ok _ _ _ _ _ f _ _ E1)), (bind_Ok _ _ _ _ _ (fupd_ok z _ (FSt ps nx lk t1 f) q Lz)). unfold set_fprocs. cbn [f_procs f_nextpid f_lock f_kst f_files].
      rewrite (bind_Ok _ _ _ _ _ (fkern_ok _ _ _ _ _ f _ _ E2)). do 5 rewrite (bind_Ok _ _ _ _ _ (fupd_insert z _ _ ps nx lk t2 f Hlen)). done.
    + destruct (lookup_lt_is_Some_2 ps i ltac:(lia)) as [q' Hq]. rewrite (bind_Ok _ _ _ _ _ (fproc_at_ok i (FSt ps nx lk t f) q' Hq)).
      destruct (bool_decide (f_parent q' = Some cur)) eqn:Ep; cbn [negb]; [|by apply (IH (S i) hk); [lia|lia| |]].
      rewrite bool_decide_eq_false_2; [by apply (IH (S i) true); [lia|lia| |]|]. apply bool_decide_eq_true in Ep. intros E. by apply (Hb i q' ltac:(lia) Hq).
Qed.

(** wait by the process in slot [cur]: without a zombie child it returns -1 if it has no
    child or was killed, and sleeps otherwise, with nothing changed; with one, it returns the pid of
    the first in the table, frees its slot, and gives all pages of its address space and its
    kernel stack, no others, back to the allocator. *)
Lemma wait_spec me cur (s : fst F) c R l : f_lock s = false -> f_procs s !! cur = Some c ->
  ((forall j q, f_procs s !! j = Some q -> ~ zombie_of cur q) -> wait cur s =
     if negb (existsb (is_child cur) (f_procs s)) || negb (f_killed c =? 0) then Ok (Some (-1)) s else Ok None (set_flock true s)) /\
  (forall i q, first_zombie (f_procs s) cur i q -> uinv me (view (f_kst s) (f_u q)) (kstack (f_u q) :: R) l -> exists t l',
     wait cur s = Ok (Some (f_pid q)) (FSt (<[i := reaped q]> (f_procs s)) (f_nextpid s) false t (f_files s)) /\
     page_inv me t R l' /\ l' ≡ₚ kstack (f_u q) :: own (view (f_kst s) (f_u q)) ++ l /\ forall v, v ∈ R -> page_eq (k_mem (f_kst s)) (k_mem t) v).
Proof.
  destruct s as [ps nx lk kt f]. cbn [f_lock f_procs f_kst f_nextpid f_files]. intros -> Hc. unfold wait. split.
  - intros Hz. rewrite (bind_Ok _ _ _ _ _ (facquire_ok ps nx kt f)). unfold wait_turn. mgo. cbn [f_procs].
    rewrite (bind_Ok _ _ _ _ _ (scan_none cur (length ps) 0 false (FSt ps nx true kt f) eq_refl (fun j q _ => Hz j q))). cbn [orb f_procs]. rewrite drop_0.
    rewrite (bind_Ok _ _ _ _ _ (fproc_at_ok cur (FSt ps nx true kt f) c Hc)). by destruct (_ || _).
  - intros i q Hz U. destruct (scan_zombie me cur (length ps) 0 false i q ps nx true kt f R l eq_refl ltac:(lia) Hz U) as (t & l' & E & H). exists t, l'. split; [|done].
    rewrite (bind_Ok _ _ _ _ _ (facquire_ok ps nx kt f)). unfold wait_turn. mgo. cbn [f_procs]. by rewrite (bind_Ok _ _ _ _ _ E).
Qed.
End wait.

(** ** fork and wait *)

Section roundtrip.
Context {F : Type} (fork_files : nat -> nat -> M F unit) (me : nat) (data trapret forkret : Z).
Context (Hdata : data_ok data) (Ht : is_u32 trapret) (Hf : is_u32 forkret).

(** What the last steps of exit do to the table. *)
Definition exited (np : nat) (s : fst F) : fst F := match f_procs s !! np with Some q => set_fprocs (<[np := set_fstate FZombie q]> (f_procs s)) s | None => s end.

(** C13. When a process with no zombie child forks, and the child becomes a zombie, then wait
    returns the child's pid, frees its slot, and all pages that the fork took are free
    again; the parent's memory is as it was before the fork. *)
Theorem fork_wait_roundtrip s cur P w R l : forking me s cur P w R l -> (forall np, exists f, fork_files cur np (f_files s) = Ok tt f) ->
  (forall j q, f_procs s !! j = Some q -> ~ zombie_of cur q) ->
  exists r s', fork fork_files data trapret forkret cur s = Ok r s' /\
    ((r = -1 /\ not_forked me s P R l s') \/
     exists np s3 l3 q, wait cur (exited np s') = Ok (Some r) s3 /\ f_procs s3 = <[np := q]> (f_procs s) /\ f_state q = FUnused /\ f_lock s3 = false /\
       uinv me (view (f_kst s3) (f_u P)) R l3 /\ l3 ≡ₚ l /\ sees_same (view (f_kst s) (f_u P)) (view (f_kst s3) (f_u P)) /\
       forall v, v ∈ own (view (f_kst s) (f_u P)) ++ R -> page_eq (k_mem (f_kst s)) (k_mem (f_kst s3)) v).
Proof.
  intros G Hfiles Hz. destruct (fork_outcome fork_files me data trapret forkret Hdata Ht Hf s cur P w R l G Hfiles) as (r & s' & E & O). exists r, s'. split; [exact E|].
  destruct O as [O|(-> & np & k & d & l' & [(q & (Lq & Hu & _) & Etab) [_ Elk] Cp _ _])]; [by left|right].
  destruct s' as [ps' nx lk t' f']. cbn [f_procs f_lock f_kst f_nextpid f_files] in *. subst lk ps'.
  assert (np < length (f_procs s))%nat as Hlen by (by eapply lookup_lt_Some). set (Q := child cur P q (f_nextpid s) k d) in *. set (Z := set_fstate FZombie Q).
  assert (exited np (FSt (<[np := Q]> (f_procs s)) nx false t' f') = FSt (<[np := Z]> (f_procs s)) nx false t' f') as Ex.
  { unfold exited. cbn [f_procs]. rewrite list_lookup_insert_eq by done. unfold set_fprocs. cbn [f_procs f_nextpid f_lock f_kst f_files]. by rewrite list_insert_insert_eq. }
  assert (first_zombie (<[np := Z]> (f_procs s)) cur np Z) as Hfz.
  { split; [by apply list_lookup_insert_eq|]. split; [done|]. intros j q' Hj. rewrite list_lookup_insert_ne by lia. apply Hz. }
  destruct (scan_zombie me cur (length (<[np := Z]> (f_procs s))) 0 false np Z (<[np := Z]> (f_procs s)) nx true t' f' _ l' eq_refl ltac:(lia) Hfz (cp_child _ _ _ _ _ _ _ _ _ _ _ _ Cp))
    as (t3 & l3 & E3 & G3 & P3 & W3).
  assert (forall v, v ∈ own (view (f_kst s) (f_u P)) ++ R -> page_eq (k_mem (f_kst s)) (k_mem t3) v) as W.
  { intros v Hv a Ha. rewrite (cp_rest _ _ _ _ _ _ _ _ _ _ _ _ Cp v Hv a Ha). by apply (W3 v). }
  destruct (parent_frame me (f_kst s) P R l (fg_inv _ _ _ _ _ _ _ G) t3 W) as (_ & Sp & Up).
  exists np, (FSt (<[np := reaped Z]> (f_procs s)) nx false t3 f'), l3, (reaped Z). rewrite Ex. split; [|split; [done|split; [done|split; [done|]]]].
  - unfold wait. rewrite (bind_Ok _ _ _ _ _ (facquire_ok _ nx t' f')). unfold wait_turn. mgo. cbn [f_procs]. rewrite (bind_Ok _ _ _ _ _ E3). by rewrite list_insert_insert_eq.
  - cbn [f_kst]. split; [by apply Up|]. split; [|by split]. rewrite P3. exact (cp_pages _ _ _ _ _ _ _ _ _ _ _ _ Cp).
Qed.
End roundtrip.
