(* ===== verification/ForkRun.v ===== *)
(** * A run of fork

    The process of one page of [ExecRun] forks. *)

From S2P Require Import Prelude Cstring Spinlock Kalloc PageTable Uvm Encrypt Aspace Clock Kstack ExecRun Fork ForkSafe ForkWait.

Definition demo_stack : Z := KERNBASE + 0x303000.
Definition demo_parent : fproc := FProc FRunning 1 None (frame_at demo_stack) 0 [97] (us_p demo_uproc) 0.
Definition demo_slot : fproc := FProc FUnused 0 None 0 0 [] (UProc 0 0 0 (repeat NOPAGE 8) (-1)) 0.
Definition demo_fst : fst unit := FSt [demo_parent; demo_slot] 2 false (us_k demo_uproc) tt.
Definition no_files (cur np : nat) : M unit unit := mret tt.

Lemma demo_page0 va : 0 <= va < KERNBASE -> upage demo_uproc va = if decide (va < PGSIZE) then Some demo_upage else None.
Proof.
  intros Hva. assert (upage demo_uproc va = upage (demo_ust 7) va) as ->.
  { apply (frame_page (demo_ust 7)); [done|]. intros w Hw a Ha. symmetry. apply link_other. intros v [_ Hv]%demo_free_page Hv'.
    rewrite demo_own in Hw. unfold in_page, PGSIZE in *. repeat (apply elem_of_cons in Hw as [->|Hw]; [revert Ha; demo_addr; lia|]). by apply elem_of_nil in Hw. }
  unfold upage. change (umem (demo_ust 7)) with (demo_mem 7). change (pgdir (us_p (demo_ust 7))) with demo_dir. case_decide as H.
  - rewrite (page_of_page _ _ va 0) by (rewrite Z.div_small by (unfold PGSIZE in *; lia); done). unfold page_of. by rewrite demo_entry by done.
  - unfold page_of. by rewrite demo_others by lia.
Qed.
Lemma demo_forking : forking 1 demo_fst 0 demo_parent demo_stack [demo_stack] demo_free.
Proof.
  split; [done|done|by repeat constructor|done|split; [done|by left]|..].
  - change (view (f_kst demo_fst) (f_u demo_parent)) with demo_uproc. apply demo_run.
    + intros w ->%list_elem_of_singleton. split; [repeat constructor; vm_compute; congruence|reflexivity].
    + apply (bool_decide_unpack _). vm_compute. done.
  - change (view (f_kst demo_fst) (f_u demo_parent)) with demo_uproc. split; [split; [done|reflexivity]|]. intros va Hva. rewrite demo_page0 by done. change (PGROUNDUP (sz (us_p demo_uproc))) with PGSIZE.
    case_decide; split; intros H'; try done; [by eexists|by destruct H'].
Qed.
Lemma demo_success s' : ~ not_forked 1 demo_fst demo_parent [demo_stack] demo_free s'.
Proof.
  intros [(_ & N)|(np & q & Q & l' & _ & _ & _ & _ & _ & _ & _ & _ & _ & _ & N)].
  - apply Forall_cons in N as [_ N]. apply Forall_cons in N as [N _]. by apply N.
  - unfold demo_free in N. rewrite length_fmap, length_seqZ in N. change (length (pages 0 (sz (f_u demo_parent)))) with 1%nat in N. lia.
Qed.
Lemma demo_no_zombie j q : f_procs demo_fst !! j = Some q -> ~ zombie_of 0 q.
Proof.
  intros Hq%list_elem_of_lookup_2 [Hp _]. change (f_procs demo_fst) with [demo_parent; demo_slot] in Hq. repeat (apply elem_of_cons in Hq as [->|Hq]; [discriminate Hp|]). by apply elem_of_nil in Hq.
Qed.
Lemma small_u32 : is_u32 5 /\ is_u32 6.
Proof. unfold is_u32. lia. Qed.

Lemma fork_spec_witness : exists s', fork no_files demo_data 5 6 0 demo_fst = Ok 2 s' /\ exists Q, f_procs s' !! 1%nat = Some Q /\ f_state Q = FRunnable /\ f_parent Q = Some 0%nat.
Proof.
  destruct small_u32 as [H5 H6]. destruct (fork_spec no_files 1 demo_data 5 6 demo_data_ok H5 H6 demo_fst 0 demo_parent demo_stack [demo_stack] demo_free demo_forking)
    as (r & s' & E & [(_ & N)|(-> & np & k & d & l' & X)]); [by intros np; exists tt|by destruct (demo_success _ N)|].
  - exists s'. split; [exact E|]. destruct (fk_slot _ _ _ _ _ _ _ _ _ _ _ _ _ _ _ X) as (q & (L & Hu & _) & ->).
    assert (np = 1%nat) as -> by (destruct np as [|[|np]]; [|reflexivity|change (@None fproc = Some q) in L; discriminate L]; change (Some demo_parent = Some q) in L; apply (inj Some) in L as <-; discriminate Hu). eexists. split; [reflexivity|]. split; reflexivity.
Defined.
Lemma fork_wait_roundtrip_witness : exists r s' np s3 l3, fork no_files demo_data 5 6 0 demo_fst = Ok r s' /\ wait 0 (exited np s') = Ok (Some r) s3 /\ uinv 1 (view (f_kst s3) (f_u demo_parent)) [demo_stack] l3 /\ l3 ≡ₚ demo_free.
Proof.
  destruct small_u32 as [H5 H6]. destruct (fork_wait_roundtrip no_files 1 demo_data 5 6 demo_data_ok H5 H6 demo_fst 0 demo_parent demo_stack [demo_stack] demo_free demo_forking)
    as (r & s' & E & [(_ & N)|(np & s3 & l3 & q & E3 & _ & _ & _ & U & P & _)]); [by intros np; exists tt|exact demo_no_zombie|by destruct (demo_success _ N)|].
  exists r, s', np, s3, l3. split; [exact E|]. split; [exact E3|]. split; [exact U|exact P].
Defined.
