(* ===== verification/Cache.v ===== *)
(** * Disk blocks and the interface of the block cache

    A block is its 512 bytes; words in it are little-endian. [BlockCache] is what
    bio.c promises to log.c and fs.c: the operations, and their laws over the
    abstract state [bview]. [Bio] implements it. *)

From S2P Require Import Prelude.

Definition BSIZE : Z := 512.
Notation block := (list Z).

(** ** Bytes and words of a block *)

Definition ld8 (d : block) (o : Z) : Z := default 0 (d !! Z.to_nat o).
Definition ld16 (d : block) (o : Z) : Z := ld8 d o + 256 * ld8 d (o + 1).
Definition ld32 (d : block) (o : Z) : Z := ld16 d o + 65536 * ld16 d (o + 2).
Definition le16 (v : Z) : list Z := [u8 v; u8 (v / 256)].
Definition le32 (v : Z) : list Z := le16 v ++ le16 (v / 65536).
(** [memmove] of [src] into [d] at offset [o]. *)
Definition splice (d : block) (o : Z) (src : list Z) : block :=
  take (Z.to_nat o) d ++ src ++ drop (Z.to_nat o + length src) d.
Definition st32 (d : block) (o v : Z) : block := splice d o (le32 v).
(** [memmove] out of [d]. *)
Definition sub (d : block) (o n : Z) : list Z := take (Z.to_nat n) (drop (Z.to_nat o) d).

Definition byte (x : Z) : Prop := 0 <= x < 256.
Definition block_ok (d : block) : Prop := Z.of_nat (length d) = BSIZE /\ Forall byte d.

Lemma lookup_splice d o src i :
  0 <= o -> o + Z.of_nat (length src) <= Z.of_nat (length d) ->
  splice d o src !! i =
    if decide (o <= Z.of_nat i < o + Z.of_nat (length src)) then src !! (i - Z.to_nat o)%nat else d !! i.
Proof.
  intros Ho Hl. unfold splice.
  assert (length (take (Z.to_nat o) d) = Z.to_nat o) as Lt by (rewrite length_take; lia).
  destruct (decide (Z.of_nat i < o)).
  - rewrite decide_False by lia. rewrite lookup_app_l by lia. apply lookup_take_lt. lia.
  - rewrite lookup_app_r, Lt by lia. destruct (decide (Z.of_nat i < o + Z.of_nat (length src))).
    + rewrite decide_True by lia. by rewrite lookup_app_l by lia.
    + rewrite decide_False by lia. rewrite lookup_app_r by lia. rewrite lookup_drop. f_equal. lia.
Qed.

Lemma length_splice d o src :
  0 <= o -> o + Z.of_nat (length src) <= Z.of_nat (length d) -> length (splice d o src) = length d.
Proof. intros. unfold splice. rewrite !length_app, length_take, length_drop. lia. Qed.

Lemma block_ok_splice d o src :
  block_ok d -> 0 <= o -> o + Z.of_nat (length src) <= BSIZE -> Forall byte src -> block_ok (splice d o src).
Proof.
  intros [Hl Hb] Ho Hs Hf. split; [rewrite length_splice; lia|]. unfold splice.
  apply Forall_app. split; [by apply Forall_take|]. apply Forall_app. split; [done|]. by apply Forall_drop.
Qed.

Lemma le32_bytes v : Forall byte (le32 v).
Proof. unfold le32, le16. cbn. repeat constructor; apply u8_range. Qed.

Lemma block_ok_st32 d o v : block_ok d -> 0 <= o -> o + 4 <= BSIZE -> block_ok (st32 d o v).
Proof. intros. apply block_ok_splice; [done..|apply le32_bytes]. Qed.

Lemma ld8_splice d o src a :
  0 <= o -> o + Z.of_nat (length src) <= Z.of_nat (length d) -> 0 <= a ->
  ld8 (splice d o src) a =
    if decide (o <= a < o + Z.of_nat (length src)) then ld8 src (a - o) else ld8 d a.
Proof.
  intros Ho Hl Ha. unfold ld8. rewrite lookup_splice by done.
  destruct (decide (o <= a < o + Z.of_nat (length src))).
  - rewrite decide_True by lia. do 2 f_equal. lia.
  - by rewrite decide_False by lia.
Qed.

Lemma ld8_byte d a : Forall byte d -> byte (ld8 d a).
Proof.
  intros Hd. unfold ld8. destruct (d !! Z.to_nat a) eqn:E; [|by split].
  eapply Forall_lookup_1 in E; [exact E|done].
Qed.

Lemma ld32_range d a : Forall byte d -> is_u32 (ld32 d a).
Proof.
  intros Hd. unfold ld32, ld16, is_u32. pose proof (ld8_byte d a Hd). pose proof (ld8_byte d (a + 1) Hd).
  pose proof (ld8_byte d (a + 2) Hd). pose proof (ld8_byte d (a + 2 + 1) Hd). unfold byte in *. lia.
Qed.

Lemma ld32_le32 v : is_u32 v -> ld32 (le32 v) 0 = v.
Proof.
  intros Hv. change (u8 v + 256 * u8 (v / 256) + 65536 * (u8 (v / 65536) + 256 * u8 (v / 65536 / 256)) = v).
  unfold u8, is_u32 in *. Z.div_mod_to_equations. lia.
Qed.

Lemma ld32_splice_eq d o src :
  0 <= o -> o + Z.of_nat (length src) <= Z.of_nat (length d) -> length src = 4%nat ->
  ld32 (splice d o src) o = ld32 src 0.
Proof.
  intros Ho Hl Hs. unfold ld32, ld16. rewrite !ld8_splice by lia.
  repeat rewrite decide_True by lia. repeat f_equal; lia.
Qed.

Lemma ld32_splice_ne d o src a :
  0 <= o -> o + Z.of_nat (length src) <= Z.of_nat (length d) -> 0 <= a ->
  a + 4 <= o \/ o + Z.of_nat (length src) <= a -> ld32 (splice d o src) a = ld32 d a.
Proof.
  intros Ho Hl Ha Hd. unfold ld32, ld16. rewrite !ld8_splice by lia.
  by repeat rewrite decide_False by lia.
Qed.

Lemma ld32_st32_eq d o v :
  0 <= o -> o + 4 <= Z.of_nat (length d) -> is_u32 v -> ld32 (st32 d o v) o = v.
Proof. intros. unfold st32. rewrite ld32_splice_eq by (done || cbn; lia). by apply ld32_le32. Qed.

Lemma ld32_st32_ne d o v a :
  0 <= o -> o + 4 <= Z.of_nat (length d) -> 0 <= a -> a + 4 <= o \/ o + 4 <= a ->
  ld32 (st32 d o v) a = ld32 d a.
Proof. intros. unfold st32. apply ld32_splice_ne; cbn; lia. Qed.

(** ** The abstract state of the cache *)

(** [v_pin]: the blocks marked dirty, with contents that are not on disk yet;
    [v_held]: the buffers the process holds, each with its block and current data;
    [v_writes]: the block writes issued so far. *)
Record bview := View {
  v_disk : list block;
  v_pin : gmap Z block;
  v_held : gmap nat (Z * block);
  v_writes : list (Z * block)
}.

Definition disk_at (D : list block) (n : Z) : block := default [] (D !! Z.to_nat n).
Definition disk_set (D : list block) (n : Z) (d : block) : list block := <[Z.to_nat n := d]> D.
Definition disk_len (D : list block) : Z := Z.of_nat (length D).

Lemma disk_at_set D n d m : 0 <= n < disk_len D -> 0 <= m ->
  disk_at (disk_set D n d) m = if decide (m = n) then d else disk_at D m.
Proof.
  unfold disk_at, disk_set, disk_len. intros Hn Hm. destruct (decide (m = n)) as [->|N].
  - rewrite list_lookup_insert_eq by lia. done.
  - by rewrite list_lookup_insert_ne by lia.
Qed.
Lemma disk_len_set D n d : disk_len (disk_set D n d) = disk_len D.
Proof. unfold disk_len, disk_set. by rewrite length_insert. Qed.

(** What a read of block [n] returns. *)
Definition content (V : bview) (n : Z) : block := default (disk_at (v_disk V) n) (v_pin V !! n).
Definition unheld (V : bview) (n : Z) : Prop := forall b d, v_held V !! b <> Some (n, d).
(** A buffer can be had for block [n]. *)
Definition room (nbuf : nat) (V : bview) (n : Z) : Prop :=
  is_Some (v_pin V !! n) \/ (size (v_held V) + size (v_pin V) < nbuf)%nat.

Definition held_set (b : nat) (n : Z) (d : block) (V : bview) : bview :=
  View (v_disk V) (v_pin V) (<[b := (n, d)]> (v_held V)) (v_writes V).
Definition held_drop (b : nat) (V : bview) : bview :=
  View (v_disk V) (v_pin V) (delete b (v_held V)) (v_writes V).
Definition pinned (n : Z) (d : block) (V : bview) : bview :=
  View (v_disk V) (<[n := d]> (v_pin V)) (v_held V) (v_writes V).
Definition written (n : Z) (d : block) (V : bview) : bview :=
  View (disk_set (v_disk V) n d) (delete n (v_pin V)) (v_held V) (v_writes V ++ [(n, d)]).

Class BlockCache (S : Type) := {
  c_nbuf : nat;
  c_bread : Z -> Z -> M S nat;              (* device, block *)
  c_bwrite : nat -> M S unit;
  c_brelse : nat -> M S unit;
  c_data : nat -> M S block;                (* b->data *)
  c_put : nat -> block -> M S unit;
  c_blockno : nat -> M S Z;                 (* b->blockno *)
  c_dirty : nat -> M S unit;                (* b->flags |= B_DIRTY *)
  c_ok : S -> bview -> Prop;
  c_bread_ok : forall s V n, c_ok s V -> 0 <= n < disk_len (v_disk V) -> unheld V n -> room c_nbuf V n ->
    exists b s', c_bread 1 n s = Ok b s' /\ v_held V !! b = None /\ c_ok s' (held_set b n (content V n) V);
  c_data_ok : forall s V b n d, c_ok s V -> v_held V !! b = Some (n, d) -> c_data b s = Ok d s;
  c_blockno_ok : forall s V b n d, c_ok s V -> v_held V !! b = Some (n, d) -> c_blockno b s = Ok n s;
  c_put_ok : forall s V b n d d', c_ok s V -> v_held V !! b = Some (n, d) -> block_ok d' ->
    exists s', c_put b d' s = Ok tt s' /\ c_ok s' (held_set b n d' V);
  c_bwrite_ok : forall s V b n d, c_ok s V -> v_held V !! b = Some (n, d) ->
    exists s', c_bwrite b s = Ok tt s' /\ c_ok s' (written n d V);
  c_dirty_ok : forall s V b n d, c_ok s V -> v_held V !! b = Some (n, d) ->
    exists s', c_dirty b s = Ok tt s' /\ c_ok s' (pinned n d V);
  c_brelse_ok : forall s V b n d, c_ok s V -> v_held V !! b = Some (n, d) -> content V n = d ->
    exists s', c_brelse b s = Ok tt s' /\ c_ok s' (held_drop b V);
  c_blocks_ok : forall s V, c_ok s V -> Forall block_ok (v_disk V);
  c_content_ok : forall s V n, c_ok s V -> 0 <= n < disk_len (v_disk V) -> block_ok (content V n);
  c_held_ok : forall s V b n d, c_ok s V -> v_held V !! b = Some (n, d) ->
    block_ok d /\ 0 <= n < disk_len (v_disk V) /\ forall b' d', v_held V !! b' = Some (n, d') -> b' = b
}.
