(* ===== verification/Bio.v ===== *)
(** * The block cache: p6/bio.c over the memory disk of p6/memide.c

    [bufs] holds the NBUF buffers and, at index [HEAD], [bcache.head]; [b_prev] and
    [b_next] are the links of the list, most recently used first. The ghost field
    [bwrites] records the block writes the disk has seen. [Bio] discharges the
    interface [Cache.BlockCache]. *)

From S2P Require Import Prelude Sleeplock Cache.

Definition NBUF : nat := 30.
Definition HEAD : nat := NBUF.
Definition B_VALID : Z := 2.
Definition B_DIRTY : Z := 4.

Record buf := Buf {
  b_flags : Z; b_dev : Z; b_blockno : Z; b_lock : sleeplock; b_refcnt : Z;
  b_prev : nat; b_next : nat; b_data : block
}.
Definition set_flags v b := Buf v (b_dev b) (b_blockno b) (b_lock b) (b_refcnt b) (b_prev b) (b_next b) (b_data b).
Definition set_dev v b := Buf (b_flags b) v (b_blockno b) (b_lock b) (b_refcnt b) (b_prev b) (b_next b) (b_data b).
Definition set_blockno v b := Buf (b_flags b) (b_dev b) v (b_lock b) (b_refcnt b) (b_prev b) (b_next b) (b_data b).
Definition set_lock v b := Buf (b_flags b) (b_dev b) (b_blockno b) v (b_refcnt b) (b_prev b) (b_next b) (b_data b).
Definition set_refcnt v b := Buf (b_flags b) (b_dev b) (b_blockno b) (b_lock b) v (b_prev b) (b_next b) (b_data b).
Definition set_prev v b := Buf (b_flags b) (b_dev b) (b_blockno b) (b_lock b) (b_refcnt b) v (b_next b) (b_data b).
Definition set_bnext v b := Buf (b_flags b) (b_dev b) (b_blockno b) (b_lock b) (b_refcnt b) (b_prev b) v (b_data b).
Definition set_data v b := Buf (b_flags b) (b_dev b) (b_blockno b) (b_lock b) (b_refcnt b) (b_prev b) (b_next b) v.

Record bst := Bst {
  bufs : list buf; bc_lock : bool;
  memdisk : list block; bwrites : list (Z * block);
  mypid : Z
}.
Definition set_bufs v s := Bst v (bc_lock s) (memdisk s) (bwrites s) (mypid s).
Definition set_bc_lock v s := Bst (bufs s) v (memdisk s) (bwrites s) (mypid s).
Definition write_disk (n : Z) (d : block) s :=
  Bst (bufs s) (bc_lock s) (disk_set (memdisk s) n d) (bwrites s ++ [(n, d)]) (mypid s).

(** Access through a buffer pointer. *)
Definition get_buf (i : nat) : M bst buf := fun s =>
  match bufs s !! i with Some b => Ok b s | None => Undef end.
Definition upd_buf (i : nat) (f : buf -> buf) : M bst unit := fun s =>
  match bufs s !! i with
  | Some b => Ok tt (set_bufs (<[i := f b]> (bufs s)) s)
  | None => Undef
  end.
Definition on_lock {A} (i : nat) (m : M sleeplock A) : M bst A := fun s =>
  match bufs s !! i with
  | Some b => zoom (fun _ => b_lock b) (fun l s => set_bufs (<[i := set_lock l b]> (bufs s)) s) m s
  | None => Undef
  end.

Definition flag (b : buf) (f : Z) : bool := negb (Z.land (b_flags b) f =? 0).

(** ** bio.c *)

Definition acquire_bcache : M bst unit := zoom bc_lock set_bc_lock spin_acquire.
Definition release_bcache : M bst unit := zoom bc_lock set_bc_lock spin_release.

Fixpoint binit_loop (b n : nat) : M bst unit :=
  match n with
  | O => mret tt
  | S n' =>
    h ← get_buf HEAD;
    upd_buf b (set_bnext (b_next h));;
    upd_buf b (set_prev HEAD);;
    on_lock b initsleeplock;;
    h ← get_buf HEAD;
    upd_buf (b_next h) (set_prev b);;
    upd_buf HEAD (set_bnext b);;
    binit_loop (S b) n'
  end.
Definition binit : M bst unit :=
  modify (set_bc_lock false);;
  upd_buf HEAD (set_prev HEAD);;
  upd_buf HEAD (set_bnext HEAD);;
  binit_loop 0 NBUF.

(** The two searches of [bget]; the list has at most NBUF elements. *)
Fixpoint bget_find (fuel b : nat) (dev blockno : Z) : M bst (option nat) :=
  match fuel with
  | O => hang
  | S fuel' =>
    if bool_decide (b = HEAD) then mret None else
    p ← get_buf b;
    if (b_dev p =? dev) && (b_blockno p =? blockno) then mret (Some b)
    else bget_find fuel' (b_next p) dev blockno
  end.
Fixpoint bget_recycle (fuel b : nat) : M bst (option nat) :=
  match fuel with
  | O => hang
  | S fuel' =>
    if bool_decide (b = HEAD) then mret None else
    p ← get_buf b;
    if (b_refcnt p =? 0) && negb (flag p B_DIRTY) then mret (Some b)
    else bget_recycle fuel' (b_prev p)
  end.

Definition bget (dev blockno : Z) : M bst nat :=
  acquire_bcache;;
  h ← get_buf HEAD;
  f ← bget_find (S NBUF) (b_next h) dev blockno;
  match f with
  | Some b =>
    upd_buf b (fun p => set_refcnt (b_refcnt p + 1) p);;
    release_bcache;;
    me ← gets mypid;
    on_lock b (acquiresleep me);;
    mret b
  | None =>
    h ← get_buf HEAD;
    f ← bget_recycle (S NBUF) (b_prev h);
    match f with
    | Some b =>
      upd_buf b (set_dev dev);;
      upd_buf b (set_blockno blockno);;
      upd_buf b (set_flags 0);;
      upd_buf b (set_refcnt 1);;
      release_bcache;;
      me ← gets mypid;
      on_lock b (acquiresleep me);;
      mret b
    | None => panic "bget: no buffers"
    end
  end.

(** memide.c *)
Definition iderw (i : nat) : M bst unit :=
  me ← gets mypid;
  h ← on_lock i (holdingsleep me);
  if negb h then panic "iderw: buf not locked" else
  b ← get_buf i;
  if Z.land (b_flags b) (Z.lor B_VALID B_DIRTY) =? B_VALID then panic "iderw: nothing to do" else
  if negb (b_dev b =? 1) then panic "iderw: request not for disk 1" else
  disk ← gets memdisk;
  if disk_len disk <=? b_blockno b then panic "iderw: block out of range" else
  (if flag b B_DIRTY then
     upd_buf i (fun b => set_flags (Z.land (b_flags b) (Z.lnot B_DIRTY)) b);;
     modify (write_disk (b_blockno b) (b_data b))
   else upd_buf i (set_data (disk_at disk (b_blockno b))));;
  upd_buf i (fun b => set_flags (Z.lor (b_flags b) B_VALID) b).

Definition bread (dev blockno : Z) : M bst nat :=
  b ← bget dev blockno;
  p ← get_buf b;
  (if negb (flag p B_VALID) then iderw b else mret tt);;
  mret b.

Definition bwrite (b : nat) : M bst unit :=
  me ← gets mypid;
  h ← on_lock b (holdingsleep me);
  if negb h then panic "bwrite" else
  upd_buf b (fun p => set_flags (Z.lor (b_flags p) B_DIRTY) p);;
  iderw b.

(** No one is waiting for the buffer: it becomes the most recently used. *)
Definition to_front (b : nat) : M bst unit :=
  p ← get_buf b;
  upd_buf (b_next p) (set_prev (b_prev p));;
  p ← get_buf b;
  upd_buf (b_prev p) (set_bnext (b_next p));;
  h ← get_buf HEAD;
  upd_buf b (set_bnext (b_next h));;
  upd_buf b (set_prev HEAD);;
  h ← get_buf HEAD;
  upd_buf (b_next h) (set_prev b);;
  upd_buf HEAD (set_bnext b).

Definition brelse (b : nat) : M bst unit :=
  me ← gets mypid;
  h ← on_lock b (holdingsleep me);
  if negb h then panic "brelse" else
  on_lock b releasesleep;;
  acquire_bcache;;
  upd_buf b (fun p => set_refcnt (b_refcnt p - 1) p);;
  p ← get_buf b;
  (if b_refcnt p =? 0 then to_front b else mret tt);;
  release_bcache.

(** The accesses of the clients. *)
Definition buf_data (b : nat) : M bst block := p ← get_buf b; mret (b_data p).
Definition put_data (b : nat) (d : block) : M bst unit := upd_buf b (set_data d).
Definition buf_blockno (b : nat) : M bst Z := p ← get_buf b; mret (b_blockno p).
Definition mark_dirty (b : nat) : M bst unit := upd_buf b (fun p => set_flags (Z.lor (b_flags p) B_DIRTY) p).

(** ** The list of buffers *)

(** [seg f g p l q]: following [f] from [p] visits [l] and reaches [q], and [g]
    leads back. *)
Fixpoint seg (f g : nat -> nat) (p : nat) (l : list nat) (q : nat) : Prop :=
  match l with
  | [] => f p = q /\ g q = p
  | x :: l' => (f p = x /\ g x = p) /\ seg f g x l' q
  end.

Lemma seg_ext f g f' g' p l q :
  (forall x, x ∈ p :: l -> f' x = f x) -> (forall x, x ∈ l ++ [q] -> g' x = g x) ->
  seg f g p l q -> seg f' g' p l q.
Proof.
  revert p. induction l as [|x l IH]; intros p Hf Hg H; cbn in *.
  - rewrite Hf, Hg by (by left). done.
  - rewrite Hf, Hg by (by left). destruct H as [H1 H2]. split; [done|]. apply IH; [| |done].
    + intros y Hy. apply Hf. by right.
    + intros y Hy. apply Hg. by right.
Qed.

Lemma seg_app f g p l1 x l2 q : seg f g p (l1 ++ x :: l2) q <-> seg f g p l1 x /\ seg f g x l2 q.
Proof. revert p. induction l1 as [|y l1 IH]; intros p; cbn; [tauto|]. rewrite IH. tauto. Qed.

Lemma seg_next f g p l q : seg f g p l q -> f p ∈ l ++ [q].
Proof. destruct l; cbn; [intros [-> _]|intros [[-> _] _]]; by left. Qed.

Lemma seg_prev f g p l q : seg f g p l q -> g q ∈ p :: l.
Proof.
  revert p. induction l as [|x l IH]; intros p H; cbn in *.
  - destruct H as [_ ->]. by left.
  - destruct H as [_ H]. right. by apply IH.
Qed.

Definition fset (f : nat -> nat) (a b : nat) : nat -> nat := fun x => if decide (x = a) then b else f x.
Lemma fset_eq f a b : fset f a b a = b.
Proof. unfold fset. by rewrite decide_True. Qed.
Lemma fset_ne f a b x : x <> a -> fset f a b x = f x.
Proof. intros. unfold fset. by rewrite decide_False. Qed.

(** Unlinking [x]. *)
Lemma seg_unlink f g p l1 x l2 q :
  seg f g p l1 x -> seg f g x l2 q -> NoDup (l1 ++ x :: l2) -> p ∉ l1 ++ x :: l2 -> q ∉ l1 ++ x :: l2 ->
  seg (fset f (g x) (f x)) (fset g (f x) (g x)) p (l1 ++ l2) q.
Proof.
  revert p. induction l1 as [|z l1 IH]; intros p H1 H2 Hn Hp Hq; cbn in H1.
  - destruct H1 as [F G]. rewrite G. cbn in *. apply NoDup_cons in Hn as [Hx Hn].
    destruct l2 as [|y l2]; cbn in *.
    + destruct H2 as [<- _]. rewrite !fset_eq. done.
    + destruct H2 as [[<- Gy] H2]. rewrite !fset_eq. split; [done|].
      eapply seg_ext; [| |exact H2]; intros w Hw; apply fset_ne.
      * intros ->. apply Hp. by right.
      * intros ->. apply NoDup_cons in Hn as [Hy _]. apply elem_of_app in Hw as [Hw|Hw%list_elem_of_singleton]; [done|].
        apply Hq. rewrite <- Hw. right. by left.
  - destruct H1 as [[F G] H1]. cbn in *. apply NoDup_cons in Hn as [Hz Hn].
    pose proof (seg_prev _ _ _ _ _ H1) as Gx. pose proof (seg_next _ _ _ _ _ H2) as Fx.
    rewrite fset_ne, fset_ne.
    + split; [done|]. apply IH; try done. intros Hx. apply Hq. by right.
    + intros Ez. rewrite <- Ez in Fx. apply elem_of_app in Fx as [Fx|Fx%list_elem_of_singleton].
      * apply Hz. rewrite elem_of_app. right. by right.
      * apply Hq. rewrite <- Fx. by left.
    + intros Ep. rewrite <- Ep in Gx. apply Hp. apply elem_of_cons in Gx as [->|Gx]; [by left|].
      right. rewrite elem_of_app. by left.
Qed.

(** Linking [x] in after the head. *)
Lemma seg_link f g h l x :
  seg f g h l h -> NoDup l -> h ∉ l -> x ∉ l -> x <> h ->
  seg (fset (fset f x (f h)) h x) (fset (fset g x h) (f h) x) h (x :: l) h.
Proof.
  intros H Hn Hh Hx Hne. cbn. rewrite fset_eq. pose proof (seg_next _ _ _ _ _ H) as Fh.
  assert (x <> f h) as Hxf.
  { intros ->. apply elem_of_app in Fh as [Fh|Fh%list_elem_of_singleton]; done. }
  rewrite (fset_ne _ _ _ x) by done. rewrite fset_eq. split; [done|].
  destruct l as [|y l]; cbn in *.
  - destruct H as [F G]. rewrite fset_ne by done. rewrite fset_eq, F, fset_eq. done.
  - destruct H as [[F G] H]. rewrite fset_ne by done. rewrite fset_eq, F, fset_eq. split; [done|].
    apply NoDup_cons in Hn as [Hy Hn]. eapply seg_ext; [| |exact H]; intros w Hw.
    + rewrite !fset_ne; [done| |]; intros ->; [by apply Hx|by apply Hh].
    + rewrite !fset_ne; [done| |]; intros ->; apply elem_of_app in Hw as [Hw|Hw%list_elem_of_singleton].
      * apply Hx. by right.
      * done.
      * done.
      * apply Hh. rewrite <- Hw. by left.
Qed.

Lemma seg_rev f g p l q : seg f g p l q -> seg g f q (rev l) p.
Proof.
  revert p. induction l as [|x l IH]; intros p H; cbn in *; [tauto|].
  destruct H as [[F G] H]. apply seg_app. split; [by apply IH|]. by split.
Qed.

(** ** The buffers without their links *)

Definition core (b : buf) : buf := set_prev O (set_bnext O b).
Definition nx (bs : list buf) (i : nat) : nat := from_option b_next i (bs !! i).
Definition pv (bs : list buf) (i : nat) : nat := from_option b_prev i (bs !! i).

Record brep (s : bst) (cs : list buf) (l : list nat) : Prop := Brep {
  br_len : length (bufs s) = S NBUF;
  br_core : map core (bufs s) = cs;
  br_ring : seg (nx (bufs s)) (pv (bufs s)) HEAD l HEAD;
  br_perm : l ≡ₚ seq 0 NBUF
}.

(** The order of the list, most recently used first. *)
Definition lru (s : bst) (l : list nat) : Prop := seg (nx (bufs s)) (pv (bufs s)) HEAD l HEAD /\ l ≡ₚ seq 0 NBUF.
Definition keeps_lru (s s' : bst) : Prop := forall l, lru s l -> lru s' l.

Lemma in_lru l i : l ≡ₚ seq 0 NBUF -> i ∈ l <-> (i < NBUF)%nat.
Proof. intros ->. rewrite elem_of_seq. lia. Qed.
Lemma lru_nodup l : l ≡ₚ seq 0 NBUF -> NoDup l.
Proof. intros ->. apply NoDup_seq. Qed.

Lemma brep_get s cs l i c : brep s cs l -> cs !! i = Some c -> exists b, get_buf i s = Ok b s /\ bufs s !! i = Some b /\ core b = c.
Proof.
  intros [_ <- _ _] H. rewrite list_lookup_fmap in H. unfold get_buf. destruct (bufs s !! i) as [b|]; [|done].
  injection H as <-. by exists b.
Qed.

Lemma brep_some s cs l i : brep s cs l -> (i <= NBUF)%nat -> exists c, cs !! i = Some c.
Proof.
  intros [H <- _ _] Hi. apply lookup_lt_is_Some_2. rewrite length_map. lia.
Qed.

Lemma nx_insert bs i b b' x : bs !! i = Some b -> b_next b' = b_next b -> nx (<[i := b']> bs) x = nx bs x.
Proof.
  intros Hb E. unfold nx. destruct (decide (i = x)) as [->|Hne].
  - rewrite list_lookup_insert_eq by (by eapply lookup_lt_Some). by rewrite Hb.
  - by rewrite list_lookup_insert_ne.
Qed.
Lemma pv_insert bs i b b' x : bs !! i = Some b -> b_prev b' = b_prev b -> pv (<[i := b']> bs) x = pv bs x.
Proof.
  intros Hb E. unfold pv. destruct (decide (i = x)) as [->|Hne].
  - rewrite list_lookup_insert_eq by (by eapply lookup_lt_Some). by rewrite Hb.
  - by rewrite list_lookup_insert_ne.
Qed.

(** An update that leaves the links alone. *)
Definition keeps_links (f : buf -> buf) : Prop :=
  forall b, core (f b) = f (core b) /\ b_next (f b) = b_next b /\ b_prev (f b) = b_prev b.

(** Everything but the buffers. *)
Definition same_but_bufs (s s' : bst) : Prop :=
  bc_lock s' = bc_lock s /\ memdisk s' = memdisk s /\ bwrites s' = bwrites s /\ mypid s' = mypid s.

Lemma brep_upd s cs l i c f :
  brep s cs l -> cs !! i = Some c -> keeps_links f ->
  exists s', upd_buf i f s = Ok tt s' /\ brep s' (<[i := f c]> cs) l /\ same_but_bufs s s'.
Proof.
  intros R Hc Hf. destruct (brep_get _ _ _ _ _ R Hc) as (b & _ & Hb & <-). destruct R as [R1 R2 R3 R4].
  unfold upd_buf. rewrite Hb. eexists. split; [done|]. split; [|done]. destruct (Hf b) as (E1 & E2 & E3).
  split; cbn; [by rewrite length_insert|rewrite <- E1, <- R2; apply list_fmap_insert| |done].
  eapply seg_ext; [| |exact R3]; intros x _; [by eapply nx_insert|by eapply pv_insert].
Qed.

Lemma brep_lock {A} s cs l i c (m : M sleeplock A) a lk :
  brep s cs l -> cs !! i = Some c -> m (b_lock c) = Ok a lk ->
  exists s', on_lock i m s = Ok a s' /\ brep s' (<[i := set_lock lk c]> cs) l /\ same_but_bufs s s'.
Proof.
  intros R Hc Hm. destruct (brep_get _ _ _ _ _ R Hc) as (b & _ & Hb & <-).
  destruct (brep_upd s cs l i _ (set_lock lk) R Hc) as (s' & E & R' & S'); [by intros b'|].
  exists s'. split; [|done]. unfold upd_buf in E. unfold on_lock. rewrite Hb in *. unfold zoom.
  change (b_lock (core b)) with (b_lock b) in Hm. rewrite Hm. by injection E as ->.
Qed.

(** ** Changing the links *)

Record linked (s : bst) (cs : list buf) (f g : nat -> nat) : Prop := Linked {
  li_len : length (bufs s) = S NBUF;
  li_core : map core (bufs s) = cs;
  li_nx : forall x, nx (bufs s) x = f x;
  li_pv : forall x, pv (bufs s) x = g x
}.

Lemma linked_get s cs f g i : linked s cs f g -> (i <= NBUF)%nat ->
  exists b, get_buf i s = Ok b s /\ bufs s !! i = Some b /\ cs !! i = Some (core b) /\ b_next b = f i /\ b_prev b = g i.
Proof.
  intros [L <- F G] Hi. destruct (lookup_lt_is_Some_2 (bufs s) i) as [b Hb]; [lia|].
  exists b. unfold get_buf. rewrite Hb. split; [done|]. split; [done|]. split; [by rewrite list_lookup_fmap, Hb|].
  rewrite <- F, <- G. unfold nx, pv. by rewrite Hb.
Qed.

Lemma nx_set bs i b v x : bs !! i = Some b -> nx (<[i := set_bnext v b]> bs) x = fset (nx bs) i v x.
Proof.
  intros Hb. unfold nx, fset. destruct (decide (x = i)) as [->|Hne].
  - by rewrite list_lookup_insert_eq by (by eapply lookup_lt_Some).
  - by rewrite list_lookup_insert_ne by done.
Qed.
Lemma pv_set bs i b v x : bs !! i = Some b -> pv (<[i := set_prev v b]> bs) x = fset (pv bs) i v x.
Proof.
  intros Hb. unfold pv, fset. destruct (decide (x = i)) as [->|Hne].
  - by rewrite list_lookup_insert_eq by (by eapply lookup_lt_Some).
  - by rewrite list_lookup_insert_ne by done.
Qed.
Lemma core_insert bs i b b' : bs !! i = Some b -> core b' = core b -> map core (<[i := b']> bs) = map core bs.
Proof.
  intros Hb E. transitivity (<[i := core b']> (map core bs)); [apply list_fmap_insert|].
  apply list_insert_id. by rewrite list_lookup_fmap, Hb, E.
Qed.

Lemma link_next s cs f g i v : linked s cs f g -> (i <= NBUF)%nat ->
  exists s', upd_buf i (set_bnext v) s = Ok tt s' /\ linked s' cs (fset f i v) g /\ same_but_bufs s s'.
Proof.
  intros L Hi. destruct (linked_get _ _ _ _ _ L Hi) as (b & _ & Hb & _). destruct L as [L <- F G].
  unfold upd_buf. rewrite Hb. eexists. split; [done|]. split; [|done]. split; cbn.
  - by rewrite length_insert.
  - by eapply core_insert.
  - intros x. rewrite (nx_set _ _ _ _ _ Hb). unfold fset. by rewrite F.
  - intros x. by erewrite pv_insert.
Qed.
Lemma link_prev s cs f g i v : linked s cs f g -> (i <= NBUF)%nat ->
  exists s', upd_buf i (set_prev v) s = Ok tt s' /\ linked s' cs f (fset g i v) /\ same_but_bufs s s'.
Proof.
  intros L Hi. destruct (linked_get _ _ _ _ _ L Hi) as (b & _ & Hb & _). destruct L as [L <- F G].
  unfold upd_buf. rewrite Hb. eexists. split; [done|]. split; [|done]. split; cbn.
  - by rewrite length_insert.
  - by eapply core_insert.
  - intros x. by erewrite nx_insert.
  - intros x. rewrite (pv_set _ _ _ _ _ Hb). unfold fset. by rewrite G.
Qed.

Lemma brep_linked s cs l : brep s cs l -> linked s cs (nx (bufs s)) (pv (bufs s)).
Proof. intros [R1 R2 R3 R4]. by split. Qed.

Lemma linked_brep s cs f g l : linked s cs f g -> seg f g HEAD l HEAD -> l ≡ₚ seq 0 NBUF -> brep s cs l.
Proof.
  intros [L E F G] H P. split; [done|done| |done].
  eapply seg_ext; [| |exact H]; intros x _; [apply F|apply G].
Qed.

Lemma same_trans s1 s2 s3 : same_but_bufs s1 s2 -> same_but_bufs s2 s3 -> same_but_bufs s1 s3.
Proof. unfold same_but_bufs. intros (?&?&?&?) (?&?&?&?). split_and!; congruence. Qed.

Lemma head_notin l : l ≡ₚ seq 0 NBUF -> HEAD ∉ l.
Proof. intros P H. apply (in_lru l _ P) in H. unfold HEAD in H. lia. Qed.
Lemma lru_le l x : l ≡ₚ seq 0 NBUF -> x ∈ l ++ [HEAD] -> (x <= NBUF)%nat.
Proof.
  intros P H. apply elem_of_app in H as [H|H%list_elem_of_singleton].
  - apply (in_lru l _ P) in H. lia.
  - by subst.
Qed.

Lemma to_front_ok s cs l b :
  brep s cs l -> (b < NBUF)%nat ->
  exists s' l1 l2, to_front b s = Ok tt s' /\ l = l1 ++ b :: l2 /\ brep s' cs (b :: l1 ++ l2) /\ same_but_bufs s s'.
Proof.
  intros R Hb. pose proof (br_perm _ _ _ R) as P. apply brep_linked in R as L. pose proof (br_ring _ _ _ R) as Q.
  set (f := nx (bufs s)) in *. set (g := pv (bufs s)) in *.
  destruct (list_elem_of_split l b) as (l1 & l2 & ->); [by apply in_lru|].
  pose proof (lru_nodup _ P) as Hn. pose proof (head_notin _ P) as Hh.
  apply seg_app in Q as [Q1 Q2]. pose proof (seg_next _ _ _ _ _ Q2) as Fb. pose proof (seg_prev _ _ _ _ _ Q1) as Gb.
  assert (b ∉ l1 /\ b ∉ l2 /\ NoDup (l1 ++ l2)) as (Hb1 & Hb2 & Hn').
  { rewrite <- Permutation_middle in Hn. apply NoDup_cons in Hn as [Hx Hn]. rewrite elem_of_app in Hx. tauto. }
  assert (b <> HEAD) as HbH by (intros ->; apply Hh; rewrite elem_of_app; right; by left).
  assert (f b <= NBUF)%nat as Fle.
  { apply (lru_le (l1 ++ b :: l2)); [done|]. rewrite <- app_assoc, elem_of_app. right. by right. }
  assert (g b <= NBUF)%nat as Gle.
  { apply (lru_le (l1 ++ b :: l2)); [done|]. rewrite !elem_of_app. apply elem_of_cons in Gb as [->|Gb]; [right; by left|by left; left]. }
  assert (f b <> b) as Fne.
  { intros E. rewrite E in Fb. apply elem_of_app in Fb as [Fb|Fb%list_elem_of_singleton]; done. }
  pose proof (seg_unlink _ _ _ _ _ _ _ Q1 Q2 Hn Hh Hh) as U.
  set (f1 := fset f (g b) (f b)) in *. set (g1 := fset g (f b) (g b)) in *.
  assert (HEAD ∉ l1 ++ l2) as Hh' by (intros Hx; apply Hh; rewrite elem_of_app in *; destruct Hx; [by left|right; by right]).
  assert (b ∉ l1 ++ l2) as Hb' by (rewrite elem_of_app; tauto).
  assert (f1 HEAD <= NBUF)%nat as Hle.
  { apply (lru_le (l1 ++ b :: l2)); [done|]. pose proof (seg_next _ _ _ _ _ U) as X.
    rewrite !elem_of_app in *. destruct X as [[X|X]|X]; [by left; left|left; right; by right|by right]. }
  unfold to_front.
  destruct (linked_get _ _ _ _ b L) as (p & E1 & _ & _ & Nx & Pv); [lia|]. mstep E1. rewrite Nx, ?Pv.
  destruct (link_prev _ _ _ _ _ (g b) L Fle) as (s1 & E2 & L1 & S1). mstep E2. clear E2 p Nx Pv E1.
  destruct (linked_get _ _ _ _ b L1) as (p & E1 & _ & _ & Nx & Pv); [lia|]. mstep E1. rewrite Nx, Pv. clear E1.
  rewrite (fset_ne _ _ _ b) by done.
  destruct (link_next _ _ _ _ _ (f b) L1 Gle) as (s2 & E2 & L2 & S2). mstep E2. clear E2.
  change (linked s2 cs f1 g1) in L2.
  destruct (linked_get _ _ _ _ HEAD L2) as (h & E1 & _ & _ & Nh & _); [unfold HEAD; lia|]. mstep E1. rewrite Nh. clear E1.
  destruct (link_next _ _ _ _ b (f1 HEAD) L2) as (s3 & E2 & L3 & S3); [lia|]. mstep E2. clear E2.
  destruct (link_prev _ _ _ _ b HEAD L3) as (s4 & E2 & L4 & S4); [lia|]. mstep E2. clear E2.
  destruct (linked_get _ _ _ _ HEAD L4) as (h' & E1 & _ & _ & Nh' & _); [unfold HEAD; lia|]. mstep E1. rewrite Nh'. clear E1.
  rewrite fset_ne by done.
  destruct (link_prev _ _ _ _ _ b L4 Hle) as (s5 & E2 & L5 & S5). mstep E2. clear E2.
  destruct (link_next _ _ _ _ HEAD b L5) as (s6 & E2 & L6 & S6); [unfold HEAD; lia|].
  exists s6, l1, l2. split; [exact E2|]. split; [done|]. split.
  - eapply linked_brep; [exact L6| |by rewrite Permutation_middle]. by apply seg_link.
  - repeat (eapply same_trans; [eassumption|]). done.
Qed.

Lemma elem_of_rev (l : list nat) i : i ∈ rev l <-> i ∈ l.
Proof. by rewrite !list_elem_of_In, <- in_rev. Qed.

(** ** The searches of [bget] *)

Definition matches (dev n : Z) (b : buf) : Prop := b_dev b = dev /\ b_blockno b = n.
Definition unused (b : buf) : Prop := b_refcnt b = 0 /\ flag b B_DIRTY = false.

Lemma bget_find_ok s cs f g dev n fuel : forall p l,
  linked s cs f g -> seg f g p l HEAD -> (length l < fuel)%nat -> HEAD ∉ l -> (forall i, i ∈ l -> (i <= NBUF)%nat) ->
  exists r, bget_find fuel (f p) dev n s = Ok r s /\
    match r with
    | Some i => i ∈ l /\ exists c, cs !! i = Some c /\ matches dev n c
    | None => forall i c, i ∈ l -> cs !! i = Some c -> ~ matches dev n c
    end.
Proof.
  induction fuel as [|fuel IH]; intros p l L Q Hlen Hh Hle; [lia|]. cbn [bget_find].
  destruct l as [|x l]; cbn in Q.
  { destruct Q as [-> _]. rewrite bool_decide_true by done. exists None. split; [done|].
    intros i c Hi. by apply elem_of_nil in Hi. }
  destruct Q as [[-> _] Q]. rewrite bool_decide_false by (intros ->; apply Hh; by left).
  destruct (linked_get _ _ _ _ x L) as (b & E & _ & Hc & Nb & _); [apply Hle; by left|]. mstep E. rewrite Nb.
  destruct ((b_dev b =? dev) && (b_blockno b =? n)) eqn:M.
  { apply andb_true_iff in M as [M1%Z.eqb_eq M2%Z.eqb_eq]. exists (Some x). split; [done|].
    split; [by left|]. by exists (core b). }
  destruct (IH x l L Q) as (r & Er & Hr); [cbn in Hlen; lia| | |].
  { intros X. apply Hh. by right. }
  { intros i Hi. apply Hle. by right. }
  exists r. split; [exact Er|]. destruct r as [i|].
  - destruct Hr as [Hi Hr]. split; [by right|done].
  - intros i c [->|Hi]%elem_of_cons Hci; [|by eapply Hr]. rewrite Hc in Hci. injection Hci as <-.
    intros [M1 M2]. cbn in M1, M2. rewrite M1, M2, !Z.eqb_refl in M. done.
Qed.

Lemma bget_recycle_ok s cs f g fuel : forall p l,
  linked s cs f g -> seg g f p l HEAD -> (length l < fuel)%nat -> HEAD ∉ l -> (forall i, i ∈ l -> (i <= NBUF)%nat) ->
  exists r, bget_recycle fuel (g p) s = Ok r s /\
    match r with
    | Some i => (exists c, cs !! i = Some c /\ unused c) /\ exists l1 l2, l = l1 ++ i :: l2 /\ forall j c, j ∈ l1 -> cs !! j = Some c -> ~ unused c
    | None => forall i c, i ∈ l -> cs !! i = Some c -> ~ unused c
    end.
Proof.
  induction fuel as [|fuel IH]; intros p l L Q Hlen Hh Hle; [lia|]. cbn [bget_recycle].
  destruct l as [|x l]; cbn in Q.
  { destruct Q as [-> _]. rewrite bool_decide_true by done. exists None. split; [done|].
    intros i c Hi. by apply elem_of_nil in Hi. }
  destruct Q as [[-> _] Q]. rewrite bool_decide_false by (intros ->; apply Hh; by left).
  destruct (linked_get _ _ _ _ x L) as (b & E & _ & Hc & _ & Pb); [apply Hle; by left|]. mstep E. rewrite Pb.
  destruct ((b_refcnt b =? 0) && negb (flag b B_DIRTY)) eqn:M.
  { apply andb_true_iff in M as [M1%Z.eqb_eq M2%negb_true_iff]. exists (Some x). split; [done|].
    split; [by exists (core b)|]. exists [], l. split; [done|]. by intros j c Hj%elem_of_nil. }
  assert (forall c, cs !! x = Some c -> ~ unused c) as Hx.
  { intros c Hci. rewrite Hc in Hci. injection Hci as <-. intros [M1 M2]. cbn in M1. change (flag (core b) B_DIRTY) with (flag b B_DIRTY) in M2. rewrite M1, M2 in M. done. }
  destruct (IH x l L Q) as (r & Er & Hr); [cbn in Hlen; lia| | |].
  { intros X. apply Hh. by right. }
  { intros i Hi. apply Hle. by right. }
  exists r. split; [exact Er|]. destruct r as [i|].
  - destruct Hr as (Hu & l1 & l2 & -> & Hl). split; [done|]. exists (x :: l1), l2. split; [done|]. intros j c [->|Hj]%elem_of_cons; [apply Hx|by apply Hl].
  - intros i c [->|Hi]%elem_of_cons; [apply Hx|by apply Hr].
Qed.

(** ** The invariant of the cache *)

Definition vflags (V : bview) (n : Z) : Z := if v_pin V !! n then 6 else 2.
Definition in_disk (V : bview) (n : Z) : Prop := 0 <= n < disk_len (v_disk V).

Definition buf_ok (me : Z) (V : bview) (i : nat) (c : buf) : Prop :=
  match v_held V !! i with
  | Some (n, d) => b_lock c = sl_mine me /\ b_refcnt c = 1 /\ b_dev c = 1 /\ b_blockno c = n /\
      b_data c = d /\ b_flags c = vflags V n /\ in_disk V n /\ block_ok d
  | None => b_lock c = sl_free /\ b_refcnt c = 0 /\
      (b_dev c = 0 /\ b_flags c = 0 \/
       b_dev c = 1 /\ b_data c = content V (b_blockno c) /\ b_flags c = vflags V (b_blockno c) /\ in_disk V (b_blockno c))
  end.

Record bok (s : bst) (V : bview) (cs : list buf) : Prop := Bok {
  bo_lock : bc_lock s = false;
  bo_disk : memdisk s = v_disk V;
  bo_writes : bwrites s = v_writes V;
  bo_blocks : Forall block_ok (v_disk V);
  bo_buf : forall i c, (i < NBUF)%nat -> cs !! i = Some c -> buf_ok (mypid s) V i c;
  bo_uniq : forall i j c e, (i < NBUF)%nat -> (j < NBUF)%nat -> cs !! i = Some c -> cs !! j = Some e ->
    b_dev c = 1 -> b_dev e = 1 -> b_blockno c = b_blockno e -> i = j;
  bo_pin : forall n d, v_pin V !! n = Some d -> block_ok d /\
    exists i c, (i < NBUF)%nat /\ cs !! i = Some c /\ matches 1 n c;
  bo_held : forall i x, v_held V !! i = Some x -> (i < NBUF)%nat
}.

Definition cache_ok (s : bst) (V : bview) : Prop := exists cs l, brep s cs l /\ bok s V cs.

Lemma vflags_bits V n :
  negb (Z.land (vflags V n) B_VALID =? 0) = true /\
  negb (Z.land (vflags V n) B_DIRTY =? 0) = bool_decide (is_Some (v_pin V !! n)) /\
  Z.lor (vflags V n) B_VALID = vflags V n /\ Z.lor (vflags V n) B_DIRTY = 6.
Proof.
  unfold vflags. destruct (v_pin V !! n) eqn:E; (split; [done|]); (split; [|done]).
  - rewrite bool_decide_true; [done|]. by eexists.
  - rewrite bool_decide_false; [done|]. by intros [? ?].
Qed.

(** When no buffer is left, all are held or pinned. *)
Lemma no_room s0 s V cs l :
  brep s0 cs l -> bok s V cs -> (forall i c, i ∈ l -> cs !! i = Some c -> ~ unused c) ->
  (NBUF <= size (v_held V) + size (v_pin V))%nat.
Proof.
  intros R B Hu. pose proof (br_perm _ _ _ R) as P.
  set (h := filter (fun i => is_Some (v_held V !! i)) l). set (p := filter (fun i => ~ is_Some (v_held V !! i)) l).
  assert (length l = NBUF) as Hl by (by rewrite P, length_seq).
  assert (length h + length p = NBUF)%nat as Hs.
  { rewrite <- Hl. rewrite <- length_app. apply Permutation_length, filter_app_complement. }
  assert (length h <= size (v_held V))%nat as H1.
  { rewrite <- size_dom. rewrite <- (size_list_to_set (C := gset nat) h) by (apply NoDup_filter, (lru_nodup _ P)).
    apply subseteq_size. intros i Hi. apply elem_of_list_to_set, list_elem_of_filter in Hi as [Hi _]. by apply elem_of_dom. }
  set (bn := fun i => default 0 (b_blockno <$> cs !! i)).
  assert (forall i, i ∈ p -> exists c, (i < NBUF)%nat /\ cs !! i = Some c /\ b_dev c = 1 /\ is_Some (v_pin V !! b_blockno c)) as Hp.
  { intros i [Hi Hil]%list_elem_of_filter. pose proof Hil as Hlt. apply (in_lru _ _ P) in Hlt.
    destruct (brep_some _ _ _ i R) as [c Hc]; [lia|]. exists c. split; [done|]. split; [done|].
    pose proof (bo_buf _ _ _ B i c Hlt Hc) as K. unfold buf_ok in K.
    destruct (v_held V !! i) eqn:E; [exfalso; apply Hi; by eexists|]. destruct K as (_ & Kr & K).
    pose proof (Hu i c Hil Hc) as Nu. destruct K as [[_ K]|(K1 & _ & K2 & _)].
    - exfalso. apply Nu. split; [done|]. unfold flag. by rewrite K.
    - split; [done|]. destruct (decide (is_Some (v_pin V !! b_blockno c))) as [?|Hno]; [done|].
      exfalso. apply Nu. split; [done|]. unfold flag. rewrite K2.
      destruct (vflags_bits V (b_blockno c)) as (_ & -> & _). by apply bool_decide_false. }
  assert (length p <= size (v_pin V))%nat as H2; [|lia].
  rewrite <- size_dom, <- (length_map bn p).
  rewrite <- (size_list_to_set (C := gset Z) (map bn p)).
  - apply subseteq_size. intros n Hn. apply elem_of_list_to_set, list_elem_of_fmap in Hn as (i & -> & Hi).
    destruct (Hp i Hi) as (c & _ & Hc & _ & Hpin). unfold bn. rewrite Hc. by apply elem_of_dom.
  - apply NoDup_fmap_2_strong; [|apply NoDup_filter, (lru_nodup _ P)].
    intros i j Hi Hj. destruct (Hp i Hi) as (c & Hi' & Hc & Dc & _), (Hp j Hj) as (e & Hj' & He & De & _).
    unfold bn. rewrite Hc, He. cbn. intros E. by eapply (bo_uniq _ _ _ B i j c e).
Qed.

Lemma bok_change s s' V V' cs i c c' :
  bok s V cs -> cs !! i = Some c -> (i < NBUF)%nat ->
  bc_lock s' = false -> memdisk s' = v_disk V' -> bwrites s' = v_writes V' -> mypid s' = mypid s ->
  Forall block_ok (v_disk V') ->
  buf_ok (mypid s) V' i c' ->
  (forall j e, j <> i -> (j < NBUF)%nat -> cs !! j = Some e -> buf_ok (mypid s) V j e -> buf_ok (mypid s) V' j e) ->
  (b_dev c' = 1 -> forall j e, j <> i -> (j < NBUF)%nat -> cs !! j = Some e -> ~ matches 1 (b_blockno c') e) ->
  (forall m d, v_pin V' !! m = Some d -> block_ok d /\
     (matches 1 m c' \/ exists j e, j <> i /\ (j < NBUF)%nat /\ cs !! j = Some e /\ matches 1 m e)) ->
  (forall j x, v_held V' !! j = Some x -> (j < NBUF)%nat) ->
  bok s' V' (<[i := c']> cs).
Proof.
  intros B Hc Hi H1 H2 H3 H4 H5 H6 H7 H8 H9 H10. pose proof (lookup_lt_Some _ _ _ Hc) as Hlt.
  assert (forall j e, <[i := c']> cs !! j = Some e -> j = i /\ e = c' \/ j <> i /\ cs !! j = Some e) as Hl.
  { intros j e. destruct (decide (j = i)) as [->|Hne].
    - rewrite list_lookup_insert_eq by done. intros [= <-]. by left.
    - rewrite list_lookup_insert_ne by done. by right. }
  split; auto.
  - intros j e Hj [[-> ->]|[Hne He]]%Hl; rewrite H4; [done|]. apply H7; auto. by apply (bo_buf _ _ _ B).
  - intros j k e e' Hj Hk [[-> ->]|[N1 E1]]%Hl [[-> ->]|[N2 E2]]%Hl D1 D2 Eb; [done|exfalso..|].
    + by eapply H8; [..|split; [exact D2|]]; eauto.
    + by eapply H8; [..|split; [exact D1|]]; eauto.
    + by eapply (bo_uniq _ _ _ B).
  - intros m d Hd. destruct (H9 m d Hd) as [K [M|(j & e & N & Hj & He & M)]]; (split; [done|]).
    + exists i, c'. split; [done|]. by rewrite list_lookup_insert_eq.
    + exists j, e. split; [done|]. by rewrite list_lookup_insert_ne.
Qed.

(** The operations leave the other buffers as they are. *)
Lemma buf_ok_hold me V i n d j e : j <> i -> buf_ok me V j e -> buf_ok me (held_set i n d V) j e.
Proof. intros N. unfold buf_ok, held_set. cbn. by rewrite lookup_insert_ne by done. Qed.
Lemma buf_ok_drop me V i j e : j <> i -> buf_ok me V j e -> buf_ok me (held_drop i V) j e.
Proof. intros N. unfold buf_ok, held_drop. cbn. by rewrite lookup_delete_ne by done. Qed.

Lemma buf_ok_unhold me V j e : v_held V !! j = None -> buf_ok me V j e ->
  b_lock e = sl_free /\ b_refcnt e = 0.
Proof. intros H. unfold buf_ok. rewrite H. tauto. Qed.

(** A buffer of the disk holds its own block. *)
Lemma buf_ok_dev me V j e : buf_ok me V j e -> b_dev e = 1 ->
  b_flags e = vflags V (b_blockno e) /\ in_disk V (b_blockno e) /\
  match v_held V !! j with
  | Some (n, d) => n = b_blockno e /\ d = b_data e
  | None => b_data e = content V (b_blockno e)
  end.
Proof.
  unfold buf_ok. destruct (v_held V !! j) as [[n d]|].
  - intros (_ & _ & _ & <- & <- & F & D & _) _. done.
  - intros (_ & _ & [[H _]|(_ & Hd & F & D)]) H1; [congruence|done].
Qed.

Ltac kl := by intros ?.

Lemma spin_in s : bc_lock s = false -> acquire_bcache s = Ok tt (set_bc_lock true s).
Proof. intros H. unfold acquire_bcache, zoom. by rewrite H. Qed.
Lemma spin_out s : bc_lock s = true -> release_bcache s = Ok tt (set_bc_lock false s).
Proof. intros H. unfold release_bcache, zoom. by rewrite H. Qed.

Lemma brep_bc s cs l v : brep s cs l -> brep (set_bc_lock v s) cs l.
Proof. intros []. by split. Qed.

Lemma same_locked s s1 s2 : bc_lock s = false ->
  same_but_bufs (set_bc_lock true s) s1 -> same_but_bufs (set_bc_lock false s1) s2 -> same_but_bufs s s2.
Proof. intros H (?&?&?&?) (?&?&?&?). unfold same_but_bufs in *. cbn in *. split_and!; congruence. Qed.

Lemma same_disk s s' : same_but_bufs s s' -> memdisk s' = memdisk s /\ bwrites s' = bwrites s /\ mypid s' = mypid s.
Proof. by intros (_ & ? & ? & ?). Qed.

(** [bget] of a block: the cached buffer, or a recycled one. *)
Lemma bget_ok s V cs l n :
  brep s cs l -> bok s V cs -> unheld V n -> room NBUF V n ->
  exists b c c' s', bget 1 n s = Ok b s' /\ (b < NBUF)%nat /\ cs !! b = Some c /\ v_held V !! b = None /\
    brep s' (<[b := c']> cs) l /\ same_but_bufs s s' /\
    (matches 1 n c /\ c' = set_lock (sl_mine (mypid s)) (set_refcnt 1 c) \/
     (forall j e, (j < NBUF)%nat -> cs !! j = Some e -> ~ matches 1 n e) /\ flag c B_DIRTY = false /\
     c' = set_lock (sl_mine (mypid s)) (set_refcnt 1 (set_flags 0 (set_blockno n (set_dev 1 c)))) /\
     unused c /\ exists l1 l2, l = l1 ++ b :: l2 /\ forall j e, j ∈ l2 -> cs !! j = Some e -> ~ unused e).
Proof.
  intros R B Hun Hroom. pose proof (br_perm _ _ _ R) as P. unfold bget.
  mstep spin_in; [|apply (bo_lock _ _ _ B)]. apply (brep_bc _ _ _ true) in R. set (s0 := set_bc_lock true s) in *.
  pose proof (brep_linked _ _ _ R) as L. pose proof (br_ring _ _ _ R) as Q.
  assert (length l < S NBUF)%nat as Hlen by (rewrite P, length_seq; lia).
  pose proof (head_notin _ P) as Hh. assert (forall i, i ∈ l -> (i <= NBUF)%nat) as Hle.
  { intros i Hi. apply (in_lru _ _ P) in Hi. lia. }
  destruct (linked_get _ _ _ _ HEAD L) as (h & E & _ & _ & Nh & Ph); [unfold HEAD; lia|]. mstep E. rewrite Nh.
  destruct (bget_find_ok _ _ _ _ 1 n (S NBUF) HEAD l L Q Hlen Hh Hle) as (r & Er & Hr). mstep Er.
  destruct r as [b|].
  - destruct Hr as (Hb & c & Hc & M). apply (in_lru _ _ P) in Hb. pose proof (bo_buf _ _ _ B b c Hb Hc) as K.
    assert (v_held V !! b = None) as Hnh.
    { destruct (v_held V !! b) as [[m d]|] eqn:Eh; [|done]. exfalso. unfold buf_ok in K. rewrite Eh in K.
      destruct K as (_ & _ & _ & Ebn & _). destruct M as [_ M]. rewrite Ebn in M. subst m. by eapply Hun. }
    destruct (buf_ok_unhold _ _ _ _ Hnh K) as [Kl Kr].
    destruct (brep_upd _ _ _ _ _ (fun p => set_refcnt (b_refcnt p + 1) p) R Hc) as (s1 & E1 & R1 & S1); [kl|]. mstep E1.
    mstep spin_out; [|apply S1]. mgo. apply (brep_bc _ _ _ false) in R1.
    destruct (brep_lock _ _ _ b _ (acquiresleep (mypid s)) tt (sl_mine (mypid s)) R1
      (list_lookup_insert_eq _ _ _ (lookup_lt_Some _ _ _ Hc))) as (s2 & E2 & R2 & S2).
    { cbn. rewrite Kl. apply acquiresleep_ok. }
    rewrite list_insert_insert_eq in R2. eexists b, c, _, s2. rewrite Kr in R2.
    assert (mypid (set_bc_lock false s1) = mypid s) as -> by apply S1.
    mstep E2. split; [done|]. split; [done|]. split; [done|]. split; [done|]. split; [exact R2|]. split; [|by left].
    apply (same_locked s s1); [apply (bo_lock _ _ _ B)|done..].
  - clear Er.
    destruct (linked_get _ _ _ _ HEAD L) as (h' & E' & _ & _ & _ & Ph'); [unfold HEAD; lia|]. mstep E'. rewrite Ph'.
    destruct (bget_recycle_ok s0 cs (nx (bufs s0)) (pv (bufs s0)) (S NBUF) HEAD (rev l) L) as (r & Er & Hr').
    { by apply seg_rev. } { by rewrite length_rev. } { by rewrite elem_of_rev. }
    { intros i Hi. rewrite elem_of_rev in Hi. by apply Hle. }
    mstep Er.
    assert (forall j e, (j < NBUF)%nat -> cs !! j = Some e -> ~ matches 1 n e) as Hnm.
    { intros j e Hj He. apply (Hr j); [by apply in_lru|done]. }
    destruct r as [b|]; [|exfalso].
    + destruct Hr' as ((c & Hc & Uc) & k1 & k2 & El & Hk). pose proof Uc as [Uc1 Uc2].
      assert (l = rev k2 ++ b :: rev k1) as El' by (rewrite <- (rev_involutive l), El, rev_app_distr; cbn [rev]; by rewrite <- app_assoc).
      assert (b < NBUF)%nat as Hb by (apply (in_lru _ _ P); rewrite El', elem_of_app; right; by left).
      pose proof (bo_buf _ _ _ B b c Hb Hc) as K. pose proof (lookup_lt_Some _ _ _ Hc) as Hlt.
      assert (v_held V !! b = None) as Hnh.
      { destruct (v_held V !! b) as [[m d]|] eqn:Eh; [|done]. exfalso. unfold buf_ok in K. rewrite Eh in K. lia. }
      destruct (buf_ok_unhold _ _ _ _ Hnh K) as [Kl Kr].
      destruct (brep_upd _ _ _ _ _ (set_dev 1) R Hc) as (s1 & E1 & R1 & S1); [kl|]. mstep E1.
      destruct (brep_upd _ _ _ b _ (set_blockno n) R1 (list_lookup_insert_eq _ _ _ Hlt)) as (s2 & E2 & R2 & S2); [kl|].
      mstep E2. rewrite list_insert_insert_eq in R2.
      destruct (brep_upd _ _ _ b _ (set_flags 0) R2 (list_lookup_insert_eq _ _ _ Hlt)) as (s3 & E3 & R3 & S3); [kl|].
      mstep E3. rewrite list_insert_insert_eq in R3.
      destruct (brep_upd _ _ _ b _ (set_refcnt 1) R3 (list_lookup_insert_eq _ _ _ Hlt)) as (s4 & E4 & R4 & S4); [kl|].
      mstep E4. rewrite list_insert_insert_eq in R4.
      assert (same_but_bufs s0 s4) as S by (repeat (eapply same_trans; [eassumption|]); done).
      mstep spin_out; [|apply S]. mgo. apply (brep_bc _ _ _ false) in R4.
      destruct (brep_lock _ _ _ b _ (acquiresleep (mypid s)) tt (sl_mine (mypid s)) R4 (list_lookup_insert_eq _ _ _ Hlt)) as (s5 & E5 & R5 & S5).
      { cbn. rewrite Kl. apply acquiresleep_ok. }
      rewrite list_insert_insert_eq in R5. eexists b, c, _, s5.
      assert (mypid (set_bc_lock false s4) = mypid s) as -> by apply S.
      mstep E5. split; [done|]. split; [done|]. split; [done|]. split; [done|]. split; [exact R5|]. split; [by apply (same_locked s s4); [apply (bo_lock _ _ _ B)|..]|]. right.
      split; [done|]. split; [done|]. split; [done|]. split; [done|]. exists (rev k2), (rev k1). split; [done|]. intros j e Hj. rewrite elem_of_rev in Hj. by apply Hk.
    + destruct Hroom as [[d Hd]|Hsz].
      * destruct (bo_pin _ _ _ B n d Hd) as (_ & i & c & Hi & Hc & M). by eapply Hnm.
      * enough (NBUF <= size (v_held V) + size (v_pin V))%nat by lia.
        apply (no_room s0 s V cs l); [done..|].
        intros i c Hi. apply Hr'. by rewrite elem_of_rev.
Qed.

Lemma seg_unique f g q l l' : forall p, seg f g p l q -> seg f g p l' q -> q ∉ l -> q ∉ l' -> l = l'.
Proof.
  revert l'. induction l as [|x l IH]; intros [|y l'] p H H' Hq Hq'; cbn in H, H'; [done| | |].
  - exfalso. destruct H as [E _], H' as [[E' _] _]. apply Hq'. rewrite <- E, E'. by left.
  - exfalso. destruct H as [[E _] _], H' as [E' _]. apply Hq. rewrite <- E', E. by left.
  - destruct H as [[E _] H], H' as [[E' _] H']. assert (x = y) as -> by congruence. f_equal. apply (IH l' y); [done|done|..]; intros Hi; [apply Hq|apply Hq']; by right.
Qed.
Lemma brep_lru s cs l : brep s cs l -> lru s l.
Proof. intros R. split; apply R. Qed.
Lemma lru_unique s l l' : lru s l -> lru s l' -> l = l'.
Proof. intros [S P] [S' P']. eapply seg_unique; [exact S|exact S'|by apply head_notin|by apply head_notin]. Qed.
Lemma brep_keeps s s' cs cs' l : brep s cs l -> brep s' cs' l -> keeps_lru s s'.
Proof. intros R R' k K. rewrite (lru_unique _ _ _ K (brep_lru _ _ _ R)). by eapply brep_lru. Qed.

(** Which buffer a read takes: the one that caches the block, or else, from the least
    recently used end of the list, the first that is neither in use nor dirty. *)
Definition cached_in (s : bst) (n : Z) (b : nat) : Prop := exists p, (b < NBUF)%nat /\ bufs s !! b = Some p /\ matches 1 n p.
Definition takes_buf (s : bst) (n : Z) (b : nat) : Prop :=
  cached_in s n b \/
  (forall j, ~ cached_in s n j) /\ (exists p, bufs s !! b = Some p /\ unused p) /\
  exists l1 l2, lru s (l1 ++ b :: l2) /\ forall j p, j ∈ l2 -> bufs s !! j = Some p -> ~ unused p.
Lemma brep_core s cs l j p : brep s cs l -> bufs s !! j = Some p -> cs !! j = Some (core p).
Proof. intros [_ <- _ _] H. by rewrite list_lookup_fmap, H. Qed.
Lemma core_brep s cs l j c : brep s cs l -> cs !! j = Some c -> exists p, bufs s !! j = Some p /\ core p = c.
Proof. intros R H. destruct (brep_get _ _ _ _ _ R H) as (p & _ & E & Hp). by exists p. Qed.

(** ** The operations *)

Lemma cs_get s cs l i c : brep s cs l -> cs !! i = Some c -> exists b, get_buf i s = Ok b s /\ core b = c.
Proof. intros R Hc. destruct (brep_get _ _ _ _ _ R Hc) as (b & E & _ & Hb). by exists b. Qed.

Lemma bok_held s V cs b n d : bok s V cs -> v_held V !! b = Some (n, d) ->
  forall c, cs !! b = Some c -> (b < NBUF)%nat /\ b_lock c = sl_mine (mypid s) /\ b_refcnt c = 1 /\ b_dev c = 1 /\ b_blockno c = n /\
    b_data c = d /\ b_flags c = vflags V n /\ in_disk V n /\ block_ok d.
Proof.
  intros B Hh c Hc. pose proof (bo_held _ _ _ B _ _ Hh) as Hb. pose proof (bo_buf _ _ _ B b c Hb Hc) as K.
  unfold buf_ok in K. by rewrite Hh in K.
Qed.

Lemma holding_lock s cs l i c : brep s cs l -> cs !! i = Some c -> b_lock c = sl_mine (mypid s) ->
  exists s', on_lock i (holdingsleep (mypid s)) s = Ok true s' /\ brep s' cs l /\ same_but_bufs s s'.
Proof.
  intros R Hc Hl. destruct (brep_lock _ _ _ _ _ (holdingsleep (mypid s)) true (sl_mine (mypid s)) R Hc) as (s' & E & R' & S).
  { rewrite Hl. apply holdingsleep_ok. }
  exists s'. split; [done|]. split; [|done]. rewrite <- Hl in R'. rewrite list_insert_id in R'; [done|].
  rewrite Hc. by destruct c.
Qed.

Lemma brep_disk s cs l n d : brep s cs l -> brep (write_disk n d s) cs l.
Proof. intros []. by split. Qed.

Lemma bok_insert_hold s s' V cs b c c' n d :
  bok s V cs -> cs !! b = Some c -> (b < NBUF)%nat -> same_but_bufs s s' ->
  (forall j e, j <> b -> (j < NBUF)%nat -> cs !! j = Some e -> ~ matches 1 n e) ->
  (forall m d, v_pin V !! m = Some d -> matches 1 m c -> m = n) ->
  b_lock c' = sl_mine (mypid s) -> b_refcnt c' = 1 -> matches 1 n c' -> b_data c' = d ->
  b_flags c' = vflags V n -> in_disk V n -> block_ok d ->
  bok s' (held_set b n d V) (<[b := c']> cs).
Proof.
  intros B Hc Hb (S1 & S2 & S3 & S4) Hu Hp Hl Hr [M1 M2] Hd Hf Hin Hok.
  eapply bok_change; eauto.
  - rewrite S1. apply B.
  - rewrite S2. apply B.
  - rewrite S3. apply B.
  - apply B.
  - unfold buf_ok, held_set. cbn. rewrite lookup_insert_eq. done.
  - intros j e N Hj He. by apply buf_ok_hold.
  - intros _ j e N Hj He. rewrite M2. by eapply Hu.
  - intros m dm Hm. destruct (bo_pin _ _ _ B m dm Hm) as (K & i & e & Hi & He & M). split; [done|].
    destruct (decide (i = b)) as [->|N].
    + left. rewrite Hc in He. injection He as <-. by rewrite (Hp _ _ Hm M).
    + right. by exists i, e.
  - intros j x. cbn. destruct (decide (j = b)) as [->|N]; [done|]. rewrite lookup_insert_ne by done. apply (bo_held _ _ _ B).
Qed.

Lemma content_block s V cs n : bok s V cs -> in_disk V n -> block_ok (content V n).
Proof.
  intros B Hn. unfold content. destruct (v_pin V !! n) as [d|] eqn:E; cbn.
  - by destruct (bo_pin _ _ _ B n d E).
  - unfold disk_at. destruct (lookup_lt_is_Some_2 (v_disk V) (Z.to_nat n)) as [d Hd]; [unfold in_disk, disk_len in Hn; lia|].
    rewrite Hd. cbn. eapply Forall_lookup_1; [apply B|exact Hd].
Qed.

(** Reading a block that has just been given an empty buffer. *)
Lemma iderw_read s cs l b c V n :
  brep s cs l -> cs !! b = Some c -> b_lock c = sl_mine (mypid s) -> b_flags c = 0 -> matches 1 n c ->
  memdisk s = v_disk V -> in_disk V n ->
  exists s', iderw b s = Ok tt s' /\ brep s' (<[b := set_flags 2 (set_data (disk_at (v_disk V) n) c)]> cs) l /\ same_but_bufs s s'.
Proof.
  intros R Hc Hl Hf [M1 M2] Hm Hin. unfold iderw. mgo.
  destruct (holding_lock _ _ _ _ _ R Hc Hl) as (s1 & E1 & R1 & S1). mstep E1. cbn [negb].
  destruct (cs_get _ _ _ _ _ R1 Hc) as (p & E & Hp). mstep E.
  replace (b_flags p) with 0 by (by rewrite <- Hf, <- Hp). replace (b_dev p) with 1 by (by rewrite <- M1, <- Hp).
  replace (b_blockno p) with n by (by rewrite <- M2, <- Hp). 
  change (Z.land 0 (Z.lor B_VALID B_DIRTY) =? B_VALID) with false. change (negb (1 =? 1)) with false. mgo.
  assert (memdisk s1 = v_disk V) as Hm1 by (by rewrite <- Hm; apply S1).
  rewrite Hm1. rewrite (proj2 (Z.leb_gt _ _)) by (unfold in_disk in Hin; lia).
  replace (flag p B_DIRTY) with false by (by unfold flag; rewrite <- Hp in Hf; change (b_flags (core p)) with (b_flags p) in Hf; rewrite Hf).
  destruct (brep_upd _ _ _ _ _ (set_data (disk_at (v_disk V) n)) R1 Hc) as (s2 & E2 & R2 & S2); [kl|]. mstep E2.
  destruct (brep_upd _ _ _ b _ (fun b => set_flags (Z.lor (b_flags b) B_VALID) b) R2
    (list_lookup_insert_eq _ _ _ (lookup_lt_Some _ _ _ Hc))) as (s3 & E3 & R3 & S3); [kl|].
  rewrite list_insert_insert_eq in R3. exists s3. split; [exact E3|]. split.
  - cbn in R3. by rewrite Hf in R3.
  - by repeat (eapply same_trans; [eassumption|]).
Qed.

Lemma bread_takes s V n :
  cache_ok s V -> in_disk V n -> unheld V n -> room NBUF V n ->
  exists b s', bread 1 n s = Ok b s' /\ (v_held V !! b = None /\ cache_ok s' (held_set b n (content V n) V)) /\ keeps_lru s s' /\ takes_buf s n b.
Proof.
  intros (cs & l & R & B) Hin Hun Hroom. unfold bread.
  destruct (bget_ok _ _ _ _ _ R B Hun Hroom) as (b & c & c' & s1 & E1 & Hb & Hc & Hnh & R1 & S1 & Hcase). mstep E1.
  pose proof (content_block _ _ _ _ B Hin) as Hcb. pose proof (lookup_lt_Some _ _ _ Hc) as Hlt.
  destruct (cs_get _ _ _ b _ R1 (list_lookup_insert_eq _ _ _ Hlt)) as (p & E & Hp). mstep E.
  destruct (core_brep _ _ _ _ _ R Hc) as (pb & Hpb & Ecb). destruct Hcase as [[M ->]|(Hno & Hnd & -> & Hun' & l1 & l2 & El & Hl2)].
  - destruct (buf_ok_dev _ _ _ _ (bo_buf _ _ _ B b c Hb Hc) (proj1 M)) as (Kf & _ & Kd). rewrite Hnh in Kd.
    destruct M as [M1 M2]. rewrite M2 in Kf, Kd. unfold flag.
    replace (b_flags p) with (vflags V n) by (by rewrite <- Kf; change (b_flags p) with (b_flags (core p)); rewrite Hp).
    destruct (vflags_bits V n) as (-> & _). mgo. exists b, s1. split; [done|].
    split; [|split; [by eapply brep_keeps|left; exists pb; split; [done|]; split; [done|]; rewrite <- Ecb in M1, M2; by split]]. split; [done|].
    eexists _, l. split; [exact R1|]. eapply bok_insert_hold; eauto; try done.
    + intros j e N Hj He [N1 N2]. apply N. eapply (bo_uniq _ _ _ B); eauto; congruence.
    + intros m dm _ [_ ?]. congruence.
  - unfold flag. replace (b_flags p) with 0 by (by change (b_flags p) with (b_flags (core p)); rewrite Hp).
    change (negb (negb (Z.land 0 B_VALID =? 0))) with true.
    assert (v_pin V !! n = None) as Hnp.
    { destruct (v_pin V !! n) eqn:Ep; [|done]. destruct (bo_pin _ _ _ B n _ Ep) as (_ & i & e & Hi & He & M). exfalso. by eapply Hno. }
    destruct (iderw_read s1 _ l b _ V n R1 (list_lookup_insert_eq _ _ _ Hlt)) as (s2 & E2 & R2 & S2); try done.
    { cbn. f_equal. symmetry. apply S1. }
    { rewrite <- (bo_disk _ _ _ B). apply S1. }
    mstep E2. mgo. rewrite list_insert_insert_eq in R2. exists b, s2. split; [done|].
    split; [|split; [by eapply brep_keeps|right; split; [|split]]].
    2:{ intros j (p' & Hj & Hp' & Mp). apply (Hno j (core p') Hj); [by eapply brep_core|done]. }
    2:{ exists pb. split; [done|]. by rewrite <- Ecb in Hun'. }
    2:{ exists l1, l2. rewrite <- El. split; [by eapply brep_lru|]. intros j p' Hj Hp'. by apply (Hl2 j (core p') Hj), (brep_core _ _ _ _ _ R). }
    split; [done|]. eexists _, l. split; [exact R2|]. eapply bok_insert_hold; eauto; try done.
    + by eapply same_trans.
    + intros m dm Hm M. exfalso. unfold flag in Hnd.
      destruct (buf_ok_dev _ _ _ _ (bo_buf _ _ _ B b c Hb Hc) (proj1 M)) as (Kf & _). destruct M as [_ M]. rewrite M in Kf.
      rewrite Kf in Hnd. destruct (vflags_bits V m) as (_ & Hv & _). rewrite Hv in Hnd. apply bool_decide_eq_false in Hnd.
      apply Hnd. by eexists.
    + unfold content. by rewrite Hnp.
    + unfold vflags. by rewrite Hnp.
Qed.

Lemma bread_ok s V n :
  cache_ok s V -> in_disk V n -> unheld V n -> room NBUF V n ->
  exists b s', bread 1 n s = Ok b s' /\ v_held V !! b = None /\ cache_ok s' (held_set b n (content V n) V).
Proof. intros C Hin Hun Hr. destruct (bread_takes s V n C Hin Hun Hr) as (b & s' & E & O & _). by exists b, s'. Qed.

Lemma held_entry s V b n d : cache_ok s V -> v_held V !! b = Some (n, d) ->
  exists cs l c, brep s cs l /\ bok s V cs /\ cs !! b = Some c.
Proof.
  intros (cs & l & R & B) Hh. pose proof (bo_held _ _ _ B _ _ Hh) as Hb.
  destruct (brep_some _ _ _ b R) as [c Hc]; [lia|]. by exists cs, l, c.
Qed.

Lemma buf_data_ok s V b n d : cache_ok s V -> v_held V !! b = Some (n, d) -> buf_data b s = Ok d s.
Proof.
  intros C Hh. destruct (held_entry _ _ _ _ _ C Hh) as (cs & l & c & R & B & Hc).
  destruct (bok_held _ _ _ _ _ _ B Hh c Hc) as (_ & _ & _ & _ & _ & <- & _).
  destruct (cs_get _ _ _ _ _ R Hc) as (p & E & <-). unfold buf_data. by mstep E.
Qed.
Lemma buf_blockno_ok s V b n d : cache_ok s V -> v_held V !! b = Some (n, d) -> buf_blockno b s = Ok n s.
Proof.
  intros C Hh. destruct (held_entry _ _ _ _ _ C Hh) as (cs & l & c & R & B & Hc).
  destruct (bok_held _ _ _ _ _ _ B Hh c Hc) as (_ & _ & _ & _ & <- & _).
  destruct (cs_get _ _ _ _ _ R Hc) as (p & E & <-). unfold buf_blockno. by mstep E.
Qed.

(** The other buffers of a held block are other blocks. *)
Lemma held_unique s V cs b n d c : bok s V cs -> v_held V !! b = Some (n, d) -> cs !! b = Some c ->
  forall j e, j <> b -> (j < NBUF)%nat -> cs !! j = Some e -> ~ matches 1 n e.
Proof.
  intros B Hh Hc j e N Hj He [M1 M2]. destruct (bok_held _ _ _ _ _ _ B Hh c Hc) as (Hb & _ & _ & D & <- & _).
  apply N. by eapply (bo_uniq _ _ _ B j b e c).
Qed.

Lemma put_data_ok s V b n d d' : cache_ok s V -> v_held V !! b = Some (n, d) -> block_ok d' ->
  exists s', put_data b d' s = Ok tt s' /\ cache_ok s' (held_set b n d' V).
Proof.
  intros C Hh Hd. destruct (held_entry _ _ _ _ _ C Hh) as (cs & l & c & R & B & Hc).
  destruct (bok_held _ _ _ _ _ _ B Hh c Hc) as (Hb & Hl & Hr & D1 & D2 & D3 & Hf & Hin & _).
  destruct (brep_upd _ _ _ _ _ (set_data d') R Hc) as (s' & E & R' & S); [kl|].
  exists s'. split; [exact E|]. eexists _, l. split; [exact R'|]. eapply bok_insert_hold; eauto; try done.
  - by eapply held_unique.
  - intros m dm _ [_ M]. congruence.
Qed.

(** What marking or writing block [n] does to the buffers of other blocks. *)
Lemma buf_ok_other me V V' n j e :
  (forall m, m <> n -> v_pin V' !! m = v_pin V !! m) -> (forall m, in_disk V m -> m <> n -> disk_at (v_disk V') m = disk_at (v_disk V) m) ->
  disk_len (v_disk V') = disk_len (v_disk V) -> v_held V' !! j = v_held V !! j ->
  ~ matches 1 n e -> buf_ok me V j e -> buf_ok me V' j e.
Proof.
  intros Hp Hd Hlen Hh Hn. unfold buf_ok, in_disk. rewrite Hh, Hlen. destruct (v_held V !! j) as [[m d]|].
  - intros (A1 & A2 & A3 & A4 & A5 & A6 & A7 & A8).
    split_and!; try done; try lia. unfold vflags. rewrite Hp; [done|].
    intros ->. by apply Hn.
  - intros (A1 & A2 & [A|(A3 & A4 & A5 & A6)]); (split; [done|]); (split; [done|]); [by left|]. right.
    assert (b_blockno e <> n) as N by (intros E; by apply Hn).
    split; [done|]. unfold content, vflags. by rewrite Hp, Hd by done.
Qed.


(** The buffer of a held block gets new flags, with a new state of that block. *)
Lemma bok_held_change s s' V V' cs b c c' n d :
  bok s V cs -> v_held V !! b = Some (n, d) -> cs !! b = Some c ->
  bc_lock s' = false -> memdisk s' = v_disk V' -> bwrites s' = v_writes V' -> mypid s' = mypid s ->
  Forall block_ok (v_disk V') -> v_held V' = v_held V ->
  (forall m, m <> n -> v_pin V' !! m = v_pin V !! m) ->
  (forall m, in_disk V m -> m <> n -> disk_at (v_disk V') m = disk_at (v_disk V) m) ->
  disk_len (v_disk V') = disk_len (v_disk V) ->
  (forall d', v_pin V' !! n = Some d' -> block_ok d') ->
  c' = set_flags (vflags V' n) c ->
  bok s' V' (<[b := c']> cs).
Proof.
  intros B Hh Hc H1 H2 H3 H4 H5 Eh Hp Hd Hl Hpn ->.
  destruct (bok_held _ _ _ _ _ _ B Hh c Hc) as (Hb & L & Hr & D1 & D2 & D3 & Hf & Hin & Hok).
  eapply bok_change; eauto.
  - unfold buf_ok. rewrite Eh, Hh. unfold in_disk. rewrite Hl. by split_and!; try apply Hin; try apply Hok.
  - intros j e N Hj He. eapply buf_ok_other; eauto; [by rewrite Eh|]. by eapply held_unique.
  - intros _ j e N Hj He. cbn. rewrite D2. by eapply held_unique.
  - intros m dm Hm. destruct (decide (m = n)) as [->|N].
    + split; [by apply Hpn|]. by left.
    + rewrite Hp in Hm by done. destruct (bo_pin _ _ _ B m dm Hm) as (K & i & e & Hi & He & M). split; [done|].
      right. exists i, e. split_and!; try done; [|apply M..]. intros ->. rewrite Hc in He. injection He as <-.
      destruct M as [_ M]. congruence.
  - intros j x. rewrite Eh. apply (bo_held _ _ _ B).
Qed.

Lemma mark_dirty_keeps s V b n d : cache_ok s V -> v_held V !! b = Some (n, d) ->
  exists s', mark_dirty b s = Ok tt s' /\ keeps_lru s s' /\ cache_ok s' (pinned n d V).
Proof.
  intros C Hh. destruct (held_entry _ _ _ _ _ C Hh) as (cs & l & c & R & B & Hc).
  destruct (bok_held _ _ _ _ _ _ B Hh c Hc) as (Hb & L & Hr & D1 & D2 & D3 & Hf & Hin & Hok).
  destruct (brep_upd _ _ _ _ _ (fun p => set_flags (Z.lor (b_flags p) B_DIRTY) p) R Hc) as (s' & E & R' & (S1&S2&S3&S4)); [kl|].
  exists s'. split; [exact E|]. split; [by eapply brep_keeps|]. eexists _, l. split; [exact R'|].
  eapply bok_held_change; [exact B|exact Hh|exact Hc|..]; cbn; try done; try congruence; try (by rewrite ?S1, ?S2, ?S3; apply B).
  - intros m N. by rewrite lookup_insert_ne.
  - intros d'. rewrite lookup_insert_eq. by intros [= <-].
  - f_equal. rewrite Hf. destruct (vflags_bits V n) as (_ & _ & _ & ->). unfold vflags, pinned. cbn. by rewrite lookup_insert_eq.
Qed.
Lemma mark_dirty_ok s V b n d : cache_ok s V -> v_held V !! b = Some (n, d) ->
  exists s', mark_dirty b s = Ok tt s' /\ cache_ok s' (pinned n d V).
Proof. intros C Hh. destruct (mark_dirty_keeps s V b n d C Hh) as (s' & E & _ & C'). by exists s'. Qed.

Lemma bwrite_keeps s V b n d : cache_ok s V -> v_held V !! b = Some (n, d) ->
  exists s', bwrite b s = Ok tt s' /\ keeps_lru s s' /\ cache_ok s' (written n d V).
Proof.
  intros C Hh. destruct (held_entry _ _ _ _ _ C Hh) as (cs & l & c & R & B & Hc). pose proof (lookup_lt_Some _ _ _ Hc) as Hlt.
  destruct (bok_held _ _ _ _ _ _ B Hh c Hc) as (Hb & L & Hr & D1 & D2 & D3 & Hf & Hin & Hok).
  unfold bwrite. mgo. destruct (holding_lock _ _ _ _ _ R Hc L) as (s1 & E1 & R1 & S1). mstep E1. cbn [negb].
  destruct (brep_upd _ _ _ _ _ (fun p => set_flags (Z.lor (b_flags p) B_DIRTY) p) R1 Hc) as (s2 & E2 & R2 & S2); [kl|]. mstep E2.
  pose proof (same_trans _ _ _ S1 S2) as S12.
  assert (Z.lor (b_flags c) B_DIRTY = 6) as H6 by (rewrite Hf; apply vflags_bits). cbv beta in R2. rewrite H6 in R2.
  unfold iderw. mgo. pose proof (list_lookup_insert_eq _ _ (set_flags 6 c) Hlt) as Hc2.
  destruct (holding_lock _ _ _ _ _ R2 Hc2) as (s3 & E3 & R3 & S3); [cbn; rewrite L; f_equal; symmetry; apply S12|].
  mstep E3. cbn [negb].
  destruct (cs_get _ _ _ _ _ R3 Hc2) as (p & E & Hp). mstep E.
  assert (b_flags p = 6) as F6 by (by change (b_flags p) with (b_flags (core p)); rewrite Hp).
  assert (b_dev p = 1) as P1 by (by change (b_dev p) with (b_dev (core p)); rewrite Hp).
  assert (b_blockno p = n) as P2 by (by change (b_blockno p) with (b_blockno (core p)); rewrite Hp).
  assert (b_data p = d) as P3 by (by change (b_data p) with (b_data (core p)); rewrite Hp).
  unfold flag. rewrite F6, P1, P2, P3. change (Z.land 6 (Z.lor B_VALID B_DIRTY) =? B_VALID) with false.
  change (negb (Z.land 6 B_DIRTY =? 0)) with true. change (negb (1 =? 1)) with false. mgo.
  pose proof (same_trans _ _ _ S12 S3) as S13.
  assert (memdisk s3 = v_disk V) as -> by (rewrite <- (bo_disk _ _ _ B); apply S13).
  rewrite (proj2 (Z.leb_gt _ _)) by (unfold in_disk in Hin; lia).
  destruct (brep_upd _ _ _ b _ (fun b => set_flags (Z.land (b_flags b) (Z.lnot B_DIRTY)) b) R3 Hc2) as (s4 & E4 & R4 & S4); [kl|]. mgo. mstep E4. mgo.
  rewrite list_insert_insert_eq in R4. apply (brep_disk _ _ _ n d) in R4.
  destruct (brep_upd _ _ _ b _ (fun b => set_flags (Z.lor (b_flags b) B_VALID) b) R4 (list_lookup_insert_eq _ _ _ Hlt))
    as (s5 & E5 & R5 & S5); [kl|]. rewrite list_insert_insert_eq in R5.
  exists s5. split; [exact E5|]. split; [by eapply brep_keeps|]. eexists _, l. split; [exact R5|].
  pose proof (same_trans _ _ _ S13 S4) as (A1 & A2 & A3 & A4). destruct S5 as (B1 & B2 & B3 & B4).
  eapply bok_held_change; [exact B|exact Hh|exact Hc|..]; cbn; try done.
  - rewrite B1. cbn. rewrite A1. apply B.
  - rewrite B2. cbn. by rewrite A2, (bo_disk _ _ _ B).
  - rewrite B3. cbn. by rewrite A3, (bo_writes _ _ _ B).
  - by rewrite B4.
  - apply Forall_insert; [apply B|done].
  - intros m N. by rewrite lookup_delete_ne.
  - intros m Hm N. rewrite disk_at_set by (apply Hin || apply Hm). by rewrite decide_False.
  - apply disk_len_set.
  - intros d'. by rewrite lookup_delete_eq.
  - unfold vflags, written. cbn. by rewrite lookup_delete_eq.
Qed.
Lemma bwrite_ok s V b n d : cache_ok s V -> v_held V !! b = Some (n, d) ->
  exists s', bwrite b s = Ok tt s' /\ cache_ok s' (written n d V).
Proof. intros C Hh. destruct (bwrite_keeps s V b n d C Hh) as (s' & E & _ & C'). by exists s'. Qed.

Lemma brelse_front s V b n d : cache_ok s V -> v_held V !! b = Some (n, d) -> content V n = d ->
  exists s' l1 l2, brelse b s = Ok tt s' /\ (lru s (l1 ++ b :: l2) /\ lru s' (b :: l1 ++ l2)) /\ cache_ok s' (held_drop b V).
Proof.
  intros C Hh Hcont. destruct (held_entry _ _ _ _ _ C Hh) as (cs & l & c & R & B & Hc). pose proof (lookup_lt_Some _ _ _ Hc) as Hlt.
  destruct (bok_held _ _ _ _ _ _ B Hh c Hc) as (Hb & L & Hr & D1 & D2 & D3 & Hf & Hin & Hok).
  unfold brelse. mgo. destruct (holding_lock _ _ _ _ _ R Hc L) as (s1 & E1 & R1 & S1). mstep E1. cbn [negb].
  destruct (brep_lock _ _ _ _ _ releasesleep tt sl_free R1 Hc) as (s2 & E2 & R2 & S2); [rewrite L; apply releasesleep_ok|].
  mstep E2. pose proof (same_trans _ _ _ S1 S2) as S12.
  mstep spin_in; [|destruct S12 as [-> _]; apply B]. apply (brep_bc _ _ _ true) in R2.
  destruct (brep_upd _ _ _ b _ (fun p => set_refcnt (b_refcnt p - 1) p) R2 (list_lookup_insert_eq _ _ _ Hlt)) as (s3 & E3 & R3 & S3); [kl|].
  mstep E3. rewrite list_insert_insert_eq in R3.
  destruct (cs_get _ _ _ b _ R3 (list_lookup_insert_eq _ _ _ Hlt)) as (p & E & Hp). mstep E.
  replace (b_refcnt p) with 0 by (change (b_refcnt p) with (b_refcnt (core p)); rewrite Hp; cbn; lia). cbn [Z.eqb].
  destruct (to_front_ok _ _ _ b R3 Hb) as (s4 & l1 & l2 & E4 & El & R4 & S4). mstep E4.
  assert (bc_lock s4 = true) as Hl4 by (destruct S4 as [-> _]; destruct S3 as [-> _]; done).
  pose proof (spin_out _ Hl4) as E5. apply (brep_bc _ _ _ false) in R4.
  exists (set_bc_lock false s4), l1, l2. split; [exact E5|]. split; [rewrite <- El; split; by eapply brep_lru|]. eexists _, _. split; [exact R4|].
  assert (same_but_bufs s (set_bc_lock false s4)) as (A1 & A2 & A3 & A4).
  { destruct S12 as (?&?&?&?), S3 as (?&?&?&?), S4 as (?&?&?&?). pose proof (bo_lock _ _ _ B).
    unfold same_but_bufs in *. cbn in *. split_and!; congruence. }
  eapply bok_change; [exact B|exact Hc|exact Hb|..]; try done.
  - rewrite A2. apply B.
  - rewrite A3. apply B.
  - apply B.
  - unfold buf_ok, held_drop. cbn. rewrite lookup_delete_eq. cbn. split; [done|]. split; [lia|]. right.
    rewrite D2. split; [done|]. split; [|by split]. change (b_data c = content V n). congruence.
  - intros j e N Hj He. by apply buf_ok_drop.
  - intros _ j e N Hj He. cbn. rewrite D2. by eapply held_unique.
  - intros m dm Hm. destruct (bo_pin _ _ _ B m dm Hm) as (K & i & e & Hi & He & M). split; [done|].
    destruct (decide (i = b)) as [->|N]; [|right; by exists i, e]. left. rewrite Hc in He. by injection He as <-.
  - intros j x. cbn. rewrite lookup_delete_Some. intros [_ Hx]. by apply (bo_held _ _ _ B _ _ Hx).
Qed.
Lemma brelse_ok s V b n d : cache_ok s V -> v_held V !! b = Some (n, d) -> content V n = d ->
  exists s', brelse b s = Ok tt s' /\ cache_ok s' (held_drop b V).
Proof. intros C Hh Hc. destruct (brelse_front s V b n d C Hh Hc) as (s' & _ & _ & E & _ & C'). by exists s'. Qed.

(** ** Initialisation *)

(** The zeroed memory of a booting kernel. *)
Definition bio_boot (disk : list block) (pid : Z) : bst :=
  Bst (replicate (S NBUF) (Buf 0 0 0 sl_free 0 0 0 [])) false disk [] pid.

Lemma binit_ok disk pid : Forall block_ok disk ->
  exists s', binit (bio_boot disk pid) = Ok tt s' /\ cache_ok s' (View disk ∅ ∅ []).
Proof.
  intros Hd. eexists. split; [cbv -[sl_free]; reflexivity|].
  match goal with |- cache_ok ?x _ => set (s' := x) end.
  exists (map core (bufs s')), (rev (seq 0 NBUF)). split.
  - split; [done|reflexivity|vm_compute; by repeat split|apply Permutation_sym, Permutation_rev].
  - assert (forall i c, (i < NBUF)%nat -> map core (bufs s') !! i = Some c -> c = Buf 0 0 0 sl_free 0 0 0 []) as K.
    { intros i c Hi Hc. do 30 (destruct i as [|i]; [cbn in Hc; by injection Hc as <-|]). unfold NBUF in Hi. lia. }
    split; try done.
    + intros i c Hi Hc. rewrite (K i c Hi Hc). unfold buf_ok. cbn. rewrite lookup_empty. split; [done|]. split; [done|by left].
    + intros i j c e Hi Hj Hc He D. rewrite (K i c Hi Hc) in D. done.
Qed.

(** ** The interface *)

#[export] Instance bio_cache : BlockCache bst.
Proof.
  refine {|
    c_nbuf := NBUF; c_bread := bread; c_bwrite := bwrite; c_brelse := brelse; c_data := buf_data;
    c_put := put_data; c_blockno := buf_blockno; c_dirty := mark_dirty; c_ok := cache_ok;
    c_bread_ok := bread_ok; c_data_ok := buf_data_ok; c_blockno_ok := buf_blockno_ok; c_put_ok := put_data_ok;
    c_bwrite_ok := bwrite_ok; c_dirty_ok := mark_dirty_ok; c_brelse_ok := brelse_ok
  |}.
  - intros s V (cs & l & R & B). apply B.
  - intros s V n (cs & l & R & B) Hn. by eapply content_block.
  - intros s V b n d C Hh. destruct (held_entry _ _ _ _ _ C Hh) as (cs & l & c & R & B & Hc).
    destruct (bok_held _ _ _ _ _ _ B Hh c Hc) as (Hb & _ & _ & D1 & D2 & _ & _ & Hin & Hok).
    split; [done|]. split; [done|]. intros b' d' Hh'.
    pose proof (bo_held _ _ _ B _ _ Hh') as Hb'. destruct (brep_some _ _ _ b' R) as [c' Hc']; [lia|].
    destruct (bok_held _ _ _ _ _ _ B Hh' c' Hc') as (_ & _ & _ & D1' & D2' & _).
    eapply (bo_uniq _ _ _ B b' b c' c); eauto; congruence.
Defined.

(** ** Waiting and running out *)

Lemma bread_held s V b n d : cache_ok s V -> v_held V !! b = Some (n, d) -> bread 1 n s = Hang.
Proof.
  intros C Hh. destruct (held_entry _ _ _ _ _ C Hh) as (cs & l & c & R & B & Hc).
  destruct (bok_held _ _ _ _ _ _ B Hh c Hc) as (Hb & L & Hr & D1 & D2 & _). pose proof (br_perm _ _ _ R) as P.
  unfold bread. apply bind_Hang. unfold bget. mstep spin_in; [|apply B].
  apply (brep_bc _ _ _ true) in R. pose proof (brep_linked _ _ _ R) as K.
  destruct (linked_get _ _ _ _ HEAD K) as (h & E & _ & _ & Nh & _); [unfold HEAD; lia|]. mstep E. rewrite Nh.
  destruct (bget_find_ok _ _ _ _ 1 n (S NBUF) HEAD l K (br_ring _ _ _ R)) as (r & Er & Hr').
  { rewrite P, length_seq. lia. } { by apply head_notin. } { intros i Hi. apply (in_lru _ _ P) in Hi. lia. }
  mstep Er. destruct r as [i|]; [|exfalso; apply (Hr' b c); [by apply (in_lru _ _ P)|done|by split]].
  destruct Hr' as (Hi & c' & Hc' & D1' & D2'). apply (in_lru _ _ P) in Hi.
  assert (i = b) as -> by (eapply (bo_uniq _ _ _ B i b c' c); eauto; congruence).
  destruct (brep_upd _ _ _ _ _ (fun p => set_refcnt (b_refcnt p + 1) p) R Hc) as (s1 & E1 & R1 & S1); [kl|]. mstep E1.
  mstep spin_out; [|apply S1]. mgo. apply bind_Hang.
  destruct (brep_get _ _ _ b _ (brep_bc _ _ _ false R1) (list_lookup_insert_eq _ _ _ (lookup_lt_Some _ _ _ Hc))) as (p & _ & Hp & Ep).
  unfold on_lock. rewrite Hp. unfold zoom. change (b_lock p) with (b_lock (core p)). rewrite Ep. cbn [set_refcnt b_lock]. rewrite L.
  by rewrite acquiresleep_held.
Qed.

Lemma size_list_to_set_le (l : list Z) : (size (list_to_set (C := gset Z) l) <= length l)%nat.
Proof.
  induction l as [|x l IH]; [done|]. cbn [list_to_set foldr length]. change (foldr _ _ l) with (list_to_set (C := gset Z) l).
  destruct (decide (x ∈ (list_to_set l : gset Z))) as [Hx|Hx].
  - replace ({[x]} ∪ list_to_set l : gset Z) with (list_to_set l : gset Z) by set_solver. lia.
  - rewrite size_union by set_solver. rewrite size_singleton. lia.
Qed.

(** The blocks that keep a buffer busy. *)
Definition busy (V : bview) : gset Z := list_to_set (map (fun x => fst (snd x)) (map_to_list (v_held V))) ∪ dom (v_pin V).

Lemma elem_of_busy V n : n ∈ busy V <-> (exists b d, v_held V !! b = Some (n, d)) \/ is_Some (v_pin V !! n).
Proof.
  unfold busy. rewrite elem_of_union, elem_of_list_to_set, elem_of_dom, list_elem_of_fmap. apply or_iff_compat_r. split.
  - intros ([b [m d]] & -> & Hx%elem_of_map_to_list). by exists b, d.
  - intros (b & d & Hx%elem_of_map_to_list). by exists (b, (n, d)).
Qed.

Lemma all_busy s V cs l : brep s cs l -> bok s V cs -> (NBUF <= size (busy V))%nat ->
  forall i c, (i < NBUF)%nat -> cs !! i = Some c -> b_dev c = 1 /\ b_blockno c ∈ busy V.
Proof.
  intros R B Hs. set (Q := fun i => exists c, cs !! i = Some c /\ b_dev c = 1 /\ b_blockno c ∈ busy V).
  assert (forall i, Decision (Q i)) as DQ.
  { intros i. unfold Q. destruct (cs !! i) as [c|]; [|right; by intros (c & ? & _)].
    destruct (decide (b_dev c = 1 /\ b_blockno c ∈ busy V)) as [H|H]; [left; by exists c|right]. intros (c' & [= <-] & H'). done. }
  set (bn := fun i => default 0 (b_blockno <$> cs !! i)). set (L := filter Q (seq 0 NBUF)).
  assert (size (busy V) <= length L)%nat as Hl.
  { rewrite <- (length_map bn L). etrans; [|apply size_list_to_set_le]. apply subseteq_size. intros n Hn. pose proof Hn as Hb.
    apply elem_of_list_to_set, list_elem_of_fmap.
    assert (exists i c, (i < NBUF)%nat /\ cs !! i = Some c /\ matches 1 n c) as (i & c & Hi & Hc & M1 & M2).
    { apply elem_of_busy in Hn as [(b & d & Hh)|[d Hd]]; [|by destruct (bo_pin _ _ _ B _ _ Hd)].
      pose proof (bo_held _ _ _ B _ _ Hh) as Hlt. destruct (brep_some _ _ _ b R) as [c Hc]; [lia|].
      destruct (bok_held _ _ _ _ _ _ B Hh c Hc) as (_ & _ & _ & D1 & D2 & _). by exists b, c. }
    exists i. split; [unfold bn; by rewrite Hc|]. apply list_elem_of_filter. split; [|rewrite elem_of_seq; lia].
    exists c. by rewrite M2. }
  intros i c Hi Hc. destruct (decide (Q i)) as [(c' & Hc' & H)|Hno].
  - rewrite Hc in Hc'. by injection Hc' as <-.
  - exfalso. assert (length L < length (seq 0 NBUF))%nat as Hlt.
    { apply (length_filter_lt Q _ i); [|done]. rewrite elem_of_seq. lia. }
    rewrite length_seq in Hlt. lia.
Qed.

Lemma bread_full s V n : cache_ok s V -> (NBUF <= size (busy V))%nat -> n ∉ busy V -> bread 1 n s = Panic "bget: no buffers".
Proof.
  intros (cs & l & R & B) Hs Hn. pose proof (all_busy _ _ _ _ R B Hs) as K. pose proof (br_perm _ _ _ R) as P.
  unfold bread. apply bind_Panic. unfold bget. mstep spin_in; [|apply B]. apply (brep_bc _ _ _ true) in R. pose proof (brep_linked _ _ _ R) as L.
  assert (length l < S NBUF)%nat as Hlen by (rewrite P, length_seq; lia).
  pose proof (head_notin _ P) as Hh. assert (forall i, i ∈ l -> (i <= NBUF)%nat) as Hle.
  { intros i Hi. apply (in_lru _ _ P) in Hi. lia. }
  destruct (linked_get _ _ _ _ HEAD L) as (h & E & _ & _ & Nh & Ph); [unfold HEAD; lia|]. mstep E. rewrite Nh.
  destruct (bget_find_ok _ _ _ _ 1 n (S NBUF) HEAD l L (br_ring _ _ _ R) Hlen Hh Hle) as (r & Er & Hr). mstep Er.
  destruct r as [b|].
  { exfalso. destruct Hr as (Hb & c & Hc & _ & M). apply (in_lru _ _ P) in Hb. destruct (K b c Hb Hc) as [_ Hx]. by rewrite M in Hx. }
  mstep E. rewrite Ph.
  destruct (bget_recycle_ok _ cs _ _ (S NBUF) HEAD (rev l) L) as (r & Er' & Hr').
  { apply seg_rev, R. } { by rewrite length_rev. } { by rewrite elem_of_rev. }
  { intros i Hi. rewrite elem_of_rev in Hi. by apply Hle. }
  mstep Er'. destruct r as [b|]; [exfalso|done].
  destruct Hr' as ((c & Hc & U1 & U2) & k1 & k2 & El & _).
  assert (b < NBUF)%nat as Hb by (apply (in_lru _ _ P); rewrite <- elem_of_rev, El, elem_of_app; right; by left). destruct (K b c Hb Hc) as [D Hx].
  pose proof (bo_buf _ _ _ B b c Hb Hc) as Kb.
  destruct (v_held V !! b) as [[m d]|] eqn:Eh.
  { unfold buf_ok in Kb. rewrite Eh in Kb. lia. }
  apply elem_of_busy in Hx as [(b' & d & Hh')|Hx].
  - pose proof (bo_held _ _ _ B _ _ Hh') as Hb'. destruct (brep_some _ _ _ b' R) as [c' Hc']; [lia|].
    destruct (bok_held _ _ _ _ _ _ B Hh' c' Hc') as (_ & _ & _ & D1 & D2 & _).
    assert (b = b') as <- by (eapply (bo_uniq _ _ _ B b b' c c'); eauto; congruence). congruence.
  - destruct (buf_ok_dev _ _ _ _ Kb D) as (Kf & _). unfold flag in U2. rewrite Kf in U2.
    destruct (vflags_bits V (b_blockno c)) as (_ & Hv & _). rewrite Hv in U2. by apply bool_decide_eq_false in U2.
Qed.

(** C5. The buffer cache is a map from block numbers to contents. After [binit] nothing
    is held or pinned. [bread] of a block returns a locked buffer with the contents last
    written or logged, from the cache or from the disk, and nothing else changes: the buffer
    is the one that caches the block or, when none does, the first neither in use nor dirty
    from the least recently used end of the list. It waits forever for a buffer its own
    process holds, and panics when all NBUF buffers are held or pinned and the block is not
    among them. [bwrite] puts the data of a held buffer on disk, and a buffer marked dirty
    stays in the cache with its contents. [brelse] gives the buffer back and moves it to the
    front of the list; the other calls leave the list, which has all the buffers, as it is. *)
Theorem buffer_cache (disk : list block) (pid : Z) :
  Forall block_ok disk ->
  (exists s, binit (bio_boot disk pid) = Ok tt s /\ cache_ok s (View disk ∅ ∅ [])) /\
  forall s V n, cache_ok s V -> in_disk V n ->
    (exists l, lru s l /\ forall l', lru s l' -> l' = l) /\
    (unheld V n -> room NBUF V n -> exists b s', bread 1 n s = Ok b s' /\ v_held V !! b = None /\
       buf_data b s' = Ok (content V n) s' /\ cache_ok s' (held_set b n (content V n) V) /\ keeps_lru s s' /\ takes_buf s n b) /\
    ((NBUF <= size (busy V))%nat -> n ∉ busy V -> bread 1 n s = Panic "bget: no buffers") /\
    forall b d, v_held V !! b = Some (n, d) ->
      bread 1 n s = Hang /\
      (exists s', bwrite b s = Ok tt s' /\ cache_ok s' (written n d V) /\ disk_at (memdisk s') n = d /\ keeps_lru s s') /\
      (exists s', mark_dirty b s = Ok tt s' /\ cache_ok s' (pinned n d V) /\ keeps_lru s s') /\
      (content V n = d -> exists s' l1 l2, brelse b s = Ok tt s' /\ cache_ok s' (held_drop b V) /\
         lru s (l1 ++ b :: l2) /\ lru s' (b :: l1 ++ l2)).
Proof.
  intros Hd. split; [by apply binit_ok|]. intros s V n C Hin. split_and!.
  - destruct C as (cs & l & R & _). exists l. split; [by eapply brep_lru|]. intros l' K. exact (lru_unique _ _ _ K (brep_lru _ _ _ R)).
  - intros Hun Hr. destruct (bread_takes _ _ _ C Hin Hun Hr) as (b & s' & E & [Hb C'] & K & T).
    exists b, s'. split; [done|]. split; [done|]. split; [|done]. eapply buf_data_ok; [done|]. cbn. by rewrite lookup_insert_eq.
  - by apply bread_full.
  - intros b d Hh. split; [by eapply bread_held|]. split.
    { destruct (bwrite_keeps _ _ _ _ _ C Hh) as (s' & E & K & C'). exists s'. split; [done|]. split; [done|]. split; [|done].
      destruct C' as (cs & l & _ & B). rewrite (bo_disk _ _ _ B). cbn. rewrite disk_at_set; [by rewrite decide_True|done|apply Hin]. }
    split; [destruct (mark_dirty_keeps _ _ _ _ _ C Hh) as (s' & E & K & C'); by exists s'|]. intros Hc.
    destruct (brelse_front _ _ _ _ _ C Hh Hc) as (s' & l1 & l2 & E & [K1 K2] & C'). by exists s', l1, l2.
Qed.

Definition demo_disk : list block := replicate 8 (replicate 512 7).
Lemma demo_disk_ok : Forall block_ok demo_disk.
Proof. apply Forall_replicate. split; [done|]. by apply Forall_replicate. Qed.

Lemma buffer_cache_witness : exists s b s',
  binit (bio_boot demo_disk 5) = Ok tt s /\ bread 1 3 s = Ok b s' /\ buf_data b s' = Ok (replicate 512 7) s'.
Proof.
  destruct (buffer_cache demo_disk 5 demo_disk_ok) as ((s & E & C) & H).
  destruct (H s _ 3 C) as (_ & H1 & _); [split; [lia|done]|].
  destruct H1 as (b & s' & E1 & _ & E2 & _); [by intros b d|right; vm_compute; lia|].
  exists s, b, s'. split; [exact E|]. split; [exact E1|exact E2].
Defined.
