(* ===== verification/Ide.v ===== *)
(** * The disk driver: p6/ide.c

    A queue of requests, linked through [i_qnext], of which the disk works on the first.
    The disk is the class [IdeDisk]: port accesses on a state of its own, with the laws of
    a PIO disk. A call of [iderw] runs to its end or to where it sleeps, which releases
    the lock; [iderw_on] continues a call that was woken. *)

From S2P Require Import Prelude Sleeplock Cache.

(** ** The disk *)

(** A request: drive, sector, and the data of a write. *)
Record request := Request { q_drive : Z; q_sector : Z; q_data : option block }.
(** The disk has no command, waits for the data of a write, works, or has finished,
    with success or without. *)
Inductive dstatus := Quiet | Needs (drive sector : Z) | Busy (q : request) | Finished (q : request) (ok : bool).
Record dview := DView { dv_disk : Z -> Z -> block; dv_reg : Z -> Z; dv_status : dstatus; dv_present : bool }.
Definition set_dreg (p v : Z) (d : dview) : dview := DView (dv_disk d) (fun q => if q =? p then v else dv_reg d q) (dv_status d) (dv_present d).
Definition set_status (v : dstatus) (d : dview) : dview := DView (dv_disk d) (dv_reg d) v (dv_present d).
Definition ready (st : dstatus) : Prop := match st with Quiet | Finished _ _ => True | _ => False end.
(** The drive and the sector that the registers name. *)
Definition sel_drive (d : dview) : Z := Z.land (Z.shiftr (dv_reg d 0x1f6) 4) 1.
Definition sel_sector (d : dview) : Z := dv_reg d 0x1f3 + 256 * dv_reg d 0x1f4 + 65536 * dv_reg d 0x1f5 + 16777216 * Z.land (dv_reg d 0x1f6) 0x0f.
Definition answers (d : dview) : Prop := sel_drive d = 1 -> dv_present d = true.
Definition write_to (dk : Z -> Z -> block) (q : request) : Z -> Z -> block :=
  match q_data q with Some v => fun d n => if (d =? q_drive q) && (n =? q_sector q) then v else dk d n | None => dk end.
(** [dk'] is [dk] after [q] failed: a read leaves the disk as it is, a write may have left anything in its sector. *)
Definition spoiled (dk : Z -> Z -> block) (q : request) (dk' : Z -> Z -> block) : Prop :=
  forall d n, q_data q = None \/ d <> q_drive q \/ n <> q_sector q -> dk' d n = dk d n.

(** What ide.c relies on. [finishes d ok d']: the disk finishes its command, with success or without. *)
Class IdeDisk (D : Type) := {
  inb : Z -> M D Z;
  outb : Z -> Z -> M D unit;
  insl : Z -> Z -> M D block;
  outsl : Z -> block -> Z -> M D unit;
  ioapicenable : Z -> Z -> M D unit;
  dv : D -> dview;
  finishes : D -> bool -> D -> Prop;
  inb_ready d : ready (dv_status (dv d)) -> answers (dv d) ->
    exists r, inb 0x1f7 d = Ok r d /\ Z.land r 0xc0 = 0x40 /\ (Z.land r 0x21 <> 0 <-> exists q, dv_status (dv d) = Finished q false);
  inb_absent d : ready (dv_status (dv d)) -> ~ answers (dv d) -> inb 0x1f7 d = Ok 0 d;
  outb_reg p v d : p ∈ [0x3f6; 0x1f2; 0x1f3; 0x1f4; 0x1f5; 0x1f6] -> ready (dv_status (dv d)) -> exists d', outb p v d = Ok tt d' /\ dv d' = set_dreg p v (dv d);
  outb_read d : ready (dv_status (dv d)) -> answers (dv d) -> dv_reg (dv d) 0x1f2 = 1 ->
    exists d', outb 0x1f7 0x20 d = Ok tt d' /\ dv d' = set_status (Busy (Request (sel_drive (dv d)) (sel_sector (dv d)) None)) (dv d);
  outb_write d : ready (dv_status (dv d)) -> answers (dv d) -> dv_reg (dv d) 0x1f2 = 1 ->
    exists d', outb 0x1f7 0x30 d = Ok tt d' /\ dv d' = set_status (Needs (sel_drive (dv d)) (sel_sector (dv d))) (dv d);
  outsl_data v d drive sector : dv_status (dv d) = Needs drive sector -> Z.of_nat (length v) = BSIZE ->
    exists d', outsl 0x1f0 v 128 d = Ok tt d' /\ dv d' = set_status (Busy (Request drive sector (Some v))) (dv d);
  insl_data d q : dv_status (dv d) = Finished q true -> q_data q = None ->
    exists d', insl 0x1f0 128 d = Ok (dv_disk (dv d) (q_drive q) (q_sector q)) d' /\ dv d' = set_status Quiet (dv d);
  ioapic_dv irq cpu d : exists d', ioapicenable irq cpu d = Ok tt d' /\ dv d' = dv d;
  can_finish d q : dv_status (dv d) = Busy q -> exists d', finishes d true d';
  finish_ok d q d' : finishes d true d' -> dv_status (dv d) = Busy q ->
    dv d' = DView (write_to (dv_disk (dv d)) q) (dv_reg (dv d)) (Finished q true) (dv_present (dv d));
  finish_bad d q d' : finishes d false d' -> dv_status (dv d) = Busy q ->
    exists dk, spoiled (dv_disk (dv d)) q dk /\ dv d' = DView dk (dv_reg (dv d)) (Finished q false) (dv_present (dv d));
  finish_idle d ok d' : finishes d ok d' -> exists q, dv_status (dv d) = Busy q
}.

(** ** The driver *)

Definition SECTOR_SIZE : Z := 512.
Definition FSSIZE : Z := 1000.
Definition IRQ_IDE : Z := 14.
Definition IDE_VALID : Z := 2.                           (* B_VALID *)
Definition IDE_DIRTY : Z := 4.                           (* B_DIRTY *)
Record ibuf := IBuf { i_flags : Z; i_dev : Z; i_blockno : Z; i_lock : sleeplock; i_qnext : option nat; i_data : block }.
Definition set_iflags v p := IBuf v (i_dev p) (i_blockno p) (i_lock p) (i_qnext p) (i_data p).
Definition set_ilock v p := IBuf (i_flags p) (i_dev p) (i_blockno p) v (i_qnext p) (i_data p).
Definition set_qnext v p := IBuf (i_flags p) (i_dev p) (i_blockno p) (i_lock p) v (i_data p).
Definition set_idata v p := IBuf (i_flags p) (i_dev p) (i_blockno p) (i_lock p) (i_qnext p) v.
Definition idirty (p : ibuf) : bool := negb (Z.land (i_flags p) IDE_DIRTY =? 0).
(** The request is done. *)
Definition idone (p : ibuf) : bool := Z.land (i_flags p) (Z.lor IDE_VALID IDE_DIRTY) =? IDE_VALID.

Section driver.
Context {D : Type} {disk : IdeDisk D}.

(** [sleeping] holds the buffers on which a caller sleeps. *)
Record ist := ISt { ibufs : list ibuf; idequeue : option nat; idelock : bool; havedisk1 : bool; idev : D; sleeping : list nat }.
Definition set_ibufs v s := ISt v (idequeue s) (idelock s) (havedisk1 s) (idev s) (sleeping s).
Definition set_idequeue v s := ISt (ibufs s) v (idelock s) (havedisk1 s) (idev s) (sleeping s).
Definition set_idelock v s := ISt (ibufs s) (idequeue s) v (havedisk1 s) (idev s) (sleeping s).
Definition set_havedisk1 v s := ISt (ibufs s) (idequeue s) (idelock s) v (idev s) (sleeping s).
Definition set_idev v s := ISt (ibufs s) (idequeue s) (idelock s) (havedisk1 s) v (sleeping s).
Definition set_sleeping v s := ISt (ibufs s) (idequeue s) (idelock s) (havedisk1 s) (idev s) v.
Definition io {A} (m : M D A) : M ist A := zoom idev set_idev m.
Definition acquire_ide : M ist unit := zoom idelock set_idelock spin_acquire.
Definition release_ide : M ist unit := zoom idelock set_idelock spin_release.
Definition get_ibuf (b : nat) : M ist ibuf := l ← gets ibufs; of_option (l !! b).
Definition upd_ibuf (b : nat) (g : ibuf -> ibuf) : M ist unit :=
  p ← get_ibuf b; modify (fun s => set_ibufs (<[b := g p]> (ibufs s)) s).

(** The disk is ready when the driver waits, so few turns are enough. *)
Definition IDEWAIT : nat := 8.
Fixpoint idewait_loop (fuel : nat) (checkerr : bool) : M D Z :=
  match fuel with
  | O => hang
  | S fuel' =>
    r ← inb 0x1f7;
    if negb (Z.land r 0xc0 =? 0x40) then idewait_loop fuel' checkerr else
    if checkerr && negb (Z.land r 0x21 =? 0) then mret (-1) else mret 0
  end.
Definition idewait (checkerr : bool) : M ist Z := io (idewait_loop IDEWAIT checkerr).

(** The loop that looks for disk 1. *)
Fixpoint ideprobe (n : nat) : M ist unit :=
  match n with
  | O => mret tt
  | S n' => r ← io (inb 0x1f7); if negb (r =? 0) then modify (set_havedisk1 true) else ideprobe n'
  end.
Definition ideinit (ncpu : Z) : M ist unit :=
  modify (set_idelock false);;
  io (ioapicenable IRQ_IDE (ncpu - 1));;
  idewait false;;
  io (outb 0x1f6 (Z.lor 0xe0 (Z.shiftl 1 4)));;
  ideprobe 1000;;
  io (outb 0x1f6 (Z.lor 0xe0 (Z.shiftl 0 4))).

Definition idestart (b : option nat) : M ist unit :=
  match b with
  | None => panic "idestart"
  | Some b =>
    p ← get_ibuf b;
    if FSSIZE <=? i_blockno p then panic "incorrect blockno" else
    let sector_per_block := BSIZE / SECTOR_SIZE in
    let sector := s32 (i_blockno p * sector_per_block) in
    let read_cmd := if sector_per_block =? 1 then 0x20 else 0xc4 in
    let write_cmd := if sector_per_block =? 1 then 0x30 else 0xc5 in
    if 7 <? sector_per_block then panic "idestart" else
    idewait false;;
    io (outb 0x3f6 0);;
    io (outb 0x1f2 sector_per_block);;
    io (outb 0x1f3 (Z.land sector 0xff));;
    io (outb 0x1f4 (Z.land (Z.shiftr sector 8) 0xff));;
    io (outb 0x1f5 (Z.land (Z.shiftr sector 16) 0xff));;
    io (outb 0x1f6 (Z.lor (Z.lor 0xe0 (Z.shiftl (Z.land (i_dev p) 1) 4)) (Z.land (Z.shiftr sector 24) 0x0f)));;
    if idirty p then io (outb 0x1f7 write_cmd);; io (outsl 0x1f0 (i_data p) (BSIZE / 4))
    else io (outb 0x1f7 read_cmd)
  end.

Definition wake_buf (b : nat) : M ist unit := modify (fun s => set_sleeping (filter (fun c => c <> b) (sleeping s)) s).

Definition ideintr : M ist unit :=
  acquire_ide;;
  q ← gets idequeue;
  match q with
  | None => release_ide
  | Some b =>
    p ← get_ibuf b;
    modify (set_idequeue (i_qnext p));;
    (if idirty p then mret tt else
     r ← idewait true;
     if 0 <=? r then v ← io (insl 0x1f0 (BSIZE / 4)); upd_ibuf b (set_idata v) else mret tt);;
    upd_ibuf b (fun p => set_iflags (Z.lor (i_flags p) IDE_VALID) p);;
    upd_ibuf b (fun p => set_iflags (Z.land (i_flags p) (Z.lnot IDE_DIRTY)) p);;
    wake_buf b;;
    q ← gets idequeue;
    (match q with None => mret tt | Some _ => idestart q end);;
    release_ide
  end.

(** The pointers into the queue. *)
Inductive qslot := QHead | QNext (b : nat).
Definition load_slot (pp : qslot) : M ist (option nat) :=
  match pp with QHead => gets idequeue | QNext b => p ← get_ibuf b; mret (i_qnext p) end.
Definition store_slot (pp : qslot) (v : option nat) : M ist unit :=
  match pp with QHead => modify (set_idequeue v) | QNext b => upd_ibuf b (set_qnext v) end.
Fixpoint last_slot (fuel : nat) (pp : qslot) : M ist qslot :=
  match fuel with
  | O => hang
  | S fuel' => q ← load_slot pp; match q with None => mret pp | Some b => last_slot fuel' (QNext b) end
  end.

(** The loop at the end of [iderw]: true when the request is done, false when the caller
    sleeps. *)
Definition iderw_wait (b : nat) : M ist bool :=
  p ← get_ibuf b;
  if negb (idone p) then modify (fun s => set_sleeping (sleeping s ++ [b]) s);; release_ide;; mret false
  else release_ide;; mret true.
Definition iderw_on (b : nat) : M ist bool := acquire_ide;; iderw_wait b.

Definition iderw (me : Z) (b : nat) : M ist bool :=
  p ← get_ibuf b;
  h ← zoom (fun _ => i_lock p) (fun l s => set_ibufs (<[b := set_ilock l p]> (ibufs s)) s) (holdingsleep me);
  if negb h then panic "iderw: buf not locked" else
  if idone p then panic "iderw: nothing to do" else
  h1 ← gets havedisk1;
  if negb (i_dev p =? 0) && negb h1 then panic "iderw: ide disk 1 not present" else
  acquire_ide;;
  upd_ibuf b (set_qnext None);;
  l ← gets ibufs;
  pp ← last_slot (S (length l)) QHead;
  store_slot pp (Some b);;
  q ← gets idequeue;
  (if bool_decide (q = Some b) then idestart (Some b) else mret tt);;
  iderw_wait b.
End driver.
Arguments ist : clear implicits.
