(* ===== verification/IdeSafe.v ===== *)
(** * What the disk driver does

    Under every interleaving of callers, disk and interrupts the requests are carried out
    one at a time in the order of the calls, as a memory disk would; a request on which the disk
    reports an error is done all the same, and a failed read leaves the old bytes in the buffer. *)

From S2P Require Import Prelude Sleeplock Cache Ide.

Definition req_of (p : ibuf) : request := Request (Z.land (i_dev p) 1) (i_blockno p) (if idirty p then Some (i_data p) else None).
(** A request that may be queued. *)
Definition wants (h1 : bool) (p : ibuf) : Prop := idone p = false /\ 0 <= i_blockno p < FSSIZE /\ Z.of_nat (length (i_data p)) = BSIZE /\ (i_dev p = 0 \/ h1 = true).

(** ** The queue *)

Fixpoint linked (l : list ibuf) (o : option nat) (ql : list nat) : Prop :=
  match ql with
  | [] => o = None
  | b :: ql' => o = Some b /\ exists p, l !! b = Some p /\ linked l (i_qnext p) ql'
  end.
Fixpoint last_of (pp : qslot) (ql : list nat) : qslot := match ql with [] => pp | b :: ql' => last_of (QNext b) ql' end.

Lemma linked_ext l l' ql : (forall b p, b ∈ ql -> l !! b = Some p -> exists p', l' !! b = Some p' /\ i_qnext p' = i_qnext p) -> forall o, linked l o ql -> linked l' o ql.
Proof.
  induction ql as [|b ql IH]; intros H o; cbn [linked]; [done|]. intros (-> & p & Hp & L). destruct (H b p ltac:(by left) Hp) as (p' & Hp' & E).
  split; [done|]. exists p'. split; [done|]. rewrite E. apply IH; [|done]. intros c q Hc. apply H. by right.
Qed.
Lemma linked_other l o ql b p : linked l o ql -> b ∉ ql -> linked (<[b := p]> l) o ql.
Proof. intros L Hb. eapply linked_ext; [|exact L]. intros c q Hc Hq. exists q. split; [|done]. rewrite list_lookup_insert_ne; [done|]. by intros ->. Qed.
Lemma linked_snoc l b p ql : forall o c, linked l o (ql ++ [c]) -> NoDup (ql ++ [c]) -> b ∉ ql ++ [c] -> l !! b = Some p -> i_qnext p = None ->
  exists q, l !! c = Some q /\ linked (<[c := set_qnext (Some b) q]> l) o (ql ++ [c; b]).
Proof.
  induction ql as [|a ql IH]; intros o c; cbn [app linked].
  - intros (-> & q & Hq & _) _ Hb Hp Hn. exists q. split; [done|]. split; [done|]. exists (set_qnext (Some b) q). split; [apply list_lookup_insert_eq; by eapply lookup_lt_Some|].
    split; [done|]. exists p. split; [|done]. rewrite list_lookup_insert_ne; [done|]. intros ->. apply Hb. by left.
  - intros (-> & pa & Ha & L) Hnd Hb Hp Hn. apply NoDup_cons in Hnd as [Ha' Hnd]. destruct (IH (i_qnext pa) c L Hnd ltac:(intros H; apply Hb; by right) Hp Hn) as (q & Hq & L').
    exists q. split; [done|]. split; [done|]. exists pa. split; [|done]. rewrite list_lookup_insert_ne; [done|]. intros ->. apply Ha'. rewrite elem_of_app. right. by left.
Qed.
Lemma linked_lt l ql : forall o, linked l o ql -> Forall (fun b => (b < length l)%nat) ql.
Proof. induction ql as [|b ql IH]; intros o; cbn [linked]; [constructor|]. intros (-> & p & Hp & L). constructor; [by eapply lookup_lt_Some|by eapply IH]. Qed.
Lemma linked_short l o ql : linked l o ql -> NoDup ql -> (length ql <= length l)%nat.
Proof.
  intros L%linked_lt Hn. rewrite <- (length_seq (length l) 0). apply submseteq_length, NoDup_submseteq; [done|]. intros b Hb. rewrite Forall_forall in L. apply elem_of_seq. specialize (L b Hb). lia.
Qed.
Lemma last_of_snoc pp ql c : last_of pp (ql ++ [c]) = QNext c.
Proof. revert pp. induction ql as [|b ql IH]; intros pp; cbn [app last_of]; [done|]. apply IH. Qed.

(** ** Numbers *)

Lemma flags_done f : Z.land (Z.land (Z.lor f IDE_VALID) (Z.lnot IDE_DIRTY)) (Z.lor IDE_VALID IDE_DIRTY) = IDE_VALID.
Proof.
  change (Z.lor IDE_VALID IDE_DIRTY) with 6. unfold IDE_VALID, IDE_DIRTY. apply Z.bits_inj'. intros n Hn. rewrite !Z.land_spec, Z.lor_spec, Z.lnot_spec by done.
  destruct (decide (n = 0)) as [->|H0]; [by rewrite !andb_false_r|]. destruct (decide (n = 1)) as [->|H1]; [cbn; by rewrite orb_true_r|]. destruct (decide (n = 2)) as [->|H2]; [cbn; by rewrite andb_false_r|].
  rewrite (Z.bits_above_log2 6 n), (Z.bits_above_log2 2 n) by (try lia; change (Z.log2 6) with 2; change (Z.log2 2) with 1; lia). by rewrite andb_false_r.
Qed.
Definition drive_reg (dev n : Z) : Z := Z.lor (Z.lor 0xe0 (Z.shiftl (Z.land dev 1) 4)) (Z.land (Z.shiftr n 24) 0x0f).
Lemma drive_reg_ok dev n : 0 <= n < FSSIZE -> Z.land (Z.shiftr (drive_reg dev n) 4) 1 = Z.land dev 1 /\ Z.land (drive_reg dev n) 0x0f = 0.
Proof.
  intros H. unfold drive_reg, FSSIZE in *. assert (Z.shiftr n 24 = 0) as -> by (rewrite Z.shiftr_div_pow2 by lia; change (2 ^ 24) with 16777216; apply Z.div_small; lia).
  assert (Z.land dev 1 = 0 \/ Z.land dev 1 = 1) as [-> | ->]; [|done..]. pose proof (Z.land_ones dev 1 ltac:(lia)) as E. change (Z.ones 1) with 1 in E. change (2 ^ 1) with 2 in E. rewrite E. clear. Z.div_mod_to_equations. lia.
Qed.
Lemma sector_regs n : 0 <= n < FSSIZE -> Z.land n 0xff + 256 * Z.land (Z.shiftr n 8) 0xff + 65536 * Z.land (Z.shiftr n 16) 0xff = n.
Proof.
  intros H. unfold FSSIZE in H. change 0xff with (Z.ones 8). rewrite !Z.land_ones, !Z.shiftr_div_pow2 by lia. clear -H. change (2 ^ 8) with 256. change (2 ^ 16) with 65536. Z.div_mod_to_equations. lia.
Qed.

(** ** One request *)

Section safe.
Context {D : Type} {disk : IdeDisk D}.
Implicit Types (s : ist D) (ql : list nat).

Lemma io_ok {A} (m : M D A) s a d : m (idev s) = Ok a d -> io m s = Ok a (set_idev d s).
Proof. intros E. by apply (zoom_Ok idev set_idev). Qed.
Lemma get_ibuf_ok b s p : ibufs s !! b = Some p -> get_ibuf b s = Ok p s.
Proof. intros E. unfold get_ibuf. mgo. rewrite E. by mgo. Qed.
Lemma upd_ibuf_ok b g s p : ibufs s !! b = Some p -> upd_ibuf b g s = Ok tt (set_ibufs (<[b := g p]> (ibufs s)) s).
Proof. intros E. unfold upd_ibuf. by rewrite (bind_Ok _ _ _ _ _ (get_ibuf_ok _ _ _ E)). Qed.

Lemma idewait_ok checkerr s : ready (dv_status (dv (idev s))) -> answers (dv (idev s)) ->
  exists r, idewait checkerr s = Ok r s /\ ((r = 0 /\ (checkerr = true -> forall q, dv_status (dv (idev s)) <> Finished q false)) \/
    (r = -1 /\ checkerr = true /\ exists q, dv_status (dv (idev s)) = Finished q false)).
Proof.
  intros Hr Ha. destruct (inb_ready _ Hr Ha) as (r & E & H1 & H2).
  assert (idewait checkerr s = Ok (if checkerr && negb (Z.land r 0x21 =? 0) then -1 else 0) s) as ->.
  { unfold idewait. rewrite (io_ok _ _ (if checkerr && negb (Z.land r 0x21 =? 0) then -1 else 0) (idev s)); [by destruct s|].
    unfold IDEWAIT. cbn [idewait_loop]. rewrite (bind_Ok _ _ _ _ _ E), H1. change (negb (0x40 =? 0x40)) with false. cbv iota. by destruct (_ && _). }
  eexists. split; [reflexivity|]. destruct checkerr; cbn [andb]; [|left; by split]. destruct (Z.eqb_spec (Z.land r 0x21) 0) as [N|N]; cbn [negb].
  - left. split; [done|]. intros _ q Hq. apply H2 in N; [done|]. by exists q.
  - right. split; [done|]. split; [done|]. by apply H2.
Qed.

(** What a caller or the interrupt does to the disk when it starts a request. *)
Record started s (p : ibuf) (d : D) : Prop := Started {
  sd_status : dv_status (dv d) = Busy (req_of p);
  sd_disk : dv_disk (dv d) = dv_disk (dv (idev s));
  sd_present : dv_present (dv d) = dv_present (dv (idev s));
  sd_answers : answers (dv d)
}.

Lemma outb_then p v s d (f : unit -> M (ist D) unit) (Q : D -> Prop) : p ∈ [0x3f6; 0x1f2; 0x1f3; 0x1f4; 0x1f5; 0x1f6] -> ready (dv_status (dv d)) ->
  (forall d1, dv d1 = set_dreg p v (dv d) -> exists d', f tt (set_idev d1 s) = Ok tt (set_idev d' s) /\ Q d') ->
  exists d', (io (outb p v) ≫= f) (set_idev d s) = Ok tt (set_idev d' s) /\ Q d'.
Proof. intros Hp Hr H. destruct (outb_reg p v d Hp Hr) as (d1 & E & V). rewrite (bind_Ok _ _ _ _ _ (io_ok _ (set_idev d s) _ _ E)). by apply (H d1). Qed.

Lemma idestart_ok s b p : ibufs s !! b = Some p -> wants (havedisk1 s) p -> ready (dv_status (dv (idev s))) -> answers (dv (idev s)) ->
  (havedisk1 s = true -> dv_present (dv (idev s)) = true) -> exists d, idestart (Some b) s = Ok tt (set_idev d s) /\ started s p d.
Proof.
  intros Hb (_ & Hn & Hl & Hdev) Hr Ha H1. unfold idestart. rewrite (bind_Ok _ _ _ _ _ (get_ibuf_ok _ _ _ Hb)).
  rewrite (proj2 (Z.leb_gt _ _)) by lia. change (BSIZE / SECTOR_SIZE) with 1. rewrite Z.mul_1_r, s32_small by (unfold FSSIZE in Hn; lia). cbv zeta.
  change (1 =? 1) with true. change (7 <? 1) with false. cbv iota. destruct (idewait_ok false s Hr Ha) as (r & E & _). rewrite (bind_Ok _ _ _ _ _ E).
  fold (drive_reg (i_dev p) (i_blockno p)). set (n := i_blockno p) in *.
  replace s with (set_idev (idev s) s) at 1 by (by destruct s). apply outb_then; [set_solver|done|intros d1 V1]. apply outb_then; [set_solver|by rewrite V1|intros d2 V2]. rewrite V1 in V2. clear d1 V1.
  apply outb_then; [set_solver|by rewrite V2|intros d3 V3]. rewrite V2 in V3. clear d2 V2. apply outb_then; [set_solver|by rewrite V3|intros d4 V4]. rewrite V3 in V4. clear d3 V3.
  apply outb_then; [set_solver|by rewrite V4|intros d5 V5]. rewrite V4 in V5. clear d4 V4. apply outb_then; [set_solver|by rewrite V5|intros d6 V6]. rewrite V5 in V6. clear d5 V5. destruct (drive_reg_ok (i_dev p) n Hn) as [D1 D2].
  assert (ready (dv_status (dv d6))) as Hr6 by (by rewrite V6).
  assert (sel_drive (dv d6) = Z.land (i_dev p) 1) as Sd by (by rewrite V6). assert (sel_sector (dv d6) = n) as Ss.
  { rewrite V6. unfold sel_sector. cbn [set_dreg dv_reg Z.eqb Pos.eqb]. rewrite D2. pose proof (sector_regs n Hn). lia. }
  assert (answers (dv d6)) as Ha6. { intros E6'. rewrite Sd in E6'. destruct Hdev as [Hz|Hz]; [by rewrite Hz in E6'|]. rewrite V6. cbn [set_dreg dv_present]. by apply H1. }
  assert (dv_reg (dv d6) 0x1f2 = 1) as Hc by (by rewrite V6). assert (dv_disk (dv d6) = dv_disk (dv (idev s))) as Hk by (by rewrite V6).
  assert (dv_present (dv d6) = dv_present (dv (idev s))) as Hpr by (by rewrite V6). destruct (idirty p) eqn:Ed.
  - destruct (outb_write d6 Hr6 Ha6 Hc) as (d7 & E7 & V7). rewrite Sd, Ss in V7. rewrite (bind_Ok _ _ _ _ _ (io_ok _ (set_idev d6 s) _ _ E7)). change (BSIZE / 4) with 128.
    destruct (outsl_data (i_data p) d7 (Z.land (i_dev p) 1) n ltac:(by rewrite V7) Hl) as (d8 & E8 & V8). exists d8. split; [exact (io_ok _ (set_idev d7 (set_idev d6 s)) _ _ E8)|].
    rewrite V7 in V8. split; rewrite V8; [unfold req_of; by rewrite Ed|exact Hk|exact Hpr|exact Ha6].
  - destruct (outb_read d6 Hr6 Ha6 Hc) as (d7 & E7 & V7). rewrite Sd, Ss in V7. exists d7. split; [exact (io_ok _ (set_idev d6 s) _ _ E7)|].
    split; rewrite V7; [unfold req_of; by rewrite Ed|exact Hk|exact Hpr|exact Ha6].
Qed.

(** ** The invariant *)

(** [ql] are the queued buffers; the disk works on the first, or has finished it. *)
Record ide_inv s ql : Prop := IdeInv {
  ii_lock : idelock s = false;
  ii_link : linked (ibufs s) (idequeue s) ql;
  ii_nodup : NoDup ql;
  ii_wants : Forall (fun b => exists p, ibufs s !! b = Some p /\ wants (havedisk1 s) p) ql;
  ii_sleep : sleeping s = ql;
  ii_disk : match ql with
    | [] => ready (dv_status (dv (idev s)))
    | b :: _ => exists p, ibufs s !! b = Some p /\ (dv_status (dv (idev s)) = Busy (req_of p) \/ exists ok, dv_status (dv (idev s)) = Finished (req_of p) ok)
    end;
  ii_answers : answers (dv (idev s));
  ii_present : havedisk1 s = true -> dv_present (dv (idev s)) = true
}.
(** Buffers that differ only in the link. *)
Definition same_req (p p' : ibuf) : Prop := p' = set_qnext (i_qnext p') p.
Definition same_reqs (l l' : list ibuf) : Prop := length l' = length l /\ forall c p, l !! c = Some p -> exists p', l' !! c = Some p' /\ same_req p p'.
Lemma same_req_of p p' h : same_req p p' -> req_of p' = req_of p /\ (wants h p' <-> wants h p) /\ idone p' = idone p.
Proof. intros ->. done. Qed.
Lemma same_reqs_refl l : same_reqs l l.
Proof. split; [done|]. intros c p H. exists p. split; [done|]. by destruct p. Qed.
Lemma same_reqs_insert l b p v : l !! b = Some p -> same_reqs l (<[b := set_qnext v p]> l).
Proof.
  intros H. split; [apply length_insert|]. intros c q Hq. destruct (decide (c = b)) as [->|N].
  - rewrite list_lookup_insert_eq by (by eapply lookup_lt_Some). eexists. split; [done|]. by replace q with p by congruence.
  - rewrite list_lookup_insert_ne by done. exists q. split; [done|]. by destruct q.
Qed.
Lemma same_reqs_trans l1 l2 l3 : same_reqs l1 l2 -> same_reqs l2 l3 -> same_reqs l1 l3.
Proof.
  intros [E1 H1] [E2 H2]. split; [congruence|]. intros c p Hp. destruct (H1 c p Hp) as (p2 & Hp2 & S2). destruct (H2 c p2 Hp2) as (p3 & Hp3 & S3). exists p3. split; [done|]. unfold same_req in *. by rewrite S3, S2.
Qed.
Lemma same_reqs_wants l l' h ql : same_reqs l l' -> Forall (fun b => exists p, l !! b = Some p /\ wants h p) ql -> Forall (fun b => exists p, l' !! b = Some p /\ wants h p) ql.
Proof. intros [_ S] F. eapply Forall_impl; [exact F|]. intros b (p & Hp & W). destruct (S b p Hp) as (p' & Hp' & Sp). exists p'. split; [done|]. by apply (same_req_of p p' h Sp). Qed.

Lemma acquire_ide_ok l q h d sl : acquire_ide (ISt l q false h d sl : ist D) = Ok tt (ISt l q true h d sl).
Proof. done. Qed.
Lemma release_ide_ok l q h d sl : release_ide (ISt l q true h d sl : ist D) = Ok tt (ISt l q false h d sl).
Proof. done. Qed.

Lemma iderw_wait_ok b l q h d sl p : l !! b = Some p -> iderw_wait b (ISt l q true h d sl : ist D) = Ok (idone p) (ISt l q false h d (if idone p then sl else sl ++ [b])).
Proof.
  intros Hp. unfold iderw_wait. rewrite (bind_Ok _ _ _ _ _ (get_ibuf_ok b (ISt l q true h d sl) p Hp)). destruct (idone p); cbn [negb].
  - by rewrite (bind_Ok _ _ _ _ _ (release_ide_ok l q h d sl)).
  - mgo. unfold set_sleeping. cbn [idelock ibufs idequeue havedisk1 sleeping idev]. by rewrite (bind_Ok _ _ _ _ _ (release_ide_ok l q h d (sl ++ [b]))).
Qed.

(** *** iderw *)

Lemma last_slot_ok ql : forall fuel pp o s, load_slot pp s = Ok o s -> linked (ibufs s) o ql -> (length ql < fuel)%nat -> last_slot fuel pp s = Ok (last_of pp ql) s.
Proof.
  induction ql as [|b ql IH]; intros [|fuel] pp o s E L Hf; cbn [length] in Hf; try lia; cbn [last_slot last_of]; rewrite (bind_Ok _ _ _ _ _ E); cbn [linked] in L; [by subst o|].
  destruct L as (-> & p & Hp & L). apply (IH fuel (QNext b) (i_qnext p)); [|done|lia]. cbn [load_slot]. by rewrite (bind_Ok _ _ _ _ _ (get_ibuf_ok _ _ _ Hp)).
Qed.

(** The end of the queue is found and the buffer put there. *)
Lemma enqueue_ok s ql b p : linked (ibufs s) (idequeue s) ql -> NoDup ql -> b ∉ ql -> ibufs s !! b = Some p -> i_qnext p = None -> exists o l,
  (pp ← last_slot (S (length (ibufs s))) QHead; store_slot pp (Some b)) s = Ok tt (set_idequeue o (set_ibufs l s)) /\ linked l o (ql ++ [b]) /\ same_reqs (ibufs s) l /\ (o = Some b <-> ql = []).
Proof.
  intros L Hn Hb Hp Hnx. rewrite (bind_Ok _ _ _ _ _ (last_slot_ok ql (S (length (ibufs s))) QHead _ s eq_refl L ltac:(pose proof (linked_short _ _ _ L Hn); lia))).
  destruct ql as [|c ql _] using rev_ind.
  - exists (Some b), (ibufs s). split; [by destruct s|]. cbn [app linked]. split; [split; [done|]; exists p; by split|]. split; [apply same_reqs_refl|done].
  - rewrite last_of_snoc. destruct (linked_snoc _ b p ql _ c L Hn Hb Hp Hnx) as (q & Hq & L'). exists (idequeue s), (<[c := set_qnext (Some b) q]> (ibufs s)).
    split; [unfold store_slot; rewrite (upd_ibuf_ok _ _ _ _ Hq); by destruct s|]. rewrite <- app_assoc. split; [done|]. split; [by apply same_reqs_insert|]. split; [|by destruct ql]. intros E. exfalso.
    destruct ql as [|a ql]; cbn [app linked] in L; destruct L as (Eo & _); apply Hb; rewrite E in Eo; injection Eo as ->; cbn [app]; by left.
Qed.

Lemma iderw_ok me s ql b p : ide_inv s ql -> b ∉ ql -> ibufs s !! b = Some p -> i_lock p = sl_mine me -> wants (havedisk1 s) p ->
  exists s', iderw me b s = Ok false s' /\ ide_inv s' (ql ++ [b]) /\ same_reqs (ibufs s) (ibufs s') /\ havedisk1 s' = havedisk1 s /\ dv_disk (dv (idev s')) = dv_disk (dv (idev s)) /\
    (ql <> [] -> idev s' = idev s) /\ (ql = [] -> dv_status (dv (idev s')) = Busy (req_of p)).
Proof.
  intros [Hk Hl Hn Hw Hs Hd Ha Hpr] Hb Hp Hlk W. pose proof W as (Wd & Wn & Wl & Wv). unfold iderw. rewrite (bind_Ok _ _ _ _ _ (get_ibuf_ok _ _ _ Hp)).
  assert (ibufs s = <[b := set_ilock (sl_mine me) p]> (ibufs s)) as El by (rewrite list_insert_id; [done|]; rewrite <- Hlk; by destruct p).
  rewrite (bind_Ok _ _ _ true s) by (unfold zoom; rewrite Hlk, holdingsleep_ok; unfold set_ibufs; rewrite <- El; by destruct s). cbn [negb]. rewrite Wd. mgo.
  assert (negb (i_dev p =? 0) && negb (havedisk1 s) = false) as -> by (destruct Wv as [-> | ->]; [done|by rewrite andb_false_r]).
  destruct s as [bufs q lk h1 d sl]. cbn [idelock ibufs idequeue havedisk1 sleeping idev] in *. subst lk sl.
  rewrite (bind_Ok _ _ _ _ _ (acquire_ide_ok bufs q h1 d ql)). rewrite (bind_Ok _ _ _ _ _ (upd_ibuf_ok b (set_qnext None) (ISt bufs q true h1 d ql) p Hp)). unfold set_ibufs. cbn [idelock ibufs idequeue havedisk1 sleeping idev]. mgo. cbn [ibufs].
  set (l1 := <[b := set_qnext None p]> bufs). assert (l1 !! b = Some (set_qnext None p)) as Hp1 by (apply list_lookup_insert_eq; by eapply lookup_lt_Some).
  assert (linked l1 q ql) as L1 by (by apply linked_other). assert (same_reqs bufs l1) as S1 by (by apply same_reqs_insert).
  destruct (enqueue_ok (ISt l1 q true h1 d ql) ql b _ L1 Hn Hb Hp1 eq_refl) as (o & l2 & E2 & L2 & S2 & Ho). cbn [ibufs] in *.
  apply bind_inv in E2 as (pp & s1 & E2 & E3). rewrite (bind_Ok _ _ _ _ _ E2), (bind_Ok _ _ _ _ _ E3). unfold set_idequeue, set_ibufs. cbn [idelock ibufs idequeue havedisk1 sleeping idev]. mgo. cbn [idequeue].
  assert (same_reqs bufs l2) as S3 by (by eapply same_reqs_trans). destruct (proj2 S3 b p Hp) as (p2 & Hp2 & Sp2). destruct (same_req_of p p2 h1 Sp2) as (Er & Wp & Ed).
  assert (idone p2 = false) as W2 by (by rewrite Ed). pose proof (fun d' : D => iderw_wait_ok b l2 o h1 d' ql p2 Hp2) as Ew. rewrite W2 in Ew.
  assert (Forall (fun c => exists p, l2 !! c = Some p /\ wants h1 p) (ql ++ [b])) as Hw2.
  { apply Forall_app. split; [by eapply same_reqs_wants|]. constructor; [|constructor]. exists p2. split; [done|]. by apply Wp. }
  assert (NoDup (ql ++ [b])) as Hn2 by (apply NoDup_app; split; [done|]; split; [|apply NoDup_singleton]; intros x Hx ->%list_elem_of_singleton; done).
  destruct (decide (ql = [])) as [->|Hne].
  - rewrite bool_decide_true by (by apply Ho). destruct (idestart_ok (ISt l2 o true h1 d []) b p2 Hp2 ltac:(by apply Wp) Hd Ha Hpr) as (d' & E4 & [St Sk Sp Sa]).
    rewrite (bind_Ok _ _ _ _ _ E4). unfold set_idev. cbn [idelock ibufs idequeue havedisk1 sleeping idev]. rewrite Ew. eexists. split; [done|]. cbn [idev] in *.
    split; [split; cbn [idelock ibufs idequeue havedisk1 sleeping idev app]; [done|done|done|done|done| |done|intros E; rewrite Sp; auto]|].
    + exists p2. split; [done|]. by left.
    + split; [done|]. split; [done|]. split; [done|]. split; [done|]. intros _. by rewrite St, Er.
  - rewrite bool_decide_false by (intros E; by apply Hne, Ho). mgo. rewrite Ew. eexists. split; [done|].
    split; [split; cbn [idelock ibufs idequeue havedisk1 sleeping idev]; [done|done|done|done|done| |done|done]|done].
    destruct ql as [|c ql]; [done|]. cbn [app]. destruct Hd as (pc & Hc & Hd). destruct (proj2 S3 c pc Hc) as (pc' & Hc' & Sc). exists pc'. split; [done|]. by rewrite (proj1 (same_req_of _ _ h1 Sc)).
Qed.

(** *** ideintr *)

(** The buffer when its request is done, with data [v]. *)
Definition done_buf (p : ibuf) (v : block) : ibuf := set_iflags (Z.land (Z.lor (i_flags p) IDE_VALID) (Z.lnot IDE_DIRTY)) (set_idata v p).
(** The data that a request gives. *)
Definition result_of (dk : Z -> Z -> block) (q : request) : block := default (dk (q_drive q) (q_sector q)) (q_data q).
(** The data of the buffer afterwards: a failed read leaves the old bytes. *)
Definition fetched (dk : Z -> Z -> block) (p : ibuf) (ok : bool) : block := if ok then result_of dk (req_of p) else i_data p.
Lemma done_buf_done p v : idone (done_buf p v) = true.
Proof. unfold idone, done_buf. cbn [i_flags set_iflags set_idata]. rewrite flags_done. done. Qed.
Lemma queue_other s ql b p : Forall (fun c => exists q, ibufs s !! c = Some q /\ wants (havedisk1 s) q) ql -> b ∉ ql -> Forall (fun c => exists q, <[b := p]> (ibufs s) !! c = Some q /\ wants (havedisk1 s) q) ql.
Proof. rewrite !Forall_forall. intros H Hb c Hc. destruct (H c Hc) as (q & Hq & W). exists q. split; [|done]. rewrite list_lookup_insert_ne; [done|]. by intros ->. Qed.
Lemma filter_head b ql : NoDup (b :: ql) -> filter (fun c => c <> b) (b :: ql) = ql.
Proof.
  intros [Hb _]%NoDup_cons. rewrite filter_cons_False by tauto. induction ql as [|c ql IH]; [done|]. rewrite filter_cons_True by (intros ->; apply Hb; by left). f_equal. apply IH. intros H. apply Hb. by right.
Qed.

(** What the interrupt reads. *)
Lemma fetch_ok s b p ok : ibufs s !! b = Some p -> dv_status (dv (idev s)) = Finished (req_of p) ok -> answers (dv (idev s)) -> exists d,
  (if idirty p then mret tt else r ← idewait true; if 0 <=? r then v ← io (insl 0x1f0 (BSIZE / 4)); upd_ibuf b (set_idata v) else mret tt) s =
    Ok tt (set_idev d (set_ibufs (<[b := set_idata (fetched (dv_disk (dv (idev s))) p ok) p]> (ibufs s)) s)) /\
  ready (dv_status (dv d)) /\ dv_disk (dv d) = dv_disk (dv (idev s)) /\ dv_present (dv d) = dv_present (dv (idev s)) /\ answers (dv d).
Proof.
  intros Hp Hf Ha. assert (<[b := set_idata (i_data p) p]> (ibufs s) = ibufs s) as Hsame by (apply list_insert_id; by destruct p). unfold fetched. destruct (idirty p) eqn:Ed.
  - exists (idev s). split; [|split; [by rewrite Hf|done]]. replace (if ok then _ else i_data p) with (i_data p) by (destruct ok; [unfold result_of, req_of; by rewrite Ed|done]). rewrite Hsame. by destruct s.
  - destruct (idewait_ok true s ltac:(by rewrite Hf) Ha) as (r & E & H). rewrite (bind_Ok _ _ _ _ _ E). change (BSIZE / 4) with 128. destruct ok.
    + destruct H as [[-> _]|(_ & _ & q & Hq)]; [|congruence]. change (0 <=? 0) with true. cbv iota.
      destruct (insl_data (idev s) (req_of p) Hf) as (d & E2 & V); [unfold req_of; by rewrite Ed|]. exists d. rewrite (bind_Ok _ _ _ _ _ (io_ok _ _ _ _ E2)).
      rewrite (upd_ibuf_ok b _ (set_idev d s) p Hp). split; [unfold result_of, req_of; rewrite Ed; done|]. by rewrite V.
    + destruct H as [[_ N]|(-> & _)]; [by destruct (N eq_refl (req_of p))|]. change (0 <=? -1) with false. cbv iota. exists (idev s). rewrite Hsame, Hf. split; [by destruct s|done].
Qed.

Lemma ideintr_ok s ql b p ok : ide_inv s (b :: ql) -> ibufs s !! b = Some p -> dv_status (dv (idev s)) = Finished (req_of p) ok -> exists s',
  ideintr s = Ok tt s' /\ ide_inv s' ql /\ ibufs s' = <[b := done_buf p (fetched (dv_disk (dv (idev s))) p ok)]> (ibufs s) /\ havedisk1 s' = havedisk1 s /\
  dv_disk (dv (idev s')) = dv_disk (dv (idev s)) /\ match ql with [] => True | c :: _ => exists pc, ibufs s' !! c = Some pc /\ dv_status (dv (idev s')) = Busy (req_of pc) end.
Proof.
  intros [Hk Hl Hn Hw Hs _ Ha Hpr] Hp Hf. destruct s as [bufs q lk h1 d sl]. cbn [idelock ibufs idequeue havedisk1 sleeping idev] in *. subst lk sl. cbn [linked] in Hl. destruct Hl as (-> & p' & Hp' & L).
  assert (p' = p) as -> by congruence. clear Hp'. set (v := fetched (dv_disk (dv d)) p ok). unfold ideintr. rewrite (bind_Ok _ _ _ _ _ (acquire_ide_ok bufs (Some b) h1 d (b :: ql))). mgo. cbn [idequeue].
  rewrite (bind_Ok _ _ _ _ _ (get_ibuf_ok b (ISt bufs (Some b) true h1 d (b :: ql)) p Hp)). mgo. unfold set_idequeue. cbn [idelock ibufs idequeue havedisk1 sleeping idev].
  destruct (fetch_ok (ISt bufs (i_qnext p) true h1 d (b :: ql)) b p ok Hp Hf Ha) as (d1 & E1 & R1 & K1 & P1 & A1). rewrite (bind_Ok _ _ _ _ _ E1). unfold set_idev, set_ibufs. cbn [idelock ibufs idequeue havedisk1 sleeping idev] in *. fold v.
  assert (b < length bufs)%nat as Hlen by (by eapply lookup_lt_Some).
  rewrite (bind_Ok _ _ _ _ _ (upd_ibuf_ok b _ (ISt _ _ true h1 d1 _) _ (list_lookup_insert_eq _ _ _ Hlen))). unfold set_ibufs. cbn [idelock ibufs idequeue havedisk1 sleeping idev]. rewrite list_insert_insert_eq.
  rewrite (bind_Ok _ _ _ _ _ (upd_ibuf_ok b _ (ISt _ _ true h1 d1 _) _ (list_lookup_insert_eq _ _ _ Hlen))). unfold set_ibufs. cbn [idelock ibufs idequeue havedisk1 sleeping idev]. rewrite list_insert_insert_eq.
  unfold wake_buf. mgo. unfold set_sleeping. cbn [idelock ibufs idequeue havedisk1 sleeping idev]. rewrite filter_head by done. apply NoDup_cons in Hn as [Hb Hn]. apply Forall_cons in Hw as [_ Hw].
  change (set_iflags (Z.land (i_flags _) (Z.lnot IDE_DIRTY)) _) with (done_buf p v). set (l' := <[b := done_buf p v]> bufs).
  assert (linked l' (i_qnext p) ql) as L' by (by apply linked_other). pose proof (queue_other (ISt bufs None true h1 d1 ql) ql b (done_buf p v) Hw Hb) as Hw'. cbn [ibufs havedisk1] in Hw'. fold l' in Hw'.
  destruct ql as [|c ql]; cbn [linked] in L'.
  - rewrite L'. mgo. eexists. split; [exact (release_ide_ok _ _ _ _ _)|]. split; [split; cbn [idelock ibufs idequeue havedisk1 sleeping idev]; [done|done|done|done|done|done|done|by rewrite P1]|]. split; [done|]. split; [done|]. by split.
  - destruct L' as (-> & pc & Hc & L'). apply Forall_cons in Hw' as [(pc' & Hc' & Wc) Hw']. assert (pc' = pc) as -> by congruence.
    destruct (idestart_ok (ISt l' (Some c) true h1 d1 (c :: ql)) c pc Hc Wc R1 A1 ltac:(cbn [idev havedisk1]; by rewrite P1)) as (d2 & E2 & [St Sk Sp Sa]). rewrite (bind_Ok _ _ _ _ _ E2). unfold set_idev. cbn [idelock ibufs idequeue havedisk1 sleeping idev] in *.
    eexists. split; [exact (release_ide_ok _ _ _ _ _)|]. split; [split; cbn [idelock ibufs idequeue havedisk1 sleeping idev]; [done| |done| |done| |done|by rewrite Sp, P1]|].
    + cbn [linked]. split; [done|]. exists pc. by split.
    + constructor; [|done]. exists pc. by split.
    + exists pc. split; [done|]. by left.
    + split; [done|]. split; [done|]. split; [cbn [idev]; by rewrite Sk, K1|]. exists pc. by split.
Qed.
Lemma ideintr_spurious s : ide_inv s [] -> ideintr s = Ok tt s.
Proof. intros [Hk Hl _ _ _ _ _ _]. destruct s as [bufs q lk h1 d sl]. cbn in Hk, Hl. subst. done. Qed.
End safe.
