(* ===== verification/IdeSystem.v ===== *)
(** * The disk driver with its callers, its disk and its interrupts

    Any process may call [iderw] with a buffer it has locked, the disk finishes its command
    at any time, with success or with an error, interrupts come whenever it is not working,
    woken callers go on, and a buffer that is not in the driver may change. *)

From S2P Require Import Prelude Sleeplock Cache Ide IdeSafe.

(** ** A memory disk *)

Definition mem_after (dk : Z -> Z -> block) (qs : list request) : Z -> Z -> block := foldl write_to dk qs.
Fixpoint mem_results (dk : Z -> Z -> block) (qs : list request) : list block :=
  match qs with [] => [] | q :: qs' => result_of dk q :: mem_results (write_to dk q) qs' end.

Lemma mem_results_snoc qs q : forall dk, mem_results dk (qs ++ [q]) = mem_results dk qs ++ [result_of (mem_after dk qs) q].
Proof. induction qs as [|q' qs IH]; intros dk; cbn [app mem_results]; [done|]. by rewrite IH. Qed.
Lemma mem_after_snoc dk qs q : mem_after dk (qs ++ [q]) = write_to (mem_after dk qs) q.
Proof. apply foldl_snoc. Qed.
(** The result of a request is there before and after it. *)
Lemma result_written dk q : result_of (write_to dk q) q = result_of dk q.
Proof. unfold result_of, write_to. by destruct (q_data q). Qed.

(** What a caller asks for, and what its buffer holds; and what became of it: whether the disk did it,
    and what the buffer held then. *)
Record job := Job { j_req : request; j_data : block }.
Record service := Service { v_job : job; v_ok : bool; v_data : block }.
Definition job_of (p : ibuf) : job := Job (req_of p) (i_data p).
Definition reqs (l : list service) : list request := map (fun v => j_req (v_job v)) l.
(** A memory disk that may fail: it does the requests one by one. *)
Inductive mem_run : (Z -> Z -> block) -> list service -> (Z -> Z -> block) -> Prop :=
  | run_nil dk : mem_run dk [] dk
  | run_ok dk j l dk' : mem_run (write_to dk (j_req j)) l dk' -> mem_run dk (Service j true (result_of dk (j_req j)) :: l) dk'
  | run_bad dk dk1 j l dk' : spoiled dk (j_req j) dk1 -> mem_run dk1 l dk' -> mem_run dk (Service j false (j_data j) :: l) dk'.
Lemma mem_run_snoc dk l dk1 v dk2 : mem_run dk l dk1 -> mem_run dk1 [v] dk2 -> mem_run dk (l ++ [v]) dk2.
Proof. induction 1 as [dk|dk j l dk' R IH|dk dk1 j l dk' S R IH]; intros H; cbn [app]; [done|apply run_ok; auto|eapply run_bad; eauto]. Qed.
(** A disk that does not fail. *)
Lemma mem_run_good dk l dk' : mem_run dk l dk' -> Forall (fun v => v_ok v = true) l -> map v_data l = mem_results dk (reqs l) /\ dk' = mem_after dk (reqs l).
Proof.
  induction 1 as [dk|dk j l dk' R IH|dk dk1 j l dk' S R IH]; intros F; [done| |by apply Forall_cons in F as [[=] _]].
  apply Forall_cons in F as [_ F]. destruct (IH F) as [E1 E2]. cbn [map reqs mem_results v_job v_data]. by rewrite E1.
Qed.

Section system.
Context {D : Type} {disk : IdeDisk D}.

(** [inside]: the buffers whose callers have not returned; [called] and [served]: what was asked for, in
    the order of the calls, and what is done. *)
Record sys := Sys { y_st : ist D; inside : list nat; called : list job; served : list service }.
Definition went_well (st : dstatus) : bool := match st with Finished _ ok => ok | _ => false end.
Definition answer (b : option nat) (s s' : ist D) : list service :=
  match b with
  | None => []
  | Some b => match ibufs s !! b, ibufs s' !! b with Some p, Some p' => [Service (job_of p) (went_well (dv_status (dv (idev s)))) (i_data p')] | _, _ => [] end
  end.
Inductive ide_step : sys -> sys -> Prop :=
  | step_call me b p r s s' ins ca se : b ∉ ins -> ibufs s !! b = Some p -> i_lock p = sl_mine me -> wants (havedisk1 s) p -> iderw me b s = Ok r s' ->
      ide_step (Sys s ins ca se) (Sys s' (if r then ins else ins ++ [b]) (ca ++ [job_of p]) se)
  | step_finish ok s d ins ca se : finishes (idev s) ok d -> ide_step (Sys s ins ca se) (Sys (set_idev d s) ins ca se)
  | step_intr s s' ins ca se : ready (dv_status (dv (idev s))) -> ideintr s = Ok tt s' ->
      ide_step (Sys s ins ca se) (Sys s' ins ca (se ++ answer (idequeue s) s s'))
  | step_resume b r s s' ins ca se : b ∈ ins -> b ∉ sleeping s -> iderw_on b s = Ok r s' ->
      ide_step (Sys s ins ca se) (Sys s' (if r then filter (fun c => c <> b) ins else ins) ca se)
  | step_owner b p p' s ins ca se : b ∉ ins -> ibufs s !! b = Some p -> i_qnext p' = i_qnext p ->
      ide_step (Sys s ins ca se) (Sys (set_ibufs (<[b := p']> (ibufs s)) s) ins ca se).

Definition queued (l : list ibuf) (ql : list nat) : list job := omap (fun b => job_of <$> l !! b) ql.
(** What the disk holds: all that is done, and the first of the queue once the disk has finished it. *)
Definition disk_at_head (dk : Z -> Z -> block) (s : ist D) (ql : list nat) : Prop :=
  match ql with
  | [] => dv_disk (dv (idev s)) = dk
  | b :: _ => exists p, ibufs s !! b = Some p /\ ((dv_status (dv (idev s)) = Busy (req_of p) /\ dv_disk (dv (idev s)) = dk) \/
      (dv_status (dv (idev s)) = Finished (req_of p) true /\ dv_disk (dv (idev s)) = write_to dk (req_of p)) \/
      (dv_status (dv (idev s)) = Finished (req_of p) false /\ spoiled dk (req_of p) (dv_disk (dv (idev s)))))
  end.
Record sys_ok (dk0 : Z -> Z -> block) (y : sys) (ql : list nat) : Prop := SysOk {
  so_inv : ide_inv (y_st y) ql;
  so_inside : forall b, b ∈ ql -> b ∈ inside y;
  so_done : forall b, b ∈ inside y -> b ∉ ql -> exists p, ibufs (y_st y) !! b = Some p /\ idone p = true;
  so_order : called y = map v_job (served y) ++ queued (ibufs (y_st y)) ql;
  so_disk : exists dk, mem_run dk0 (served y) dk /\ disk_at_head dk (y_st y) ql
}.
Lemma same_job p p' : same_req p p' -> job_of p' = job_of p.
Proof. by intros ->. Qed.

Lemma queued_ext l l' ql : (forall b p, b ∈ ql -> l !! b = Some p -> exists p', l' !! b = Some p' /\ job_of p' = job_of p) -> Forall (fun b => is_Some (l !! b)) ql -> queued l' ql = queued l ql.
Proof.
  intros H F. apply omap_ext_in. intros b Hb. rewrite Forall_forall in F. destruct (F b Hb) as [p Hp]. destruct (H b p Hb Hp) as (p' & Hp' & E). rewrite Hp, Hp'. cbn [fmap option_fmap option_map]. by rewrite E.
Qed.
Lemma queued_cons l b p ql : l !! b = Some p -> queued l (b :: ql) = job_of p :: queued l ql.
Proof. intros Hp. unfold queued. cbn [omap list_omap]. by rewrite Hp. Qed.
Lemma inv_is_Some (s : ist D) ql : ide_inv s ql -> Forall (fun b => is_Some (ibufs s !! b)) ql.
Proof. intros I. eapply Forall_impl; [exact (ii_wants _ _ I)|]. intros b (p & Hp & _). by exists p. Qed.
Lemma queued_other (s : ist D) ql b p : ide_inv s ql -> b ∉ ql -> queued (<[b := p]> (ibufs s)) ql = queued (ibufs s) ql.
Proof. intros I Hb. apply queued_ext; [|by apply inv_is_Some]. intros c q Hc Hq. exists q. split; [|done]. rewrite list_lookup_insert_ne; [done|]. by intros ->. Qed.
Lemma queued_same (s s' : ist D) ql : ide_inv s ql -> same_reqs (ibufs s) (ibufs s') -> queued (ibufs s') ql = queued (ibufs s) ql.
Proof. intros I [_ S]. apply queued_ext; [|by apply inv_is_Some]. intros c q Hc Hq. destruct (S c q Hq) as (q' & Hq' & Sq). exists q'. split; [done|]. by apply same_job. Qed.

(** ** The steps keep the order and the results *)

Lemma call_ok dk0 me b p r s s' ins ca se ql : sys_ok dk0 (Sys s ins ca se) ql -> b ∉ ins -> ibufs s !! b = Some p -> i_lock p = sl_mine me -> wants (havedisk1 s) p -> iderw me b s = Ok r s' ->
  sys_ok dk0 (Sys s' (if r then ins else ins ++ [b]) (ca ++ [job_of p]) se) (ql ++ [b]).
Proof.
  intros [I Hin Hd Ho (dk & Hr & Hk)] Hb Hp Hl W E. cbn [y_st inside called served] in *. assert (b ∉ ql) as Hq by (intros H; by apply Hb, Hin).
  destruct (iderw_ok me s ql b p I Hq Hp Hl W) as (s1 & E1 & I1 & S1 & H1 & K1 & V1 & V2). rewrite E in E1. injection E1 as -> ->. destruct (proj2 S1 b p Hp) as (pb & Hpb & Sb). pose proof (proj1 (same_req_of p pb true Sb)) as Eb.
  split; cbn [y_st inside called served]; [done| | | |].
  - intros c [Hc|Hc]%elem_of_app; rewrite elem_of_app; [left; by apply Hin|by right].
  - intros c [Hc|Hc]%elem_of_app Hn; [|exfalso; apply Hn; rewrite elem_of_app; by right]. destruct (Hd c Hc ltac:(intros H; apply Hn; rewrite elem_of_app; by left)) as (pc & Hpc & Hdc).
    destruct (proj2 S1 c pc Hpc) as (pc' & Hpc' & Sc). exists pc'. split; [done|]. by rewrite (proj2 (proj2 (same_req_of pc pc' true Sc))).
  - rewrite Ho. unfold queued at 2. rewrite omap_app. fold (queued (ibufs s1) ql). rewrite (queued_same s s1 ql I S1). cbn [omap list_omap]. rewrite Hpb. cbn [fmap option_fmap option_map]. by rewrite (same_job p pb Sb), <- app_assoc.
  - exists dk. split; [done|]. destruct ql as [|c ql]; cbn [app disk_at_head].
    + exists pb. split; [done|]. left. rewrite Eb. split; [by apply V2|]. by rewrite K1.
    + rewrite V1 by done. destruct Hk as (pc & Hpc & Hk). destruct (proj2 S1 c pc Hpc) as (pc' & Hpc' & Sc). exists pc'. split; [done|]. by rewrite (proj1 (same_req_of pc pc' true Sc)).
Qed.

(** What the disk is when it has finished. *)
Lemma finished_disk (d d' : D) q ok : finishes d ok d' -> dv_status (dv d) = Busy q -> exists dk, dv d' = DView dk (dv_reg (dv d)) (Finished q ok) (dv_present (dv d)) /\
  if ok then dk = write_to (dv_disk (dv d)) q else spoiled (dv_disk (dv d)) q dk.
Proof. intros F Hq. destruct ok; [rewrite (finish_ok _ _ _ F Hq); by eexists|]. destruct (finish_bad _ _ _ F Hq) as (dk & S & ->). by exists dk. Qed.
Lemma finish_step dk0 ok s d ins ca se ql : sys_ok dk0 (Sys s ins ca se) ql -> finishes (idev s) ok d -> sys_ok dk0 (Sys (set_idev d s) ins ca se) ql /\ ready (dv_status (dv d)).
Proof.
  intros [[I1 I2 I3 I4 I5 I6 I7 I8] Hin Hd Ho (dk & Hr & Hk)] F. cbn [y_st inside called served] in *. destruct (finish_idle _ _ _ F) as (q & Hq). destruct (finished_disk _ _ _ _ F Hq) as (dk1 & V & Vk).
  destruct ql as [|b ql]; [by rewrite Hq in I6|]. cbn [disk_at_head] in Hk. destruct Hk as (p & Hp & [[St K]|[[St _]|[St _]]]); [|congruence..]. assert (q = req_of p) as -> by congruence.
  split; [|by rewrite V]. split; cbn [y_st inside called served]; [|done|done|done|].
  - split; cbn [idelock ibufs idequeue havedisk1 sleeping idev set_idev]; [done|done|done|done|done| | |].
    + exists p. split; [done|]. right. exists ok. by rewrite V.
    + intros E. rewrite V in *. by apply I7.
    + intros E. rewrite V. by apply I8.
  - exists dk. split; [done|]. cbn [disk_at_head set_idev ibufs idev]. exists p. split; [done|]. right. rewrite V. cbn [dv_status dv_disk]. rewrite K in Vk. destruct ok; [by left|by right].
Qed.

(** The head of the queue when an interrupt comes: done, or failed. *)
Lemma head_done dk s b ql : disk_at_head dk s (b :: ql) -> ready (dv_status (dv (idev s))) -> exists p ok, ibufs s !! b = Some p /\ dv_status (dv (idev s)) = Finished (req_of p) ok /\
  mem_run dk [Service (job_of p) ok (fetched (dv_disk (dv (idev s))) p ok)] (dv_disk (dv (idev s))).
Proof.
  intros (p & Hp & H) Hr. destruct H as [[St _]|[[St K]|[St K]]]; [by rewrite St in Hr| |]; exists p.
  - exists true. split; [done|]. split; [done|]. unfold fetched. rewrite K, result_written. apply (run_ok dk (job_of p)), run_nil.
  - exists false. split; [done|]. split; [done|]. eapply (run_bad dk _ (job_of p)); [exact K|apply run_nil].
Qed.
Lemma intr_ok dk0 s s' ins ca se ql : sys_ok dk0 (Sys s ins ca se) ql -> ready (dv_status (dv (idev s))) -> ideintr s = Ok tt s' ->
  sys_ok dk0 (Sys s' ins ca (se ++ answer (idequeue s) s s')) (drop 1 ql).
Proof.
  intros Y Hst E. pose proof Y as [I Hin Hd Ho (dk & Hr & Hk)]. cbn [y_st inside called served] in *. pose proof (ii_link _ _ I) as L. destruct ql as [|b ql]; cbn [linked] in L.
  - rewrite (ideintr_spurious s I) in E. injection E as <-. rewrite L. cbn [answer drop]. by rewrite app_nil_r.
  - destruct L as (Eq & _). rewrite Eq in *. destruct (head_done dk s b ql Hk Hst) as (p & ok & Hp & St & R).
    destruct (ideintr_ok s ql b p ok I Hp St) as (s1 & E1 & I1 & B1 & H1 & K1 & V1). rewrite E in E1. injection E1 as <-. set (v := fetched (dv_disk (dv (idev s))) p ok) in *.
    assert (b < length (ibufs s))%nat as Hlen by (by eapply lookup_lt_Some). pose proof (NoDup_cons_1_1 _ _ (ii_nodup _ _ I)) as Hb.
    assert (ibufs s' !! b = Some (done_buf p v)) as Hb' by (rewrite B1; by apply list_lookup_insert_eq). change (drop 1 (b :: ql)) with ql. cbn [answer]. rewrite Hp, Hb', St. cbn [went_well]. change (i_data (done_buf p v)) with v.
    assert (queued (ibufs s') ql = queued (ibufs s) ql) as Q. { rewrite B1. apply queued_ext; [|pose proof (inv_is_Some _ _ I) as F; by apply Forall_cons in F as [_ F]]. intros c q Hc Hq. exists q. split; [|done]. rewrite list_lookup_insert_ne; [done|]. by intros ->. }
    split; cbn [y_st inside called served]; rewrite ?map_app; cbn [map v_job]; [done| | | |].
    + intros c Hc. apply Hin. by right.
    + intros c Hc Hn. destruct (decide (c = b)) as [->|Hne]; [exists (done_buf p v); split; [done|apply done_buf_done]|]. destruct (Hd c Hc) as (pc & Hpc & Dc); [by intros [?|?]%elem_of_cons|].
      exists pc. split; [|done]. rewrite B1. by rewrite list_lookup_insert_ne.
    + rewrite Ho, (queued_cons _ _ _ _ Hp), <- Q. by rewrite <- app_assoc.
    + exists (dv_disk (dv (idev s))). split; [by eapply mem_run_snoc|]. destruct ql as [|c ql]; cbn [disk_at_head]; [done|]. destruct V1 as (pc & Hc & Vc). exists pc. split; [done|]. by left.
Qed.

Lemma resume_step dk0 b r s s' ins ca se ql : sys_ok dk0 (Sys s ins ca se) ql -> b ∈ ins -> b ∉ sleeping s -> iderw_on b s = Ok r s' -> r = true /\ s' = s /\ sys_ok dk0 (Sys s (filter (fun c => c <> b) ins) ca se) ql.
Proof.
  intros [I Hin Hd Ho (dk & Hr & Hk)] Hb Hs E. cbn [y_st inside called served] in *. rewrite (ii_sleep _ _ I) in Hs. destruct (Hd b Hb Hs) as (p & Hp & Dp). destruct s as [l q lk h1 d sl]. pose proof (ii_lock _ _ I) as Hlk. cbn [idelock ibufs] in *. subst lk.
  unfold iderw_on in E. rewrite (bind_Ok _ _ _ _ _ (acquire_ide_ok l q h1 d sl)), (iderw_wait_ok b l q h1 d sl p Hp), Dp in E. injection E as <- <-. split; [done|]. split; [done|].
  split; cbn [y_st inside called served]; [done| | |done|by exists dk].
  - intros c Hc. apply list_elem_of_filter. split; [intros ->; done|]. by apply Hin.
  - intros c [_ Hc]%list_elem_of_filter. by apply Hd.
Qed.

Lemma owner_ok dk0 b p p' s ins ca se ql : sys_ok dk0 (Sys s ins ca se) ql -> b ∉ ins -> ibufs s !! b = Some p -> i_qnext p' = i_qnext p -> sys_ok dk0 (Sys (set_ibufs (<[b := p']> (ibufs s)) s) ins ca se) ql.
Proof.
  intros [I Hin Hd Ho (dk & Hr & Hk)] Hb Hp Hn. cbn [y_st inside called served] in *. assert (b ∉ ql) as Hq by (intros H; by apply Hb, Hin). pose proof (queued_other s ql b p' I Hq) as Q.
  assert (forall c pc, c ∈ ins -> ibufs s !! c = Some pc -> <[b := p']> (ibufs s) !! c = Some pc) as Ho' by (intros c pc Hc Hpc; rewrite list_lookup_insert_ne; [done|by intros ->]).
  destruct I as [I1 I2 I3 I4 I5 I6 I7 I8]. split; cbn [y_st inside called served set_ibufs ibufs]; [|done| | |].
  - split; cbn [idelock ibufs idequeue havedisk1 sleeping idev set_ibufs]; [done|by apply linked_other|done|by apply queue_other|done| |done|done].
    destruct ql as [|c ql]; [done|]. destruct I6 as (pc & Hpc & X). exists pc. split; [|done]. apply Ho'; [|done]. apply Hin. by left.
  - intros c Hc Hnq. destruct (Hd c Hc Hnq) as (pc & Hpc & X). exists pc. split; [|done]. by apply Ho'.
  - by rewrite Q.
  - exists dk. split; [done|]. destruct ql as [|c ql]; [done|]. cbn [disk_at_head] in *. destruct Hk as (pc & Hpc & X). exists pc. split; [|done]. cbn [ibufs set_ibufs]. apply Ho'; [|done]. apply Hin. by left.
Qed.

Lemma step_ok dk y y' : (exists ql, sys_ok dk y ql) -> ide_step y y' -> exists ql, sys_ok dk y' ql.
Proof.
  intros [ql Y] S. inversion S; subst.
  - exists (ql ++ [b]). by eapply call_ok.
  - exists ql. by eapply finish_step.
  - exists (drop 1 ql). by apply intr_ok.
  - destruct (resume_step _ _ _ _ _ _ _ _ _ Y H H0 H1) as (-> & -> & Y'). by exists ql.
  - exists ql. by eapply owner_ok.
Qed.

(** ** Nobody waits for ever *)

Lemma wakeups dk s ca se : forall n ins, (length ins <= n)%nat -> sys_ok dk (Sys s ins ca se) [] -> exists y, rtc ide_step (Sys s ins ca se) y /\ inside y = [] /\ called y = ca /\ served y = se.
Proof.
  induction n as [|n IH]; intros [|b ins] Hl Y; try (exists (Sys s [] ca se); by split); cbn [length] in Hl; [lia|].
  pose proof (so_inv _ _ _ Y) as I. destruct (so_done _ _ _ Y b ltac:(by left) ltac:(by intros ?%elem_of_nil)) as (p & Hp & Dp). cbn [y_st] in *.
  assert (iderw_on b s = Ok true s) as E.
  { destruct s as [l q lk h1 d sl]. pose proof (ii_lock _ _ I) as Hlk. cbn [idelock ibufs] in *. subst lk. unfold iderw_on. by rewrite (bind_Ok _ _ _ _ _ (acquire_ide_ok l q h1 d sl)), (iderw_wait_ok b l q h1 d sl p Hp), Dp. }
  assert (b ∉ sleeping s) as Hs by (rewrite (ii_sleep _ _ I); by intros ?%elem_of_nil).
  destruct (resume_step _ _ _ _ _ _ _ _ _ Y ltac:(by left) Hs E) as (_ & _ & Y'). destruct (IH (filter (fun c => c <> b) (b :: ins))) as (y & R & O); [|done|].
  - rewrite filter_cons_False by tauto. pose proof (length_filter (fun c => c <> b) ins). lia.
  - exists y. split; [|done]. eapply rtc_l; [|exact R]. exact (step_resume b true s s (b :: ins) ca se ltac:(by left) Hs E).
Qed.

(** From there every request is done and every caller returns; all that is done on the way can go well, but for one that has failed already. *)
Definition drained (s : ist D) (ql : list nat) ins ca se : Prop := exists y new, rtc ide_step (Sys s ins ca se) y /\ inside y = [] /\ called y = ca /\ map v_job (served y) = ca /\ served y = se ++ new /\
  ((ql <> [] -> forall q, dv_status (dv (idev s)) <> Finished q false) -> Forall (fun v => v_ok v = true) new).
Lemma drain_intr dk0 s ins ca se b ql : sys_ok dk0 (Sys s ins ca se) (b :: ql) -> ready (dv_status (dv (idev s))) -> (forall s' se', sys_ok dk0 (Sys s' ins ca se') ql -> drained s' ql ins ca se') -> drained s (b :: ql) ins ca se.
Proof.
  intros Y Hr IH. pose proof Y as [I _ _ _ (dk & _ & Hk)]. cbn [y_st] in *. destruct (head_done dk s b ql Hk Hr) as (p & ok & Hp & St & _).
  destruct (ideintr_ok s ql b p ok I Hp St) as (s2 & E2 & _ & B2 & _ & _ & V2). pose proof (intr_ok _ _ _ _ _ _ _ Y Hr E2) as Y2. change (drop 1 (b :: ql)) with ql in Y2. destruct (IH _ _ Y2) as (y & new & R & Ei & Ec & Ej & Es & Eo).
  exists y, (answer (idequeue s) s s2 ++ new). split; [eapply rtc_l; [by apply step_intr|exact R]|]. split; [done|]. split; [done|]. split; [done|]. split; [by rewrite Es, <- app_assoc|]. intros Hok.
  apply Forall_app. split.
  - rewrite (proj1 (ii_link _ _ I)). cbn [answer]. rewrite Hp, B2, list_lookup_insert_eq by (by eapply lookup_lt_Some). constructor; [|constructor]. cbn [v_ok]. rewrite St. cbn [went_well]. destruct ok; [done|]. by destruct (Hok ltac:(done) _ St).
  - apply Eo. intros Hne q Hq. destruct ql as [|c ql]; [done|]. destruct V2 as (pc & _ & V2). congruence.
Qed.
Lemma drains dk0 ql : forall s ins ca se, sys_ok dk0 (Sys s ins ca se) ql -> drained s ql ins ca se.
Proof.
  induction ql as [|b ql IH]; intros s ins ca se Y.
  - destruct (wakeups dk0 s ca se (length ins) ins (le_n _) Y) as (y & R & E1 & E2 & E3). exists y, []. split; [done|]. split; [done|]. split; [done|]. rewrite E3, app_nil_r. split; [|split; [done|constructor]].
    pose proof (so_order _ _ _ Y) as Ho. cbn [called served queued omap list_omap] in Ho. by rewrite app_nil_r in Ho.
  - destruct (so_disk _ _ _ Y) as (dk & _ & p & Hp & Hk); cbn [y_st] in *. destruct Hk as [[St _]|[[St _]|[St _]]]; [|eapply drain_intr; [exact Y|by rewrite St|auto]..].
    destruct (can_finish _ _ St) as [d F]. destruct (finish_step _ _ _ _ _ _ _ _ Y F) as [Y1 Q1]. destruct (drain_intr _ _ _ _ _ _ _ Y1 Q1 ltac:(auto)) as (y & new & R & O).
    exists y, new. split; [eapply rtc_l; [by apply (step_finish true)|exact R]|]. destruct O as (O1 & O2 & O3 & O4 & O5). split_and!; try done. intros _. apply O5. intros _ q. cbn [idev set_idev]. by rewrite (finish_ok _ _ _ F St).
Qed.

(** A state in which nobody is in the driver. *)
Definition ide_start (y : sys) : Prop := ide_inv (y_st y) [] /\ inside y = [] /\ called y = [] /\ served y = [].
Lemma ide_start_ok y : ide_start y -> sys_ok (dv_disk (dv (idev (y_st y)))) y [].
Proof. intros (I & Ei & Ec & Es). split; [done|by intros b Hb%elem_of_nil|rewrite Ei; by intros b Hb%elem_of_nil|by rewrite Ec, Es|]. rewrite Es. eexists. split; [apply run_nil|done]. Qed.
Lemma reach_ok y0 y : ide_start y0 -> rtc ide_step y0 y -> exists ql, sys_ok (dv_disk (dv (idev (y_st y0)))) y ql.
Proof. intros S0 R. assert (exists ql, sys_ok (dv_disk (dv (idev (y_st y0)))) y0 ql) as H by (exists []; by apply ide_start_ok). revert H. generalize (dv_disk (dv (idev (y_st y0)))). intros dk. clear S0. induction R as [y|y y1 y2 S R IH]; intros H; [done|]. apply IH. by eapply step_ok. Qed.

(** C17. The driver is a memory disk that may fail. Whatever callers do whose requests [iderw] does not refuse,
    whether the disk finishes a command well or with an error, and whenever interrupts come, wanted or not, but not
    while the disk is working: the
    requests that are done are the first ones in the order of the calls, the others are in the queue in that
    order, and they were done one by one. One that went well gave what a memory disk gives; a failed
    read left the caller's buffer, and a failed write all but its own sector, as it was, and the caller is not told.
    So when none failed, the buffers and, with the queue empty, the disk are those of a memory disk. A caller
    that is in the driver sleeps in the queue or its request is done, and there is always a way on, without new
    calls, in which every request is done (well, unless it has failed already) and every caller returns. *)
Theorem ide_refines_memory_disk y0 y : ide_start y0 -> rtc ide_step y0 y -> let dk0 := dv_disk (dv (idev (y_st y0))) in exists ql dk,
  called y = map v_job (served y) ++ queued (ibufs (y_st y)) ql /\ mem_run dk0 (served y) dk /\ disk_at_head dk (y_st y) ql /\
  (Forall (fun v => v_ok v = true) (served y) -> map v_data (served y) = mem_results dk0 (reqs (served y)) /\
    (ql = [] -> dv_disk (dv (idev (y_st y))) = mem_after dk0 (map j_req (called y)))) /\
  linked (ibufs (y_st y)) (idequeue (y_st y)) ql /\ sleeping (y_st y) = ql /\
  (forall b, b ∈ inside y -> b ∈ ql \/ exists p, ibufs (y_st y) !! b = Some p /\ idone p = true) /\
  exists y' new, rtc ide_step y y' /\ inside y' = [] /\ called y' = called y /\ map v_job (served y') = called y /\ served y' = served y ++ new /\
    ((ql <> [] -> forall q, dv_status (dv (idev (y_st y))) <> Finished q false) -> Forall (fun v => v_ok v = true) new).
Proof.
  intros S0 R dk0. destruct (reach_ok y0 y S0 R) as [ql Y]. fold dk0 in Y. pose proof Y as [I Hin Hd Ho (dk & Hr & Hk)]. exists ql, dk. split; [done|]. split; [done|]. split; [done|]. split.
  { intros F. destruct (mem_run_good _ _ _ Hr F) as [E1 E2]. split; [done|]. intros ->. cbn [disk_at_head] in Hk. rewrite Hk, E2, Ho. cbn [queued omap list_omap]. rewrite app_nil_r. unfold reqs. by rewrite map_map. }
  split; [apply I|]. split; [apply I|]. split; [|destruct y as [s ins ca se]; by eapply drains].
  intros b Hb. destruct (decide (b ∈ ql)) as [H|H]; [by left|right; by apply Hd].
Qed.

(** A read that the disk reports as failed: the interrupt marks the buffer as read all the same, and its
    bytes are the old ones. *)
Lemma read_error_lost s b p q : idelock s = false -> idequeue s = Some b -> ibufs s !! b = Some p -> i_qnext p = None -> idirty p = false -> answers (dv (idev s)) -> dv_status (dv (idev s)) = Finished q false ->
  exists s', ideintr s = Ok tt s' /\ ibufs s' !! b = Some (done_buf p (i_data p)) /\ idone (done_buf p (i_data p)) = true.
Proof.
  destruct s as [bufs o lk h1 d sl]. cbn [idelock ibufs idequeue havedisk1 sleeping idev]. intros -> -> Hp Hn Hdy Ha St. unfold ideintr. rewrite (bind_Ok _ _ _ _ _ (acquire_ide_ok bufs (Some b) h1 d sl)). mgo. cbn [idequeue].
  rewrite (bind_Ok _ _ _ _ _ (get_ibuf_ok b (ISt bufs (Some b) true h1 d sl) p Hp)). mgo. unfold set_idequeue. cbn [idelock ibufs idequeue havedisk1 sleeping idev]. rewrite Hdy, Hn.
  destruct (idewait_ok true (ISt bufs None true h1 d sl) ltac:(cbn [idev]; by rewrite St) Ha) as (r & E & [[_ N]|(-> & _)]); [by destruct (N eq_refl q)|]. assert (b < length bufs)%nat as Hlen by (by eapply lookup_lt_Some).
  erewrite bind_Ok; [|rewrite (bind_Ok _ _ _ _ _ E); change (0 <=? -1) with false; cbv iota; reflexivity].
  rewrite (bind_Ok _ _ _ _ _ (upd_ibuf_ok b _ (ISt bufs None true h1 d sl) p Hp)). unfold set_ibufs. cbn [idelock ibufs idequeue havedisk1 sleeping idev].
  rewrite (bind_Ok _ _ _ _ _ (upd_ibuf_ok b _ (ISt _ _ true h1 d _) _ (list_lookup_insert_eq _ _ _ Hlen))). unfold set_ibufs. cbn [idelock ibufs idequeue havedisk1 sleeping idev]. rewrite list_insert_insert_eq.
  unfold wake_buf. mgo. unfold set_sleeping. cbn [idelock ibufs idequeue havedisk1 sleeping idev]. mgo. eexists. split; [exact (release_ide_ok _ _ _ _ _)|]. cbn [ibufs].
  split; [|apply done_buf_done]. by rewrite list_lookup_insert_eq.
Qed.

(** The calls that iderw refuses. *)
Lemma iderw_refuses me b s p : ibufs s !! b = Some p ->
  (i_lock p = sl_free -> iderw me b s = Panic "iderw: buf not locked") /\
  (i_lock p = sl_mine me -> idone p = true -> iderw me b s = Panic "iderw: nothing to do") /\
  (i_lock p = sl_mine me -> idone p = false -> i_dev p <> 0 -> havedisk1 s = false -> iderw me b s = Panic "iderw: ide disk 1 not present").
Proof.
  intros Hp. unfold iderw. rewrite (bind_Ok _ _ _ _ _ (get_ibuf_ok _ _ _ Hp)). assert (forall l r, i_lock p = l -> holdingsleep me l = Ok r l -> zoom (fun _ => i_lock p) (fun l s => set_ibufs (<[b := set_ilock l p]> (ibufs s)) s) (holdingsleep me) s = Ok r s) as Z.
  { intros l r Hl E. unfold zoom. rewrite Hl, E. rewrite list_insert_id; [by destruct s|]. rewrite Hp, <- Hl. by destruct p. }
  split; [|split]; intros Hl.
  - by rewrite (bind_Ok _ _ _ _ _ (Z _ _ Hl (holdingsleep_free me))).
  - intros Hd. rewrite (bind_Ok _ _ _ _ _ (Z _ _ Hl (holdingsleep_ok me))). cbn [negb]. by rewrite Hd.
  - intros Hd Hv H1. rewrite (bind_Ok _ _ _ _ _ (Z _ _ Hl (holdingsleep_ok me))). cbn [negb]. rewrite Hd. mgo. rewrite H1, (proj2 (Z.eqb_neq _ _) Hv). done.
Qed.

(** ideinit finds out whether there is a second disk, and leaves the first one selected. *)
Lemma probe_ok n s : ready (dv_status (dv (idev s))) -> sel_drive (dv (idev s)) = 1 -> havedisk1 s = false -> ideprobe (S n) s = Ok tt (set_havedisk1 (dv_present (dv (idev s))) s).
Proof.
  intros Hr Hs Hf. destruct (dv_present (dv (idev s))) eqn:Ep.
  - assert (answers (dv (idev s))) as Ha by (intros _; exact Ep). destruct (inb_ready _ Hr Ha) as (r & E & H1 & _). cbn [ideprobe]. rewrite (bind_Ok _ _ _ _ _ (io_ok _ _ _ _ E)). destruct (Z.eqb_spec r 0) as [->|_]; [done|]. cbn [negb]. by destruct s.
  - assert (~ answers (dv (idev s))) as Ha by (intros Ha; specialize (Ha Hs); congruence). pose proof (inb_absent _ Hr Ha) as E. pose proof (io_ok _ s _ _ E) as E'. replace (set_idev (idev s) s) with s in E' by (by destruct s).
    revert n. enough (forall n, ideprobe n s = Ok tt (set_havedisk1 false s)) as H by (intros n; apply H). induction n as [|n IH]; cbn [ideprobe]; [mgo; rewrite <- Hf at 1; by destruct s|]. rewrite (bind_Ok _ _ _ _ _ E'). change (negb (0 =? 0)) with false. cbv iota. exact IH.
Qed.
Lemma ideinit_ok ncpu s : ready (dv_status (dv (idev s))) -> answers (dv (idev s)) -> havedisk1 s = false -> idequeue s = None -> sleeping s = [] -> exists s',
  ideinit ncpu s = Ok tt s' /\ ide_inv s' [] /\ havedisk1 s' = dv_present (dv (idev s)) /\ ibufs s' = ibufs s /\ dv_disk (dv (idev s')) = dv_disk (dv (idev s)).
Proof.
  destruct s as [l q lk h1 d sl]. cbn [idelock ibufs idequeue havedisk1 sleeping idev]. intros Hr Ha -> -> ->. unfold ideinit. mgo. unfold set_idelock. cbn [idelock ibufs idequeue havedisk1 sleeping idev].
  destruct (ioapic_dv IRQ_IDE (ncpu - 1) d) as (d1 & E1 & V1). rewrite (bind_Ok _ _ _ _ _ (io_ok _ (ISt l None false false d []) _ _ E1)). unfold set_idev. cbn [idelock ibufs idequeue havedisk1 sleeping idev].
  destruct (idewait_ok false (ISt l None false false d1 []) ltac:(cbn [idev]; by rewrite V1) ltac:(cbn [idev]; by rewrite V1)) as (r & E2 & _). rewrite (bind_Ok _ _ _ _ _ E2).
  destruct (outb_reg 0x1f6 (Z.lor 0xe0 (Z.shiftl 1 4)) d1 ltac:(set_solver) ltac:(by rewrite V1)) as (d2 & E3 & V2). rewrite V1 in V2. rewrite (bind_Ok _ _ _ _ _ (io_ok _ (ISt l None false false d1 []) _ _ E3)). unfold set_idev. cbn [idelock ibufs idequeue havedisk1 sleeping idev].
  rewrite (bind_Ok _ _ _ _ _ (probe_ok 999 (ISt l None false false d2 []) ltac:(cbn [idev]; by rewrite V2) ltac:(cbn [idev]; by rewrite V2) eq_refl)). unfold set_havedisk1. cbn [idelock ibufs idequeue havedisk1 sleeping idev].
  destruct (outb_reg 0x1f6 (Z.lor 0xe0 (Z.shiftl 0 4)) d2 ltac:(set_solver) ltac:(by rewrite V2)) as (d3 & E4 & V3). rewrite (io_ok _ (ISt l None false (dv_present (dv d2)) d2 []) _ _ E4). unfold set_idev. cbn [idelock ibufs idequeue havedisk1 sleeping idev]. rewrite V2 in V3.
  eexists. split; [reflexivity|]. cbn [ibufs havedisk1 idev]. rewrite V2, V3. split; [|done]. split; cbn [idelock ibufs idequeue havedisk1 sleeping idev]; rewrite ?V2, ?V3; done || constructor.
Qed.
End system.
Arguments sys : clear implicits.

(** ** A disk in memory *)

Definition serving (d : dview) : bool := match dv_status d with Quiet | Finished _ _ => true | _ => false end.
Definition answering (d : dview) : bool := negb (sel_drive d =? 1) || dv_present d.
Definition status_byte (d : dview) : Z :=
  if negb (answering d) then 0 else if serving d then match dv_status d with Finished _ false => 0x41 | _ => 0x40 end else 0x80.
Definition sim_outb (p v : Z) : M dview unit := fun d =>
  if p =? 0x1f7 then
    if serving d && answering d && (dv_reg d 0x1f2 =? 1) then
      if v =? 0x20 then Ok tt (set_status (Busy (Request (sel_drive d) (sel_sector d) None)) d)
      else if v =? 0x30 then Ok tt (set_status (Needs (sel_drive d) (sel_sector d)) d) else Undef
    else Undef
  else Ok tt (set_dreg p v d).
Definition sim_insl : M dview block := fun d => match dv_status d with Finished q true => Ok (dv_disk d (q_drive q) (q_sector q)) (set_status Quiet d) | _ => Undef end.
Definition sim_outsl (v : block) : M dview unit := fun d => match dv_status d with Needs drive sector => Ok tt (set_status (Busy (Request drive sector (Some v))) d) | _ => Undef end.
#[export] Program Instance sim_disk : IdeDisk dview := {|
  inb p := gets (fun d => if p =? 0x1f7 then status_byte d else dv_reg d p);
  outb := sim_outb;
  insl p n := sim_insl;
  outsl p v n := sim_outsl v;
  ioapicenable irq cpu := mret tt;
  dv d := d;
  finishes d ok d' := exists q, dv_status d = Busy q /\ d' = DView (if ok then write_to (dv_disk d) q else dv_disk d) (dv_reg d) (Finished q ok) (dv_present d)
|}.
Next Obligation.
  intros d Hr Ha. assert (serving d = true) as Hs by (unfold serving; by destruct (dv_status d)). assert (answering d = true) as Hn.
  { unfold answering. destruct (Z.eqb_spec (sel_drive d) 1) as [E|E]; [by rewrite (Ha E)|done]. }
  exists (status_byte d). split; [done|]. unfold status_byte. rewrite Hn, Hs. cbn [negb]. destruct (dv_status d) as [|?|?|q ok] eqn:Es; [|done|done|destruct ok]; (split; [done|]).
  - split; [by intros []|by intros [q' [=]]].
  - split; [by intros []|by intros [q' [=]]].
  - split; [intros _; by exists q|done].
Qed.
Next Obligation.
  intros d Hr Ha. unfold gets. cbn. unfold status_byte. replace (answering d) with false; [done|]. symmetry. unfold answering. destruct (Z.eqb_spec (sel_drive d) 1) as [E|E]; [|exfalso; apply Ha; by intros E'].
  destruct (dv_present d) eqn:Ep; [|done]. exfalso. apply Ha. by intros _.
Qed.
Next Obligation.
  intros p v d Hp _. exists (set_dreg p v d). split; [|done]. unfold sim_outb. replace (p =? 0x1f7) with false; [done|]. symmetry. apply Z.eqb_neq. intros ->. apply (bool_decide_pack _) in Hp. by vm_compute in Hp.
Qed.
Next Obligation.
  intros d Hr Ha Hc. eexists. split; [|reflexivity]. unfold sim_outb. assert (serving d = true) as -> by (unfold serving; by destruct (dv_status d)). assert (answering d = true) as ->; [|by rewrite Hc].
  unfold answering. destruct (Z.eqb_spec (sel_drive d) 1) as [E|E]; [by rewrite (Ha E)|done].
Qed.
Next Obligation.
  intros d Hr Ha Hc. eexists. split; [|reflexivity]. unfold sim_outb. assert (serving d = true) as -> by (unfold serving; by destruct (dv_status d)). assert (answering d = true) as ->; [|by rewrite Hc].
  unfold answering. destruct (Z.eqb_spec (sel_drive d) 1) as [E|E]; [by rewrite (Ha E)|done].
Qed.
Next Obligation. intros v d drive sector Hs _. unfold sim_outsl. rewrite Hs. by eexists. Qed.
Next Obligation. intros d q Hs _. unfold sim_insl. rewrite Hs. by eexists. Qed.
Next Obligation. intros irq cpu d. by exists d. Qed.
Next Obligation. intros d q Hq. by eexists _, q. Qed.
Next Obligation. intros d q d' (q' & Hq & ->) Hq'. by replace q with q' by congruence. Qed.
Next Obligation. intros d q d' (q' & Hq & ->) Hq'. exists (dv_disk d). split; [by intros ???|]. by replace q with q' by congruence. Qed.
Next Obligation. intros d ok d' (q & Hq & _). by exists q. Qed.

(** Two callers: one writes block 5, the other reads it. *)
Definition zeros : block := repeat 0 512.
Definition sevens : block := repeat 7 512.
Definition demo_write : ibuf := IBuf 4 0 5 (sl_mine 1) None sevens.
Definition demo_read : ibuf := IBuf 0 0 5 (sl_mine 2) None zeros.
Definition demo_ide : ist dview := ISt [demo_write; demo_read] None false false (DView (fun _ _ => zeros) (fun _ => 0) Quiet false) [].
Lemma demo_ide_start : ide_start (Sys demo_ide [] [] []).
Proof. split; [|done]. split; try done; constructor. Qed.
Definition demo_call : sys dview :=
  match iderw 1 0 demo_ide with Ok _ s1 => match iderw 2 1 s1 with Ok _ s2 => Sys s2 [0%nat; 1%nat] [job_of demo_write; job_of demo_read] [] | _ => Sys demo_ide [] [] [] end | _ => Sys demo_ide [] [] [] end.
Lemma demo_ide_calls : rtc ide_step (Sys demo_ide [] [] []) demo_call.
Proof.
  unfold demo_call. destruct (iderw 1 0 demo_ide) as [r s1| | |] eqn:E1; try reflexivity. destruct (iderw 2 1 s1) as [r2 s2| | |] eqn:E2; try reflexivity.
  assert (wants false demo_write) as W1 by (split; [done|]; split; [unfold FSSIZE; cbn; lia|]; split; [done|by left]).
  assert (wants false demo_read) as W2 by (split; [done|]; split; [unfold FSSIZE; cbn; lia|]; split; [done|by left]).
  destruct (iderw_ok 1 demo_ide [] 0 demo_write (proj1 demo_ide_start) ltac:(by intros ?%elem_of_nil) eq_refl eq_refl W1) as (s1' & E1' & I1 & S1 & H1 & _). rewrite E1 in E1'. injection E1' as -> <-.
  destruct (proj2 S1 1%nat demo_read eq_refl) as (p & Hp & Sp). change (havedisk1 demo_ide) with false in H1.
  eapply rtc_l; [apply (step_call 1 0 demo_write false demo_ide s1 [] [] []); [by intros ?%elem_of_nil|reflexivity|reflexivity|exact W1|exact E1]|].
  assert (wants (havedisk1 s1) p) as Wp by (rewrite H1; by apply (same_req_of demo_read p false Sp)).
  destruct (iderw_ok 2 s1 [0%nat] 1 p I1 ltac:(by intros ?%list_elem_of_singleton) Hp ltac:(by rewrite Sp) Wp) as (s2' & E2' & _). rewrite E2 in E2'. injection E2' as -> <-.
  pose proof (same_job demo_read p Sp) as Er.
  eapply rtc_l; [apply (step_call 2 1 p false s1 s2 [0%nat] _ []); [by intros ?%list_elem_of_singleton|exact Hp|by rewrite Sp|exact Wp|exact E2]|]. rewrite Er. reflexivity.
Qed.
(** Both are served, the read gets what was written. *)
Lemma ide_refines_memory_disk_witness : exists y, rtc ide_step (Sys demo_ide [] [] []) y /\ inside y = [] /\ map v_data (served y) = [sevens; sevens].
Proof.
  destruct (ide_refines_memory_disk _ _ demo_ide_start demo_ide_calls) as (ql & _ & _ & _ & _ & _ & _ & _ & _ & y & new & R & Ei & _ & Ej & Es & Hg).
  assert (rtc ide_step (Sys demo_ide [] [] []) y) as R' by (etransitivity; [exact demo_ide_calls|exact R]). exists y. split; [exact R'|]. split; [exact Ei|].
  assert (called demo_call = [job_of demo_write; job_of demo_read]) as Ec by (vm_compute; reflexivity). assert (served demo_call = []) as E0 by (vm_compute; reflexivity). rewrite E0 in Es. cbn [app] in Es.
  assert (forall q, dv_status (dv (idev (y_st demo_call))) <> Finished q false) as Hb.
  { enough (match dv_status (dv (idev (y_st demo_call))) with Busy _ => True | _ => False end) as H by (intros q Hq; by rewrite Hq in H). vm_compute. exact Logic.I. }
  destruct (ide_refines_memory_disk _ _ demo_ide_start R') as (ql2 & _ & _ & _ & _ & Hok & _). destruct (Hok ltac:(rewrite Es; apply Hg; intros _; exact Hb)) as [Er _].
  rewrite Er. unfold reqs. rewrite <- map_map, Ej, Ec. reflexivity.
Defined.
