(* ===== verification/Log.v ===== *)
(** * The file system log: p6/log.c over the interface of the block cache

    [lst] is [struct log] with the cache below it. [commit] and [recover_from_log]
    are the C functions; every block write they issue is recorded by the cache, so a
    crash after any number of writes is a prefix of that record. Where [begin_op]
    has to sleep the outcome is [Hang]; module-level relation [lstep] interleaves the
    operations of several processes. *)

From S2P Require Import Prelude Sleeplock Cache.

Definition MAXOPBLOCKS : Z := 10.
Definition LOGSIZE : Z := 30.

Record superblock := Superblock {
  sb_size : Z; sb_nblocks : Z; sb_ninodes : Z; sb_nlog : Z;
  sb_logstart : Z; sb_inodestart : Z; sb_bmapstart : Z
}.
Definition sb_of (d : block) : superblock :=
  Superblock (ld32 d 0) (ld32 d 4) (ld32 d 8) (ld32 d 12) (ld32 d 16) (ld32 d 20) (ld32 d 24).

(** ** Disks and block writes *)

Definition apply_writes (D : list block) (ws : list (Z * block)) : list block :=
  foldl (fun D w => disk_set D (fst w) (snd w)) D ws.

(** The header a disk holds, and the writes recovery makes from it. *)
Definition hdr_n (h : block) : Z := s32 (ld32 h 0).
Definition hdr_blk (h : block) (i : nat) : Z := s32 (ld32 h (4 + 4 * Z.of_nat i)).
Definition installs (start : Z) (D : list block) : list (Z * block) :=
  map (fun i => (hdr_blk (disk_at D start) i, disk_at D (start + Z.of_nat i + 1)))
    (seq 0 (Z.to_nat (hdr_n (disk_at D start)))).
(** What recovery makes of a disk. *)
Definition recovered (start : Z) (D : list block) : list block := apply_writes D (installs start D).

Definition keys_in (D : list block) (ws : list (Z * block)) : Prop := Forall (fun w => 0 <= fst w < disk_len D) ws.

Lemma aw_len D ws : disk_len (apply_writes D ws) = disk_len D.
Proof. revert D. induction ws as [|w ws IH]; intros D; [done|]. cbn. change (foldl _ ?x ws) with (apply_writes x ws). by rewrite IH, disk_len_set. Qed.
Lemma aw_app D ws ws' : apply_writes D (ws ++ ws') = apply_writes (apply_writes D ws) ws'.
Proof. apply foldl_app. Qed.
Lemma keys_in_len D D' ws : disk_len D' = disk_len D -> keys_in D ws -> keys_in D' ws.
Proof. unfold keys_in. by intros ->. Qed.
Lemma keys_in_aw D ws ws' : keys_in D ws -> keys_in (apply_writes D ws') ws.
Proof. apply keys_in_len, aw_len. Qed.
Lemma keys_in_take D ws k : keys_in D ws -> keys_in D (take k ws).
Proof. apply Forall_take. Qed.

Lemma aw_other D ws m : keys_in D ws -> 0 <= m -> m ∉ map fst ws -> disk_at (apply_writes D ws) m = disk_at D m.
Proof.
  revert D. induction ws as [|[n d] ws IH]; intros D Hk Hm Hn; [done|]. apply Forall_cons in Hk as [Hk Hks].
  cbn in *. change (foldl _ ?x ws) with (apply_writes x ws). rewrite not_elem_of_cons in Hn. destruct Hn as [Hn1 Hn2].
  rewrite IH; [|by eapply keys_in_len; [apply disk_len_set|]|done..].
  rewrite disk_at_set by done. by rewrite decide_False.
Qed.

Lemma aw_at D ws m d : keys_in D ws -> NoDup (map fst ws) -> (m, d) ∈ ws -> disk_at (apply_writes D ws) m = d.
Proof.
  revert D. induction ws as [|[n e] ws IH]; intros D Hk Hd Hin; [by apply elem_of_nil in Hin|].
  apply Forall_cons in Hk as [Hk Hks]. cbn in *. change (foldl _ ?x ws) with (apply_writes x ws).
  apply NoDup_cons in Hd as [Hn Hd]. assert (keys_in (disk_set D n e) ws) as Hks' by (eapply keys_in_len; [apply disk_len_set|done]).
  apply elem_of_cons in Hin as [[= -> ->]|Hin].
  - rewrite aw_other by (done || lia). rewrite disk_at_set by lia. by rewrite decide_True.
  - by apply IH.
Qed.

(** Writes that are made again on top of some of themselves. *)
Lemma aw_again D D' ws m : keys_in D ws -> disk_len D' = disk_len D -> 0 <= m ->
  (m ∉ map fst ws -> disk_at D' m = disk_at D m) ->
  disk_at (apply_writes D' ws) m = disk_at (apply_writes D ws) m.
Proof.
  revert D D'. induction ws as [|[n d] ws IH]; intros D D' Hk Hl Hm Ho; [apply Ho; cbn; by intros ?%elem_of_nil|].
  apply Forall_cons in Hk as [Hk Hks]. cbn in *. change (foldl _ ?x ws) with (apply_writes x ws).
  apply IH; [by eapply keys_in_len; [apply disk_len_set|]|by rewrite !disk_len_set|done|].
  intros Hno. rewrite !disk_at_set by lia. case_decide as E; [done|]. apply Ho. by intros [?|?]%elem_of_cons.
Qed.

Lemma in_take {A B} (f : A -> B) (l : list A) k x : x ∈ map f (take k l) -> x ∈ map f l.
Proof.
  intros (w & -> & Hw)%list_elem_of_fmap. apply list_elem_of_fmap. exists w. split; [done|].
  apply list_elem_of_lookup in Hw as [i Hi]. apply lookup_take_Some in Hi as [Hi _]. by eapply list_elem_of_lookup_2.
Qed.

(** ** The crash points of a commit *)

(** [m] is a block outside the log. *)
Definition home (start size : Z) (D : list block) (m : Z) : Prop :=
  0 <= m < disk_len D /\ ~ (start <= m < start + size).

Definition log_writes (start : Z) (ds : list block) : list (Z * block) := imap (fun i d => (start + Z.of_nat i + 1, d)) ds.
Definition commit_writes (start : Z) (hb hz : block) (blks : list Z) (ds : list block) : list (Z * block) :=
  log_writes start ds ++ [(start, hb)] ++ zip blks ds ++ [(start, hz)].

(** A header that names the blocks. *)
Definition names (h : block) (blks : list Z) : Prop :=
  hdr_n h = Z.of_nat (length blks) /\ forall i b, blks !! i = Some b -> hdr_blk h i = b.

Lemma log_keys start ds m : m ∈ map fst (log_writes start ds) -> exists i, m = start + Z.of_nat i + 1 /\ (i < length ds)%nat.
Proof.
  intros ([n d] & -> & Hin)%list_elem_of_fmap. apply list_elem_of_lookup in Hin as [i Hi].
  unfold log_writes in Hi. rewrite list_lookup_imap in Hi. destruct (ds !! i) eqn:E; [|done]. injection Hi as <- <-.
  exists i. split; [done|]. by eapply lookup_lt_Some.
Qed.

Lemma log_writes_nodup start ds : NoDup (map fst (log_writes start ds)).
Proof.
  unfold log_writes. apply NoDup_alt. intros i j m Hi Hj. rewrite list_lookup_fmap, list_lookup_imap in Hi, Hj.
  destruct (ds !! i); [|done]. destruct (ds !! j); [|done]. cbn in *. simplify_eq. lia.
Qed.

Lemma log_writes_in start ds i d : ds !! i = Some d -> (start + Z.of_nat i + 1, d) ∈ log_writes start ds.
Proof. intros H. apply list_elem_of_lookup. exists i. unfold log_writes. by rewrite list_lookup_imap, H. Qed.

Lemma map_fst_zip (blks : list Z) (ds : list block) : length blks = length ds -> map fst (zip blks ds) = blks.
Proof. intros H. change (map fst (zip blks ds)) with ((zip blks ds).*1). apply fst_zip. lia. Qed.

Lemma installs_none start D : hdr_n (disk_at D start) = 0 -> installs start D = [].
Proof. unfold installs. by intros ->. Qed.

(** A header with the names, and the contents in the log: recovery installs them. *)
Lemma installs_names start D blks ds :
  names (disk_at D start) blks -> length blks = length ds ->
  (forall i d, ds !! i = Some d -> disk_at D (start + Z.of_nat i + 1) = d) ->
  installs start D = zip blks ds.
Proof.
  intros [Hn Hb] Hl Hd. unfold installs. rewrite Hn, Nat2Z.id. apply list_eq. intros i.
  rewrite list_lookup_fmap, lookup_zip_with. destruct (decide (i < length blks)%nat) as [Hi|Hi].
  - rewrite lookup_seq_lt by done. cbn. destruct (lookup_lt_is_Some_2 blks i Hi) as [b E]. destruct (lookup_lt_is_Some_2 ds i) as [d E']; [lia|].
    rewrite E, E'. cbn. by rewrite (Hb i b E), (Hd i d E').
  - rewrite lookup_seq_ge by lia. rewrite (lookup_ge_None_2 blks) by lia. done.
Qed.

Record commit_ready (start size : Z) (D : list block) (hb hz : block) (blks : list Z) (ds : list block) : Prop := {
  cr_start : 0 <= start; cr_fits : start + size <= disk_len D;
  cr_len : length blks = length ds; cr_room : Z.of_nat (length blks) < size;
  cr_nodup : NoDup blks; cr_home : Forall (home start size D) blks;
  cr_old : hdr_n (disk_at D start) = 0; cr_new : names hb blks; cr_zero : hdr_n hz = 0
}.

Section crash.
Context (start size : Z) (D : list block) (hb hz : block) (blks : list Z) (ds : list block).
Hypothesis R : commit_ready start size D hb hz blks ds.

Lemma cw_log_in : keys_in D (log_writes start ds).
Proof.
  apply Forall_forall. intros w Hw. destruct (log_keys start ds (fst w)) as (i & -> & Hi).
  { apply list_elem_of_fmap. by exists w. }
  pose proof (cr_start _ _ _ _ _ _ _ R). pose proof (cr_fits _ _ _ _ _ _ _ R). pose proof (cr_len _ _ _ _ _ _ _ R).
  pose proof (cr_room _ _ _ _ _ _ _ R). lia.
Qed.
Lemma cw_home_in : keys_in D (zip blks ds).
Proof.
  apply Forall_forall. intros [b d] Hw. assert (b ∈ blks) as Hb.
  { rewrite <- (map_fst_zip blks ds) by apply R. apply list_elem_of_fmap. by exists (b, d). }
  apply (proj1 (Forall_forall _ _) (cr_home _ _ _ _ _ _ _ R)) in Hb. apply Hb.
Qed.
Lemma cw_start : 0 <= start < disk_len D.
Proof.
  pose proof (cr_start _ _ _ _ _ _ _ R). pose proof (cr_fits _ _ _ _ _ _ _ R). pose proof (cr_room _ _ _ _ _ _ _ R). lia.
Qed.
Lemma log_not_home m : m ∈ map fst (log_writes start ds) -> start < m < start + size.
Proof.
  intros (i & -> & Hi)%log_keys. pose proof (cr_len _ _ _ _ _ _ _ R). pose proof (cr_room _ _ _ _ _ _ _ R). lia.
Qed.
Lemma home_not_log m : start <= m < start + size -> m ∉ map fst (zip blks ds).
Proof.
  intros Hm. rewrite map_fst_zip by apply R. intros Hin.
  apply (proj1 (Forall_forall _ _) (cr_home _ _ _ _ _ _ _ R)) in Hin. by apply Hin.
Qed.

(** Before the header is written, recovery does nothing. *)
Lemma crash_before k m : home start size D m ->
  disk_at (recovered start (apply_writes D (take k (log_writes start ds)))) m = disk_at D m.
Proof.
  intros [Hm Hl]. set (D1 := apply_writes _ _). pose proof (keys_in_take _ _ k cw_log_in) as K.
  assert (forall x, 0 <= x -> ~ (start < x < start + size) -> disk_at D1 x = disk_at D x) as Ho.
  { intros x Hx Hn. apply aw_other; [done|done|]. intros Hin. apply Hn, log_not_home.
    by eapply in_take. }
  unfold recovered. rewrite installs_none; [cbn; apply Ho; lia|].
  rewrite Ho; [apply R|apply R|lia].
Qed.

(** After it, the whole transaction is recovered, whatever of it is already home. *)
Lemma crash_after k m : home start size D m ->
  disk_at (recovered start (apply_writes D (log_writes start ds ++ (start, hb) :: take k (zip blks ds)))) m =
  disk_at (apply_writes D (zip blks ds)) m.
Proof.
  intros [Hm Hl]. rewrite aw_app. cbn [apply_writes foldl fst snd]. change (foldl _ ?x (take k ?y)) with (apply_writes x (take k y)).
  set (D1 := apply_writes D (log_writes start ds)). set (D2 := disk_set D1 start hb). set (D3 := apply_writes D2 _).
  pose proof cw_start as Hs. pose proof cw_log_in as K1. pose proof (cr_room _ _ _ _ _ _ _ R) as Hroom.
  assert (disk_len D1 = disk_len D) as L1 by apply aw_len. assert (disk_len D2 = disk_len D) as L2 by (by rewrite <- L1; apply disk_len_set).
  assert (keys_in D2 (take k (zip blks ds))) as K2 by (apply keys_in_take; eapply keys_in_len; [exact L2|apply cw_home_in]).
  assert (forall x, x ∈ map fst (take k (zip blks ds)) -> x ∈ map fst (zip blks ds)) as Ht by (intros x; apply in_take).
  assert (forall x, start <= x < start + size -> disk_at D3 x = disk_at D2 x) as H3.
  { intros x Hx. apply aw_other; [done|lia|]. intros Hin. by apply (home_not_log x Hx), Ht. }
  assert (installs start D3 = zip blks ds) as E.
  { apply installs_names; [|apply R|].
    - rewrite H3 by lia. unfold D2. rewrite disk_at_set by lia. rewrite decide_True by done. apply R.
    - intros i d Hd. pose proof (log_writes_in start ds i d Hd) as Hin.
      destruct (log_not_home (start + Z.of_nat i + 1)) as [A B]; [apply list_elem_of_fmap; by exists (start + Z.of_nat i + 1, d)|].
      rewrite H3 by lia. unfold D2. rewrite disk_at_set by lia. rewrite decide_False by lia.
      apply aw_at; [done|apply log_writes_nodup|done]. }
  unfold recovered. rewrite E. apply aw_again; [apply cw_home_in|by etrans; [apply aw_len|]|lia|].
  intros Hno. unfold D3. rewrite aw_other; [|done|lia|by intros Hx; apply Hno, Ht].
  unfold D2. rewrite disk_at_set by lia. destruct (decide (m = start)); [exfalso; lia|].
  apply aw_other; [done|lia|]. intros Hx. apply log_not_home in Hx. lia.
Qed.

(** At the end the header is empty again. *)
Lemma crash_done m : home start size D m ->
  disk_at (recovered start (apply_writes D (commit_writes start hb hz blks ds))) m = disk_at (apply_writes D (zip blks ds)) m.
Proof.
  intros [Hm Hl]. pose proof cw_start as Hs. set (D4 := apply_writes _ (commit_writes _ _ _ _ _)).
  set (D3 := apply_writes D (log_writes start ds ++ (start, hb) :: zip blks ds)).
  assert (D4 = disk_set D3 start hz) as E4.
  { unfold D4, D3, commit_writes. change ([(start, hb)] ++ zip blks ds ++ [(start, hz)]) with (((start, hb) :: zip blks ds) ++ [(start, hz)]).
    by rewrite app_assoc, (aw_app D (_ ++ _)). }
  assert (disk_len D3 = disk_len D) as L3 by apply aw_len.
  unfold recovered. rewrite installs_none; [cbn|].
  - rewrite E4, disk_at_set by lia. rewrite decide_False by (intros ->; apply Hl; pose proof (cr_room _ _ _ _ _ _ _ R); lia).
    unfold D3. rewrite aw_app. cbn. change (foldl _ ?x (zip blks ds)) with (apply_writes x (zip blks ds)).
    apply aw_again; [apply cw_home_in|by rewrite disk_len_set, aw_len|lia|].
    intros _. rewrite disk_at_set by (rewrite ?aw_len; lia). rewrite decide_False by (intros ->; apply Hl; pose proof (cr_room _ _ _ _ _ _ _ R); lia).
    apply aw_other; [apply cw_log_in|lia|]. intros Hx. apply log_not_home in Hx. lia.
  - rewrite E4, disk_at_set by lia. rewrite decide_True by done. apply R.
Qed.
End crash.

Section log.
Context {S : Type} `{C : BlockCache S}.

Definition readsb (dev : Z) : M S superblock :=
  bp ← c_bread dev 1;
  d ← c_data bp;
  c_brelse bp;;
  mret (sb_of d).

Record lst := Lst {
  lg_c : S; lg_lock : bool;
  lg_start : Z; lg_size : Z; lg_outstanding : Z; lg_committing : bool; lg_dev : Z;
  lh_n : Z; lh_block : list Z
}.
Definition set_c v s := Lst v (lg_lock s) (lg_start s) (lg_size s) (lg_outstanding s) (lg_committing s) (lg_dev s) (lh_n s) (lh_block s).
Definition set_lglock v s := Lst (lg_c s) v (lg_start s) (lg_size s) (lg_outstanding s) (lg_committing s) (lg_dev s) (lh_n s) (lh_block s).
Definition set_start v s := Lst (lg_c s) (lg_lock s) v (lg_size s) (lg_outstanding s) (lg_committing s) (lg_dev s) (lh_n s) (lh_block s).
Definition set_size v s := Lst (lg_c s) (lg_lock s) (lg_start s) v (lg_outstanding s) (lg_committing s) (lg_dev s) (lh_n s) (lh_block s).
Definition set_outstanding v s := Lst (lg_c s) (lg_lock s) (lg_start s) (lg_size s) v (lg_committing s) (lg_dev s) (lh_n s) (lh_block s).
Definition set_committing v s := Lst (lg_c s) (lg_lock s) (lg_start s) (lg_size s) (lg_outstanding s) v (lg_dev s) (lh_n s) (lh_block s).
Definition set_lgdev v s := Lst (lg_c s) (lg_lock s) (lg_start s) (lg_size s) (lg_outstanding s) (lg_committing s) v (lh_n s) (lh_block s).
Definition set_n v s := Lst (lg_c s) (lg_lock s) (lg_start s) (lg_size s) (lg_outstanding s) (lg_committing s) (lg_dev s) v (lh_block s).
Definition set_block v s := Lst (lg_c s) (lg_lock s) (lg_start s) (lg_size s) (lg_outstanding s) (lg_committing s) (lg_dev s) (lh_n s) v.

Definition cop {A} (m : M S A) : M lst A := zoom lg_c set_c m.
Definition acquire_log : M lst unit := zoom lg_lock set_lglock spin_acquire.
Definition release_log : M lst unit := zoom lg_lock set_lglock spin_release.

(** [log.lh.block[i]]; an index outside the array is undefined behaviour. *)
Definition get_block (i : nat) : M lst Z := b ← gets lh_block; of_option (b !! i).
Definition put_block (i : nat) (v : Z) : M lst unit :=
  b ← gets lh_block; v0 ← of_option (b !! i); modify (set_block (<[i := v]> b)).

(** The loops run [lh.n] times from index [t]. *)
Fixpoint install_loop (t k : nat) : M lst unit :=
  match k with
  | O => mret tt
  | Datatypes.S k' =>
    dev ← gets lg_dev; start ← gets lg_start;
    lbuf ← cop (c_bread dev (u32 (start + Z.of_nat t + 1)));
    b ← get_block t;
    dbuf ← cop (c_bread dev (u32 b));
    d ← cop (c_data lbuf);
    cop (c_put dbuf d);;
    cop (c_bwrite dbuf);;
    cop (c_brelse lbuf);;
    cop (c_brelse dbuf);;
    install_loop (Datatypes.S t) k'
  end.
Definition install_trans : M lst unit := n ← gets lh_n; install_loop 0 (Z.to_nat n).

Fixpoint read_blocks (d : block) (i k : nat) : M lst unit :=
  match k with
  | O => mret tt
  | Datatypes.S k' => put_block i (s32 (ld32 d (4 + 4 * Z.of_nat i)));; read_blocks d (Datatypes.S i) k'
  end.
Definition read_head : M lst unit :=
  dev ← gets lg_dev; start ← gets lg_start;
  buf ← cop (c_bread dev (u32 start));
  d ← cop (c_data buf);
  modify (set_n (s32 (ld32 d 0)));;
  n ← gets lh_n;
  read_blocks d 0 (Z.to_nat n);;
  cop (c_brelse buf).

Fixpoint head_blocks (bs : list Z) (i : Z) (d : block) : block :=
  match bs with
  | [] => d
  | b :: bs' => head_blocks bs' (i + 1) (st32 d (4 + 4 * i) (u32 b))
  end.
Definition write_head : M lst unit :=
  dev ← gets lg_dev; start ← gets lg_start;
  buf ← cop (c_bread dev (u32 start));
  d ← cop (c_data buf);
  n ← gets lh_n; bs ← gets lh_block;
  cop (c_put buf (head_blocks (take (Z.to_nat n) bs) 0 (st32 d 0 (u32 n))));;
  cop (c_bwrite buf);;
  cop (c_brelse buf).

Definition recover_from_log : M lst unit :=
  read_head;;
  install_trans;;
  modify (set_n 0);;
  write_head.

Definition initlog (dev : Z) : M lst unit :=
  modify (set_lglock false);;
  sb ← cop (readsb dev);
  modify (set_start (s32 (sb_logstart sb)));;
  modify (set_size (s32 (sb_nlog sb)));;
  modify (set_lgdev dev);;
  recover_from_log.

Definition begin_op : M lst unit :=
  acquire_log;;
  c ← gets lg_committing; n ← gets lh_n; o ← gets lg_outstanding;
  if (c : bool) then hang
  else if LOGSIZE <? n + (o + 1) * MAXOPBLOCKS then hang
  else modify (set_outstanding (o + 1));; release_log.

Fixpoint write_loop (t k : nat) : M lst unit :=
  match k with
  | O => mret tt
  | Datatypes.S k' =>
    dev ← gets lg_dev; start ← gets lg_start;
    to ← cop (c_bread dev (u32 (start + Z.of_nat t + 1)));
    b ← get_block t;
    from ← cop (c_bread dev (u32 b));
    d ← cop (c_data from);
    cop (c_put to d);;
    cop (c_bwrite to);;
    cop (c_brelse from);;
    cop (c_brelse to);;
    write_loop (Datatypes.S t) k'
  end.
Definition write_log : M lst unit := n ← gets lh_n; write_loop 0 (Z.to_nat n).

Definition commit : M lst unit :=
  n ← gets lh_n;
  when (0 <? n)
    (write_log;;
     write_head;;
     install_trans;;
     modify (set_n 0);;
     write_head).

Definition end_op : M lst unit :=
  acquire_log;;
  o ← gets lg_outstanding;
  modify (set_outstanding (o - 1));;
  c ← gets lg_committing;
  if (c : bool) then panic "log.committing" else
  if o - 1 =? 0 then
    modify (set_committing true);;
    release_log;;
    commit;;
    acquire_log;;
    modify (set_committing false);;
    release_log
  else release_log.

(** The first of the [n] logged blocks that is [b], or [n]. *)
Fixpoint log_index (b : Z) (bs : list Z) : nat :=
  match bs with
  | [] => O
  | x :: bs' => if u32 x =? b then O else Datatypes.S (log_index b bs')
  end.
Definition log_write (b : nat) : M lst unit :=
  n ← gets lh_n; size ← gets lg_size; o ← gets lg_outstanding;
  if (LOGSIZE <=? n) || (size - 1 <=? n) then panic "too big a transaction" else
  if o <? 1 then panic "log_write outside of trans" else
  acquire_log;;
  bno ← cop (c_blockno b);
  bs ← gets lh_block;
  let i := log_index bno (take (Z.to_nat n) bs) in
  put_block i (s32 bno);;
  when (Z.of_nat i =? n) (modify (set_n (n + 1)));;
  cop (c_dirty b);;
  release_log.

(** ** What the routines write *)

Definition all_written (V : bview) (ws : list (Z * block)) : bview :=
  foldl (fun V w => written (fst w) (snd w) V) V ws.

Lemma all_written_app V ws ws' : all_written V (ws ++ ws') = all_written (all_written V ws) ws'.
Proof. apply foldl_app. Qed.
Lemma all_written_fields V ws :
  v_disk (all_written V ws) = apply_writes (v_disk V) ws /\ v_held (all_written V ws) = v_held V /\
  v_writes (all_written V ws) = v_writes V ++ ws.
Proof.
  revert V. induction ws as [|w ws IH]; intros V; cbn; [by rewrite app_nil_r|].
  change (foldl (fun V w => written _ _ V) ?x ws) with (all_written x ws).
  destruct (IH (written (fst w) (snd w) V)) as (-> & -> & ->). cbn. by rewrite <- app_assoc; destruct w.
Qed.
Lemma all_written_pin V ws m :
  v_pin (all_written V ws) !! m = if decide (m ∈ map fst ws) then None else v_pin V !! m.
Proof.
  revert V. induction ws as [|w ws IH]; intros V; cbn; [done|].
  change (foldl (fun V w => written _ _ V) ?x ws) with (all_written x ws). rewrite IH. cbn.
  destruct (decide (m ∈ map fst ws)) as [H|H].
  - by rewrite decide_True by (by right).
  - destruct (decide (m = fst w)) as [->|N].
    + rewrite lookup_delete_eq. by rewrite decide_True by (by left).
    + rewrite lookup_delete_ne by done. rewrite decide_False; [done|]. by intros [?|?]%elem_of_cons.
Qed.

Lemma cop_Ok {A} (m : M S A) s a c : m (lg_c s) = Ok a c -> cop m s = Ok a (set_c c s).
Proof. intros H. unfold cop. by erewrite zoom_Ok. Qed.

Lemma view_held_eq V h : v_held V = h -> View (v_disk V) (v_pin V) h (v_writes V) = V.
Proof. intros <-. by destruct V. Qed.

(** One round of the two copying loops: block [src] is written over block [dst]. *)
Lemma copy_ok c V a b (fwd : bool) :
  c_ok c V -> v_held V = ∅ -> a <> b -> 0 <= a < disk_len (v_disk V) -> 0 <= b < disk_len (v_disk V) ->
  (size (v_pin V) < c_nbuf)%nat -> is_Some (v_pin V !! b) \/ (1 + size (v_pin V) < c_nbuf)%nat ->
  let src := if fwd then a else b in let dst := if fwd then b else a in
  exists x c1 y c2 c3 c4 c5 c6,
    let xs := if fwd then x else y in let xd := if fwd then y else x in
    c_bread 1 a c = Ok x c1 /\ c_bread 1 b c1 = Ok y c2 /\ c_data xs c2 = Ok (content V src) c2 /\
    c_put xd (content V src) c2 = Ok tt c3 /\ c_bwrite xd c3 = Ok tt c4 /\
    c_brelse xs c4 = Ok tt c5 /\ c_brelse xd c5 = Ok tt c6 /\
    c_ok c6 (written dst (content V src) V).
Proof.
  intros H Hh Hne Ha Hb Hr1 Hr2 src dst.
  destruct (c_bread_ok c V a H Ha) as (x & c1 & E1 & _ & H1).
  { intros z d. by rewrite Hh, lookup_empty. } { right. rewrite Hh, map_size_empty. lia. }
  set (V1 := held_set x a (content V a) V) in *.
  destruct (c_bread_ok c1 V1 b H1 Hb) as (y & c2 & E2 & Hy & H2).
  { intros z d. cbn. rewrite Hh. destruct (decide (z = x)) as [->|N]; [rewrite lookup_insert_eq; by intros [= ?]|by rewrite lookup_insert_ne]. }
  { destruct Hr2 as [Hr2|Hr2]; [by left|]. right. cbn. rewrite Hh, map_size_insert_None by apply lookup_empty. rewrite map_size_empty. lia. }
  change (content V1 b) with (content V b) in H2. set (V2 := held_set y b (content V b) V1) in *.
  assert (x <> y) as Nxy by (intros ->; cbn in Hy; by rewrite lookup_insert_eq in Hy).
  assert (v_held V2 !! x = Some (a, content V a)) as Hx2 by (cbn; rewrite lookup_insert_ne by done; by rewrite lookup_insert_eq).
  assert (v_held V2 !! y = Some (b, content V b)) as Hy2 by (cbn; by rewrite lookup_insert_eq).
  set (xs := if fwd then x else y). set (xd := if fwd then y else x).
  assert (v_held V2 !! xs = Some (src, content V src)) as Hs by (by destruct fwd).
  assert (v_held V2 !! xd = Some (dst, content V dst)) as Hd by (by destruct fwd).
  assert (xs <> xd /\ src <> dst /\ 0 <= dst < disk_len (v_disk V) /\ 0 <= src < disk_len (v_disk V)) as (Ns & Nsd & Hdd & Hss)
    by (destruct fwd; split_and!; unfold xs, xd, src, dst; auto; lia).
  assert (block_ok (content V src)) as Hok by (by apply (c_content_ok c V)).
  destruct (c_put_ok c2 V2 xd dst _ (content V src) H2 Hd Hok) as (c3 & E4 & H3). set (V3 := held_set _ _ _ V2) in *.
  destruct (c_bwrite_ok c3 V3 xd dst (content V src) H3) as (c4 & E5 & H4); [cbn; by rewrite lookup_insert_eq|].
  set (V4 := written dst (content V src) V3) in *.
  assert (forall m, m <> dst -> 0 <= m -> content V4 m = content V m) as Hc4.
  { intros m N Hm. unfold content, V4. cbn. rewrite lookup_delete_ne by done. rewrite disk_at_set by done. by rewrite decide_False. }
  assert (content V4 dst = content V src) as Hcd.
  { unfold content at 1, V4. cbn. rewrite lookup_delete_eq. cbn. rewrite disk_at_set by lia. by rewrite decide_True. }
  destruct (c_brelse_ok c4 V4 xs src (content V src) H4) as (c5 & E6 & H5).
  { cbn. by rewrite lookup_insert_ne. } { apply Hc4; [done|lia]. }
  set (V5 := held_drop xs V4) in *.
  destruct (c_brelse_ok c5 V5 xd dst (content V src) H5) as (c6 & E7 & H6).
  { cbn. rewrite lookup_delete_ne by done. by rewrite lookup_insert_eq. } { exact Hcd. }
  exists x, c1, y, c2, c3, c4, c5, c6. cbn zeta. fold xs xd. split_and!; try done.
  - by apply (c_data_ok c2 V2 xs src).
  - replace (written dst (content V src) V) with (held_drop xd V5); [done|].
    unfold V5, V4, held_drop, written. cbn. f_equal. rewrite Hh. apply map_eq. intros z.
    rewrite lookup_empty. rewrite lookup_delete. case_decide; [done|]. rewrite lookup_delete. case_decide; [done|].
    rewrite lookup_insert_ne by done. unfold xs, xd in *. destruct fwd; rewrite !lookup_insert_ne by done; apply lookup_empty.
Qed.

Definition blk (s : lst) (i : nat) : Z := default 0 (lh_block s !! i).

Lemma get_block_ok s i b : lh_block s !! i = Some b -> get_block i s = Ok b s.
Proof. intros H. unfold get_block. mgo. by rewrite H. Qed.

Lemma pin_written V n d : v_pin V !! n = None -> v_pin (written n d V) = v_pin V.
Proof. intros H. cbn. by apply delete_id. Qed.

Lemma content_written_ne V n d m : 0 <= n < disk_len (v_disk V) -> 0 <= m -> m <> n -> content (written n d V) m = content V m.
Proof. intros. unfold content. cbn. rewrite lookup_delete_ne by done. rewrite disk_at_set by done. by rewrite decide_False. Qed.

Lemma map_seq_ext {A} (f g : nat -> A) t k : (forall i, (t <= i < t + k)%nat -> f i = g i) -> map f (seq t k) = map g (seq t k).
Proof. intros H. apply map_ext_in. intros i Hi. apply in_seq in Hi. by apply H. Qed.

Definition in_log (s : lst) (V : bview) (t k : nat) : Prop :=
  lg_dev s = 1 /\ disk_len (v_disk V) <= 2 ^ 31 /\ forall i, (t <= i < t + k)%nat ->
    0 <= lg_start s + Z.of_nat i + 1 < disk_len (v_disk V) /\ v_pin V !! (lg_start s + Z.of_nat i + 1) = None /\
    0 <= blk s i < disk_len (v_disk V) /\ lh_block s !! i = Some (blk s i) /\
    forall j, (t <= j < t + k)%nat -> blk s j <> lg_start s + Z.of_nat i + 1.

Lemma in_log_next s V V' t k c :
  in_log s V t (Datatypes.S k) -> disk_len (v_disk V') = disk_len (v_disk V) ->
  (forall m, v_pin V !! m = None -> v_pin V' !! m = None) -> in_log (set_c c s) V' (Datatypes.S t) k.
Proof.
  intros (H1 & H2 & H3) Hl Hp. split; [done|]. rewrite Hl. split; [done|]. intros i Hi.
  destruct (H3 i) as (A1 & A2 & A3 & A4 & A5); [lia|]. split; [done|]. split; [by apply Hp|]. split; [done|]. split; [done|].
  intros j Hj. apply A5. lia.
Qed.

Lemma u32_index s V t k i : in_log s V t k -> (t <= i < t + k)%nat ->
  u32 (lg_start s + Z.of_nat i + 1) = lg_start s + Z.of_nat i + 1 /\ u32 (blk s i) = blk s i.
Proof. intros (_ & H2 & H3) Hi. destruct (H3 i Hi) as (A1 & _ & A3 & _). split; apply u32_small; unfold is_u32; lia. Qed.

Ltac cstep E := mstep cop_Ok; [|exact E].

Lemma write_loop_ok k : forall t s V,
  c_ok (lg_c s) V -> v_held V = ∅ -> (size (v_pin V) < c_nbuf)%nat -> in_log s V t k ->
  (forall i, (t <= i < t + k)%nat -> is_Some (v_pin V !! blk s i)) ->
  exists c', write_loop t k s = Ok tt (set_c c' s) /\
    c_ok c' (all_written V (map (fun i => (lg_start s + Z.of_nat i + 1, content V (blk s i))) (seq t k))).
Proof.
  induction k as [|k IH]; intros t s V H Hh Hs Hl Hp; cbn [write_loop].
  { exists (lg_c s). by destruct s. }
  pose proof Hl as (D1 & D2 & D3). destruct (D3 t) as (A1 & A2 & A3 & A4 & A5); [lia|].
  destruct (u32_index _ _ _ _ t Hl) as [U1 U2]; [lia|]. mgo. rewrite D1, U1.
  assert (blk s t <> lg_start s + Z.of_nat t + 1) as Hne by (apply A5; lia).
  destruct (copy_ok (lg_c s) V (lg_start s + Z.of_nat t + 1) (blk s t) false H Hh) as (x & c1 & y & c2 & c3 & c4 & c5 & c6 & E1 & E2 & E3 & E4 & E5 & E6 & E7 & H6); auto.
  { left. apply Hp. lia. }
  cbn zeta in *. set (a := lg_start s + Z.of_nat t + 1) in *.
  cstep E1. mstep get_block_ok; [|exact A4]. rewrite U2. cstep E2. cstep E3. cstep E4. cstep E5. cstep E6. cstep E7.
  destruct (IH (Datatypes.S t) (set_c c6 s) (written a (content V (blk s t)) V)) as (c' & E & H'); auto.
  - rewrite pin_written; done.
  - eapply in_log_next; [exact Hl|apply disk_len_set|]. intros m Hm. by rewrite pin_written.
  - intros i Hi. rewrite pin_written by done. apply Hp. lia.
  - exists c'. split; [exact E|]. cbn [seq map all_written foldl fst snd]. fold a.
    change (foldl _ ?x ?y) with (all_written x y). erewrite map_seq_ext; [exact H'|].
    intros i Hi. cbn beta. change (blk (set_c c6 s) i) with (blk s i). symmetry.
    destruct (D3 i) as (_ & _ & B3 & _); [lia|].
    rewrite content_written_ne; [done|lia|lia|]. apply A5. lia.
Qed.

(** Every block to be installed is pinned, or there is room to read it. *)
Definition install_room (s : lst) (V : bview) (t k : nat) : Prop :=
  (1 + size (v_pin V) < c_nbuf)%nat \/
  forall i, (t <= i < t + k)%nat -> is_Some (v_pin V !! blk s i) /\ forall j, (t <= j < t + k)%nat -> i <> j -> blk s i <> blk s j.

Lemma size_delete_le (m : gmap Z block) n : (size (delete n m) <= size m)%nat.
Proof.
  destruct (m !! n) as [d|] eqn:E; [rewrite map_size_delete_Some by (by eexists); lia|]. by rewrite delete_id.
Qed.

Lemma install_loop_ok k : forall t s V,
  c_ok (lg_c s) V -> v_held V = ∅ -> (size (v_pin V) < c_nbuf)%nat -> in_log s V t k -> install_room s V t k ->
  exists c', install_loop t k s = Ok tt (set_c c' s) /\
    c_ok c' (all_written V (map (fun i => (blk s i, content V (lg_start s + Z.of_nat i + 1))) (seq t k))).
Proof.
  induction k as [|k IH]; intros t s V H Hh Hs Hl Hr; cbn [install_loop].
  { exists (lg_c s). by destruct s. }
  pose proof Hl as (D1 & D2 & D3). destruct (D3 t) as (A1 & A2 & A3 & A4 & A5); [lia|].
  destruct (u32_index _ _ _ _ t Hl) as [U1 U2]; [lia|]. mgo. rewrite D1, U1.
  assert (blk s t <> lg_start s + Z.of_nat t + 1) as Hne by (apply A5; lia).
  destruct (copy_ok (lg_c s) V (lg_start s + Z.of_nat t + 1) (blk s t) true H Hh) as (x & c1 & y & c2 & c3 & c4 & c5 & c6 & E1 & E2 & E3 & E4 & E5 & E6 & E7 & H6); auto.
  { destruct Hr as [Hr|Hr]; [by right|]. left. apply Hr. lia. }
  cbn zeta in *. set (a := lg_start s + Z.of_nat t + 1) in *.
  cstep E1. mstep get_block_ok; [|exact A4]. rewrite U2. cstep E2. cstep E3. cstep E4. cstep E5. cstep E6. cstep E7.
  set (V' := written (blk s t) (content V a) V) in *.
  assert (size (v_pin V') <= size (v_pin V))%nat as Hsz by apply size_delete_le.
  destruct (IH (Datatypes.S t) (set_c c6 s) V') as (c' & E & H'); auto.
  - lia.
  - eapply in_log_next; [exact Hl|apply disk_len_set|]. intros m Hm. cbn. rewrite lookup_delete. by case_decide.
  - destruct Hr as [Hr|Hr]; [left; lia|]. right. intros i Hi. destruct (Hr i) as [B1 B2]; [lia|]. split.
    + cbn. change (blk (set_c c6 s)) with (blk s). rewrite lookup_delete_ne; [done|]. apply not_eq_sym, B2; lia.
    + intros j Hj. apply B2. lia.
  - exists c'. split; [exact E|]. cbn [seq map all_written foldl fst snd]. fold a V'.
    change (foldl _ ?x ?y) with (all_written x y). erewrite map_seq_ext; [exact H'|].
    intros i Hi. cbn beta. change (lg_start (set_c c6 s)) with (lg_start s). symmetry.
    destruct (D3 i) as (B1 & _ & _ & _ & B5); [lia|].
    unfold V'. rewrite content_written_ne; [done|lia|lia|]. apply not_eq_sym, B5. lia.
Qed.


Lemma head_blocks_ok bs : forall i d, 0 <= i -> block_ok d -> 4 + 4 * (i + Z.of_nat (length bs)) <= BSIZE ->
  block_ok (head_blocks bs i d) /\
  (forall a, 0 <= a -> a + 4 <= 4 + 4 * i -> ld32 (head_blocks bs i d) a = ld32 d a) /\
  forall j b, bs !! j = Some b -> ld32 (head_blocks bs i d) (4 + 4 * (i + Z.of_nat j)) = u32 b.
Proof.
  induction bs as [|b bs IH]; intros i d Hi Hd Hl; cbn [head_blocks length] in *; [done|].
  assert (block_ok (st32 d (4 + 4 * i) (u32 b))) as Hd' by (apply block_ok_st32; [done|lia|lia]).
  destruct (IH (i + 1) _ ltac:(lia) Hd') as (A1 & A2 & A3); [lia|]. destruct Hd as [Hlen _]. split; [done|]. split.
  - intros a Ha Hai. rewrite A2 by lia. apply ld32_st32_ne; lia.
  - intros [|j] b' Hj; cbn in Hj.
    + injection Hj as ->. rewrite A2 by lia. rewrite Z.add_0_r. apply ld32_st32_eq; [lia|lia|apply u32_range].
    + rewrite <- (A3 j b' Hj). f_equal. lia.
Qed.

Definition small (x : Z) : Prop := 0 <= x < 2 ^ 31.

Lemma head_names d (blks : list Z) : block_ok d -> Z.of_nat (length blks) <= LOGSIZE -> Forall small blks ->
  let h := head_blocks blks 0 (st32 d 0 (u32 (Z.of_nat (length blks)))) in block_ok h /\ names h blks.
Proof.
  intros Hd Hl Hs h. assert (block_ok (st32 d 0 (u32 (Z.of_nat (length blks))))) as Hd' by (apply block_ok_st32; [done|lia|done]).
  unfold LOGSIZE in Hl. destruct (head_blocks_ok blks 0 _ ltac:(lia) Hd') as (A1 & A2 & A3); [unfold BSIZE; lia|].
  split; [done|]. split.
  - unfold hdr_n, h. rewrite A2 by lia. destruct Hd as [Hlen _]. unfold BSIZE in Hlen. rewrite ld32_st32_eq by (lia || apply u32_range).
    apply s32_u32. lia.
  - intros i b Hi. unfold hdr_blk, h. replace (4 + 4 * Z.of_nat i) with (4 + 4 * (0 + Z.of_nat i)) by lia. rewrite (A3 i b Hi).
    apply s32_u32. apply (Forall_lookup_1 _ _ _ _ Hs) in Hi. unfold small in Hi. lia.
Qed.

Definition new_head (V : bview) (start : Z) (blks : list Z) : block :=
  head_blocks blks 0 (st32 (content V start) 0 (u32 (Z.of_nat (length blks)))).

Lemma write_head_ok s V blks :
  c_ok (lg_c s) V -> v_held V = ∅ -> (size (v_pin V) < c_nbuf)%nat -> lg_dev s = 1 ->
  0 <= lg_start s < disk_len (v_disk V) -> disk_len (v_disk V) <= 2 ^ 31 ->
  lh_n s = Z.of_nat (length blks) -> take (length blks) (lh_block s) = blks ->
  Z.of_nat (length blks) <= LOGSIZE -> Forall small blks ->
  exists c', write_head s = Ok tt (set_c c' s) /\ c_ok c' (written (lg_start s) (new_head V (lg_start s) blks) V).
Proof.
  intros H Hh Hs Hd Hin Hlen Hn Hb Hl Hsm. unfold write_head. mgo. rewrite Hd, u32_small by (unfold is_u32; lia).
  set (a := lg_start s) in *. destruct (c_bread_ok (lg_c s) V a H Hin) as (x & c1 & E1 & _ & H1).
  { intros z d. by rewrite Hh, lookup_empty. } { right. rewrite Hh, map_size_empty. lia. }
  cstep E1. set (V1 := held_set x a (content V a) V) in *.
  assert (v_held V1 !! x = Some (a, content V a)) as Hx by (cbn; by rewrite lookup_insert_eq).
  pose proof (c_data_ok c1 V1 x _ _ H1 Hx) as E2. cstep E2. mgo. cbn [lh_n set_c lh_block]. rewrite Hn, Nat2Z.id, Hb.
  assert (block_ok (content V a)) as Hc by (by apply (c_content_ok _ _ _ H)).
  destruct (head_names (content V a) blks Hc Hl Hsm) as [Hh' _]. fold (new_head V a blks) in *.
  destruct (c_put_ok c1 V1 x a _ _ H1 Hx Hh') as (c2 & E3 & H2). cstep E3. set (V2 := held_set _ _ _ V1) in *.
  assert (v_held V2 !! x = Some (a, new_head V a blks)) as Hx2 by (cbn; by rewrite lookup_insert_eq).
  destruct (c_bwrite_ok c2 V2 x _ _ H2 Hx2) as (c3 & E4 & H3). cstep E4. set (V3 := written _ _ V2) in *.
  destruct (c_brelse_ok c3 V3 x a (new_head V a blks) H3) as (c4 & E5 & H4); [done| |].
  { unfold content, V3. cbn. rewrite lookup_delete_eq. cbn. rewrite disk_at_set by lia. by rewrite decide_True. }
  exists c4. split; [etrans; [apply cop_Ok; exact E5|done]|]. replace (written a (new_head V a blks) V) with (held_drop x V3); [done|].
  unfold V3, V2, V1, held_drop, written. cbn. f_equal. rewrite Hh. apply map_eq. intros z. rewrite lookup_empty, lookup_delete.
  case_decide; [done|]. rewrite !lookup_insert_ne by done. apply lookup_empty.
Qed.

Lemma put_block_ok s i v : (i < length (lh_block s))%nat -> put_block i v s = Ok tt (set_block (<[i := v]> (lh_block s)) s).
Proof. intros H. unfold put_block. mgo. destruct (lookup_lt_is_Some_2 _ _ H) as [x Hx]. rewrite Hx. by mgo. Qed.

Lemma read_blocks_ok d k : forall i s, (i + k <= length (lh_block s))%nat ->
  exists bs, read_blocks d i k s = Ok tt (set_block bs s) /\ length bs = length (lh_block s) /\
    forall j, bs !! j = if decide (i <= j < i + k)%nat then Some (hdr_blk d j) else lh_block s !! j.
Proof.
  induction k as [|k IH]; intros i s Hl; cbn [read_blocks].
  { exists (lh_block s). split; [by destruct s|]. split; [done|]. intros j. by rewrite decide_False by lia. }
  mstep put_block_ok; [|lia]. fold (hdr_blk d i).
  destruct (IH (Datatypes.S i) (set_block (<[i := hdr_blk d i]> (lh_block s)) s)) as (bs & E & L & Hb).
  { cbn. rewrite length_insert. lia. }
  exists bs. split; [exact E|]. cbn in L, Hb. rewrite length_insert in L. split; [done|]. intros j. rewrite Hb.
  destruct (decide (j = i)) as [->|N].
  - rewrite decide_False, decide_True by lia. apply list_lookup_insert_eq. lia.
  - rewrite list_lookup_insert_ne by done. repeat case_decide; done || lia.
Qed.

Lemma read_head_ok s V n :
  c_ok (lg_c s) V -> v_held V = ∅ -> (size (v_pin V) < c_nbuf)%nat -> v_pin V !! lg_start s = None -> lg_dev s = 1 ->
  0 <= lg_start s < disk_len (v_disk V) -> disk_len (v_disk V) <= 2 ^ 31 ->
  hdr_n (disk_at (v_disk V) (lg_start s)) = Z.of_nat n -> (n <= length (lh_block s))%nat ->
  exists c' bs, read_head s = Ok tt (set_block bs (set_n (Z.of_nat n) (set_c c' s))) /\ c_ok c' V /\ length bs = length (lh_block s) /\
    forall j, (j < n)%nat -> bs !! j = Some (hdr_blk (disk_at (v_disk V) (lg_start s)) j).
Proof.
  intros H Hh Hs Hp Hd Hin Hlen Hn Hl. unfold read_head. mgo. rewrite Hd, u32_small by (unfold is_u32; lia).
  set (a := lg_start s) in *. destruct (c_bread_ok (lg_c s) V a H Hin) as (x & c1 & E1 & _ & H1).
  { intros z d. by rewrite Hh, lookup_empty. } { right. rewrite Hh, map_size_empty. lia. }
  assert (content V a = disk_at (v_disk V) a) as Hc by (unfold content; by rewrite Hp). rewrite Hc in H1.
  cstep E1. set (V1 := held_set x a _ V) in *.
  assert (v_held V1 !! x = Some (a, disk_at (v_disk V) a)) as Hx by (cbn; by rewrite lookup_insert_eq).
  pose proof (c_data_ok c1 V1 x _ _ H1 Hx) as E2. cstep E2. mgo. cbn [lh_n set_n set_c].
  fold (hdr_n (disk_at (v_disk V) a)). rewrite Hn, Nat2Z.id.
  destruct (read_blocks_ok (disk_at (v_disk V) a) n 0 (set_n (Z.of_nat n) (set_c c1 s))) as (bs & E3 & L & Hb); [cbn; lia|]. mstep E3.
  destruct (c_brelse_ok c1 V1 x a _ H1 Hx Hc) as (c2 & E4 & H2).
  exists c2, bs. split; [etrans; [apply cop_Ok; exact E4|done]|]. split.
  - replace V with (held_drop x V1); [done|]. unfold V1, held_drop, held_set. destruct V as [D P h W]. cbn in *. subst h.
    f_equal. by rewrite delete_insert_id by apply lookup_empty.
  - split; [done|]. intros j Hj. by rewrite Hb, decide_True by lia.
Qed.

(** ** The state of the log *)

(** Where the log lies on a disk. *)
Definition log_place (start size : Z) (D : list block) : Prop :=
  0 <= start /\ start + size <= disk_len D <= 2 ^ 31 /\ 0 < size.
(** A disk recovery can start from: a header with at most LOGSIZE blocks outside the log. *)
Definition recoverable (start size : Z) (D : list block) : Prop :=
  log_place start size D /\ 0 <= hdr_n (disk_at D start) <= LOGSIZE /\ hdr_n (disk_at D start) < size /\
  forall i, Z.of_nat i < hdr_n (disk_at D start) -> home start size D (hdr_blk (disk_at D start) i).

(** A transaction that has logged [blks] and has not been committed. *)
Record log_ok (s : lst) (V : bview) (blks : list Z) : Prop := {
  lo_c : c_ok (lg_c s) V;
  lo_lock : lg_lock s = false;
  lo_dev : lg_dev s = 1;
  lo_place : log_place (lg_start s) (lg_size s) (v_disk V);
  lo_n : lh_n s = Z.of_nat (length blks);
  lo_blocks : take (length blks) (lh_block s) = blks;
  lo_array : Z.of_nat (length (lh_block s)) = LOGSIZE;
  lo_room : Z.of_nat (length blks) < lg_size s;
  lo_nodup : NoDup blks;
  lo_home : Forall (home (lg_start s) (lg_size s) (v_disk V)) blks;
  lo_pin : forall m, is_Some (v_pin V !! m) <-> m ∈ blks;
  lo_hdr : hdr_n (disk_at (v_disk V) (lg_start s)) = 0
}.

Lemma blk_take s (blks : list Z) i b : take (length blks) (lh_block s) = blks -> blks !! i = Some b -> lh_block s !! i = Some b /\ blk s i = b.
Proof.
  intros H Hb. rewrite <- H in Hb. apply lookup_take_Some in Hb as [Hb _]. split; [done|]. unfold blk. by rewrite Hb.
Qed.

Lemma map_seq_list {A B} (l : list A) (f : nat -> B) (g : A -> B) :
  (forall i x, l !! i = Some x -> f i = g x) -> map f (seq 0 (length l)) = map g l.
Proof.
  intros H. apply list_eq. intros i. rewrite !list_lookup_fmap. destruct (l !! i) as [x|] eqn:E.
  - rewrite lookup_seq_lt by (by eapply lookup_lt_Some). cbn. by rewrite (H i x).
  - rewrite lookup_seq_ge; [done|]. by apply lookup_ge_None.
Qed.

Section committing.
Context (s : lst) (V : bview) (blks : list Z).
Hypothesis L : log_ok s V blks.
Hypothesis Hheld : v_held V = ∅.
Hypothesis Hbuf : (length blks < c_nbuf)%nat.

Definition datas : list block := map (content V) blks.

Lemma pin_size : size (v_pin V) = length blks.
Proof.
  rewrite <- size_dom, <- (size_list_to_set (C := gset Z) blks) by apply L. f_equal. apply set_eq. intros m.
  by rewrite elem_of_dom, elem_of_list_to_set, (lo_pin _ _ _ L).
Qed.

Lemma blks_len : Z.of_nat (length blks) <= LOGSIZE.
Proof.
  rewrite <- (lo_array _ _ _ L). pose proof (lo_blocks _ _ _ L) as H. apply (f_equal length) in H. rewrite length_take in H. lia.
Qed.

Lemma home_at i b : blks !! i = Some b -> home (lg_start s) (lg_size s) (v_disk V) b.
Proof. apply (Forall_lookup_1 _ _ _ _ (lo_home _ _ _ L)). Qed.

Lemma blks_small : Forall small blks.
Proof.
  eapply Forall_impl; [apply L|]. intros m [Hm _]. destruct (lo_place _ _ _ L) as (_ & H & _). unfold small. lia.
Qed.

Lemma unpinned m : lg_start s <= m < lg_start s + lg_size s -> v_pin V !! m = None.
Proof.
  intros Hm. destruct (v_pin V !! m) eqn:E; [|done]. exfalso. assert (m ∈ blks) as Hin by (apply (lo_pin _ _ _ L); by eexists).
  apply (proj1 (Forall_forall _ _) (lo_home _ _ _ L)) in Hin. by apply Hin.
Qed.

Lemma log_index_in c V' : disk_len (v_disk V') = disk_len (v_disk V) -> (forall m, lg_start s <= m < lg_start s + lg_size s -> v_pin V' !! m = None) ->
  in_log (set_c c s) V' 0 (length blks).
Proof.
  intros Hl Hp. pose proof (lo_place _ _ _ L) as (P1 & P2 & P3). pose proof (lo_room _ _ _ L) as Hr.
  split; [apply L|]. rewrite Hl. split; [lia|]. intros i Hi. destruct (lookup_lt_is_Some_2 blks i) as [b Hb]; [lia|].
  destruct (blk_take s blks i b (lo_blocks _ _ _ L) Hb) as [B1 B2]. change (blk (set_c c s)) with (blk s). cbn [lg_start set_c lh_block].
  rewrite B2. destruct (home_at i b Hb) as [H1 H2]. split; [lia|]. split; [apply Hp; lia|]. split; [done|]. split; [done|].
  intros j Hj. destruct (lookup_lt_is_Some_2 blks j) as [b' Hb']; [lia|].
  destruct (blk_take s blks j b' (lo_blocks _ _ _ L) Hb') as [_ ->]. destruct (home_at j b' Hb') as [_ H]. lia.
Qed.

Lemma zip_datas ds : ds = datas -> zip blks ds = map (fun b => (b, content V b)) blks.
Proof. intros ->. unfold datas. clear. induction blks as [|b l IH]; [done|]. cbn. by f_equal. Qed.

(** [commit]: the writes it issues, and the state after it. *)
Lemma commit_ok : (0 < length blks)%nat ->
  exists c' hb hz, commit s = Ok tt (set_n 0 (set_c c' s)) /\
    commit_ready (lg_start s) (lg_size s) (v_disk V) hb hz blks datas /\
    c_ok c' (all_written V (commit_writes (lg_start s) hb hz blks datas)).
Proof.
  intros Hpos. pose proof (lo_place _ _ _ L) as (P1 & P2 & P3). pose proof (lo_room _ _ _ L) as Hroom.
  pose proof pin_size as Hps. pose proof blks_len as Hbl. set (a := lg_start s) in *. set (D := v_disk V) in *.
  set (ws1 := log_writes a datas).
  assert (map (fun i => (a + Z.of_nat i + 1, content V (blk s i))) (seq 0 (length blks)) = ws1) as Ew1.
  { unfold ws1, log_writes, datas. apply list_eq. intros i. rewrite list_lookup_fmap, list_lookup_imap, list_lookup_fmap.
    destruct (blks !! i) as [b|] eqn:E.
    - rewrite lookup_seq_lt by (by eapply lookup_lt_Some). cbn. by destruct (blk_take s blks i b (lo_blocks _ _ _ L) E) as [_ ->].
    - rewrite lookup_seq_ge; [done|]. by apply lookup_ge_None. }
  destruct (write_loop_ok (length blks) 0 s V (lo_c _ _ _ L) Hheld) as (c1 & E1 & H1).
  { lia. } { exact (log_index_in (lg_c s) V eq_refl unpinned). }
  { intros i Hi. destruct (lookup_lt_is_Some_2 blks i) as [b Hb]; [lia|].
    destruct (blk_take s blks i b (lo_blocks _ _ _ L) Hb) as [_ ->]. apply (lo_pin _ _ _ L). by eapply list_elem_of_lookup_2. }
  fold a in H1. rewrite Ew1 in H1. set (V1 := all_written V ws1) in *.
  destruct (all_written_fields V ws1) as (F1 & F2 & F3). fold V1 in F1, F2, F3.
  assert (v_pin V1 = v_pin V) as Fp.
  { apply map_eq. intros m. unfold V1. rewrite all_written_pin. case_decide as Hin; [|done].
    apply log_keys in Hin as (i & -> & Hi). symmetry. apply unpinned. fold a. unfold datas in Hi. rewrite length_map in Hi. lia. }
  assert (disk_len (v_disk V1) = disk_len D) as Fl by (rewrite F1; apply aw_len).
  destruct (write_head_ok (set_c c1 s) V1 blks H1) as (c2 & E2 & H2); try apply L; try done.
  { by rewrite F2. } { by rewrite Fp, Hps. } { cbn. fold a. rewrite Fl. lia. } { rewrite Fl. lia. } { apply blks_small. }
  cbn [lg_start set_c] in *. fold a in H2, E2. set (hb := new_head V1 a blks) in *. set (V2 := written a hb V1) in *.
  assert (v_pin V2 = v_pin V) as Fp2.
  { rewrite <- Fp. apply pin_written. rewrite Fp. apply unpinned. fold a. lia. }
  assert (disk_len (v_disk V2) = disk_len D) as Fl2 by (rewrite <- Fl; apply disk_len_set).
  assert (in_log (set_c c2 s) V2 0 (length blks)) as IL2.
  { apply log_index_in; [done|]. intros m Hm. rewrite Fp2. by apply unpinned. }
  destruct (install_loop_ok (length blks) 0 (set_c c2 s) V2 H2) as (c3 & E3 & H3).
  { by cbn; rewrite F2. } { by rewrite Fp2, Hps. } { done. }
  { right. intros i Hi. change (blk (set_c c2 s)) with (blk s). destruct (lookup_lt_is_Some_2 blks i) as [b Hb]; [lia|].
    destruct (blk_take s blks i b (lo_blocks _ _ _ L) Hb) as [_ ->]. split.
    - rewrite Fp2. apply (lo_pin _ _ _ L). by eapply list_elem_of_lookup_2.
    - intros j Hj N. destruct (lookup_lt_is_Some_2 blks j) as [b' Hb']; [lia|].
      destruct (blk_take s blks j b' (lo_blocks _ _ _ L) Hb') as [_ ->]. intros ->. apply N.
      by eapply NoDup_lookup; [apply (lo_nodup _ _ _ L)|exact Hb|exact Hb']. }
  cbn [lg_start set_c] in H3. fold a in H3. change (blk (set_c c2 s)) with (blk s) in H3.
  set (ws3 := zip blks datas).
  assert (map (fun i => (blk s i, content V2 (a + Z.of_nat i + 1))) (seq 0 (length blks)) = ws3) as Ew3.
  { unfold ws3. rewrite (zip_datas datas) by done. apply map_seq_list. intros i b Hb.
    destruct (blk_take s blks i b (lo_blocks _ _ _ L) Hb) as [_ ->]. f_equal.
    pose proof (lookup_lt_Some _ _ _ Hb) as Hi. unfold content at 1. rewrite Fp2, unpinned by (fold a; lia). cbn.
    rewrite disk_at_set by lia. rewrite decide_False by lia. rewrite F1. apply aw_at.
    - apply Forall_forall. intros w Hw. destruct (log_keys a datas (fst w)) as (j & -> & Hj).
      { apply list_elem_of_fmap. by exists w. }
      unfold datas in Hj. rewrite length_map in Hj. fold D. lia.
    - apply log_writes_nodup.
    - apply log_writes_in. unfold datas. by rewrite list_lookup_fmap, Hb. }
  rewrite Ew3 in H3. set (V3 := all_written V2 ws3) in *.
  destruct (all_written_fields V2 ws3) as (G1 & G2 & G3). fold V3 in G1, G2, G3.
  assert (v_pin V3 = ∅) as Gp.
  { apply map_eq. intros m. unfold V3. rewrite all_written_pin, Fp2, lookup_empty. unfold ws3.
    rewrite map_fst_zip by (by unfold datas; rewrite length_map). case_decide as Hin; [done|].
    destruct (v_pin V !! m) eqn:E; [|done]. exfalso. apply Hin, (lo_pin _ _ _ L). by eexists. }
  assert (disk_len (v_disk V3) = disk_len D) as Gl by (rewrite G1, aw_len; apply Fl2).
  destruct (write_head_ok (set_n 0 (set_c c3 s)) V3 [] H3) as (c4 & E4 & H4); try done.
  { by rewrite G2; cbn; rewrite F2. } { rewrite Gp, map_size_empty. lia. } { apply L. } { cbn. fold a. rewrite Gl. lia. } { rewrite Gl. lia. }
  cbn [lg_start set_c set_n] in *. fold a in H4. set (hz := new_head V3 a []) in *.
  assert (forall c x, c_ok c x -> 0 <= a < disk_len (v_disk x) -> block_ok (content x a)) as Hco by (intros; by eapply c_content_ok).
  exists c4, hb, hz. split; [|split].
  - unfold commit. mgo. rewrite (lo_n _ _ _ L), (proj2 (Z.ltb_lt _ _)) by lia. unfold write_log. mgo.
    rewrite (lo_n _ _ _ L), Nat2Z.id. mstep E1. mstep E2. unfold install_trans. mgo. cbn [lh_n set_c].
    rewrite (lo_n _ _ _ L), Nat2Z.id. mstep E3. mgo. etrans; [exact E4|done].
  - split; try apply L; try done; try (unfold datas; by rewrite length_map).
    apply head_names; [apply (Hco c1 V1); [done|rewrite Fl; lia]|done|apply blks_small].
  - unfold commit_writes. rewrite !all_written_app. exact H4.
Qed.
End committing.

(** ** Recovery *)

Section recovering.
Context (s : lst) (V : bview).
Hypothesis Hc : c_ok (lg_c s) V.
Hypothesis Hheld : v_held V = ∅.
Hypothesis Hpin : v_pin V = ∅.
Hypothesis Hbuf : (1 < c_nbuf)%nat.
Hypothesis Hdev : lg_dev s = 1.
Hypothesis Harr : Z.of_nat (length (lh_block s)) = LOGSIZE.
Hypothesis Hrec : recoverable (lg_start s) (lg_size s) (v_disk V).

Lemma recover_ok :
  exists c' bs hz, recover_from_log s = Ok tt (set_n 0 (set_block bs (set_c c' s))) /\
    length bs = length (lh_block s) /\ hdr_n hz = 0 /\ block_ok hz /\
    c_ok c' (all_written V (installs (lg_start s) (v_disk V) ++ [(lg_start s, hz)])).
Proof.
  destruct Hrec as ((P1 & P2 & P3) & R1 & R2 & R3). set (a := lg_start s) in *. set (D := v_disk V) in *.
  set (h := disk_at D a) in *. set (n := Z.to_nat (hdr_n h)). assert (hdr_n h = Z.of_nat n) as Hn by lia.
  assert (size (v_pin V) = 0%nat) as Hz by (by rewrite Hpin, map_size_empty).
  assert (forall m, content V m = disk_at D m) as Hcont by (intros m; unfold content; by rewrite Hpin, lookup_empty).
  destruct (read_head_ok s V n Hc Hheld) as (c1 & bs & E1 & H1 & Hbl & Hb).
  { lia. } { by rewrite Hpin, lookup_empty. } { done. } { fold a D. lia. } { fold D. lia. } { done. } { lia. }
  fold a D h in Hb. set (s1 := set_block bs (set_n (Z.of_nat n) (set_c c1 s))) in *.
  assert (forall i, (i < n)%nat -> blk s1 i = hdr_blk h i /\ lh_block s1 !! i = Some (blk s1 i)) as Hblk.
  { intros i Hi. unfold blk. cbn. by rewrite (Hb i Hi). }
  assert (in_log s1 V 0 n) as IL.
  { split; [done|]. split; [fold D; lia|]. intros i Hi. cbn [lg_start s1 set_block set_n set_c]. fold a D.
    destruct (Hblk i) as [B1 B2]; [lia|]. destruct (R3 i) as [Q1 Q2]; [lia|]. split; [lia|]. split; [by rewrite Hpin, lookup_empty|].
    rewrite B1. split; [done|]. split; [by rewrite <- B1|]. intros j Hj. destruct (Hblk j) as [-> _]; [lia|].
    destruct (R3 j) as [_ Q]; [lia|]. lia. }
  destruct (install_loop_ok n 0 s1 V H1 Hheld) as (c2 & E2 & H2); [lia|done|left; lia|].
  assert (map (fun i => (blk s1 i, content V (lg_start s1 + Z.of_nat i + 1))) (seq 0 n) = installs a D) as Ew.
  { unfold installs. fold h n. apply map_seq_ext. intros i Hi. destruct (Hblk i) as [-> _]; [lia|]. by rewrite Hcont. }
  rewrite Ew in H2. set (V2 := all_written V (installs a D)) in *.
  destruct (all_written_fields V (installs a D)) as (F1 & F2 & F3). fold V2 in F1, F2, F3.
  assert (v_pin V2 = ∅) as Fp.
  { apply map_eq. intros m. unfold V2. rewrite all_written_pin, Hpin, lookup_empty. by case_decide. }
  assert (disk_len (v_disk V2) = disk_len D) as Fl by (rewrite F1; apply aw_len).
  destruct (write_head_ok (set_n 0 (set_c c2 s1)) V2 [] H2) as (c3 & E3 & H3); try done.
  { by rewrite F2. } { rewrite Fp, map_size_empty. lia. } { cbn. fold a. rewrite Fl. lia. } { rewrite Fl. lia. }
  cbn [lg_start set_n set_c s1 set_block] in H3. fold a in H3.
  exists c3, bs, (new_head V2 a []). split; [|split; [done|split; [|split]]].
  - unfold recover_from_log. mstep E1. unfold install_trans. mgo. fold s1. change (lh_n s1) with (Z.of_nat n). rewrite Nat2Z.id.
    mstep E2. mgo. etrans; [exact E3|done].
  - apply (head_names (content V2 a) []); [|done|constructor]. eapply c_content_ok; [exact H2|]. rewrite Fl. lia.
  - apply (head_names (content V2 a) []); [|done|constructor]. eapply c_content_ok; [exact H2|]. rewrite Fl. lia.
  - rewrite all_written_app. exact H3.
Qed.
End recovering.

End log.
Arguments lst : clear implicits.

(** A crash during the commit: a prefix of its writes. *)
Lemma crash_recoverable start size D hb hz blks ds k :
  commit_ready start size D hb hz blks ds -> disk_len D <= 2 ^ 31 -> Z.of_nat (length blks) <= LOGSIZE ->
  let D' := apply_writes D (take k (commit_writes start hb hz blks ds)) in
  recoverable start size D' /\
  (forall m, home start size D m -> disk_at (recovered start D') m =
     if decide (k <= length blks)%nat then disk_at D m else disk_at (apply_writes D (zip blks ds)) m).
Proof.
  intros R Hlen Hl D'. pose proof (cr_start _ _ _ _ _ _ _ R) as P1. pose proof (cr_fits _ _ _ _ _ _ _ R) as P2.
  pose proof (cr_room _ _ _ _ _ _ _ R) as P3. pose proof (cr_len _ _ _ _ _ _ _ R) as P4.
  assert (length (log_writes start ds) = length blks) as Lw by (unfold log_writes; rewrite length_imap; done).
  assert (log_place start size D') as HP by (split; [done|]; unfold D'; rewrite aw_len; lia).
  assert (0 <= start < disk_len D) as Hs by lia.
  assert (hdr_n (disk_at D' start) = 0 \/ disk_at D' start = hb) as Hh.
  { unfold D', commit_writes. destruct (decide (k <= length blks)%nat) as [Hk|Hk].
    - left. rewrite take_app_le by lia. rewrite aw_other; [apply R|apply keys_in_take; by eapply cw_log_in|lia|].
      intros Hin%in_take. apply (log_not_home _ _ _ _ _ _ _ R) in Hin. lia.
    - rewrite take_app_ge by lia. rewrite aw_app. rewrite Lw. destruct (k - length blks)%nat as [|k'] eqn:Ek; [lia|]. cbn [take app].
      set (D1 := apply_writes D _). change (apply_writes D1 ((start, hb) :: ?x)) with (apply_writes (disk_set D1 start hb) x).
      assert (disk_len D1 = disk_len D) as L1 by apply aw_len.
      destruct (decide (k' <= length (zip blks ds))%nat) as [Hk'|Hk'].
      + right. rewrite take_app_le by lia. rewrite aw_other.
        * rewrite disk_at_set by lia. by rewrite decide_True.
        * apply keys_in_take. eapply keys_in_len; [|by eapply cw_home_in]. rewrite disk_len_set. apply aw_len.
        * lia.
        * intros Hin%in_take. by apply (home_not_log _ _ _ _ _ _ _ R start); [lia|].
      + left. rewrite take_app_ge by lia. rewrite aw_app. destruct (k' - length (zip blks ds))%nat eqn:Ek''; [lia|].
        cbn [take apply_writes foldl fst snd]. change (foldl _ ?x []) with x. rewrite take_nil. cbn [foldl].
        change (foldl _ ?x (zip blks ds)) with (apply_writes x (zip blks ds)).
        rewrite disk_at_set by (rewrite ?aw_len, ?disk_len_set, ?L1; lia). rewrite decide_True by done. apply R. }
  split.
  - split; [done|]. destruct (cr_new _ _ _ _ _ _ _ R) as [N1 N2]. destruct Hh as [Hh|Hh]; rewrite Hh.
    + unfold LOGSIZE. split; [lia|]. split; [lia|]. intros i Hi. lia.
    + rewrite N1. split; [lia|]. split; [lia|]. intros i Hi. destruct (lookup_lt_is_Some_2 blks i) as [b Hb]; [lia|].
      rewrite (N2 i b Hb). pose proof (Forall_lookup_1 _ _ _ _ (cr_home _ _ _ _ _ _ _ R) Hb) as [B1 B2].
      split; [|done]. unfold D'. by rewrite aw_len.
  - intros m Hm. unfold D', commit_writes. case_decide as Hk.
    + rewrite take_app_le by lia. by eapply crash_before.
    + rewrite take_app_ge by lia. rewrite Lw. destruct (k - length blks)%nat as [|k'] eqn:Ek; [lia|]. cbn [take app].
      destruct (decide (k' <= length (zip blks ds))%nat) as [Hk'|Hk'].
      * rewrite take_app_le by lia. by eapply crash_after.
      * rewrite take_ge; [|rewrite length_app; cbn; lia]. by eapply (crash_done start size D hb hz).
Qed.

(** A crash during recovery. *)
Lemma recovery_crash start size D hz k :
  recoverable start size D -> hdr_n hz = 0 -> let W := installs start D ++ [(start, hz)] in
  let D' := apply_writes D (take k W) in
  recoverable start size D' /\
  forall m, home start size D m -> disk_at (recovered start D') m = disk_at (recovered start D) m.
Proof.
  intros ((P1 & P2 & P3) & R1 & R2 & R3) Hz W D'.
  assert (keys_in D (installs start D)) as Ki.
  { apply Forall_forall. intros w Hw. unfold installs in Hw. apply list_elem_of_fmap in Hw as (i & -> & Hi). cbn.
    apply elem_of_seq in Hi. apply R3. lia. }
  assert (forall x, start <= x < start + size -> x ∉ map fst (installs start D)) as Kn.
  { intros x Hx (w & -> & Hw)%list_elem_of_fmap. unfold installs in Hw. apply list_elem_of_fmap in Hw as (i & -> & Hi). cbn in Hx.
    apply elem_of_seq in Hi. destruct (R3 i) as [_ Q]; [lia|]. lia. }
  assert (disk_len D' = disk_len D) as Hl by apply aw_len.
  destruct (decide (k <= length (installs start D))%nat) as [Hk|Hk].
  - assert (forall x, start <= x < start + size -> disk_at D' x = disk_at D x) as Hsame.
    { intros x Hx. unfold D', W. rewrite take_app_le by done. apply aw_other; [by apply keys_in_take|lia|].
      intros Hin%in_take. by apply (Kn x). }
    split.
    + split; [by unfold log_place; rewrite Hl|]. rewrite Hsame by lia. split; [done|]. split; [done|].
      intros i Hi. unfold home. rewrite Hl. by apply R3.
    + intros m [Hm Hnl]. unfold recovered. replace (installs start D') with (installs start D).
      * apply aw_again; [done|done|lia|]. intros Hno. unfold D', W. rewrite take_app_le by done.
        apply aw_other; [by apply keys_in_take|lia|]. by intros Hin%in_take.
      * unfold installs. rewrite (Hsame start) by lia. apply map_seq_ext. intros i Hi. by rewrite Hsame by lia.
  - assert (D' = disk_set (recovered start D) start hz) as E.
    { unfold D', W. rewrite take_ge by (rewrite length_app; cbn; lia). by rewrite aw_app. }
    assert (disk_len (recovered start D) = disk_len D) as Hl' by apply aw_len.
    assert (hdr_n (disk_at D' start) = 0) as H0 by (rewrite E, disk_at_set by lia; by rewrite decide_True).
    split.
    + split; [by unfold log_place; rewrite Hl|]. rewrite H0. unfold LOGSIZE. split; [lia|]. split; [lia|]. intros i Hi. lia.
    + intros m [Hm Hnl]. unfold recovered at 1. rewrite installs_none by done. cbn. rewrite E, disk_at_set by lia.
      by rewrite decide_False by lia.
Qed.

Lemma commit_atomic {S} `{BlockCache S} (s : lst S) (V : bview) (blks : list Z) :
  log_ok s V blks -> v_held V = ∅ -> (0 < length blks < c_nbuf)%nat ->
  exists c' V' W, commit s = Ok tt (set_n 0 (set_c c' s)) /\ c_ok c' V' /\ v_pin V' = ∅ /\ v_held V' = ∅ /\
    hdr_n (disk_at (v_disk V') (lg_start s)) = 0 /\
    v_writes V' = v_writes V ++ W /\ v_disk V' = apply_writes (v_disk V) W /\
    (forall m, home (lg_start s) (lg_size s) (v_disk V) m -> disk_at (v_disk V') m = content V m) /\
    forall k, let D := apply_writes (v_disk V) (take k W) in
      recoverable (lg_start s) (lg_size s) D /\
      forall m, home (lg_start s) (lg_size s) (v_disk V) m ->
        disk_at (recovered (lg_start s) D) m = if decide (k <= length blks)%nat then disk_at (v_disk V) m else content V m.
Proof.
  intros L Hh [Hpos Hb]. destruct (commit_ok s V blks L Hh Hb Hpos) as (c' & hb & hz & E & R & Hc).
  set (W := commit_writes _ _ _ _ _) in *. destruct (all_written_fields V W) as (F1 & F2 & F3).
  assert (disk_len (v_disk V) <= 2 ^ 31) as Hlen by apply L.
  pose proof (blks_len s V blks L Hb) as Hl.
  assert (forall m, home (lg_start s) (lg_size s) (v_disk V) m -> disk_at (apply_writes (v_disk V) (zip blks (datas V blks))) m = content V m) as Hhome.
  { intros m [Hm Hnl]. destruct (decide (m ∈ blks)) as [Hin|Hin].
    - apply aw_at; [by eapply cw_home_in|rewrite map_fst_zip by apply R; apply R|].
      rewrite (zip_datas V blks) by done. apply list_elem_of_fmap. by exists m.
    - rewrite aw_other; [|by eapply cw_home_in|lia|by rewrite map_fst_zip by apply R].
      unfold content. destruct (v_pin V !! m) eqn:Ep; [|done]. exfalso. apply Hin, (lo_pin _ _ _ L). by eexists. }
  assert (disk_at (v_disk (all_written V W)) (lg_start s) = hz) as Hlast.
  { rewrite F1. unfold W, commit_writes. rewrite !app_assoc, aw_app. cbn [apply_writes foldl fst snd]. change (foldl _ ?x ?y) with (apply_writes x y).
    rewrite disk_at_set, decide_True; try done; try apply R; rewrite ?aw_len; pose proof (cw_start _ _ _ _ _ _ _ R); lia. }
  exists c', (all_written V W), W. split; [done|]. split; [done|]. split; [|split; [by rewrite F2|split; [rewrite Hlast; apply R|]]].
  { apply map_eq. intros m. rewrite all_written_pin, lookup_empty. case_decide as Hin; [done|].
    destruct (v_pin V !! m) eqn:Ep; [|done]. exfalso. apply Hin. unfold W, commit_writes. rewrite !map_app, !elem_of_app.
    right. right. left. rewrite map_fst_zip by apply R. apply (lo_pin _ _ _ L). by eexists. }
  split; [done|]. split; [done|]. split.
  - intros m Hm. rewrite F1, <- Hhome by done. symmetry. rewrite <- (crash_done _ _ _ _ _ _ _ R m Hm).
    unfold recovered. rewrite installs_none; [done|]. unfold commit_writes. rewrite !app_assoc, aw_app.
    cbn [apply_writes foldl fst snd]. change (foldl _ ?x ?y) with (apply_writes x y). rewrite disk_at_set, decide_True; try done; try apply R; rewrite ?aw_len; pose proof (cw_start _ _ _ _ _ _ _ R); lia.
  - intros k. destruct (crash_recoverable _ _ _ _ _ _ _ k R Hlen Hl) as [A1 A2]. split; [done|].
    intros m Hm. rewrite A2 by done. case_decide; [done|]. by apply Hhome.
Qed.

(** C1. Commits are atomic under crashes. [commit] of a transaction of at least one and fewer than
    NBUF blocks, with no buffer held, succeeds and leaves every block of the transaction on disk, the log empty and nothing pinned; and if the
    machine stops after any number [k] of the block writes it issues, the disk is one
    that recovery can start from, and recovery makes of it the state before the
    transaction as long as the header is not written (the first [k] writes only fill the
    log), and the complete transaction from then on. *)
Theorem commit_crash_safe {S} `{BlockCache S} (s : lst S) (V : bview) (blks : list Z) :
  log_ok s V blks -> v_held V = ∅ -> (0 < length blks < c_nbuf)%nat ->
  exists s' V' W, commit s = Ok tt s' /\ c_ok (lg_c s') V' /\ lh_n s' = 0 /\ v_pin V' = ∅ /\
    v_writes V' = v_writes V ++ W /\ v_disk V' = apply_writes (v_disk V) W /\
    (forall m, home (lg_start s) (lg_size s) (v_disk V) m -> disk_at (v_disk V') m = content V m) /\
    forall k, let D := apply_writes (v_disk V) (take k W) in
      recoverable (lg_start s) (lg_size s) D /\
      forall m, home (lg_start s) (lg_size s) (v_disk V) m ->
        disk_at (recovered (lg_start s) D) m = if decide (k <= length blks)%nat then disk_at (v_disk V) m else content V m.
Proof.
  intros L Hh Hb. destruct (commit_atomic s V blks L Hh Hb) as (c' & V' & W & E & Hc & Hp & _ & _ & Hrest). by exists (set_n 0 (set_c c' s)), V', W.
Qed.

(** C6. Recovery at boot. On a disk whose log header is sound, [recover_from_log] succeeds,
    installs the logged blocks and empties the log; and if the machine stops after any
    number of the writes it issues, running it again gives the same disk. *)
Theorem recovery_idempotent {S} `{BlockCache S} (s : lst S) (V : bview) :
  c_ok (lg_c s) V -> v_held V = ∅ -> v_pin V = ∅ -> (1 < c_nbuf)%nat -> lg_dev s = 1 ->
  Z.of_nat (length (lh_block s)) = LOGSIZE -> recoverable (lg_start s) (lg_size s) (v_disk V) ->
  exists s' V' W, recover_from_log s = Ok tt s' /\ c_ok (lg_c s') V' /\ lh_n s' = 0 /\ v_pin V' = ∅ /\ v_held V' = ∅ /\
    v_disk V' = apply_writes (v_disk V) W /\ hdr_n (disk_at (v_disk V') (lg_start s)) = 0 /\
    (forall m, home (lg_start s) (lg_size s) (v_disk V) m ->
       disk_at (v_disk V') m = disk_at (recovered (lg_start s) (v_disk V)) m) /\
    forall k, let D := apply_writes (v_disk V) (take k W) in
      recoverable (lg_start s) (lg_size s) D /\
      forall m, home (lg_start s) (lg_size s) (v_disk V) m ->
        disk_at (recovered (lg_start s) D) m = disk_at (recovered (lg_start s) (v_disk V)) m.
Proof.
  intros Hc Hh Hp Hb Hd Ha Hr. destruct (recover_ok s V Hc Hh Hp Hb Hd Ha Hr) as (c' & bs & hz & E & _ & Hz & _ & Hc').
  set (W := installs _ _ ++ _) in *. destruct (all_written_fields V W) as (F1 & F2 & F3).
  pose proof Hr as ((P1 & P2 & P3) & _).
  assert (disk_len (recovered (lg_start s) (v_disk V)) = disk_len (v_disk V)) as Hl by apply aw_len.
  assert (v_disk (all_written V W) = disk_set (recovered (lg_start s) (v_disk V)) (lg_start s) hz) as FW.
  { rewrite F1. unfold W. by rewrite aw_app. }
  exists (set_n 0 (set_block bs (set_c c' s))), (all_written V W), W. split; [done|]. split; [done|]. split; [done|].
  split. { apply map_eq. intros m. rewrite all_written_pin, Hp, lookup_empty. by case_decide. }
  split; [by rewrite F2|]. split; [done|]. split.
  { rewrite FW, disk_at_set by lia. by rewrite decide_True. }
  split.
  - intros m [Hm Hn]. rewrite FW, disk_at_set by lia. by rewrite decide_False by lia.
  - intros k. by apply recovery_crash.
Qed.

(** ** Concurrent operations and the reservation of log space *)

(** Programs that change only the cache. *)
Definition only_cache {S} `{BlockCache S} {A} (m : M (lst S) A) : Prop :=
  forall s a s', m s = Ok a s' -> exists c, s' = set_c c s.

Section frame.
Context {S : Type} `{BlockCache S}.
Implicit Types (s : lst S).

Lemma oc_bind {A B} (m : M (lst S) A) (k : A -> M (lst S) B) :
  only_cache m -> (forall a, only_cache (k a)) -> only_cache (m ≫= k).
Proof.
  intros Hm Hk s b s' (a & s1 & E1 & E2)%bind_inv. apply Hm in E1 as [c ->]. apply Hk in E2 as [c' ->]. by exists c'.
Qed.
Lemma oc_ret {A} (a : A) : only_cache (mret a).
Proof. intros s x s' [= <- <-]. exists (lg_c s). by destruct s. Qed.
Lemma oc_gets {A} (f : lst S -> A) : only_cache (gets f).
Proof. intros s x s' [= <- <-]. exists (lg_c s). by destruct s. Qed.
Lemma oc_option {A} (o : option A) : only_cache (of_option o).
Proof. destruct o; [apply oc_ret|]. by intros s x s'. Qed.
Lemma oc_cop {A} (m : M S A) : only_cache (cop m).
Proof. intros s a s'. unfold cop, zoom. destruct (m (lg_c s)) as [x c| | |]; intros [= <- <-]. by exists c. Qed.
End frame.

Ltac cstep E := mstep cop_Ok; [|exact E].

Create HintDb oc.
#[export] Hint Resolve oc_bind oc_ret oc_gets oc_option oc_cop : oc.
#[export] Hint Extern 1 (forall _, only_cache _) => intros : oc.

Section ops.
Context {S : Type} `{BlockCache S}.
Implicit Types (s : lst S).

Lemma oc_get_block i : only_cache (get_block i : M (lst S) Z).
Proof. unfold get_block. auto with oc. Qed.
#[local] Hint Resolve oc_get_block : oc.
Lemma oc_write_loop k : forall t, only_cache (write_loop t k : M (lst S) unit).
Proof. induction k; intros t; cbn [write_loop]; auto 30 with oc. Qed.
Lemma oc_install_loop k : forall t, only_cache (install_loop t k : M (lst S) unit).
Proof. induction k; intros t; cbn [install_loop]; auto 30 with oc. Qed.
#[local] Hint Resolve oc_write_loop oc_install_loop : oc.
Lemma oc_write_head : only_cache (write_head : M (lst S) unit).
Proof. unfold write_head. auto 30 with oc. Qed.
Lemma oc_write_log : only_cache (write_log : M (lst S) unit).
Proof. unfold write_log. auto with oc. Qed.
Lemma oc_install : only_cache (install_trans : M (lst S) unit).
Proof. unfold install_trans. auto with oc. Qed.

Lemma commit_frame s s' : 0 <= lh_n s -> commit s = Ok tt s' -> exists c, s' = set_n 0 (set_c c s).
Proof.
  intros Hn. unfold commit. mgo. destruct (0 <? lh_n s) eqn:E.
  - intros ([] & s1 & E1 & X)%bind_inv. apply oc_write_log in E1 as [c1 ->].
    apply bind_inv in X as ([] & s2 & E2 & X). apply oc_write_head in E2 as [c2 ->].
    apply bind_inv in X as ([] & s3 & E3 & X). apply oc_install in E3 as [c3 ->].
    revert X. mgo. intros X. apply oc_write_head in X as [c4 ->]. by exists c4.
  - apply Z.ltb_ge in E. intros [= <-]. exists (lg_c s). destruct s; cbn in *. by replace lh_n0 with 0 by lia.
Qed.

Lemma begin_op_inv s s' : begin_op s = Ok tt s' ->
  lg_lock s = false /\ lg_committing s = false /\ lh_n s + (lg_outstanding s + 1) * MAXOPBLOCKS <= LOGSIZE /\
  s' = set_outstanding (lg_outstanding s + 1) s.
Proof.
  unfold begin_op. destruct s as [c l st sz o cm dv n bs]. destruct l; [done|]. unfold acquire_log, zoom, mbind, M_bind. cbn.
  destruct cm; [done|]. destruct (LOGSIZE <? n + (o + 1) * MAXOPBLOCKS) eqn:E; [done|]. cbn. intros [= <-].
  apply Z.ltb_ge in E. done.
Qed.

Lemma end_op_inv s s' : 0 <= lh_n s -> end_op s = Ok tt s' ->
  lg_committing s = false /\ exists c, s' = set_c c (set_outstanding (lg_outstanding s - 1)
    (if decide (lg_outstanding s = 1) then set_n 0 s else s)).
Proof.
  intros Hn. unfold end_op. destruct s as [c l st sz o cm dv n bs]. destruct l; [done|]. unfold acquire_log.
  mstep zoom_Ok; [|reflexivity]. mgo. cbn [lg_outstanding lg_committing set_outstanding set_lglock].
  destruct cm; [done|]. destruct (o - 1 =? 0) eqn:E.
  - mgo. unfold release_log. mstep zoom_Ok; [|reflexivity]. cbn. intros ([] & s1 & E1 & X)%bind_inv.
    apply commit_frame in E1 as [c1 ->]; [|done]. cbn in X. revert X. unfold zoom, mbind, M_bind. cbn. intros [= <-].
    split; [done|]. exists c1. rewrite decide_True by (apply Z.eqb_eq in E; lia). done.
  - intros X. assert (Ok tt (Lst c false st sz (o - 1) false dv n bs) = Ok tt s') as [= <-] by exact X.
    split; [done|]. exists c. rewrite decide_False by (apply Z.eqb_neq in E; lia). done.
Qed.

Lemma log_index_spec b (bs : list Z) :
  (exists x, bs !! log_index b bs = Some x /\ u32 x = b) \/ (log_index b bs = length bs /\ forall x, x ∈ bs -> u32 x <> b).
Proof.
  induction bs as [|x bs IH]; cbn; [right; split; [done|]; by intros x ?%elem_of_nil|].
  destruct (u32 x =? b) eqn:E; [apply Z.eqb_eq in E; left; by exists x|]. apply Z.eqb_neq in E.
  destruct IH as [(y & Hy & Ey)|[El Hn]]; [left; by exists y|right]. split; [by f_equal|].
  intros y [->|Hy]%elem_of_cons; [done|by apply Hn].
Qed.

(** The blocks the log names. *)
Definition logged s : gset Z := list_to_set (map u32 (take (Z.to_nat (lh_n s)) (lh_block s))).

(** [log_write] adds a block to them, in a new entry unless it is there. *)
Lemma log_write_inv s b n s' :
  0 <= lh_n s -> Z.of_nat (length (lh_block s)) = LOGSIZE -> small n ->
  (exists c, c_blockno b (lg_c s) = Ok n c) -> log_write b s = Ok tt s' ->
  lh_n s < LOGSIZE /\ lh_n s < lg_size s - 1 /\ 1 <= lg_outstanding s /\ lg_lock s = false /\
  exists c bs m, s' = set_n m (set_block bs (set_c c s)) /\ length bs = length (lh_block s) /\
    m = (if decide (n ∈ logged s) then lh_n s else lh_n s + 1) /\ logged s' = {[n]} ∪ logged s.
Proof.
  intros Hn Hlen Hsm (c0 & Ec0) E. unfold log_write in E. revert E. mgo.
  destruct ((LOGSIZE <=? lh_n s) || (lg_size s - 1 <=? lh_n s)) eqn:E1; [done|].
  apply orb_false_iff in E1 as [E1%Z.leb_gt E2%Z.leb_gt]. destruct (lg_outstanding s <? 1) eqn:E3; [done|]. apply Z.ltb_ge in E3.
  destruct s as [c l st sz o cm dv k bs]. cbn in *. destruct l; [done|]. unfold acquire_log. mstep zoom_Ok; [|reflexivity].
  mstep cop_Ok; [|exact Ec0]. mgo. cbn [lh_block set_c set_lglock]. set (i := log_index n (take (Z.to_nat k) bs)).
  assert (length (take (Z.to_nat k) bs) = Z.to_nat k) as Lt by (rewrite length_take; lia).
  destruct (log_index_spec n (take (Z.to_nat k) bs)) as [(x & Hx & Ex)|[Ei Hno]]; fold i in Hx || fold i in Ei.
  - pose proof (lookup_lt_Some _ _ _ Hx) as Hi. rewrite Lt in Hi. mstep put_block_ok; [|cbn; lia].
    replace (Z.of_nat i =? k) with false by lia. mgo. intros ([] & s1 & E4 & X)%bind_inv.
    apply oc_cop in E4 as [c1 ->]. assert (Ok tt _ = Ok tt s') as [= <-] by exact X. split_and!; try done.
    exists c1, (<[i := s32 n]> bs), k. split; [done|]. split; [apply length_insert|].
    assert (n ∈ logged (Lst c false st sz o cm dv k bs)) as Hin.
    { unfold logged. cbn. apply elem_of_list_to_set, list_elem_of_fmap. exists x. split; [done|]. by eapply list_elem_of_lookup_2. }
    rewrite decide_True by done. split; [done|]. apply set_eq. intros y.
    rewrite elem_of_union, elem_of_singleton. unfold logged in *. cbn [lh_n lh_block set_n set_block set_c set_lglock] in *.
    rewrite !elem_of_list_to_set, !list_elem_of_fmap in *. apply lookup_take_Some in Hx as [Hx _].
    assert (forall j z, take (Z.to_nat k) (<[i:=s32 n]> bs) !! j = Some z ->
      (j = i /\ z = s32 n) \/ (j <> i /\ take (Z.to_nat k) bs !! j = Some z)) as Hcase.
    { intros j z Hj. apply lookup_take_Some in Hj as [Hj Hjk]. destruct (decide (j = i)) as [->|N].
      - rewrite list_lookup_insert_eq in Hj by lia. left. by injection Hj as <-.
      - rewrite list_lookup_insert_ne in Hj by done. right. by rewrite lookup_take_lt. }
    assert (u32 (s32 n) = n) as Eu.
    { unfold small, u32, s32 in *. Z.div_mod_to_equations. lia. }
    split.
    + intros (z & -> & Hz). apply list_elem_of_lookup in Hz as [j Hj]. destruct (Hcase j z Hj) as [[-> ->]|[N Hj']]; [by left|].
      right. exists z. split; [done|]. by eapply list_elem_of_lookup_2.
    + intros [->|(z & -> & Hz)].
      * exists (s32 n). split; [done|]. apply (list_elem_of_lookup_2 _ i). rewrite lookup_take_lt by lia. apply list_lookup_insert_eq. lia.
      * apply list_elem_of_lookup in Hz as [j Hj]. destruct (decide (j = i)) as [->|N].
        { apply lookup_take_Some in Hj as [Hj _]. rewrite Hx in Hj. injection Hj as <-. exists (s32 n). split; [congruence|].
          apply (list_elem_of_lookup_2 _ i). rewrite lookup_take_lt by lia. apply list_lookup_insert_eq. lia. }
        exists z. split; [done|]. apply (list_elem_of_lookup_2 _ j). apply lookup_take_Some in Hj as [Hj Hjk].
        rewrite lookup_take_lt by done. by rewrite list_lookup_insert_ne.
  - rewrite Lt in Ei. rewrite Ei. mstep put_block_ok; [|cbn; lia].
    rewrite Z2Nat.id, Z.eqb_refl by lia. mgo. intros ([] & s1 & E4 & X)%bind_inv.
    apply oc_cop in E4 as [c1 ->]. assert (Ok tt _ = Ok tt s') as [= <-] by exact X. split_and!; try done.
    exists c1, (<[Z.to_nat k := s32 n]> bs), (k + 1). split; [done|]. split; [apply length_insert|].
    assert (n ∉ logged (Lst c false st sz o cm dv k bs)) as Hin.
    { unfold logged. cbn. rewrite elem_of_list_to_set, list_elem_of_fmap. intros (x & -> & Hx). by apply (Hno x). }
    rewrite decide_False by done. split; [done|]. apply set_eq. intros y.
    rewrite elem_of_union, elem_of_singleton. unfold logged. cbn [lh_n lh_block set_n set_block set_c set_lglock].
    replace (Z.to_nat (k + 1)) with (Datatypes.S (Z.to_nat k)) by lia.
    rewrite (take_S_r _ _ (s32 n)) by (apply list_lookup_insert_eq; lia). rewrite take_insert_ge by lia.
    rewrite map_app, list_to_set_app, elem_of_union. cbn.
    assert (u32 (s32 n) = n) as -> by (unfold small, u32, s32 in *; Z.div_mod_to_equations; lia).
    rewrite elem_of_union, elem_of_singleton. assert (y ∉ (∅ : gset Z)) by apply not_elem_of_empty. tauto.
Qed.

Lemma log_write_ok s V b n d :
  c_ok (lg_c s) V -> v_held V !! b = Some (n, d) -> 0 <= lh_n s < LOGSIZE -> lh_n s < lg_size s - 1 ->
  1 <= lg_outstanding s -> lg_lock s = false -> Z.of_nat (length (lh_block s)) = LOGSIZE ->
  exists s', log_write b s = Ok tt s' /\ c_ok (lg_c s') (pinned n d V).
Proof.
  intros Hc Hh Hn Hsz Ho Hl Hlen. unfold log_write. mgo.
  rewrite (proj2 (Z.leb_gt _ _)), (proj2 (Z.leb_gt _ _)), (proj2 (Z.ltb_ge _ _)) by lia. cbn [orb].
  destruct s as [c l st sz o cm dv k bs]. cbn in *. subst l. unfold acquire_log. mstep zoom_Ok; [|reflexivity].
  mstep cop_Ok; [|by eapply c_blockno_ok]. mgo. cbn [lh_block set_c set_lglock].
  set (i := log_index _ _). assert (i <= Z.to_nat k)%nat as Hi.
  { destruct (log_index_spec n (take (Z.to_nat k) bs)) as [(x & Hx & _)|[Ei _]]; fold i in Hx || fold i in Ei.
    - apply lookup_lt_Some in Hx. rewrite length_take in Hx. lia.
    - rewrite Ei, length_take. lia. }
  mstep put_block_ok; [|cbn; lia]. destruct (c_dirty_ok c V b n d Hc Hh) as (c1 & E & Hc1).
  destruct (Z.of_nat i =? k); mgo; (cstep E); eexists; (split; [reflexivity|exact Hc1]).
Qed.

(** [log_write] of a held block in a transaction: its data is pinned and its number logged. *)
Lemma log_write_step s V blks b n d : log_ok s V blks -> v_held V !! b = Some (n, d) -> home (lg_start s) (lg_size s) (v_disk V) n ->
  Z.of_nat (length blks) < LOGSIZE -> Z.of_nat (length blks) < lg_size s - 1 -> 1 <= lg_outstanding s ->
  let blks' := if decide (n ∈ blks) then blks else blks ++ [n] in
  exists c bs, log_write b s = Ok tt (set_n (Z.of_nat (length blks')) (set_block bs (set_c c s))) /\
    log_ok (set_n (Z.of_nat (length blks')) (set_block bs (set_c c s))) (pinned n d V) blks'.
Proof.
  intros L Hh Hhome Hn Hsz Ho blks'. pose proof (lo_place _ _ _ L) as (_ & [_ P2] & _).
  assert (small n /\ s32 n = n) as [Hsm Es]. { destruct Hhome as [Hr _]. unfold small, s32. rewrite Z.mod_small by lia. lia. }
  assert (Forall (fun x => u32 x = x) blks) as Hu.
  { eapply Forall_impl; [apply L|]. intros x [Hx _]. cbn in Hx. apply u32_small. unfold is_u32. lia. }
  destruct s as [c l st sz o cm dv k bs]. destruct L as [L1 L2 L3 L4 L5 L6 L7 L8 L9 L10 L11 L12]. cbn in *. subst l k dv.
  destruct (c_dirty_ok c V b n d L1 Hh) as (c1 & E1 & Hc1).
  unfold log_write. mgo. cbn [lh_n lg_size lg_outstanding]. rewrite (proj2 (Z.leb_gt _ _)), (proj2 (Z.leb_gt _ _)), (proj2 (Z.ltb_ge _ _)) by lia. cbn [orb].
  unfold acquire_log. mstep zoom_Ok; [|reflexivity]. mstep cop_Ok; [|by eapply c_blockno_ok]. mgo. cbn [lh_block set_c set_lglock].
  rewrite Nat2Z.id, L6, Es. set (i := log_index n blks).
  assert (i = length blks /\ n ∉ blks \/ blks !! i = Some n) as Hi.
  { destruct (log_index_spec n blks) as [(x & Hx & Ex)|[Ei Hno]]; fold i in Hx || fold i in Ei; [right|left; split; [done|]].
    - rewrite Hx. f_equal. rewrite <- Ex. symmetry. by apply (Forall_lookup_1 _ _ _ _ Hu Hx).
    - intros Hin. apply (Hno n Hin). unfold small in Hsm. apply u32_small. unfold is_u32. lia. }
  assert (i < length bs)%nat as Hil. { destruct Hi as [[-> _]|Hi]; [lia|]. apply lookup_lt_Some in Hi. lia. }
  mstep put_block_ok; [|cbn; lia]. exists c1, (<[i := n]> bs).
  assert (take (length blks') (<[i := n]> bs) = blks') as Et.
  { unfold blks'. destruct Hi as [[-> Hno]|Hi].
    - rewrite decide_False by done. rewrite length_app. cbn [length]. rewrite Nat.add_1_r, (take_S_r _ _ n) by (apply list_lookup_insert_eq; lia).
      by rewrite take_insert_ge, L6 by lia.
    - rewrite decide_True by (by eapply list_elem_of_lookup_2). pose proof (lookup_lt_Some _ _ _ Hi). rewrite take_insert_lt by lia.
      rewrite L6. by apply list_insert_id. }
  assert (Z.of_nat (length blks') = if Z.of_nat i =? Z.of_nat (length blks) then Z.of_nat (length blks) + 1 else Z.of_nat (length blks)) as El.
  { unfold blks'. destruct Hi as [[-> Hno]|Hi].
    - rewrite decide_False, Z.eqb_refl, length_app by done. cbn. lia.
    - rewrite decide_True by (by eapply list_elem_of_lookup_2). apply lookup_lt_Some in Hi. by destruct (Z.eqb_spec (Z.of_nat i) (Z.of_nat (length blks))); [lia|]. }
  assert (forall m, m ∈ blks' <-> m = n \/ m ∈ blks) as Hin.
  { intros m. unfold blks'. case_decide as Hd; [split; [by right|by intros [->|]]|]. rewrite elem_of_app, list_elem_of_singleton. tauto. }
  split.
  - destruct (Z.of_nat i =? Z.of_nat (length blks)); mgo; (cstep E1); rewrite El; reflexivity.
  - assert (length blks' <= Datatypes.S (length blks))%nat as Hle by (unfold blks'; case_decide; rewrite ?length_app; cbn; lia). split; cbn; try done.
    + by rewrite length_insert.
    + lia.
    + unfold blks'. case_decide; [done|]. apply NoDup_app_singleton. by split.
    + apply Forall_forall. intros m [->|Hm]%Hin; [done|]. by eapply Forall_forall in L10.
    + intros m. rewrite Hin, <- L11. destruct (decide (m = n)) as [->|N].
      * rewrite lookup_insert_eq. split; [by left|by eexists].
      * rewrite lookup_insert_ne by done. split; [by right|by intros [|]].
Qed.


Definition spare (ops : list (gset Z)) : Z :=
  foldr (fun U z => MAXOPBLOCKS - Z.of_nat (size U) + z) 0 ops.

(** File system operations in progress, each with the blocks it has logged: at most
    MAXOPBLOCKS. Any activity of the cache may come between. *)
Inductive lstep : lst S * list (gset Z) -> lst S * list (gset Z) -> Prop :=
  | ls_begin s ops s' : begin_op s = Ok tt s' -> lstep (s, ops) (s', ops ++ [∅])
  | ls_write s ops s' j U b n :
      ops !! j = Some U -> (exists c, c_blockno b (lg_c s) = Ok n c) -> small n ->
      Z.of_nat (size ({[n]} ∪ U)) <= MAXOPBLOCKS -> log_write b s = Ok tt s' ->
      lstep (s, ops) (s', <[j := {[n]} ∪ U]> ops)
  | ls_end s ops s' j : (j < length ops)%nat -> end_op s = Ok tt s' -> lstep (s, ops) (s', delete j ops)
  | ls_cache s ops c : lstep (s, ops) (set_c c s, ops).

Record acct (st : lst S * list (gset Z)) : Prop := {
  ac_lock : lg_lock (fst st) = false;
  ac_committing : lg_committing (fst st) = false;
  ac_n : 0 <= lh_n (fst st);
  ac_array : Z.of_nat (length (lh_block (fst st))) = LOGSIZE;
  ac_ops : lg_outstanding (fst st) = Z.of_nat (length (snd st));
  ac_three : Z.of_nat (length (snd st)) <= 3;
  ac_space : lh_n (fst st) + spare (snd st) <= LOGSIZE;
  ac_each : Forall (fun U => Z.of_nat (size U) <= MAXOPBLOCKS /\ U ⊆ logged (fst st)) (snd st)
}.

Lemma spare_cons U ops : spare (U :: ops) = MAXOPBLOCKS - Z.of_nat (size U) + spare ops.
Proof. done. Qed.
Lemma spare_app a b : spare (a ++ b) = spare a + spare b.
Proof. induction a as [|U a IH]; [done|]. rewrite <- app_comm_cons, !spare_cons, IH. lia. Qed.
Lemma spare_le ops : spare ops <= MAXOPBLOCKS * Z.of_nat (length ops).
Proof. induction ops as [|U ops IH]; [done|]. rewrite spare_cons. cbn [length]. unfold MAXOPBLOCKS in *. lia. Qed.
Lemma spare_insert ops j U U' : ops !! j = Some U ->
  spare (<[j := U']> ops) = spare ops + Z.of_nat (size U) - Z.of_nat (size U').
Proof.
  revert j. induction ops as [|W ops IH]; intros [|j] Hj; [done..| |].
  - injection Hj as ->. change (<[0%nat := U']> (U :: ops)) with (U' :: ops). rewrite !spare_cons. lia.
  - change (<[Datatypes.S j := U']> (W :: ops)) with (W :: <[j := U']> ops). rewrite !spare_cons, (IH j Hj). lia.
Qed.
Lemma spare_delete ops j U : ops !! j = Some U -> spare (delete j ops) = spare ops - MAXOPBLOCKS + Z.of_nat (size U).
Proof.
  revert j. induction ops as [|W ops IH]; intros [|j] Hj; [done..| |].
  - injection Hj as ->. change (delete 0%nat (U :: ops)) with ops. rewrite spare_cons. lia.
  - change (delete (Datatypes.S j) (W :: ops)) with (W :: delete j ops). rewrite !spare_cons, (IH j Hj). lia.
Qed.
Lemma spare_each ops : Forall (fun U : gset Z => Z.of_nat (size U) <= MAXOPBLOCKS) ops ->
  0 <= spare ops /\ forall j U, ops !! j = Some U -> MAXOPBLOCKS - Z.of_nat (size U) <= spare ops.
Proof.
  induction 1 as [|W ops HW _ [IH1 IH2]]; [split; [done|]; by intros j U|]. rewrite spare_cons. split; [lia|].
  intros [|j] U Hj; [injection Hj as ->; lia|]. pose proof (IH2 j U Hj). lia.
Qed.

Lemma acct_step st st' : acct st -> lstep st st' -> acct st'.
Proof.
  intros A Hs. destruct Hs as [s ops s' E|s ops s' j U b n Hj Hb Hsm Hsz E|s ops s' j Hj E|s ops c];
    destruct A as [A1 A2 A3 A4 A5 A6 A7 A8]; cbn [fst snd] in *.
  - apply begin_op_inv in E as (_ & _ & Hr & ->). pose proof (spare_le ops). unfold LOGSIZE, MAXOPBLOCKS in *.
    split; cbn [fst snd]; try done; try (rewrite length_app; cbn; lia).
    + rewrite spare_app. unfold LOGSIZE. cbn. rewrite size_empty. unfold MAXOPBLOCKS. lia.
    + apply Forall_app. split; [done|]. apply Forall_singleton. rewrite size_empty. split; [done|apply empty_subseteq].
  - apply log_write_inv with (n := n) in E as (F1 & F2 & F3 & F4 & c & bs & m & -> & Hl & Hm & Hlg); [|done..].
    destruct (Forall_lookup_1 _ _ _ _ A8 Hj) as [_ Hsub].
    split; cbn [fst snd]; try done; try (rewrite length_insert; done).
    + subst m. cbn. case_decide; lia.
    + cbn. lia.
    + rewrite (spare_insert _ _ U) by done. cbn. subst m. case_decide as Hin.
      * assert (size U <= size ({[n]} ∪ U))%nat by (apply subseteq_size; set_solver). lia.
      * rewrite size_union by set_solver. rewrite size_singleton. lia.
    + apply Forall_insert.
      * eapply Forall_impl; [exact A8|]. intros W [HW1 HW2]. split; [done|]. rewrite Hlg. set_solver.
      * split; [done|]. rewrite Hlg. set_solver.
  - apply end_op_inv in E as [_ [c ->]]; [|done]. destruct (lookup_lt_is_Some_2 _ _ Hj) as [U HU].
    destruct (Forall_lookup_1 _ _ _ _ A8 HU) as [HU1 HU2].
    assert (length (delete j ops) = length ops - 1)%nat as Hld by (rewrite length_delete; [done|by eexists]).
    pose proof (spare_delete _ _ _ HU). case_decide as Ho.
    + assert (ops = [U]) as ->. { destruct ops as [|W [|? ?]]; cbn in A5; [done| |lia]. destruct j; [by injection HU as ->|done]. }
      assert (delete j [U] = []) as -> by (destruct j; done). split; cbn; try done; lia.
    + split; cbn [fst snd]; try done; cbn; try lia. by apply Forall_delete.
  - by split.
Qed.
End ops.

(** C4. The log reservation. Whatever file system operations begin, log blocks, end and
    commit, in any order: at most three run at once, and the blocks the log holds
    together with those the running operations may still add fit in LOGSIZE; so, if the
    log on disk has LOGSIZE data blocks and a header, [log_write] of a block new to an
    operation that has logged fewer than MAXOPBLOCKS never panics. *)
Theorem log_reservation {S} `{BlockCache S} (s0 s : lst S) (ops : list (gset Z)) :
  lg_lock s0 = false -> lg_committing s0 = false -> lh_n s0 = 0 -> lg_outstanding s0 = 0 ->
  Z.of_nat (length (lh_block s0)) = LOGSIZE -> rtc lstep (s0, []) (s, ops) ->
  lg_outstanding s = Z.of_nat (length ops) /\ (length ops <= 3)%nat /\ 0 <= lh_n s /\ lh_n s + spare ops <= LOGSIZE /\
  forall j U b n V d, ops !! j = Some U -> (Z.of_nat (size U) < MAXOPBLOCKS) -> n ∉ U ->
    c_ok (lg_c s) V -> v_held V !! b = Some (n, d) -> LOGSIZE < lg_size s ->
    exists s', log_write b s = Ok tt s'.
Proof.
  intros H1 H2 H3 H4 H5 Hr.
  assert (acct (s0, [])) as A0 by (split; cbn; try done; lia).
  assert (acct (s, ops)) as A.
  { remember (s0, []) as x eqn:Ex. remember (s, ops) as y eqn:Ey. clear Ey Ex. induction Hr as [|x y z Hxy Hr IH]; [done|].
    apply IH. by eapply acct_step. }
  destruct A as [A1 A2 A3 A4 A5 A6 A7 A8]. cbn [fst snd] in *. split; [done|]. split; [lia|]. split; [done|]. split; [done|].
  intros j U b n V d Hj HU Hn Hc Hh Hsz.
  destruct (spare_each ops) as [_ Hsp]; [eapply Forall_impl; [exact A8|]; by intros W [HW _]|]. specialize (Hsp j U Hj).
  assert (1 <= lg_outstanding s) by (rewrite A5; apply lookup_lt_Some in Hj; lia).
  destruct (log_write_ok s V b n d) as (s' & E & _); try done; try lia. by exists s'.
Qed.
