(* ===== verification/LogBio.v ===== *)
(** * The log on the block cache

    The theorems of [Log] hold for every implementation of [BlockCache]; here they are
    applied to [Bio], and operations fill the log to the end of its space. *)

From S2P Require Import Prelude Sleeplock Cache Bio Log.

Definition zero_block : block := replicate 512 0.
Definition blank_disk : list block := replicate 80 zero_block.
Lemma blank_disk_ok : Forall block_ok blank_disk.
Proof. apply Forall_replicate. split; [done|]. by apply Forall_replicate. Qed.

(** A log of [size] blocks at block 2, its header included. *)
Definition log_at (c : bst) (size n : Z) (bs : list Z) : lst bst :=
  Lst c false 2 size 0 false 1 n (bs ++ replicate (30 - length bs) 0).

(** The cache with block 40 modified, logged and released. *)
Lemma one_pinned : exists c, cache_ok c (View blank_disk {[40 := replicate 512 9]} ∅ []).
Proof.
  destruct (binit_ok blank_disk 5 blank_disk_ok) as (c0 & _ & C0). set (V0 := View blank_disk ∅ ∅ []) in *.
  set (nine := replicate 512 9).
  destruct (bread_ok c0 V0 40 C0) as (b & c1 & _ & _ & C1); [by split|by intros b d|right; vm_compute; lia|].
  set (V1 := held_set b 40 _ V0) in *. assert (v_held V1 !! b = Some (40, zero_block)) as H1 by (cbn; by rewrite lookup_insert_eq).
  destruct (put_data_ok c1 V1 b 40 _ nine C1 H1) as (c2 & _ & C2); [split; [done|by apply Forall_replicate]|].
  set (V2 := held_set b 40 nine V1) in *. assert (v_held V2 !! b = Some (40, nine)) as H2 by (cbn; by rewrite lookup_insert_eq).
  destruct (mark_dirty_ok c2 V2 b 40 nine C2 H2) as (c3 & _ & C3). set (V3 := pinned 40 nine V2) in *.
  destruct (brelse_ok c3 V3 b 40 nine C3 H2) as (c4 & _ & C4); [unfold content; cbn; by rewrite lookup_insert_eq|].
  exists c4. replace (View blank_disk {[40 := nine]} ∅ []) with (held_drop b V3); [done|].
  unfold V3, V2, V1, held_drop, held_set, pinned. cbn. f_equal. apply map_eq. intros i.
  rewrite lookup_empty, lookup_delete. case_decide; [done|]. by rewrite !lookup_insert_ne.
Qed.

Lemma commit_crash_safe_witness : exists (c : bst) s' V' W,
  commit (log_at c 31 1 [40]) = Ok tt s' /\ cache_ok (lg_c s') V' /\ v_disk V' = apply_writes blank_disk W /\
  disk_at (v_disk V') 40 = replicate 512 9.
Proof.
  destruct one_pinned as [c C]. exists c.
  destruct (commit_crash_safe (log_at c 31 1 [40]) (View blank_disk {[40 := replicate 512 9]} ∅ []) [40]) as (s' & V' & W & E & C' & _ & _ & _ & D & Hm & _).
  - split; try exact C; try reflexivity.
    + vm_compute. repeat split; discriminate.
    + apply NoDup_singleton.
    + apply Forall_singleton. split; vm_compute; [by split|]. intros [_ K]. discriminate K.
    + intros m. cbn [v_pin]. rewrite lookup_singleton_is_Some, list_elem_of_singleton. split; congruence.
  - reflexivity.
  - vm_compute. lia.
  - exists s', V', W. split; [exact E|]. split; [exact C'|]. split; [exact D|]. rewrite Hm; [reflexivity|].
    split; vm_compute; [by split|]. intros [_ K]. discriminate K.
Defined.

(** A disk whose header says that block 1 of the log belongs at block 40. *)
Definition committed_disk : list block :=
  disk_set (disk_set blank_disk 2 (st32 (st32 zero_block 0 1) 4 40)) 3 (replicate 512 9).
Lemma committed_disk_ok : Forall block_ok committed_disk.
Proof.
  repeat apply Forall_insert; [apply blank_disk_ok| |].
  - apply block_ok_st32; [apply block_ok_st32; [|done..]|done..]. split; [done|by apply Forall_replicate].
  - split; [done|by apply Forall_replicate].
Qed.

Lemma recovery_idempotent_witness : exists (c : bst) s' V',
  recover_from_log (log_at c 31 0 []) = Ok tt s' /\ cache_ok (lg_c s') V' /\ disk_at (v_disk V') 40 = replicate 512 9.
Proof.
  destruct (binit_ok committed_disk 5 committed_disk_ok) as (c & _ & C). exists c.
  destruct (recovery_idempotent (H := bio_cache) (log_at c 31 0 []) (View committed_disk ∅ ∅ []) C) as (s' & V' & W & E & C' & _ & _ & _ & _ & _ & Hm & _);
    try reflexivity; [vm_compute; lia| |].
  - split; [vm_compute; repeat split; discriminate|]. split; [vm_compute; split; discriminate|]. split; [reflexivity|].
    intros i Hi. change (Z.of_nat i < 1) in Hi. assert (i = 0%nat) as -> by lia.
    split; vm_compute; [by split|]. intros [_ K]. discriminate K.
  - exists s', V'. split; [exact E|]. split; [exact C'|]. rewrite Hm; [vm_compute; reflexivity|].
    split; vm_compute; [by split|]. intros [_ K]. discriminate K.
Defined.

(** ** Filling the log *)

Section filling.
Context {S : Type} `{BlockCache S}.
Implicit Types (s : lst S) (V : bview) (blks : list Z) (ws : list (Z * block)).

(** One after the other, blocks are read, changed, logged and released. *)
Definition log_one (w : Z * block) : M (lst S) unit :=
  b ← cop (c_bread 1 (fst w));
  cop (c_put b (snd w));;
  log_write b;;
  cop (c_brelse b).
Fixpoint log_blocks (ws : list (Z * block)) : M (lst S) unit :=
  match ws with [] => mret tt | w :: ws' => log_one w;; log_blocks ws' end.
Definition three_ops (ws : list (Z * block)) : M (lst S) unit := begin_op;; begin_op;; begin_op;; log_blocks ws.
Definition three_ends : M (lst S) unit := end_op;; end_op;; end_op.
Definition pin_all V ws : bview := foldl (fun V w => pinned (fst w) (snd w) V) V ws.

(** What [log_ok] looks at. *)
Lemma log_ok_cache s V c V' blks : log_ok s V blks -> c_ok c V' -> v_disk V' = v_disk V -> v_pin V' = v_pin V -> log_ok (set_c c s) V' blks.
Proof. intros [] Hc Hd Hp. split; cbn [lg_c lg_lock lg_dev lg_start lg_size lh_n lh_block set_c]; rewrite ?Hd, ?Hp; done. Qed.
Lemma log_ok_ops s V o cm blks : log_ok s V blks -> log_ok (set_committing cm (set_outstanding o s)) V blks.
Proof. by intros []. Qed.

Lemma log_ok_room s V blks n : log_ok s V blks -> v_held V = ∅ -> Z.of_nat (length blks) < Z.of_nat c_nbuf -> room c_nbuf V n /\ unheld V n.
Proof. intros L Hh Hl. split; [right; rewrite Hh, map_size_empty, (pin_size s V blks L); lia|]. intros b d. by rewrite Hh, lookup_empty. Qed.

(** The block is held and changed: what [log_write] finds. *)
Lemma log_read_ok s V blks n d : log_ok s V blks -> v_held V = ∅ -> Z.of_nat (length blks) < Z.of_nat c_nbuf -> 0 <= n < disk_len (v_disk V) -> block_ok d ->
  exists b c c1, let V2 := held_set b n d (held_set b n (content V n) V) in
    c_bread 1 n (lg_c s) = Ok b c /\ c_put b d c = Ok tt c1 /\ log_ok (set_c c1 s) V2 blks /\ v_held V2 !! b = Some (n, d) /\ v_held (held_drop b V2) = ∅.
Proof.
  intros L Hh Hl Hn Hd. destruct (log_ok_room s V blks n L Hh Hl) as [Hr Hu]. destruct (c_bread_ok _ V n (lo_c _ _ _ L) Hn Hu Hr) as (b & c & E & _ & C).
  destruct (c_put_ok c _ b n _ d C ltac:(cbn; by rewrite lookup_insert_eq) Hd) as (c1 & E1 & C1). exists b, c, c1. cbn zeta.
  split; [done|]. split; [done|]. split; [by eapply log_ok_cache|]. cbn. split; [by rewrite lookup_insert_eq|]. rewrite Hh, !delete_insert_eq. apply delete_empty.
Qed.

Lemma log_one_ok s V blks w : log_ok s V blks -> v_held V = ∅ -> home (lg_start s) (lg_size s) (v_disk V) (fst w) -> block_ok (snd w) -> fst w ∉ blks ->
  Z.of_nat (length blks) < LOGSIZE -> Z.of_nat (length blks) < Z.of_nat c_nbuf -> Z.of_nat (length blks) < lg_size s - 1 -> 1 <= lg_outstanding s -> exists k c bs,
  log_one w s = Ok tt (set_n k (set_block bs (set_c c s))) /\ log_ok (set_n k (set_block bs (set_c c s))) (pinned (fst w) (snd w) V) (blks ++ [fst w]).
Proof.
  destruct w as [n d]. cbn [fst snd]. intros L Hh Hm Hd Hnew Hn Hb Hsz Ho. destruct (log_read_ok s V blks n d L Hh Hb (proj1 Hm) Hd) as (b & c & c1 & E & E1 & L2 & H2 & He). set (V2 := held_set b n d _) in *.
  destruct (log_write_step (set_c c1 s) V2 blks b n d L2 H2 Hm Hn Hsz Ho) as (c2 & bs & E2 & L3). rewrite decide_False in * by done. set (k := Z.of_nat (length (blks ++ [n]))) in *.
  destruct (c_brelse_ok c2 (pinned n d V2) b n d (lo_c _ _ _ L3) H2) as (c3 & E3 & C3); [unfold content; cbn; by rewrite lookup_insert_eq|].
  exists k, c3, bs. split.
  - unfold log_one. cbn [fst snd]. rewrite (bind_Ok _ _ _ _ _ (cop_Ok _ _ _ _ E)), (bind_Ok _ _ _ _ _ (cop_Ok _ (set_c c s) _ _ E1)).
    change (set_c c1 (set_c c s)) with (set_c c1 s). rewrite (bind_Ok _ _ _ _ _ E2). exact (cop_Ok _ _ _ _ E3).
  - replace (pinned n d V) with (held_drop b (pinned n d V2)); [by apply (log_ok_cache _ _ c3 _ _ L3)|].
    unfold pinned, held_drop. cbn. f_equal. rewrite Hh, !delete_insert_eq. apply delete_empty.
Qed.

(** Distinct blocks outside the log, and not in it yet. *)
Definition fresh s V blks ws : Prop := NoDup (blks ++ map fst ws) /\ Forall (fun w => home (lg_start s) (lg_size s) (v_disk V) (fst w) /\ block_ok (snd w)) ws.
Lemma fresh_cons s V blks w ws : fresh s V blks (w :: ws) -> home (lg_start s) (lg_size s) (v_disk V) (fst w) /\ block_ok (snd w) /\ fst w ∉ blks /\ fresh s V (blks ++ [fst w]) ws.
Proof.
  intros [Hn Hw]. cbn [map] in Hn. apply Forall_cons in Hw as [[H1 H2] Hw]. split; [done|]. split; [done|]. split; [|split; [by rewrite <- app_assoc|done]].
  apply NoDup_app in Hn as (_ & Hd & _). intros Hin. apply (Hd _ Hin). by left.
Qed.

(** As many as there is room for are logged. *)
Lemma log_blocks_ok ws : forall s V blks, log_ok s V blks -> v_held V = ∅ -> fresh s V blks ws -> 1 <= lg_outstanding s ->
  let n := Z.of_nat (length blks + length ws) in n <= LOGSIZE -> n <= Z.of_nat c_nbuf -> n < lg_size s -> exists k c bs,
  log_blocks ws s = Ok tt (set_n k (set_block bs (set_c c s))) /\ log_ok (set_n k (set_block bs (set_c c s))) (pin_all V ws) (blks ++ map fst ws).
Proof.
  induction ws as [|w ws IH]; intros s V blks L Hh F Ho n Hn Hb Hsz; cbn [log_blocks map pin_all foldl length] in *.
  - exists (lh_n s), (lg_c s), (lh_block s). rewrite app_nil_r. destruct s. by split.
  - apply fresh_cons in F as (F1 & F2 & F3 & F4). destruct (log_one_ok s V blks w L Hh F1 F2 F3) as (k & c & bs & E & L1); [lia..|]. rewrite (bind_Ok _ _ _ _ _ E).
    destruct (IH _ _ _ L1 Hh F4 Ho) as (k' & c' & bs' & E' & L'); [rewrite length_app; cbn; lia..|]. exists k', c', bs'. split; [exact E'|]. by rewrite <- app_assoc in L'.
Qed.
(** A block too many panics. *)
Lemma log_blocks_full ws : forall s V blks, log_ok s V blks -> v_held V = ∅ -> fresh s V blks ws -> 1 <= lg_outstanding s ->
  lg_size s <= LOGSIZE -> LOGSIZE <= Z.of_nat c_nbuf -> lg_size s <= Z.of_nat (length blks + length ws) -> log_blocks ws s = Panic "too big a transaction".
Proof.
  induction ws as [|w ws IH]; intros s V blks L Hh F Ho Hsz Hb Hfull; cbn [log_blocks length] in *; pose proof (lo_room _ _ _ L) as Hr; [lia|].
  apply fresh_cons in F as (F1 & F2 & F3 & F4). destruct (decide (Z.of_nat (length blks) < lg_size s - 1)) as [Hlt|Hge].
  - destruct (log_one_ok s V blks w L Hh F1 F2 F3) as (k & c & bs & E & L1); [lia..|]. rewrite (bind_Ok _ _ _ _ _ E).
    apply (IH _ _ _ L1 Hh F4 Ho); [done..|]. rewrite length_app. cbn. lia.
  - apply bind_Panic. destruct w as [n d]. cbn [fst snd] in *. destruct (log_read_ok s V blks n d L Hh ltac:(lia) (proj1 F1) F2) as (b & c & c1 & E & E1 & L2 & _).
    unfold log_one. cbn [fst snd]. rewrite (bind_Ok _ _ _ _ _ (cop_Ok _ _ _ _ E)), (bind_Ok _ _ _ _ _ (cop_Ok _ (set_c c s) _ _ E1)). apply bind_Panic.
    unfold log_write. mgo. cbn [lh_n lg_size set_c]. rewrite (lo_n _ _ _ L), (proj2 (Z.leb_le (lg_size s - 1) _)) by lia. by rewrite orb_true_r.
Qed.

(** Beginning and ending the three. *)
Lemma begin_ok s : lg_lock s = false -> lg_committing s = false -> lh_n s + (lg_outstanding s + 1) * MAXOPBLOCKS <= LOGSIZE -> begin_op s = Ok tt (set_outstanding (lg_outstanding s + 1) s).
Proof.
  destruct s as [c l st sz o cm dv k bs]. cbn. intros -> -> Hn. unfold begin_op, acquire_log. mstep zoom_Ok; [|reflexivity]. mgo. cbn [lg_committing set_lglock lh_n lg_outstanding].
  rewrite (proj2 (Z.ltb_ge _ _)) by lia. mgo. done.
Qed.
Lemma three_begin s V ws : log_ok s V [] -> lg_outstanding s = 0 -> lg_committing s = false -> three_ops ws s = log_blocks ws (set_outstanding 3 s).
Proof.
  intros L Ho Hc. pose proof (lo_n _ _ _ L) as Hn. pose proof (lo_lock _ _ _ L) as Hl. destruct s as [c l st sz o cm dv k bs]. cbn in Hn, Hl, Ho, Hc. subst k l o cm. unfold three_ops.
  do 3 (erewrite bind_Ok; [|apply begin_ok; [reflexivity|reflexivity|cbn; unfold LOGSIZE, MAXOPBLOCKS; lia]]). done.
Qed.
Lemma end_more s : lg_lock s = false -> lg_committing s = false -> lg_outstanding s <> 1 -> end_op s = Ok tt (set_outstanding (lg_outstanding s - 1) s).
Proof.
  destruct s as [c l st sz o cm dv k bs]. cbn. intros -> -> Hn. unfold end_op, acquire_log. mstep zoom_Ok; [|reflexivity]. mgo. cbn [lg_committing set_lglock set_outstanding lg_outstanding].
  rewrite (proj2 (Z.eqb_neq _ _)) by lia. done.
Qed.
Lemma three_end s : lg_lock s = false -> lg_committing s = false -> lg_outstanding s = 3 ->
  three_ends s = (commit;; acquire_log;; modify (set_committing false);; release_log) (set_committing true (set_outstanding 0 s)).
Proof.
  destruct s as [c l st sz o cm dv k bs]. cbn. intros -> -> ->. unfold three_ends. do 2 (erewrite bind_Ok; [|apply end_more; [reflexivity|reflexivity|cbn; lia]]).
  unfold end_op at 1, acquire_log. mstep zoom_Ok; [|reflexivity]. mgo. done.
Qed.
End filling.

Lemma pin_all_fields ws : forall V, v_held (pin_all V ws) = v_held V /\ v_disk (pin_all V ws) = v_disk V.
Proof. induction ws as [|w ws IH]; intros V; [done|]. apply (IH (pinned (fst w) (snd w) V)). Qed.
Lemma pin_all_other ws : forall V n, n ∉ map fst ws -> v_pin (pin_all V ws) !! n = v_pin V !! n.
Proof.
  induction ws as [|w ws IH]; intros V n Hn; [done|]. cbn [map] in Hn. apply not_elem_of_cons in Hn as [H1 H2]. cbn [pin_all foldl]. fold (pin_all (pinned (fst w) (snd w) V) ws).
  rewrite IH by done. cbn. by rewrite lookup_insert_ne.
Qed.
Lemma pin_all_in ws : forall V n d, NoDup (map fst ws) -> (n, d) ∈ ws -> v_pin (pin_all V ws) !! n = Some d.
Proof.
  induction ws as [|w ws IH]; intros V n d Hnd Hin; [by apply elem_of_nil in Hin|]. cbn [map] in Hnd. apply NoDup_cons in Hnd as [H1 H2]. cbn [pin_all foldl]. fold (pin_all (pinned (fst w) (snd w) V) ws).
  apply elem_of_cons in Hin as [<-|Hin]; [|by apply IH]. rewrite pin_all_other by done. cbn. by rewrite lookup_insert_eq.
Qed.

(** With all buffers pinned a commit finds none for the log. *)
Lemma commit_no_buffer (s : lst bst) V blks : log_ok s V blks -> v_held V = ∅ -> length blks = NBUF -> commit s = Panic "bget: no buffers".
Proof.
  intros L Hh Hl. pose proof (lo_place _ _ _ L) as (P1 & P2 & P3). pose proof (lo_room _ _ _ L) as Hr.
  assert (busy V = dom (v_pin V)) as Hb. { unfold busy. rewrite Hh, map_to_list_empty. cbn [map list_to_set foldr]. by rewrite (left_id_L ∅ (∪)). }
  unfold commit. mgo. rewrite (lo_n _ _ _ L), Hl. change (0 <? Z.of_nat NBUF) with true. cbn [when]. apply bind_Panic. unfold write_log. mgo. rewrite (lo_n _ _ _ L), Hl.
  change (Z.to_nat (Z.of_nat NBUF)) with (Datatypes.S 29). cbn [write_loop]. mgo. apply bind_Panic. rewrite (lo_dev _ _ _ L), u32_small by (unfold is_u32; rewrite Hl in Hr; unfold NBUF in Hr; lia).
  unfold cop, zoom. change (c_bread 1) with (bread 1). rewrite (bread_full (lg_c s) V); [done|apply L| |].
  - rewrite Hb, size_dom, (pin_size s V blks L). lia.
  - rewrite Hb, elem_of_dom, (unpinned s V blks L); [by intros [? ?]|]. rewrite Hl in Hr. unfold NBUF in Hr. lia.
Qed.

Lemma log_reservation_witness : exists (s0 s : lst bst) ops,
  rtc lstep (s0, []) (s, ops) /\ lg_outstanding s = 1 /\ lh_n s + spare ops <= LOGSIZE.
Proof.
  destruct (binit_ok blank_disk 5 blank_disk_ok) as (c & _ & C).
  exists (log_at c 31 0 []). eexists. exists [∅].
  assert (rtc lstep (log_at c 31 0 [], []) (set_outstanding 1 (log_at c 31 0 []), [∅])) as R.
  { eapply rtc_l; [|apply rtc_refl]. apply (ls_begin _ []). reflexivity. }
  split; [exact R|]. split; [reflexivity|].
  exact (proj1 (proj2 (proj2 (proj2 (log_reservation (log_at c 31 0 []) _ [∅] eq_refl eq_refl eq_refl eq_refl eq_refl R))))).
Defined.

(** C38. The log's reservation ends where its space and the buffers do. In an idle system with an empty log, three operations begin,
    change and log distinct blocks outside the log, LOGSIZE together at most as [begin_op] lets them, and end.
    With at least one block, but fewer than LOGSIZE and than the log has, its header included, all are written home. In a log
    of LOGSIZE blocks or fewer, the header included, [log_write] panics as soon as they log as many blocks as
    the log has. In a larger one LOGSIZE blocks are logged, but then the commit panics: all NBUF buffers are
    pinned and none is left for the log. *)
Theorem log_full_panics (s : lst bst) V ws : log_ok s V [] -> v_held V = ∅ -> lg_outstanding s = 0 -> lg_committing s = false -> fresh s V [] ws ->
  let n := Z.of_nat (length ws) in
  (n <= LOGSIZE -> n < lg_size s -> exists s', three_ops ws s = Ok tt s' /\ log_ok s' (pin_all V ws) (map fst ws) /\ lh_n s' = n /\ lg_outstanding s' = 3) /\
  (0 < n < LOGSIZE -> n < lg_size s -> exists s' V', (three_ops ws;; three_ends) s = Ok tt s' /\ lh_n s' = 0 /\ lg_outstanding s' = 0 /\ cache_ok (lg_c s') V' /\ v_pin V' = ∅ /\
     forall m, home (lg_start s) (lg_size s) (v_disk V) m -> (m ∉ map fst ws -> disk_at (v_disk V') m = disk_at (v_disk V) m) /\ forall d, (m, d) ∈ ws -> disk_at (v_disk V') m = d) /\
  (lg_size s <= LOGSIZE -> lg_size s <= n -> three_ops ws s = Panic "too big a transaction") /\
  (LOGSIZE < lg_size s -> n = LOGSIZE -> (three_ops ws;; three_ends) s = Panic "bget: no buffers").
Proof.
  intros L Hh Ho Hc F n. rewrite (three_begin s V ws L Ho Hc). pose proof (log_ok_ops s V 3 (lg_committing s) [] L) as L0. change (set_committing (lg_committing s) (set_outstanding 3 s)) with (set_outstanding 3 s) in L0.
  assert (n <= LOGSIZE -> n < lg_size s -> exists k c bs, let s1 := set_n k (set_block bs (set_c c (set_outstanding 3 s))) in log_blocks ws (set_outstanding 3 s) = Ok tt s1 /\ log_ok s1 (pin_all V ws) (map fst ws)) as Hrun.
  { intros H1 H2. destruct (log_blocks_ok ws (set_outstanding 3 s) V [] L0 Hh F ltac:(done)) as (k & c & bs & E & L1); [done..|]. by exists k, c, bs. }
  assert (v_held (pin_all V ws) = ∅) as Hhp by (by rewrite (proj1 (pin_all_fields ws V))).
  split_and!.
  - intros H1 H2. destruct (Hrun H1 H2) as (k & c & bs & E & L1). eexists. split; [exact E|]. split; [exact L1|]. split; [|done]. rewrite (lo_n _ _ _ L1), length_map. done.
  - intros [H0 H1] H2. destruct (Hrun ltac:(lia) H2) as (k & c & bs & E & L1). set (s1 := set_n k _) in *. erewrite bind_Ok; [|rewrite (three_begin s V ws L Ho Hc); exact E].
    rewrite (three_end s1 (lo_lock _ _ _ L1) Hc eq_refl). pose proof (log_ok_ops s1 _ 0 true _ L1) as L2.
    destruct (commit_atomic _ _ _ L2 Hhp) as (c' & V' & W & E' & C' & P' & _ & _ & _ & _ & D & _); [rewrite length_map; change c_nbuf with NBUF; unfold NBUF, LOGSIZE in *; lia|].
    rewrite (bind_Ok _ _ _ _ _ E'). unfold acquire_log. mstep zoom_Ok; [|cbn [lg_lock set_n set_c set_committing set_outstanding]; by rewrite (lo_lock _ _ _ L1)]. eexists _, V'.
    split; [reflexivity|]. split; [done|]. split; [done|]. split; [exact C'|]. split; [done|]. intros m Hm. rewrite (D m) by (cbn; by rewrite (proj2 (pin_all_fields ws V))). unfold content. split.
    + intros Hni. rewrite pin_all_other, (proj2 (pin_all_fields ws V)) by done. destruct (v_pin V !! m) eqn:Ep; [|done]. pose proof (proj1 (lo_pin _ _ _ L m) (ex_intro _ _ Ep)) as Hin. by apply elem_of_nil in Hin.
    + intros d Hd. by rewrite (pin_all_in ws V m d (proj1 F) Hd).
  - intros H1 H2. by apply (log_blocks_full ws _ V [] L0 Hh F).
  - intros H1 H2. destruct (Hrun ltac:(lia) ltac:(lia)) as (k & c & bs & E & L1). set (s1 := set_n k _) in *. erewrite bind_Ok; [|rewrite (three_begin s V ws L Ho Hc); exact E].
    rewrite (three_end s1 (lo_lock _ _ _ L1) Hc eq_refl). apply bind_Panic. apply (commit_no_buffer _ _ _ (log_ok_ops s1 _ 0 true _ L1) Hhp). rewrite length_map. unfold n, LOGSIZE in H2. unfold NBUF. lia.
Qed.

(** Blocks 40 to 69 of a blank disk, in a log of 30 blocks and in one of 31. *)
Definition thirty : list (Z * block) := map (fun i => (40 + Z.of_nat i, zero_block)) (seq 0 30).
Lemma thirty_fresh c size : 0 < size <= 31 -> fresh (log_at c size 0 []) (View blank_disk ∅ ∅ []) [] thirty.
Proof.
  intros Hs. split.
  - unfold thirty. rewrite map_map. cbn [app fst]. apply NoDup_fmap; [intros i j; lia|apply NoDup_seq].
  - apply Forall_forall. intros w (i & -> & Hi%elem_of_seq)%list_elem_of_fmap. cbn [fst snd lg_start lg_size log_at v_disk]. split; [|split; [done|by apply Forall_replicate]].
    split; [change (disk_len blank_disk) with 80; lia|lia].
Qed.
Lemma empty_log c size : cache_ok c (View blank_disk ∅ ∅ []) -> 0 < size <= 31 -> log_ok (log_at c size 0 []) (View blank_disk ∅ ∅ []) [].
Proof.
  intros C Hs. split; cbn [lg_c lg_lock lg_dev lg_start lg_size lh_n lh_block log_at v_disk v_pin length]; try done; try constructor; try lia.
  - split; [|lia]. change (disk_len blank_disk) with 80. lia.
  - intros [d Hd]. by rewrite lookup_empty in Hd.
  - by intros ?%elem_of_nil.
Qed.
Lemma log_full_panics_witness : exists c : bst, three_ops thirty (log_at c 30 0 []) = Panic "too big a transaction" /\
  (three_ops thirty;; three_ends) (log_at c 31 0 []) = Panic "bget: no buffers".
Proof.
  destruct (binit_ok blank_disk 5 blank_disk_ok) as (c & _ & C). exists c. split.
  - destruct (log_full_panics (log_at c 30 0 []) _ thirty (empty_log c 30 C ltac:(lia)) eq_refl eq_refl eq_refl (thirty_fresh c 30 ltac:(lia))) as (_ & _ & H & _). apply H; vm_compute; discriminate.
  - destruct (log_full_panics (log_at c 31 0 []) _ thirty (empty_log c 31 C ltac:(lia)) eq_refl eq_refl eq_refl (thirty_fresh c 31 ltac:(lia))) as (_ & _ & _ & H). apply H; vm_compute; reflexivity.
Defined.
