(* ===== verification/Journal.v ===== *)
(** * The interface between the log and the file system

    [Journal] is what log.c with bio.c promises to fs.c inside a transaction: blocks
    are read into buffers, changed there, logged and released. A process may hold
    [MAXHELD] buffers at a time and log as many new blocks as it has credit for; within
    those bounds no operation panics or waits. The blocks from 2 to [d_low] belong to the
    journal itself. [LogJournal] gives the instance. *)

From S2P Require Import Prelude Cache.

Definition MAXHELD : nat := 3.

(** [j_blocks]: the contents of the blocks, as a read sees them; [j_held]: the buffers
    held; [j_logged]: the blocks logged since the last commit. *)
Record jview := JView {
  j_blocks : list block;
  j_held : gmap nat (Z * block);
  j_logged : gset Z;
  j_credit : nat
}.
Definition j_at (V : jview) (n : Z) : block := disk_at (j_blocks V) n.
Definition j_len (V : jview) : Z := disk_len (j_blocks V).
Definition j_free (V : jview) (n : Z) : Prop := forall b d, j_held V !! b <> Some (n, d).

Definition j_hold (b : nat) (n : Z) (d : block) (V : jview) : jview :=
  JView (j_blocks V) (<[b := (n, d)]> (j_held V)) (j_logged V) (j_credit V).
Definition j_drop (b : nat) (V : jview) : jview :=
  JView (j_blocks V) (delete b (j_held V)) (j_logged V) (j_credit V).
(** A block more in the log. *)
Definition j_spend (n : Z) (V : jview) : nat := if decide (n ∈ j_logged V) then j_credit V else pred (j_credit V).
Definition j_log (n : Z) (d : block) (V : jview) : jview :=
  JView (disk_set (j_blocks V) n d) (j_held V) ({[n]} ∪ j_logged V) (j_spend n V).

(** The operations the file system calls; and what holds of them. *)
Class JournalOps (S : Type) := {
  d_bread : Z -> Z -> M S nat;
  d_brelse : nat -> M S unit;
  d_data : nat -> M S block;
  d_put : nat -> block -> M S unit;
  d_log_write : nat -> M S unit
}.
Class Journal (S : Type) {O : JournalOps S} := {
  d_low : Z;
  d_ok : S -> jview -> Prop;
  d_bread_ok : forall s V n, d_ok s V -> 0 <= n < j_len V -> j_free V n -> (size (j_held V) < MAXHELD)%nat ->
    exists b s', d_bread 1 n s = Ok b s' /\ j_held V !! b = None /\ d_ok s' (j_hold b n (j_at V n) V);
  d_data_ok : forall s V b n d, d_ok s V -> j_held V !! b = Some (n, d) -> d_data b s = Ok d s;
  d_put_ok : forall s V b n d d', d_ok s V -> j_held V !! b = Some (n, d) -> block_ok d' ->
    exists s', d_put b d' s = Ok tt s' /\ d_ok s' (j_hold b n d' V);
  d_log_write_ok : forall s V b n d, d_ok s V -> j_held V !! b = Some (n, d) -> d_low <= n -> n ∈ j_logged V \/ (0 < j_credit V)%nat ->
    exists s', d_log_write b s = Ok tt s' /\ d_ok s' (j_log n d V);
  d_brelse_ok : forall s V b n d, d_ok s V -> j_held V !! b = Some (n, d) -> j_at V n = d ->
    exists s', d_brelse b s = Ok tt s' /\ d_ok s' (j_drop b V);
  d_blocks_ok : forall s V, d_ok s V -> Forall block_ok (j_blocks V)
}.
