(* ===== verification/LogJournal.v ===== *)
(** * The log implements the journal the file system uses

    Inside a transaction the log over any [BlockCache] is a [Journal]: the blocks a read
    sees are the pinned buffers over the disk [D] as it was when the transaction began,
    and the credit of the operation is space that the log and the cache both have.
    [begin_op] opens a transaction and [end_op] commits it, atomically under crashes. *)

From S2P Require Import Prelude Sleeplock Cache Log Journal.

#[export] Instance log_ops {S} `{BlockCache S} : JournalOps (lst S) := {
  d_bread dev n := cop (c_bread dev n);
  d_brelse b := cop (c_brelse b);
  d_data b := cop (c_data b);
  d_put b d := cop (c_put b d);
  d_log_write := log_write
}.

Section journal.
Context {S : Type} `{C : BlockCache S}.
(** Where the log is, and the cache at the start of the transaction. *)
Context (lstart lsize : Z) (V0 : bview).
Let D : list block := v_disk V0.

(** What relates the log, the cache and the view. The last fields say that the credit can be spent. *)
Record in_transaction (s : lst S) (V : bview) (W : jview) (blks : list Z) : Prop := {
  it_log : log_ok s V blks;
  it_place : lg_start s = lstart /\ lg_size s = lsize;
  it_disk : v_disk V = D;
  it_writes : v_writes V = v_writes V0;
  it_open : lg_outstanding s = 1 /\ lg_committing s = false;
  it_logged : j_logged W = list_to_set blks;
  it_low : Forall (fun n => lstart + lsize <= n) blks;
  it_held : j_held W = v_held V;
  it_len : j_len W = disk_len D /\ j_len W < 2 ^ 31;
  it_blocks : forall n, 0 <= n < j_len W -> j_at W n = content V n;
  it_log_room : Z.of_nat (length blks + j_credit W) + 1 < lsize /\ Z.of_nat (length blks + j_credit W) < LOGSIZE;
  it_cache_room : (length blks + j_credit W + MAXHELD <= c_nbuf)%nat
}.
Definition journal_ok (s : lst S) (W : jview) : Prop := exists V blks, in_transaction s V W blks.

Lemma pinned_count s V W blks : in_transaction s V W blks -> size (v_pin V) = length blks.
Proof.
  intros I. pose proof (it_log _ _ _ _ I) as L. rewrite <- size_dom.
  assert (dom (v_pin V) = list_to_set blks) as ->.
  { apply set_eq. intros m. rewrite elem_of_dom, elem_of_list_to_set. apply (lo_pin _ _ _ L). }
  apply size_list_to_set, (lo_nodup _ _ _ L).
Qed.

(** A change of the cache alone. *)
Lemma it_cache_step s V V' W W' blks c : in_transaction s V W blks -> c_ok c V' -> v_disk V' = v_disk V -> v_pin V' = v_pin V -> v_writes V' = v_writes V ->
  j_held W' = v_held V' -> j_blocks W' = j_blocks W -> j_logged W' = j_logged W -> j_credit W' = j_credit W ->
  in_transaction (set_c c s) V' W' blks.
Proof.
  intros [L Hp Hd Hw Ho Hl Hlow Hh Hlen Hb Hr Hc] Hok Ed Ep Ew Eh Eb El Ec. split; try done.
  - destruct L. split; cbn; rewrite ?Ed, ?Ep; done.
  - by rewrite Ed.
  - by rewrite Ew.
  - by rewrite El.
  - unfold j_len. by rewrite Eb.
  - intros n Hn. unfold j_len, j_at, content in *. rewrite Eb, Ed, Ep in *. by apply Hb.
  - by rewrite Ec.
  - by rewrite Ec.
Qed.

Lemma journal_bread_ok s W n : journal_ok s W -> 0 <= n < j_len W -> j_free W n -> (size (j_held W) < MAXHELD)%nat ->
  exists b s', d_bread 1 n s = Ok b s' /\ j_held W !! b = None /\ journal_ok s' (j_hold b n (j_at W n) W).
Proof.
  intros (V & blks & I) Hn Hf Hh. destruct (it_len _ _ _ _ I) as [Hl _].
  destruct (c_bread_ok (lg_c s) V n (lo_c _ _ _ (it_log _ _ _ _ I))) as (b & c & E & Hb & Hc).
  - by rewrite (it_disk _ _ _ _ I), <- Hl.
  - intros b d. rewrite <- (it_held _ _ _ _ I). apply Hf.
  - right. rewrite (pinned_count _ _ _ _ I). rewrite (it_held _ _ _ _ I) in Hh. pose proof (it_cache_room _ _ _ _ I). lia.
  - exists b, (set_c c s). split; [cbn; unfold cop; by erewrite zoom_Ok|]. rewrite (it_held _ _ _ _ I). split; [done|].
    exists (held_set b n (content V n) V), blks. eapply it_cache_step; try done. cbn.
    by rewrite (it_held _ _ _ _ I), (it_blocks _ _ _ _ I n Hn).
Qed.

Lemma journal_data_ok s W b n d : journal_ok s W -> j_held W !! b = Some (n, d) -> d_data b s = Ok d s.
Proof.
  intros (V & blks & I) Hb. rewrite (it_held _ _ _ _ I) in Hb. cbn. unfold cop.
  erewrite zoom_Ok; [|by eapply c_data_ok; [apply (it_log _ _ _ _ I)|]]. by destruct s.
Qed.

Lemma journal_put_ok s W b n d d' : journal_ok s W -> j_held W !! b = Some (n, d) -> block_ok d' ->
  exists s', d_put b d' s = Ok tt s' /\ journal_ok s' (j_hold b n d' W).
Proof.
  intros (V & blks & I) Hb Hd. rewrite (it_held _ _ _ _ I) in Hb.
  destruct (c_put_ok _ _ b n d d' (lo_c _ _ _ (it_log _ _ _ _ I)) Hb Hd) as (c & E & Hc).
  exists (set_c c s). split; [cbn; unfold cop; by erewrite zoom_Ok|]. exists (held_set b n d' V), blks.
  eapply it_cache_step; try done. cbn. by rewrite (it_held _ _ _ _ I).
Qed.

Lemma journal_brelse_ok s W b n d : journal_ok s W -> j_held W !! b = Some (n, d) -> j_at W n = d ->
  exists s', d_brelse b s = Ok tt s' /\ journal_ok s' (j_drop b W).
Proof.
  intros (V & blks & I) Hb Hd. rewrite (it_held _ _ _ _ I) in Hb. destruct (it_len _ _ _ _ I) as [Hl _].
  pose proof (lo_c _ _ _ (it_log _ _ _ _ I)) as Hok. destruct (c_held_ok _ _ _ _ _ Hok Hb) as (_ & Hn & _).
  rewrite (it_disk _ _ _ _ I), <- Hl in Hn.
  destruct (c_brelse_ok _ _ b n d Hok Hb) as (c & E & Hc); [by rewrite <- (it_blocks _ _ _ _ I)|].
  exists (set_c c s). split; [cbn; unfold cop; by erewrite zoom_Ok|]. exists (held_drop b V), blks.
  eapply it_cache_step; try done. cbn. by rewrite (it_held _ _ _ _ I).
Qed.

Lemma content_pinned n d V m : content (pinned n d V) m = if decide (m = n) then d else content V m.
Proof.
  unfold content. cbn. destruct (decide (m = n)) as [->|N]; [by rewrite lookup_insert_eq|by rewrite lookup_insert_ne].
Qed.

Lemma journal_log_write_ok s W b n d : journal_ok s W -> j_held W !! b = Some (n, d) -> lstart + lsize <= n ->
  n ∈ j_logged W \/ (0 < j_credit W)%nat -> exists s', d_log_write b s = Ok tt s' /\ journal_ok s' (j_log n d W).
Proof.
  intros (V & blks & I) Hb Hlow Hc. pose proof Hb as Hb'. rewrite (it_held _ _ _ _ I) in Hb'.
  destruct I as [L [Ps Pz] Hd Hw [Ho Hcm] Hl Hlw Hh [Hlen Hlen'] Hbl [Hr1 Hr2] Hcr]. pose proof (lo_c _ _ _ L) as Hok.
  destruct (c_held_ok _ _ _ _ _ Hok Hb') as (_ & Hn & _).
  destruct (log_write_step s V blks b n d L Hb') as (c & bs & E & L'); try lia.
  { split; [done|]. rewrite Ps, Pz. lia. }
  set (blks' := if decide (n ∈ blks) then blks else blks ++ [n]) in *. eexists. split; [exact E|]. exists (pinned n d V), blks'.
  assert (length blks' + j_spend n W = length blks + j_credit W)%nat as Hsp.
  { unfold j_spend, blks'. rewrite Hl. destruct (decide (n ∈ blks)) as [Hin|Hin].
    - by rewrite decide_True by (by apply elem_of_list_to_set).
    - rewrite decide_False by (by rewrite elem_of_list_to_set). rewrite length_app. cbn.
      destruct Hc as [Hc|]; [by rewrite Hl, elem_of_list_to_set in Hc|lia]. }
  rewrite Hd in Hn. split; try done; cbn [j_held j_credit j_logged j_log]; rewrite ?Hsp; try done.
  - rewrite Hl. unfold blks'. case_decide as Hin; [|set_solver]. assert (n ∈ (list_to_set blks : gset Z)) by (by apply elem_of_list_to_set). set_solver.
  - unfold blks'. case_decide; [done|]. apply Forall_app. split; [done|]. by apply Forall_singleton.
  - unfold j_len in *. cbn. by rewrite disk_len_set.
  - intros k Hk. unfold j_len in *. cbn in Hk. rewrite disk_len_set in Hk. rewrite content_pinned. unfold j_at. cbn.
    rewrite disk_at_set by lia. destruct (decide (k = n)); [done|]. by apply Hbl.
Qed.

Lemma journal_blocks_ok s W : journal_ok s W -> Forall block_ok (j_blocks W).
Proof.
  intros (V & blks & I). destruct (it_len _ _ _ _ I) as [Hl _]. apply Forall_lookup. intros i d Hd.
  pose proof (lookup_lt_Some _ _ _ Hd) as Hi.
  assert (j_at W (Z.of_nat i) = d) as <- by (unfold j_at, disk_at; by rewrite Nat2Z.id, Hd).
  assert (0 <= Z.of_nat i < j_len W) as Hr by (unfold j_len, disk_len; lia).
  rewrite (it_blocks _ _ _ _ I) by done. eapply c_content_ok; [apply (it_log _ _ _ _ I)|]. by rewrite (it_disk _ _ _ _ I), <- Hl.
Qed.

Definition log_journal : Journal (lst S) := {|
  d_low := lstart + lsize;
  d_ok := journal_ok;
  d_bread_ok := journal_bread_ok;
  d_data_ok := journal_data_ok;
  d_put_ok := journal_put_ok;
  d_log_write_ok := journal_log_write_ok;
  d_brelse_ok := journal_brelse_ok;
  d_blocks_ok := journal_blocks_ok
|}.
End journal.

(** ** Whole transactions *)

Section transaction.
Context {S : Type} `{C : BlockCache S}.
Context (lstart lsize : Z).

(** The log when no operation is open: nothing is logged, and an operation fits. *)
Record log_idle (s : lst S) (V : bview) : Prop := {
  li_log : log_ok s V [];
  li_place : lg_start s = lstart /\ lg_size s = lsize;
  li_closed : lg_outstanding s = 0 /\ lg_committing s = false;
  li_held : v_held V = ∅;
  li_len : disk_len (v_disk V) < 2 ^ 31;
  li_room : MAXOPBLOCKS + 1 < lsize;
  li_cache : (Z.to_nat MAXOPBLOCKS + MAXHELD <= c_nbuf)%nat
}.

Lemma no_pins s V : log_ok s V [] -> v_pin V = ∅.
Proof.
  intros L. apply map_empty. intros m. destruct (v_pin V !! m) eqn:E; [|done]. exfalso.
  assert (m ∈ @nil Z) as Hm by (apply (lo_pin _ _ _ L); by eexists). by apply elem_of_nil in Hm.
Qed.

Lemma set_outstanding_log_ok s V blks o : log_ok s V blks -> log_ok (set_outstanding o s) V blks.
Proof. by intros []; split. Qed.

(** A new transaction sees the disk. *)
Definition opened_view (V : bview) : jview := JView (v_disk V) ∅ ∅ (Z.to_nat MAXOPBLOCKS).

Lemma begin_op_ok s V : log_idle s V ->
  begin_op s = Ok tt (set_outstanding 1 s) /\ journal_ok lstart lsize V (set_outstanding 1 s) (opened_view V).
Proof.
  intros [L Hp [Ho Hc] Hh Hl Hr Hn]. split.
  - unfold begin_op. destruct s as [c l st sz o cm dv k bs]. cbn in *. pose proof (lo_lock _ _ _ L) as El. pose proof (lo_n _ _ _ L) as En.
    cbn in El, En. by subst.
  - exists V, []. split; try done; cbn; try lia.
    + by apply set_outstanding_log_ok.
    + intros n _. unfold content, j_at. cbn. by rewrite (no_pins _ _ L), lookup_empty.
Qed.

(** The outcome of a transaction that began on the disk [D] and ended with the blocks of [W]:
    the writes [ws] of its commit, and what a crash between them leaves. *)
Record committed (D : list block) (W : jview) (ws : list (Z * block)) : Prop := {
  cm_done : forall m, home lstart lsize D m -> disk_at (apply_writes D ws) m = j_at W m;
  cm_crash : forall k, let Dk := apply_writes D (take k ws) in
    recoverable lstart lsize Dk /\
    ((forall m, home lstart lsize D m -> disk_at (recovered lstart Dk) m = disk_at D m) \/
     (forall m, home lstart lsize D m -> disk_at (recovered lstart Dk) m = j_at W m))
}.

Lemma end_op_commits s : lg_lock s = false -> lg_committing s = false -> lg_outstanding s = 1 ->
  end_op s = (commit;; acquire_log;; modify (set_committing false);; release_log) (set_committing true (set_outstanding 0 s)).
Proof. intros El Ec Eo. unfold end_op. destruct s as [c l st sz o cm dv k bs]. cbn in *. by subst. Qed.

Lemma end_op_ok V0 s W : journal_ok lstart lsize V0 s W -> j_held W = ∅ -> MAXOPBLOCKS + 1 < lsize -> (Z.to_nat MAXOPBLOCKS + MAXHELD <= c_nbuf)%nat ->
  exists s' V' ws, end_op s = Ok tt s' /\ log_idle s' V' /\ v_disk V' = apply_writes (v_disk V0) ws /\
    v_writes V' = v_writes V0 ++ ws /\ committed (v_disk V0) W ws.
Proof.
  intros (V & blks & I) Hh Hr Hn. destruct I as [L [Ps Pz] Hd Hw [Ho Hcm] Hl Hlw Hhd [Hlen Hlen'] Hbl [Hr1 Hr2] Hcr].
  rewrite Hh in Hhd. symmetry in Hhd.
  set (s1 := set_committing true (set_outstanding 0 s)).
  assert (log_ok s1 V blks) as L1 by (by destruct L; split).
  rewrite end_op_commits by (done || apply L). fold s1.
  assert (forall m, home lstart lsize (v_disk V0) m -> content V m = j_at W m) as Hcont.
  { intros m [Hm _]. symmetry. apply Hbl. by rewrite Hlen. }
  destruct (decide (blks = [])) as [->|Hne].
  - (* nothing was logged *)
    assert (commit s1 = Ok tt s1) as Ec.
    { unfold commit. rewrite bind_gets. by rewrite (lo_n _ _ _ L1). }
    exists (set_committing false s1), V, []. split.
    { mstep Ec. unfold s1. destruct s as [c l st sz o cm dv k bs]. pose proof (lo_lock _ _ _ L) as El. cbn in *. by subst. }
    split.
    { split; try done; [by destruct L1; split|by rewrite Hd, <- Hlen]. }
    split; [by rewrite Hd|]. split; [by rewrite app_nil_r|]. split.
    { intros m Hm. cbn. rewrite <- Hcont by done. unfold content. by rewrite (no_pins _ _ L), lookup_empty, Hd. }
    intros k Dk. unfold Dk. rewrite take_nil. cbn. pose proof (lo_hdr _ _ _ L) as Hz. rewrite Hd, Ps in Hz. pose proof (lo_place _ _ _ L) as Hpl. rewrite Hd, Ps, Pz in Hpl.
    split; [split; [done|]; rewrite Hz; unfold LOGSIZE, MAXOPBLOCKS in *; split; [lia|]; split; [lia|]; intros i Hi; lia|]. left.
    intros m Hm. unfold recovered. by rewrite installs_none.
  - destruct (commit_atomic s1 V blks L1 Hhd) as (c' & V' & ws & Ec & Hok & Hp0 & Hh0 & Hz0 & Hws & Hdk & Hdone & Hcrash).
    { split; [destruct blks; [done|cbn; lia]|unfold MAXHELD in *; lia]. }
    change (lg_start s1) with (lg_start s) in *. change (lg_size s1) with (lg_size s) in *. rewrite Ps, Pz, Hd in *.
    exists (set_committing false (set_n 0 (set_c c' s1))), V', ws. split.
    { mstep Ec. unfold s1. destruct s as [c l st sz o cm dv k bs]. pose proof (lo_lock _ _ _ L) as El. cbn in *. by subst. }
    assert (disk_len (v_disk V') = disk_len (v_disk V0)) as Hlen2 by (rewrite Hdk; apply aw_len).
    split.
    { split; try done; [|lia]. destruct L1 as [Q1 Q2 Q3 Q4 Q5 Q6 Q7 Q8 Q9 Q10 Q11 Q12].
      split; cbn in *; rewrite ?Hlen2, ?Ps, ?Pz; try done; try lia.
      - unfold log_place in *. rewrite Hlen2. rewrite Ps, Pz, Hd in Q4. done.
      - constructor.
      - intros m. rewrite Hp0, lookup_empty, elem_of_nil. split; [by intros []|done]. }
    split; [done|]. split; [by rewrite Hws, Hw|]. split.
    + intros m Hm. rewrite <- Hdk, Hdone by done. by apply Hcont.
    + intros k Dk. destruct (Hcrash k) as [A1 A2]. split; [done|]. destruct (decide (k <= length blks)%nat); [left|right]; intros m Hm.
      * by apply A2.
      * unfold Dk. by rewrite A2, Hcont.
Qed.
End transaction.
