(* ===== verification/Fs.v ===== *)
(** * The file system: p6/fs.c over the interface of the log

    [fsys] is the state of fs.c above a [Journal]: the superblock, the inode cache with
    its spinlock, the process and its working directory. An inode pointer is its index
    in the cache. Paths and names are the bytes before the NUL; a directory entry is
    16 bytes. [devsw] is the table of device drivers. Reading returns the bytes it
    stores at [dst]. [Hang] is where the process would wait for another one. *)

From S2P Require Import Prelude Sleeplock Cache Log Journal.

Definition ROOTINO : Z := 1.
Definition ROOTDEV : Z := 1.
Definition NINODE : nat := 50.
Definition NDEV : Z := 10.
Definition NDIRECT : nat := 12.
Definition NINDIRECT : nat := 128.                     (* BSIZE / sizeof(uint) *)
Definition MAXFILE : Z := Z.of_nat NDIRECT + Z.of_nat NINDIRECT.
Definition IPB : Z := 8.                                (* BSIZE / sizeof(struct dinode) *)
Definition DINODE : Z := 64.
Definition BPB : Z := BSIZE * 8.
Definition DIRSIZ : nat := 14.
Definition DIRENT : Z := 16.
Definition T_DIR : Z := 1.
Definition T_FILE : Z := 2.
Definition T_DEV : Z := 3.
Definition IBLOCK (i : Z) (sb : superblock) : Z := u32 (i / IPB + sb_inodestart sb).
Definition BBLOCK (b : Z) (sb : superblock) : Z := u32 (b / BPB + sb_bmapstart sb).

Definition s16 (x : Z) : Z := (x + 2 ^ 15) `mod` 2 ^ 16 - 2 ^ 15.

Record inode := Inode {
  i_dev : Z; i_inum : Z; i_ref : Z; i_lock : sleeplock; i_valid : bool;
  i_type : Z; i_major : Z; i_minor : Z; i_nlink : Z; i_size : Z; i_addrs : list Z
}.
Definition set_iref v i := Inode (i_dev i) (i_inum i) v (i_lock i) (i_valid i) (i_type i) (i_major i) (i_minor i) (i_nlink i) (i_size i) (i_addrs i).
Definition set_ilock v i := Inode (i_dev i) (i_inum i) (i_ref i) v (i_valid i) (i_type i) (i_major i) (i_minor i) (i_nlink i) (i_size i) (i_addrs i).
Definition set_ivalid v i := Inode (i_dev i) (i_inum i) (i_ref i) (i_lock i) v (i_type i) (i_major i) (i_minor i) (i_nlink i) (i_size i) (i_addrs i).
Definition set_itype v i := Inode (i_dev i) (i_inum i) (i_ref i) (i_lock i) (i_valid i) v (i_major i) (i_minor i) (i_nlink i) (i_size i) (i_addrs i).
Definition set_isize v i := Inode (i_dev i) (i_inum i) (i_ref i) (i_lock i) (i_valid i) (i_type i) (i_major i) (i_minor i) (i_nlink i) v (i_addrs i).
Definition set_iaddrs v i := Inode (i_dev i) (i_inum i) (i_ref i) (i_lock i) (i_valid i) (i_type i) (i_major i) (i_minor i) (i_nlink i) (i_size i) v.

(** ** The disk inode in its block *)

Definition dinode_at (inum : Z) : Z := inum `mod` IPB * DINODE.
Definition load_addrs (d : block) (o : Z) : list Z :=
  map (fun k => ld32 d (o + 12 + 4 * Z.of_nat k)) (seq 0 (S NDIRECT)).
Definition load_dinode (d : block) (o : Z) (i : inode) : inode :=
  Inode (i_dev i) (i_inum i) (i_ref i) (i_lock i) (i_valid i)
    (s16 (ld16 d o)) (s16 (ld16 d (o + 2))) (s16 (ld16 d (o + 4))) (s16 (ld16 d (o + 6))) (ld32 d (o + 8)) (load_addrs d o).
Definition dinode_bytes (i : inode) : list Z :=
  le16 (i_type i) ++ le16 (i_major i) ++ le16 (i_minor i) ++ le16 (i_nlink i) ++ le32 (i_size i) ++ (i_addrs i ≫= le32).

(** ** Directory entries and paths *)

Definition de_inum (de : list Z) : Z := ld16 de 0.
Definition de_name (de : list Z) : list Z := drop 2 de.
(** [strncpy_bytes] of a name into the [n] bytes of an entry. *)
Fixpoint strncpy_bytes (n : nat) (s : list Z) : list Z :=
  match n, s with
  | O, _ => []
  | S n', c :: s' => if c =? 0 then replicate n 0 else c :: strncpy_bytes n' s'
  | S n', [] => replicate n 0
  end.
(** [strncmp_bytes(s, t, n)], where the end of the list is the NUL. *)
Fixpoint strncmp_bytes (n : nat) (s t : list Z) : Z :=
  match n with
  | O => 0
  | S n' =>
    let p := hd 0 s in let q := hd 0 t in
    if (p =? 0) || negb (p =? q) then p - q else strncmp_bytes n' (tl s) (tl t)
  end.
Definition namecmp (s t : list Z) : Z := strncmp_bytes DIRSIZ s t.

Definition SLASH : Z := 47.
Fixpoint slashes (path : list Z) : list Z :=
  match path with c :: path' => if c =? SLASH then slashes path' else path | [] => [] end.
Fixpoint element (path : list Z) : list Z * list Z :=
  match path with
  | [] => ([], [])
  | c :: path' => if c =? SLASH then ([], path) else let '(e, r) := element path' in (c :: e, r)
  end.
(** The rest of the path, and the [DIRSIZ] bytes of [name]. *)
Definition skipelem (path name : list Z) : option (list Z * list Z) :=
  match slashes path with
  | [] => None
  | path =>
    let '(s, path) := element path in
    let len := length s in
    let name := if (DIRSIZ <=? len)%nat then take DIRSIZ s else s ++ [0] ++ drop (S len) name in
    Some (slashes path, name)
  end.

Section fs.
Context {S : Type} `{J : JournalOps S}.

Record fsys := Fsys {
  fs_d : S; sb : superblock; ic_lock : bool; ic_inode : list inode; mypid : Z; cwd : nat
}.
Definition set_d v s := Fsys v (sb s) (ic_lock s) (ic_inode s) (mypid s) (cwd s).
Definition set_sb v s := Fsys (fs_d s) v (ic_lock s) (ic_inode s) (mypid s) (cwd s).
Definition set_iclock v s := Fsys (fs_d s) (sb s) v (ic_inode s) (mypid s) (cwd s).
Definition set_inodes v s := Fsys (fs_d s) (sb s) (ic_lock s) v (mypid s) (cwd s).

Definition dop {A} (m : M S A) : M fsys A := zoom fs_d set_d m.
Definition jbread dev n := dop (d_bread dev n).
Definition jbrelse b := dop (d_brelse b).
Definition data b := dop (d_data b).
Definition put b d := dop (d_put b d).
Definition jlog_write b := dop (d_log_write b).

Definition acquire_icache : M fsys unit := zoom ic_lock set_iclock spin_acquire.
Definition release_icache : M fsys unit := zoom ic_lock set_iclock spin_release.
Definition get_inode (i : nat) : M fsys inode := l ← gets ic_inode; of_option (l !! i).
Definition upd_inode (i : nat) (f : inode -> inode) : M fsys unit :=
  n ← get_inode i; modify (fun s => set_inodes (<[i := f n]> (ic_inode s)) s).
Definition on_ilock {A} (i : nat) (m : M sleeplock A) : M fsys A := fun s =>
  match ic_inode s !! i with
  | None => Undef
  | Some n =>
    match m (i_lock n) with
    | Ok a l => Ok a (set_inodes (<[i := set_ilock l n]> (ic_inode s)) s)
    | Panic e => Panic e | Hang => Hang | Undef => Undef
    end
  end.

(** ** Blocks *)

Definition fs_readsb (dev : Z) : M fsys superblock :=
  bp ← jbread dev 1;
  d ← data bp;
  jbrelse bp;;
  mret (sb_of d).

Definition bzero (dev bno : Z) : M fsys unit :=
  bp ← jbread dev bno;
  put bp (replicate (Z.to_nat BSIZE) 0);;
  jlog_write bp;;
  jbrelse bp.

(** The loop over the bits of one block of the bitmap: the block taken, if one is. *)
Fixpoint balloc_bits (fuel : nat) (dev : Z) (bp : nat) (b bi : Z) : M fsys (option Z) :=
  match fuel with
  | O => hang
  | Datatypes.S fuel' =>
    sb ← gets sb;
    if (bi <? BPB) && (b + bi <? sb_size sb) then
      let m := Z.shiftl 1 (bi `mod` 8) in
      d ← data bp;
      if Z.land (ld8 d (bi / 8)) m =? 0 then
        put bp (splice d (bi / 8) [Z.lor (ld8 d (bi / 8)) m]);;
        jlog_write bp;;
        jbrelse bp;;
        bzero dev (b + bi);;
        mret (Some (b + bi))
      else balloc_bits fuel' dev bp b (bi + 1)
    else mret None
  end.
Fixpoint balloc_blocks (fuel : nat) (dev b : Z) : M fsys Z :=
  match fuel with
  | O => hang
  | Datatypes.S fuel' =>
    sb ← gets sb;
    if b <? sb_size sb then
      bp ← jbread dev (BBLOCK b sb);
      r ← balloc_bits (Datatypes.S (Z.to_nat BPB)) dev bp b 0;
      match r with
      | Some n => mret n
      | None => jbrelse bp;; balloc_blocks fuel' dev (b + BPB)
      end
    else panic "balloc: out of blocks"
  end.
Definition balloc (dev : Z) : M fsys Z :=
  sb ← gets sb; balloc_blocks (Datatypes.S (Z.to_nat (sb_size sb))) dev 0.

Definition bfree (dev b : Z) : M fsys unit :=
  sb ← gets sb;
  bp ← jbread dev (BBLOCK b sb);
  let bi := b `mod` BPB in
  let m := Z.shiftl 1 (bi `mod` 8) in
  d ← data bp;
  if Z.land (ld8 d (bi / 8)) m =? 0 then panic "freeing free block" else
  put bp (splice d (bi / 8) [u8 (Z.ldiff (ld8 d (bi / 8)) m)]);;
  jlog_write bp;;
  jbrelse bp.

(** ** The inode cache *)

Definition iinit (dev : Z) : M fsys unit :=
  modify (set_iclock false);;
  modify (fun s => set_inodes (map (set_ilock sl_free) (ic_inode s)) s);;
  b ← fs_readsb dev;
  modify (set_sb b).

Fixpoint iget_find (k i : nat) (dev inum : Z) (empty : option nat) : M fsys (nat + option nat) :=
  match k with
  | O => mret (inr empty)
  | Datatypes.S k' =>
    ip ← get_inode i;
    if (0 <? i_ref ip) && (i_dev ip =? dev) && (i_inum ip =? inum) then mret (inl i) else
    iget_find k' (i + 1)%nat dev inum
      (if bool_decide (empty = None) && (i_ref ip =? 0) then Some i else empty)
  end.
Definition iget (dev inum : Z) : M fsys nat :=
  acquire_icache;;
  r ← iget_find NINODE 0 dev inum None;
  match r with
  | inl ip =>
    upd_inode ip (fun i => set_iref (s32 (i_ref i + 1)) i);;
    release_icache;;
    mret ip
  | inr None => panic "iget: no inodes"
  | inr (Some ip) =>
    upd_inode ip (fun i => Inode dev inum 1 (i_lock i) false (i_type i) (i_major i) (i_minor i) (i_nlink i) (i_size i) (i_addrs i));;
    release_icache;;
    mret ip
  end.

Fixpoint ialloc_loop (fuel : nat) (dev inum type : Z) : M fsys nat :=
  match fuel with
  | O => hang
  | Datatypes.S fuel' =>
    sb ← gets sb;
    if inum <? sb_ninodes sb then
      bp ← jbread dev (IBLOCK inum sb);
      d ← data bp;
      let o := dinode_at inum in
      if s16 (ld16 d o) =? 0 then
        put bp (splice d o (le16 type ++ replicate 62 0));;
        jlog_write bp;;
        jbrelse bp;;
        iget dev inum
      else
        jbrelse bp;;
        ialloc_loop fuel' dev (inum + 1) type
    else panic "ialloc: no inodes"
  end.
Definition ialloc (dev type : Z) : M fsys nat :=
  sb ← gets sb; ialloc_loop (Datatypes.S (Z.to_nat (sb_ninodes sb))) dev 1 type.

Definition iupdate (ip : nat) : M fsys unit :=
  i ← get_inode ip;
  sb ← gets sb;
  bp ← jbread (i_dev i) (IBLOCK (i_inum i) sb);
  d ← data bp;
  put bp (splice d (dinode_at (i_inum i)) (dinode_bytes i));;
  jlog_write bp;;
  jbrelse bp.

Definition idup (ip : nat) : M fsys nat :=
  acquire_icache;;
  upd_inode ip (fun i => set_iref (s32 (i_ref i + 1)) i);;
  release_icache;;
  mret ip.

Definition ilock (ip : nat) : M fsys unit :=
  i ← get_inode ip;
  if i_ref i <? 1 then panic "ilock" else
  me ← gets mypid;
  on_ilock ip (acquiresleep me);;
  i ← get_inode ip;
  if i_valid i then mret tt else
  sb ← gets sb;
  bp ← jbread (i_dev i) (IBLOCK (i_inum i) sb);
  d ← data bp;
  upd_inode ip (load_dinode d (dinode_at (i_inum i)));;
  jbrelse bp;;
  upd_inode ip (set_ivalid true);;
  i ← get_inode ip;
  if i_type i =? 0 then panic "ilock: no type" else mret tt.

Definition iunlock (ip : nat) : M fsys unit :=
  me ← gets mypid;
  h ← on_ilock ip (holdingsleep me);
  i ← get_inode ip;
  if negb h || (i_ref i <? 1) then panic "iunlock" else
  on_ilock ip releasesleep.

(** ** The contents of an inode *)

Definition get_addr (ip k : nat) : M fsys Z := i ← get_inode ip; of_option (i_addrs i !! k).
Definition put_addr (ip k : nat) (a : Z) : M fsys unit := upd_inode ip (fun i => set_iaddrs (<[k := a]> (i_addrs i)) i).

Definition bmap (ip : nat) (bn : Z) : M fsys Z :=
  i ← get_inode ip;
  if bn <? Z.of_nat NDIRECT then
    addr ← get_addr ip (Z.to_nat bn);
    if addr =? 0 then
      addr ← balloc (i_dev i);
      put_addr ip (Z.to_nat bn) addr;;
      mret addr
    else mret addr
  else
  let bn := bn - Z.of_nat NDIRECT in
  if bn <? Z.of_nat NINDIRECT then
    addr ← get_addr ip NDIRECT;
    addr ← (if addr =? 0 then
              addr ← balloc (i_dev i);
              put_addr ip NDIRECT addr;;
              mret addr
            else mret addr);
    bp ← jbread (i_dev i) addr;
    a ← data bp;
    let addr := ld32 a (4 * bn) in
    if addr =? 0 then
      addr ← balloc (i_dev i);
      a ← data bp;
      put bp (st32 a (4 * bn) addr);;
      jlog_write bp;;
      jbrelse bp;;
      mret addr
    else
      jbrelse bp;;
      mret addr
  else panic "bmap: out of range".

(** The loops of [itrunc], over the [k] entries from [j]. *)
Fixpoint itrunc_direct (k j ip : nat) : M fsys unit :=
  match k with
  | O => mret tt
  | Datatypes.S k' =>
    i ← get_inode ip;
    a ← get_addr ip j;
    when (negb (a =? 0)) (bfree (i_dev i) a;; put_addr ip j 0);;
    itrunc_direct k' (j + 1)%nat ip
  end.
Fixpoint itrunc_indirect (k : nat) (j : Z) (ip bp : nat) : M fsys unit :=
  match k with
  | O => mret tt
  | Datatypes.S k' =>
    i ← get_inode ip;
    a ← data bp;
    when (negb (ld32 a (4 * j) =? 0)) (bfree (i_dev i) (ld32 a (4 * j)));;
    itrunc_indirect k' (j + 1) ip bp
  end.
Definition itrunc (ip : nat) : M fsys unit :=
  itrunc_direct NDIRECT 0 ip;;
  i ← get_inode ip;
  a ← get_addr ip NDIRECT;
  when (negb (a =? 0))
    (bp ← jbread (i_dev i) a;
     itrunc_indirect NINDIRECT 0 ip bp;;
     jbrelse bp;;
     a ← get_addr ip NDIRECT;
     bfree (i_dev i) a;;
     put_addr ip NDIRECT 0);;
  upd_inode ip (set_isize 0);;
  iupdate ip.

Definition iput (ip : nat) : M fsys unit :=
  me ← gets mypid;
  on_ilock ip (acquiresleep me);;
  i ← get_inode ip;
  when (i_valid i && (i_nlink i =? 0))
    (acquire_icache;;
     i ← get_inode ip;
     let r := i_ref i in
     release_icache;;
     when (r =? 1)
       (itrunc ip;;
        upd_inode ip (set_itype 0);;
        iupdate ip;;
        upd_inode ip (set_ivalid false)));;
  on_ilock ip releasesleep;;
  acquire_icache;;
  upd_inode ip (fun i => set_iref (s32 (i_ref i - 1)) i);;
  release_icache.

Definition iunlockput (ip : nat) : M fsys unit := iunlock ip;; iput ip.

Record stat := Stat { st_type : Z; st_dev : Z; st_ino : Z; st_nlink : Z; st_size : Z }.
Definition stati (ip : nat) : M fsys stat :=
  i ← get_inode ip; mret (Stat (i_type i) (s32 (i_dev i)) (i_inum i) (i_nlink i) (i_size i)).

(** ** Reading and writing *)

(** The device drivers: what [devsw] holds for a major number, if it has an entry. *)
Context (dev_read : Z -> option (nat -> Z -> M fsys (Z * list Z))).
Context (dev_write : Z -> option (nat -> list Z -> Z -> M fsys Z)).

Fixpoint readi_loop (fuel ip : nat) (tot off n : Z) (dst : list Z) : M fsys (list Z) :=
  match fuel with
  | O => hang
  | Datatypes.S fuel' =>
    if tot <? n then
      i ← get_inode ip;
      a ← bmap ip (off / BSIZE);
      bp ← jbread (i_dev i) a;
      let m := Z.min (n - tot) (BSIZE - off `mod` BSIZE) in
      d ← data bp;
      jbrelse bp;;
      readi_loop fuel' ip (u32 (tot + m)) (u32 (off + m)) n (dst ++ sub d (off `mod` BSIZE) m)
    else mret dst
  end.
Definition readi (ip : nat) (off n : Z) : M fsys (Z * list Z) :=
  i ← get_inode ip;
  if i_type i =? T_DEV then
    if (i_major i <? 0) || (NDEV <=? i_major i) then mret (-1, []) else
    match dev_read (i_major i) with
    | None => mret (-1, [])
    | Some read => read ip (s32 n)
    end
  else
  if (i_size i <? off) || (u32 (off + n) <? off) then mret (-1, []) else
  let n := if i_size i <? u32 (off + n) then u32 (i_size i - off) else n in
  dst ← readi_loop (Datatypes.S (Z.to_nat n)) ip 0 off n [];
  mret (s32 n, dst).

Fixpoint writei_loop (fuel ip : nat) (src : list Z) (tot off n : Z) : M fsys Z :=
  match fuel with
  | O => hang
  | Datatypes.S fuel' =>
    if tot <? n then
      i ← get_inode ip;
      a ← bmap ip (off / BSIZE);
      bp ← jbread (i_dev i) a;
      let m := Z.min (n - tot) (BSIZE - off `mod` BSIZE) in
      d ← data bp;
      put bp (splice d (off `mod` BSIZE) (sub src tot m));;
      jlog_write bp;;
      jbrelse bp;;
      writei_loop fuel' ip src (u32 (tot + m)) (u32 (off + m)) n
    else mret off
  end.
(** [src] has the [n] bytes to write at least. *)
Definition writei (ip : nat) (src : list Z) (off n : Z) : M fsys Z :=
  i ← get_inode ip;
  if i_type i =? T_DEV then
    if (i_major i <? 0) || (NDEV <=? i_major i) then mret (-1) else
    match dev_write (i_major i) with
    | None => mret (-1)
    | Some write => write ip src (s32 n)
    end
  else
  if (i_size i <? off) || (u32 (off + n) <? off) then mret (-1) else
  if MAXFILE * BSIZE <? u32 (off + n) then mret (-1) else
  off ← writei_loop (Datatypes.S (Z.to_nat n)) ip src 0 off n;
  i ← get_inode ip;
  when ((0 <? n) && (i_size i <? off))
    (upd_inode ip (set_isize off);;
     iupdate ip);;
  mret (s32 n).

(** ** Directories *)

Fixpoint dirlookup_loop (fuel dp : nat) (name : list Z) (off : Z) : M fsys (option (nat * Z)) :=
  match fuel with
  | O => hang
  | Datatypes.S fuel' =>
    i ← get_inode dp;
    if off <? i_size i then
      r ← readi dp off DIRENT;
      let '(n, de) := r in
      if negb (n =? DIRENT) then panic "dirlookup read" else
      if de_inum de =? 0 then dirlookup_loop fuel' dp name (u32 (off + DIRENT)) else
      if namecmp name (de_name de) =? 0 then
        ip ← iget (i_dev i) (de_inum de);
        mret (Some (ip, off))
      else dirlookup_loop fuel' dp name (u32 (off + DIRENT))
    else mret None
  end.
(** The inode found, with the offset of its entry ([*poff]). *)
Definition dirlookup (dp : nat) (name : list Z) : M fsys (option (nat * Z)) :=
  i ← get_inode dp;
  if negb (i_type i =? T_DIR) then panic "dirlookup not DIR" else
  dirlookup_loop (Datatypes.S (Z.to_nat (i_size i))) dp name 0.

Fixpoint dirlink_find (fuel dp : nat) (off : Z) : M fsys Z :=
  match fuel with
  | O => hang
  | Datatypes.S fuel' =>
    i ← get_inode dp;
    if off <? i_size i then
      r ← readi dp off DIRENT;
      let '(n, de) := r in
      if negb (n =? DIRENT) then panic "dirlink read" else
      if de_inum de =? 0 then mret off else dirlink_find fuel' dp (s32 (off + DIRENT))
    else mret off
  end.
Definition dirlink (dp : nat) (name : list Z) (inum : Z) : M fsys Z :=
  r ← dirlookup dp name;
  match r with
  | Some (ip, _) => iput ip;; mret (-1)
  | None =>
    i ← get_inode dp;
    off ← dirlink_find (Datatypes.S (Z.to_nat (i_size i))) dp 0;
    n ← writei dp (le16 inum ++ strncpy_bytes DIRSIZ name) off DIRENT;
    if negb (n =? DIRENT) then panic "dirlink" else mret 0
  end.

(** ** Path names *)

Fixpoint namex_loop (fuel : nat) (path name : list Z) (nameiparent : bool) (ip : nat) : M fsys (option nat * list Z) :=
  match fuel with
  | O => hang
  | Datatypes.S fuel' =>
    match skipelem path name with
    | None =>
      if nameiparent then iput ip;; mret (None, name) else mret (Some ip, name)
    | Some (path, name) =>
      ilock ip;;
      i ← get_inode ip;
      if negb (i_type i =? T_DIR) then iunlockput ip;; mret (None, name) else
      if nameiparent && bool_decide (path = []) then iunlock ip;; mret (Some ip, name) else
      next ← dirlookup ip name;
      match next with
      | None => iunlockput ip;; mret (None, name)
      | Some (next, _) => iunlockput ip;; namex_loop fuel' path name nameiparent next
      end
    end
  end.
Definition namex (path : list Z) (nameiparent : bool) (name : list Z) : M fsys (option nat * list Z) :=
  ip ← (match path with
        | c :: _ => if c =? SLASH then iget ROOTDEV ROOTINO else c ← gets cwd; idup c
        | [] => c ← gets cwd; idup c
        end);
  namex_loop (Datatypes.S (length path)) path name nameiparent ip.
Definition namei (path : list Z) : M fsys (option nat) :=
  r ← namex path false (replicate DIRSIZ 0); mret (fst r).
Definition nameiparent (path name : list Z) : M fsys (option nat * list Z) := namex path true name.
End fs.
