(* ===== verification/FsAlloc.v ===== *)
(** * The block allocator of p6/fs.c

    The bitmap as a set of used blocks: [balloc] takes the least free one and zeroes it,
    [bfree] gives one back. The lemmas on opening and writing a block serve the
    rest of the file system. *)

From S2P Require Import Prelude Sleeplock Cache Log Journal Fs.

(** ** Views after a logged write *)

Definition j_write (n : Z) (d : block) (V : jview) : jview :=
  JView (disk_set (j_blocks V) n d) (j_held V) ({[n]} ∪ j_logged V) (j_spend n V).

Lemma j_drop_hold b n d V : j_held V !! b = None -> j_drop b (j_hold b n d V) = V.
Proof. intros H. unfold j_drop, j_hold. cbn. rewrite delete_insert_id by done. by destruct V. Qed.
Lemma j_hold_hold b n d d' V : j_hold b n d' (j_hold b n d V) = j_hold b n d' V.
Proof. unfold j_hold. cbn. by rewrite insert_insert_eq. Qed.
Lemma j_drop_log b n d V : j_held V !! b = None -> j_drop b (j_log n d (j_hold b n d V)) = j_write n d V.
Proof. intros H. unfold j_drop, j_log, j_hold, j_write, j_spend. cbn. by rewrite delete_insert_id. Qed.
Lemma j_at_write n d V m : 0 <= n < j_len V -> 0 <= m -> j_at (j_write n d V) m = if decide (m = n) then d else j_at V m.
Proof. intros Hn Hm. by apply disk_at_set. Qed.
Lemma j_len_write n d V : j_len (j_write n d V) = j_len V.
Proof. apply disk_len_set. Qed.
Lemma j_held_write n d V : j_held (j_write n d V) = j_held V.
Proof. done. Qed.
Lemma j_free_write n d V m : j_free (j_write n d V) m <-> j_free V m.
Proof. done. Qed.

Section alloc.
Context {S : Type} `{J : Journal S}.
Implicit Types (s : fsys (S := S)) (V : jview).

Lemma set_d_set_d (x y : S) s : set_d x (set_d y s) = set_d x s.
Proof. done. Qed.
Lemma set_d_id s : set_d (fs_d s) s = s.
Proof. by destruct s. Qed.
Lemma block_at_ok s V n : d_ok (fs_d s) V -> 0 <= n < j_len V -> block_ok (j_at V n).
Proof.
  intros H Hn. pose proof (d_blocks_ok _ _ H) as Hb. unfold j_at, disk_at.
  destruct (lookup_lt_is_Some_2 (j_blocks V) (Z.to_nat n)) as [d E]; [unfold j_len, disk_len in Hn; lia|].
  rewrite E. cbn. by eapply Forall_lookup_1 in Hb.
Qed.

(** [jbread] of a free block, and what its holder can do next. *)
Lemma open_block s V n : d_ok (fs_d s) V -> 0 <= n < j_len V -> j_free V n -> (size (j_held V) < MAXHELD)%nat ->
  exists b x, jbread 1 n s = Ok b (set_d x s) /\ j_held V !! b = None /\ d_ok x (j_hold b n (j_at V n) V) /\
    data b (set_d x s) = Ok (j_at V n) (set_d x s).
Proof.
  intros H Hn Hf Hh. destruct (d_bread_ok _ _ _ H Hn Hf Hh) as (b & x & E & Hb & Hx). exists b, x.
  assert (j_held (j_hold b n (j_at V n) V) !! b = Some (n, j_at V n)) as Hl by (cbn; by rewrite lookup_insert_eq).
  split_and!; [unfold jbread, dop; by erewrite zoom_Ok|done|done|].
  unfold data, dop. erewrite zoom_Ok; [|by eapply (d_data_ok _ _ _ _ _ Hx)]. by rewrite set_d_set_d.
Qed.

Lemma data_held s V b n d : d_ok (fs_d s) V -> j_held V !! b = Some (n, d) -> data b s = Ok d s.
Proof. intros H Hb. unfold data, dop. erewrite zoom_Ok; [|by eapply d_data_ok]. by rewrite set_d_id. Qed.

Lemma close_block {A} (k : unit -> M fsys A) s V b n : d_ok (fs_d s) (j_hold b n (j_at V n) V) -> j_held V !! b = None ->
  exists x, (jbrelse b ≫= k) s = k tt (set_d x s) /\ d_ok x V.
Proof.
  intros H Hb. destruct (d_brelse_ok _ _ b n (j_at V n) H) as (x & E & Hx); [cbn; by rewrite lookup_insert_eq|done|].
  exists x. rewrite j_drop_hold in Hx by done. split; [|done]. unfold jbrelse, dop. by mstep (zoom_Ok _ _ _ _ _ _ E).
Qed.

(** The tail of every update: store, log and release; alone and with more to do. *)
Lemma write_close s V b n d d' : d_ok (fs_d s) (j_hold b n d V) -> j_held V !! b = None ->
  0 <= n < j_len V -> d_low <= n -> block_ok d' -> n ∈ j_logged V \/ (0 < j_credit V)%nat ->
  exists x, d_ok x (j_write n d' V) /\ (put b d';; jlog_write b;; jbrelse b) s = Ok tt (set_d x s) /\
    forall A (k : M fsys A), (put b d';; jlog_write b;; jbrelse b;; k) s = k (set_d x s).
Proof.
  intros H Hb Hn Hlow Hd Hc.
  destruct (d_put_ok _ _ b n d d' H) as (x1 & E1 & H1); [cbn; by rewrite lookup_insert_eq|done|]. rewrite j_hold_hold in H1.
  destruct (d_log_write_ok _ _ b n d' H1) as (x2 & E2 & H2); [cbn; by rewrite lookup_insert_eq|done|done|].
  destruct (d_brelse_ok _ _ b n d' H2) as (x3 & E3 & H3); [cbn; by rewrite lookup_insert_eq| |].
  { unfold j_at. cbn. rewrite disk_at_set by (done || lia). by rewrite decide_True. }
  exists x3. rewrite j_drop_log in H3 by done. split; [done|]. unfold put, jlog_write, jbrelse, dop.
  apply (zoom_Ok fs_d set_d _ s) in E1. apply (zoom_Ok fs_d set_d _ (set_d x1 s)) in E2.
  apply (zoom_Ok fs_d set_d _ (set_d x2 s)) in E3. split; [mstep E1; mstep E2; exact E3|].
  intros A k. mstep E1. mstep E2. by mstep E3.
Qed.

(** ** Bits of the bitmap *)

Definition bit_byte (b : Z) : Z := b `mod` BPB / 8.
Definition used (b : superblock) (V : jview) (n : Z) : bool := Z.testbit (ld8 (j_at V (BBLOCK n b)) (bit_byte n)) (n `mod` 8).

Lemma land_bit x k : 0 <= k -> (Z.land x (Z.shiftl 1 k) =? 0) = negb (Z.testbit x k).
Proof.
  intros Hk. destruct (Z.testbit x k) eqn:E; cbn.
  - apply Z.eqb_neq. intros H. apply (f_equal (fun z => Z.testbit z k)) in H.
    rewrite Z.land_spec, E, Z.shiftl_spec, Z.sub_diag, Z.bits_0 in H by lia. done.
  - apply Z.eqb_eq, Z.bits_inj'. intros i Hi. rewrite Z.land_spec, Z.bits_0, Z.shiftl_spec by lia.
    destruct (decide (i = k)) as [->|N]; [by rewrite E|]. destruct (decide (i < k)); [rewrite (Z.testbit_neg_r 1) by lia; by rewrite andb_false_r|].
    rewrite (Z.bits_above_log2 1 (i - k)); [by rewrite andb_false_r|lia|cbn; lia].
Qed.

Lemma byte_of_bits x : 0 <= x -> (forall i, 8 <= i -> Z.testbit x i = false) -> byte x.
Proof.
  intros H0 Hb. assert (x `mod` 2 ^ 8 = x) as <-; [|apply (Z.mod_pos_bound x (2 ^ 8)); lia].
  apply Z.bits_inj'. intros i Hi. destruct (decide (i < 8)); [by rewrite Z.mod_pow2_bits_low by lia|].
  rewrite Z.mod_pow2_bits_high by lia. symmetry. apply Hb. lia.
Qed.
Lemma testbit_byte x i : byte x -> 8 <= i -> Z.testbit x i = false.
Proof.
  intros Hx Hi. destruct (decide (x = 0)) as [->|N]; [apply Z.bits_0|]. unfold byte in Hx.
  apply Z.bits_above_log2; [lia|]. apply Z.log2_lt_pow2; [lia|]. pose proof (Z.pow_le_mono_r 2 8 i). lia.
Qed.
Lemma testbit_bit k i : 0 <= k -> Z.testbit (Z.shiftl 1 k) i = bool_decide (i = k).
Proof.
  intros Hk. rewrite Z.shiftl_1_l. destruct (decide (i = k)) as [->|N].
  - by rewrite Z.pow2_bits_true, bool_decide_true by lia.
  - by rewrite Z.pow2_bits_false, bool_decide_false by lia.
Qed.
Lemma byte_set x k : byte x -> 0 <= k < 8 -> byte (Z.lor x (Z.shiftl 1 k)).
Proof.
  intros Hx Hk. apply byte_of_bits.
  - apply Z.lor_nonneg. split; [apply Hx|]. by apply Z.shiftl_nonneg.
  - intros i Hi. rewrite Z.lor_spec, testbit_bit, testbit_byte by (done || lia). by rewrite bool_decide_false by lia.
Qed.
Lemma byte_clear x k : byte x -> 0 <= k < 8 -> byte (Z.ldiff x (Z.shiftl 1 k)).
Proof.
  intros Hx Hk. apply byte_of_bits.
  - apply Z.ldiff_nonneg. left. apply Hx.
  - intros i Hi. by rewrite Z.ldiff_spec, testbit_byte.
Qed.

(** ** The layout of a disk *)

Record layout (b : superblock) (len : Z) : Prop := {
  ly_size : sb_size b = len;
  ly_len : 0 <= len < 2 ^ 31;
  ly_inodes : 2 <= sb_inodestart b /\ 0 <= sb_ninodes b /\ sb_inodestart b + sb_ninodes b / IPB < sb_bmapstart b;
  ly_bmap : sb_bmapstart b + len / BPB < len
}.
(** The first block after the bitmap. *)
Definition datastart (b : superblock) : Z := sb_bmapstart b + sb_size b / BPB + 1.

Lemma bblock_range b len n : layout b len -> 0 <= n < len ->
  BBLOCK n b = n / BPB + sb_bmapstart b /\ sb_bmapstart b <= BBLOCK n b < datastart b /\ 0 <= BBLOCK n b < len.
Proof.
  intros [H1 H2 H3 H4] Hn. unfold BBLOCK, datastart. change BPB with 4096 in *. change IPB with 8 in *.
  assert (0 <= n / 4096 <= len / 4096) by (clear -Hn; Z.div_mod_to_equations; lia).
  assert (0 <= sb_ninodes b / 8) by (apply Z.div_pos; lia).
  rewrite u32_small by (unfold is_u32; lia). rewrite H1. lia.
Qed.

Lemma bit_place n : 0 <= n -> 0 <= bit_byte n < BSIZE /\ 0 <= n `mod` 8 < 8 /\
  n `mod` BPB = n - n / BPB * BPB /\ (n `mod` BPB) `mod` 8 = n `mod` 8.
Proof.
  intros Hn. unfold bit_byte. change BPB with 4096. unfold BSIZE.
  split; [|split; [|split]]; clear -Hn; Z.div_mod_to_equations; lia.
Qed.

Lemma bit_inj n m : 0 <= n -> 0 <= m -> n / BPB = m / BPB -> bit_byte n = bit_byte m -> n `mod` 8 = m `mod` 8 -> n = m.
Proof. unfold bit_byte. change BPB with 4096. intros Hn Hm H1 H2 H3. Z.div_mod_to_equations. lia. Qed.

(** The bitmap block of [n] with the bit of [n] set to [v]. *)
Definition bit_block (b : superblock) (V : jview) (n : Z) (v : bool) : block :=
  let d := j_at V (BBLOCK n b) in
  splice d (bit_byte n) [if v then Z.lor (ld8 d (bit_byte n)) (Z.shiftl 1 (n `mod` 8)) else Z.ldiff (ld8 d (bit_byte n)) (Z.shiftl 1 (n `mod` 8))].

Lemma bit_block_ok b V n v : block_ok (j_at V (BBLOCK n b)) -> 0 <= n -> block_ok (bit_block b V n v).
Proof.
  intros Hd Hn. destruct (bit_place n Hn) as (H1 & H2 & _). apply block_ok_splice; [done|lia|cbn; lia|].
  apply Forall_singleton. pose proof (ld8_byte (j_at V (BBLOCK n b)) (bit_byte n) ltac:(apply Hd)).
  destruct v; [by apply byte_set|by apply byte_clear].
Qed.

Lemma used_bit_write b V n v m : layout b (j_len V) -> block_ok (j_at V (BBLOCK n b)) -> 0 <= n < j_len V -> 0 <= m < j_len V ->
  used b (j_write (BBLOCK n b) (bit_block b V n v) V) m = if decide (m = n) then v else used b V m.
Proof.
  intros L [Hl Hd] Hn Hm. destruct (bblock_range b _ n L Hn) as (En & _ & Rn), (bblock_range b _ m L Hm) as (Em & _ & Rm).
  destruct (bit_place n ltac:(lia)) as (Hb & Hk & _), (bit_place m ltac:(lia)) as (Hb' & Hk' & _).
  unfold used. rewrite j_at_write by lia. destruct (decide (BBLOCK m b = BBLOCK n b)) as [E|N].
  2:{ by rewrite decide_False by congruence. }
  unfold bit_block. rewrite ld8_splice by (cbn; lia). cbn [length]. rewrite E.
  destruct (decide (bit_byte m = bit_byte n)) as [Eb|Nb].
  2:{ rewrite decide_False by lia. by rewrite decide_False by (intros ->; done). }
  rewrite decide_True by lia. rewrite Eb, Z.sub_diag. change (ld8 [?x] 0) with x.
  destruct v; rewrite ?Z.lor_spec, ?Z.ldiff_spec, testbit_bit by lia; destruct (decide (m = n)) as [->|Nm].
  - by rewrite bool_decide_true, orb_true_r.
  - rewrite bool_decide_false, orb_false_r; [done|]. intros Ek. apply Nm, bit_inj; try lia; congruence.
  - by rewrite bool_decide_true, andb_false_r.
  - rewrite bool_decide_false, andb_true_r; [done|]. intros Ek. apply Nm, bit_inj; try lia; congruence.
Qed.

(** ** [balloc] and [bfree] *)

(** Every block not in use is free to be opened, and so are the bitmap and the inodes. *)
Definition openable (b : superblock) (V : jview) : Prop :=
  forall n, 0 <= n < j_len V -> n < datastart b \/ used b V n = false -> j_free V n.

(** The free blocks, the inodes and the bitmap are above the log. *)
Definition low_ok (b : superblock) (V : jview) : Prop :=
  d_low <= sb_inodestart b /\ forall n, 0 <= n < j_len V -> used b V n = false -> d_low <= n.
Lemma low_bblock b V n : layout b (j_len V) -> low_ok b V -> 0 <= n < j_len V -> d_low <= BBLOCK n b.
Proof.
  intros L [Hl _] Hn. destruct (bblock_range b _ n L Hn) as (_ & Hr & _).
  assert (sb_inodestart b + sb_ninodes b / IPB < sb_bmapstart b /\ 0 <= sb_ninodes b / IPB) as [? ?]; [|lia].
  destruct (ly_inodes _ _ L) as (? & ? & ?). split; [done|]. by apply Z.div_pos.
Qed.

(** The disk after [balloc] took [n]. *)
Definition zero_block : block := replicate (Z.to_nat BSIZE) 0.
Definition j_alloc (b : superblock) (n : Z) (V : jview) : jview :=
  j_write n zero_block (j_write (BBLOCK n b) (bit_block b V n true) V).

Lemma zero_block_ok : block_ok zero_block.
Proof. split; [done|]. apply Forall_replicate. by split. Qed.

Lemma bzero_ok s V n : d_ok (fs_d s) V -> 0 <= n < j_len V -> j_free V n -> (size (j_held V) < MAXHELD)%nat ->
  d_low <= n -> n ∈ j_logged V \/ (0 < j_credit V)%nat ->
  exists x, bzero 1 n s = Ok tt (set_d x s) /\ d_ok x (j_write n zero_block V).
Proof.
  intros H Hn Hf Hh Hlow Hc. destruct (open_block s V n H Hn Hf Hh) as (b & x & E & Hb & Hx & _).
  unfold bzero. mstep E.
  destruct (write_close (set_d x s) V b n _ zero_block Hx Hb Hn Hlow zero_block_ok Hc) as (x' & Hx' & E' & _).
  by exists x'.
Qed.

(** The work of [balloc] when the bit of [n] is clear. *)
Lemma take_bit_ok s V b n bp : sb s = b -> layout b (j_len V) -> openable b V -> low_ok b V -> 0 <= n < j_len V -> used b V n = false ->
  (size (j_held V) < MAXHELD)%nat -> (2 <= j_credit V)%nat -> j_held V !! bp = None ->
  d_ok (fs_d s) (j_hold bp (BBLOCK n b) (j_at V (BBLOCK n b)) V) -> block_ok (j_at V (BBLOCK n b)) ->
  exists x, d_ok x (j_alloc b n V) /\
    (put bp (bit_block b V n true);; jlog_write bp;; jbrelse bp;; bzero 1 n;; mret (Some n)) s = Ok (Some n) (set_d x s).
Proof.
  intros Hs L Ho Hlow Hn Hu Hh Hc Hb H Hk. pose proof (low_bblock b V n L Hlow Hn) as Hlb. destruct (bblock_range b _ n L Hn) as (_ & _ & Hr).
  destruct (write_close s V bp (BBLOCK n b) _ (bit_block b V n true) H Hb Hr Hlb) as (x & Hx & _ & E); [by apply bit_block_ok; [|lia]|lia|].
  rewrite E. destruct (bzero_ok (set_d x s) _ n Hx) as (x' & E' & Hx').
  - by rewrite j_len_write.
  - apply Ho; [done|by right].
  - done.
  - by apply Hlow.
  - unfold j_write, j_spend. cbn. right. case_decide; lia.
  - exists x'. split; [done|]. by mstep E'.
Qed.

Lemma balloc_bits_ok s V b (base : Z) bp k : forall bi, sb s = b -> layout b (j_len V) -> openable b V -> low_ok b V ->
  (size (j_held V) < MAXHELD)%nat -> (2 <= j_credit V)%nat -> j_held V !! bp = None ->
  0 <= base < j_len V -> base `mod` BPB = 0 -> 0 <= bi -> bi + Z.of_nat k = BPB ->
  d_ok (fs_d s) (j_hold bp (BBLOCK base b) (j_at V (BBLOCK base b)) V) -> block_ok (j_at V (BBLOCK base b)) ->
  (exists n x, base + bi <= n < j_len V /\ used b V n = false /\ (forall m, base + bi <= m < n -> used b V m = true) /\
     d_ok x (j_alloc b n V) /\ balloc_bits (Datatypes.S k) 1 bp base bi s = Ok (Some n) (set_d x s)) \/
  (forall m, base + bi <= m < base + BPB -> m < j_len V -> used b V m = true) /\
     balloc_bits (Datatypes.S k) 1 bp base bi s = Ok None s.
Proof.
  induction k as [|k IH]; intros bi Hs L Ho Hlow Hh Hc Hb Hbase Hmod Hbi Hk H Hok.
  - right. split; [intros; lia|]. cbn [balloc_bits]. rewrite bind_gets. destruct (Z.ltb_spec bi BPB); [lia|done].
  - remember (Datatypes.S k) as k1 eqn:Ek. cbn [balloc_bits]. rewrite bind_gets, Hs, (ly_size _ _ L).
    destruct (Z.ltb_spec bi BPB) as [Hbl|]; [|lia]. cbn [andb].
    destruct (Z.ltb_spec (base + bi) (j_len V)) as [Hlt|]; [|right; split; [intros; lia|done]].
    mstep (data_held _ _ bp (BBLOCK base b) (j_at V (BBLOCK base b)) H ltac:(cbn; by rewrite lookup_insert_eq)).
    assert (BBLOCK (base + bi) b = BBLOCK base b /\ bit_byte (base + bi) = bi / 8 /\ (base + bi) `mod` 8 = bi `mod` 8) as (E1 & E2 & E3).
    { unfold BBLOCK, bit_byte. change BPB with 4096 in *. clear -Hmod Hbi Hbl.
      assert ((base + bi) / 4096 = base / 4096 /\ (base + bi) `mod` 4096 / 8 = bi / 8 /\ (base + bi) `mod` 8 = bi `mod` 8) as (-> & -> & ->); [|done].
      Z.div_mod_to_equations. lia. }
    assert (Z.land (ld8 (j_at V (BBLOCK base b)) (bi / 8)) (Z.shiftl 1 (bi `mod` 8)) =? 0 = negb (used b V (base + bi))) as ->.
    { rewrite land_bit by (apply Z.mod_pos_bound; lia). unfold used. by rewrite E1, E2, E3. }
    destruct (used b V (base + bi)) eqn:Eu; cbn [negb].
    + destruct (IH (bi + 1)) as [(n & x & Hn & Hu & Hall & Hx & E)|[Hall E]]; try done; try lia.
      * left. exists n, x. split; [lia|]. split; [done|]. split; [|split; [done|exact E]].
        intros m Hm. destruct (decide (m = base + bi)) as [->|]; [done|]. apply Hall. lia.
      * right. split; [|exact E]. intros m Hm Hm'. destruct (decide (m = base + bi)) as [->|]; [done|]. apply Hall; lia.
    + left. rewrite <- E1 in H, Hok. destruct (take_bit_ok s V b (base + bi) bp) as (x & Hx & E); try done; [lia|].
      exists (base + bi), x. split; [lia|]. split; [done|]. split; [intros; lia|]. split; [done|].
      rewrite <- E. unfold bit_block. by rewrite E1, E2, E3.
Qed.

Lemma balloc_blocks_ok V b fuel : forall s base, d_ok (fs_d s) V -> sb s = b -> layout b (j_len V) -> openable b V -> low_ok b V ->
  (size (j_held V) < MAXHELD)%nat -> (2 <= j_credit V)%nat -> 0 <= base -> base `mod` BPB = 0 ->
  (Z.to_nat (j_len V - base) < fuel)%nat -> (forall m, 0 <= m < base -> m < j_len V -> used b V m = true) ->
  (exists n x, 0 <= n < j_len V /\ used b V n = false /\ (forall m, 0 <= m < n -> used b V m = true) /\
     d_ok x (j_alloc b n V) /\ balloc_blocks fuel 1 base s = Ok n (set_d x s)) \/
  (forall m, 0 <= m < j_len V -> used b V m = true) /\ balloc_blocks fuel 1 base s = Panic "balloc: out of blocks".
Proof.
  induction fuel as [|fuel IH]; intros s base H Hs L Ho Hlow Hh Hc Hb Hm Hf Hu; [lia|].
  cbn [balloc_blocks]. rewrite bind_gets, Hs, (ly_size _ _ L). destruct (Z.ltb_spec base (j_len V)) as [Hlt|].
  2:{ right. split; [|done]. intros m Hi. apply Hu; lia. }
  destruct (bblock_range b _ base L ltac:(lia)) as (_ & Hr1 & Hr2).
  destruct (open_block s V (BBLOCK base b) H Hr2) as (bp & x & E & Hbp & Hx & _); [apply Ho; [done|left; lia]|done|]. mstep E.
  destruct (balloc_bits_ok (set_d x s) V b base bp (Z.to_nat BPB) 0) as [(n & x' & Hn & Hun & Hall & Hx' & E')|[Hall E']];
    try done; [by apply (block_at_ok _ _ _ H)| |]; mstep E'.
  - left. exists n, x'. split; [lia|]. split; [done|]. split; [|by split].
    intros m Hi. destruct (decide (m < base)); [apply Hu; lia|apply Hall; lia].
  - destruct (close_block (fun _ => balloc_blocks fuel 1 (base + BPB)) (set_d x s) V bp (BBLOCK base b)) as (x' & -> & Hx'); [done|done|].
    rewrite set_d_set_d. destruct (IH (set_d x' s) (base + BPB)) as [(n & x2 & Hn & Hun & Hall' & Hx2 & E2)|[Hall' E2]]; try done.
    + change BPB with 4096. lia.
    + change BPB with 4096 in *. clear -Hm. Z.div_mod_to_equations. lia.
    + change BPB with 4096. lia.
    + intros m Hi Hi'. destruct (decide (m < base)); [apply Hu; lia|apply Hall; lia].
    + left. exists n, x2. split; [exact Hn|]. by split.
    + by right.
Qed.

Lemma balloc_ok s V b : d_ok (fs_d s) V -> sb s = b -> layout b (j_len V) -> openable b V -> low_ok b V ->
  (size (j_held V) < MAXHELD)%nat -> (2 <= j_credit V)%nat ->
  (exists n x, 0 <= n < j_len V /\ used b V n = false /\ (forall m, 0 <= m < n -> used b V m = true) /\
     d_ok x (j_alloc b n V) /\ balloc 1 s = Ok n (set_d x s)) \/
  (forall m, 0 <= m < j_len V -> used b V m = true) /\ balloc 1 s = Panic "balloc: out of blocks".
Proof.
  intros H Hs L Ho Hlow Hh Hc. unfold balloc. rewrite bind_gets. rewrite Hs, (ly_size _ _ L).
  apply balloc_blocks_ok; try done; [lia|]. intros; lia.
Qed.

Lemma bfree_ok s V b n : d_ok (fs_d s) V -> sb s = b -> layout b (j_len V) -> d_low <= sb_inodestart b -> j_free V (BBLOCK n b) ->
  (size (j_held V) < MAXHELD)%nat -> BBLOCK n b ∈ j_logged V \/ (0 < j_credit V)%nat -> 0 <= n < j_len V ->
  if used b V n
  then exists x, d_ok x (j_write (BBLOCK n b) (bit_block b V n false) V) /\ bfree 1 n s = Ok tt (set_d x s)
  else bfree 1 n s = Panic "freeing free block".
Proof.
  intros H Hs L Hlow Ho Hh Hc Hn. destruct (bblock_range b _ n L Hn) as (_ & Hr1 & Hr2).
  destruct (open_block s V (BBLOCK n b) H Hr2 Ho Hh) as (bp & x & E & Hbp & Hx & Ed).
  destruct (bit_place n ltac:(lia)) as (H1 & H2 & _ & H4).
  unfold bfree. rewrite bind_gets, Hs. mstep E. mstep Ed. rewrite H4, land_bit by lia.
  change (n `mod` BPB / 8) with (bit_byte n). fold (used b V n). destruct (used b V n); [|done]. cbn [negb].
  pose proof (block_at_ok s V (BBLOCK n b) H Hr2) as Hk.
  rewrite u8_small by (apply byte_clear; [apply ld8_byte, Hk|lia]).
  destruct (write_close (set_d x s) V bp (BBLOCK n b) _ (bit_block b V n false) Hx Hbp Hr2) as (x' & Hx' & E' & _);
    [destruct (ly_inodes _ _ L) as (_ & ? & ?); assert (0 <= sb_ninodes b / IPB) by (by apply Z.div_pos); lia|by apply bit_block_ok; [|lia]|done|]. by exists x'.
Qed.

(** What [balloc] changes. *)
Lemma j_len_alloc b n V : j_len (j_alloc b n V) = j_len V.
Proof. unfold j_alloc. by rewrite !j_len_write. Qed.

Lemma j_at_alloc b n V m : layout b (j_len V) -> 0 <= n < j_len V -> 0 <= m -> j_at (j_alloc b n V) m =
  if decide (m = n) then zero_block else if decide (m = BBLOCK n b) then bit_block b V n true else j_at V m.
Proof.
  intros L Hn Hm. destruct (bblock_range b _ n L Hn) as (_ & _ & Hr). unfold j_alloc.
  rewrite j_at_write by (rewrite ?j_len_write; lia). case_decide; [done|]. by apply j_at_write.
Qed.

Lemma used_alloc b n V m : layout b (j_len V) -> datastart b <= n < j_len V -> block_ok (j_at V (BBLOCK n b)) -> 0 <= n -> 0 <= m < j_len V ->
  used b (j_alloc b n V) m = if decide (m = n) then true else used b V m.
Proof.
  intros L Hn Hk Hn0 Hm. rewrite <- (used_bit_write b V n true m) by (done || lia).
  destruct (bblock_range b _ m L ltac:(lia)) as (_ & Hr & Hr'). unfold used, j_alloc.
  rewrite (j_at_write n) by (rewrite ?j_len_write; lia). by rewrite decide_False by lia.
Qed.
End alloc.

(** C16. The block allocator as a set of used blocks. On any disk with a sound layout whose
    metadata is marked used: [balloc] panics exactly when every block is in use, and
    otherwise takes the least free block, marks it and no other, zeroes it and leaves
    every other block outside the bitmap alone; [bfree] of a used block marks it free
    and changes nothing else, so it undoes [balloc], and of a free block it panics. *)
Theorem block_allocator {S} `{Journal S} (s : fsys (S := S)) (V : jview) :
  let b := sb s in
  d_ok (fs_d s) V -> layout b (j_len V) -> d_low <= sb_inodestart b -> openable b V -> (size (j_held V) < MAXHELD)%nat -> (2 <= j_credit V)%nat ->
  (forall m, 0 <= m < datastart b -> used b V m = true) ->
  ((forall m, 0 <= m < j_len V -> used b V m = true) -> balloc 1 s = Panic "balloc: out of blocks") /\
  (forall n, 0 <= n < j_len V -> used b V n = false -> (forall m, 0 <= m < n -> used b V m = true) ->
     exists x V', balloc 1 s = Ok n (set_d x s) /\ d_ok x V' /\ j_at V' n = zero_block /\
       (forall m, 0 <= m < j_len V -> used b V' m = if decide (m = n) then true else used b V m) /\
       (forall m, 0 <= m -> m <> n -> m <> BBLOCK n b -> j_at V' m = j_at V m) /\ bfree 1 n (set_d x s) <> Panic "freeing free block") /\
  forall n, datastart b <= n < j_len V ->
    if used b V n
    then exists x V', bfree 1 n s = Ok tt (set_d x s) /\ d_ok x V' /\
       (forall m, 0 <= m < j_len V -> used b V' m = if decide (m = n) then false else used b V m) /\
       (forall m, 0 <= m -> m <> BBLOCK n b -> j_at V' m = j_at V m)
    else bfree 1 n s = Panic "freeing free block".
Proof.
  intros b Hd L Hlo Ho Hh Hc Hmeta.
  assert (0 <= datastart b /\ sb_inodestart b <= datastart b) as [Hds Hds'].
  { destruct L as [H1 H2 H3 H4]. unfold datastart. assert (0 <= sb_ninodes b / IPB) by (apply Z.div_pos; [lia|done]).
    assert (0 <= sb_size b / BPB) by (apply Z.div_pos; [lia|done]). lia. }
  assert (forall n, 0 <= n < j_len V -> block_ok (j_at V (BBLOCK n b))) as Hk.
  { intros n Hn. apply (block_at_ok s); [done|]. by apply bblock_range. }
  assert (low_ok b V) as Hlow.
  { split; [done|]. intros n Hn Hu. destruct (decide (n < datastart b)); [rewrite Hmeta in Hu by lia; done|lia]. }
  split_and!.
  - intros Hall. by destruct (balloc_ok s V b Hd eq_refl L Ho Hlow Hh Hc) as [(n & x & Hn & Hu & _)|[_ ->]]; [rewrite Hall in Hu by done|].
  - intros n Hn Hu Hall. destruct (balloc_ok s V b Hd eq_refl L Ho Hlow Hh Hc) as [(n' & x & Hn' & Hu' & Hall' & Hx & E)|[Hall' _]];
      [|by rewrite Hall' in Hu].
    assert (n' = n) as ->. { destruct (Z.lt_trichotomy n' n) as [|[|]]; [rewrite Hall in Hu' by lia; done|done|rewrite Hall' in Hu by lia; done]. }
    assert (datastart b <= n) as Hge. { destruct (decide (n < datastart b)); [rewrite Hmeta in Hu by lia; done|lia]. }
    exists x, (j_alloc b n V). split; [done|]. split; [done|]. split; [rewrite j_at_alloc by (done || lia); by rewrite decide_True|].
    assert (forall m, 0 <= m < j_len V -> used b (j_alloc b n V) m = if decide (m = n) then true else used b V m) as Hus.
    { intros m Hm. apply used_alloc; [done|lia|by apply Hk|lia|done]. }
    split; [exact Hus|]. split; [intros m Hm Hne Hne2; rewrite j_at_alloc by (done || lia); by rewrite !decide_False|].
    destruct (bblock_range b _ n L Hn) as (_ & Hr & Hr').
    pose proof (bfree_ok (set_d x s) (j_alloc b n V) b n) as Hfree. rewrite j_len_alloc, Hus, decide_True in Hfree by done.
    destruct Hfree as (x' & _ & ->); try done; [apply (Ho _ Hr'); left; lia|].
    left. unfold j_alloc, j_write. cbn. set_solver.
  - intros n Hn. destruct (bblock_range b _ n L ltac:(lia)) as (_ & Hr & Hr').
    pose proof (bfree_ok s V b n Hd eq_refl L Hlo ltac:(apply (Ho _ Hr'); left; lia) Hh ltac:(right; lia) ltac:(lia)) as Hf.
    destruct (used b V n); [|done]. destruct Hf as (x & Hx & E). eexists x, _. split; [exact E|]. split; [exact Hx|]. split.
    + intros m Hm. apply used_bit_write; [done|by apply Hk; lia|lia|done].
    + intros m Hm Hne. rewrite j_at_write by lia. by rewrite decide_False.
Qed.
