(* ===== verification/FsFile.v ===== *)
(** * The contents of an inode: bmap and readi of p6/fs.c

    The bytes of a file are read off the disk through the block numbers of its inode;
    [readi] returns them. *)

From S2P Require Import Prelude Sleeplock Cache Log Journal Fs FsAlloc.

(** ** Bytes of a block *)

Lemma sub_map d o n : Z.of_nat (length d) = BSIZE -> 0 <= o -> 0 <= n -> o + n <= BSIZE -> sub d o n = map (ld8 d) (seqZ o n).
Proof.
  intros Hl Ho Hn Hs. apply list_eq. intros j. unfold sub. rewrite list_lookup_fmap.
  destruct (decide (Z.of_nat j < n)) as [Hj|Hj].
  - rewrite lookup_take_lt, lookup_drop by lia. rewrite lookup_seqZ_lt by lia. cbn. unfold ld8.
    destruct (lookup_lt_is_Some_2 d (Z.to_nat o + j)) as [x Hx]; [lia|].
    replace (Z.to_nat (o + Z.of_nat j)) with (Z.to_nat o + j)%nat by lia. by rewrite Hx.
  - rewrite lookup_take_ge by lia. by rewrite lookup_seqZ_ge by lia.
Qed.

Lemma map_seqZ_ext {A} (f g : Z -> A) o n : (forall k, o <= k < o + n -> f k = g k) -> map f (seqZ o n) = map g (seqZ o n).
Proof. intros H. apply list_fmap_ext. intros j k Hk. apply lookup_seqZ in Hk as [-> Hk]. apply H. lia. Qed.
Lemma map_seqZ_shift {A} (f : Z -> A) o n c : map f (seqZ (o + c) n) = map (fun k => f (k + c)) (seqZ o n).
Proof.
  apply list_eq. intros j. rewrite !list_lookup_fmap. destruct (decide (Z.of_nat j < n)).
  - rewrite !lookup_seqZ_lt by lia. cbn. do 2 f_equal. lia.
  - by rewrite !lookup_seqZ_ge by lia.
Qed.

(** ** Blocks and bytes of a file *)

Definition addr (i : inode) (k : nat) : Z := default 0 (i_addrs i !! k).
(** The block number of the [bn]th block; 0 is none. *)
Definition fblock (V : jview) (i : inode) (bn : Z) : Z :=
  if bn <? Z.of_nat NDIRECT then addr i (Z.to_nat bn) else
  if addr i NDIRECT =? 0 then 0 else ld32 (j_at V (addr i NDIRECT)) (4 * (bn - Z.of_nat NDIRECT)).
Definition fbyte (V : jview) (i : inode) (k : Z) : Z := ld8 (j_at V (fblock V i (k / BSIZE))) (k `mod` BSIZE).
(** [n] bytes from [off]; and all. *)
Definition frange (V : jview) (i : inode) (off n : Z) : list Z := map (fbyte V i) (seqZ off n).
Definition contents (V : jview) (i : inode) : list Z := frange V i 0 (i_size i).

Lemma frange_app V i off m n : 0 <= m -> 0 <= n -> frange V i off (m + n) = frange V i off m ++ frange V i (off + m) n.
Proof. intros. unfold frange. by rewrite seqZ_app, map_app. Qed.

Lemma frange_block V i off m d : j_at V (fblock V i (off / BSIZE)) = d -> Z.of_nat (length d) = BSIZE ->
  0 <= off -> 0 <= m -> off `mod` BSIZE + m <= BSIZE -> sub d (off `mod` BSIZE) m = frange V i off m.
Proof.
  intros Hd Hl Ho Hm Hs. pose proof (Z.mod_pos_bound off BSIZE eq_refl). rewrite sub_map by lia. unfold frange.
  replace off with (off `mod` BSIZE + (off - off `mod` BSIZE)) at 2 by lia. rewrite map_seqZ_shift. apply map_seqZ_ext.
  intros k Hk. unfold fbyte. unfold BSIZE in *.
  assert ((k + (off - off `mod` 512)) / 512 = off / 512 /\ (k + (off - off `mod` 512)) `mod` 512 = k) as [-> ->]; [|by rewrite Hd].
  clear -Ho Hm Hs Hk. Z.div_mod_to_equations. lia.
Qed.

Lemma maxfile_small : MAXFILE * BSIZE < 2 ^ 31.
Proof. done. Qed.

(** A file whose blocks up to [upto] exist. *)
Record mapped (V : jview) (i : inode) (upto : Z) : Prop := {
  mp_addrs : length (i_addrs i) = Datatypes.S NDIRECT;
  mp_blocks : forall bn, 0 <= bn -> bn * BSIZE < upto -> fblock V i bn <> 0 /\ 0 <= fblock V i bn < j_len V;
  mp_indirect : Z.of_nat NDIRECT * BSIZE < upto -> addr i NDIRECT <> 0 /\ 0 <= addr i NDIRECT < j_len V
}.

Section file.
Context {S : Type} `{J : Journal S}.
Implicit Types (s : fsys (S := S)) (V : jview).

Lemma get_inode_ok s ip i : ic_inode s !! ip = Some i -> get_inode ip s = Ok i s.
Proof. intros E. unfold get_inode. by rewrite bind_gets, E. Qed.
Lemma get_addr_ok s ip i k : ic_inode s !! ip = Some i -> (k < length (i_addrs i))%nat -> get_addr ip k s = Ok (addr i k) s.
Proof.
  intros E Hk. unfold get_addr, addr. mstep (get_inode_ok s ip i E). destruct (lookup_lt_is_Some_2 _ _ Hk) as [a Ha]. by rewrite Ha.
Qed.
Lemma upd_inode_ok s ip i f : ic_inode s !! ip = Some i -> upd_inode ip f s = Ok tt (set_inodes (<[ip := f i]> (ic_inode s)) s).
Proof. intros E. unfold upd_inode. by mstep (get_inode_ok s ip i E). Qed.

(** [bmap] of a block that exists. *)
Lemma bmap_found s V ip i bn upto : d_ok (fs_d s) V -> j_held V = ∅ -> ic_inode s !! ip = Some i -> i_dev i = 1 ->
  mapped V i upto -> 0 <= bn -> bn * BSIZE < upto -> upto <= MAXFILE * BSIZE ->
  exists x, bmap ip bn s = Ok (fblock V i bn) (set_d x s) /\ d_ok x V.
Proof.
  intros H Hh Ei Hdev M Hbn Hup Hmax. destruct (mp_blocks _ _ _ M bn Hbn Hup) as [Hne _].
  unfold bmap. mstep (get_inode_ok s ip i Ei). unfold fblock in *. destruct (Z.ltb_spec bn (Z.of_nat NDIRECT)) as [Hd|Hd].
  - mstep (get_addr_ok s ip i (Z.to_nat bn) Ei); [|rewrite (mp_addrs _ _ _ M); lia].
    destruct (Z.eqb_spec (addr i (Z.to_nat bn)) 0); [done|]. exists (fs_d s). by rewrite set_d_id.
  - destruct (Z.ltb_spec (bn - Z.of_nat NDIRECT) (Z.of_nat NINDIRECT)) as [_|Hge].
    2:{ unfold MAXFILE, BSIZE in *. lia. }
    destruct (mp_indirect _ _ _ M) as [Hi Hir]; [unfold BSIZE in *; lia|].
    mstep (get_addr_ok s ip i NDIRECT Ei); [|rewrite (mp_addrs _ _ _ M); lia].
    destruct (Z.eqb_spec (addr i NDIRECT) 0) as [|_]; [done|]. mgo. rewrite Hdev.
    destruct (open_block s V (addr i NDIRECT) H Hir) as (b & x & E & Hb & Hx & Ed); [intros b d; by rewrite Hh|rewrite Hh; unfold MAXHELD; rewrite map_size_empty; lia|].
    mstep E. mstep Ed. destruct (Z.eqb_spec (ld32 (j_at V (addr i NDIRECT)) (4 * (bn - Z.of_nat NDIRECT))) 0) as [|_]; [done|].
    destruct (close_block (fun _ => mret (ld32 (j_at V (addr i NDIRECT)) (4 * (bn - Z.of_nat NDIRECT)))) (set_d x s) V b _ Hx Hb) as (x' & -> & Hx').
    by exists x'.
Qed.

Lemma readi_loop_ok V ip i upto n fuel : forall s tot off dst, d_ok (fs_d s) V -> j_held V = ∅ -> ic_inode s !! ip = Some i -> i_dev i = 1 ->
  mapped V i upto -> upto <= MAXFILE * BSIZE -> 0 <= tot <= n -> n < 2 ^ 32 -> 0 <= off -> off + (n - tot) <= upto -> (Z.to_nat (n - tot) < fuel)%nat ->
  exists x, readi_loop fuel ip tot off n dst s = Ok (dst ++ frange V i off (n - tot)) (set_d x s) /\ d_ok x V.
Proof.
  induction fuel as [|fuel IH]; intros s tot off dst H Hh Ei Hdev M Hmax Ht Hn32 Ho Hn Hf; [lia|]. cbn [readi_loop].
  destruct (Z.ltb_spec tot n) as [Hlt|Hge].
  2:{ exists (fs_d s). replace (n - tot) with 0 by lia. rewrite app_nil_r, set_d_id. done. }
  mstep (get_inode_ok s ip i Ei).
  assert (off / BSIZE * BSIZE < upto /\ 0 <= off / BSIZE /\ 0 <= off `mod` BSIZE < BSIZE) as (Hb1 & Hb2 & Hb3).
  { unfold BSIZE in *. clear -Ho Hn Hlt. Z.div_mod_to_equations. lia. }
  destruct (bmap_found s V ip i (off / BSIZE) upto H Hh Ei Hdev M Hb2 Hb1 Hmax) as (x & E & Hx). mstep E. rewrite Hdev.
  destruct (mp_blocks _ _ _ M (off / BSIZE) Hb2 Hb1) as [_ Hr].
  destruct (open_block (set_d x s) V _ Hx Hr) as (b & x' & E' & Hb & Hx' & Ed); [intros b d; by rewrite Hh|rewrite Hh; unfold MAXHELD; rewrite map_size_empty; lia|].
  mstep E'. mstep Ed. set (m := Z.min (n - tot) (BSIZE - off `mod` BSIZE)).
  assert (0 < m <= n - tot /\ off `mod` BSIZE + m <= BSIZE) as [Hm1 Hm2] by (unfold m; lia).
  destruct (close_block (fun _ => readi_loop fuel ip (u32 (tot + m)) (u32 (off + m)) n
      (dst ++ sub (j_at V (fblock V i (off / BSIZE))) (off `mod` BSIZE) m)) (set_d x' (set_d x s)) V b _ Hx' Hb) as (x2 & -> & Hx2).
  rewrite !set_d_set_d.
  pose proof maxfile_small.
  rewrite !u32_small by (unfold is_u32; lia).
  destruct (IH (set_d x2 s) (tot + m) (off + m) (dst ++ sub (j_at V (fblock V i (off / BSIZE))) (off `mod` BSIZE) m)) as (x3 & E3 & Hx3); try done; try lia.
  exists x3. split; [|done]. rewrite E3, set_d_set_d. f_equal. rewrite <- app_assoc. f_equal.
  pose proof (block_at_ok _ _ _ H Hr) as [Hlen _]. rewrite (frange_block V i off m _ eq_refl Hlen) by lia.
  replace (n - tot) with (m + (n - (tot + m))) by lia. by rewrite frange_app by lia.
Qed.

Context (dev_read : Z -> option (nat -> Z -> M (fsys (S := S)) (Z * list Z))).

Lemma readi_ok s V ip i off n : d_ok (fs_d s) V -> j_held V = ∅ -> ic_inode s !! ip = Some i -> i_dev i = 1 -> i_type i <> T_DEV ->
  mapped V i (i_size i) -> 0 <= i_size i <= MAXFILE * BSIZE -> is_u32 off -> is_u32 n ->
  if decide (i_size i < off \/ 2 ^ 32 <= off + n) then readi dev_read ip off n s = Ok (-1, []) s else
  let m := Z.min n (i_size i - off) in
  exists x, readi dev_read ip off n s = Ok (m, frange V i off m) (set_d x s) /\ d_ok x V.
Proof.
  intros H Hh Ei Hdev Ht M Hsz Hoff Hn. unfold readi. mstep (get_inode_ok s ip i Ei).
  destruct (Z.eqb_spec (i_type i) T_DEV) as [|_]; [done|]. unfold is_u32 in *.
  destruct (Z.ltb_spec (i_size i) off) as [Hlt|Hge]; cbn [orb]; [by rewrite decide_True by (by left)|].
  destruct (Z.ltb_spec (u32 (off + n)) off) as [Hlt|Hge2].
  { rewrite decide_True; [done|]. right. destruct (decide (2 ^ 32 <= off + n)); [done|]. rewrite u32_small in Hlt by (unfold is_u32; lia). lia. }
  assert (off + n < 2 ^ 32) as Hov.
  { destruct (decide (off + n < 2 ^ 32)); [done|]. exfalso. unfold u32 in Hge2.
    assert ((off + n) `mod` 2 ^ 32 = off + n - 2 ^ 32) as Hmod by (symmetry; apply (Z.mod_unique_pos _ _ 1); lia). lia. }
  rewrite decide_False by lia. rewrite (u32_small (off + n)) by (unfold is_u32; lia).
  set (m := Z.min n (i_size i - off)). pose proof maxfile_small as Hmf.
  assert ((if i_size i <? off + n then u32 (i_size i - off) else n) = m) as ->.
  { unfold m. destruct (Z.ltb_spec (i_size i) (off + n)); [rewrite u32_small by (unfold is_u32; lia)|]; lia. }
  destruct (readi_loop_ok V ip i (i_size i) m (Datatypes.S (Z.to_nat m)) s 0 off []) as (x & E & Hx); try done; try lia.
  exists x. split; [|done]. mstep E. rewrite Z.sub_0_r. unfold s32. rewrite Z.mod_small by lia. cbn [app]. unfold mret, M_ret. do 2 f_equal. lia.
Qed.
End file.
