(* ===== verification/FsWrite.v ===== *)
(** * Writing to an inode: bmap, writei and iupdate of p6/fs.c

    A file's blocks are its [slot]s: the direct and indirect data blocks, and the
    indirect block itself. [bmap] fills an empty slot with a fresh zeroed block;
    [writei] writes the bytes through them and leaves every other file alone. The disk
    has one bitmap block, as FSSIZE is less than BPB. *)

From S2P Require Import Prelude Sleeplock Cache Log Journal Fs FsAlloc FsFile.

(** Slot MAXFILE is the indirect block. *)
Definition slot (V : jview) (i : inode) (j : Z) : Z := if decide (j = MAXFILE) then addr i NDIRECT else fblock V i j.

Record wf (b : superblock) (V : jview) (i : inode) : Prop := {
  wf_len : length (i_addrs i) = Datatypes.S NDIRECT;
  wf_slots : forall j, 0 <= j <= MAXFILE -> slot V i j <> 0 -> datastart b <= slot V i j < j_len V /\ used b V (slot V i j) = true;
  wf_inj : forall j k, 0 <= j <= MAXFILE -> 0 <= k <= MAXFILE -> slot V i j = slot V i k -> slot V i j <> 0 -> j = k
}.

(** The blocks that hold other files and the inodes keep their contents. *)
Definition keeps (b : superblock) (V V' : jview) (X : Z -> Prop) : Prop :=
  forall m, 0 <= m < j_len V -> m < sb_bmapstart b \/ datastart b <= m /\ used b V m = true -> ~ X m -> j_at V' m = j_at V m.

(** The credit, counting the bitmap and the indirect block as paid for when they are logged. *)
Definition spare (b : superblock) (V : jview) (i : inode) : nat :=
  (j_credit V + (if decide (sb_bmapstart b ∈ j_logged V) then 1 else 0) +
   (if decide (addr i NDIRECT <> 0 /\ addr i NDIRECT ∈ j_logged V)%Z then 1 else 0))%nat.

Lemma slot_direct V i j : 0 <= j < Z.of_nat NDIRECT -> slot V i j = addr i (Z.to_nat j).
Proof.
  intros Hj. unfold slot. rewrite decide_False by (unfold MAXFILE, NDIRECT, NINDIRECT in *; lia). unfold fblock.
  by destruct (Z.ltb_spec j (Z.of_nat NDIRECT)); [|lia].
Qed.
Lemma slot_indirect V i : slot V i MAXFILE = addr i NDIRECT.
Proof. done. Qed.
Lemma slot_data V i j : Z.of_nat NDIRECT <= j < MAXFILE -> slot V i j = if addr i NDIRECT =? 0 then 0 else ld32 (j_at V (addr i NDIRECT)) (4 * (j - Z.of_nat NDIRECT)).
Proof.
  intros Hj. unfold slot. rewrite decide_False by lia. unfold fblock. by destruct (Z.ltb_spec j (Z.of_nat NDIRECT)); [lia|].
Qed.
Lemma slot_fblock V i j : 0 <= j < MAXFILE -> slot V i j = fblock V i j.
Proof. intros Hj. unfold slot. by rewrite decide_False by lia. Qed.

(** Slots depend on the indirect block only. *)
Lemma slot_keep V V' i j : 0 <= j <= MAXFILE -> (addr i NDIRECT <> 0 -> j_at V' (addr i NDIRECT) = j_at V (addr i NDIRECT)) -> slot V' i j = slot V i j.
Proof.
  intros Hj H. unfold slot, fblock. destruct (decide _); [done|]. destruct (_ <? _); [done|].
  destruct (Z.eqb_spec (addr i NDIRECT) 0); [done|]. by rewrite H.
Qed.

Lemma bmap_block b len n : layout b len -> len <= BPB -> 0 <= n < len -> BBLOCK n b = sb_bmapstart b.
Proof.
  intros L Hl Hn. destruct (bblock_range b len n L Hn) as (-> & _ & _). rewrite Z.div_small by lia. lia.
Qed.
Lemma datastart_one b len : layout b len -> len < BPB -> datastart b = sb_bmapstart b + 1.
Proof. intros L Hl. unfold datastart. rewrite (ly_size _ _ L). rewrite Z.div_small; [lia|]. pose proof (ly_len _ _ L). lia. Qed.
Lemma layout_pos b len : layout b len -> 2 < sb_bmapstart b.
Proof.
  intros [H1 H2 H3 H4]. assert (0 <= sb_ninodes b / IPB) by (apply Z.div_pos; [lia|done]). lia.
Qed.

Lemma datastart_pos b len : layout b len -> 2 < datastart b.
Proof.
  intros L. pose proof (layout_pos _ _ L). unfold datastart.
  assert (0 <= sb_size b / BPB) by (apply Z.div_pos; [rewrite (ly_size _ _ L); apply (ly_len _ _ L)|done]). lia.
Qed.

(** A fresh block in an empty slot. *)
Lemma addr_set i k a j : (k < length (i_addrs i))%nat ->
  addr (set_iaddrs (<[k := a]> (i_addrs i)) i) j = if decide (j = k) then a else addr i j.
Proof.
  intros Hk. unfold addr. cbn. destruct (decide (j = k)) as [->|N]; [by rewrite list_lookup_insert_eq|by rewrite list_lookup_insert_ne].
Qed.

Lemma datastart_low b len : layout b len -> sb_inodestart b <= datastart b.
Proof.
  intros [H1 H2 (H3 & H4 & H5) H6]. unfold datastart. assert (0 <= sb_ninodes b / IPB) by (apply Z.div_pos; [lia|done]).
  assert (0 <= sb_size b / BPB) by (apply Z.div_pos; [lia|done]). lia.
Qed.
Lemma iblock_low b len inum : layout b len -> 0 <= inum < sb_ninodes b -> sb_inodestart b <= IBLOCK inum b.
Proof.
  intros [H1 H2 H3 H4] Hi. unfold IBLOCK. change IPB with 8 in *.
  assert (0 <= inum / 8 <= sb_ninodes b / 8) by (clear -Hi; Z.div_mod_to_equations; lia).
  assert (0 <= len / BPB) by (apply Z.div_pos; [lia|done]). rewrite u32_small by (unfold is_u32; lia). lia.
Qed.

Lemma wf_ind b V i : wf b V i -> addr i NDIRECT <> 0 -> datastart b <= addr i NDIRECT < j_len V /\ used b V (addr i NDIRECT) = true.
Proof. intros W Hne. apply (wf_slots _ _ _ W MAXFILE); [by unfold MAXFILE|exact Hne]. Qed.

(** Filling an empty slot with an unused block. *)
Lemma wf_fill b V V' i i' n j : wf b V i -> length (i_addrs i') = Datatypes.S NDIRECT -> j_len V' = j_len V ->
  datastart b <= n < j_len V -> used b V n = false -> used b V' n = true ->
  (forall m, 0 <= m < j_len V -> used b V m = true -> used b V' m = true) -> 0 < datastart b ->
  (forall k, 0 <= k <= MAXFILE -> slot V' i' k = if decide (k = j) then n else slot V i k) -> wf b V' i'.
Proof.
  intros W Hlen Hl Hn Hu Hu' Hmono Hd Hs.
  assert (forall m, slot V i m = n -> 0 <= m <= MAXFILE -> False) as Hfresh.
  { intros m E Hm. destruct (wf_slots _ _ _ W m Hm) as [_ Hc]; [rewrite E; lia|]. rewrite E in Hc. congruence. }
  split; [done| |].
  - intros k Hk Hne. rewrite Hs, Hl in * by done. destruct (decide (k = j)) as [->|N]; [done|].
    destruct (wf_slots _ _ _ W k Hk Hne) as [Hr Hu2]. split; [done|]. apply Hmono; [lia|done].
  - intros j1 j2 H1 H2 E Hne. rewrite !Hs in E by done. rewrite Hs in Hne by done.
    destruct (decide (j1 = j)) as [->|N1], (decide (j2 = j)) as [->|N2]; [done| | |].
    + by destruct (Hfresh j2).
    + by destruct (Hfresh j1).
    + by apply (wf_inj _ _ _ W).
Qed.

Section write.
Context {S : Type} `{J : Journal S}.
Implicit Types (s : fsys (S := S)) (V : jview).
Context (b : superblock) (Hlow : d_low <= sb_inodestart b).

Lemma alloc_keeps V n X : layout b (j_len V) -> j_len V < BPB -> datastart b <= n < j_len V -> used b V n = false -> keeps b V (j_alloc b n V) X.
Proof.
  intros L Hb Hn Hu m Hm Hc _. pose proof (layout_pos _ _ L). pose proof (datastart_one _ _ L Hb).
  rewrite j_at_alloc by (done || lia). rewrite (bmap_block _ _ n L) by lia.
  rewrite decide_False by (intros ->; destruct Hc as [|[_ Hc]]; [lia|congruence]). by rewrite decide_False by lia.
Qed.

Lemma alloc_credit V n : layout b (j_len V) -> j_len V < BPB -> 0 <= n < j_len V -> (2 <= j_credit V)%nat ->
  sb_bmapstart b ∈ j_logged (j_alloc b n V) /\ n ∈ j_logged (j_alloc b n V) /\ j_logged V ⊆ j_logged (j_alloc b n V) /\
  (j_credit V + (if decide (sb_bmapstart b ∈ j_logged V) then 1 else 0) <= j_credit (j_alloc b n V) + 2)%nat.
Proof.
  intros L Hb Hn Hc. unfold j_alloc, j_write, j_spend. cbn. rewrite (bmap_block _ _ n L) by lia.
  split; [set_solver|]. split; [set_solver|]. split; [set_solver|]. repeat case_decide; lia.
Qed.

Lemma wf_alloc_set V i n k : wf b V i -> layout b (j_len V) -> j_len V < BPB -> datastart b <= n < j_len V -> used b V n = false ->
  block_ok (j_at V (BBLOCK n b)) -> (k <= NDIRECT)%nat -> addr i k = 0 ->
  let V' := j_alloc b n V in let i' := set_iaddrs (<[k := n]> (i_addrs i)) i in
  let j := if decide (k = NDIRECT) then MAXFILE else Z.of_nat k in
  wf b V' i' /\ forall j', 0 <= j' <= MAXFILE -> slot V' i' j' = if decide (j' = j) then n else slot V i j'.
Proof.
  intros W L Hb Hn Hu Hbk Hk H0 V' i' j. pose proof (wf_len _ _ _ W) as Hlen.
  pose proof (layout_pos _ _ L) as Hpos. pose proof (datastart_one _ _ L Hb) as Hds.
  assert (k < length (i_addrs i))%nat as Hkl by lia.
  assert (forall m, addr i' m = if decide (m = k) then n else addr i m) as Ha by (intros; by apply addr_set).
  assert (forall m, addr i NDIRECT <> 0 -> m = addr i NDIRECT -> j_at V' m = j_at V m) as Hind.
  { intros m Hne ->. destruct (wf_ind _ _ _ W Hne) as [Hr Hu']. apply (alloc_keeps V n (fun _ => False)); try done; try lia. right; split; [lia|done]. }
  assert (forall j', 0 <= j' <= MAXFILE -> slot V' i' j' = if decide (j' = j) then n else slot V i j') as Hs.
  { intros j' Hj'. unfold j. destruct (decide (k = NDIRECT)) as [->|Hne].
    - destruct (decide (j' = MAXFILE)) as [->|Nj]; [rewrite slot_indirect, Ha; by rewrite decide_True|].
      destruct (decide (j' < Z.of_nat NDIRECT)) as [Hd|Hd].
      + rewrite !slot_direct, Ha by lia. rewrite decide_False by lia. done.
      + rewrite !slot_data, Ha by lia. rewrite decide_True by done. destruct (Z.eqb_spec n 0) as [|_]; [lia|]. rewrite H0. cbn [Z.eqb].
        unfold V'. rewrite j_at_alloc, decide_True by (done || lia). unfold ld32, ld16, ld8, zero_block.
        rewrite !lookup_replicate_2 by (unfold BSIZE, MAXFILE, NDIRECT, NINDIRECT in *; lia). done.
    - destruct (decide (j' = Z.of_nat k)) as [->|Nj].
      + rewrite slot_direct, Ha by (unfold NDIRECT in *; lia). by rewrite decide_True by lia.
      + destruct (decide (j' = MAXFILE)) as [->|Nj2]; [rewrite !slot_indirect, Ha; by rewrite decide_False|].
        destruct (decide (j' < Z.of_nat NDIRECT)) as [Hd|Hd].
        * rewrite !slot_direct, Ha by lia. by rewrite decide_False by lia.
        * rewrite !slot_data, Ha by lia. rewrite decide_False by done. destruct (Z.eqb_spec (addr i NDIRECT) 0); [done|]. by rewrite Hind. }
  split; [|exact Hs]. apply (wf_fill b V V' i i' n j W); try done; try lia.
  - cbn. by rewrite length_insert.
  - apply j_len_alloc.
  - unfold V'. rewrite used_alloc by (done || lia). by rewrite decide_True.
  - intros m Hm Hu'. unfold V'. rewrite used_alloc by (done || lia). rewrite Hu'. by case_decide.
Qed.

(** Writing to a block past the bitmap does not change the bitmap. *)
Lemma used_data_write V n d m : layout b (j_len V) -> datastart b <= n < j_len V -> 0 <= m < j_len V ->
  used b (j_write n d V) m = used b V m.
Proof.
  intros L Hn Hm. destruct (bblock_range b _ m L Hm) as (_ & H1 & H2). pose proof (layout_pos _ _ L). unfold used.
  rewrite j_at_write by lia. by rewrite decide_False by lia.
Qed.

(** A fresh block entered in the indirect block. *)
Lemma wf_alloc_entry V i n k : wf b V i -> layout b (j_len V) -> j_len V < BPB -> datastart b <= n < j_len V -> used b V n = false ->
  Forall block_ok (j_blocks V) -> addr i NDIRECT <> 0 -> Z.of_nat NDIRECT <= k < MAXFILE -> slot V i k = 0 ->
  let ind := addr i NDIRECT in
  let V' := j_write ind (st32 (j_at V ind) (4 * (k - Z.of_nat NDIRECT)) n) (j_alloc b n V) in
  wf b V' i /\ forall j', 0 <= j' <= MAXFILE -> slot V' i j' = if decide (j' = k) then n else slot V i j'.
Proof.
  intros W L Hb Hn Hu Hok Hne Hk H0 ind V'. destruct (wf_ind _ _ _ W Hne) as [Hir Hiu].
  pose proof (layout_pos _ _ L) as Hpos. pose proof (datastart_one _ _ L Hb) as Hds. fold ind in Hir, Hiu.
  assert (forall m, 0 <= m < j_len V -> block_ok (j_at V m)) as Hblk.
  { intros m Hm. unfold j_at, disk_at. destruct (lookup_lt_is_Some_2 (j_blocks V) (Z.to_nat m)) as [d E]; [unfold j_len, disk_len in Hm; lia|].
    rewrite E. cbn. by eapply Forall_lookup_1 in Hok. }
  destruct (Hblk ind ltac:(lia)) as [Hil Hib]. unfold BSIZE in Hil.
  assert (j_at V' ind = st32 (j_at V ind) (4 * (k - Z.of_nat NDIRECT)) n) as Hat.
  { unfold V'. rewrite j_at_write by (rewrite ?j_len_alloc; lia). by rewrite decide_True. }
  assert (forall j', 0 <= j' <= MAXFILE -> slot V' i j' = if decide (j' = k) then n else slot V i j') as Hs.
  { intros j' Hj'. destruct (decide (j' = MAXFILE)) as [->|Nj2].
    { rewrite !slot_indirect. by rewrite decide_False by lia. }
    destruct (decide (j' < Z.of_nat NDIRECT)) as [Hd|Hd]; [rewrite !slot_direct by lia; by rewrite decide_False by lia|].
    rewrite !slot_data by lia. destruct (Z.eqb_spec (addr i NDIRECT) 0); [done|]. fold ind. rewrite Hat.
    pose proof (ly_len _ _ L). unfold MAXFILE, NDIRECT, NINDIRECT in *. destruct (decide (j' = k)) as [->|N].
    - apply ld32_st32_eq; [lia|lia|unfold is_u32; lia].
    - apply ld32_st32_ne; lia. }
  split; [|exact Hs].
  assert (forall m, 0 <= m < j_len V -> used b V' m = if decide (m = n) then true else used b V m) as Hus.
  { intros m Hm. unfold V'. rewrite used_data_write by (rewrite ?j_len_alloc; done). apply used_alloc; try done; try lia.
    apply Hblk. rewrite (bmap_block _ _ n L) by lia. lia. }
  apply (wf_fill b V V' i i n k W); try done; try lia.
  - apply W.
  - unfold V'. by rewrite j_len_write, j_len_alloc.
  - rewrite Hus by lia. by rewrite decide_True.
  - intros m Hm Hu'. rewrite Hus, Hu' by done. by case_decide.
Qed.

(** ** [bmap] *)

Definition at_inode s (ip : nat) (x : S) (i : inode) : fsys := set_inodes (<[ip := i]> (ic_inode s)) (set_d x s).
Lemma at_inode_same s ip i x : ic_inode s !! ip = Some i -> set_d x s = at_inode s ip x i.
Proof. intros E. unfold at_inode, set_inodes, set_d. cbn. by rewrite list_insert_id. Qed.

(** Every block before the data blocks is in use. *)
Definition meta_used V : Prop := forall m, 0 <= m < datastart b -> used b V m = true.

Lemma low_meta V : layout b (j_len V) -> meta_used V -> low_ok b V.
Proof.
  intros L Hm. split; [done|]. intros n Hn Hu. pose proof (datastart_low _ _ L).
  destruct (decide (n < datastart b)); [rewrite Hm in Hu by lia; done|lia].
Qed.

(** How [bmap] of block [bn] changes the disk and the inode: its result is [a]. *)
Record extended V i V' i' (bn a : Z) : Prop := {
  ex_held : j_held V' = j_held V;
  ex_len : j_len V' = j_len V;
  ex_inode : exists l, i' = set_iaddrs l i;
  ex_wf : wf b V' i';
  ex_slot : slot V' i' bn = a /\ a <> 0;
  ex_others : forall j, 0 <= j < MAXFILE -> j <> bn -> slot V' i' j = slot V i j;
  ex_ind : addr i NDIRECT <> 0 -> addr i' NDIRECT = addr i NDIRECT;
  ex_new : if slot V i bn =? 0 then j_at V' a = zero_block else a = slot V i bn;
  ex_keeps : keeps b V V' (fun m => m <> 0 /\ m = addr i NDIRECT);
  ex_used : forall m, 0 <= m < j_len V -> used b V m = true -> used b V' m = true;
  ex_spare : (spare b V i <= spare b V' i' + (if decide (a ∈ j_logged V') then 1 else 0))%nat;
  ex_same : slot V i bn <> 0 -> i' = i;
  ex_fresh : forall j, 0 <= j <= MAXFILE -> slot V' i' j <> slot V i j -> used b V (slot V' i' j) = false
}.

Lemma extended_refl V i bn : wf b V i -> slot V i bn <> 0 -> extended V i V i bn (slot V i bn).
Proof.
  intros W Hne. split; try done.
  - exists (i_addrs i). by destruct i.
  - by destruct (Z.eqb_spec (slot V i bn) 0).
  - lia.
Qed.

(** An allocation and the update of the indirect block cost one block at most. *)
Lemma entry_spare V V' i n ind d : addr i NDIRECT = ind -> ind <> 0 -> sb_bmapstart b ∈ j_logged V' -> n ∈ j_logged V' -> j_logged V ⊆ j_logged V' ->
  (j_credit V + (if decide (sb_bmapstart b ∈ j_logged V) then 1 else 0) <= j_credit V' + 2)%nat ->
  (spare b V i <= spare b (j_write ind d V') i + (if decide (n ∈ j_logged (j_write ind d V')) then 1 else 0))%nat.
Proof.
  intros Hi Hne A1 A2 A3 A4. unfold spare, j_write. cbn [j_logged j_credit]. unfold j_spend. rewrite Hi.
  assert (forall m, m ∈ j_logged V' -> m ∈ {[ind]} ∪ j_logged V') as Hin by (intros m Hm; apply elem_of_union; by right).
  assert (ind ∈ {[ind]} ∪ j_logged V') as Hin' by (apply elem_of_union_l; by apply elem_of_singleton).
  rewrite (decide_True (P := sb_bmapstart b ∈ {[ind]} ∪ _)), (decide_True (P := n ∈ {[ind]} ∪ _)) by (by apply Hin).
  rewrite (decide_True (P := ind <> 0 /\ ind ∈ {[ind]} ∪ _)) by done.
  destruct (decide (sb_bmapstart b ∈ j_logged V)), (decide (ind <> 0 /\ ind ∈ j_logged V)) as [[_ Hl]|Hl], (decide (ind ∈ j_logged V')) as [Hl'|Hl']; try lia;
    by destruct Hl'; apply A3.
Qed.

(** The part of [bmap] after the indirect block is known. *)
Definition bmap_entry (bn addr : Z) : M fsys Z :=
  bp ← jbread 1 addr;
  a ← data bp;
  let addr := ld32 a (4 * bn) in
  if addr =? 0 then
    addr ← balloc 1;
    a ← data bp;
    put bp (st32 a (4 * bn) addr);;
    jlog_write bp;;
    jbrelse bp;;
    mret addr
  else
    jbrelse bp;;
    mret addr.

Lemma balloc_data V n : layout b (j_len V) -> meta_used V -> 0 <= n < j_len V -> used b V n = false -> datastart b <= n < j_len V.
Proof. intros L Hm Hn Hu. destruct (decide (n < datastart b)) as [Hlt|]; [|lia]. by rewrite Hm in Hu by lia. Qed.

Lemma bmap_entry_ok s V i bn : d_ok (fs_d s) V -> sb s = b -> j_held V = ∅ -> layout b (j_len V) -> j_len V < BPB -> meta_used V ->
  wf b V i -> addr i NDIRECT <> 0 -> Z.of_nat NDIRECT <= bn < MAXFILE -> (2 <= j_credit V)%nat -> (3 <= spare b V i)%nat ->
  bmap_entry (bn - Z.of_nat NDIRECT) (addr i NDIRECT) s = Panic "balloc: out of blocks" \/
  exists a x V', bmap_entry (bn - Z.of_nat NDIRECT) (addr i NDIRECT) s = Ok a (set_d x s) /\ d_ok x V' /\ extended V i V' i bn a.
Proof.
  intros H Hs Hh L Hb Hm W Hne Hbn Hc Hsp. destruct (wf_ind _ _ _ W Hne) as [Hir Hiu].
  pose proof (layout_pos _ _ L) as Hpos. pose proof (datastart_one _ _ L Hb) as Hds.
  pose proof (slot_data V i bn Hbn) as Esl. destruct (Z.eqb_spec (addr i NDIRECT) 0) as [|_]; [done|]. set (ind := addr i NDIRECT) in *.
  assert (forall m, j_free V m) as Hfree by (intros m b' d; by rewrite Hh).
  destruct (open_block s V ind H ltac:(lia) (Hfree _)) as (bp & x & E & Hbp & Hx & Ed); [rewrite Hh, map_size_empty; unfold MAXHELD; lia|].
  unfold bmap_entry. mstep E. mstep Ed. rewrite <- Esl. destruct (Z.eqb_spec (slot V i bn) 0) as [H0|H0].
  2:{ right. destruct (close_block (fun _ => mret (slot V i bn)) (set_d x s) V bp _ Hx Hbp) as (x' & -> & Hx').
      exists (slot V i bn), x', V. split; [done|]. split; [done|]. by apply extended_refl. }
  set (V1 := j_hold bp ind (j_at V ind) V) in *.
  destruct (balloc_ok (set_d x s) V1 b Hx Hs L) as [(n & x' & Hn & Hu & _ & Hx' & E')|[_ E']].
  - intros m Hm0 Hc0 b' d Hb'. unfold V1, j_hold in Hb'. cbn in Hb'. rewrite Hh in Hb'. apply lookup_insert_Some in Hb' as [(_ & [= <- _])|(_ & Hb')]; [|done].
    destruct Hc0 as [|Hc0]; [lia|]. change (used b V1 ind) with (used b V ind) in Hc0. congruence.
  - by apply (low_meta V).
  - unfold V1, j_hold. cbn. rewrite Hh. rewrite map_size_insert_None, map_size_empty by done. unfold MAXHELD. lia.
  - exact Hc.
  - mstep E'. change (j_alloc b n V1) with (j_hold bp ind (j_at V ind) (j_alloc b n V)) in Hx'.
    assert (j_held (j_hold bp ind (j_at V ind) (j_alloc b n V)) !! bp = Some (ind, j_at V ind)) as Hbp' by (cbn; by rewrite lookup_insert_eq).
    mstep (data_held (set_d x' (set_d x s)) _ bp ind (j_at V ind) Hx' Hbp').
    change (used b V1 n) with (used b V n) in Hu. change (j_len V1) with (j_len V) in Hn.
    pose proof (balloc_data V n L Hm Hn Hu) as Hn'.
    destruct (alloc_credit V n L Hb Hn Hc) as (A1 & A2 & A3 & A4).
    destruct (write_close (set_d x' (set_d x s)) (j_alloc b n V) bp ind (j_at V ind) (st32 (j_at V ind) (4 * (bn - Z.of_nat NDIRECT)) n) Hx' Hbp) as (x2 & Hx2 & _ & E2).
    { rewrite j_len_alloc. lia. }
    { pose proof (datastart_low _ _ L). lia. }
    { apply block_ok_st32; [apply (block_at_ok s); [done|lia]|lia|]. unfold MAXFILE, NDIRECT, NINDIRECT, BSIZE in *. lia. }
    { unfold spare in Hsp. destruct (decide (ind ∈ j_logged V)); [left; by apply A3|]. right.
      rewrite (decide_False (P := addr i NDIRECT <> 0 /\ _)) in Hsp by (intros [_ ?]; done). lia. }
    rewrite E2, !set_d_set_d. right. eexists n, x2, _. split; [done|]. split; [exact Hx2|].
    assert (j_at (j_alloc b n V) ind = j_at V ind) as Eind.
    { apply (alloc_keeps V n (fun _ => False)); try done; try lia. right. split; [lia|done]. }
    destruct (wf_alloc_entry V i n bn W L Hb Hn' Hu (d_blocks_ok _ _ H) Hne Hbn H0) as [W' Hs'].
    split; try done.
    + by rewrite j_len_write, j_len_alloc.
    + exists (i_addrs i). by destruct i.
    + split; [|lia]. rewrite Hs' by lia. by rewrite decide_True.
    + intros j Hj Hj'. rewrite Hs' by lia. by rewrite decide_False.
    + rewrite H0, Z.eqb_refl. rewrite j_at_write by (rewrite ?j_len_alloc; lia).
      rewrite decide_False by (intros ->; fold ind in Hiu; congruence). rewrite j_at_alloc by (done || lia). by rewrite decide_True.
    + intros m Hm0 Hc0 Hx0. rewrite j_at_write by (rewrite ?j_len_alloc; lia). rewrite decide_False by (intros ->; by apply Hx0).
      apply (alloc_keeps V n (fun _ => False)); try done; by intros [].
    + intros m Hm0 Hu0. rewrite used_data_write by (rewrite ?j_len_alloc; done). rewrite used_alloc; [|done|done|apply (block_at_ok s); [done|]; apply (bblock_range b _ n L Hn)|lia|done].
      rewrite Hu0. by destruct (decide (m = n)).
    + apply (entry_spare V (j_alloc b n V)); try done.
    + intros j Hj. rewrite Hs' by done. by destruct (decide (j = bn)).
  - left. by apply bind_Panic.
Qed.

Lemma alloc_spare V V' i i' n : sb_bmapstart b ∈ j_logged V' -> n ∈ j_logged V' -> j_logged V ⊆ j_logged V' ->
  (j_credit V + (if decide (sb_bmapstart b ∈ j_logged V) then 1 else 0) <= j_credit V' + 2)%nat ->
  (addr i' NDIRECT = addr i NDIRECT -> (spare b V i <= spare b V' i' + (if decide (n ∈ j_logged V') then 1 else 0))%nat) /\
  (addr i NDIRECT = 0 -> addr i' NDIRECT = n -> n <> 0 -> (spare b V i <= spare b V' i')%nat).
Proof.
  intros A1 A2 A3 A4. unfold spare. rewrite (decide_True (P := sb_bmapstart b ∈ j_logged V')), (decide_True (P := n ∈ _)) by done. split.
  - intros ->. destruct (decide (sb_bmapstart b ∈ j_logged V)), (decide (addr i NDIRECT <> 0 /\ addr i NDIRECT ∈ j_logged V)) as [[Hn Hl]|Hl],
      (decide (addr i NDIRECT <> 0 /\ addr i NDIRECT ∈ j_logged V')) as [Hl'|Hl']; try lia; destruct Hl'; (split; [done|by apply A3]).
  - intros -> -> Hn. rewrite (decide_False (P := 0 <> 0 /\ _)) by (intros [? _]; done). rewrite (decide_True (P := n <> 0 /\ _)) by done.
    destruct (decide (sb_bmapstart b ∈ j_logged V)); lia.
Qed.

(** [balloc] into slot [k], which was empty. *)
Lemma fill_addr_ok s V ip i k : d_ok (fs_d s) V -> sb s = b -> j_held V = ∅ -> layout b (j_len V) -> j_len V < BPB -> meta_used V ->
  ic_inode s !! ip = Some i -> wf b V i -> (2 <= j_credit V)%nat -> (k <= NDIRECT)%nat -> addr i k = 0 ->
  (addr ← balloc 1; put_addr ip k addr;; mret addr) s = Panic "balloc: out of blocks" \/
  exists n x, (addr ← balloc 1; put_addr ip k addr;; mret addr) s = Ok n (at_inode s ip x (set_iaddrs (<[k := n]> (i_addrs i)) i)) /\
    d_ok x (j_alloc b n V) /\ datastart b <= n < j_len V /\ used b V n = false.
Proof.
  intros H Hs Hh L Hb Hm Ei W Hc Hk H0.
  destruct (balloc_ok s V b H Hs L) as [(n & x & Hn & Hu & _ & Hx & E)|[_ E]]; [intros m _ _ b' d; by rewrite Hh|by apply low_meta|rewrite Hh, map_size_empty; unfold MAXHELD; lia|done| |].
  - right. exists n, x. split; [|split; [done|split; [by apply balloc_data|done]]]. mstep E. unfold put_addr.
    by mstep (upd_inode_ok (set_d x s) ip i _ Ei).
  - left. by apply bind_Panic.
Qed.

Lemma bmap_ok s V ip i bn : d_ok (fs_d s) V -> sb s = b -> j_held V = ∅ -> layout b (j_len V) -> j_len V < BPB -> meta_used V ->
  ic_inode s !! ip = Some i -> i_dev i = 1 -> wf b V i -> 0 <= bn < MAXFILE -> (4 <= spare b V i)%nat ->
  bmap ip bn s = Panic "balloc: out of blocks" \/
  exists a x V' i', bmap ip bn s = Ok a (at_inode s ip x i') /\ d_ok x V' /\ extended V i V' i' bn a.
Proof.
  intros H Hs Hh L Hb Hm Ei Hdev W Hbn Hsp. pose proof (wf_len _ _ _ W) as Hlen.
  pose proof (layout_pos _ _ L) as Hpos. pose proof (datastart_one _ _ L Hb) as Hds.
  assert (forall m, 0 <= m < j_len V -> block_ok (j_at V m)) as Hblk by (intros; by apply (block_at_ok s)).
  assert (forall n, 0 <= n < j_len V -> block_ok (j_at V (BBLOCK n b))) as Hbit by (intros n Hn; apply Hblk; by apply bblock_range).
  assert (2 <= j_credit V)%nat as Hc.
  { unfold spare in Hsp. destruct (decide (sb_bmapstart b ∈ _)), (decide (addr i NDIRECT <> 0 /\ _)); lia. }
  unfold bmap. mstep (get_inode_ok s ip i Ei). rewrite Hdev. destruct (Z.ltb_spec bn (Z.of_nat NDIRECT)) as [Hd|Hd].
  - mstep (get_addr_ok s ip i (Z.to_nat bn) Ei); [|lia]. pose proof (slot_direct V i bn ltac:(lia)) as Esl. rewrite <- Esl.
    destruct (Z.eqb_spec (slot V i bn) 0) as [H0|H0].
    2:{ right. exists (slot V i bn), (fs_d s), V, i. rewrite <- at_inode_same, set_d_id by done. split; [done|]. split; [done|]. by apply extended_refl. }
    rewrite Esl in H0. destruct (fill_addr_ok s V ip i (Z.to_nat bn)) as [E|(n & x & E & Hx & Hn & Hu)]; try done; [lia|by left|].
    right. exists n, x. eexists _, _. split; [exact E|]. split; [exact Hx|].
    destruct (wf_alloc_set V i n (Z.to_nat bn) W L Hb Hn Hu) as [W' Hs']; [by apply Hbit; lia|lia|done|].
    rewrite decide_False in Hs' by lia. rewrite Z2Nat.id in Hs' by lia.
    destruct (alloc_credit V n L Hb ltac:(lia) Hc) as (A1 & A2 & A3 & A4). split; try done.
    + apply j_len_alloc.
    + by eexists.
    + split; [|lia]. rewrite Hs' by lia. by rewrite decide_True.
    + intros j Hj Hj'. rewrite Hs' by lia. by rewrite decide_False.
    + intros _. rewrite addr_set by lia. by rewrite decide_False by lia.
    + rewrite Esl, H0, Z.eqb_refl. rewrite j_at_alloc by (done || lia). by rewrite decide_True.
    + by apply alloc_keeps.
    + intros m Hm0 Hu0. rewrite used_alloc; [|done|done|by apply Hbit; lia|lia|done]. rewrite Hu0. by destruct (decide (m = n)).
    + apply (alloc_spare V (j_alloc b n V)); try done. rewrite addr_set by lia. by rewrite decide_False by lia.
    + by rewrite Esl.
    + intros j Hj. rewrite Hs' by done. by destruct (decide (j = bn)).
  - destruct (Z.ltb_spec (bn - Z.of_nat NDIRECT) (Z.of_nat NINDIRECT)) as [_|]; [|unfold MAXFILE in *; lia].
    mstep (get_addr_ok s ip i NDIRECT Ei); [|lia].
    destruct (Z.eqb_spec (addr i NDIRECT) 0) as [H0|H0].
    2:{ destruct (bmap_entry_ok s V i bn) as [E|(a & x & V' & E & Hx & HE)]; try done; try lia; [by left|].
        right. exists a, x, V', i. rewrite <- at_inode_same by done. split; [exact E|done]. }
    destruct (fill_addr_ok s V ip i NDIRECT) as [E|(n & x & E & Hx & Hn & Hu)]; try done.
    { left. by apply bind_Panic. }
    mstep E. destruct (wf_alloc_set V i n NDIRECT W L Hb Hn Hu) as [W' Hs']; [by apply Hbit; lia|lia|done|].
    rewrite decide_True in Hs' by done. set (i1 := set_iaddrs (<[NDIRECT:=n]> (i_addrs i)) i) in *. set (V1 := j_alloc b n V) in *.
    destruct (alloc_credit V n L Hb ltac:(lia) Hc) as (A1 & A2 & A3 & A4). fold V1 in A1, A2, A3, A4.
    assert (addr i1 NDIRECT = n) as Hi1 by (unfold i1; rewrite addr_set by lia; by rewrite decide_True).
    assert (j_len V1 = j_len V) as Hl1 by apply j_len_alloc.
    destruct (alloc_spare V V1 i i1 n A1 A2 A3 A4) as [_ Hsp1]. specialize (Hsp1 H0 Hi1 ltac:(lia)).
    assert (forall m, 0 <= m < j_len V -> used b V m = true -> used b V1 m = true) as Hmono.
    { intros m Hm0 Hu0. unfold V1. rewrite used_alloc; [|done|done|by apply Hbit; lia|lia|done]. rewrite Hu0. by destruct (decide (m = n)). }
    assert (slot V i bn = 0) as Hz. { rewrite slot_data by lia. by rewrite H0. }
    assert (2 <= j_credit V1)%nat as Hc1.
    { unfold spare in Hsp. rewrite (decide_False (P := addr i NDIRECT <> 0 /\ _)) in Hsp by (intros [? _]; done).
      destruct (decide (sb_bmapstart b ∈ j_logged V)); lia. }
    assert (slot V1 i1 bn = 0) as Hz1. { rewrite Hs', Hz by lia. by rewrite decide_False by lia. }
    destruct (bmap_entry_ok (at_inode s ip x i1) V1 i1 bn) as [E1|(a & x1 & V' & E1 & Hx1 & HE)]; try done; try (rewrite ?Hl1; done || lia).
    { intros m Hm0. apply Hmono; [|by apply Hm]. destruct (bblock_range b _ m L) as (_ & ? & ?); lia. }
    { left. rewrite Hi1 in E1. exact E1. }
    right. exists a, x1, V', i1. rewrite Hi1 in E1. split; [exact E1|]. split; [done|].
    destruct HE as [F1 F2 F3 F4 F5 F6 F7 F8 F9 F10 F11 _ F13]. split.
    + by rewrite F1.
    + by rewrite F2.
    + by eexists.
    + done.
    + done.
    + intros j Hj Hj'. rewrite F6, Hs' by lia. by rewrite decide_False by lia.
    + done.
    + rewrite Hz, Z.eqb_refl. by rewrite Hz1, Z.eqb_refl in F8.
    + intros m Hm0 Hc0 Hne. rewrite F9; [by apply (alloc_keeps V n (fun _ => False)); try done; intros []|lia| |].
      * destruct Hc0 as [|[? ?]]; [by left|right; split; [done|by apply Hmono]].
      * rewrite Hi1. intros [_ ->]. destruct Hc0 as [|[_ Hc0]]; [lia|congruence].
    + intros m Hm0 Hu0. apply F10; [lia|by apply Hmono].
    + lia.
    + done.
    + intros j Hj Hne2. destruct (decide (j = MAXFILE)) as [->|Nj].
      { by rewrite slot_indirect, Hi1. }
      destruct (decide (slot V' i1 j = slot V1 i1 j)) as [Es|Ns].
      { rewrite Es, Hs', decide_False in Hne2 by done. by destruct Hne2. }
      apply F13 in Ns; [|done]. destruct (used b V (slot V' i1 j)) eqn:Eu; [|done].
      destruct (F4) as [_ P2 _]. destruct (decide (slot V' i1 j = 0)) as [E0|Hne0]; [|by rewrite Hmono in Ns by (try done; destruct (P2 j Hj Hne0); lia)].
      rewrite E0, Hmono in Ns; [done|lia|]. apply Hm. lia.
Qed.

(** ** The loop of [writei] *)

Definition own V i (m : Z) : Prop := m <> 0 /\ exists j, 0 <= j <= MAXFILE /\ slot V i j = m.

(** After writing up to [off] of what starts at [off0]. *)
Record writing (V0 : jview) (i0 : inode) (src : list Z) (off0 : Z) (V : jview) (i : inode) (off : Z) : Prop := {
  wr_held : j_held V = ∅;
  wr_len : j_len V = j_len V0;
  wr_inode : exists l, i = set_iaddrs l i0;
  wr_wf : wf b V i;
  wr_meta : meta_used V;
  wr_mapped : forall bn, 0 <= bn < MAXFILE -> bn * BSIZE < Z.max (i_size i0) off -> slot V i bn <> 0;
  wr_bytes : forall k, 0 <= k < Z.max (i_size i0) off -> fbyte V i k = if decide (off0 <= k < off) then ld8 src (k - off0) else fbyte V0 i0 k;
  wr_keeps : keeps b V0 V (own V i);
  wr_used : forall m, 0 <= m < j_len V0 -> used b V0 m = true -> used b V m = true;
  wr_same : off <= i_size i0 -> i = i0;
  wr_fresh : forall j, 0 <= j <= MAXFILE -> slot V i j <> slot V0 i0 j -> used b V0 (slot V i j) = false
}.

(** The blocks that [n] bytes from [off] lie in. *)
Definition nblocks (off n : Z) : Z := if n <=? 0 then 0 else (off + n - 1) / BSIZE - off / BSIZE + 1.

Lemma nblocks_step off n : 0 <= off -> 0 < n -> let m := Z.min n (BSIZE - off `mod` BSIZE) in
  0 < m <= n /\ off `mod` BSIZE + m <= BSIZE /\ nblocks (off + m) (n - m) <= nblocks off n - 1 /\ 1 <= nblocks off n.
Proof.
  intros Ho Hn m. unfold nblocks, m, BSIZE. clear m. destruct (Z.leb_spec n 0); [lia|].
  destruct (Z.leb_spec (n - Z.min n (512 - off `mod` 512)) 0); Z.div_mod_to_equations; lia.
Qed.

Lemma ld8_sub src o n k : 0 <= o -> 0 <= k < n -> ld8 (sub src o n) k = ld8 src (o + k).
Proof.
  intros Ho Hk. unfold ld8, sub. rewrite lookup_take_lt, lookup_drop by lia. do 2 f_equal. lia.
Qed.
Lemma length_sub src o n : 0 <= o -> 0 <= n -> o + n <= Z.of_nat (length src) -> Z.of_nat (length (sub src o n)) = n.
Proof. intros. unfold sub. rewrite length_take, length_drop. lia. Qed.

(** Writing one data block of the file. *)
Lemma wf_data_write V i bn d : wf b V i -> layout b (j_len V) -> 0 <= bn < MAXFILE -> slot V i bn <> 0 ->
  let a := slot V i bn in let V' := j_write a d V in
  wf b V' i /\ (forall j, 0 <= j <= MAXFILE -> slot V' i j = slot V i j) /\ (forall m, 0 <= m < j_len V -> used b V' m = used b V m) /\
  (spare b V i <= spare b V' i + (if decide (a ∈ j_logged V) then 0 else 1))%nat.
Proof.
  intros W L Hbn Hne a V'. pose proof (layout_pos _ _ L). destruct (wf_slots _ _ _ W bn ltac:(lia) Hne) as [Hr Hu]. fold a in Hr, Hu.
  pose proof (datastart_pos _ _ L). assert (0 <= a < j_len V) as Hr' by lia.
  assert (forall j, 0 <= j <= MAXFILE -> slot V' i j = slot V i j) as Hs.
  { intros j Hj. apply slot_keep; [done|]. intros Hi. unfold V'. destruct (wf_ind _ _ _ W Hi) as [Hir _].
    rewrite j_at_write by lia. rewrite decide_False; [done|]. intros E.
    assert (MAXFILE = bn) as <-; [|lia]. apply (wf_inj _ _ _ W); [by unfold MAXFILE|lia|by rewrite slot_indirect|done]. }
  assert (forall m, 0 <= m < j_len V -> used b V' m = used b V m) as Hus by (intros; by apply used_data_write).
  split; [|split; [done|split; [done|]]].
  - split; [apply W| |].
    + intros j Hj Hj'. rewrite Hs in * by done. unfold V'. rewrite j_len_write. destruct (wf_slots _ _ _ W j Hj Hj') as [Hjr Hju].
      split; [done|]. fold V'. rewrite Hus; [done|lia].
    + intros j k Hj Hk. rewrite !Hs by done. by apply (wf_inj _ _ _ W).
  - unfold spare, V', j_write. cbn [j_credit j_logged]. unfold j_spend.
    assert (forall m, m ∈ j_logged V -> m ∈ {[a]} ∪ j_logged V) as Hin by (intros m Hm; apply elem_of_union; by right).
    assert (((if decide (sb_bmapstart b ∈ j_logged V) then 1 else 0) <= (if decide (sb_bmapstart b ∈ {[a]} ∪ j_logged V) then 1 else 0))%nat).
    { destruct (decide (sb_bmapstart b ∈ j_logged V)); [|lia]. rewrite decide_True by (by apply Hin). lia. }
    assert (((if decide (addr i NDIRECT <> 0 /\ addr i NDIRECT ∈ j_logged V)%Z then 1 else 0) <= (if decide (addr i NDIRECT <> 0 /\ addr i NDIRECT ∈ {[a]} ∪ j_logged V)%Z then 1 else 0))%nat).
    { destruct (decide (addr i NDIRECT <> 0 /\ addr i NDIRECT ∈ j_logged V)) as [[? ?]|]; [|lia]. rewrite decide_True by (split; [done|by apply Hin]). lia. }
    destruct (decide (a ∈ j_logged V)); lia.
Qed.

Lemma writing_step V0 i0 src off0 V i off V1 i1 a m : layout b (j_len V0) -> writing V0 i0 src off0 V i off ->
  (forall x, 0 <= x < j_len V1 -> block_ok (j_at V1 x)) -> 0 <= off0 <= off -> 0 <= i_size i0 <= MAXFILE * BSIZE ->
  off0 <= i_size i0 -> 0 < m -> off `mod` BSIZE + m <= BSIZE -> off + m <= MAXFILE * BSIZE ->
  off - off0 + m <= Z.of_nat (length src) -> extended V i V1 i1 (off / BSIZE) a ->
  let V2 := j_write a (splice (j_at V1 a) (off `mod` BSIZE) (sub src (off - off0) m)) V1 in
  writing V0 i0 src off0 V2 i1 (off + m) /\ (spare b V i <= spare b V2 i1 + 1)%nat.
Proof.
  intros L [W1 W2 W3 W4 W5 W6 W7 W8 W9 W10 W11] Hblk Ho Hsz Hos Hm Hmm Hmax Hsrc [F1 F2 F3 F4 [F5 F5'] F6 F7 F8 F9 F10 F11 F12 F13] V2.
  assert (0 <= off / BSIZE < MAXFILE /\ 0 <= off `mod` BSIZE /\ off = off / BSIZE * BSIZE + off `mod` BSIZE) as (Hbn & Hmod & Hoff).
  { unfold BSIZE in *. clear -Ho Hm Hmm Hmax. Z.div_mod_to_equations. lia. }
  set (bn := off / BSIZE) in *. pose proof (datastart_pos _ _ L) as Hds.
  assert (layout b (j_len V1)) as L1 by (by rewrite F2, W2).
  destruct (wf_slots _ _ _ F4 bn ltac:(lia)) as [Har Hau]; [by rewrite F5|]. rewrite F5 in Har, Hau.
  destruct (wf_data_write V1 i1 bn (splice (j_at V1 a) (off `mod` BSIZE) (sub src (off - off0) m)) F4 L1 Hbn) as (G1 & G2 & G3 & G4); [by rewrite F5|].
  rewrite F5 in G1, G2, G3, G4. fold V2 in G1, G2, G3, G4.
  assert (forall x, 0 <= x -> j_at V2 x = if decide (x = a) then splice (j_at V1 a) (off `mod` BSIZE) (sub src (off - off0) m) else j_at V1 x) as Hat.
  { intros x Hx. apply j_at_write; [lia|done]. }
  assert (forall j, 0 <= j < MAXFILE -> slot V i j <> 0 -> slot V2 i1 j = slot V i j) as Hold.
  { intros j Hj Hne. rewrite G2 by lia. destruct (decide (j = bn)) as [->|N]; [|by apply F6].
    rewrite F5. destruct (Z.eqb_spec (slot V i bn) 0); [done|exact F8]. }
  split; [|destruct (decide (a ∈ j_logged V1)); lia]. split.
  - unfold V2. by rewrite j_held_write, F1.
  - unfold V2. by rewrite j_len_write, F2.
  - destruct F3 as [l ->], W3 as [l' ->]. by exists l.
  - done.
  - intros x Hx. rewrite G3; [apply F10; [|by apply W5]|]; destruct (bblock_range b _ (j_len V0 - 1) L) as (_ & ? & ?); try lia;
      destruct L as [L1' L2' L3' L4']; unfold datastart in *; lia.
  - intros j Hj Hlt. destruct (decide (j = bn)) as [->|N]; [by rewrite G2, F5 by lia|].
    assert (slot V i j <> 0) as Hne; [|by rewrite Hold]. apply W6; [done|]. unfold BSIZE in *. lia.
  - intros k Hk. assert (0 <= k / BSIZE < MAXFILE) as Hkb.
    { unfold BSIZE in *. clear -Hk Hmax Hsz. Z.div_mod_to_equations. lia. }
    unfold fbyte at 1. rewrite <- slot_fblock by done. destruct (decide (k / BSIZE = bn)) as [Eb|Nb].
    + rewrite Eb, G2, F5 by lia. rewrite Hat by lia. rewrite decide_True by done.
      destruct (Hblk a ltac:(lia)) as [Hla _].
      assert (0 <= k `mod` BSIZE < BSIZE /\ k = bn * BSIZE + k `mod` BSIZE) as [Hkm Hke] by (unfold BSIZE in *; clear -Eb Hk; Z.div_mod_to_equations; lia).
      pose proof (length_sub src (off - off0) m ltac:(lia) ltac:(lia) Hsrc) as Hls.
      rewrite ld8_splice by lia. rewrite Hls. destruct (decide (off `mod` BSIZE <= k `mod` BSIZE < off `mod` BSIZE + m)) as [Hin|Hout].
      * rewrite decide_True by lia. rewrite ld8_sub by lia. f_equal. lia.
      * destruct (Z.eqb_spec (slot V i bn) 0) as [H0|H0].
        { exfalso. destruct (decide (bn * BSIZE < Z.max (i_size i0) off)); [by apply (W6 bn Hbn)|]. lia. }
        assert (j_at V1 a = j_at V a) as ->.
        { rewrite F8 in *. destruct (wf_slots _ _ _ W4 bn ltac:(lia) H0) as [Hr Hu]. apply F9; [lia|right; split; [lia|done]|].
          intros [_ E]. assert (bn = MAXFILE) as ->; [|lia]. apply (wf_inj _ _ _ W4); [lia|by unfold MAXFILE|by rewrite slot_indirect|done]. }
        rewrite F8, (slot_fblock V i bn Hbn), <- Eb. fold (fbyte V i k). rewrite W7 by lia.
        destruct (decide (off0 <= k < off)); [by rewrite decide_True by lia|by rewrite decide_False by lia].
    + assert (k < Z.max (i_size i0) off) as Hk'. { unfold BSIZE in *. clear -Hk Nb Hoff Hmm Hm Hmod. subst bn. Z.div_mod_to_equations. lia. }
      assert (slot V i (k / BSIZE) <> 0) as Hne. { apply W6; [done|]. unfold BSIZE in *. clear -Hk Hk'. Z.div_mod_to_equations. lia. }
      rewrite Hold by done. destruct (wf_slots _ _ _ W4 (k / BSIZE) ltac:(lia) Hne) as [Hr Hu].
      rewrite Hat by lia. rewrite decide_False.
      2:{ intros E. apply Nb, (wf_inj _ _ _ F4); try lia; rewrite F6 by done; [by rewrite F5|done]. }
      rewrite F9; [|lia|right; split; [lia|done]|].
      2:{ intros [_ E]. assert (k / BSIZE = MAXFILE) as E'; [|lia]. apply (wf_inj _ _ _ W4); [lia|by unfold MAXFILE|by rewrite slot_indirect|done]. }
      rewrite (slot_fblock V i) by done. fold (fbyte V i k). rewrite W7 by lia.
      assert (~ off <= k < off + m) by (unfold BSIZE in *; clear -Nb Hoff Hmm Hm Hmod; subst bn; intros [? ?]; Z.div_mod_to_equations; lia).
      destruct (decide (off0 <= k < off)); [by rewrite decide_True by lia|by rewrite decide_False by lia].
  - intros x Hx Hc Hown. assert (~ own V i x) as Hown'.
    { intros (Hx0 & j & Hj & E). apply Hown. split; [done|]. exists j. split; [done|].
      destruct (decide (j = MAXFILE)) as [->|N]; [rewrite slot_indirect in *; rewrite <- E in Hx0; by rewrite F7|].
      rewrite Hold; [done|lia|congruence]. }
    rewrite Hat by lia. rewrite decide_False.
    2:{ intros ->. apply Hown. split; [done|]. exists bn. split; [lia|]. by rewrite G2, F5 by lia. }
    rewrite F9; [by apply W8|lia| |].
    + destruct Hc as [|[? ?]]; [by left|]. right. split; [done|by apply W9].
    + intros [N E].
      apply Hown'. split; [done|]. exists MAXFILE. split; [by unfold MAXFILE|]. by rewrite slot_indirect.
  - intros x Hx Hu. rewrite G3 by lia. apply F10; [lia|]. by apply W9.
  - intros Hle. rewrite F12; [apply W10; lia|]. apply W6; [done|]. lia.
  - intros j Hj. rewrite G2 by done. intros Hne2. destruct (decide (slot V1 i1 j = slot V i j)) as [Es|Ns].
    { rewrite Es in *. by apply W11. }
    apply F13 in Ns; [|done]. destruct (used b V0 (slot V1 i1 j)) eqn:Eu; [|done].
    destruct (decide (slot V1 i1 j = 0)) as [E0|Hne0]; [|by rewrite W9 in Ns by (try done; destruct (wf_slots _ _ _ F4 j Hj Hne0); lia)].
    rewrite E0, W5 in Ns by lia. done.
Qed.

Lemma at_inode_again s ip x i y i' : at_inode (at_inode s ip x i) ip y i' = at_inode s ip y i'.
Proof. unfold at_inode, set_inodes, set_d. cbn. by rewrite list_insert_insert_eq. Qed.
Lemma at_inode_d s ip x i y : set_d y (at_inode s ip x i) = at_inode s ip y i.
Proof. done. Qed.

Lemma own_block V i bn : wf b V i -> 0 <= bn < MAXFILE -> slot V i bn <> 0 -> datastart b <= slot V i bn < j_len V.
Proof. intros W Hbn Hne. by apply (wf_slots _ _ _ W bn ltac:(lia)). Qed.

Lemma writei_loop_ok V0 i0 src off0 n ip fuel : forall s V i tot, d_ok (fs_d s) V -> sb s = b -> layout b (j_len V0) -> j_len V0 < BPB ->
  ic_inode s !! ip = Some i -> i_dev i0 = 1 -> 0 <= off0 <= i_size i0 -> i_size i0 <= MAXFILE * BSIZE -> 0 <= tot <= n ->
  off0 + n <= MAXFILE * BSIZE -> n <= Z.of_nat (length src) -> Forall byte src ->
  writing V0 i0 src off0 V i (off0 + tot) -> 3 + nblocks (off0 + tot) (n - tot) <= Z.of_nat (spare b V i) -> (Z.to_nat (n - tot) < fuel)%nat ->
  writei_loop fuel ip src tot (off0 + tot) n s = Panic "balloc: out of blocks" \/
  exists x V' i', writei_loop fuel ip src tot (off0 + tot) n s = Ok (off0 + n) (at_inode s ip x i') /\ d_ok x V' /\
    writing V0 i0 src off0 V' i' (off0 + n) /\ (3 <= spare b V' i')%nat.
Proof.
  induction fuel as [|fuel IH]; intros s V i tot H Hs L Hb Ei Hdev Ho Hsz Ht Hmax Hsrc Hbytes W Hsp Hf; [lia|]. cbn [writei_loop].
  destruct (Z.ltb_spec tot n) as [Hlt|Hge].
  2:{ right. exists (fs_d s), V, i. rewrite <- at_inode_same, set_d_id by done. replace (off0 + tot) with (off0 + n) in * by lia.
      split; [done|]. split; [done|]. split; [done|]. unfold nblocks in Hsp. destruct (n - tot <=? 0) eqn:E; lia. }
  mstep (get_inode_ok s ip i Ei). set (off := off0 + tot) in *.
  destruct (nblocks_step off (n - tot) ltac:(lia) ltac:(lia)) as (Hm1 & Hm2 & Hnb & Hnb1). set (m := Z.min (n - tot) (BSIZE - off `mod` BSIZE)) in *.
  assert (0 <= off / BSIZE < MAXFILE /\ 0 <= off `mod` BSIZE < BSIZE) as [Hbn Hmod].
  { unfold BSIZE in *. clear -Ho Hlt Hmax Ht. subst off. Z.div_mod_to_equations. lia. }
  destruct (wr_inode _ _ _ _ _ _ _ W) as [l El]. pose proof (wr_len _ _ _ _ _ _ _ W) as Hlen.
  assert (i_dev i = 1) as Hdev' by (by rewrite El).
  destruct (bmap_ok s V ip i (off / BSIZE)) as [E|(a & x & V1 & i1 & E & Hx & HE)]; try done; try (rewrite ?Hlen; done || lia); try apply W.
  { left. by apply bind_Panic. }
  mstep E. rewrite Hdev'. assert (j_held V1 = ∅) as Hh1 by (rewrite (ex_held _ _ _ _ _ _ HE); apply W).
  assert (j_len V1 = j_len V0) as Hl1 by (by rewrite (ex_len _ _ _ _ _ _ HE)).
  destruct (ex_slot _ _ _ _ _ _ HE) as [Ea Ha]. pose proof (datastart_pos _ _ L) as Hds.
  pose proof (own_block V1 i1 (off / BSIZE) (ex_wf _ _ _ _ _ _ HE) Hbn ltac:(by rewrite Ea)) as Har. rewrite Ea in Har.
  destruct (open_block (at_inode s ip x i1) V1 a Hx ltac:(lia)) as (bp & x1 & E1 & Hbp & Hx1 & Ed1);
    [intros b' d; by rewrite Hh1|rewrite Hh1, map_size_empty; unfold MAXHELD; lia|].
  mstep E1. mstep Ed1. rewrite !at_inode_d.
  pose proof (length_sub src tot m ltac:(lia) ltac:(lia) ltac:(lia)) as Hls.
  assert (block_ok (j_at V1 a)) as Hok by (apply (block_at_ok (at_inode s ip x i1)); [done|lia]).
  destruct (write_close (at_inode s ip x1 i1) V1 bp a _ (splice (j_at V1 a) (off `mod` BSIZE) (sub src tot m)) Hx1 Hbp) as (x2 & Hx2 & _ & E2); [lia|pose proof (datastart_low _ _ L); lia| | |].
  { apply block_ok_splice; [done|lia|lia|]. unfold sub. by apply Forall_take, Forall_drop. }
  { pose proof (ex_spare _ _ _ _ _ _ HE) as Hsp1. destruct (decide (a ∈ j_logged V1)); [by left|right].
    unfold spare at 2 in Hsp1. repeat (destruct (decide _) in Hsp1); lia. }
  rewrite E2, at_inode_d. pose proof maxfile_small.
  rewrite !u32_small by (unfold is_u32; lia).
  destruct (writing_step V0 i0 src off0 V i off V1 i1 a m) as [W2 Hsp2]; try done; try lia.
  { intros y Hy. by apply (block_at_ok (at_inode s ip x i1)). }
  replace (off - off0) with tot in W2, Hsp2 by lia. replace (off + m) with (off0 + (tot + m)) in * by lia.
  destruct (IH (at_inode s ip x2 i1) _ i1 (tot + m) Hx2) as [E3|(x3 & V3 & i3 & E3 & Hx3 & W3 & Hsp3)]; try done; try lia.
  - unfold at_inode. cbn. apply list_lookup_insert_eq. by apply lookup_lt_Some in Ei.
  - replace (n - (tot + m)) with (n - tot - m) by lia. lia.
  - by left.
  - right. exists x3, V3, i3. rewrite at_inode_again in E3. done.
Qed.

(** ** [iupdate] *)

Lemma le16_bytes v : Forall byte (le16 v).
Proof. unfold le16. apply Forall_cons. split; [apply u8_range|]. apply Forall_singleton, u8_range. Qed.

Lemma dinode_bytes_ok i : length (i_addrs i) = Datatypes.S NDIRECT -> length (dinode_bytes i) = 64%nat /\ Forall byte (dinode_bytes i).
Proof.
  intros Hl. assert (forall l, length (l ≫= le32) = (4 * length l)%nat /\ Forall byte (l ≫= le32)) as Hall.
  { induction l as [|a l [IH1 IH2]]; [done|]. cbn [mbind list_bind]. split.
    - rewrite length_app. change (list_bind Z Z le32 l) with (l ≫= le32). rewrite IH1. cbn. lia.
    - apply Forall_app. split; [apply le32_bytes|done]. }
  destruct (Hall (i_addrs i)) as [H1 H2]. unfold dinode_bytes. split.
  - rewrite !length_app, H1, Hl. done.
  - rewrite !Forall_app. split_and!; try apply le16_bytes; [apply le32_bytes|done].
Qed.

Lemma iblock_range inum len : layout b len -> 0 <= inum < sb_ninodes b ->
  2 <= IBLOCK inum b < sb_bmapstart b /\ IBLOCK inum b < len /\ 0 <= dinode_at inum /\ dinode_at inum + 64 <= BSIZE.
Proof.
  intros [H1 H2 H3 H4] Hi. unfold IBLOCK, dinode_at, DINODE, BSIZE. change IPB with 8 in *.
  assert (0 <= inum / 8 <= sb_ninodes b / 8 /\ 0 <= inum `mod` 8 < 8) as [? ?] by (clear -Hi; Z.div_mod_to_equations; lia).
  assert (0 <= len / BPB) by (apply Z.div_pos; [lia|done]). rewrite u32_small by (unfold is_u32; lia). lia.
Qed.

Definition j_iupdate i V : jview :=
  j_write (IBLOCK (i_inum i) b) (splice (j_at V (IBLOCK (i_inum i) b)) (dinode_at (i_inum i)) (dinode_bytes i)) V.

Lemma iupdate_ok s V ip i : d_ok (fs_d s) V -> sb s = b -> j_held V = ∅ -> layout b (j_len V) -> ic_inode s !! ip = Some i -> i_dev i = 1 ->
  0 <= i_inum i < sb_ninodes b -> length (i_addrs i) = Datatypes.S NDIRECT -> IBLOCK (i_inum i) b ∈ j_logged V \/ (0 < j_credit V)%nat ->
  exists x, iupdate ip s = Ok tt (set_d x s) /\ d_ok x (j_iupdate i V).
Proof.
  intros H Hs Hh L Ei Hdev Hi Hl Hc. destruct (iblock_range (i_inum i) _ L Hi) as (H1 & H2 & H3 & H4).
  unfold iupdate. mstep (get_inode_ok s ip i Ei). rewrite bind_gets, Hdev, Hs.
  destruct (open_block s V (IBLOCK (i_inum i) b) H ltac:(lia)) as (bp & x & E & Hbp & Hx & Ed);
    [intros b' d; by rewrite Hh|rewrite Hh, map_size_empty; unfold MAXHELD; lia|]. mstep E. mstep Ed.
  destruct (dinode_bytes_ok i Hl) as [D1 D2].
  destruct (write_close (set_d x s) V bp (IBLOCK (i_inum i) b) _ (splice (j_at V (IBLOCK (i_inum i) b)) (dinode_at (i_inum i)) (dinode_bytes i)) Hx Hbp) as (x2 & Hx2 & E2 & _); [lia|pose proof (iblock_low _ _ _ L Hi); lia| |done|].
  { apply block_ok_splice; [apply (block_at_ok s); [done|lia]|lia|rewrite D1; lia|done]. }
  exists x2. split; [exact E2|exact Hx2].
Qed.

Lemma datastart_in b' len : layout b' len -> datastart b' <= len /\ sb_bmapstart b' < len /\ sb_bmapstart b' < datastart b'.
Proof.
  intros [L1 L2 L3 L4]. unfold datastart. assert (0 <= len / BPB) by (apply Z.div_pos; [lia|done]). rewrite L1. lia.
Qed.

(** An update of an inode block changes no file. *)
Lemma inode_block_write V i n d : layout b (j_len V) -> wf b V i -> 0 <= n < sb_bmapstart b -> let V' := j_write n d V in
  wf b V' i /\ (forall j, 0 <= j <= MAXFILE -> slot V' i j = slot V i j) /\ (forall m, 0 <= m < j_len V -> used b V' m = used b V m) /\
  (forall m, datastart b <= m -> j_at V' m = j_at V m) /\
  forall k, 0 <= k -> k / BSIZE < MAXFILE -> slot V i (k / BSIZE) <> 0 -> fbyte V' i k = fbyte V i k.
Proof.
  intros L W Hn V'. pose proof (datastart_pos _ _ L) as Hds. pose proof (bblock_range b _ 0 L) as Hb0.
  destruct (datastart_in b _ L) as (_ & Hbl & Hbd).
  assert (forall m, datastart b <= m -> j_at V' m = j_at V m) as Hat.
  { intros m Hm. unfold V'. rewrite j_at_write by lia. by rewrite decide_False by lia. }
  assert (forall j, 0 <= j <= MAXFILE -> slot V' i j = slot V i j) as Hs.
  { intros j Hj. apply slot_keep; [done|]. intros Hi. apply Hat. by apply (wf_ind _ _ _ W). }
  assert (forall m, 0 <= m < j_len V -> used b V' m = used b V m) as Hus.
  { intros m Hm. destruct (bblock_range b _ m L Hm) as (_ & H1 & H2). unfold used, V'. rewrite j_at_write by lia. by rewrite decide_False by lia. }
  split; [|split; [done|split; [done|split; [done|]]]].
  - split; [apply W| |].
    + intros j Hj Hj'. rewrite Hs in * by done. unfold V'. rewrite j_len_write. destruct (wf_slots _ _ _ W j Hj Hj') as [Hjr Hju].
      split; [done|]. fold V'. rewrite Hus; [done|lia].
    + intros j k Hj Hk. rewrite !Hs by done. by apply (wf_inj _ _ _ W).
  - intros k Hk Hkb Hne. assert (0 <= k / BSIZE) as Hk0 by (apply Z.div_pos; [done|done]). unfold fbyte. rewrite <- !slot_fblock by lia. rewrite Hs by lia.
    rewrite Hat; [done|]. by apply (wf_slots _ _ _ W (k / BSIZE) ltac:(lia)).
Qed.

(** The bytes of a file that has been written to. *)
Lemma contents_written V0 i0 src off V i n : writing V0 i0 src off V i (off + n) -> 0 <= off <= i_size i0 -> 0 <= n <= Z.of_nat (length src) ->
  frange V i 0 (Z.max (i_size i0) (off + n)) =
    take (Z.to_nat off) (contents V0 i0) ++ take (Z.to_nat n) src ++ drop (Z.to_nat (off + n)) (contents V0 i0).
Proof.
  intros W Ho Hn. pose proof (wr_bytes _ _ _ _ _ _ _ W) as Hb.
  replace (Z.max (i_size i0) (off + n)) with (off + (n + (Z.max (i_size i0) (off + n) - (off + n)))) by lia.
  rewrite frange_app, frange_app by lia. cbn [Z.add]. unfold contents. f_equal; [|f_equal].
  - replace (i_size i0) with (off + (i_size i0 - off)) by lia. rewrite frange_app by lia.
    rewrite take_app_length' by (unfold frange; rewrite length_fmap, length_seqZ; lia).
    apply map_seqZ_ext. intros k Hk. rewrite Hb by lia. by rewrite decide_False by lia.
  - transitivity (map (fun k => ld8 src (k - off)) (seqZ off n)).
    { apply map_seqZ_ext. intros k Hk. rewrite Hb by lia. by rewrite decide_True by lia. }
    apply list_eq. intros j. rewrite list_lookup_fmap. destruct (decide (Z.of_nat j < n)) as [Hj|Hj].
    + rewrite lookup_seqZ_lt, lookup_take_lt by lia. cbn. unfold ld8. destruct (lookup_lt_is_Some_2 src j) as [x Hx]; [lia|].
      replace (Z.to_nat (off + Z.of_nat j - off)) with j by lia. by rewrite Hx.
    + rewrite lookup_seqZ_ge, lookup_take_ge by lia. done.
  - destruct (decide (off + n < i_size i0)) as [Hlt|Hge].
    + replace (i_size i0) with (off + n + (i_size i0 - (off + n))) at 2 by lia. rewrite frange_app by lia.
      rewrite drop_app_length' by (unfold frange; rewrite length_fmap, length_seqZ; lia). rewrite Z.add_0_l.
      replace (Z.max (i_size i0) (off + n) - (off + n)) with (i_size i0 - (off + n)) by lia.
      apply map_seqZ_ext. intros k Hk. rewrite Hb by lia. by rewrite decide_False by lia.
    + rewrite drop_ge by (unfold frange; rewrite length_fmap, length_seqZ; lia).
      replace (Z.max (i_size i0) (off + n) - (off + n)) with 0 by lia. done.
Qed.

Lemma spare_credit V i : (j_credit V <= spare b V i)%nat.
Proof. unfold spare. lia. Qed.

(** ** [writei] *)

Lemma writing_mapped V0 i0 src off0 V i off V' i' : layout b (j_len V0) -> writing V0 i0 src off0 V i off ->
  (forall j, 0 <= j < MAXFILE -> slot V' i' j = slot V i j) -> wf b V' i' -> i_size i' = Z.max (i_size i0) off -> i_size i' <= MAXFILE * BSIZE ->
  j_len V' = j_len V -> mapped V' i' (i_size i').
Proof.
  intros L W Hs Hw Hsz' Hmax Hl'. pose proof (datastart_pos _ _ L). split; [apply Hw| |].
  - intros bn Hbn Hlt. assert (0 <= bn < MAXFILE) as Hbn' by (unfold BSIZE, MAXFILE, NDIRECT, NINDIRECT in *; lia). rewrite <- slot_fblock by done.
    assert (slot V' i' bn <> 0) as Hne by (rewrite Hs by done; apply (wr_mapped _ _ _ _ _ _ _ W); [done|lia]). split; [done|].
    pose proof (wf_slots _ _ _ Hw bn ltac:(lia) Hne) as [Hr _]. lia.
  - intros Hlt. assert (slot V' i' (Z.of_nat NDIRECT) <> 0) as Hne.
    { rewrite Hs by done. apply (wr_mapped _ _ _ _ _ _ _ W); [done|lia]. }
    rewrite slot_data in Hne by done. destruct (Z.eqb_spec (addr i' NDIRECT) 0) as [|Hi]; [done|]. split; [done|].
    pose proof (wf_ind _ _ _ Hw Hi) as [Hr _]. lia.
Qed.

(** What a write of the [n] bytes [src] at [off] makes of the file [i]. *)
Record written V0 i0 src off n V' i' : Prop := {
  wn_inode : exists l sz, i' = set_isize sz (set_iaddrs l i0);
  wn_held : j_held V' = ∅;
  wn_len : j_len V' = j_len V0;
  wn_size : i_size i' = Z.max (i_size i0) (off + n);
  wn_contents : contents V' i' = take (Z.to_nat off) (contents V0 i0) ++ take (Z.to_nat n) src ++ drop (Z.to_nat (off + n)) (contents V0 i0);
  wn_wf : wf b V' i';
  wn_mapped : mapped V' i' (i_size i');
  wn_meta : meta_used V';
  wn_keeps : keeps b V0 V' (fun m => own V' i' m \/ m = IBLOCK (i_inum i0) b);
  wn_used : forall m, 0 <= m < j_len V0 -> used b V0 m = true -> used b V' m = true;
  wn_fresh : forall j, 0 <= j <= MAXFILE -> slot V' i' j <> slot V0 i0 j -> used b V0 (slot V' i' j) = false;
  wn_stored : let n0 := IBLOCK (i_inum i0) b in
    if i_size i0 <? off + n then j_at V' n0 = splice (j_at V0 n0) (dinode_at (i_inum i0)) (dinode_bytes i')
    else i' = i0 /\ j_at V' n0 = j_at V0 n0
}.

(** The blocks of a file hold no inodes. *)
Lemma writing_iblock V0 i0 src off V i off' : layout b (j_len V0) -> writing V0 i0 src off V i off' -> 0 <= i_inum i0 < sb_ninodes b ->
  j_at V (IBLOCK (i_inum i0) b) = j_at V0 (IBLOCK (i_inum i0) b).
Proof.
  intros L W Hin. destruct (iblock_range (i_inum i0) _ L Hin) as (B1 & B2 & _). pose proof (datastart_in b _ L).
  apply (wr_keeps _ _ _ _ _ _ _ W); [lia|left; lia|]. intros (Hne & j & Hj & E).
  destruct (wf_slots _ _ _ (wr_wf _ _ _ _ _ _ _ W) j Hj) as [Hr _]; [by rewrite E|]. lia.
Qed.

Lemma written_same V0 i0 src off V i n : layout b (j_len V0) -> writing V0 i0 src off V i (off + n) ->
  0 <= off <= i_size i0 -> i_size i0 <= MAXFILE * BSIZE -> 0 <= n <= Z.of_nat (length src) -> off + n <= i_size i0 -> 0 <= i_inum i0 < sb_ninodes b ->
  written V0 i0 src off n V i.
Proof.
  intros L W Ho Hmax Hn Hle Hin. destruct (wr_inode _ _ _ _ _ _ _ W) as [l El]. assert (i_size i = i_size i0) as Hsz by (by rewrite El).
  split; [exists l, (i_size i0); rewrite El; by destruct i0|apply W|apply W|lia| |apply W| |apply W| |apply W|apply W|].
  - rewrite <- (contents_written _ _ _ _ _ _ _ W) by lia. unfold contents. f_equal. lia.
  - eapply writing_mapped; [done|exact W|done|apply W|lia|lia|done].
  - intros m Hm Hc Hx. apply (wr_keeps _ _ _ _ _ _ _ W); try done. intros Hown. apply Hx. by left.
  - intros n0. destruct (Z.ltb_spec (i_size i0) (off + n)); [lia|]. split; [by apply (wr_same _ _ _ _ _ _ _ W)|]. by eapply writing_iblock.
Qed.

Lemma written_grow V0 i0 src off V i n : layout b (j_len V0) -> writing V0 i0 src off V i (off + n) ->
  0 <= off <= i_size i0 -> 0 <= n <= Z.of_nat (length src) -> i_size i0 < off + n -> off + n <= MAXFILE * BSIZE -> 0 <= i_inum i0 < sb_ninodes b ->
  let i' := set_isize (off + n) i in written V0 i0 src off n (j_iupdate i' V) i'.
Proof.
  intros L W Ho Hn Hlt Hmax Hin i'. pose proof (wr_len _ _ _ _ _ _ _ W) as Hl. destruct (wr_inode _ _ _ _ _ _ _ W) as [l El].
  assert (i_inum i' = i_inum i0) as Hin' by (unfold i'; by rewrite El).
  assert (wf b V i') as Hw by (destruct (wr_wf _ _ _ _ _ _ _ W); by split).
  destruct (iblock_range (i_inum i') _ L) as (B1 & B2 & _); [by rewrite Hin'|].
  destruct (inode_block_write V i' (IBLOCK (i_inum i') b) (splice (j_at V (IBLOCK (i_inum i') b)) (dinode_at (i_inum i')) (dinode_bytes i')))
    as (G1 & G2 & G3 & G4 & G5); [by rewrite Hl|done|lia|]. fold (j_iupdate i' V) in G1, G2, G3, G4, G5.
  assert (j_len (j_iupdate i' V) = j_len V) as Hl' by apply j_len_write.
  assert (i_size i' = Z.max (i_size i0) (off + n)) as Hsz by (cbn; lia). split.
  - exists l, (off + n). unfold i'. by rewrite El.
  - apply W.
  - by rewrite Hl'.
  - done.
  - rewrite <- (contents_written _ _ _ _ _ _ _ W) by lia. unfold contents. rewrite Hsz. apply map_seqZ_ext. intros k Hk.
    assert (0 <= k / BSIZE < MAXFILE) as Hkb by (unfold BSIZE in *; clear -Hk Hmax Hlt; Z.div_mod_to_equations; lia).
    rewrite G5; [done|lia|lia|]. apply (wr_mapped _ _ _ _ _ _ _ W); [done|]. unfold BSIZE in *. clear -Hk. Z.div_mod_to_equations. lia.
  - done.
  - eapply writing_mapped; [done|exact W|intros j Hj; by rewrite G2 by lia|done|done|lia|done].
  - intros m Hm. rewrite G3; [by apply W|]. rewrite Hl. pose proof (datastart_in b _ L). lia.
  - intros m Hm Hc Hx. unfold j_iupdate. rewrite j_at_write by lia. rewrite decide_False by (intros ->; apply Hx; right; by rewrite Hin').
    apply (wr_keeps _ _ _ _ _ _ _ W); try done. intros (Hne & j & Hj & Ej). apply Hx. left. split; [done|]. exists j. split; [done|]. by rewrite G2.
  - intros m Hm Hu. rewrite G3 by (rewrite Hl; lia). by apply (wr_used _ _ _ _ _ _ _ W).
  - intros j Hj. rewrite G2 by done. by apply (wr_fresh _ _ _ _ _ _ _ W).
  - intros n0. destruct (Z.ltb_spec (i_size i0) (off + n)); [|lia]. unfold j_iupdate. rewrite Hin' in *. rewrite j_at_write by lia.
    rewrite decide_True by done. by erewrite writing_iblock.
Qed.

Context (dev_write : Z -> option (nat -> list Z -> Z -> M (fsys (S := S)) Z)).

Lemma writei_ok s V ip i src off n :
  d_ok (fs_d s) V -> sb s = b -> j_held V = ∅ -> layout b (j_len V) -> j_len V < BPB -> meta_used V ->
  ic_inode s !! ip = Some i -> i_dev i = 1 -> i_type i <> T_DEV -> 0 <= i_inum i < sb_ninodes b ->
  wf b V i -> mapped V i (i_size i) -> 0 <= i_size i <= MAXFILE * BSIZE -> is_u32 off -> is_u32 n ->
  n <= Z.of_nat (length src) -> Forall byte src -> 3 + nblocks off n <= Z.of_nat (j_credit V) ->
  if decide (i_size i < off \/ MAXFILE * BSIZE < off + n) then writei dev_write ip src off n s = Ok (-1) s else
  writei dev_write ip src off n s = Panic "balloc: out of blocks" \/
  exists x V' i', writei dev_write ip src off n s = Ok n (at_inode s ip x i') /\ d_ok x V' /\ written V i src off n V' i'.
Proof.
  intros Hd Hsb Hh L Hb Hm Ei Hdev Hty Hin W M Hsz Hoff Hn Hsrc Hbytes Hc. unfold is_u32 in *. pose proof maxfile_small.
  unfold writei. mstep (get_inode_ok s ip i Ei). destruct (Z.eqb_spec (i_type i) T_DEV) as [|_]; [done|].
  destruct (decide (i_size i < off \/ MAXFILE * BSIZE < off + n)) as [Hbad|Hgood].
  { destruct (Z.ltb_spec (i_size i) off) as [Hlt|Hge]; [done|]. cbn [orb].
    destruct (Z.ltb_spec (u32 (off + n)) off) as [Hlt2|Hge2]; [done|].
    assert (off + n < 2 ^ 32) as Hov.
    { destruct (decide (off + n < 2 ^ 32)); [done|]. exfalso. unfold u32 in Hge2.
      assert ((off + n) `mod` 2 ^ 32 = off + n - 2 ^ 32) by (symmetry; apply (Z.mod_unique_pos _ _ 1); lia). lia. }
    rewrite (u32_small (off + n)) by (unfold is_u32; lia). destruct (Z.ltb_spec (MAXFILE * BSIZE) (off + n)); [done|]. lia. }
  destruct (Z.ltb_spec (i_size i) off) as [|_]; [lia|]. rewrite (u32_small (off + n)) by (unfold is_u32; lia).
  destruct (Z.ltb_spec (off + n) off) as [|_]; [lia|]. cbn [orb]. destruct (Z.ltb_spec (MAXFILE * BSIZE) (off + n)) as [|_]; [lia|].
  assert (writing V i src off V i (off + 0)) as W0.
  { split; try done.
    - exists (i_addrs i). by destruct i.
    - intros bn Hbn Hlt. rewrite slot_fblock by done. apply (mp_blocks _ _ _ M); [lia|]. lia.
    - intros k Hk. by rewrite decide_False by lia. }
  pose proof (spare_credit V i) as Hsc.
  destruct (writei_loop_ok V i src off n ip (Datatypes.S (Z.to_nat n)) s V i 0 Hd Hsb L Hb Ei Hdev) as [E|(x & V1 & i1 & E & Hx & W1 & Hs1)];
    try done; try lia; [by rewrite Z.add_0_r, Z.sub_0_r; lia| |].
  { left. rewrite Z.add_0_r in E. by apply bind_Panic. }
  rewrite Z.add_0_r in E. mstep E. assert (ic_inode (at_inode s ip x i1) !! ip = Some i1) as Ei1.
  { apply list_lookup_insert_eq. by apply lookup_lt_Some in Ei. }
  mstep (get_inode_ok _ ip i1 Ei1). destruct (wr_inode _ _ _ _ _ _ _ W1) as [l El].
  assert (i_size i1 = i_size i) as Hsz1 by (by rewrite El). assert (s32 n = n) as -> by (unfold s32; rewrite Z.mod_small; lia).
  right. destruct ((0 <? n) && (i_size i1 <? off + n)) eqn:E0; cbn [when].
  - rewrite bind_assoc. mstep (upd_inode_ok _ ip i1 (set_isize (off + n)) Ei1). set (i2 := set_isize (off + n) i1).
    change (set_inodes _ _) with (at_inode (at_inode s ip x i1) ip x i2). rewrite at_inode_again.
    assert (ic_inode (at_inode s ip x i2) !! ip = Some i2) as Ei2 by (apply list_lookup_insert_eq; by apply lookup_lt_Some in Ei).
    assert (i_dev i2 = 1 /\ i_inum i2 = i_inum i) as [Hd2 Hin2] by (unfold i2; rewrite El; by split).
    destruct (iupdate_ok (at_inode s ip x i2) V1 ip i2) as (x2 & E2 & Hx2); try done; try (rewrite ?(wr_len _ _ _ _ _ _ _ W1), ?Hin2; done);
      [apply W1|apply W1|right; unfold spare in Hs1; repeat (destruct (decide _) in Hs1); lia|].
    mstep E2. rewrite at_inode_d. exists x2, (j_iupdate i2 V1), i2.
    split; [done|]. split; [exact Hx2|]. apply written_grow; try done; lia.
  - exists x, V1, i1. split; [done|]. split; [exact Hx|]. apply written_same; try done; lia.
Qed.
End write.

(** C9. Writing a file. Let [ip] be a file whose blocks are its own, on a disk with one
    bitmap block and as many log blocks left as the write covers data blocks, and three
    more: so MAXOPBLOCKS do for the 1536 bytes [filewrite] writes at a time. A write that
    starts past the end, or would end past MAXFILE blocks, returns -1 and does nothing.
    Otherwise [writei] panics with "balloc: out of blocks" or returns [n]; then the file
    consists of the old bytes with the new ones from [off], the size has grown to their
    end, every block of the file exists and is its own again, and the contents of every
    other used block are as they were, but for the block of the inode. *)
Theorem writei_spec {S} `{Journal S} dev_write (s : fsys (S := S)) (V : jview) (ip : nat) (i : inode) (src : list Z) (off n : Z) :
  let b := sb s in
  d_ok (fs_d s) V -> j_held V = ∅ -> layout b (j_len V) -> d_low <= sb_inodestart b -> j_len V < BPB -> meta_used b V ->
  ic_inode s !! ip = Some i -> i_dev i = 1 -> i_type i <> T_DEV -> 0 <= i_inum i < sb_ninodes b ->
  wf b V i -> mapped V i (i_size i) -> 0 <= i_size i <= MAXFILE * BSIZE -> is_u32 off -> is_u32 n ->
  n <= Z.of_nat (length src) -> Forall byte src -> 3 + nblocks off n <= Z.of_nat (j_credit V) ->
  if decide (i_size i < off \/ MAXFILE * BSIZE < off + n) then writei dev_write ip src off n s = Ok (-1) s else
  writei dev_write ip src off n s = Panic "balloc: out of blocks" \/
  exists x V' i', writei dev_write ip src off n s = Ok n (at_inode s ip x i') /\ d_ok x V' /\ written b V i src off n V' i'.
Proof. intros b. intros. by apply writei_ok. Qed.
