(* ===== verification/FsInode.v ===== *)
(** * Inodes on disk: iupdate and ilock of p6/fs.c

    A disk inode is 64 bytes of a block of eight. [iupdate] stores the fields of the
    cached inode there and [ilock] loads them: together a round trip, one inode at a
    time. *)

From S2P Require Import Prelude Sleeplock Cache Log Journal Fs FsAlloc FsFile FsWrite.

(** The fields in the range of their C types. *)
Definition is_s16 (x : Z) : Prop := - 2 ^ 15 <= x < 2 ^ 15.
Record fields_ok (i : inode) : Prop := {
  fo_type : is_s16 (i_type i); fo_major : is_s16 (i_major i); fo_minor : is_s16 (i_minor i); fo_nlink : is_s16 (i_nlink i);
  fo_size : is_u32 (i_size i); fo_len : length (i_addrs i) = Datatypes.S NDIRECT; fo_addrs : Forall is_u32 (i_addrs i)
}.
(** The inode [j] of the cache with the fields of [i]. *)
Definition with_fields (i j : inode) : inode :=
  Inode (i_dev j) (i_inum j) (i_ref j) (i_lock j) (i_valid j) (i_type i) (i_major i) (i_minor i) (i_nlink i) (i_size i) (i_addrs i).

Lemma s16_range x : is_s16 (s16 x).
Proof. unfold is_s16, s16. pose proof (Z.mod_pos_bound (x + 2 ^ 15) (2 ^ 16) ltac:(lia)). lia. Qed.
Lemma s16_le16 v : is_s16 v -> s16 (u8 v + 256 * u8 (v / 256)) = v.
Proof. unfold is_s16, s16, u8. intros Hv. Z.div_mod_to_equations. lia. Qed.

Lemma fields_loaded d o j : block_ok d -> fields_ok (load_dinode d o j).
Proof.
  intros [_ Hb]. split; try apply s16_range; [by apply ld32_range|done|].
  change (Forall is_u32 (load_addrs d o)). unfold load_addrs. apply (proj2 (List.Forall_map _ _ _)), List.Forall_forall. intros k _. by apply ld32_range.
Qed.

Lemma load_dinode_ext d d' o o' j : (forall k, 0 <= k < DINODE -> ld8 d (o + k) = ld8 d' (o' + k)) -> load_dinode d o j = load_dinode d' o' j.
Proof.
  intros H. assert (forall k, 0 <= k -> k + 2 <= DINODE -> ld16 d (o + k) = ld16 d' (o' + k)) as H16.
  { intros k H1 H2. unfold ld16. rewrite <- !Z.add_assoc, !H by lia. done. }
  assert (forall k, 0 <= k -> k + 4 <= DINODE -> ld32 d (o + k) = ld32 d' (o' + k)) as H32.
  { intros k H1 H2. unfold ld32. rewrite <- !Z.add_assoc, !H16 by lia. done. }
  unfold DINODE in *. pose proof (H16 0 ltac:(lia) ltac:(lia)) as H0. rewrite !Z.add_0_r in H0. unfold load_dinode.
  rewrite H0, (H16 2), (H16 4), (H16 6), (H32 8) by lia. f_equal.
  unfold load_addrs. apply map_ext_in. intros k Hk. apply in_seq in Hk. unfold NDIRECT in Hk. rewrite <- !Z.add_assoc. apply H32; lia.
Qed.

Lemma load_dinode_bytes i j : fields_ok i -> load_dinode (dinode_bytes i) 0 j = with_fields i j.
Proof.
  intros [H1 H2 H3 H4 H5 H6 H7]. destruct i as [dv nm rf lk vl ty mj mi nl sz ad]. cbn in *.
  do 13 (destruct ad as [|? ad]; [done|]). destruct ad; [|done]. clear H6. repeat (apply Forall_cons in H7 as [? H7]).
  assert (forall a b v, a = u8 v -> b = u8 (v / 256) -> is_s16 v -> s16 (a + 256 * b) = v) as Hs by (intros ? ? v -> ->; apply s16_le16).
  unfold load_dinode, with_fields. cbn [i_dev i_inum i_ref i_lock i_valid i_type i_major i_minor i_nlink i_size i_addrs].
  f_equal; try (by apply Hs); [by apply ld32_le32|]. unfold load_addrs. cbn [seq map NDIRECT]. repeat (f_equal; try by apply ld32_le32).
Qed.

Lemma load_dinode_splice d o i j : fields_ok i -> 0 <= o -> o + DINODE <= Z.of_nat (length d) ->
  load_dinode (splice d o (dinode_bytes i)) o j = with_fields i j.
Proof.
  intros Hi Ho Hl. rewrite <- (load_dinode_bytes i j Hi). destruct (dinode_bytes_ok i (fo_len _ Hi)) as [Hb _]. unfold DINODE in *.
  apply load_dinode_ext. intros k Hk. unfold DINODE in *. rewrite ld8_splice by (rewrite ?Hb; lia). rewrite decide_True by (rewrite Hb; lia). f_equal. lia.
Qed.
Lemma load_dinode_other d o o' i j : length (i_addrs i) = Datatypes.S NDIRECT -> 0 <= o -> o + DINODE <= Z.of_nat (length d) -> 0 <= o' -> o + DINODE <= o' \/ o' + DINODE <= o ->
  load_dinode (splice d o (dinode_bytes i)) o' j = load_dinode d o' j.
Proof.
  intros Hi Ho Hl Ho' Hd. destruct (dinode_bytes_ok i Hi) as [Hb _]. unfold DINODE in *.
  apply load_dinode_ext. intros k Hk. unfold DINODE in *. rewrite ld8_splice by (rewrite ?Hb; lia). by rewrite decide_False by (rewrite Hb; lia).
Qed.

(** ** The inodes of a disk *)

(** What [ilock] would load into the inode [j] of the cache. *)
Definition disk_inode (b : superblock) (V : jview) (j : inode) : inode :=
  load_dinode (j_at V (IBLOCK (i_inum j) b)) (dinode_at (i_inum j)) j.
(** The cached inode agrees with the disk. *)
Definition stored (b : superblock) (V : jview) (i : inode) : Prop := disk_inode b V i = i.

Lemma with_fields_self i : with_fields i i = i.
Proof. by destruct i. Qed.
Lemma stored_fields b V i : block_ok (j_at V (IBLOCK (i_inum i) b)) -> stored b V i -> fields_ok i.
Proof. intros Hb Hs. rewrite <- Hs. by apply fields_loaded. Qed.

Section inode.
Context (b : superblock).

Lemma iblock_same V n m : layout b (j_len V) -> 0 <= n < sb_ninodes b -> 0 <= m < sb_ninodes b -> n <> m -> IBLOCK n b = IBLOCK m b ->
  dinode_at n + DINODE <= dinode_at m \/ dinode_at m + DINODE <= dinode_at n.
Proof.
  intros L Hn Hm Hne E. destruct L as [H1 H2 H3 H4]. unfold IBLOCK, dinode_at, DINODE in *. change IPB with 8 in *.
  assert (0 <= n / 8 <= sb_ninodes b / 8 /\ 0 <= m / 8 <= sb_ninodes b / 8) as [? ?] by (clear -Hn Hm; Z.div_mod_to_equations; lia).
  assert (0 <= j_len V / BPB) by (apply Z.div_pos; [lia|done]).
  rewrite !u32_small in E by (unfold is_u32; lia). clear -E Hne. Z.div_mod_to_equations. lia.
Qed.

(** An update of the disk inode [i] alone. *)
Lemma disk_inode_update V V' i j : layout b (j_len V) -> (forall n, 0 <= n < j_len V -> block_ok (j_at V n)) ->
  fields_ok i -> 0 <= i_inum i < sb_ninodes b -> 0 <= i_inum j < sb_ninodes b ->
  (forall n, 2 <= n < sb_bmapstart b -> j_at V' n = if decide (n = IBLOCK (i_inum i) b) then splice (j_at V n) (dinode_at (i_inum i)) (dinode_bytes i) else j_at V n) ->
  disk_inode b V' j = if decide (i_inum j = i_inum i) then with_fields i j else disk_inode b V j.
Proof.
  intros L Hbl Hf Hi Hj Hat. destruct (iblock_range b (i_inum i) _ L Hi) as (A1 & A2 & A3 & A4).
  destruct (iblock_range b (i_inum j) _ L Hj) as (B1 & B2 & B3 & B4). unfold disk_inode. rewrite Hat by lia.
  destruct (Hbl (IBLOCK (i_inum i) b) ltac:(lia)) as [Hl _].
  destruct (decide (i_inum j = i_inum i)) as [->|Hne].
  - rewrite decide_True by done. by apply load_dinode_splice; [|lia|unfold DINODE; lia].
  - destruct (decide _) as [E|]; [|done]. rewrite E. apply load_dinode_other; [apply Hf|lia|unfold DINODE; lia|lia|]. rewrite E in *.
    by apply (iblock_same V).
Qed.

Context {S : Type} `{J : Journal S}.
Implicit Types (s : fsys (S := S)) (V : jview).

Lemma on_ilock_ok {A} s ip n (m : M sleeplock A) a l : ic_inode s !! ip = Some n -> m (i_lock n) = Ok a l ->
  on_ilock ip m s = Ok a (set_inodes (<[ip := set_ilock l n]> (ic_inode s)) s).
Proof. intros E Em. unfold on_ilock. by rewrite E, Em. Qed.
Lemma on_ilock_same {A} s ip n (m : M sleeplock A) a : ic_inode s !! ip = Some n -> m (i_lock n) = Ok a (i_lock n) -> on_ilock ip m s = Ok a s.
Proof.
  intros E Em. rewrite (on_ilock_ok s ip n m a _ E Em). f_equal. destruct s, n; unfold set_ilock, set_inodes. cbn in *. by rewrite list_insert_id.
Qed.

(** [iunlock] of an inode that the process has locked. *)
Lemma iunlock_ok s ip n : ic_inode s !! ip = Some n -> i_lock n = sl_mine (mypid s) -> 0 < i_ref n ->
  iunlock ip s = Ok tt (at_inode s ip (fs_d s) (set_ilock sl_free n)).
Proof.
  intros En Hl Hr. unfold iunlock. rewrite bind_gets.
  mstep (on_ilock_same s ip n (holdingsleep (mypid s)) true En ltac:(rewrite Hl; apply holdingsleep_ok)).
  mstep (get_inode_ok s ip n En). cbn [negb orb]. destruct (Z.ltb_spec (i_ref n) 1); [lia|].
  rewrite (on_ilock_ok s ip n releasesleep tt sl_free En ltac:(rewrite Hl; apply releasesleep_ok)).
  unfold at_inode. by rewrite set_d_id.
Qed.

(** [ilock] of an inode that nobody has locked. *)
Lemma ilock_ok s V ip j : d_ok (fs_d s) V -> sb s = b -> j_held V = ∅ -> layout b (j_len V) -> ic_inode s !! ip = Some j -> i_dev j = 1 ->
  0 <= i_inum j < sb_ninodes b -> 0 < i_ref j -> i_lock j = sl_free ->
  let j' := set_ilock (sl_mine (mypid s)) (if i_valid j then j else set_ivalid true (disk_inode b V j)) in
  if negb (i_valid j) && (i_type j' =? 0) then ilock ip s = Panic "ilock: no type"
  else exists x, ilock ip s = Ok tt (at_inode s ip x j') /\ d_ok x V.
Proof.
  intros H Hs Hh L Ei Hdev Hin Hr Hl j'. destruct (iblock_range b (i_inum j) _ L Hin) as (B1 & B2 & B3 & B4).
  pose proof (lookup_lt_Some _ _ _ Ei) as Hlt.
  unfold ilock. mstep (get_inode_ok s ip j Ei). destruct (Z.ltb_spec (i_ref j) 1) as [|_]; [lia|]. rewrite bind_gets.
  assert (on_ilock ip (acquiresleep (mypid s)) s = Ok tt (at_inode s ip (fs_d s) (set_ilock (sl_mine (mypid s)) j))) as Ea.
  { unfold on_ilock. rewrite Ei, Hl. unfold at_inode. by destruct s. }
  mstep Ea. set (j1 := set_ilock (sl_mine (mypid s)) j) in *. set (s1 := at_inode s ip (fs_d s) j1).
  assert (ic_inode s1 !! ip = Some j1) as E1 by (by apply list_lookup_insert_eq).
  mstep (get_inode_ok s1 ip j1 E1). change (i_valid j1) with (i_valid j). destruct (i_valid j) eqn:Ev.
  { cbn [negb andb]. exists (fs_d s). by split. }
  rewrite bind_gets. change (i_dev j1) with (i_dev j). change (i_inum j1) with (i_inum j). rewrite Hdev. change (sb s1) with (sb s). rewrite Hs.
  destruct (open_block s1 V (IBLOCK (i_inum j) b)) as (bp & x & E & Hbp & Hx & Ed); [exact H|lia|intros b' d; by rewrite Hh|rewrite Hh, map_size_empty; unfold MAXHELD; lia|].
  mstep E. mstep Ed. set (s2 := set_d x s1). assert (ic_inode s2 !! ip = Some j1) as E2 by exact E1.
  mstep (upd_inode_ok s2 ip j1 (load_dinode (j_at V (IBLOCK (i_inum j) b)) (dinode_at (i_inum j))) E2).
  set (j2 := load_dinode _ _ j1).
  destruct (close_block (fun _ => upd_inode ip (set_ivalid true);; i ← get_inode ip; if i_type i =? 0 then panic "ilock: no type" else mret tt)
    (set_inodes (<[ip := j2]> (ic_inode s2)) s2) V bp _ Hx Hbp) as (x' & -> & Hx').
  set (s3 := set_d x' _). assert (ic_inode s3 !! ip = Some j2) as E3 by (cbn; apply list_lookup_insert_eq; by rewrite length_insert).
  mstep (upd_inode_ok s3 ip j2 (set_ivalid true) E3). assert (set_ivalid true j2 = j') as -> by done.
  set (s4 := set_inodes _ s3). assert (s4 = at_inode s ip x' j') as ->.
  { unfold s4, s3, s2, s1, at_inode, set_inodes, set_d. cbn. by rewrite !list_insert_insert_eq. }
  assert (ic_inode (at_inode s ip x' j') !! ip = Some j') as E4 by (by apply list_lookup_insert_eq).
  mstep (get_inode_ok _ ip j' E4). cbn [negb andb]. destruct (i_type j' =? 0); [done|]. by exists x'.
Qed.

Lemma iupdate_disk s V ip i : d_ok (fs_d s) V -> sb s = b -> d_low <= sb_inodestart b -> j_held V = ∅ -> layout b (j_len V) -> ic_inode s !! ip = Some i -> i_dev i = 1 ->
  0 <= i_inum i < sb_ninodes b -> fields_ok i -> IBLOCK (i_inum i) b ∈ j_logged V \/ (0 < j_credit V)%nat ->
  exists x V', iupdate ip s = Ok tt (set_d x s) /\ d_ok x V' /\ j_held V' = ∅ /\ j_len V' = j_len V /\
    forall j, 0 <= i_inum j < sb_ninodes b -> disk_inode b V' j = if decide (i_inum j = i_inum i) then with_fields i j else disk_inode b V j.
Proof.
  intros H Hs Hlow Hh L Ei Hdev Hin Hf Hc. destruct (iblock_range b (i_inum i) _ L Hin) as (B1 & B2 & B3 & B4).
  destruct (iupdate_ok b Hlow s V ip i) as (x & E & Hx); try done; [apply Hf|].
  exists x, (j_iupdate b i V). split; [done|]. split; [done|]. split; [by unfold j_iupdate; rewrite j_held_write|]. split; [apply j_len_write|].
  intros j Hj. apply disk_inode_update; try done.
  - intros n Hn. by apply (block_at_ok s).
  - intros n Hn. unfold j_iupdate. rewrite j_at_write by lia. by case_decide as En; [rewrite En|].
Qed.
End inode.

(** C15. The inode round trip. In a transaction with room for a block, [iupdate] of a
    cached inode [i] stores it on disk: when any inode [j] of the cache that is not valid
    and not locked is then locked with [ilock], it gets the type, device numbers, links,
    size and addresses of [i] if its number is that of [i], and otherwise what it would
    have got before, although the disk inodes share a block; [ilock] panics exactly if the
    type so loaded is 0. *)
Theorem inode_roundtrip {S} `{Journal S} (s : fsys (S := S)) (V : jview) (ip : nat) (i : inode) :
  let b := sb s in
  d_ok (fs_d s) V -> d_low <= sb_inodestart b -> j_held V = ∅ -> layout b (j_len V) -> ic_inode s !! ip = Some i -> i_dev i = 1 ->
  0 <= i_inum i < sb_ninodes b -> fields_ok i -> IBLOCK (i_inum i) b ∈ j_logged V \/ (0 < j_credit V)%nat ->
  exists x, iupdate ip s = Ok tt (set_d x s) /\
  forall jp j, ic_inode s !! jp = Some j -> i_dev j = 1 -> 0 <= i_inum j < sb_ninodes b -> 0 < i_ref j -> i_lock j = sl_free -> i_valid j = false ->
    let j' := if decide (i_inum j = i_inum i) then with_fields i j else disk_inode b V j in
    if i_type j' =? 0 then ilock jp (set_d x s) = Panic "ilock: no type"
    else exists y, ilock jp (set_d x s) = Ok tt (at_inode s jp y (set_ilock (sl_mine (mypid s)) (set_ivalid true j'))).
Proof.
  intros b Hd Hlow Hh L Ei Hdev Hin Hf Hc.
  destruct (iupdate_disk b s V ip i Hd eq_refl Hlow Hh L Ei Hdev Hin Hf Hc) as (x & V' & E & Hx & Hh' & Hl' & Hj). exists x. split; [done|].
  intros jp j Ej Hdj Hnj Hr Hl Hv j'. pose proof (ilock_ok b (set_d x s) V' jp j Hx eq_refl Hh') as P. rewrite Hl' in P.
  specialize (P L Ej Hdj Hnj Hr Hl). rewrite Hv, Hj in P by done. cbn [negb andb] in P. fold j' in P.
  change (i_type (set_ilock _ (set_ivalid true j'))) with (i_type j') in P. destruct (i_type j' =? 0); [done|].
  destruct P as (y & P & _). by exists y.
Qed.
