(* ===== verification/FsPath.v ===== *)
(** * Paths and names: skipelem and namecmp of p6/fs.c

    [skipelem] walks the elements of a path; a name is the bytes of its array up to the
    NUL, and [namecmp] compares names. *)

From S2P Require Import Prelude Fs.

(** The pieces of a path between its slashes, empty ones included; its elements, the others. *)
Fixpoint pieces (path : list Z) : list (list Z) :=
  match path with
  | [] => [[]]
  | c :: path' =>
    if c =? SLASH then [] :: pieces path' else
    match pieces path' with e :: es => (c :: e) :: es | [] => [[c]] end
  end.
Definition path_elements (path : list Z) : list (list Z) := filter (fun e => e <> []) (pieces path).

(** The C string in an array of [n] bytes. *)
Fixpoint cstr (n : nat) (l : list Z) : list Z :=
  match n, l with
  | S n', c :: l' => if c =? 0 then [] else c :: cstr n' l'
  | _, _ => []
  end.
Definition name_of (l : list Z) : list Z := cstr DIRSIZ l.

Lemma pieces_nil p : pieces p <> [].
Proof. destruct p as [|c p]; cbn; [done|]. destruct (c =? SLASH); [done|]. by destruct (pieces p). Qed.

Lemma elements_slashes p : path_elements (slashes p) = path_elements p.
Proof.
  induction p as [|c p IH]; [done|]. cbn [slashes]. destruct (c =? SLASH) eqn:E; [|done].
  rewrite IH. unfold path_elements. cbn [pieces]. by rewrite E.
Qed.

Lemma slashes_head p c p' : slashes p = c :: p' -> c <> SLASH.
Proof. induction p as [|d p IH]; cbn; [done|]. destruct (Z.eqb_spec d SLASH); [done|]. by intros [= <- _]. Qed.
Lemma slashes_length p : (length (slashes p) <= length p)%nat.
Proof. induction p as [|c p IH]; cbn; [lia|]. destruct (c =? SLASH); cbn; lia. Qed.
Lemma slashes_idem p : slashes (slashes p) = slashes p.
Proof. induction p as [|c p IH]; [done|]. cbn. destruct (c =? SLASH) eqn:E; [done|]. cbn. by rewrite E. Qed.

Lemma element_pieces p e r : element p = (e, r) -> p = e ++ r /\
  ((r = [] /\ pieces p = [e]) \/ exists r', r = SLASH :: r' /\ pieces p = e :: pieces r').
Proof.
  revert e r. induction p as [|c p IH]; intros e r; cbn [element pieces]; [intros [= <- <-]; split; [done|by left]|].
  destruct (Z.eqb_spec c SLASH) as [->|].
  - intros [= <- <-]. split; [done|]. right. by exists p.
  - destruct (element p) as [e' r'] eqn:E. intros [= <- <-]. destruct (IH _ _ eq_refl) as [-> [[-> ->]|(r2 & -> & ->)]].
    + split; [done|]. by left.
    + split; [done|]. right. by exists r2.
Qed.

Lemma slashes_nil p : slashes p = [] <-> path_elements p = [].
Proof.
  rewrite <- elements_slashes. split; [by intros ->|]. destruct (slashes p) as [|c q] eqn:E; [done|].
  pose proof (slashes_head _ _ _ E). unfold path_elements. cbn [pieces]. destruct (Z.eqb_spec c SLASH); [done|].
  by destruct (pieces q).
Qed.

Lemma cstr_app n e l : Forall (fun c => c <> 0) e -> (length e < n)%nat -> cstr n (e ++ 0 :: l) = e.
Proof.
  intros H. revert n. induction H as [|c e Hc _ IH]; intros [|n] Hn; cbn in *; try lia; [done|].
  destruct (Z.eqb_spec c 0); [done|]. f_equal. apply IH. lia.
Qed.
Lemma cstr_full n e : Forall (fun c => c <> 0) e -> cstr n e = take n e.
Proof.
  intros H. revert n. induction H as [|c e Hc _ IH]; intros [|n]; cbn; try done. destruct (Z.eqb_spec c 0); [done|]. by rewrite IH.
Qed.
Lemma cstr_strncpy n s : cstr n (strncpy_bytes n s) = cstr n s.
Proof.
  revert s. induction n as [|n IH]; intros s; [done|]. destruct s as [|c s]; [done|]. cbn [strncpy_bytes cstr].
  destruct (c =? 0) eqn:E; [done|]. cbn. rewrite E. by rewrite IH.
Qed.
Lemma length_strncpy n s : length (strncpy_bytes n s) = n.
Proof.
  revert s. induction n as [|n IH]; intros s; [done|]. destruct s as [|c s]; cbn; [by rewrite length_replicate|].
  destruct (c =? 0); cbn; [by rewrite length_replicate|by rewrite IH].
Qed.

(** [namecmp] is 0 exactly on equal names. *)
Lemma strncmp_cstr n s t : strncmp_bytes n s t = 0 <-> cstr n s = cstr n t.
Proof.
  revert s t. induction n as [|n IH]; intros s t; [done|]. cbn [strncmp_bytes].
  destruct s as [|c s], t as [|d t]; cbn [hd tl cstr].
  - done.
  - destruct (Z.eqb_spec d 0) as [->|]; [done|]. cbn. split; [lia|done].
  - destruct (Z.eqb_spec c 0) as [->|]; [done|]. destruct (Z.eqb_spec c 0); [done|]. cbn. split; [lia|done].
  - destruct (Z.eqb_spec c 0) as [->|Hc]; cbn [orb].
    + destruct (Z.eqb_spec d 0) as [->|]; [done|]. split; [lia|done].
    + destruct (Z.eqb_spec c d) as [->|]; cbn [negb].
      * destruct (Z.eqb_spec d 0); [done|]. rewrite IH. split; [by intros ->|by intros [= ->]].
      * split; [lia|]. destruct (d =? 0); [done|]. by intros [= ->].
Qed.

(** Walking a path. For every path (bytes up to the NUL) [skipelem] fails exactly when
    no element is left, and otherwise takes the first one, cut to DIRSIZ bytes, into
    [name], returns a shorter rest without leading slashes that has the remaining
    elements, and that is empty exactly when there are none; what it leaves in [name]
    compares equal to a directory entry made by [strncpy_bytes] from the element. *)
Theorem skipelem_elements (path name : list Z) :
  Forall (fun c => c <> 0) path -> length name = DIRSIZ ->
  match skipelem path name with
  | None => path_elements path = []
  | Some (rest, name') => exists e, path_elements path = e :: path_elements rest /\ name_of name' = take DIRSIZ e /\ length name' = DIRSIZ /\
      (length rest < length path)%nat /\ slashes rest = rest /\ (rest = [] <-> path_elements rest = []) /\ Forall (fun c => c <> 0) rest /\
      forall t, namecmp name' (strncpy_bytes DIRSIZ t) = 0 <-> name_of t = take DIRSIZ e
  end.
Proof.
  intros Hz Hn. unfold skipelem. pose proof (slashes_nil path) as H0. pose proof (elements_slashes path) as He. pose proof (slashes_length path) as Hlen.
  assert (Forall (fun c => c <> 0) (slashes path)) as Hz'.
  { clear -Hz. induction Hz as [|c p Hc Hp IH]; [done|]. cbn. destruct (c =? SLASH); [done|by constructor]. }
  destruct (slashes path) as [|c p] eqn:E; [by apply H0|]. pose proof (slashes_head _ _ _ E) as Hc.
  destruct (element (c :: p)) as [e r] eqn:Ee. destruct (element_pieces _ _ _ Ee) as [Ep Hp]. rewrite Ep in Hz'. apply Forall_app in Hz' as [Hze Hzr].
  assert (e <> []) as Hne. { intros ->. cbn [element] in Ee. destruct (Z.eqb_spec c SLASH); [done|]. by destruct (element p). }
  set (name' := if (DIRSIZ <=? length e)%nat then take DIRSIZ e else e ++ [0] ++ drop (S (length e)) name).
  assert (name_of name' = take DIRSIZ e /\ length name' = DIRSIZ) as [Hname Hnl].
  { unfold name', name_of. destruct (Nat.leb_spec DIRSIZ (length e)) as [Hl|Hl].
    - rewrite cstr_full by (by apply Forall_take). rewrite take_take, length_take. split; [f_equal|]; lia.
    - rewrite (take_ge e) by lia. split; [by apply cstr_app|]. rewrite !length_app, length_drop. cbn. lia. }
  exists e. split; [|split; [done|split; [done|split; [|split; [apply slashes_idem|split; [|split]]]]]].
  - rewrite <- He, elements_slashes. unfold path_elements. destruct Hp as [[-> ->]|(r' & -> & ->)]; by rewrite filter_cons_True.
  - pose proof (slashes_length r). apply (f_equal length) in Ep. rewrite length_app in Ep. destruct e; [done|]. cbn in *. lia.
  - rewrite <- (slashes_nil (slashes r)). by rewrite slashes_idem.
  - clear -Hzr. induction Hzr as [|x q Hx Hq IH]; [done|]. cbn. destruct (x =? SLASH); [done|by constructor].
  - intros t. unfold namecmp. rewrite strncmp_cstr, cstr_strncpy. fold (name_of name') (name_of t). rewrite Hname. done.
Qed.

Lemma skipelem_elements_witness :
  skipelem [47; 97; 47; 47; 98] (replicate DIRSIZ 0) = Some ([98], [97] ++ replicate 13 0) /\
  exists e, path_elements [47; 97; 47; 47; 98] = e :: path_elements [98].
Proof.
  assert (Forall (fun c => c <> 0) [47; 97; 47; 47; 98]) as H by (repeat constructor; done).
  split; [vm_compute; reflexivity|].
  pose proof (skipelem_elements [47; 97; 47; 47; 98] (replicate DIRSIZ 0) H eq_refl) as P.
  vm_compute in P. destruct P as (e & P & _). exists e. exact P.
Defined.
