(* ===== verification/FsDir.v ===== *)
(** * Directories: iget, dirlookup and dirlink of p6/fs.c

    The contents of a directory are entries of 16 bytes; as a map it gives a name the
    inode number of its first entry. [dirlookup] reads that map and [dirlink] adds a
    name to it, in the first free entry or at the end. *)

From S2P Require Import Prelude Sleeplock Cache Log Journal Fs FsAlloc FsFile FsWrite FsInode FsPath.

(** ** Entries *)

Definition dent (c : list Z) (k : nat) : list Z := take 16 (drop (16 * k) c).
Definition dents (c : list Z) : list (list Z) := map (dent c) (seq 0 (length c / 16)).

Definition free_entry (de : list Z) : Prop := de_inum de = 0.
(** The entry [de] is for [name]. *)
Definition entry_for (name de : list Z) : Prop := de_inum de <> 0 /\ namecmp name (de_name de) = 0.
#[export] Instance free_entry_dec de : Decision (free_entry de).
Proof. unfold free_entry. apply _. Defined.
#[export] Instance entry_for_dec name de : Decision (entry_for name de).
Proof. unfold entry_for. apply _. Defined.

(** The directory as a map from names. *)
Definition dir_lookup (D : list (list Z)) (name : list Z) : option Z :=
  de_inum ∘ snd <$> list_find (entry_for name) D.
(** Where the next entry goes. *)
Definition free_slot (D : list (list Z)) : nat := default (length D) (fst <$> list_find free_entry D).

Lemma length_dents c : length (dents c) = (length c / 16)%nat.
Proof. unfold dents. by rewrite length_map, length_seq. Qed.
Lemma lookup_dents c j : dents c !! j = if decide (j < length c / 16)%nat then Some (dent c j) else None.
Proof.
  unfold dents. rewrite list_lookup_fmap. case_decide as H.
  - by rewrite lookup_seq_lt.
  - by rewrite lookup_seq_ge by lia.
Qed.
Lemma lookup_dent c k j : dent c k !! j = if decide (j < 16)%nat then c !! (16 * k + j)%nat else None.
Proof.
  unfold dent. case_decide; [by rewrite lookup_take_lt, lookup_drop by lia|by rewrite lookup_take_ge by lia].
Qed.

(** Writing the entry [e] at place [k]. *)
Lemma dents_write c k e : length e = 16%nat -> (length c `mod` 16 = 0)%nat -> (k <= length c / 16)%nat ->
  let c' := take (16 * k) c ++ e ++ drop (16 * k + 16) c in
  length (dents c') = Nat.max (length (dents c)) (S k) /\
  forall j, dents c' !! j = if decide (j = k) then Some e else dents c !! j.
Proof.
  intros He Hm Hk c'. pose proof (Nat.div_mod_eq (length c) 16) as Hd. rewrite Hm in Hd.
  assert (length c' = Nat.max (length c) (16 * k + 16))%nat as Hl.
  { unfold c'. rewrite !length_app, length_take, length_drop. lia. }
  assert (length c' / 16 = Nat.max (length c / 16) (S k))%nat as Hl'.
  { rewrite Hl. symmetry. apply (Nat.div_unique _ _ _ 0); lia. }
  split; [by rewrite !length_dents|]. intros j. rewrite !lookup_dents, Hl'.
  assert (forall i, c' !! i = if decide (i < 16 * k)%nat then c !! i else if decide (i < 16 * k + 16)%nat then e !! (i - 16 * k)%nat else c !! i) as Hc.
  { intros i. unfold c'. destruct (decide (i < 16 * k)%nat).
    - rewrite lookup_app_l by (rewrite length_take; lia). by rewrite lookup_take_lt.
    - rewrite lookup_app_r by (rewrite length_take; lia). rewrite length_take, Nat.min_l by lia.
      destruct (decide (i < 16 * k + 16)%nat); [by rewrite lookup_app_l by lia|].
      rewrite lookup_app_r, lookup_drop by lia. f_equal. lia. }
  destruct (decide (j = k)) as [->|Hj].
  - rewrite decide_True by lia. f_equal. apply list_eq. intros i. rewrite lookup_dent. case_decide as Hi.
    + rewrite Hc, decide_False, decide_True by lia. f_equal. lia.
    + by rewrite lookup_ge_None_2 by lia.
  - destruct (decide (j < length c / 16)%nat); [rewrite decide_True by lia|by rewrite decide_False by lia].
    f_equal. apply list_eq. intros i. rewrite !lookup_dent. case_decide as Hi; [|done]. rewrite Hc.
    destruct (decide (16 * j + i < 16 * k)%nat); [done|]. by rewrite decide_False by lia.
Qed.

(** A new entry changes the map at its name only. *)
Lemma dir_lookup_write D D' k e name inum : dir_lookup D name = None ->
  de_inum e = inum -> inum <> 0 -> (forall n, namecmp n (de_name e) = 0 <-> name_of n = name_of name) ->
  (forall de, D !! k = Some de -> free_entry de) -> (forall j, D' !! j = if decide (j = k) then Some e else D !! j) ->
  forall n, dir_lookup D' n = if decide (name_of n = name_of name) then Some inum else dir_lookup D n.
Proof.
  intros Hnone He H0 Hcmp Hfree HD n. unfold dir_lookup in *.
  assert (forall n de, name_of n = name_of name -> entry_for n de -> entry_for name de) as Hsame.
  { intros n' de Hn [H1 H2]. split; [done|]. apply strncmp_cstr. apply strncmp_cstr in H2. unfold name_of in Hn. congruence. }
  assert (list_find (entry_for name) D = None) as Hn by (by destruct (list_find (entry_for name) D)).
  rewrite list_find_None, Forall_lookup in Hn.
  destruct (decide (name_of n = name_of name)) as [E|E].
  - assert (list_find (entry_for n) D' = Some (k, e)) as ->; [|cbn; by rewrite He].
    apply list_find_Some. split; [rewrite HD; by rewrite decide_True|]. split; [split; [by rewrite He|by apply Hcmp]|].
    intros j de Hj Hlt Hen. rewrite HD, decide_False in Hj by lia. apply (Hn j de Hj). by eapply Hsame.
  - assert (forall de, D !! k = Some de -> ~ entry_for n de) as Hk by (intros de Hde [Hne _]; by apply Hne, Hfree).
    assert (~ entry_for n e) as Hen by (intros [_ Hc]; by apply E, Hcmp).
    destruct (list_find (entry_for n) D) as [[j de]|] eqn:F.
    + apply list_find_Some in F as (Hj & Hde & Hb). assert (list_find (entry_for n) D' = Some (j, de)) as ->; [|done].
      apply list_find_Some. split; [rewrite HD, decide_False; [done|intros ->; by apply (Hk de)]|]. split; [done|].
      intros j' de' Hj' Hlt. rewrite HD in Hj'. destruct (decide (j' = k)); [by injection Hj' as <-|by apply (Hb j')].
    + assert (list_find (entry_for n) D' = None) as ->; [|done]. apply list_find_None, Forall_lookup. intros j de Hj.
      rewrite list_find_None, Forall_lookup in F. rewrite HD in Hj. destruct (decide (j = k)); [by injection Hj as <-|by apply (F j)].
Qed.

Lemma free_slot_ok D : (free_slot D <= length D)%nat /\ (forall de, D !! free_slot D = Some de -> free_entry de) /\
  forall j de, (j < free_slot D)%nat -> D !! j = Some de -> ~ free_entry de.
Proof.
  unfold free_slot. destruct (list_find free_entry D) as [[k x]|] eqn:F; cbn.
  - apply list_find_Some in F as (Hk & Hx & Hb). split; [apply lookup_lt_Some in Hk; lia|]. split.
    + intros de E. rewrite Hk in E. by injection E as <-.
    + intros j de Hj E. by apply (Hb j de).
  - rewrite list_find_None, Forall_lookup in F. split; [done|]. split; [intros de E; apply lookup_lt_Some in E; lia|].
    intros j de _ E. by apply (F j).
Qed.

(** The entry [dirlink] writes. *)
Definition new_entry (name : list Z) (inum : Z) : list Z := le16 inum ++ strncpy_bytes DIRSIZ name.
Lemma new_entry_ok name inum : 0 < inum < 2 ^ 16 -> Forall byte name ->
  length (new_entry name inum) = 16%nat /\ Forall byte (new_entry name inum) /\ de_inum (new_entry name inum) = inum /\
  forall n, namecmp n (de_name (new_entry name inum)) = 0 <-> name_of n = name_of name.
Proof.
  intros Hi Hb. unfold new_entry. split_and!.
  - rewrite length_app, length_strncpy. done.
  - assert (forall n, Forall byte (replicate n 0)) as Hz by (intros n; by apply Forall_replicate).
    apply Forall_app. split; [apply le16_bytes|]. generalize DIRSIZ. intros k. revert name Hb.
    induction k as [|k IH]; intros name Hb; [done|]. destruct name as [|c name]; cbn; [apply (Hz (S k))|].
    destruct (c =? 0); [apply (Hz (S k))|]. apply Forall_cons in Hb as [Hc Hb]. constructor; [done|]. by apply IH.
  - change (u8 inum + 256 * u8 (inum / 256) = inum). unfold u8. Z.div_mod_to_equations. lia.
  - intros n. unfold namecmp. rewrite strncmp_cstr. change (de_name (le16 inum ++ strncpy_bytes DIRSIZ name)) with (strncpy_bytes DIRSIZ name).
    by rewrite cstr_strncpy.
Qed.

(** ** The inode cache *)

Definition is_cached (dev inum : Z) (n : inode) : Prop := 0 < i_ref n /\ i_dev n = dev /\ i_inum n = inum.
#[export] Instance is_cached_dec dev inum n : Decision (is_cached dev inum n).
Proof. unfold is_cached. apply _. Defined.
Definition cached (dev inum : Z) (l : list inode) : option nat := fst <$> list_find (is_cached dev inum) l.
Definition vacant (l : list inode) : option nat := fst <$> list_find (fun n => i_ref n = 0) l.
(** The slot as [iget] fills it. *)
Definition fresh_inode (dev inum : Z) (n : inode) : inode :=
  Inode dev inum 1 (i_lock n) false (i_type n) (i_major n) (i_minor n) (i_nlink n) (i_size n) (i_addrs n).

Lemma is_cached_bool dev inum n : (0 <? i_ref n) && (i_dev n =? dev) && (i_inum n =? inum) = bool_decide (is_cached dev inum n).
Proof.
  unfold is_cached. destruct (Z.ltb_spec 0 (i_ref n)), (Z.eqb_spec (i_dev n) dev), (Z.eqb_spec (i_inum n) inum); cbn;
    symmetry; (apply bool_decide_true; done) || (apply bool_decide_false; intros (? & ? & ?); done || lia).
Qed.

Section dir.
Context {S : Type} `{J : Journal S}.
Implicit Types (s : fsys (S := S)) (V : jview).

Lemma acquire_icache_ok s : ic_lock s = false -> acquire_icache s = Ok tt (set_iclock true s).
Proof. intros E. unfold acquire_icache, zoom, spin_acquire. by rewrite E. Qed.
Lemma release_icache_ok s : ic_lock s = true -> release_icache s = Ok tt (set_iclock false s).
Proof. intros E. unfold release_icache, zoom, spin_release. by rewrite E. Qed.

Lemma iget_find_ok dev inum : forall k s i e, length (ic_inode s) = (i + k)%nat ->
  iget_find k i dev inum e s = Ok (match cached dev inum (drop i (ic_inode s)) with
    | Some j => inl (i + j)%nat
    | None => inr (match e with Some _ => e | None => Nat.add i <$> vacant (drop i (ic_inode s)) end)
    end) s.
Proof.
  induction k as [|k IH]; intros s i e Hl.
  { rewrite drop_ge by lia. cbn. by destruct e. }
  destruct (lookup_lt_is_Some_2 (ic_inode s) i) as [n En]; [lia|]. cbn [iget_find]. mstep (get_inode_ok s i n En).
  rewrite is_cached_bool. rewrite (drop_S _ _ _ En). unfold cached, vacant. cbn [list_find].
  destruct (decide (is_cached dev inum n)) as [Hc|Hc]; [rewrite bool_decide_true by done|rewrite bool_decide_false by done].
  { cbn. unfold mret, M_ret. do 2 f_equal. lia. }
  rewrite IH by lia. replace (i + 1)%nat with (Datatypes.S i) by lia. unfold cached, vacant. f_equal.
  destruct (list_find (is_cached dev inum) (drop (Datatypes.S i) (ic_inode s))) as [[j x]|]; cbn; [f_equal; lia|]. f_equal.
  destruct e as [e|]; [done|]. rewrite (bool_decide_true (None = None)) by done. cbn [andb].
  destruct (Z.eqb_spec (i_ref n) 0) as [E|E].
  - rewrite decide_True by done. cbn. f_equal. lia.
  - rewrite decide_False by done. destruct (list_find _ (drop (Datatypes.S i) (ic_inode s))) as [[j x]|]; cbn; [f_equal; lia|done].
Qed.

(** What [iget] does to the cache. *)
Definition iget_result (dev inum : Z) (l : list inode) : option (nat * list inode) :=
  match cached dev inum l with
  | Some ip => n ← l !! ip; Some (ip, <[ip := set_iref (s32 (i_ref n + 1)) n]> l)
  | None => ip ← vacant l; n ← l !! ip; Some (ip, <[ip := fresh_inode dev inum n]> l)
  end.

Lemma iget_ok s dev inum : ic_lock s = false -> length (ic_inode s) = NINODE ->
  iget dev inum s = match iget_result dev inum (ic_inode s) with
    | Some (ip, l) => Ok ip (set_inodes l s)
    | None => Panic "iget: no inodes"
    end.
Proof.
  intros El Hl. unfold iget, iget_result. mstep (acquire_icache_ok s El).
  mstep (iget_find_ok dev inum NINODE (set_iclock true s) 0 None Hl). rewrite drop_0. cbn [ic_inode set_iclock].
  destruct (cached dev inum (ic_inode s)) as [ip|] eqn:F.
  - unfold cached in F. destruct (list_find _ _) as [[j n]|] eqn:G; [|done]. apply list_find_Some in G as (G & _). injection F as <-.
    cbn. rewrite G. mstep (upd_inode_ok (set_iclock true s) j n _ G). mstep (release_icache_ok (set_inodes (<[j := set_iref (s32 (i_ref n + 1)) n]> (ic_inode s)) (set_iclock true s)) eq_refl).
    unfold mret, M_ret. f_equal. destruct s; cbn in *; by subst.
  - unfold vacant. destruct (list_find (fun n => i_ref n = 0) (ic_inode s)) as [[j n]|] eqn:G; [|done].
    apply list_find_Some in G as (G & _). cbn. rewrite G.
    mstep (upd_inode_ok (set_iclock true s) j n (fresh_inode dev inum) G).
    mstep (release_icache_ok (set_inodes (<[j := fresh_inode dev inum n]> (ic_inode s)) (set_iclock true s)) eq_refl).
    unfold mret, M_ret. f_equal. destruct s; cbn in *; by subst.
Qed.

(** ** Reading a directory *)

Context (b : superblock) (Hlow : d_low <= sb_inodestart b).
Context (dev_read : Z -> option (nat -> Z -> M (fsys (S := S)) (Z * list Z))).

(** The inode [i] is a directory with all its blocks. *)
Record is_dir V (i : inode) : Prop := {
  dr_type : i_type i = T_DIR;
  dr_dev : i_dev i = 1;
  dr_inum : 0 <= i_inum i < sb_ninodes b;
  dr_size : 0 <= i_size i <= MAXFILE * BSIZE /\ i_size i `mod` 16 = 0;
  dr_wf : wf b V i;
  dr_mapped : mapped V i (i_size i)
}.
Definition entries V (i : inode) : list (list Z) := dents (contents V i).

Lemma length_contents V i : 0 <= i_size i -> Z.of_nat (length (contents V i)) = i_size i.
Proof. intros H. unfold contents, frange. rewrite length_map, length_seqZ. lia. Qed.
Lemma length_entries V i : is_dir V i -> 16 * Z.of_nat (length (entries V i)) = i_size i.
Proof.
  intros [_ _ _ [Hs Hm] _ _]. unfold entries. rewrite length_dents, Nat2Z.inj_div, length_contents by lia.
  change (Z.of_nat 16) with 16. Z.div_mod_to_equations. lia.
Qed.
Lemma frange_dent V i k : is_dir V i -> (k < length (entries V i))%nat -> frange V i (16 * Z.of_nat k) 16 = dent (contents V i) k.
Proof.
  intros D Hk. pose proof (length_entries V i D). apply list_eq. intros j. rewrite lookup_dent. unfold contents, frange.
  rewrite !list_lookup_fmap. case_decide; [|by rewrite lookup_seqZ_ge by lia]. rewrite !lookup_seqZ_lt by lia. cbn. do 2 f_equal. lia.
Qed.
Lemma lookup_entries V i k : is_dir V i -> (k < length (entries V i))%nat -> entries V i !! k = Some (dent (contents V i) k).
Proof. intros D Hk. unfold entries in *. rewrite lookup_dents. rewrite length_dents in Hk. by rewrite decide_True. Qed.

(** The directory as the process that has locked it sees it. *)
Record dir_view s V (dp : nat) (i : inode) : Prop := {
  dv_ok : d_ok (fs_d s) V;
  dv_held : j_held V = ∅;
  dv_inode : ic_inode s !! dp = Some i;
  dv_dir : is_dir V i
}.
Lemma dir_view_d s V dp i x : dir_view s V dp i -> d_ok x V -> dir_view (set_d x s) V dp i.
Proof. by intros [H1 H2 H3 H4]; split. Qed.

(** The entry at place [k] is read. *)
Lemma read_entry s V dp i k : dir_view s V dp i -> (k < length (entries V i))%nat ->
  exists x, readi dev_read dp (16 * Z.of_nat k) DIRENT s = Ok (DIRENT, dent (contents V i) k) (set_d x s) /\ d_ok x V.
Proof.
  intros [H Hh Ei D] Hk. pose proof (length_entries V i D) as Hl. pose proof maxfile_small. pose proof (dr_size _ _ D) as [Hs _].
  pose proof (readi_ok dev_read s V dp i (16 * Z.of_nat k) DIRENT H Hh Ei (dr_dev _ _ D)) as R. unfold DIRENT in *.
  destruct (decide _) as [Hd|_] in R; [exfalso; lia|].
  destruct R as (x & E & Hx); [rewrite (dr_type _ _ D); discriminate|apply D|lia|unfold is_u32; lia|done|].
  rewrite Z.min_l in E by lia. rewrite frange_dent in E by done. by exists x.
Qed.

Lemma next_off V i k : is_dir V i -> (k < length (entries V i))%nat ->
  16 * Z.of_nat k < i_size i /\ u32 (16 * Z.of_nat k + DIRENT) = 16 * Z.of_nat (k + 1) /\ s32 (16 * Z.of_nat k + DIRENT) = 16 * Z.of_nat (k + 1).
Proof.
  intros D Hk. pose proof (length_entries V i D). pose proof maxfile_small. pose proof (dr_size _ _ D) as [Hs _]. unfold DIRENT.
  split; [lia|]. split; [rewrite u32_small by (unfold is_u32; lia); lia|]. unfold s32. rewrite Z.mod_small by lia. lia.
Qed.

(** No entry before place [k] satisfies [P]. *)
Definition none_before (P : list Z -> Prop) (D : list (list Z)) (k : nat) : Prop := forall j de, (j < k)%nat -> D !! j = Some de -> ~ P de.
Lemma none_before_next (P : list Z -> Prop) D k de : none_before P D k -> D !! k = Some de -> ~ P de -> none_before P D (k + 1).
Proof.
  intros H E HP j x Hj Ej. destruct (decide (j = k)) as [->|]; [rewrite E in Ej; by injection Ej as <-|]. apply (H j x); [lia|done].
Qed.
Lemma none_before_find (P : list Z -> Prop) `{!forall x, Decision (P x)} D k de : none_before P D k -> D !! k = Some de -> P de -> list_find P D = Some (k, de).
Proof. intros Hb E HP. apply list_find_Some. split; [done|]. split; [done|]. intros j x Ej Hj. by apply (Hb j). Qed.
Lemma none_before_all (P : list Z -> Prop) `{!forall x, Decision (P x)} D : none_before P D (length D) -> list_find P D = None.
Proof. intros Hb. apply list_find_None, Forall_lookup. intros j x Ej. apply (Hb j x); [by eapply lookup_lt_Some|done]. Qed.

Lemma dirlookup_loop_ok V dp i name fuel : forall s k, dir_view s V dp i -> (k <= length (entries V i))%nat -> (length (entries V i) - k < fuel)%nat ->
  none_before (entry_for name) (entries V i) k ->
  exists x, d_ok x V /\ dirlookup_loop dev_read fuel dp name (16 * Z.of_nat k) s =
    match list_find (entry_for name) (entries V i) with
    | None => mret None
    | Some (j, de) => ip ← iget 1 (de_inum de); mret (Some (ip, 16 * Z.of_nat j))
    end (set_d x s).
Proof.
  induction fuel as [|fuel IH]; intros s k Hv Hk Hf Hb; [lia|]. pose proof Hv as [H Hh Ei D]. pose proof (length_entries V i D) as Hl.
  cbn [dirlookup_loop]. mstep (get_inode_ok s dp i Ei). destruct (decide (k < length (entries V i))%nat) as [Hlt|].
  2:{ replace k with (length (entries V i)) in * by lia. destruct (Z.ltb_spec (16 * Z.of_nat (length (entries V i))) (i_size i)); [lia|].
      exists (fs_d s). split; [done|]. rewrite none_before_all by done. by rewrite set_d_id. }
  destruct (next_off V i k D Hlt) as (H1 & H2 & _). rewrite (proj2 (Z.ltb_lt _ _) H1).
  destruct (read_entry s V dp i k Hv Hlt) as (x & E & Hx). mstep E. cbn [negb]. change (negb (DIRENT =? DIRENT)) with false. cbv iota.
  pose proof (lookup_entries V i k D Hlt) as Ek. set (de := dent (contents V i) k) in *. rewrite H2.
  assert (~ entry_for name de -> exists y, d_ok y V /\ dirlookup_loop dev_read fuel dp name (16 * Z.of_nat (k + 1)) (set_d x s) =
    match list_find (entry_for name) (entries V i) with
    | None => mret None
    | Some (j, de) => ip ← iget 1 (de_inum de); mret (Some (ip, 16 * Z.of_nat j))
    end (set_d y s)) as Hnext.
  { intros Hno. destruct (IH (set_d x s) (k + 1)%nat) as (y & Hy & Ey); [by apply dir_view_d|lia|lia|by eapply none_before_next|].
    exists y. split; [done|]. by rewrite Ey. }
  destruct (Z.eqb_spec (de_inum de) 0) as [E0|E0]; [apply Hnext; by intros [? _]|].
  destruct (Z.eqb_spec (namecmp name (de_name de)) 0) as [En|En]; [|apply Hnext; by intros [_ ?]].
  exists x. split; [done|]. rewrite (none_before_find _ _ k de) by done. by rewrite (dr_dev _ _ D).
Qed.

Lemma dirlookup_ok s V dp i name : dir_view s V dp i ->
  exists x, d_ok x V /\ dirlookup dev_read dp name s =
    match list_find (entry_for name) (entries V i) with
    | None => mret None
    | Some (j, de) => ip ← iget 1 (de_inum de); mret (Some (ip, 16 * Z.of_nat j))
    end (set_d x s).
Proof.
  intros Hv. pose proof Hv as [H Hh Ei D]. pose proof (length_entries V i D). unfold dirlookup. mstep (get_inode_ok s dp i Ei).
  rewrite (dr_type _ _ D). change (negb (T_DIR =? T_DIR)) with false. cbv iota. apply (dirlookup_loop_ok V dp i name _ s 0 Hv); [lia|lia|]. intros j de Hj. lia.
Qed.

Lemma dirlink_find_ok V dp i fuel : forall s k, dir_view s V dp i -> (k <= length (entries V i))%nat -> (length (entries V i) - k < fuel)%nat ->
  none_before free_entry (entries V i) k ->
  exists x, d_ok x V /\ dirlink_find dev_read fuel dp (16 * Z.of_nat k) s = Ok (16 * Z.of_nat (free_slot (entries V i))) (set_d x s).
Proof.
  induction fuel as [|fuel IH]; intros s k Hv Hk Hf Hb; [lia|]. pose proof Hv as [H Hh Ei D]. pose proof (length_entries V i D) as Hl.
  cbn [dirlink_find]. mstep (get_inode_ok s dp i Ei). unfold free_slot. destruct (decide (k < length (entries V i))%nat) as [Hlt|].
  2:{ replace k with (length (entries V i)) in * by lia. destruct (Z.ltb_spec (16 * Z.of_nat (length (entries V i))) (i_size i)); [lia|].
      exists (fs_d s). split; [done|]. rewrite none_before_all by done. by rewrite set_d_id. }
  destruct (next_off V i k D Hlt) as (H1 & _ & H2). rewrite (proj2 (Z.ltb_lt _ _) H1).
  destruct (read_entry s V dp i k Hv Hlt) as (x & E & Hx). mstep E. change (negb (DIRENT =? DIRENT)) with false. cbv iota.
  pose proof (lookup_entries V i k D Hlt) as Ek. set (de := dent (contents V i) k) in *. rewrite H2.
  destruct (Z.eqb_spec (de_inum de) 0) as [E0|E0].
  - exists x. split; [done|]. by rewrite (none_before_find _ _ k de).
  - destruct (IH (set_d x s) (k + 1)%nat) as (y & Hy & Ey); [by apply dir_view_d|lia|lia|by eapply none_before_next|]. exists y. by split.
Qed.

(** ** Adding an entry *)

(** [iput] of an inode that stays linked, or that this process has not read. *)
Lemma iput_ok s ip n : ic_lock s = false -> ic_inode s !! ip = Some n -> i_lock n = sl_free -> i_valid n && (i_nlink n =? 0) = false ->
  iput ip s = Ok tt (set_inodes (<[ip := set_iref (s32 (i_ref n - 1)) n]> (ic_inode s)) s).
Proof.
  intros El En Hl Hv. assert (ip < length (ic_inode s))%nat as Hlen by (by eapply lookup_lt_Some).
  destruct s as [d sb0 il l me cw]. cbn in El, En, Hlen. subst il.
  unfold iput. rewrite bind_gets. cbn [mypid].
  mstep (on_ilock_ok (Fsys d sb0 false l me cw) ip n (acquiresleep me) tt (sl_mine me) En ltac:(rewrite Hl; apply acquiresleep_ok)).
  unfold set_inodes. cbn [fs_d sb ic_lock ic_inode mypid cwd]. set (n1 := set_ilock (sl_mine me) n).
  assert (<[ip := n1]> l !! ip = Some n1) as E1 by (by apply list_lookup_insert_eq).
  mstep (get_inode_ok (Fsys d sb0 false (<[ip:=n1]> l) me cw) ip n1 E1). change (i_valid n1 && (i_nlink n1 =? 0)) with (i_valid n && (i_nlink n =? 0)).
  rewrite Hv. cbn [when]. rewrite bind_ret.
  mstep (on_ilock_ok (Fsys d sb0 false (<[ip:=n1]> l) me cw) ip n1 releasesleep tt sl_free E1 eq_refl).
  unfold set_inodes. cbn [fs_d sb ic_lock ic_inode mypid cwd]. rewrite list_insert_insert_eq.
  assert (set_ilock sl_free n1 = n) as -> by (unfold n1, set_ilock; destruct n; cbn in *; by subst).
  rewrite (list_insert_id l ip n En). mstep (acquire_icache_ok (Fsys d sb0 false l me cw) eq_refl).
  mstep (upd_inode_ok (set_iclock true (Fsys d sb0 false l me cw)) ip n _ En). by rewrite release_icache_ok.
Qed.
(** [iput] of an inode whose lock someone holds waits for it. *)
Lemma iput_held s ip n : ic_inode s !! ip = Some n -> sl_locked (i_lock n) = true -> sl_lk (i_lock n) = false -> iput ip s = Hang.
Proof. intros En H1 H2. unfold iput. rewrite bind_gets. apply bind_Hang. unfold on_ilock. by rewrite En, acquiresleep_held. Qed.

Context (dev_write : Z -> option (nat -> list Z -> Z -> M (fsys (S := S)) Z)).

Definition link_state s x (l : list inode) (ip : nat) (n : inode) : fsys :=
  set_inodes (<[ip := set_iref (s32 (i_ref n - 1)) n]> l) (set_d x s).

Lemma dirlink_present s V dp i name inum j de ip l n : dir_view s V dp i -> ic_lock s = false -> length (ic_inode s) = NINODE ->
  list_find (entry_for name) (entries V i) = Some (j, de) -> iget_result 1 (de_inum de) (ic_inode s) = Some (ip, l) -> l !! ip = Some n ->
  (i_lock n = sl_free -> i_valid n && (i_nlink n =? 0) = false ->
    exists x, d_ok x V /\ dirlink dev_read dev_write dp name inum s = Ok (-1) (link_state s x l ip n)) /\
  (sl_locked (i_lock n) = true -> sl_lk (i_lock n) = false -> dirlink dev_read dev_write dp name inum s = Hang).
Proof.
  intros Hv El Hlen F G En. destruct (dirlookup_ok s V dp i name Hv) as (x & Hx & E). rewrite F in E.
  assert (dirlookup dev_read dp name s = Ok (Some (ip, 16 * Z.of_nat j)) (set_inodes l (set_d x s))) as E'.
  { rewrite E. erewrite bind_Ok; [|rewrite iget_ok by done; cbn [ic_inode set_d]; by rewrite G]. done. }
  unfold dirlink. split; intros H1 H2; mstep E'.
  - exists x. split; [done|]. mstep (iput_ok (set_inodes l (set_d x s)) ip n El En H1 H2). done.
  - apply bind_Hang. by apply (iput_held _ ip n).
Qed.

Lemma nblocks_entry k : nblocks (16 * Z.of_nat k) DIRENT = 1.
Proof. unfold nblocks, DIRENT, BSIZE. change (16 <=? 0) with false. cbv iota. Z.div_mod_to_equations. lia. Qed.

Lemma is_dir_written V i src off n V' i' : is_dir V i -> written b V i src off n V' i' -> off `mod` 16 = 0 -> n `mod` 16 = 0 ->
  0 <= off + n <= MAXFILE * BSIZE -> is_dir V' i'.
Proof.
  intros D W Ho Hn Hm. destruct (wn_inode _ _ _ _ _ _ _ _ W) as (l & sz & Ei). pose proof (wn_size _ _ _ _ _ _ _ _ W) as Hsz.
  destruct (dr_size _ _ D) as [Hs Hs16].
  split; [rewrite Ei; apply D|rewrite Ei; apply D|rewrite Ei; apply D| |apply W|apply W].
  rewrite Hsz. split; [lia|]. destruct (Z.max_spec (i_size i) (off + n)) as [[_ ->]|[_ ->]]; [|done]. by rewrite Z.add_mod, Ho, Hn.
Qed.

(** What [dirlink] of a new name makes of a directory. *)
Record linked V i (name : list Z) (inum : Z) V' i' : Prop := {
  lk_dir : is_dir V' i';
  lk_held : j_held V' = ∅;
  lk_len : j_len V' = j_len V;
  lk_meta : meta_used b V';
  lk_map : forall n, dir_lookup (entries V' i') n = if decide (name_of n = name_of name) then Some inum else dir_lookup (entries V i) n;
  lk_keeps : keeps b V V' (fun m => own V' i' m \/ m = IBLOCK (i_inum i) b)
}.

Lemma linked_written V i name inum V' i' : is_dir V i -> dir_lookup (entries V i) name = None -> 0 < inum < 2 ^ 16 -> Forall byte name ->
  let off := 16 * Z.of_nat (free_slot (entries V i)) in off + 16 <= MAXFILE * BSIZE ->
  written b V i (new_entry name inum) off DIRENT V' i' -> linked V i name inum V' i'.
Proof.
  intros D Hnone Hi Hb off Hmax W. destruct (new_entry_ok name inum Hi Hb) as (N1 & N2 & N3 & N4).
  pose proof (length_entries V i D) as Hle. destruct (free_slot_ok (entries V i)) as (F1 & F2 & _).
  split; [eapply is_dir_written; try done; unfold off, DIRENT; [rewrite Z.mul_comm; apply Z_mod_mult|lia]|apply W|apply W|apply W| |apply W].
  assert (length (contents V i) `mod` 16 = 0)%nat as Hm16.
  { apply Nat2Z.inj. rewrite Nat2Z.inj_mod, length_contents by (apply D). apply D. }
  assert (free_slot (entries V i) <= length (contents V i) / 16)%nat as Hk by (by rewrite <- length_dents).
  destruct (dents_write (contents V i) (free_slot (entries V i)) (new_entry name inum) N1 Hm16 Hk) as [_ HD].
  assert (entries V' i' = dents (take (16 * free_slot (entries V i)) (contents V i) ++ new_entry name inum ++
    drop (16 * free_slot (entries V i) + 16) (contents V i))) as Ee.
  { unfold entries at 1. rewrite (wn_contents _ _ _ _ _ _ _ _ W). unfold off, DIRENT.
    rewrite (take_ge (new_entry name inum)) by (rewrite N1; done).
    replace (Z.to_nat (16 * Z.of_nat (free_slot (entries V i)))) with (16 * free_slot (entries V i))%nat by lia.
    by replace (Z.to_nat (16 * Z.of_nat (free_slot (entries V i)) + 16)) with (16 * free_slot (entries V i) + 16)%nat by lia. }
  rewrite <- Ee in HD. eapply dir_lookup_write; [done|exact N3|lia|exact N4|exact F2|exact HD].
Qed.

Lemma dirlink_absent s V dp i name inum : dir_view s V dp i -> sb s = b -> layout b (j_len V) -> j_len V < BPB -> meta_used b V ->
  dir_lookup (entries V i) name = None -> 0 < inum < 2 ^ 16 -> Forall byte name -> (4 <= j_credit V)%nat ->
  let off := 16 * Z.of_nat (free_slot (entries V i)) in
  if decide (MAXFILE * BSIZE < off + 16) then dirlink dev_read dev_write dp name inum s = Panic "dirlink" else
  dirlink dev_read dev_write dp name inum s = Panic "balloc: out of blocks" \/
  exists x V' i', dirlink dev_read dev_write dp name inum s = Ok 0 (at_inode s dp x i') /\ d_ok x V' /\ linked V i name inum V' i'.
Proof.
  intros Hv Hsb L HB Hmeta Hnone Hi Hb Hc off. pose proof Hv as [H Hh Ei D].
  destruct (dirlookup_ok s V dp i name Hv) as (x & Hx & E).
  assert (list_find (entry_for name) (entries V i) = None) as F.
  { unfold dir_lookup in Hnone. by destruct (list_find (entry_for name) (entries V i)). }
  rewrite F in E. unfold mret at 1, M_ret at 1 in E. pose proof (dir_view_d _ _ _ _ x Hv Hx) as Hvx.
  destruct (new_entry_ok name inum Hi Hb) as (N1 & N2 & _ & _). pose proof maxfile_small.
  pose proof (length_entries V i D) as Hle. destruct (free_slot_ok (entries V i)) as (F1 & _ & _). pose proof (dr_size _ _ D) as [Hs _].
  destruct (dirlink_find_ok V dp i (Datatypes.S (Z.to_nat (i_size i))) (set_d x s) 0 Hvx) as (y & Hy & Ey); [lia|lia|intros j de Hj; lia|].
  pose proof (dir_view_d _ _ _ _ y Hv Hy) as Hvy. fold off in Ey.
  pose proof (writei_ok b Hlow dev_write (set_d y s) V dp i (new_entry name inum) off DIRENT Hy Hsb Hh L HB Hmeta Ei (dr_dev _ _ D)) as Wr.
  unfold DIRENT in *. specialize (Wr ltac:(rewrite (dr_type _ _ D); discriminate) ltac:(apply D) ltac:(apply D) ltac:(apply D) ltac:(apply D)).
  specialize (Wr ltac:(unfold is_u32; lia) ltac:(done) ltac:(rewrite N1; done) N2).
  pose proof (nblocks_entry (free_slot (entries V i))) as Hnb. fold off in Hnb. unfold DIRENT in Hnb.
  specialize (Wr ltac:(lia)).
  destruct (decide (MAXFILE * BSIZE < off + 16)) as [Hbig|Hfit].
  - rewrite decide_True in Wr by lia. unfold dirlink. mstep E. cbv beta iota. mstep (get_inode_ok (set_d x s) dp i Ei). mstep Ey. by mstep Wr.
  - rewrite decide_False in Wr by lia.
    destruct Wr as [Wp|(z & V' & i' & Ew & Hz & W)]; [left|right; exists z, V', i'; split; [|split; [done|by apply linked_written; [..|lia|]]]];
      unfold dirlink; mstep E; cbv beta iota; mstep (get_inode_ok (set_d x s) dp i Ei); mstep Ey; [by apply bind_Panic|by mstep Ew].
Qed.

(** ** The inode that [iget] returns *)

Definition refs_ok (l : list inode) : Prop := Forall (fun n => 0 <= i_ref n < 2 ^ 31 - 1) l.

Lemma iget_result_Some dev inum l ip l' : refs_ok l -> iget_result dev inum l = Some (ip, l') ->
  exists n, l' !! ip = Some n /\ is_cached dev inum n /\ (forall n0, l !! ip = Some n0 -> i_lock n = i_lock n0) /\
    forall j, j <> ip -> l' !! j = l !! j.
Proof.
  intros Hr. unfold iget_result, cached, vacant. destruct (list_find (is_cached dev inum) l) as [[k n]|] eqn:F; cbn.
  - apply list_find_Some in F as (En & (H1 & H2 & H3) & _). rewrite En. cbn. intros [= <- <-].
    pose proof (Forall_lookup_1 _ _ _ _ Hr En) as Hb. cbn in Hb. eexists. split; [apply list_lookup_insert_eq; by eapply lookup_lt_Some|].
    split; [split; [cbn; unfold s32; rewrite Z.mod_small by lia; lia|done]|]. split; [intros n0 E0; rewrite En in E0; by injection E0 as <-|]. intros j Hj. by apply list_lookup_insert_ne.
  - destruct (list_find (fun n => i_ref n = 0) l) as [[k n]|] eqn:G; [|done]. apply list_find_Some in G as (En & _). cbn. rewrite En. cbn.
    intros [= <- <-]. eexists. split; [apply list_lookup_insert_eq; by eapply lookup_lt_Some|]. split; [by split|].
    split; [intros n0 E0; rewrite En in E0; by injection E0 as <-|]. intros j Hj. by apply list_lookup_insert_ne.
Qed.
Lemma iget_result_None dev inum l : iget_result dev inum l = None -> Forall (fun n => i_ref n <> 0 /\ ~ is_cached dev inum n) l.
Proof.
  unfold iget_result, cached, vacant. destruct (list_find (is_cached dev inum) l) as [[k n]|] eqn:F; cbn.
  { apply list_find_Some in F as (En & _). by rewrite En. }
  destruct (list_find (fun n => i_ref n = 0) l) as [[k n]|] eqn:G; cbn.
  { apply list_find_Some in G as (En & _). by rewrite En. }
  intros _. apply list_find_None in F, G. rewrite Forall_lookup in F, G. apply Forall_lookup. intros j n En. split; [by apply (G j)|by apply (F j)].
Qed.
End dir.

(** C14. Directories are finite maps. For a locked directory [dp] on a disk with one bitmap
    block, inside a transaction with four log blocks left: if no entry has the name,
    [dirlookup] finds nothing and changes nothing, and [dirlink] panics when the
    directory is full or no block is left, and otherwise returns 0 and leaves a
    directory in which the name is bound to [inum] and every other name is bound as
    before, and in which no used block but its own and its inode's has changed. If the
    name is bound to [m], [dirlookup] returns a reference to inode [m], counted in the
    cache, unless all of the cache is in use by others, and [dirlink] returns -1 and
    gives the reference back when nobody has locked that inode and it still has links; but when [m] is the directory itself, as with its own
    entry ".", [iput] waits for the lock that the process holds, for ever. *)
Theorem directory_entries {S} `{Journal S} dev_read dev_write (s : fsys (S := S)) (V : jview) (dp : nat) (i : inode) (name : list Z) (inum : Z) :
  let b := sb s in
  dir_view b s V dp i -> ic_lock s = false -> length (ic_inode s) = NINODE -> refs_ok (ic_inode s) ->
  layout b (j_len V) -> d_low <= sb_inodestart b -> j_len V < BPB -> meta_used b V -> 0 < inum < 2 ^ 16 -> Forall byte name -> (4 <= j_credit V)%nat ->
  match dir_lookup (entries V i) name with
  | None =>
    (exists x, dirlookup dev_read dp name s = Ok None (set_d x s) /\ d_ok x V) /\
    let off := 16 * Z.of_nat (free_slot (entries V i)) in
    if decide (MAXFILE * BSIZE < off + 16) then dirlink dev_read dev_write dp name inum s = Panic "dirlink" else
    dirlink dev_read dev_write dp name inum s = Panic "balloc: out of blocks" \/
    exists x V' i', dirlink dev_read dev_write dp name inum s = Ok 0 (at_inode s dp x i') /\ d_ok x V' /\ linked b V i name inum V' i'
  | Some m => exists j de, entries V i !! j = Some de /\ entry_for name de /\ de_inum de = m /\
    match iget_result 1 m (ic_inode s) with
    | None => dirlookup dev_read dp name s = Panic "iget: no inodes" /\ Forall (fun n => i_ref n <> 0 /\ ~ is_cached 1 m n) (ic_inode s)
    | Some (ip, l) => exists n, l !! ip = Some n /\ is_cached 1 m n /\ (forall k, k <> ip -> l !! k = ic_inode s !! k) /\
      (exists x, dirlookup dev_read dp name s = Ok (Some (ip, 16 * Z.of_nat j)) (set_inodes l (set_d x s)) /\ d_ok x V) /\
      (i_lock n = sl_free -> i_valid n && (i_nlink n =? 0) = false ->
        exists x, dirlink dev_read dev_write dp name inum s = Ok (-1) (link_state s x l ip n) /\ d_ok x V) /\
      (ip = dp -> i_lock i = sl_mine (mypid s) -> dirlink dev_read dev_write dp name inum s = Hang)
    end
  end.
Proof.
  intros b Hv El Hlen Hr L Hlow HB Hm Hi Hb Hc. destruct (dirlookup_ok b dev_read s V dp i name Hv) as (x & Hx & E).
  destruct (dir_lookup (entries V i) name) as [m|] eqn:Ed.
  - unfold dir_lookup in Ed. destruct (list_find (entry_for name) (entries V i)) as [[j de]|] eqn:F; [|done]. injection Ed as Em. cbn in Em.
    pose proof F as (Ej & He & _)%list_find_Some. exists j, de. split; [done|]. split; [done|]. split; [done|]. rewrite Em in E.
    destruct (iget_result 1 m (ic_inode s)) as [[ip l]|] eqn:G.
    + destruct (iget_result_Some _ _ _ _ _ Hr G) as (n & En & Hcd & Hlk & Hrest). exists n. split; [done|]. split; [done|]. split; [done|].
      rewrite <- Em in G. destruct (dirlink_present b dev_read dev_write s V dp i name inum j de ip l n Hv El Hlen F G En) as [P1 P2]. split_and!.
      * exists x. split; [|done]. rewrite E. rewrite Em in G. erewrite bind_Ok; [|rewrite iget_ok by done; cbn [ic_inode set_d]; by rewrite G]. done.
      * intros H1 H2. destruct (P1 H1 H2) as (y & Hy & Ey). by exists y.
      * intros -> Hmine. rewrite (Hlk i (dv_inode _ _ _ _ _ Hv)), Hmine in P2. by apply P2.
    + split; [|by apply iget_result_None]. rewrite E. apply bind_Panic. rewrite iget_ok by done. cbn [ic_inode set_d]. by rewrite G.
  - split; [|by apply dirlink_absent]. exists x. split; [|done]. rewrite E. unfold dir_lookup in Ed. by destruct (list_find _ _).
Qed.
