(* ===== verification/FsAtomic.v ===== *)
(** * A write to a file is a transaction

    [writei_spec] describes [writei] inside a transaction, [end_op_ok] the transaction as
    a whole. Together: begin_op, writei, end_op change the file on disk all at once, and
    a crash at any point leaves, after recovery, the old file or the new one. *)

From S2P Require Import Prelude Sleeplock Cache Log Journal LogJournal Fs FsAlloc FsFile FsWrite FsInode.

(** ** Views that agree above the log *)

Record agree (b : superblock) (V W : jview) : Prop := {
  ag_len : j_len W = j_len V;
  ag_at : forall m, sb_inodestart b <= m < j_len V -> j_at W m = j_at V m
}.

Section agree.
Context (b : superblock) (V W : jview) (A : agree b V W) (L : layout b (j_len V)).

Lemma agree_used m : 0 <= m < j_len V -> used b W m = used b V m.
Proof.
  intros Hm. unfold used. destruct (bblock_range b _ m L Hm) as (_ & H1 & H2). rewrite (ag_at _ _ _ A); [done|].
  destruct (ly_inodes _ _ L) as (_ & ? & ?). assert (0 <= sb_ninodes b / IPB) by (by apply Z.div_pos). lia.
Qed.
Lemma agree_meta : meta_used b V -> meta_used b W.
Proof. intros H m Hm. pose proof (datastart_in b _ L). rewrite agree_used by lia. by apply H. Qed.

Context (i : inode) (Hw : wf b V i).

Lemma agree_at m : datastart b <= m < j_len V -> j_at W m = j_at V m.
Proof. intros Hm. apply (ag_at _ _ _ A). pose proof (datastart_low _ _ L). lia. Qed.
Lemma agree_slot j : 0 <= j <= MAXFILE -> slot W i j = slot V i j.
Proof. intros Hj. apply slot_keep; [done|]. intros Hne. by apply agree_at, (wf_ind _ _ _ Hw). Qed.
Lemma agree_wf : wf b W i.
Proof.
  destruct Hw as [H1 H2 H3]. pose proof (datastart_pos b _ L). split; [done| |].
  - intros j Hj. rewrite agree_slot by done. intros Hne. destruct (H2 j Hj Hne) as [Hr Hu].
    rewrite (ag_len _ _ _ A), agree_used by lia. done.
  - intros j k Hj Hk. rewrite !agree_slot by done. by apply H3.
Qed.
Lemma agree_mapped upto : upto <= MAXFILE * BSIZE -> mapped V i upto -> mapped W i upto.
Proof.
  intros Hmax [H1 H2 H3]. split; [done| |].
  - intros bn Hb Hlt. assert (bn < MAXFILE) by (unfold BSIZE in *; lia). rewrite <- slot_fblock, agree_slot, slot_fblock, (ag_len _ _ _ A) by lia. by apply H2.
  - rewrite (ag_len _ _ _ A). exact H3.
Qed.
Lemma agree_byte k : mapped V i (i_size i) -> i_size i <= MAXFILE * BSIZE -> 0 <= k < i_size i -> fbyte W i k = fbyte V i k.
Proof.
  intros M Hmax Hk. unfold fbyte.
  assert (0 <= k / BSIZE < MAXFILE /\ k / BSIZE * BSIZE < i_size i) as [Hb Hb2] by (unfold BSIZE in *; clear -Hk Hmax; Z.div_mod_to_equations; lia).
  rewrite <- !slot_fblock, agree_slot, slot_fblock by lia. f_equal. apply agree_at.
  destruct (mp_blocks _ _ _ M (k / BSIZE) ltac:(lia) Hb2) as [Hne _]. rewrite <- slot_fblock in * by lia. apply (wf_slots _ _ _ Hw); [lia|done].
Qed.
Lemma agree_contents : mapped V i (i_size i) -> i_size i <= MAXFILE * BSIZE -> contents W i = contents V i.
Proof. intros M Hmax. apply map_seqZ_ext. intros k Hk. apply agree_byte; [done|done|lia]. Qed.
Lemma agree_disk_inode j : 0 <= i_inum j < sb_ninodes b -> disk_inode b W j = disk_inode b V j.
Proof.
  intros Hj. unfold disk_inode. rewrite (ag_at _ _ _ A); [done|].
  pose proof (iblock_low b _ _ L Hj). pose proof (iblock_range b _ _ L Hj). lia.
Qed.
End agree.

(** The disk holds the file [i] with the bytes [c], and the cache agrees with it. *)
Record file_on (b : superblock) (V : jview) (i : inode) (c : list Z) : Prop := {
  on_stored : stored b V i;
  on_wf : wf b V i;
  on_mapped : mapped V i (i_size i);
  on_contents : contents V i = c
}.

Lemma file_on_agree b V W i c : agree b V W -> layout b (j_len V) -> 0 <= i_inum i < sb_ninodes b -> i_size i <= MAXFILE * BSIZE ->
  file_on b V i c -> file_on b W i c.
Proof.
  intros A L Hin Hmax [H1 H2 H3 H4]. split.
  - unfold stored. by rewrite (agree_disk_inode b V W A L).
  - by apply (agree_wf b V W A L).
  - by apply (agree_mapped b V W A L).
  - by rewrite (agree_contents b V W A L).
Qed.

Lemma wf_fields b V i : wf b V i -> j_len V < 2 ^ 32 -> layout b (j_len V) -> Forall is_u32 (i_addrs i).
Proof.
  intros W Hl L. pose proof (datastart_pos b _ L). apply Forall_lookup. intros k a Hk.
  pose proof (lookup_lt_Some _ _ _ Hk) as Hlt. rewrite (wf_len _ _ _ W) in Hlt.
  assert (addr i k = a) as Ea by (unfold addr; by rewrite Hk).
  assert (exists j, 0 <= j <= MAXFILE /\ slot V i j = a) as (j & Hj & Es).
  { destruct (decide (k = NDIRECT)) as [->|]; [exists MAXFILE; by rewrite slot_indirect|].
    exists (Z.of_nat k). rewrite slot_direct, Nat2Z.id by lia. split; [|done]. unfold MAXFILE, NDIRECT, NINDIRECT in *. lia. }
  destruct (decide (a = 0)) as [->|Hne]; [by split|].
  destruct (wf_slots _ _ _ W j Hj) as [Hr _]; [by rewrite Es|]. rewrite Es in Hr. unfold is_u32. lia.
Qed.

(** [writei] leaves the disk inode up to date. *)
Lemma written_stored b V i src off n V' i' : layout b (j_len V) -> j_len V < BPB -> (forall m, 0 <= m < j_len V -> block_ok (j_at V m)) ->
  0 <= i_inum i < sb_ninodes b -> 0 <= i_size i -> 0 <= off + n <= MAXFILE * BSIZE -> i_size i <= MAXFILE * BSIZE ->
  written b V i src off n V' i' -> stored b V i -> stored b V' i'.
Proof.
  intros L HB Hbl Hin Hz Hn Hmax W Hs. destruct (wn_inode _ _ _ _ _ _ _ _ W) as (l & sz & Ei). pose proof (wn_stored _ _ _ _ _ _ _ _ W) as E. cbv zeta in E.
  destruct (iblock_range b (i_inum i) _ L Hin) as (A1 & A2 & A3 & A4). destruct (Hbl (IBLOCK (i_inum i) b) ltac:(lia)) as [Hl Hb].
  pose proof maxfile_small. assert (i_inum i' = i_inum i) as Hi' by (by rewrite Ei).
  destruct (i_size i <? off + n).
  2:{ destruct E as [-> E]. unfold stored, disk_inode. by rewrite E. }
  pose proof (stored_fields b V i ltac:(split; done) Hs) as [F1 F2 F3 F4 _ _ _].
  assert (fields_ok i') as Hf.
  { split; try (by rewrite Ei); [|apply (wn_wf _ _ _ _ _ _ _ _ W)|].
    - rewrite (wn_size _ _ _ _ _ _ _ _ W). unfold is_u32. lia.
    - pose proof (wn_len _ _ _ _ _ _ _ _ W) as Hl'. apply (wf_fields b V'); [apply W|rewrite Hl'; unfold BPB, BSIZE in HB; lia|by rewrite Hl']. }
  unfold stored, disk_inode. rewrite Hi', E.
  rewrite load_dinode_splice; [by apply with_fields_self|done|done|unfold DINODE; lia].
Qed.

(** The blocks of another file. *)
Lemma written_keeps b V i src off n V' i' j k : layout b (j_len V) -> 0 <= i_inum i < sb_ninodes b -> wf b V j ->
  written b V i src off n V' i' -> (forall m, own V i m -> ~ own V j m) -> 0 <= k <= MAXFILE -> slot V j k <> 0 -> j_at V' (slot V j k) = j_at V (slot V j k).
Proof.
  intros L Hin H2 W Hdis Hk Hne0. destruct (datastart_in b _ L) as (D1 & D2 & D3). pose proof (datastart_pos b _ L).
  destruct (iblock_range b (i_inum i) _ L Hin) as (A1 & _).
  destruct (wf_slots _ _ _ H2 k Hk Hne0) as [Hr Hu]. apply (wn_keeps _ _ _ _ _ _ _ _ W); [lia|right; split; [lia|done]|].
  intros [(_ & k' & Hk' & Es)|Es]; [|lia]. destruct (decide (slot V' i' k' = slot V i k')) as [Esl|Nsl].
  - apply (Hdis (slot V j k)); (split; [done|]); [exists k'; split; [done|congruence]|by exists k].
  - apply (wn_fresh _ _ _ _ _ _ _ _ W k' Hk') in Nsl. congruence.
Qed.
Lemma written_slots b V i src off n V' i' j k : layout b (j_len V) -> 0 <= i_inum i < sb_ninodes b -> wf b V j ->
  written b V i src off n V' i' -> (forall m, own V i m -> ~ own V j m) -> 0 <= k <= MAXFILE -> slot V' j k = slot V j k.
Proof.
  intros L Hin H2 W Hdis Hk. apply slot_keep; [done|]. intros Hne0.
  by apply (written_keeps b V i src off n V' i' j MAXFILE); [..|by unfold MAXFILE|by rewrite slot_indirect].
Qed.

(** A write leaves every other file on the disk alone. *)
Lemma written_other b V i src off n V' i' j c : layout b (j_len V) -> j_len V < BPB -> (forall m, 0 <= m < j_len V -> block_ok (j_at V m)) ->
  0 <= i_inum i < sb_ninodes b -> 0 <= i_inum j < sb_ninodes b -> i_inum j <> i_inum i -> length (i_addrs i) = Datatypes.S NDIRECT ->
  written b V i src off n V' i' -> (forall m, own V i m -> ~ own V j m) -> i_size j <= MAXFILE * BSIZE -> file_on b V j c -> file_on b V' j c.
Proof.
  intros L HB Hbl Hin Hjn Hne Hlen W Hdis Hmax [H1 H2 H3 H4]. pose proof (wn_len _ _ _ _ _ _ _ _ W) as Hl.
  pose proof (datastart_pos b _ L) as Hds. destruct (datastart_in b _ L) as (D1 & D2 & D3).
  destruct (wn_inode _ _ _ _ _ _ _ _ W) as (l & sz & Ei). assert (i_inum i' = i_inum i) as Hi' by (by rewrite Ei).
  destruct (iblock_range b (i_inum i) _ L Hin) as (A1 & A2 & A3 & A4).
  assert (forall k, 0 <= k <= MAXFILE -> slot V j k <> 0 -> j_at V' (slot V j k) = j_at V (slot V j k)) as Hkeep.
  { intros k Hk Hne0. by apply (written_keeps b V i src off n V' i' j). }
  assert (forall k, 0 <= k <= MAXFILE -> slot V' j k = slot V j k) as Hsl by (intros k Hk; by apply (written_slots b V i src off n V' i' j)).
  split.
  - transitivity (disk_inode b V j); [|exact H1]. unfold disk_inode. destruct (iblock_range b (i_inum j) _ L Hjn) as (B1 & B2 & B3 & B4).
    pose proof (wn_stored _ _ _ _ _ _ _ _ W) as Hst. cbv zeta in Hst.
    destruct (decide (IBLOCK (i_inum j) b = IBLOCK (i_inum i) b)) as [Eb|Nb].
    + rewrite Eb. destruct (Hbl (IBLOCK (i_inum i) b) ltac:(lia)) as [Hbz _]. destruct (i_size i <? off + n); [|by destruct Hst as [_ ->]].
      rewrite Hst. rewrite load_dinode_other; [done|apply (wf_len _ _ _ (wn_wf _ _ _ _ _ _ _ _ W))|done|unfold DINODE; lia|done|].
      by apply (iblock_same b V).
    + rewrite (wn_keeps _ _ _ _ _ _ _ _ W); [done|lia|left; lia|]. intros [(Hm0 & k' & Hk' & Es)|Es]; [|done].
      destruct (wf_slots _ _ _ (wn_wf _ _ _ _ _ _ _ _ W) k' Hk') as [Hr _]; [by rewrite Es|]. lia.
  - split; [apply H2| |].
    + intros k Hk. rewrite Hsl by done. intros Hne0. destruct (wf_slots _ _ _ H2 k Hk Hne0) as [Hr Hu]. rewrite Hl. split; [done|].
      apply (wn_used _ _ _ _ _ _ _ _ W); [lia|done].
    + intros k1 k2 Hk1 Hk2. rewrite !Hsl by done. by apply H2.
  - destruct H3 as [M1 M2 M3]. split; [done| |by rewrite Hl]. intros bn Hb Hlt. assert (bn < MAXFILE) by (unfold BSIZE in *; lia).
    rewrite <- slot_fblock, Hsl, slot_fblock, Hl by lia. by apply M2.
  - rewrite <- H4. apply map_seqZ_ext. intros k Hk. unfold fbyte.
    assert (0 <= k / BSIZE < MAXFILE /\ k / BSIZE * BSIZE < i_size j) as [Hb Hb2] by (unfold BSIZE in *; clear -Hk Hmax; Z.div_mod_to_equations; lia).
    destruct (mp_blocks _ _ _ H3 (k / BSIZE) ltac:(lia) Hb2) as [Hnz _]. rewrite <- !slot_fblock, Hsl by lia. rewrite <- slot_fblock in Hnz by lia.
    by rewrite Hkeep by (done || lia).
Qed.

(** Who holds the lock of an inode makes no difference to its file. *)
Lemma wf_lock b V i l : wf b V i -> wf b V (set_ilock l i).
Proof. intros []. by split. Qed.
Lemma mapped_lock V i l upto : mapped V i upto -> mapped V (set_ilock l i) upto.
Proof. intros []. by split. Qed.
Lemma written_lock b V i l src off n W i' : written b V (set_ilock l i) src off n W i' -> written b V i src off n W (set_ilock (i_lock i) i').
Proof.
  intros [(al & sz & Ei) H1 H2 H3 H4 H5 H6 H7 H8 H9 H10 H11]. split; try done.
  - exists al, sz. rewrite Ei. by destruct i.
  - by apply wf_lock.
  - by apply mapped_lock.
  - cbv zeta in *. change (i_size (set_ilock l i)) with (i_size i) in H11. destruct (i_size i <? off + n); [exact H11|].
    destruct H11 as [-> H11]. split; [by destruct i|exact H11].
Qed.

(** ** The transaction *)

Section atomic.
Context {S : Type} `{C : BlockCache S}.
Context (lstart lsize : Z).
Implicit Types s : fsys (S := lst S).
Context (dev_write : Z -> option (nat -> list Z -> Z -> M (fsys (S := lst S)) Z)).

(** A file as the disk [D] holds it. *)
Definition disk_view (D : list block) : jview := JView D ∅ ∅ (Z.to_nat MAXOPBLOCKS).

(** The loop body of [filewrite] at offset [off], but for the file structure. *)
Definition write_op (ip : nat) (src : list Z) (off n : Z) : M (fsys (S := lst S)) Z :=
  dop begin_op;;
  ilock ip;;
  r ← writei dev_write ip src off n;
  iunlock ip;;
  dop end_op;;
  mret r.

Lemma dop_ok {A} s (m : M (lst S) A) a x : m (fs_d s) = Ok a x -> dop m s = Ok a (set_d x s).
Proof. intros E. unfold dop. by erewrite zoom_Ok. Qed.

Lemma committed_agree b D W ws : committed lstart lsize D W ws -> 0 <= lstart -> lstart + lsize <= sb_inodestart b -> 0 <= sb_inodestart b -> j_len W = disk_len D ->
  agree b W (disk_view (apply_writes D ws)).
Proof.
  intros Hc Hs Hlow H0 Hl. split; [unfold j_len; cbn; by rewrite aw_len|]. intros m Hm. unfold j_at. cbn.
  rewrite (cm_done _ _ _ _ _ Hc); [done|]. split; [lia|]. lia.
Qed.


(** The file system between operations: the disk [v_disk V] is all there is. *)
Record fs_idle s (V : bview) : Prop := {
  fi_log : log_idle lstart lsize (fs_d s) V;
  fi_layout : layout (sb s) (j_len (disk_view (v_disk V)));
  fi_low : lstart + lsize <= sb_inodestart (sb s);
  fi_len : j_len (disk_view (v_disk V)) < BPB;
  fi_meta : meta_used (sb s) (disk_view (v_disk V))
}.

Lemma fs_idle_start s V : fs_idle s V -> 0 <= lstart.
Proof.
  intros F. pose proof (fi_log _ _ F) as Hid. destruct (li_log _ _ _ _ Hid) as [_ _ _ [P _] _ _ _ _ _ _ _ _].
  by pose proof (li_place _ _ _ _ Hid) as [<- _].
Qed.
Lemma fs_idle_blocks s V m : fs_idle s V -> 0 <= m < j_len (disk_view (v_disk V)) -> block_ok (j_at (disk_view (v_disk V)) m).
Proof.
  intros F Hm. destruct (begin_op_ok lstart lsize _ _ (fi_log _ _ F)) as [_ Hb].
  by apply (block_at_ok (J := log_journal lstart lsize V) (set_d (set_outstanding 1 (fs_d s)) s) (opened_view V)).
Qed.

(** A file in the cache, up to date with the disk and within the limits. *)
Record file_cached s (V : jview) (ip : nat) (i : inode) : Prop := {
  fc_at : ic_inode s !! ip = Some i;
  fc_dev : i_dev i = 1;
  fc_type : i_type i <> T_DEV;
  fc_inum : 0 <= i_inum i < sb_ninodes (sb s);
  fc_size : 0 <= i_size i <= MAXFILE * BSIZE;
  fc_free : i_lock i = sl_free /\ i_valid i = true /\ 0 < i_ref i;
  fc_on : file_on (sb s) V i (contents V i)
}.

(** The effect on the disk of a transaction whose last view is [W], by the writes [ws]. *)
Record transacted s (V0 : bview) s' (V' : bview) (W : jview) (ws : list (Z * block)) : Prop := {
  td_idle : fs_idle s' V';
  td_disk : v_disk V' = apply_writes (v_disk V0) ws;
  td_writes : v_writes V' = v_writes V0 ++ ws;
  td_agree : agree (sb s) W (disk_view (v_disk V'));
  td_crash : forall k, let Dk := disk_view (recovered lstart (apply_writes (v_disk V0) (take k ws))) in
    agree (sb s) (disk_view (v_disk V0)) Dk \/ agree (sb s) W Dk
}.

(** A crash during the commit leaves the old blocks or the new ones. *)
Lemma committed_crash b D W ws k : committed lstart lsize D W ws -> 0 <= lstart -> lstart + lsize <= sb_inodestart b -> 0 <= sb_inodestart b -> j_len W = disk_len D ->
  let Dk := disk_view (recovered lstart (apply_writes D (take k ws))) in agree b (disk_view D) Dk \/ agree b W Dk.
Proof.
  intros Hc Hs Hlow H0 Hl Dk. destruct (cm_crash _ _ _ _ _ Hc k) as [_ Hk]. cbn in Hk.
  assert (j_len Dk = disk_len D) as Hlen by (unfold j_len, Dk, recovered; cbn; by rewrite !aw_len).
  destruct Hk as [Hk|Hk]; [left|right]; (split; [by rewrite Hlen, ?Hl|]); intros m Hm; unfold j_at at 1, Dk; cbn; rewrite Hk; try done; (split; [|lia]); unfold j_len in *; cbn in *; lia.
Qed.

(** [end_op] ends a transaction that kept the bitmap's word on the metadata. *)
Lemma end_op_transacted s0 s V0 W : fs_idle s0 V0 -> sb s = sb s0 -> journal_ok lstart lsize V0 (fs_d s) W -> j_held W = ∅ ->
  j_len W = disk_len (v_disk V0) -> meta_used (sb s0) W ->
  exists x V' ws, dop end_op s = Ok tt (set_d x s) /\ transacted s0 V0 (set_d x s) V' W ws.
Proof.
  intros F Hs Hj Hh Hl Hm. pose proof (fs_idle_start _ _ F) as Hs0. destruct F as [Hid L Hlow HB _].
  destruct (end_op_ok lstart lsize V0 (fs_d s) W Hj Hh) as (x & V' & ws & Ee & Hi' & Hd & Hws & Hcm); [apply Hid|apply Hid|].
  assert (0 <= sb_inodestart (sb s0)) as H0 by (pose proof (li_room _ _ _ _ Hid); unfold MAXOPBLOCKS in *; lia).
  assert (agree (sb s0) W (disk_view (v_disk V'))) as A by (rewrite Hd; by apply committed_agree).
  assert (j_len (disk_view (v_disk V')) = disk_len (v_disk V0)) as Hl' by (unfold j_len; cbn; rewrite Hd; apply aw_len).
  exists x, V', ws. split; [by apply dop_ok|]. split; [|done|done|done|].
  - split; cbn [set_d sb fs_d]; rewrite ?Hs; try done; rewrite ?Hl'; try done.
    apply (agree_meta (sb s0) W); [done|by rewrite Hl|done].
  - intros k. by apply committed_crash.
Qed.

Lemma write_op_ok s V0 ip i src off n : let b := sb s in let V := disk_view (v_disk V0) in
  fs_idle s V0 -> file_cached s V ip i -> is_u32 off -> is_u32 n ->
  n <= Z.of_nat (length src) -> Forall byte src -> 3 + nblocks off n <= MAXOPBLOCKS ->
  if decide (i_size i < off \/ MAXFILE * BSIZE < off + n)
  then exists x V' ws, write_op ip src off n s = Ok (-1) (set_d x s) /\ transacted s V0 (set_d x s) V' V ws
  else write_op ip src off n s = Panic "balloc: out of blocks" \/
    exists x V' W i' ws, write_op ip src off n s = Ok n (at_inode s ip x i') /\ transacted s V0 (at_inode s ip x i') V' W ws /\
      written b V i src off n W i'.
Proof.
  intros b V F [Ei Hdev Hty Hin Hsz (Hlk & Hval & Hrf) [Hst W M _]] Hoff Hn Hsrc Hbytes Hc. pose proof F as [Hid L Hlow HB Hm].
  destruct (begin_op_ok lstart lsize _ _ Hid) as [Eb Hb]. unfold write_op. mstep (dop_ok s begin_op tt _ Eb).
  set (s1 := set_d (set_outstanding 1 (fs_d s)) s). pose proof (lookup_lt_Some _ _ _ Ei) as Hlt.
  pose proof (ilock_ok (J := log_journal lstart lsize V0) b s1 V ip i Hb eq_refl eq_refl L Ei Hdev Hin Hrf Hlk) as Il.
  rewrite Hval in Il. cbn [negb andb] in Il. destruct Il as (x0 & El & Hx0). mstep El. set (i1 := set_ilock _ i). set (s2 := at_inode s1 ip x0 i1).
  assert (ic_inode s2 !! ip = Some i1) as E2 by (by apply list_lookup_insert_eq).
  assert (3 + nblocks off n <= Z.of_nat (j_credit V)) as Hcr by exact Hc.
  pose proof (writei_ok (J := log_journal lstart lsize V0) b Hlow dev_write s2 V ip i1 src off n Hx0 eq_refl eq_refl L HB Hm E2 Hdev Hty Hin
    (wf_lock _ _ _ _ W) (mapped_lock _ _ _ _ M) Hsz Hoff Hn Hsrc Hbytes Hcr) as Wr. change (i_size i1) with (i_size i) in Wr.
  destruct (decide (i_size i < off \/ MAXFILE * BSIZE < off + n)).
  - mstep Wr. mstep (iunlock_ok s2 ip i1 E2 eq_refl Hrf). set (s3 := at_inode s2 ip _ _).
    destruct (end_op_transacted s s3 V0 V F eq_refl Hx0 eq_refl eq_refl Hm) as (x & V' & ws & Ee & T).
    assert (set_d x s3 = set_d x s) as Es.
    { unfold s3, s2, s1, at_inode, set_inodes, set_d. cbn. rewrite list_insert_insert_eq. f_equal. rewrite <- (list_insert_id _ _ _ Ei) at 2.
      f_equal. unfold i1. rewrite <- Hlk. by destruct i. }
    rewrite Es in *. exists x, V', ws. split; [by mstep Ee|exact T].
  - destruct Wr as [Wp|(x & W' & i' & Ew & Hx & Hwr)]; [left; by apply bind_Panic|right].
    mstep Ew. unfold s2. rewrite at_inode_again. destruct (wn_inode _ _ _ _ _ _ _ _ Hwr) as (al & sz & Ei').
    assert (ic_inode (at_inode s1 ip x i') !! ip = Some i') as E3 by (by apply list_lookup_insert_eq).
    mstep (iunlock_ok (at_inode s1 ip x i') ip i' E3 ltac:(by rewrite Ei') ltac:(by rewrite Ei')). rewrite at_inode_again.
    apply written_lock in Hwr. rewrite Hlk in Hwr.
    destruct (end_op_transacted s (at_inode s1 ip x (set_ilock sl_free i')) V0 W' F eq_refl Hx) as (y & V' & ws & Ee & T); try apply Hwr.
    exists y, V', W', (set_ilock sl_free i'), ws. split; [by mstep Ee|]. by split.
Qed.

(** The other files of a disk: they share no block with [i]. *)
Definition other_file (b : superblock) (V : jview) (i j : inode) : Prop :=
  0 <= i_inum j < sb_ninodes b /\ i_inum j <> i_inum i /\ i_size j <= MAXFILE * BSIZE /\ forall m, own V i m -> ~ own V j m.

(** A view above the log holds the files of the disk, [i] but for what the write made of it. *)
Lemma written_on s V0 ip i src off n W i' : let b := sb s in let V := disk_view (v_disk V0) in
  fs_idle s V0 -> file_cached s V ip i -> 0 <= off + n <= MAXFILE * BSIZE -> written b V i src off n W i' ->
  file_on b W i' (contents W i') /\ forall j c, other_file b V i j -> file_on b V j c -> file_on b W j c.
Proof.
  intros b V F Fc Hn Hw. pose proof F as [_ L _ HB _]. destruct Fc as [_ _ _ Hin Hsz _ [Hst Wf _ _]]. split.
  - split; [|apply Hw|apply Hw|done]. eapply written_stored; try done; [|lia|lia]. intros m Hm. by apply (fs_idle_blocks s).
  - intros j c (Hj & Hne & Hmax & Hdis). intros Hj0. apply (written_other b V i src off n W i' j c L HB); try done; [|apply Wf]. intros m Hm. by apply (fs_idle_blocks s).
Qed.

(** The bytes [l] over those of [c] from [off]. *)
Definition overwrite (c : list Z) (off : Z) (l : list Z) : list Z := take (Z.to_nat off) c ++ l ++ drop (Z.to_nat (off + Z.of_nat (length l))) c.

(** What one transaction makes of a file [i] with the contents [c]: [i'] with [c']. *)
Record step_done s (V0 : bview) (ip : nat) (i : inode) (c : list Z) s' (V' : bview) (i' : inode) (c' : list Z) (ws : list (Z * block)) : Prop := {
  sd_idle : fs_idle s' V';
  sd_disk : v_disk V' = apply_writes (v_disk V0) ws;
  sd_writes : v_writes V' = v_writes V0 ++ ws;
  sd_file : file_cached s' (disk_view (v_disk V')) ip i';
  sd_contents : contents (disk_view (v_disk V')) i' = c';
  sd_crash : forall k, let D := disk_view (recovered lstart (apply_writes (v_disk V0) (take k ws))) in
    file_on (sb s) D i c \/ file_on (sb s) D i' c';
  sd_others : forall k j cj, let D := disk_view (recovered lstart (apply_writes (v_disk V0) (take k ws))) in
    other_file (sb s) (disk_view (v_disk V0)) i j -> file_on (sb s) (disk_view (v_disk V0)) j cj -> file_on (sb s) D j cj;
  sd_apart : forall j cj, let V := disk_view (v_disk V') in
    other_file (sb s) (disk_view (v_disk V0)) i j -> file_on (sb s) (disk_view (v_disk V0)) j cj -> other_file (sb s) V i' j /\ file_on (sb s) V j cj
}.

Lemma agree_own b V W i m : agree b V W -> layout b (j_len V) -> wf b V i -> own W i m <-> own V i m.
Proof.
  intros A L Hw. split; intros (Hm & j & Hj & E); (split; [done|]); exists j; (split; [done|]); by rewrite (agree_slot b V W A L i Hw) in *.
Qed.
Lemma agree_apart b V W i j c : agree b V W -> layout b (j_len V) -> wf b V i -> file_on b V j c -> other_file b V i j -> other_file b W i j /\ file_on b W j c.
Proof.
  intros A L Hw Hj (H1 & H2 & H3 & H4). split; [|by apply (file_on_agree b V)]. split; [done|]. split; [done|]. split; [done|].
  intros m. rewrite (agree_own b V W i m), (agree_own b V W j m) by (done || apply Hj). apply H4.
Qed.

Lemma transacted_same s V0 ip i x V' ws : fs_idle s V0 -> file_cached s (disk_view (v_disk V0)) ip i ->
  transacted s V0 (set_d x s) V' (disk_view (v_disk V0)) ws ->
  step_done s V0 ip i (contents (disk_view (v_disk V0)) i) (set_d x s) V' i (contents (disk_view (v_disk V0)) i) ws.
Proof.
  intros F Fc T. pose proof (fi_layout _ _ F) as L. destruct Fc as [Ei Hdev Hty Hin Hsz Hfr Hfo].
  assert (file_on (sb s) (disk_view (v_disk V')) i (contents (disk_view (v_disk V0)) i)) as Hon.
  { eapply file_on_agree; [apply (td_agree _ _ _ _ _ _ T)|done|done|lia|done]. }
  split; try apply T; [|apply Hon|..].
  - split; try done. by rewrite (on_contents _ _ _ _ Hon).
  - intros k D. left. destruct (td_crash _ _ _ _ _ _ T k) as [A|A]; (eapply file_on_agree; [exact A|done|done|lia|done]).
  - intros k j cj D (J1 & J2 & J3 & J4) Hj. destruct (td_crash _ _ _ _ _ _ T k) as [A|A]; (eapply file_on_agree; [exact A|done|done|lia|done]).
  - intros j cj V Hj Hcj. eapply agree_apart; [apply (td_agree _ _ _ _ _ _ T)|done|apply Hfo|done|done].
Qed.

(** A write leaves the other files apart from the one written. *)
Lemma written_apart s V0 ip i src off n W i' j c : let b := sb s in let V := disk_view (v_disk V0) in
  fs_idle s V0 -> file_cached s V ip i -> 0 <= off + n <= MAXFILE * BSIZE -> written b V i src off n W i' ->
  other_file b V i j -> file_on b V j c -> other_file b W i' j.
Proof.
  intros b V F Fc Hn Hw Ho Hj. destruct (written_on s V0 ip i src off n W i' F Fc Hn Hw) as [_ Hoth]. pose proof (Hoth j c Ho Hj) as HjW.
  destruct Ho as (J1 & J2 & J3 & J4). destruct (wn_inode _ _ _ _ _ _ _ _ Hw) as (l & sz & Ei'). split; [done|]. split; [by rewrite Ei'|]. split; [done|].
  intros m (Hm & k & Hk & Ek) (_ & k' & Hk' & Ek').
  assert (forall k, 0 <= k <= MAXFILE -> slot W j k <> 0 -> used b W (slot W j k) = true) as HuW by (intros q Hq Hne; by apply (wf_slots _ _ _ (on_wf _ _ _ _ HjW))).
  assert (slot V j k' = m) as Em.
  { rewrite <- Ek'. symmetry. eapply written_slots; [apply F|apply Fc|apply Hj|done|done|done]. }
  destruct (decide (slot W i' k = slot V i k)) as [Esl|Nsl].
  - apply (J4 m); (split; [done|]); [exists k; split; [done|congruence]|by exists k'].
  - apply (wn_fresh _ _ _ _ _ _ _ _ Hw k Hk) in Nsl. destruct (wf_slots _ _ _ (on_wf _ _ _ _ Hj) k' Hk') as [_ Hu]; [by rewrite Em|]. congruence.
Qed.

Lemma write_op_atomic s V0 ip i src off n : let b := sb s in let V := disk_view (v_disk V0) in let c := contents V i in
  fs_idle s V0 -> file_cached s V ip i -> 0 <= off <= i_size i -> 0 <= n <= Z.of_nat (length src) -> is_u32 n ->
  Forall byte src -> 3 + nblocks off n <= MAXOPBLOCKS ->
  let fits := off + n <=? MAXFILE * BSIZE in
  write_op ip src off n s = Panic "balloc: out of blocks" \/
  exists x V' i' ws, write_op ip src off n s = Ok (if fits then n else -1) (at_inode s ip x i') /\
    step_done s V0 ip i c (at_inode s ip x i') V' i' (if fits then overwrite c off (take (Z.to_nat n) src) else c) ws.
Proof.
  intros b V c F Fc Ho Hn Hn32 Hbytes Hc fits. pose proof maxfile_small. pose proof F as [_ L _ HB _].
  assert (is_u32 off) as Hoff by (destruct Fc as [_ _ _ _ Hsz _ _]; unfold is_u32; lia).
  pose proof (write_op_ok s V0 ip i src off n F Fc Hoff Hn32 ltac:(lia) Hbytes Hc) as Wr. unfold fits. destruct (Z.leb_spec (off + n) (MAXFILE * BSIZE)) as [Hmax|Hmax].
  2:{ rewrite decide_True in Wr by lia. right. destruct Wr as (x & V' & ws & E & T). exists x, V', i, ws.
      rewrite <- (at_inode_same s ip i x (fc_at _ _ _ _ Fc)). split; [done|]. by apply transacted_same. }
  rewrite decide_False in Wr by lia. destruct Wr as [Wp|(x & V' & W & i' & ws & E & T & Hw)]; [by left|right].
  exists x, V', i', ws. split; [done|]. destruct (written_on s V0 ip i src off n W i' F Fc ltac:(lia) Hw) as [Hon Hoth].
  assert (contents W i' = overwrite c off (take (Z.to_nat n) src)) as Ec.
  { rewrite (wn_contents _ _ _ _ _ _ _ _ Hw). unfold overwrite. rewrite length_take. fold V c. do 4 f_equal. lia. }
  rewrite Ec in Hon. set (c' := overwrite _ _ _) in *. set (s' := at_inode s ip x i') in *.
  destruct (wn_inode _ _ _ _ _ _ _ _ Hw) as (l & sz & Ei'). pose proof (wn_size _ _ _ _ _ _ _ _ Hw) as Hsz'. pose proof (wn_len _ _ _ _ _ _ _ _ Hw) as Hl.
  pose proof (fun j cj => written_apart s V0 ip i src off n W i' j cj F Fc ltac:(lia) Hw) as Hap.
  destruct Fc as [Ei Hdev Hty Hin Hsz Hfr Hfo].
  assert (i_inum i' = i_inum i /\ 0 <= i_size i' <= MAXFILE * BSIZE) as [Hin' Hs'] by (split; [by rewrite Ei'|lia]).
  assert (layout b (j_len W)) as LW by (by rewrite Hl).
  assert (file_on b (disk_view (v_disk V')) i' c') as Hnew.
  { eapply file_on_agree; [apply (td_agree _ _ _ _ _ _ T)|done|by rewrite Hin'|lia|done]. }
  split; try apply T; [|apply Hnew|..].
  - split; try (by rewrite Ei'); [by apply list_lookup_insert_eq; apply lookup_lt_Some in Ei|done|]. by rewrite (on_contents _ _ _ _ Hnew).
  - intros k D. destruct (td_crash _ _ _ _ _ _ T k) as [A|A]; [left|right]; (eapply file_on_agree; [exact A|done|by rewrite ?Hin'|lia|done]).
  - intros k j cj D Hj Hcj. pose proof Hj as (J1 & _ & J3 & _). destruct (td_crash _ _ _ _ _ _ T k) as [A|A].
    + by eapply file_on_agree; [exact A|done|done|lia|].
    + eapply file_on_agree; [exact A|done|done|lia|]. by apply Hoth.
  - intros j cj V1 Hj Hcj. eapply agree_apart; [apply (td_agree _ _ _ _ _ _ T)|done|apply Hw|by apply Hoth|by apply (Hap j cj)].
Qed.
End atomic.

(** A write is a transaction. Let the file system be idle on a disk, with a file [i]
    cached. One round of the loop of
    [filewrite], of at most as many bytes as fit in the log, panics
    with "balloc: out of blocks" or returns [n]; then the file system is idle again and the
    disk holds the file with the new bytes at [off], its inode included. If the machine
    stops after any number [k] of the block writes, then the disk that recovery makes of
    what is there holds the file as it was or as it would have been, and every other file
    unchanged. *)
Theorem file_write_atomic {S} `{BlockCache S} lstart lsize dev_write (s : fsys (S := lst S)) (V0 : bview) (ip : nat) (i : inode) (src : list Z) (off n : Z) :
  let b := sb s in let V := disk_view (v_disk V0) in let c := contents V i in
  fs_idle lstart lsize s V0 -> file_cached s V ip i -> 0 <= off <= i_size i -> 0 <= n <= Z.of_nat (length src) -> off + n <= MAXFILE * BSIZE ->
  Forall byte src -> 3 + nblocks off n <= MAXOPBLOCKS ->
  write_op dev_write ip src off n s = Panic "balloc: out of blocks" \/
  exists x V' i' ws, let s' := at_inode s ip x i' in let c' := take (Z.to_nat off) c ++ take (Z.to_nat n) src ++ drop (Z.to_nat (off + n)) c in
    write_op dev_write ip src off n s = Ok n s' /\ fs_idle lstart lsize s' V' /\
    v_disk V' = apply_writes (v_disk V0) ws /\ v_writes V' = v_writes V0 ++ ws /\
    file_cached s' (disk_view (v_disk V')) ip i' /\ contents (disk_view (v_disk V')) i' = c' /\
    forall k, let D := disk_view (recovered lstart (apply_writes (v_disk V0) (take k ws))) in
      (file_on b D i c \/ file_on b D i' c') /\ forall j cj, other_file b V i j -> file_on b V j cj -> file_on b D j cj.
Proof.
  intros b V c F Fc Ho Hn Hmax Hbytes Hc. pose proof maxfile_small.
  pose proof (write_op_atomic lstart lsize dev_write s V0 ip i src off n F Fc Ho Hn ltac:(unfold is_u32; lia) Hbytes Hc) as Wr. cbv zeta in Wr.
  rewrite (proj2 (Z.leb_le (off + n) (MAXFILE * BSIZE)) Hmax) in Wr. destruct Wr as [E|(x & V' & i' & ws & E & T)]; [by left|right].
  exists x, V', i', ws. intros s' c'.
  assert (overwrite (contents V i) off (take (Z.to_nat n) src) = c') as Ec by (unfold overwrite; rewrite length_take; do 4 f_equal; lia).
  fold V in T. rewrite Ec in T. destruct T as [T1 T2 T3 T4 T5 T6 T7 _]. split_and!; try done. intros k D. split; [apply T6|]. intros j cj. apply T7.
Qed.
