(* ===== verification/FsBio.v ===== *)
(** * The file system on the log and the block cache: concrete runs

    The theorems of the [Fs*] files hold for every [Journal], those of [FsAtomic] for the
    log over every [BlockCache]; here they are applied to a booted system: the log of
    [Log] over the cache of [Bio], on a disk of 40 blocks. *)

From S2P Require Import Prelude Sleeplock Cache Bio Log LogBio Journal LogJournal Fs FsAlloc FsFile FsWrite FsInode FsPath FsDir FsAtomic.

(** A log of 20 blocks from block 2, eight inodes from block 22, the bitmap in block 24. *)
Definition demo_sb : superblock := Superblock 40 15 8 20 2 22 24.
Definition demo_file : inode := Inode 1 1 1 sl_free true T_FILE 0 0 1 0 (replicate 13 0).
Definition demo_fs_disk : list block :=
  disk_set (disk_set (replicate 40 zero_block) 24 ([255; 255; 255; 1] ++ replicate 508 0)) 22 (splice zero_block 64 (dinode_bytes demo_file)).

Definition booted (disk : list block) : bst := match binit (bio_boot disk 5) with Ok _ c => c | _ => bio_boot disk 5 end.
Definition demo_cache : bst := booted demo_fs_disk.
Definition demo_view : bview := View demo_fs_disk ∅ ∅ [].
(** The log between operations, and inside a transaction. *)
Definition idle : lst bst := log_at demo_cache 20 0 [].
Definition opened : lst bst := set_outstanding 1 idle.
#[local] Instance demo_journal : Journal (lst bst) := log_journal 2 20 demo_view.
Definition demo_jview : jview := opened_view demo_view.

Lemma demo_blocks_ok : Forall block_ok demo_fs_disk.
Proof.
  assert (block_ok zero_block) as Z by (split; [done|by apply Forall_replicate]).
  repeat apply Forall_insert; [by apply Forall_replicate| |].
  - split; [done|]. apply Forall_app. split; [repeat (constructor; [by split|]); constructor|by apply Forall_replicate].
  - destruct (dinode_bytes_ok demo_file eq_refl) as [H1 H2]. apply block_ok_splice; [done|done|rewrite H1; done|done].
Qed.
Lemma idle_ok : log_idle 2 20 idle demo_view.
Proof.
  destruct (binit_ok demo_fs_disk 5 demo_blocks_ok) as (c & E & C).
  assert (demo_cache = c) as Ec by (unfold demo_cache, booted; by rewrite E).
  unfold idle. rewrite Ec. clear E Ec. split; try reflexivity; try (by split); [|vm_compute; lia].
  split; try reflexivity; [exact C|vm_compute; repeat split; discriminate|constructor|constructor|].
  intros m. cbn [v_pin demo_view]. rewrite lookup_empty, elem_of_nil. split; [by intros []|done].
Qed.
Lemma opened_ok : d_ok opened demo_jview.
Proof. exact (proj2 (begin_op_ok 2 20 idle demo_view idle_ok)). Qed.

Lemma demo_layout : layout demo_sb (j_len demo_jview).
Proof. split; vm_compute; repeat split; discriminate. Qed.
Lemma demo_free n : j_free demo_jview n.
Proof. intros b d. cbn. by rewrite lookup_empty. Qed.
Lemma demo_meta : meta_used demo_sb demo_jview.
Proof.
  intros m Hm. change (datastart demo_sb) with 25 in Hm. assert (m ∈ seqZ 0 25) as Hin by (apply elem_of_seqZ; lia).
  assert (forallb (used demo_sb demo_jview) (seqZ 0 25) = true) as Hall by (vm_compute; reflexivity).
  rewrite forallb_forall in Hall. by apply Hall, list_elem_of_In.
Qed.
(** An inode with no blocks. *)
Lemma demo_slot i j : i_addrs i = replicate 13 0 -> slot demo_jview i j = 0.
Proof.
  intros Ei. assert (forall k, addr i k = 0) as Ha.
  { intros k. unfold addr. rewrite Ei. destruct (replicate 13 0 !! k) eqn:E; [|done]. by apply lookup_replicate in E as [-> _]. }
  unfold slot, fblock. rewrite !Ha. destruct (decide (j = MAXFILE)); [done|]. by destruct (j <? Z.of_nat NDIRECT).
Qed.
Lemma demo_wf i : i_addrs i = replicate 13 0 -> wf demo_sb demo_jview i.
Proof. intros Ei. split; [by rewrite Ei| |]; intros; by rewrite demo_slot in *. Qed.
Lemma demo_mapped i : i_addrs i = replicate 13 0 -> mapped demo_jview i 0.
Proof. intros Ei. split; [by rewrite Ei| |]; cbn; unfold BSIZE; lia. Qed.

(** The system inside a transaction, with the inodes [l] cached. *)
Definition demo_fsys (l : list inode) : fsys (S := lst bst) := Fsys opened demo_sb false l 5 0.

Lemma block_allocator_witness : exists x, balloc 1 (demo_fsys []) = Ok 25 (set_d x (demo_fsys [])).
Proof.
  destruct (block_allocator (demo_fsys []) demo_jview opened_ok demo_layout) as (_ & B & _).
  - vm_compute. discriminate.
  - intros n _ _. apply demo_free.
  - vm_compute. lia.
  - vm_compute. lia.
  - apply demo_meta.
  - destruct (B 25) as (x & V' & E & _); [vm_compute; split; [discriminate|reflexivity]|vm_compute; reflexivity| |].
    + intros m Hm. apply demo_meta. exact Hm.
    + exists x. exact E.
Defined.

Lemma writei_spec_witness : exists s' V' i',
  writei (fun _ => None) 0 [104; 105] 0 2 (demo_fsys [demo_file]) = Ok 2 s' /\ ic_inode s' = [i'] /\ contents V' i' = [104; 105].
Proof.
  pose proof (writei_spec (fun _ => None) (demo_fsys [demo_file]) demo_jview 0 demo_file [104; 105] 0 2 opened_ok eq_refl demo_layout) as P.
  destruct P as [P|(x & V' & i' & E & _ & Hw)].
  - vm_compute. discriminate.
  - vm_compute. reflexivity.
  - apply demo_meta.
  - reflexivity.
  - reflexivity.
  - discriminate.
  - vm_compute. split; [discriminate|reflexivity].
  - by apply demo_wf.
  - by apply demo_mapped.
  - vm_compute. split; discriminate.
  - vm_compute. split; [discriminate|reflexivity].
  - vm_compute. split; [discriminate|reflexivity].
  - vm_compute. discriminate.
  - repeat first [done | constructor].
  - vm_compute. discriminate.
  - exfalso. revert P. vm_compute. discriminate.
  - exists (at_inode (demo_fsys [demo_file]) 0 x i'), V', i'. split; [exact E|]. split; [reflexivity|]. rewrite (wn_contents _ _ _ _ _ _ _ _ Hw). reflexivity.
Defined.

(** A second cached inode for the same file, not valid yet. *)
Definition demo_stale : inode := Inode 1 1 1 sl_free false 0 0 0 0 0 [].
Definition demo_longer : inode := set_isize 7 demo_file.

Lemma inode_roundtrip_witness : exists x y, let s := demo_fsys [demo_longer; demo_stale] in
  iupdate 0 s = Ok tt (set_d x s) /\
  ilock 1 (set_d x s) = Ok tt (at_inode s 1 y (Inode 1 1 1 (sl_mine 5) true T_FILE 0 0 1 7 (replicate 13 0))).
Proof.
  destruct (inode_roundtrip (demo_fsys [demo_longer; demo_stale]) demo_jview 0 demo_longer opened_ok) as (x & E & P).
  - vm_compute. discriminate.
  - reflexivity.
  - exact demo_layout.
  - reflexivity.
  - reflexivity.
  - vm_compute. split; [discriminate|reflexivity].
  - split; [by split..|reflexivity|apply Forall_replicate; by split].
  - right. vm_compute. lia.
  - assert (0 <= 1 < 8) as Hin by lia.
    pose proof (P 1%nat demo_stale eq_refl eq_refl Hin eq_refl eq_refl eq_refl) as Q. cbv zeta in Q.
    rewrite decide_True in Q by reflexivity. destruct Q as (y & Ey). exists x, y. split; [exact E|exact Ey].
Defined.

(** An empty directory, locked by the process, in a cache that is otherwise empty. *)
Definition demo_dir_inode : inode := Inode 1 1 1 (sl_mine 5) true T_DIR 0 0 1 0 (replicate 13 0).
Definition no_inode : inode := Inode 0 0 0 sl_free false 0 0 0 0 0 [].
Definition demo_dir_fsys : fsys (S := lst bst) := demo_fsys (demo_dir_inode :: replicate 49 no_inode).

Lemma demo_dir_ok : is_dir demo_sb demo_jview demo_dir_inode.
Proof.
  split; [done|done|done|done|by apply demo_wf|by apply demo_mapped].
Qed.

Lemma directory_entries_witness : exists x s' V' i',
  dirlookup (fun _ => None) 0 [97] demo_dir_fsys = Ok None (set_d x demo_dir_fsys) /\
  dirlink (fun _ => None) (fun _ => None) 0 [97] 3 demo_dir_fsys = Ok 0 s' /\ dir_lookup (entries V' i') [97; 0; 98] = Some 3.
Proof.
  destruct (directory_entries (fun _ => None) (fun _ => None) demo_dir_fsys demo_jview 0 demo_dir_inode [97] 3) as [(x & E & _) P].
  - split; [exact opened_ok|reflexivity|reflexivity|exact demo_dir_ok].
  - reflexivity.
  - reflexivity.
  - constructor; [cbn; lia|]. apply Forall_replicate. cbn. lia.
  - exact demo_layout.
  - vm_compute. discriminate.
  - vm_compute. reflexivity.
  - apply demo_meta.
  - lia.
  - repeat constructor; discriminate.
  - vm_compute. lia.
  - destruct P as [P|(y & V' & i' & Ed & _ & L)].
    + exfalso. revert P. vm_compute. discriminate.
    + exists x, (at_inode demo_dir_fsys 0 y i'), V', i'. split; [exact E|]. split; [exact Ed|]. rewrite (lk_map _ _ _ _ _ _ _ L). reflexivity.
Defined.

(** Two bytes written to the empty file: at each block write a crash leaves no byte or both. *)
Lemma file_write_atomic_witness : exists s' ws i',
  write_op (fun _ => None) 0 [104; 105] 0 2 (Fsys idle demo_sb false [demo_file] 5 0) = Ok 2 s' /\
  contents (disk_view (apply_writes demo_fs_disk ws)) i' = [104; 105] /\
  forall k, let D := disk_view (recovered 2 (apply_writes demo_fs_disk (take k ws))) in
    file_on demo_sb D demo_file [] \/ file_on demo_sb D i' [104; 105].
Proof.
  destruct (file_write_atomic 2 20 (fun _ => None) (Fsys idle demo_sb false [demo_file] 5 0) demo_view 0 demo_file [104; 105] 0 2)
    as [P|(x & V' & i' & ws & E & _ & Hd & _ & _ & Hc & Hk)].
  - split; [exact idle_ok|exact demo_layout|vm_compute; discriminate|vm_compute; reflexivity|exact demo_meta].
  - split; [reflexivity|reflexivity|discriminate|vm_compute; split; [discriminate|reflexivity]|vm_compute; split; discriminate|by split|].
    split; [vm_compute; reflexivity|by apply demo_wf|by apply demo_mapped|reflexivity].
  - vm_compute. split; discriminate.
  - vm_compute. split; discriminate.
  - vm_compute. discriminate.
  - repeat first [done | constructor].
  - vm_compute. discriminate.
  - exfalso. revert P. vm_compute. discriminate.
  - eexists _, ws, i'. split; [exact E|]. change demo_fs_disk with (v_disk demo_view). rewrite <- Hd. split; [exact Hc|]. intros k. apply Hk.
Defined.
