(* ===== verification/Pipe.v ===== *)
(** * Pipes: p6/pipe.c

    [pipe] is [struct pipe]; its counters run modulo 2^32 and index the buffer modulo
    PIPESIZE. A call runs to its end or to the point where it sleeps, which releases
    the lock; [pipewrite_on] and [piperead_on] continue a call that was woken. The
    calls of wakeup are recorded in [woken]. [pstep] interleaves any number of readers
    and writers of one pipe, kills included. *)

From S2P Require Import Prelude Sleeplock.

Definition PIPESIZE : Z := 512.

Record pipe := Pipe {
  p_lock : bool; p_data : list Z; nread : Z; nwrite : Z; readopen : bool; writeopen : bool
}.
(** The addresses slept on: [&p->nread] and [&p->nwrite]. *)
Inductive pchan := NREAD | NWRITE.
#[export] Instance pchan_eq_dec : EqDecision pchan.
Proof. solve_decision. Defined.

Record pst := Pst { pp : pipe; woken : list pchan; freed : bool }.
Definition set_pp v s := Pst v (woken s) (freed s).
Definition upd_pp (f : pipe -> pipe) : M pst unit := modify (fun s => set_pp (f (pp s)) s).
Definition set_plock v p := Pipe v (p_data p) (nread p) (nwrite p) (readopen p) (writeopen p).
Definition set_pdata v p := Pipe (p_lock p) v (nread p) (nwrite p) (readopen p) (writeopen p).
Definition set_nread v p := Pipe (p_lock p) (p_data p) v (nwrite p) (readopen p) (writeopen p).
Definition set_nwrite v p := Pipe (p_lock p) (p_data p) (nread p) v (readopen p) (writeopen p).
Definition set_readopen v p := Pipe (p_lock p) (p_data p) (nread p) (nwrite p) v (writeopen p).
Definition set_writeopen v p := Pipe (p_lock p) (p_data p) (nread p) (nwrite p) (readopen p) v.

Definition acquire_pipe : M pst unit :=
  zoom (fun s => p_lock (pp s)) (fun l s => set_pp (set_plock l (pp s)) s) spin_acquire.
Definition release_pipe : M pst unit :=
  zoom (fun s => p_lock (pp s)) (fun l s => set_pp (set_plock l (pp s)) s) spin_release.
Definition wakeup (c : pchan) : M pst unit := modify (fun s => Pst (pp s) (woken s ++ [c]) (freed s)).

(** The allocated page as [pipealloc] initialises it; [data] keeps what the page held. *)
Definition pipe_init (data : list Z) : pipe := Pipe false data 0 0 true true.

Definition pipeclose (writable : bool) : M pst unit :=
  acquire_pipe;;
  (if writable then upd_pp (set_writeopen false);; wakeup NREAD
   else upd_pp (set_readopen false);; wakeup NWRITE);;
  p ← gets pp;
  if negb (readopen p) && negb (writeopen p) then
    release_pipe;;
    modify (fun s => Pst (pp s) (woken s) true)      (* kfree *)
  else release_pipe.

(** How a call leaves the pipe: with a result, or asleep. *)
Inductive wres := WDone (r : Z) (left : list Z) | WSleep (left : list Z).
Inductive rres := RDone (r : Z) (got : list Z) | RSleep.

(** The loop of [pipewrite]: [bs] is what is still to be written of the [n] bytes. *)
Fixpoint pipewrite_loop (killed : bool) (n : Z) (bs : list Z) : M pst wres :=
  match bs with
  | [] => wakeup NREAD;; release_pipe;; mret (WDone n [])
  | b :: bs' =>
    p ← gets pp;
    if nwrite p =? u32 (nread p + PIPESIZE) then
      if negb (readopen p) || killed then release_pipe;; mret (WDone (-1) bs)
      else wakeup NREAD;; release_pipe;; mret (WSleep bs)
    else
      upd_pp (set_pdata (<[Z.to_nat (nwrite p `mod` PIPESIZE) := b]> (p_data p)));;
      upd_pp (set_nwrite (u32 (nwrite p + 1)));;
      pipewrite_loop killed n bs'
  end.
Definition pipewrite_on (killed : bool) (n : Z) (bs : list Z) : M pst wres := acquire_pipe;; pipewrite_loop killed n bs.
Definition pipewrite (killed : bool) (addr : list Z) (n : Z) : M pst wres :=
  pipewrite_on killed n (take (Z.to_nat n) addr).

Fixpoint piperead_copy (n : nat) : M pst (list Z) :=
  match n with
  | O => mret []
  | S n' =>
    p ← gets pp;
    if nread p =? nwrite p then mret [] else
    b ← of_option (p_data p !! Z.to_nat (nread p `mod` PIPESIZE));
    upd_pp (set_nread (u32 (nread p + 1)));;
    l ← piperead_copy n';
    mret (b :: l)
  end.
Definition piperead_on (killed : bool) (n : Z) : M pst rres :=
  acquire_pipe;;
  p ← gets pp;
  if (nread p =? nwrite p) && writeopen p then
    if killed then release_pipe;; mret (RDone (-1) [])
    else release_pipe;; mret RSleep
  else
    l ← piperead_copy (Z.to_nat n);
    wakeup NWRITE;;
    release_pipe;;
    mret (RDone (Z.of_nat (length l)) l).

(** ** The bytes in the pipe *)

Record pipe_ok (p : pipe) (q : list Z) : Prop := {
  po_lock : p_lock p = false;
  po_data : Z.of_nat (length (p_data p)) = PIPESIZE;
  po_read : is_u32 (nread p);
  po_write : nwrite p = u32 (nread p + Z.of_nat (length q));
  po_size : Z.of_nat (length q) <= PIPESIZE;
  po_bytes : forall k b, q !! k = Some b -> p_data p !! Z.to_nat ((nread p + Z.of_nat k) `mod` PIPESIZE) = Some b
}.

Lemma u32_mod x : u32 x `mod` PIPESIZE = x `mod` PIPESIZE.
Proof. unfold u32, PIPESIZE. Z.div_mod_to_equations. lia. Qed.

Lemma pipe_count p q : pipe_ok p q -> u32 (nwrite p - nread p) = Z.of_nat (length q).
Proof.
  intros [_ _ Hr -> Hs _]. unfold u32, is_u32, PIPESIZE in *. clear -Hr Hs. Z.div_mod_to_equations. lia.
Qed.
Lemma pipe_empty p q : pipe_ok p q -> (nread p =? nwrite p) = bool_decide (q = []).
Proof.
  intros H. pose proof (pipe_count _ _ H) as Hc. destruct H as [_ _ Hr Hw Hs _]. destruct q as [|b q].
  - rewrite Hw, bool_decide_true by done. cbn. rewrite Z.add_0_r, u32_small by done. apply Z.eqb_refl.
  - rewrite bool_decide_false by done. apply Z.eqb_neq. intros E. rewrite <- E, Z.sub_diag in Hc. unfold u32 in Hc. rewrite Z.mod_0_l in Hc by lia. cbn in Hc. lia.
Qed.
Lemma pipe_full p q : pipe_ok p q -> (nwrite p =? u32 (nread p + PIPESIZE)) = (Z.of_nat (length q) =? PIPESIZE).
Proof.
  intros [_ _ Hr -> Hs _]. unfold is_u32 in Hr. destruct (Z.eqb_spec (Z.of_nat (length q)) PIPESIZE) as [->|N]; [apply Z.eqb_refl|].
  apply Z.eqb_neq. intros E. apply N. unfold u32, PIPESIZE in *. clear -Hr Hs E. Z.div_mod_to_equations. lia.
Qed.

Definition with_lock (b : bool) (p : pipe) : pipe := set_plock b p.

Lemma pipe_put p q b :
  pipe_ok p q -> Z.of_nat (length q) < PIPESIZE ->
  pipe_ok (set_nwrite (u32 (nwrite p + 1)) (set_pdata (<[Z.to_nat (nwrite p `mod` PIPESIZE) := b]> (p_data p)) p)) (q ++ [b]).
Proof.
  intros [H1 H2 H3 H4 H5 H6] Hl. split; cbn [p_lock p_data nread nwrite set_nwrite set_pdata]; auto.
  - by rewrite length_insert.
  - rewrite H4, length_app. unfold u32. cbn. rewrite Zplus_mod_idemp_l. f_equal. lia.
  - rewrite length_app. cbn. lia.
  - intros k c Hk. rewrite H4, u32_mod. pose proof (lookup_lt_Some _ _ _ Hk) as Hlt. rewrite length_app in Hlt. cbn in Hlt.
    destruct (decide (k = length q)) as [->|N].
    + rewrite lookup_app_r, Nat.sub_diag in Hk by lia. injection Hk as <-. apply list_lookup_insert_eq.
      unfold PIPESIZE in *. pose proof (Z.mod_pos_bound (nread p + Z.of_nat (length q)) 512 ltac:(lia)). lia.
    + rewrite lookup_app_l in Hk by lia. rewrite list_lookup_insert_ne; [by apply H6|].
      unfold PIPESIZE in *. clear -N Hlt Hl. Z.div_mod_to_equations. lia.
Qed.

Lemma pipe_get p b q :
  pipe_ok p (b :: q) ->
  p_data p !! Z.to_nat (nread p `mod` PIPESIZE) = Some b /\ pipe_ok (set_nread (u32 (nread p + 1)) p) q.
Proof.
  intros [H1 H2 H3 H4 H5 H6]. split.
  - rewrite <- (Z.add_0_r (nread p)). by apply (H6 0%nat).
  - cbn [length] in *. split; cbn; auto; try lia.
    + apply u32_range.
    + rewrite H4. unfold u32. rewrite Zplus_mod_idemp_l. f_equal. lia.
    + intros k c Hk. rewrite <- (H6 (S k) c Hk). f_equal. f_equal.
      rewrite Zplus_mod, u32_mod, <- Zplus_mod. f_equal. lia.
Qed.

(** ** The calls *)

(** Inside the critical section. *)
Definition pipe_in (p : pipe) (q : list Z) : Prop := p_lock p = true /\ pipe_ok (set_plock false p) q.

Lemma acquire_pipe_ok s q : pipe_ok (pp s) q ->
  acquire_pipe s = Ok tt (set_pp (set_plock true (pp s)) s) /\ pipe_in (set_plock true (pp s)) q.
Proof.
  intros H. unfold acquire_pipe, zoom. rewrite (po_lock _ _ H). split; [done|]. split; [done|].
  destruct H. by split.
Qed.
Lemma release_pipe_ok s q : pipe_in (pp s) q ->
  release_pipe s = Ok tt (set_pp (set_plock false (pp s)) s).
Proof. intros [H _]. unfold release_pipe, zoom. by rewrite H. Qed.

Lemma in_full p q : pipe_in p q -> (nwrite p =? u32 (nread p + PIPESIZE)) = (Z.of_nat (length q) =? PIPESIZE).
Proof. intros [_ H]. apply (pipe_full _ _ H). Qed.
Lemma in_empty p q : pipe_in p q -> (nread p =? nwrite p) = bool_decide (q = []).
Proof. intros [_ H]. apply (pipe_empty _ _ H). Qed.

(** What stays the same. *)
Definition same_ends (p p' : pipe) : Prop := readopen p' = readopen p /\ writeopen p' = writeopen p.

Definition write_result (killed : bool) (n : Z) (s s' : pst) (q bs : list Z) (r : wres) : Prop :=
  exists dn rest, bs = dn ++ rest /\ pipe_ok (pp s') (q ++ dn) /\ same_ends (pp s) (pp s') /\ freed s' = freed s /\
    match r with
    | WDone v l => l = rest /\
        ((rest = [] /\ v = n /\ woken s' = woken s ++ [NREAD]) \/
         (rest <> [] /\ v = -1 /\ woken s' = woken s /\ Z.of_nat (length (q ++ dn)) = PIPESIZE /\
          (readopen (pp s) = false \/ killed = true)))
    | WSleep l => l = rest /\ rest <> [] /\ Z.of_nat (length (q ++ dn)) = PIPESIZE /\ readopen (pp s) = true /\
        killed = false /\ woken s' = woken s ++ [NREAD]
    end.

Lemma pipewrite_loop_ok killed n bs : forall s q, pipe_in (pp s) q ->
  exists r s', pipewrite_loop killed n bs s = Ok r s' /\ write_result killed n s s' q bs r.
Proof.
  induction bs as [|b bs IH]; intros s q I; cbn [pipewrite_loop].
  - unfold wakeup. mgo. mstep release_pipe_ok; [|exact I]. do 2 eexists. split; [reflexivity|].
    exists [], []. rewrite (app_nil_r q). split; [done|]. split; [exact (proj2 I)|]. split; [done|]. split; [done|]. split; [done|]. by left.
  - mgo. rewrite (in_full _ _ I). destruct (Z.eqb_spec (Z.of_nat (length q)) PIPESIZE) as [Hf|Hf].
    + destruct (negb (readopen (pp s)) || killed) eqn:E.
      * mstep release_pipe_ok; [|exact I]. do 2 eexists. split; [reflexivity|]. exists [], (b :: bs). rewrite (app_nil_r q).
        split; [done|]. split; [exact (proj2 I)|]. split; [done|]. split; [done|]. split; [done|]. right. split; [done|]. split; [done|].
        split; [done|]. split; [done|]. apply orb_true_iff in E as [E|E]; [left; by apply negb_true_iff|by right].
      * apply orb_false_iff in E as [E1%negb_false_iff E2]. unfold wakeup. mgo. mstep release_pipe_ok; [|exact I].
        do 2 eexists. split; [reflexivity|]. exists [], (b :: bs). rewrite (app_nil_r q).
        split; [done|]. split; [exact (proj2 I)|]. by split_and!.
    + unfold upd_pp. mgo. destruct I as [Hl Ho].
      set (s1 := set_pp _ _). destruct (IH s1 (q ++ [b])) as (r & s' & E & (dn & rest & -> & H1 & H2 & H3 & H4)).
      { split; [done|]. apply (pipe_put _ _ b) in Ho; [exact Ho|]. pose proof (po_size _ _ Ho). lia. }
      exists r, s'. split; [exact E|]. exists (b :: dn), rest. rewrite <- app_assoc in H1, H4. cbn [app] in H1, H4.
      split; [done|]. split; [done|]. split; [done|]. split; [done|]. exact H4.
Qed.

Lemma pipewrite_on_ok killed n bs s q : pipe_ok (pp s) q ->
  exists r s', pipewrite_on killed n bs s = Ok r s' /\ write_result killed n s s' q bs r.
Proof.
  intros H. destruct (acquire_pipe_ok _ _ H) as [E I]. unfold pipewrite_on. mstep E.
  destruct (pipewrite_loop_ok killed n bs (set_pp (set_plock true (pp s)) s) q I) as (r & s' & E' & R). exists r, s'. by split.
Qed.

Lemma piperead_copy_ok n : forall s q, pipe_in (pp s) q ->
  exists s', piperead_copy n s = Ok (take n q) s' /\ pipe_in (pp s') (drop n q) /\ same_ends (pp s) (pp s') /\
    freed s' = freed s /\ woken s' = woken s.
Proof.
  induction n as [|n IH]; intros s q I; cbn [piperead_copy].
  - exists s. by rewrite take_0, drop_0.
  - mgo. rewrite (in_empty _ _ I). case_bool_decide as Hq.
    + subst q. exists s. by rewrite take_nil, drop_nil.
    + destruct q as [|b q]; [done|]. destruct I as [Hl Ho]. destruct (pipe_get _ _ _ Ho) as [Hb Ho'].
      change (p_data (set_plock false (pp s))) with (p_data (pp s)) in Hb. change (nread (set_plock false (pp s))) with (nread (pp s)) in Hb.
      rewrite Hb. unfold upd_pp. mgo. destruct (IH (set_pp (set_nread (u32 (nread (pp s) + 1)) (pp s)) s) q) as (s' & E & H1 & H2 & H3 & H4); [by split|].
      mstep E. exists s'. by split_and!; try apply H1; try apply H2.
Qed.

Definition read_result (killed : bool) (n : Z) (s s' : pst) (q : list Z) (r : rres) : Prop :=
  same_ends (pp s) (pp s') /\ freed s' = freed s /\
  match r with
  | RDone v l =>
      (q = [] /\ writeopen (pp s) = true /\ killed = true /\ v = -1 /\ l = [] /\ pipe_ok (pp s') q /\ woken s' = woken s) \/
      ((q <> [] \/ writeopen (pp s) = false) /\ l = take (Z.to_nat n) q /\ v = Z.of_nat (length l) /\
       pipe_ok (pp s') (drop (Z.to_nat n) q) /\ woken s' = woken s ++ [NWRITE])
  | RSleep => q = [] /\ writeopen (pp s) = true /\ killed = false /\ pipe_ok (pp s') q /\ woken s' = woken s
  end.

Lemma piperead_on_ok killed n s q : pipe_ok (pp s) q ->
  exists r s', piperead_on killed n s = Ok r s' /\ read_result killed n s s' q r.
Proof.
  intros H. destruct (acquire_pipe_ok _ _ H) as [E I]. unfold piperead_on. mstep E. mgo.
  set (s1 := set_pp (set_plock true (pp s)) s) in *. change (set_plock true (pp s)) with (pp s1) in I. rewrite (in_empty _ _ I). change (writeopen (pp s1)) with (writeopen (pp s)).
  assert (bool_decide (q = []) = false \/ writeopen (pp s) = false -> exists r s',
    (piperead_copy (Z.to_nat n) ≫= fun l => wakeup NWRITE;; release_pipe;; mret (RDone (Z.of_nat (length l)) l)) s1 = Ok r s' /\
    read_result killed n s s' q r) as K.
  { intros Hc. destruct (piperead_copy_ok (Z.to_nat n) s1 q I) as (s2 & E2 & I2 & S2 & F2 & W2). mstep E2.
    unfold wakeup. mgo. mstep release_pipe_ok; [|exact I2]. do 2 eexists. split; [reflexivity|].
    split; [exact S2|]. split; [exact F2|]. right. split; [|split; [done|split; [done|split; [exact (proj2 I2)|cbn; by rewrite W2]]]].
    destruct Hc as [Hc|Hc]; [left; by apply bool_decide_eq_false in Hc|by right]. }
  case_bool_decide as Hq; [|apply K; by left]. cbn [andb]. destruct (writeopen (pp s)) eqn:Hw; [|apply K; by right].
  subst q. destruct killed; (mstep release_pipe_ok; [|exact I]); do 2 eexists; (split; [reflexivity|]); (split; [done|]); (split; [done|]).
  - left. by split_and!; try exact (proj2 I).
  - by split_and!; try exact (proj2 I).
Qed.

Lemma pipeclose_ok w s q : pipe_ok (pp s) q ->
  exists s', pipeclose w s = Ok tt s' /\ pipe_ok (pp s') q /\ woken s' = woken s ++ [if w then NREAD else NWRITE] /\
    readopen (pp s') = (w && readopen (pp s))%bool /\ writeopen (pp s') = (negb w && writeopen (pp s))%bool /\
    freed s' = freed s || (negb (readopen (pp s')) && negb (writeopen (pp s'))).
Proof.
  intros H. destruct (acquire_pipe_ok _ _ H) as [E I]. unfold pipeclose. mstep E. unfold upd_pp, wakeup.
  set (p1 := (if w then set_writeopen false else set_readopen false) (set_plock true (pp s))).
  assert (pipe_in p1 q) as I1 by (destruct w; destruct I as [? []]; by split).
  destruct w; mgo; cbn [pp set_pp]; destruct (negb _ && negb _) eqn:Ef;
    first [mstep release_pipe_ok; [|exact I1]|erewrite release_pipe_ok by exact I1];
    mgo; eexists; (split; [reflexivity|]); cbn; (split; [exact (proj2 I1)|]); split_and!; try done;
    cbn in Ef; rewrite Ef; by destruct (freed s).
Qed.

(** ** Readers and writers of one pipe *)

Inductive thread := TW (n : Z) (left : list Z) (asleep : bool) | TR (n : Z) (asleep : bool).
Definition wake1 (c : pchan) (t : thread) : thread :=
  match c, t with
  | NWRITE, TW n l _ => TW n l false
  | NREAD, TR n _ => TR n false
  | _, t => t
  end.
Definition wake_all (cs : list pchan) (ts : list thread) : list thread :=
  fold_left (fun ts c => map (wake1 c) ts) cs ts.

(** [y_sent], [y_got]: the bytes written and read so far. *)
Record sys := Sys { y_pipe : pipe; y_ths : list thread; y_sent : list Z; y_got : list Z }.

Definition is_writer (t : thread) : Prop := match t with TW _ _ _ => True | _ => False end.
Definition is_reader (t : thread) : Prop := match t with TR _ _ => True | _ => False end.

(** A call in progress keeps its end of the pipe open. [kills]: processes are killed. *)
Inductive pstep (kills : bool) : sys -> sys -> Prop :=
  | ps_writer p ts a b n l : writeopen p = true ->
      pstep kills (Sys p ts a b) (Sys p (ts ++ [TW n (take (Z.to_nat n) l) false]) a b)
  | ps_reader p ts a b n : readopen p = true -> pstep kills (Sys p ts a b) (Sys p (ts ++ [TR n false]) a b)
  | ps_write_done p ts a b j n l k v l' s' :
      ts !! j = Some (TW n l false) -> (k = true -> kills = true) ->
      pipewrite_on k n l (Pst p [] false) = Ok (WDone v l') s' ->
      pstep kills (Sys p ts a b)
        (Sys (pp s') (wake_all (woken s') (delete j ts)) (a ++ take (length l - length l') l) b)
  | ps_write_sleep p ts a b j n l k l' s' :
      ts !! j = Some (TW n l false) -> (k = true -> kills = true) ->
      pipewrite_on k n l (Pst p [] false) = Ok (WSleep l') s' ->
      pstep kills (Sys p ts a b)
        (Sys (pp s') (<[j := TW n l' true]> (wake_all (woken s') ts)) (a ++ take (length l - length l') l) b)
  | ps_read_done p ts a b j n k v l s' :
      ts !! j = Some (TR n false) -> (k = true -> kills = true) ->
      piperead_on k n (Pst p [] false) = Ok (RDone v l) s' ->
      pstep kills (Sys p ts a b) (Sys (pp s') (wake_all (woken s') (delete j ts)) a (b ++ l))
  | ps_read_sleep p ts a b j n k s' :
      ts !! j = Some (TR n false) -> (k = true -> kills = true) ->
      piperead_on k n (Pst p [] false) = Ok RSleep s' ->
      pstep kills (Sys p ts a b) (Sys (pp s') (<[j := TR n true]> (wake_all (woken s') ts)) a b)
  | ps_close p ts a b (w : bool) s' :
      (if w then writeopen p = true /\ Forall is_reader ts else readopen p = true /\ Forall is_writer ts) ->
      pipeclose w (Pst p [] false) = Ok tt s' ->
      pstep kills (Sys p ts a b) (Sys (pp s') (wake_all (woken s') ts) a b)
  | ps_killed p ts a b j : kills = true ->
      pstep kills (Sys p ts a b)
        (Sys p (alter (fun t => match t with TW n l _ => TW n l false | TR n _ => TR n false end) j ts) a b).

Definition start : sys := Sys (pipe_init (replicate 512 0)) [] [] [].

Record fifo (y : sys) (q : list Z) : Prop := {
  ff_pipe : pipe_ok (y_pipe y) q;
  ff_bytes : y_sent y = y_got y ++ q;
  ff_w : forall t, t ∈ y_ths y -> is_writer t -> writeopen (y_pipe y) = true;
  ff_r : forall t, t ∈ y_ths y -> is_reader t -> readopen (y_pipe y) = true
}.

(** A sleeping writer has a full pipe, a sleeping reader an empty one. *)
Definition sleeps_ok (p : pipe) (q : list Z) (t : thread) : Prop :=
  match t with
  | TW _ _ true => Z.of_nat (length q) = PIPESIZE
  | TR _ true => q = [] /\ writeopen p = true
  | _ => True
  end.

(** The same kind of thread, awake or as it was. *)
Definition woke (t t' : thread) : Prop := (is_writer t' <-> is_writer t) /\ (is_reader t' <-> is_reader t) /\
  forall p q, sleeps_ok p q t -> sleeps_ok p q t'.

Lemma wake1_woke c t : woke t (wake1 c t).
Proof. destruct c, t; split_and!; try done. Qed.

Lemma elem_wake_all cs ts t : t ∈ wake_all cs ts -> exists t0, t0 ∈ ts /\ woke t0 t.
Proof.
  revert ts. induction cs as [|c cs IH]; intros ts H; [by exists t|].
  destruct (IH _ H) as (t1 & (t0 & -> & H0)%list_elem_of_fmap & W). exists t0. split; [done|].
  destruct (wake1_woke c t0) as (A1 & A2 & A3), W as (B1 & B2 & B3). split_and!; [tauto..|].
  intros p q Hp. by apply B3, A3.
Qed.

Lemma elem_woken c ts t : t ∈ wake_all [c] ts -> exists t0, t0 ∈ ts /\ t = wake1 c t0.
Proof. intros (t0 & -> & H)%list_elem_of_fmap. by exists t0. Qed.

Lemma elem_delete {A} (l : list A) j x : x ∈ delete j l -> x ∈ l.
Proof.
  intros (i & Hi)%list_elem_of_lookup. destruct (decide (i < j)%nat).
  - rewrite list_lookup_delete_lt in Hi by done. by eapply list_elem_of_lookup_2.
  - rewrite list_lookup_delete_ge in Hi by lia. by eapply list_elem_of_lookup_2.
Qed.
Lemma elem_insert {A} (l : list A) j y x : x ∈ <[j := y]> l -> x = y \/ x ∈ l.
Proof.
  intros (i & Hi)%list_elem_of_lookup. destruct (decide (i = j)) as [->|N].
  - destruct (decide (j < length l)%nat) as [Hl|Hl]; [rewrite list_lookup_insert_eq in Hi by done; left; congruence|].
    rewrite list_insert_ge in Hi by lia. right. by eapply list_elem_of_lookup_2.
  - rewrite list_lookup_insert_ne in Hi by done. right. by eapply list_elem_of_lookup_2.
Qed.

Lemma take_dropped {A} (dn rest : list A) : take (length (dn ++ rest) - length rest) (dn ++ rest) = dn.
Proof. rewrite length_app. replace (length dn + length rest - length rest)%nat with (length dn) by lia. apply take_app_length. Qed.

(** Every step keeps the bytes in order. *)
Lemma fifo_step kills y y' q : fifo y q -> pstep kills y y' -> exists q', fifo y' q'.
Proof.
  intros [F1 F2 F3 F4] Hs.
  assert (forall p' q' (ts' : list thread) a' b', pipe_ok p' q' -> a' = b' ++ q' ->
    (forall t, t ∈ ts' -> exists t0, t0 ∈ y_ths y /\ (is_writer t <-> is_writer t0) /\ (is_reader t <-> is_reader t0)) ->
    same_ends (y_pipe y) p' -> fifo (Sys p' ts' a' b') q') as K.
  { intros p' q' ts' a' b' H1 H2 H3 [E1 E2]. split; cbn; [done|done|..]; intros t Ht Hk; rewrite ?E1, ?E2;
      destruct (H3 t Ht) as (t0 & Ht0 & W1 & W2); [by apply (F3 t0), W1|by apply (F4 t0), W2]. }
  assert (forall cs (ts' : list thread), (forall t, t ∈ ts' -> exists t0, t0 ∈ y_ths y /\ (is_writer t <-> is_writer t0) /\ (is_reader t <-> is_reader t0)) ->
    forall t, t ∈ wake_all cs ts' -> exists t0, t0 ∈ y_ths y /\ (is_writer t <-> is_writer t0) /\ (is_reader t <-> is_reader t0)) as Kw.
  { intros cs ts' H t (t1 & H1 & W1 & W2 & _)%elem_wake_all. destruct (H t1 H1) as (t0 & ? & ? & ?). exists t0. split_and!; [done|tauto..]. }
  destruct Hs as [p ts a b n l Ho|p ts a b n Ho|p ts a b j n l k v l' s' Hj Hk E|p ts a b j n l k l' s' Hj Hk E|
    p ts a b j n k v l s' Hj Hk E|p ts a b j n k s' Hj Hk E|p ts a b w s' Hw E|p ts a b j Hk]; cbn [y_pipe y_ths y_sent y_got] in *.
  - exists q. split; cbn; try done; intros t [Ht|Ht%list_elem_of_singleton]%elem_of_app Hk; [by apply (F4 t)|by subst].
  - exists q. split; cbn; try done; intros t [Ht|Ht%list_elem_of_singleton]%elem_of_app Hk; [by apply (F3 t)|by subst].
  - destruct (pipewrite_on_ok k n l (Pst p [] false) q F1) as (r & s1 & E1 & (dn & rest & -> & H1 & H2 & H3 & H4)).
    rewrite E in E1. injection E1 as <- <-. destruct H4 as [-> _]. exists (q ++ dn). rewrite take_dropped.
    apply K; [done|by rewrite F2, app_assoc| |done]. apply Kw. intros t Ht%elem_delete. by exists t.
  - destruct (pipewrite_on_ok k n l (Pst p [] false) q F1) as (r & s1 & E1 & (dn & rest & -> & H1 & H2 & H3 & H4)).
    rewrite E in E1. injection E1 as <- <-. destruct H4 as [-> _]. exists (q ++ dn). rewrite take_dropped.
    apply K; [done|by rewrite F2, app_assoc| |done]. intros t [->|Ht]%elem_insert.
    + exists (TW n (dn ++ rest) false). split; [by eapply list_elem_of_lookup_2|done].
    + revert t Ht. apply Kw. intros t Ht. by exists t.
  - destruct (piperead_on_ok k n (Pst p [] false) q F1) as (r & s1 & E1 & H2 & H3 & H4).
    rewrite E in E1. injection E1 as <- <-. destruct H4 as [(-> & _ & _ & _ & -> & H & _)|(_ & -> & _ & H & _)]; (eexists; apply K; [exact H| |
      apply Kw; intros t Ht%elem_delete; by exists t|done]).
    + by rewrite !app_nil_r in *.
    + by rewrite <- app_assoc, take_drop.
  - destruct (piperead_on_ok k n (Pst p [] false) q F1) as (r & s1 & E1 & H2 & H3 & H4).
    rewrite E in E1. injection E1 as <- <-. destruct H4 as (-> & _ & _ & H & _). exists []. apply K; [done..| |done].
    intros t [->|Ht]%elem_insert; [exists (TR n false); split; [by eapply list_elem_of_lookup_2|done]|].
    revert t Ht. apply Kw. intros t Ht. by exists t.
  - destruct (pipeclose_ok w (Pst p [] false) q F1) as (s1 & E1 & H1 & H2 & H3 & H4 & _). rewrite E in E1. injection E1 as <-.
    exists q. split; cbn; [done|done|..]; rewrite ?H3, ?H4; cbn.
    + intros t (t0 & Ht0 & W1 & W2 & _)%elem_wake_all Hk. apply W1 in Hk. destruct w; cbn.
      * destruct Hw as [_ Hw]. rewrite Forall_forall in Hw. specialize (Hw t0 Ht0). by destruct t0.
      * by apply (F3 t0).
    + intros t (t0 & Ht0 & W1 & W2 & _)%elem_wake_all Hk. apply W2 in Hk. destruct w; cbn.
      * by apply (F4 t0).
      * destruct Hw as [_ Hw]. rewrite Forall_forall in Hw. specialize (Hw t0 Ht0). by destruct t0.
  - exists q. apply K; try done. intros t (i & Hi)%list_elem_of_lookup. destruct (decide (i = j)) as [->|N].
    + rewrite list_lookup_alter_eq in Hi. destruct (ts !! j) as [t0|] eqn:Ej; [|done]. injection Hi as <-.
      exists t0. split; [by eapply list_elem_of_lookup_2|]. by destruct t0.
    + rewrite list_lookup_alter_ne in Hi by done. exists t. split; [by eapply list_elem_of_lookup_2|done].
Qed.

Lemma sleep_kept (p p' : pipe) (q : list Z) t : same_ends p p' -> sleeps_ok p q t -> sleeps_ok p' q t.
Proof. intros [_ E]. destruct t as [n l []|n []]; cbn; rewrite ?E; auto. Qed.

(** A call that ends wakes the other side; one that moves no byte changes nothing. *)
Lemma no_lost_step y y' q :
  fifo y q -> (forall t, t ∈ y_ths y -> sleeps_ok (y_pipe y) q t) -> pstep false y y' ->
  exists q', fifo y' q' /\ forall t, t ∈ y_ths y' -> sleeps_ok (y_pipe y') q' t.
Proof.
  intros F Hsl Hs. destruct (fifo_step _ _ _ _ F Hs) as [q' F']. exists q'. split; [exact F'|].
  assert (forall q2, pipe_ok (y_pipe y') q2 -> y_sent y' = y_got y' ++ q2 -> q2 = q') as Hq.
  { intros q2 _ E2. pose proof (ff_bytes _ _ F') as E3. rewrite E2 in E3. by apply app_inv_head in E3. }
  destruct F as [F1 F2 F3 F4].
  destruct Hs as [p ts a b n l Ho|p ts a b n Ho|p ts a b j n l k v l' s' Hj Hk E|p ts a b j n l k l' s' Hj Hk E|
    p ts a b j n k v l s' Hj Hk E|p ts a b j n k s' Hj Hk E|p ts a b w s' Hw E|p ts a b j Hk]; cbn [y_pipe y_ths y_sent y_got] in *.
  - rewrite <- (Hq q) by done. intros t [Ht|Ht%list_elem_of_singleton]%elem_of_app; [by apply Hsl|by subst].
  - rewrite <- (Hq q) by done. intros t [Ht|Ht%list_elem_of_singleton]%elem_of_app; [by apply Hsl|by subst].
  - destruct (pipewrite_on_ok k n l (Pst p [] false) q F1) as (r & s1 & E1 & (dn & rest & -> & H1 & H2 & H3 & H4)).
    rewrite E in E1. injection E1 as <- <-. destruct H4 as [-> H4]. rewrite take_dropped in Hq. rewrite <- (Hq (q ++ dn)); [|done|by rewrite F2, app_assoc].
    assert (forall t, t ∈ delete j ts -> is_writer t -> sleeps_ok (pp s') (q ++ dn) t) as Hwr.
    { intros t Ht%elem_delete Hk'. destruct t as [m l []|]; [|done..]. specialize (Hsl _ Ht). cbn in *.
      pose proof (po_size _ _ H1) as Hz. rewrite length_app in *. lia. }
    destruct H4 as [(-> & -> & ->)|(Hr & -> & -> & Hf & [Hro|Hko])]; [| |by specialize (Hk Hko)].
    + cbn [app woken]. intros t (t0 & Ht0 & ->)%elem_woken. destruct t0 as [m l z|m z]; [by apply Hwr|done].
    + intros t Ht. destruct t as [m l z|m z]; [by apply Hwr|]. cbn in Hro.
      pose proof (F4 _ (elem_delete _ _ _ Ht) I) as Hcontra. congruence.
  - destruct (pipewrite_on_ok k n l (Pst p [] false) q F1) as (r & s1 & E1 & (dn & rest & -> & H1 & H2 & H3 & H4)).
    rewrite E in E1. injection E1 as <- <-. destruct H4 as (-> & Hr & Hf & Hro & _ & ->). rewrite take_dropped in Hq. rewrite <- (Hq (q ++ dn)); [|done|by rewrite F2, app_assoc].
    cbn [app woken]. intros t [->|(t0 & Ht0 & ->)%elem_woken]%elem_insert; [exact Hf|]. destruct t0 as [m l z|m z]; [|done].
    destruct z; [exact Hf|done].
  - destruct (piperead_on_ok k n (Pst p [] false) q F1) as (r & s1 & E1 & H2 & H3 & H4).
    rewrite E in E1. injection E1 as <- <-. destruct H4 as [(_ & _ & Hko & _)|(Hc & -> & _ & H & ->)]; [by specialize (Hk Hko)|].
    cbn [app woken]. intros t (t0 & Ht0%elem_delete & ->)%elem_woken. destruct t0 as [m l z|m []]; [done| |done].
    specialize (Hsl _ Ht0). cbn in *. destruct Hsl as [-> Hwo], Hc as [Hc|Hc]; congruence.
  - destruct (piperead_on_ok k n (Pst p [] false) q F1) as (r & s1 & E1 & H2 & H3 & H4).
    rewrite E in E1. injection E1 as <- <-. destruct H4 as (-> & Hwo & _ & H & ->). rewrite <- (Hq []) by done.
    cbn [woken]. intros t [->|Ht]%elem_insert; [split; [done|]; destruct H2 as [_ ->]; exact Hwo|].
    eapply sleep_kept; [exact H2|]. by apply Hsl.
  - destruct (pipeclose_ok w (Pst p [] false) q F1) as (s1 & E1 & H1 & H2 & H3 & H4 & _). rewrite E in E1. injection E1 as <-.
    rewrite <- (Hq q) by done. rewrite H2. cbn [app woken]. intros t (t0 & Ht0 & ->)%elem_woken. specialize (Hsl _ Ht0).
    destruct w; cbn in *; destruct t0 as [m l z|m z]; try done.
    cbn in *. rewrite H4. exact Hsl.
  - done.
Qed.

Lemma start_ok : fifo start [] /\ forall t, t ∈ y_ths start -> sleeps_ok (y_pipe start) [] t.
Proof.
  assert (forall t : thread, t ∈ [] -> False) as Hno by (intros t Ht; by apply elem_of_nil in Ht).
  split; [|by intros t ?%Hno]. split; [|done|by intros t ?%Hno|by intros t ?%Hno]. by split.
Qed.

(** C35. Pipes are FIFO queues of at most PIPESIZE bytes, and no wakeup is lost. Whatever
    readers and writers of a pipe do, in any interleaving: the bytes read so far followed
    by those in the buffer are exactly the bytes written, in order; the counters, which
    wrap around at 2^32, differ by the number of bytes in the buffer; and as long as no
    process is killed, a writer sleeps only while the pipe is full and a reader only
    while it is empty and a writer holds it open, so they never all sleep at once. *)
Theorem pipe_fifo (kills : bool) (y : sys) :
  rtc (pstep kills) start y ->
  exists q, y_sent y = y_got y ++ q /\ pipe_ok (y_pipe y) q /\ Z.of_nat (length q) <= PIPESIZE /\
    u32 (nwrite (y_pipe y) - nread (y_pipe y)) = Z.of_nat (length q) /\
    (kills = false ->
       (forall n l, TW n l true ∈ y_ths y -> Z.of_nat (length q) = PIPESIZE) /\
       (forall n, TR n true ∈ y_ths y -> q = [] /\ writeopen (y_pipe y) = true) /\
       ~ ((exists n l, TW n l true ∈ y_ths y) /\ exists n, TR n true ∈ y_ths y)).
Proof.
  intros Hr. assert (exists q, fifo y q /\ (kills = false -> forall t, t ∈ y_ths y -> sleeps_ok (y_pipe y) q t)) as (q & F & Hsl).
  { assert (exists q, fifo start q /\ (kills = false -> forall t, t ∈ y_ths start -> sleeps_ok (y_pipe start) q t)) as H0.
    { exists []. destruct start_ok as [A B]. split; [exact A|intros _; exact B]. }
    revert H0. induction Hr as [|x z w Hxz _ IH]; [done|]. intros (q & F & H). apply IH. destruct kills.
    - destruct (fifo_step _ _ _ _ F Hxz) as [q' F']. by exists q'.
    - destruct (no_lost_step _ _ _ F (H eq_refl) Hxz) as (q' & F' & H'). by exists q'. }
  exists q. split; [apply F|]. pose proof (ff_pipe _ _ F) as P. split; [exact P|]. split; [apply P|].
  split; [by apply pipe_count|]. intros Hk. specialize (Hsl Hk).
  assert (forall n l, TW n l true ∈ y_ths y -> Z.of_nat (length q) = PIPESIZE) as A by (intros n l Ht; exact (Hsl _ Ht)).
  assert (forall n, TR n true ∈ y_ths y -> q = [] /\ writeopen (y_pipe y) = true) as B by (intros n Ht; exact (Hsl _ Ht)).
  split; [exact A|]. split; [exact B|]. intros [(n & l & Hw) (m & Hd)]. apply A in Hw. destruct (B m Hd) as [-> _]. done.
Qed.

(** Each call on every branch. On a sound pipe holding [q], a write of the first [n] of the bytes given
    stores as many as fit: it returns [n] when all did, -1 when it must wait
    but no reader is left or the process is killed, and sleeps otherwise, and only in
    the middle case wakes no reader; a read from an empty pipe sleeps while a writer
    holds it open and returns 0 after that, and otherwise takes the first [n] bytes;
    [pipeclose] closes one end and frees the page when both are closed. *)
Theorem pipe_calls (killed : bool) (n : Z) (l q : list Z) (p : pipe) :
  pipe_ok p q -> let bs := take (Z.to_nat n) l in
  (exists r s' dn rest, pipewrite killed l n (Pst p [] false) = Ok r s' /\ bs = dn ++ rest /\ pipe_ok (pp s') (q ++ dn) /\
     ((rest = [] /\ r = WDone n [] /\ woken s' = [NREAD]) \/
      (rest <> [] /\ Z.of_nat (length (q ++ dn)) = PIPESIZE /\
       ((readopen p = false \/ killed = true) /\ r = WDone (-1) rest /\ woken s' = [] \/
        readopen p = true /\ killed = false /\ r = WSleep rest /\ woken s' = [NREAD])))) /\
  (q = [] -> writeopen p = true -> exists s', pipe_ok (pp s') [] /\
     piperead_on killed n (Pst p [] false) = Ok (if killed then RDone (-1) [] else RSleep) s') /\
  (q <> [] \/ writeopen p = false -> exists s', pipe_ok (pp s') (drop (Z.to_nat n) q) /\ woken s' = [NWRITE] /\
     piperead_on killed n (Pst p [] false) = Ok (RDone (Z.of_nat (length (take (Z.to_nat n) q))) (take (Z.to_nat n) q)) s') /\
  forall w, exists s', pipeclose w (Pst p [] false) = Ok tt s' /\ pipe_ok (pp s') q /\
    freed s' = if w then negb (readopen p) else negb (writeopen p).
Proof.
  intros H bs. split_and!.
  - destruct (pipewrite_on_ok killed n bs (Pst p [] false) q H) as (r & s' & E & (dn & rest & H0 & H1 & _ & _ & H4)).
    exists r, s', dn, rest. split; [exact E|]. split; [done|]. split; [done|].
    destruct r as [v l'|l']; [destruct H4 as [-> [(-> & -> & W)|(Hr & -> & W & Hf & Hc)]]; [by left|]|destruct H4 as (-> & Hr & Hf & Ho & Hk & W)].
    + right. split; [done|]. split; [done|]. by left.
    + right. split; [done|]. split; [done|]. by right.
  - intros -> Hw. destruct (piperead_on_ok killed n (Pst p [] false) [] H) as (r & s' & E & _ & _ & H4). exists s'.
    destruct r as [v l'|]; [destruct H4 as [(_ & _ & -> & -> & -> & Ho & _)|([?|Hc] & _)]; [by split|done|cbn in Hc; congruence]|].
    destruct H4 as (_ & _ & -> & Ho & _). by split.
  - intros Hc. destruct (piperead_on_ok killed n (Pst p [] false) q H) as (r & s' & E & _ & _ & H4). exists s'.
    destruct r as [v l'|]; [destruct H4 as [(-> & Hw & _)|(_ & -> & -> & Ho & W)]|].
    + exfalso. destruct Hc as [?|Hc]; [done|]. cbn in Hw. congruence.
    + by split_and!.
    + exfalso. destruct H4 as (-> & Hw & _). destruct Hc as [?|Hc]; [done|]. cbn in Hw. congruence.
  - intros w. destruct (pipeclose_ok w (Pst p [] false) q H) as (s' & E & H1 & _ & H3 & H4 & H5). exists s'.
    split; [done|]. split; [done|]. rewrite H5, H3, H4. cbn. destruct w, (readopen p), (writeopen p); done.
Qed.

(** ** Concrete runs *)

Lemma pipe_fifo_witness : exists y, rtc (pstep false) start y /\ exists q, y_sent y = y_got y ++ q.
Proof.
  assert (rtc (pstep false) start (Sys (pipe_init (replicate 512 0)) [TR 4 false] [] [])) as R.
  { eapply rtc_l; [by apply ps_reader|apply rtc_refl]. }
  eexists. split; [exact R|]. destruct (pipe_fifo false _ R) as (q & E & _). exists q. exact E.
Defined.

Lemma pipe_calls_witness : exists s', pipewrite false [1; 2; 3] 3 (Pst (pipe_init (replicate 512 0)) [] false) = Ok (WDone 3 []) s'.
Proof.
  destruct (pipe_calls false 3 [1; 2; 3] [] (pipe_init (replicate 512 0)) (ff_pipe _ _ (proj1 start_ok)))
    as ((r & s' & dn & rest & E & Eb & _ & H) & _).
  exists s'. destruct H as [(_ & -> & _)|(_ & Hf & _)]; [exact E|].
  exfalso. assert (length dn <= 3)%nat as Hl.
  { change (take (Z.to_nat 3) [1; 2; 3]) with [1; 2; 3] in Eb. apply (f_equal length) in Eb. rewrite length_app in Eb. cbn in Eb. lia. }
  cbn in Hf. unfold PIPESIZE in Hf. lia.
Defined.

(** C36. A killed writer can leave a reader asleep beside a full pipe. A reader sleeps on
    the empty pipe, a writer that has been killed fills it, and [pipewrite] returns -1
    without the wakeup it makes on its other exits: 512 bytes are in the pipe and the
    reader sleeps on. *)
Theorem killed_writer_loses_wakeup : exists y,
  rtc (pstep true) start y /\ y_ths y = [TR 1 true] /\ y_got y = [] /\
  Z.of_nat (length (y_sent y)) = PIPESIZE /\ nwrite (y_pipe y) = nread (y_pipe y) + PIPESIZE.
Proof.
  eexists. split.
  - eapply rtc_l; [by apply (ps_reader _ _ _ _ _ 1)|].
    eapply rtc_l; [eapply (ps_read_sleep _ _ _ _ _ 0 1 false); [reflexivity|done|vm_compute; reflexivity]|].
    eapply rtc_l; [apply (ps_writer _ _ _ _ _ 600 (replicate 600 7)); reflexivity|].
    eapply rtc_l; [eapply (ps_write_done _ _ _ _ _ 1 600 _ true); [reflexivity|done|vm_compute; reflexivity]|].
    apply rtc_refl.
  - split_and!; vm_compute; reflexivity.
Qed.
