(* ===== verification/Syscall.v ===== *)
(** * System call arguments: p6/syscall.c

    [uctx] is what the argument routines look at: the size of the process, the saved
    user stack pointer, the system call number and the user memory. A result of -1 is
    [None]. [syscall] dispatches to the handlers of a table; a handler runs on the
    state and returns the new value of eax. *)

From S2P Require Import Prelude.

Record uctx := Uctx { uc_sz : Z; uc_esp : Z; uc_mem : memory }.

Definition fetchint (c : uctx) (addr : Z) : option Z :=
  if (uc_sz c <=? addr) || (uc_sz c <? u32 (addr + 4)) then None else Some (s32 (rd32 (uc_mem c) addr)).

(** The loop of [fetchstr] over the [k] bytes from [s]. *)
Fixpoint fetchstr_loop (k : nat) (mem : memory) (s pp : Z) : option Z :=
  match k with
  | O => None
  | S k' => if rd8 mem s =? 0 then Some (s - pp) else fetchstr_loop k' mem (s + 1) pp
  end.
(** The pointer, and the length of the string. *)
Definition fetchstr (c : uctx) (addr : Z) : option (Z * Z) :=
  if uc_sz c <=? addr then None else
  n ← fetchstr_loop (Z.to_nat (uc_sz c - addr)) (uc_mem c) addr addr; Some (addr, n).

Definition argint (c : uctx) (n : Z) : option Z := fetchint c (u32 (uc_esp c + 4 + 4 * n)).
Definition argptr (c : uctx) (n size : Z) : option Z :=
  i ← argint c n;
  if (size <? 0) || (uc_sz c <=? u32 i) || (uc_sz c <? u32 (u32 i + size)) then None else Some (u32 i).
Definition argstr (c : uctx) (n : Z) : option (Z * Z) :=
  addr ← argint c n; fetchstr c (u32 addr).

(** [sys_exec]'s loop over the user's argument vector. *)
Definition MAXARG : nat := 32.
Fixpoint exec_args (k : nat) (c : uctx) (uargv i : Z) : option (list (Z * Z)) :=
  match k with
  | O => None
  | S k' =>
    uarg ← fetchint c (u32 (uargv + 4 * i));
    if uarg =? 0 then Some [] else
    a ← fetchstr c (u32 uarg);
    l ← exec_args k' c uargv (i + 1);
    Some (a :: l)
  end.
(** The path and arguments that [sys_exec] hands to [exec]. *)
Definition sys_exec_args (c : uctx) : option (Z * list Z) :=
  path ← argstr c 0;
  uargv ← argint c 1;
  argv ← exec_args MAXARG c (u32 uargv) 0;
  Some (fst path, map fst argv).

(** ** The arguments lie in the process *)

(** The addresses of [n] bytes from [a] belong to the process. *)
Definition inside (c : uctx) (a n : Z) : Prop := 0 <= a /\ 0 <= n /\ a + n <= uc_sz c.
(** The string of length [n] at [a]. *)
Definition string_at (c : uctx) (a n : Z) : Prop :=
  0 <= n /\ inside c a (n + 1) /\ rd8 (uc_mem c) (a + n) = 0 /\ forall k, 0 <= k < n -> rd8 (uc_mem c) (a + k) <> 0.
(** The word at [a], if its four bytes belong to the process. *)
Definition user_word (c : uctx) (a : Z) : option Z := if decide (inside c a 4) then Some (s32 (rd32 (uc_mem c) a)) else None.
(** [l]: the pointers at [u], up to a null pointer. *)
Definition argv_at (c : uctx) (u : Z) (l : list Z) : Prop :=
  (forall k a, l !! k = Some a -> exists w, user_word c (u32 (u + 4 * Z.of_nat k)) = Some w /\ w <> 0 /\ a = u32 w) /\
  user_word c (u32 (u + 4 * Z.of_nat (length l))) = Some 0.
Definition is_string (c : uctx) (a : Z) : Prop := exists n, string_at c a n.

Section args.
Context (c : uctx) (Hsz : 0 <= uc_sz c <= 2 ^ 31).

Lemma fetchint_ok addr : 0 <= addr < 2 ^ 32 ->
  fetchint c addr = if decide (addr + 4 <= uc_sz c) then Some (s32 (rd32 (uc_mem c) addr)) else None.
Proof.
  intros Ha. unfold fetchint. destruct (Z.leb_spec (uc_sz c) addr); cbn [orb]; [by rewrite decide_False by lia|].
  rewrite u32_small by (unfold is_u32; lia). destruct (Z.ltb_spec (uc_sz c) (addr + 4)); [by rewrite decide_False by lia|by rewrite decide_True by lia].
Qed.

Lemma fetchint_word addr : 0 <= addr < 2 ^ 32 -> fetchint c addr = user_word c addr.
Proof. intros Ha. rewrite fetchint_ok by done. unfold user_word, inside. destruct (decide (addr + 4 <= uc_sz c)); [by rewrite decide_True by lia|by rewrite decide_False by lia]. Qed.

Lemma fetchstr_loop_ok k mem : forall s pp, match fetchstr_loop k mem s pp with
  | Some n => exists j, n = s - pp + j /\ 0 <= j < Z.of_nat k /\ rd8 mem (s + j) = 0 /\ forall i, 0 <= i < j -> rd8 mem (s + i) <> 0
  | None => forall i, 0 <= i < Z.of_nat k -> rd8 mem (s + i) <> 0
  end.
Proof.
  induction k as [|k IH]; intros s pp; cbn [fetchstr_loop]; [lia|]. destruct (Z.eqb_spec (rd8 mem s) 0) as [E|E].
  - exists 0. rewrite !Z.add_0_r. split; [done|]. split; [lia|]. split; [done|]. lia.
  - specialize (IH (s + 1) pp). destruct (fetchstr_loop k mem (s + 1) pp) as [n|].
    + destruct IH as (j & -> & Hj & H0 & Hn). exists (j + 1). split; [lia|]. split; [lia|].
      split; [by replace (s + (j + 1)) with (s + 1 + j) by lia|]. intros i Hi. destruct (decide (i = 0)) as [->|]; [by rewrite Z.add_0_r|].
      replace (s + i) with (s + 1 + (i - 1)) by lia. apply Hn. lia.
    + intros i Hi. destruct (decide (i = 0)) as [->|]; [by rewrite Z.add_0_r|].
      replace (s + i) with (s + 1 + (i - 1)) by lia. apply IH. lia.
Qed.

Lemma fetchstr_ok addr : 0 <= addr -> match fetchstr c addr with
  | Some (p, n) => p = addr /\ string_at c addr n
  | None => forall n, ~ string_at c addr n
  end.
Proof.
  intros Ha. unfold fetchstr. destruct (Z.leb_spec (uc_sz c) addr).
  { intros n (Hn & (_ & _ & Hs) & _). lia. }
  pose proof (fetchstr_loop_ok (Z.to_nat (uc_sz c - addr)) (uc_mem c) addr addr) as P. destruct (fetchstr_loop _ _ _ _) as [n|]; cbn.
  - destruct P as (j & -> & Hj & H0 & Hn). rewrite Z.sub_diag, Z.add_0_l. split; [done|]. split; [lia|]. split; [unfold inside; lia|]. by split.
  - intros n (H0 & (_ & _ & Hs) & Hz & _). apply (P n); [lia|done].
Qed.

Lemma argptr_ok n size : 0 <= size < 2 ^ 31 ->
  argptr c n size = (i ← argint c n; if decide (u32 i < uc_sz c /\ u32 i + size <= uc_sz c) then Some (u32 i) else None).
Proof.
  intros Hs. unfold argptr. destruct (argint c n) as [i|]; [|done]. cbn. pose proof (u32_range i) as Hi. unfold is_u32 in Hi.
  destruct (Z.ltb_spec size 0); [lia|]. cbn [orb]. destruct (Z.leb_spec (uc_sz c) (u32 i)); cbn [orb]; [by rewrite decide_False by lia|].
  rewrite (u32_small (u32 i + size)) by (unfold is_u32; lia).
  destruct (Z.ltb_spec (uc_sz c) (u32 i + size)); [by rewrite decide_False by lia|by rewrite decide_True by lia].
Qed.

Lemma fetchstr_string addr : 0 <= addr -> is_string c addr <-> exists n, fetchstr c addr = Some (addr, n).
Proof.
  intros Ha. pose proof (fetchstr_ok addr Ha) as F. split.
  - intros [n Hn]. destruct (fetchstr c addr) as [[p m]|]; [|by apply F in Hn]. destruct F as [-> _]. by exists m.
  - intros [n E]. rewrite E in F. exists n. apply F.
Qed.
Lemma exec_args_ok k uargv : forall i l, map fst <$> exec_args k c uargv i = Some l <->
  (length l < k)%nat /\ Forall (is_string c) l /\ (forall j a, l !! j = Some a -> exists w, user_word c (u32 (uargv + 4 * (i + Z.of_nat j))) = Some w /\ w <> 0 /\ a = u32 w) /\
  user_word c (u32 (uargv + 4 * (i + Z.of_nat (length l)))) = Some 0.
Proof.
  induction k as [|k IH]; intros i l; [split; [done|lia]|]. cbn [exec_args]. rewrite fetchint_word by apply u32_range.
  destruct l as [|a l].
  - cbn [length]. rewrite Z.add_0_r. destruct (user_word c _) as [u|] eqn:Eu; cbn [mbind option_bind]; [|split; [done|by intros (_ & _ & _ & ?)]].
    destruct (Z.eqb_spec u 0) as [->|Hu]; [split; [intros _; split; [lia|]; split; [constructor|]; split; [by intros ??|done]|done]|].
    split; [|by intros (_ & _ & _ & [= ?])]. destruct (fetchstr c (u32 u)); [|done]. cbn [mbind option_bind]. by destruct (exec_args k c uargv (i + 1)).
  - split.
    + destruct (user_word c _) as [u|] eqn:Eu; [|done]. cbn [mbind option_bind]. destruct (Z.eqb_spec u 0) as [|Hu]; [done|]. destruct (fetchstr c (u32 u)) as [[p n]|] eqn:Ef; [|done]. cbn [mbind option_bind].
      destruct (exec_args k c uargv (i + 1)) as [l'|] eqn:E; [|done]. intros [= <- <-]. destruct (proj1 (IH (i + 1) (map fst l')) ltac:(by rewrite E)) as (L & F & A & Z0).
      pose proof (fetchstr_ok (u32 u) ltac:(apply u32_range)) as Fs. rewrite Ef in Fs. destruct Fs as [-> Fs].
      split; [cbn [length]; lia|]. split; [constructor; [by exists n|done]|]. split.
      * intros [|j] b Hb; [injection Hb as <-; exists u; by rewrite Z.add_0_r|]. destruct (A j b Hb) as (w & Hw & O). exists w. split; [|done]. rewrite <- Hw. do 3 f_equal. lia.
      * rewrite <- Z0. do 3 f_equal. cbn [length]. lia.
    + intros (L & F & A & Z0). apply Forall_cons in F as [Fa F]. destruct (A 0%nat a eq_refl) as (w & Hw & Hnz & ->). rewrite Z.add_0_r in Hw. rewrite Hw. cbn [mbind option_bind]. rewrite (proj2 (Z.eqb_neq _ _) Hnz).
      destruct (proj1 (fetchstr_string (u32 w) ltac:(apply u32_range)) Fa) as [n Ef]. rewrite Ef. cbn [mbind option_bind].
      enough (map fst <$> exec_args k c uargv (i + 1) = Some l) as E by (destruct (exec_args k c uargv (i + 1)) as [l'|]; [by injection E as <-|done]). apply IH.
      split; [cbn [length] in L; lia|]. split; [done|]. split.
      * intros j b Hb. destruct (A (S j) b Hb) as (v & Hv & O). exists v. split; [|done]. rewrite <- Hv. do 3 f_equal. lia.
      * rewrite <- Z0. do 3 f_equal. cbn [length]. lia.
Qed.
Lemma argint_word n : argint c n = user_word c (u32 (uc_esp c + 4 + 4 * n)).
Proof. apply fetchint_word, u32_range. Qed.
Lemma argv_exec u l : map fst <$> exec_args MAXARG c u 0 = Some l <-> (length l < MAXARG)%nat /\ Forall (is_string c) l /\ argv_at c u l.
Proof. rewrite exec_args_ok. unfold argv_at. split; intros (A & B & C & D); by repeat split. Qed.
Lemma sys_exec_args_ok path argv : sys_exec_args c = Some (path, argv) <->
  exists i u, argint c 0 = Some i /\ path = u32 i /\ is_string c path /\ argint c 1 = Some u /\ argv_at c (u32 u) argv /\ Forall (is_string c) argv /\ (length argv < MAXARG)%nat.
Proof.
  unfold sys_exec_args, argstr. split.
  - destruct (argint c 0) as [i|] eqn:E0; [|done]. cbn -[exec_args MAXARG]. destruct (fetchstr c (u32 i)) as [[p m]|] eqn:Ef; [|done]. cbn -[exec_args MAXARG].
    destruct (argint c 1) as [u|]; [|done]. cbn -[exec_args MAXARG]. destruct (exec_args MAXARG c (u32 u) 0) as [l|] eqn:E; [|done]. cbn -[MAXARG]. intros [= <- <-].
    pose proof (fetchstr_ok (u32 i) ltac:(apply u32_range)) as Fs. rewrite Ef in Fs. destruct Fs as [-> Fs]. destruct (proj1 (argv_exec (u32 u) (map fst l)) ltac:(by rewrite E)) as (A & B & C). exists i, u. split_and!; try done. by exists m.
  - intros (i & u & -> & -> & Hs & -> & A & B & L). cbn -[exec_args MAXARG]. destruct (proj1 (fetchstr_string (u32 i) ltac:(apply u32_range)) Hs) as [n ->]. cbn -[exec_args MAXARG].
    pose proof (proj2 (argv_exec (u32 u) argv) (conj L (conj B A))) as E. destruct (exec_args MAXARG c (u32 u) 0) as [l|]; [|done]. cbn -[MAXARG]. injection E as E. by rewrite E.
Qed.
End args.

(** C40. No argument reaches outside the process. For a process of at most KERNBASE bytes:
    the n-th argument is read from the four bytes at esp+4+4n, exactly when they belong
    to the process; a buffer of [size] bytes is accepted exactly when all of it does, in
    spite of the 32-bit sums; a string is accepted exactly when it ends in the process,
    with its length. [sys_exec] hands on a path and arguments exactly when argument 0 is a
    string, argument 1 points to pointers to strings with a null pointer after them, all in the
    process, and there are fewer than MAXARG of them; it hands on those very pointers. *)
Theorem argument_bounds (c : uctx) : 0 <= uc_sz c <= 2 ^ 31 ->
  (forall addr, 0 <= addr < 2 ^ 32 -> fetchint c addr = if decide (inside c addr 4) then Some (s32 (rd32 (uc_mem c) addr)) else None) /\
  (forall n, argint c n = let a := u32 (uc_esp c + 4 + 4 * n) in if decide (inside c a 4) then Some (s32 (rd32 (uc_mem c) a)) else None) /\
  (forall n size p, 0 <= size < 2 ^ 31 -> argptr c n size = Some p -> inside c p size /\ p < uc_sz c /\ exists i, argint c n = Some i /\ p = u32 i) /\
  (forall n size i, argint c n = Some i -> 0 <= size < 2 ^ 31 -> inside c (u32 i) size -> u32 i < uc_sz c -> argptr c n size = Some (u32 i)) /\
  (forall n p len, argstr c n = Some (p, len) <-> exists i, argint c n = Some i /\ p = u32 i /\ string_at c p len) /\
  forall path argv, sys_exec_args c = Some (path, argv) <-> exists i u, argint c 0 = Some i /\ path = u32 i /\ is_string c path /\
    argint c 1 = Some u /\ argv_at c (u32 u) argv /\ Forall (is_string c) argv /\ (length argv < MAXARG)%nat.
Proof.
  intros Hsz. split_and!.
  - intros addr Ha. by apply fetchint_word.
  - intros n. by apply argint_word.
  - intros n size p Hs. rewrite argptr_ok by done. destruct (argint c n) as [i|]; [|done]. cbn. case_decide as Hd; [|done].
    intros [= <-]. pose proof (u32_range i) as Hi. unfold is_u32, inside in *. split; [lia|]. split; [lia|]. by exists i.
  - intros n size i E Hs (_ & _ & Hi) Hp. rewrite argptr_ok, E by done. cbn. by rewrite decide_True.
  - intros n p len. unfold argstr. destruct (argint c n) as [i|]; [|split; [done|]; by intros (? & ? & _)]. cbn.
    pose proof (fetchstr_ok c (u32 i) ltac:(apply u32_range)) as Hf. destruct (fetchstr c (u32 i)) as [[q m]|].
    + destruct Hf as [-> Hf]. split; [intros [= <- <-]; exists i; split; [done|]; split; [done|exact Hf]|]. intros (i' & [= <-] & -> & Hs). do 2 f_equal.
      destruct Hf as (F1 & _ & F2 & F3), Hs as (S1 & _ & S2 & S3).
      destruct (Z.lt_trichotomy m len) as [|[|]]; [by destruct (S3 m ltac:(lia))|done|by destruct (F3 len ltac:(lia))].
    + split; [done|]. intros (i' & [= <-] & -> & Hs). by apply Hf in Hs.
  - intros path argv. by apply sys_exec_args_ok.
Qed.

Lemma argument_bounds_witness : exists c : uctx, 0 <= uc_sz c <= 2 ^ 31 /\ argptr c 0 8 = Some 64.
Proof.
  exists (Uctx 4096 16 (wr32 ∅ 20 64)). split; [cbn; lia|].
  apply (proj1 (proj2 (proj2 (proj2 (argument_bounds (Uctx 4096 16 (wr32 ∅ 20 64)) ltac:(cbn; lia))))) 0 8 64).
  - vm_compute. reflexivity.
  - lia.
  - vm_compute. repeat split; discriminate.
  - vm_compute. reflexivity.
Defined.
