(* ===== verification/File.v ===== *)
(** * Files and file descriptors: p6/file.c, p6/sysfile.c and pipealloc

    [kfs] is what the file system calls of a process work on: the file system [k_fs], the
    file table, the pipes by the address of their page, the page allocator, and the
    descriptor tables of all processes, of which the caller's is [k_cur]. A [struct file]
    is its index in the table; descriptors hold it. User memory is that of the caller. A
    call that would sleep in a pipe is [Hang]; [Pipe] says how it goes on. *)

From S2P Require Import Prelude Spinlock Kalloc Sleeplock Cache Log Journal LogJournal Fs Pipe Syscall.

Definition NFILE : nat := 100.
Definition NOFILE : nat := 16.
Definition O_RDONLY : Z := 0x000.
Definition O_WRONLY : Z := 0x001.
Definition O_RDWR : Z := 0x002.
Definition O_CREATE : Z := 0x200.

Inductive ftype := FD_NONE | FD_PIPE | FD_INODE.
#[export] Instance ftype_eq_dec : EqDecision ftype.
Proof. solve_decision. Defined.
Record file := File {
  f_type : ftype; f_ref : Z; f_readable : bool; f_writable : bool; f_pipe : Z; f_ip : nat; f_off : Z
}.
Definition set_ftype v f := File v (f_ref f) (f_readable f) (f_writable f) (f_pipe f) (f_ip f) (f_off f).
Definition set_fref v f := File (f_type f) v (f_readable f) (f_writable f) (f_pipe f) (f_ip f) (f_off f).
Definition set_foff v f := File (f_type f) (f_ref f) (f_readable f) (f_writable f) (f_pipe f) (f_ip f) v.

(** The offset of [data] in [struct pipe]. *)
Definition PIPEDATA : Z := 52.
Definition page_bytes (m : memory) (a : Z) (n : nat) : list Z := map (fun k => rd8 m (a + Z.of_nat k)) (seq 0 n).
(** [bs] stored at [a]. *)
Fixpoint wr_bytes (m : memory) (a : Z) (bs : list Z) : memory :=
  match bs with [] => m | b :: bs' => wr_bytes (wr8 m a b) (a + 1) bs' end.

Section file.
Context {S : Type} `{C : BlockCache S}.
Context (dev_read : Z -> option (nat -> Z -> M (fsys (S := lst S)) (Z * list Z))).
Context (dev_write : Z -> option (nat -> list Z -> Z -> M (fsys (S := lst S)) Z)).
(** What the uninitialised [name] buffers of the calls hold. *)
Context (name0 : list Z).

Record kfs := Kfs {
  k_fs : fsys (S := lst S);
  ft_lock : bool;
  ft_file : list file;
  k_pipes : gmap Z pipe;
  k_woken : list (Z * pchan);
  k_kst : kst;
  k_ofile : list (list (option nat));
  k_cur : nat;
  k_killed : bool;
  k_u : uctx
}.
Definition set_fs v s := Kfs v (ft_lock s) (ft_file s) (k_pipes s) (k_woken s) (k_kst s) (k_ofile s) (k_cur s) (k_killed s) (k_u s).
Definition set_ftlock v s := Kfs (k_fs s) v (ft_file s) (k_pipes s) (k_woken s) (k_kst s) (k_ofile s) (k_cur s) (k_killed s) (k_u s).
Definition set_files v s := Kfs (k_fs s) (ft_lock s) v (k_pipes s) (k_woken s) (k_kst s) (k_ofile s) (k_cur s) (k_killed s) (k_u s).
Definition set_pipes v w s := Kfs (k_fs s) (ft_lock s) (ft_file s) v w (k_kst s) (k_ofile s) (k_cur s) (k_killed s) (k_u s).
Definition set_kst v s := Kfs (k_fs s) (ft_lock s) (ft_file s) (k_pipes s) (k_woken s) v (k_ofile s) (k_cur s) (k_killed s) (k_u s).
Definition set_ofile v s := Kfs (k_fs s) (ft_lock s) (ft_file s) (k_pipes s) (k_woken s) (k_kst s) v (k_cur s) (k_killed s) (k_u s).
Definition set_u v s := Kfs (k_fs s) (ft_lock s) (ft_file s) (k_pipes s) (k_woken s) (k_kst s) (k_ofile s) (k_cur s) (k_killed s) v.

Definition kf {A} (m : M (fsys (S := lst S)) A) : M kfs A := zoom k_fs set_fs m.
Definition kk {A} (m : M kst A) : M kfs A := zoom k_kst set_kst m.
Definition begin_kop : M kfs unit := kf (dop begin_op).
Definition end_kop : M kfs unit := kf (dop end_op).

(** ** The file table: p6/file.c *)

Definition acquire_ft : M kfs unit := zoom ft_lock set_ftlock spin_acquire.
Definition release_ft : M kfs unit := zoom ft_lock set_ftlock spin_release.
Definition get_file (f : nat) : M kfs file := l ← gets ft_file; of_option (l !! f).
Definition upd_file (f : nat) (g : file -> file) : M kfs unit :=
  x ← get_file f; modify (fun s => set_files (<[f := g x]> (ft_file s)) s).

Definition fileinit : M kfs unit := modify (set_ftlock false).

Fixpoint filealloc_loop (k f : nat) : M kfs (option nat) :=
  match k with
  | O => release_ft;; mret None
  | Datatypes.S k' =>
    x ← get_file f;
    if f_ref x =? 0 then
      upd_file f (set_fref 1);;
      release_ft;;
      mret (Some f)
    else filealloc_loop k' (f + 1)
  end.
Definition filealloc : M kfs (option nat) := acquire_ft;; filealloc_loop NFILE 0.

Definition filedup (f : nat) : M kfs nat :=
  acquire_ft;;
  x ← get_file f;
  if f_ref x <? 1 then panic "filedup" else
  upd_file f (fun x => set_fref (s32 (f_ref x + 1)) x);;
  release_ft;;
  mret f.

(** A call of pipe.c on the pipe at [a]. A pipe that it frees is a free page again. *)
Definition on_pipe {A} (a : Z) (m : M pst A) : M kfs A :=
  ps ← gets k_pipes;
  p ← of_option (ps !! a);
  match m (Pst p [] false) with
  | Ok r t =>
    modify (fun s => set_pipes (if freed t then delete a (k_pipes s) else <[a := pp t]> (k_pipes s))
                               (k_woken s ++ map (pair a) (woken t)) s);;
    when (freed t) (kk (kfree a));;
    mret r
  | Panic e => panic e
  | Hang => hang
  | Undef => undef
  end.

Definition fileclose (f : nat) : M kfs unit :=
  acquire_ft;;
  x ← get_file f;
  if f_ref x <? 1 then panic "fileclose" else
  upd_file f (fun x => set_fref (s32 (f_ref x - 1)) x);;
  x ← get_file f;
  if 0 <? f_ref x then release_ft else
  ff ← get_file f;
  upd_file f (set_fref 0);;
  upd_file f (set_ftype FD_NONE);;
  release_ft;;
  match f_type ff with
  | FD_PIPE => on_pipe (f_pipe ff) (pipeclose (f_writable ff))
  | FD_INODE => begin_kop;; kf (iput (f_ip ff));; end_kop
  | FD_NONE => mret tt
  end.

Definition filestat (f : nat) : M kfs (option stat) :=
  x ← get_file f;
  match f_type x with
  | FD_INODE =>
    kf (ilock (f_ip x));;
    st ← kf (stati (f_ip x));
    kf (iunlock (f_ip x));;
    mret (Some st)
  | _ => mret None
  end.

(** The result, and the bytes read. *)
Definition fileread (f : nat) (n : Z) : M kfs (Z * list Z) :=
  x ← get_file f;
  if negb (f_readable x) then mret (-1, []) else
  match f_type x with
  | FD_PIPE =>
    killed ← gets k_killed;
    r ← on_pipe (f_pipe x) (piperead_on killed n);
    match r with
    | RDone v l => mret (v, l)
    | RSleep => hang
    end
  | FD_INODE =>
    kf (ilock (f_ip x));;
    r ← kf (readi dev_read (f_ip x) (f_off x) (u32 n));
    when (0 <? fst r) (upd_file f (fun x => set_foff (u32 (f_off x + fst r)) x));;
    kf (iunlock (f_ip x));;
    mret r
  | FD_NONE => panic "fileread"
  end.

Definition FILEMAX : Z := Z.quot (MAXOPBLOCKS - 1 - 1 - 2) 2 * 512.
(** The body of the loop of [filewrite]: [n1] bytes from [addr]. *)
Definition filewrite_op (f : nat) (addr : list Z) (n1 : Z) : M kfs Z :=
  begin_kop;;
  x ← get_file f;
  kf (ilock (f_ip x));;
  r ← kf (writei dev_write (f_ip x) addr (f_off x) (u32 n1));
  when (0 <? r) (upd_file f (fun x => set_foff (u32 (f_off x + r)) x));;
  kf (iunlock (f_ip x));;
  end_kop;;
  mret r.
Fixpoint filewrite_loop (fuel f : nat) (addr : list Z) (i n : Z) : M kfs Z :=
  match fuel with
  | O => hang
  | Datatypes.S fuel' =>
    if i <? n then
      let n1 := n - i in
      let n1 := if FILEMAX <? n1 then FILEMAX else n1 in
      r ← filewrite_op f (drop (Z.to_nat i) addr) n1;
      if r <? 0 then mret i else
      if negb (r =? n1) then panic "short filewrite" else
      filewrite_loop fuel' f addr (i + r) n
    else mret i
  end.
Definition filewrite (f : nat) (addr : list Z) (n : Z) : M kfs Z :=
  x ← get_file f;
  if negb (f_writable x) then mret (-1) else
  match f_type x with
  | FD_PIPE =>
    killed ← gets k_killed;
    r ← on_pipe (f_pipe x) (pipewrite killed addr n);
    match r with
    | WDone v _ => mret v
    | WSleep _ => hang
    end
  | FD_INODE =>
    i ← filewrite_loop (Datatypes.S (Z.to_nat n)) f addr 0 n;
    mret (if i =? n then n else -1)
  | FD_NONE => panic "filewrite"
  end.

(** The files of the read end and of the write end. *)
Definition pipealloc : M kfs (option (nat * nat)) :=
  f0 ← filealloc;
  match f0 with
  | None => mret None
  | Some f0 =>
    f1 ← filealloc;
    match f1 with
    | None => fileclose f0;; mret None
    | Some f1 =>
      p ← kk kalloc;
      if p =? 0 then fileclose f0;; fileclose f1;; mret None else
      modify (fun s => set_pipes (<[p := pipe_init (page_bytes (k_mem (k_kst s)) (V2P p + PIPEDATA) (Z.to_nat PIPESIZE))]> (k_pipes s)) (k_woken s) s);;
      upd_file f0 (fun x => File FD_PIPE (f_ref x) true false p (f_ip x) (f_off x));;
      upd_file f1 (fun x => File FD_PIPE (f_ref x) false true p (f_ip x) (f_off x));;
      mret (Some (f0, f1))
    end
  end.

(** ** Descriptors *)

Definition get_fd (fd : nat) : M kfs (option nat) :=
  p ← gets k_cur;
  l ← gets k_ofile;
  t ← of_option (l !! p);
  of_option (t !! fd).
Definition put_fd (fd : nat) (o : option nat) : M kfs unit :=
  p ← gets k_cur;
  modify (fun s => set_ofile (alter (fun t => <[fd := o]> t) p (k_ofile s)) s).

(** The descriptor and its file. *)
Definition argfd (n : Z) : M kfs (option (nat * nat)) :=
  c ← gets k_u;
  match argint c n with
  | None => mret None
  | Some fd =>
    if (fd <? 0) || (Z.of_nat NOFILE <=? fd) then mret None else
    o ← get_fd (Z.to_nat fd);
    match o with
    | None => mret None
    | Some f => mret (Some (Z.to_nat fd, f))
    end
  end.
Fixpoint fdalloc_loop (k fd f : nat) : M kfs (option nat) :=
  match k with
  | O => mret None
  | Datatypes.S k' =>
    o ← get_fd fd;
    match o with
    | None => put_fd fd (Some f);; mret (Some fd)
    | Some _ => fdalloc_loop k' (fd + 1) f
    end
  end.
Definition fdalloc (f : nat) : M kfs (option nat) := fdalloc_loop NOFILE 0 f.

(** ** The calls: p6/sysfile.c *)

Definition user_bytes (c : uctx) (a n : Z) : list Z := page_bytes (uc_mem c) a (Z.to_nat n).
Definition store_user (a : Z) (bs : list Z) : M kfs unit :=
  modify (fun s => set_u (Uctx (uc_sz (k_u s)) (uc_esp (k_u s)) (wr_bytes (uc_mem (k_u s)) a bs)) s).
(** The string argument [n]. *)
Definition argpath (n : Z) : M kfs (option (list Z)) :=
  c ← gets k_u; mret ('(p, len) ← argstr c n; Some (user_bytes c p len)).

Definition sys_dup : M kfs Z :=
  a ← argfd 0;
  match a with
  | None => mret (-1)
  | Some (_, f) =>
    fd ← fdalloc f;
    match fd with
    | None => mret (-1)
    | Some fd => _ ← filedup f; mret (Z.of_nat fd)
    end
  end.

(** The file, the buffer and the length of read and write. *)
Definition rw_args : M kfs (option (nat * Z * Z)) :=
  a ← argfd 0;
  c ← gets k_u;
  mret ('(_, f) ← a; n ← argint c 2; p ← argptr c 1 n; Some (f, p, n)).
Definition sys_read : M kfs Z :=
  a ← rw_args;
  match a with
  | None => mret (-1)
  | Some (f, p, n) => r ← fileread f n; store_user p (snd r);; mret (fst r)
  end.
Definition sys_write : M kfs Z :=
  a ← rw_args;
  match a with
  | None => mret (-1)
  | Some (f, p, n) => c ← gets k_u; filewrite f (user_bytes c p n) n
  end.

Definition sys_close : M kfs Z :=
  a ← argfd 0;
  match a with
  | None => mret (-1)
  | Some (fd, f) => put_fd fd None;; fileclose f;; mret 0
  end.

(** [struct stat] in memory: two bytes of padding after each short. *)
Definition STATSIZE : Z := 20.
Definition store_stat (p : Z) (st : stat) : M kfs unit :=
  store_user p (le16 (st_type st));;
  store_user (p + 4) (le32 (st_dev st) ++ le32 (st_ino st) ++ le16 (st_nlink st));;
  store_user (p + 16) (le32 (st_size st)).
Definition sys_fstat : M kfs Z :=
  a ← argfd 0;
  c ← gets k_u;
  match a, argptr c 1 STATSIZE with
  | Some (_, f), Some p =>
    r ← filestat f;
    match r with
    | None => mret (-1)
    | Some st => store_stat p st;; mret 0
    end
  | _, _ => mret (-1)
  end.

Definition set_inlink (d : Z) (i : inode) : inode :=
  Inode (i_dev i) (i_inum i) (i_ref i) (i_lock i) (i_valid i) (i_type i) (i_major i) (i_minor i) (s16 (i_nlink i + d)) (i_size i) (i_addrs i).

Definition link_bad (ip : nat) : M (fsys (S := lst S)) Z :=
  ilock ip;;
  upd_inode ip (set_inlink (-1));;
  iupdate ip;;
  iunlockput ip;;
  dop end_op;;
  mret (-1).
Definition link (old new : list Z) : M (fsys (S := lst S)) Z :=
  dop begin_op;;
  o ← namei dev_read old;
  match o with
  | None => dop end_op;; mret (-1)
  | Some ip =>
    ilock ip;;
    i ← get_inode ip;
    if i_type i =? T_DIR then iunlockput ip;; dop end_op;; mret (-1) else
    upd_inode ip (set_inlink 1);;
    iupdate ip;;
    iunlock ip;;
    r ← nameiparent dev_read new name0;
    let '(dp, name) := r in
    match dp with
    | None => link_bad ip
    | Some dp =>
      ilock dp;;
      d ← get_inode dp;
      i ← get_inode ip;
      l ← (if negb (i_dev d =? i_dev i) then mret (-1) else dirlink dev_read dev_write dp name (i_inum i));
      if l <? 0 then iunlockput dp;; link_bad ip else
      iunlockput dp;;
      iput ip;;
      dop end_op;;
      mret 0
    end
  end.
Definition sys_link : M kfs Z :=
  old ← argpath 0;
  new ← argpath 1;
  match old, new with
  | Some old, Some new => kf (link old new)
  | _, _ => mret (-1)
  end.

Fixpoint isdirempty_loop (fuel dp : nat) (off : Z) : M (fsys (S := lst S)) bool :=
  match fuel with
  | O => hang
  | Datatypes.S fuel' =>
    i ← get_inode dp;
    if u32 off <? i_size i then
      r ← readi dev_read dp (u32 off) DIRENT;
      let '(n, de) := r in
      if negb (n =? DIRENT) then panic "isdirempty: readi" else
      if negb (de_inum de =? 0) then mret false else isdirempty_loop fuel' dp (s32 (off + DIRENT))
    else mret true
  end.
Definition isdirempty (dp : nat) : M (fsys (S := lst S)) bool :=
  i ← get_inode dp; isdirempty_loop (Datatypes.S (Z.to_nat (i_size i))) dp (2 * DIRENT).

Definition unlink_bad (dp : nat) : M (fsys (S := lst S)) Z := iunlockput dp;; dop end_op;; mret (-1).
Definition DOT : list Z := [46; 0].
Definition DOTDOT : list Z := [46; 46; 0].
Definition unlink (path : list Z) : M (fsys (S := lst S)) Z :=
  dop begin_op;;
  r ← nameiparent dev_read path name0;
  let '(dp, name) := r in
  match dp with
  | None => dop end_op;; mret (-1)
  | Some dp =>
    ilock dp;;
    if (namecmp name DOT =? 0) || (namecmp name DOTDOT =? 0) then unlink_bad dp else
    e ← dirlookup dev_read dp name;
    match e with
    | None => unlink_bad dp
    | Some (ip, off) =>
      ilock ip;;
      i ← get_inode ip;
      if i_nlink i <? 1 then panic "unlink: nlink < 1" else
      full ← (if i_type i =? T_DIR then e ← isdirempty ip; mret (negb e) else mret false);
      if (full : bool) then iunlockput ip;; unlink_bad dp else
      n ← writei dev_write dp (replicate (Z.to_nat DIRENT) 0) off DIRENT;
      if negb (n =? DIRENT) then panic "unlink: writei" else
      i ← get_inode ip;
      when (i_type i =? T_DIR) (upd_inode dp (set_inlink (-1));; iupdate dp);;
      iunlockput dp;;
      upd_inode ip (set_inlink (-1));;
      iupdate ip;;
      iunlockput ip;;
      dop end_op;;
      mret 0
    end
  end.
Definition sys_unlink : M kfs Z :=
  path ← argpath 0;
  match path with
  | None => mret (-1)
  | Some path => kf (unlink path)
  end.

Definition create (path : list Z) (type major minor : Z) : M (fsys (S := lst S)) (option nat) :=
  r ← nameiparent dev_read path name0;
  let '(dp, name) := r in
  match dp with
  | None => mret None
  | Some dp =>
    ilock dp;;
    e ← dirlookup dev_read dp name;
    match e with
    | Some (ip, _) =>
      iunlockput dp;;
      ilock ip;;
      i ← get_inode ip;
      if (type =? T_FILE) && (i_type i =? T_FILE) then mret (Some ip) else iunlockput ip;; mret None
    | None =>
      d ← get_inode dp;
      ip ← ialloc (i_dev d) type;
      ilock ip;;
      upd_inode ip (fun i => Inode (i_dev i) (i_inum i) (i_ref i) (i_lock i) (i_valid i) (i_type i) major minor 1 (i_size i) (i_addrs i));;
      iupdate ip;;
      i ← get_inode ip;
      when (type =? T_DIR)
        (upd_inode dp (set_inlink 1);;
         iupdate dp;;
         r1 ← dirlink dev_read dev_write ip DOT (i_inum i);
         r2 ← (if r1 <? 0 then mret (-1) else dirlink dev_read dev_write ip DOTDOT (i_inum d));
         when (r2 <? 0) (panic "create dots"));;
      r ← dirlink dev_read dev_write dp name (i_inum i);
      when (r <? 0) (panic "create: dirlink");;
      iunlockput dp;;
      mret (Some ip)
    end
  end.

(** [sys_open] after the inode is found, locked and of the right type. *)
Definition open_file (ip : nat) (omode : Z) : M kfs Z :=
  f ← filealloc;
  fd ← (match f with Some f => fdalloc f | None => mret None end);
  match f, fd with
  | Some f, Some fd =>
    kf (iunlock ip);;
    end_kop;;
    upd_file f (fun x => File FD_INODE (f_ref x)
      (Z.land omode O_WRONLY =? 0) (negb (Z.land omode O_WRONLY =? 0) || negb (Z.land omode O_RDWR =? 0)) (f_pipe x) ip 0);;
    mret (Z.of_nat fd)
  | _, _ =>
    (match f with Some f => fileclose f | None => mret tt end);;
    kf (iunlockput ip);;
    end_kop;;
    mret (-1)
  end.
Definition open_inode (path : list Z) (omode : Z) : M (fsys (S := lst S)) (option nat) :=
  if negb (Z.land omode O_CREATE =? 0) then create path T_FILE 0 0 else
  o ← namei dev_read path;
  match o with
  | None => mret None
  | Some ip =>
    ilock ip;;
    i ← get_inode ip;
    if (i_type i =? T_DIR) && negb (omode =? O_RDONLY) then iunlockput ip;; mret None else mret (Some ip)
  end.
Definition sys_open : M kfs Z :=
  path ← argpath 0;
  c ← gets k_u;
  match path, argint c 1 with
  | Some path, Some omode =>
    begin_kop;;
    o ← kf (open_inode path omode);
    match o with
    | None => end_kop;; mret (-1)
    | Some ip => open_file ip omode
    end
  | _, _ => mret (-1)
  end.

Definition sys_mkdir : M kfs Z :=
  begin_kop;;
  path ← argpath 0;
  o ← (match path with Some path => kf (create path T_DIR 0 0) | None => mret None end);
  match o with
  | None => end_kop;; mret (-1)
  | Some ip => kf (iunlockput ip);; end_kop;; mret 0
  end.

Definition sys_mknod : M kfs Z :=
  begin_kop;;
  path ← argpath 0;
  c ← gets k_u;
  o ← (match path, argint c 1, argint c 2 with
       | Some path, Some major, Some minor => kf (create path T_DEV (s16 major) (s16 minor))
       | _, _, _ => mret None
       end);
  match o with
  | None => end_kop;; mret (-1)
  | Some ip => kf (iunlockput ip);; end_kop;; mret 0
  end.

Definition set_cwd (v : nat) (s : fsys (S := lst S)) : fsys := Fsys (fs_d s) (sb s) (ic_lock s) (ic_inode s) (mypid s) v.
Definition chdir (path : option (list Z)) : M (fsys (S := lst S)) Z :=
  dop begin_op;;
  o ← (match path with Some path => namei dev_read path | None => mret None end);
  match o with
  | None => dop end_op;; mret (-1)
  | Some ip =>
    ilock ip;;
    i ← get_inode ip;
    if negb (i_type i =? T_DIR) then iunlockput ip;; dop end_op;; mret (-1) else
    iunlock ip;;
    c ← gets cwd;
    iput c;;
    dop end_op;;
    modify (set_cwd ip);;
    mret 0
  end.
Definition sys_chdir : M kfs Z := path ← argpath 0; kf (chdir path).

Definition sys_pipe : M kfs Z :=
  c ← gets k_u;
  match argptr c 0 8 with
  | None => mret (-1)
  | Some p =>
    r ← pipealloc;
    match r with
    | None => mret (-1)
    | Some (rf, wf) =>
      fd0 ← fdalloc rf;
      fd1 ← (match fd0 with Some _ => fdalloc wf | None => mret None end);
      match fd0, fd1 with
      | Some fd0, Some fd1 =>
        store_user p (le32 (Z.of_nat fd0));;
        store_user (p + 4) (le32 (Z.of_nat fd1));;
        mret 0
      | _, _ =>
        (match fd0 with Some fd0 => put_fd fd0 None | None => mret tt end);;
        fileclose rf;;
        fileclose wf;;
        mret (-1)
      end
    end
  end.

(** ** The descriptors of fork and exit: p6/proc.c *)

(** The loop of [fork] over the [k] descriptors from [i], into the table of [np]. *)
Fixpoint fork_files (k i np : nat) : M kfs unit :=
  match k with
  | O => mret tt
  | Datatypes.S k' =>
    o ← get_fd i;
    match o with
    | None => mret tt
    | Some f => f' ← filedup f; modify (fun s => set_ofile (alter (fun t => <[i := Some f']> t) np (k_ofile s)) s)
    end;;
    fork_files k' (i + 1) np
  end.
(** The loop of [exit]. *)
Fixpoint exit_files (k fd : nat) : M kfs unit :=
  match k with
  | O => mret tt
  | Datatypes.S k' =>
    o ← get_fd fd;
    match o with
    | None => mret tt
    | Some f => fileclose f;; put_fd fd None
    end;;
    exit_files k' (fd + 1)
  end.
End file.
