(* ===== verification/FileRef.v ===== *)
(** * Reference counts of files and pipes

    The invariant of the file table: the count of a file is the number of descriptors that
    name it, in all processes, and every open end of a pipe belongs to one file. A pipe's
    page is freed when the last of them is closed and never while one is open. *)

From S2P Require Import Prelude Spinlock Kalloc Sleeplock Cache Log Journal LogJournal Fs Pipe Syscall File.

(** ** Counting descriptors *)

Definition NPROC : nat := 64.
Definition names (f : nat) (o : option nat) : nat := if decide (o = Some f) then 1 else 0.
Definition count_fds (f : nat) (t : list (option nat)) : nat := sum_list_with (names f) t.
Definition fd_total (f : nat) (ts : list (list (option nat))) : nat := sum_list_with (count_fds f) ts.

#[global] Arguments fd_total : simpl never.
#[global] Arguments count_fds : simpl never.

Lemma sum_list_insert {A} (g : A -> nat) l i x y : l !! i = Some x ->
  (sum_list_with g (<[i := y]> l) + g x = sum_list_with g l + g y)%nat.
Proof.
  revert i. induction l as [|z l IH]; intros [|i] E; try done; cbn in *.
  - injection E as ->. lia.
  - specialize (IH i E). transitivity (g z + (sum_list_with g (<[i:=y]> l) + g x))%nat; [symmetry; apply Nat.add_assoc|]. rewrite IH. lia.
Qed.
Lemma sum_list_bound {A} (g : A -> nat) l k : (forall x, x ∈ l -> (g x <= k)%nat) -> (sum_list_with g l <= k * length l)%nat.
Proof.
  induction l as [|x l IH]; intros H; cbn; [lia|]. pose proof (H x ltac:(by left)). assert (sum_list_with g l <= k * length l)%nat by (apply IH; intros y Hy; apply H; by right). lia.
Qed.

Lemma list_alter_at {A} (g : A -> A) (l : list A) (i : nat) x : l !! i = Some x -> alter g i l = <[i := g x]> l.
Proof. revert i. induction l as [|y l IH]; intros [|i] E; try done; cbn in *; [by injection E as ->|]. by rewrite <- IH. Qed.

(** Descriptor [fd] of process [p] changes from [o] to [o']. *)
Lemma fd_total_put f ts p t fd o o' : ts !! p = Some t -> t !! fd = Some o ->
  (fd_total f (alter (fun t => <[fd := o']> t) p ts) + names f o = fd_total f ts + names f o')%nat.
Proof.
  intros Hp Ho. unfold fd_total. rewrite (list_alter_at _ _ _ _ Hp).
  pose proof (sum_list_insert (count_fds f) ts p t (<[fd := o']> t) Hp). pose proof (sum_list_insert (names f) t fd o o' Ho). unfold count_fds in *. lia.
Qed.
Lemma fd_total_bound f ts : Forall (fun t => length t = NOFILE) ts -> (fd_total f ts <= NOFILE * length ts)%nat.
Proof.
  intros Ht. rewrite Forall_forall in Ht. apply sum_list_bound. intros t Hin. rewrite <- (Ht t Hin).
  etrans; [apply (sum_list_bound (names f) t 1)|lia]. intros o _. unfold names. case_decide; lia.
Qed.
Lemma fd_total_pos f ts p t fd : ts !! p = Some t -> t !! fd = Some (Some f) -> (0 < fd_total f ts)%nat.
Proof.
  intros Hp Ho. pose proof (fd_total_put f ts p t fd (Some f) None Hp Ho) as E. unfold names in E.
  rewrite decide_True, decide_False in E by done. lia.
Qed.

(** ** The invariant *)

Section inv.
Context {S : Type} `{C : BlockCache S}.
Context (dev_read : Z -> option (nat -> Z -> M (fsys (S := lst S)) (Z * list Z))).
Context (dev_write : Z -> option (nat -> list Z -> Z -> M (fsys (S := lst S)) Z)).
Context (name0 : list Z).
Implicit Types s : kfs (S := S).

(** [d f] is what the count of [f] is ahead of its descriptors, inside a call. *)
Record files_ok s (d : nat -> Z) : Prop := {
  fk_lock : ft_lock s = false;
  fk_len : length (ft_file s) = NFILE;
  fk_tables : Forall (fun t => length t = NOFILE) (k_ofile s);
  fk_procs : (k_cur s < length (k_ofile s) <= NPROC)%nat;
  fk_used : forall p t fd f, k_ofile s !! p = Some t -> t !! fd = Some (Some f) -> (f < NFILE)%nat;
  fk_ref : forall f x, ft_file s !! f = Some x -> f_ref x = Z.of_nat (fd_total f (k_ofile s)) + d f;
  fk_none : forall f x, ft_file s !! f = Some x -> 0 <= f_ref x /\ (f_ref x = 0 -> f_type x = FD_NONE);
  fk_ahead : forall f, d f <= 1
}.
(** The file is the end [w] of the pipe at [a]. *)
Definition pipe_end (a : Z) (w : bool) (x : file) : Prop :=
  f_type x = FD_PIPE /\ f_pipe x = a /\ f_writable x = w /\ f_readable x = negb w.
Definition is_open (w : bool) (p : pipe) : bool := if w then writeopen p else readopen p.
Record pipes_ok (l : list file) (ps : gmap Z pipe) : Prop := {
  pk_file : forall f x, l !! f = Some x -> f_type x = FD_PIPE -> exists a w p, pipe_end a w x /\ ps !! a = Some p /\ is_open w p = true;
  pk_one : forall f g x y a w, l !! f = Some x -> l !! g = Some y -> pipe_end a w x -> pipe_end a w y -> f = g;
  pk_open : forall a p w, ps !! a = Some p -> is_open w p = true -> exists f x, l !! f = Some x /\ pipe_end a w x;
  pk_pipe : forall a p, ps !! a = Some p -> (exists q, pipe_ok p q) /\ exists w, is_open w p = true
}.
(** The pages of the pipes are allocated. *)
Definition pages_ok (me : nat) (k : kst) (ps : gmap Z pipe) : Prop :=
  exists l, kinv me k l /\ forall a p, ps !! a = Some p -> page_ok (k_end k) a /\ a ∉ l.

Context (me : nat).
Record files_inv (d : nat -> Z) s : Prop := {
  fv_files : files_ok s d;
  fv_pipes : pipes_ok (ft_file s) (k_pipes s);
  fv_pages : pages_ok me (k_kst s) (k_pipes s)
}.

Definition bump (f : nat) (k : Z) (d : nat -> Z) : nat -> Z := fun g => d g + (if decide (g = f) then k else 0).

Lemma files_ext d d' s : (forall f, d f = d' f) -> files_ok s d -> files_ok s d'.
Proof.
  intros E [H1 H2 H3 H4 H5 H6 H7 H8]. split; try done.
  - intros f x Hf. rewrite <- E. by apply H6.
  - intros f. by rewrite <- E.
Qed.
Lemma inv_ext d d' s : (forall f, d f = d' f) -> files_inv d s -> files_inv d' s.
Proof. intros E [F P G]. split; [by apply (files_ext d)|done|done]. Qed.

(** The file system's part of the state does not matter. *)
Lemma inv_fs d s v : files_inv d s -> files_inv d (set_fs v s).
Proof. intros [[] P G]. split; [by split|exact P|exact G]. Qed.
Lemma inv_u d s v : files_inv d s -> files_inv d (set_u v s).
Proof. intros [[] P G]. split; [by split|exact P|exact G]. Qed.

(** A file changes in its offset, its count or its type. *)
Lemma lookup_set_file (l : list file) f x g y : l !! f = Some x -> <[f := y]> l !! g = if decide (g = f) then Some y else l !! g.
Proof.
  intros E. destruct (decide (g = f)) as [->|N]; [by apply list_lookup_insert_eq; apply lookup_lt_Some in E|by apply list_lookup_insert_ne].
Qed.

(** Pipes do not see changes of a file that stays what it is for them. *)
Lemma pipes_same l ps f x y : pipes_ok l ps -> l !! f = Some x -> f_type y = f_type x -> f_pipe y = f_pipe x ->
  f_writable y = f_writable x -> f_readable y = f_readable x -> pipes_ok (<[f := y]> l) ps.
Proof.
  intros [H1 H2 H3 H4] E Ht Hp Hw Hr. assert (forall a w, pipe_end a w y <-> pipe_end a w x) as Hpe by (intros; unfold pipe_end; by rewrite Ht, Hp, Hw, Hr).
  assert (forall g z, <[f := y]> l !! g = Some z -> exists z', l !! g = Some z' /\ f_type z = f_type z' /\ f_pipe z = f_pipe z' /\ forall a w, pipe_end a w z <-> pipe_end a w z') as K.
  { intros g z. rewrite (lookup_set_file _ _ x) by done. case_decide as Hg; [|by exists z]. intros [= <-]. subst g. by exists x. }
  split; [| | |done].
  - intros g z Hg Hz. destruct (K g z Hg) as (z' & Hg' & K1 & K2 & K3). setoid_rewrite K3. rewrite K1 in Hz. by apply (H1 g).
  - intros g h z1 z2 a w Hg Hh P1 P2. destruct (K g z1 Hg) as (z1' & Hg' & _ & _ & K1). destruct (K h z2 Hh) as (z2' & Hh' & _ & _ & K2).
    apply (H2 g h z1' z2' a w); try done; [by apply K1|by apply K2].
  - intros a p w Ha Ho. destruct (H3 a p w Ha Ho) as (g & z & Hg & Hz). exists g. destruct (decide (g = f)) as [->|N].
    + exists y. rewrite (lookup_set_file _ _ x), decide_True by done. split; [done|]. apply Hpe. by simplify_eq.
    + exists z. by rewrite (lookup_set_file _ _ x), decide_False by done.
Qed.

(** A file that is no pipe becomes another that is no pipe. *)
Lemma pipes_other l ps f x y : pipes_ok l ps -> l !! f = Some x -> f_type x <> FD_PIPE -> f_type y <> FD_PIPE -> pipes_ok (<[f := y]> l) ps.
Proof.
  intros [H1 H2 H3 H4] E Hx Hy.
  assert (forall g z, <[f := y]> l !! g = Some z -> f_type z = FD_PIPE -> l !! g = Some z) as K.
  { intros g z. rewrite (lookup_set_file _ _ x) by done. case_decide; [|done]. by intros [= <-]. }
  split; [| | |done].
  - intros g z Hg Hz. apply (H1 g); [by apply K|done].
  - intros g h z1 z2 a w Hg Hh P1 P2. pose proof (proj1 P1). pose proof (proj1 P2). apply (H2 g h z1 z2 a w); try done; by apply K.
  - intros a p w Ha Ho. destruct (H3 a p w Ha Ho) as (g & z & Hg & Hz). exists g, z. split; [|done].
    rewrite (lookup_set_file _ _ x), decide_False by (done || (intros ->; simplify_eq; by destruct Hz)). done.
Qed.

(** The count of file [f] changes by [k]. *)
Lemma files_count s d f x y k : files_ok s d -> ft_file s !! f = Some x -> f_ref y = f_ref x + k -> 0 <= f_ref y -> (f_ref y = 0 -> f_type y = FD_NONE) -> d f + k <= 1 ->
  files_ok (set_files (<[f := y]> (ft_file s)) s) (bump f k d).
Proof.
  intros [H1 H2 H3 H4 H5 H6 H7 H8] E Hr Hr0 Hn Hd. split; try done; cbn.
  - by rewrite length_insert.
  - intros g z. rewrite (lookup_set_file _ _ x) by done. unfold bump. case_decide as Hg; [|rewrite Z.add_0_r; apply H6]. intros [= <-]. subst g. rewrite Hr, (H6 f x E). lia.
  - intros g z. rewrite (lookup_set_file _ _ x) by done. case_decide; [by intros [= <-]|apply H7].
  - intros g. unfold bump. case_decide as Hg; [by subst g|]. rewrite Z.add_0_r. apply H8.
Qed.

(** Descriptor [fd] of process [p] changes from [o] to [o']. *)
Definition moved (o o' : option nat) (d : nat -> Z) : nat -> Z := fun f => d f + Z.of_nat (names f o) - Z.of_nat (names f o').
Lemma files_put s d p t fd o o' : files_ok s d -> k_ofile s !! p = Some t -> t !! fd = Some o ->
  (forall f, o' = Some f -> (f < NFILE)%nat) -> (forall f, moved o o' d f <= 1) ->
  files_ok (set_ofile (alter (fun t => <[fd := o']> t) p (k_ofile s)) s) (moved o o' d).
Proof.
  intros [H1 H2 H3 H4 H5 H6 H7 H8] Hp Ho Hf Hd. split; try done; cbn.
  - rewrite (list_alter_at _ _ _ _ Hp). apply Forall_insert; [done|]. rewrite length_insert. by eapply Forall_lookup_1 in H3.
  - by rewrite length_alter.
  - intros q t' fd' f. rewrite (list_alter_at _ _ _ _ Hp). destruct (decide (q = p)) as [->|N].
    + rewrite list_lookup_insert_eq by (by eapply lookup_lt_Some). intros [= <-]. destruct (decide (fd' = fd)) as [->|N].
      * rewrite list_lookup_insert_eq by (by eapply lookup_lt_Some). intros [= ->]. by apply Hf.
      * rewrite list_lookup_insert_ne by done. by apply (H5 p).
    + rewrite list_lookup_insert_ne by done. by apply H5.
  - intros f x Hx. rewrite (H6 f x Hx). pose proof (fd_total_put f _ _ _ _ o o' Hp Ho). unfold moved. lia.
Qed.

(** ** The operations *)

Definition tri {A} (P : kfs (S := S) -> Prop) (m : M kfs A) (Q : A -> kfs -> Prop) : Prop := forall s a s', P s -> m s = Ok a s' -> Q a s'.
Lemma tri_bind {A B} P (m : M kfs A) (k : A -> M kfs B) Q R : tri P m Q -> (forall a, tri (Q a) (k a) R) -> tri P (m ≫= k) R.
Proof.
  intros H1 H2 s b s' HP E. unfold mbind, M_bind in E. destruct (m s) as [a s1| | |] eqn:Em; try done. by apply (H2 a s1 b s'); [apply (H1 s)|].
Qed.
Lemma tri_ret {A} P (a : A) (Q : A -> kfs -> Prop) : (forall s, P s -> Q a s) -> tri P (mret a) Q.
Proof. intros H s b s' HP [= <- <-]. by apply H. Qed.
Lemma tri_pre {A} (P P' : kfs (S := S) -> Prop) (m : M kfs A) Q : tri P m Q -> (forall s, P' s -> P s) -> tri P' m Q.
Proof. intros H HP s a s' Hs E. apply (H s); [by apply HP|done]. Qed.
Lemma tri_post {A} P (m : M kfs A) (Q Q' : A -> kfs -> Prop) : tri P m Q -> (forall a s, Q a s -> Q' a s) -> tri P m Q'.
Proof. intros H HQ s a s' Hs E. by apply HQ, (H s). Qed.
Lemma tri_kf {A} d (m : M (fsys (S := lst S)) A) : tri (files_inv d) (kf m) (fun _ => files_inv d).
Proof. intros s a s' I E. unfold kf, zoom in E. destruct (m (k_fs s)); try done. injection E as <- <-. by apply inv_fs. Qed.
Lemma tri_gets {A} P (g : kfs -> A) : tri P (gets g) (fun _ => P).
Proof. intros s a s' I E. by injection E as <- <-. Qed.
Lemma tri_stop {A} P (m : M kfs A) Q : (forall s a s', m s <> Ok a s') -> tri P m Q.
Proof. intros H s a s' _ E. by destruct (H s a s'). Qed.
Lemma tri_when {A} P b (m : M kfs unit) (k : unit -> M kfs A) Q : tri P m (fun _ => P) -> (forall u, tri P (k u) Q) -> tri P (when b m ≫= k) Q.
Proof. intros H K. apply tri_bind with (Q := fun _ => P); [|done]. destruct b; [done|by apply tri_ret]. Qed.

Lemma get_file_ok s f x : ft_file s !! f = Some x -> get_file f s = Ok x s.
Proof. intros E. unfold get_file. rewrite bind_gets, E. done. Qed.
Lemma upd_file_ok s f x g : ft_file s !! f = Some x -> upd_file f g s = Ok tt (set_files (<[f := g x]> (ft_file s)) s).
Proof. intros E. unfold upd_file. by mstep (get_file_ok s f x E). Qed.
Lemma acquire_ft_ok s : ft_lock s = false -> acquire_ft s = Ok tt (set_ftlock true s).
Proof. intros E. unfold acquire_ft, zoom. by rewrite E. Qed.
Lemma release_ft_ok s : ft_lock s = true -> release_ft s = Ok tt (set_ftlock false s).
Proof. intros E. unfold release_ft, zoom. by rewrite E. Qed.
Lemma set_ftlock_same s : ft_lock s = false -> set_ftlock false s = s.
Proof. destruct s. cbn. by intros ->. Qed.

(** The part of a call that looks for a file that is free. *)
Lemma filealloc_loop_ok s k : forall f, ft_lock s = false -> (f + k = length (ft_file s))%nat ->
  (exists g x, (f <= g < f + k)%nat /\ ft_file s !! g = Some x /\ f_ref x = 0 /\
     filealloc_loop k f (set_ftlock true s) = Ok (Some g) (set_files (<[g := set_fref 1 x]> (ft_file s)) s)) \/
  ((forall g x, (f <= g)%nat -> ft_file s !! g = Some x -> f_ref x <> 0) /\ filealloc_loop k f (set_ftlock true s) = Ok None s).
Proof.
  induction k as [|k IH]; intros f Hl Hk; cbn [filealloc_loop].
  - right. split; [intros g x Hg Hx; apply lookup_lt_Some in Hx; lia|]. mstep (release_ft_ok (set_ftlock true s) eq_refl).
    unfold mret, M_ret. f_equal. destruct s. cbn in *. by subst.
  - destruct (lookup_lt_is_Some_2 (ft_file s) f) as [x Hx]; [lia|]. mstep (get_file_ok (set_ftlock true s) f x Hx).
    destruct (Z.eqb_spec (f_ref x) 0) as [E0|E0].
    + left. exists f, x. split; [lia|]. split; [done|]. split; [done|]. mstep (upd_file_ok (set_ftlock true s) f x _ Hx).
      mstep (release_ft_ok (set_files (<[f := set_fref 1 x]> (ft_file s)) (set_ftlock true s)) eq_refl).
      unfold mret, M_ret. f_equal. destruct s. cbn in *. by subst.
    + replace (f + 1)%nat with (Datatypes.S f) by lia. destruct (IH (Datatypes.S f) Hl ltac:(lia)) as [(g & y & Hg & Hy & H0 & E)|[Hn E]].
      * left. exists g, y. split; [lia|]. done.
      * right. split; [|done]. intros g y Hg Hy. destruct (decide (g = f)) as [->|]; [by simplify_eq|]. apply (Hn g y); [lia|done].
Qed.
Lemma filealloc_ok s d : files_ok s d ->
  (exists f x, ft_file s !! f = Some x /\ f_ref x = 0 /\ filealloc s = Ok (Some f) (set_files (<[f := set_fref 1 x]> (ft_file s)) s)) \/
  ((forall f x, ft_file s !! f = Some x -> f_ref x <> 0) /\ filealloc s = Ok None s).
Proof.
  intros [H1 H2 _ _ _ _ _ _]. unfold filealloc. mstep (acquire_ft_ok s H1).
  destruct (filealloc_loop_ok s NFILE 0 H1 ltac:(lia)) as [(g & x & _ & Hx & H0 & E)|[Hn E]].
  - left. by exists g, x.
  - right. split; [|done]. intros f x. apply Hn. lia.
Qed.
Lemma files_alloc d s f x : files_inv d s -> ft_file s !! f = Some x -> f_ref x = 0 -> files_inv (bump f 1 d) (set_files (<[f := set_fref 1 x]> (ft_file s)) s).
Proof.
  intros [F P G] Hx H0. split.
  - apply (files_count s d f x); try done; cbn; [lia|]. pose proof (fk_ref _ _ F f x Hx). lia.
  - apply (pipes_same _ _ _ x); done.
  - done.
Qed.

Lemma filedup_ok s d f x : files_ok s d -> ft_file s !! f = Some x -> 0 < f_ref x ->
  filedup f s = Ok f (set_files (<[f := set_fref (s32 (f_ref x + 1)) x]> (ft_file s)) s).
Proof.
  intros [H1 _ _ _ _ _ _ _] Hx Hr. unfold filedup. mstep (acquire_ft_ok s H1). mstep (get_file_ok (set_ftlock true s) f x Hx).
  destruct (Z.ltb_spec (f_ref x) 1); [lia|]. mstep (upd_file_ok (set_ftlock true s) f x _ Hx).
  set (g := <[f := _]> _). mstep (release_ft_ok (set_files g (set_ftlock true s)) eq_refl). unfold mret, M_ret. f_equal. destruct s. cbn in *. by subst.
Qed.
(** A count is far from its limit. *)
Lemma ref_small s d f x : files_ok s d -> ft_file s !! f = Some x -> 0 <= f_ref x <= 1025.
Proof.
  intros F Hx. pose proof (fk_ref _ _ F f x Hx) as Hr. pose proof (fk_none _ _ F f x Hx). pose proof (fk_ahead _ _ F f).
  pose proof (fd_total_bound f _ (fk_tables _ _ F)) as Hb. pose proof (fk_procs _ _ F). unfold NOFILE, NPROC in *. lia.
Qed.
Lemma files_dup d s f x : files_inv d s -> ft_file s !! f = Some x -> 0 < f_ref x -> d f <= 0 ->
  files_inv (bump f 1 d) (set_files (<[f := set_fref (s32 (f_ref x + 1)) x]> (ft_file s)) s).
Proof.
  intros [F P G] Hx Hr Hd. pose proof (ref_small _ _ _ _ F Hx).
  assert (s32 (f_ref x + 1) = f_ref x + 1) as -> by (unfold s32; rewrite Z.mod_small; lia). split; [|by apply (pipes_same _ _ _ x)|done].
  apply (files_count s d f x); try done; cbn; lia.
Qed.
Lemma filedup_inv d f : d f <= 0 -> tri (files_inv d) (filedup f) (fun g s => g = f /\ files_inv (bump f 1 d) s).
Proof.
  intros Hd s a s' I E. pose proof (fv_files _ _ I) as F. destruct (ft_file s !! f) as [x|] eqn:Hx.
  - destruct (decide (0 < f_ref x)) as [Hr|Hr].
    + rewrite (filedup_ok s d f x F Hx Hr) in E. injection E as <- <-. split; [done|]. by apply files_dup.
    + exfalso. revert E. unfold filedup. mstep (acquire_ft_ok s (fk_lock _ _ F)). mstep (get_file_ok (set_ftlock true s) f x Hx).
      destruct (Z.ltb_spec (f_ref x) 1); [done|lia].
  - exfalso. revert E. unfold filedup, get_file. mstep (acquire_ft_ok s (fk_lock _ _ F)). rewrite bind_assoc, bind_gets. cbn [ft_file set_ftlock].
    by rewrite Hx.
Qed.
Lemma filealloc_inv d : tri (files_inv d) filealloc (fun o s => match o with Some f => (f < NFILE)%nat /\ files_inv (bump f 1 d) s | None => files_inv d s end).
Proof.
  intros s a s' I E. pose proof (fv_files _ _ I) as F. destruct (filealloc_ok s d F) as [(f & x & Hx & H0 & E')|[_ E']]; rewrite E in E'; injection E' as -> ->; [|done].
  split; [rewrite <- (fk_len _ _ F); by eapply lookup_lt_Some|]. by apply files_alloc.
Qed.

(** *** Descriptors *)

Lemma my_table s d : files_ok s d -> exists t, k_ofile s !! k_cur s = Some t /\ length t = NOFILE.
Proof.
  intros F. destruct (lookup_lt_is_Some_2 (k_ofile s) (k_cur s)) as [t Ht]; [apply F|]. exists t. split; [done|].
  pose proof (fk_tables _ _ F) as Hall. by eapply Forall_lookup_1 in Hall.
Qed.
Lemma get_fd_ok s t fd o : k_ofile s !! k_cur s = Some t -> t !! fd = Some o -> get_fd fd s = Ok o s.
Proof. intros Ht Ho. unfold get_fd. by rewrite !bind_gets, Ht; unfold of_option; rewrite bind_ret, Ho. Qed.
Lemma put_fd_ok s fd o : put_fd fd o s = Ok tt (set_ofile (alter (fun t => <[fd := o]> t) (k_cur s) (k_ofile s)) s).
Proof. done. Qed.

(** The descriptor argument: a file of the caller, or no change. *)
Lemma argfd_ok s d n : files_ok s d -> exists r, argfd n s = Ok r s /\
  match r with Some (fd, f) => exists t, k_ofile s !! k_cur s = Some t /\ t !! fd = Some (Some f) | None => True end.
Proof.
  intros F. destruct (my_table s d F) as (t & Ht & Hl). unfold argfd. rewrite bind_gets. destruct (argint (k_u s) n) as [fd|]; [|by exists None].
  destruct ((fd <? 0) || (Z.of_nat NOFILE <=? fd)) eqn:E; [by exists None|]. apply orb_false_iff in E as [E1%Z.ltb_ge E2%Z.leb_gt].
  destruct (lookup_lt_is_Some_2 t (Z.to_nat fd)) as [o Ho]; [lia|]. mstep (get_fd_ok s t _ o Ht Ho).
  destruct o as [f|]; [|by exists None]. exists (Some (Z.to_nat fd, f)). split; [done|]. by exists t.
Qed.

(** The first free descriptor. *)
Lemma fdalloc_loop_ok s t f k : forall fd, k_ofile s !! k_cur s = Some t -> (fd + k = length t)%nat ->
  (exists g, (fd <= g)%nat /\ t !! g = Some None /\ (forall j, (fd <= j < g)%nat -> t !! j <> Some None) /\
     fdalloc_loop k fd f s = Ok (Some g) (set_ofile (alter (fun t => <[g := Some f]> t) (k_cur s) (k_ofile s)) s)) \/
  ((forall j, (fd <= j)%nat -> t !! j <> Some None) /\ fdalloc_loop k fd f s = Ok None s).
Proof.
  induction k as [|k IH]; intros fd Ht Hk; cbn [fdalloc_loop].
  - right. split; [|done]. intros j Hj E. apply lookup_lt_Some in E. lia.
  - destruct (lookup_lt_is_Some_2 t fd) as [o Ho]; [lia|]. mstep (get_fd_ok s t fd o Ht Ho). destruct o as [g|].
    + replace (fd + 1)%nat with (Datatypes.S fd) by lia. assert (t !! fd <> Some None) as Hn by congruence.
      destruct (IH (Datatypes.S fd) Ht ltac:(lia)) as [(g' & Hg & Hn' & Hb & E)|[Hn' E]].
      * left. exists g'. split; [lia|]. split; [done|]. split; [|done]. intros j Hj. destruct (decide (j = fd)) as [->|]; [done|]. apply Hb. lia.
      * right. split; [|done]. intros j Hj. destruct (decide (j = fd)) as [->|]; [done|]. apply Hn'. lia.
    + left. exists fd. split; [lia|]. split; [done|]. split; [lia|]. by mstep (put_fd_ok s fd (Some f)).
Qed.
Lemma fdalloc_ok s d f t : files_ok s d -> k_ofile s !! k_cur s = Some t ->
  (exists g, t !! g = Some None /\ (forall j, (j < g)%nat -> t !! j <> Some None) /\
     fdalloc f s = Ok (Some g) (set_ofile (alter (fun t => <[g := Some f]> t) (k_cur s) (k_ofile s)) s)) \/
  ((forall j, t !! j <> Some None) /\ fdalloc f s = Ok None s).
Proof.
  intros F Ht. destruct (my_table s d F) as (t' & Ht' & Hl). simplify_eq.
  destruct (fdalloc_loop_ok s t f NOFILE 0 Ht ltac:(lia)) as [(g & _ & Hg & Hb & E)|[Hn E]].
  - left. exists g. split; [done|]. split; [|done]. intros j Hj. apply Hb. lia.
  - right. split; [|done]. intros j. apply Hn. lia.
Qed.

Lemma moved_in f d : forall g, moved None (Some f) d g = bump f (-1) d g.
Proof.
  intros g. unfold moved, bump, names. rewrite (decide_False (P := None = Some g)) by done.
  destruct (decide (g = f)) as [->|N]; [rewrite decide_True by done; lia|]. rewrite decide_False by congruence. lia.
Qed.
Lemma moved_out f d : forall g, moved (Some f) None d g = bump f 1 d g.
Proof.
  intros g. unfold moved, bump, names. rewrite (decide_False (P := None = Some g)) by done.
  destruct (decide (g = f)) as [->|N]; [rewrite decide_True by done; lia|]. rewrite decide_False by congruence. lia.
Qed.
Lemma bump_le f k d : (forall g, d g <= 1) -> d f + k <= 1 -> forall g, bump f k d g <= 1.
Proof. intros Hd Hk g. unfold bump. case_decide as Hg; [by subst g|]. rewrite Z.add_0_r. apply Hd. Qed.

(** A descriptor of process [p] takes a file, or gives it up. *)
Lemma inv_take d s p t fd f : files_inv d s -> k_ofile s !! p = Some t -> t !! fd = Some None -> (f < NFILE)%nat ->
  files_inv (bump f (-1) d) (set_ofile (alter (fun t => <[fd := Some f]> t) p (k_ofile s)) s).
Proof.
  intros [F P G] Ht Ho Hf. apply (inv_ext (moved None (Some f) d)); [apply moved_in|]. split; [|done|done].
  apply (files_put s d p t fd None); try done; [by intros g [= <-]|]. intros g. rewrite moved_in. pose proof (fk_ahead _ _ F). apply bump_le; [done|]. specialize (H f). lia.
Qed.
Lemma inv_drop d s p t fd f : files_inv d s -> k_ofile s !! p = Some t -> t !! fd = Some (Some f) -> d f <= 0 ->
  files_inv (bump f 1 d) (set_ofile (alter (fun t => <[fd := None]> t) p (k_ofile s)) s).
Proof.
  intros [F P G] Ht Ho Hf. apply (inv_ext (moved (Some f) None d)); [apply moved_out|]. split; [|done|done].
  apply (files_put s d p t fd (Some f)); try done. intros g. rewrite moved_out. apply bump_le; [apply F|lia].
Qed.
Lemma fdalloc_inv d f : (f < NFILE)%nat -> tri (files_inv d) (fdalloc f) (fun o => files_inv (if o then bump f (-1) d else d)).
Proof.
  intros Hf s a s' I E. pose proof (fv_files _ _ I) as F. destruct (my_table s d F) as (t & Ht & _).
  destruct (fdalloc_ok s d f t F Ht) as [(g & Hg & _ & E')|[_ E']]; rewrite E in E'; injection E' as -> ->; [|done]. by eapply inv_take.
Qed.
Lemma bump_bump f d : forall g, bump f 1 (bump f (-1) d) g = d g.
Proof. intros g. unfold bump. case_decide; lia. Qed.
Lemma bump_bump' f d : forall g, bump f (-1) (bump f 1 d) g = d g.
Proof. intros g. unfold bump. case_decide; lia. Qed.
Lemma bump_same f k d : bump f k d f = d f + k.
Proof. unfold bump. by rewrite decide_True. Qed.
Lemma bump_other f g k d : g <> f -> bump f k d g = d g.
Proof. intros N. unfold bump. rewrite decide_False by done. lia. Qed.

(** *** Pipes *)

Lemma on_pipe_ok {A} s a p (m : M pst A) r t : k_pipes s !! a = Some p -> m (Pst p [] false) = Ok r t -> freed t = false ->
  on_pipe a m s = Ok r (set_pipes (<[a := pp t]> (k_pipes s)) (k_woken s ++ map (pair a) (woken t)) s).
Proof. intros Hp Hm Hf. unfold on_pipe. rewrite bind_gets, Hp. unfold of_option. rewrite bind_ret, Hm, Hf. done. Qed.
Lemma set_pipes_files s d v w : files_ok s d -> files_ok (set_pipes v w s) d.
Proof. intros []. by split. Qed.

(** Reading and writing leave the ends alone. *)
Lemma pipes_update l ps a p p' : pipes_ok l ps -> ps !! a = Some p -> same_ends p p' -> (exists q, pipe_ok p' q) -> pipes_ok l (<[a := p']> ps).
Proof.
  intros [H1 H2 H3 H4] Hp [E1 E2] Hq. assert (forall w, is_open w p' = is_open w p) as Eo by (by intros []).
  assert (forall b q', <[a := p']> ps !! b = Some q' -> exists q, ps !! b = Some q /\ forall w, is_open w q' = is_open w q) as K.
  { intros b q'. destruct (decide (b = a)) as [->|N]; [rewrite lookup_insert_eq; intros [= <-]; by exists p|rewrite lookup_insert_ne by done; by exists q']. }
  split; [|done| |].
  - intros f x Hx Ht. destruct (H1 f x Hx Ht) as (b & w & q & Hw & Hq' & Ho). exists b, w. destruct (decide (b = a)) as [->|N].
    + exists p'. rewrite lookup_insert_eq, Eo. by simplify_eq.
    + exists q. by rewrite lookup_insert_ne.
  - intros b q' w Hb Ho. destruct (K b q' Hb) as (q & Hq' & Ew). apply (H3 b q); [done|]. by rewrite <- Ew.
  - intros b q' Hb. destruct (K b q' Hb) as (q & Hq' & Ew). destruct (H4 b q Hq') as [Hk (w & Hw)]. split; [|exists w; by rewrite Ew].
    destruct (decide (b = a)) as [->|N]; [rewrite lookup_insert_eq in Hb; by injection Hb as <-|rewrite lookup_insert_ne in Hb by done; by simplify_eq].
Qed.
Lemma pages_update k ps a p p' : pages_ok me k ps -> ps !! a = Some p -> pages_ok me k (<[a := p']> ps).
Proof.
  intros (l & Hl & Hps) Ha. exists l. split; [done|]. intros b q. destruct (decide (b = a)) as [->|N]; [intros _; by apply (Hps a p)|].
  rewrite lookup_insert_ne by done. apply Hps.
Qed.

(** A call on a pipe that keeps it, such as [piperead] and [pipewrite]. *)
Definition pipe_call {A} (m : M pst A) : Prop := forall p q, pipe_ok p q ->
  exists r t, m (Pst p [] false) = Ok r t /\ freed t = false /\ same_ends p (pp t) /\ exists q', pipe_ok (pp t) q'.
Lemma pipe_call_inv {A} d a (m : M pst A) : pipe_call m -> tri (files_inv d) (on_pipe a m) (fun _ => files_inv d).
Proof.
  intros Hm s r s' [F P G] E. destruct (k_pipes s !! a) as [p|] eqn:Hp.
  - destruct (pk_pipe _ _ P a p Hp) as [(q & Hq) _]. destruct (Hm p q Hq) as (r' & t & Et & Hf & Hs & Hq').
    rewrite (on_pipe_ok s a p m r' t Hp Et Hf) in E. injection E as <- <-. split; cbn; [by apply set_pipes_files|by eapply pipes_update|by eapply pages_update].
  - exfalso. revert E. unfold on_pipe. by rewrite bind_gets, Hp.
Qed.
Lemma pipe_call_read killed n : pipe_call (piperead_on killed n).
Proof.
  intros p q Hq. destruct (piperead_on_ok killed n (Pst p [] false) q Hq) as (r & t & E & H1 & H2 & H3). exists r, t.
  split; [done|]. split; [done|]. split; [done|]. destruct r; [|by exists q; apply H3]. destruct H3 as [H3|H3]; [exists q; by apply H3|exists (drop (Z.to_nat n) q); apply H3].
Qed.
Lemma pipe_call_write killed l n : pipe_call (pipewrite killed l n).
Proof.
  intros p q Hq. destruct (pipewrite_on_ok killed n (take (Z.to_nat n) l) (Pst p [] false) q Hq) as (r & t & E & dn & rest & _ & H1 & H2 & H3 & _).
  exists r, t. split; [done|]. split; [done|]. split; [done|]. by exists (q ++ dn).
Qed.

(** The last reference of a pipe's end goes away: the end is closed, and the page freed with the second end. *)
Definition closed (f : nat) (x : file) (l : list file) : list file := <[f := set_ftype FD_NONE (set_fref 0 x)]> l.
Lemma closed_other l ps f x a w g y : pipes_ok l ps -> l !! f = Some x -> pipe_end a w x -> closed f x l !! g = Some y -> f_type y = FD_PIPE ->
  g <> f /\ l !! g = Some y /\ forall v, pipe_end a v y -> v = negb w.
Proof.
  intros P Hx He Hg Hy. assert (g <> f /\ l !! g = Some y) as [Hne Hg'].
  { revert Hg. unfold closed. rewrite (lookup_set_file _ _ x) by done. case_decide; [intros [= <-]; done|done]. }
  split; [done|]. split; [done|]. intros v Hv. destruct (decide (v = w)) as [->|]; [|by destruct v, w].
  destruct Hne. by apply (pk_one _ _ P g f y x a w).
Qed.
Lemma closed_lookup l f x g y : l !! f = Some x -> l !! g = Some y -> (g = f -> False) -> closed f x l !! g = Some y.
Proof. intros Hx Hg Hne. unfold closed. rewrite (lookup_set_file _ _ x) by done. by rewrite decide_False. Qed.

(** What is left of the pipe when the end [w] has closed. *)
Definition after_close (a : Z) (w : bool) (p p' : pipe) (ps : gmap Z pipe) : gmap Z pipe :=
  if is_open (negb w) p then <[a := p']> ps else delete a ps.
Lemma after_close_Some a w p p' ps b q : ps !! a = Some p -> after_close a w p p' ps !! b = Some q ->
  (b <> a /\ ps !! b = Some q) \/ (b = a /\ q = p' /\ is_open (negb w) p = true).
Proof.
  unfold after_close. intros Hp. destruct (is_open (negb w) p) eqn:Eo.
  - destruct (decide (b = a)) as [->|N]; [rewrite lookup_insert_eq; intros [= <-]; by right|rewrite lookup_insert_ne by done; by left].
  - intros [Hab Hb]%lookup_delete_Some. by left.
Qed.
Lemma after_close_ne a w p p' ps b : b <> a -> after_close a w p p' ps !! b = ps !! b.
Proof. intros N. unfold after_close. destruct (is_open _ _); [by rewrite lookup_insert_ne|by rewrite lookup_delete_ne]. Qed.

Lemma pipes_close l ps f x a w p p' : pipes_ok l ps -> l !! f = Some x -> pipe_end a w x -> ps !! a = Some p ->
  (forall v, is_open v p' = bool_decide (v = negb w) && is_open v p) -> (exists q, pipe_ok p' q) ->
  pipes_ok (closed f x l) (after_close a w p p' ps).
Proof.
  intros P Hx He Hp Eo Hq. split.
  - intros g y Hg Hy. destruct (closed_other l ps f x a w g y P Hx He Hg Hy) as (Hne & Hg' & Hv).
    destruct (pk_file _ _ P g y Hg' Hy) as (b & v & p2 & He2 & Hp2 & Ho2). exists b, v. destruct (decide (b = a)) as [->|Nb].
    + pose proof (Hv v He2) as ->. simplify_eq. exists p'. split; [done|]. unfold after_close. rewrite Ho2, lookup_insert_eq. by rewrite Eo, bool_decide_true.
    + exists p2. by rewrite after_close_ne.
  - intros g h y z b v Hg Hh P1 P2. destruct (closed_other l ps f x a w g y P Hx He Hg (proj1 P1)) as (_ & Hg' & _).
    destruct (closed_other l ps f x a w h z P Hx He Hh (proj1 P2)) as (_ & Hh' & _). by apply (pk_one _ _ P g h y z b v).
  - intros b q v Hb Ho. destruct (after_close_Some _ _ _ _ _ _ _ Hp Hb) as [[Nb Hb']|(-> & -> & Hw)].
    + destruct (pk_open _ _ P b q v Hb' Ho) as (g & y & Hg & Hy). exists g, y. split; [|done]. apply closed_lookup; [done|done|].
      intros ->. simplify_eq. destruct He as (_ & E1 & _), Hy as (_ & E2 & _). congruence.
    + rewrite Eo in Ho. apply andb_true_iff in Ho as [Hv%bool_decide_eq_true Ho]. destruct (pk_open _ _ P a p v Hp Ho) as (g & y & Hg & Hy).
      exists g, y. split; [|done]. apply closed_lookup; [done|done|]. intros ->. simplify_eq. destruct He as (_ & _ & E1 & _), Hy as (_ & _ & E2 & _).
      rewrite E2 in E1. by destruct w.
  - intros b q Hb. destruct (after_close_Some _ _ _ _ _ _ _ Hp Hb) as [[Nb Hb']|(-> & -> & Hw)]; [by apply (pk_pipe _ _ P b)|].
    split; [done|]. exists (negb w). by rewrite Eo, bool_decide_true.
Qed.

Lemma close_end s d f x : files_inv d s -> ft_file s !! f = Some x -> f_type x = FD_PIPE -> f_ref x = 1 ->
  let s1 := set_files (closed f x (ft_file s)) s in
  exists s' p p', on_pipe (f_pipe x) (pipeclose (f_writable x)) s1 = Ok tt s' /\ files_inv (bump f (-1) d) s' /\
    k_pipes s !! f_pipe x = Some p /\ k_pipes s' = after_close (f_pipe x) (f_writable x) p p' (k_pipes s) /\
    ft_file s' = closed f x (ft_file s) /\ k_ofile s' = k_ofile s /\ k_cur s' = k_cur s.
Proof.
  intros [F P G] Hx Ht Hr s1. destruct (pk_file _ _ P f x Hx Ht) as (a & w & p & He & Hp & Ho). pose proof He as (_ & -> & -> & _).
  destruct (pk_pipe _ _ P a p Hp) as [(q & Hq) _].
  destruct (pipeclose_ok w (Pst p [] false) q Hq) as (t & Et & Hqt & Hwt & Er & Ew & Ef). cbn [pp freed woken orb] in *.
  assert (forall v, is_open v (pp t) = bool_decide (v = negb w) && is_open v p) as Eo by (intros []; cbn; rewrite ?Er, ?Ew; by destruct w).
  assert (freed t = negb (is_open (negb w) p)) as Efr.
  { rewrite Ef, Er, Ew. destruct w; cbn in *; [by rewrite andb_true_r|done]. }
  assert (files_ok s1 (bump f (-1) d)) as F1.
  { apply (files_count s d f x); try done; cbn; [lia|]. pose proof (fk_ahead _ _ F f). lia. }
  pose proof (pipes_close (ft_file s) (k_pipes s) f x a w p (pp t) P Hx He Hp Eo ltac:(by exists q)) as P1.
  unfold on_pipe. rewrite bind_gets. change (k_pipes s1) with (k_pipes s). rewrite Hp. unfold of_option. rewrite bind_ret, Et, bind_modify.
  unfold after_close in P1. destruct (is_open (negb w) p) eqn:Eop; cbn [negb] in Efr; rewrite Efr; cbn [when].
  - eexists _, p, (pp t). split; [reflexivity|]. split; [|split; [done|split; [unfold after_close; by rewrite Eop|by split_and!]]].
    split; cbn [ft_file k_pipes k_kst set_pipes]; [by apply set_pipes_files|exact P1|by eapply pages_update].
  - destruct G as (l & Hl & Hps). destruct (Hps a p Hp) as [Hpg Hnl]. destruct (kfree_step me (k_kst s) a l Hl Hpg Hnl) as (k' & Ek & Hk' & Eend & _).
    set (s2 := set_pipes _ _ s1). assert (kk (kfree a) s2 = Ok tt (set_kst k' s2)) as Ekk by (unfold kk; by erewrite zoom_Ok).
    exists (set_kst k' s2), p, (pp t). split; [by mstep Ekk|]. split; [|split; [done|split; [unfold after_close; by rewrite Eop|by split_and!]]].
    split; [by destruct F1; split|exact P1|]. exists (a :: l). split; [done|]. intros b p2 Hb. change (delete a (k_pipes s) !! b = Some p2) in Hb.
    apply lookup_delete_Some in Hb as [Hab Hb]. destruct (Hps b p2 Hb) as [H1 H2]. cbn [k_kst set_kst]. rewrite Eend. split; [done|]. by apply not_elem_of_cons.
Qed.

(** *** Closing *)

Lemma fileclose_eq s d f x : files_ok s d -> ft_file s !! f = Some x -> 0 < f_ref x ->
  fileclose f s =
    if decide (1 < f_ref x) then Ok tt (set_files (<[f := set_fref (f_ref x - 1) x]> (ft_file s)) s)
    else (match f_type x with
          | FD_PIPE => on_pipe (f_pipe x) (pipeclose (f_writable x))
          | FD_INODE => begin_kop;; kf (iput (f_ip x));; end_kop
          | FD_NONE => mret tt
          end) (set_files (closed f x (ft_file s)) s).
Proof.
  intros F Hx Hr. pose proof (ref_small _ _ _ _ F Hx) as Hsm. pose proof (fk_lock _ _ F) as Hl. pose proof (lookup_lt_Some _ _ _ Hx) as Hlt.
  unfold fileclose. mstep (acquire_ft_ok s Hl). set (s1 := set_ftlock true s). mstep (get_file_ok s1 f x Hx).
  destruct (Z.ltb_spec (f_ref x) 1); [lia|]. mstep (upd_file_ok s1 f x _ Hx). cbv beta.
  assert (s32 (f_ref x - 1) = f_ref x - 1) as -> by (unfold s32; rewrite Z.mod_small; lia).
  set (x1 := set_fref (f_ref x - 1) x). set (s2 := set_files _ s1).
  assert (ft_file s2 !! f = Some x1) as H2 by (by apply list_lookup_insert_eq). mstep (get_file_ok s2 f x1 H2).
  change (f_ref x1) with (f_ref x - 1). destruct (decide (1 < f_ref x)) as [Hgt|Hle].
  - destruct (Z.ltb_spec 0 (f_ref x - 1)); [|lia]. rewrite (release_ft_ok s2 eq_refl). f_equal. unfold s2, s1. destruct s. cbn in *. by subst.
  - destruct (Z.ltb_spec 0 (f_ref x - 1)); [lia|]. mstep (get_file_ok s2 f x1 H2). mstep (upd_file_ok s2 f x1 (set_fref 0) H2).
    set (s3 := set_files _ s2). assert (ft_file s3 !! f = Some (set_fref 0 x1)) as H3 by (unfold s3; apply list_lookup_insert_eq; unfold s2; cbn; by rewrite length_insert).
    mstep (upd_file_ok s3 f _ (set_ftype FD_NONE) H3). set (s4 := set_files _ s3). mstep (release_ft_ok s4 eq_refl).
    assert (set_ftlock false s4 = set_files (closed f x (ft_file s)) s) as ->.
    { unfold s4, s3, s2, s1, closed. destruct s. cbn in *. subst. by rewrite !list_insert_insert_eq. }
    done.
Qed.

Lemma inv_dec d s f x : files_inv d s -> ft_file s !! f = Some x -> 1 < f_ref x ->
  files_inv (bump f (-1) d) (set_files (<[f := set_fref (f_ref x - 1) x]> (ft_file s)) s).
Proof.
  intros [F P G] Hx Hr. split; [|by apply (pipes_same _ _ _ x)|done]. pose proof (fk_ahead _ _ F f). apply (files_count s d f x); try done; cbn; lia.
Qed.
Lemma inv_closed d s f x : files_inv d s -> ft_file s !! f = Some x -> f_ref x = 1 -> f_type x <> FD_PIPE ->
  files_inv (bump f (-1) d) (set_files (closed f x (ft_file s)) s).
Proof.
  intros [F P G] Hx Hr Ht. pose proof (fk_ahead _ _ F f). split; [|by apply (pipes_other _ _ _ x)|done]. apply (files_count s d f x); try done; cbn; lia.
Qed.
Lemma tri_kop d : tri (files_inv d) begin_kop (fun _ => files_inv d).
Proof. apply tri_kf. Qed.
Lemma tri_end d : tri (files_inv d) end_kop (fun _ => files_inv d).
Proof. apply tri_kf. Qed.

Lemma fileclose_inv d f : tri (files_inv d) (fileclose f) (fun _ => files_inv (bump f (-1) d)).
Proof.
  intros s a s' I E. pose proof (fv_files _ _ I) as F. destruct (ft_file s !! f) as [x|] eqn:Hx.
  2:{ exfalso. revert E. unfold fileclose, get_file. mstep (acquire_ft_ok s (fk_lock _ _ F)). rewrite bind_assoc, bind_gets. cbn [ft_file set_ftlock]. by rewrite Hx. }
  destruct (decide (0 < f_ref x)) as [Hr|Hr].
  2:{ exfalso. revert E. unfold fileclose. mstep (acquire_ft_ok s (fk_lock _ _ F)). mstep (get_file_ok (set_ftlock true s) f x Hx). by destruct (Z.ltb_spec (f_ref x) 1); [|lia]. }
  rewrite (fileclose_eq s d f x F Hx Hr) in E. destruct (decide (1 < f_ref x)); [injection E as <- <-; by apply inv_dec|].
  assert (f_ref x = 1) as Hr1 by lia. destruct (decide (f_type x = FD_PIPE)) as [Ht|Ht].
  - rewrite Ht in E. destruct (close_end s d f x I Hx Ht Hr1) as (s2 & p & p' & E2 & I2 & _). rewrite E2 in E. by injection E as <- <-.
  - pose proof (inv_closed d s f x I Hx Hr1 Ht) as I1. destruct (f_type x); [by injection E as <- <-|done|].
    assert (tri (files_inv (bump f (-1) d)) (begin_kop;; kf (iput (f_ip x));; end_kop) (fun _ => files_inv (bump f (-1) d))) as T.
    { eapply tri_bind; [apply tri_kop|]. intros ?. eapply tri_bind; [apply tri_kf|]. intros ?. apply tri_end. }
    exact (T _ _ _ I1 E).
Qed.

(** *** A new pipe *)

Lemma pipes_new l ps f0 f1 x0 x1 y0 y1 a p : pipes_ok l ps -> l !! f0 = Some x0 -> l !! f1 = Some x1 -> f0 <> f1 -> f_type x0 <> FD_PIPE -> f_type x1 <> FD_PIPE ->
  ps !! a = None -> pipe_end a false y0 -> pipe_end a true y1 -> (exists q, pipe_ok p q) -> readopen p = true -> writeopen p = true ->
  pipes_ok (<[f1 := y1]> (<[f0 := y0]> l)) (<[a := p]> ps).
Proof.
  intros P H0 H1 Hne T0 T1 Ha E0 E1 Hq Hr Hw. set (l' := <[f1 := y1]> _).
  assert (forall g, l' !! g = if decide (g = f1) then Some y1 else if decide (g = f0) then Some y0 else l !! g) as Hl'.
  { intros g. unfold l'. rewrite (lookup_set_file _ _ x1); [|by rewrite list_lookup_insert_ne]. by rewrite (lookup_set_file _ _ x0). }
  assert (forall g y, l' !! g = Some y -> f_type y = FD_PIPE -> (exists w, pipe_end a w y /\ g = if w then f1 else f0) \/ (l !! g = Some y /\ forall b w, pipe_end b w y -> b <> a)) as K.
  { intros g y Hg Hy. rewrite Hl' in Hg. destruct (decide (g = f1)); [injection Hg as <-; left; by exists true|].
    destruct (decide (g = f0)); [injection Hg as <-; left; by exists false|]. right. split; [done|].
    destruct (pk_file _ _ P g y Hg Hy) as (b & w & q & (_ & <- & _) & Hq' & _). intros b w' (_ & <- & _) Eb. congruence. }
  split.
  - intros g y Hg Hy. destruct (K g y Hg Hy) as [(w & He & _)|[Hg' Hn]].
    + exists a, w, p. rewrite lookup_insert_eq. by destruct w.
    + destruct (pk_file _ _ P g y Hg' Hy) as (b & w & q & He & Hb & Ho). exists b, w, q. rewrite lookup_insert_ne; [done|]. intros ->. by apply (Hn b w).
  - intros g h y z b w Hg Hh P1 P2. destruct (K g y Hg (proj1 P1)) as [(w1 & He1 & Eg)|[Hg' Hn1]], (K h z Hh (proj1 P2)) as [(w2 & He2 & Eh)|[Hh' Hn2]].
    + assert (w1 = w /\ w2 = w) as [-> ->]; [|by rewrite Eg, Eh]. destruct He1 as (_ & _ & <- & _), He2 as (_ & _ & <- & _). split; [apply P1|apply P2].
    + destruct (Hn2 b w P2). destruct P1 as (_ & <- & _). apply He1.
    + destruct (Hn1 b w P1). destruct P2 as (_ & <- & _). apply He2.
    + by apply (pk_one _ _ P g h y z b w).
  - intros b q w Hb Ho. destruct (decide (b = a)) as [->|Nb].
    + exists (if w then f1 else f0), (if w then y1 else y0). rewrite Hl'. destruct w; [by rewrite decide_True|]. by rewrite decide_False, decide_True.
    + rewrite lookup_insert_ne in Hb by done. destruct (pk_open _ _ P b q w Hb Ho) as (g & y & Hg & He). exists g, y. split; [|done].
      rewrite Hl'. destruct He as (Hy & _). by rewrite !decide_False by (intros ->; simplify_eq).
  - intros b q Hb. destruct (decide (b = a)) as [->|Nb]; [rewrite lookup_insert_eq in Hb; injection Hb as <-; split; [done|by exists true]|].
    rewrite lookup_insert_ne in Hb by done. by apply (pk_pipe _ _ P b).
Qed.

(** A file that was allocated and not used. *)
Lemma close_unused d s f x : files_inv (bump f 1 d) s -> ft_file s !! f = Some x -> f_ref x = 1 -> f_type x = FD_NONE ->
  fileclose f s = Ok tt (set_files (closed f x (ft_file s)) s) /\ files_inv d (set_files (closed f x (ft_file s)) s).
Proof.
  intros I Hx Hr Ht. split.
  - rewrite (fileclose_eq s _ f x (fv_files _ _ I) Hx) by lia. by rewrite decide_False, Ht by lia.
  - eapply inv_ext; [apply bump_bump'|]. apply inv_closed; try done. congruence.
Qed.
Lemma alloc_file d s : files_inv d s ->
  (exists f x, ft_file s !! f = Some x /\ f_ref x = 0 /\ f_type x = FD_NONE /\ filealloc s = Ok (Some f) (set_files (<[f := set_fref 1 x]> (ft_file s)) s) /\
     files_inv (bump f 1 d) (set_files (<[f := set_fref 1 x]> (ft_file s)) s)) \/
  filealloc s = Ok None s.
Proof.
  intros I. pose proof (fv_files _ _ I) as F. destruct (filealloc_ok s d F) as [(f & x & Hx & H0 & E)|[_ E]]; [left|by right].
  exists f, x. split; [done|]. split; [done|]. split; [by apply (fk_none _ _ F f x)|]. split; [done|]. by apply files_alloc.
Qed.

Lemma kalloc_page k ps : pages_ok me k ps ->
  exists a k', kalloc k = Ok a k' /\ k_mem k' = k_mem k /\
    (a = 0 /\ pages_ok me k' ps \/ a <> 0 /\ ps !! a = None /\ forall p, pages_ok me k' (<[a := p]> ps)).
Proof.
  intros (l & Hl & Hps). destruct l as [|a l].
  - destruct (kalloc_none me k Hl) as (k' & E & Hk' & Hm & He). exists 0, k'. split; [done|]. split; [done|]. left. split; [done|]. exists []. rewrite He. by split.
  - destruct (kalloc_step me k a l Hl) as (k' & E & Hk' & Hm & He). exists a, k'. split; [done|]. split; [done|]. right.
    pose proof (chain_pages _ _ _ _ (ki_chain _ _ _ Hl)) as Hpg. apply Forall_cons in Hpg as [Hpg _]. pose proof (ki_nodup _ _ _ Hl) as Hn. apply NoDup_cons in Hn as [Hn _].
    split; [by eapply page_nonzero|]. split.
    + destruct (ps !! a) as [p|] eqn:E0; [|done]. destruct (Hps a p E0) as [_ Hna]. destruct Hna. by left.
    + intros p. exists l. split; [done|]. intros b q. rewrite He. destruct (decide (b = a)) as [->|Nb]; [done|]. rewrite lookup_insert_ne by done.
      intros Hb. destruct (Hps b q Hb) as [H1 H2]. split; [done|]. intros Hin. apply H2. by right.
Qed.

(** A page of 4096 bytes holds the empty pipe. *)
Lemma new_pipe_ok m a : pipe_ok (pipe_init (page_bytes m a (Z.to_nat PIPESIZE))) [].
Proof.
  by split.
Qed.

Lemma bump_comm f g k l d : forall h, bump f k (bump g l d) h = bump g l (bump f k d) h.
Proof. intros h. unfold bump. repeat case_decide; lia. Qed.
Lemma inv_kst d s k : files_inv d s -> pages_ok me k (k_pipes s) -> files_inv d (set_kst k s).
Proof. intros [[] P _] G. split; [by split|exact P|exact G]. Qed.

(** Two files become the ends of a new pipe. *)
Definition to_end (w : bool) (a : Z) (x : file) : file := File FD_PIPE (f_ref x) (negb w) w a (f_ip x) (f_off x).
Lemma inv_new_pipe d s f0 f1 y0 y1 a p k w : files_inv d s -> ft_file s !! f0 = Some y0 -> ft_file s !! f1 = Some y1 -> f0 <> f1 ->
  f_type y0 <> FD_PIPE -> f_type y1 <> FD_PIPE -> f_ref y0 = 1 -> f_ref y1 = 1 -> k_pipes s !! a = None -> pages_ok me k (<[a := p]> (k_pipes s)) ->
  pipe_ok p [] -> readopen p = true -> writeopen p = true ->
  files_inv d (set_files (<[f1 := to_end true a y1]> (<[f0 := to_end false a y0]> (ft_file s))) (set_pipes (<[a := p]> (k_pipes s)) w (set_kst k s))).
Proof.
  intros [F P G] H0 H1 Hne T0 T1 R0 R1 Ha Hk Hp Hr Hw. split; [|by apply (pipes_new _ _ f0 f1 y0 y1); try done; exists []|done].
  set (l := <[f1 := _]> _). destruct F as [F1 F2 F3 F4 F5 F6 F7 F8].
  assert (forall g z, l !! g = Some z -> exists z', ft_file s !! g = Some z' /\ f_ref z = f_ref z' /\ (f_ref z' = 0 -> f_type z = f_type z')) as K.
  { intros g z. unfold l. rewrite (lookup_set_file _ _ y1) by (by rewrite list_lookup_insert_ne). case_decide as Hg1; [intros [= <-]; subst g; exists y1; split; [done|]; split; [done|lia]|].
    rewrite (lookup_set_file _ _ y0) by done. case_decide as Hg0; [intros [= <-]; subst g; exists y0; split; [done|]; split; [done|lia]|]. intros Hz. by exists z. }
  split; try done.
  - unfold l. cbn. by rewrite !length_insert.
  - intros g z Hz. destruct (K g z Hz) as (z' & Hz' & -> & _). by apply F6.
  - intros g z Hz. destruct (K g z Hz) as (z' & Hz' & -> & Ht). destruct (F7 g z' Hz') as [Q1 Q2]. split; [done|]. intros H00. by rewrite Ht, Q2.
Qed.

Lemma pipealloc_ok d s : files_inv d s -> (forall f, d f <= 0) ->
  exists o s', pipealloc s = Ok o s' /\ k_ofile s' = k_ofile s /\ k_cur s' = k_cur s /\ k_u s' = k_u s /\
    match o with
    | Some (f0, f1) => f0 <> f1 /\ (f0 < NFILE)%nat /\ (f1 < NFILE)%nat /\ files_inv (bump f1 1 (bump f0 1 d)) s' /\
        exists a p x0 x1, k_pipes s !! a = None /\ k_pipes s' = <[a := p]> (k_pipes s) /\ ft_file s' !! f0 = Some x0 /\ ft_file s' !! f1 = Some x1 /\
          pipe_end a false x0 /\ pipe_end a true x1 /\ pipe_ok p [] /\ readopen p = true /\ writeopen p = true
    | None => files_inv d s'
    end.
Proof.
  intros I Hd. unfold pipealloc. destruct (alloc_file d s I) as [(f0 & x0 & Hx0 & H0 & T0 & E0 & I0)|E0]; [|exists None, s; by mstep E0].
  mstep E0. set (y0 := set_fref 1 x0) in *. set (s0 := set_files _ s) in *.
  assert (ft_file s0 !! f0 = Some y0) as Hy0 by (by apply list_lookup_insert_eq; eapply lookup_lt_Some).
  destruct (alloc_file _ s0 I0) as [(f1 & x1 & Hx1 & H1 & T1 & E1 & I1)|E1].
  2:{ mstep E1.
destruct (close_unused d s0 f0 y0 I0 Hy0 eq_refl T0) as [Ec Ic]. eexists None, _. split; [by mstep Ec|done]. }
  mstep E1. assert (f0 <> f1) as Hne by (intros ->; simplify_eq). set (y1 := set_fref 1 x1) in *. set (s1 := set_files _ s0) in *.
  assert (ft_file s1 !! f1 = Some y1) as Hy1 by (by apply list_lookup_insert_eq; eapply lookup_lt_Some).
  assert (ft_file s1 !! f0 = Some y0) as Hy0' by (unfold s1; cbn; by rewrite list_lookup_insert_ne).
  destruct (kalloc_page (k_kst s1) (k_pipes s1) (fv_pages _ _ I1)) as (a & k' & Ek & Hmem & Hk').
  assert (kk kalloc s1 = Ok a (set_kst k' s1)) as Ekk by (unfold kk; by erewrite zoom_Ok). mstep Ekk. destruct Hk' as [[-> Hk']|(Ha & Hna & Hk')].
  - (* no page *)
    rewrite Z.eqb_refl. set (s2 := set_kst k' s1). pose proof (inv_kst _ s1 k' I1 Hk') as I2. fold s2 in I2.
    destruct (close_unused (bump f1 1 d) s2 f0 y0) as [E3 I3]; [eapply inv_ext; [apply bump_comm|exact I2]|done|done|done|].
    mstep E3. set (s3 := set_files _ s2) in *. destruct (close_unused d s3 f1 y1 I3) as [E4 I4]; [|done|done|].
    { by apply closed_lookup; [..|congruence]. }
    mstep E4. by eexists None, _.
  - destruct (Z.eqb_spec a 0) as [|_]; [done|]. rewrite bind_modify. set (p := pipe_init _). set (s2 := set_pipes _ _ _).
    mstep (upd_file_ok s2 f0 y0 _ Hy0'). cbv beta. set (z0 := File FD_PIPE (f_ref y0) true false a (f_ip y0) (f_off y0)). set (s3 := set_files _ s2).
    assert (ft_file s3 !! f1 = Some y1) as Hy1' by (unfold s3; cbn; by rewrite list_lookup_insert_ne).
    mstep (upd_file_ok s3 f1 y1 _ Hy1'). cbv beta. set (z1 := File FD_PIPE (f_ref y1) false true a (f_ip y1) (f_off y1)). set (s4 := set_files _ s3).
    exists (Some (f0, f1)), s4. split; [done|]. split; [done|]. split; [done|]. split; [done|]. split; [done|].
    pose proof (fk_len _ _ (fv_files _ _ I1)) as Hlen. split; [apply lookup_lt_Some in Hy0'; lia|]. split; [apply lookup_lt_Some in Hy1; lia|].
    split; [apply (inv_new_pipe _ s1 f0 f1 y0 y1 a p k' _ I1 Hy0' Hy1 Hne); try done; try apply Hk'; try apply new_pipe_ok; cbn; congruence|].
    exists a, p, z0, z1. split; [exact Hna|]. split; [done|]. split; [|split; [by apply list_lookup_insert_eq; eapply lookup_lt_Some|by split_and!; try apply new_pipe_ok]].
    unfold s4. cbn. rewrite list_lookup_insert_ne by congruence. by apply list_lookup_insert_eq; eapply lookup_lt_Some.
Qed.

(** ** The calls keep the invariant *)

Definition zero : nat -> Z := fun _ => 0.
Definition fine : kfs (S := S) -> Prop := files_inv zero.

Lemma tri_fs {A} (P : kfs -> Prop) (m : M (fsys (S := lst S)) A) : (forall s v, P s -> P (set_fs v s)) -> tri P (kf m) (fun _ => P).
Proof. intros H s a s' I E. unfold kf, zoom in E. destruct (m (k_fs s)); try done. injection E as <- <-. by apply H. Qed.
Lemma tri_hang {A} P (Q : A -> kfs -> Prop) : tri P hang Q.
Proof. by intros s a s' _ E. Qed.
Lemma tri_panic {A} P e (Q : A -> kfs -> Prop) : tri P (panic e) Q.
Proof. by intros s a s' _ E. Qed.
Lemma tri_get_file P f : tri P (get_file f) (fun x s => P s /\ ft_file s !! f = Some x).
Proof. intros s a s' I E. unfold get_file in E. rewrite bind_gets in E. destruct (ft_file s !! f) eqn:Ef; [|done]. by injection E as <- <-. Qed.
Lemma tri_file P f : tri P (get_file f) (fun _ => P).
Proof. eapply tri_post; [apply tri_get_file|]. by intros x s []. Qed.
Lemma tri_argfd d n : tri (files_inv d) (argfd n) (fun r s => files_inv d s /\
  match r with Some (fd, f) => exists t, k_ofile s !! k_cur s = Some t /\ t !! fd = Some (Some f) | None => True end).
Proof. intros s a s' I E. destruct (argfd_ok s d n (fv_files _ _ I)) as (r & E' & H). rewrite E in E'. by injection E' as -> ->. Qed.
Lemma tri_u d v : tri (files_inv d) (modify (fun s => set_u (v s) s)) (fun _ => files_inv d).
Proof. intros s a s' I E. injection E as <- <-. by apply inv_u. Qed.
(** An update of the offset. *)
Lemma tri_off d f v : tri (files_inv d) (upd_file f (fun x => set_foff (v x) x)) (fun _ => files_inv d).
Proof.
  intros s a s' I E. unfold upd_file, get_file in E. rewrite bind_assoc, bind_gets in E. destruct (ft_file s !! f) as [x|] eqn:Hx; [|done].
  injection E as <- <-. destruct I as [F P G]. split; [|by apply (pipes_same _ _ _ x)|done].
  apply (files_ext (bump f 0 d)); [intros g; unfold bump; case_decide; lia|]. pose proof (fk_ahead _ _ F f).
  apply (files_count s d f x); try done; try lia; [cbn; lia|apply (fk_none _ _ F f x Hx)..].
Qed.

Ltac tb := first [apply tri_kf | apply tri_kop | apply tri_end | apply tri_file | apply tri_gets | apply tri_u | apply tri_off
  | apply pipe_call_inv; first [apply pipe_call_read | apply pipe_call_write] ].
Ltac ts := repeat first
  [ apply tri_hang | apply tri_panic | apply tri_ret; by intros ?
  | eapply tri_bind; [tb|let a := fresh "a" in intros a; cbv beta]
  | apply tri_when; [tb|intros []]
  | match goal with |- tri _ (match ?x with _ => _ end) _ => destruct x eqn:? end
  | tb ].

Lemma fileread_inv d f n : tri (files_inv d) (fileread dev_read f n) (fun _ => files_inv d).
Proof. unfold fileread. ts. Qed.
Lemma filewrite_op_inv d f l n : tri (files_inv d) (filewrite_op dev_write f l n) (fun _ => files_inv d).
Proof. unfold filewrite_op. ts. Qed.
Lemma filewrite_loop_inv d f l fuel : forall i n, tri (files_inv d) (filewrite_loop dev_write fuel f l i n) (fun _ => files_inv d).
Proof.
  induction fuel as [|fuel IH]; intros i n; cbn [filewrite_loop]; [apply tri_hang|]. destruct (i <? n); [|by apply tri_ret].
  eapply tri_bind; [apply filewrite_op_inv|]. intros r. cbv beta. destruct (r <? 0); [by apply tri_ret|].
  destruct (negb _); [apply tri_panic|apply IH].
Qed.
Lemma filewrite_inv d f l n : tri (files_inv d) (filewrite dev_write f l n) (fun _ => files_inv d).
Proof.
  unfold filewrite. eapply tri_bind; [apply tri_file|]. intros x. cbv beta. destruct (negb _); [by apply tri_ret|]. destruct (f_type x); [ts|ts|].
  eapply tri_bind; [apply filewrite_loop_inv|]. intros i. by apply tri_ret.
Qed.
Lemma filestat_inv d f : tri (files_inv d) (filestat f) (fun _ => files_inv d).
Proof. unfold filestat. ts. Qed.

Lemma tri_argpath d n : tri (files_inv d) (argpath n) (fun _ => files_inv d).
Proof. unfold argpath. ts. Qed.
Lemma tri_rw d : tri (files_inv d) rw_args (fun _ => files_inv d).
Proof.
  unfold rw_args. eapply tri_bind; [eapply tri_post; [apply tri_argfd|]; intros a s [I _]; exact I|]. intros a. ts.
Qed.
Lemma tri_store d a bs : tri (files_inv d) (store_user a bs) (fun _ => files_inv d).
Proof. apply (tri_u d (fun s => Uctx (uc_sz (k_u s)) (uc_esp (k_u s)) (wr_bytes (uc_mem (k_u s)) a bs))). Qed.

Lemma tri_store_stat d a st : tri (files_inv d) (store_stat a st) (fun _ => files_inv d).
Proof. unfold store_stat. do 2 (eapply tri_bind; [apply tri_store|intros ?; cbv beta]). apply tri_store. Qed.

Lemma sys_read_inv : tri fine (sys_read dev_read) (fun _ => fine).
Proof.
  unfold sys_read. eapply tri_bind; [apply tri_rw|]. intros [[[f p] n]|]; cbv beta; [|by apply tri_ret].
  eapply tri_bind; [apply fileread_inv|]. intros r. cbv beta. eapply tri_bind; [apply tri_store|]. intros ?. by apply tri_ret.
Qed.
Lemma sys_write_inv : tri fine (sys_write dev_write) (fun _ => fine).
Proof.
  unfold sys_write. eapply tri_bind; [apply tri_rw|]. intros [[[f p] n]|]; cbv beta; [|by apply tri_ret].
  eapply tri_bind; [apply tri_gets|]. intros c. apply filewrite_inv.
Qed.
Lemma sys_fstat_inv : tri fine sys_fstat (fun _ => fine).
Proof.
  unfold sys_fstat. eapply tri_bind; [eapply tri_post; [apply tri_argfd|]; intros a s [I _]; exact I|]. intros a. cbv beta.
  eapply tri_bind; [apply tri_gets|]. intros c. cbv beta. destruct a as [[fd f]|]; [|by apply tri_ret]. destruct (argptr _ _ _); [|by apply tri_ret].
  eapply tri_bind; [apply filestat_inv|]. intros [st|]; cbv beta; [|by apply tri_ret]. 
  eapply tri_bind; [apply tri_store_stat|]. intros ?. by apply tri_ret.
Qed.
Lemma path_call_inv (n : Z) (m : list Z -> M (fsys (S := lst S)) Z) :
  tri fine (path ← argpath n; match path with None => mret (-1) | Some path => kf (m path) end) (fun _ => fine).
Proof. eapply tri_bind; [apply tri_argpath|]. intros [path|]; [apply tri_kf|by apply tri_ret]. Qed.
Lemma sys_unlink_inv : tri fine (sys_unlink dev_read dev_write name0) (fun _ => fine).
Proof. apply path_call_inv. Qed.
Lemma sys_link_inv : tri fine (sys_link dev_read dev_write name0) (fun _ => fine).
Proof. unfold sys_link. do 2 (eapply tri_bind; [apply tri_argpath|intros ?; cbv beta]). destruct a, a0; try (by apply tri_ret). apply tri_kf. Qed.
Lemma sys_chdir_inv : tri fine (sys_chdir dev_read) (fun _ => fine).
Proof. unfold sys_chdir. eapply tri_bind; [apply tri_argpath|]. intros path. apply tri_kf. Qed.
Lemma made_inv (o : option nat) : tri fine (match o with None => end_kop;; mret (-1) | Some ip => kf (iunlockput ip);; end_kop;; mret 0 end) (fun _ => fine).
Proof. unfold fine. destruct o; ts. Qed.
Lemma sys_mkdir_inv : tri fine (sys_mkdir dev_read dev_write name0) (fun _ => fine).
Proof.
  unfold sys_mkdir, fine. eapply tri_bind; [apply tri_kop|]. intros ?. eapply tri_bind; [apply tri_argpath|]. intros path.
  eapply tri_bind; [|intros o; apply made_inv]. destruct path; [apply tri_kf|by apply tri_ret].
Qed.
Lemma sys_mknod_inv : tri fine (sys_mknod dev_read dev_write name0) (fun _ => fine).
Proof.
  unfold sys_mknod, fine. eapply tri_bind; [apply tri_kop|]. intros ?. eapply tri_bind; [apply tri_argpath|]. intros path.
  eapply tri_bind; [apply tri_gets|]. intros c. eapply tri_bind; [|intros o; apply made_inv]. destruct path; [|by apply tri_ret].
  destruct (argint c 1); [|by apply tri_ret]. destruct (argint c 2); [apply tri_kf|by apply tri_ret].
Qed.

(** A descriptor's file is in the table and in use. *)
Lemma fd_file s t fd f : fine s -> k_ofile s !! k_cur s = Some t -> t !! fd = Some (Some f) ->
  exists x, ft_file s !! f = Some x /\ 0 < f_ref x /\ (f < NFILE)%nat.
Proof.
  intros I Ht Ho. pose proof (fv_files _ _ I) as F. pose proof (fk_used _ _ F _ _ _ _ Ht Ho) as Hf.
  destruct (lookup_lt_is_Some_2 (ft_file s) f) as [x Hx]; [by rewrite (fk_len _ _ F)|]. exists x. split; [done|]. split; [|done].
  rewrite (fk_ref _ _ F f x Hx). pose proof (fd_total_pos f _ _ _ _ Ht Ho). unfold zero. lia.
Qed.

Definition with_fd (fd : nat) (o : option nat) s : kfs := set_ofile (alter (fun t => <[fd := o]> t) (k_cur s) (k_ofile s)) s.

Lemma sys_dup_ok s : fine s -> exists r s', sys_dup s = Ok r s' /\ fine s' /\
  (r = -1 /\ s' = s \/
   exists f x t fd g, k_ofile s !! k_cur s = Some t /\ t !! fd = Some (Some f) /\ ft_file s !! f = Some x /\
     t !! g = Some None /\ (forall j, (j < g)%nat -> t !! j <> Some None) /\
     r = Z.of_nat g /\ s' = set_files (<[f := set_fref (s32 (f_ref x + 1)) x]> (ft_file s)) (with_fd g (Some f) s)).
Proof.
  intros I. pose proof (fv_files _ _ I) as F. destruct (argfd_ok s zero 0 F) as (a & Ea & Ha). unfold sys_dup. mstep Ea.
  destruct a as [[fd f]|]; [|exists (-1), s; split; [done|]; split; [done|by left]]. destruct Ha as (t & Ht & Ho). destruct (fd_file s t fd f I Ht Ho) as (x & Hx & Hr & Hf).
  destruct (fdalloc_ok s zero f t F Ht) as [(g & Hg & Hb & E)|[_ E]]; mstep E; [|exists (-1), s; split; [done|]; split; [done|by left]].
  pose proof (inv_take zero s (k_cur s) t g f I Ht Hg Hf) as I1. set (s1 := set_ofile _ s) in *.
  cbv beta iota. mstep (filedup_ok s1 _ f x (fv_files _ _ I1) Hx Hr). do 2 eexists. split; [reflexivity|]. split.
  - eapply inv_ext; [apply bump_bump|]. apply files_dup; try done. rewrite bump_same. unfold zero. lia.
  - right. exists f, x, t, fd, g. by split_and!.
Qed.
Lemma det_inv (m : M kfs Z) : (forall s, fine s -> exists r s', m s = Ok r s' /\ fine s') -> tri fine m (fun _ => fine).
Proof. intros H s r s' I E. destruct (H s I) as (r' & s2 & E2 & I2). rewrite E in E2. by injection E2 as -> ->. Qed.

Lemma sys_close_inv : tri fine sys_close (fun _ => fine).
Proof.
  unfold sys_close. eapply tri_bind; [apply tri_argfd|]. intros [[fd f]|]; cbv beta; [|apply tri_ret; by intros s []].
  apply tri_bind with (Q := fun _ => files_inv (bump f 1 zero)).
  - intros s a s' [I (t & Ht & Ho)] E. rewrite put_fd_ok in E. injection E as <- <-. by apply (inv_drop zero s _ t fd f).
  - intros ?. eapply tri_bind; [apply fileclose_inv|]. intros ?. cbv beta. apply tri_ret. intros s. apply inv_ext, bump_bump'.
Qed.

(** A file that was allocated and has no type yet. *)
Definition unused (f : nat) (d : nat -> Z) s : Prop := files_inv d s /\ exists x, ft_file s !! f = Some x /\ f_type x = FD_NONE /\ 0 < f_ref x /\ (f < NFILE)%nat.
Lemma tri_filealloc d : tri (files_inv d) filealloc (fun o s => match o with Some f => unused f (bump f 1 d) s | None => files_inv d s end).
Proof.
  intros s a s' I E. destruct (alloc_file d s I) as [(f & x & Hx & H0 & T & E' & I')|E']; rewrite E in E'; injection E' as -> ->; [|done].
  split; [done|]. exists (set_fref 1 x). split; [by apply list_lookup_insert_eq; eapply lookup_lt_Some|]. split; [done|]. split; [done|].
  rewrite <- (fk_len _ _ (fv_files _ _ I)). by eapply lookup_lt_Some.
Qed.
Lemma tri_fdalloc f d : tri (unused f d) (fdalloc f) (fun o => unused f (if o then bump f (-1) d else d)).
Proof.
  intros s a s' [I (x & Hx & T & R & Hf)] E. pose proof (fdalloc_inv d f Hf s a s' I E) as I'. split; [done|]. exists x. split; [|done].
  pose proof (fv_files _ _ I) as F. destruct (my_table s d F) as (t & Ht & _). destruct (fdalloc_ok s d f t F Ht) as [(g & _ & _ & E')|[_ E']]; rewrite E in E'; by injection E' as -> ->.
Qed.
Lemma tri_unused {A} f d (m : M (fsys (S := lst S)) A) : tri (unused f d) (kf m) (fun _ => unused f d).
Proof. apply tri_fs. intros s v [I H]. split; [by apply inv_fs|exact H]. Qed.
Lemma tri_become_inode f d r w ip : tri (unused f d) (upd_file f (fun x => File FD_INODE (f_ref x) r w (f_pipe x) ip 0)) (fun _ => files_inv d).
Proof.
  intros s a s' [[F P G] (x & Hx & T & R & Hf)] E. rewrite (upd_file_ok s f x _ Hx) in E. injection E as <- <-.
  split; [|by apply (pipes_other _ _ _ x); [..|rewrite T|]|done].
  apply (files_ext (bump f 0 d)); [intros g; unfold bump; case_decide; lia|]. pose proof (fk_ahead _ _ F f).
  apply (files_count s d f x); try done; try lia; cbn; lia.
Qed.
Lemma open_file_inv ip omode : tri fine (open_file ip omode) (fun _ => fine).
Proof.
  unfold open_file. eapply tri_bind; [apply tri_filealloc|]. intros [f|]; cbv beta.
  - eapply tri_bind; [apply tri_fdalloc|]. intros [fd|]; cbv beta iota.
    + do 2 (eapply tri_bind; [apply tri_unused|intros ?; cbv beta]). eapply tri_bind; [apply tri_become_inode|]. intros ?. cbv beta.
      apply tri_ret. intros s. apply inv_ext, bump_bump'.
    + eapply tri_bind; [eapply tri_pre; [apply fileclose_inv|by intros s []]|]. intros ?. cbv beta. ts. apply tri_ret. intros s. apply inv_ext, bump_bump'.
  - apply tri_bind with (Q := fun o s => o = None /\ fine s); [by intros s a s' I [= <- <-]|]. intros [fd|]; cbv beta iota.
    { intros s a s' [H _]. done. }
    apply (tri_pre fine); [|by intros s []]. unfold fine. eapply tri_bind; [by apply (tri_ret fine tt (fun _ => fine))|]. intros ?. ts.
Qed.
Lemma sys_open_inv : tri fine (sys_open dev_read dev_write name0) (fun _ => fine).
Proof.
  unfold sys_open. eapply tri_bind; [apply tri_argpath|]. intros path. cbv beta. eapply tri_bind; [apply tri_gets|]. intros c. cbv beta.
  destruct path as [path|]; [|by apply tri_ret]. destruct (argint c 1); [|by apply tri_ret]. eapply tri_bind; [apply tri_kop|]. intros ?. cbv beta.
  eapply tri_bind; [apply tri_kf|]. intros [ip|]; cbv beta; [apply open_file_inv|ts].
Qed.

(** Closing an end of a pipe needs nothing of the file system. *)
Lemma fileclose_pipe s d f x : files_inv d s -> ft_file s !! f = Some x -> f_type x = FD_PIPE -> 0 < f_ref x ->
  exists s', fileclose f s = Ok tt s' /\ files_inv (bump f (-1) d) s' /\ (forall g, g <> f -> ft_file s' !! g = ft_file s !! g) /\
    k_ofile s' = k_ofile s /\ k_cur s' = k_cur s /\
    if decide (1 < f_ref x) then k_pipes s' = k_pipes s
    else exists p p', k_pipes s !! f_pipe x = Some p /\ k_pipes s' = after_close (f_pipe x) (f_writable x) p p' (k_pipes s).
Proof.
  intros I Hx Ht Hr. rewrite (fileclose_eq s d f x (fv_files _ _ I) Hx Hr). destruct (decide (1 < f_ref x)) as [Hgt|Hle].
  - eexists. split; [reflexivity|]. split; [by apply inv_dec|]. split; [intros g Hg; cbn; by apply list_lookup_insert_ne|by split_and!].
  - rewrite Ht. destruct (close_end s d f x I Hx Ht ltac:(lia)) as (s' & p & p' & E & I' & Hp & Hps & Hf & Ho & Hc). exists s'. split; [done|]. split; [done|].
    split; [intros g Hg; rewrite Hf; by apply list_lookup_insert_ne|]. split; [done|]. split; [done|]. by exists p, p'.
Qed.

(** Both ends of a pipe that was just made are closed again. *)
Lemma close_both s f0 f1 x0 x1 : files_inv (bump f1 1 (bump f0 1 zero)) s -> f0 <> f1 -> ft_file s !! f0 = Some x0 -> ft_file s !! f1 = Some x1 ->
  f_type x0 = FD_PIPE -> f_type x1 = FD_PIPE -> exists s', (fileclose f0;; fileclose f1;; mret (-1)) s = Ok (-1) s' /\ fine s'.
Proof.
  intros I Hne H0 H1 T0 T1. pose proof (fv_files _ _ I) as F.
  assert (0 < f_ref x0 /\ 0 < f_ref x1) as [R0 R1].
  { rewrite (fk_ref _ _ F f0 x0 H0), (fk_ref _ _ F f1 x1 H1), (bump_other f1 f0), !bump_same, (bump_other f0 f1) by congruence. unfold zero. lia. }
  destruct (fileclose_pipe s _ f0 x0 I H0 T0 R0) as (s1 & E1 & I1 & Hf1 & _). mstep E1.
  assert (files_inv (bump f1 1 zero) s1) as I1'.
  { eapply inv_ext; [|exact I1]. intros g. unfold bump. repeat case_decide; lia. }
  destruct (fileclose_pipe s1 _ f1 x1 I1') as (s2 & E2 & I2 & _); [by rewrite Hf1|done|done|]. mstep E2. exists s2. split; [done|].
  eapply inv_ext; [apply bump_bump'|exact I2].
Qed.

(** [sys_pipe] always returns: two descriptors, or -1 with the counts as they were. *)
Lemma sys_pipe_ok s : fine s -> exists r s', sys_pipe s = Ok r s' /\ fine s'.
Proof.
  intros I. unfold sys_pipe. rewrite bind_gets. destruct (argptr (k_u s) 0 8) as [pa|]; [|by exists (-1), s].
  destruct (pipealloc_ok zero s I ltac:(done)) as (o & s1 & E & Ho & Hc & Hu & Hr). mstep E. destruct o as [[f0 f1]|]; [|by exists (-1), s1].
  destruct Hr as (Hne & L0 & L1 & I1 & a & p & x0 & x1 & _ & _ & H0 & H1 & (T0 & _) & (T1 & _) & _). cbv beta iota.
  destruct (my_table s1 _ (fv_files _ _ I1)) as (t & Ht & _).
  destruct (fdalloc_ok s1 _ f0 t (fv_files _ _ I1) Ht) as [(g0 & Hg0 & _ & E0)|[_ E0]]; mstep E0; cbv beta iota.
  2:{ rewrite bind_ret. cbv beta iota. rewrite bind_ret. destruct (close_both s1 f0 f1 x0 x1 I1 Hne H0 H1 T0 T1) as (s' & E' & I'). by exists (-1), s'. }
  pose proof (inv_take _ s1 (k_cur s1) t g0 f0 I1 Ht Hg0 L0) as I2. set (s2 := set_ofile _ s1) in *.
  assert (files_inv (bump f1 1 zero) s2) as I2'.
  { eapply inv_ext; [|exact I2]. intros g. unfold bump. repeat case_decide; lia. }
  destruct (my_table s2 _ (fv_files _ _ I2)) as (t2 & Ht2 & _).
  destruct (fdalloc_ok s2 _ f1 t2 (fv_files _ _ I2) Ht2) as [(g1 & Hg1 & _ & E1)|[_ E1]]; mstep E1; cbv beta iota.
  - pose proof (inv_take _ s2 (k_cur s2) t2 g1 f1 I2' Ht2 Hg1 L1) as I3. do 2 eexists. split; [reflexivity|].
    do 2 apply inv_u. eapply inv_ext; [apply bump_bump'|exact I3].
  - assert (t2 !! g0 = Some (Some f0)) as Hg.
    { cbn in Ht2. rewrite list_lookup_alter_eq, Ht in Ht2. injection Ht2 as <-. apply list_lookup_insert_eq. by eapply lookup_lt_Some. }
    mstep (put_fd_ok s2 g0 None). pose proof (inv_drop _ s2 (k_cur s2) t2 g0 f0 I2' Ht2 Hg) as I3.
    destruct (close_both (with_fd g0 None s2) f0 f1 x0 x1) as (s' & E' & I'); try done; [|by exists (-1), s'].
    eapply inv_ext; [|apply I3]; [apply bump_comm|]. rewrite bump_other by done. done.
Qed.

(** The descriptors of a new process, and of one that exits. *)
Definition empty_from (i np : nat) s : Prop := k_cur s <> np /\ exists t, k_ofile s !! np = Some t /\ forall j, (i <= j < NOFILE)%nat -> t !! j = Some None.
Lemma fork_fds_ok np k : forall i s, fine s -> (i + k = NOFILE)%nat -> empty_from i np s ->
  exists s', fork_files k i np s = Ok tt s' /\ fine s' /\ k_cur s' = k_cur s.
Proof.
  induction k as [|k IH]; intros i s I Hk (Hnp & t & Ht & He); cbn [fork_files]; [by exists s|].
  pose proof (fv_files _ _ I) as F. destruct (my_table s _ F) as (tc & Htc & Hl). destruct (lookup_lt_is_Some_2 tc i) as [o Ho]; [lia|].
  mstep (get_fd_ok s tc i o Htc Ho). replace (i + 1)%nat with (Datatypes.S i) by lia. destruct o as [f|]; cbv beta iota.
  2:{ rewrite bind_ret. apply IH; [done|lia|]. split; [done|]. exists t. split; [done|]. intros j Hj. apply He. lia. }
  destruct (fd_file s tc i f I Htc Ho) as (x & Hx & Hr & Hf). rewrite bind_assoc. mstep (filedup_ok s _ f x F Hx Hr). rewrite bind_modify.
  set (s1 := set_files _ s). assert (files_inv (bump f 1 zero) s1) as I1 by (by apply files_dup).
  pose proof (inv_take _ s1 np t i f I1 Ht ltac:(apply He; lia) Hf) as I2. set (s2 := set_ofile _ s1) in *.
  destruct (IH (Datatypes.S i) s2) as (s' & E & I' & Hc); [eapply inv_ext; [apply bump_bump'|exact I2]|lia| |by exists s'].
  split; [done|]. exists (<[i := Some f]> t). split; [unfold s2; cbn; rewrite list_lookup_alter_eq; by rewrite Ht|].
  intros j Hj. rewrite list_lookup_insert_ne by lia. apply He. lia.
Qed.

(** [fileclose] leaves the descriptors alone. *)
Definition tables (ts : list (list (option nat))) (p : nat) s : Prop := k_ofile s = ts /\ k_cur s = p.
Lemma on_pipe_tables {A} ts p a (m : M pst A) : tri (tables ts p) (on_pipe a m) (fun _ => tables ts p).
Proof.
  intros s r s' H E. unfold on_pipe in E. rewrite bind_gets in E. destruct (k_pipes s !! a) as [q|]; [|done]. unfold of_option in E. rewrite bind_ret in E.
  destruct (m (Pst q [] false)) as [v t| | |]; try done. rewrite bind_modify in E. destruct (freed t); cbn [when] in E; [|by injection E as <- <-].
  unfold kk, zoom, mbind, M_bind in E. cbn in E. destruct (kfree a (k_kst s)); try done. by injection E as <- <-.
Qed.
Lemma fileclose_tables ts p f d : tri (fun s => files_inv d s /\ tables ts p s) (fileclose f) (fun _ => tables ts p).
Proof.
  intros s r s' [I H] E. pose proof (fv_files _ _ I) as F. destruct (ft_file s !! f) as [x|] eqn:Hx.
  2:{ exfalso. revert E. unfold fileclose, get_file. mstep (acquire_ft_ok s (fk_lock _ _ F)). rewrite bind_assoc, bind_gets. cbn [ft_file set_ftlock]. by rewrite Hx. }
  destruct (decide (0 < f_ref x)) as [Hr|Hr].
  2:{ exfalso. revert E. unfold fileclose. mstep (acquire_ft_ok s (fk_lock _ _ F)). mstep (get_file_ok (set_ftlock true s) f x Hx). by destruct (Z.ltb_spec (f_ref x) 1); [|lia]. }
  rewrite (fileclose_eq s d f x F Hx Hr) in E. destruct (decide (1 < f_ref x)); [by injection E as <- <-|].
  set (s1 := set_files _ s) in E. assert (tables ts p s1) as H1 by exact H.
  assert (forall (m : M (fsys (S := lst S)) unit), tri (tables ts p) (kf m) (fun _ => tables ts p)) as K by (intros m; by apply tri_fs).
  destruct (f_type x); [by injection E as <- <-|by eapply on_pipe_tables|].
  assert (tri (tables ts p) (begin_kop;; kf (iput (f_ip x));; end_kop) (fun _ => tables ts p)) as T.
  { do 2 (eapply tri_bind; [apply K|intros ?]). apply K. }
  exact (T _ _ _ H1 E).
Qed.
Lemma exit_files_inv k : forall fd, tri fine (exit_files k fd) (fun _ => fine).
Proof.
  induction k as [|k IH]; intros fd; cbn [exit_files]; [by apply tri_ret|]. intros s r s' I E. pose proof (fv_files _ _ I) as F.
  unfold mbind, M_bind in E. destruct (get_fd fd s) as [o s1| | |] eqn:Eg; try done.
  assert (s1 = s /\ exists t, k_ofile s !! k_cur s = Some t /\ t !! fd = Some o) as (-> & t & Ht & Ho).
  { revert Eg. unfold get_fd. rewrite !bind_gets. destruct (k_ofile s !! k_cur s) as [t|]; [|done]. unfold of_option. rewrite bind_ret.
    destruct (t !! fd) as [o'|] eqn:Eo; [|done]. intros [= -> <-]. by split; [|exists t]. }
  destruct o as [f|]; [|by apply (IH (fd + 1)%nat s r s' I)].
  destruct (fileclose f s) as [[] s1| | |] eqn:Ec; try done. pose proof (fileclose_inv zero f s tt s1 I Ec) as I1.
  destruct (fileclose_tables (k_ofile s) (k_cur s) f zero s tt s1 (conj I (conj eq_refl eq_refl)) Ec) as [Ho1 Hc1].
  rewrite put_fd_ok in E. apply (IH (fd + 1)%nat _ r s') in E; [done|].
  eapply inv_ext; [apply (bump_bump f)|]. rewrite <- Ho1, <- Hc1 in Ht. apply (inv_drop _ s1 _ t fd f); try done. rewrite bump_same. unfold zero. lia.
Qed.

(** ** Reachable states *)

(** The file system calls. *)
Inductive kcall : M (kfs (S := S)) Z -> Prop :=
  | kc_dup : kcall sys_dup
  | kc_read : kcall (sys_read dev_read)
  | kc_write : kcall (sys_write dev_write)
  | kc_close : kcall sys_close
  | kc_fstat : kcall sys_fstat
  | kc_link : kcall (sys_link dev_read dev_write name0)
  | kc_unlink : kcall (sys_unlink dev_read dev_write name0)
  | kc_open : kcall (sys_open dev_read dev_write name0)
  | kc_mkdir : kcall (sys_mkdir dev_read dev_write name0)
  | kc_mknod : kcall (sys_mknod dev_read dev_write name0)
  | kc_chdir : kcall (sys_chdir dev_read)
  | kc_pipe : kcall sys_pipe.

Lemma kcall_inv m : kcall m -> tri fine m (fun _ => fine).
Proof.
  intros []; eauto using sys_read_inv, sys_write_inv, sys_close_inv, sys_fstat_inv, sys_link_inv, sys_unlink_inv, sys_open_inv, sys_mkdir_inv, sys_mknod_inv, sys_chdir_inv.
  - apply det_inv. intros s I. destruct (sys_dup_ok s I) as (r & s' & E & I' & _). by exists r, s'.
  - apply det_inv, sys_pipe_ok.
Qed.

(** Steps of the system: a call of the current process returns; it forks into a slot whose
    descriptors are all closed; it exits; another process runs, which changes the memory,
    pid and directory in view and whatever the file system did meanwhile. *)
Inductive kstep s : kfs (S := S) -> Prop :=
  | ks_call m r s' : kcall m -> m s = Ok r s' -> kstep s s'
  | ks_fork np s' : empty_from 0 np s -> fork_files NOFILE 0 np s = Ok tt s' -> kstep s s'
  | ks_exit s' : exit_files NOFILE 0 s = Ok tt s' -> kstep s s'
  | ks_switch p fs killed u : (p < length (k_ofile s))%nat ->
      kstep s (Kfs fs (ft_lock s) (ft_file s) (k_pipes s) (k_woken s) (k_kst s) (k_ofile s) p killed u).

Lemma kstep_inv s s' : fine s -> kstep s s' -> fine s'.
Proof.
  intros I [m r t Hm E|np t He E|t E|p fs kl u Hp].
  - by apply (kcall_inv m Hm s r t).
  - destruct (fork_fds_ok np NOFILE 0 s I ltac:(done) He) as (t' & E' & I' & _). rewrite E in E'. by injection E' as ->.
  - by apply (exit_files_inv NOFILE 0 s tt t).
  - destruct I as [[F1 F2 F3 F4 F5 F6 F7 F8] P G]. split; [|exact P|exact G]. split; try done. cbn. lia.
Qed.

(** The table after boot. *)
Definition free_file : file := File FD_NONE 0 false false 0 0 0.
Definition boot fs k ps u : kfs (S := S) := Kfs fs false (replicate NFILE free_file) ∅ [] k (replicate ps (replicate NOFILE None)) 0 false u.
Lemma boot_fine fs k ps u l : (0 < ps <= NPROC)%nat -> kinv me k l -> fine (boot fs k ps u).
Proof.
  intros Hps Hk. assert (forall f x, replicate NFILE free_file !! f = Some x -> x = free_file) as K by (intros f x Hx; by apply lookup_replicate in Hx as [-> _]).
  assert (forall f n, sum_list_with (names f) (replicate n None) = 0%nat) as H1 by (intros f; induction n; [done|cbn; by rewrite IHn]).
  assert (forall f n, fd_total f (replicate n (replicate NOFILE None)) = 0%nat) as H2.
  { intros f n. unfold fd_total. induction n as [|n IH]; [done|].
    change (sum_list_with (names f) (replicate NOFILE None) + sum_list_with (count_fds f) (replicate n (replicate NOFILE None)) = 0)%nat. by rewrite H1, IH. }
  split; cbn.
  - split; cbn; try done.
    + apply Forall_replicate. done.
    + by rewrite length_replicate.
    + intros p t fd f Ht Ho. apply lookup_replicate in Ht as [-> _]. by apply (proj1 (lookup_replicate NOFILE None (Some f) fd)) in Ho as [? _].
    + intros f x Hx. rewrite (K f x Hx), H2. done.
    + intros f x Hx. by rewrite (K f x Hx).
  - split; try done.
    + intros f x Hx. by rewrite (K f x Hx).
    + intros f g x y a w Hx _ [Ht _]. by rewrite (K f x Hx) in Ht.
  - exists l. split; [done|]. by intros a p.
Qed.
End inv.

