(* ===== verification/FileWrite.v ===== *)
(** * Writing a file in chunks: filewrite of p6/file.c

    [filewrite] cuts a write into transactions of at most [FILEMAX] bytes. Each is atomic
    ([FsAtomic]), so a crash leaves the file with a prefix of the bytes that ends at a
    chunk boundary. *)

From S2P Require Import Prelude Spinlock Kalloc Sleeplock Cache Log Journal LogJournal Fs FsAlloc FsFile FsWrite FsInode FsPath FsDir FsAtomic Pipe Syscall File.

(** [j] of [n] bytes: all of them, or a whole number of chunks. *)
Definition chunk (n j : Z) : Prop := 0 <= j <= n /\ (j = n \/ (FILEMAX | j)).

Lemma chunk_blocks off n : 0 <= off -> 0 <= n <= FILEMAX -> 3 + nblocks off n <= MAXOPBLOCKS.
Proof.
  intros Ho Hn. change FILEMAX with 1536 in Hn. unfold nblocks, MAXOPBLOCKS, BSIZE. destruct (Z.leb_spec n 0); [lia|].
  Z.div_mod_to_equations. lia.
Qed.

Lemma overwrite_overwrite c off l1 l2 : 0 <= off <= Z.of_nat (length c) ->
  overwrite (overwrite c off l1) (off + Z.of_nat (length l1)) l2 = overwrite c off (l1 ++ l2).
Proof.
  intros Ho. unfold overwrite. rewrite length_app.
  assert (length (take (Z.to_nat off) c) = Z.to_nat off) as Hl by (rewrite length_take; lia).
  assert (forall k, (Z.to_nat off + length l1 <= k)%nat ->
    drop k (take (Z.to_nat off) c ++ l1 ++ drop (Z.to_nat (off + Z.of_nat (length l1))) c) = drop k c) as Hd.
  { intros k Hk. rewrite !drop_app, drop_ge by lia. rewrite (drop_ge l1) by lia. rewrite drop_drop. cbn. f_equal. lia. }
  rewrite Hd by lia. set (t := drop (Z.to_nat (off + Z.of_nat (length l1))) c).
  assert (take (Z.to_nat (off + Z.of_nat (length l1))) (take (Z.to_nat off) c ++ l1 ++ t) = take (Z.to_nat off) c ++ l1) as ->.
  { rewrite app_assoc. apply take_app_length'. rewrite length_app. lia. }
  rewrite <- !app_assoc. do 4 f_equal. lia.
Qed.

Section filewrite.
Context {S : Type} `{C : BlockCache S}.
Context (lstart lsize : Z).
Context (dev_write : Z -> option (nat -> list Z -> Z -> M (fsys (S := lst S)) Z)).
Implicit Types (s : kfs (S := S)) (v : fsys (S := lst S)).

Lemma get_file_eq s f x : ft_file s !! f = Some x -> get_file f s = Ok x s.
Proof. intros E. unfold get_file. by rewrite bind_gets, E. Qed.

(** One round is the transaction [write_op], and the file's offset. *)
Definition moved_to (f : nat) (x : file) (r : Z) s : kfs :=
  if 0 <? r then set_files (<[f := set_foff (u32 (f_off x + r)) x]> (ft_file s)) s else s.
Lemma filewrite_op_eq f addr n s x : ft_file s !! f = Some x ->
  filewrite_op dev_write f addr n s =
    match write_op dev_write (f_ip x) addr (f_off x) (u32 n) (k_fs s) with
    | Ok r v => Ok r (set_fs v (moved_to f x r s))
    | Panic e => Panic e | Hang => Hang | Undef => Undef
    end.
Proof.
  intros Hx. unfold filewrite_op, write_op, begin_kop, end_kop, kf. destruct s as [v l fs ps w k o c kl u]. cbn in Hx.
  unfold mbind, M_bind, mret, M_ret, zoom. cbn. destruct (dop begin_op v) as [[] v1| | |]; try done.
  unfold get_file, gets, of_option, mbind, M_bind. cbn. rewrite Hx. cbn. destruct (ilock (f_ip x) v1) as [[] v2| | |]; try done. cbn.
  destruct (writei dev_write (f_ip x) addr (f_off x) (u32 n) v2) as [r v3| | |]; try done. unfold moved_to, when. cbn.
  destruct (0 <? r) eqn:Er.
  - unfold upd_file, get_file, gets, of_option, mbind, M_bind, modify. cbn. rewrite Hx. cbn.
    destruct (iunlock (f_ip x) v3) as [[] v4| | |]; try done. cbn. destruct (dop end_op v4); [by rewrite Er|done..].
  - cbn. destruct (iunlock (f_ip x) v3) as [[] v4| | |]; try done. cbn. destruct (dop end_op v4); [by rewrite Er|done..].
Qed.

Lemma recovered_idle v V : fs_idle lstart lsize v V -> recovered lstart (v_disk V) = v_disk V.
Proof.
  intros F. pose proof (fi_log _ _ _ _ F) as Hi. pose proof (li_place _ _ _ _ Hi) as [Hs _].
  unfold recovered. rewrite installs_none; [done|]. rewrite <- Hs. apply (lo_hdr _ _ _ (li_log _ _ _ _ Hi)).
Qed.

(** After [j] of the [n] bytes [src] have been written at [off0] to a file that was [i0] with the bytes [c0]. *)
Record partial v0 (V0 : bview) (ip : nat) (i0 : inode) (c0 : list Z) (off0 : Z) (src : list Z) (n : Z) v (V : bview) (i : inode) (ws : list (Z * block)) (j : Z) : Prop := {
  pt_sb : sb v = sb v0;
  pt_idle : fs_idle lstart lsize v V;
  pt_file : file_cached v (disk_view (v_disk V)) ip i;
  pt_contents : contents (disk_view (v_disk V)) i = overwrite c0 off0 (take (Z.to_nat j) src);
  pt_disk : v_disk V = apply_writes (v_disk V0) ws;
  pt_writes : v_writes V = v_writes V0 ++ ws;
  pt_chunk : chunk n j;
  pt_crash : forall k, let D := disk_view (recovered lstart (apply_writes (v_disk V0) (take k ws))) in
    exists j' i', chunk n j' /\ j' <= j /\ file_on (sb v0) D i' (overwrite c0 off0 (take (Z.to_nat j') src));
  pt_others : forall k o co, let D := disk_view (recovered lstart (apply_writes (v_disk V0) (take k ws))) in
    other_file (sb v0) (disk_view (v_disk V0)) i0 o -> file_on (sb v0) (disk_view (v_disk V0)) o co -> file_on (sb v0) D o co;
  pt_apart : forall o co, other_file (sb v0) (disk_view (v_disk V0)) i0 o -> file_on (sb v0) (disk_view (v_disk V0)) o co ->
    other_file (sb v0) (disk_view (v_disk V)) i o /\ file_on (sb v0) (disk_view (v_disk V)) o co
}.

Lemma partial_start v V ip i off src n : fs_idle lstart lsize v V -> file_cached v (disk_view (v_disk V)) ip i -> 0 <= off <= i_size i -> 0 <= n ->
  partial v V ip i (contents (disk_view (v_disk V)) i) off src n v V i [] 0.
Proof.
  intros F Fc Ho Hn. set (c := contents _ i).
  assert (overwrite c off (take (Z.to_nat 0) src) = c) as Ec.
  { unfold overwrite. cbn. rewrite Z.add_0_r. apply take_drop. }
  assert (chunk n 0) as H0 by (split; [lia|right; by exists 0]).
  split; try done.
  - by rewrite app_nil_r.
  - intros k D. exists 0, i. split; [done|]. split; [done|]. rewrite Ec. unfold D. rewrite take_nil. cbn. rewrite (recovered_idle v V F). apply Fc.
  - intros k o co D _ Hc. unfold D. rewrite take_nil. cbn. by rewrite (recovered_idle v V F).
Qed.

Lemma partial_step v0 V0 ip i0 c0 off0 src n v V i ws j v' V' i' ws' j' : partial v0 V0 ip i0 c0 off0 src n v V i ws j -> sb v' = sb v ->
  step_done lstart lsize v V ip i (overwrite c0 off0 (take (Z.to_nat j) src)) v' V' i' (overwrite c0 off0 (take (Z.to_nat j') src)) ws' ->
  chunk n j' -> j <= j' -> partial v0 V0 ip i0 c0 off0 src n v' V' i' (ws ++ ws') j'.
Proof.
  intros [P1 P2 P3 P4 P5 P6 P7 P8 P9 P10] Hs [T1 T2 T3 T4 T5 T6 T7 T8] Hch Hjj. rewrite P1 in *.
  assert (forall k, recovered lstart (apply_writes (v_disk V0) (take k (ws ++ ws'))) =
    if decide (k <= length ws)%nat then recovered lstart (apply_writes (v_disk V0) (take k ws))
    else recovered lstart (apply_writes (v_disk V) (take (k - length ws) ws'))) as Ek.
  { intros k. rewrite take_app. case_decide; [by replace (k - length ws)%nat with 0%nat by lia; rewrite take_0, app_nil_r|]. rewrite (take_ge ws) by lia. by rewrite aw_app, <- P5. }
  split; try done.
  - by rewrite T2, aw_app, P5.
  - by rewrite T3, P6, app_assoc.
  - intros k D. unfold D. rewrite Ek. case_decide.
    + destruct (P8 k) as (q & iq & Hq & Hle & Hon). exists q, iq. split; [done|]. split; [lia|done].
    + destruct (T6 (k - length ws)%nat) as [A|A]; [exists j, i|exists j', i']; (split; [done|]); (split; [lia|done]).
  - intros k o co D Ho Hco. unfold D. rewrite Ek. case_decide; [by apply P9|]. destruct (P10 o co Ho Hco) as [Q1 Q2]. by apply T7.
  - intros o co Ho Hco. destruct (P10 o co Ho Hco) as [Q1 Q2]. by apply T8.
Qed.

Lemma chunk_next n i : chunk n i -> i < n -> chunk n (i + Z.min FILEMAX (n - i)).
Proof.
  intros [Hi [->|[m Hm]]] Hlt; [lia|]. change FILEMAX with 1536 in *. split; [lia|].
  destruct (decide (n - i <= 1536)); [left; lia|right]. exists (m + 1). change FILEMAX with 1536. lia.
Qed.

(** The file structure [f] at offset [o], and the file system in state [v]. *)
Definition at_offset (f : nat) (x : file) (o : Z) v s : kfs := set_fs v (set_files (<[f := set_foff o x]> (ft_file s)) s).
Lemma at_offset_at f x o v s o' v' y : at_offset f x o v (at_offset f y o' v' s) = at_offset f x o v s.
Proof. unfold at_offset, set_fs, set_files. cbn. by rewrite list_insert_insert_eq. Qed.

Lemma length_overwritten c off src j : 0 <= off <= Z.of_nat (length c) -> 0 <= j <= Z.of_nat (length src) ->
  off + j <= Z.of_nat (length (overwrite c off (take (Z.to_nat j) src))).
Proof. intros Ho Hj. unfold overwrite. rewrite !length_app, !length_take, length_drop. lia. Qed.

Section loop.
Context (s0 : kfs (S := S)) (V0 : bview) (ip : nat) (i0 : inode) (f : nat) (x : file) (src : list Z) (n : Z).
Let c0 : list Z := contents (disk_view (v_disk V0)) i0.
Let off : Z := f_off x.
Context (Hx : ft_file s0 !! f = Some x) (Hip : f_ip x = ip) (Hc0 : file_cached (k_fs s0) (disk_view (v_disk V0)) ip i0)
  (Ho : 0 <= off <= i_size i0) (Hn : n <= Z.of_nat (length src)) (Hbytes : Forall byte src).

Definition stopped (j : Z) : Prop := j < n -> MAXFILE * BSIZE < off + j + Z.min FILEMAX (n - j).

Lemma filewrite_loop_ok fuel : forall i v V ii ws, (Z.to_nat (n - i) < fuel)%nat ->
  partial (k_fs s0) V0 ip i0 c0 off src n v V ii ws i ->
  let r := filewrite_loop dev_write fuel f src i n (at_offset f x (off + i) v s0) in
  r = Panic "balloc: out of blocks" \/
  exists j v' V' i' ws', r = Ok j (at_offset f x (off + j) v' s0) /\ partial (k_fs s0) V0 ip i0 c0 off src n v' V' i' ws' j /\ stopped j.
Proof.
  assert (Z.of_nat (length c0) = i_size i0) as Hlen by (apply length_contents; apply Hc0).
  pose proof maxfile_small as Hms. pose proof (fc_size _ _ _ _ Hc0) as Hsz0.
  induction fuel as [|fuel IH]; intros i v V ii ws Hf P; [lia|]. cbn [filewrite_loop].
  pose proof (pt_chunk _ _ _ _ _ _ _ _ _ _ _ _ _ P) as Hch. destruct (Z.ltb_spec i n) as [Hlt|Hge].
  2:{ right. exists i, v, V, ii, ws. split; [done|]. split; [done|]. unfold stopped. lia. }
  pose proof (chunk_next n i Hch Hlt) as Hch'. destruct Hch as [Hi _].
  assert ((if FILEMAX <? n - i then FILEMAX else n - i) = Z.min FILEMAX (n - i)) as -> by (destruct (Z.ltb_spec FILEMAX (n - i)); lia).
  set (n1 := Z.min FILEMAX (n - i)) in *. change FILEMAX with 1536 in n1.
  assert (i_size ii <= MAXFILE * BSIZE /\ off + i <= i_size ii) as [Hsi Hoi].
  { pose proof (pt_file _ _ _ _ _ _ _ _ _ _ _ _ _ P) as Fc. split; [apply Fc|]. rewrite <- (length_contents (disk_view (v_disk V)) ii) by apply Fc.
    rewrite (pt_contents _ _ _ _ _ _ _ _ _ _ _ _ _ P). apply length_overwritten; lia. }
  cbv zeta. set (st := at_offset f x (off + i) v s0).
  assert (ft_file st !! f = Some (set_foff (off + i) x)) as Hf1 by (by apply list_lookup_insert_eq; eapply lookup_lt_Some).
  pose proof (filewrite_op_eq f (drop (Z.to_nat i) src) n1 st _ Hf1) as Eop. cbn [f_ip f_off set_foff] in Eop. rewrite Hip in Eop.
  rewrite (u32_small n1) in Eop by (unfold is_u32; lia). change (k_fs st) with v in Eop.
  pose proof (pt_contents _ _ _ _ _ _ _ _ _ _ _ _ _ P) as Ec.
  assert (length (take (Z.to_nat i) src) = Z.to_nat i) as Hli by (rewrite length_take; lia).
  destruct (write_op_atomic lstart lsize dev_write v V ip ii (drop (Z.to_nat i) src) (off + i) n1) as [E|(y & V' & i' & ws' & E & T)]; try done.
  { apply P. } { apply P. } { lia. } { rewrite length_drop. lia. } { unfold is_u32. lia. } { by apply Forall_drop. }
  { apply chunk_blocks; [lia|change FILEMAX with 1536; lia]. }
  { left. rewrite E in Eop. by apply bind_Panic. }
  rewrite E in Eop. rewrite Ec in T.
  assert (overwrite (overwrite c0 off (take (Z.to_nat i) src)) (off + i) (take (Z.to_nat n1) (drop (Z.to_nat i) src)) = overwrite c0 off (take (Z.to_nat (i + n1)) src)) as Eov.
  { replace (off + i) with (off + Z.of_nat (length (take (Z.to_nat i) src))) by lia. rewrite overwrite_overwrite by lia. f_equal.
    rewrite Z2Nat.inj_add by lia. by rewrite take_take_drop. }
  rewrite Eov in T. set (v' := at_inode v ip y i') in *. destruct (Z.leb_spec (off + i + n1) (MAXFILE * BSIZE)) as [Hfit|Hnot].
  - mstep Eop. destruct (Z.ltb_spec n1 0) as [|_]; [lia|]. rewrite Z.eqb_refl. cbn [negb].
    assert (set_fs v' (moved_to f (set_foff (off + i) x) n1 st) = at_offset f x (off + (i + n1)) v' s0) as ->.
    { unfold moved_to. destruct (Z.ltb_spec 0 n1) as [_|]; [|lia]. cbn [f_off set_foff]. rewrite u32_small by (unfold is_u32; lia).
      rewrite Z.add_assoc. exact (at_offset_at f x (off + i + n1) v' s0 (off + i) v x). }
    apply (IH (i + n1) v' V' i' (ws ++ ws')); [lia|]. apply (partial_step _ _ _ _ _ _ _ _ _ _ _ _ i v' V' i' ws' (i + n1) P); try done. lia.
  - mstep Eop. right. exists i, v', V', i', (ws ++ ws'). split; [|split].
    + cbn. unfold mret, M_ret. f_equal.
    + apply (partial_step _ _ _ _ _ _ _ _ _ _ _ _ i v' V' i' ws' i P); try done; apply P.
    + unfold stopped. change FILEMAX with 1536. fold n1. lia.
Qed.
End loop.
End filewrite.

