(* ===== verification/FileBio.v ===== *)
(** * Files on the log, the cache and the page allocator: concrete runs *)

From S2P Require Import Prelude Spinlock Kalloc Sleeplock Cache Bio Log LogBio Journal LogJournal Fs FsAlloc FsFile FsWrite FsInode FsPath FsDir FsAtomic FsBio Pipe Syscall File FileRef FileWrite.

Notation bfs := (fsys (S := lst bst)).
Definition no_read : Z -> option (nat -> Z -> M bfs (Z * list Z)) := fun _ => None.
Definition no_write : Z -> option (nat -> list Z -> Z -> M bfs Z) := fun _ => None.

(** ** A pipe, and its write end duplicated *)

(** A process of a page whose first argument is [v]. *)
Definition demo_args (v : Z) : uctx := Uctx 4096 256 (wr32 ∅ 260 v).
Definition demo_boot : kfs (S := bst) := boot (Fsys (log_at (bio_boot [] 5) 20 0 []) demo_sb false [] 5 0) demo_kst1 2 (demo_args 512).
Definition after {A} (m : M (kfs (S := bst)) A) (s : kfs) : kfs := match m s with Ok _ t => t | _ => s end.
Definition demo_piped : kfs (S := bst) := after sys_pipe demo_boot.
(** The process comes back from another one with 1 as its argument. *)
Definition demo_back : kfs (S := bst) := let s := demo_piped in
  Kfs (k_fs s) (ft_lock s) (ft_file s) (k_pipes s) (k_woken s) (k_kst s) (k_ofile s) 0 false (demo_args 1).


(** ** Two chunks *)

Definition demo_open : file := File FD_INODE 1 false true 0 0 0.
Definition demo_kfs : kfs (S := bst) := Kfs (Fsys idle demo_sb false [demo_file] 5 0) false [demo_open] ∅ [] demo_kst1 [] 0 false (demo_args 0).
Definition demo_src : list Z := replicate 2000 7.

