(* ===== verification/Counters.v ===== *)
(** * The system call counters of p2: p2/src/syscall.c and p2/src/proc.c

    A process counts its system calls and those that did not return -1. The state is
    the process table with these counters, the next pid, the lock of the table and the page
    allocator with the kernel memory, in which [allocproc] prepares the kernel stack; the handlers in the table [syscalls] are a parameter. *)

From S2P Require Import Prelude Cstring Spinlock Kalloc PageTable Uvm Sleeplock Kstack.

Inductive p2state := P2Unused | P2Embryo | P2Sleeping | P2Runnable | P2Running | P2Zombie.
#[export] Instance p2state_eq_dec : EqDecision p2state.
Proof. solve_decision. Defined.

Record p2proc := P2proc {
  c_state : p2state; c_pid : Z; c_pgdir : Z; c_kstack : Z; c_parent : option nat; c_name : list Z; c_killed : bool; c_tf : Z; c_context : Z; c_eax : Z; c_syscalls : Z; c_good : Z
}.
Definition set_cstate v p := P2proc v (c_pid p) (c_pgdir p) (c_kstack p) (c_parent p) (c_name p) (c_killed p) (c_tf p) (c_context p) (c_eax p) (c_syscalls p) (c_good p).
Definition set_cpid v p := P2proc (c_state p) v (c_pgdir p) (c_kstack p) (c_parent p) (c_name p) (c_killed p) (c_tf p) (c_context p) (c_eax p) (c_syscalls p) (c_good p).
Definition set_ckstack v p := P2proc (c_state p) (c_pid p) (c_pgdir p) v (c_parent p) (c_name p) (c_killed p) (c_tf p) (c_context p) (c_eax p) (c_syscalls p) (c_good p).
Definition set_cframe tf ctx p := P2proc (c_state p) (c_pid p) (c_pgdir p) (c_kstack p) (c_parent p) (c_name p) (c_killed p) tf ctx (c_eax p) (c_syscalls p) (c_good p).
Definition set_ceax v p := P2proc (c_state p) (c_pid p) (c_pgdir p) (c_kstack p) (c_parent p) (c_name p) (c_killed p) (c_tf p) (c_context p) v (c_syscalls p) (c_good p).
Definition set_csyscalls v p := P2proc (c_state p) (c_pid p) (c_pgdir p) (c_kstack p) (c_parent p) (c_name p) (c_killed p) (c_tf p) (c_context p) (c_eax p) v (c_good p).
Definition set_cgood v p := P2proc (c_state p) (c_pid p) (c_pgdir p) (c_kstack p) (c_parent p) (c_name p) (c_killed p) (c_tf p) (c_context p) (c_eax p) (c_syscalls p) v.
Definition set_free p := P2proc P2Unused 0 (c_pgdir p) (c_kstack p) None (<[0%nat := 0]> (c_name p)) false (c_tf p) (c_context p) (c_eax p) (c_syscalls p) (c_good p).

Record cst := Cst { c_procs : list p2proc; c_nextpid : Z; c_lock : bool; c_kst : kst }.
Definition set_cprocs v s := Cst v (c_nextpid s) (c_lock s) (c_kst s).
Definition set_cnextpid v s := Cst (c_procs s) v (c_lock s) (c_kst s).
Definition set_clock v s := Cst (c_procs s) (c_nextpid s) v (c_kst s).
Definition set_ckst v s := Cst (c_procs s) (c_nextpid s) (c_lock s) v.
Definition kern {A} (m : M kst A) : M cst A := zoom c_kst set_ckst m.

Definition acquire_pt : M cst unit := zoom c_lock set_clock spin_acquire.
Definition release_pt : M cst unit := zoom c_lock set_clock spin_release.
Definition proc_at (p : nat) : M cst p2proc := l ← gets c_procs; of_option (l !! p).
Definition upd_at (p : nat) (f : p2proc -> p2proc) : M cst unit :=
  q ← proc_at p; modify (fun s => set_cprocs (<[p := f q]> (c_procs s)) s).

(** The scans of the table: the first slot that satisfies [test]. *)
Fixpoint first_slot (test : p2proc -> bool) (i : nat) (l : list p2proc) : option nat :=
  match l with
  | [] => None
  | q :: l' => if test q then Some i else first_slot test (S i) l'
  end.
Definition is_unused (q : p2proc) : bool := bool_decide (c_state q = P2Unused).
Definition has_pid (pid : Z) (q : p2proc) : bool := c_pid q =? pid.

Section counters.
Context (trapret forkret : Z).                          (* where the stack returns to *)

(** The assignments to the counters after [goto found] are never reached. *)
Definition allocproc_p2 : M cst (option nat) :=
  acquire_pt;;
  l ← gets c_procs;
  match first_slot is_unused 0 l with
  | None => release_pt;; mret None
  | Some p =>
    upd_at p (set_cstate P2Embryo);;
    n ← gets c_nextpid;
    upd_at p (set_cpid n);;
    modify (set_cnextpid (s32 (n + 1)));;
    release_pt;;
    k ← kern kalloc;
    upd_at p (set_ckstack k);;
    if k =? 0 then upd_at p (set_cstate P2Unused);; mret None else
    let tf := k + KSTACKSIZE - TRAPFRAME in
    kern (kstore (tf - 4) trapret);;
    let ctx := tf - 4 - CONTEXT in
    kern (kmemset ctx 0 CONTEXT);;
    kern (kstore (ctx + 16) forkret);;
    upd_at p (set_cframe tf ctx);;
    mret (Some p)
  end.

(** What [wait] does to a zombie child. *)
Definition reap (p : nat) : M cst Z :=
  q ← proc_at p;
  let pid := c_pid q in
  kern (kfree (c_kstack q));;
  upd_at p (set_ckstack 0);;
  kern (freevm (c_pgdir q));;
  upd_at p set_free;;
  release_pt;;
  mret pid.

Definition getnumsyscalls (pid : Z) : M cst Z :=
  acquire_pt;;
  l ← gets c_procs;
  match first_slot (has_pid pid) 0 l with
  | Some p => q ← proc_at p; release_pt;; mret (c_syscalls q)
  | None => release_pt;; mret (-1)
  end.
Definition getnumsyscallsgood (pid : Z) : M cst Z :=
  acquire_pt;;
  l ← gets c_procs;
  match first_slot (has_pid pid) 0 l with
  | Some p => q ← proc_at p; release_pt;; mret (c_good q)
  | None => release_pt;; mret (-1)
  end.

(** [syscall]: [p] is the current process; [handlers] is the table, which has [NELEM] entries. *)
Context (handlers : Z -> option (M cst Z)).
Definition NELEM : Z := 24.
Definition uncounted (num : Z) : bool := (num =? 1) || (num =? 7) || (num =? 12) || (num =? 22) || (num =? 23).
Definition syscall_p2 (p : nat) : M cst unit :=
  q ← proc_at p;
  let num := s32 (c_eax q) in
  match (if (0 <? num) && (num <? NELEM) then handlers num else None) with
  | Some h =>
    r ← h;
    upd_at p (set_ceax (u32 r));;
    when (negb (uncounted num))
      (upd_at p (fun q => set_csyscalls (s32 (c_syscalls q + 1)) q);;
       q ← proc_at p;
       when (negb (c_eax q =? u32 (-1))) (upd_at p (fun q => set_cgood (s32 (c_good q + 1)) q)))
  | None => upd_at p (set_ceax (u32 (-1)))              (* prints a message *)
  end.

(** A program that makes the calls [nums]; the values it gets back. *)
Fixpoint calls (p : nat) (nums : list Z) : M cst (list Z) :=
  match nums with
  | [] => mret []
  | num :: nums' =>
    upd_at p (set_ceax (u32 num));;
    syscall_p2 p;;
    q ← proc_at p;
    rs ← calls p nums';
    mret (s32 (c_eax q) :: rs)
  end.

(** ** What is counted *)

Definition i32 (x : Z) : Prop := - 2 ^ 31 <= x < 2 ^ 31.
Definition counted (num : Z) : bool :=
  (0 <? num) && (num <? NELEM) && (if handlers num then true else false) && negb (uncounted num).
Definition counted_good (x : Z * Z) : bool := counted (fst x) && negb (snd x =? -1).
Definition count {A} (f : A -> bool) (l : list A) : Z := Z.of_nat (length (List.filter f l)).

Lemma count_cons {A} (f : A -> bool) x l : count f (x :: l) = (if f x then 1 else 0) + count f l.
Proof. unfold count. cbn. destruct (f x); cbn; lia. Qed.
Lemma count_bound {A} (f : A -> bool) l : 0 <= count f l <= Z.of_nat (length l).
Proof. unfold count. pose proof (List.filter_length_le f l). lia. Qed.

Lemma s32_i32 x : i32 (s32 x).
Proof. unfold i32, s32. Z.div_mod_to_equations. lia. Qed.
Lemma s32_i32_id x : i32 x -> s32 x = x.
Proof. unfold i32, s32. intros. Z.div_mod_to_equations. lia. Qed.

Lemma eqb_minus1 r : (u32 r =? u32 (-1)) = (s32 (u32 r) =? -1).
Proof.
  pose proof (u32_range r) as Hu. unfold is_u32 in Hu. assert (u32 (-1) = 2 ^ 32 - 1) as -> by reflexivity.
  unfold s32. destruct (Z.eqb_spec (u32 r) (2 ^ 32 - 1)) as [->|N]; [done|]. symmetry. apply Z.eqb_neq. Z.div_mod_to_equations. lia.
Qed.
Lemma proc_at_ok s p q : c_procs s !! p = Some q -> proc_at p s = Ok q s.
Proof. intros E. unfold proc_at. by rewrite bind_gets, E. Qed.
Lemma upd_at_ok s p q f : c_procs s !! p = Some q -> upd_at p f s = Ok tt (set_cprocs (<[p := f q]> (c_procs s)) s).
Proof. intros E. unfold upd_at. by mstep (proc_at_ok s p q). Qed.
Lemma lookup_upd s p q f : c_procs s !! p = Some q -> c_procs (set_cprocs (<[p := f q]> (c_procs s)) s) !! p = Some (f q).
Proof. intros E. apply list_lookup_insert_eq. by eapply lookup_lt_Some. Qed.

(** The handler of [num], if there is one, returns to process [p] and leaves its counters alone. *)
Definition returns (p : nat) (num : Z) : Prop := forall h s q,
  handlers num = Some h -> c_procs s !! p = Some q ->
  exists r s' q', h s = Ok r s' /\ c_procs s' !! p = Some q' /\ c_syscalls q' = c_syscalls q /\ c_good q' = c_good q.

Lemma syscall_counts s p q num : returns p num -> c_procs s !! p = Some q -> c_eax q = u32 num -> i32 num ->
  0 <= c_syscalls q < 2 ^ 31 - 1 -> 0 <= c_good q < 2 ^ 31 - 1 ->
  exists s' q', syscall_p2 p s = Ok tt s' /\ c_procs s' !! p = Some q' /\
    c_syscalls q' = c_syscalls q + (if counted num then 1 else 0) /\
    c_good q' = c_good q + (if counted_good (num, s32 (c_eax q')) then 1 else 0).
Proof.
  intros K Eq Ee Hi H1 H2. unfold syscall_p2. mstep (proc_at_ok s p q Eq). rewrite Ee, s32_u32 by done.
  unfold counted_good, counted. cbn [fst snd]. destruct ((0 <? num) && (num <? NELEM)); cbn [andb].
  2:{ rewrite (upd_at_ok s p q _ Eq). eexists _, _. split; [done|]. split; [by apply lookup_upd|]. cbn. lia. }
  destruct (handlers num) as [h|] eqn:Eh; cbn [andb].
  2:{ rewrite (upd_at_ok s p q _ Eq). eexists _, _. split; [done|]. split; [by apply lookup_upd|]. cbn. lia. }
  destruct (K h s q Eh Eq) as (r & s1 & q1 & E1 & Eq1 & C1 & C2). mstep E1.
  rewrite (bind_Ok _ _ _ _ _ (upd_at_ok s1 p q1 _ Eq1)). set (s2 := set_cprocs _ s1).
  assert (c_procs s2 !! p = Some (set_ceax (u32 r) q1)) as E2 by (by apply lookup_upd).
  destruct (uncounted num); cbn [negb when].
  { eexists _, _. split; [done|]. split; [exact E2|]. cbn. lia. }
  rewrite (bind_Ok _ _ _ _ _ (upd_at_ok s2 p _ _ E2)). set (s3 := set_cprocs _ s2).
  assert (c_procs s3 !! p = Some (set_csyscalls (s32 (c_syscalls (set_ceax (u32 r) q1) + 1)) (set_ceax (u32 r) q1))) as E3
    by (by apply (lookup_upd s2 p _ (fun q => set_csyscalls (s32 (c_syscalls q + 1)) q))).
  rewrite (bind_Ok _ _ _ _ _ (proc_at_ok s3 p _ E3)). cbn [c_eax set_csyscalls set_ceax c_syscalls].
  assert ((u32 r =? u32 (-1)) = (s32 (u32 r) =? -1)) as Hr by apply eqb_minus1.
  destruct (u32 r =? u32 (-1)) eqn:Er; cbn [negb when].
  - eexists _, _. split; [done|]. split; [exact E3|]. cbn -[s32 u32]. rewrite s32_i32_id by (unfold i32; lia). rewrite <- Hr. cbn. lia.
  - rewrite (upd_at_ok s3 p _ _ E3). eexists _, _. split; [done|]. split; [apply (lookup_upd s3 p _ (fun q => set_cgood (s32 (c_good q + 1)) q) E3)|].
    cbn -[s32 u32]. rewrite !s32_i32_id by (unfold i32; lia). rewrite <- Hr. cbn. lia.
Qed.

Lemma calls_count p : forall nums s q, Forall (returns p) nums -> Forall i32 nums -> c_procs s !! p = Some q ->
  0 <= c_syscalls q -> 0 <= c_good q -> c_syscalls q + Z.of_nat (length nums) < 2 ^ 31 -> c_good q + Z.of_nat (length nums) < 2 ^ 31 ->
  exists rs s' q', calls p nums s = Ok rs s' /\ c_procs s' !! p = Some q' /\ length rs = length nums /\
    c_syscalls q' = c_syscalls q + count counted nums /\ c_good q' = c_good q + count counted_good (zip nums rs).
Proof.
  induction nums as [|num nums IH]; intros s q Hr Hi Eq H1 H2 B1 B2.
  { eexists [], s, q. unfold count. cbn. split_and!; [done..|lia|lia]. }
  apply Forall_cons in Hr as [Hr1 Hr], Hi as [Hi1 Hi]. cbn [calls length] in *.
  mstep (upd_at_ok s p q _ Eq). set (s1 := set_cprocs _ s).
  assert (c_procs s1 !! p = Some (set_ceax (u32 num) q)) as E1 by (by apply lookup_upd).
  destruct (syscall_counts s1 p _ num Hr1 E1) as (s2 & q2 & C & E2 & C1 & C2); [done..|cbn; lia|cbn; lia|]. cbn in C1, C2.
  mstep C. mstep (proc_at_ok s2 p q2 E2).
  assert (forall b : bool, 0 <= (if b then 1 else 0) <= 1) as Hb by (by intros []).
  pose proof (Hb (counted num)). pose proof (Hb (counted_good (num, s32 (c_eax q2)))).
  destruct (IH s2 q2 Hr Hi E2) as (rs & s3 & q3 & C' & E3 & L & D1 & D2); [lia..|].
  mstep C'. eexists _, s3, q3. split; [done|]. split; [done|]. cbn [length zip zip_with]. rewrite !count_cons.
  split; [lia|]. split; [lia|]. change (zip_with pair nums rs) with (zip nums rs). lia.
Qed.

(** ** The scans *)

Lemma first_slot_ok test : forall l i, match first_slot test i l with
  | Some k => exists j q, k = (i + j)%nat /\ l !! j = Some q /\ test q = true /\ forall j' q', (j' < j)%nat -> l !! j' = Some q' -> test q' = false
  | None => forall j q, l !! j = Some q -> test q = false
  end.
Proof.
  induction l as [|x l IH]; intros i; [done|]. cbn [first_slot]. destruct (test x) eqn:T.
  - exists O, x. split; [lia|]. split; [done|]. split; [done|lia].
  - specialize (IH (S i)). destruct (first_slot test (S i) l) as [k|].
    + destruct IH as (j & q & -> & L & Tq & B). exists (S j), q. split; [lia|]. split; [done|]. split; [done|].
      intros [|j'] q' Hj L'; [by injection L' as <-|]. apply (B j' q'); [lia|done].
    + intros [|j] q L'; [by injection L' as <-|]. by apply (IH j).
Qed.

(** Slot [p] is the first that satisfies [test]. *)
Definition first (test : p2proc -> bool) (s : cst) (p : nat) (q : p2proc) : Prop :=
  c_procs s !! p = Some q /\ test q = true /\ forall j q', (j < p)%nat -> c_procs s !! j = Some q' -> test q' = false.

Lemma first_slot_first test s : match first_slot test 0 (c_procs s) with
  | Some p => exists q, first test s p q
  | None => forall p q, ~ first test s p q
  end.
Proof.
  pose proof (first_slot_ok test (c_procs s) 0) as P. destruct (first_slot _ _ _).
  - destruct P as (j & q & -> & L & T & B). exists q. by split.
  - intros p q (L & T & _). rewrite (P p q L) in T. done.
Qed.
Lemma first_unique test s p q p' q' : first test s p q -> first test s p' q' -> p = p' /\ q = q'.
Proof.
  intros (L & T & B) (L' & T' & B'). destruct (lt_eq_lt_dec p p') as [[Hl| ->]|Hl].
  - rewrite (B' p q Hl L) in T. done.
  - split; [done|]. congruence.
  - rewrite (B p' q' Hl L') in T'. done.
Qed.

Lemma acquire_pt_ok s : c_lock s = false -> acquire_pt s = Ok tt (set_clock true s).
Proof. intros E. unfold acquire_pt, zoom, spin_acquire. by rewrite E. Qed.
Lemma release_pt_ok s : c_lock s = true -> release_pt s = Ok tt (set_clock false s).
Proof. intros E. unfold release_pt, zoom, spin_release. by rewrite E. Qed.
Lemma set_clock_id s : c_lock s = false -> set_clock false (set_clock true s) = s.
Proof. destruct s; cbn. by intros ->. Qed.

Lemma scan_counter (get : p2proc -> Z) pid s : c_lock s = false ->
  (acquire_pt;; l ← gets c_procs;
   match first_slot (has_pid pid) 0 l with
   | Some p => q ← proc_at p; release_pt;; mret (get q)
   | None => release_pt;; mret (-1)
   end) s = Ok (match first_slot (has_pid pid) 0 (c_procs s) with
                | Some p => match c_procs s !! p with Some q => get q | None => -1 end
                | None => -1
                end) s.
Proof.
  intros E. mstep (acquire_pt_ok s E). rewrite bind_gets. cbn [c_procs set_clock].
  pose proof (first_slot_first (has_pid pid) s) as P. destruct (first_slot _ _ _) as [p|].
  - destruct P as (q & L & _). rewrite L. mstep (proc_at_ok (set_clock true s) p q L). mstep (release_pt_ok (set_clock true s) eq_refl).
    by rewrite set_clock_id.
  - mstep (release_pt_ok (set_clock true s) eq_refl). by rewrite set_clock_id.
Qed.

(** ** A new process *)

Local Notation stack_mem := (stack_mem trapret forkret).
Local Notation new_stack := (new_stack trapret forkret).

Lemma kern_ok {A} (m : M kst A) ps n lk k a t : m k = Ok a t -> kern m (Cst ps n lk k) = Ok a (Cst ps n lk t).
Proof. intros E. by apply (zoom_Ok c_kst set_ckst). Qed.

Lemma upd_at_insert ps p q f n lk k : (p < length ps)%nat ->
  upd_at p f (Cst (<[p := q]> ps) n lk k) = Ok tt (Cst (<[p := f q]> ps) n lk k).
Proof.
  intros H. rewrite (upd_at_ok _ p q) by (by apply list_lookup_insert_eq). unfold set_cprocs. cbn. by rewrite list_insert_insert_eq.
Qed.

(** The slot [q] as [allocproc] leaves it. *)
Definition new_proc (q : p2proc) (pid k : Z) : p2proc :=
  P2proc P2Embryo pid (c_pgdir q) k (c_parent q) (c_name q) (c_killed q) (frame_at k) (context_at k) (c_eax q) (c_syscalls q) (c_good q).

Lemma allocproc_p2_ok me s p q k l : c_lock s = false -> first is_unused s p q -> kinv me (c_kst s) (k :: l) ->
  is_u32 trapret -> is_u32 forkret ->
  exists t, allocproc_p2 s = Ok (Some p) (Cst (<[p := new_proc q (c_nextpid s) k]> (c_procs s)) (s32 (c_nextpid s + 1)) false t) /\
    kinv me t l /\ new_stack (k_mem t) k.
Proof.
  intros El Hf Hk Ht Hfk. destruct (kalloc_step me _ k l Hk) as (t & Ek & Hl & Hm & He).
  assert (page_ok (k_end t) k) as Hp. { rewrite He. by destruct Hk as [(_ & ? & _) _ _ _ _]. }
  assert (k ∉ l) as Hkl by (by destruct Hk as [_ [? _]%NoDup_cons _ _ _]).
  destruct (stack_mem_ok _ _ _ (k_mem t) k Hp (ki_bytes _ _ _ Hl) Ht Hfk) as (Hb & Hs & Ho).
  exists (set_mem (stack_mem (k_mem t) k) t). split_and!; [|apply kinv_mem; [done..|]|exact Hs].
  2:{ intros w Hw a Ha. symmetry. apply Ho. apply (page_disjoint (k_end t) w k a); [|done| |done].
      - rewrite He. destruct Hl as [Hc _ _ _ _]. rewrite He in Hc. apply chain_pages in Hc. by eapply Forall_forall in Hc.
      - intros ->. done. }
  destruct Hf as (Lp & Tq & Bq). pose proof (first_slot_first is_unused s) as P.
  assert (p < length (c_procs s))%nat as Hlen by (by eapply lookup_lt_Some).
  unfold allocproc_p2. mstep (acquire_pt_ok s El). rewrite bind_gets. cbn [c_procs set_clock].
  destruct (first_slot is_unused 0 (c_procs s)) as [p'|]; [|by destruct (P p q)]. destruct P as (q' & P).
  destruct (first_unique _ _ _ _ _ _ P (conj Lp (conj Tq Bq))) as [-> ->]. clear P.
  destruct s as [ps n lk kt]. cbn in *. subst lk.
  mstep (upd_at_ok (Cst ps n true kt) p q _ Lp). unfold set_cprocs. cbn [c_procs c_nextpid c_lock c_kst].
  mgo. cbn [c_nextpid]. mstep (upd_at_insert ps p _ _ n true kt Hlen). mgo. unfold set_cnextpid. cbn [c_procs c_nextpid c_lock c_kst].
  mstep release_pt_ok. 2: done. unfold set_clock. cbn [c_procs c_nextpid c_lock c_kst].
  mstep (kern_ok _ _ _ _ _ _ _ Ek).
  mstep (upd_at_insert ps p _ _ (s32 (n + 1)) false t Hlen).
  rewrite (proj2 (Z.eqb_neq k 0)) by (by eapply page_nonzero). cbv zeta.
  change (k + KSTACKSIZE - TRAPFRAME) with (frame_at k). change (frame_at k - 4 - CONTEXT) with (context_at k).
  mstep kern_ok. 2:{ apply (kstore_page _ k 4016 _ _ _ ltac:(exact Hp)); [addr|done]. }
  mstep kern_ok. 2:{ apply (kmemset_in_page _ k 3996 _ _ _ _ ltac:(exact Hp)); [addr|done]. }
  mstep kern_ok. 2:{ apply (kstore_page _ k 4012 _ _ _ ltac:(exact Hp)); [addr|done]. }
  mstep (upd_at_insert ps p _ _ (s32 (n + 1)) false _ Hlen). done.
Qed.

Lemma allocproc_none s : c_lock s = false -> (forall p q, ~ first is_unused s p q) -> allocproc_p2 s = Ok None s.
Proof.
  intros El H. unfold allocproc_p2. mstep (acquire_pt_ok s El). rewrite bind_gets. cbn [c_procs set_clock].
  pose proof (first_slot_first is_unused s) as P. destruct (first_slot is_unused 0 (c_procs s)).
  - destruct P as (q & P). by destruct (H _ _ P).
  - mstep (release_pt_ok (set_clock true s) eq_refl). by rewrite set_clock_id.
Qed.

Lemma allocproc_no_memory me s p q : c_lock s = false -> first is_unused s p q -> kinv me (c_kst s) [] ->
  exists t, allocproc_p2 s = Ok None (Cst (<[p := set_ckstack 0 (set_cpid (c_nextpid s) q)]> (c_procs s)) (s32 (c_nextpid s + 1)) false t) /\
    kinv me t [].
Proof.
  intros El (Lp & Tq & Bq) Hk. destruct (kalloc_none me _ Hk) as (t & Ek & Ht & _). exists t. split; [|done].
  pose proof (first_slot_first is_unused s) as P. assert (p < length (c_procs s))%nat as Hlen by (by eapply lookup_lt_Some).
  unfold allocproc_p2. mstep (acquire_pt_ok s El). rewrite bind_gets. cbn [c_procs set_clock].
  destruct (first_slot is_unused 0 (c_procs s)) as [p'|]; [|by destruct (P p q)]. destruct P as (q' & P).
  destruct (first_unique _ _ _ _ _ _ P (conj Lp (conj Tq Bq))) as [-> ->]. clear P.
  destruct s as [ps n lk kt]. cbn in *. subst lk.
  mstep (upd_at_ok (Cst ps n true kt) p q _ Lp). unfold set_cprocs. cbn [c_procs c_nextpid c_lock c_kst].
  mgo. cbn [c_nextpid]. mstep (upd_at_insert ps p _ _ n true kt Hlen). mgo. unfold set_cnextpid. cbn [c_procs c_nextpid c_lock c_kst].
  mstep release_pt_ok. 2: done. unfold set_clock. cbn [c_procs c_nextpid c_lock c_kst].
  mstep (kern_ok _ _ _ _ _ _ _ Ek). mstep (upd_at_insert ps p _ _ (s32 (n + 1)) false t Hlen). rewrite Z.eqb_refl.
  mstep (upd_at_insert ps p _ _ (s32 (n + 1)) false t Hlen). apply bool_decide_eq_true in Tq. destruct q. cbn in *. by subst.
Qed.

(** The zombie [q] after [wait] has collected it. *)
Definition reaped (q : p2proc) : p2proc := set_free (set_ckstack 0 q).

Lemma reap_p2_ok me s p q R l : c_lock s = true -> c_procs s !! p = Some q ->
  pt_inv me (c_kst s) (c_pgdir q) (c_kstack q :: range_pages (k_mem (c_kst s)) (c_pgdir q) 0 KERNBASE ++ R) l ->
  exists t l', reap p s = Ok (c_pid q) (Cst (<[p := reaped q]> (c_procs s)) (c_nextpid s) false t) /\ kinv me t l' /\
    l' ≡ₚ pt_pages (k_mem (c_kst s)) (c_pgdir q) ++ range_pages (k_mem (c_kst s)) (c_pgdir q) 0 KERNBASE ++ c_kstack q :: l.
Proof.
  intros El Lp H. destruct (pt_kfree _ _ _ _ _ _ H) as (t & E & Ht & _ & Ep & Elk & _).
  rewrite <- (range_pages_ext (k_mem (c_kst s)) (k_mem t)) in Ht by auto.
  destruct (freevm_ok _ _ _ _ _ Ht) as (t' & l' & E' & Hk' & P & _).
  exists t', l'. split_and!; [|done|].
  2:{ rewrite P, Ep. by rewrite (range_pages_ext (k_mem (c_kst s)) (k_mem t)) by auto. }
  assert (p < length (c_procs s))%nat as Hlen by (by eapply lookup_lt_Some).
  unfold reap. mstep (proc_at_ok s p q Lp). destruct s as [ps n lk kt]. cbn in *. subst lk.
  mstep (kern_ok _ _ _ _ _ _ _ E). mstep (upd_at_ok (Cst ps n true t) p q _ Lp). unfold set_cprocs. cbn [c_procs c_nextpid c_lock c_kst].
  mstep (kern_ok _ _ _ _ _ _ _ E'). mstep (upd_at_insert ps p _ _ n true t' Hlen). mstep release_pt_ok; done.
Qed.
End counters.

(** What the two system calls of p2 report. A process makes the calls [nums], whose
    handlers return: its first counter grows by the number of known calls other than
    fork, exec, sbrk and the two themselves, the second by those among them whose value the
    process sees is not -1. [getnumsyscalls] and [getnumsyscallsgood] answer with the
    counters of the first slot with that pid, -1 if there is none, and change nothing. *)
Theorem syscall_counters (handlers : Z -> option (M cst Z)) (p : nat) (nums : list Z) (s : cst) (q : p2proc) :
  Forall (returns handlers p) nums -> Forall i32 nums -> c_procs s !! p = Some q ->
  0 <= c_good q <= c_syscalls q -> c_syscalls q + Z.of_nat (length nums) < 2 ^ 31 ->
  (exists rs s' q', calls handlers p nums s = Ok rs s' /\ c_procs s' !! p = Some q' /\ length rs = length nums /\
    c_syscalls q' = c_syscalls q + count (counted handlers) nums /\
    c_good q' = c_good q + count (counted_good handlers) (zip nums rs)) /\
  (c_lock s = false -> forall pid,
    (forall i x, first (has_pid pid) s i x -> getnumsyscalls pid s = Ok (c_syscalls x) s /\ getnumsyscallsgood pid s = Ok (c_good x) s) /\
    ((forall i x, c_procs s !! i = Some x -> c_pid x <> pid) -> getnumsyscalls pid s = Ok (-1) s /\ getnumsyscallsgood pid s = Ok (-1) s)).
Proof.
  intros Hr Hi Lp Hc Hb. split; [by apply calls_count; try lia|]. intros El pid.
  pose proof (scan_counter c_syscalls pid s El) as E1. pose proof (scan_counter c_good pid s El) as E2.
  pose proof (first_slot_first (has_pid pid) s) as P. fold (getnumsyscalls pid) in E1. fold (getnumsyscallsgood pid) in E2. rewrite E1, E2.
  destruct (first_slot (has_pid pid) 0 (c_procs s)) as [i|].
  - destruct P as (x & P). split.
    + intros j y Hj. destruct (first_unique _ _ _ _ _ _ P Hj) as [-> ->]. destruct Hj as (-> & _). done.
    + intros H. destruct P as (L & T & _). apply Z.eqb_eq in T. by destruct (H i x L).
  - split; [|done]. intros j y Hj. by destruct (P j y).
Qed.

(** A process starts with the counts of the process that had its slot. [allocproc] takes
    the first unused slot and a free page, and leaves there a new pid, a kernel stack that
    returns through [forkret] to [trapret], and the old counters, since the two statements
    that clear them come after a [goto]; with no slot, or no page, there is no process and
    the free list is as before. The slot of a zombie that [wait] collects is one of those:
    it is unused, its pages are free again, and its counters are those of the zombie. *)
Theorem slot_keeps_counters (me : nat) (trapret forkret : Z) (s : cst) (p : nat) (q : p2proc) : is_u32 trapret -> is_u32 forkret ->
  (c_lock s = false -> first is_unused s p q ->
    (forall k l, kinv me (c_kst s) (k :: l) -> exists s' q', allocproc_p2 trapret forkret s = Ok (Some p) s' /\
      c_procs s' = <[p := q']> (c_procs s) /\ kinv me (c_kst s') l /\ new_stack trapret forkret (k_mem (c_kst s')) k /\
      c_state q' = P2Embryo /\ c_pid q' = c_nextpid s /\ c_kstack q' = k /\ c_context q' = context_at k /\
      c_syscalls q' = c_syscalls q /\ c_good q' = c_good q) /\
    (kinv me (c_kst s) [] -> exists s' q', allocproc_p2 trapret forkret s = Ok None s' /\
      c_procs s' = <[p := q']> (c_procs s) /\ c_state q' = P2Unused /\ kinv me (c_kst s') [])) /\
  (c_lock s = false -> (forall p q, ~ first is_unused s p q) -> allocproc_p2 trapret forkret s = Ok None s) /\
  (forall R l, c_lock s = true -> c_procs s !! p = Some q ->
    pt_inv me (c_kst s) (c_pgdir q) (c_kstack q :: range_pages (k_mem (c_kst s)) (c_pgdir q) 0 KERNBASE ++ R) l ->
    exists s' q' l', reap p s = Ok (c_pid q) s' /\ c_procs s' = <[p := q']> (c_procs s) /\ c_state q' = P2Unused /\ c_pid q' = 0 /\
      kinv me (c_kst s') l' /\
      l' ≡ₚ pt_pages (k_mem (c_kst s)) (c_pgdir q) ++ range_pages (k_mem (c_kst s)) (c_pgdir q) 0 KERNBASE ++ c_kstack q :: l /\
      c_syscalls q' = c_syscalls q /\ c_good q' = c_good q).
Proof.
  intros Ht Hf. split_and!.
  - intros El Hq. split.
    + intros k l Hk. destruct (allocproc_p2_ok trapret forkret me s p q k l El Hq Hk Ht Hf) as (t & E & Hl & Hs).
      eexists _, (new_proc q (c_nextpid s) k). by split_and!.
    + intros Hk. destruct (allocproc_no_memory trapret forkret me s p q El Hq Hk) as (t & E & Hl). eexists _, _. split_and!; [exact E|done| |exact Hl].
      destruct Hq as (_ & T & _). by apply bool_decide_eq_true in T.
  - apply allocproc_none.
  - intros R l El Lp H. destruct (reap_p2_ok me s p q R l El Lp H) as (t & l' & E & Hk & P). eexists _, (reaped q), l'. by split_and!.
Qed.

(** ** Witnesses *)

(** Three calls of a process whose table of handlers knows getpid (11) and a call 13 that fails. *)
Definition demo_handlers (num : Z) : option (M cst Z) :=
  if num =? 11 then Some (mret 7) else if num =? 13 then Some (mret (-1)) else None.
Definition demo_slot : p2proc := P2proc P2Running 7 0 0 None [] false 0 0 0 5 4.
Definition demo_cst (b : bool) (q : p2proc) : cst := Cst [q] 8 b demo_kst1.

Lemma demo_returns num : returns demo_handlers 0 num.
Proof.
  intros h s q. unfold demo_handlers. repeat case_match; intros [= <-] Lq; by eexists _, s, q.
Qed.

Lemma syscall_counters_witness : exists rs s' q', calls demo_handlers 0 [11; 13; 5; 11] (demo_cst false demo_slot) = Ok rs s' /\
  c_procs s' !! 0%nat = Some q' /\ c_syscalls q' = 8 /\ count (counted_good demo_handlers) (zip [11; 13; 5; 11] [7; -1; -1; 7]) = 2 /\
  getnumsyscalls 7 (demo_cst false demo_slot) = Ok 5 (demo_cst false demo_slot).
Proof.
  destruct (syscall_counters demo_handlers 0 [11; 13; 5; 11] (demo_cst false demo_slot) demo_slot) as [(rs & s' & q' & H1 & H2 & H3 & H4 & _) B].
  - repeat constructor; apply demo_returns.
  - repeat constructor; discriminate.
  - reflexivity.
  - cbn. lia.
  - cbn. lia.
  - exists rs, s', q'. split; [exact H1|]. split; [exact H2|]. split; [rewrite H4; reflexivity|]. split; [reflexivity|].
    destruct (B eq_refl 7) as [B' _]. apply (B' 0%nat demo_slot). split; [reflexivity|]. split; [reflexivity|]. intros j q'' Hj. lia.
Defined.

Definition demo_free : p2proc := P2proc P2Unused 0 0 0 None [] false 0 0 0 5 4.
Lemma slot_keeps_counters_witness : exists s' q', allocproc_p2 256 512 (demo_cst false demo_free) = Ok (Some 0%nat) s' /\
  c_procs s' = [q'] /\ c_syscalls q' = 5.
Proof.
  destruct (slot_keeps_counters 1 256 512 (demo_cst false demo_free) 0 demo_free) as [A _].
  - by split.
  - by split.
  - destruct A as [A _]; [reflexivity| |].
    + split; [reflexivity|]. split; [reflexivity|]. intros j q' Hj. lia.
    + destruct (A _ _ demo_kinv) as (s' & q' & E & Ep & _ & _ & _ & _ & _ & _ & Ec & _). exists s', q'. split; [exact E|]. split; [exact Ep|exact Ec].
Defined.
