(* ===== verification/Mysh.v ===== *)
(** * The shell of p3/mysh.c

    The alias list is the heap of nodes with their [next] and [prev] pointers; a path
    array has MAX_LINE_CMDS slots. What freshly allocated memory holds is a parameter
    ([fresh_slot], [fresh_next]), as is the system: whether [fork] works and which
    programs [execv] can run. A run of the shell is the list of its [event]s. Stores
    past the end of an argument array are undefined behaviour. The input has no NUL
    bytes; the 512 bytes a path is printed into hold any path, whose words come from one
    line. [EExec] names the file its standard output is redirected to. [interactive_mode] and
    [batch_mode] have the same body up to the prompt, the echo and the initialisation
    of [new_node->next], so one [do_line] models both; [free] of lines has no effect on
    the model. *)

From S2P Require Import Prelude.
From Stdlib Require Import Ascii.

Definition MAX_CMD_LINE_SIZE : nat := 512.
Definition MAX_LINE_CMDS : nat := 100.

(** ** The C library's string functions *)

Notation chr c := (String c EmptyString).
Definition nl : ascii := "010".
Definition tab : ascii := "009".
Definition WS : list ascii := [" "; tab; nl]%char.
Definition GT : list ascii := [">"]%char.

Definition is_delim (d : list ascii) (c : ascii) : bool := bool_decide (c ∈ d).

Fixpoint strspn (d : list ascii) (s : string) : string :=
  match s with
  | EmptyString => EmptyString
  | String c s' => if is_delim d c then strspn d s' else s
  end.
Fixpoint strbrk (d : list ascii) (s : string) : string * string :=
  match s with
  | EmptyString => (EmptyString, EmptyString)
  | String c s' => if is_delim d c then (EmptyString, s') else
      let '(t, r) := strbrk d s' in (String c t, r)
  end.
(** [strtok]: the token, and the rest that [strtok(NULL, ...)] continues with. *)
Definition strtok (d : list ascii) (s : string) : option string * string :=
  match strspn d s with
  | EmptyString => (None, EmptyString)
  | s' => let '(t, r) := strbrk d s' in (Some t, r)
  end.

Fixpoint strchr_from (i : nat) (c : ascii) (s : string) : option nat :=
  match s with
  | EmptyString => None
  | String c' s' => if Ascii.eqb c' c then Some i else strchr_from (S i) c s'
  end.
Definition strchr (s : string) (c : ascii) : option nat := strchr_from 0 c s.
Fixpoint strrchr_from (i : nat) (c : ascii) (s : string) (last : option nat) : option nat :=
  match s with
  | EmptyString => last
  | String c' s' => strrchr_from (S i) c s' (if Ascii.eqb c' c then Some i else last)
  end.
Definition strrchr (s : string) (c : ascii) : option nat := strrchr_from 0 c s None.

(** [fgets]: up to [n] characters, to the end of the line. *)
Fixpoint read_line (n : nat) (s : string) : string * string :=
  match n, s with
  | S n', String c s' => if Ascii.eqb c nl then (chr c, s') else let '(l, r) := read_line n' s' in (String c l, r)
  | _, _ => (EmptyString, s)
  end.
Definition fgets (s : string) : option (string * string) :=
  match s with EmptyString => None | _ => Some (read_line (MAX_CMD_LINE_SIZE - 1) s) end.

(** The loops that fill an argument array: a token for each slot and NULL after them.
    [None]: the array is too short. *)
Fixpoint collect (room : nat) (tok : option string * string) : option (list string * string) :=
  match room with
  | O => None
  | S room' =>
    match tok with
    | (None, r) => Some ([], r)
    | (Some t, r) => match collect room' (strtok WS r) with Some (l, r') => Some (t :: l, r') | None => None end
    end
  end.

(** ** The alias list *)

Inductive ptr := Junk | Null | Ptr (a : nat).
Inductive slot := SJunk | SNull | SStr (s : string).
Record anode := Anode { an_alias : string; an_path : list slot; an_num : nat; an_next : ptr; an_prev : ptr }.
Definition set_next v n := Anode (an_alias n) (an_path n) (an_num n) v (an_prev n).
Definition set_prev v n := Anode (an_alias n) (an_path n) (an_num n) (an_next n) v.
Definition set_path v n := Anode (an_alias n) v (an_num n) (an_next n) (an_prev n).
Definition set_num v n := Anode (an_alias n) (an_path n) v (an_next n) (an_prev n).
Definition set_alias v n := Anode v (an_path n) (an_num n) (an_next n) (an_prev n).

Inductive event :=
  | EOut (s : string)                                   (* written to stdout *)
  | EErr (s : string)                                   (* written to stderr *)
  | EExec (prog : string) (argv : list string) (out : option string).

Record msh := Msh { heap : gmap nat anode; brk : nat; tailp : nat; evs : list event }.
Definition set_heap v s := Msh v (brk s) (tailp s) (evs s).
Definition set_tailp v s := Msh (heap s) (brk s) v (evs s).
Definition emit (e : event) : M msh unit := modify (fun s => Msh (heap s) (brk s) (tailp s) (evs s ++ [e])).

Definition get_node (a : nat) : M msh anode := h ← gets heap; of_option (h !! a).
Definition upd_node (a : nat) (f : anode -> anode) : M msh unit :=
  n ← get_node a; modify (fun s => set_heap (<[a := f n]> (heap s)) s).
Definition deref (p : ptr) : M msh nat := match p with Ptr a => mret a | _ => undef end.

Definition INVALID_CMD_LINE : string := "Usage: mysh [batch-file]" +:+ chr nl.
Definition INVALID_REDIRECT : string := "Redirection misformatted." +:+ chr nl.
Definition UNALIAS_PARTS_ERR : string := "unalias: Incorrect number of arguments." +:+ chr nl.
Definition ALIAS_DANGER_ERR : string := "alias: Too dangerous to alias that." +:+ chr nl.
Definition COMMAND_PROMPT : string := "mysh> ".

Section shell.
Context (fresh_slot : nat -> slot) (fresh_next : ptr).
Context (fork_ok : list event -> bool) (exec_ok : string -> bool).

Definition alloc : M msh nat := fun s =>
  Ok (brk s) (Msh (<[brk s := Anode EmptyString (map fresh_slot (seq 0 MAX_LINE_CMDS)) 0 fresh_next fresh_next]> (heap s))
                (S (brk s)) (tailp s) (evs s)).
(** [free]: the node is gone, and any later access is undefined. *)
Definition free (a : nat) : M msh unit := modify (fun s => set_heap (delete a (heap s)) s).

(** The first [num] entries of a path, joined by blanks. *)
Fixpoint path_string (path : list slot) (num : nat) : option string :=
  match num, path with
  | O, _ => Some EmptyString
  | 1%nat, SStr x :: _ => Some x
  | S num', SStr x :: path' =>
    match path_string path' num' with Some r => Some (x +:+ " " +:+ r) | None => None end
  | _, _ => None
  end.
Definition print_node (n : anode) : M msh unit :=
  p ← of_option (path_string (an_path n) (an_num n));
  emit (EOut (an_alias n +:+ " " +:+ p +:+ chr nl)).

Fixpoint print_from (fuel : nat) (p : ptr) : M msh unit :=
  match fuel with
  | O => hang
  | S fuel' =>
    match p with
    | Null => mret tt
    | Junk => undef
    | Ptr a => n ← get_node a; print_node n;; print_from fuel' (an_next n)
    end
  end.
(** [head] is the first dummy node's [next]; lists have fewer nodes than were allocated. *)
Definition printList (head : nat) : M msh unit :=
  fuel ← gets brk; n ← get_node head; print_from (S fuel) (an_next n).

Fixpoint check_from (fuel : nat) (p : ptr) (alias : string) : M msh (option nat) :=
  match fuel with
  | O => hang
  | S fuel' =>
    match p with
    | Null => mret None
    | Junk => undef
    | Ptr a => n ← get_node a; if String.eqb (an_alias n) alias then mret (Some a) else check_from fuel' (an_next n) alias
    end
  end.
Definition checkAlias (head : nat) (alias : string) : M msh (option nat) :=
  fuel ← gets brk; n ← get_node head; check_from (S fuel) (an_next n) alias.

(** [addNodePath]: the first entries of the array are replaced. *)
Definition store_path (path : list string) (old : list slot) : list slot := map SStr path ++ drop (length path) old.
Definition addNodePath (a : nat) (path : list string) : M msh unit := upd_node a (fun n => set_path (store_path path (an_path n)) n).

Definition TAIL0 : nat := 1.
Definition init : msh :=
  Msh {[ 0%nat := Anode EmptyString (map fresh_slot (seq 0 MAX_LINE_CMDS)) 0 (Ptr TAIL0) Null;
         TAIL0 := Anode EmptyString (map fresh_slot (seq 0 MAX_LINE_CMDS)) 0 Null (Ptr 0) ]} 2 TAIL0 [].

(** A new node at the end of the list. *)
Definition new_alias (batch : bool) (name : string) (path : list string) : M msh unit :=
  a ← alloc;
  upd_node a (set_alias name);;
  when batch (upd_node a (set_next Null));;
  addNodePath a path;;
  t ← gets tailp;
  upd_node a (set_prev (Ptr t));;
  upd_node a (set_num (length path));;
  upd_node t (set_next (Ptr a));;
  modify (set_tailp a).

(** The command [alias]; [args] has its arguments. *)
Definition alias_cmd (batch : bool) (args : list string) : M msh unit :=
  match args with
  | [] => printList TAIL0
  | [name] =>
    n ← checkAlias TAIL0 name;
    match n with Some a => n ← get_node a; print_node n | None => mret tt end
  | name :: path =>
    if String.eqb name "alias" || String.eqb name "unalias" || String.eqb name "exit" then emit (EErr ALIAS_DANGER_ERR) else
    e ← checkAlias TAIL0 name;
    match e with
    | Some a => addNodePath a path;; upd_node a (set_num (length path))
    | None => new_alias batch name path
    end
  end.

Definition unalias_cmd (args : list string) : M msh unit :=
  match args with
  | [name] =>
    d ← checkAlias TAIL0 name;
    match d with
    | None => mret tt
    | Some a =>
      n ← get_node a;
      match an_next n with
      | Null =>
        t ← gets tailp;
        t ← get_node t;
        t' ← deref (an_prev t);
        modify (set_tailp t');;
        upd_node t' (set_next Null);;
        free a
      | _ =>
        p ← deref (an_prev n);
        upd_node p (set_next (an_next n));;
        x ← deref (an_next n);
        upd_node x (set_prev (an_prev n));;
        free a
      end
    end
  | _ => emit (EErr UNALIAS_PARTS_ERR)
  end.

(** [execv(path[0], path)]: the arguments up to NULL. *)
Fixpoint argv_of (path : list slot) : option (list string) :=
  match path with
  | SNull :: _ => Some []
  | SStr x :: path' => match argv_of path' with Some l => Some (x :: l) | None => None end
  | _ => None
  end.
Definition execv (argv : list string) (out : option string) : M msh unit :=
  match argv with
  | [] => undef
  | prog :: _ =>
    emit (EExec prog argv out);;
    when (negb (exec_ok prog)) (emit (EErr (prog +:+ ": Command not found." +:+ chr nl)))
  end.

(** The forked child. It has a copy of the memory, which it does not change. *)
Definition child (args : list string) (redir : option (list string * string)) : M msh unit :=
  prog ← of_option (hd_error args);
  a ← checkAlias TAIL0 prog;
  match a with
  | Some a => n ← get_node a; argv ← of_option (argv_of (an_path n)); execv argv None
  | None =>
    match redir with
    | Some (redir_args, file) => execv redir_args (Some file)
    | None => execv args None
    end
  end.

(** The parsing of a redirection: [inl] is its error message. *)
Definition parse_redirect (redir : string) : option (string + option (list string * string)) :=
  let redir_flag := bool_decide (is_Some (strchr redir ">")) in
  if negb (bool_decide (strchr redir ">" = strrchr redir ">")) && redir_flag then Some (inl INVALID_REDIRECT) else
  let '(before_redirect, r) := strtok GT redir in
  let '(after_redirect, r) := strtok GT r in
  '(redir_output, r) ← collect MAX_LINE_CMDS (strtok WS (default r after_redirect));
  if negb (length redir_output =? 1)%nat && redir_flag then Some (inl INVALID_REDIRECT) else
  '(redir_args, _) ← collect MAX_LINE_CMDS (strtok WS (default r before_redirect));
  if (length redir_args =? 0)%nat && redir_flag then Some (inl INVALID_REDIRECT) else
  Some (inr (if redir_flag then match redir_output with f :: _ => Some (redir_args, f) | [] => None end else None)).

Definition run_cmd (args : list string) (userline : string) : M msh unit :=
  r ← of_option (parse_redirect userline);
  match r with
  | inl e => emit (EErr e)
  | inr redir =>
    es ← gets evs;
    if fork_ok es then child args redir else emit (EOut ("mysh: fork failed" +:+ chr nl))
  end.

Definition do_line (batch : bool) (userline : string) : M msh unit :=
  c ← of_option (collect MAX_LINE_CMDS (strtok WS userline));
  let args := fst c in
  match args with
  | [] => mret tt
  | cmd :: rest =>
    if String.eqb cmd "alias" then alias_cmd batch rest
    else if String.eqb cmd "unalias" then unalias_cmd rest
    else run_cmd args userline
  end.

(** The modes: [fuel] bounds the number of lines read. *)
Fixpoint interactive_mode (fuel : nat) (input : string) : M msh unit :=
  match fuel with
  | O => hang
  | S fuel' =>
    emit (EOut COMMAND_PROMPT);;
    match fgets input with
    | None => mret tt
    | Some (userline, input') =>
      if String.eqb userline ("exit" +:+ chr nl) then mret tt
      else do_line false userline;; interactive_mode fuel' input'
    end
  end.
Fixpoint batch_mode (fuel : nat) (input : string) : M msh unit :=
  match fuel with
  | O => hang
  | S fuel' =>
    match fgets input with
    | None => mret tt
    | Some (buf, input') =>
      if (MAX_CMD_LINE_SIZE <? String.length buf)%nat then
        emit (EOut (String.substring 0 MAX_CMD_LINE_SIZE buf));; batch_mode fuel' input'
      else
        emit (EOut buf);;
        if String.eqb buf ("exit" +:+ chr nl) then mret tt
        else do_line true buf;; batch_mode fuel' input'
    end
  end.
Definition lines_fuel (input : string) : nat := S (String.length input).

(** [main]: the command line, the contents of the batch file, and standard input. *)
Definition main (argv : list string) (file : option string) (stdin : string) : M msh Z :=
  match argv with
  | [] => undef                                        (* [argv[1]] is beyond the array *)
  | [_] => interactive_mode (lines_fuel stdin) stdin;; mret 0
  | [_; name] =>
    match file with
    | None => emit (EErr ("Error: Cannot open file " +:+ name +:+ "." +:+ chr nl));; mret 1
    | Some input => batch_mode (lines_fuel input) input;; mret 0
    end
  | _ => emit (EErr INVALID_CMD_LINE);; mret 1
  end.
End shell.
