(* ===== verification/MyshParse.v ===== *)
(** * The command line of p3/mysh.c: words and redirections

    The loops around [strtok] are compared with a reference: cut the line at every
    delimiter and drop the empty pieces. *)

From S2P Require Import Prelude Mysh.
From Stdlib Require Import Ascii.

(** The pieces of [s] between its delimiters, empty ones included. *)
Fixpoint split_on (d : list ascii) (s : string) : list string :=
  match s with
  | EmptyString => [EmptyString]
  | String c s' =>
    if is_delim d c then EmptyString :: split_on d s' else
    match split_on d s' with t :: ts => String c t :: ts | [] => [chr c] end
  end.
Definition nonempty (t : string) : Prop := t <> EmptyString.
#[export] Instance nonempty_dec t : Decision (nonempty t).
Proof. unfold nonempty. apply _. Defined.
Definition words (s : string) : list string := filter nonempty (split_on WS s).

Fixpoint all_chars (P : ascii -> bool) (s : string) : bool :=
  match s with EmptyString => true | String c s' => P c && all_chars P s' end.
(** A word that can be typed: not empty and without blanks. *)
Definition is_word (t : string) : Prop := t <> EmptyString /\ all_chars (fun c => negb (is_delim WS c)) t = true.

(** ** Splitting *)

Lemma split_nil d s : split_on d s <> [].
Proof. destruct s as [|c s]; cbn; [done|]. destruct (is_delim d c); [done|]. by destruct (split_on d s). Qed.

Lemma split_strbrk d s t r : strbrk d s = (t, r) ->
  split_on d s = t :: split_on d r \/ (split_on d s = [t] /\ r = EmptyString).
Proof.
  revert t r. induction s as [|c s IH]; cbn; intros t r H; [injection H as <- <-; by right|].
  destruct (is_delim d c); [injection H as <- <-; by left|].
  destruct (strbrk d s) as [t' r']. injection H as <- <-. destruct (IH _ _ eq_refl) as [E|[E ->]]; rewrite E; [by left|by right].
Qed.

Lemma split_app_ne d c s : is_delim d c = false -> exists t ts, split_on d (String c s) = String c t :: ts.
Proof. intros H. cbn. rewrite H. destruct (split_on d s); eauto. Qed.

Lemma filter_split_strspn d s : filter nonempty (split_on d (strspn d s)) = filter nonempty (split_on d s).
Proof. induction s as [|c s IH]; [done|]. cbn. destruct (is_delim d c) eqn:E; [by rewrite IH|]. cbn. by rewrite E. Qed.

Lemma strspn_head d s c s' : strspn d s = String c s' -> is_delim d c = false.
Proof. induction s as [|b s IH]; cbn; [done|]. destruct (is_delim d b) eqn:E; [done|]. by intros [= <- _]. Qed.

(** One call of [strtok] takes the first nonempty piece. *)
Lemma strtok_split d s : match strtok d s with
  | (None, r) => filter nonempty (split_on d s) = [] /\ r = EmptyString
  | (Some t, r) => filter nonempty (split_on d s) = t :: filter nonempty (split_on d r)
  end.
Proof.
  unfold strtok. rewrite <- (filter_split_strspn d s). destruct (strspn d s) as [|c s'] eqn:E; [done|].
  apply strspn_head in E. destruct (strbrk d (String c s')) as [t r] eqn:Eb.
  assert (t <> EmptyString) as Ht.
  { cbn in Eb. rewrite E in Eb. destruct (strbrk d s'). by injection Eb as <- <-. }
  destruct (split_strbrk _ _ _ _ Eb) as [->|[-> ->]].
  - by rewrite filter_cons_True.
  - by rewrite filter_cons_True.
Qed.

Lemma strtok_short d s t r : strtok d s = (Some t, r) -> (length (filter nonempty (split_on d r)) < length (filter nonempty (split_on d s)))%nat.
Proof. intros E. pose proof (strtok_split d s) as H. rewrite E in H. rewrite H. cbn. lia. Qed.

Lemma collect_words room s :
  collect room (strtok WS s) = if decide (length (words s) < room)%nat then Some (words s, EmptyString) else None.
Proof.
  revert s. induction room as [|room IH]; intros s; [done|]. cbn [collect]. unfold words.
  pose proof (strtok_split WS s) as H. destruct (strtok WS s) as [[t|] r]; [|destruct H as [-> ->]; done].
  rewrite H, IH. unfold words. cbn [length]. case_decide; [rewrite decide_True by lia|rewrite decide_False by lia]; done.
Qed.

(** ** Joining words *)

Lemma app_cons c s t : String c s +:+ t = String c (s +:+ t).
Proof. done. Qed.
Lemma app_assoc_str (a b c : string) : (a +:+ b) +:+ c = a +:+ (b +:+ c).
Proof. induction a as [|x a IH]; [done|]. by rewrite !app_cons, IH. Qed.
Lemma app_empty_r (s : string) : s +:+ EmptyString = s.
Proof. induction s as [|x s IH]; [done|]. by rewrite app_cons, IH. Qed.
Lemma str_length_app (a b : string) : String.length (a +:+ b) = (String.length a + String.length b)%nat.
Proof. induction a as [|x a IH]; [done|]. rewrite app_cons. cbn. by rewrite IH. Qed.
Lemma concat_cons sep t u ts : String.concat sep (t :: u :: ts) = t +:+ sep +:+ String.concat sep (u :: ts).
Proof. done. Qed.

Lemma split_word d t s : all_chars (fun c => negb (is_delim d c)) t = true ->
  exists u us, split_on d s = u :: us /\ split_on d (t +:+ s) = (t +:+ u) :: us.
Proof.
  induction t as [|c t IH]; intros H.
  - destruct (split_on d s) as [|u us] eqn:E; [by apply split_nil in E|]. by exists u, us.
  - cbn in H. apply andb_true_iff in H as [Hc H]. apply negb_true_iff in Hc. destruct (IH H) as (u & us & E1 & E2).
    exists u, us. rewrite !app_cons. cbn [split_on]. by rewrite Hc, E2.
Qed.

Lemma words_blank c s : is_delim WS c = true -> words (String c s) = words s.
Proof. intros H. unfold words. cbn [split_on]. by rewrite H. Qed.

Lemma words_cons t c s : is_word t -> is_delim WS c = true -> words (t +:+ String c s) = t :: words s.
Proof.
  intros [Ht Hw] Hc. destruct (split_word WS t (String c s) Hw) as (u & us & E1 & E2). unfold words. rewrite E2.
  cbn [split_on] in E1. rewrite Hc in E1. injection E1 as <- <-. rewrite app_empty_r. by rewrite filter_cons_True.
Qed.

Lemma words_concat_blank c ts : is_delim WS c = true -> Forall is_word ts -> words (String.concat " " ts +:+ chr c) = ts.
Proof.
  intros Hc. induction 1 as [|t ts Ht _ IH]; [by apply (words_blank c EmptyString)|].
  destruct ts as [|u ts]; [by apply (words_cons t c EmptyString)|].
  rewrite concat_cons, !app_assoc_str, app_cons. change (EmptyString +:+ ?s) with s.
  rewrite (words_cons t " " _) by done. by rewrite IH.
Qed.

(** The shell's argument loop, for every line. The words it stores are the nonempty
    pieces of the line between blanks, and typing words with blanks between them
    gives them back; but with 100 words or more it stores past the end of [args]. *)
Theorem argument_words (line : string) :
  (length (words line) < MAX_LINE_CMDS -> collect MAX_LINE_CMDS (strtok WS line) = Some (words line, EmptyString))%nat /\
  (MAX_LINE_CMDS <= length (words line) -> collect MAX_LINE_CMDS (strtok WS line) = None)%nat /\
  forall ts, Forall is_word ts -> words (String.concat " " ts +:+ chr nl) = ts.
Proof.
  rewrite collect_words. split_and!.
  - intros H. by rewrite decide_True.
  - intros H. rewrite decide_False by lia. done.
  - intros ts. by apply words_concat_blank.
Qed.

(** ** Redirections *)

(** What a command line asks for, by its pieces between the [>]s. *)
Definition redirect_spec (s : string) : string + option (list string * string) :=
  match split_on GT s with
  | [_] => inr None
  | [before; after] =>
    match words before, words after with
    | _ :: _, [file] => inr (Some (words before, file))
    | _, _ => inl INVALID_REDIRECT
    end
  | _ => inl INVALID_REDIRECT
  end.

Lemma gt_delim c : is_delim GT c = Ascii.eqb c ">".
Proof.
  unfold is_delim, GT. destruct (Ascii.eqb_spec c ">") as [->|H]; [done|]. apply bool_decide_false.
  intros [->|Hc%elem_of_nil]%elem_of_cons; [done|done].
Qed.

Lemma strchr_split i s : match split_on GT s with
  | [] => False | [_] => strchr_from i ">" s = None | t :: _ => strchr_from i ">" s = Some (i + String.length t)%nat end.
Proof.
  revert i. induction s as [|c s IH]; intros i; [done|]. cbn [split_on strchr_from]. rewrite gt_delim.
  destruct (Ascii.eqb c ">").
  - destruct (split_on GT s) as [|u us] eqn:E; [by apply split_nil in E|]. f_equal. cbn. lia.
  - specialize (IH (S i)). destruct (split_on GT s) as [|t [|u us]]; [done|done|]. rewrite IH. f_equal. cbn. lia.
Qed.

Lemma strrchr_split i s o : match split_on GT s with
  | [] => False
  | [_] => strrchr_from i ">" s o = o
  | [t; _] => strrchr_from i ">" s o = Some (i + String.length t)%nat
  | t :: _ => exists j, strrchr_from i ">" s o = Some j /\ (i + String.length t < j)%nat
  end.
Proof.
  revert i o. induction s as [|c s IH]; intros i o; [done|]. cbn [split_on strrchr_from]. rewrite gt_delim.
  destruct (Ascii.eqb c ">").
  - specialize (IH (S i) (Some i)). destruct (split_on GT s) as [|t [|u us]]; [done| |].
    + rewrite IH. f_equal. cbn. lia.
    + destruct us; [exists (S i + String.length t)%nat; split; [exact IH|cbn; lia]|].
      destruct IH as (j & E & Hj). exists j. split; [exact E|cbn; lia].
  - specialize (IH (S i) o). destruct (split_on GT s) as [|t [|u [|v us]]]; [done|done| |].
    + rewrite IH. f_equal. cbn. lia.
    + destruct IH as (j & E & Hj). exists j. split; [exact E|cbn; lia].
Qed.

Lemma strspn_cons d c s : is_delim d c = false -> strspn d (String c s) = String c s.
Proof. intros H. cbn. by rewrite H. Qed.

(** Appending joins the last piece to the first one. *)
Lemma split_append d a b : exists i l t ts, split_on d a = i ++ [l] /\ split_on d b = t :: ts /\
  split_on d (a +:+ b) = i ++ (l +:+ t) :: ts.
Proof.
  induction a as [|x a (i & l & t & ts & E1 & E2 & E3)].
  - destruct (split_on d b) as [|t ts] eqn:E; [by apply split_nil in E|]. exists [], EmptyString, t, ts. by split_and!.
  - exists (if is_delim d x then EmptyString :: i else match i with u :: i' => String x u :: i' | [] => [] end),
      (if is_delim d x then l else match i with _ :: _ => l | [] => String x l end), t, ts.
    rewrite app_cons. cbn [split_on]. rewrite E1, E2, E3. destruct (is_delim d x); [done|]. by destruct i.
Qed.

Lemma words_length_app a b c : is_delim WS c = false ->
  (length (words a) <= length (words (a +:+ String c b)) /\ length (words b) <= length (words (a +:+ String c b)))%nat.
Proof.
  intros Hc. destruct (split_append WS a (String c b)) as (i & l & t & ts & E1 & E2 & E3). unfold words. rewrite E1, E3.
  cbn [split_on] in E2. rewrite Hc in E2. destruct (split_on WS b) as [|u us]; injection E2 as <- <-.
  { rewrite !filter_app, !length_app. rewrite (filter_cons nonempty l), (filter_cons nonempty (l +:+ _)).
    rewrite (decide_True (P := nonempty (l +:+ chr c))) by (by destruct l). case_decide; cbn; lia. }
  rewrite !filter_app, !length_app. rewrite (filter_cons nonempty l), (filter_cons nonempty (l +:+ _)), (filter_cons nonempty u).
  rewrite (decide_True (P := nonempty (l +:+ String c u))) by (by destruct l). repeat case_decide; cbn; lia.
Qed.

Lemma split_one d s t : split_on d s = [t] -> t = s /\ strbrk d s = (s, EmptyString).
Proof.
  revert t. induction s as [|c s IH]; intros t; cbn [split_on strbrk]; [by intros [= <-]|].
  destruct (is_delim d c).
  - destruct (split_on d s) eqn:E; [by apply split_nil in E|done].
  - destruct (split_on d s) as [|u us] eqn:E; [by apply split_nil in E|]. intros [= <- ->].
    destruct (IH u eq_refl) as [-> ->]. done.
Qed.

Lemma split_two s a b : split_on GT s = [a; b] ->
  s = a +:+ String ">" b /\ strbrk GT s = (a, b) /\ split_on GT b = [b].
Proof.
  revert a. induction s as [|c s IH]; intros a; [done|]. cbn [split_on strbrk]. pose proof (gt_delim c) as Hd. destruct (is_delim GT c).
  - intros [= <- E]. destruct (split_one _ _ _ E) as [-> _]. symmetry in Hd. apply Ascii.eqb_eq in Hd as ->. done.
  - destruct (split_on GT s) as [|u us] eqn:E; [by apply split_nil in E|]. intros [= <- ->].
    destruct (IH u eq_refl) as (-> & -> & ->). done.
Qed.

Lemma strtok_one s : split_on GT s = [s] -> strtok GT s = (match s with EmptyString => None | _ => Some s end, EmptyString).
Proof.
  destruct s as [|c s]; [done|]. intros E. destruct (split_one _ _ _ E) as [_ Eb].
  assert (is_delim GT c = false) as Hc. { cbn [split_on] in E. by destruct (is_delim GT c). }
  unfold strtok. rewrite strspn_cons by done. by rewrite Eb.
Qed.

Lemma strtok_two s a b : split_on GT s = [a; b] ->
  strtok GT s = match a with EmptyString => strtok GT b | _ => (Some a, b) end.
Proof.
  intros E. destruct (split_two _ _ _ E) as (-> & Eb & _). destruct a as [|c a]; [done|].
  assert (is_delim GT c = false) as Hc. { rewrite app_cons in E. cbn [split_on] in E. by destruct (is_delim GT c). }
  unfold strtok. rewrite app_cons in *. rewrite strspn_cons by done. by rewrite Eb.
Qed.

Lemma redirection_total (line : string) :
  (length (words line) < MAX_LINE_CMDS)%nat -> parse_redirect line = Some (redirect_spec line).
Proof.
  intros Hn. unfold parse_redirect, redirect_spec, strchr, strrchr.
  pose proof (strchr_split 0 line) as Hc. pose proof (strrchr_split 0 line None) as Hr.
  destruct (split_on GT line) as [|a [|b [|c l]]] eqn:E; [done| | |].
  - rewrite Hc, Hr. destruct (split_one _ _ _ E) as [-> _]. cbn [bool_decide negb andb].
    rewrite strtok_one by done. change (strtok GT EmptyString) with (@None string, EmptyString). cbn -[collect MAX_LINE_CMDS strtok words].
    rewrite (collect_words _ EmptyString), decide_True by (vm_compute; lia). cbn -[collect MAX_LINE_CMDS strtok words].
    rewrite (collect_words _ (default _ _)), decide_True by (destruct line; exact Hn). cbn -[words]. by rewrite !andb_false_r.
  - rewrite Hc, Hr. destruct (split_two _ _ _ E) as (-> & _ & Eb).
    rewrite bool_decide_true by done. rewrite (bool_decide_true (is_Some _)) by done. cbn [negb andb].
    destruct (words_length_app a b ">") as [Ha Hb]; [done|].
    rewrite (strtok_two _ _ _ E). destruct a as [|x a].
    + rewrite (strtok_one b Eb). change (strtok GT EmptyString) with (@None string, EmptyString). cbn -[collect MAX_LINE_CMDS strtok words].
      rewrite (collect_words _ EmptyString), decide_True by (vm_compute; lia). done.
    + rewrite (strtok_one b Eb). cbn [default].
      rewrite (collect_words _ (default _ _)). replace (words (default _ _)) with (words b) by (by destruct b).
      rewrite decide_True by lia. cbn -[collect MAX_LINE_CMDS strtok words].
      destruct (words b) as [|f [|g w]]; cbn -[collect MAX_LINE_CMDS strtok words]; [by destruct (words (String x a))| |by destruct (words (String x a))].
      rewrite (collect_words _ (String x a)), decide_True by lia. cbn -[words]. by destruct (words (String x a)).
  - rewrite Hc. destruct Hr as (j & -> & Hj). rewrite bool_decide_false by (intros [= <-]; lia).
    by rewrite bool_decide_true.
Qed.

(** A word that is not a redirection. *)
Definition is_plain (t : string) : Prop := is_word t /\ all_chars (fun c => negb (is_delim GT c)) t = true.

Lemma split_plain t : all_chars (fun c => negb (is_delim GT c)) t = true -> split_on GT t = [t].
Proof.
  intros H. destruct (split_word GT t EmptyString H) as (u & us & [= <- <-] & E). by rewrite app_empty_r in E.
Qed.

Lemma all_chars_app P (s t : string) : all_chars P (s +:+ t) = all_chars P s && all_chars P t.
Proof. induction s as [|c s IH]; [done|]. rewrite app_cons. cbn [all_chars]. by rewrite IH, andb_assoc. Qed.

Lemma plain_concat ts : Forall is_plain ts -> all_chars (fun c => negb (is_delim GT c)) (String.concat " " ts) = true.
Proof.
  induction 1 as [|t ts [_ Ht] _ IH]; [done|]. destruct ts as [|u ts]; [done|].
  by rewrite concat_cons, !all_chars_app, Ht, IH.
Qed.

(** The parsing of a redirection, on every line the shell can take apart. Without a
    [>] there is none; [arguments > file] gives the words before it and the one word
    after it; every other shape (several [>], no command, no file, several files) is
    reported as misformatted. The arrays it fills are never overrun, and a typed command
    with a file to redirect to is understood as such. *)
Theorem redirection_parsed (line : string) :
  ((length (words line) < MAX_LINE_CMDS)%nat -> parse_redirect line = Some (redirect_spec line)) /\
  forall args file, Forall is_plain args -> is_plain file -> args <> [] ->
    redirect_spec (String.concat " " args +:+ " > " +:+ file +:+ chr nl) = inr (Some (args, file)).
Proof.
  split; [apply redirection_total|]. intros args file Ha [Hf1 Hf2] Hne. unfold redirect_spec.
  assert (split_on GT (String.concat " " args +:+ " > " +:+ file +:+ chr nl) =
    [String.concat " " args +:+ " "; " " +:+ file +:+ chr nl]) as ->.
  { destruct (split_word GT (String.concat " " args +:+ " ") (">" +:+ " " +:+ file +:+ chr nl)) as (u & us & E1 & E2).
    { by rewrite all_chars_app, plain_concat. }
    rewrite app_assoc_str in E2. change (" " +:+ ">" +:+ " " +:+ file +:+ chr nl) with (" > " +:+ file +:+ chr nl) in E2.
    change (EmptyString :: split_on GT (" " +:+ file +:+ chr nl) = u :: us) in E1. injection E1 as <- <-.
    rewrite E2, app_empty_r. f_equal. apply (split_plain (" " +:+ file +:+ chr nl)). by rewrite !all_chars_app, Hf2. }
  assert (words (String.concat " " args +:+ " ") = args) as ->.
  { apply (words_concat_blank " "); [done|]. eapply Forall_impl; [exact Ha|]. by intros t [? _]. }
  assert (words (" " +:+ file +:+ chr nl) = [file]) as ->.
  { change (" " +:+ file +:+ chr nl) with (String " " (file +:+ chr nl)). rewrite words_blank by done.
    by apply (words_cons file nl EmptyString). }
  by destruct args.
Qed.

Lemma redirection_parsed_witness :
  (length (words ("/bin/ls -l > out" +:+ chr nl)) < MAX_LINE_CMDS)%nat /\
  parse_redirect ("/bin/ls -l > out" +:+ chr nl) = Some (inr (Some (["/bin/ls"; "-l"], "out")%string)).
Proof.
  split; [vm_compute; lia|]. etrans; [apply (proj1 (redirection_parsed _)); vm_compute; lia|]. vm_compute. reflexivity.
Defined.

Lemma argument_words_witness : (length (words ("ls -l" +:+ chr nl)) < MAX_LINE_CMDS)%nat /\
  collect MAX_LINE_CMDS (strtok WS ("ls -l" +:+ chr nl)) = Some (["ls"; "-l"]%string, EmptyString).
Proof.
  split; [vm_compute; lia|]. etrans; [apply (proj1 (argument_words _)); vm_compute; lia|]. vm_compute. reflexivity.
Defined.
