(* ===== verification/MyshAlias.v ===== *)
(** * The aliases of p3/mysh.c as a list

    The doubly linked list of alias nodes represents a list of [entry]s with distinct
    names: insertion replaces or appends, deletion removes the entry. [script] says on
    such lists what a batch file does, and [batch_mode] implements it. *)

From S2P Require Import Prelude Mysh MyshParse.

(** An alias: its name, its words, and what the slots after them hold. *)
Record entry := Entry { e_alias : string; e_args : list string; e_rest : list slot }.
Definition entry_slots (e : entry) : list slot := map SStr (e_args e) ++ e_rest e.
Definition entry_node (n : anode) (e : entry) : Prop :=
  an_alias n = e_alias e /\ an_path n = entry_slots e /\ an_num n = length (e_args e).

Fixpoint lookup_alias (name : string) (l : list entry) : option entry :=
  match l with
  | [] => None
  | e :: l' => if String.eqb (e_alias e) name then Some e else lookup_alias name l'
  end.
Definition redefine (name : string) (args : list string) (e : entry) : entry :=
  if String.eqb (e_alias e) name then Entry name args (drop (length args) (entry_slots e)) else e.
Definition insert_alias (fresh : list slot) (name : string) (args : list string) (l : list entry) : list entry :=
  match lookup_alias name l with
  | Some _ => map (redefine name args) l
  | None => l ++ [Entry name args (drop (length args) fresh)]
  end.
Definition delete_alias (name : string) (l : list entry) : list entry :=
  filter (fun e => e_alias e <> name) l.
Definition show_alias (e : entry) : event := EOut (e_alias e +:+ " " +:+ String.concat " " (e_args e) +:+ chr nl).
Definition reserved (name : string) : bool :=
  String.eqb name "alias" || String.eqb name "unalias" || String.eqb name "exit".

(** ** Linked segments of the heap *)

(** From [p], whose node's [prev] is [prev], through [xs] to [last], whose [next] is [q]. *)
Fixpoint dseg (h : gmap nat anode) (prev : nat) (p : ptr) (xs : list nat) (l : list entry) (last : nat) (q : ptr) : Prop :=
  match xs, l with
  | [], [] => p = q /\ last = prev
  | a :: xs', e :: l' => p = Ptr a /\ exists n, h !! a = Some n /\ an_prev n = Ptr prev /\ entry_node n e /\ dseg h a (an_next n) xs' l' last q
  | _, _ => False
  end.

Lemma dseg_length h prev p xs l last q : dseg h prev p xs l last q -> length xs = length l.
Proof.
  revert prev p l. induction xs as [|a xs IH]; intros prev p [|e l] H; try done.
  destruct H as (_ & n & _ & _ & _ & H). cbn. f_equal. eauto.
Qed.

Lemma dseg_app h prev p xs ys l k m r last q :
  dseg h prev p xs l m r -> dseg h m r ys k last q -> dseg h prev p (xs ++ ys) (l ++ k) last q.
Proof.
  revert prev p l. induction xs as [|a xs IH]; intros prev p [|e l] H1 H2; try done.
  - destruct H1 as [-> ->]. exact H2.
  - destruct H1 as (-> & n & E & Hp & He & H). split; [done|]. exists n. split_and!; [done..|]. by apply IH.
Qed.

Lemma dseg_split h prev p xs ys L last q : dseg h prev p (xs ++ ys) L last q ->
  exists l k m r, L = l ++ k /\ dseg h prev p xs l m r /\ dseg h m r ys k last q.
Proof.
  revert prev p L. induction xs as [|a xs IH]; intros prev p L H.
  - by exists [], L, prev, p.
  - destruct L as [|e L]; [done|]. destruct H as (-> & n & E & Hp & He & H).
    destruct (IH _ _ _ H) as (l & k & m & r & -> & H1 & H2). exists (e :: l), k, m, r. split_and!; [done| |done].
    split; [done|]. by exists n.
Qed.

Lemma dseg_frame h b n prev p xs l last q : b ∉ xs ->
  dseg h prev p xs l last q -> dseg (<[b := n]> h) prev p xs l last q.
Proof.
  revert prev p l. induction xs as [|a xs IH]; intros prev p [|e l] Hb H; try done.
  apply not_elem_of_cons in Hb as [Hne Hb]. destruct H as (-> & m & E & Hp & He & H).
  split; [done|]. exists m. rewrite lookup_insert_ne by done. split_and!; [done..|]. by apply IH.
Qed.
Lemma dseg_frame_delete h b prev p xs l last q : b ∉ xs ->
  dseg h prev p xs l last q -> dseg (delete b h) prev p xs l last q.
Proof.
  revert prev p l. induction xs as [|a xs IH]; intros prev p [|e l] Hb H; try done.
  apply not_elem_of_cons in Hb as [Hne Hb]. destruct H as (-> & m & E & Hp & He & H).
  split; [done|]. exists m. rewrite lookup_delete_ne by done. split_and!; [done..|]. by apply IH.
Qed.

(** A segment of one node. *)
Lemma dseg_one h prev p a e last q : dseg h prev p [a] [e] last q <->
  p = Ptr a /\ last = a /\ exists n, h !! a = Some n /\ an_prev n = Ptr prev /\ entry_node n e /\ an_next n = q.
Proof.
  cbn. split.
  - intros (-> & n & E & Hp & He & <- & ->). split_and!; [done..|]. by exists n.
  - intros (-> & -> & n & E & Hp & He & <-). split; [done|]. by exists n.
Qed.

Lemma dseg_cons h prev p a xs e l last q : dseg h prev p (a :: xs) (e :: l) last q <->
  p = Ptr a /\ exists n, h !! a = Some n /\ an_prev n = Ptr prev /\ entry_node n e /\ dseg h a (an_next n) xs l last q.
Proof. done. Qed.

Lemma dseg_last h prev p xs a l last q : dseg h prev p (xs ++ [a]) l last q -> last = a.
Proof.
  intros (l1 & [|e [|? ?]] & m & r & -> & _ & H)%dseg_split; try done.
  - by apply dseg_one in H as (_ & -> & _).
  - destruct H as (_ & n & _ & _ & _ & H). done.
Qed.

(** The nodes hold the aliases [l], and the last one's [next] is [q]. The first node is the second dummy. *)
Definition alias_nodes (s : msh) (l : list entry) (q : ptr) : Prop :=
  exists xs e0, dseg (heap s) 0 (Ptr TAIL0) (TAIL0 :: xs) (e0 :: l) (tailp s) q /\
    NoDup (TAIL0 :: xs) /\ (forall a, a ∈ xs -> a < brk s)%nat /\ (length xs < brk s)%nat /\ (TAIL0 < brk s)%nat.
(** The state represents the aliases [l]. *)
Record aliases (s : msh) (l : list entry) : Prop := {
  al_seg : alias_nodes s l Null;
  al_names : NoDup (map e_alias l)
}.

(** ** The reading operations *)

Lemma check_from_ok name h xs l : forall prev p last fuel s, heap s = h ->
  dseg h prev p xs l last Null -> (length xs < fuel)%nat ->
  exists o, check_from fuel p name s = Ok o s /\
    match o with
    | None => lookup_alias name l = None
    | Some a => exists xs1 xs2 l1 l2 e, xs = xs1 ++ a :: xs2 /\ l = l1 ++ e :: l2 /\ length xs1 = length l1 /\
        e_alias e = name /\ lookup_alias name l = Some e
    end.
Proof.
  revert l. induction xs as [|a xs IH]; intros [|e l] prev p last fuel s Hh H Hf; try done.
  - destruct H as [-> _]. destruct fuel as [|fuel]; [cbn in Hf; lia|]. by exists None.
  - destruct H as (-> & n & E & _ & (Ha & _ & _) & H). destruct fuel as [|fuel]; [cbn in Hf; lia|].
    cbn [check_from lookup_alias]. unfold get_node. rewrite bind_assoc, bind_gets, Hh, E, bind_of_Some, Ha.
    destruct (String.eqb_spec (e_alias e) name) as [Hn|Hn].
    + exists (Some a). split; [done|]. by exists [], xs, [], l, e.
    + cbn in Hf. destruct (IH l a (an_next n) last fuel s Hh H ltac:(lia)) as (o & E' & Ho). exists o. split; [exact E'|].
      destruct o as [b|]; [|done]. destruct Ho as (xs1 & xs2 & l1 & l2 & e' & -> & -> & Hl & Hn' & ->).
      exists (a :: xs1), xs2, (e :: l1), l2, e'. split_and!; [done..|cbn; by f_equal|done|done].
Qed.

(** Behind the last node there is nothing to read. *)
Lemma check_from_junk name h xs l : forall prev p last fuel s, heap s = h ->
  dseg h prev p xs l last Junk -> (length xs < fuel)%nat -> lookup_alias name l = None -> check_from fuel p name s = Undef.
Proof.
  revert l. induction xs as [|a xs IH]; intros [|e l] prev p last fuel s Hh H Hf Hno; try done; destruct fuel as [|fuel]; cbn [length] in Hf; try lia.
  - by destruct H as [-> _].
  - destruct H as (-> & n & E & _ & (Ha & _ & _) & H). cbn [check_from lookup_alias] in *. unfold get_node. rewrite bind_assoc, bind_gets, Hh, E, bind_of_Some, Ha.
    destruct (String.eqb (e_alias e) name); [done|]. eapply (IH l); [done|exact H|lia|done].
Qed.
Lemma checkAlias_junk s l name : alias_nodes s l Junk -> lookup_alias name l = None -> checkAlias TAIL0 name s = Undef.
Proof.
  intros (xs & e0 & H & _ & _ & Hl & _) Hno. pose proof H as (_ & t0 & E & _ & _ & H')%dseg_cons.
  unfold checkAlias, get_node. rewrite bind_gets, bind_assoc, bind_gets, E, bind_of_Some. eapply check_from_junk; [done|exact H'|lia|done].
Qed.

Lemma checkAlias_ok s l name : aliases s l -> exists o, checkAlias TAIL0 name s = Ok o s /\
  match o with
  | None => lookup_alias name l = None
  | Some a => exists xs1 xs2 l1 l2 e e0, l = l1 ++ e :: l2 /\ length xs1 = length l1 /\ e_alias e = name /\
      lookup_alias name l = Some e /\ NoDup (TAIL0 :: xs1 ++ a :: xs2) /\
      (forall b, b ∈ xs1 ++ a :: xs2 -> b < brk s)%nat /\ (length (xs1 ++ a :: xs2) < brk s)%nat /\ (TAIL0 < brk s)%nat /\
      dseg (heap s) 0 (Ptr TAIL0) ((TAIL0 :: xs1) ++ a :: xs2) ((e0 :: l1) ++ e :: l2) (tailp s) Null
  end.
Proof.
  intros [(xs & e0 & H & Hn & Hb & Hl & Ht) _]. pose proof H as (_ & t0 & E & _ & _ & H')%dseg_cons.
  unfold checkAlias, get_node. rewrite bind_gets, bind_assoc, bind_gets, E, bind_of_Some.
  destruct (check_from_ok name (heap s) xs l TAIL0 _ _ (S (brk s)) s eq_refl H' ltac:(lia)) as (o & -> & Ho).
  exists o. split; [done|]. destruct o as [a|]; [|done].
  destruct Ho as (xs1 & xs2 & l1 & l2 & e & -> & -> & ? & ? & ?). exists xs1, xs2, l1, l2, e, e0. by split_and!.
Qed.

Lemma path_string_ok args rest : path_string (map SStr args ++ rest) (length args) = Some (String.concat " " args).
Proof.
  induction args as [|x [|y args] IH]; [by destruct rest|done|].
  change (match path_string (map SStr (y :: args) ++ rest) (length (y :: args)) with
          | Some r => Some (x +:+ " " +:+ r) | None => None end = Some (x +:+ " " +:+ String.concat " " (y :: args))).
  by rewrite IH.
Qed.

Definition emitted (es : list event) (s : msh) : msh := Msh (heap s) (brk s) (tailp s) (evs s ++ es).
Lemma emitted_nil s : emitted [] s = s.
Proof. destruct s. unfold emitted. cbn. by rewrite app_nil_r. Qed.
Lemma emitted_app es es' s : emitted es' (emitted es s) = emitted (es ++ es') s.
Proof. unfold emitted. cbn. by rewrite app_assoc. Qed.
Lemma emit_ok e s : emit e s = Ok tt (emitted [e] s).
Proof. done. Qed.
Lemma aliases_emitted es s l : aliases s l -> aliases (emitted es s) l.
Proof. by intros [H1 H2]. Qed.

Lemma print_node_ok n e s : entry_node n e -> print_node n s = Ok tt (emitted [show_alias e] s).
Proof. intros (Ha & Hp & Hn). unfold print_node. rewrite Hp, Hn. unfold entry_slots. by rewrite path_string_ok, Ha, bind_of_Some. Qed.

Lemma print_from_ok xs l : forall prev p last fuel s,
  dseg (heap s) prev p xs l last Null -> (length xs < fuel)%nat ->
  print_from fuel p s = Ok tt (emitted (map show_alias l) s).
Proof.
  revert l. induction xs as [|a xs IH]; intros [|e l] prev p last fuel s H Hf; try done.
  - destruct H as [-> _]. destruct fuel; [cbn in Hf; lia|]. cbn. by rewrite emitted_nil.
  - destruct H as (-> & n & E & _ & He & H). destruct fuel as [|fuel]; [cbn in Hf; lia|]. cbn in Hf.
    cbn [print_from]. unfold get_node. rewrite bind_assoc, bind_gets, E, bind_of_Some.
    mstep (print_node_ok n e s He). rewrite (IH l a (an_next n) last fuel) by (done || lia). by rewrite emitted_app.
Qed.

Lemma print_from_junk xs l : forall prev p last fuel s, dseg (heap s) prev p xs l last Junk -> (length xs < fuel)%nat -> print_from fuel p s = Undef.
Proof.
  revert l. induction xs as [|a xs IH]; intros [|e l] prev p last fuel s H Hf; try done; destruct fuel as [|fuel]; cbn [length] in Hf; try lia.
  - by destruct H as [-> _].
  - destruct H as (-> & n & E & _ & He & H). cbn [print_from]. unfold get_node. rewrite bind_assoc, bind_gets, E, bind_of_Some.
    mstep (print_node_ok n e s He). eapply (IH l); [exact H|lia].
Qed.
Lemma printList_junk s l : alias_nodes s l Junk -> printList TAIL0 s = Undef.
Proof.
  intros (xs & e0 & H & _ & _ & Hl & _). pose proof H as (_ & t0 & E & _ & _ & H')%dseg_cons.
  unfold printList, get_node. rewrite bind_gets, bind_assoc, bind_gets, E, bind_of_Some. eapply print_from_junk; [exact H'|lia].
Qed.

Lemma printList_ok s l : aliases s l -> printList TAIL0 s = Ok tt (emitted (map show_alias l) s).
Proof.
  intros [(xs & e0 & H & Hn & Hb & Hl & Ht) _]. pose proof H as (_ & t0 & E & _ & _ & H')%dseg_cons.
  unfold printList, get_node. rewrite bind_gets, bind_assoc, bind_gets, E, bind_of_Some.
  eapply print_from_ok; [exact H'|lia].
Qed.

(** ** The updates *)

Lemma lookup_alias_None name l : lookup_alias name l = None -> name ∉ map e_alias l.
Proof.
  induction l as [|e l IH]; cbn; intros H; [by intros ?%elem_of_nil|].
  destruct (String.eqb_spec (e_alias e) name) as [|Hn]; [done|]. apply not_elem_of_cons. split; [congruence|by apply IH].
Qed.

Lemma others_differ name l1 e l2 : NoDup (map e_alias (l1 ++ e :: l2)) -> e_alias e = name ->
  Forall (fun x => e_alias x <> name) (l1 ++ l2).
Proof.
  intros Hn <-. rewrite map_app in Hn. cbn in Hn. rewrite <- Permutation_middle in Hn. apply NoDup_cons in Hn as [Hn _].
  rewrite <- map_app in Hn. apply Forall_forall. intros x Hx E. apply Hn. rewrite <- E. by apply list_elem_of_fmap_2.
Qed.

Lemma filter_true {A} (P : A -> Prop) `{!forall x, Decision (P x)} l : Forall P l -> filter P l = l.
Proof. induction 1 as [|x l Hx _ IH]; [done|]. by rewrite filter_cons_True, IH. Qed.

Lemma delete_alias_mid name l1 e l2 : NoDup (map e_alias (l1 ++ e :: l2)) -> e_alias e = name ->
  delete_alias name (l1 ++ e :: l2) = l1 ++ l2.
Proof.
  intros Hn He. pose proof (others_differ _ _ _ _ Hn He) as [H1 H2]%Forall_app. unfold delete_alias.
  rewrite filter_app, filter_cons_False by (by intros ?).
  by rewrite !filter_true.
Qed.

Lemma redefine_mid name args l1 e l2 : NoDup (map e_alias (l1 ++ e :: l2)) -> e_alias e = name ->
  map (redefine name args) (l1 ++ e :: l2) = l1 ++ redefine name args e :: l2.
Proof.
  intros Hn He. pose proof (others_differ _ _ _ _ Hn He) as [H1 H2]%Forall_app. rewrite map_app. cbn.
  assert (forall k, Forall (fun x => e_alias x <> name) k -> map (redefine name args) k = k) as Hk.
  { induction 1 as [|x k Hx _ IH]; [done|]. cbn. rewrite IH. unfold redefine. by destruct (String.eqb_spec (e_alias x) name). }
  by rewrite !Hk.
Qed.

Lemma upd_node_ok s a n f : heap s !! a = Some n -> upd_node a f s = Ok tt (set_heap (<[a := f n]> (heap s)) s).
Proof. intros E. unfold upd_node, get_node. by rewrite bind_assoc, bind_gets, E, bind_of_Some. Qed.
Lemma get_node_ok s a n : heap s !! a = Some n -> get_node a s = Ok n s.
Proof. intros E. unfold get_node. by rewrite bind_gets, E. Qed.

Lemma redefine_ok s l name args a xs1 xs2 l1 l2 e e0 :
  NoDup (map e_alias l) -> l = l1 ++ e :: l2 -> e_alias e = name -> NoDup (TAIL0 :: xs1 ++ a :: xs2) ->
  (forall b, b ∈ xs1 ++ a :: xs2 -> b < brk s)%nat -> (length (xs1 ++ a :: xs2) < brk s)%nat -> (TAIL0 < brk s)%nat ->
  length xs1 = length l1 ->
  dseg (heap s) 0 (Ptr TAIL0) ((TAIL0 :: xs1) ++ a :: xs2) ((e0 :: l1) ++ e :: l2) (tailp s) Null ->
  exists s', (addNodePath a args;; upd_node a (set_num (length args))) s = Ok tt s' /\
    aliases s' (map (redefine name args) l) /\ evs s' = evs s.
Proof.
  intros Hnl -> He Hn Hb Hl Ht Hlen (k1 & k2 & m & r & Ek & H1 & H2)%dseg_split.
  pose proof (dseg_length _ _ _ _ _ _ _ H1) as L1. cbn in L1.
  apply app_inj_1 in Ek as [<- <-]; [|cbn; lia]. apply dseg_cons in H2 as (-> & n & E & Hp & (Hna & Hnp & Hnn) & H2).
  unfold addNodePath. rewrite (bind_Ok _ _ _ _ _ (upd_node_ok _ _ _ _ E)).
  rewrite (upd_node_ok _ _ (set_path (store_path args (an_path n)) n)) by (cbn; by rewrite lookup_insert_eq).
  unfold set_heap. cbn. rewrite insert_insert_eq. eexists. split; [done|]. split; [|done].
  rewrite redefine_mid by done. split.
  - exists (xs1 ++ a :: xs2), e0. cbn [heap tailp brk]. split_and!; [|done..].
    change (dseg (<[a := set_num (length args) (set_path (store_path args (an_path n)) n)]> (heap s)) 0 (Ptr TAIL0)
      ((TAIL0 :: xs1) ++ a :: xs2) ((e0 :: l1) ++ redefine name args e :: l2) (tailp s) Null).
    change (TAIL0 :: xs1 ++ a :: xs2) with ((TAIL0 :: xs1) ++ a :: xs2) in Hn.
    apply NoDup_app in Hn as (_ & Hd & [Ha2 _]%NoDup_cons).
    eapply dseg_app; [apply dseg_frame; [|exact H1]|]; [intros Hi; apply (Hd _ Hi); by left|].
    apply dseg_cons. split; [done|]. exists (set_num (length args) (set_path (store_path args (an_path n)) n)).
    rewrite lookup_insert_eq. split_and!; [done|exact Hp| |by apply dseg_frame].
    unfold redefine. rewrite He, String.eqb_refl. split_and!; [cbn; congruence| |done].
    cbn. unfold store_path. by rewrite Hnp.
  - rewrite <- (redefine_mid name args) by done. rewrite map_map.
    rewrite (map_ext _ e_alias); [done|]. intros x. unfold redefine. by destruct (String.eqb_spec (e_alias x) name) as [->|].
Qed.

(** Redirecting the last node of a segment, and its [prev] for the first one. *)
Lemma dseg_relink h prev p xs l t r q nt : dseg h prev p xs l t r -> xs <> [] -> NoDup xs -> h !! t = Some nt ->
  dseg (<[t := set_next q nt]> h) prev p xs l t q.
Proof.
  intros H Hx Hn Et. destruct (exists_last Hx) as (ys & t' & ->).
  pose proof (dseg_last _ _ _ _ _ _ _ _ H) as <-. apply dseg_split in H as (l1 & l2 & m & r' & -> & H1 & H2).
  apply NoDup_app in Hn as (_ & Hd & _).
  destruct l2 as [|et [|? ?]]; [done| |by destruct H2 as (_ & ? & _ & _ & _ & ?)].
  apply dseg_one in H2 as (-> & _ & n0 & E & Hp0 & He0 & _). rewrite Et in E. injection E as <-.
  eapply dseg_app; [apply dseg_frame; [|exact H1]|].
  - intros Hi. apply (Hd _ Hi). by left.
  - apply dseg_one. split; [done|]. split; [done|]. exists (set_next q nt). by rewrite lookup_insert_eq.
Qed.

Lemma dseg_reprev h prev prev' x xs l last q nx : dseg h prev (Ptr x) (x :: xs) l last q -> x ∉ xs -> h !! x = Some nx ->
  dseg (<[x := set_prev (Ptr prev') nx]> h) prev' (Ptr x) (x :: xs) l last q.
Proof.
  destruct l as [|e l]; [done|]. intros (_ & n & E & _ & He & H)%dseg_cons Hx Ex. rewrite Ex in E. injection E as <-.
  apply dseg_cons. split; [done|]. exists (set_prev (Ptr prev') nx). rewrite lookup_insert_eq. split_and!; [done..|]. by apply dseg_frame.
Qed.

(** Appending a node to a segment. *)
Lemma dseg_snoc h prev p xs l t a nt n e q : dseg h prev p xs l t Null -> xs <> [] -> NoDup xs -> a ∉ xs -> t <> a ->
  h !! t = Some nt -> an_prev n = Ptr t -> an_next n = q -> entry_node n e ->
  dseg (<[t := set_next (Ptr a) nt]> (<[a := n]> h)) prev p (xs ++ [a]) (l ++ [e]) a q.
Proof.
  intros H Hx Hn Ha Hta Et Hp Hnx He. eapply dseg_app.
  - eapply dseg_relink; [apply dseg_frame; [exact Ha|exact H]|done|done|]. by rewrite lookup_insert_ne.
  - apply dseg_one. split; [done|]. split; [done|]. exists n. rewrite lookup_insert_ne by congruence. by rewrite lookup_insert_eq.
Qed.

Lemma dseg_last_node h prev p xs l t q : dseg h prev p xs l t q -> xs <> [] -> exists nt, h !! t = Some nt.
Proof.
  intros H Hx. destruct (exists_last Hx) as (ys & t' & ->). pose proof (dseg_last _ _ _ _ _ _ _ _ H) as <-.
  apply dseg_split in H as (l1 & [|et [|? ?]] & m & r & -> & H1 & H2); [done| |];
    destruct H2 as (_ & n & E & _); eauto.
Qed.

Lemma dseg_last_in h prev p xs l t q : dseg h prev p xs l t q -> xs <> [] -> t ∈ xs.
Proof.
  intros H Hx. destruct (exists_last Hx) as (ys & t' & ->). pose proof (dseg_last _ _ _ _ _ _ _ _ H) as <-.
  apply elem_of_app. right. by left.
Qed.

Lemma lookup_alias_delete name l : lookup_alias name l = None -> delete_alias name l = l.
Proof.
  intros H%lookup_alias_None. apply filter_true, Forall_forall. intros e He <-. apply H. by apply list_elem_of_fmap_2.
Qed.

(** What is left of the nodes when [a] is unlinked from between [ps] and [xs]. *)
Lemma deleted_aliases s s' l1 e l2 e0 name p ps xs1 a xs2 :
  NoDup (map e_alias (l1 ++ e :: l2)) -> e_alias e = name -> TAIL0 :: xs1 = ps ++ [p] -> NoDup ((ps ++ [p]) ++ a :: xs2) ->
  (forall b, b ∈ xs1 ++ a :: xs2 -> b < brk s)%nat -> (length (xs1 ++ a :: xs2) < brk s)%nat -> (TAIL0 < brk s)%nat ->
  brk s' = brk s -> dseg (heap s') 0 (Ptr TAIL0) (ps ++ [p] ++ xs2) ((e0 :: l1) ++ l2) (tailp s') Null ->
  aliases s' (delete_alias name (l1 ++ e :: l2)).
Proof.
  intros Hnl He Hps Hn Hb Hl Ht Hbrk H. rewrite delete_alias_mid by done. split.
  - exists (xs1 ++ xs2), e0. rewrite app_assoc, <- Hps in H. rewrite Hbrk.
    rewrite length_app in *. cbn in Hl. split_and!; [exact H| | |lia|done].
    + rewrite <- Hps in Hn. change (NoDup ((TAIL0 :: xs1) ++ xs2)). apply NoDup_app in Hn as (? & Hd & [_ ?]%NoDup_cons).
      apply NoDup_app. split_and!; [done| |done]. intros b Hi Hj. apply (Hd _ Hi). by right.
    + intros b Hi. apply Hb. rewrite elem_of_app in *. destruct Hi; [by left|]. right. by right.
  - rewrite map_app in *. cbn in Hnl. rewrite <- Permutation_middle in Hnl. by apply NoDup_cons in Hnl as [_ Hnl].
Qed.

Lemma unalias_ok s l name : aliases s l ->
  exists s', unalias_cmd [name] s = Ok tt s' /\ aliases s' (delete_alias name l) /\ evs s' = evs s.
Proof.
  intros Ha. destruct (checkAlias_ok s l name Ha) as (o & E & Ho). cbn [unalias_cmd]. mstep E. destruct o as [a|].
  2:{ exists s. rewrite lookup_alias_delete by done. done. }
  destruct Ho as (xs1 & xs2 & l1 & l2 & e & e0 & -> & Hlen & He & _ & Hn & Hb & Hl & Ht & H). destruct Ha as [_ Hnl].
  destruct (exists_last (l := TAIL0 :: xs1)) as (ps & p & Hps); [done|]. change (TAIL0 :: xs1 ++ a :: xs2) with ((TAIL0 :: xs1) ++ a :: xs2) in Hn.
  rewrite Hps in H, Hn. apply dseg_split in H as (k1 & k2 & m & r & Ek & H1 & H2).
  pose proof (dseg_length _ _ _ _ _ _ _ H1) as L1. rewrite <- Hps in L1. cbn in L1.
  apply app_inj_1 in Ek as [<- <-]; [|cbn; lia]. pose proof (dseg_last _ _ _ _ _ _ _ _ H1) as ->.
  apply dseg_cons in H2 as (-> & n & En & Hp & _ & H2).
  destruct (dseg_last_node _ _ _ _ _ _ _ H1) as [np Ep]; [by destruct ps|].
  pose proof Hn as (Hn1 & Hd & [Ha2 Hn2]%NoDup_cons)%NoDup_app.
  assert (p <> a) as Hpa. { intros <-. apply (Hd p); [apply elem_of_app; right; by left|by left]. }
  assert (a ∉ ps ++ [p]) as Hap. { intros Hi. apply (Hd _ Hi). by left. }
  mstep (get_node_ok s a n En). destruct xs2 as [|x xs2], l2 as [|e2 l2]; try done.
  - destruct H2 as [-> Htl]. rewrite bind_gets, Htl. mstep (get_node_ok s a n En). rewrite Hp. unfold deref. rewrite bind_ret, bind_modify.
    erewrite bind_Ok; [|apply upd_node_ok; exact Ep]. eexists. split; [reflexivity|]. split; [|done].
    eapply deleted_aliases; try done. cbn [app heap set_heap tailp set_tailp]. rewrite !app_nil_r.
    apply dseg_frame_delete; [done|]. eapply dseg_relink; [exact H1|by destruct ps|done|done].
  - pose proof H2 as (Hnx & nx & Ex & _)%dseg_cons. rewrite Hnx in *. rewrite Hp. cbn [deref]. rewrite bind_ret.
    erewrite bind_Ok; [|apply upd_node_ok; exact Ep]. rewrite bind_ret.
    apply not_elem_of_cons in Ha2 as [Hax Ha2]. apply NoDup_cons in Hn2 as [Hx2 Hn2].
    assert (x ∉ ps ++ [p]) as Hxp. { intros Hi. apply (Hd _ Hi). right. by left. }
    assert (p <> x) as Hpx. { intros ->. apply Hxp, elem_of_app. right. by left. }
    erewrite bind_Ok; [|apply upd_node_ok; cbn [heap set_heap]; rewrite lookup_insert_ne by done; exact Ex].
    eexists. split; [reflexivity|]. split; [|done].
    eapply deleted_aliases; try done. cbn [heap set_heap tailp]. rewrite app_assoc.
    eapply dseg_app; [apply dseg_frame_delete; [done|]; apply dseg_frame; [done|]; eapply dseg_relink; [exact H1|by destruct ps|done|done]|].
    apply dseg_frame_delete; [by apply not_elem_of_cons|]. eapply (dseg_reprev _ a); [|done|by rewrite lookup_insert_ne].
    apply dseg_frame; [|exact H2]. apply not_elem_of_cons. split; [done|]. intros Hi. apply (Hd p); [apply elem_of_app; right; by left|].
    right. by right.
Qed.

Section shell.
Context (fresh_slot : nat -> slot) (fresh_next : ptr).
Notation fresh := (map fresh_slot (seq 0 MAX_LINE_CMDS)).

(** A new node's [next] is what malloc left there, except in batch mode. *)
Lemma new_alias_nodes (batch : bool) s l name args : aliases s l ->
  exists s', new_alias fresh_slot fresh_next batch name args s = Ok tt s' /\
    alias_nodes s' (l ++ [Entry name args (drop (length args) fresh)]) (if batch then Null else fresh_next) /\ evs s' = evs s.
Proof.
  intros [(xs & e0 & H & Hn & Hb & Hl & Ht) _].
  destruct (dseg_last_node _ _ _ _ _ _ _ H) as [nt Et]; [done|].
  assert (tailp s <> brk s) as Hne.
  { pose proof (dseg_last_in _ _ _ _ _ _ _ H ltac:(done)) as [->|Hi]%elem_of_cons; [lia|]. apply Hb in Hi. lia. }
  assert (exists n, entry_node n (Entry name args (drop (length args) fresh)) /\ an_prev n = Ptr (tailp s) /\ an_next n = (if batch then Null else fresh_next) /\
    new_alias fresh_slot fresh_next batch name args s =
      Ok tt (Msh (<[tailp s := set_next (Ptr (brk s)) nt]> (<[brk s := n]> (heap s))) (S (brk s)) (brk s) (evs s))) as (n & He & Hp & Hx & ->).
  { eexists. split; [|split; [|split]]; cycle 3.
    - unfold new_alias. rewrite (bind_Ok _ _ _ _ _ (eq_refl : alloc fresh_slot fresh_next s = Ok _ _)).
      rewrite (bind_Ok _ _ _ _ _ (upd_node_ok _ (brk s) _ _ (lookup_insert_eq _ _ _))). cbn [heap set_heap brk tailp evs].
      rewrite insert_insert_eq.
      assert (when batch (upd_node (brk s) (set_next Null)) (Msh (<[brk s := Anode name fresh 0 fresh_next fresh_next]> (heap s)) (S (brk s)) (tailp s) (evs s))
        = Ok tt (Msh (<[brk s := Anode name fresh 0 (if batch then Null else fresh_next) fresh_next]> (heap s)) (S (brk s)) (tailp s) (evs s))) as E.
      { destruct batch; [|done]; cbn [when]. rewrite (upd_node_ok _ _ _ _ (lookup_insert_eq _ _ _)); unfold set_heap; cbn; by rewrite insert_insert_eq. }
      rewrite (bind_Ok _ _ _ _ _ E). unfold addNodePath.
      rewrite (bind_Ok _ _ _ _ _ (upd_node_ok _ (brk s) _ _ (lookup_insert_eq _ _ _))). cbn [heap set_heap brk tailp evs].
      rewrite bind_gets, insert_insert_eq.
      rewrite (bind_Ok _ _ _ _ _ (upd_node_ok _ (brk s) _ _ (lookup_insert_eq _ _ _))). cbn [heap set_heap brk tailp evs].
      rewrite insert_insert_eq.
      rewrite (bind_Ok _ _ _ _ _ (upd_node_ok _ (brk s) _ _ (lookup_insert_eq _ _ _))). cbn [heap set_heap brk tailp evs].
      rewrite insert_insert_eq.
      erewrite bind_Ok; [|apply upd_node_ok; cbn [heap set_heap]; rewrite lookup_insert_ne by done; exact Et]. reflexivity.
    - by split_and!.
    - done.
    - done. }
  eexists. split; [done|]. split; [|done]. exists (xs ++ [brk s]), e0. cbn [heap brk tailp].
  assert (brk s ∉ TAIL0 :: xs) as Hb' by (intros [Hc|Hi%Hb]%elem_of_cons; lia).
  split_and!.
  - by apply (dseg_snoc (heap s) 0 (Ptr TAIL0) (TAIL0 :: xs) (e0 :: l) (tailp s) (brk s) nt n (Entry name args (drop (length args) fresh)) _ H).
  - change (NoDup ((TAIL0 :: xs) ++ [brk s])). by apply NoDup_app_singleton.
  - intros b [Hi%Hb| ->%list_elem_of_singleton]%elem_of_app; lia.
  - rewrite length_app. cbn. lia.
  - lia.
Qed.
Lemma new_alias_ok batch s l name args : aliases s l -> batch = true \/ fresh_next = Null -> lookup_alias name l = None ->
  exists s', new_alias fresh_slot fresh_next batch name args s = Ok tt s' /\
    aliases s' (l ++ [Entry name args (drop (length args) fresh)]) /\ evs s' = evs s.
Proof.
  intros Ha Hf Hno. destruct (new_alias_nodes batch s l name args Ha) as (s' & E & N & Ev). exists s'. split; [done|]. split; [|done]. split.
  - by replace (if batch then Null else fresh_next) with Null in N by (destruct Hf as [-> | ->]; [done|by destruct batch]).
  - rewrite map_app. apply NoDup_app_singleton. split; [apply Ha|]. by apply lookup_alias_None.
Qed.

(** ** What the shell does, on lists of aliases *)

Context (fork_ok : list event -> bool) (exec_ok : string -> bool).

(** The end of an argument vector in the slots after the words of an alias. *)
Fixpoint stale_args (rest : list slot) : option (list string) :=
  match rest with
  | SNull :: _ => Some []
  | SStr x :: rest' => cons x <$> stale_args rest'
  | _ => None
  end.
Definition exec_spec (argv : list string) (out : option string) : option (list event) :=
  match argv with
  | [] => None
  | prog :: _ => Some (EExec prog argv out :: if exec_ok prog then [] else [EErr (prog +:+ ": Command not found." +:+ chr nl)])
  end.
Definition command_spec (l : list entry) (es : list event) (prog : string) (args : list string) (line : string) : option (list event) :=
  match redirect_spec line with
  | inl msg => Some [EErr msg]
  | inr redir =>
    if negb (fork_ok es) then Some [EOut ("mysh: fork failed" +:+ chr nl)] else
    match lookup_alias prog l, redir with
    | Some e, _ => more ← stale_args (e_rest e); exec_spec (e_args e ++ more) None
    | None, Some (redir_args, file) => exec_spec redir_args (Some file)
    | None, None => exec_spec (prog :: args) None
    end
  end.
(** A line: the aliases after it and what it prints; [None] when its effect is undefined. *)
Definition line_spec (l : list entry) (es : list event) (line : string) : option (list entry * list event) :=
  if decide (MAX_LINE_CMDS <= length (words line))%nat then None else
  match words line with
  | [] => Some (l, [])
  | cmd :: args =>
    if String.eqb cmd "alias" then
      match args with
      | [] => Some (l, map show_alias l)
      | [name] => Some (l, match lookup_alias name l with Some e => [show_alias e] | None => [] end)
      | name :: path => Some (if reserved name then (l, [EErr ALIAS_DANGER_ERR]) else (insert_alias fresh name path l, []))
      end
    else if String.eqb cmd "unalias" then
      match args with
      | [name] => Some (delete_alias name l, [])
      | _ => Some (l, [EErr UNALIAS_PARTS_ERR])
      end
    else out ← command_spec l es cmd args line; Some (l, out)
  end.

(** ** One line *)

Lemma argv_of_app args rest : argv_of (map SStr args ++ rest) = app args <$> stale_args rest.
Proof.
  induction args as [|x args IH]; cbn.
  - transitivity (stale_args rest); [|by destruct (stale_args rest)].
    induction rest as [|[| |y] rest IH]; cbn; [done..|]. rewrite IH. by destruct (stale_args rest).
  - rewrite IH. by destruct (stale_args rest).
Qed.

Lemma execv_ok argv out s : execv exec_ok argv out s =
  match exec_spec argv out with Some es => Ok tt (emitted es s) | None => Undef end.
Proof.
  destruct argv as [|prog argv]; [done|]. unfold execv, exec_spec. rewrite (bind_Ok _ _ _ _ _ (emit_ok _ s)).
  destruct (exec_ok prog); [done|]. cbn [negb when]. by rewrite emit_ok, emitted_app.
Qed.

Lemma run_cmd_ok s l prog args line : aliases s l -> (length (words line) < MAX_LINE_CMDS)%nat ->
  run_cmd fork_ok exec_ok (prog :: args) line s =
    match command_spec l (evs s) prog args line with Some es => Ok tt (emitted es s) | None => Undef end.
Proof.
  intros Ha Hw. unfold run_cmd, command_spec. rewrite redirection_total by done. rewrite bind_of_Some.
  destruct (redirect_spec line) as [msg|redir]; [done|]. rewrite bind_gets. destruct (fork_ok (evs s)); [|done]. cbn [negb].
  unfold child. cbn [hd_error]. rewrite bind_of_Some. destruct (checkAlias_ok s l prog Ha) as (o & E & Ho). mstep E.
  destruct o as [a|]; [|rewrite Ho; destruct redir as [[redir_args file]|]; by rewrite execv_ok].
  destruct Ho as (xs1 & xs2 & l1 & l2 & e & e0 & -> & Hlen & He & -> & Hn & Hb & Hl & Ht & H).
  apply dseg_split in H as (k1 & k2 & m & r & Ek & H1 & H2). pose proof (dseg_length _ _ _ _ _ _ _ H1) as L1. cbn in L1.
  apply app_inj_1 in Ek as [<- <-]; [|cbn; lia]. apply dseg_cons in H2 as (_ & n & En & _ & (_ & Hp & _) & _).
  mstep (get_node_ok s a n En). rewrite Hp. unfold entry_slots. rewrite argv_of_app.
  destruct (stale_args (e_rest e)) as [more|]; [|done]. cbn [fmap option_fmap option_map mbind option_bind]. rewrite bind_of_Some. apply execv_ok.
Qed.

Lemma alias_cmd_ok batch s l args : aliases s l -> batch = true \/ fresh_next = Null ->
  exists s' l' es, alias_cmd fresh_slot fresh_next batch args s = Ok tt s' /\ aliases s' l' /\ evs s' = evs s ++ es /\
    match args with
    | [] => Some (l, map show_alias l)
    | [name] => Some (l, match lookup_alias name l with Some e => [show_alias e] | None => [] end)
    | name :: path => Some (if reserved name then (l, [EErr ALIAS_DANGER_ERR]) else (insert_alias fresh name path l, []))
    end = Some (l', es).
Proof.
  intros Ha Hf. destruct args as [|name [|x path]].
  - exists (emitted (map show_alias l) s), l, (map show_alias l). split_and!; [by apply printList_ok|by apply aliases_emitted|done|done].
  - destruct (checkAlias_ok s l name Ha) as (o & E & Ho). cbn [alias_cmd]. mstep E. destruct o as [a|].
    + destruct Ho as (xs1 & xs2 & l1 & l2 & e & e0 & -> & Hlen & He & -> & _ & _ & _ & _ & H).
      apply dseg_split in H as (k1 & k2 & m & r & Ek & H1 & H2). pose proof (dseg_length _ _ _ _ _ _ _ H1) as L1. cbn in L1.
      apply app_inj_1 in Ek as [<- <-]; [|cbn; lia]. apply dseg_cons in H2 as (_ & n & En & _ & Hn & _).
      mstep (get_node_ok s a n En). exists (emitted [show_alias e] s). eexists _, _. split_and!; [by apply print_node_ok|by apply aliases_emitted|done|done].
    + rewrite Ho. exists s, l, []. by rewrite app_nil_r.
  - cbn [alias_cmd]. unfold reserved. destruct (_ || _ || _) eqn:Er.
    { exists (emitted [EErr ALIAS_DANGER_ERR] s). eexists _, _. split_and!; [by apply emit_ok|by apply aliases_emitted|done|done]. }
    destruct (checkAlias_ok s l name Ha) as (o & E & Ho). mstep E. unfold insert_alias. destruct o as [a|].
    + destruct Ho as (xs1 & xs2 & l1 & l2 & e & e0 & El & Hlen & He & -> & Hn & Hb & Hl & Ht & H).
      destruct (redefine_ok s l name (x :: path) a xs1 xs2 l1 l2 e e0) as (s' & E' & Ha' & Hes); try done; [apply Ha|].
      exists s'. eexists _, []. rewrite app_nil_r. split_and!; [exact E'|exact Ha'|done|done].
    + rewrite Ho. destruct (new_alias_ok batch s l name (x :: path) Ha Hf Ho) as (s' & E' & Ha' & Hes).
      exists s'. eexists _, []. rewrite app_nil_r. split_and!; [exact E'|exact Ha'|done|done].
Qed.

Lemma do_line_ok batch s l line : aliases s l -> batch = true \/ fresh_next = Null ->
  match line_spec l (evs s) line with
  | Some (l', es) => exists s', do_line fresh_slot fresh_next fork_ok exec_ok batch line s = Ok tt s' /\ aliases s' l' /\ evs s' = evs s ++ es
  | None => do_line fresh_slot fresh_next fork_ok exec_ok batch line s = Undef
  end.
Proof.
  intros Ha Hf. unfold do_line, line_spec. rewrite collect_words.
  case_decide as H1; [rewrite decide_False by lia; done|]. rewrite decide_True by lia. rewrite bind_of_Some. cbn [fst].
  destruct (words line) as [|cmd args] eqn:Ew; [exists s; by rewrite app_nil_r|].
  destruct (String.eqb cmd "alias").
  { destruct (alias_cmd_ok batch s l args Ha Hf) as (s' & l' & es & E & H2 & H3 & ->). by exists s'. }
  destruct (String.eqb cmd "unalias").
  { destruct args as [|name [|? ?]].
    - exists (emitted [EErr UNALIAS_PARTS_ERR] s). split_and!; [done|by apply aliases_emitted|done].
    - destruct (unalias_ok s l name Ha) as (s' & E & H2 & H3). exists s'. by rewrite app_nil_r.
    - exists (emitted [EErr UNALIAS_PARTS_ERR] s). split_and!; [done|by apply aliases_emitted|done]. }
  rewrite (run_cmd_ok s l) by (done || rewrite Ew; cbn in *; lia).
  destruct (command_spec l (evs s) cmd args line) as [es|]; [|done]. cbn. exists (emitted es s). split_and!; [done|by apply aliases_emitted|done].
Qed.

(** ** Scripts *)

(** The lines as [fgets] delivers them: at most 511 characters each. *)
Fixpoint lines_from (fuel : nat) (input : string) : list string :=
  match fuel, fgets input with
  | S fuel', Some (line, rest) => line :: lines_from fuel' rest
  | _, _ => []
  end.
Definition lines (input : string) : list string := lines_from (String.length input) input.

(** A batch file: each line is echoed and carried out, to the line [exit]. *)
Fixpoint script (l : list entry) (es : list event) (input : list string) : option (list entry * list event) :=
  match input with
  | [] => Some (l, es)
  | line :: input' =>
    if String.eqb line ("exit" +:+ chr nl) then Some (l, es ++ [EOut line]) else
    '(l', out) ← line_spec l (es ++ [EOut line]) line;
    script l' (es ++ EOut line :: out) input'
  end.

Lemma read_line_length n s l r : read_line n s = (l, r) ->
  s = l +:+ r /\ (String.length l <= n)%nat /\ (n <> 0%nat -> s <> EmptyString -> l <> EmptyString).
Proof.
  revert s l r. induction n as [|n IH]; intros s l r; cbn [read_line]; [intros [= <- <-]; done|].
  destruct s as [|c s]; [intros [= <- <-]; split_and!; [done|cbn; lia|done]|].
  destruct (Ascii.eqb_spec c nl) as [->|Hc]; [intros [= <- <-]; split_and!; [done|cbn; lia|done]|].
  destruct (read_line n s) as [l' r'] eqn:E. intros [= <- <-]. destruct (IH _ _ _ E) as (-> & Hl & _).
  split_and!; [done|cbn; lia|done].
Qed.

Lemma fgets_spec s l r : fgets s = Some (l, r) ->
  s = l +:+ r /\ (String.length l < MAX_CMD_LINE_SIZE)%nat /\ (String.length r < String.length s)%nat.
Proof.
  unfold fgets. destruct s as [|c s]; [done|]. intros H. apply (inj Some) in H. apply read_line_length in H as (E & Hl & Hne).
  split; [done|]. split; [unfold MAX_CMD_LINE_SIZE in *; lia|]. rewrite E, str_length_app.
  destruct l as [|d l]; [by destruct Hne|]. cbn. lia.
Qed.

Lemma batch_ok fuel l s input : aliases s l -> (String.length input <= fuel)%nat ->
  match script l (evs s) (lines_from fuel input) with
  | Some (l', es) => exists s', batch_mode fresh_slot fresh_next fork_ok exec_ok (S fuel) input s = Ok tt s' /\ aliases s' l' /\ evs s' = es
  | None => batch_mode fresh_slot fresh_next fork_ok exec_ok (S fuel) input s = Undef
  end.
Proof.
  revert l s input. induction fuel as [|fuel IH]; intros l s input Ha Hf.
  - destruct input; [|cbn in Hf; lia]. by exists s.
  - cbn [lines_from]. remember (S fuel) as g eqn:Eg. cbn [batch_mode]. destruct (fgets input) as [[line rest]|] eqn:E; [|by exists s].
    destruct (fgets_spec _ _ _ E) as (_ & Hl & Hr). destruct (Nat.ltb_spec MAX_CMD_LINE_SIZE (String.length line)) as [|_]; [lia|].
    rewrite (bind_Ok _ _ _ _ _ (emit_ok (EOut line) s)). cbn [script].
    destruct (String.eqb line ("exit" +:+ chr nl)); [exists (emitted [EOut line] s); split_and!; [done|by apply aliases_emitted|done]|].
    pose proof (do_line_ok true (emitted [EOut line] s) l line (aliases_emitted _ _ _ Ha) (or_introl eq_refl)) as Hd.
    cbn [evs emitted] in Hd. destruct (line_spec l (evs s ++ [EOut line]) line) as [[l' out]|].
    + destruct Hd as (s' & E' & Ha' & He). mstep E'. cbn [mbind option_bind]. subst g.
      specialize (IH l' s' rest Ha' ltac:(lia)). rewrite He, <- app_assoc in IH. exact IH.
    + unfold mbind, M_bind. by rewrite Hd.
Qed.

Lemma init_aliases : aliases (init fresh_slot) [].
Proof.
  split; [|apply NoDup_nil_2]. exists [], (Entry EmptyString [] fresh). split_and!.
  - apply dseg_one. split; [done|]. split; [done|]. eexists. split; [reflexivity|]. done.
  - apply NoDup_singleton.
  - by intros a ?%elem_of_nil.
  - cbn. lia.
  - unfold TAIL0. cbn. lia.
Qed.
End shell.

(** C18. Batch mode carries out the file, whatever it contains. [script] reads the lines to
    the line exit on a list of aliases with distinct names: [alias] prints them all or
    one, defines or redefines one or refuses a reserved name, [unalias] removes one, and
    any other line runs the alias of its first word, the redirected command or the
    command. The shell's linked list, its output and the programs it runs are those of
    the script; it ends with status 0 when the script has an outcome, and its behaviour
    is undefined exactly when the script has none: a line of 100 words, or an alias whose
    argument vector is not terminated. *)
Theorem batch_mode_script fresh_slot fresh_next fork_ok exec_ok (prog file input stdin : string) :
  match script fresh_slot fork_ok exec_ok [] [] (lines input) with
  | Some (l, es) => exists s, main fresh_slot fresh_next fork_ok exec_ok [prog; file] (Some input) stdin (init fresh_slot) = Ok 0 s /\
      aliases s l /\ evs s = es
  | None => main fresh_slot fresh_next fork_ok exec_ok [prog; file] (Some input) stdin (init fresh_slot) = Undef
  end.
Proof.
  pose proof (batch_ok fresh_slot fresh_next fork_ok exec_ok (String.length input) [] (init fresh_slot) input (init_aliases _) (le_n _)) as H.
  unfold lines, main, lines_fuel. change (evs (init fresh_slot)) with (@nil event) in H.
  destruct (script _ _ _ _ _ _) as [[l es]|].
  - destruct H as (s & E & Ha & He). exists s. by mstep E.
  - unfold mbind, M_bind. by rewrite H.
Qed.

(** ** Defects *)

Definition line_of (s : string) : string := s +:+ chr nl.

(** A line that takes a program from the alias [name]: its first word is [name], it has at most one redirection, and [fork] works. *)
Definition runs_alias (fork_ok : list event -> bool) (es : list event) (name line : string) : Prop :=
  reserved name = false /\ (length (words line) < MAX_LINE_CMDS)%nat /\ hd_error (words line) = Some name /\
  (exists redir, redirect_spec line = inr redir) /\ fork_ok es = true.
(** The word that a line makes the shell look up. *)
Definition looked_up (fork_ok : list event -> bool) (es : list event) (line : string) : option string :=
  match words line with
  | [] => None
  | cmd :: args =>
    if String.eqb cmd "alias" then
      match args with [] => None | [name] => Some name | name :: _ => if reserved name then None else Some name end
    else if String.eqb cmd "unalias" then match args with [name] => Some name | _ => None end
    else match redirect_spec line with inl _ => None | inr _ => if fork_ok es then Some cmd else None end
  end.

Section defects.
Context (fresh_slot : nat -> slot) (fresh_next : ptr) (fork_ok : list event -> bool) (exec_ok : string -> bool).
Notation fresh := (map fresh_slot (seq 0 MAX_LINE_CMDS)).
Notation run_line := (do_line fresh_slot fresh_next fork_ok exec_ok).

Lemma not_command name : reserved name = false -> String.eqb name "alias" = false /\ String.eqb name "unalias" = false.
Proof. unfold reserved. by intros [[H1 H2]%orb_false_iff _]%orb_false_iff. Qed.

(** The program of an alias gets the words of the definition and what follows them in the node, and standard output. *)
Lemma alias_runs batch s l name line e more es : aliases s l -> runs_alias fork_ok (evs s) name line -> lookup_alias name l = Some e -> stale_args (e_rest e) = Some more ->
  exec_spec exec_ok (e_args e ++ more) None = Some es -> run_line batch line s = Ok tt (emitted es s).
Proof.
  intros Ha (Hr & Hw & Hh & (redir & Hd) & Hf) Hl Hm He. destruct (not_command _ Hr) as [N1 N2]. destruct (words line) as [|cmd args] eqn:Ew; [done|]. injection Hh as ->.
  unfold Mysh.do_line. rewrite collect_words, Ew, decide_True by done. rewrite bind_of_Some. cbn [fst]. rewrite N1, N2, (run_cmd_ok fork_ok exec_ok s l) by (done || by rewrite Ew).
  unfold command_spec. rewrite Hd, Hf, Hl. cbn [negb]. rewrite Hm. cbn [mbind option_bind]. by rewrite He.
Qed.

Lemma lookup_redefine name ws l e : lookup_alias name l = Some e -> lookup_alias name (map (redefine name ws) l) = Some (redefine name ws e).
Proof.
  induction l as [|x l IH]; [done|]. cbn [lookup_alias map]. destruct (String.eqb (e_alias x) name) eqn:E.
  - intros [= ->]. unfold redefine. rewrite E. cbn [e_alias]. by rewrite String.eqb_refl.
  - intros H. unfold redefine at 1. rewrite E, E. by apply IH.
Qed.
Lemma lookup_name name l e : lookup_alias name l = Some e -> e_alias e = name.
Proof. induction l as [|x l IH]; [done|]. cbn [lookup_alias]. destruct (String.eqb_spec (e_alias x) name) as [E|E]; [by intros [= <-]|exact IH]. Qed.
Lemma stale_app args rest : stale_args (map SStr args ++ rest) = app args <$> stale_args rest.
Proof. induction args as [|x args IH]; cbn; [by destruct (stale_args rest)|]. rewrite IH. by destruct (stale_args rest). Qed.
Lemma redefine_short name ws e more : e_alias e = name -> (length ws <= length (e_args e))%nat -> stale_args (e_rest e) = Some more ->
  e_args (redefine name ws e) = ws /\ stale_args (e_rest (redefine name ws e)) = Some (drop (length ws) (e_args e) ++ more).
Proof.
  intros <- Hl Hm. unfold redefine. rewrite String.eqb_refl. cbn [e_args e_rest]. split; [done|]. unfold entry_slots.
  rewrite drop_app_le by (by rewrite length_map). rewrite <- fmap_drop. change (SStr <$> ?x) with (map SStr x). by rewrite stale_app, Hm.
Qed.

(** A new alias: its line, and the nodes after it. *)
Lemma defines_alias batch s l line name path : aliases s l -> words line = "alias"%string :: name :: path -> path <> [] -> (length (words line) < MAX_LINE_CMDS)%nat -> reserved name = false -> lookup_alias name l = None ->
  exists s', run_line batch line s = Ok tt s' /\ alias_nodes s' (l ++ [Entry name path (drop (length path) fresh)]) (if batch then Null else fresh_next) /\ evs s' = evs s.
Proof.
  intros Ha Ew Hp Hw Hr Hno. destruct (new_alias_nodes fresh_slot fresh_next batch s l name path Ha) as (s' & E & H). exists s'. split; [|done].
  unfold Mysh.do_line. rewrite collect_words, decide_True by done. rewrite bind_of_Some, Ew. cbn [fst String.eqb Ascii.eqb Bool.eqb]. destruct path as [|x path]; [done|]. cbn [alias_cmd].
  unfold reserved in Hr. rewrite Hr. destruct (checkAlias_ok s l name Ha) as (o & Eo & Ho). rewrite (bind_Ok _ _ _ _ _ Eo). destruct o as [a|]; [|exact E].
  destruct Ho as (_ & _ & l1 & l2 & e & _ & -> & _ & _ & Hs & _). by rewrite Hs in Hno.
Qed.
Lemma redefines_alias batch s l line name path e : aliases s l -> batch = true \/ fresh_next = Null -> words line = "alias"%string :: name :: path -> path <> [] -> (length (words line) < MAX_LINE_CMDS)%nat -> reserved name = false ->
  lookup_alias name l = Some e -> exists s', run_line batch line s = Ok tt s' /\ aliases s' (map (redefine name path) l) /\ evs s' = evs s.
Proof.
  intros Ha Hf Ew Hp Hw Hr He. pose proof (do_line_ok fresh_slot fresh_next fork_ok exec_ok batch s l line Ha Hf) as H. unfold line_spec in H. rewrite decide_False in H by lia. rewrite Ew in H.
  cbn [String.eqb Ascii.eqb Bool.eqb] in H. destruct path as [|x path]; [done|]. rewrite Hr in H. unfold insert_alias in H. rewrite He in H. destruct H as (s' & E & A & V). rewrite app_nil_r in V. by exists s'.
Qed.

(** With an indeterminate pointer behind the last node, a line that looks up what is not there, or lists all, reads it. *)
Lemma junk_line batch s l line : alias_nodes s l Junk -> (length (words line) < MAX_LINE_CMDS)%nat ->
  words line = ["alias"%string] \/ (exists x, looked_up fork_ok (evs s) line = Some x /\ lookup_alias x l = None) -> run_line batch line s = Undef.
Proof.
  intros N Hw Hx. unfold Mysh.do_line. rewrite collect_words, decide_True by done. rewrite bind_of_Some. cbn [fst]. unfold looked_up in Hx.
  destruct Hx as [->|(x & Hx & Hno)]; [exact (printList_junk s l N)|]. pose proof (checkAlias_junk s l x N Hno) as E.
  destruct (words line) as [|cmd args] eqn:Ew; [done|]. destruct (String.eqb cmd "alias").
  { destruct args as [|name [|y path]]; [done| |]; cbn [alias_cmd]; [by injection Hx as ->; unfold mbind, M_bind; rewrite E|].
    unfold reserved in Hx. destruct (_ || _ || _); [done|]. injection Hx as ->. unfold mbind, M_bind. by rewrite E. }
  destruct (String.eqb cmd "unalias").
  { destruct args as [|name [|y args]]; [done| |done]. injection Hx as ->. cbn [unalias_cmd]. unfold mbind, M_bind. by rewrite E. }
  destruct (redirect_spec line) as [msg|redir] eqn:Er; [done|]. destruct (fork_ok (evs s)) eqn:Ef; [|done]. injection Hx as ->.
  unfold run_cmd. rewrite redirection_total by (by rewrite Ew). rewrite bind_of_Some, Er, bind_gets, Ef. unfold child. cbn [hd_error]. rewrite bind_of_Some. unfold mbind, M_bind. by rewrite E.
Qed.
Lemma interactive_line fuel input line rest s : fgets input = Some (line, rest) -> line <> line_of "exit" ->
  interactive_mode fresh_slot fresh_next fork_ok exec_ok (S fuel) input s = (run_line false line;; interactive_mode fresh_slot fresh_next fork_ok exec_ok fuel rest) (emitted [EOut COMMAND_PROMPT] s).
Proof. intros E N. cbn [interactive_mode]. rewrite (bind_Ok _ _ _ _ _ (emit_ok _ s)), E. unfold line_of in N. by destruct (String.eqb_spec line ("exit" +:+ chr nl)). Qed.
End defects.

(** C39. What the alias command gets wrong, for any aliases [l] before it.
    (1) In interactive mode a new node's [next] is not initialised. Unless malloc happens to return zeros there, after
    a line that defines a new alias, one that lists the aliases or that looks up a word that is not an alias follows an
    indeterminate pointer: an [alias] or [unalias] of another name, or a command that is not an alias.
    (2) A redefinition with fewer words leaves the rest of the former ones behind the new ones, and they are passed to the
    program, in both modes. (3) A redirection after an alias is parsed, but the program gets the shell's standard
    output, and none of the line's other words. *)
Theorem alias_defects fresh_slot fork_ok exec_ok s l name : aliases s l -> reserved name = false ->
  (forall fuel input line1 rest line2 rest' path, fgets input = Some (line1, rest) -> fgets rest = Some (line2, rest') ->
     words line1 = "alias"%string :: name :: path -> path <> [] -> lookup_alias name l = None ->
     (length (words line1) < MAX_LINE_CMDS)%nat -> (length (words line2) < MAX_LINE_CMDS)%nat -> line2 <> line_of "exit" ->
     words line2 = ["alias"%string] \/ (exists x, looked_up fork_ok (evs s ++ [EOut COMMAND_PROMPT; EOut COMMAND_PROMPT]) line2 = Some x /\ x <> name /\ lookup_alias x l = None) ->
     interactive_mode fresh_slot Junk fork_ok exec_ok (S (S fuel)) input s = Undef) /\
  forall batch fresh_next e more, lookup_alias name l = Some e -> stale_args (e_rest e) = Some more ->
    (forall line1 prog ws, batch = true \/ fresh_next = Null -> words line1 = "alias"%string :: name :: prog :: ws -> (length (words line1) < MAX_LINE_CMDS)%nat -> (length (prog :: ws) <= length (e_args e))%nat ->
       exists s', do_line fresh_slot fresh_next fork_ok exec_ok batch line1 s = Ok tt s' /\ evs s' = evs s /\
         forall line2, runs_alias fork_ok (evs s') name line2 -> exists es s2, do_line fresh_slot fresh_next fork_ok exec_ok batch line2 s' = Ok tt s2 /\
           evs s2 = evs s ++ EExec prog ((prog :: ws) ++ drop (length (prog :: ws)) (e_args e) ++ more) None :: es) /\
    (forall line prog ws, runs_alias fork_ok (evs s) name line -> e_args e ++ more = prog :: ws ->
       exists es s2, do_line fresh_slot fresh_next fork_ok exec_ok batch line s = Ok tt s2 /\ evs s2 = evs s ++ EExec prog (prog :: ws) None :: es).
Proof.
  intros Ha Hr. split.
  - intros fuel input line1 rest line2 rest' path E1 E2 W1 Hp Hno L1 L2 Nx Hx. destruct (defines_alias fresh_slot Junk fork_ok exec_ok false _ l line1 name path (aliases_emitted [EOut COMMAND_PROMPT] _ _ Ha) W1 Hp L1 Hr Hno) as (s1 & D1 & N1 & V1).
    erewrite interactive_line; [|exact E1|intros ->; by vm_compute in W1]. rewrite (bind_Ok _ _ _ _ _ D1). rewrite (interactive_line _ _ _ _ _ _ _ _ _ E2 Nx). unfold mbind, M_bind. rewrite (junk_line fresh_slot Junk fork_ok exec_ok false (emitted [EOut COMMAND_PROMPT] s1) _ line2 N1 L2); [done|].
    destruct Hx as [Hx|(x & Hx & Hn & Hl)]; [by left|right]. exists x. cbn [evs emitted] in *. rewrite V1, <- app_assoc. split; [exact Hx|].
    clear -Hn Hl. induction l as [|e l IH]; cbn [app lookup_alias e_alias] in *; [destruct (String.eqb_spec name x) as [->|]; done|]. destruct (String.eqb (e_alias e) x); [done|]. by apply IH.
  - intros batch fresh_next e more He Hm. split.
    + intros line1 prog ws Hf W1 L1 Hlen. destruct (redefines_alias fresh_slot fresh_next fork_ok exec_ok batch s l line1 name (prog :: ws) e Ha Hf W1 ltac:(done) L1 Hr He) as (s' & D & A & V).
      exists s'. split; [done|]. split; [done|]. intros line2 R. destruct (redefine_short name (prog :: ws) e more (lookup_name _ _ _ He) Hlen Hm) as [R1 R2].
      eexists _, _. split; [eapply alias_runs; [exact A|exact R|by apply lookup_redefine|exact R2|rewrite R1; reflexivity]|]. cbn [evs emitted]. by rewrite V.
    + intros line prog ws R Hw. eexists _, _. split; [eapply alias_runs; [exact Ha|exact R|exact He|exact Hm|rewrite Hw; reflexivity]|]. done.
Qed.

Definition demo_entry : entry := Entry "e" ["/bin/echo"; "x"; "y"]%string (replicate 97 SNull).
Lemma demo_alias : exists s, aliases s [demo_entry].
Proof.
  pose proof (do_line_ok (fun _ => SNull) Null (fun _ => true) (fun _ => true) false (init (fun _ => SNull)) [] (line_of "alias e /bin/echo x y") (init_aliases _) (or_intror eq_refl)) as H.
  assert (line_spec (fun _ => SNull) (fun _ => true) (fun _ => true) [] (evs (init (fun _ => SNull))) (line_of "alias e /bin/echo x y") = Some ([demo_entry], [])) as E by (vm_compute; reflexivity).
  rewrite E in H. destruct H as (s & _ & A & _). by exists s.
Qed.
(** The alias e is redefined with one word and run with a redirection; ll is defined in interactive mode and then p looked up. *)
Lemma alias_defects_witness :
  interactive_mode (fun _ => SNull) Junk (fun _ => true) (fun _ => true) 9 (line_of "alias ll /bin/ls" +:+ line_of "p") (init (fun _ => SNull)) = Undef /\
  exists s s' s2 es, aliases s [demo_entry] /\ do_line (fun _ => SNull) Null (fun _ => true) (fun _ => true) false (line_of "alias e /bin/ls") s = Ok tt s' /\
    do_line (fun _ => SNull) Null (fun _ => true) (fun _ => true) false (line_of "e > out") s' = Ok tt s2 /\ evs s2 = evs s ++ EExec "/bin/ls" ["/bin/ls"; "x"; "y"]%string None :: es.
Proof.
  split.
  - destruct (alias_defects (fun _ => SNull) (fun _ => true) (fun _ => true) (init (fun _ => SNull)) [] "ll" (init_aliases _) eq_refl) as [H _].
    apply (H 7%nat _ (line_of "alias ll /bin/ls") (line_of "p") (line_of "p") EmptyString ["/bin/ls"]%string); try (vm_compute; reflexivity); try (vm_compute; lia); try done.
    right. exists "p"%string. split; [vm_compute; reflexivity|done].
  - destruct demo_alias as [s A]. assert (stale_args (e_rest demo_entry) = Some []) as Hr by (vm_compute; reflexivity). assert (lookup_alias "e" [demo_entry] = Some demo_entry) as Hl by (vm_compute; reflexivity).
    assert (words (line_of "alias e /bin/ls") = ["alias"; "e"; "/bin/ls"]%string) as W1 by (vm_compute; reflexivity). assert (words (line_of "e > out") = ["e"; ">"; "out"]%string) as W2 by (vm_compute; reflexivity).
    assert (redirect_spec (line_of "e > out") = inr (Some (["e"], "out")%string)) as W3 by (vm_compute; reflexivity).
    destruct (alias_defects (fun _ => SNull) (fun _ => true) (fun _ => true) s [demo_entry] "e" A eq_refl) as [_ H]. destruct (H false Null demo_entry [] Hl Hr) as [H1 _]. clear H.
    destruct (H1 (line_of "alias e /bin/ls") "/bin/ls"%string [] (or_intror eq_refl) W1 ltac:(rewrite W1; unfold MAX_LINE_CMDS; cbn; lia) ltac:(cbn; lia)) as (s' & E1 & _ & H2). clear H1.
    destruct (H2 (line_of "e > out")) as (es & s2 & E2 & V); [unfold runs_alias; rewrite W2, W3; split; [done|]; split; [unfold MAX_LINE_CMDS; cbn; lia|]; split; [done|]; split; [by eexists|done]|].
    exists s, s', s2, es. split; [exact A|]. split; [exact E1|]. split; [exact E2|exact V].
Defined.
