(* ===== verification/Ulib.v ===== *)
(** * The user library: p6/ulib.c and p6/printf.c

    A string pointer is the list of bytes from where it points to the end of its array;
    [None] is a read past that end. [uout] is what a program has written to descriptors. *)

From S2P Require Import Prelude.

Definition bytes_of (s : string) : list Z := map (fun c => Z.of_N (Ascii.N_of_ascii c)) (String.list_ascii_of_string s).
(** [s] with its terminator. *)
Definition cstr (s : string) : list Z := bytes_of s ++ [0].

(** ** Strings *)

Fixpoint strcpy (t : list Z) : option (list Z) :=
  match t with
  | [] => None
  | c :: t' => if c =? 0 then Some [c] else option_map (cons c) (strcpy t')
  end.
Fixpoint strcmp (p q : list Z) : option Z :=
  match p, q with
  | c :: p', d :: q' => if negb (c =? 0) && (c =? d) then strcmp p' q' else Some (u8 c - u8 d)
  | _, _ => None
  end.
Fixpoint strlen (s : list Z) : option Z :=
  match s with
  | [] => None
  | c :: s' => if c =? 0 then Some 0 else option_map (Z.add 1) (strlen s')
  end.
(** The index of the first [c]; [Some None] is the null pointer. *)
Fixpoint strchr (s : list Z) (c : Z) : option (option nat) :=
  match s with
  | [] => None
  | d :: s' => if d =? 0 then Some None else if d =? c then Some (Some O) else option_map (option_map Datatypes.S) (strchr s' c)
  end.
Fixpoint atoi_loop (n : Z) (s : list Z) : option Z :=
  match s with
  | [] => None
  | c :: s' => if (48 <=? c) && (c <=? 57) then atoi_loop (s32 (n * 10 + c - 48)) s' else Some n
  end.
Definition atoi (s : list Z) : option Z := atoi_loop 0 s.

(** ** Input and output *)

(** What a descriptor has to read, in the pieces in which it comes: a regular file is one
    piece, a pipe or the console deliver what has been written so far. A read returns at
    most [n] bytes of the first piece; nothing at the end. *)
Fixpoint read (n : nat) (fd : list (list Z)) : list Z * list (list Z) :=
  match fd with
  | [] => ([], [])
  | [] :: fd' => read n fd'
  | c :: fd' => (take n c, drop n c :: fd')
  end.
(** [gets]: the bytes stored in the buffer without the terminator. *)
Fixpoint gets_loop (k : nat) (fd : list (list Z)) : list Z * list (list Z) :=
  match k with
  | O => ([], fd)
  | S k' =>
    let '(b, fd') := read 1 fd in
    match b with
    | [] => ([], fd')
    | c :: _ => if (c =? 10) || (c =? 13) then ([c], fd') else let '(l, r) := gets_loop k' fd' in (c :: l, r)
    end
  end.
Definition ugets (max : nat) (fd : list (list Z)) : list Z * list (list Z) :=
  let '(l, r) := gets_loop (max - 1) fd in (l ++ [0], r).

(** ** printf *)

Definition DIGITS : list Z := bytes_of "0123456789ABCDEF".
Definition digit (d : Z) : Z := nth (Z.to_nat d) DIGITS 0.
(** The digits of [x], the last one first, into the [room] slots that are left of [buf]. *)
Fixpoint printint_loop (room : nat) (x base : Z) : option (list Z) :=
  match room with
  | O => None
  | S room' =>
    let d := digit (x `mod` base) in
    let x' := x `div` base in
    if negb (x' =? 0) then option_map (cons d) (printint_loop room' x' base) else Some [d]
  end.
Definition printint (xx base : Z) (sgn : bool) : option (list Z) :=
  let neg := sgn && (xx <? 0) in
  let x := if neg then u32 (- xx) else u32 xx in
  buf ← printint_loop 16 x base;
  if neg then if (length buf <? 16)%nat then Some (rev (buf ++ [45])) else None
  else Some (rev buf).

Section printf.
(** The byte at an address. *)
Context (mem : Z -> Z).
Fixpoint put_string (fuel : nat) (s : Z) : option (list Z) :=
  match fuel with
  | O => None
  | S fuel' => if negb (mem s =? 0) then option_map (cons (mem s)) (put_string fuel' (s + 1)) else Some []
  end.
(** One conversion [%c] with the words [ap]: what it writes, and the words left. *)
Definition convert (fuel : nat) (c : Z) (ap : list Z) : option (list Z * list Z) :=
  if c =? 100 then match ap with [] => None | w :: ap' => l ← printint (s32 w) 10 true; Some (l, ap') end
  else if (c =? 120) || (c =? 112) then match ap with [] => None | w :: ap' => l ← printint (s32 w) 16 false; Some (l, ap') end
  else if c =? 115 then
    match ap with
    | [] => None
    | w :: ap' => l ← (if w =? 0 then Some (bytes_of "(null)") else put_string fuel w); Some (l, ap')
    end
  else if c =? 99 then match ap with [] => None | w :: ap' => Some ([u8 w], ap') end
  else if c =? 37 then Some ([c], ap)
  else Some ([37; c], ap).
(** The loop over the format; [pct]: the state is ['%']. [fuel] bounds the strings. *)
Fixpoint printf_loop (fuel : nat) (fmt : list Z) (pct : bool) (ap : list Z) : option (list Z) :=
  match fmt with
  | [] => None
  | b :: fmt' =>
    if b =? 0 then Some [] else
    let c := Z.land b 255 in
    if negb pct then
      if c =? 37 then printf_loop fuel fmt' true ap else option_map (cons c) (printf_loop fuel fmt' false ap)
    else
      '(l, ap') ← convert fuel c ap;
      option_map (app l) (printf_loop fuel fmt' false ap')
  end.
Definition printf (fuel : nat) (fmt : list Z) (ap : list Z) : option (list Z) := printf_loop fuel fmt false ap.
End printf.

Example printint_ex : printint (-120) 10 true = Some (bytes_of "-120").
Proof. reflexivity. Qed.
Example printf_ex : printf (fun a => nth (Z.to_nat (a - 100)) (cstr "xv6") 0) 9 (cstr "%s: %d%% 0x%x %q") [100; 2 ^ 32 - 5; 255] = Some (bytes_of "xv6: -5% 0xFF %q").
Proof. reflexivity. Qed.

(** ** Numbers and their digits *)

(** The number that the digits [l], the most significant first, write in base [b]. *)
Definition digit_value (c : Z) : Z := if c <? 65 then c - 48 else c - 55.
Definition value (b : Z) (l : list Z) : Z := fold_left (fun n c => n * b + digit_value c) l 0.
Definition is_digit (b c : Z) : Prop := (48 <= c <= 57 \/ 65 <= c <= 70) /\ digit_value c < b.

Lemma digit_ok b d : 2 <= b <= 16 -> 0 <= d < b -> is_digit b (digit d) /\ digit_value (digit d) = d.
Proof.
  intros Hb Hd. assert (d = 0 \/ d = 1 \/ d = 2 \/ d = 3 \/ d = 4 \/ d = 5 \/ d = 6 \/ d = 7 \/ d = 8 \/ d = 9 \/ d = 10 \/ d = 11 \/ d = 12 \/ d = 13 \/ d = 14 \/ d = 15) as D by lia.
  unfold is_digit. repeat destruct D as [->|D]; try subst d; vm_compute digit; vm_compute digit_value; lia.
Qed.

Lemma value_snoc b l c : value b (l ++ [c]) = value b l * b + digit_value c.
Proof. unfold value. by rewrite fold_left_app. Qed.

Lemma printint_loop_ok b room x : 2 <= b <= 16 -> 0 <= x < b ^ Z.of_nat room -> (0 < room)%nat ->
  exists l, printint_loop room x b = Some l /\ (0 < length l <= room)%nat /\ value b (rev l) = x /\ Forall (is_digit b) l /\
    (last l = Some 48 -> x = 0 /\ l = [48]).
Proof.
  intros Hb. revert x. induction room as [|room IH]; intros x Hx Hr; [lia|].
  cbn [printint_loop]. pose proof (Z.mod_pos_bound x b ltac:(lia)) as Hm. pose proof (digit_ok b _ Hb Hm) as [D1 D2].
  pose proof (Z.div_mod x b ltac:(lia)) as Hdm.
  destruct (Z.eqb_spec (x `div` b) 0) as [Q|Q]; cbn [negb].
  - exists [digit (x `mod` b)]. split; [done|]. cbn [length rev app]. split; [lia|].
    split; [change (0 * b + digit_value (digit (x `mod` b)) = x); rewrite D2; lia|].
    split; [by constructor|]. intros E. change (Some (digit (x `mod` b)) = Some 48) in E. injection E as E. rewrite E in D2.
    change (digit_value 48) with 0 in D2. split; [lia|]. by rewrite E.
  - assert (0 < x `div` b) by (pose proof (Z.div_pos x b); lia).
    rewrite Nat2Z.inj_succ, Z.pow_succ_r in Hx by lia.
    destruct room as [|room]; [rewrite Z.pow_0_r in Hx; nia|].
    destruct (IH (x `div` b)) as (l & E & Hl & Hv & Hf & Hz); [split; [lia|apply Z.div_lt_upper_bound; lia]|lia|].
    exists (digit (x `mod` b) :: l). rewrite E. split; [done|]. cbn [length rev]. split; [lia|].
    rewrite value_snoc, Hv, D2. split; [lia|]. split; [by constructor|].
    destruct l as [|c l]; [cbn in Hl; lia|]. intros E0. change (last (digit (x `mod` b) :: c :: l)) with (last (c :: l)) in E0.
    destruct (Hz E0). lia.
Qed.

Lemma rev_head {A} (l : list A) : head (rev l) = last l.
Proof. destruct l as [|a l _] using rev_ind; [done|]. by rewrite rev_app_distr, last_snoc. Qed.

Lemma printint_unsigned b x : 2 <= b <= 16 -> 0 <= x < b ^ 16 ->
  exists l, printint_loop 16 x b = Some l /\ (length l <= 16)%nat /\ value b (rev l) = x /\ Forall (is_digit b) (rev l) /\
    (head (rev l) = Some 48 -> rev l = [48]).
Proof.
  intros Hb Hx. destruct (printint_loop_ok b 16 x Hb Hx) as (l & E & Hl & Hv & Hf & Hz); [lia|].
  exists l. split; [done|]. split; [lia|]. split; [done|]. split; [by apply Forall_rev|]. rewrite rev_head. intros E0. by destruct (Hz E0) as [_ ->].
Qed.

(** What [printint] writes for a number in base ten: a minus sign if it is negative, and
    the digits of its magnitude, without a leading zero. *)
Definition canonical (b : Z) (l : list Z) (x : Z) : Prop :=
  value b l = x /\ Forall (is_digit b) l /\ l <> [] /\ (head l = Some 48 -> l = [48]).

Lemma canonical_rev b x l : 2 <= b <= 16 -> 0 <= x < b ^ 16 -> printint_loop 16 x b = Some l -> canonical b (rev l) x.
Proof.
  intros Hb Hx E. destruct (printint_loop_ok b 16 x Hb Hx) as (l' & E' & Hl & Hv & Hf & Hz); [lia|].
  rewrite E in E'. injection E' as <-. split; [done|]. split; [by apply Forall_rev|]. rewrite rev_head. split.
  - intros E0. apply (f_equal length) in E0. rewrite length_rev in E0. cbn in E0. lia.
  - intros E0. by destruct (Hz E0) as [_ ->].
Qed.

Lemma printint_hex xx : exists l, printint xx 16 false = Some l /\ canonical 16 l (u32 xx).
Proof.
  pose proof (Z.mod_pos_bound xx (2 ^ 32) ltac:(lia)) as Hx. unfold printint. cbn [andb]. cbv zeta.
  destruct (printint_loop_ok 16 16 (u32 xx)) as (l & E & _); [lia| |lia|].
  { unfold u32. change (16 ^ Z.of_nat 16) with (2 ^ 64). lia. }
  rewrite E. exists (rev l). split; [done|]. apply canonical_rev; [lia| |done].
  unfold u32. change (16 ^ 16) with (2 ^ 64). lia.
Qed.

Lemma printint_dec xx : - 2 ^ 31 <= xx < 2 ^ 31 ->
  exists l, printint xx 10 true = Some ((if xx <? 0 then [45] else []) ++ l) /\ canonical 10 l (Z.abs xx).
Proof.
  intros Hx. unfold printint. cbn [andb]. cbv zeta.
  assert ((if xx <? 0 then u32 (- xx) else u32 xx) = Z.abs xx) as Hu.
  { unfold u32. destruct (Z.ltb_spec xx 0); rewrite Z.mod_small; lia. }
  rewrite Hu. assert (0 <= Z.abs xx < 10 ^ Z.of_nat 15) as Ha by (split; [lia|]; change (10 ^ Z.of_nat 15) with 1000000000000000; lia).
  destruct (printint_loop_ok 10 15 (Z.abs xx) ltac:(lia) Ha) as (l & E & Hl & _); [lia|].
  assert (forall room x b l, printint_loop room x b = Some l -> printint_loop (S room) x b = Some l) as Mono.
  { clear. induction room as [|room IH]; intros x b l; [done|]. cbn [printint_loop]. destruct (negb (x `div` b =? 0)); [|done].
    destruct (printint_loop room _ b) as [l'|] eqn:E; [|done]. intros E'. apply IH in E. cbn [printint_loop] in E. by rewrite E. }
  apply Mono in E. exists (rev l). split.
  - rewrite E. cbn [mbind option_bind]. destruct (xx <? 0); [|done].
    rewrite (proj2 (Nat.ltb_lt (length l) 16)) by lia. by rewrite rev_app_distr.
  - apply canonical_rev; [lia| |done]. split; [lia|]. change (10 ^ 16) with 10000000000000000. lia.
Qed.

Lemma atoi_loop_digits l r n : Forall (is_digit 10) l -> 0 <= n -> fold_left (fun n c => n * 10 + digit_value c) l n < 2 ^ 31 ->
  match r with c :: _ => ~ 48 <= c <= 57 | [] => False end ->
  atoi_loop n (l ++ r) = Some (fold_left (fun n c => n * 10 + digit_value c) l n).
Proof.
  revert n. induction l as [|c l IH]; intros n Hf Hn Hv Hr.
  - destruct r as [|c r]; [done|]. cbn [app atoi_loop fold_left]. destruct (Z.leb_spec 48 c), (Z.leb_spec c 57); try done; lia.
  - apply Forall_cons in Hf as [[Hc1 Hc2] Hf]. cbn [fold_left] in Hv |- *. cbn [app atoi_loop].
    assert (48 <= c <= 57) as Hc by (unfold digit_value in Hc2; destruct (Z.ltb_spec c 65); lia).
    rewrite (proj2 (Z.leb_le 48 c)), (proj2 (Z.leb_le c 57)) by lia. cbn [andb].
    assert (digit_value c = c - 48) as Hd by (unfold digit_value; destruct (Z.ltb_spec c 65); lia).
    assert (forall l n, Forall (is_digit 10) l -> 0 <= n -> n <= fold_left (fun n c => n * 10 + digit_value c) l n) as Mon.
    { clear. induction l as [|c l IH]; intros n Hf Hn; [done|]. apply Forall_cons in Hf as [[Hc1 Hc2] Hf]. cbn [fold_left].
      assert (0 <= digit_value c) by (unfold digit_value; destruct (Z.ltb_spec c 65); lia).
      specialize (IH (n * 10 + digit_value c) Hf ltac:(lia)). lia. }
    pose proof (Mon l (n * 10 + digit_value c) Hf ltac:(lia)) as Hm.
    replace (s32 (n * 10 + c - 48)) with (n * 10 + digit_value c) by (rewrite Hd; unfold s32; rewrite Z.mod_small; lia).
    by apply IH; [|lia|..].
Qed.

Lemma atoi_value l r : Forall (is_digit 10) l -> value 10 l < 2 ^ 31 -> match r with c :: _ => ~ 48 <= c <= 57 | [] => False end ->
  atoi (l ++ r) = Some (value 10 l).
Proof. intros. by apply atoi_loop_digits. Qed.

(** ** Strings *)

Lemma strlen_ok s z : Forall (fun c => c <> 0) s -> strlen (s ++ 0 :: z) = Some (Z.of_nat (length s)).
Proof.
  induction 1 as [|c s Hc _ IH]; [done|]. cbn [app strlen]. rewrite (proj2 (Z.eqb_neq c 0)), IH by done. cbn [option_map length]. f_equal. lia.
Qed.
Lemma strcpy_ok s z : Forall (fun c => c <> 0) s -> strcpy (s ++ 0 :: z) = Some (s ++ [0]).
Proof. induction 1 as [|c s Hc _ IH]; [done|]. cbn [app strcpy]. by rewrite (proj2 (Z.eqb_neq c 0)), IH. Qed.
Lemma strcmp_eq p q : Forall (fun c => 0 < c < 256) p -> Forall (fun c => 0 < c < 256) q ->
  exists d, strcmp (p ++ [0]) (q ++ [0]) = Some d /\ (d = 0 <-> p = q).
Proof.
  assert (forall c, 0 <= c < 256 -> u8 c = c) as Hu by (intros c Hc; unfold u8; by rewrite Z.mod_small).
  intros Hp. revert q. induction Hp as [|c p Hc _ IH]; intros q Hq; (destruct q as [|d q]; [|apply Forall_cons in Hq as [Hd Hq]]); cbn [app strcmp].
  - by exists 0.
  - rewrite Z.eqb_refl. cbn [negb andb]. eexists. split; [reflexivity|]. rewrite !Hu by lia. split; [lia|done].
  - rewrite (proj2 (Z.eqb_neq c 0)) by lia. cbn [negb andb]. eexists. split; [reflexivity|]. rewrite !Hu by lia. split; [lia|done].
  - rewrite (proj2 (Z.eqb_neq c 0)) by lia. cbn [negb andb]. destruct (Z.eqb_spec c d) as [->|N].
    + destruct (IH q Hq) as (e & E & He). exists e. split; [done|]. rewrite He. split; [by intros ->|]. intros H. by injection H.
    + eexists. split; [reflexivity|]. rewrite !Hu by lia. split; [lia|]. intros H. by injection H.
Qed.

(** ** Formats *)

(** A format is text and conversions, these with the string that the argument points to. *)
Inductive seg := Text (c : Z) | Dec (w : Z) | Hex (p : bool) (w : Z) | Str (a : Z) (s : list Z) | Chr (w : Z) | Percent | Other (c : Z).
Definition seg_fmt (g : seg) : list Z :=
  match g with
  | Text c => [c] | Dec _ => [37; 100] | Hex p _ => [37; if p then 112 else 120] | Str _ _ => [37; 115]
  | Chr _ => [37; 99] | Percent => [37; 37] | Other c => [37; c]
  end.
Definition seg_args (g : seg) : list Z :=
  match g with Dec w | Hex _ w | Chr w => [w] | Str a _ => [a] | _ => [] end.
Definition seg_out (g : seg) (o : list Z) : Prop :=
  match g with
  | Text c => o = [c]
  | Dec w => exists l, o = (if s32 w <? 0 then [45] else []) ++ l /\ canonical 10 l (Z.abs (s32 w))
  | Hex _ w => canonical 16 o w
  | Str a s => o = if a =? 0 then bytes_of "(null)" else s
  | Chr w => o = [u8 w]
  | Percent => o = [37]
  | Other c => o = [37; c]
  end.
Definition seg_ok (mem : Z -> Z) (fuel : nat) (g : seg) : Prop :=
  match g with
  | Text c => 0 < c < 256 /\ c <> 37
  | Dec w | Hex _ w | Chr w => is_u32 w
  | Str a s => a <> 0 -> (forall i c, s !! i = Some c -> mem (a + Z.of_nat i) = c /\ c <> 0) /\ mem (a + Z.of_nat (length s)) = 0 /\ (length s < fuel)%nat
  | Percent => True
  | Other c => 0 < c < 256 /\ c ∉ [100; 120; 112; 115; 99; 37]
  end.

Lemma put_string_ok mem s a fuel : (forall i c, s !! i = Some c -> mem (a + Z.of_nat i) = c /\ c <> 0) ->
  mem (a + Z.of_nat (length s)) = 0 -> (length s < fuel)%nat -> put_string mem fuel a = Some s.
Proof.
  revert a fuel. induction s as [|c s IH]; intros a fuel Hs H0 Hf; (destruct fuel as [|fuel]; [cbn in Hf; lia|]); cbn [put_string].
  - cbn in H0. rewrite Z.add_0_r in H0. by rewrite H0.
  - destruct (Hs 0%nat c eq_refl) as [E N]. rewrite Z.add_0_r in E. rewrite E, (proj2 (Z.eqb_neq c 0)) by done. cbn [negb].
    rewrite (IH (a + 1) fuel); [done| | |cbn in Hf; lia].
    + intros i d Hd. destruct (Hs (Datatypes.S i) d Hd) as [Ed Nd]. split; [|done]. rewrite <- Ed. f_equal. lia.
    + rewrite <- H0. f_equal. cbn [length]. lia.
Qed.

Lemma low_byte c : 0 < c < 256 -> Z.land c 255 = c.
Proof. intros Hc. change 255 with (Z.ones 8). rewrite Z.land_ones, Z.mod_small; lia. Qed.

Lemma printf_conversion mem fuel c fmt ap : 0 < c < 256 ->
  printf_loop mem fuel (37 :: c :: fmt) false ap = '(l, ap') ← convert mem fuel c ap; option_map (app l) (printf_loop mem fuel fmt false ap').
Proof.
  intros Hc. change (printf_loop mem fuel (37 :: c :: fmt) false ap) with (printf_loop mem fuel (c :: fmt) true ap).
  cbn [printf_loop]. by rewrite (proj2 (Z.eqb_neq c 0)), low_byte by lia.
Qed.

Lemma printf_seg mem fuel g fmt ap : seg_ok mem fuel g ->
  exists o, seg_out g o /\ printf_loop mem fuel (seg_fmt g ++ fmt) false (seg_args g ++ ap) = option_map (app o) (printf_loop mem fuel fmt false ap).
Proof.
  destruct g as [c|w|p w|a s|w| |c]; intros Hg; cbn [seg_fmt seg_args app].
  - destruct Hg as [Hc Hn]. exists [c]. split; [done|]. cbn [printf_loop].
    rewrite (proj2 (Z.eqb_neq c 0)), low_byte, (proj2 (Z.eqb_neq c 37)) by lia. done.
  - destruct (printint_dec (s32 w) (s32_range w)) as (l & E & Hl). eexists. split; [by exists l|].
    rewrite printf_conversion by lia. unfold convert. rewrite Z.eqb_refl, E. done.
  - destruct (printint_hex (s32 w)) as (l & E & Hl). exists l. rewrite u32_s32 in Hl by done. split; [done|].
    destruct p; rewrite printf_conversion by lia; unfold convert; [change (112 =? 100) with false|change (120 =? 100) with false]; cbn [orb Z.eqb Pos.eqb]; by rewrite E.
  - eexists. split; [reflexivity|]. rewrite printf_conversion by lia. unfold convert. cbn [orb Z.eqb Pos.eqb].
    destruct (Z.eqb_spec a 0) as [->|N]; [done|]. destruct (Hg N) as (H1 & H2 & H3).
    apply Z.eqb_neq in N. destruct a; [done|..]; by rewrite (put_string_ok mem s _ fuel H1 H2 H3).
  - by exists [u8 w].
  - by exists [37].
  - destruct Hg as [Hc Hn]. exists [37; c]. split; [done|]. rewrite printf_conversion by done. unfold convert.
    repeat match goal with |- context [c =? ?k] => rewrite (proj2 (Z.eqb_neq c k)) by (intros ->; apply Hn; set_solver) end. done.
Qed.

Lemma printf_pieces mem fuel (gs : list seg) (ap rest : list Z) : Forall (seg_ok mem fuel) gs ->
  exists os, Forall2 seg_out gs os /\ printf mem fuel (concat (map seg_fmt gs) ++ 0 :: rest) (concat (map seg_args gs) ++ ap) = Some (concat os).
Proof.
  intros Hg. unfold printf. induction Hg as [|g gs Hg _ (os & Ho & E)].
  - exists []. split; [constructor|]. reflexivity.
  - destruct (printf_seg mem fuel g (concat (map seg_fmt gs) ++ 0 :: rest) (concat (map seg_args gs) ++ ap) Hg) as (o & H1 & H2).
    exists (o :: os). split; [by constructor|]. cbn [map concat]. by rewrite <- !app_assoc, H2, E.
Qed.

(** [printf] writes what the format says. For a format made of text and conversions
    and a list of words that begins with their arguments, the output is, piece by piece:
    the text; for [%d] the decimal digits of the argument as a signed number, without
    leading zeros and after a minus sign if it is negative, also for the least one; for [%x] and [%p]
    the hexadecimal digits of the argument; the string up to its terminator or (null) for
    [%s]; the low byte for [%c]; and a conversion that is none of these as it stands. *)
Theorem printf_spec mem fuel (gs : list seg) (ap rest : list Z) : Forall (seg_ok mem fuel) gs ->
  exists os, Forall2 seg_out gs os /\ printf mem fuel (concat (map seg_fmt gs) ++ 0 :: rest) (concat (map seg_args gs) ++ ap) = Some (concat os).
Proof. apply printf_pieces. Qed.

Lemma printf_spec_witness : exists os,
  Forall2 seg_out [Str 100 (bytes_of "xv6"); Text 32; Dec (2 ^ 31); Percent; Hex false 255; Other 113] os /\
  printf (fun a => nth (Z.to_nat (a - 100)) (cstr "xv6") 0) 9 (cstr "%s %d%%%x%q") [100; 2 ^ 31; 255] = Some (concat os) /\
  concat os = bytes_of "xv6 -2147483648%FF%q".
Proof.
  destruct (printf_spec (fun a => nth (Z.to_nat (a - 100)) (cstr "xv6") 0) 9 [Str 100 (bytes_of "xv6"); Text 32; Dec (2 ^ 31); Percent; Hex false 255; Other 113] [] [])
    as (os & H1 & H2).
  - repeat constructor; try lia.
    + rename select (_ !! _ = Some _) into Hi. destruct i as [|[|[|i]]]; cbn in Hi; simplify_eq; reflexivity.
    + rename select (_ !! _ = Some _) into Hi. destruct i as [|[|[|i]]]; cbn in Hi; simplify_eq; discriminate.
    + set_solver.
  - exists os. split; [exact H1|]. split; [exact H2|].
    assert (Some (concat os) = Some (bytes_of "xv6 -2147483648%FF%q")) as E by (rewrite <- H2; vm_compute; reflexivity). by injection E.
Defined.

(** [atoi] reads back what [printint] writes for a number that is not negative,
    whatever follows it. *)
Theorem atoi_printint (xx : Z) (rest : list Z) : 0 <= xx < 2 ^ 31 -> match rest with c :: _ => ~ 48 <= c <= 57 | [] => False end ->
  exists l, printint xx 10 true = Some l /\ atoi (l ++ rest) = Some xx.
Proof.
  intros Hx Hr. destruct (printint_dec xx ltac:(lia)) as (l & E & Hv & Hf & _). rewrite (proj2 (Z.ltb_ge xx 0)) in E by lia.
  exists l. split; [done|]. rewrite atoi_value by (done || lia). f_equal. lia.
Qed.
Lemma atoi_printint_witness : exists l, printint 2021 10 true = Some l /\ atoi (l ++ [10]) = Some 2021.
Proof. apply atoi_printint; lia. Defined.
