(* ===== verification/Grep.v ===== *)
(** * The matcher and the line loop of grep: p6/grep.c

    Strings are as in [Ulib]: the bytes from the pointer to the end of the array. *)

From S2P Require Import Prelude Ulib.

(** ** match, matchhere, matchstar *)

Definition matchstar (matchhere : list Z -> option bool) (c : Z) : list Z -> option bool :=
  fix loop (text : list Z) : option bool :=
    r ← matchhere text;
    if (r : bool) then Some true else
    match text with
    | [] => None
    | t :: text' => if negb (t =? 0) && ((t =? c) || (c =? 46)) then loop text' else Some false
    end.
Fixpoint matchhere (re text : list Z) {struct re} : option bool :=
  match re with
  | [] => None
  | c :: re1 =>
    if c =? 0 then Some true else
    match re1 with
    | [] => None
    | c1 :: re2 =>
      if c1 =? 42 then matchstar (matchhere re2) c text else
      match text with
      | [] => None
      | t :: text' =>
        if (c =? 36) && (c1 =? 0) then Some (t =? 0) else
        if negb (t =? 0) && ((c =? 46) || (c =? t)) then matchhere re1 text' else Some false
      end
    end
  end.
(** The loop of [match]. *)
Fixpoint match_loop (re text : list Z) : option bool :=
  r ← matchhere re text;
  if (r : bool) then Some true else
  match text with
  | [] => None
  | t :: text' => if t =? 0 then Some false else match_loop re text'
  end.
Definition match_ (re text : list Z) : option bool :=
  match re with
  | [] => None
  | c :: re' => if c =? 94 then matchhere re' text else match_loop re text
  end.

(** ** grep and main *)

(** The buffer, the input that is left, and what was written to descriptors 1 and 2. *)
Record gst := Gst { g_buf : list Z; g_in : list (list Z); g_out : list Z; g_err : list Z }.
Definition GREPBUF : nat := 1024.
Definition set_buf v s := Gst v (g_in s) (g_out s) (g_err s).
Definition set_in v s := Gst (g_buf s) v (g_out s) (g_err s).
Definition put_out l : M gst unit := modify (fun s => Gst (g_buf s) (g_in s) (g_out s ++ l) (g_err s)).
Definition put_err l : M gst unit := modify (fun s => Gst (g_buf s) (g_in s) (g_out s) (g_err s ++ l)).
(** [buf[i] = c]. *)
Definition put_buf (i : nat) (c : Z) : M gst unit :=
  b ← gets g_buf;
  if (i <? GREPBUF)%nat then modify (set_buf (<[i := c]> b)) else undef.

(** The loop over the lines of the buffer from [p]; the result is the last [p]. *)
Fixpoint grep_lines (fuel : nat) (pattern : list Z) (p : nat) : M gst nat :=
  match fuel with
  | O => hang
  | S fuel' =>
    b ← gets g_buf;
    q ← of_option (strchr (drop p b) 10);
    match q with
    | None => mret p
    | Some d =>
      let q := (p + d)%nat in
      put_buf q 0;;
      b ← gets g_buf;
      r ← of_option (match_ pattern (drop p b));
      (if (r : bool) then
         put_buf q 10;;
         b ← gets g_buf;
         put_out (take (q + 1 - p) (drop p b))
       else mret tt);;
      grep_lines fuel' pattern (q + 1)
    end
  end.
(** The loop of [grep] with [m] bytes in the buffer. [memmove] copies upwards. *)
Fixpoint grep_loop (fuel : nat) (pattern : list Z) (m : nat) : M gst unit :=
  match fuel with
  | O => hang
  | S fuel' =>
    i ← gets g_in;
    let '(c, i') := read (GREPBUF - m - 1) i in
    modify (set_in i');;
    let n := length c in
    if (n =? 0)%nat then mret tt else
    modify (fun s => set_buf (take m (g_buf s) ++ c ++ drop (m + n) (g_buf s)) s);;
    let m := (m + n)%nat in
    put_buf m 0;;
    p ← grep_lines (S m) pattern 0;
    let m := if (p =? 0)%nat then 0%nat else m in
    if (0 <? m)%nat then
      let m := (m - p)%nat in
      modify (fun s => set_buf (take m (drop p (g_buf s)) ++ drop m (g_buf s)) s);;
      grep_loop fuel' pattern m
    else grep_loop fuel' pattern m
  end.
Definition grep (fuel : nat) (pattern : list Z) (fd : list (list Z)) : M gst unit :=
  modify (set_in fd);; grep_loop fuel pattern 0.

(** [files] is what [open] finds. *)
Fixpoint grep_files (fuel : nat) (files : list Z -> option (list (list Z))) (pattern : list Z) (names : list (list Z)) : M gst unit :=
  match names with
  | [] => mret tt
  | f :: names' =>
    match files f with
    | None => put_out (bytes_of "grep: cannot open " ++ f ++ [10])
    | Some fd => grep fuel pattern fd;; grep_files fuel files pattern names'
    end
  end.
(** [main]: the arguments without their terminators. *)
Definition grep_main (fuel : nat) (files : list Z -> option (list (list Z))) (stdin : list (list Z)) (argv : list (list Z)) : M gst unit :=
  match argv with
  | _ :: pattern :: names =>
    match names with
    | [] => grep fuel (pattern ++ [0]) stdin
    | _ => grep_files fuel files (pattern ++ [0]) names
    end
  | _ => put_err (bytes_of "usage: grep pattern [file ...]" ++ [10])
  end.

Definition fresh : gst := Gst (replicate GREPBUF 0) [] [] [].
Definition lines (l : list string) : list Z := concat (map (fun s => bytes_of s ++ [10]) l).
Example grep_ex : exists s, grep_main 9 (fun _ => None) [lines ["xv6"; "ax*b"; "axxb"; "abc"]] [bytes_of "grep"; bytes_of "ax*b$"] fresh = Ok tt s /\ g_out s = lines ["axxb"].
Proof. vm_compute. by eexists. Qed.

(** ** The language of a pattern *)

Inductive regex := Eps | Atom (c : Z) | Cat (r1 r2 : regex) | Star (r : regex).
(** The words of a regular expression; the atom [.] is every character. *)
Inductive lang : regex -> list Z -> Prop :=
  | l_eps : lang Eps []
  | l_atom c t : c = 46 \/ c = t -> lang (Atom c) [t]
  | l_cat r1 r2 w1 w2 : lang r1 w1 -> lang r2 w2 -> lang (Cat r1 r2) (w1 ++ w2)
  | l_nil r : lang (Star r) []
  | l_star r w1 w2 : lang r w1 -> lang (Star r) w2 -> lang (Star r) (w1 ++ w2).

(** The expression of a pattern, and whether it ends in the anchor [$]. *)
Fixpoint pattern_regex (p : list Z) : regex * bool :=
  match p with
  | [] => (Eps, false)
  | c :: p1 =>
    match p1 with
    | [] => if c =? 36 then (Eps, true) else (Cat (Atom c) Eps, false)
    | c1 :: p2 =>
      if c1 =? 42 then let '(r, e) := pattern_regex p2 in (Cat (Star (Atom c)) r, e)
      else let '(r, e) := pattern_regex p1 in (Cat (Atom c) r, e)
    end
  end.
(** [text] begins with a word of the expression, and is that word if it is anchored. *)
Definition here (p : regex * bool) (text : list Z) : Prop :=
  exists w rest, text = w ++ rest /\ lang (fst p) w /\ (snd p = true -> rest = []).
(** The lines that a pattern selects: those that contain a word, at the start if the
    pattern begins with [^]. *)
Definition selects (p text : list Z) : Prop :=
  match p with
  | c :: p' => if c =? 94 then here (pattern_regex p') text else exists pre post, text = pre ++ post /\ here (pattern_regex p) post
  | [] => True
  end.

Definition nonzero (l : list Z) : Prop := Forall (fun c => c <> 0) l.

Lemma matchstar_here c p text z : (forall text, nonzero text -> exists b, matchhere (p ++ [0]) (text ++ 0 :: z) = Some b /\ (b = true <-> here (pattern_regex p) text)) ->
  nonzero text -> exists b, matchstar (matchhere (p ++ [0])) c (text ++ 0 :: z) = Some b /\
    (b = true <-> here (Cat (Star (Atom c)) (fst (pattern_regex p)), snd (pattern_regex p)) text).
Proof.
  intros IH. induction text as [|t text IHt]; intros Hz; destruct (IH _ Hz) as (b & E & Hb); cbn [app matchstar] in E |- *; rewrite E; cbn [mbind option_bind].
  - exists b. destruct b.
    + split; [done|]. split; [|done]. intros _. destruct (proj1 Hb eq_refl) as (w & rest & E0 & Hl & He).
      exists w, rest. split; [done|]. split; [|done]. change w with ([] ++ w). constructor; [constructor|done].
    + split; [done|]. split; [done|]. intros (w & rest & E0 & Hl & He). apply Hb. symmetry in E0. apply app_nil in E0 as [-> ->].
      exists [], []. split; [done|]. split; [|done]. cbn [fst] in Hl. inversion Hl as [| |r1 r2 w1 w2 L1 L2 E1 E2| |]; subst. apply app_nil in E2 as [-> ->]. done.
  - apply Forall_cons in Hz as [Ht Hz]. destruct b.
    + exists true. split; [done|]. split; [|done]. intros _. destruct (proj1 Hb eq_refl) as (w & rest & E0 & Hl & He).
      exists w, rest. split; [done|]. split; [|done]. change w with ([] ++ w). constructor; [constructor|done].
    + rewrite (proj2 (Z.eqb_neq t 0)) by done. cbn [negb andb].
      destruct ((t =? c) || (c =? 46)) eqn:Ec.
      * destruct (IHt Hz) as (b & E' & Hb'). exists b. split; [exact E'|]. rewrite Hb'. split.
        -- intros (w & rest & -> & Hl & He). cbn [fst snd] in Hl, He. inversion Hl as [| |r1 r2 w1 w2 L1 L2 E1 E2| |]; subst.
           exists (t :: w1 ++ w2), rest. split; [done|]. split; [|done]. change (t :: w1 ++ w2) with (([t] ++ w1) ++ w2).
           constructor; [|done]. constructor; [|done]. constructor.
           apply orb_true_iff in Ec as [Ec%Z.eqb_eq|Ec%Z.eqb_eq]; auto.
        -- intros (w & rest & E0 & Hl & He). cbn [fst snd] in Hl, He. inversion Hl as [| |r1 r2 w1 w2 L1 L2 E1 E2| |]; subst.
           inversion L1 as [| | |r E1|r w3 w4 L3 L4 E1 E2]; subst.
           ++ exfalso. assert (false = true) as [=]. apply Hb. exists w2, rest. done.
           ++ inversion L3 as [|c' t' Hc E1 E2| | |]; subst. cbn [app] in E0. injection E0 as -> ->.
              exists (w4 ++ w2), rest. split; [done|]. split; [by constructor|done].
      * exists false. split; [done|]. split; [done|]. intros (w & rest & E0 & Hl & He). cbn [fst snd] in Hl, He. apply Hb.
        inversion Hl as [| |r1 r2 w1 w2 L1 L2 E1 E2| |]; subst. inversion L1 as [| | |r E1|r w3 w4 L3 L4 E1 E2]; subst.
        -- exists w2, rest. done.
        -- inversion L3 as [|c' t' Hc E1 E2| | |]; subst. cbn [app] in E0. injection E0 as -> ->.
           apply orb_false_iff in Ec as [Ec1%Z.eqb_neq Ec2%Z.eqb_neq]. destruct Hc; congruence.
Qed.

Lemma here_atom c p text : here (Cat (Atom c) (fst p), snd p) text <->
  match text with t :: text' => (c = 46 \/ c = t) /\ here p text' | [] => False end.
Proof.
  split.
  - intros (w & rest & E & Hl & He). cbn [fst snd] in Hl, He. inversion Hl as [| |r1 r2 w1 w2 L1 L2 E1 E2| |]; subst.
    inversion L1 as [|c' t Hc E1 E2| | |]; subst. split; [done|]. by exists w2, rest.
  - destruct text as [|t text]; [done|]. intros [Hc (w & rest & -> & Hl & He)]. exists ([t] ++ w), rest. split; [done|].
    split; [|done]. constructor; [by constructor|done].
Qed.

Lemma pattern_cons c p : head p <> Some 42 -> (p = [] -> c <> 36) ->
  pattern_regex (c :: p) = (Cat (Atom c) (fst (pattern_regex p)), snd (pattern_regex p)).
Proof.
  intros H H0. cbn [pattern_regex]. destruct p as [|c1 p2].
  - by rewrite (proj2 (Z.eqb_neq c 36)) by auto.
  - rewrite (proj2 (Z.eqb_neq c1 42)) by (intros ->; by apply H). by destruct (pattern_regex (c1 :: p2)).
Qed.

Lemma matchhere_here p text z : nonzero p -> nonzero text ->
  exists b, matchhere (p ++ [0]) (text ++ 0 :: z) = Some b /\ (b = true <-> here (pattern_regex p) text).
Proof.
  remember (length p) as n eqn:Hn. revert p text Hn. induction n as [n IH] using (well_founded_induction lt_wf). intros p text -> Hp Ht.
  destruct p as [|c p].
  { exists true. split; [done|]. split; [|done]. intros _. exists [], text. split; [done|]. split; [constructor|done]. }
  apply Forall_cons in Hp as [Hc Hp].
  destruct (decide (head p = Some 42)) as [Hs|Hs].
  { destruct p as [|c2 p2]; [done|]. injection Hs as ->. apply Forall_cons in Hp as [_ Hp]. cbn [pattern_regex]. change (42 =? 42) with true. cbv iota.
    destruct (matchstar_here c p2 text z) as (b & E & Hb); [|done|].
    - intros text' Ht'. eapply IH; [|reflexivity|done|done]. cbn. lia.
    - exists b. cbn [app matchhere]. rewrite (proj2 (Z.eqb_neq c 0)) by done. split; [exact E|]. by destruct (pattern_regex p2). }
  destruct (decide (p = [] /\ c = 36)) as [[-> ->]|Hd].
  { destruct text as [|t text]; cbn [app matchhere pattern_regex]; eexists; (split; [reflexivity|]); split; try done.
    - intros _. exists [], []. split; [done|]. split; [constructor|done].
    - intros E%Z.eqb_eq. apply Forall_cons in Ht as [? _]. congruence.
    - intros (w & rest & E & Hl & He). inversion Hl; subst. rewrite (He eq_refl) in E. done. }
  rewrite pattern_cons by (done || (intros -> ->; by apply Hd)).
  setoid_rewrite here_atom.
  assert (exists c1 re2, p ++ [0] = c1 :: re2 /\ c1 <> 42 /\ (c1 = 0 -> p = [])) as (c1 & re2 & Ep & Hc1 & H0).
  { destruct p as [|c1 p]; [by exists 0, []|]. exists c1, (p ++ [0]). apply Forall_cons in Hp as [? _]. repeat split; [|done]. intros ->. by apply Hs. }
  cbn [app matchhere]. rewrite (proj2 (Z.eqb_neq c 0)) by done. rewrite Ep. rewrite (proj2 (Z.eqb_neq c1 42)) by done.
  assert ((c =? 36) && (c1 =? 0) = false) as Hf.
  { apply andb_false_iff. destruct (Z.eqb_spec c 36) as [->|]; [|by left]. right. apply Z.eqb_neq. intros ->. apply Hd. auto. }
  destruct text as [|t text]; cbn [app]; rewrite Hf.
  - exists false. done.
  - apply Forall_cons in Ht as [Ht0 Ht]. rewrite (proj2 (Z.eqb_neq t 0)) by done. cbn [negb andb].
    destruct ((c =? 46) || (c =? t)) eqn:Ec.
    + destruct (IH (length p)) with (p := p) (text := text) as (b & E & Hb); [cbn; lia|done|done|done|].
      exists b. rewrite <- Ep. split; [exact E|]. rewrite Hb. apply orb_true_iff in Ec as [Ec%Z.eqb_eq|Ec%Z.eqb_eq]; intuition.
    + exists false. split; [done|]. split; [done|]. apply orb_false_iff in Ec as [Ec1%Z.eqb_neq Ec2%Z.eqb_neq]. intros [[?|?] _]; congruence.
Qed.

Lemma match_selects p text z : nonzero p -> nonzero text ->
  exists b, match_ (p ++ [0]) (text ++ 0 :: z) = Some b /\ (b = true <-> selects p text).
Proof.
  intros Hp Ht. destruct p as [|c p].
  { exists true. split; [|done]. by destruct text. }
  change (selects (c :: p) text) with (if c =? 94 then here (pattern_regex p) text else exists pre post, text = pre ++ post /\ here (pattern_regex (c :: p)) post).
  change (match_ ((c :: p) ++ [0]) (text ++ 0 :: z)) with (if c =? 94 then matchhere (p ++ [0]) (text ++ 0 :: z) else match_loop ((c :: p) ++ [0]) (text ++ 0 :: z)).
  destruct (c =? 94).
  { apply Forall_cons in Hp as [_ Hp]. by apply matchhere_here. }
  set (q := c :: p) in *. clearbody q. clear c p. induction text as [|t text IH].
  - destruct (matchhere_here q [] z Hp Ht) as (b & E & Hb). exists b. cbn [app match_loop] in E |- *. rewrite E. destruct b.
    + split; [done|]. split; [|done]. intros _. exists [], []. split; [done|]. by apply Hb.
    + split; [done|]. split; [done|]. intros (pre & post & E0 & H). symmetry in E0. apply app_nil in E0 as [-> ->]. by apply Hb.
  - destruct (matchhere_here q (t :: text) z Hp Ht) as (b & E & Hb). apply Forall_cons in Ht as [Ht0 Ht].
    destruct (IH Ht) as (b' & E' & Hb'). cbn [app match_loop] in E |- *. rewrite E. cbn [mbind option_bind]. destruct b.
    + exists true. split; [done|]. split; [|done]. intros _. exists [], (t :: text). split; [done|]. by apply Hb.
    + rewrite (proj2 (Z.eqb_neq t 0)) by done. exists b'. split; [exact E'|]. rewrite Hb'. split.
      * intros (pre & post & -> & H). by exists (t :: pre), post.
      * intros (pre & post & E0 & H). destruct pre as [|t' pre].
        -- cbn in E0. subst post. exfalso. assert (false = true) as [=]. by apply Hb.
        -- injection E0 as -> ->. by exists pre, post.
Qed.

(** ** Lines *)

(** The complete lines of [l], without their newlines, and the rest. *)
Fixpoint split_lines (l : list Z) : list (list Z) * list Z :=
  match l with
  | [] => ([], [])
  | c :: l' =>
    let '(ls, r) := split_lines l' in
    if c =? 10 then ([] :: ls, r) else match ls with [] => ([], c :: r) | l1 :: ls => ((c :: l1) :: ls, r) end
  end.
Definition unlines (ls : list (list Z)) : list Z := concat (map (fun l => l ++ [10]) ls).
Definition one_line (l : list Z) : Prop := Forall (fun c => c <> 10) l.
(** What the matcher says of a line. *)
Definition matches (p l : list Z) : bool := match match_ (p ++ [0]) (l ++ [0]) with Some b => b | None => false end.
Definition selected (p : list Z) (ls : list (list Z)) : list (list Z) := filter (fun l => matches p l = true) ls.

Lemma split_lines_nil r : one_line r -> split_lines r = ([], r).
Proof.
  induction r as [|c r IH]; [done|]. intros [Hc H]%Forall_cons. cbn [split_lines]. rewrite IH by done. by rewrite (proj2 (Z.eqb_neq c 10)).
Qed.
Lemma split_lines_cons l r : one_line l -> split_lines (l ++ 10 :: r) = (l :: fst (split_lines r), snd (split_lines r)).
Proof.
  induction l as [|c l IH]; intros Hl.
  - cbn [app split_lines]. by destruct (split_lines r).
  - apply Forall_cons in Hl as [Hc Hl]. cbn [app split_lines]. rewrite IH by done. by rewrite (proj2 (Z.eqb_neq c 10)).
Qed.
Lemma split_first (l : list Z) : one_line l \/ exists a r, l = a ++ 10 :: r /\ one_line a.
Proof.
  induction l as [|c l IH]; [left; constructor|]. destruct (decide (c = 10)) as [->|N].
  - right. exists [], l. split; [done|constructor].
  - destruct IH as [H|(a & r & -> & H)]; [left; by constructor|]. right. exists (c :: a), r. split; [done|by constructor].
Qed.
(** Induction on the first line of a text. *)
Lemma lines_ind (P : list Z -> Prop) : (forall r, one_line r -> P r) -> (forall l r, one_line l -> P r -> P (l ++ 10 :: r)) -> forall t, P t.
Proof.
  intros H0 H1 t. remember (length t) as n eqn:Hn. revert t Hn. induction n as [n IH] using (well_founded_induction lt_wf). intros t ->.
  destruct (split_first t) as [H|(a & r & -> & H)]; [by apply H0|]. apply H1; [done|]. eapply IH; [|reflexivity]. rewrite length_app. cbn. lia.
Qed.
Lemma split_lines_unlines t : t = unlines (fst (split_lines t)) ++ snd (split_lines t) /\ one_line (snd (split_lines t)) /\ Forall one_line (fst (split_lines t)).
Proof.
  pattern t. apply lines_ind; clear t.
  - intros r Hr. by rewrite split_lines_nil.
  - intros l r Hl (IH & H1 & H2). rewrite split_lines_cons by done. cbn [fst snd]. split; [|split; [done|by constructor]].
    rewrite IH at 1. unfold unlines. cbn [map concat]. by rewrite <- !app_assoc.
Qed.
Lemma split_lines_app a b : split_lines (a ++ b) = (fst (split_lines a) ++ fst (split_lines (snd (split_lines a) ++ b)), snd (split_lines (snd (split_lines a) ++ b))).
Proof.
  pattern a. apply lines_ind; clear a.
  - intros r Hr. rewrite (split_lines_nil r) by done. cbn [fst snd app]. by destruct (split_lines (r ++ b)).
  - intros l r Hl IH. rewrite split_lines_cons by done. cbn [fst snd]. rewrite <- app_assoc. cbn [app]. rewrite split_lines_cons by done. by rewrite IH.
Qed.

Lemma strchr_newline l r : nonzero l -> one_line l -> strchr (l ++ 10 :: r) 10 = Some (Some (length l)).
Proof.
  induction l as [|c l IH]; intros Hz Hl; [done|]. apply Forall_cons in Hz as [Hc Hz]. apply Forall_cons in Hl as [Hn Hl].
  cbn [app strchr]. rewrite (proj2 (Z.eqb_neq c 0)), (proj2 (Z.eqb_neq c 10)) by done. by rewrite IH.
Qed.
Lemma strchr_none l r : nonzero l -> one_line l -> strchr (l ++ 0 :: r) 10 = Some None.
Proof.
  induction l as [|c l IH]; intros Hz Hl; [done|]. apply Forall_cons in Hz as [Hc Hz]. apply Forall_cons in Hl as [Hn Hl].
  cbn [app strchr]. rewrite (proj2 (Z.eqb_neq c 0)), (proj2 (Z.eqb_neq c 10)) by done. by rewrite IH.
Qed.

(** ** The loop over the buffer *)

Definition state (b : list Z) (i : list (list Z)) (o : list Z) (s : gst) : gst := Gst b i (g_out s ++ o) (g_err s).

Lemma put_buf_ok i c s : (i < GREPBUF)%nat -> put_buf i c s = Ok tt (set_buf (<[i := c]> (g_buf s)) s).
Proof. intros H. unfold put_buf. rewrite bind_gets. by rewrite (proj2 (Nat.ltb_lt i GREPBUF) H). Qed.

Lemma matches_ok p l z : nonzero p -> nonzero l -> match_ (p ++ [0]) (l ++ 0 :: z) = Some (matches p l) /\ (matches p l = true <-> selects p l).
Proof.
  intros Hp Hl. destruct (match_selects p l z Hp Hl) as (b & E & Hb). destruct (match_selects p l [] Hp Hl) as (b' & E' & Hb').
  unfold matches. rewrite E'. split; [|done]. rewrite E. f_equal. destruct b, b'; intuition congruence.
Qed.


Lemma unlines_length_cons l ls : length (unlines (l :: ls)) = (length l + 1 + length (unlines ls))%nat.
Proof. unfold unlines. cbn [map concat]. rewrite !length_app. cbn. lia. Qed.

Lemma grep_lines_ok p t z pre s fuel : nonzero p -> nonzero t -> (length t < fuel)%nat -> length (g_buf s) = GREPBUF ->
  g_buf s = pre ++ t ++ 0 :: z ->
  exists junk, let d := unlines (fst (split_lines t)) in length junk = length d /\
    grep_lines fuel (p ++ [0]) (length pre) s = Ok (length pre + length d)%nat
      (state (pre ++ junk ++ snd (split_lines t) ++ 0 :: z) (g_in s) (unlines (selected p (fst (split_lines t)))) s).
Proof.
  intros Hp. revert pre s fuel. pattern t. apply lines_ind; clear t.
  - intros r Hr pre s fuel Hz Hf Hl E. rewrite split_lines_nil by done. exists []. split; [done|]. destruct fuel as [|fuel]; [lia|].
    cbn [grep_lines]. rewrite bind_gets, E, drop_app_length, strchr_none by done. unfold state. rewrite app_nil_r, Nat.add_0_r.
    cbn [app snd]. rewrite <- E. by destruct s.
  - intros l r Hr IH pre s fuel Hz Hf Hl E. rewrite split_lines_cons by done. cbn [fst snd]. destruct fuel as [|fuel]; [lia|].
    apply Forall_app in Hz as [Hzl [_ Hzr]%Forall_cons].
    assert (length pre + length l < GREPBUF)%nat as Hq by (rewrite <- Hl, E, !length_app; cbn; lia).
    destruct (matches_ok p l (r ++ 0 :: z) Hp Hzl) as [Em _].
    set (s1 := set_buf (pre ++ l ++ 0 :: r ++ 0 :: z) s).
    cbn [grep_lines]. rewrite bind_gets, E, drop_app_length. rewrite <- app_assoc. cbn [app]. rewrite strchr_newline by done.
    change (of_option (Some (Some (length l)))) with (mret (M := M gst) (Some (length l))). rewrite bind_ret. cbv beta iota zeta.
    assert (forall x y w, <[(length pre + length l)%nat := y]> (pre ++ l ++ x :: w) = pre ++ l ++ y :: w) as Ins.
    { intros x y w. rewrite !app_assoc, <- length_app. apply insert_mid. }
    mstep (put_buf_ok _ _ s Hq). rewrite E, <- app_assoc. cbn [app]. rewrite Ins. fold s1.
    rewrite bind_gets. change (g_buf s1) with (pre ++ l ++ 0 :: r ++ 0 :: z). rewrite drop_app_length, Em.
    change (of_option (Some (matches p l))) with (mret (M := M gst) (matches p l)). rewrite bind_ret.
    assert (forall c s2, g_buf s2 = (pre ++ l ++ [c]) ++ r ++ 0 :: z -> exists junk, length junk = length (unlines (l :: fst (split_lines r))) /\
      grep_lines fuel (p ++ [0]) (length pre + length l + 1) s2 = Ok (length pre + length (unlines (l :: fst (split_lines r))))%nat
        (state (pre ++ junk ++ snd (split_lines r) ++ 0 :: z) (g_in s2) (unlines (selected p (fst (split_lines r)))) s2)) as Go.
    { intros c s2 E2. destruct (IH (pre ++ l ++ [c]) s2 fuel Hzr) as (junk & Hj & Eg); [rewrite length_app in Hf; cbn in Hf; lia| |done|].
      { rewrite E2, <- Hl, E. repeat (rewrite length_app || cbn [length]). lia. }
      exists ((l ++ [c]) ++ junk). split; [rewrite unlines_length_cons, !length_app, Hj; cbn; lia|].
      replace (length (pre ++ l ++ [c])) with (length pre + length l + 1)%nat in Eg by (rewrite !length_app; cbn; lia).
      rewrite Eg, unlines_length_cons. f_equal; [lia|]. unfold state. by rewrite <- !app_assoc. }
    set (c := if matches p l then 10 else 0).
    set (s2 := Gst ((pre ++ l ++ [c]) ++ r ++ 0 :: z) (g_in s) (g_out s ++ if matches p l then l ++ [10] else []) (g_err s)).
    rewrite (bind_Ok _ _ s1 tt s2).
    2: { unfold s2, c. destruct (matches p l).
      - mstep (put_buf_ok _ _ s1 Hq). change (g_buf s1) with (pre ++ l ++ 0 :: r ++ 0 :: z). rewrite Ins, bind_gets.
        change (g_buf (set_buf ?b s1)) with b. rewrite drop_app_length.
        replace (length pre + length l + 1 - length pre)%nat with (length (l ++ [10])) by (rewrite length_app; cbn; lia).
        rewrite <- !app_assoc. change (l ++ 10 :: r ++ 0 :: z) with (l ++ [10] ++ r ++ 0 :: z). by rewrite (app_assoc l), take_app_length.
      - unfold s1, set_buf. rewrite <- !app_assoc, app_nil_r. reflexivity. }
    destruct (Go c s2 eq_refl) as (junk & Hj & Eg). exists junk. split; [done|]. rewrite Eg. f_equal. unfold state. cbn [g_in g_out g_err s2].
    f_equal. unfold selected. rewrite filter_cons, <- app_assoc. f_equal. destruct (matches p l) eqn:Eb.
    + rewrite decide_True by done. done.
    + rewrite decide_False by congruence. done.
Qed.

Lemma unlines_nil ls : length (unlines ls) = 0%nat <-> ls = [].
Proof. split; [|by intros ->]. destruct ls as [|l ls]; [done|]. rewrite unlines_length_cons. lia. Qed.
Lemma unlines_app l1 l2 : unlines (l1 ++ l2) = unlines l1 ++ unlines l2.
Proof. unfold unlines. by rewrite map_app, concat_app. Qed.

(** One turn of the loop, with [r] pending and [ck] read. *)
Lemma grep_turn p r w ck i' s fuel : nonzero p -> nonzero (r ++ ck) -> ck <> [] -> (length r + length ck < GREPBUF)%nat ->
  length (g_buf s) = GREPBUF -> g_buf s = r ++ w -> read (GREPBUF - length r - 1) (g_in s) = (ck, i') ->
  let ls := fst (split_lines (r ++ ck)) in
  exists b r', length b = GREPBUF /\ (exists w', b = r' ++ w') /\ r' = (if decide (ls = []) then [] else snd (split_lines (r ++ ck))) /\
    grep_loop (S fuel) (p ++ [0]) (length r) s = grep_loop fuel (p ++ [0]) (length r') (state b i' (unlines (selected p ls)) s).
Proof.
  intros Hp Hz Hck Hlen Hl E Hrd ls. cbn [grep_loop]. rewrite bind_gets, Hrd. cbv beta iota. rewrite bind_modify.
  assert (0 < length ck)%nat as Hck' by (destruct ck; [done|cbn; lia]).
  rewrite (proj2 (Nat.eqb_neq (length ck) 0)) by lia. rewrite bind_modify.
  set (s1 := set_buf _ _). assert (exists x z, g_buf s1 = (r ++ ck) ++ x :: z /\ length (g_buf s1) = GREPBUF) as (x & z & Eb & Eblen).
  { assert (g_buf s1 = (r ++ ck) ++ drop (length ck) w) as ->.
    { unfold s1. cbn [g_buf set_in set_buf]. by rewrite E, take_app_length, <- app_assoc, <- drop_drop, drop_app_length. }
    rewrite E, length_app in Hl. destruct (drop (length ck) w) as [|x z] eqn:Ed; apply (f_equal length) in Ed; rewrite length_drop in Ed.
    - cbn in Ed. lia.
    - exists x, z. split; [done|]. rewrite !length_app, <- Ed. lia. }
  assert (length r + length ck = length (r ++ ck))%nat as Hrc by by rewrite length_app.
  mstep (put_buf_ok _ _ s1 Hlen). rewrite Eb, Hrc, insert_mid.
  set (s2 := set_buf ((r ++ ck) ++ 0 :: z) s1).
  destruct (grep_lines_ok p (r ++ ck) z [] s2 (S (length (r ++ ck))) Hp Hz) as (junk & Hj & Eg); [lia| |done|].
  { rewrite Eb in Eblen. rewrite <- Eblen. unfold s2. cbn [g_buf set_buf]. rewrite !length_app. done. }
  cbv zeta in Eg. fold ls in Eg, Hj. rewrite (bind_Ok _ _ _ _ _ Eg). cbn [length Nat.add app].
  pose proof (split_lines_unlines (r ++ ck)) as (Et & _ & _). fold ls in Et. apply (f_equal length) in Et. rewrite (length_app (unlines ls)) in Et.
  set (r' := snd (split_lines (r ++ ck))) in *.
  assert (length (junk ++ r' ++ 0 :: z) = GREPBUF) as HL.
  { rewrite Eb in Eblen. rewrite <- Eblen. rewrite !(length_app _ (_ :: _)), Et. repeat (rewrite length_app || cbn [length]). lia. }
  destruct (decide (ls = [])) as [E0|N].
  - rewrite (proj2 (unlines_nil ls) E0), E0. cbn [Nat.eqb Nat.ltb Nat.leb length]. rewrite E0 in Hj.
    exists (junk ++ r' ++ 0 :: z), []. split; [exact HL|]. split; [by eexists|]. split; [done|]. reflexivity.
  - assert (length (unlines ls) <> 0%nat) as Hn by by rewrite unlines_nil.
    rewrite (proj2 (Nat.eqb_neq _ 0) Hn), (proj2 (Nat.ltb_lt 0 _)) by lia. rewrite bind_modify.
    replace (length (r ++ ck) - length (unlines ls))%nat with (length r') by lia.
    exists (take (length r') (drop (length (unlines ls)) (junk ++ r' ++ 0 :: z)) ++ drop (length r') (junk ++ r' ++ 0 :: z)), r'.
    split; [|split; [|split; [done|reflexivity]]].
    + rewrite length_app, length_drop, length_take, length_drop, HL. unfold GREPBUF in *. rewrite !length_app in HL. cbn in HL. lia.
    + rewrite <- Hj, drop_app_length, take_app_length. by eexists.
Qed.

Lemma grep_loop_file p : nonzero p -> forall c r w s fuel, nonzero (r ++ c) -> one_line r -> (length r <= GREPBUF - 2)%nat ->
  Forall (fun l => (length l <= GREPBUF - 2)%nat) (fst (split_lines (r ++ c))) ->
  length (g_buf s) = GREPBUF -> g_buf s = r ++ w -> g_in s = [c] -> (length c < fuel)%nat ->
  exists b, length b = GREPBUF /\ grep_loop fuel (p ++ [0]) (length r) s = Ok tt (state b [] (unlines (selected p (fst (split_lines (r ++ c))))) s).
Proof.
  intros Hp c. remember (length c) as n eqn:Hn. revert c Hn. induction n as [n IH] using (well_founded_induction lt_wf).
  intros c -> r w s fuel Hz Hr Hrl Hls Hl E Hin Hf. destruct fuel as [|fuel]; [lia|].
  destruct (decide (c = [])) as [->|Hc].
  { rewrite app_nil_r, split_lines_nil by done. exists (g_buf s). split; [done|]. cbn [grep_loop]. rewrite bind_gets, Hin. cbn [read].
    rewrite bind_modify. unfold state. by rewrite app_nil_r. }
  set (k := (GREPBUF - length r - 1)%nat).
  assert (read k (g_in s) = (take k c, [drop k c])) as Hrd by (rewrite Hin; by destruct c).
  assert (0 < k)%nat as Hk by (unfold k, GREPBUF in *; lia). assert (0 < length c)%nat as Hc0 by (destruct c; [done|cbn; lia]).
  assert (length r + length (take k c) < GREPBUF)%nat as Hlen by (rewrite length_take; unfold k, GREPBUF in *; lia).
  rewrite <- (take_drop k c), app_assoc in Hz. apply Forall_app in Hz as [Hz1 Hz2].
  destruct (grep_turn p r w (take k c) [drop k c] s fuel Hp Hz1) as (b & r' & Hb & [w' Ew'] & Hr' & Eg); try done.
  { intros E0. apply (f_equal length) in E0. rewrite length_take in E0. change (length (@nil Z)) with 0%nat in E0. lia. }
  rewrite Eg. clear Eg. pose proof (split_lines_unlines (r ++ take k c)) as (Et & Ho & _).
  assert (split_lines (r ++ c) = split_lines ((r ++ take k c) ++ drop k c)) as Es by by rewrite <- app_assoc, take_drop.
  rewrite (split_lines_app (r ++ take k c)) in Es. set (ls := fst (split_lines (r ++ take k c))) in *.
  set (q := snd (split_lines (r ++ take k c))) in *.
  assert (length (drop k c) < length c)%nat as Hlt by (rewrite length_drop; lia).
  assert (exists t, r' ++ drop k c = t /\ fst (split_lines (r ++ c)) = ls ++ fst (split_lines t) /\ nonzero t /\ one_line r' /\ (length r' <= GREPBUF - 2)%nat) as (t & Et' & El & Hzt & Ho' & Hrl').
  { destruct (decide (ls = [])) as [E0|N].
    - rewrite Hr'. exists (drop k c). cbn [app]. split; [done|]. split; [|split; [done|split; [constructor|cbn; lia]]].
      assert (one_line (r ++ c)) as Hone.
      { destruct (split_first (r ++ c)) as [H|(a & rr & Ea & Ha)]; [done|]. exfalso.
        rewrite Ea, split_lines_cons in Hls by done. apply Forall_cons in Hls as [Hal _].
        assert (take (length r + k) (r ++ c) = r ++ take k c) as Etk by by rewrite take_app_add.
        assert ((r ++ take k c) !! length a = Some 10) as Hat.
        { rewrite <- Etk, lookup_take_Some, Ea, lookup_app_r, Nat.sub_diag by lia. split; [done|]. unfold k, GREPBUF in *. lia. }
        rewrite Et, E0 in Hat. cbn [unlines app map concat] in Hat. apply (Forall_lookup_1 _ _ _ _ Ho) in Hat. done. }
      rewrite E0, split_lines_nil by done. rewrite split_lines_nil; [done|]. rewrite <- (take_drop k c), app_assoc in Hone. by apply Forall_app in Hone as [_ ?].
    - rewrite Hr'. exists (q ++ drop k c). split; [done|]. split; [by rewrite Es|].
      rewrite Et in Hz1. apply Forall_app in Hz1 as [_ Hzq]. split; [by apply Forall_app|]. split; [done|].
      apply (f_equal length) in Et. rewrite (length_app r), (length_app (unlines ls)) in Et. pose proof (unlines_nil ls) as Hu.
      assert (length (unlines ls) <> 0%nat) by (by rewrite Hu). unfold GREPBUF in *. lia. }
  rewrite <- Et' in El, Hzt.
  rewrite El in Hls. apply Forall_app in Hls as [_ Hls].
  destruct (IH (length (drop k c)) Hlt (drop k c) eq_refl r' w' (state b [drop k c] (unlines (selected p ls)) s) fuel Hzt Ho' Hrl' Hls Hb Ew' eq_refl) as (b' & Hb' & Eg'); [lia|].
  exists b'. split; [done|]. rewrite Eg', El. unfold state, selected. cbn [g_out g_err]. by rewrite <- app_assoc, <- unlines_app, filter_app.
Qed.

(** C25. [grep] on a regular file without zero bytes, whose lines fit its buffer, with a pattern without zero bytes, writes exactly the complete
    lines that the pattern selects, in their order; a last line without a newline is not
    printed. A pattern selects the lines that contain a word of its regular expression,
    in which [c*] is any number of [c], [.] any character, and [^] and [$] at the ends tie
    the word to the ends of the line. *)
Theorem grep_selects (p c : list Z) (s : gst) (fuel : nat) :
  nonzero p -> nonzero c -> Forall (fun l => (length l <= 1022)%nat) (fst (split_lines c)) -> length (g_buf s) = GREPBUF -> (length c < fuel)%nat ->
  (forall l, l ∈ fst (split_lines c) -> matches p l = true <-> selects p l) /\
  exists b, grep fuel (p ++ [0]) [c] s = Ok tt (Gst b [] (g_out s ++ unlines (filter (fun l => matches p l = true) (fst (split_lines c)))) (g_err s)).
Proof.
  intros Hp Hz Hls Hl Hf. split.
  - intros l Hin. apply matches_ok with (z := []); [done|]. pose proof (split_lines_unlines c) as (E & _).
    rewrite E in Hz. apply Forall_app in Hz as [Hz _]. unfold unlines in Hz. rewrite Forall_concat, Forall_map in Hz.
    apply (proj1 (Forall_forall _ _) Hz) in Hin. by apply Forall_app in Hin as [? _].
  - destruct (grep_loop_file p Hp c [] (g_buf s) (set_in [c] s) fuel) as (b & Hb & E); try done; [constructor|cbn; lia|].
    exists b. exact E.
Qed.

Lemma grep_selects_witness : exists b, grep 99 (bytes_of "^a*b$" ++ [0]) [lines ["aab"; "cab"; "b"]] fresh = Ok tt (Gst b [] (lines ["aab"; "b"]) []) /\
  ~ selects (bytes_of "^a*b$") (bytes_of "cab").
Proof.
  destruct (grep_selects (bytes_of "^a*b$") (lines ["aab"; "cab"; "b"]) fresh 99) as [H [b E]].
  - vm_compute. repeat constructor; discriminate.
  - vm_compute. repeat constructor; discriminate.
  - vm_compute. repeat constructor.
  - reflexivity.
  - vm_compute. lia.
  - exists b. split; [exact E|]. rewrite <- H by (vm_compute; repeat constructor). vm_compute. discriminate.
Defined.

(** [grep] forgets the beginning of a line that does not arrive whole. When a read
    returns [a] without a newline, the buffer is emptied, and the end [b] of the line is
    matched and printed alone. *)
Theorem grep_short_read (p a b : list Z) (s : gst) : nonzero p -> nonzero (a ++ b) -> one_line (a ++ b) -> a <> [] ->
  (length (a ++ b) <= 1022)%nat -> length (g_buf s) = GREPBUF ->
  exists buf, grep 9 (p ++ [0]) [a; b ++ [10]] s = Ok tt (Gst buf [] (g_out s ++ if matches p b then b ++ [10] else []) (g_err s)).
Proof.
  intros Hp Hz Ho Ha Hlen Hl. rewrite length_app in Hlen. apply Forall_app in Hz as [Hza Hzb]. apply Forall_app in Ho as [Hoa Hob].
  unfold grep. rewrite bind_modify. set (s0 := set_in [a; b ++ [10]] s).
  destruct (grep_turn p [] (g_buf s) a [[]; b ++ [10]] s0 8 Hp Hza Ha) as (b1 & r1 & H1 & _ & Hr1 & E1); [cbn; unfold GREPBUF; lia|done|done| |].
  { unfold s0. cbn [g_in set_in read length]. destruct a as [|x a]; [done|]. f_equal; [by rewrite take_ge by (unfold GREPBUF in *; lia)|].
    by rewrite drop_ge by (unfold GREPBUF in *; lia). }
  cbn [app] in Hr1, E1. rewrite split_lines_nil in Hr1, E1 by done. cbn [fst] in Hr1, E1. rewrite decide_True in Hr1 by done. subst r1.
  change (length (@nil Z)) with 0%nat in E1. rewrite E1. set (s1 := state _ _ _ s0).
  destruct (grep_turn p [] b1 (b ++ [10]) [[]] s1 7 Hp) as (b2 & r2 & H2 & _ & Hr2 & E2); try done.
  { cbn [app]. apply Forall_app. split; [done|by repeat constructor]. }
  { by destruct b. }
  { rewrite length_app. cbn. unfold GREPBUF. lia. }
  { unfold s1, state. cbn [g_in length]. set (k := (GREPBUF - 0 - 1)%nat). assert (length (b ++ [10%Z]) <= k)%nat as Hk by (rewrite length_app; cbn; unfold k, GREPBUF; lia).
    transitivity (take k (b ++ [10]), [drop k (b ++ [10])]); [by destruct b|]. by rewrite take_ge, drop_ge. }
  cbn [app] in Hr2, E2. rewrite split_lines_cons in Hr2, E2 by done. cbn [fst snd split_lines] in Hr2, E2. rewrite decide_False in Hr2 by done. subst r2.
  change (length (@nil Z)) with 0%nat in E2. rewrite E2. exists b2.
  transitivity (Ok tt (set_in [] (state b2 [[]] (unlines (selected p [b])) s1))); [reflexivity|]. unfold set_in. f_equal. f_equal.
  unfold s1, s0, state, selected. rewrite !filter_cons, filter_nil. cbn [g_out set_in g_err]. change (unlines (filter _ [])) with (@nil Z). rewrite app_nil_r.
  destruct (matches p b); [rewrite decide_True by done|rewrite decide_False by done]; unfold unlines; cbn [map concat]; by rewrite ?app_nil_r.
Qed.

Lemma grep_short_read_witness : exists buf, grep 9 (bytes_of "ab" ++ [0]) [bytes_of "xa"; bytes_of "b" ++ [10]] fresh = Ok tt (Gst buf [] [] []) /\
  matches (bytes_of "ab") (bytes_of "xab") = true.
Proof.
  destruct (grep_short_read (bytes_of "ab") (bytes_of "xa") (bytes_of "b") fresh) as [buf E].
  - vm_compute. repeat constructor; discriminate.
  - vm_compute. repeat constructor; discriminate.
  - vm_compute. repeat constructor; discriminate.
  - discriminate.
  - vm_compute. lia.
  - reflexivity.
  - exists buf. split; [exact E|reflexivity].
Defined.
