(* ===== verification/Filters.v ===== *)
(** * Line filters: p1/my-look.c, p1/my-rev.c and p6/wc.c

    Input is the list of its bytes. The result of a program is what it writes to standard
    output with its exit status; [None] is a failed assertion. getopt is a parameter: it
    gives the options in their order, each with its argument, and the operands. *)

From S2P Require Import Prelude Ulib Grep.

(** [fgets] with a buffer of [n + 1] bytes: the line or the part of it that fits, and the
    rest of the input. *)
Fixpoint get_line (n : nat) (s : list Z) : list Z * list Z :=
  match n, s with
  | S n', c :: s' => if c =? 10 then ([c], s') else let '(l, r) := get_line n' s' in (c :: l, r)
  | _, _ => ([], s)
  end.
Definition fgets (n : nat) (s : list Z) : option (list Z * list Z) := match s with [] => None | _ => Some (get_line n s) end.
(** [buf] up to its terminator, which follows the line that was read. *)
Fixpoint c_string (s : list Z) : list Z := match s with [] => [] | c :: s' => if c =? 0 then [] else c :: c_string s' end.
Definition lower (c : Z) : Z := if (65 <=? c) && (c <=? 90) then c + 32 else c.
(** The strings without their terminators. *)
Fixpoint strncasecmp (p q : list Z) (n : nat) : Z :=
  match n with
  | O => 0
  | S n' =>
    let c := match p with [] => 0 | c :: _ => c end in
    let d := match q with [] => 0 | d :: _ => d end in
    if (c =? 0) || negb (lower c =? lower d) then lower c - lower d else strncasecmp (tail p) (tail q) n'
  end.

Section main.
Context (getopt : list (list Z) -> list (Z * list Z) * list (list Z)).
Context (fopen : list Z -> option (list Z)) (stdin : list Z).

Definition message (s : string) : list Z := bytes_of s ++ [10].

(** ** my-look *)

Definition LOOKBUF : nat := 128.
(** The options: the program ends with a message, or goes on with a file name. *)
Fixpoint look_opts (opts : list (Z * list Z)) (fname : option (list Z)) : (list Z * Z) + option (list Z) :=
  match opts with
  | [] => inr fname
  | (opt, arg) :: opts' =>
    if opt =? 86 then inl (message "my-look from CS537 Spring 2021", 0)
    else if opt =? 104 then inl (message "Usage: ./my-look [-Vh] [-f <filename>] <prefix>", 0)
    else if opt =? 102 then look_opts opts' (Some arg)
    else inl (message "my-look: invalid command line", 1)
  end.
Fixpoint look_loop (fuel : nat) (prefix input : list Z) : option (list Z) :=
  match fuel with
  | O => None
  | S fuel' =>
    match fgets (LOOKBUF - 1) input with
    | None => Some []
    | Some (buf, input') =>
      let len := length prefix in
      if negb (0 <? len)%nat then None else
      option_map (app (if strncasecmp prefix (c_string buf) len =? 0 then c_string buf else [])) (look_loop fuel' prefix input')
    end
  end.
Definition look_main (argv : list (list Z)) : option (list Z * Z) :=
  match argv with
  | [] => Some (message "my-look: invalid command line", 1)
  | _ =>
    let '(opts, operands) := getopt argv in
    match look_opts opts None, operands with
    | inl r, _ => Some r
    | inr fname, [prefix] =>
      match (match fname with Some f => fopen f | None => Some stdin end) with
      | None => Some (message "my-look: cannot open file", 1)
      | Some input => out ← look_loop (S (length input)) prefix input; Some (out, 0)
      end
    | inr _, _ => Some (message "my-look: invalid command line", 1)
    end
  end.

(** ** my-rev *)

Definition REVBUF : nat := 100.
Fixpoint rev_opts (opts : list (Z * list Z)) (fname : option (list Z)) : (list Z * Z) + option (list Z) :=
  match opts with
  | [] => inr fname
  | (opt, arg) :: opts' =>
    if opt =? 86 then inl (message "my-rev from CS537 Spring 2021", 0)
    else if opt =? 104 then inl (message "Usage: ./my-rev [-Vh] [-f <filename>]", 0)
    else if opt =? 102 then rev_opts opts' (Some arg)
    else inl (message "my-rev: invalid command line", 1)
  end.
(** The swaps between the indices [start] and [end_]; these are integers since [end_] may
    be before the string. *)
Fixpoint swap_loop (fuel : nat) (str : list Z) (start end_ : Z) : list Z :=
  match fuel with
  | O => str
  | S fuel' =>
    if start <? end_ then
      let tmp := nth (Z.to_nat start) str 0 in
      let str := <[Z.to_nat start := nth (Z.to_nat end_) str 0]> str in
      let str := <[Z.to_nat end_ := tmp]> str in
      swap_loop fuel' str (start + 1) (end_ - 1)
    else str
  end.
Definition reverse_string (str : list Z) (len : nat) : list Z :=
  let end_ := if nth (len - 1) str 0 =? 10 then Z.of_nat len - 2 else Z.of_nat len - 1 in
  swap_loop len str 0 end_.
Fixpoint rev_loop (fuel : nat) (input : list Z) : option (list Z) :=
  match fuel with
  | O => None
  | S fuel' =>
    match fgets (REVBUF - 1) input with
    | None => Some []
    | Some (buf, input') =>
      let len := length (c_string buf) in
      if negb (0 <? len)%nat then None else
      option_map (app (c_string (reverse_string buf len))) (rev_loop fuel' input')
    end
  end.
Definition rev_main (argv : list (list Z)) : option (list Z * Z) :=
  match argv with
  | [] => Some (message "my-rev: invalid command line", 1)
  | _ =>
    let '(opts, operands) := getopt argv in
    match rev_opts opts None, operands with
    | inl r, _ => Some r
    | inr fname, [] =>
      match (match fname with Some f => fopen f | None => Some stdin end) with
      | None => Some (message "my-rev: cannot open file", 1)
      | Some input => out ← rev_loop (S (length input)) input; Some (out, 0)
      end
    | inr _, _ => Some (message "my-rev: invalid command line", 1)
    end
  end.
End main.

(** ** wc *)

Definition WCBUF : nat := 512.
Record wcst := Wc { wc_l : Z; wc_w : Z; wc_c : Z; inword : bool }.
Definition WCSPACE : list Z := [32; 13; 9; 10; 11; 0].
Fixpoint wc_bytes (buf : list Z) (s : wcst) : option wcst :=
  match buf with
  | [] => Some s
  | b :: buf' =>
    let c := s32 (wc_c s + 1) in
    let l := if b =? 10 then s32 (wc_l s + 1) else wc_l s in
    q ← strchr WCSPACE b;
    wc_bytes buf'
      (match q with
       | Some _ => Wc l (wc_w s) c false
       | None => if negb (inword s) then Wc l (s32 (wc_w s + 1)) c true else Wc l (wc_w s) c (inword s)
       end)
  end.
Fixpoint wc_loop (fuel : nat) (fd : list (list Z)) (s : wcst) : option wcst :=
  match fuel with
  | O => None
  | S fuel' =>
    let '(buf, fd') := read WCBUF fd in
    match buf with
    | [] => Some s
    | _ => s' ← wc_bytes buf s; wc_loop fuel' fd' s'
    end
  end.
(** What [wc] prints. *)
Definition wc (fuel : nat) (fd : list (list Z)) (name : list Z) : option (list Z) :=
  s ← wc_loop fuel fd (Wc 0 0 0 false);
  printf (fun a => nth (Z.to_nat (a - 1)) (name ++ [0]) 0) (S (length name)) (bytes_of "%d %d %d %s" ++ [10; 0]) [u32 (wc_l s); u32 (wc_w s); u32 (wc_c s); 1].

Example rev_ex : rev_loop 99 (lines ["xv6"; ""; "a kernel"]) = Some (lines ["6vx"; ""; "lenrek a"]).
Proof. reflexivity. Qed.
Example look_ex : look_loop 99 (bytes_of "Ab") (lines ["abc"; "cab"; "ABd"]) = Some (lines ["abc"; "ABd"]).
Proof. reflexivity. Qed.
Example wc_ex : wc_loop 9 [lines ["an xv6"; ""; " a"]; bytes_of "b c"] (Wc 0 0 0 false) = Some (Wc 3 5 14 true).
Proof. reflexivity. Qed.

(** ** Reading by lines *)

Fixpoint pieces (fuel n : nat) (s : list Z) : list (list Z) :=
  match fuel, s with
  | S fuel', _ :: _ => let '(l, r) := get_line n s in l :: pieces fuel' n r
  | _, _ => []
  end.

Lemma get_line_app n s : s = fst (get_line n s) ++ snd (get_line n s).
Proof.
  revert s. induction n as [|n IH]; intros s; [done|]. destruct s as [|c s]; [done|]. cbn [get_line]. destruct (c =? 10); [done|].
  specialize (IH s). destruct (get_line n s) as [l r]. cbn in *. by f_equal.
Qed.
Lemma get_line_nonempty n s : (0 < n)%nat -> s <> [] -> (length (snd (get_line n s)) < length s)%nat.
Proof.
  intros Hn Hs. destruct n as [|n]; [lia|]. destruct s as [|c s]; [done|]. cbn [get_line]. destruct (c =? 10); [cbn; lia|].
  pose proof (get_line_app n s) as E. destruct (get_line n s) as [l r]. cbn in *. apply (f_equal length) in E. rewrite length_app in E. lia.
Qed.
(** A line that fits is read whole. *)
Lemma get_line_line n l r : one_line l -> (length l < n)%nat -> get_line n (l ++ 10 :: r) = (l ++ [10], r).
Proof.
  revert l. induction n as [|n IH]; intros l Hl Hn; [lia|]. destruct l as [|c l]; [done|]. apply Forall_cons in Hl as [Hc Hl].
  cbn [app get_line]. rewrite (proj2 (Z.eqb_neq c 10)) by done. rewrite IH by (done || (cbn in Hn; lia)). done.
Qed.
Lemma get_line_rest n l : one_line l -> (length l <= n)%nat -> get_line n l = (l, []).
Proof.
  revert l. induction n as [|n IH]; intros l Hl Hn; (destruct l as [|c l]; [done|]); [cbn in Hn; lia|]. apply Forall_cons in Hl as [Hc Hl].
  cbn [get_line]. rewrite (proj2 (Z.eqb_neq c 10)) by done. rewrite IH by (done || (cbn in Hn; lia)). done.
Qed.

Lemma concat_pieces n fuel s : (0 < n)%nat -> (length s <= fuel)%nat -> concat (pieces fuel n s) = s.
Proof.
  intros Hn. revert s. induction fuel as [|fuel IH]; intros s Hs; (destruct s as [|c s]; [done|]); [cbn in Hs; lia|].
  cbn [pieces]. pose proof (get_line_app n (c :: s)) as E. pose proof (get_line_nonempty n (c :: s) Hn ltac:(done)) as H.
  destruct (get_line n (c :: s)) as [l r]. cbn [fst snd] in *. cbn [concat]. rewrite IH by (cbn [length] in *; lia). done.
Qed.

(** The lines of [s] with their newlines, the last one as it is. *)
Definition lines_of (s : list Z) : list (list Z) := map (fun l => l ++ [10]) (fst (split_lines s)) ++ (match snd (split_lines s) with [] => [] | r => [r] end).
(** Every line has at most [n] bytes with its newline. *)
Definition fits (n : nat) (s : list Z) : Prop := Forall (fun l => (length l <= n)%nat) (lines_of s).

Lemma pieces_lines n fuel s : (0 < n)%nat -> (length s <= fuel)%nat -> fits n s -> pieces fuel n s = lines_of s.
Proof.
  intros Hn Hf. unfold fits, lines_of. revert fuel Hf. pattern s. apply lines_ind; clear s.
  - intros r Hr fuel Hf. rewrite split_lines_nil by done. cbn [fst snd map app]. destruct r as [|c r]; [by destruct fuel|].
    destruct fuel as [|fuel]; [cbn in Hf; lia|]. intros [Hc _]%Forall_cons. cbn [pieces]. rewrite get_line_rest by done. by destruct fuel.
  - intros l r Hl IH fuel Hf. rewrite split_lines_cons by done. cbn [fst snd map app]. intros [Hc Hfit]%Forall_cons.
    rewrite length_app in Hc, Hf. cbn [length] in Hc, Hf. destruct fuel as [|fuel]; [lia|].
    assert (pieces (S fuel) n (l ++ 10 :: r) = fst (get_line n (l ++ 10 :: r)) :: pieces fuel n (snd (get_line n (l ++ 10 :: r)))) as ->.
    { destruct l; cbn [app pieces]; by destruct (get_line n _). }
    rewrite get_line_line by (done || lia). cbn [fst snd]. by rewrite IH by (done || lia).
Qed.

Lemma c_string_id l : nonzero l -> c_string l = l.
Proof. induction 1 as [|c l Hc _ IH]; [done|]. cbn [c_string]. by rewrite (proj2 (Z.eqb_neq c 0)), IH. Qed.

(** ** my-look *)

(** [l] begins with [p], whatever the case of the letters. *)
Definition has_prefix (p l : list Z) : Prop := map lower (take (length p) l) = map lower p.
#[export] Instance has_prefix_dec p l : Decision (has_prefix p l).
Proof. unfold has_prefix. apply _. Defined.

Lemma lower_zero c : 0 <= c -> lower c = 0 -> c = 0.
Proof. unfold lower. destruct (Z.leb_spec 65 c), (Z.leb_spec c 90); cbn [andb]; lia. Qed.

Lemma strncasecmp_prefix p l : Forall (fun c => 0 < c) p -> (strncasecmp p l (length p) =? 0) = bool_decide (has_prefix p l).
Proof.
  unfold has_prefix. revert l. induction p as [|c p IH]; intros l Hp; [done|]. apply Forall_cons in Hp as [Hc Hp]. cbn [length strncasecmp].
  rewrite (proj2 (Z.eqb_neq c 0)) by lia. cbn [orb]. destruct l as [|d l].
  - cbn [take map]. assert (lower c <> lower 0) as N by (intros E; apply lower_zero in E; lia).
    rewrite (proj2 (Z.eqb_neq _ _) N). cbn [negb]. rewrite bool_decide_eq_false_2 by done. apply Z.eqb_neq. lia.
  - destruct (Z.eqb_spec (lower c) (lower d)) as [E|N]; cbn [negb].
    + cbn [tail]. rewrite IH by done. cbn [take map]. apply bool_decide_ext. rewrite E. split; [by intros ->|]. intros H. by injection H.
    + rewrite bool_decide_eq_false_2 by (cbn [take map]; congruence). apply Z.eqb_neq. lia.
Qed.

Lemma look_loop_pieces p s fuel : Forall (fun c => 0 < c) p -> p <> [] -> nonzero s -> (length s < fuel)%nat ->
  look_loop fuel p s = Some (concat (filter (has_prefix p) (pieces (length s) (LOOKBUF - 1) s))).
Proof.
  intros Hp Hp0. remember (length s) as n eqn:Hn. assert (length s <= n)%nat as Hn' by lia. clear Hn. revert s fuel Hn'.
  induction n as [|n IH]; intros s fuel Hn Hz Hf; (destruct fuel as [|fuel]; [lia|]); (destruct s as [|c s]; [done|]); [cbn in Hn; lia|].
  cbn [look_loop fgets pieces]. pose proof (get_line_app (LOOKBUF - 1) (c :: s)) as E.
  pose proof (get_line_nonempty (LOOKBUF - 1) (c :: s) ltac:(unfold LOOKBUF; lia) ltac:(done)) as H.
  destruct (get_line (LOOKBUF - 1) (c :: s)) as [l r]. cbn [fst snd] in E, H. rewrite E in Hz. apply Forall_app in Hz as [Hzl Hzr].
  rewrite (proj2 (Nat.ltb_lt 0 (length p))) by (destruct p; [done|cbn; lia]). cbn [negb].
  rewrite (IH r) by (done || (cbn [length] in *; lia)). rewrite c_string_id, strncasecmp_prefix by done. cbn [option_map]. f_equal.
  rewrite filter_cons. case_bool_decide; [by rewrite decide_True|by rewrite decide_False].
Qed.

(** ** my-rev *)

Lemma swap_loop_ok fuel a m b : (length m <= fuel)%nat ->
  swap_loop fuel (a ++ m ++ b) (Z.of_nat (length a)) (Z.of_nat (length a) + Z.of_nat (length m) - 1) = a ++ rev m ++ b.
Proof.
  revert a m b. induction fuel as [|fuel IH]; intros a m b Hf; [by destruct m; [|cbn in Hf; lia]|].
  destruct m as [|x m]; [cbn [swap_loop]; rewrite (proj2 (Z.ltb_ge _ _)) by (cbn; lia); done|].
  destruct m as [|y m _] using rev_ind; [cbn [swap_loop]; rewrite (proj2 (Z.ltb_ge _ _)) by (cbn; lia); done|].
  cbn [swap_loop]. cbn [length] in Hf |- *. rewrite length_app in Hf |- *. cbn [length] in Hf |- *.
  rewrite (proj2 (Z.ltb_lt _ _)) by lia. rewrite Nat2Z.id.
  assert (Z.to_nat (Z.of_nat (length a) + Z.of_nat (S (length m + 1)) - 1) = length a + S (length m))%nat as -> by lia.
  assert (nth (length a) (a ++ (x :: m ++ [y]) ++ b) 0 = x) as -> by by rewrite app_nth2, Nat.sub_diag by lia.
  assert (nth (length a + S (length m)) (a ++ (x :: m ++ [y]) ++ b) 0 = y) as ->.
  { rewrite app_nth2 by lia. replace (length a + S (length m) - length a)%nat with (S (length m)) by lia. cbn [app nth].
    rewrite <- app_assoc, app_nth2, Nat.sub_diag by lia. done. }
  assert (<[length a := y]> (a ++ (x :: m ++ [y]) ++ b) = a ++ (y :: m ++ [y]) ++ b) as -> by (cbn [app]; apply insert_mid).
  assert (<[(length a + S (length m))%nat := x]> (a ++ (y :: m ++ [y]) ++ b) = (a ++ [y]) ++ m ++ [x] ++ b) as ->.
  { replace (a ++ (y :: m ++ [y]) ++ b) with ((a ++ y :: m) ++ y :: b) by (rewrite <- !app_assoc; cbn; by rewrite <- app_assoc).
    replace (length a + S (length m))%nat with (length (a ++ y :: m)) by (rewrite length_app; done). rewrite insert_mid, <- !app_assoc. done. }
  replace (Z.of_nat (length a) + 1) with (Z.of_nat (length (a ++ [y]))) by (rewrite length_app; cbn; lia).
  replace (Z.of_nat (length a) + Z.of_nat (S (length m + 1)) - 1 - 1) with (Z.of_nat (length (a ++ [y])) + Z.of_nat (length m) - 1) by (rewrite length_app; cbn; lia).
  rewrite IH by lia. cbn [rev]. rewrite rev_app_distr. cbn [rev app]. rewrite <- !app_assoc. done.
Qed.

(** A line turned round, its newline kept at the end. *)
Definition rev_line (l : list Z) : list Z := match rev l with c :: r => if c =? 10 then r ++ [10] else c :: r | [] => [] end.

Lemma rev_line_snoc a : rev_line (a ++ [10]) = rev a ++ [10].
Proof. unfold rev_line. by rewrite rev_app_distr. Qed.
Lemma rev_line_one l : one_line l -> rev_line l = rev l.
Proof.
  intros H. unfold rev_line. destruct (rev l) as [|c r] eqn:E; [done|]. rewrite (proj2 (Z.eqb_neq c 10)); [done|].
  apply Forall_rev in H. change (Forall (fun c => c <> 10) (rev l)) in H. rewrite E in H. by apply Forall_cons in H as [? _].
Qed.

Lemma reverse_string_ok l : l <> [] -> reverse_string l (length l) = rev_line l.
Proof.
  intros Hl. destruct l as [|c l _] using rev_ind; [done|]. unfold reverse_string.
  assert (nth (length (l ++ [c]) - 1) (l ++ [c]) 0 = c) as ->.
  { rewrite length_app. cbn [length]. rewrite app_nth2 by lia. by replace (length l + 1 - 1 - length l)%nat with 0%nat by lia. }
  unfold rev_line. rewrite rev_app_distr. cbn [rev app]. destruct (Z.eqb_spec c 10) as [->|N].
  - pose proof (swap_loop_ok (length (l ++ [10])) [] l [10]) as H. rewrite length_app in H |- *. cbn [length app] in H |- *.
    replace (Z.of_nat (length l + 1) - 2) with (Z.of_nat 0 + Z.of_nat (length l) - 1) by lia. apply H. lia.
  - pose proof (swap_loop_ok (length (l ++ [c])) [] (l ++ [c]) []) as H. cbn [app] in H. rewrite !app_nil_r, rev_app_distr in H.
    replace (Z.of_nat (length (l ++ [c])) - 1) with (Z.of_nat (length (@nil Z)) + Z.of_nat (length (l ++ [c])) - 1) by (cbn [length]; lia). apply H. lia.
Qed.

(** What a read of at most [n] bytes leaves [r] after. *)
Definition piece (n : nat) (l r : list Z) : Prop :=
  (exists a, l = a ++ [10] /\ one_line a /\ (length a < n)%nat) \/ (one_line l /\ length l = n) \/ (one_line l /\ (length l <= n)%nat /\ r = []).

Lemma get_line_piece n s : piece n (fst (get_line n s)) (snd (get_line n s)).
Proof.
  revert s. induction n as [|n IH]; intros s; [right; left; split; [constructor|done]|].
  destruct s as [|c s]; [right; right; split; [constructor|]; cbn; split; [lia|done]|]. cbn [get_line]. destruct (Z.eqb_spec c 10) as [->|N].
  - left. exists []. split; [done|]. split; [constructor|cbn; lia].
  - specialize (IH s). destruct (get_line n s) as [l r]. cbn [fst snd] in *. destruct IH as [(a & -> & Ha & Hn)|[[Hl Hn]|(Hl & Hn & ->)]].
    + left. exists (c :: a). split; [done|]. split; [by constructor|cbn; lia].
    + right. left. split; [by constructor|cbn; lia].
    + right. right. split; [by constructor|]. split; [cbn; lia|done].
Qed.
Lemma piece_get_line n l r : piece n l r -> get_line n (l ++ r) = (l, r).
Proof.
  intros [(a & -> & Ha & Hn)|[[Hl <-]|(Hl & Hn & ->)]].
  - rewrite <- app_assoc. by apply get_line_line.
  - clear -Hl. induction l as [|c l IH]; [done|]. apply Forall_cons in Hl as [Hc Hl]. cbn [length app get_line].
    rewrite (proj2 (Z.eqb_neq c 10)) by done. by rewrite IH.
  - rewrite app_nil_r. by apply get_line_rest.
Qed.
Lemma piece_rev n l r r' : piece n l r -> (r = [] -> r' = []) -> piece n (rev_line l) r' /\ rev_line (rev_line l) = l.
Proof.
  intros H Hr. assert (forall l, one_line l -> one_line (rev l)) as Ho by (intros ?; apply Forall_rev).
  destruct H as [(a & -> & Ha & Hn)|[[Hl Hn]|(Hl & Hn & ->)]].
  - rewrite rev_line_snoc. split; [left; exists (rev a); by rewrite length_rev; auto|]. by rewrite rev_line_snoc, rev_involutive.
  - rewrite (rev_line_one l) by done. split; [right; left; rewrite length_rev; auto|]. by rewrite rev_line_one, rev_involutive by auto.
  - rewrite (rev_line_one l) by done. split; [right; right; rewrite length_rev; auto|]. by rewrite rev_line_one, rev_involutive by auto.
Qed.
Lemma rev_line_length l : length (rev_line l) = length l.
Proof.
  unfold rev_line. rewrite <- (length_rev l). destruct (rev l) as [|c r]; [done|]. destruct (c =? 10); [|done]. rewrite length_app. cbn. lia.
Qed.
Lemma rev_line_nonzero l : nonzero l -> nonzero (rev_line l).
Proof.
  intros H. apply Forall_rev in H. change (nonzero (rev l)) in H. unfold rev_line. destruct (rev l) as [|c r]; [done|]. apply Forall_cons in H as [Hc H].
  destruct (c =? 10); [|by constructor]. apply Forall_app. split; [done|]. by repeat constructor.
Qed.

Lemma rev_loop_cons fuel s : s <> [] -> nonzero s ->
  rev_loop (S fuel) s = option_map (app (rev_line (fst (get_line (REVBUF - 1) s)))) (rev_loop fuel (snd (get_line (REVBUF - 1) s))).
Proof.
  intros Hs Hz. destruct s as [|c s]; [done|]. cbn [rev_loop fgets]. pose proof (get_line_app (REVBUF - 1) (c :: s)) as E.
  pose proof (get_line_nonempty (REVBUF - 1) (c :: s) ltac:(unfold REVBUF; lia) ltac:(done)) as H.
  destruct (get_line (REVBUF - 1) (c :: s)) as [l r]. cbn [fst snd] in *. rewrite E in Hz. apply Forall_app in Hz as [Hzl Hzr].
  assert (l <> []) as Hl by (intros ->; cbn [app] in E; rewrite <- E in H; lia).
  rewrite c_string_id, (proj2 (Nat.ltb_lt 0 (length l))), reverse_string_ok, c_string_id by (done || by apply rev_line_nonzero || (destruct l; [done|cbn; lia])). done.
Qed.

Lemma rev_loop_pieces n s fuel : (length s <= n)%nat -> nonzero s -> (length s < fuel)%nat ->
  exists t, rev_loop fuel s = Some t /\ nonzero t /\ length t = length s /\
  t = concat (map rev_line (pieces n (REVBUF - 1) s)) /\ (forall fuel', (length s < fuel')%nat -> rev_loop fuel' t = Some s).
Proof.
  revert s fuel. induction n as [|n IH]; intros s fuel Hn Hz Hf.
  { destruct s; [|cbn in Hn; lia]. exists []. destruct fuel as [|fuel]; [lia|]. repeat split; try done. intros [|fuel'] Hf'; [lia|done]. }
  destruct (decide (s = [])) as [->|Hs].
  { exists []. destruct fuel as [|fuel]; [lia|]. repeat split; try done. intros [|fuel'] Hf'; [lia|done]. }
  destruct fuel as [|fuel]; [lia|]. rewrite rev_loop_cons by done. pose proof (get_line_app (REVBUF - 1) s) as E.
  pose proof (get_line_nonempty (REVBUF - 1) s ltac:(unfold REVBUF; lia) Hs) as H.
  assert (pieces (S n) (REVBUF - 1) s = fst (get_line (REVBUF - 1) s) :: pieces n (REVBUF - 1) (snd (get_line (REVBUF - 1) s))) as ->.
  { destruct s; [done|]. cbn [pieces]. by destruct (get_line _ _). }
  pose proof (get_line_piece (REVBUF - 1) s) as Hp.
  set (l := fst (get_line (REVBUF - 1) s)) in *. set (r := snd (get_line (REVBUF - 1) s)) in *. clearbody l r. subst s.
  apply Forall_app in Hz as [Hzl Hzr]. rewrite length_app in *.
  destruct (IH r fuel) as (t & Et & Hzt & Hlt & Ec & Hback); [lia|done|lia|].
  exists (rev_line l ++ t). rewrite Et. split; [done|]. split; [apply Forall_app; split; [by apply rev_line_nonzero|done]|].
  split; [by rewrite length_app, rev_line_length, Hlt|]. split; [cbn [map concat]; by rewrite <- Ec|].
  intros fuel' Hf'. destruct fuel' as [|fuel']; [lia|].
  destruct (piece_rev (REVBUF - 1) l r t Hp) as [Hp' Hinv]; [intros ->; by destruct t|].
  assert (rev_line l <> []) as Hl by (intros E; apply (f_equal length) in E; rewrite rev_line_length in E; cbn in E; lia).
  rewrite rev_loop_cons; [|by destruct (rev_line l)|apply Forall_app; split; [by apply rev_line_nonzero|done]].
  rewrite (piece_get_line _ _ _ Hp'). cbn [fst snd]. rewrite Hinv, Hback by lia. done.
Qed.

(** ** wc *)

(** The words of a text: what is left between white space. *)
Definition is_space (c : Z) : bool := (32 =? c) || (13 =? c) || (9 =? c) || (10 =? c) || (11 =? c).
Fixpoint split_space (l : list Z) : list (list Z) :=
  match l with
  | [] => [[]]
  | c :: l' => if is_space c then [] :: split_space l' else match split_space l' with w :: ws => (c :: w) :: ws | [] => [[c]] end
  end.
Definition word_list (l : list Z) : list (list Z) := filter (fun w => w <> []) (split_space l).
Definition newlines (l : list Z) : nat := length (filter (fun c => c = 10) l).

Lemma strchr_wcspace b : exists q, strchr WCSPACE b = Some q /\ match q with Some _ => is_space b = true | None => is_space b = false end.
Proof.
  unfold is_space, WCSPACE. cbn [strchr].
  change (32 =? 0) with false. change (13 =? 0) with false. change (9 =? 0) with false. change (10 =? 0) with false. change (11 =? 0) with false. change (0 =? 0) with true.
  repeat match goal with |- context [?k =? b] => destruct (k =? b) end; by eexists.
Qed.

Lemma word_list_space c l : is_space c = true -> word_list (c :: l) = word_list l.
Proof. intros H. unfold word_list. cbn [split_space]. by rewrite H. Qed.
Lemma split_space_cons l : exists w ws, split_space l = w :: ws.
Proof.
  induction l as [|c l (w & ws & E)]; [by eexists _, _|]. cbn [split_space]. rewrite E. destruct (is_space c); by eexists _, _.
Qed.
(** Words from the middle of a text: one that begins at the start goes on if [b]. *)
Definition more_words (b : bool) (l : list Z) : nat :=
  match split_space l with w :: ws => length (filter (fun w => w <> []) ws) + (if b then 0 else if decide (w = []) then 0 else 1) | [] => 0 end.
Lemma more_words_false l : more_words false l = length (word_list l).
Proof.
  unfold more_words, word_list. destruct (split_space_cons l) as (w & ws & ->). rewrite filter_cons.
  destruct (decide (w = [])) as [->|N]; [rewrite decide_False by (intros H; by apply H); lia|]. rewrite decide_True by done. cbn. lia.
Qed.


(** [wc] counts a text, in whatever pieces. *)
Definition counted (t : list Z) (s s' : wcst) : Prop :=
  wc_l s' = wc_l s + Z.of_nat (newlines t) /\ wc_c s' = wc_c s + Z.of_nat (length t) /\
  forall u, wc_w s' + Z.of_nat (more_words (inword s') u) = wc_w s + Z.of_nat (more_words (inword s) (t ++ u)).
Definition room (t : list Z) (s : wcst) : Prop :=
  0 <= wc_l s /\ 0 <= wc_w s /\ wc_l s <= wc_c s /\ wc_w s <= wc_c s /\ wc_c s + Z.of_nat (length t) < 2 ^ 31.

Lemma wc_bytes_ok t s : room t s -> exists s', wc_bytes t s = Some s' /\ counted t s s' /\ room [] s'.
Proof.
  revert s. induction t as [|b t IH]; intros s (H1 & H2 & H3 & H4 & H5).
  { exists s. split; [done|]. split; [|by repeat split]. split; [cbn; lia|]. split; [cbn; lia|]. done. }
  cbn [length] in H5. cbn [wc_bytes]. destruct (strchr_wcspace b) as (q & -> & Hq). cbn [mbind option_bind].
  rewrite !s32_small by lia. set (l := if b =? 10 then wc_l s + 1 else wc_l s).
  assert (l = wc_l s + Z.of_nat (newlines (b :: t)) - Z.of_nat (newlines t)) as Hl.
  { unfold l, newlines. rewrite filter_cons. destruct (Z.eqb_spec b 10); [rewrite decide_True by done|rewrite decide_False by done]; cbn [length]; lia. }
  assert (0 <= l <= wc_c s + 1) as Hlb by (unfold l; destruct (b =? 10); lia).
  set (s1 := match q with Some _ => _ | None => _ end).
  assert (wc_l s1 = l /\ wc_c s1 = wc_c s + 1 /\ 0 <= wc_w s1 <= wc_c s + 1 /\ forall u, wc_w s1 + Z.of_nat (more_words (inword s1) u) = wc_w s + Z.of_nat (more_words (inword s) (b :: u))) as (E1 & E2 & E3 & E4).
  { unfold s1, more_words. destruct q as [d|]; [|destruct (inword s) eqn:Ei]; cbn [negb wc_l wc_c wc_w inword]; (split; [done|]); (split; [done|]); (split; [lia|]);
      intros u; cbn [split_space]; rewrite Hq, ?Ei; destruct (split_space_cons u) as (w & ws & ->).
    - rewrite filter_cons. destruct (decide (w = [])) as [->|N]; [rewrite decide_False by (intros H; by apply H)|rewrite decide_True by done];
        rewrite decide_True by done; destruct (inword s); cbn [length]; lia.
    - lia.
    - rewrite decide_False by done. lia. }
  destruct (IH s1) as (s' & E & (C1 & C2 & C3) & R); [unfold room; rewrite E1, E2; lia|].
  exists s'. split; [exact E|]. split; [|done]. split; [rewrite C1, E1; lia|]. split; [rewrite C2, E2; cbn [length]; lia|].
  intros u. cbn [app]. by rewrite C3, E4.
Qed.

Lemma read_concat n fd : (0 < n)%nat -> concat fd = fst (read n fd) ++ concat (snd (read n fd)) /\ (fst (read n fd) = [] -> concat fd = []).
Proof.
  intros Hn. induction fd as [|c fd IH]; [done|]. destruct c as [|x c]; [exact IH|]. cbn [read]. cbn [fst snd].
  destruct n as [|n]; [lia|]. split; [|done]. cbn [concat]. by rewrite app_assoc, take_drop.
Qed.

Lemma wc_loop_ok fuel fd s : room (concat fd) s -> (length (concat fd) < fuel)%nat -> exists s', wc_loop fuel fd s = Some s' /\ counted (concat fd) s s' /\ room [] s'.
Proof.
  revert fd s. induction fuel as [|fuel IH]; intros fd s Hr Hf; [lia|]. cbn [wc_loop].
  destruct (read_concat WCBUF fd) as [E H0]; [unfold WCBUF; lia|]. destruct (read WCBUF fd) as [buf fd']. cbn [fst snd] in E, H0.
  destruct buf as [|b buf].
  { rewrite H0 in Hr |- * by done. exists s. split; [done|]. split; [|done]. split; [cbn; lia|]. split; [cbn; lia|done]. }
  set (c := b :: buf) in *. rewrite E in Hr, Hf |- *. rewrite length_app in Hf. assert (0 < length c)%nat by (cbn; lia). clearbody c.
  destruct Hr as (R1 & R2 & R3 & R4 & R5). rewrite length_app in R5.
  destruct (wc_bytes_ok c s) as (s1 & -> & (C1 & C2 & C3) & (Q1 & Q2 & Q3 & Q4 & Q5)); [unfold room; lia|]. cbn [mbind option_bind].
  destruct (IH fd' s1) as (s' & E' & (D1 & D2 & D3) & R'); [unfold room; lia|lia|].
  exists s'. split; [exact E'|]. split; [|done]. split; [|split].
  - rewrite D1, C1. unfold newlines. rewrite filter_app, length_app. lia.
  - rewrite D2, C2, length_app. lia.
  - intros u. by rewrite D3, C3, app_assoc.
Qed.

(** ** The programs *)

Definition source (fopen : list Z -> option (list Z)) (stdin : list Z) (fname : option (list Z)) : option (list Z) :=
  match fname with Some f => fopen f | None => Some stdin end.

(** C27. my-look with one operand, a prefix that is not empty, prints the lines of its input, which has no zero bytes, that begin
    with the prefix in any case, and ends with status 0. It takes a line by pieces of 127
    bytes, each of which it treats as a line; when every line fits, the pieces are the lines. *)
Theorem my_look getopt fopen stdin (argv : list (list Z)) opts p fname input :
  argv <> [] -> getopt argv = (opts, [p]) -> look_opts opts None = inr fname -> source fopen stdin fname = Some input ->
  Forall (fun c => 0 < c) p -> p <> [] -> nonzero input ->
  look_main getopt fopen stdin argv = Some (concat (filter (has_prefix p) (pieces (length input) 127 input)), 0) /\
  concat (pieces (length input) 127 input) = input /\
  (fits 127 input -> pieces (length input) 127 input = lines_of input).
Proof.
  intros Ha Hg Ho Hs Hp Hp0 Hz. split; [|split; [apply concat_pieces; lia|apply pieces_lines; lia]].
  unfold look_main. destruct argv as [|a argv]; [done|]. rewrite Hg, Ho. unfold source in Hs. rewrite Hs.
  by rewrite (look_loop_pieces p input (S (length input)) Hp Hp0 Hz) by lia.
Qed.

Definition demo_getopt (operands : list (list Z)) : list (list Z) -> list (Z * list Z) * list (list Z) := fun _ => ([(102, bytes_of "words")], operands).
Definition demo_words (s : list Z) : list Z -> option (list Z) := fun f => if decide (f = bytes_of "words") then Some s else None.
Lemma my_look_witness : look_main (demo_getopt [bytes_of "aB"]) (demo_words (lines ["abc"; "cab"; "ABd"])) [] [bytes_of "my-look"] = Some (lines ["abc"; "ABd"], 0).
Proof.
  destruct (my_look (demo_getopt [bytes_of "aB"]) (demo_words (lines ["abc"; "cab"; "ABd"])) [] [bytes_of "my-look"]
    [(102, bytes_of "words")] (bytes_of "aB") (Some (bytes_of "words")) (lines ["abc"; "cab"; "ABd"])) as (E & _ & Hf).
  - discriminate.
  - reflexivity.
  - reflexivity.
  - vm_compute. reflexivity.
  - vm_compute. repeat constructor.
  - discriminate.
  - vm_compute. repeat constructor; discriminate.
  - rewrite E, Hf; [vm_compute; reflexivity|]. unfold fits. vm_compute. repeat constructor.
Defined.

(** C26. my-rev without operands, -V or -h writes its input, which has no zero bytes, with every line turned round and its
    newline in place, and ends with status 0; on its own output it gives the input back.
    It takes a line by pieces of 99 bytes and turns each round by itself; when every line
    fits, the pieces are the lines. *)
Theorem my_rev getopt fopen (argv : list (list Z)) opts fname stdin input :
  argv <> [] -> getopt argv = (opts, []) -> rev_opts opts None = inr fname -> source fopen stdin fname = Some input -> nonzero input ->
  exists t, rev_main getopt fopen stdin argv = Some (t, 0) /\ t = concat (map rev_line (pieces (length input) 99 input)) /\
  (fits 99 input -> t = concat (map rev_line (lines_of input))) /\
  (forall fopen' stdin', source fopen' stdin' fname = Some t -> rev_main getopt fopen' stdin' argv = Some (input, 0)).
Proof.
  intros Ha Hg Ho Hs Hz. destruct (rev_loop_pieces (length input) input (S (length input))) as (t & E & Hzt & Hl & Et & Hback); [lia|done|lia|].
  exists t. split; [|split; [exact Et|split]].
  - unfold rev_main. destruct argv as [|a argv]; [done|]. rewrite Hg, Ho. unfold source in Hs. by rewrite Hs, E.
  - intros Hf. rewrite Et. by rewrite pieces_lines by (done || (unfold REVBUF; lia)).
  - intros fopen' stdin' Hs'. unfold rev_main. destruct argv as [|a argv]; [done|]. rewrite Hg, Ho. unfold source in Hs'. rewrite Hs'. by rewrite Hback by lia.
Qed.

Lemma my_rev_witness : exists t, rev_main (demo_getopt []) (demo_words (lines ["xv6"; ""; "a kernel"])) [] [bytes_of "my-rev"] = Some (t, 0) /\
  t = lines ["6vx"; ""; "lenrek a"] /\ rev_main (demo_getopt []) (demo_words t) [] [bytes_of "my-rev"] = Some (lines ["xv6"; ""; "a kernel"], 0).
Proof.
  destruct (my_rev (demo_getopt []) (demo_words (lines ["xv6"; ""; "a kernel"])) [bytes_of "my-rev"] [(102, bytes_of "words")] (Some (bytes_of "words")) []
    (lines ["xv6"; ""; "a kernel"])) as (t & E & Et & _ & Hback).
  - discriminate.
  - reflexivity.
  - reflexivity.
  - vm_compute. reflexivity.
  - vm_compute. repeat constructor; discriminate.
  - exists t. split; [exact E|]. split; [rewrite Et; vm_compute; reflexivity|]. apply Hback. unfold source, demo_words. by rewrite decide_True.
Defined.

(** wc counts the newlines, the words and the bytes of its input, in whatever pieces
    the reads deliver it, as long as the counts fit an int: it ends after the last byte
    and prints the three numbers in decimal and the name. *)
Theorem wc_counts fuel (fd : list (list Z)) (name : list Z) : let t := concat fd in
  (length t < fuel)%nat -> Z.of_nat (length t) < 2 ^ 31 -> nonzero name ->
  exists l w c, wc fuel fd name = Some (l ++ [32] ++ w ++ [32] ++ c ++ [32] ++ name ++ [10]) /\
    canonical 10 l (Z.of_nat (newlines t)) /\ canonical 10 w (Z.of_nat (length (word_list t))) /\ canonical 10 c (Z.of_nat (length t)).
Proof.
  intros t Hf Hlen Hname. destruct (wc_loop_ok fuel fd (Wc 0 0 0 false)) as (s & E & (C1 & C2 & C3) & (R1 & R2 & R3 & R4 & R5)); [unfold room; cbn [wc_l wc_w wc_c]; fold t; lia|done|].
  fold t in C1, C2, C3. cbn [wc_l wc_w wc_c inword] in C1, C2, C3. specialize (C3 []). rewrite app_nil_r, more_words_false in C3.
  assert (more_words (inword s) [] = 0%nat) as H0 by (unfold more_words; cbn; by destruct (inword s)). rewrite H0 in C3. cbn [length] in R5.
  unfold wc. rewrite E. cbn [mbind option_bind].
  destruct (printf_pieces (fun a => nth (Z.to_nat (a - 1)) (name ++ [0]) 0) (S (length name))
    [Dec (u32 (wc_l s)); Text 32; Dec (u32 (wc_w s)); Text 32; Dec (u32 (wc_c s)); Text 32; Str 1 name; Text 10] [] []) as (os & Ho & Ep).
  - assert (is_u32 (u32 (wc_l s)) /\ is_u32 (u32 (wc_w s)) /\ is_u32 (u32 (wc_c s))) as (U1 & U2 & U3).
    { unfold is_u32, u32. repeat split; apply Z.mod_pos_bound; lia. }
    repeat (apply Forall_cons; split); [exact U1|split; lia|exact U2|split; lia|exact U3|split; lia| |split; lia|constructor].
    intros _. split; [|split; [|lia]].
    + intros i c Hi. split; [|by apply (Forall_lookup_1 _ _ _ _ Hname Hi)]. replace (Z.to_nat (1 + Z.of_nat i - 1)) with i by lia.
      rewrite app_nth1 by (by apply lookup_lt_Some in Hi). by apply nth_lookup_Some.
    + replace (Z.to_nat (1 + Z.of_nat (length name) - 1)) with (length name) by lia. by rewrite app_nth2, Nat.sub_diag by lia.
  - assert (forall x, 0 <= x < 2 ^ 31 -> s32 (u32 x) = x) as Hsu by (intros x Hx; unfold u32; rewrite (Z.mod_small x), s32_small; lia).
    apply Forall2_cons_inv_l in Ho as (o1 & os1 & (l & -> & Hl) & Ho & ->). apply Forall2_cons_inv_l in Ho as (o2 & os2 & -> & Ho & ->).
    apply Forall2_cons_inv_l in Ho as (o3 & os3 & (w & -> & Hw) & Ho & ->). apply Forall2_cons_inv_l in Ho as (o4 & os4 & -> & Ho & ->).
    apply Forall2_cons_inv_l in Ho as (o5 & os5 & (c & -> & Hc) & Ho & ->). apply Forall2_cons_inv_l in Ho as (o6 & os6 & -> & Ho & ->).
    apply Forall2_cons_inv_l in Ho as (o7 & os7 & -> & Ho & ->). apply Forall2_cons_inv_l in Ho as (o8 & os8 & -> & Ho & ->). apply Forall2_nil_inv_l in Ho as ->.
    rewrite !Hsu in * by lia. exists l, w, c. split; [|split; [|split]].
    + transitivity (printf (fun a => nth (Z.to_nat (a - 1)) (name ++ [0]) 0) (S (length name))
        (concat (map seg_fmt [Dec (u32 (wc_l s)); Text 32; Dec (u32 (wc_w s)); Text 32; Dec (u32 (wc_c s)); Text 32; Str 1 name; Text 10]) ++ [0])
        ([u32 (wc_l s); u32 (wc_w s); u32 (wc_c s); 1] ++ [])); [reflexivity|].
      cbn [map seg_args concat app] in Ep |- *. rewrite Ep. rewrite !(proj2 (Z.ltb_ge _ 0)) by lia. reflexivity.
    + by replace (Z.of_nat (newlines t)) with (Z.abs (wc_l s)) by lia.
    + by replace (Z.of_nat (length (word_list t))) with (Z.abs (wc_w s)) by lia.
    + by replace (Z.of_nat (length t)) with (Z.abs (wc_c s)) by lia.
Qed.
Lemma wc_counts_witness : exists l w c, wc 99 [bytes_of "two wo"; lines ["rds"; "x"]] (bytes_of "f") = Some (l ++ [32] ++ w ++ [32] ++ c ++ [32] ++ bytes_of "f" ++ [10]) /\
  canonical 10 l 2 /\ canonical 10 w 3 /\ canonical 10 c 12.
Proof.
  apply (wc_counts 99 [bytes_of "two wo"; lines ["rds"; "x"]] (bytes_of "f")).
  - vm_compute. lia.
  - vm_compute. reflexivity.
  - vm_compute. repeat constructor; discriminate.
Defined.
