(* ===== verification/Umalloc.v ===== *)
(** * The user allocator: p6/umalloc.c

    Blocks have a header of eight bytes, the next free block and the size in units of a
    header; the free blocks form a ring in the order of their addresses, through [base]. *)

From S2P Require Import Prelude.

Section umalloc.
(** The address of [base], and whether the kernel lets a process of a size grow by a
    number of bytes. *)
Context (BASE : Z) (grow : Z -> Z -> bool).

(** The memory of the process, [freep], and the size of the process. *)
Record ust := Ust { u_mem : memory; u_freep : Z; u_sz : Z }.
Definition HDR : Z := 8.
Definition h_ptr (p : Z) : M ust Z := gets (fun s => rd32 (u_mem s) p).
Definition h_size (p : Z) : M ust Z := gets (fun s => rd32 (u_mem s) (p + 4)).
Definition set_hptr (p v : Z) : M ust unit := modify (fun s => Ust (wr32 (u_mem s) p v) (u_freep s) (u_sz s)).
Definition set_hsize (p v : Z) : M ust unit := modify (fun s => Ust (wr32 (u_mem s) (p + 4) v) (u_freep s) (u_sz s)).
Definition set_freep (v : Z) : M ust unit := modify (fun s => Ust (u_mem s) v (u_sz s)).
(** [p + n] on header pointers. *)
Definition hplus (p n : Z) : Z := u32 (p + n * HDR).
(** The system call: the old size, or -1 as a pointer. *)
Definition sbrk (n : Z) : M ust Z :=
  sz ← gets u_sz;
  if grow sz n then modify (fun s => Ust (u_mem s) (u_freep s) (u32 (sz + n)));; mret sz else mret (u32 (-1)).

(** The loop of [free]: where [bp] goes in the ring. *)
Fixpoint free_loop (fuel : nat) (bp p : Z) : M ust Z :=
  match fuel with
  | O => hang
  | S fuel' =>
    n ← h_ptr p;
    if (p <? bp) && (bp <? n) then mret p
    else if (n <=? p) && ((p <? bp) || (bp <? n)) then mret p
    else free_loop fuel' bp n
  end.
(** The block [bp] takes over the successor of [p], or joins it. *)
Definition link_right (bp p : Z) : M ust unit :=
  n ← h_ptr p;
  sz ← h_size bp;
  if hplus bp sz =? n then
    nsz ← h_size n;
    set_hsize bp (u32 (sz + nsz));;
    nn ← h_ptr n;
    set_hptr bp nn
  else set_hptr bp n.
(** [p] gets the block [bp] as its successor, or joins it. *)
Definition link_left (bp p : Z) : M ust unit :=
  psz ← h_size p;
  if hplus p psz =? bp then
    sz ← h_size bp;
    set_hsize p (u32 (psz + sz));;
    n ← h_ptr bp;
    set_hptr p n
  else set_hptr p bp.
Definition free (fuel : nat) (ap : Z) : M ust unit :=
  let bp := u32 (ap - HDR) in
  p ← gets u_freep;
  p ← free_loop fuel bp p;
  link_right bp p;;
  link_left bp p;;
  set_freep p.

Definition morecore (fuel : nat) (nu : Z) : M ust Z :=
  let nu := if nu <? 4096 then 4096 else nu in
  p ← sbrk (s32 (u32 (nu * HDR)));
  if p =? u32 (-1) then mret 0 else
  set_hsize p nu;;
  free fuel (hplus p 1);;
  gets u_freep.

(** The loop of [malloc]. *)
Fixpoint malloc_loop (fuel : nat) (ffuel : nat) (nunits prevp p : Z) : M ust Z :=
  match fuel with
  | O => hang
  | S fuel' =>
    sz ← h_size p;
    if nunits <=? sz then
      (if sz =? nunits then n ← h_ptr p; set_hptr prevp n;; set_freep prevp;; mret (hplus p 1)
       else
         set_hsize p (u32 (sz - nunits));;
         sz ← h_size p;
         let p := hplus p sz in
         set_hsize p nunits;;
         set_freep prevp;;
         mret (hplus p 1))
    else
      f ← gets u_freep;
      if p =? f then
        p ← morecore ffuel nunits;
        if p =? 0 then mret 0 else n ← h_ptr p; malloc_loop fuel' ffuel nunits p n
      else n ← h_ptr p; malloc_loop fuel' ffuel nunits p n
  end.
Definition malloc (fuel : nat) (nbytes : Z) : M ust Z :=
  let nunits := u32 (u32 (nbytes + HDR - 1) / HDR + 1) in
  prevp ← gets u_freep;
  prevp ← (if prevp =? 0 then set_hptr BASE BASE;; set_freep BASE;; set_hsize BASE 0;; mret BASE else mret prevp);
  p ← h_ptr prevp;
  malloc_loop fuel fuel nunits prevp p.
End umalloc.

(** ** A run *)

Definition grow_below (sz n : Z) : bool := sz + n <? 2 ^ 31.
Definition start : ust := Ust ∅ 0 0x4000.
Example malloc_ex : exists s, malloc 0x2000 grow_below 9 100 start = Ok 0xBF98 s /\
  exists s', malloc 0x2000 grow_below 9 8 s = Ok 0xBF88 s' /\ exists s'', free 9 0xBF98 s' = Ok tt s'' /\ rd32 (u_mem s'') 0xBF90 = 0x2000.
Proof. eexists. split; [vm_compute; reflexivity|]. eexists. split; [vm_compute; reflexivity|]. eexists. split; vm_compute; reflexivity. Qed.
(** The size of the request wraps around: a header is returned for 4294967295 bytes. *)
Example malloc_wraps : exists s, malloc 0x2000 grow_below 9 (2 ^ 32 - 1) start = Ok 0xC000 s /\ u_sz s = 0xC000.
Proof. eexists. split; vm_compute; reflexivity. Qed.

(** ** Free lists *)

Notation blk := (Z * Z)%type.
(** The blocks [l] linked from [a], the last one to [b]. *)
Fixpoint seg (m : memory) (l : list blk) (a b : Z) : Prop :=
  match l with
  | [] => a = b
  | (x, s) :: l' => a = x /\ rd32 m (x + 4) = s /\ seg m l' (rd32 m x) b
  end.
(** Blocks above [lo] and up to [hi], in the order of their addresses and never adjacent. *)
Fixpoint spaced (lo : Z) (l : list blk) (hi : Z) : Prop :=
  match l with
  | [] => lo <= hi
  | (x, s) :: l' => lo < x /\ 1 <= s /\ spaced (x + 8 * s) l' hi
  end.
Definition in_blocks (l : list blk) (a : Z) : Prop := exists x s, (x, s) ∈ l /\ x <= a < x + 8 * s.

Lemma hseg_app m l1 l2 a b : seg m (l1 ++ l2) a b <-> exists c, seg m l1 a c /\ seg m l2 c b.
Proof.
  revert a. induction l1 as [|[x s] l1 IH]; intros a; cbn [app seg].
  - split; [by exists a|]. by intros (c & -> & ?).
  - rewrite IH. split; [intros (-> & E & c & ? & ?); by exists c|]. intros (c & (-> & E & ?) & ?). repeat split; try done. by exists c.
Qed.
Lemma seg_frame m m' l a b : (forall x s, (x, s) ∈ l -> rd32 m' x = rd32 m x /\ rd32 m' (x + 4) = rd32 m (x + 4)) -> seg m l a b -> seg m' l a b.
Proof.
  revert a. induction l as [|[x s] l IH]; intros a H; [done|]. cbn [seg]. intros (-> & E & Hs).
  destruct (H x s) as [E1 E2]; [by left|]. rewrite E1, E2. repeat split; [done|]. apply IH; [|done]. intros y t Hy. apply (H y t). by right.
Qed.
Lemma spaced_weaken lo lo' l hi : spaced lo l hi -> lo' <= lo -> spaced lo' l hi.
Proof. destruct l as [|[x s] l]; cbn [spaced]; [lia|]. intros (? & ? & ?) ?. repeat split; [lia|done..]. Qed.
Lemma spaced_raise lo l hi hi' : spaced lo l hi -> hi <= hi' -> spaced lo l hi'.
Proof. revert lo. induction l as [|[x s] l IH]; intros lo; cbn [spaced]; [lia|]. intros (? & ? & ?) ?. repeat split; [done..|]. by apply IH. Qed.
Lemma spaced_hi lo l hi : spaced lo l hi -> lo <= hi.
Proof. revert lo. induction l as [|[x s] l IH]; intros lo; cbn [spaced]; [done|]. intros (? & ? & H). apply IH in H. lia. Qed.
Lemma spaced_app lo l1 l2 hi : spaced lo (l1 ++ l2) hi <-> exists mid, spaced lo l1 mid /\ spaced mid l2 hi.
Proof.
  revert lo. induction l1 as [|[x s] l1 IH]; intros lo; cbn [app spaced].
  - split; [exists lo; split; [lia|done]|]. intros (mid & ? & H). by eapply spaced_weaken.
  - rewrite IH. split; [intros (? & ? & mid & ? & ?); by exists mid|]. intros (mid & (? & ? & ?) & ?). repeat split; try done. by exists mid.
Qed.
Lemma spaced_in lo l hi x s : spaced lo l hi -> (x, s) ∈ l -> lo < x /\ 1 <= s /\ x + 8 * s <= hi.
Proof.
  revert lo. induction l as [|[y t] l IH]; intros lo H Hin; [by apply elem_of_nil in Hin|]. cbn [spaced] in H. destruct H as (H1 & H2 & H3).
  apply elem_of_cons in Hin as [[= -> ->]|Hin]; [apply spaced_hi in H3; lia|]. destruct (IH _ H3 Hin). lia.
Qed.
Lemma in_blocks_app l1 l2 a : in_blocks (l1 ++ l2) a <-> in_blocks l1 a \/ in_blocks l2 a.
Proof.
  unfold in_blocks. split.
  - intros (x & s & [H|H]%elem_of_app & ?); [left|right]; eauto.
  - intros [(x & s & H & ?)|(x & s & H & ?)]; exists x, s; rewrite elem_of_app; auto.
Qed.
Lemma in_blocks_cons x s l a : in_blocks ((x, s) :: l) a <-> x <= a < x + 8 * s \/ in_blocks l a.
Proof.
  unfold in_blocks. split.
  - intros (y & t & [[= -> ->]|H]%elem_of_cons & ?); eauto 6.
  - intros [H|(y & t & H & ?)]; [exists x, s; rewrite elem_of_cons; auto|exists y, t; rewrite elem_of_cons; auto].
Qed.
(** A block that does not meet the free ones has a place among them. *)
Lemma place lo l hi bp n : spaced lo l hi -> 1 <= n -> (forall a, bp <= a < bp + 8 * n -> ~ in_blocks l a) ->
  exists l1 l2, l = l1 ++ l2 /\ (forall x s, (x, s) ∈ l1 -> x + 8 * s <= bp) /\ (forall x s, (x, s) ∈ l2 -> bp + 8 * n <= x).
Proof.
  intros Hs Hn. revert lo Hs. induction l as [|[x s] l IH]; intros lo Hs Hd.
  { exists [], []. split; [done|]. split; intros y t Hin; by apply elem_of_nil in Hin. }
  destruct Hs as (H1 & H2 & H3).
  destruct (IH _ H3) as (l1 & l2 & -> & Hl1 & Hl2); [intros a Ha Hin; apply (Hd a Ha); apply in_blocks_cons; auto|].
  destruct (decide (x + 8 * s <= bp)).
  - exists ((x, s) :: l1), l2. split; [done|]. split; [|done]. intros y t [[= -> ->]|?]%elem_of_cons; auto.
  - assert (bp + 8 * n <= x) as Hx.
    { destruct (decide (bp + 8 * n <= x)); [done|]. exfalso. apply (Hd (Z.max bp x)); [lia|]. apply in_blocks_cons. left. lia. }
    exists [], ((x, s) :: l1 ++ l2). split; [done|]. split; [intros ? ? Hin; by apply elem_of_nil in Hin|].
    intros y t [[= -> ->]|Hy]%elem_of_cons; [done|]. apply (spaced_in _ _ _ _ _ H3) in Hy. lia.
Qed.

Fixpoint last_addr (x : Z) (l : list blk) : Z := match l with [] => x | (y, _) :: l' => last_addr y l' end.
Lemma last_addr_app x l1 y s l2 : last_addr x (l1 ++ (y, s) :: l2) = last_addr y l2.
Proof. revert x. induction l1 as [|[z t] l1 IH]; intros x; cbn [app last_addr]; [done|apply IH]. Qed.
Lemma split_addr x (l : list blk) : x ∈ map fst l -> exists l1 s l2, l = l1 ++ (x, s) :: l2.
Proof.
  intros H. apply list_elem_of_fmap in H as ([y s] & -> & H). apply list_elem_of_split in H as (l1 & l2 & ->). by exists l1, s, l2.
Qed.
(** The first block of a list, or where it ends. *)
Definition next_addr (l : list blk) (b : Z) : Z := match l with [] => b | (y, _) :: _ => y end.
Lemma hseg_next m l a b : seg m l a b -> a = next_addr l b.
Proof. destruct l as [|[y s] l]; [done|]. by intros (? & _). Qed.

(** ** The place of a block in the ring *)

Lemma walk_low bp l : forall x s b hi fuel S, seg (u_mem S) ((x, s) :: l) x b -> spaced x l hi -> x < bp ->
  (forall y t, (y, t) ∈ l -> y < bp) -> (bp < b \/ b <= x) -> (length l < fuel)%nat -> free_loop fuel bp x S = Ok (last_addr x l) S.
Proof.
  induction l as [|[y t] l IH]; intros x s b hi fuel S Hseg Hsp Hx Hl Hb Hf; (destruct fuel as [|fuel]; [lia|]);
    cbn [free_loop]; unfold h_ptr; rewrite bind_gets; destruct Hseg as (_ & _ & Hseg).
  - cbn [seg] in Hseg. rewrite Hseg, (proj2 (Z.ltb_lt x bp)) by done. cbn [andb orb last_addr].
    destruct (Z.ltb_spec bp b); [done|]. rewrite (proj2 (Z.leb_le b x)) by lia. done.
  - pose proof (hseg_next _ _ _ _ Hseg) as E. cbn [next_addr] in E. rewrite E in *. destruct Hsp as (H1 & H2 & H3).
    specialize (Hl y t) as Hy. assert (y < bp) by (apply Hy; by left).
    rewrite (proj2 (Z.ltb_ge bp y)), (proj2 (Z.leb_gt y x)), andb_false_r by lia. cbn [andb last_addr].
    eapply IH; [exact Hseg|eapply spaced_weaken; [exact H3|lia]|lia| |lia|cbn in Hf; lia].
    intros z u Hz. apply (Hl z u). by right.
Qed.
Lemma walk_high bp l : forall x s b hi fuel S, seg (u_mem S) ((x, s) :: l) x b -> spaced x l hi -> bp < x -> b < bp ->
  free_loop (Datatypes.S (length l) + fuel) bp x S = free_loop fuel bp b S.
Proof.
  induction l as [|[y t] l IH]; intros x s b hi fuel S Hseg Hsp Hx Hb; cbn [length Nat.add free_loop]; unfold h_ptr; rewrite bind_gets;
    destruct Hseg as (_ & _ & Hseg); rewrite (proj2 (Z.ltb_ge x bp)) by lia; cbn [andb orb].
  - cbn [seg] in Hseg. rewrite Hseg, (proj2 (Z.ltb_ge bp b)), andb_false_r by lia. done.
  - pose proof (hseg_next _ _ _ _ Hseg) as E. cbn [next_addr] in E. rewrite E in *. destruct Hsp as (H1 & H2 & H3).
    rewrite (proj2 (Z.leb_gt y x)) by lia. cbn [andb].
    eapply (IH y t b hi fuel S); [exact Hseg|eapply spaced_weaken; [exact H3|lia]|lia|lia].
Qed.

Section ring.
Context (BASE : Z).
Definition ring (m : memory) (fs : list blk) : Prop := seg m ((BASE, 0) :: fs) BASE BASE.

Lemma free_place bp l1 l2 hi fuel S : ring (u_mem S) (l1 ++ l2) -> spaced (BASE + 7) (l1 ++ l2) hi -> BASE < bp ->
  (forall x s, (x, s) ∈ l1 -> x < bp) -> (forall x s, (x, s) ∈ l2 -> bp < x) -> u_freep S ∈ BASE :: map fst (l1 ++ l2) ->
  (length (l1 ++ l2) + 2 <= fuel)%nat -> free_loop fuel bp (u_freep S) S = Ok (last_addr BASE l1) S.
Proof.
  intros Hr Hsp Hb H1 H2 Hin Hf. unfold ring in Hr. change ((BASE, 0) :: l1 ++ l2) with (((BASE, 0) :: l1) ++ l2) in Hr.
  apply hseg_app in Hr as (c & Hs1 & Hs2). apply spaced_app in Hsp as (mid & Hp1 & Hp2). rewrite length_app in Hf.
  assert (bp < c \/ c <= BASE) as Hc.
  { rewrite (hseg_next _ _ _ _ Hs2). destruct l2 as [|[y t] l2]; [cbn; lia|]. left. apply (H2 y t). by left. }
  assert (forall f, (length l1 < f)%nat -> free_loop f bp BASE S = Ok (last_addr BASE l1) S) as Low.
  { intros f Hlf. eapply walk_low; [exact Hs1|eapply spaced_weaken; [exact Hp1|lia]|done|exact H1|exact Hc|done]. }
  apply elem_of_cons in Hin as [->|Hin]; [apply Low; lia|]. rewrite map_app in Hin. apply elem_of_app in Hin as [Hin|Hin].
  - apply split_addr in Hin as (a & s & b & E). rewrite E, last_addr_app. rewrite E in Hs1, Hp1.
    change ((BASE, 0) :: a ++ (u_freep S, s) :: b) with (((BASE, 0) :: a) ++ (u_freep S, s) :: b) in Hs1.
    apply hseg_app in Hs1 as (d & _ & Hs1). pose proof Hs1 as [-> _]. pose proof Hp1 as Hp1'. apply spaced_app in Hp1 as (mid' & _ & Hp1). destruct Hp1 as (P1 & P2 & P3).
    assert (BASE + 7 < u_freep S) by (eapply spaced_in; [exact Hp1'|rewrite elem_of_app; right; by left]).
    eapply walk_low; [exact Hs1|eapply spaced_weaken; [exact P3|lia]| | |lia|].
    + apply (H1 _ s). rewrite E. apply elem_of_app. right. by left.
    + intros y t Hy. apply (H1 y t). rewrite E. apply elem_of_app. right. by right.
    + apply (f_equal length) in E. rewrite length_app in E. cbn in E. lia.
  - apply split_addr in Hin as (a & s & b & E). rewrite E in Hs2, Hp2. apply hseg_app in Hs2 as (d & _ & Hs2). pose proof Hs2 as [-> _].
    apply spaced_app in Hp2 as (mid' & _ & Hp2). destruct Hp2 as (P1 & P2 & P3).
    pose proof (f_equal length E) as El. rewrite length_app in El. cbn [length] in El.
    replace fuel with (Datatypes.S (length b) + (fuel - Datatypes.S (length b)))%nat by lia.
    rewrite (walk_high bp b (u_freep S) s BASE hi) by first [exact Hs2|eapply spaced_weaken; [exact P3|lia]|lia|apply (H2 _ s); rewrite E; apply elem_of_app; right; by left].
    apply Low. lia.
Qed.

(** [m'] is [m] but for the header at [h]. *)
Definition but_header (h : Z) (m m' : memory) : Prop := forall a, ~ h <= a < h + 8 -> rd8 m' a = rd8 m a.
Lemma but_header_wr h m v : but_header h m (wr32 m h v).
Proof. intros a Ha. apply rd8_wr32_ne. lia. Qed.
Lemma but_header_wr4 h m v : but_header h m (wr32 m (h + 4) v).
Proof. intros a Ha. apply rd8_wr32_ne. lia. Qed.
Lemma but_header_trans h m1 m2 m3 : but_header h m1 m2 -> but_header h m2 m3 -> but_header h m1 m3.
Proof. intros H1 H2 a Ha. by rewrite H2, H1. Qed.
Lemma but_header_rd32 h m m' x : but_header h m m' -> x + 4 <= h \/ h + 8 <= x -> rd32 m' x = rd32 m x.
Proof. intros H Hx. apply rd32_ext. intros a Ha. apply H. lia. Qed.
Lemma seg_but_header h m m' l a b : but_header h m m' -> (forall x s, (x, s) ∈ l -> x + 8 <= h \/ h + 8 <= x) -> seg m l a b -> seg m' l a b.
Proof.
  intros H Hl. apply seg_frame. intros x s Hx. specialize (Hl x s Hx). split; apply (but_header_rd32 h); by (done || lia).
Qed.

Lemma link_right_ok S bp q n l2 hi : rd32 (u_mem S) (bp + 4) = n -> seg (u_mem S) l2 (rd32 (u_mem S) q) BASE -> 1 <= n ->
  0 <= BASE -> BASE + 8 <= bp -> hi < 2 ^ 32 -> bp + 8 * n <= hi -> spaced (bp + 8 * n - 1) l2 hi ->
  exists m n' l2', link_right bp q S = Ok tt (Ust m (u_freep S) (u_sz S)) /\ but_header bp (u_mem S) m /\
    rd32 m (bp + 4) = n' /\ seg m l2' (rd32 m bp) BASE /\ spaced (bp + 8 * n') l2' hi /\ n <= n' /\
    (forall a, in_blocks ((bp, n') :: l2') a <-> bp <= a < bp + 8 * n \/ in_blocks l2 a) /\ (length l2' <= length l2)%nat.
Proof.
  intros Hn Hseg H1 HB Hbp Hhi Hend Hsp. unfold link_right, h_ptr, h_size, set_hptr, set_hsize. rewrite !bind_gets, Hn.
  unfold hplus, HDR. rewrite u32_small by (unfold is_u32; lia). pose proof (hseg_next _ _ _ _ Hseg) as Ec.
  destruct (Z.eqb_spec (bp + n * 8) (rd32 (u_mem S) q)) as [E|N].
  - destruct l2 as [|[y t] l2]; [cbn in Ec; lia|]. cbn in Ec. rewrite Ec in *. destruct Hsp as (P1 & P2 & P3). destruct Hseg as (_ & Et & Hseg).
    pose proof (spaced_hi _ _ _ P3). rewrite bind_gets, Et, bind_modify, bind_gets. cbn [u_mem].
    rewrite (rd32_wr32_ne _ _ _ y) by lia. rewrite (u32_small (n + t)) by (unfold is_u32; lia).
    set (m := wr32 (wr32 (u_mem S) (bp + 4) (n + t)) bp (rd32 (u_mem S) y)).
    assert (but_header bp (u_mem S) m) as Hm by (eapply but_header_trans; [apply but_header_wr4|apply but_header_wr]).
    assert (rd32 m (bp + 4) = n + t) as Em by (unfold m; rewrite rd32_wr32_ne, rd32_wr32_eq by (unfold is_u32; lia); done).
    assert (is_u32 (rd32 (u_mem S) y)) as Hu.
    { rewrite (hseg_next _ _ _ _ Hseg). destruct l2 as [|[z u] l2]; cbn [next_addr]; unfold is_u32; [lia|]. destruct P3 as (? & ? & P3). apply spaced_hi in P3. lia. }
    exists m, (n + t), l2. split; [done|]. split; [done|]. split; [done|]. split; [|split; [|split; [lia|split; [|cbn; lia]]]].
    + unfold m at 2. rewrite rd32_wr32_eq by done. eapply seg_but_header; [exact Hm| |exact Hseg].
      intros x s Hx. apply (spaced_in _ _ _ _ _ P3) in Hx. lia.
    + eapply spaced_weaken; [exact P3|lia].
    + intros a. rewrite !in_blocks_cons. split; [intros [?|?]|intros [?|[?|?]]]; try tauto; try lia.
  - set (m := wr32 (u_mem S) bp (rd32 (u_mem S) q)). assert (but_header bp (u_mem S) m) as Hm by apply but_header_wr.
    assert (is_u32 (rd32 (u_mem S) q)) as Hu.
    { rewrite Ec. destruct l2 as [|[z u] l2]; cbn [next_addr]; unfold is_u32; [lia|]. destruct Hsp as (? & ? & P3). apply spaced_hi in P3. lia. }
    exists m, n, l2. split; [done|]. split; [done|]. split; [unfold m; by rewrite rd32_wr32_ne by lia|]. split; [|split; [|split; [done|split; [|done]]]].
    + unfold m at 2. rewrite rd32_wr32_eq by done. eapply seg_but_header; [exact Hm| |exact Hseg].
      intros x s Hx. apply (spaced_in _ _ _ _ _ Hsp) in Hx. lia.
    + destruct l2 as [|[y t] l2]; cbn [spaced] in *; [lia|]. cbn in Ec. destruct Hsp as (P1 & P2 & P3). repeat split; [lia|done|done].
    + intros a. by rewrite in_blocks_cons.
Qed.

Lemma link_left_ok S bp q qs n l2 hi : rd32 (u_mem S) (bp + 4) = n -> rd32 (u_mem S) (q + 4) = qs -> seg (u_mem S) l2 (rd32 (u_mem S) bp) BASE ->
  0 <= q -> 0 <= BASE -> q + 8 <= bp -> 0 <= qs -> q + 8 * qs <= bp -> 1 <= n -> BASE + 8 <= bp -> hi < 2 ^ 32 -> spaced (bp + 8 * n) l2 hi ->
  exists m X, link_left bp q S = Ok tt (Ust m (u_freep S) (u_sz S)) /\ but_header q (u_mem S) m /\ seg m X q BASE /\
    (X = (q, qs + n) :: l2 /\ q + 8 * qs = bp \/ X = (q, qs) :: (bp, n) :: l2 /\ q + 8 * qs < bp).
Proof.
  intros Hn Hqs Hseg Hq HB Hqb H0 Hend H1 Hbp Hhi Hsp. unfold link_left, h_ptr, h_size, set_hptr, set_hsize. rewrite bind_gets, Hqs.
  pose proof (spaced_hi _ _ _ Hsp). unfold hplus, HDR. rewrite u32_small by (unfold is_u32; lia).
  assert (is_u32 (rd32 (u_mem S) bp)) as Hu.
  { rewrite (hseg_next _ _ _ _ Hseg). destruct l2 as [|[z u] l2]; cbn [next_addr]; unfold is_u32; [lia|]. destruct Hsp as (? & ? & P3). apply spaced_hi in P3. lia. }
  assert (forall m, but_header q (u_mem S) m -> seg m l2 (rd32 (u_mem S) bp) BASE) as Hl2.
  { intros m Hm. eapply seg_but_header; [exact Hm| |exact Hseg]. intros x s Hx. apply (spaced_in _ _ _ _ _ Hsp) in Hx. lia. }
  destruct (Z.eqb_spec (q + qs * 8) bp) as [E|N].
  - rewrite bind_gets, Hn, bind_modify, bind_gets. cbn [u_mem]. rewrite (rd32_wr32_ne _ _ _ bp) by lia.
    rewrite (u32_small (qs + n)) by (unfold is_u32; lia). set (m := wr32 (wr32 (u_mem S) (q + 4) (qs + n)) q (rd32 (u_mem S) bp)).
    assert (but_header q (u_mem S) m) as Hm by (eapply but_header_trans; [apply but_header_wr4|apply but_header_wr]).
    exists m, ((q, qs + n) :: l2). split; [done|]. split; [done|]. split; [|left; split; [done|lia]]. split; [done|].
    split; [unfold m; rewrite rd32_wr32_ne, rd32_wr32_eq by (unfold is_u32; lia); done|]. unfold m at 2. rewrite rd32_wr32_eq by done. by apply Hl2.
  - set (m := wr32 (u_mem S) q bp). assert (but_header q (u_mem S) m) as Hm by apply but_header_wr.
    exists m, ((q, qs) :: (bp, n) :: l2). split; [done|]. split; [done|]. split; [|right; split; [done|lia]]. split; [done|].
    split; [unfold m; by rewrite rd32_wr32_ne by lia|]. unfold m at 2. rewrite rd32_wr32_eq by (unfold is_u32; lia). split; [done|].
    rewrite !(but_header_rd32 q (u_mem S) m) by (done || lia). split; [done|]. by apply Hl2.
Qed.

Lemma last_block l : l = [] \/ exists l0 qs, l = l0 ++ [(last_addr BASE l, qs)].
Proof. destruct l as [|[q qs] l0 _] using rev_ind; [by left|]. right. exists l0, qs. by rewrite last_addr_app. Qed.

(** The block before a place, and what comes before it. *)
Lemma before_block l hi p : spaced (BASE + 7) l hi -> BASE + 8 <= p -> (forall x s, (x, s) ∈ l -> x + 8 * s <= p) -> let q := last_addr BASE l in
  exists l0 qs, (BASE, 0) :: l = l0 ++ [(q, qs)] /\ q + 8 <= p /\ BASE <= q /\ 0 <= qs /\ q + 8 * qs <= p /\
    (forall x s, (x, s) ∈ l0 -> x + 8 <= q) /\ (l0 = [] /\ q = BASE /\ qs = 0 \/ exists l0', l0 = (BASE, 0) :: l0' /\ l = l0' ++ [(q, qs)] /\ 1 <= qs).
Proof.
  intros Hsp Hp Hl q. destruct (last_block l) as [E|(l0 & qs & E)].
  - exists [], 0. unfold q. rewrite E. cbn [last_addr]. repeat split; try lia; [intros ? ? Hx; by apply elem_of_nil in Hx|by left].
  - fold q in E. assert ((q, qs) ∈ l) as Hq by (rewrite E; apply elem_of_app; right; by left).
    pose proof (spaced_in _ _ _ _ _ Hsp Hq). specialize (Hl _ _ Hq). exists ((BASE, 0) :: l0), qs.
    repeat split; try lia; [by rewrite E| |right; exists l0; auto with lia].
    rewrite E in Hsp. apply spaced_app in Hsp as (mid & R1 & R2 & _).
    intros x s [[= -> ->]|Hx]%elem_of_cons; [lia|]. apply (spaced_in _ _ _ _ _ R1) in Hx. lia.
Qed.

(** What a free list promises of its memory. *)
Definition free_list (S : ust) (fs : list blk) : Prop :=
  ring (u_mem S) fs /\ spaced (BASE + 7) fs (u_sz S) /\ u_freep S ∈ BASE :: map fst fs.

Lemma free_ok S fs bp n fuel : 0 <= BASE -> u_sz S < 2 ^ 32 -> free_list S fs ->
  rd32 (u_mem S) (bp + 4) = n -> 1 <= n -> BASE + 8 <= bp -> bp + 8 * n <= u_sz S -> (forall a, bp <= a < bp + 8 * n -> ~ in_blocks fs a) ->
  (length fs + 2 <= fuel)%nat ->
  exists S' fs', free fuel (bp + 8) S = Ok tt S' /\ u_sz S' = u_sz S /\ free_list S' fs' /\
    (forall a, in_blocks fs' a <-> bp <= a < bp + 8 * n \/ in_blocks fs a) /\
    (forall a, ~ BASE <= a < BASE + 8 -> ~ in_blocks fs' a -> rd8 (u_mem S') a = rd8 (u_mem S) a) /\
    (length fs' <= Datatypes.S (length fs))%nat /\ (exists x s, (x, s) ∈ fs' /\ n <= s).
Proof.
  intros HB Hhi (Hr & Hsp & Hin) Hn H1 Hbp Hend Hd Hf.
  destruct (place _ _ _ bp n Hsp H1 Hd) as (l1 & l2 & -> & Hl1 & Hl2).
  pose proof (free_place bp l1 l2 _ fuel S Hr Hsp ltac:(lia)) as Hw. assert (forall x s, (x, s) ∈ l1 -> x < bp) as Hl1'.
  { intros x s Hx. destruct (spaced_in _ _ _ x s Hsp); [apply elem_of_app; by left|]. specialize (Hl1 x s Hx). lia. }
  specialize (Hw Hl1').
  specialize (Hw ltac:(intros x s Hx; specialize (Hl2 x s Hx); lia) Hin Hf).
  unfold ring in Hr. change ((BASE, 0) :: l1 ++ l2) with (((BASE, 0) :: l1) ++ l2) in Hr. apply hseg_app in Hr as (c & Hs1 & Hs2).
  apply spaced_app in Hsp as (mid & Q1 & Q2).
  destruct (before_block l1 mid bp Q1 Hbp Hl1) as (l0 & qs & E0 & A1 & A2 & A3 & A4 & A5 & A6). set (q := last_addr BASE l1) in *.
  clearbody q. rewrite E0 in Hs1. apply hseg_app in Hs1 as (d & Hs0 & Hsq). destruct Hsq as (-> & Eqs & Ec). cbn [seg] in Ec. subst c.
  unfold free. cbv zeta. replace (u32 (bp + 8 - HDR)) with bp by (unfold HDR; rewrite u32_small; unfold is_u32; lia).
  rewrite bind_gets, (bind_Ok _ _ _ _ _ Hw).
  destruct (link_right_ok S bp q n l2 (u_sz S) Hn Hs2) as (m1 & n' & l2' & E1 & F1 & N1 & G1 & P1 & Hn' & B1 & L1); try done.
  { clear -Q2 Hl2 Hend. destruct l2 as [|[y t] l2]; cbn [spaced] in *; [lia|]. destruct Q2 as (? & ? & ?). repeat split; try done. specialize (Hl2 y t ltac:(by left)). lia. }
  rewrite (bind_Ok _ _ _ _ _ E1).
  destruct (link_left_ok (Ust m1 (u_freep S) (u_sz S)) bp q qs n' l2' (u_sz S)) as (m2 & X & E2 & F2 & G2 & HX); cbn [u_mem]; try (done || lia).
  { rewrite <- Eqs. apply (but_header_rd32 bp); [done|lia]. }
  rewrite (bind_Ok _ _ _ _ _ E2).
  exists (Ust m2 q (u_sz S)).
  assert (exists fs', (BASE, 0) :: fs' = l0 ++ X) as (fs' & Efs).
  { destruct A6 as [(-> & Eq & Eqs0)|(l0' & -> & _)]; [|by eexists]. destruct HX as [[-> Hx]|[-> Hx]]; [lia|]. rewrite Eq, Eqs0. by eexists. }
  exists fs'. split; [done|]. split; [done|].
  assert (forall a, in_blocks X a <-> q <= a < q + 8 * qs \/ in_blocks ((bp, n') :: l2') a) as HXb.
  { intros a. destruct HX as [[-> Hx]|[-> Hx]]; rewrite !in_blocks_cons; [|done].
    assert (q <= a < q + 8 * (qs + n') <-> q <= a < q + 8 * qs \/ bp <= a < bp + 8 * n') as -> by (clear -Hx Hn' H1 A3; lia). clear. tauto. }
  assert (forall a, in_blocks fs' a <-> bp <= a < bp + 8 * n \/ in_blocks (l1 ++ l2) a) as Hbytes.
  { intros a. assert (in_blocks ((BASE, 0) :: fs') a <-> in_blocks l0 a \/ in_blocks X a) as HW by by rewrite Efs, in_blocks_app.
    assert (in_blocks ((BASE, 0) :: l1) a <-> in_blocks l0 a \/ q <= a < q + 8 * qs) as HV.
    { rewrite E0, in_blocks_app, in_blocks_cons. assert (~ in_blocks [] a) as H by (intros (x & s & Hx & _); by apply elem_of_nil in Hx). clear -H. tauto. }
    assert (~ BASE <= a < BASE + 8 * 0) as H by lia. rewrite in_blocks_cons in HW, HV. rewrite in_blocks_app. rewrite HXb, B1 in HW. clear -H HW HV. tauto. }
  assert (exists X', X = X' ++ (if decide (q + 8 * qs = bp) then [] else [(bp, n')]) ++ l2' /\ exists s, X' = [(q, s)] /\ qs <= s /\ (q + 8 * qs = bp -> s = qs + n')) as (X' & EX & sX & -> & HsX & HsX').
  { destruct HX as [[-> Hx]|[-> Hx]]; [rewrite decide_True by done; exists [(q, qs + n')]|rewrite decide_False by lia; exists [(q, qs)]];
      (split; [done|]); eexists; (split; [reflexivity|]); lia. }
  split; [|split; [exact Hbytes|split; [|split]]].
  - split; [|split].
    + unfold ring. cbn [u_mem]. rewrite Efs. apply hseg_app. exists q. split; [|exact G2].
      eapply (seg_but_header q); [exact F2|intros x s Hx; specialize (A5 x s Hx); lia|].
      eapply (seg_but_header bp); [exact F1|intros x s Hx; specialize (A5 x s Hx); lia|done].
    + destruct A6 as [(-> & Eq & Eqs0)|(l0' & -> & El1 & Hqs)].
      * destruct HX as [[-> Hx]|[-> Hx]]; [lia|]. injection Efs as _ _ ->. cbn [spaced]. repeat split; [lia|lia|done].
      * injection Efs as ->. rewrite El1 in Q1. apply spaced_app in Q1 as (mid' & R1 & R2 & _). cbn [u_sz]. apply spaced_app. exists mid'. split; [done|].
        destruct HX as [[-> Hx]|[-> Hx]]; cbn [spaced]; repeat split; try lia; try done. by replace (q + 8 * (qs + n')) with (bp + 8 * n') by lia.
    + cbn [u_freep]. change (BASE :: map fst fs') with (map fst ((BASE, 0) :: fs')). rewrite Efs, EX, map_app. apply elem_of_app. right. by left.
  - intros a Ha Hna. cbn [u_mem]. assert (~ bp <= a < bp + 8 * n /\ ~ q <= a < q + 8 * qs) as [N1' N2'].
    { split; intros Hx; apply Hna, Hbytes; [by left|]. right. apply in_blocks_app. left.
      destruct A6 as [(_ & _ & ->)|(l0' & _ & -> & _)]; [lia|]. apply in_blocks_app. right. apply in_blocks_cons. by left. }
    rewrite F2; [apply F1; lia|]. destruct A6 as [(_ & -> & ->)|(l0' & _ & _ & Hqs)]; lia.
  - apply (f_equal length) in Efs, E0. rewrite length_app in Efs, E0. rewrite EX in Efs. cbn [length] in Efs, E0. rewrite length_app in Efs |- *. cbn [length] in Efs.
    rewrite length_app in Efs. destruct (decide _) in Efs; cbn [length] in Efs; lia.
  - destruct HX as [[-> Hx]|[-> Hx]].
    + exists q, (qs + n'). split; [|lia]. destruct A6 as [(-> & Eq & Eqs0)|(l0' & -> & _)]; [lia|]. injection Efs as ->. apply elem_of_app. right. by left.
    + exists bp, n'. split; [|done]. destruct A6 as [(-> & Eq & Eqs0)|(l0' & -> & _)].
      * assert (fs' = (bp, n') :: l2') as -> by (cbn [app] in Efs; congruence). by left.
      * injection Efs as ->. apply elem_of_app. right. right. by left.
Qed.

(** ** The search of malloc *)

Context (grow : Z -> Z -> bool).
Notation mloop := (malloc_loop grow).
Definition short (n : Z) (l : list blk) : Prop := Forall (fun b => b.2 < n) l.

Lemma first_fit n (l : list blk) : short n l \/ exists l1 p s l2, l = l1 ++ (p, s) :: l2 /\ short n l1 /\ n <= s.
Proof.
  induction l as [|[x s] l IH]; [left; constructor|]. destruct (decide (s < n)).
  - destruct IH as [H|(l1 & p & t & l2 & -> & H & ?)]; [left; by constructor|]. right. exists ((x, s) :: l1), p, t, l2. repeat split; [by constructor|done].
  - right. exists [], x, s, l. repeat split; [constructor|lia].
Qed.

Lemma pass F n k l : forall x s b S, seg (u_mem S) ((x, s) :: l) x b -> short n l -> u_freep S ∉ map fst l ->
  mloop (length l + k) F n x (rd32 (u_mem S) x) S = mloop k F n (last_addr x l) b S.
Proof.
  induction l as [|[y t] l IH]; intros x s b S Hseg Hsh Hf; destruct Hseg as (_ & _ & Hseg).
  - cbn [seg] in Hseg. by rewrite Hseg.
  - pose proof Hseg as (Ey & Et & _). rewrite Ey in *. apply Forall_cons in Hsh as [H1 H2]. cbn [snd] in H1. apply not_elem_of_cons in Hf as [F1 F2]. cbn [fst] in F1.
    cbn [length Nat.add malloc_loop]. unfold h_size, h_ptr. rewrite bind_gets, Et, (proj2 (Z.leb_gt n t)) by lia. rewrite bind_gets.
    rewrite (proj2 (Z.eqb_neq y (u_freep S))) by done. rewrite bind_gets. cbn [last_addr]. by apply (IH y t b).
Qed.
(** The loop is not over when it passes the block [x], which has no room. *)
Lemma pass_one F n k q x S : rd32 (u_mem S) (x + 4) < n -> x <> u_freep S ->
  mloop (Datatypes.S k) F n q x S = mloop k F n x (rd32 (u_mem S) x) S.
Proof.
  intros H N. cbn [malloc_loop]. unfold h_size, h_ptr. rewrite bind_gets, (proj2 (Z.leb_gt _ _)) by lia. rewrite bind_gets.
  by rewrite (proj2 (Z.eqb_neq x (u_freep S))) by done.
Qed.

(** The turn that has come round to [freep]. *)
Lemma full_turn F n k q S : rd32 (u_mem S) (u_freep S + 4) < n ->
  mloop (Datatypes.S k) F n q (u_freep S) S = (p ← morecore grow F n; if p =? 0 then mret 0 else n0 ← h_ptr p; mloop k F n p n0) S.
Proof.
  intros H. cbn [malloc_loop]. unfold h_size, h_ptr. rewrite bind_gets, (proj2 (Z.leb_gt _ _)) by lia. rewrite bind_gets. by rewrite Z.eqb_refl.
Qed.

Lemma spaced_nodup lo l1 x s l2 hi : spaced lo (l1 ++ (x, s) :: l2) hi -> x ∉ map fst l1 /\ x ∉ map fst l2.
Proof.
  intros H. apply spaced_app in H as (mid & H1 & H2 & H3 & H4). split; intros Hx; apply split_addr in Hx as (a & t & b & ->).
  - assert ((x, t) ∈ a ++ (x, t) :: b) as Hin by (apply elem_of_app; right; by left). apply (spaced_in _ _ _ _ _ H1) in Hin. lia.
  - assert ((x, t) ∈ a ++ (x, t) :: b) as Hin by (apply elem_of_app; right; by left). apply (spaced_in _ _ _ _ _ H4) in Hin. lia.
Qed.

Lemma find_ok F n j S fs : free_list S fs -> 1 <= n ->
  (exists F1 p s F2 k, fs = F1 ++ (p, s) :: F2 /\ n <= s /\ (j <= k)%nat /\
     mloop (length fs + 2 + j) F n (u_freep S) (rd32 (u_mem S) (u_freep S)) S = mloop (Datatypes.S k) F n (last_addr BASE F1) p S) \/
  (short n fs /\ exists k q, (j <= k)%nat /\
     mloop (length fs + 2 + j) F n (u_freep S) (rd32 (u_mem S) (u_freep S)) S = mloop (Datatypes.S k) F n q (u_freep S) S).
Proof.
  intros (Hr & Hsp & Hin) Hn. unfold ring in Hr. pose proof Hr as (_ & Ebase & _).
  assert (BASE ∉ map fst fs) as HnB.
  { intros Hx. apply split_addr in Hx as (a & t & b & ->). assert ((BASE, t) ∈ a ++ (BASE, t) :: b) as Hx by (apply elem_of_app; right; by left).
    apply (spaced_in _ _ _ _ _ Hsp) in Hx. lia. }
  (* along the blocks after [BASE], as far as the address [f] is not met *)
  assert (forall l l' k, fs = l ++ l' -> short n l -> u_freep S ∉ map fst l ->
    mloop (length l + k) F n BASE (rd32 (u_mem S) BASE) S = mloop k F n (last_addr BASE l) (next_addr l' BASE) S) as Low.
  { intros l l' k -> Hsh Hf. change ((BASE, 0) :: l ++ l') with (((BASE, 0) :: l) ++ l') in Hr. apply hseg_app in Hr as (c & H1 & H2).
    rewrite (pass F n k l BASE 0 c) by done. by rewrite (hseg_next _ _ _ _ H2). }
  apply elem_of_cons in Hin as [Ef|Hin].
  - rewrite Ef in *. destruct (first_fit n fs) as [Hsh|(l1 & p & s & l2 & -> & Hsh & Hs)].
    + right. split; [done|]. exists (Datatypes.S j), (last_addr BASE fs). split; [lia|]. rewrite <- Nat.add_assoc.
      by rewrite (Low fs [] _ (eq_sym (app_nil_r fs)) Hsh HnB).
    + left. exists l1, p, s, l2, (length l2 + 2 + j)%nat. split; [done|]. split; [done|]. split; [lia|].
      replace (length (l1 ++ (p, s) :: l2) + 2 + j)%nat with (length l1 + Datatypes.S (length l2 + 2 + j))%nat by (rewrite length_app; cbn [length]; lia).
      by rewrite (Low l1 ((p, s) :: l2) _ eq_refl Hsh) by (intros Hx; apply HnB; rewrite map_app; apply elem_of_app; by left).
  - apply split_addr in Hin as (A & sf & B & E). set (f := u_freep S) in *. rewrite E in Hsp. pose proof (spaced_nodup _ _ _ _ _ _ Hsp) as [NA NB].
    assert (BASE <> f) as NBf by (intros Hx; apply HnB; rewrite E, map_app; cbn [map fst]; rewrite Hx; apply elem_of_app; right; by left).
    pose proof Hr as Hr'. rewrite E in Hr'. change ((BASE, 0) :: A ++ (f, sf) :: B) with (((BASE, 0) :: A) ++ (f, sf) :: B) in Hr'.
    apply hseg_app in Hr' as (c & _ & Hsf). pose proof Hsf as (-> & Esf & _).
    assert (length fs = length A + Datatypes.S (length B))%nat as Elen by (rewrite E, length_app; done).
    destruct (first_fit n B) as [HB|(B1 & p & s & B2 & EB & HB & Hs)].
    + rewrite Elen. replace (length A + Datatypes.S (length B) + 2 + j)%nat with (length B + Datatypes.S (length A + 2 + j))%nat by lia.
      rewrite (pass F n _ B f sf BASE) by done. rewrite pass_one by (rewrite ?Ebase; done || lia).
      destruct (first_fit n A) as [HA|(A1 & p & s & A2 & EA & HA & Hs)].
      * rewrite <- Nat.add_assoc. rewrite (Low A ((f, sf) :: B) _ E HA NA). cbn [next_addr].
        destruct (decide (n <= sf)).
        -- left. exists A, f, sf, B, (Datatypes.S j). split; [done|]. split; [done|]. split; [lia|done].
        -- right. split; [rewrite E; apply Forall_app; split; [done|]; constructor; [cbn; lia|done]|]. exists (Datatypes.S j), (last_addr BASE A). split; [lia|done].
      * left. exists A1, p, s, (A2 ++ (f, sf) :: B), (length A2 + 2 + j)%nat. split; [by rewrite E, EA, <- app_assoc|]. split; [done|]. split; [lia|].
        replace (length A + 2 + j)%nat with (length A1 + Datatypes.S (length A2 + 2 + j))%nat by (rewrite EA, length_app; cbn [length]; lia).
        rewrite (Low A1 ((p, s) :: A2 ++ (f, sf) :: B)); [done|by rewrite E, EA, <- app_assoc|done|].
        intros Hx. apply NA. rewrite EA, map_app. apply elem_of_app. by left.
    + left. exists (A ++ (f, sf) :: B1), p, s, B2, (length A + length B2 + 3 + j)%nat. split; [by rewrite E, EB, <- app_assoc|]. split; [done|]. split; [lia|].
      rewrite Elen. replace (length A + Datatypes.S (length B) + 2 + j)%nat with (length B1 + Datatypes.S (length A + length B2 + 3 + j))%nat by (rewrite EB, length_app; cbn [length]; lia).
      rewrite EB in Hsf. change ((f, sf) :: B1 ++ (p, s) :: B2) with (((f, sf) :: B1) ++ (p, s) :: B2) in Hsf. apply hseg_app in Hsf as (d & Hs1 & Hs2).
      rewrite (pass F n _ B1 f sf d); [|done|done|intros Hx; apply NB; rewrite EB, map_app; apply elem_of_app; by left].
      rewrite (hseg_next _ _ _ _ Hs2). cbn [next_addr]. by rewrite last_addr_app.
Qed.

(** ** The block that malloc returns *)

(** [S'] is [S] after the block of [n] units at [a] is taken out of the free list. *)
Definition taken (S : ust) (fs : list blk) (n a : Z) (S' : ust) (fs' : list blk) : Prop :=
  u_sz S' = u_sz S /\ free_list S' fs' /\ rd32 (u_mem S') (a + 4) = n /\
  (forall b, in_blocks fs b <-> in_blocks fs' b \/ a <= b < a + 8 * n) /\ (forall b, in_blocks fs' b -> ~ a <= b < a + 8 * n) /\
  (forall b, ~ BASE <= b < BASE + 8 -> ~ in_blocks fs b -> rd8 (u_mem S') b = rd8 (u_mem S) b) /\ (length fs' <= length fs)%nat.

Lemma in_blocks_nil a : ~ in_blocks [] a.
Proof. intros (x & s & H & _). by apply elem_of_nil in H. Qed.
Lemma in_blocks_spaced lo l hi a : spaced lo l hi -> in_blocks l a -> lo < a < hi.
Proof. intros H (x & s & Hx & Ha). apply (spaced_in _ _ _ _ _ H) in Hx. lia. Qed.
Lemma last_addr_in l : last_addr BASE l ∈ BASE :: map fst l.
Proof.
  destruct (last_block l) as [->|(l0 & qs & E)]; [by left|]. right. rewrite E at 2. rewrite map_app. apply elem_of_app. right. by left.
Qed.

Lemma take_whole F n S F1 p F2 k : 0 <= BASE -> u_sz S < 2 ^ 32 -> free_list S (F1 ++ (p, n) :: F2) -> 1 <= n ->
  exists S', mloop (Datatypes.S k) F n (last_addr BASE F1) p S = Ok (p + 8) S' /\ taken S (F1 ++ (p, n) :: F2) n p S' (F1 ++ F2).
Proof.
  intros HB Hhi (Hr & Hsp & Hin) Hn. unfold ring in Hr. change ((BASE, 0) :: F1 ++ (p, n) :: F2) with (((BASE, 0) :: F1) ++ (p, n) :: F2) in Hr.
  apply hseg_app in Hr as (c & Hs1 & Hs2). destruct Hs2 as (-> & Ep & Hs2). pose proof (hseg_next _ _ _ _ Hs2) as Ec.
  pose proof Hsp as Hsp'. apply spaced_app in Hsp as (mid & Q1 & Q2 & Q3 & Q4). pose proof (spaced_hi _ _ _ Q1). pose proof (spaced_hi _ _ _ Q4).
  set (q := last_addr BASE F1).
  destruct (before_block F1 mid p Q1) as (l0 & qs & E0 & A2 & A1 & _ & _ & A3 & A4); [lia|intros x s Hx; apply (spaced_in _ _ _ _ _ Q1) in Hx; lia|]. fold q in E0, A1, A2, A3, A4.
  assert (is_u32 (rd32 (u_mem S) p)) as Hu.
  { rewrite Ec. destruct F2 as [|[z u] F2]; cbn [next_addr]; unfold is_u32; [lia|]. destruct Q4 as (? & ? & P3). apply spaced_hi in P3. lia. }
  set (m := wr32 (u_mem S) q (rd32 (u_mem S) p)). assert (but_header q (u_mem S) m) as Hm by apply but_header_wr.
  exists (Ust m q (u_sz S)). split.
  { cbn [malloc_loop]. unfold h_size, h_ptr, set_hptr, set_freep. rewrite bind_gets, Ep, (proj2 (Z.leb_le n n)), Z.eqb_refl by lia.
    rewrite bind_gets, bind_modify, bind_modify. unfold hplus, HDR. rewrite u32_small by (unfold is_u32; lia). by replace (p + 1 * 8) with (p + 8) by lia. }
  assert (in_blocks (F1 ++ F2) q -> BASE < q) as HqB.
  { intros Hx%in_blocks_app. destruct Hx as [Hx|Hx]; [apply (in_blocks_spaced _ _ _ _ Q1) in Hx|apply (in_blocks_spaced _ _ _ _ Q4) in Hx]; lia. }
  split; [done|]. split; [split; [|split]|].
  - unfold ring. change ((BASE, 0) :: F1 ++ F2) with (((BASE, 0) :: F1) ++ F2). rewrite E0, <- app_assoc. rewrite E0 in Hs1. apply hseg_app in Hs1 as (d & Hs0 & Hsq).
    destruct Hsq as (-> & Eqs & _). apply hseg_app. exists q. cbn [u_mem]. split; [|split; [done|split]].
    + eapply seg_but_header; [exact Hm|intros x s Hx; specialize (A3 x s Hx); lia|done].
    + unfold m. by rewrite rd32_wr32_ne by lia.
    + unfold m at 2. rewrite rd32_wr32_eq by done. eapply seg_but_header; [exact Hm| |exact Hs2].
      intros x s Hx. apply (spaced_in _ _ _ _ _ Q4) in Hx. lia.
  - cbn [u_sz]. apply spaced_app. exists mid. split; [done|]. eapply spaced_weaken; [exact Q4|lia].
  - cbn [u_freep]. pose proof (last_addr_in F1) as Hq. fold q in Hq. rewrite map_app. apply elem_of_cons in Hq as [->|Hq]; [by left|]. right. apply elem_of_app. by left.
  - cbn [u_mem]. split; [unfold m; by rewrite rd32_wr32_ne by lia|]. split; [|split; [|split]].
    + intros b. rewrite !in_blocks_app, in_blocks_cons. clear. tauto.
    + intros b Hx%in_blocks_app Hb. destruct Hx as [Hx|Hx]; [apply (in_blocks_spaced _ _ _ _ Q1) in Hx|apply (in_blocks_spaced _ _ _ _ Q4) in Hx]; lia.
    + intros b Hb Hnb. apply Hm. intros Hx. destruct A4 as [(_ & Hq & _)|(l0' & _ & E & Hqs)]; [lia|].
      apply Hnb, in_blocks_app. left. exists q, qs. split; [rewrite E; apply elem_of_app; right; by left|lia].
    + rewrite !length_app. cbn [length]. lia.
Qed.

Lemma take_part F n S F1 p s F2 k : 0 <= BASE -> u_sz S < 2 ^ 32 -> free_list S (F1 ++ (p, s) :: F2) -> 1 <= n -> n < s ->
  exists S', mloop (Datatypes.S k) F n (last_addr BASE F1) p S = Ok (p + 8 * (s - n) + 8) S' /\
    taken S (F1 ++ (p, s) :: F2) n (p + 8 * (s - n)) S' (F1 ++ (p, s - n) :: F2).
Proof.
  intros HB Hhi (Hr & Hsp & Hin) Hn Hs. unfold ring in Hr. change ((BASE, 0) :: F1 ++ (p, s) :: F2) with (((BASE, 0) :: F1) ++ (p, s) :: F2) in Hr.
  apply hseg_app in Hr as (c & Hs1 & Hs2). destruct Hs2 as (-> & Ep & Hs2).
  pose proof Hsp as Hsp'. apply spaced_app in Hsp as (mid & Q1 & Q2 & Q3 & Q4). pose proof (spaced_hi _ _ _ Q1). pose proof (spaced_hi _ _ _ Q4).
  set (a := p + 8 * (s - n)) in *. set (q := last_addr BASE F1).
  set (m1 := wr32 (u_mem S) (p + 4) (s - n)). set (m := wr32 m1 (a + 4) n).
  assert (but_header p (u_mem S) m1) as Hm1 by apply but_header_wr4. assert (but_header a m1 m) as Hm by apply but_header_wr4.
  exists (Ust m q (u_sz S)). split.
  { cbn [malloc_loop]. unfold h_size, h_ptr, set_hptr, set_hsize, set_freep. rewrite bind_gets, Ep, (proj2 (Z.leb_le n s)), (proj2 (Z.eqb_neq s n)) by lia.
    rewrite bind_modify, bind_gets, (u32_small (s - n)) by (unfold is_u32; lia). cbn [u_mem]. fold m1.
    assert (rd32 m1 (p + 4) = s - n) as -> by (unfold m1; by rewrite rd32_wr32_eq by (unfold is_u32; lia)). cbv zeta.
    unfold hplus, HDR. rewrite (u32_small (p + (s - n) * 8)) by (unfold is_u32; lia). replace (p + (s - n) * 8) with a by (unfold a; lia).
    rewrite bind_modify, bind_modify. rewrite u32_small by (unfold is_u32; lia). by replace (a + 1 * 8) with (a + 8) by lia. }
  assert (forall x t, (x, t) ∈ (BASE, 0) :: F1 -> x + 8 <= p) as HF1.
  { intros x t [[= -> ->]|Hx]%elem_of_cons; [lia|]. apply (spaced_in _ _ _ _ _ Q1) in Hx. lia. }
  assert (forall x t, (x, t) ∈ F2 -> a + 8 <= x) as HF2 by (intros x t Hx; apply (spaced_in _ _ _ _ _ Q4) in Hx; lia).
  split; [done|]. split; [split; [|split]|].
  - unfold ring. change ((BASE, 0) :: F1 ++ (p, s - n) :: F2) with (((BASE, 0) :: F1) ++ (p, s - n) :: F2). apply hseg_app. exists p. cbn [u_mem]. split; [|split; [done|split]].
    + eapply (seg_but_header a); [exact Hm|intros x t Hx; specialize (HF1 x t Hx); lia|].
      eapply (seg_but_header p); [exact Hm1|intros x t Hx; specialize (HF1 x t Hx); lia|done].
    + unfold m. rewrite rd32_wr32_ne by lia. unfold m1. by rewrite rd32_wr32_eq by (unfold is_u32; lia).
    + assert (rd32 m p = rd32 (u_mem S) p) as -> by (unfold m, m1; by rewrite !rd32_wr32_ne by lia).
      eapply (seg_but_header a); [exact Hm|intros x t Hx; specialize (HF2 x t Hx); lia|].
      eapply (seg_but_header p); [exact Hm1|intros x t Hx; specialize (HF2 x t Hx); lia|done].
  - cbn [u_sz]. apply spaced_app. exists mid. split; [done|]. cbn [spaced]. repeat split; [lia|lia|]. eapply spaced_weaken; [exact Q4|lia].
  - cbn [u_freep]. pose proof (last_addr_in F1) as Hq. fold q in Hq. rewrite map_app. apply elem_of_cons in Hq as [->|Hq]; [by left|]. right. apply elem_of_app. by left.
  - cbn [u_mem]. split; [unfold m; by rewrite rd32_wr32_eq by (unfold is_u32; lia)|]. split; [|split; [|split]].
    + intros b. rewrite !in_blocks_app, !in_blocks_cons.
      assert (p <= b < p + 8 * s <-> p <= b < p + 8 * (s - n) \/ a <= b < a + 8 * n) as -> by (unfold a; clear -Hs Hn; lia). clear. tauto.
    + intros b Hx%in_blocks_app Hb. rewrite in_blocks_cons in Hx. destruct Hx as [Hx|[Hx|Hx]]; [apply (in_blocks_spaced _ _ _ _ Q1) in Hx; lia|lia|apply (in_blocks_spaced _ _ _ _ Q4) in Hx; lia].
    + intros b Hb Hnb. assert (~ p <= b < p + 8 * s) as Hx by (intros Hx; apply Hnb, in_blocks_app; right; apply in_blocks_cons; by left).
      rewrite Hm by lia. apply Hm1. lia.
    + rewrite !length_app. cbn [length]. lia.
Qed.

Lemma take_ok F n S F1 p s F2 k : 0 <= BASE -> u_sz S < 2 ^ 32 -> free_list S (F1 ++ (p, s) :: F2) -> 1 <= n <= s ->
  exists a S' fs', mloop (Datatypes.S k) F n (last_addr BASE F1) p S = Ok (a + 8) S' /\ taken S (F1 ++ (p, s) :: F2) n a S' fs'.
Proof.
  intros HB Hhi Hfl Hn. destruct (decide (n = s)) as [->|N].
  - destruct (take_whole F s S F1 p F2 k HB Hhi Hfl) as (S' & E & H); [lia|]. by eexists _, _, _.
  - destruct (take_part F n S F1 p s F2 k HB Hhi Hfl) as (S' & E & H); [lia|lia|]. by eexists _, _, _.
Qed.

(** ** More memory *)

(** The kernel keeps a process below [KERNBASE]. *)
Hypothesis grow_below_kernel : forall sz n, 0 <= n -> grow sz n = true -> sz + n < 2 ^ 31.
Hypothesis BASE_pos : 0 < BASE.
(** The units that are asked of the kernel for [n]. *)
Definition asked (n : Z) : Z := if n <? 4096 then 4096 else n.
Definition MAXUNITS : Z := 2 ^ 28 - 1.

Lemma morecore_ok F n S fs : free_list S fs -> BASE + 8 <= u_sz S < 2 ^ 31 -> 1 <= n <= MAXUNITS -> (length fs + 2 <= F)%nat ->
  grow (u_sz S) (8 * asked n) = false /\ morecore grow F n S = Ok 0 S \/
  exists S' fs', morecore grow F n S = Ok (u_freep S') S' /\ u_freep S' <> 0 /\ free_list S' fs' /\
    u_sz S' = u_sz S + 8 * asked n /\ u_sz S' < 2 ^ 31 /\
    (forall b, in_blocks fs' b <-> in_blocks fs b \/ u_sz S <= b < u_sz S') /\
    (forall b, ~ BASE <= b < BASE + 8 -> ~ in_blocks fs b -> b < u_sz S -> rd8 (u_mem S') b = rd8 (u_mem S) b) /\
    (length fs' <= Datatypes.S (length fs))%nat /\ (exists x s, (x, s) ∈ fs' /\ n <= s).
Proof.
  intros Hfl Hsz Hn HF. unfold morecore. fold (asked n). cbv zeta. assert (n <= asked n <= MAXUNITS /\ 4096 <= asked n) as Ha by (unfold asked, MAXUNITS in *; destruct (Z.ltb_spec n 4096); lia).
  unfold MAXUNITS in *. unfold HDR. replace (asked n * 8) with (8 * asked n) by lia.
  rewrite (u32_small (8 * asked n)) by (unfold is_u32; lia). rewrite s32_small by lia.
  unfold sbrk. rewrite bind_assoc, bind_gets. destruct (grow (u_sz S) (8 * asked n)) eqn:Eg.
  - right. apply grow_below_kernel in Eg; [|lia]. rewrite bind_assoc, bind_modify, bind_ret, (u32_small (u_sz S + _)) by (unfold is_u32; lia).
    rewrite (proj2 (Z.eqb_neq _ _)) by (change (u32 (-1)) with (2 ^ 32 - 1); lia). unfold set_hsize. rewrite bind_modify. cbn [u_mem u_freep u_sz].
    set (bp := u_sz S) in *. set (m := wr32 (u_mem S) (bp + 4) (asked n)). set (S1 := Ust m (u_freep S) (bp + 8 * asked n)).
    unfold hplus, HDR. rewrite (u32_small (bp + _)) by (unfold is_u32; lia). replace (bp + 1 * 8) with (bp + 8) by lia.
    destruct Hfl as (Hr & Hsp & Hin).
    destruct (free_ok S1 fs bp (asked n) F) as (S' & fs' & E & Es & Hfl' & Hb & Hfr & Hlen & (x & s & Hx & Hs)); cbn [u_sz u_mem S1]; try lia.
    { split; [|split; [eapply spaced_raise; [exact Hsp|cbn [u_sz S1]; lia]|done]]. unfold ring, S1. cbn [u_mem]. eapply (seg_but_header bp); [apply but_header_wr4| |exact Hr].
      intros y t [[= -> ->]|Hy]%elem_of_cons; [lia|]. apply (spaced_in _ _ _ _ _ Hsp) in Hy. lia. }
    { unfold m. rewrite rd32_wr32_eq; [done|]. unfold is_u32. lia. }
    { intros a Ha' Hx. apply (in_blocks_spaced _ _ _ _ Hsp) in Hx. lia. }
    exists S', fs'. rewrite (bind_Ok _ _ _ _ _ E). split; [done|]. cbn [u_sz S1] in Es.
    split.
    { destruct Hfl' as (_ & Hsp' & Hf'). apply elem_of_cons in Hf' as [->|Hf']; [lia|]. apply split_addr in Hf' as (l1 & t & l2 & El).
      assert ((u_freep S', t) ∈ fs') as Hy by (rewrite El; apply elem_of_app; right; by left). apply (spaced_in _ _ _ _ _ Hsp') in Hy. lia. }
    split; [done|]. split; [done|]. split; [lia|]. split; [|split; [|split; [done|exists x, s; split; [done|lia]]]].
    + intros b. rewrite Hb, Es. clear. tauto.
    + intros b H1 H2 H3. rewrite Hfr; [|done|].
      * unfold S1, m. cbn [u_mem]. apply rd8_wr32_ne. lia.
      * rewrite Hb. intros [?|?]; [lia|done].
  - left. split; [done|]. rewrite bind_ret. by rewrite Z.eqb_refl.
Qed.

(** The units of a request of [n] bytes. *)
Definition units (n : Z) : Z := (n + 7) / 8 + 1.
Definition MAXREQUEST : Z := 2 ^ 31 - 24.

(** What malloc does to the free list: [S] and [fs] before, [S'] and [fs'] after. *)
Definition malloc_post (S : ust) (fs : list blk) (n : Z) (r : Z) (S' : ust) (fs' : list blk) : Prop :=
  free_list S' fs' /\ u_sz S <= u_sz S' < 2 ^ 31 /\
  (forall b, ~ BASE <= b < BASE + 8 -> ~ in_blocks fs b -> b < u_sz S -> rd8 (u_mem S') b = rd8 (u_mem S) b) /\
  (r = 0 /\ fs' = fs /\ u_sz S' = u_sz S /\ short n fs /\ grow (u_sz S) (8 * asked n) = false \/
   exists a, r = a + 8 /\ rd32 (u_mem S') (a + 4) = n /\
     (forall b, in_blocks fs b \/ u_sz S <= b < u_sz S' <-> in_blocks fs' b \/ a <= b < a + 8 * n) /\
     (forall b, in_blocks fs' b -> ~ a <= b < a + 8 * n)).

Lemma malloc_loop_ok F n S fs j : free_list S fs -> BASE + 8 <= u_sz S < 2 ^ 31 -> 1 <= n <= MAXUNITS -> (length fs + 2 <= F)%nat -> (length fs + 3 <= j)%nat ->
  exists r S' fs', mloop (length fs + 2 + j) F n (u_freep S) (rd32 (u_mem S) (u_freep S)) S = Ok r S' /\ malloc_post S fs n r S' fs'.
Proof.
  intros Hfl Hsz Hn HF Hj. destruct (find_ok F n j S fs Hfl) as [(F1 & p & s & F2 & k & E & Hs & Hk & ->)|(Hsh & k & q & Hk & ->)]; [lia| |].
  - rewrite E in Hfl |- *. destruct (take_ok F n S F1 p s F2 k) as (a & S' & fs' & Em & T1 & T2 & T3 & T4 & T5 & T6 & T7); [lia|lia|done|lia|].
    exists (a + 8), S', fs'. split; [done|]. split; [done|]. split; [lia|]. split; [by intros; apply T6|]. right. exists a. split; [done|]. split; [done|]. split; [|done].
    intros b. rewrite <- T4, T1. split; [intros [?|?]; [done|lia]|by left].
  - assert (rd32 (u_mem S) (u_freep S + 4) < n) as Hfp.
    { destruct Hfl as (Hr & _ & Hin). unfold ring in Hr. apply elem_of_cons in Hin as [->|Hin]; [destruct Hr as (_ & -> & _); lia|].
      apply split_addr in Hin as (l1 & s & l2 & E). assert ((u_freep S, s) ∈ fs) as Hin by (rewrite E; apply elem_of_app; right; by left).
      rewrite E in Hr. change ((BASE, 0) :: l1 ++ (u_freep S, s) :: l2) with (((BASE, 0) :: l1) ++ (u_freep S, s) :: l2) in Hr. apply hseg_app in Hr as (c & _ & -> & -> & _).
      apply (proj1 (Forall_forall _ _) Hsh) in Hin. done. }
    rewrite (full_turn F n k q S Hfp).
    destruct (morecore_ok F n S fs Hfl Hsz Hn HF) as [[Hg Em]|(S1 & fs1 & Em & Hf0 & Hfl1 & Hs1 & Hs1' & Hb1 & Hfr1 & Hl1 & Hfit)].
    + rewrite (bind_Ok _ _ _ _ _ Em). exists 0, S, fs. split; [done|]. split; [done|]. split; [lia|]. split; [done|]. left. done.
    + rewrite (bind_Ok _ _ _ _ _ Em), (proj2 (Z.eqb_neq _ _)) by done. unfold h_ptr. rewrite bind_gets.
      assert (0 <= asked n) by (unfold asked; destruct (Z.ltb_spec n 4096); lia).
      replace k with (length fs1 + 2 + (k - length fs1 - 2))%nat by lia.
      destruct (find_ok F n (k - length fs1 - 2) S1 fs1 Hfl1) as [(F1 & p & s & F2 & k' & E & Hs & _ & ->)|(Hsh' & _)]; [lia| |].
      * rewrite E in Hfl1. destruct (take_ok F n S1 F1 p s F2 k') as (a & S' & fs' & Em' & T1 & T2 & T3 & T4 & T5 & T6 & T7); [lia|lia|done|lia|]. rewrite <- E in T4, T6.
        exists (a + 8), S', fs'. split; [done|]. split; [done|]. split; [lia|]. split.
        -- intros b B1 B2 B3. rewrite T6, Hfr1; try done. rewrite Hb1. intros [?|?]; [done|lia].
        -- right. exists a. split; [done|]. split; [done|]. split; [|done]. intros b. by rewrite <- T4, Hb1, T1.
      * exfalso. destruct Hfit as (x & s & Hx & Hs). apply (proj1 (Forall_forall _ _) Hsh') in Hx. cbn in Hx. lia.
Qed.

(** The state before the first call. *)
Definition unused (S : ust) (fs : list blk) : Prop := u_freep S = 0 /\ fs = [].

Lemma malloc_ok fuel nbytes S fs : free_list S fs \/ unused S fs -> BASE + 8 <= u_sz S < 2 ^ 31 -> 0 <= nbytes <= MAXREQUEST ->
  (2 * length fs + 5 <= fuel)%nat -> exists r S' fs', malloc BASE grow fuel nbytes S = Ok r S' /\ malloc_post S fs (units nbytes) r S' fs'.
Proof.
  intros Hfl Hsz Hn Hf. unfold MAXREQUEST in Hn. assert (1 <= units nbytes <= MAXUNITS) as Hu by (unfold units, MAXUNITS; Z.div_mod_to_equations; lia).
  unfold malloc. cbv zeta. unfold HDR. rewrite (u32_small (nbytes + 8 - 1)) by (unfold is_u32; lia).
  replace (nbytes + 8 - 1) with (nbytes + 7) by lia. fold (units nbytes). rewrite (u32_small (units nbytes)) by (unfold is_u32, MAXUNITS in *; lia).
  replace fuel with (length fs + 2 + (fuel - length fs - 2))%nat by lia. set (j := (fuel - length fs - 2)%nat).
  rewrite bind_gets. destruct Hfl as [Hfl|[Hfp ->]].
  - assert (u_freep S <> 0) as N.
    { destruct Hfl as (_ & Hsp & Hin). apply elem_of_cons in Hin as [->|Hin]; [lia|]. apply split_addr in Hin as (l1 & s & l2 & E).
      assert ((u_freep S, s) ∈ fs) as Hin by (rewrite E; apply elem_of_app; right; by left). apply (spaced_in _ _ _ _ _ Hsp) in Hin. lia. }
    rewrite (proj2 (Z.eqb_neq _ _) N), bind_ret. unfold h_ptr. rewrite bind_gets. apply malloc_loop_ok; try done; lia.
  - rewrite Hfp, Z.eqb_refl. rewrite bind_assoc. unfold set_hptr, set_hsize, set_freep. rewrite bind_modify, bind_assoc, bind_modify, bind_assoc, bind_modify, bind_ret.
    cbn [u_mem u_freep u_sz]. unfold h_ptr. rewrite bind_gets. cbn [u_mem]. set (m := wr32 (wr32 (u_mem S) BASE BASE) (BASE + 4) 0). set (S0 := Ust m BASE (u_sz S)).
    assert (rd32 m BASE = BASE) as Eb by (unfold m; rewrite rd32_wr32_ne, rd32_wr32_eq by (unfold is_u32; lia); done).
    assert (free_list S0 []) as Hfl0.
    { split; [|split; [cbn; lia|by left]]. split; [done|]. split; [unfold S0, m; cbn [u_mem]; by rewrite rd32_wr32_eq|]. exact Eb. }
    destruct (malloc_loop_ok (length (@nil blk) + 2 + j) (units nbytes) S0 [] j Hfl0) as (r & S' & fs' & E & P1 & P2 & P3 & P4); try done; [cbn; lia|unfold j; cbn; lia|].
    exists r, S', fs'. split; [exact E|]. split; [done|]. split; [done|]. split; [|done].
    intros b B1 B2 B3. rewrite P3 by done. unfold S0, m. cbn [u_mem]. rewrite !rd8_wr32_ne by lia. done.
Qed.

(** ** The heap of a program *)

(** The allocated blocks: the units of each by the address of its header. *)
Notation heap := (gmap Z Z).
Definition in_heap (al : heap) (a : Z) : Prop := exists x s, al !! x = Some s /\ x <= a < x + 8 * s.
Record heap_inv (START : Z) (S : ust) (fs : list blk) (al : heap) : Prop := {
  hi_list : free_list S fs \/ unused S fs /\ al = ∅;
  hi_bounds : BASE + 8 <= START <= u_sz S /\ u_sz S < 2 ^ 31;
  hi_size : forall x s, al !! x = Some s -> rd32 (u_mem S) (x + 4) = s /\ 1 <= s;
  hi_apart : forall x s y t, al !! x = Some s -> al !! y = Some t -> x <> y -> x + 8 * s <= y \/ y + 8 * t <= x;
  hi_free : forall a, in_blocks fs a -> ~ in_heap al a;
  hi_tile : forall a, in_blocks fs a \/ in_heap al a <-> START <= a < u_sz S
}.
(** A fuel that is enough: there are fewer free blocks than bytes. *)
Definition enough (S : ust) : nat := 2 * Z.to_nat (u_sz S) + 9.
(** What a program does: it allocates, frees what it has, and writes to its blocks. *)
Inductive ustep : ust * heap -> ust * heap -> Prop :=
  | us_malloc S al n p S' : 0 <= n <= MAXREQUEST -> malloc BASE grow (enough S) n S = Ok p S' ->
      ustep (S, al) (S', if decide (p = 0) then al else <[p - 8 := units n]> al)
  | us_free S al x s S' : al !! x = Some s -> free (enough S) (x + 8) S = Ok tt S' -> ustep (S, al) (S', delete x al)
  | us_write S al x s a v : al !! x = Some s -> x + 8 <= a < x + 8 * s ->
      ustep (S, al) (Ust (wr8 (u_mem S) a v) (u_freep S) (u_sz S), al).

Lemma spaced_length lo l hi : spaced lo l hi -> lo + 8 * Z.of_nat (length l) <= hi.
Proof. revert lo. induction l as [|[x s] l IH]; intros lo; cbn [spaced length]; [lia|]. intros (? & ? & H). apply IH in H. lia. Qed.
Lemma enough_ok START S fs al : heap_inv START S fs al -> (2 * length fs + 5 <= enough S)%nat.
Proof.
  intros I. unfold enough. destruct (hi_list _ _ _ _ I) as [(_ & Hsp & _)|[[_ ->] _]]; [|cbn; lia].
  apply spaced_length in Hsp. pose proof (hi_bounds _ _ _ _ I). lia.
Qed.
Lemma in_heap_insert al a n b : al !! a = None -> in_heap (<[a := n]> al) b <-> a <= b < a + 8 * n \/ in_heap al b.
Proof.
  intros Ha. unfold in_heap. split.
  - intros (x & s & Hx & Hb). destruct (decide (a = x)) as [<-|N]; [rewrite lookup_insert_eq in Hx; injection Hx as <-; by left|].
    rewrite lookup_insert_ne in Hx by done. right. eauto.
  - intros [Hb|(x & s & Hx & Hb)]; [exists a, n; by rewrite lookup_insert_eq|]. exists x, s. rewrite lookup_insert_ne by congruence. done.
Qed.
Lemma in_heap_delete al a n b : al !! a = Some n -> in_heap al b <-> a <= b < a + 8 * n \/ in_heap (delete a al) b.
Proof. intros Ha. rewrite <- in_heap_insert by apply lookup_delete_eq. by rewrite insert_delete_id. Qed.
Lemma in_heap_header al x s : al !! x = Some s -> 1 <= s -> forall a, x <= a < x + 8 -> in_heap al a.
Proof. intros Hx Hs a Ha. exists x, s. split; [done|lia]. Qed.

Lemma free_list_frame S m fs : free_list S fs -> (forall b, BASE <= b < BASE + 8 \/ in_blocks fs b -> rd8 m b = rd8 (u_mem S) b) ->
  free_list (Ust m (u_freep S) (u_sz S)) fs.
Proof.
  intros (Hr & Hsp & Hin) Hm. split; [|by split]. unfold ring. cbn [u_mem]. eapply seg_frame; [|exact Hr].
  intros x s Hx. assert (forall b, x <= b < x + 8 -> rd8 m b = rd8 (u_mem S) b) as H.
  { intros b Hb. apply Hm. apply elem_of_cons in Hx as [[= -> ->]|Hx]; [by left|]. right. exists x, s. split; [done|].
    apply (spaced_in _ _ _ _ _ Hsp) in Hx. lia. }
  split; apply rd32_ext; intros b Hb; apply H; lia.
Qed.

Lemma malloc_heap START S fs al n : heap_inv START S fs al -> 0 <= n <= MAXREQUEST ->
  exists p S' fs', malloc BASE grow (enough S) n S = Ok p S' /\ heap_inv START S' fs' (if decide (p = 0) then al else <[p - 8 := units n]> al) /\
    (forall a, in_heap al a -> rd8 (u_mem S') a = rd8 (u_mem S) a) /\
    (if decide (p = 0) then short (units n) fs /\ grow (u_sz S) (8 * asked (units n)) = false
     else START + 8 <= p /\ p + n <= u_sz S' /\ n <= 8 * (units n - 1) /\ (forall a, p - 8 <= a < p - 8 + 8 * units n -> ~ in_heap al a)).
Proof.
  intros I Hn. pose proof (hi_bounds _ _ _ _ I) as [HB1 HB2].
  destruct (malloc_ok (enough S) n S fs) as (p & S' & fs' & E & P1 & P2 & P3 & P4); [destruct (hi_list _ _ _ _ I) as [?|[? _]]; auto|lia|done|by eapply enough_ok|].
  assert (forall a, in_heap al a -> rd8 (u_mem S') a = rd8 (u_mem S) a) as Hkeep.
  { intros a Ha. assert (START <= a < u_sz S) by (apply (hi_tile _ _ _ _ I); by right). apply P3; [lia| |lia]. intros Hx. by apply (hi_free _ _ _ _ I a). }
  assert (forall x s, al !! x = Some s -> rd32 (u_mem S') (x + 4) = s /\ 1 <= s) as Hsize.
  { intros x s Hx. destruct (hi_size _ _ _ _ I x s Hx) as [<- Hs]. split; [|done]. apply rd32_ext. intros b Hb. apply Hkeep.
    apply (in_heap_header al x _ Hx Hs). lia. }
  assert (1 <= units n /\ n <= 8 * (units n - 1)) as Hu by (unfold units; Z.div_mod_to_equations; lia).
  exists p, S', fs'. split; [done|]. destruct P4 as [(-> & -> & Hsz & Hsh & Hg)|(a & -> & Hn' & Hb & Hd)].
  - rewrite !decide_True by done. split; [|done].
    split; [by left|lia|done|by apply (hi_apart _ _ _ _ I)|by apply (hi_free _ _ _ _ I)|rewrite Hsz; exact (hi_tile _ _ _ _ I)].
  - assert (START <= a) as Ha.
    { assert (in_blocks fs a \/ u_sz S <= a < u_sz S') as [Hx|Hx] by (apply Hb; right; lia); [|lia].
      assert (START <= a < u_sz S) by (apply (hi_tile _ _ _ _ I); by left). lia. }
    assert (forall b, a <= b < a + 8 * units n -> ~ in_heap al b) as Hnew.
    { intros b Hx Hy. assert (in_blocks fs b \/ u_sz S <= b < u_sz S') as [Hz|Hz] by (apply Hb; by right); [by apply (hi_free _ _ _ _ I b)|].
      assert (START <= b < u_sz S) by (apply (hi_tile _ _ _ _ I); by right). lia. }
    assert (al !! a = None) as Hal.
    { destruct (al !! a) as [s|] eqn:Es; [|done]. exfalso. apply (Hnew a); [lia|]. apply (in_heap_header al a s Es); [by apply (Hsize a s)|lia]. }
    rewrite !decide_False by lia. replace (a + 8 - 8) with a by lia.
    assert (forall b, in_blocks fs' b \/ in_heap (<[a := units n]> al) b <-> START <= b < u_sz S') as Htile.
    { intros b. rewrite in_heap_insert by done. pose proof (Hb b) as H1. pose proof (hi_tile _ _ _ _ I b) as H2.
      assert (START <= b < u_sz S' <-> START <= b < u_sz S \/ u_sz S <= b < u_sz S') as -> by lia. clear -H1 H2. tauto. }
    split; [|split; [done|split; [lia|split; [|split; [lia|done]]]]].
    + split.
      * by left.
      * lia.
      * intros x s Hx. destruct (decide (a = x)) as [<-|N]; [rewrite lookup_insert_eq in Hx; injection Hx as <-; split; [done|lia]|].
        rewrite lookup_insert_ne in Hx by done. by apply Hsize.
      * assert (forall y t, al !! y = Some t -> a + 8 * units n <= y \/ y + 8 * t <= a) as Hap.
        { intros y t Hy. destruct (Hsize y t Hy) as [_ Ht]. destruct (decide (a + 8 * units n <= y)); [by left|]. destruct (decide (y + 8 * t <= a)); [by right|].
          exfalso. apply (Hnew (Z.max a y)); [lia|]. exists y, t. split; [done|lia]. }
        intros x s y t Hx Hy N. apply lookup_insert_Some in Hx as [[<- <-]|[N1 Hx]]; apply lookup_insert_Some in Hy as [[<- <-]|[N2 Hy]]; [done|by apply Hap| |].
        -- apply Hap in Hx. tauto.
        -- by apply (hi_apart _ _ _ _ I x s y t).
      * intros b Hx. rewrite in_heap_insert by done. intros [Hy|Hy]; [by apply (Hd b)|].
        assert (in_blocks fs b \/ u_sz S <= b < u_sz S') as [Hz|Hz] by (apply Hb; by left); [by apply (hi_free _ _ _ _ I b)|].
        assert (START <= b < u_sz S) by (apply (hi_tile _ _ _ _ I); by right). lia.
      * exact Htile.
    + assert (START <= a + 8 * units n - 1 < u_sz S'); [|lia]. apply Htile. right. apply in_heap_insert; [done|]. left. lia.
Qed.

Lemma free_heap START S fs al x s : heap_inv START S fs al -> al !! x = Some s ->
  exists S' fs', free (enough S) (x + 8) S = Ok tt S' /\ heap_inv START S' fs' (delete x al) /\
    (forall a, in_heap (delete x al) a -> rd8 (u_mem S') a = rd8 (u_mem S) a).
Proof.
  intros I Hx. pose proof (hi_bounds _ _ _ _ I) as [HB1 HB2]. destruct (hi_size _ _ _ _ I x s Hx) as [Hs1 Hs2].
  assert (forall a, x <= a < x + 8 * s -> in_heap al a) as Hin by (intros a Ha; by exists x, s).
  assert (forall a, in_heap al a -> START <= a < u_sz S) as Hrange by (intros a Ha; apply (hi_tile _ _ _ _ I); by right).
  assert (START <= x /\ x + 8 * s <= u_sz S) as [Hr1 Hr2].
  { assert (START <= x < u_sz S) by (apply Hrange, Hin; lia). assert (START <= x + 8 * s - 1 < u_sz S) by (apply Hrange, Hin; lia). lia. }
  assert (free_list S fs) as Hfl by (destruct (hi_list _ _ _ _ I) as [?|[_ ->]]; done).
  destruct (free_ok S fs x s (enough S)) as (S' & fs' & E & Esz & Hfl' & Hb & Hfr & _); try done; try lia.
  { intros a Ha Hf. apply (hi_free _ _ _ _ I a Hf). by apply Hin. }
  { pose proof (enough_ok _ _ _ _ I). lia. }
  assert (forall a, x <= a < x + 8 * s -> ~ in_heap (delete x al) a) as Hgone.
  { intros a Ha (y & t & Hy & Hya). apply lookup_delete_Some in Hy as [N Hy]. destruct (hi_apart _ _ _ _ I x s y t Hx Hy N); lia. }
  assert (forall a, in_heap (delete x al) a -> rd8 (u_mem S') a = rd8 (u_mem S) a) as Hkeep.
  { intros a Ha. assert (in_heap al a) as Ha' by (rewrite in_heap_delete by done; by right). pose proof (Hrange a Ha'). apply Hfr; [lia|].
    rewrite Hb. intros [Hy|Hy]; [by apply (Hgone a)|by apply (hi_free _ _ _ _ I a)]. }
  exists S', fs'. split; [done|]. split; [|done]. split; rewrite ?Esz.
  - by left.
  - lia.
  - intros y t Hy. pose proof Hy as Hy'. apply lookup_delete_Some in Hy as [N Hy]. destruct (hi_size _ _ _ _ I y t Hy) as [<- Ht]. split; [|done].
    apply rd32_ext. intros b Hb'. apply Hkeep. apply (in_heap_header _ y _ Hy' Ht). lia.
  - intros y t z u Hy Hz N. apply lookup_delete_Some in Hy as [_ Hy]. apply lookup_delete_Some in Hz as [_ Hz]. by apply (hi_apart _ _ _ _ I y t z u).
  - intros a Ha. apply Hb in Ha as [Ha|Ha]; [by apply Hgone|]. intros Hy. apply (hi_free _ _ _ _ I a Ha). rewrite in_heap_delete by done. by right.
  - intros a. rewrite <- (hi_tile _ _ _ _ I a), Hb, (in_heap_delete al x s a Hx). clear. tauto.
Qed.

Lemma write_heap START S fs al x s a v : heap_inv START S fs al -> al !! x = Some s -> x + 8 <= a < x + 8 * s ->
  heap_inv START (Ust (wr8 (u_mem S) a v) (u_freep S) (u_sz S)) fs al.
Proof.
  intros I Hx Ha. pose proof (hi_bounds _ _ _ _ I) as HB.
  assert (in_heap al a) as Hin by (exists x, s; split; [done|lia]). assert (START <= a < u_sz S) as Hr by (apply (hi_tile _ _ _ _ I); by right).
  split; cbn [u_mem u_sz]; try apply I.
  - destruct (hi_list _ _ _ _ I) as [Hfl|H]; [left|by right]. apply free_list_frame; [done|]. intros b Hb. apply rd8_wr8_ne. intros ->.
    destruct Hb as [Hb|Hb]; [lia|]. by apply (hi_free _ _ _ _ I b).
  - intros y t Hy. destruct (hi_size _ _ _ _ I y t Hy) as [<- Ht]. split; [|done]. apply rd32_ext. intros b Hb. apply rd8_wr8_ne.
    intros <-. destruct (decide (x = y)) as [<-|N]; [lia|]. destruct (hi_apart _ _ _ _ I x s y _ Hx Hy N); lia.
Qed.

(** All the free memory is one block when nothing is allocated. *)
Lemma one_block START S fs : heap_inv START S fs ∅ -> u_sz S = START \/ exists s, fs = [(START, s)] /\ START + 8 * s = u_sz S.
Proof.
  intros I. destruct (decide (u_sz S = START)) as [?|N]; [by left|right]. pose proof (hi_bounds _ _ _ _ I).
  assert (forall a, in_blocks fs a <-> START <= a < u_sz S) as Ht.
  { intros a. rewrite <- (hi_tile _ _ _ _ I a). split; [by left|]. intros [?|(x & s & Hx & _)]; [done|]. by rewrite lookup_empty in Hx. }
  destruct (hi_list _ _ _ _ I) as [(_ & Hsp & _)|[[_ ->] _]]; [|exfalso; apply (in_blocks_nil START); apply Ht; lia].
  destruct fs as [|[x s] fs]; [exfalso; apply (in_blocks_nil START); apply Ht; lia|]. destruct Hsp as (H1 & H2 & Hsp).
  assert (x = START) as ->.
  { assert (START <= x < u_sz S) by (apply Ht; apply in_blocks_cons; left; lia).
    assert (in_blocks ((x, s) :: fs) START) as Hb by (apply Ht; lia). apply in_blocks_cons in Hb as [Hb|Hb]; [lia|]. apply (in_blocks_spaced _ _ _ _ Hsp) in Hb. lia. }
  pose proof (spaced_hi _ _ _ Hsp). assert (START + 8 * s = u_sz S) as E.
  { destruct (decide (START + 8 * s = u_sz S)); [done|]. exfalso. assert (in_blocks ((START, s) :: fs) (START + 8 * s)) as Hb by (apply Ht; lia).
    apply in_blocks_cons in Hb as [Hb|Hb]; [lia|]. apply (in_blocks_spaced _ _ _ _ Hsp) in Hb. lia. }
  exists s. split; [|done]. f_equal. destruct fs as [|[y t] fs]; [done|]. destruct Hsp as (H3 & H4 & Hsp). apply spaced_hi in Hsp. lia.
Qed.

Lemma heap_reachable S0 p : unused S0 [] -> BASE + 8 <= u_sz S0 < 2 ^ 31 -> rtc ustep (S0, ∅) p -> exists fs, heap_inv (u_sz S0) (fst p) fs (snd p).
Proof.
  intros Hu Hsz R. remember (u_sz S0) as START eqn:Es.
  assert (exists fs, heap_inv START S0 fs ∅) as H0.
  { assert (forall x s, (∅ : heap) !! x = Some s -> False) as He by (intros x s Hx; by rewrite lookup_empty in Hx).
    exists []. split; [by right|lia|intros x s Hx; by apply He in Hx|intros x s y u Hx; by apply He in Hx|intros a Ha; by apply in_blocks_nil in Ha|].
    intros a. split; [|lia]. intros [Ha|(x & s & Hx & _)]; [by apply in_blocks_nil in Ha|by apply He in Hx]. }
  clear Hu Hsz Es. change (exists fs, heap_inv START (fst (S0, ∅ : heap)) fs (snd (S0, ∅ : heap))) in H0. revert H0 R. generalize (S0, ∅ : heap). intros q0 H0 R.
  induction R as [q|q1 q2 q3 Hst _ IH]; [done|]. apply IH. destruct H0 as (fs & I). destruct Hst as [S al n r S' Hn E|S al x s S' Hx E|S al x s a v Hx Ha]; cbn [fst snd] in *.
  - destruct (malloc_heap START S fs al n I Hn) as (r' & S'' & fs' & E' & I' & _). rewrite E in E'. injection E' as <- <-. by exists fs'.
  - destruct (free_heap START S fs al x s I Hx) as (S'' & fs' & E' & I' & _). rewrite E in E'. injection E' as <-. by exists fs'.
  - exists fs. by apply (write_heap START S fs al x s).
Qed.
End ring.

(** C19. The user allocator. In every state that a program reaches by malloc of at most
    2^31 - 24 bytes, free of blocks it has, and writes to its blocks, the memory obtained
    from the kernel is divided into free blocks and allocated blocks that do not overlap;
    nothing is lost, and when nothing is allocated all of it is one free block. malloc
    returns: null when no free block is large enough and the kernel refuses more memory,
    or a block with the bytes asked for that meets no allocated one. free returns. Neither
    changes a byte of the blocks that stay allocated. *)
Theorem heap_safe (BASE : Z) (grow : Z -> Z -> bool) (S0 S : ust) (al : gmap Z Z) :
  (forall sz n, 0 <= n -> grow sz n = true -> sz + n < 2 ^ 31) -> 0 < BASE -> u_freep S0 = 0 -> BASE + 8 <= u_sz S0 < 2 ^ 31 ->
  rtc (ustep BASE grow) (S0, ∅) (S, al) ->
  exists fs, (forall a, in_blocks fs a -> ~ in_heap al a) /\ (forall a, in_blocks fs a \/ in_heap al a <-> u_sz S0 <= a < u_sz S) /\
    (forall x s y t, al !! x = Some s -> al !! y = Some t -> x <> y -> x + 8 * s <= y \/ y + 8 * t <= x) /\
    (al = ∅ -> u_sz S = u_sz S0 \/ exists s, fs = [(u_sz S0, s)]) /\
    (forall n, 0 <= n <= MAXREQUEST -> exists p S', malloc BASE grow (enough S) n S = Ok p S' /\ (forall a, in_heap al a -> rd8 (u_mem S') a = rd8 (u_mem S) a) /\
       (p = 0 /\ (forall x s, (x, s) ∈ fs -> s < units n) /\ grow (u_sz S) (8 * asked (units n)) = false \/
        u_sz S0 + 8 <= p /\ p + n <= u_sz S' /\ (forall a, p - 8 <= a < p - 8 + 8 * units n -> ~ in_heap al a) /\ n <= 8 * (units n - 1))) /\
    (forall x s, al !! x = Some s -> exists S', free (enough S) (x + 8) S = Ok tt S' /\ (forall a, in_heap (delete x al) a -> rd8 (u_mem S') a = rd8 (u_mem S) a)).
Proof.
  intros Hg HB Hf Hsz R. destruct (heap_reachable BASE grow Hg HB S0 (S, al)) as (fs & I); [done|done|done|]. cbn [fst snd] in I.
  exists fs. split; [apply (hi_free _ _ _ _ _ I)|]. split; [apply (hi_tile _ _ _ _ _ I)|]. split; [apply (hi_apart _ _ _ _ _ I)|]. split.
  { intros ->. destruct (one_block _ _ _ _ I) as [?|(s & ? & _)]; [by left|right; by exists s]. }
  split.
  - intros n Hn. destruct (malloc_heap BASE grow Hg HB _ S fs al n I Hn) as (p & S' & fs' & E & _ & Hk & Hp). exists p, S'. split; [done|]. split; [done|].
    destruct (decide (p = 0)) as [->|N]; [left|right].
    + destruct Hp as [Hsh Hgr]. split; [done|]. split; [|done]. intros x s Hx. by apply (proj1 (Forall_forall _ _) Hsh) in Hx.
    + destruct Hp as (H1 & H2 & H3 & H4). done.
  - intros x s Hx. destruct (free_heap BASE HB _ S fs al x s I Hx) as (S' & fs' & E & _ & Hk). by exists S'.
Qed.

Definition demo_one : ust := match malloc 0x2000 grow_below (enough start) 100 start with Ok _ s => s | _ => start end.
Definition demo_two : ust := match malloc 0x2000 grow_below (enough demo_one) 8 demo_one with Ok _ s => s | _ => start end.
Lemma heap_safe_witness : exists S al, rtc (ustep 0x2000 grow_below) (start, ∅) (S, al) /\ al !! 0xBF80 = Some 2 /\
  (exists S', free (enough S) 0xBF88 S = Ok tt S') /\ exists p S', malloc 0x2000 grow_below (enough S) 40 S = Ok p S' /\ p <> 0.
Proof.
  set (al1 := <[0xBF90 := 14]> (∅ : gmap Z Z)). set (al2 := <[0xBF80 := 2]> al1).
  assert (rtc (ustep 0x2000 grow_below) (start, ∅) (demo_two, al2)) as R.
  { eapply rtc_l; [|eapply rtc_l; [|apply rtc_refl]].
    - apply (us_malloc 0x2000 grow_below start ∅ 100 0xBF98 demo_one); [unfold MAXREQUEST; lia|vm_compute; reflexivity].
    - apply (us_malloc 0x2000 grow_below demo_one al1 8 0xBF88 demo_two); [unfold MAXREQUEST; lia|vm_compute; reflexivity]. }
  destruct (heap_safe 0x2000 grow_below start demo_two al2) as (fs & _ & _ & _ & _ & Hm & Hf).
  - intros sz n _ H. unfold grow_below in H. by apply Z.ltb_lt in H.
  - lia.
  - reflexivity.
  - cbn. lia.
  - exact R.
  - exists demo_two, al2. split; [exact R|]. split; [reflexivity|]. split.
    + destruct (Hf 0xBF80 2 eq_refl) as (S' & E & _). exists S'. exact E.
    + destruct (Hm 40) as (p & S' & E & _ & Hp); [unfold MAXREQUEST; lia|]. exists p, S'. split; [exact E|].
      destruct Hp as [(-> & _ & Hg)|(Hp & _)]; [|cbn in Hp; lia]. revert Hg. vm_compute. discriminate.
Defined.
