(* ===== verification/Console.v ===== *)
(** * The console: p6/console.c

    The keyboard buffer and the lines that are read from it, the screen, and formatted
    output. The interrupt hands over the characters that the device has; the screen
    memory and the cursor registers of the controller are part of the state, and the
    serial line is the bytes sent on it. *)

From S2P Require Import Prelude Spinlock Sleeplock Ulib.

Definition BACKSPACE : Z := 0x100.
Definition INPUT_BUF : Z := 128.
(** [C('x')] is [C] of the character. *)
Definition C (x : Z) : Z := x - 64.

Record con := Con {
  c_lock : bool; locking : bool; panicked : bool;
  i_buf : list Z; i_r : Z; i_w : Z; i_e : Z;
  crt : list Z; cur_hi : Z; cur_lo : Z;
  serial : list Z; woken_readers : nat
}.
Definition set_clock v s := Con v (locking s) (panicked s) (i_buf s) (i_r s) (i_w s) (i_e s) (crt s) (cur_hi s) (cur_lo s) (serial s) (woken_readers s).
Definition set_input b r w e s := Con (c_lock s) (locking s) (panicked s) b r w e (crt s) (cur_hi s) (cur_lo s) (serial s) (woken_readers s).
Definition set_screen v h l s := Con (c_lock s) (locking s) (panicked s) (i_buf s) (i_r s) (i_w s) (i_e s) v h l (serial s) (woken_readers s).
Definition set_serial v s := Con (c_lock s) (locking s) (panicked s) (i_buf s) (i_r s) (i_w s) (i_e s) (crt s) (cur_hi s) (cur_lo s) v (woken_readers s).
Definition wake_readers s := Con (c_lock s) (locking s) (panicked s) (i_buf s) (i_r s) (i_w s) (i_e s) (crt s) (cur_hi s) (cur_lo s) (serial s) (S (woken_readers s)).
Definition acquire_cons : M con unit := zoom c_lock set_clock spin_acquire.
Definition release_cons : M con unit := zoom c_lock set_clock spin_release.

(** ** The screen *)

(** The cells of the screen memory: 25 rows. *)
Definition CELLS : nat := 2000.
Definition put_crt (i v : Z) : M con unit :=
  s ← gets id;
  if (0 <=? i) && (i <? Z.of_nat CELLS) then modify (set_screen (<[Z.to_nat i := v]> (crt s)) (cur_hi s) (cur_lo s)) else undef.
(** The character at [pos]; the result is the next position. *)
Definition cga_char (pos c : Z) : M con Z :=
  if c =? 10 then mret (pos + (80 - pos `mod` 80))
  else if c =? BACKSPACE then mret (if 0 <? pos then pos - 1 else pos)
  else put_crt pos (Z.lor (Z.land c 0xff) 0x700);; mret (pos + 1).
(** Scroll up when [pos] has left the window. *)
Definition cga_scroll (pos : Z) : M con Z :=
  if 24 <=? pos `div` 80 then
    modify (fun s => set_screen (take (23 * 80) (drop 80 (crt s)) ++ drop (23 * 80) (crt s)) (cur_hi s) (cur_lo s) s);;
    let pos := pos - 80 in
    let p := Z.to_nat pos in
    modify (fun s => set_screen (take p (crt s) ++ replicate (24 * 80 - p) 0 ++ drop (24 * 80) (crt s)) (cur_hi s) (cur_lo s) s);;
    mret pos
  else mret pos.
Definition cgaputc (c : Z) : M con unit :=
  s ← gets id;
  let pos := Z.lor (Z.shiftl (cur_hi s) 8) (cur_lo s) in
  pos ← cga_char pos c;
  if (pos <? 0) || (25 * 80 <? pos) then panic "pos under/overflow" else
  pos ← cga_scroll pos;
  modify (fun s => set_screen (crt s) (u8 (Z.shiftr pos 8)) (u8 pos) s);;
  put_crt pos (Z.lor 32 0x700).

Definition uartputc (c : Z) : M con unit := modify (fun s => set_serial (serial s ++ [u8 c]) s).
Definition consputc (c : Z) : M con unit :=
  p ← gets panicked;
  if (p : bool) then hang else
  (if c =? BACKSPACE then uartputc 8;; uartputc 32;; uartputc 8 else uartputc c);;
  cgaputc c.

(** ** The keyboard buffer *)

Definition at_buf (s : con) (i : Z) : Z := nth (Z.to_nat (i `mod` INPUT_BUF)) (i_buf s) 0.
(** The loop of kill line. *)
Fixpoint kill_line (fuel : nat) : M con unit :=
  match fuel with
  | O => hang
  | S fuel' =>
    s ← gets id;
    if negb (i_e s =? i_w s) && negb (at_buf s (u32 (i_e s - 1)) =? 10) then
      modify (set_input (i_buf s) (i_r s) (i_w s) (u32 (i_e s - 1)));;
      consputc BACKSPACE;;
      kill_line fuel'
    else mret tt
  end.
(** One character; the result is whether the process list is asked for. *)
Definition consolechar (c : Z) : M con bool :=
  if c =? C 80 then mret true
  else if c =? C 85 then kill_line 129;; mret false
  else if (c =? C 72) || (c =? 127) then
    s ← gets id;
    (if negb (i_e s =? i_w s) then
       modify (set_input (i_buf s) (i_r s) (i_w s) (u32 (i_e s - 1)));;
       consputc BACKSPACE
     else mret tt);;
    mret false
  else
    s ← gets id;
    (if negb (c =? 0) && (u32 (i_e s - i_r s) <? INPUT_BUF) then
       let c := if c =? 13 then 10 else c in
       modify (set_input (<[Z.to_nat (i_e s `mod` INPUT_BUF) := u8 c]> (i_buf s)) (i_r s) (i_w s) (u32 (i_e s + 1)));;
       consputc c;;
       s ← gets id;
       if (c =? 10) || (c =? C 68) || (i_e s =? u32 (i_r s + INPUT_BUF)) then
         modify (set_input (i_buf s) (i_r s) (i_e s) (i_e s));;
         modify wake_readers
       else mret tt
     else mret tt);;
    mret false.
Fixpoint consolechars (cs : list Z) (doprocdump : bool) : M con bool :=
  match cs with
  | [] => mret doprocdump
  | c :: cs' => d ← consolechar c; consolechars cs' (doprocdump || d)
  end.
(** The interrupt, with the characters that [getc] returns. *)
Definition consoleintr (cs : list Z) : M con bool :=
  acquire_cons;;
  d ← consolechars cs false;
  release_cons;;
  mret d.

(** The result of a turn of [consoleread] with the bytes stored in it: the value returned,
    or asleep with [n] bytes to go. *)
Inductive cread := CDone (v : Z) (l : list Z) | CSleep (n : Z) (l : list Z).
Fixpoint cread_loop (fuel : nat) (killed : bool) (target n : Z) (l : list Z) : M con cread :=
  match fuel with
  | O => hang
  | S fuel' =>
    if 0 <? n then
      s ← gets id;
      if i_r s =? i_w s then
        release_cons;;
        mret (if killed then CDone (-1) l else CSleep n l)
      else
        let c := at_buf s (i_r s) in
        modify (set_input (i_buf s) (u32 (i_r s + 1)) (i_w s) (i_e s));;
        if c =? C 68 then
          (if n <? target then modify (fun s => set_input (i_buf s) (u32 (i_r s - 1)) (i_w s) (i_e s) s) else mret tt);;
          release_cons;;
          mret (CDone (s32 (target - n)) l)
        else if c =? 10 then release_cons;; mret (CDone (s32 (target - (n - 1))) (l ++ [c]))
        else cread_loop fuel' killed target (n - 1) (l ++ [c])
    else release_cons;; mret (CDone (s32 (target - n)) l)
  end.
(** A turn that begins with [n] of the [target] bytes to go. *)
Definition cread_turn (killed : bool) (target n : Z) : M con cread :=
  acquire_cons;; cread_loop (S (Z.to_nat n)) killed target n [].
Definition consoleread (killed : bool) (n : Z) : M con cread := cread_turn killed (u32 n) n.

(** ** Output *)

Fixpoint consputs (l : list Z) : M con unit :=
  match l with [] => mret tt | c :: l' => consputc c;; consputs l' end.
Definition consolewrite (buf : list Z) : M con Z :=
  acquire_cons;;
  consputs (map (fun c => Z.land c 0xff) buf);;
  release_cons;;
  mret (Z.of_nat (length buf)).

(** ** cprintf *)

Definition KDIGITS : list Z := bytes_of "0123456789abcdef".
Fixpoint kprintint_loop (room : nat) (x base : Z) : option (list Z) :=
  match room with
  | O => None
  | S room' =>
    let d := nth (Z.to_nat (x `mod` base)) KDIGITS 0 in
    let x' := x `div` base in
    if negb (x' =? 0) then option_map (cons d) (kprintint_loop room' x' base) else Some [d]
  end.
Definition kprintint (xx base : Z) (sign : bool) : M con unit :=
  let neg := sign && (xx <? 0) in
  let x := if neg then u32 (- xx) else u32 xx in
  buf ← of_option (kprintint_loop 16 x base);
  if neg then if (length buf <? 16)%nat then consputs (rev (buf ++ [45])) else undef
  else consputs (rev buf).
(** The format [fmt] with its terminator, the words [ap] of the arguments, and the byte at
    an address. *)
Fixpoint cprintf_loop (mem : Z -> Z) (fuel : nat) (fmt ap : list Z) {struct fmt} : M con unit :=
  match fmt with
  | [] => undef
  | b :: fmt1 =>
    let c := Z.land b 0xff in
    if c =? 0 then mret tt else
    if negb (c =? 37) then consputc c;; cprintf_loop mem fuel fmt1 ap else
    match fmt1 with
    | [] => undef
    | b :: fmt2 =>
      let c := Z.land b 0xff in
      if c =? 0 then mret tt
      else if c =? 100 then match ap with [] => undef | w :: ap' => kprintint (s32 w) 10 true;; cprintf_loop mem fuel fmt2 ap' end
      else if (c =? 120) || (c =? 112) then match ap with [] => undef | w :: ap' => kprintint (s32 w) 16 false;; cprintf_loop mem fuel fmt2 ap' end
      else if c =? 115 then
        match ap with
        | [] => undef
        | w :: ap' =>
          l ← of_option (if w =? 0 then Some (bytes_of "(null)") else put_string mem fuel w);
          consputs l;; cprintf_loop mem fuel fmt2 ap'
        end
      else if c =? 37 then consputc 37;; cprintf_loop mem fuel fmt2 ap
      else consputc 37;; consputc c;; cprintf_loop mem fuel fmt2 ap
    end
  end.
Definition cprintf (mem : Z -> Z) (fuel : nat) (fmt ap : list Z) : M con unit :=
  l ← gets locking;
  (if (l : bool) then acquire_cons else mret tt);;
  cprintf_loop mem fuel fmt ap;;
  if (l : bool) then release_cons else mret tt.
Definition consoleinit : M con unit := modify (fun s => Con false true (panicked s) (i_buf s) (i_r s) (i_w s) (i_e s) (crt s) (cur_hi s) (cur_lo s) (serial s) (woken_readers s)).

(** ** The screen as a window *)

(** A teletype with unbounded paper in lines of 80 cells: its cells, the first one of the
    window of 24 lines, and where it prints. *)
Record tele := Tele { t_cell : Z -> Z; t_top : Z; t_pos : Z }.
Definition ink (f : Z -> Z) (i v : Z) : Z -> Z := fun j => if decide (j = i) then v else f j.
Definition glyph (c : Z) : Z := Z.lor (Z.land c 0xff) 0x700.
Definition tele_put (t : tele) (c : Z) : tele :=
  let f := if (c =? 10) || (c =? BACKSPACE) then t_cell t else ink (t_cell t) (t_pos t) (glyph c) in
  let p := if c =? 10 then t_pos t + (80 - t_pos t `mod` 80) else if c =? BACKSPACE then Z.max (t_top t) (t_pos t - 1) else t_pos t + 1 in
  Tele (ink f p (glyph 32)) (if t_top t + 24 * 80 <=? p then t_top t + 80 else t_top t) p.

Definition cursor (s : con) : Z := 256 * cur_hi s + cur_lo s.
Record shows (s : con) (t : tele) : Prop := {
  sh_len : length (crt s) = CELLS;
  sh_reg : 0 <= cur_lo s < 256 /\ 0 <= cur_hi s;
  sh_pos : 0 <= cursor s < 24 * 80 /\ t_pos t = t_top t + cursor s;
  sh_row : t_top t `mod` 80 = 0;
  sh_cell : forall i, 0 <= i < 24 * 80 -> nth (Z.to_nat i) (crt s) 0 = t_cell t (t_top t + i);
  sh_blank : forall j, t_top t + 24 * 80 <= j -> t_cell t j = 0
}.
(** [s'] is [s] but for what is on the screen and sent on the line. *)
Definition same_input (s s' : con) : Prop :=
  c_lock s' = c_lock s /\ locking s' = locking s /\ panicked s' = panicked s /\ i_buf s' = i_buf s /\ i_r s' = i_r s /\ i_w s' = i_w s /\ i_e s' = i_e s /\ woken_readers s' = woken_readers s.

Lemma lor_bytes h l : 0 <= l < 256 -> Z.lor (Z.shiftl h 8) l = 256 * h + l.
Proof.
  intros Hl. rewrite <- Z.add_nocarry_lor.
  - rewrite Z.shiftl_mul_pow2 by lia. lia.
  - apply Z.bits_inj'. intros n Hn. rewrite Z.land_spec, Z.bits_0, Z.shiftl_spec by done. destruct (Z.ltb_spec n 8).
    + by rewrite Z.testbit_neg_r by lia.
    + rewrite (Z.bits_above_log2 l n), andb_false_r; [done|lia|]. destruct (decide (l = 0)) as [->|]; [cbn; lia|]. apply Z.log2_lt_pow2; [lia|].
      apply Z.lt_le_trans with (2 ^ 8); [lia|]. apply Z.pow_le_mono_r; lia.
Qed.

Lemma put_crt_ok s i v : 0 <= i < Z.of_nat CELLS -> put_crt i v s = Ok tt (set_screen (<[Z.to_nat i := v]> (crt s)) (cur_hi s) (cur_lo s) s).
Proof.
  intros Hi. unfold put_crt. rewrite bind_gets. rewrite (proj2 (Z.leb_le 0 i)), (proj2 (Z.ltb_lt i _)) by lia. done.
Qed.
Lemma nth_insert_list (l : list Z) i j v : (i < length l)%nat -> nth j (<[i := v]> l) 0 = if decide (i = j) then v else nth j l 0.
Proof.
  intros Hi. rewrite !nth_lookup. rewrite list_lookup_insert. destruct (decide (i = j)) as [->|N].
  - by rewrite decide_True.
  - rewrite decide_False by (intros [? _]; done). done.
Qed.

(** What the character [c] does to the paper, and where the next one goes. *)
Definition paper (t : tele) (c : Z) : Z -> Z := if (c =? 10) || (c =? BACKSPACE) then t_cell t else ink (t_cell t) (t_pos t) (glyph c).
Definition next_pos (t : tele) (c : Z) : Z :=
  if c =? 10 then t_pos t + (80 - t_pos t `mod` 80) else if c =? BACKSPACE then Z.max (t_top t) (t_pos t - 1) else t_pos t + 1.
Definition window (s : con) (top : Z) (f : Z -> Z) : Prop := length (crt s) = CELLS /\ forall i, 0 <= i < 24 * 80 -> nth (Z.to_nat i) (crt s) 0 = f (top + i).
Definition same_line (s s' : con) : Prop := same_input s s' /\ serial s' = serial s.

Lemma cga_char_ok s t c : shows s t -> exists s1 p1, cga_char (cursor s) c s = Ok p1 s1 /\ 0 <= p1 <= 24 * 80 /\ t_top t + p1 = next_pos t c /\
  window s1 (t_top t) (paper t c) /\ same_line s s1.
Proof.
  intros [Hlen [Hlo Hhi] [Hc Hp] Hrow Hcell Hbl]. unfold cga_char, next_pos, paper. set (pos := cursor s) in *.
  assert (t_pos t `mod` 80 = pos `mod` 80) as Hm.
  { rewrite Hp. rewrite Z.add_mod, Hrow, Z.add_0_l, Z.mod_mod by lia. done. }
  destruct (Z.eqb_spec c 10) as [->|N10]; [|destruct (Z.eqb_spec c BACKSPACE) as [->|NB]]; cbn [orb].
  - eexists s, _. split; [reflexivity|]. rewrite Hm. split; [Z.div_mod_to_equations; lia|]. split; [lia|done].
  - eexists s, _. split; [reflexivity|]. split; [destruct (Z.ltb_spec 0 pos); lia|]. split; [destruct (Z.ltb_spec 0 pos); lia|done].
  - assert (0 <= pos < Z.of_nat CELLS) as Hpc by (unfold CELLS; lia). rewrite (bind_Ok _ _ _ _ _ (put_crt_ok s pos _ Hpc)).
    eexists _, _. split; [reflexivity|]. split; [lia|]. split; [lia|]. split; [|done]. split; [cbn [crt set_screen]; by rewrite length_insert|].
    intros i Hi. cbn [crt set_screen]. rewrite nth_insert_list by (rewrite Hlen; unfold CELLS in *; lia). unfold ink, glyph.
    destruct (decide (Z.to_nat pos = Z.to_nat i)); destruct (decide (t_top t + i = t_pos t)); try lia. by apply Hcell.
Qed.

Lemma cga_scroll_ok s top f p : 0 <= p <= 24 * 80 -> window s top f -> (forall j, top + 24 * 80 <= j -> f j = 0) ->
  exists s' p', cga_scroll p s = Ok p' s' /\ 0 <= p' < 24 * 80 /\ same_line s s' /\
    let top' := if 24 * 80 <=? p then top + 80 else top in top' + p' = top + p /\ window s' top' f.
Proof.
  intros Hp [Hlen Hw] Hf. unfold cga_scroll. assert ((24 <=? p `div` 80) = (24 * 80 <=? p)) as ->.
  { destruct (Z.leb_spec 24 (p `div` 80)), (Z.leb_spec (24 * 80) p); try done; Z.div_mod_to_equations; lia. }
  destruct (Z.leb_spec (24 * 80) p); [|exists s, p; split; [done|]; split; [lia|]; done].
  assert (p = 24 * 80) as -> by lia. rewrite bind_modify, bind_modify. eexists _, _. split; [reflexivity|]. split; [lia|]. split; [done|]. split; [lia|].
  unfold window. cbn [crt set_screen cur_hi cur_lo]. set (l := take (23 * 80) (drop 80 (crt s)) ++ drop (23 * 80) (crt s)).
  assert (length l = CELLS) as Ll by (unfold l; rewrite length_app, length_take, !length_drop, Hlen; unfold CELLS; lia).
  assert (Z.to_nat (24 * 80 - 80) = 1840%nat) as -> by lia. change (24 * 80 - 1840)%nat with 80%nat. change (24 * 80)%nat with 1920%nat.
  split; [rewrite !length_app, length_take, length_replicate, length_drop, Ll; unfold CELLS; lia|].
  intros i Hi. rewrite !nth_lookup. destruct (decide (i < 1840)).
  - rewrite lookup_app_l by (rewrite length_take, Ll; unfold CELLS; lia). rewrite lookup_take by lia. unfold l.
    rewrite lookup_app_l by (rewrite length_take, length_drop, Hlen; unfold CELLS; lia).
    rewrite lookup_take by lia. rewrite lookup_drop, !decide_True by lia. rewrite <- nth_lookup.
    replace (80 + Z.to_nat i)%nat with (Z.to_nat (80 + i)) by lia. rewrite Hw by lia. f_equal. lia.
  - rewrite lookup_app_r by (rewrite length_take, Ll; unfold CELLS; lia). rewrite length_take, Ll. rewrite lookup_app_l by (rewrite length_replicate; unfold CELLS; lia).
    rewrite lookup_replicate_2 by (unfold CELLS; lia). cbn [default from_option id]. symmetry. apply Hf. lia.
Qed.

Lemma cgaputc_shows s t c : shows s t -> exists s', cgaputc c s = Ok tt s' /\ shows s' (tele_put t c) /\ same_line s s'.
Proof.
  intros H. pose proof H as [_ [Hlo Hhi] _ Hrow _ Hbl]. unfold cgaputc. rewrite bind_gets. unfold id. rewrite lor_bytes by done. fold (cursor s). cbv zeta.
  destruct (cga_char_ok s t c H) as (s1 & p1 & E1 & R1 & P1 & W1 & I1 & S1). mstep E1.
  assert (forall j, t_top t + 24 * 80 <= j -> paper t c j = 0) as Hf.
  { pose proof H as [_ _ [Hc Hp] _ _ _]. intros j Hj. unfold paper. destruct ((c =? 10) || (c =? BACKSPACE)); [by apply Hbl|]. unfold ink. rewrite decide_False by lia. by apply Hbl. }
  assert ((p1 <? 0) || (25 * 80 <? p1) = false) as -> by (apply orb_false_iff; lia).
  destruct (cga_scroll_ok s1 (t_top t) (paper t c) p1 R1 W1 Hf) as (s2 & p2 & E2 & R2 & [I2 S2] & P2 & L2 & C2). mstep E2.
  rewrite bind_modify. assert (0 <= p2 < Z.of_nat CELLS) as Hp2 by (unfold CELLS; lia). rewrite put_crt_ok by done. cbn [crt set_screen cur_hi cur_lo].
  eexists. split; [reflexivity|]. unfold tele_put. fold (paper t c) (next_pos t c). cbv zeta. rewrite <- P1.
  assert ((t_top t + 24 * 80 <=? t_top t + p1) = (24 * 80 <=? p1)) as -> by (destruct (Z.leb_spec (24 * 80) p1), (Z.leb_spec (t_top t + 24 * 80) (t_top t + p1)); try done; lia).
  set (top := if 24 * 80 <=? p1 then t_top t + 80 else t_top t) in *.
  assert (u8 (Z.shiftr p2 8) = p2 `div` 256) as Ehi by (rewrite Z.shiftr_div_pow2 by lia; unfold u8; rewrite Z.mod_small; [done|]; Z.div_mod_to_equations; lia).
  split; [|split; [|cbn [serial set_screen]; congruence]].
  - split; unfold cursor; cbn [crt set_screen cur_hi cur_lo t_top t_cell t_pos]; rewrite ?Ehi.
    + by rewrite length_insert.
    + split; [apply u8_range|]. Z.div_mod_to_equations. lia.
    + unfold u8. split; [Z.div_mod_to_equations; lia|]. rewrite <- P2. Z.div_mod_to_equations; lia.
    + unfold top. destruct (24 * 80 <=? p1); [|done]. rewrite Z.add_mod, Hrow by lia. done.
    + intros i Hi. rewrite nth_insert_list by (rewrite L2; unfold CELLS in *; lia). unfold ink. destruct (decide (Z.to_nat p2 = Z.to_nat i)), (decide (top + i = t_top t + p1)); try lia; [done|by apply C2].
    + intros j Hj. unfold ink. assert (t_top t <= top) by (unfold top; destruct (24 * 80 <=? p1); lia). rewrite decide_False by lia. apply Hf. lia.
  - destruct I1 as (J1 & J2 & J3 & J4 & J5 & J6 & J7 & J8), I2 as (K1 & K2 & K3 & K4 & K5 & K6 & K7 & K8). unfold same_input. cbn. repeat split; congruence.
Qed.

(** What the characters [out] do to the screen and the serial line. *)
Definition line_bytes (c : Z) : list Z := if c =? BACKSPACE then [8; 32; 8] else [u8 c].
Definition wrote (s s' : con) (out : list Z) : Prop :=
  (forall t, shows s t -> shows s' (fold_left tele_put out t)) /\ serial s' = serial s ++ concat (map line_bytes out).
Lemma wrote_nil s s' : crt s' = crt s -> cur_hi s' = cur_hi s -> cur_lo s' = cur_lo s -> serial s' = serial s -> wrote s s' [].
Proof.
  intros E1 E2 E3 E4. split; [|by rewrite E4, app_nil_r]. intros t [H1 H2 H3 H4 H5 H6].
  split; unfold cursor in *; rewrite ?E1, ?E2, ?E3; done.
Qed.
Lemma wrote_app s s1 s2 o1 o2 : wrote s s1 o1 -> wrote s1 s2 o2 -> wrote s s2 (o1 ++ o2).
Proof.
  intros [H1 E1] [H2 E2]. split; [|by rewrite E2, E1, map_app, concat_app, app_assoc]. intros t Ht. rewrite fold_left_app. by apply H2, H1.
Qed.
Lemma same_input_trans s s1 s2 : same_input s s1 -> same_input s1 s2 -> same_input s s2.
Proof. intros (?&?&?&?&?&?&?&?) (?&?&?&?&?&?&?&?). unfold same_input. repeat split; congruence. Qed.

(** The screen has a window to show. *)
Definition screen_ok (s : con) : Prop := panicked s = false /\ exists t, shows s t.
Lemma screen_ok_start s : panicked s = false -> length (crt s) = CELLS -> 0 <= cur_lo s < 256 -> 0 <= cur_hi s -> cursor s < 24 * 80 -> screen_ok s.
Proof.
  intros Hp Hl Hlo Hhi Hc. split; [done|]. exists (Tele (fun j => if decide (j < 24 * 80) then nth (Z.to_nat j) (crt s) 0 else 0) 0 (cursor s)).
  split; cbn [t_top t_pos t_cell]; try done.
  - unfold cursor in *. lia.
  - intros i Hi. by rewrite decide_True by lia.
  - intros j Hj. by rewrite decide_False by lia.
Qed.

Lemma consputc_ok s c : screen_ok s -> exists s', consputc c s = Ok tt s' /\ wrote s s' [c] /\ same_input s s' /\ screen_ok s'.
Proof.
  intros [Hp [t Ht]]. unfold consputc. rewrite bind_gets, Hp.
  assert (exists s1, (if c =? BACKSPACE then uartputc 8;; uartputc 32;; uartputc 8 else uartputc c) s = Ok tt s1 /\ serial s1 = serial s ++ line_bytes c /\
    same_input s s1 /\ (forall t, shows s t -> shows s1 t)) as (s1 & E1 & Es & I1 & H1).
  { unfold line_bytes. destruct (c =? BACKSPACE); eexists; (split; [reflexivity|]); cbn [serial set_serial]; rewrite <- ?app_assoc; (split; [done|]); (split; [done|]);
      intros t' [? ? ? ? ? ?]; by split. }
  mstep E1. destruct (cgaputc_shows s1 t c) as (s2 & E2 & H2 & I2 & S2); [by apply H1|]. exists s2. split; [exact E2|].
  split; [split|split].
  - intros t' Ht'. destruct (cgaputc_shows s1 t' c) as (s2' & E2' & H2' & _); [by apply H1|]. rewrite E2 in E2'. by injection E2' as <-.
  - cbn [map concat]. by rewrite app_nil_r, S2, Es.
  - by eapply same_input_trans.
  - split; [|by eexists]. destruct I1 as (_ & _ & P1 & _), I2 as (_ & _ & P2 & _). congruence.
Qed.

Lemma consputs_ok out s : screen_ok s -> exists s', consputs out s = Ok tt s' /\ wrote s s' out /\ same_input s s' /\ screen_ok s'.
Proof.
  revert s. induction out as [|c out IH]; intros s H.
  - exists s. split; [done|]. split; [by apply wrote_nil|done].
  - destruct (consputc_ok s c H) as (s1 & E1 & W1 & I1 & H1). destruct (IH s1 H1) as (s2 & E2 & W2 & I2 & H2).
    exists s2. cbn [consputs]. rewrite (bind_Ok _ _ _ _ _ E1). split; [done|]. split; [by apply (wrote_app s s1 s2 [c])|]. split; [by eapply same_input_trans|done].
Qed.

(** ** The keyboard buffer as a queue of lines *)

(** [ready] can be read; [edit] is the line being typed. *)
Record input_is (s : con) (ready edit : list Z) : Prop := {
  ii_len : length (i_buf s) = 128%nat;
  ii_r : is_u32 (i_r s);
  ii_w : i_w s = u32 (i_r s + Z.of_nat (length ready));
  ii_e : i_e s = u32 (i_r s + Z.of_nat (length (ready ++ edit)));
  ii_room : (length (ready ++ edit) <= 128)%nat;
  ii_char : forall k c, (ready ++ edit) !! k = Some c -> at_buf s (i_r s + Z.of_nat k) = c;
  ii_line : Forall (fun c => c <> 10) edit
}.
Definition tty_char (ready edit : list Z) (c : Z) : list Z * list Z * list Z :=
  if c =? C 80 then (ready, edit, [])
  else if c =? C 85 then (ready, [], replicate (length edit) BACKSPACE)
  else if (c =? C 72) || (c =? 127) then match edit with [] => (ready, edit, []) | _ => (ready, removelast edit, [BACKSPACE]) end
  else if negb (c =? 0) && (length (ready ++ edit) <? 128)%nat then
    let c := if c =? 13 then 10 else c in
    let edit := edit ++ [c] in
    if (c =? 10) || (c =? C 68) || (length (ready ++ edit) =? 128)%nat then (ready ++ edit, [], [c]) else (ready, edit, [c])
  else (ready, edit, []).

Lemma mod_u32 x : u32 x `mod` INPUT_BUF = x `mod` INPUT_BUF.
Proof. unfold u32, INPUT_BUF. change (2 ^ 32) with (128 * 2 ^ 25). rewrite Z.rem_mul_r by lia. rewrite Z.mul_comm, Z.mod_add, Z.mod_mod by lia. done. Qed.
Lemma at_buf_u32 s x : at_buf s (u32 x) = at_buf s x.
Proof. unfold at_buf. by rewrite mod_u32. Qed.
Lemma u32_plus x y : u32 (u32 x + y) = u32 (x + y).
Proof. unfold u32. by rewrite Zplus_mod_idemp_l. Qed.
Lemma u32_inj_small x a b : 0 <= a <= 128 -> 0 <= b <= 128 -> u32 (x + a) = u32 (x + b) -> a = b.
Proof. intros Ha Hb H. unfold u32 in H. Z.div_mod_to_equations. lia. Qed.

Lemma input_same s s' ready edit : same_input s s' -> input_is s ready edit -> input_is s' ready edit.
Proof.
  intros (_ & _ & _ & E1 & E2 & E3 & E4 & _) [H1 H2 H3 H4 H5 H6 H7]. split; unfold at_buf in *; rewrite ?E1, ?E2, ?E3, ?E4; done.
Qed.
(** The last character of the line being typed is taken back. *)
Lemma input_back s ready edit c : input_is s ready (edit ++ [c]) ->
  i_e s <> i_w s /\ u32 (i_e s - 1) = u32 (i_r s + Z.of_nat (length (ready ++ edit))) /\ at_buf s (u32 (i_e s - 1)) = c /\
  input_is (set_input (i_buf s) (i_r s) (i_w s) (u32 (i_e s - 1)) s) ready edit.
Proof.
  intros [H1 H2 H3 H4 H5 H6 H7]. rewrite app_assoc, length_app in H4, H5. cbn [length] in H4, H5.
  assert (u32 (i_e s - 1) = u32 (i_r s + Z.of_nat (length (ready ++ edit)))) as E.
  { rewrite H4. replace (u32 _ - 1) with (u32 (i_r s + Z.of_nat (length (ready ++ edit) + 1)) + -1) by lia. rewrite u32_plus. f_equal. lia. }
  split; [|split; [done|split]].
  - rewrite H3, H4. intros Ee. apply u32_inj_small in Ee; rewrite length_app in *; lia.
  - rewrite E, at_buf_u32. apply H6. rewrite app_assoc. rewrite lookup_app_r, Nat.sub_diag by lia. done.
  - apply Forall_app in H7 as [H7 _]. split; cbn [i_buf i_r i_w i_e set_input]; try done; [lia|].
    intros k d Hk. apply (H6 k). rewrite app_assoc, lookup_app_l; [done|]. by apply lookup_lt_Some in Hk.
Qed.
Lemma input_nothing s ready : input_is s ready [] -> i_e s = i_w s.
Proof. intros [H1 H2 H3 H4 _ _ _]. by rewrite H3, H4, app_nil_r. Qed.

Lemma kill_line_ok ready edit : forall s fuel, input_is s ready edit -> screen_ok s -> (length edit < fuel)%nat ->
  exists s', kill_line fuel s = Ok tt s' /\ input_is s' ready [] /\ wrote s s' (replicate (length edit) BACKSPACE) /\ screen_ok s' /\
    c_lock s' = c_lock s /\ woken_readers s' = woken_readers s.
Proof.
  induction edit as [|c edit IH] using rev_ind; intros s fuel Hi Hs Hf; (destruct fuel as [|fuel]; [lia|]); cbn [kill_line]; rewrite bind_gets; unfold id.
  - rewrite (input_nothing s ready Hi), Z.eqb_refl. cbn [negb andb]. exists s. split; [done|]. split; [done|]. split; [by apply wrote_nil|done].
  - destruct (input_back s ready edit c Hi) as (Hne & _ & Hat & Hi'). assert (c <> 10) as Hc by (pose proof (ii_line _ _ _ Hi) as H; by apply Forall_app in H as [_ [? _]%Forall_cons]).
    rewrite (proj2 (Z.eqb_neq _ _) Hne), Hat, (proj2 (Z.eqb_neq c 10)) by done. cbn [negb andb]. rewrite bind_modify.
    set (s1 := set_input _ _ _ _ s) in *. assert (screen_ok s1) as Hs1 by (destruct Hs as [? [t [? ? ? ? ? ?]]]; split; [done|]; exists t; by split).
    destruct (consputc_ok s1 BACKSPACE Hs1) as (s2 & E2 & W2 & I2 & Hs2). rewrite (bind_Ok _ _ _ _ _ E2).
    rewrite length_app in Hf |- *. cbn [length] in Hf |- *.
    destruct (IH s2 fuel) as (s3 & E3 & Hi3 & W3 & Hs3 & L3 & K3); [by apply (input_same s1)|done|lia|].
    exists s3. split; [done|]. split; [done|]. split; [|split; [done|]].
    + rewrite Nat.add_comm. apply (wrote_app s s2 s3 [BACKSPACE]); [|done]. apply (wrote_app s s1 s2 [] [BACKSPACE]); [by apply wrote_nil|done].
    + destruct I2 as (J1 & _ & _ & _ & _ & _ & _ & J8). split; [by rewrite L3, J1|by rewrite K3, J8].
Qed.

Lemma screen_ok_input s b r w e : screen_ok s -> screen_ok (set_input b r w e s).
Proof. intros [? [t [? ? ? ? ? ?]]]. split; [done|]. exists t. by split. Qed.

(** A character is put at the end of the line. *)
Lemma input_add s ready edit c : input_is s ready edit -> (length (ready ++ edit) < 128)%nat -> 0 <= c < 256 -> (c <> 10 -> True) ->
  let s' := set_input (<[Z.to_nat (i_e s `mod` INPUT_BUF) := u8 c]> (i_buf s)) (i_r s) (i_w s) (u32 (i_e s + 1)) s in
  (forall k d, (ready ++ edit ++ [c]) !! k = Some d -> at_buf s' (i_r s + Z.of_nat k) = d) /\
  i_e s' = u32 (i_r s + Z.of_nat (length (ready ++ edit ++ [c]))) /\ length (i_buf s') = 128%nat.
Proof.
  intros [H1 H2 H3 H4 H5 H6 H7] Hn Hc _ s'. cbn [i_e i_buf s' set_input]. split; [|split; [|by rewrite length_insert]].
  - intros k d Hk. unfold at_buf. cbn [i_buf set_input s'].
    assert ((i_r s + Z.of_nat k) `mod` INPUT_BUF < 128 /\ 0 <= (i_r s + Z.of_nat k) `mod` INPUT_BUF) as Hb by (unfold INPUT_BUF; split; apply Z.mod_pos_bound; lia).
    assert (i_e s `mod` INPUT_BUF < 128 /\ 0 <= i_e s `mod` INPUT_BUF) as Hb' by (unfold INPUT_BUF; split; apply Z.mod_pos_bound; lia).
    rewrite nth_insert_list by (rewrite H1; lia). rewrite app_assoc in Hk. pose proof Hk as Hlt. apply lookup_lt_Some in Hlt. rewrite length_app in Hlt. cbn [length] in Hlt.
    rewrite H4, mod_u32 in *. destruct (decide (k = length (ready ++ edit))) as [->|N].
    + rewrite lookup_app_r, Nat.sub_diag in Hk by lia. injection Hk as <-. rewrite decide_True by done. by apply u8_small.
    + rewrite decide_False.
      * rewrite lookup_app_l in Hk by lia. by apply (H6 k).
      * intros E. apply N. apply (f_equal Z.of_nat) in E. rewrite !Z2Nat.id in E by lia. unfold INPUT_BUF in E. Z.div_mod_to_equations. lia.
  - rewrite H4, u32_plus, !length_app. cbn [length]. f_equal. lia.
Qed.

Definition outcome_of (x : list Z * list Z * list Z) : list Z := x.2.
(** What a step of the keyboard leaves: the new lines are announced to the readers. *)
Definition typed (s s' : con) (ready ready' edit' out : list Z) : Prop :=
  input_is s' ready' edit' /\ wrote s s' out /\ screen_ok s' /\ c_lock s' = c_lock s /\ (ready' = ready \/ (woken_readers s < woken_readers s')%nat) /\ (woken_readers s <= woken_readers s')%nat.

Lemma consolechar_ok s ready edit c : input_is s ready edit -> screen_ok s -> 0 <= c < 256 ->
  exists d s' ready' edit' out, consolechar c s = Ok d s' /\ tty_char ready edit c = (ready', edit', out) /\ typed s s' ready ready' edit' out.
Proof.
  intros Hi Hs Hc. unfold consolechar, tty_char. destruct (c =? C 80).
  { exists true, s, ready, edit, []. split; [done|]. split; [done|]. split; [done|]. split; [by apply wrote_nil|]. auto. }
  destruct (c =? C 85).
  { destruct (kill_line_ok ready edit s 129 Hi Hs) as (s' & E & Hi' & W & Hs' & L & K).
    { pose proof (ii_room _ _ _ Hi) as H. rewrite length_app in H. lia. }
    exists false, s', ready, [], (replicate (length edit) BACKSPACE). rewrite (bind_Ok _ _ _ _ _ E). split; [done|]. split; [done|]. split; [done|]. split; [done|]. split; [done|]. split; [done|]. split; [auto|lia]. }
  destruct ((c =? C 72) || (c =? 127)).
  { rewrite bind_gets. unfold id. destruct edit as [|x edit _] using rev_ind.
    - rewrite (input_nothing s ready Hi), Z.eqb_refl. exists false, s, ready, [], []. split; [done|]. split; [done|]. split; [done|]. split; [by apply wrote_nil|]. auto.
    - destruct (input_back s ready edit x Hi) as (Hne & _ & _ & Hi'). rewrite (proj2 (Z.eqb_neq _ _) Hne). cbn [negb]. rewrite bind_assoc, bind_modify.
      set (s1 := set_input _ _ _ _ s) in *. destruct (consputc_ok s1 BACKSPACE) as (s2 & E2 & W2 & I2 & Hs2); [by apply screen_ok_input|].
      rewrite (bind_Ok _ _ _ _ _ E2). exists false, s2, ready, edit, [BACKSPACE]. split; [done|]. split; [rewrite removelast_last; by destruct edit|].
      pose proof I2 as (J1 & _ & _ & _ & _ & _ & _ & J8). split; [by apply (input_same s1)|]. split; [apply (wrote_app s s1 s2 [] [BACKSPACE]); [by apply wrote_nil|done]|].
      split; [done|]. split; [done|]. rewrite J8. auto. }
  rewrite bind_gets. unfold id.
  assert ((u32 (i_e s - i_r s) <? INPUT_BUF) = (length (ready ++ edit) <? 128)%nat) as ->.
  { pose proof (ii_room _ _ _ Hi) as Hr. rewrite (ii_e _ _ _ Hi). unfold INPUT_BUF.
    assert (u32 (u32 (i_r s + Z.of_nat (length (ready ++ edit))) - i_r s) = Z.of_nat (length (ready ++ edit))) as ->.
    { unfold Z.sub. rewrite u32_plus. replace (i_r s + Z.of_nat (length (ready ++ edit)) + - i_r s) with (Z.of_nat (length (ready ++ edit))) by lia. apply u32_small. unfold is_u32. lia. }
    destruct (Z.ltb_spec (Z.of_nat (length (ready ++ edit))) 128), (Nat.ltb_spec (length (ready ++ edit)) 128); try done; lia. }
  destruct (negb (c =? 0) && (length (ready ++ edit) <? 128)%nat) eqn:Eroom.
  2: { exists false, s, ready, edit, []. split; [done|]. split; [done|]. split; [done|]. split; [by apply wrote_nil|]. auto. }
  apply andb_true_iff in Eroom as [_ Hroom%Nat.ltb_lt]. cbv zeta. set (x := if c =? 13 then 10 else c).
  assert (0 <= x < 256) as Hx by (unfold x; destruct (c =? 13); lia).
  destruct (input_add s ready edit x Hi Hroom Hx ltac:(done)) as (A1 & A2 & A3). set (s1 := set_input _ _ _ _ s) in *.
  rewrite bind_assoc, bind_modify. fold s1. destruct (consputc_ok s1 x) as (s2 & E2 & W2 & I2 & Hs2); [by apply screen_ok_input|].
  rewrite bind_assoc. rewrite (bind_Ok _ _ _ _ _ E2). rewrite bind_assoc, bind_gets.
  pose proof I2 as (J1 & _ & _ & J4 & J5 & J6 & J7 & J8).
  assert (length (ready ++ edit ++ [x]) <= 128)%nat as Hlen by (rewrite app_assoc, length_app; cbn [length]; lia).
  assert ((i_e s2 =? u32 (i_r s2 + INPUT_BUF)) = (length (ready ++ edit ++ [x]) =? 128)%nat) as ->.
  { rewrite J7, J5, A2. change (i_r s1) with (i_r s). unfold INPUT_BUF. destruct (Nat.eqb_spec (length (ready ++ edit ++ [x])) 128) as [->|N]; [apply Z.eqb_refl|].
    apply Z.eqb_neq. intros E. apply N. apply u32_inj_small in E; lia. }
  assert (wrote s s2 [x]) as W by (apply (wrote_app s s1 s2 [] [x]); [by apply wrote_nil|done]).
  assert (forall k d, (ready ++ edit ++ [x]) !! k = Some d -> at_buf s2 (i_r s2 + Z.of_nat k) = d) as Hat.
  { intros k d Hk. unfold at_buf. rewrite J4, J5. by apply A1. }
  destruct ((x =? 10) || (x =? C 68) || (length (ready ++ edit ++ [x]) =? 128)%nat) eqn:Ecommit.
  - rewrite bind_assoc, !bind_modify. set (s3 := wake_readers _). exists false, s3, (ready ++ edit ++ [x]), [], [x]. split; [done|]. split; [done|].
    assert (i_w s3 = u32 (i_r s3 + Z.of_nat (length (ready ++ edit ++ [x]))) /\ i_e s3 = i_w s3) as [Ew Ee].
    { split; [|done]. cbn. rewrite J7, J5. exact A2. }
    split; [|split; [|split; [|split; [|split]]]].
    + split; rewrite ?app_nil_r; try done; [by change (length (i_buf s2) = 128%nat); rewrite J4|change (is_u32 (i_r s2)); rewrite J5; apply (ii_r _ _ _ Hi)].
    + rewrite <- (app_nil_r [x]). apply (wrote_app s s2 s3 [x] []); [done|by apply wrote_nil].
    + destruct Hs2 as [? [t [? ? ? ? ? ?]]]; split; [done|]; exists t; by split.
    + exact J1.
    + right. change (woken_readers s3) with (S (woken_readers s2)). rewrite J8. change (woken_readers s1) with (woken_readers s). lia.
    + change (woken_readers s3) with (S (woken_readers s2)). rewrite J8. change (woken_readers s1) with (woken_readers s). lia.
  - exists false, s2, ready, (edit ++ [x]), [x]. split; [done|]. split; [done|]. split; [|split; [done|split; [done|split; [done|split; [by left|rewrite J8; done]]]]].
    split; try done; [by rewrite J4|rewrite J5; apply (ii_r _ _ _ Hi)|rewrite J6, J5; apply (ii_w _ _ _ Hi)|by rewrite J7, J5, A2|].
    apply Forall_app. split; [apply (ii_line _ _ _ Hi)|]. constructor; [|done]. apply orb_false_iff in Ecommit as [[E%Z.eqb_neq _]%orb_false_iff _]. done.
Qed.

(** ** Reading *)

Definition inner (l : list Z) : Prop := Forall (fun c => c <> 10 /\ c <> 4) l.
(** A turn with [n] of [target] bytes to go takes bytes from the front of the lines that
    are ready: [n] of them, or up to a newline, or up to the mark of the end of the file,
    which stays if the call has read something; without one of these it waits. *)
Inductive turn (killed : bool) (target n : Z) : list Z -> cread -> list Z -> Prop :=
  | t_full l rest : inner l -> Z.of_nat (length l) = n -> turn killed target n (l ++ rest) (CDone target l) rest
  | t_line l rest : inner l -> Z.of_nat (length l) < n ->
      turn killed target n (l ++ 10 :: rest) (CDone (target - (n - Z.of_nat (length l) - 1)) (l ++ [10])) rest
  | t_eof l rest : inner l -> Z.of_nat (length l) < n ->
      turn killed target n (l ++ 4 :: rest) (CDone (target - (n - Z.of_nat (length l))) l) (if n - Z.of_nat (length l) <? target then 4 :: rest else rest)
  | t_wait l : inner l -> Z.of_nat (length l) < n ->
      turn killed target n l (if killed then CDone (-1) l else CSleep (n - Z.of_nat (length l)) l) [].
Definition prepend (l : list Z) (r : cread) : cread := match r with CDone v l' => CDone v (l ++ l') | CSleep n l' => CSleep n (l ++ l') end.

Lemma turn_cons killed target n c ready r ready' : c <> 10 -> c <> 4 -> turn killed target (n - 1) ready r ready' -> turn killed target n (c :: ready) (prepend [c] r) ready'.
Proof.
  intros H1 H2. assert (forall l, inner l -> inner (c :: l)) as Hin by (intros; by constructor).
  destruct 1 as [l rest Hl Hn|l rest Hl Hn|l rest Hl Hn|l Hl Hn]; cbn [prepend app].
  - apply (t_full killed target n (c :: l)); [auto|cbn [length]; lia].
  - replace (n - 1 - Z.of_nat (length l) - 1) with (n - Z.of_nat (length (c :: l)) - 1) by (cbn [length]; lia). apply (t_line killed target n (c :: l)); [auto|cbn [length]; lia].
  - replace (n - 1 - Z.of_nat (length l)) with (n - Z.of_nat (length (c :: l))) by (cbn [length]; lia). apply (t_eof killed target n (c :: l)); [auto|cbn [length]; lia].
  - replace (n - 1 - Z.of_nat (length l)) with (n - Z.of_nat (length (c :: l))) by (cbn [length]; lia).
    replace (prepend [c] _) with (if killed then CDone (-1) (c :: l) else CSleep (n - Z.of_nat (length (c :: l))) (c :: l)) by by destruct killed.
    apply (t_wait killed target n (c :: l)); [auto|cbn [length]; lia].
Qed.

Lemma release_cons_ok s : c_lock s = true -> release_cons s = Ok tt (set_clock false s).
Proof. intros E. unfold release_cons, zoom, spin_release. by rewrite E. Qed.
Lemma acquire_cons_ok s : c_lock s = false -> acquire_cons s = Ok tt (set_clock true s).
Proof. intros E. unfold acquire_cons, zoom, spin_acquire. by rewrite E. Qed.
Lemma input_lock s v ready edit : input_is s ready edit -> input_is (set_clock v s) ready edit.
Proof. intros [? ? ? ? ? H ?]. by split. Qed.

(** The first ready character is taken. *)
Lemma input_take s c ready edit : input_is s (c :: ready) edit ->
  i_r s <> i_w s /\ at_buf s (i_r s) = c /\ input_is (set_input (i_buf s) (u32 (i_r s + 1)) (i_w s) (i_e s) s) ready edit.
Proof.
  intros [H1 H2 H3 H4 H5 H6 H7]. cbn [app length] in *. split; [|split].
  - rewrite H3. intros E. assert (u32 (i_r s + 0) = u32 (i_r s + Z.of_nat (S (length ready)))) as E' by (rewrite <- E, Z.add_0_r; by apply u32_small).
    rewrite length_app in H5. apply u32_inj_small in E'; lia.
  - rewrite <- (Z.add_0_r (i_r s)). by apply (H6 0%nat).
  - split; cbn [i_buf i_r i_w i_e set_input]; rewrite ?u32_plus; try done; [by apply u32_range|rewrite H3; f_equal; lia|rewrite H4; f_equal; lia|lia|].
    intros k d Hk. replace (at_buf _ _) with (at_buf s (u32 (i_r s + 1) + Z.of_nat k)) by done. rewrite <- at_buf_u32, u32_plus, at_buf_u32.
    replace (i_r s + 1 + Z.of_nat k) with (i_r s + Z.of_nat (S k)) by lia. by apply (H6 (S k)).
Qed.

(** [s'] is [s] but for what has been read, and the lock is free. *)
Definition taken_from (s s' : con) : Prop :=
  c_lock s' = false /\ panicked s' = panicked s /\ crt s' = crt s /\ cur_hi s' = cur_hi s /\ cur_lo s' = cur_lo s /\ serial s' = serial s /\ woken_readers s' = woken_readers s.

Lemma cread_loop_ok killed target edit : 0 <= target < 2 ^ 31 -> forall fuel n ready l s, input_is s ready edit -> c_lock s = true -> 0 <= n <= target -> (Z.to_nat n < fuel)%nat ->
  exists r s' ready', cread_loop fuel killed target n l s = Ok (prepend l r) s' /\ turn killed target n ready r ready' /\ input_is s' ready' edit /\ taken_from s s'.
Proof.
  intros Ht. induction fuel as [|fuel IH]; intros n ready l s Hi Hl Hn Hf; [lia|]. cbn [cread_loop].
  destruct (Z.ltb_spec 0 n) as [Hn0|Hn0].
  2: { assert (n = 0) as -> by lia. rewrite (bind_Ok _ _ _ _ _ (release_cons_ok s Hl)). exists (CDone target []), (set_clock false s), ready.
    split; [cbn; rewrite app_nil_r, s32_small by lia; by rewrite Z.sub_0_r|]. split; [apply (t_full killed target 0 [] ready); [constructor|done]|]. split; [by apply input_lock|done]. }
  rewrite bind_gets. unfold id. destruct ready as [|c ready].
  { assert (i_r s = i_w s) as E by (rewrite (ii_w _ _ _ Hi), Z.add_0_r, u32_small; [done|apply (ii_r _ _ _ Hi)]).
    rewrite E, Z.eqb_refl, (bind_Ok _ _ _ _ _ (release_cons_ok s Hl)). exists (if killed then CDone (-1) [] else CSleep n []), (set_clock false s), [].
    split; [by destruct killed; cbn; rewrite app_nil_r|]. split; [|split; [by apply input_lock|done]].
    rewrite <- (Z.sub_0_r n) at 2. apply (t_wait killed target n []); [constructor|cbn; lia]. }
  destruct (input_take s c ready edit Hi) as (Hne & Hat & Hi'). rewrite (proj2 (Z.eqb_neq _ _) Hne), Hat, bind_modify. set (s1 := set_input _ _ _ _ s) in *.
  destruct (Z.eqb_spec c (C 68)) as [->|N4]; [|destruct (Z.eqb_spec c 10) as [->|N10]].
  - destruct (Z.ltb_spec n target) as [Hlt|Hge].
    + rewrite bind_modify. set (s2 := set_input _ _ _ _ s1). assert (c_lock s2 = true) as Hl2 by done. rewrite (bind_Ok _ _ _ _ _ (release_cons_ok s2 Hl2)).
      exists (CDone (target - n) []), (set_clock false s2), (4 :: ready). split; [cbn; rewrite app_nil_r, s32_small by lia; done|].
      split; [|split; [|done]].
      * pose proof (t_eof killed target n [] ready) as T. cbn [length app] in T. rewrite Z.sub_0_r in T. rewrite (proj2 (Z.ltb_lt _ _) Hlt) in T. apply T; [constructor|cbn; lia].
      * apply input_lock. assert (u32 (u32 (i_r s + 1) - 1) = i_r s) as Er.
        { replace (u32 (i_r s + 1) - 1) with (u32 (i_r s + 1) + -1) by lia. rewrite u32_plus. replace (i_r s + 1 + -1) with (i_r s) by lia. apply u32_small, (ii_r _ _ _ Hi). }
        destruct Hi as [H1 H2 H3 H4 H5 H6 H7]. split; unfold at_buf in *; cbn [i_buf i_r i_w i_e set_input s2 s1]; rewrite ?Er; assumption.
    + rewrite bind_ret. assert (c_lock s1 = true) as Hl1 by done. rewrite (bind_Ok _ _ _ _ _ (release_cons_ok s1 Hl1)).
      exists (CDone (target - n) []), (set_clock false s1), ready. split; [cbn; rewrite app_nil_r, s32_small by lia; done|]. split; [|split; [by apply input_lock|done]].
      pose proof (t_eof killed target n [] ready) as T. cbn [length app] in T. rewrite Z.sub_0_r in T. rewrite (proj2 (Z.ltb_ge _ _) Hge) in T. apply T; [constructor|cbn; lia].
  - assert (c_lock s1 = true) as Hl1 by done. rewrite (bind_Ok _ _ _ _ _ (release_cons_ok s1 Hl1)).
    exists (CDone (target - (n - 1)) [10]), (set_clock false s1), ready. split; [cbn; rewrite s32_small by lia; done|]. split; [|split; [by apply input_lock|done]].
    pose proof (t_line killed target n [] ready) as T. cbn [length app] in T. rewrite Z.sub_0_r in T. apply T; [constructor|cbn; lia].
  - destruct (IH (n - 1) ready (l ++ [c]) s1 Hi' Hl) as (r & s' & ready' & E & T & Hi2 & Hs'); [lia|lia|].
    exists (prepend [c] r), s', ready'. rewrite E. split; [|split; [by apply turn_cons|split; [done|]]].
    + f_equal. destruct r; cbn [prepend]; by rewrite <- app_assoc.
    + exact Hs'.
Qed.

(** ** Interrupts and readers in any order *)

Inductive event := Typed (cs : list Z) | Turn (killed : bool) (target n : Z).
Definition run_event (ev : event) : M con (option cread) :=
  match ev with
  | Typed cs => _ ← consoleintr cs; mret None
  | Turn killed target n => r ← cread_turn killed target n; mret (Some r)
  end.
Fixpoint run_events (evs : list event) : M con (list (option cread)) :=
  match evs with [] => mret [] | ev :: evs' => r ← run_event ev; rs ← run_events evs'; mret (r :: rs) end.
Definition event_ok (ev : event) : Prop :=
  match ev with Typed cs => Forall (fun c => 0 <= c < 256) cs | Turn _ target n => 0 <= n <= target /\ target < 2 ^ 31 end.

(** The reference: the keys typed and the turns of readers on a queue of ready bytes and
    a line; [out] is the echo. *)
Fixpoint tty_chars (ready edit : list Z) (cs : list Z) : list Z * list Z * list Z :=
  match cs with
  | [] => (ready, edit, [])
  | c :: cs' => let '(ready1, edit1, o1) := tty_char ready edit c in let '(ready2, edit2, o2) := tty_chars ready1 edit1 cs' in (ready2, edit2, o1 ++ o2)
  end.
Inductive tty_run : list Z -> list Z -> list event -> list (option cread) -> list Z -> list Z -> list Z -> Prop :=
  | tty_nil ready edit : tty_run ready edit [] [] ready edit []
  | tty_typed ready edit cs ready1 edit1 o1 evs rs ready2 edit2 o2 : tty_chars ready edit cs = (ready1, edit1, o1) ->
      tty_run ready1 edit1 evs rs ready2 edit2 o2 -> tty_run ready edit (Typed cs :: evs) (None :: rs) ready2 edit2 (o1 ++ o2)
  | tty_turn ready edit killed target n r ready1 evs rs ready2 edit2 o2 : turn killed target n ready r ready1 ->
      tty_run ready1 edit evs rs ready2 edit2 o2 -> tty_run ready edit (Turn killed target n :: evs) (Some r :: rs) ready2 edit2 o2.

Lemma consolechars_ok cs : forall ready edit d s, input_is s ready edit -> screen_ok s -> Forall (fun c => 0 <= c < 256) cs ->
  exists d' s' ready' edit' out, consolechars cs d s = Ok d' s' /\ tty_chars ready edit cs = (ready', edit', out) /\ typed s s' ready ready' edit' out.
Proof.
  induction cs as [|c cs IH]; intros ready edit d s Hi Hs Hcs.
  - exists d, s, ready, edit, []. split; [done|]. split; [done|]. split; [done|]. split; [by apply wrote_nil|]. auto.
  - apply Forall_cons in Hcs as [Hc Hcs]. destruct (consolechar_ok s ready edit c Hi Hs Hc) as (d1 & s1 & ready1 & edit1 & o1 & E1 & T1 & (Hi1 & W1 & Hs1 & L1 & K1 & K1')).
    destruct (IH ready1 edit1 (d || d1) s1 Hi1 Hs1 Hcs) as (d2 & s2 & ready2 & edit2 & o2 & E2 & T2 & (Hi2 & W2 & Hs2 & L2 & K2 & K2')).
    exists d2, s2, ready2, edit2, (o1 ++ o2). cbn [consolechars tty_chars]. rewrite (bind_Ok _ _ _ _ _ E1), T1, T2. split; [exact E2|]. split; [done|].
    split; [done|]. split; [by eapply wrote_app|]. split; [done|]. split; [by rewrite L2|]. split; [|lia].
    destruct K1 as [->|K1]; [destruct K2 as [->|K2]; [by left|right; lia]|right; lia].
Qed.

Lemma screen_ok_same s s' : panicked s' = panicked s -> crt s' = crt s -> cur_hi s' = cur_hi s -> cur_lo s' = cur_lo s -> screen_ok s -> screen_ok s'.
Proof.
  intros E1 E2 E3 E4 [Hp [t [? ? ? ? ? ?]]]. split; [congruence|]. exists t. split; unfold cursor in *; rewrite ?E2, ?E3, ?E4; done.
Qed.

Lemma run_event_ok ev s ready edit : input_is s ready edit -> screen_ok s -> c_lock s = false -> event_ok ev ->
  exists r s' ready' edit' out, run_event ev s = Ok r s' /\ input_is s' ready' edit' /\ wrote s s' out /\ screen_ok s' /\ c_lock s' = false /\
    match ev with
    | Typed cs => r = None /\ tty_chars ready edit cs = (ready', edit', out) /\ (ready' = ready \/ (woken_readers s < woken_readers s')%nat)
    | Turn killed target n => exists x, r = Some x /\ turn killed target n ready x ready' /\ edit' = edit /\ out = []
    end.
Proof.
  intros Hi Hs Hl Hev. destruct ev as [cs|killed target n]; cbn [run_event].
  - unfold consoleintr. set (s1 := set_clock true s). assert (screen_ok s1) as Hs1 by by apply (screen_ok_same s).
    destruct (consolechars_ok cs ready edit false s1 (input_lock _ _ _ _ Hi) Hs1 Hev) as (d & s2 & ready' & edit' & out & E & T & (Hi2 & W & Hs2 & L2 & K2 & K2')).
    assert (c_lock s2 = true) as Hl2 by by rewrite L2.
    exists None, (set_clock false s2), ready', edit', out. rewrite bind_assoc, (bind_Ok _ _ _ _ _ (acquire_cons_ok s Hl)). fold s1.
    rewrite bind_assoc, (bind_Ok _ _ _ _ _ E), bind_assoc, (bind_Ok _ _ _ _ _ (release_cons_ok s2 Hl2)). split; [done|]. split; [by apply input_lock|].
    split; [|split; [by apply (screen_ok_same s2)|done]]. rewrite <- (app_nil_r out). apply (wrote_app s s2 _ out []); [|by apply wrote_nil].
    apply (wrote_app s s1 s2 [] out); [by apply wrote_nil|done].
  - destruct Hev as [Hn Ht]. unfold cread_turn. set (s1 := set_clock true s). rewrite bind_assoc, (bind_Ok _ _ _ _ _ (acquire_cons_ok s Hl)). fold s1.
    destruct (cread_loop_ok killed target edit ltac:(lia) (S (Z.to_nat n)) n ready [] s1 (input_lock _ _ _ _ Hi) eq_refl Hn) as (r & s' & ready' & E & T & Hi' & (L & P1 & P2 & P3 & P4 & P5 & P6)); [lia|].
    assert (prepend [] r = r) as Er by by destruct r. rewrite Er in E. rewrite (bind_Ok _ _ _ _ _ E). exists (Some r), s', ready', edit, []. split; [done|]. split; [done|].
    split; [by apply wrote_nil|].
    split; [apply (screen_ok_same s); [by rewrite P1|by rewrite P2|by rewrite P3|by rewrite P4|done]|]. split; [done|]. by exists r.
Qed.

Lemma run_events_ok evs : forall s ready edit, input_is s ready edit -> screen_ok s -> c_lock s = false -> Forall event_ok evs ->
  exists rs s' ready' edit' out, run_events evs s = Ok rs s' /\ tty_run ready edit evs rs ready' edit' out /\
    input_is s' ready' edit' /\ wrote s s' out /\ screen_ok s' /\ c_lock s' = false.
Proof.
  induction evs as [|ev evs IH]; intros s ready edit Hi Hs Hl Hev.
  { exists [], s, ready, edit, []. split; [done|]. split; [constructor|]. split; [done|]. split; [by apply wrote_nil|done]. }
  apply Forall_cons in Hev as [Hev Hevs].
  destruct (run_event_ok ev s ready edit Hi Hs Hl Hev) as (r & s1 & ready1 & edit1 & o1 & E1 & Hi1 & W1 & Hs1 & Hl1 & Hr).
  destruct (IH s1 ready1 edit1 Hi1 Hs1 Hl1 Hevs) as (rs & s2 & ready2 & edit2 & o2 & E2 & T2 & Hi2 & W2 & Hs2 & Hl2).
  exists (r :: rs), s2, ready2, edit2, (o1 ++ o2). cbn [run_events]. rewrite (bind_Ok _ _ _ _ _ E1), (bind_Ok _ _ _ _ _ E2). split; [done|].
  split; [|split; [done|split; [by apply (wrote_app s s1 s2)|done]]].
  destruct ev as [cs|killed target n].
  - destruct Hr as (-> & Hc & _). by apply (tty_typed _ _ _ ready1 edit1).
  - destruct Hr as (x & -> & Ht & -> & ->). by apply (tty_turn _ _ _ _ _ _ ready1).
Qed.

(** C20. The console line by line. For keyboard interrupts and turns of readers in any
    order, the circular buffer and its three indices, which wrap around, behave as a queue
    of ready bytes and a line being typed: a character is added to the line and echoed,
    backspace takes back the last one and kill line all of them but nothing that is ready,
    newline, end of file and a full buffer make the line ready, and what does not fit is
    dropped. A reader gets the ready bytes in order, up to the number it asks for and to
    the first newline; an end of file stays for the next read unless it comes first.
    No byte is lost or read twice, and every call returns. *)
Theorem line_discipline (evs : list event) (s : con) (ready edit : list Z) :
  input_is s ready edit -> screen_ok s -> c_lock s = false -> Forall event_ok evs ->
  exists rs s' ready' edit' out, run_events evs s = Ok rs s' /\ tty_run ready edit evs rs ready' edit' out /\
    input_is s' ready' edit' /\ wrote s s' out /\ screen_ok s' /\ c_lock s' = false.
Proof. apply run_events_ok. Qed.

Definition demo_con : con := Con false true false (replicate 128 0) (2 ^ 32 - 2) (2 ^ 32 - 2) (2 ^ 32 - 2) (replicate CELLS 0) 7 127 [] 0.
Definition demo_events : list event := [Typed (bytes_of "catx"); Turn false 9 9; Typed (8 :: 13 :: bytes_of "ls"); Turn false 9 9; Typed [4]; Turn false 2 2; Turn false 2 2].
Lemma line_discipline_witness : exists s',
  run_events demo_events demo_con = Ok [None; Some (CSleep 9 []); None; Some (CDone 4 (bytes_of "cat" ++ [10])); None; Some (CDone 2 (bytes_of "ls")); Some (CDone 0 [])] s' /\
  exists ready edit, input_is s' ready edit.
Proof.
  destruct (line_discipline demo_events demo_con [] []) as (rs & s' & ready & edit & out & E & _ & Hi & _).
  - split; try reflexivity; [unfold is_u32; vm_compute; split; [discriminate|reflexivity]|cbn; lia|intros k c Hk; discriminate|constructor].
  - apply screen_ok_start; try reflexivity; cbn; lia.
  - reflexivity.
  - repeat constructor; vm_compute; congruence.
  - exists s'. split; [|by exists ready, edit]. rewrite E. f_equal. assert (Ok rs s' = run_events demo_events demo_con) as E' by (by rewrite E). vm_compute in E'. by injection E' as -> _.
Defined.

(** C21. The screen. A write to the console never stops the kernel: when the screen
    memory shows 24 rows of the paper of a teletype, with the cursor within them, it does
    so again after the write, and the teletype has printed the bytes: newlines go to the
    next row, a row that is needed below the window
    moves it down by one, blank. The serial line gets the same bytes. *)
Theorem screen_window (buf : list Z) (s : con) (t : tele) : shows s t -> panicked s = false -> c_lock s = false ->
  exists s', consolewrite buf s = Ok (Z.of_nat (length buf)) s' /\ shows s' (fold_left tele_put (map (fun c => Z.land c 0xff) buf) t) /\
    serial s' = serial s ++ concat (map line_bytes (map (fun c => Z.land c 0xff) buf)) /\ c_lock s' = false.
Proof.
  intros Ht Hp Hl. unfold consolewrite. rewrite (bind_Ok _ _ _ _ _ (acquire_cons_ok s Hl)). set (s1 := set_clock true s).
  assert (wrote s s1 []) as W0 by by apply wrote_nil.
  destruct (consputs_ok (map (fun c => Z.land c 0xff) buf) s1) as (s2 & E2 & W & I & Hs2); [by apply (screen_ok_same s); [..|split; [|exists t]]|].
  mstep E2. assert (c_lock s2 = true) as Hl2 by by destruct I as [-> _]. rewrite (bind_Ok _ _ _ _ _ (release_cons_ok s2 Hl2)).
  destruct (wrote_app _ _ _ _ _ (wrote_app _ _ _ _ _ W0 W) (wrote_nil s2 (set_clock false s2) eq_refl eq_refl eq_refl eq_refl)) as [W1 W2].
  cbn [app] in W1, W2. rewrite app_nil_r in W1, W2. exists (set_clock false s2). split; [done|]. split; [by apply W1|done].
Qed.

Definition blank_tele : tele := Tele (fun _ => 0) 0 1919.
Lemma screen_window_witness : exists s', consolewrite (bytes_of "ok" ++ [10]) demo_con = Ok 3 s' /\ nth 1759 (crt s') 0 = glyph 111 /\ nth 1760 (crt s') 0 = glyph 107.
Proof.
  destruct (screen_window (bytes_of "ok" ++ [10]) demo_con blank_tele) as (s' & E & _ & _).
  - split; try reflexivity; [cbn; lia|unfold cursor; cbn; lia|]. intros i Hi. cbn [crt demo_con]. rewrite nth_lookup, lookup_replicate_2 by (unfold CELLS; lia). done.
  - reflexivity.
  - reflexivity.
  - exists s'. split; [exact E|]. assert (Ok 3 s' = consolewrite (bytes_of "ok" ++ [10]) demo_con) as E' by (by rewrite E).
    vm_compute in E'. injection E' as ->. split; reflexivity.
Defined.

(** ** The digits of cprintf are those of printf in lower case. *)
Definition low (c : Z) : Z := if (65 <=? c) && (c <=? 70) then c + 32 else c.
Lemma kdigit_low d : nth (Z.to_nat d) KDIGITS 0 = low (digit d).
Proof.
  unfold digit. generalize (Z.to_nat d). intros n. do 17 (destruct n as [|n]; [reflexivity|]). cbn. by destruct n.
Qed.
Lemma kprintint_low room x base : kprintint_loop room x base = option_map (map low) (printint_loop room x base).
Proof.
  revert x. induction room as [|room IH]; intros x; [done|]. cbn [kprintint_loop printint_loop]. rewrite kdigit_low. destruct (negb (x `div` base =? 0)); [|done].
  rewrite IH. by destruct (printint_loop room (x `div` base) base).
Qed.
Lemma cprintf_text mem fuel (l ap : list Z) (s : con) : Forall (fun c => 0 < c < 256 /\ c <> 37) l -> cprintf_loop mem fuel (l ++ [0]) ap s = consputs l s.
Proof.
  intros Hl. revert s. induction Hl as [|c l [Hc Hn] _ IH]; intros s; [done|]. cbn [app cprintf_loop consputs]. rewrite low_byte by done. cbv zeta.
  rewrite (proj2 (Z.eqb_neq c 0)), (proj2 (Z.eqb_neq c 37)) by lia. cbn [negb]. unfold mbind, M_bind. by destruct (consputc c s).
Qed.
