(* ===== verification/Sh.v ===== *)
(** * The shell of xv6: p6/sh.c

    The parser works on a line in place: a word is a pair of pointers, to its first byte
    and past its last one, and [nulterminate] ends the words by zeros when the parse is
    done. [panic] of the shell, which prints its message and exits, is the outcome
    [Panic]. [runcmd] is modelled by the descriptor tables of the processes it makes. *)

From S2P Require Import Prelude Ulib.

(** ** Parsed commands *)

Definition MAXARGS : nat := 10.
(** One constructor for each structure, over the type of words. *)
Inductive cmd (W : Type) : Type :=
  | execcmd (argv : list W)
  | redircmd (c : cmd W) (file : W) (mode fd : Z)
  | pipecmd (left right : cmd W)
  | listcmd (left right : cmd W)
  | backcmd (c : cmd W).
Arguments execcmd {W}.
Arguments redircmd {W}.
Arguments pipecmd {W}.
Arguments listcmd {W}.
Arguments backcmd {W}.
Fixpoint map_cmd {V W} (f : V -> W) (c : cmd V) : cmd W :=
  match c with
  | execcmd argv => execcmd (map f argv)
  | redircmd c file mode fd => redircmd (map_cmd f c) (f file) mode fd
  | pipecmd l r => pipecmd (map_cmd f l) (map_cmd f r)
  | listcmd l r => listcmd (map_cmd f l) (map_cmd f r)
  | backcmd c => backcmd (map_cmd f c)
  end.

(** p6/fcntl.h *)
Definition SH_RDONLY : Z := 0.
Definition SH_WRCREATE : Z := Z.lor 1 0x200.

Definition whitespace : list Z := [32; 9; 13; 10; 11; 0].
Definition symbols : list Z := cstr "<|>&;()".
(** [strchr] as a test. *)
Definition chr (set : list Z) (c : Z) : bool := match strchr set c with Some (Some _) => true | _ => false end.
Definition is_space (c : Z) : bool := chr whitespace c.
Definition in_word (c : Z) : bool := negb (chr whitespace c) && negb (chr symbols c).

(** ** The parser *)

(** [parseexec] keeps in [cmd] the execcmd to which it adds arguments, and in [ret] the
    command with that execcmd under the redirections: storing through [cmd] changes the
    argv inside [ret]. *)
Fixpoint add_arg {W} (w : W) (ret : cmd W) : cmd W :=
  match ret with
  | execcmd argv => execcmd (argv ++ [w])
  | redircmd c file mode fd => redircmd (add_arg w c) file mode fd
  | c => c
  end.

Section parser.
(** The line without its terminator. *)
Context (line : list Z).
(** The parser threads its position [*ps]. *)
Notation P := (M nat).
Definition es : nat := length line.
Definition deref (s : nat) : P Z := of_option ((line ++ [0]) !! s).
Definition ptr : Type := nat * nat.

(** A loop over the characters that satisfy [p]. *)
Fixpoint skip (fuel : nat) (p : Z -> bool) (s : nat) : P nat :=
  match fuel with
  | O => hang
  | S fuel' =>
    if (s <? es)%nat then
      c ← deref s;
      if p c then skip fuel' p (s + 1)%nat else mret s
    else mret s
  end.
(** The token, and where it begins and ends. *)
Definition gettoken : P (Z * ptr) :=
  s ← gets id;
  s ← skip (S es) is_space s;
  let q := s in
  c ← deref s;
  r ← (if c =? 0 then mret (c, s)
       else if (c =? 124) || (c =? 40) || (c =? 41) || (c =? 59) || (c =? 38) || (c =? 60) then mret (c, (s + 1)%nat)
       else if c =? 62 then
         d ← deref (s + 1)%nat;
         mret (if d =? 62 then (43, (s + 2)%nat) else (c, (s + 1)%nat))
       else
         s ← skip (S es) in_word s;
         mret (97, s));
  let '(ret, s) := r in
  let eq := s in
  s ← skip (S es) is_space s;
  modify (fun _ => s);;
  mret (ret, (q, eq)).
Definition peek (toks : list Z) : P bool :=
  s ← gets id;
  s ← skip (S es) is_space s;
  modify (fun _ => s);;
  c ← deref s;
  mret (negb (c =? 0) && chr toks c).

Fixpoint parseredirs (fuel : nat) (c : cmd ptr) : P (cmd ptr) :=
  match fuel with
  | O => hang
  | S fuel' =>
    b ← peek (cstr "<>");
    if (b : bool) then
      '(tok, _) ← gettoken;
      '(t, w) ← gettoken;
      if negb (t =? 97) then panic "missing file for redirection" else
      parseredirs fuel'
        (if tok =? 60 then redircmd c w SH_RDONLY 0
         else if tok =? 62 then redircmd c w SH_WRCREATE 1
         else if tok =? 43 then redircmd c w SH_WRCREATE 1 else c)
    else mret c
  end.

(** The loop of [parseexec]. *)
Fixpoint parseargs (fuel : nat) (argc : nat) (ret : cmd ptr) : P (cmd ptr) :=
  match fuel with
  | O => hang
  | S fuel' =>
    b ← peek (cstr "|)&;");
    if (b : bool) then mret ret else
    '(tok, w) ← gettoken;
    if tok =? 0 then mret ret
    else if negb (tok =? 97) then panic "syntax"
    else
      let ret := add_arg w ret in
      let argc := (argc + 1)%nat in
      if (MAXARGS <=? argc)%nat then panic "too many args" else
      ret ← parseredirs (S es) ret;
      parseargs fuel' argc ret
  end.
(** The loop of [parseline]. *)
Fixpoint parseback (fuel : nat) (c : cmd ptr) : P (cmd ptr) :=
  match fuel with
  | O => hang
  | S fuel' =>
    b ← peek (cstr "&");
    if (b : bool) then gettoken;; parseback fuel' (backcmd c) else mret c
  end.

Fixpoint parseline (fuel : nat) : P (cmd ptr) :=
  match fuel with
  | O => hang
  | S fuel' =>
    c ← parsepipe fuel';
    c ← parseback (S es) c;
    b ← peek (cstr ";");
    if (b : bool) then gettoken;; r ← parseline fuel'; mret (listcmd c r) else mret c
  end
with parsepipe (fuel : nat) : P (cmd ptr) :=
  match fuel with
  | O => hang
  | S fuel' =>
    c ← parseexec fuel';
    b ← peek (cstr "|");
    if (b : bool) then gettoken;; r ← parsepipe fuel'; mret (pipecmd c r) else mret c
  end
with parseexec (fuel : nat) : P (cmd ptr) :=
  match fuel with
  | O => hang
  | S fuel' =>
    b ← peek (cstr "(");
    if (b : bool) then parseblock fuel' else
    ret ← parseredirs (S es) (execcmd []);
    parseargs (S es) 0 ret
  end
with parseblock (fuel : nat) : P (cmd ptr) :=
  match fuel with
  | O => hang
  | S fuel' =>
    b ← peek (cstr "(");
    if negb b then panic "parseblock" else
    gettoken;;
    c ← parseline fuel';
    b ← peek (cstr ")");
    if negb b then panic "syntax - missing )" else
    gettoken;;
    parseredirs (S es) c
  end.
End parser.

(** Ends the words in the buffer. *)
Definition put_nul (eq : nat) : M (list Z) unit :=
  b ← gets id;
  if (eq <? length b)%nat then modify (<[eq := 0]>) else undef.
Fixpoint put_nuls (ws : list ptr) : M (list Z) unit :=
  match ws with [] => mret tt | w :: ws' => put_nul (snd w);; put_nuls ws' end.
Fixpoint nulterminate (c : cmd ptr) : M (list Z) unit :=
  match c with
  | execcmd argv => put_nuls argv
  | redircmd c file _ _ => nulterminate c;; put_nul (snd file)
  | pipecmd l r | listcmd l r => nulterminate l;; nulterminate r
  | backcmd c => nulterminate c
  end.
(** The result is the command; the state, the buffer that the command points into. What
    is printed of the leftovers before the panic is left out. *)
Definition parsecmd (line : list Z) : outcome (list Z) (cmd ptr) :=
  match (c ← parseline line (4 * es line + 4); peek line (cstr "");; s ← gets id;
         if negb (s =? es line)%nat then panic "syntax" else mret c) 0%nat with
  | Ok c _ => (nulterminate c;; mret c) (line ++ [0])
  | Panic msg => Panic msg
  | Hang => Hang
  | Undef => Undef
  end.
(** The string at a pointer into a buffer. *)
Fixpoint until_nul (l : list Z) : list Z := match l with [] => [] | c :: l' => if c =? 0 then [] else c :: until_nul l' end.
Definition str_at (buf : list Z) (w : ptr) : list Z := until_nul (drop (fst w) buf).
Definition parsed (line : list Z) : option (cmd (list Z)) :=
  match parsecmd line with Ok c buf => Some (map_cmd (str_at buf) c) | _ => None end.

Example parse_ex : parsed (bytes_of "ls -l<in | wc>out; (a&;b) >> c &") =
  Some (listcmd (pipecmd (redircmd (execcmd [bytes_of "ls"; bytes_of "-l"]) (bytes_of "in") SH_RDONLY 0) (redircmd (execcmd [bytes_of "wc"]) (bytes_of "out") SH_WRCREATE 1))
     (backcmd (redircmd (listcmd (backcmd (execcmd [bytes_of "a"])) (execcmd [bytes_of "b"])) (bytes_of "c") SH_WRCREATE 1))).
Proof. vm_compute. reflexivity. Qed.
