(* ===== verification/ShParse.v ===== *)
(** * The parser of the shell: a grammar

    The characters of a line make tokens, and the tokens a command by a grammar; the
    parser of [Sh] accepts the lines of the grammar and returns their commands. *)

From S2P Require Import Prelude Ulib Sh.

(** ** Tokens *)

Inductive token := Word (w : list Z) | Sym (c : Z).
Definition SYMS : list Z := bytes_of "|();&<".
(** How a line falls into tokens; [>>] is the symbol 43. *)
Inductive lexes : list Z -> list token -> Prop :=
  | lex_end : lexes [] []
  | lex_space c l ts : is_space c = true -> lexes l ts -> lexes (c :: l) ts
  | lex_sym c l ts : c ∈ SYMS -> lexes l ts -> lexes (c :: l) (Sym c :: ts)
  | lex_gt l ts : head l <> Some 62 -> lexes l ts -> lexes (62 :: l) (Sym 62 :: ts)
  | lex_gtgt l ts : lexes l ts -> lexes (62 :: 62 :: l) (Sym 43 :: ts)
  | lex_word w l ts : w <> [] -> Forall (fun c => in_word c = true) w -> match l with [] => True | c :: _ => in_word c = false end ->
      lexes l ts -> lexes (w ++ l) (Word w :: ts).

(** ** The grammar *)

Definition redir : Type := Z * list Z.
Definition add_redir (a : cmd (list Z)) (r : redir) : cmd (list Z) :=
  if fst r =? 60 then redircmd a (snd r) SH_RDONLY 0 else redircmd a (snd r) SH_WRCREATE 1.
Definition redir_ok (r : redir) : Prop := fst r = 60 \/ fst r = 62 \/ fst r = 43.
Definition redir_toks (r : redir) : list token := [Sym (fst r); Word (snd r)].
(** What a simple command is made of: arguments and redirections in any order. *)
Inductive item := IArg (w : list Z) | IRedir (r : redir).
Definition item_toks (i : item) : list token := match i with IArg w => [Word w] | IRedir r => redir_toks r end.
Definition args (its : list item) : list (list Z) := omap (fun i => match i with IArg w => Some w | IRedir _ => None end) its.
Definition redirs (its : list item) : list redir := omap (fun i => match i with IArg _ => None | IRedir r => Some r end) its.
Definition simple (ws : list (list Z)) (rs : list redir) : cmd (list Z) := foldl add_redir (execcmd ws) rs.

Inductive g_line : list token -> cmd (list Z) -> Prop :=
  | g_end ts a n : g_pipe ts a -> g_line (ts ++ replicate n (Sym 38)) (Nat.iter n backcmd a)
  | g_seq ts a n ts' a' : g_pipe ts a -> g_line ts' a' -> g_line (ts ++ replicate n (Sym 38) ++ Sym 59 :: ts') (listcmd (Nat.iter n backcmd a) a')
with g_pipe : list token -> cmd (list Z) -> Prop :=
  | g_one ts a : g_exec ts a -> g_pipe ts a
  | g_bar ts a ts' a' : g_exec ts a -> g_pipe ts' a' -> g_pipe (ts ++ Sym 124 :: ts') (pipecmd a a')
with g_exec : list token -> cmd (list Z) -> Prop :=
  | g_simple its : Forall redir_ok (redirs its) -> (length (args its) < MAXARGS)%nat -> g_exec (its ≫= item_toks) (simple (args its) (redirs its))
  | g_block ts a rs : Forall redir_ok rs -> g_line ts a -> g_exec (Sym 40 :: ts ++ Sym 41 :: (rs ≫= redir_toks)) (foldl add_redir a rs).
Scheme line_ind' := Minimality for g_line Sort Prop
  with pipe_ind' := Minimality for g_pipe Sort Prop
  with exec_ind' := Minimality for g_exec Sort Prop.
Combined Scheme grammar_ind from line_ind', pipe_ind', exec_ind'.

(** ** The lexer *)

Lemma span_exists {A} (p : A -> bool) (l : list A) :
  exists a b, l = a ++ b /\ Forall (fun c => p c = true) a /\ match b with [] => True | c :: _ => p c = false end.
Proof.
  induction l as [|c l (a & b & -> & Ha & Hb)]; [by exists [], []|]. destruct (p c) eqn:E.
  - exists (c :: a), b. split; [done|]. split; [by constructor|done].
  - by exists [], (c :: a ++ b).
Qed.
Lemma in_word_not c : in_word c = true -> is_space c = false /\ c <> 62 /\ c ∉ SYMS /\ chr symbols c = false.
Proof.
  unfold in_word. intros H. apply andb_true_iff in H as [H1 H2]. apply negb_true_iff in H1, H2. split; [done|]. split; [by intros ->|]. split; [|done].
  intros H. cbn in H. set_unfold in H. decompose [or] H; subst; done.
Qed.
Lemma sym_not c : c ∈ SYMS -> is_space c = false /\ in_word c = false /\ chr symbols c = true /\ c <> 0 /\ c <> 62 /\ c <> 43 /\ c <> 97.
Proof. intros H. cbn in H. set_unfold in H. decompose [or] H; subst; done. Qed.
Lemma lexes_space c l ts : is_space c = true -> lexes (c :: l) ts -> lexes l ts.
Proof.
  intros Hc H. remember (c :: l) as l0 eqn:E. destruct H as [|c0 l1 ts Hs H|c0 l1 ts Hs H|l1 ts Hh H|l1 ts H|w l1 ts Hw Hws Hh H]; try discriminate.
  - by injection E as -> ->.
  - injection E as -> ->. apply sym_not in Hs. by destruct Hs as [? _]; congruence.
  - by injection E as <- _.
  - by injection E as <- _.
  - destruct w as [|d w]; [done|]. injection E as -> _. apply Forall_cons in Hws as [Hd _]. apply in_word_not in Hd as [? _]. congruence.
Qed.
Lemma lexes_spaces a l ts : Forall (fun c => is_space c = true) a -> lexes (a ++ l) ts -> lexes l ts.
Proof. induction a as [|c a IH]; [done|]. intros [Hc Ha]%Forall_cons H. apply IH; [done|]. by apply (lexes_space c). Qed.
(** Every line falls into tokens. *)
Lemma lexes_total n : forall l, (length l <= n)%nat -> Forall (fun c => c <> 0) l -> exists ts, lexes l ts.
Proof.
  induction n as [|n IH]; intros l Hn Hl.
  { destruct l; [|cbn in Hn; lia]. exists []. constructor. }
  destruct l as [|c l]; [exists []; constructor|]. apply Forall_cons in Hl as [Hc Hl]. cbn in Hn.
  destruct (IH l) as [ts Hts]; [lia|done|]. destruct (is_space c) eqn:Es; [exists ts; by constructor|].
  destruct (decide (c ∈ SYMS)) as [Hs|Ns]; [exists (Sym c :: ts); by constructor|].
  destruct (decide (c = 62)) as [->|Ng].
  { destruct l as [|d l]; [exists (Sym 62 :: ts); by constructor|]. destruct (decide (d = 62)) as [->|Nd]; [|exists (Sym 62 :: ts); constructor; [cbn; congruence|done]].
    apply Forall_cons in Hl as [_ Hl]. destruct (IH l) as [ts' Hts']; [cbn in *; lia|done|]. exists (Sym 43 :: ts'). by constructor. }
  destruct (span_exists in_word (c :: l)) as (a & b & E & Ha & Hb).
  assert (in_word c = true) as Hw.
  { unfold in_word. unfold is_space in Es. rewrite Es. cbn [negb andb]. apply negb_true_iff. unfold chr. destruct (strchr symbols c) as [[k|]|] eqn:E0; [|done|done].
    exfalso. cbn -[Z.eqb] in E0. repeat match type of E0 with context [if ?x =? ?y then _ else _] => destruct (Z.eqb_spec x y); [subst c; first [done|apply Ns; cbn; set_solver]|] end. done. }
  destruct a as [|c' a]; [cbn in E; subst b; congruence|]. injection E as <- ->.
  rewrite length_app in Hn. apply Forall_app in Hl as [_ Hb']. destruct (IH b) as [ts' Hts']; [lia|done|].
  exists (Word (c :: a) :: ts'). by apply (lex_word (c :: a) b).
Qed.

(** ** Positions *)

Section positions.
Context (line : list Z) (nonul : Forall (fun c => c <> 0) line).
Notation es := (es line).

(** The rest of the line at a position. *)
Definition rest_is (s : nat) (l : list Z) : Prop := (s <= es)%nat /\ drop s line = l.
Definition at_tokens (s : nat) (ts : list token) : Prop := (s <= es)%nat /\ lexes (drop s line) ts.
Definition word_at (p : ptr) (w : list Z) : Prop :=
  w <> [] /\ Forall (fun c => in_word c = true) w /\ snd p = (fst p + length w)%nat /\
  exists r, rest_is (fst p) (w ++ r) /\ match r with [] => True | c :: _ => in_word c = false end.

Lemma rest_app s a b : rest_is s (a ++ b) -> rest_is (s + length a) b.
Proof.
  intros [H1 H2]. assert (length a + length b = es - s)%nat as Hl by by rewrite <- length_app, <- H2, length_drop.
  split; [lia|]. by rewrite <- drop_drop, H2, drop_app_length.
Qed.
Lemma rest_cons s c b : rest_is s (c :: b) -> rest_is (s + 1) b.
Proof. apply (rest_app s [c]). Qed.
Lemma deref_at s c b st : rest_is s (c :: b) -> deref line s st = Ok c st.
Proof.
  intros [H1 H2]. unfold deref. assert (line !! s = Some c) as E by by rewrite <- (Nat.add_0_r s), <- lookup_drop, H2.
  by rewrite lookup_app_l, E by (by apply lookup_lt_is_Some_1; rewrite E).
Qed.
Lemma rest_nil s : rest_is s [] -> s = es.
Proof. intros [H1 H2]. apply (f_equal length) in H2. rewrite length_drop in H2. unfold Sh.es in *. cbn in H2. lia. Qed.
Lemma deref_end s st : rest_is s [] -> deref line s st = Ok 0 st.
Proof. intros ->%rest_nil. unfold deref. rewrite lookup_app_r by (unfold Sh.es; lia). by rewrite Nat.sub_diag. Qed.
Lemma rest_lt s c b : rest_is s (c :: b) -> (s < es)%nat.
Proof. intros [H1 H2]. apply (f_equal length) in H2. rewrite length_drop in H2. unfold Sh.es in *. cbn in H2. lia. Qed.
Lemma rest_nonul s c b : rest_is s (c :: b) -> c <> 0.
Proof. intros [_ H] ->. pose proof (Forall_drop _ s _ nonul) as Hd. rewrite H in Hd. by apply Forall_cons in Hd as [? _]. Qed.

Lemma skip_ok p a b : forall s fuel st, rest_is s (a ++ b) -> Forall (fun c => p c = true) a -> match b with [] => True | c :: _ => p c = false end ->
  (length a < fuel)%nat -> skip line fuel p s st = Ok (s + length a)%nat st.
Proof.
  induction a as [|c a IH]; intros s fuel st Hs Ha Hb Hf; (destruct fuel as [|fuel]; [lia|]); cbn [skip].
  - rewrite Nat.add_0_r. destruct b as [|c b].
    + rewrite (rest_nil _ Hs), Nat.ltb_irrefl. done.
    + rewrite (proj2 (Nat.ltb_lt _ _) (rest_lt _ _ _ Hs)), (bind_Ok _ _ _ _ _ (deref_at _ _ _ _ Hs)), Hb. done.
  - apply Forall_cons in Ha as [Hc Ha]. rewrite (proj2 (Nat.ltb_lt _ _) (rest_lt _ _ _ Hs)), (bind_Ok _ _ _ _ _ (deref_at _ _ _ _ Hs)), Hc.
    rewrite (IH (s + 1)%nat); [cbn [length]; f_equal; lia|by apply rest_cons in Hs|done..|cbn [length] in Hf; lia].
Qed.
Lemma skip_es p a b s st : rest_is s (a ++ b) -> Forall (fun c => p c = true) a -> match b with [] => True | c :: _ => p c = false end ->
  skip line (S es) p s st = Ok (s + length a)%nat st.
Proof.
  intros Hs Ha Hb. apply (skip_ok p a b); [done..|]. destruct (rest_app _ _ _ Hs) as [? _]. lia.
Qed.
(** Leading spaces are skipped, and the tokens stay. *)
Lemma skip_spaces s ts st : at_tokens s ts -> exists s', skip line (S es) is_space s st = Ok s' st /\ at_tokens s' ts /\
  (match drop s' line with [] => True | c :: _ => is_space c = false end) /\ (s <= s')%nat.
Proof.
  intros [Hs Hl]. destruct (span_exists is_space (drop s line)) as (a & b & E & Ha & Hb). exists (s + length a)%nat.
  assert (rest_is s (a ++ b)) as Hr by by split. split; [by apply (skip_es _ a b)|]. destruct (rest_app _ _ _ Hr) as [H1 H2]. rewrite H2.
  split; [|split; [done|lia]]. split; [done|]. rewrite H2. rewrite E in Hl. by apply lexes_spaces in Hl.
Qed.

(** The token at a position, and where the next one is looked for. *)
Definition token_at (s : nat) (ts : list token) (r : Z * ptr) (s' : nat) : Prop :=
  (s <= s')%nat /\
  match ts with
  | [] => fst r = 0 /\ at_tokens s' []
  | Word w :: ts' => fst r = 97 /\ word_at (snd r) w /\ at_tokens s' ts'
  | Sym c :: ts' => fst r = c /\ c <> 97 /\ c <> 0 /\ at_tokens s' ts'
  end.
Lemma gettoken_ok s ts : at_tokens s ts -> exists r s', gettoken line s = Ok r s' /\ token_at s ts r s'.
Proof.
  intros Ht. unfold gettoken. rewrite bind_gets. unfold id. destruct (skip_spaces s ts s Ht) as (s1 & E1 & Ht1 & Hh & Hle1). rewrite (bind_Ok _ _ _ _ _ E1).
  destruct Ht1 as [Hs1 Hl]. assert (forall s2 ts' (r : Z * ptr), at_tokens s2 ts' -> (s1 <= s2)%nat -> exists s', (s0 ← skip line (S es) is_space s2; modify (fun _ => s0);; mret r) s = Ok r s' /\ at_tokens s' ts' /\ (s <= s')%nat) as Hend.
  { intros s2 ts' r H2 Hle2. destruct (skip_spaces s2 ts' s H2) as (s' & E & H' & _ & Hle). exists s'. split; [by rewrite (bind_Ok _ _ _ _ _ E)|]. split; [done|lia]. }
  remember (drop s1 line) as l eqn:El. assert (rest_is s1 l) as Hr by by split. destruct Hl as [|c l ts Hs H|c l ts Hs H|l ts Hg H|l ts H|w l ts Hw Hws Hb H].
  - rewrite (bind_Ok _ _ _ _ _ (deref_end _ _ Hr)). cbn [Z.eqb]. rewrite bind_ret. cbv beta iota zeta.
    destruct (Hend s1 [] (0, (s1, s1))) as (s' & E & H' & Hle); [split; [done|]; rewrite <- El; constructor|done|]. exists (0, (s1, s1)), s'. done.
  - cbn in Hh. congruence.
  - rewrite (bind_Ok _ _ _ _ _ (deref_at _ _ _ _ Hr)). destruct (sym_not c Hs) as (_ & _ & _ & H0 & Hn62 & Hn43 & Hn97).
    rewrite (proj2 (Z.eqb_neq _ _) H0).
    assert ((c =? 124) || (c =? 40) || (c =? 41) || (c =? 59) || (c =? 38) || (c =? 60) = true) as -> by (clear -Hs; cbn in Hs; set_unfold in Hs; decompose [or] Hs; subst; done).
    rewrite bind_ret. cbv beta iota zeta. destruct (Hend (s1 + 1)%nat ts (c, (s1, (s1 + 1)%nat))) as (s' & E & H' & Hle); [|lia|].
    { destruct (rest_cons _ _ _ Hr) as [? ?]. split; [done|]. congruence. }
    exists (c, (s1, (s1 + 1)%nat)), s'. done.
  - rewrite (bind_Ok _ _ _ _ _ (deref_at _ _ _ _ Hr)). cbn [Z.eqb Pos.eqb orb].
    destruct (rest_cons _ _ _ Hr) as [Hs2 E2].
    assert (exists d, deref line (s1 + 1) s = Ok d s /\ d <> 62) as (d & Ed & Nd).
    { destruct l as [|d l]; [exists 0; split; [apply deref_end; by split|done]|exists d; split; [apply (deref_at _ _ l); by split|cbn in Hg; congruence]]. }
    rewrite !bind_assoc, (bind_Ok _ _ _ _ _ Ed), (proj2 (Z.eqb_neq _ _) Nd), bind_ret. cbv beta iota zeta.
    destruct (Hend (s1 + 1)%nat ts (62, (s1, (s1 + 1)%nat))) as (s' & E & H' & Hle); [split; [done|congruence]|lia|]. exists (62, (s1, (s1 + 1)%nat)), s'. done.
  - rewrite (bind_Ok _ _ _ _ _ (deref_at _ _ _ _ Hr)). cbn [Z.eqb Pos.eqb orb]. pose proof (rest_cons _ _ _ Hr) as Hr2. destruct (rest_cons _ _ _ Hr2) as [Hs3 E3].
    rewrite !bind_assoc, (bind_Ok _ _ _ _ _ (deref_at _ _ _ _ Hr2)), bind_ret. cbv beta iota zeta. cbn [Z.eqb Pos.eqb].
    destruct (Hend (s1 + 2)%nat ts (43, (s1, (s1 + 2)%nat))) as (s' & E & H' & Hle); [|lia|exists (43, (s1, (s1 + 2)%nat)), s'; done].
    replace (s1 + 2)%nat with (s1 + 1 + 1)%nat by lia. split; [done|congruence].
  - destruct w as [|c w]; [done|]. pose proof Hws as Hws'. apply Forall_cons in Hws' as [Hc _]. pose proof (in_word_not _ Hc) as (_ & N62 & Ns & _).
    rewrite (bind_Ok _ _ _ _ _ (deref_at _ _ (w ++ l) _ Hr)), (proj2 (Z.eqb_neq _ _) (rest_nonul _ _ (w ++ l) Hr)).
    assert ((c =? 124) || (c =? 40) || (c =? 41) || (c =? 59) || (c =? 38) || (c =? 60) = false) as ->.
    { clear -Ns. cbn in Ns. set_unfold in Ns. repeat rewrite orb_false_iff. rewrite !Z.eqb_neq. naive_solver. }
    rewrite (proj2 (Z.eqb_neq _ _) N62), !bind_assoc, (bind_Ok _ _ _ _ _ (skip_es in_word (c :: w) l s1 s Hr Hws Hb)), bind_ret. cbv beta iota zeta.
    destruct (rest_app _ _ _ Hr) as [Hs2 E2].
    destruct (Hend (s1 + length (c :: w))%nat ts (97, (s1, (s1 + length (c :: w))%nat))) as (s' & E & H' & Hle); [split; [done|congruence]|lia|].
    exists (97, (s1, (s1 + length (c :: w))%nat)), s'. split; [done|]. split; [done|]. split; [done|]. split; [|done].
    split; [done|]. split; [done|]. split; [done|]. by exists l.
Qed.

(** What [peek] looks at: the first character of the next token, when it is a symbol. *)
Definition first_sym (ts : list token) : option Z := match ts with Sym c :: _ => Some (if c =? 43 then 62 else c) | _ => None end.
Definition peeks (set : list Z) (ts : list token) : bool := match first_sym ts with Some c => chr set c | None => false end.
Lemma peek_ok set s ts : (forall c, chr set c = true -> chr symbols c = true) -> at_tokens s ts ->
  exists s', peek line set s = Ok (peeks set ts) s' /\ at_tokens s' ts /\ (s <= s')%nat.
Proof.
  intros Hset Ht. unfold peek. rewrite bind_gets. unfold id. destruct (skip_spaces s ts s Ht) as (s1 & E1 & Ht1 & Hh & Hle1).
  rewrite (bind_Ok _ _ _ _ _ E1), bind_modify. exists s1. split; [|done]. destruct Ht1 as [Hs1 Hl].
  remember (drop s1 line) as l eqn:El. assert (rest_is s1 l) as Hr by by split. destruct Hl as [|c l ts Hs H|c l ts Hs H|l ts Hg H|l ts H|w l ts Hw Hws Hb H].
  - by rewrite (bind_Ok _ _ _ _ _ (deref_end _ _ Hr)).
  - cbn in Hh. congruence.
  - rewrite (bind_Ok _ _ _ _ _ (deref_at _ _ _ _ Hr)). destruct (sym_not c Hs) as (_ & _ & _ & H0 & _ & Hn43 & _).
    unfold peeks. cbn [first_sym]. by rewrite (proj2 (Z.eqb_neq _ _) H0), (proj2 (Z.eqb_neq _ _) Hn43).
  - by rewrite (bind_Ok _ _ _ _ _ (deref_at _ _ _ _ Hr)).
  - by rewrite (bind_Ok _ _ _ _ _ (deref_at _ _ _ _ Hr)).
  - destruct w as [|c w]; [done|]. apply Forall_cons in Hws as [Hc _]. pose proof (in_word_not _ Hc) as (_ & _ & _ & Hn).
    rewrite (bind_Ok _ _ _ _ _ (deref_at _ _ (w ++ l) _ Hr)). unfold peeks. cbn [first_sym].
    destruct (chr set c) eqn:E; [apply Hset in E; congruence|]. by rewrite andb_false_r.
Qed.

(** No more tokens than characters. *)
Lemma lexes_length l ts : lexes l ts -> (length ts <= length l)%nat.
Proof. induction 1 as [| | | | |w l ts Hw]; cbn [length] in *; rewrite ?length_app; try lia. destruct w; [done|cbn; lia]. Qed.
Lemma at_length s ts : at_tokens s ts -> (length ts <= es)%nat.
Proof. intros [H1 H2]. apply lexes_length in H2. rewrite length_drop in H2. unfold Sh.es in *. lia. Qed.

(** ** Commands with pointers and their words *)

Fixpoint rel (t : cmd ptr) (a : cmd (list Z)) : Prop :=
  match t, a with
  | execcmd l, execcmd m => Forall2 word_at l m
  | redircmd t f mode fd, redircmd a g mode' fd' => rel t a /\ word_at f g /\ mode = mode' /\ fd = fd'
  | pipecmd t u, pipecmd a b | listcmd t u, listcmd a b => rel t a /\ rel u b
  | backcmd t, backcmd a => rel t a
  | _, _ => False
  end.

Lemma word_at_fun p w w' : word_at p w -> word_at p w' -> w = w'.
Proof.
  intros (_ & H1 & _ & r & [_ E] & Hr) (_ & H1' & _ & r' & [_ E'] & Hr'). rewrite E in E'. clear -H1 Hr H1' Hr' E'. revert w' H1' E'.
  induction w as [|c w IH]; intros [|c' w'] H1' E'; [done|..].
  - cbn in E'. subst r. apply Forall_cons in H1' as [? _]. congruence.
  - cbn in E'. subst r'. apply Forall_cons in H1 as [? _]. congruence.
  - injection E' as -> E'. apply Forall_cons in H1 as [? H1], H1' as [? H1']. f_equal. by apply IH.
Qed.
Lemma rel_fun t : forall a b, rel t a -> rel t b -> a = b.
Proof.
  induction t as [l|t IH f mode fd|t IHt u IHu|t IHt u IHu|t IH]; intros a b; destruct a, b; cbn [rel]; try done; intros Ha Hb.
  - f_equal. revert argv0 Hb. induction Ha as [|p w l m Hw _ IH]; intros m' Hb; inversion Hb as [|p' w' l' m'' Hw' Hb']; [done|]. f_equal; [by apply (word_at_fun p)|by apply IH].
  - destruct Ha as (H1 & H2 & -> & ->), Hb as (H1' & H2' & -> & ->). f_equal; [by apply IH|by apply (word_at_fun f)].
  - destruct Ha, Hb. f_equal; [by apply IHt|by apply IHu].
  - destruct Ha, Hb. f_equal; [by apply IHt|by apply IHu].
  - f_equal. by apply IH.
Qed.
Lemma rel_redir t a c p w : rel t a -> word_at p w -> redir_ok (c, w) ->
  rel (if c =? 60 then redircmd t p SH_RDONLY 0 else if c =? 62 then redircmd t p SH_WRCREATE 1 else if c =? 43 then redircmd t p SH_WRCREATE 1 else t) (add_redir a (c, w)).
Proof. unfold redir_ok, add_redir. cbn [fst snd]. intros Ht Hp [-> | [-> | ->]]; cbn [Z.eqb Pos.eqb]; done. Qed.
Lemma rel_iter n t a : rel t a -> rel (Nat.iter n backcmd t) (Nat.iter n backcmd a).
Proof. intros H. by induction n. Qed.
Lemma simple_snoc ws w rs : add_arg w (simple ws rs) = simple (ws ++ [w]) rs.
Proof.
  unfold simple. induction rs as [|[c f] rs IH] using rev_ind; [done|]. rewrite !foldl_app. cbn [foldl]. unfold add_redir at 1 3. cbn [fst snd].
  destruct (c =? 60); cbn [add_arg]; by rewrite IH.
Qed.
Lemma rel_add_arg t : forall a p w, rel t a -> word_at p w -> rel (add_arg p t) (add_arg w a).
Proof.
  induction t as [l|t IH f mode fd|t _ u _|t _ u _|t _]; intros a p w; destruct a; cbn [rel add_arg]; try done.
  - intros H Hp. apply Forall2_app; [done|by constructor].
  - intros (H1 & H2 & H3) Hp. split; [by apply IH|done].
Qed.

(** ** The parser accepts the grammar *)

Lemma sub_symbols set : forallb (chr symbols) set = true -> forall c, chr (set ++ [0]) c = true -> chr symbols c = true.
Proof.
  intros Hs c. unfold chr at 1. induction set as [|d set IH].
  - by cbn.
  - cbn [forallb] in Hs. apply andb_true_iff in Hs as [Hd Hs]. cbn [app strchr]. destruct (Z.eqb_spec d 0); [done|]. destruct (Z.eqb_spec d c) as [->|]; [done|].
    destruct (strchr (set ++ [0]) c) as [[k|]|]; cbn; [by apply IH|done..].
Qed.
Local Ltac peeking s ts Ht := let s' := fresh "s" in let E := fresh "E" in let H := fresh "H" in let Hle := fresh "Hle" in
  match goal with |- context [peek line ?set] => destruct (peek_ok set s ts ltac:(by apply sub_symbols) Ht) as (s' & E & H & Hle); first [rewrite (bind_Ok _ _ _ _ _ E) | apply (hoare_step _ _ _ _ _ _ _ E)] end.
Local Ltac token s ts Ht := let r := fresh "r" in let s' := fresh "s" in let E := fresh "E" in let H := fresh "K" in let Hle := fresh "Hle" in
  destruct (gettoken_ok s ts Ht) as (r & s' & E & Hle & H); first [rewrite (bind_Ok _ _ _ _ _ E) | apply (hoare_step _ _ _ _ _ _ _ E)].

(** The answer of a [peek] at a known symbol. *)
Local Ltac look := unfold peeks; cbn [first_sym];
  match goal with |- context [chr (cstr ?x) ?c] => let v := eval vm_compute in (chr (cstr x) c) in change (chr (cstr x) c) with v end; cbn [negb]; cbv iota.

Definition no_redir (ts : list token) : Prop := peeks (cstr "<>") ts = false.
Lemma peeks_redir c ts : redir_ok (c, []) -> peeks (cstr "<>") (Sym c :: ts) = true.
Proof. unfold redir_ok. cbn [fst]. intros [-> | [-> | ->]]; done. Qed.

Lemma parseredirs_complete ts rs : forall s t a fuel, at_tokens s ((rs ≫= redir_toks) ++ ts) -> rel t a -> Forall redir_ok rs -> no_redir ts -> (length rs < fuel)%nat ->
  exists t' s', parseredirs line fuel t s = Ok t' s' /\ rel t' (foldl add_redir a rs) /\ at_tokens s' ts.
Proof.
  induction rs as [|[c f] rs IH]; intros s t a fuel Ht Hr Hrs Hn Hf; (destruct fuel as [|fuel]; [lia|]); cbn [parseredirs].
  - peeking s ts Ht. cbn [mbind list_bind app] in *. rewrite Hn. by exists t, s0.
  - apply Forall_cons in Hrs as [Hc Hrs]. cbn [mbind list_bind app redir_toks fst snd] in Ht. change (redir_toks (c, f) ++ list_bind _ _ redir_toks rs) with ((Sym c :: Word f :: (rs ≫= redir_toks))) in Ht.
    cbn [app] in Ht. peeking s (Sym c :: Word f :: (rs ≫= redir_toks) ++ ts) Ht. rewrite peeks_redir by done.
    token s0 (Sym c :: Word f :: (rs ≫= redir_toks) ++ ts) H. destruct K as (K1 & K2 & K3 & K4). destruct r as [c0 x]. cbn [fst] in K1. subst c0.
    token s1 (Word f :: (rs ≫= redir_toks) ++ ts) K4. destruct K as (K1' & K2' & K3'). destruct r as [c0 y]. cbn [fst snd] in *. subst c0. cbn [Z.eqb Pos.eqb negb].
    apply (IH s2); [done|by apply rel_redir|done..|cbn [length] in Hf; lia].
Qed.

Definition after_exec (ts : list token) : Prop := match ts with [] => True | Sym c :: _ => c = 124 \/ c = 41 \/ c = 38 \/ c = 59 | _ => False end.
Definition after_pipe (ts : list token) : Prop := match ts with [] => True | Sym c :: _ => c = 41 \/ c = 38 \/ c = 59 | _ => False end.
Definition after_line (ts : list token) : Prop := match ts with [] => True | Sym c :: _ => c = 41 | _ => False end.
Lemma after_exec_redir ts : after_exec ts -> no_redir ts.
Proof. destruct ts as [|[|c] ts]; [done..|]. cbn [after_exec]. intros [-> | [-> | [-> | ->]]]; done. Qed.
Lemma after_pipe_exec ts : after_pipe ts -> after_exec ts.
Proof. destruct ts as [|[|c] ts]; cbn; tauto. Qed.

(** The redirections at the head of the items. *)
Lemma items_split its : exists rs its', its = map IRedir rs ++ its' /\ match its' with IRedir _ :: _ => False | _ => True end.
Proof. induction its as [|[w|r] its (rs & its' & -> & H)]; [by exists [], []|by exists [], (IArg w :: map IRedir rs ++ its')|]. by exists (r :: rs), its'. Qed.
Lemma redirs_items rs its : args (map IRedir rs ++ its) = args its /\ redirs (map IRedir rs ++ its) = rs ++ redirs its /\
  (map IRedir rs ++ its) ≫= item_toks = (rs ≫= redir_toks) ++ (its ≫= item_toks).
Proof. induction rs as [|r rs (H1 & H2 & H3)]; [done|]. split; [exact H1|]. split; [by cbn; f_equal|]. cbn in *. by rewrite H3. Qed.

Lemma parseargs_complete n : forall its ts s t ws rs fuel, (length its <= n)%nat -> at_tokens s ((its ≫= item_toks) ++ ts) -> rel t (simple ws rs) -> Forall redir_ok (redirs its) -> after_exec ts ->
  match its with IRedir _ :: _ => False | _ => True end -> (length (ws ++ args its) < MAXARGS)%nat -> (length its < fuel)%nat ->
  exists t' s', parseargs line fuel (length ws) t s = Ok t' s' /\ rel t' (simple (ws ++ args its) (rs ++ redirs its)) /\ at_tokens s' ts.
Proof.
  induction n as [|n IH]; intros its ts s t ws rs fuel Hn Ht Hr Hrs Ha Hh Hw Hf; (destruct fuel as [|fuel]; [lia|]); cbn [parseargs];
    (destruct its as [|[w|r] its]; [|try (cbn in Hn; lia)|done]).
  1,2: cbn [mbind list_bind app] in Ht; peeking s ts Ht; exists t; rewrite !app_nil_r.
  1,2: destruct ts as [|[w|c] ts]; [|done|]; [|exists s0; split; [|done]; cbn [after_exec] in Ha; by destruct Ha as [-> | [-> | [-> | ->]]]].
  1,2: unfold peeks; cbn [first_sym]; token s0 (@nil token) H; destruct K as [K1 K2]; destruct r as [c x]; cbn [fst] in K1; subst c; by exists s1.
  destruct (items_split its) as (rs1 & its1 & -> & Hh1). destruct (redirs_items rs1 its1) as (A1 & A2 & A3).
  change ((IArg w :: map IRedir rs1 ++ its1) ≫= item_toks) with (Word w :: ((map IRedir rs1 ++ its1) ≫= item_toks)) in Ht.
  change (redirs (IArg w :: map IRedir rs1 ++ its1)) with (redirs (map IRedir rs1 ++ its1)) in *.
  change (args (IArg w :: map IRedir rs1 ++ its1)) with (w :: args (map IRedir rs1 ++ its1)) in *.
  rewrite A3 in Ht. rewrite A1, A2 in *. cbn [app] in Ht. rewrite <- app_assoc in Ht.
  peeking s (Word w :: (rs1 ≫= redir_toks) ++ (its1 ≫= item_toks) ++ ts) Ht. unfold peeks. cbn [first_sym].
  token s0 (Word w :: (rs1 ≫= redir_toks) ++ (its1 ≫= item_toks) ++ ts) H. destruct K as (K1 & K2 & K3). destruct r as [c x]. cbn [fst snd] in *. subst c. cbn [Z.eqb Pos.eqb negb].
  rewrite !length_app in Hw. cbn [length] in Hw. rewrite (proj2 (Nat.leb_gt MAXARGS (length ws + 1))) by lia.
  apply Forall_app in Hrs as [Hrs1 Hrs2].
  destruct (parseredirs_complete ((its1 ≫= item_toks) ++ ts) rs1 s1 (add_arg x t) (simple (ws ++ [w]) rs) (S es)) as (t' & s' & E' & Hr' & Ht'); [done| |done| | |].
  { rewrite <- simple_snoc. by apply rel_add_arg. }
  { destruct its1 as [|[w1|r1] its1]; [by apply after_exec_redir|done..]. }
  { apply at_length in K3. rewrite !length_app in K3. assert (length rs1 <= length (rs1 ≫= redir_toks))%nat; [|lia]. clear. induction rs1 as [|r rs IH]; [done|]. cbn in *. lia. }
  rewrite (bind_Ok _ _ _ _ _ E').
  assert (foldl add_redir (simple (ws ++ [w]) rs) rs1 = simple (ws ++ [w]) (rs ++ rs1)) as Es by (unfold simple; by rewrite foldl_app).
  rewrite Es in Hr'. cbn [length] in Hn, Hf. rewrite length_app, length_map in Hn, Hf.
  destruct (IH its1 ts s' t' (ws ++ [w]) (rs ++ rs1) fuel) as (t2 & s2' & E2 & Hr2 & Ht2); [lia|done..| | |].
  { rewrite !length_app. cbn [length]. lia. }
  { lia. }
  exists t2, s2'. rewrite length_app in E2. cbn [length] in E2. split; [exact E2|]. by rewrite <- !app_assoc in Hr2.
Qed.

Lemma parseback_complete ts n : forall s t a fuel, at_tokens s (replicate n (Sym 38) ++ ts) -> rel t a -> peeks (cstr "&") ts = false -> (n < fuel)%nat ->
  exists t' s', parseback line fuel t s = Ok t' s' /\ rel t' (Nat.iter n backcmd a) /\ at_tokens s' ts.
Proof.
  induction n as [|n IH]; intros s t a fuel Ht Hr Hn Hf; (destruct fuel as [|fuel]; [lia|]); cbn [parseback].
  - cbn [replicate app] in Ht. peeking s ts Ht. rewrite Hn. by exists t, s0.
  - cbn [replicate app] in Ht. peeking s (Sym 38 :: replicate n (Sym 38) ++ ts) Ht. look.
    token s0 (Sym 38 :: replicate n (Sym 38) ++ ts) H. destruct K as (_ & _ & _ & K). rewrite Nat.iter_succ_r. by apply IH; [..|lia].
Qed.

Lemma items_no_paren its ts : Forall redir_ok (redirs its) -> after_exec ts -> peeks (cstr "(") ((its ≫= item_toks) ++ ts) = false.
Proof.
  destruct its as [|[w|[c f]] its]; [|done|].
  - intros _. destruct ts as [|[w|c] ts]; [done..|]. cbn [after_exec]. by intros [-> | [-> | [-> | ->]]].
  - cbn. intros [Hc _]%Forall_cons _. unfold redir_ok in Hc. cbn in Hc. by destruct Hc as [-> | [-> | ->]].
Qed.

Lemma parser_complete :
  (forall ts a, g_line ts a -> forall s ts2 fuel, at_tokens s (ts ++ ts2) -> after_line ts2 -> (4 * length (ts ++ ts2) + 4 <= fuel)%nat ->
     exists t s', parseline line fuel s = Ok t s' /\ rel t a /\ at_tokens s' ts2) /\
  (forall ts a, g_pipe ts a -> forall s ts2 fuel, at_tokens s (ts ++ ts2) -> after_pipe ts2 -> (4 * length (ts ++ ts2) + 3 <= fuel)%nat ->
     exists t s', parsepipe line fuel s = Ok t s' /\ rel t a /\ at_tokens s' ts2) /\
  (forall ts a, g_exec ts a -> forall s ts2 fuel, at_tokens s (ts ++ ts2) -> after_exec ts2 -> (4 * length (ts ++ ts2) + 2 <= fuel)%nat ->
     exists t s', parseexec line fuel s = Ok t s' /\ rel t a /\ at_tokens s' ts2).
Proof.
  apply grammar_ind.
  - intros ts a n _ IH s ts2 fuel Ht Ha Hf. destruct fuel as [|fuel]; [lia|]. cbn [parseline]. rewrite <- app_assoc in *.
    destruct (IH s (replicate n (Sym 38) ++ ts2) fuel Ht) as (t & s1 & E1 & Hr & Ht1); [|lia|].
    { destruct n; [|by cbn; tauto]. destruct ts2 as [|[w|c] ts2]; cbn in *; tauto. }
    rewrite (bind_Ok _ _ _ _ _ E1). pose proof (at_length _ _ Ht1) as Hl. rewrite length_app, length_replicate in Hl.
    assert (forall set, peeks set ts2 = match ts2 with [] => false | _ => chr set 41 end) as Hp by (intros; destruct ts2 as [|[w|c] ts2]; cbn in *; [done..|by subst c]).
    destruct (parseback_complete ts2 n s1 t a (S es) Ht1 Hr) as (t' & s2 & E2 & Hr2 & Ht2); [rewrite Hp; by destruct ts2|lia|].
    rewrite (bind_Ok _ _ _ _ _ E2). peeking s2 ts2 Ht2. rewrite Hp. exists t', s0. by destruct ts2.
  - intros ts a n ts' a' _ IH _ IH' s ts2 fuel Ht Ha Hf. destruct fuel as [|fuel]; [lia|]. cbn [parseline]. rewrite <- app_assoc in *. rewrite <- app_assoc in *. cbn [app] in *.
    destruct (IH s (replicate n (Sym 38) ++ Sym 59 :: ts' ++ ts2) fuel Ht) as (t & s1 & E1 & Hr & Ht1); [by destruct n; cbn; tauto|lia|].
    rewrite (bind_Ok _ _ _ _ _ E1). pose proof (at_length _ _ Ht1) as Hl. rewrite length_app, length_replicate in Hl.
    destruct (parseback_complete (Sym 59 :: ts' ++ ts2) n s1 t a (S es) Ht1 Hr) as (t' & s2 & E2 & Hr2 & Ht2); [done|lia|].
    rewrite (bind_Ok _ _ _ _ _ E2). peeking s2 (Sym 59 :: ts' ++ ts2) Ht2. look.
    token s0 (Sym 59 :: ts' ++ ts2) H. destruct K as (_ & _ & _ & K). rewrite !length_app in Hf. cbn [length] in Hf. rewrite length_app in Hf.
    destruct (IH' s3 ts2 fuel K Ha) as (u & s4 & E4 & Hru & Ht4); [rewrite length_app; lia|]. rewrite (bind_Ok _ _ _ _ _ E4). by exists (listcmd t' u), s4.
  - intros ts a _ IH s ts2 fuel Ht Ha Hf. destruct fuel as [|fuel]; [lia|]. cbn [parsepipe].
    destruct (IH s ts2 fuel Ht) as (t & s1 & E1 & Hr & Ht1); [by apply after_pipe_exec|lia|]. rewrite (bind_Ok _ _ _ _ _ E1). peeking s1 ts2 Ht1.
    assert (peeks (cstr "|") ts2 = false) as -> by (destruct ts2 as [|[w|c] ts2]; [done..|]; cbn in Ha; by destruct Ha as [-> | [-> | ->]]). by exists t, s0.
  - intros ts a ts' a' _ IH _ IH' s ts2 fuel Ht Ha Hf. destruct fuel as [|fuel]; [lia|]. cbn [parsepipe]. rewrite <- app_assoc in *. cbn [app] in *.
    destruct (IH s (Sym 124 :: ts' ++ ts2) fuel Ht) as (t & s1 & E1 & Hr & Ht1); [by left|lia|]. rewrite (bind_Ok _ _ _ _ _ E1).
    peeking s1 (Sym 124 :: ts' ++ ts2) Ht1. look.
    token s0 (Sym 124 :: ts' ++ ts2) H. destruct K as (_ & _ & _ & K). rewrite length_app in Hf. cbn [length] in Hf.
    destruct (IH' s2 ts2 fuel K Ha) as (u & s4 & E4 & Hru & Ht4); [lia|]. rewrite (bind_Ok _ _ _ _ _ E4). by exists (pipecmd t u), s4.
  - intros its Hrs Hw s ts2 fuel Ht Ha Hf. destruct fuel as [|fuel]; [lia|]. cbn [parseexec]. peeking s ((its ≫= item_toks) ++ ts2) Ht. rewrite items_no_paren by done.
    destruct (items_split its) as (rs1 & its1 & -> & Hh1). destruct (redirs_items rs1 its1) as (A1 & A2 & A3). rewrite A3 in H. rewrite A1, A2 in *. rewrite <- app_assoc in H.
    apply Forall_app in Hrs as [Hrs1 Hrs2]. pose proof (at_length _ _ H) as Hl.
    assert (length rs1 <= length (rs1 ≫= redir_toks) /\ length its1 <= length (its1 ≫= item_toks))%nat as [L1 L2].
    { clear. split; [induction rs1 as [|r rs IH]|induction its1 as [|[w|r] its IH]]; cbn in *; lia. }
    rewrite !length_app in Hl.
    destruct (parseredirs_complete ((its1 ≫= item_toks) ++ ts2) rs1 s0 (execcmd []) (execcmd []) (S es)) as (t' & s' & E' & Hr' & Ht'); [done|by cbn|done| |lia|].
    { destruct its1 as [|[w1|r1] its1]; [by apply after_exec_redir|done..]. }
    rewrite (bind_Ok _ _ _ _ _ E').
    destruct (parseargs_complete (length its1) its1 ts2 s' t' [] rs1 (S es)) as (t2 & s2' & E2 & Hr2 & Ht2); [lia|done..|lia|].
    by exists t2, s2'.
  - intros ts a rs Hrs _ IH s ts2 fuel Ht Ha Hf. destruct fuel as [|fuel]; [lia|]. cbn [parseexec app] in *. rewrite <- app_assoc in *. cbn [app] in *.
    peeking s (Sym 40 :: ts ++ Sym 41 :: (rs ≫= redir_toks) ++ ts2) Ht. look.
    cbn [length] in Hf. destruct fuel as [|fuel]; [lia|]. cbn [parseblock].
    peeking s0 (Sym 40 :: ts ++ Sym 41 :: (rs ≫= redir_toks) ++ ts2) H. look.
    token s1 (Sym 40 :: ts ++ Sym 41 :: (rs ≫= redir_toks) ++ ts2) H0. destruct K as (_ & _ & _ & K).
    destruct (IH s2 (Sym 41 :: (rs ≫= redir_toks) ++ ts2) fuel K) as (t & s3 & E3 & Hr & Ht3); [done|lia|]. rewrite (bind_Ok _ _ _ _ _ E3).
    peeking s3 (Sym 41 :: (rs ≫= redir_toks) ++ ts2) Ht3. look.
    token s4 (Sym 41 :: (rs ≫= redir_toks) ++ ts2) H1. destruct K0 as (_ & _ & _ & K0).
    apply parseredirs_complete; [done..|by apply after_exec_redir|]. apply at_length in K0. rewrite length_app in K0.
    assert (length rs <= length (rs ≫= redir_toks))%nat; [|lia]. clear. induction rs as [|r rs IH]; cbn in *; lia.
Qed.

(** ** What the parser accepts is in the grammar *)

Definition consumes (G : list token -> cmd (list Z) -> Prop) (ts : list token) (t : cmd ptr) (s : nat) : Prop :=
  exists ts1 ts2 a, ts = ts1 ++ ts2 /\ G ts1 a /\ rel t a /\ at_tokens s ts2.
Notation any := (fun _ : string => True).

Lemma peeks_true set ts : peeks set ts = true -> exists c ts', ts = Sym c :: ts' /\ chr set (if c =? 43 then 62 else c) = true.
Proof. destruct ts as [|[w|c] ts]; unfold peeks; cbn [first_sym]; [done..|]. intros H. by exists c, ts. Qed.
Lemma chr_one d c : d <> 0 -> chr [d; 0] c = true -> c = d.
Proof. intros Hd. unfold chr. cbn [strchr]. rewrite (proj2 (Z.eqb_neq _ _) Hd). by destruct (Z.eqb_spec d c). Qed.
Lemma peeks_one d ts : d <> 0 -> d <> 62 -> d <> 43 -> peeks [d; 0] ts = true -> exists ts', ts = Sym d :: ts'.
Proof.
  intros Hd H1 H2 H. apply peeks_true in H as (c & ts' & -> & H). apply chr_one in H; [|done]. destruct (Z.eqb_spec c 43); subst; [done|]. by exists ts'.
Qed.
Lemma peeks_redirs ts : peeks (cstr "<>") ts = true -> exists c ts', ts = Sym c :: ts' /\ forall w, redir_ok (c, w).
Proof.
  intros H. apply peeks_true in H as (c & ts' & -> & H). exists c, ts'. split; [done|]. intros w. unfold redir_ok. cbn [fst].
  destruct (Z.eqb_spec c 43) as [|N]; [by auto|]. destruct (Z.eqb_spec 60 c) as [<-|N1]; [by auto|]. destruct (Z.eqb_spec 62 c) as [<-|N2]; [by auto|].
  exfalso. unfold chr in H. change (cstr "<>") with [60; 62; 0] in H. cbn [strchr] in H. rewrite (proj2 (Z.eqb_neq _ _) N1), (proj2 (Z.eqb_neq _ _) N2) in H. done.
Qed.

Lemma parseredirs_sound fuel : forall s ts t a, at_tokens s ts -> rel t a -> (length ts < fuel)%nat ->
  hoare (parseredirs line fuel t) s (fun t' s' => exists rs ts2, ts = (rs ≫= redir_toks) ++ ts2 /\ Forall redir_ok rs /\ rel t' (foldl add_redir a rs) /\ at_tokens s' ts2 /\ no_redir ts2) any.
Proof.
  induction fuel as [|fuel IH]; intros s ts t a Ht Hr Hf; [lia|]. cbn [parseredirs]. peeking s ts Ht. destruct (peeks (cstr "<>") ts) eqn:Ep.
  2: { apply hoare_ret. by exists [], ts. }
  apply peeks_redirs in Ep as (c & ts' & -> & Hc). token s0 (Sym c :: ts') H. destruct K as (K1 & _ & _ & K2). destruct r as [c0 x]. cbn [fst] in K1. subst c0.
  token s1 ts' K2. destruct r as [c0 y]. destruct ts' as [|[w|d] ts']; cbn [fst snd] in K.
  - destruct K as [-> _]. done.
  - destruct K as (-> & Hw & K). cbn [Z.eqb Pos.eqb negb].
    eapply hoare_weaken; [apply (IH s2 ts' _ (add_redir a (c, w)) K); [by apply rel_redir|cbn in Hf; lia]| |done].
    intros t' s' (rs & ts2 & -> & Hrs & Hr' & H'). exists ((c, w) :: rs), ts2. split; [done|]. split; [by constructor|done].
  - destruct K as (-> & Nd & _). rewrite (proj2 (Z.eqb_neq _ _) Nd). done.
Qed.

Lemma parseargs_sound fuel : forall s ts t ws rs, at_tokens s ts -> rel t (simple ws rs) -> (length ws < MAXARGS)%nat -> no_redir ts -> (length ts < fuel)%nat ->
  hoare (parseargs line fuel (length ws) t) s (fun t' s' => exists its ts2, ts = (its ≫= item_toks) ++ ts2 /\ Forall redir_ok (redirs its) /\
    rel t' (simple (ws ++ args its) (rs ++ redirs its)) /\ at_tokens s' ts2 /\ (length (ws ++ args its) < MAXARGS)%nat) any.
Proof.
  induction fuel as [|fuel IH]; intros s ts t ws rs Ht Hr Hw Hn Hf; [lia|]. cbn [parseargs]. peeking s ts Ht.
  assert (forall s', at_tokens s' ts -> exists its ts2, ts = (its ≫= item_toks) ++ ts2 /\ Forall redir_ok (redirs its) /\
    rel t (simple (ws ++ args its) (rs ++ redirs its)) /\ at_tokens s' ts2 /\ (length (ws ++ args its) < MAXARGS)%nat) as Hstop.
  { intros s' H'. exists [], ts. cbn [args redirs omap list_omap]. rewrite !app_nil_r. split; [done|]. split; [constructor|done]. }
  destruct (peeks _ ts); [apply hoare_ret; by apply Hstop|]. token s0 ts H. destruct r as [c x]. destruct ts as [|[w|c'] ts]; cbn [fst snd] in K.
  - destruct K as [-> K]. apply hoare_ret. by apply Hstop.
  - destruct K as (-> & Hx & K). cbn [Z.eqb Pos.eqb negb]. destruct (Nat.leb_spec MAXARGS (length ws + 1)); [done|].
    eapply hoare_bind; [eapply (parseredirs_sound _ s1 ts _ (simple (ws ++ [w]) rs)); [done| |apply at_length in K; lia]|].
    { rewrite <- simple_snoc. by apply rel_add_arg. }
    cbn beta. intros t1 s2 (rs1 & ts2 & -> & Hrs1 & Hr1 & Ht2 & Hn2).
    assert (foldl add_redir (simple (ws ++ [w]) rs) rs1 = simple (ws ++ [w]) (rs ++ rs1)) as Es by (unfold simple; by rewrite foldl_app). rewrite Es in Hr1.
    assert (length (ws ++ [w]) = (length ws + 1)%nat) as El by by rewrite length_app.
    rewrite <- El. eapply hoare_weaken; [apply (IH s2 ts2 t1 (ws ++ [w]) (rs ++ rs1) Ht2 Hr1); [lia|done|rewrite length_cons, length_app in Hf; lia]| |done].
    cbn beta. intros t' s' (its & ts3 & -> & H1 & H2 & H3 & H4). exists (IArg w :: map IRedir rs1 ++ its), ts3. destruct (redirs_items rs1 its) as (A1 & A2 & A3).
    change (redirs (IArg w :: map IRedir rs1 ++ its)) with (redirs (map IRedir rs1 ++ its)). change (args (IArg w :: map IRedir rs1 ++ its)) with (w :: args (map IRedir rs1 ++ its)).
    change ((IArg w :: map IRedir rs1 ++ its) ≫= item_toks) with (Word w :: ((map IRedir rs1 ++ its) ≫= item_toks)). rewrite A1, A2, A3.
    rewrite <- (app_assoc rs), <- (app_assoc ws) in H2. rewrite <- app_assoc in H4. cbn [app] in *. rewrite <- app_assoc. split; [done|]. split; [by apply Forall_app|].
    split; [exact H2|]. split; [exact H3|]. exact H4.
  - destruct K as (-> & N97 & N0 & _). rewrite (proj2 (Z.eqb_neq _ _) N0), (proj2 (Z.eqb_neq _ _) N97). done.
Qed.

Lemma parseback_sound fuel : forall s ts t a, at_tokens s ts -> rel t a -> (length ts < fuel)%nat ->
  hoare (parseback line fuel t) s (fun t' s' => exists n ts2, ts = replicate n (Sym 38) ++ ts2 /\ rel t' (Nat.iter n backcmd a) /\ at_tokens s' ts2) any.
Proof.
  induction fuel as [|fuel IH]; intros s ts t a Ht Hr Hf; [lia|]. cbn [parseback]. peeking s ts Ht. destruct (peeks (cstr "&") ts) eqn:Ep.
  2: { apply hoare_ret. by exists 0%nat, ts. }
  apply (peeks_one 38) in Ep as [ts' ->]; [|done..]. token s0 (Sym 38 :: ts') H. destruct K as (_ & _ & _ & K).
  eapply hoare_weaken; [apply (IH s1 ts' (backcmd t) (backcmd a) K Hr); cbn in Hf; lia| |done].
  cbn beta. intros t' s' (n & ts2 & -> & Hr' & H'). exists (S n), ts2. by rewrite Nat.iter_succ_r.
Qed.

Lemma parser_sound fuel : forall s ts, at_tokens s ts ->
  ((4 * length ts + 4 <= fuel)%nat -> hoare (parseline line fuel) s (consumes g_line ts) any) /\
  ((4 * length ts + 3 <= fuel)%nat -> hoare (parsepipe line fuel) s (consumes g_pipe ts) any) /\
  ((4 * length ts + 2 <= fuel)%nat -> hoare (parseexec line fuel) s (consumes g_exec ts) any) /\
  ((4 * length ts + 1 <= fuel)%nat -> hoare (parseblock line fuel) s (consumes g_exec ts) any).
Proof.
  induction fuel as [|fuel IH]; intros s ts Ht; [split_and!; intros; lia|]. cbn [parseline parsepipe parseexec parseblock]. split_and!; intros Hf.
  - eapply hoare_bind; [apply (proj1 (proj2 (IH s ts Ht))); lia|]. cbn beta. intros t s1 (ts1 & ts2 & a & -> & Hg & Hr & H1).
    eapply hoare_bind; [apply (parseback_sound _ s1 ts2 t a H1 Hr); apply at_length in H1; lia|]. cbn beta. intros t' s2 (n & ts3 & -> & Hr' & H2).
    peeking s2 ts3 H2. destruct (peeks (cstr ";") ts3) eqn:Ep.
    2: { apply hoare_ret. exists (ts1 ++ replicate n (Sym 38)), ts3, (Nat.iter n backcmd a). split; [by rewrite app_assoc|]. split; [by constructor|done]. }
    apply (peeks_one 59) in Ep as [ts4 ->]; [|done..]. token s0 (Sym 59 :: ts4) H. destruct K as (_ & _ & _ & K). rewrite !length_app in Hf. cbn [length] in Hf.
    eapply hoare_bind; [apply (proj1 (IH s3 ts4 K)); lia|]. cbn beta. intros u s4 (ts5 & ts6 & b & -> & Hg' & Hu & H4). apply hoare_ret.
    exists (ts1 ++ replicate n (Sym 38) ++ Sym 59 :: ts5), ts6, (listcmd (Nat.iter n backcmd a) b). split; [by rewrite <- !app_assoc; cbn|]. split; [by constructor|done].
  - eapply hoare_bind; [apply (proj1 (proj2 (proj2 (IH s ts Ht)))); lia|]. cbn beta. intros t s1 (ts1 & ts2 & a & -> & Hg & Hr & H1).
    peeking s1 ts2 H1. destruct (peeks (cstr "|") ts2) eqn:Ep.
    2: { apply hoare_ret. exists ts1, ts2, a. split; [done|]. split; [by constructor|done]. }
    apply (peeks_one 124) in Ep as [ts4 ->]; [|done..]. token s0 (Sym 124 :: ts4) H. destruct K as (_ & _ & _ & K). rewrite !length_app in Hf. cbn [length] in Hf.
    eapply hoare_bind; [apply (proj1 (proj2 (IH s2 ts4 K))); lia|]. cbn beta. intros u s4 (ts5 & ts6 & b & -> & Hg' & Hu & H4). apply hoare_ret.
    exists (ts1 ++ Sym 124 :: ts5), ts6, (pipecmd a b). split; [by rewrite <- !app_assoc; cbn|]. split; [by constructor|done].
  - peeking s ts Ht. destruct (peeks (cstr "(") ts) eqn:Ep; [apply (proj2 (proj2 (proj2 (IH s0 ts H)))); lia|].
    eapply hoare_bind; [apply (parseredirs_sound _ s0 ts (execcmd []) (execcmd []) H); [by cbn|apply at_length in H; lia]|]. cbn beta. intros t s1 (rs & ts1 & -> & Hrs & Hr & H1 & Hn).
    change (foldl add_redir (execcmd []) rs) with (simple [] rs) in Hr.
    eapply hoare_weaken; [apply (parseargs_sound _ s1 ts1 t [] rs H1 Hr); [cbn; unfold MAXARGS; lia|done|apply at_length in H1; lia]| |done].
    cbn beta. intros t' s' (its & ts2 & -> & Hi & Hr' & H' & Hw). destruct (redirs_items rs its) as (A1 & A2 & A3).
    exists ((map IRedir rs ++ its) ≫= item_toks), ts2, (simple (args its) (rs ++ redirs its)). split; [by rewrite A3, app_assoc|]. split; [|done].
    rewrite <- A1, <- A2. apply g_simple; [rewrite A2; by apply Forall_app|by rewrite A1].
  - peeking s ts Ht. destruct (peeks (cstr "(") ts) eqn:Ep; [|done]. apply (peeks_one 40) in Ep as [ts1 ->]; [|done..]. cbn [negb].
    token s0 (Sym 40 :: ts1) H. destruct K as (_ & _ & _ & K). cbn [length] in Hf.
    eapply hoare_bind; [apply (proj1 (IH s1 ts1 K)); lia|]. cbn beta. intros t s2 (ts2 & ts3 & a & -> & Hg & Hr & H2).
    peeking s2 ts3 H2. destruct (peeks (cstr ")") ts3) eqn:Ep; [|done]. apply (peeks_one 41) in Ep as [ts4 ->]; [|done..]. cbn [negb].
    token s3 (Sym 41 :: ts4) H0. destruct K0 as (_ & _ & _ & K0).
    eapply hoare_weaken; [apply (parseredirs_sound _ s4 ts4 t a K0 Hr); apply at_length in K0; lia| |done].
    cbn beta. intros t' s' (rs & ts5 & -> & Hrs & Hr' & H' & _). exists (Sym 40 :: ts2 ++ Sym 41 :: (rs ≫= redir_toks)), ts5, (foldl add_redir a rs).
    split; [by cbn; rewrite <- app_assoc|]. split; [by constructor|done].
Qed.

(** ** The words end where they should *)

Fixpoint words (t : cmd ptr) : list ptr :=
  match t with
  | execcmd argv => argv
  | redircmd t f _ _ => words t ++ [f]
  | pipecmd t u | listcmd t u => words t ++ words u
  | backcmd t => words t
  end.
Lemma put_nuls_app l1 l2 b : put_nuls (l1 ++ l2) b = (put_nuls l1;; put_nuls l2) b.
Proof. revert b. induction l1 as [|w l1 IH]; intros b; [done|]. cbn [put_nuls app]. rewrite bind_assoc. unfold mbind, M_bind. by destruct (put_nul _ b). Qed.
Lemma nulterminate_puts t : forall b, nulterminate t b = put_nuls (words t) b.
Proof.
  induction t as [l|t IH f mode fd|t IHt u IHu|t IHt u IHu|t IH]; intros b; cbn [nulterminate words]; [done| | | |apply IH];
    rewrite put_nuls_app; unfold mbind, M_bind; rewrite ?IH, ?IHt; destruct (put_nuls _ b); try done.
  cbn [put_nuls]. by rewrite bind_ret_r || (unfold mbind, M_bind; destruct (put_nul _ _) as [[] ?| | |]).
Qed.
Lemma rel_words t : forall a, rel t a -> Forall (fun p => exists w, word_at p w) (words t).
Proof.
  induction t as [l|t IH f mode fd|t IHt u IHu|t IHt u IHu|t IH]; intros a; destruct a; cbn [rel words]; try done.
  - induction 1 as [|p w l m Hw _ IH]; constructor; [by exists w|done].
  - intros (H1 & H2 & _). apply Forall_app. split; [by eapply IH|]. constructor; [by eexists|done].
  - intros (H1 & H2). apply Forall_app. split; [by eapply IHt|by eapply IHu].
  - intros (H1 & H2). apply Forall_app. split; [by eapply IHt|by eapply IHu].
  - apply IH.
Qed.

(** The buffer keeps the characters of words. *)
Definition keeps (b : list Z) : Prop := length b = S es /\ forall i c, line !! i = Some c -> in_word c = true -> b !! i = Some c.
Lemma put_nul_ok b p w : keeps b -> word_at p w -> put_nul (snd p) b = Ok tt (<[snd p := 0]> b) /\ keeps (<[snd p := 0]> b) /\ (snd p < length b)%nat.
Proof.
  intros [Hl Hk] (_ & _ & Hp & r & Hr & Hh). pose proof (rest_app _ _ _ Hr) as [Hle E]. rewrite <- Hp in *. unfold put_nul. rewrite bind_gets. unfold id.
  rewrite (proj2 (Nat.ltb_lt _ _)) by lia. split; [done|]. split; [|lia]. split; [by rewrite length_insert|]. intros i c Hi Hc.
  destruct (decide (i = snd p)) as [->|N]; [|rewrite list_lookup_insert_ne by done; by apply Hk].
  rewrite <- (Nat.add_0_r (snd p)), <- lookup_drop, E in Hi. destruct r as [|d r]; [done|]. injection Hi as ->. congruence.
Qed.
Lemma put_nuls_ok ws : forall b, keeps b -> Forall (fun p => exists w, word_at p w) ws ->
  exists b', put_nuls ws b = Ok tt b' /\ keeps b' /\ (forall i, b !! i = Some 0 -> b' !! i = Some 0) /\ Forall (fun p => b' !! snd p = Some 0) ws.
Proof.
  induction ws as [|p ws IH]; intros b Hb Hws; [by exists b|]. apply Forall_cons in Hws as [[w Hw] Hws]. destruct (put_nul_ok b p w Hb Hw) as (E & Hk & Hlt).
  destruct (IH _ Hk Hws) as (b' & E' & Hk' & Hz & Hws'). exists b'. cbn [put_nuls]. rewrite (bind_Ok _ _ _ _ _ E). split; [done|]. split; [done|]. split.
  - intros i Hi. apply Hz. destruct (decide (i = snd p)) as [->|N]; [by apply list_lookup_insert_eq|by rewrite list_lookup_insert_ne].
  - constructor; [|done]. apply Hz. by apply list_lookup_insert_eq.
Qed.
Lemma str_at_word b p w : keeps b -> word_at p w -> b !! snd p = Some 0 -> str_at b p = w.
Proof.
  intros [Hl Hk] (_ & Hw & Hp & r & [Hle E] & _). unfold str_at. rewrite Hp. clear Hp. revert E Hle. generalize (fst p) as q. induction w as [|c w IH]; intros q E Hle Hz.
  - cbn [length] in Hz. rewrite Nat.add_0_r in Hz. by rewrite (drop_S _ _ _ Hz).
  - assert (line !! q = Some c) as Hq by (rewrite <- (Nat.add_0_r q), <- lookup_drop, E; done). apply Forall_cons in Hw as [Hc Hw].
    rewrite (drop_S _ _ _ (Hk _ _ Hq Hc)). cbn [until_nul]. assert (c <> 0) as N0 by (apply (rest_nonul q c (w ++ r)); by split). rewrite (proj2 (Z.eqb_neq _ _) N0). f_equal.
    pose proof (rest_cons q c (w ++ r) (conj Hle E)) as [Hle' E']. rewrite Nat.add_comm in E', Hle'. apply IH; [done..|]. cbn [length] in Hz. by rewrite <- Nat.add_succ_comm in Hz.
Qed.
Lemma rel_map b t : forall a, rel t a -> keeps b -> Forall (fun p => b !! snd p = Some 0) (words t) -> map_cmd (str_at b) t = a.
Proof.
  induction t as [l|t IH f mode fd|t IHt u IHu|t IHt u IHu|t IH]; intros a; destruct a; cbn [rel words map_cmd]; try done; intros Hr Hk Hz.
  - f_equal. induction Hr as [|p w l m Hw _ IH]; [done|]. apply Forall_cons in Hz as [Hp Hz]. cbn [map]. f_equal; [by apply str_at_word|by apply IH].
  - destruct Hr as (H1 & H2 & -> & ->). apply Forall_app in Hz as [Hz1 [Hz2 _]%Forall_cons]. f_equal; [by apply IH|by apply str_at_word].
  - destruct Hr as (H1 & H2). apply Forall_app in Hz as [Hz1 Hz2]. f_equal; [by apply IHt|by apply IHu].
  - destruct Hr as (H1 & H2). apply Forall_app in Hz as [Hz1 Hz2]. f_equal; [by apply IHt|by apply IHu].
  - f_equal. by apply IH.
Qed.
Lemma nulterminate_ok t a : rel t a -> exists b, nulterminate t (line ++ [0]) = Ok tt b /\ map_cmd (str_at b) t = a.
Proof.
  intros Hr. destruct (put_nuls_ok (words t) (line ++ [0])) as (b & E & Hk & _ & Hz); [|by eapply rel_words|].
  - split; [rewrite length_app; cbn; unfold Sh.es; lia|]. intros i c Hi _. by apply lookup_app_l_Some.
  - exists b. rewrite nulterminate_puts. split; [done|by apply rel_map].
Qed.

(** ** Whole lines *)

Lemma peek_end set s ts b s' : at_tokens s ts -> peek line set s = Ok b s' -> s' = es <-> ts = [].
Proof.
  intros Ht E. unfold peek in E. rewrite bind_gets in E. unfold id in E. destruct (skip_spaces s ts s Ht) as (s1 & E1 & [Hs1 Hl] & Hh & _).
  rewrite (bind_Ok _ _ _ _ _ E1), bind_modify in E. assert (s' = s1) as -> by (apply bind_inv in E as (c & s2 & Ed & E); unfold deref in Ed; destruct (_ !! s1); [injection Ed as <- <-; by injection E|done]).
  remember (drop s1 line) as l eqn:El. assert (s1 = es <-> l = []) as ->.
  { rewrite El. unfold Sh.es in *. split; [intros ->; by rewrite drop_all|]. intros E0. apply (f_equal length) in E0. rewrite length_drop in E0. cbn in E0. lia. }
  destruct Hl as [| | | | |w l ts Hw]; [done|cbn in Hh; congruence|done..|]. by destruct w.
Qed.
Lemma whole_tokens ts : lexes line ts -> at_tokens 0 ts.
Proof. intros H. split; [lia|done]. Qed.
Lemma parsecmd_complete ts a : lexes line ts -> g_line ts a -> exists t b, parsecmd line = Ok t b /\ map_cmd (str_at b) t = a.
Proof.
  intros Ht Hg. pose proof (lexes_length _ _ Ht) as Hlen. apply whole_tokens in Ht.
  destruct (proj1 parser_complete ts a Hg 0%nat [] (4 * es + 4)%nat) as (t & s & E & Hr & Hs); [by rewrite app_nil_r|done|rewrite app_nil_r; unfold Sh.es; lia|].
  unfold parsecmd. rewrite (bind_Ok _ _ _ _ _ E).
  destruct (peek_ok (cstr "") s [] ltac:(by apply (sub_symbols [])) Hs) as (s' & E' & _). rewrite (bind_Ok _ _ _ _ _ E'), bind_gets. unfold id.
  rewrite (proj2 (peek_end _ _ _ _ _ Hs E') eq_refl), Nat.eqb_refl. cbn [negb]. destruct (nulterminate_ok t a Hr) as (b & En & Hm).
  exists t, b. rewrite ret_Ok. by rewrite (bind_Ok _ _ _ _ _ En).
Qed.
Lemma parsecmd_sound ts : lexes line ts ->
  (exists t b a, parsecmd line = Ok t b /\ g_line ts a /\ map_cmd (str_at b) t = a) \/ exists msg, parsecmd line = Panic msg.
Proof.
  intros Ht. pose proof (lexes_length _ _ Ht) as Hlen. apply whole_tokens in Ht. unfold parsecmd.
  pose proof (proj1 (parser_sound (4 * es + 4) 0 ts Ht) ltac:(unfold Sh.es; lia)) as H. unfold hoare in H. destruct (parseline line (4 * es + 4) 0%nat) as [t s|msg| |] eqn:E; try done.
  2: { right. exists msg. by rewrite (bind_Panic _ _ _ _ E). }
  rewrite (bind_Ok _ _ _ _ _ E). destruct H as (ts1 & ts2 & a & -> & Hg & Hr & Hs).
  destruct (peek_ok (cstr "") s ts2 ltac:(by apply (sub_symbols [])) Hs) as (s' & E' & _). rewrite (bind_Ok _ _ _ _ _ E'), bind_gets. unfold id.
  destruct (Nat.eqb_spec s' es) as [Hs'|Hs']; cbn [negb]; [|right; by exists "syntax"]. left.
  apply (peek_end _ _ _ _ _ Hs E') in Hs'. subst ts2. destruct (nulterminate_ok t a Hr) as (b & En & Hm). exists t, b, a. rewrite ret_Ok, (bind_Ok _ _ _ _ _ En).
  by rewrite app_nil_r.
Qed.
End positions.

(** C22. The parser of the shell accepts exactly its grammar. Every line falls into
    tokens; when the grammar derives a command from them, parsecmd returns it, with each
    word a pointer to a string that ends where the word does, and this is the only
    derivation; when the grammar derives none, parsecmd prints a message and exits. The
    parser neither reads nor stores outside the line and always stops. *)
Theorem parser_grammar (line : list Z) : Forall (fun c => c <> 0) line -> (exists ts, lexes line ts) /\
  forall ts, lexes line ts ->
  match parsecmd line with
  | Ok t buf => g_line ts (map_cmd (str_at buf) t) /\ forall a, g_line ts a -> a = map_cmd (str_at buf) t
  | Panic _ => forall a, ~ g_line ts a
  | _ => False
  end.
Proof.
  intros Hl. split; [by apply (lexes_total (length line))|]. intros ts Ht. destruct (parsecmd_sound line Hl ts Ht) as [(t & b & a & E & Hg & <-)|[msg E]]; rewrite E.
  - split; [done|]. intros a' Ha'. destruct (parsecmd_complete line Hl ts a' Ht Ha') as (t' & b' & E' & <-). rewrite E in E'. by injection E' as -> ->.
  - intros a Ha. destruct (parsecmd_complete line Hl ts a Ht Ha) as (t & b & E' & _). congruence.
Qed.
Lemma parser_grammar_witness : exists a, parsed (bytes_of "cat<f|wc &") = Some a /\ forall ts a', lexes (bytes_of "cat<f|wc &") ts -> g_line ts a' -> a' = a.
Proof.
  exists (backcmd (pipecmd (redircmd (execcmd [bytes_of "cat"]) (bytes_of "f") SH_RDONLY 0) (execcmd [bytes_of "wc"]))). split; [vm_compute; reflexivity|].
  intros ts a' Ht Ha. assert (Forall (fun c => c <> 0) (bytes_of "cat<f|wc &")) as Hl by (repeat constructor; discriminate).
  pose proof (proj2 (parser_grammar (bytes_of "cat<f|wc &") Hl) ts Ht) as H. destruct (parsecmd (bytes_of "cat<f|wc &")) as [t b| | |] eqn:E; [|vm_compute in E; discriminate..].
  rewrite (proj2 H a' Ha). vm_compute in E. injection E as <- <-. vm_compute. reflexivity.
Defined.

(** ** Printing a command *)

Definition paren (l : list Z) : list Z := 40 :: l ++ [41].
Fixpoint unparse (c : cmd (list Z)) : list Z :=
  match c with
  | execcmd argv => argv ≫= (fun w => w ++ [32])
  | redircmd c f _ fd => paren (unparse c) ++ (if fd =? 0 then 60 else 62) :: f ++ [32]
  | pipecmd l r => paren (unparse l) ++ 124 :: paren (unparse r)
  | listcmd l r => paren (unparse l) ++ 59 :: paren (unparse r)
  | backcmd c => paren (unparse c) ++ [38]
  end.
Definition ptoks (ts : list token) : list token := Sym 40 :: ts ++ [Sym 41].
Fixpoint toks (c : cmd (list Z)) : list token :=
  match c with
  | execcmd argv => map Word argv
  | redircmd c f _ fd => ptoks (toks c) ++ [Sym (if fd =? 0 then 60 else 62); Word f]
  | pipecmd l r => ptoks (toks l) ++ Sym 124 :: ptoks (toks r)
  | listcmd l r => ptoks (toks l) ++ Sym 59 :: ptoks (toks r)
  | backcmd c => ptoks (toks c) ++ [Sym 38]
  end.
(** Words that the lexer keeps, fewer arguments than there are slots, and the modes of the
    redirections. *)
Definition word_ok (w : list Z) : Prop := w <> [] /\ Forall (fun c => in_word c = true /\ c <> 0) w.
Fixpoint cmd_ok (c : cmd (list Z)) : Prop :=
  match c with
  | execcmd argv => Forall word_ok argv /\ (length argv < MAXARGS)%nat
  | redircmd c f mode fd => cmd_ok c /\ word_ok f /\ (mode = SH_RDONLY /\ fd = 0 \/ mode = SH_WRCREATE /\ fd = 1)
  | pipecmd l r | listcmd l r => cmd_ok l /\ cmd_ok r
  | backcmd c => cmd_ok c
  end.

Lemma lexes_word w l ts : word_ok w -> lexes l ts -> lexes ((w ++ [32]) ++ l) (Word w :: ts).
Proof. intros [H1 H2] H. rewrite <- app_assoc. apply lex_word; [done|by eapply Forall_impl; [exact H2|]; intros c []|done|by apply lex_space]. Qed.
Lemma lexes_paren l1 ts1 l ts : (forall l ts, lexes l ts -> lexes (l1 ++ l) (ts1 ++ ts)) -> lexes l ts -> lexes (paren l1 ++ l) (ptoks ts1 ++ ts).
Proof.
  intros H1 H. unfold paren, ptoks. cbn [app]. rewrite <- !app_assoc. apply lex_sym; [by cbn; set_solver|]. apply H1. cbn [app]. apply lex_sym; [by cbn; set_solver|done].
Qed.
Lemma lexes_unparse c : cmd_ok c -> forall l ts, lexes l ts -> lexes (unparse c ++ l) (toks c ++ ts).
Proof.
  induction c as [argv|c IH f mode fd|c IHc d IHd|c IHc d IHd|c IH]; cbn [cmd_ok unparse toks].
  - intros [Hw _] l ts H. induction Hw as [|w argv Hw _ IH]; [done|]. cbn [mbind list_bind map app]. rewrite <- app_assoc. by apply lexes_word.
  - intros (Hc & Hf & _) l ts H. rewrite <- !app_assoc. apply lexes_paren; [by apply IH|]. cbn [app]. destruct (fd =? 0).
    + apply lex_sym; [by cbn; set_solver|]. by apply lexes_word.
    + apply lex_gt; [|by apply lexes_word]. destruct Hf as [H1 H2]. destruct f as [|x f]; [done|]. apply Forall_cons in H2 as [[Hx _] _]. apply in_word_not in Hx as (_ & Hx & _). cbn. congruence.
  - intros (Hc & Hd) l ts H. rewrite <- !app_assoc. apply lexes_paren; [by apply IHc|]. cbn [app]. apply lex_sym; [by cbn; set_solver|]. apply lexes_paren; [by apply IHd|done].
  - intros (Hc & Hd) l ts H. rewrite <- !app_assoc. apply lexes_paren; [by apply IHc|]. cbn [app]. apply lex_sym; [by cbn; set_solver|]. apply lexes_paren; [by apply IHd|done].
  - intros Hc l ts H. rewrite <- !app_assoc. apply lexes_paren; [by apply IH|]. cbn [app]. apply lex_sym; [by cbn; set_solver|done].
Qed.
Lemma g_exec_line ts a : g_exec ts a -> g_line ts a.
Proof. intros H. rewrite <- (app_nil_r ts). apply (g_end ts a 0). by constructor. Qed.
Lemma g_paren ts a : g_line ts a -> g_exec (ptoks ts) a.
Proof. intros H. unfold ptoks. by apply (g_block ts a []). Qed.
Lemma derives_toks c : cmd_ok c -> g_line (toks c) c.
Proof.
  induction c as [argv|c IH f mode fd|c IHc d IHd|c IHc d IHd|c IH]; cbn [cmd_ok toks].
  - intros [Hw Hn]. apply g_exec_line. assert (args (map IArg argv) = argv /\ redirs (map IArg argv) = [] /\ (map IArg argv ≫= item_toks) = map Word argv) as (A1 & A2 & A3).
    { clear. induction argv as [|w argv (A1 & A2 & A3)]; [done|]. cbn in *. split; [by f_equal|]. split; [done|by f_equal]. }
    rewrite <- A3. rewrite <- A1 at 2. change (execcmd (args (map IArg argv))) with (simple (args (map IArg argv)) []). rewrite <- A2. apply g_simple; [by rewrite A2|by rewrite A1].
  - intros (Hc & Hf & Hm). apply g_exec_line. unfold ptoks. cbn [app]. rewrite <- app_assoc. cbn [app].
    destruct Hm as [[-> ->]|[-> ->]]; [apply (g_block (toks c) c [(60, f)])|apply (g_block (toks c) c [(62, f)])]; try (by apply IH); (constructor; [|done]); [by left|by right; left].
  - intros (Hc & Hd). rewrite <- (app_nil_r (_ ++ _ :: _)). apply (g_end _ _ 0). apply g_bar; [by apply g_paren, IHc|]. by apply g_one, g_paren, IHd.
  - intros (Hc & Hd). apply (g_seq (ptoks (toks c)) c 0); [by apply g_one, g_paren, IHc|]. by apply g_exec_line, g_paren, IHd.
  - intros Hc. apply (g_end (ptoks (toks c)) c 1). by apply g_one, g_paren, IH.
Qed.
Lemma unparse_nonul c : cmd_ok c -> Forall (fun x => x <> 0) (unparse c).
Proof.
  assert (forall w, word_ok w -> Forall (fun x => x <> 0) w) as Hw by (intros w [_ H]; by eapply Forall_impl; [exact H|]; intros c0 []).
  assert (forall l, Forall (fun x : Z => x <> 0) l -> Forall (fun x => x <> 0) (paren l)) as Hp by (intros l H; unfold paren; constructor; [done|]; apply Forall_app; split; [done|by constructor]).
  induction c as [argv|c IH f mode fd|c IHc d IHd|c IHc d IHd|c IH]; cbn [cmd_ok unparse].
  - intros [H _]. induction H as [|w argv Hw' _ IH]; [constructor|]. cbn [mbind list_bind]. apply Forall_app. split; [apply Forall_app; split; [by apply Hw|by constructor]|done].
  - intros (Hc & Hf & _). apply Forall_app. split; [by apply Hp, IH|]. constructor; [by destruct (fd =? 0)|]. apply Forall_app. split; [by apply Hw|by constructor].
  - intros (Hc & Hd). apply Forall_app. split; [by apply Hp, IHc|]. constructor; [done|by apply Hp, IHd].
  - intros (Hc & Hd). apply Forall_app. split; [by apply Hp, IHc|]. constructor; [done|by apply Hp, IHd].
  - intros Hc. apply Forall_app. split; [by apply Hp, IH|by constructor].
Qed.
Lemma parsed_unparse c : cmd_ok c -> parsed (unparse c) = Some c.
Proof.
  intros Hc. unfold parsed. destruct (parsecmd_complete (unparse c) (unparse_nonul c Hc) (toks c) c) as (t & b & -> & ->); [|by apply derives_toks|done].
  rewrite <- (app_nil_r (unparse c)), <- (app_nil_r (toks c)). apply lexes_unparse; [done|constructor].
Qed.

(** C23. The parser inverts printing. Every command whose words hold no space, symbol or
    zero, with at most nine arguments and the modes that redirections have, is the result
    of parsing its text, in which each sub-command stands in parentheses. *)
Theorem parse_unparse (c : cmd (list Z)) : cmd_ok c -> parsed (unparse c) = Some c.
Proof. apply parsed_unparse. Qed.
Definition demo_cmd : cmd (list Z) :=
  listcmd (pipecmd (redircmd (execcmd [bytes_of "cat"; bytes_of "-n"]) (bytes_of "in") SH_RDONLY 0) (backcmd (execcmd [bytes_of "wc"])))
    (redircmd (redircmd (execcmd []) (bytes_of "x") SH_WRCREATE 1) (bytes_of "y") SH_RDONLY 0).
Lemma parse_unparse_witness : parsed (unparse demo_cmd) = Some demo_cmd.
Proof.
  apply (parse_unparse demo_cmd). assert (forall s, forallb (fun c => in_word c && negb (c =? 0)) s = true -> s <> [] -> word_ok s) as Hw.
  { intros s H Hn. split; [done|]. apply Forall_forall. intros c Hc. apply list_elem_of_In in Hc. rewrite forallb_forall in H. apply H in Hc.
    apply andb_true_iff in Hc as [? Hc]. apply negb_true_iff, Z.eqb_neq in Hc. done. }
  cbn [cmd_ok demo_cmd]. repeat match goal with |- _ /\ _ => split | |- Forall _ (_ :: _) => constructor | |- Forall _ [] => constructor end;
    first [by apply Hw | by left | by right | cbn; unfold MAXARGS; lia].
Defined.
