(* ===== verification/ShRun.v ===== *)
(** * The shell of xv6: running commands (p6/sh.c)

    Every process has its own table of descriptors, so what a child does is recorded at
    the fork that makes it, with its copy of the table; the parent goes on after it. What
    the kernel refuses is given by parameters: the files that open, the programs that
    exec, the directories; and by how many forks and pipes it still grants. *)

From S2P Require Import Prelude Ulib Sh ShParse.

(** What a descriptor stands for: something inherited, a file opened with a mode, an end
    of the pipe of a number. *)
Inductive obj := Given (n : nat) | Opened (file : list Z) (mode : Z) | ReadEnd (p : nat) | WriteEnd (p : nat).
#[export] Instance obj_eq_dec : EqDecision obj.
Proof. solve_decision. Defined.
Definition fds : Type := list (option obj).
Definition NFD : nat := 16.
Inductive event :=
  | Started (argv : list (list Z)) (t : fds)
  | Message (text : list Z)
  | Chdir (path : list Z)
  | Waits (t : fds).
Record world := World { w_forks : nat; w_pipes : nat; w_next : nat; w_log : list event }.
Definition note (e : event) : M world unit := modify (fun w => World (w_forks w) (w_pipes w) (w_next w) (w_log w ++ [e])).

(** The lowest free descriptor. *)
Fixpoint lowest (t : fds) : option nat :=
  match t with [] => None | None :: _ => Some O | Some _ :: t' => option_map S (lowest t') end.
Definition place (o : obj) (t : fds) : option (nat * fds) :=
  match lowest t with Some fd => Some (fd, <[fd := Some o]> t) | None => None end.
Definition close (fd : nat) (t : fds) : fds := <[fd := None]> t.
Definition dup (fd : nat) (t : fds) : fds :=
  match t !! fd with Some (Some o) => match place o t with Some (_, t') => t' | None => t end | _ => t end.
(** The two descriptors and the table. *)
Definition make_pipe (t : fds) : M world (option (nat * nat * fds)) :=
  w ← gets id;
  match w_pipes w with
  | O => mret None
  | S k =>
    match place (ReadEnd (w_next w)) t with
    | Some (p0, t1) =>
      match place (WriteEnd (w_next w)) t1 with
      | Some (p1, t2) => modify (fun w => World (w_forks w) k (S (w_next w)) (w_log w));; mret (Some (p0, p1, t2))
      | None => mret None
      end
    | None => mret None
    end
  end.

Section run.
(** What opens, what can be run, and where a process can change to. *)
Context (can_open : list Z -> Z -> bool) (can_exec : list Z -> bool) (can_cd : list Z -> bool).

Definition open (file : list Z) (mode : Z) (t : fds) : option (nat * fds) :=
  if can_open file mode then place (Opened file mode) t else None.
(** [fork1] with what the child and the parent do after it; [panic] exits. *)
Definition fork1 (child parent : M world unit) : M world unit :=
  w ← gets id;
  match w_forks w with
  | O => note (Message (bytes_of "fork" ++ [10]))
  | S f => modify (fun w => World f (w_pipes w) (w_next w) (w_log w));; child;; parent
  end.

(** A fork or a pipe that was granted is used up; what opens and what can be run does not depend on the
    directory or on what ran before. *)
Fixpoint runcmd (c : cmd (list Z)) (t : fds) : M world unit :=
  match c with
  | execcmd [] => mret tt
  | execcmd (a :: argv) =>
    if can_exec a then note (Started (a :: argv) t)
    else note (Message (bytes_of "exec " ++ a ++ bytes_of " failed" ++ [10]))
  | redircmd c file mode fd =>
    match open file mode (close (Z.to_nat fd) t) with
    | Some (_, t) => runcmd c t
    | None => note (Message (bytes_of "open " ++ file ++ bytes_of " failed" ++ [10]))
    end
  | listcmd l r => fork1 (runcmd l t) (note (Waits t);; runcmd r t)
  | pipecmd l r =>
    p ← make_pipe t;
    match p with
    | None => note (Message (bytes_of "pipe" ++ [10]))
    | Some (p0, p1, t) =>
      fork1 (runcmd l (close p1 (close p0 (dup p1 (close 1 t)))))
      (fork1 (runcmd r (close p1 (close p0 (dup p0 (close 0 t)))))
        (note (Waits (close p1 (close p0 t)));; note (Waits (close p1 (close p0 t)))))
    end
  | backcmd c => fork1 (runcmd c t) (mret tt)
  end.

(** ** The main loop *)

Definition BUFLEN : nat := 100.
(** [getcmd]: the buffer, or the end of the input, and what is left of it. *)
Definition getcmd (input : list (list Z)) : option (list Z) * list (list Z) :=
  let '(l, rest) := ugets BUFLEN input in
  let buf := l ++ replicate (BUFLEN - length l) 0 in
  (match buf with 0 :: _ => None | _ => Some buf end, rest).
Definition is_cd (buf : list Z) : bool :=
  match buf with c :: d :: s :: _ => (c =? 99) && (d =? 100) && (s =? 32) | _ => false end.
(** Open the console until there are three descriptors. *)
Fixpoint open_console (fuel : nat) (t : fds) : M world fds :=
  match fuel with
  | O => hang
  | S fuel' =>
    match open (bytes_of "console") 2 t with
    | None => mret t
    | Some (fd, t) => if (3 <=? fd)%nat then mret (close fd t) else open_console fuel' t
    end
  end.
(** Without the prompt; the children have the shell's input as descriptor 0, but do not read from it here. *)
Fixpoint sh_loop (fuel : nat) (input : list (list Z)) (t : fds) : M world unit :=
  match fuel with
  | O => hang
  | S fuel' =>
    let '(cmd, rest) := getcmd input in
    match cmd with
    | None => mret tt
    | Some buf =>
      if is_cd buf then
        let buf := <[(length (until_nul buf) - 1)%nat := 0]> buf in
        let path := until_nul (drop 3 buf) in
        (if can_cd path then note (Chdir path) else note (Message (bytes_of "cannot cd " ++ path ++ [10])));;
        sh_loop fuel' rest t
      else
        fork1
          (match parsecmd (until_nul buf) with
           | Ok c b => runcmd (map_cmd (str_at b) c) t
           | Panic msg => note (Message (bytes_of msg ++ [10]))
           | Hang => hang
           | Undef => undef
           end)
          (note (Waits t);; sh_loop fuel' rest t)
    end
  end.
Definition sh_main (fuel : nat) (input : list (list Z)) (t : fds) : M world unit :=
  t ← open_console (S NFD) t;
  sh_loop fuel input t.
End run.

Example run_ex : exists w,
  sh_main (fun _ _ => true) (fun _ => true) (fun _ => true) 9 [bytes_of "a|b >x" ++ [10]; bytes_of "cd d" ++ [10]] (replicate NFD None) (World 99 99 0 []) = Ok tt w /\
  omap (fun e => match e with Started argv t => Some (argv, take 5 t) | _ => None end) (w_log w) =
    let c := Some (Opened (bytes_of "console") 2) in
    [([bytes_of "a"], [c; Some (WriteEnd 0); c; None; None]); ([bytes_of "b"], [Some (ReadEnd 0); Some (Opened (bytes_of "x") SH_WRCREATE); c; None; None])].
Proof. eexists. split; vm_compute; reflexivity. Qed.

(** ** What commands do, by their streams *)

Inductive act := AStarted (argv : list (list Z)) (i o e : obj) | AMessage (text : list Z) | AChdir (path : list Z).
(** A table with the three standard descriptors and nothing else. *)
Definition std (i o e : obj) : fds := [Some i; Some o; Some e] ++ replicate (NFD - 3) None.
Definition ev (a : act) : event :=
  match a with AStarted argv i o e => Started argv (std i o e) | AMessage text => Message text | AChdir path => Chdir path end.
Definition is_wait (e : event) : bool := match e with Waits _ => true | _ => false end.
Definition tidy (e : event) : Prop := match e with Waits t => exists i o e, t = std i o e | _ => True end.
(** The events but for the waits, in which a process has no descriptor but its three. *)
Definition shows (evs : list event) (acts : list act) : Prop :=
  List.filter (fun e => negb (is_wait e)) evs = map ev acts /\ Forall tidy evs.

Section reference.
Context (can_open : list Z -> Z -> bool) (can_exec : list Z -> bool) (can_cd : list Z -> bool).

(** A command with its three streams; pipes are numbered from [n]. *)
Fixpoint launch (c : cmd (list Z)) (i o e : obj) (n : nat) : list act * nat :=
  match c with
  | execcmd [] => ([], n)
  | execcmd (a :: argv) => ([if can_exec a then AStarted (a :: argv) i o e else AMessage (bytes_of "exec " ++ a ++ bytes_of " failed" ++ [10])], n)
  | redircmd c f mode fd =>
    if can_open f mode then
      if fd =? 0 then launch c (Opened f mode) o e n else launch c i (Opened f mode) e n
    else ([AMessage (bytes_of "open " ++ f ++ bytes_of " failed" ++ [10])], n)
  | pipecmd l r =>
    let '(a, n1) := launch l i (WriteEnd n) e (S n) in
    let '(b, n2) := launch r (ReadEnd n) o e n1 in (a ++ b, n2)
  | listcmd l r =>
    let '(a, n1) := launch l i o e n in
    let '(b, n2) := launch r i o e n1 in (a ++ b, n2)
  | backcmd c => launch c i o e n
  end.
(** The forks and pipes that a command needs. *)
Fixpoint forks (c : cmd (list Z)) : nat :=
  match c with
  | execcmd _ => 0
  | redircmd c _ _ _ => forks c
  | pipecmd l r => 2 + forks l + forks r
  | listcmd l r => 1 + forks l + forks r
  | backcmd c => 1 + forks c
  end.
Fixpoint pipes (c : cmd (list Z)) : nat :=
  match c with
  | execcmd _ => 0
  | redircmd c _ _ _ | backcmd c => pipes c
  | pipecmd l r => 1 + pipes l + pipes r
  | listcmd l r => pipes l + pipes r
  end.
Fixpoint fd_ok (c : cmd (list Z)) : Prop :=
  match c with
  | execcmd _ => True
  | redircmd c _ _ fd => (fd = 0 \/ fd = 1) /\ fd_ok c
  | pipecmd l r | listcmd l r => fd_ok l /\ fd_ok r
  | backcmd c => fd_ok c
  end.

Lemma shows_app e1 e2 a1 a2 : shows e1 a1 -> shows e2 a2 -> shows (e1 ++ e2) (a1 ++ a2).
Proof. intros [H1 T1] [H2 T2]. split; [by rewrite List.filter_app, map_app, H1, H2|by apply Forall_app]. Qed.
Lemma shows_one a : shows [ev a] [a].
Proof. by destruct a; split; repeat constructor. Qed.
Lemma shows_wait i o e : shows [Waits (std i o e)] [].
Proof. split; [done|]. repeat constructor. by exists i, o, e. Qed.

(** [m] does [acts] and numbers its pipes up to [n], with the forks and pipes it may use. *)
Definition does (m : M world unit) (w : world) (f p : nat) (acts : list act) (n : nat) : Prop :=
  exists w' evs, m w = Ok tt w' /\ w_log w' = w_log w ++ evs /\ shows evs acts /\ w_next w' = n /\ (w_forks w <= w_forks w' + f)%nat /\ (w_pipes w <= w_pipes w' + p)%nat.
Lemma does_ret w : does (mret tt) w 0 0 [] (w_next w).
Proof. exists w, []. rewrite app_nil_r. split_and!; try done; try lia. Qed.
Lemma does_note a w : does (note (ev a)) w 0 0 [a] (w_next w).
Proof. eexists _, [ev a]. split; [done|]. split; [done|]. split; [apply shows_one|]. cbn. split_and!; lia. Qed.
Lemma does_wait i o e w : does (note (Waits (std i o e))) w 0 0 [] (w_next w).
Proof. eexists _, [Waits (std i o e)]. split; [done|]. split; [done|]. split; [apply shows_wait|]. cbn. split_and!; lia. Qed.
Lemma does_seq m1 m2 w f1 p1 f2 p2 a1 a2 n1 n2 : does m1 w f1 p1 a1 n1 ->
  (forall w', w_next w' = n1 -> (w_forks w <= w_forks w' + f1)%nat -> (w_pipes w <= w_pipes w' + p1)%nat -> does m2 w' f2 p2 a2 n2) ->
  does (m1;; m2) w (f1 + f2) (p1 + p2) (a1 ++ a2) n2.
Proof.
  intros (w1 & e1 & E1 & L1 & S1 & N1 & F1 & P1) H. destruct (H w1 N1 F1 P1) as (w2 & e2 & E2 & L2 & S2 & N2 & F2 & P2).
  exists w2, (e1 ++ e2). rewrite (bind_Ok _ _ _ _ _ E1). split; [done|]. split; [by rewrite L2, L1, app_assoc|]. split; [by apply shows_app|]. split_and!; try done; lia.
Qed.
Lemma does_fork child parent w f1 p1 f2 p2 a1 a2 n1 n2 : (0 < w_forks w)%nat ->
  (forall w', w_next w' = w_next w -> w_forks w = S (w_forks w') -> w_pipes w' = w_pipes w -> does child w' f1 p1 a1 n1) ->
  (forall w', w_next w' = n1 -> (w_forks w <= w_forks w' + S f1)%nat -> (w_pipes w <= w_pipes w' + p1)%nat -> does parent w' f2 p2 a2 n2) ->
  does (fork1 child parent) w (S (f1 + f2)) (p1 + p2) (a1 ++ a2) n2.
Proof.
  intros Hf Hc Hp. unfold does, fork1. rewrite bind_gets. unfold id. destruct (w_forks w) as [|f] eqn:Ef; [lia|]. rewrite bind_modify.
  set (w1 := World f (w_pipes w) (w_next w) (w_log w)).
  destruct (does_seq child parent w1 f1 p1 f2 p2 a1 a2 n1 n2) as (w2 & e2 & E2 & L2 & S2 & N2 & F2 & P2).
  - by apply Hc.
  - intros w' H1 H2 H3. cbn in H2, H3. apply Hp; [done|lia|done].
  - exists w2, e2. cbn in *. split_and!; try done; lia.
Qed.

(** The tables of the three processes at a pipe. *)
Lemma pipe_std i o e w : (0 < w_pipes w)%nat -> exists t, let n := w_next w in
  make_pipe (std i o e) w = Ok (Some (3%nat, 4%nat, t)) (World (w_forks w) (pred (w_pipes w)) (S n) (w_log w)) /\
  close 4 (close 3 (dup 4 (close 1 t))) = std i (WriteEnd n) e /\ close 4 (close 3 (dup 3 (close 0 t))) = std (ReadEnd n) o e /\ close 4 (close 3 t) = std i o e.
Proof.
  intros Hp. exists (<[4%nat := Some (WriteEnd (w_next w))]> (<[3%nat := Some (ReadEnd (w_next w))]> (std i o e))). cbv zeta. split; [|by split_and!].
  unfold make_pipe. rewrite bind_gets. unfold id. by destruct (w_pipes w); [lia|].
Qed.
Lemma open_std f mode fd i o e : fd = 0 \/ fd = 1 -> open can_open f mode (close (Z.to_nat fd) (std i o e)) =
  if can_open f mode then Some (Z.to_nat fd, if fd =? 0 then std (Opened f mode) o e else std i (Opened f mode) e) else None.
Proof. unfold open. intros [-> | ->]; by destruct (can_open f mode). Qed.

Lemma runcmd_does c : forall i o e w, fd_ok c -> (forks c <= w_forks w)%nat -> (pipes c <= w_pipes w)%nat ->
  does (runcmd can_open can_exec c (std i o e)) w (forks c) (pipes c) (fst (launch c i o e (w_next w))) (snd (launch c i o e (w_next w))).
Proof.
  induction c as [argv|c IH f mode fd|l IHl r IHr|l IHl r IHr|c IH]; intros i o e w Hfd Hf Hp; cbn [runcmd launch forks pipes fd_ok] in *.
  - destruct argv as [|a argv]; [apply does_ret|]. cbn [fst snd]. destruct (can_exec a); [apply (does_note (AStarted _ _ _ _))|apply (does_note (AMessage _))].
  - destruct Hfd as [Hfd Hc]. rewrite open_std by done. destruct (can_open f mode).
    + destruct Hfd as [-> | ->]; cbn [Z.eqb]; by apply IH.
    + cbn [fst snd]. destruct (does_note (AMessage (bytes_of "open " ++ f ++ bytes_of " failed" ++ [10])) w) as (w' & evs & E & L & S' & N & F & P). exists w', evs. split_and!; try done; lia.
  - destruct Hfd as [Hl Hr]. destruct (pipe_std i o e w) as (t & Ep & T1 & T2 & T3); [lia|]. cbv zeta in *. unfold does. rewrite (bind_Ok _ _ _ _ _ Ep).
    set (w1 := World (w_forks w) (pred (w_pipes w)) (S (w_next w)) (w_log w)). rewrite T1, T2, T3.
    destruct (launch l i (WriteEnd (w_next w)) e (S (w_next w))) as [a n1] eqn:El. destruct (launch r (ReadEnd (w_next w)) o e n1) as [b n2] eqn:Er. cbn [fst snd].
    destruct (does_fork (runcmd can_open can_exec l (std i (WriteEnd (w_next w)) e))
      (fork1 (runcmd can_open can_exec r (std (ReadEnd (w_next w)) o e)) (note (Waits (std i o e));; note (Waits (std i o e)))) w1 (forks l) (pipes l) (S (forks r)) (pipes r) a b n1 n2) as (w' & evs & E & L & S' & N & F & P).
    + cbn. lia.
    + intros w' N F P. cbn in N, F, P. pose proof (IHl i (WriteEnd (w_next w)) e w' Hl ltac:(lia) ltac:(lia)) as H. rewrite N, El in H. exact H.
    + intros w' N F P. cbn in F, P. replace (S (forks r)) with (S (forks r + 0)) by lia. replace (pipes r) with (pipes r + 0)%nat by lia. rewrite <- (app_nil_r b). apply (does_fork _ _ _ _ _ _ _ _ _ n2).
      * lia.
      * intros w2 N2 F2 P2. pose proof (IHr (ReadEnd (w_next w)) o e w2 Hr ltac:(lia) ltac:(lia)) as H. rewrite N2, N, Er in H. exact H.
      * intros w2 N2 _ _. apply (does_seq _ _ _ 0 0 0 0 [] [] (w_next w2)); [apply does_wait|]. intros w3 N3 _ _. rewrite <- N2, <- N3. apply does_wait.
    + exists w', evs. cbn in L, N, F, P. split_and!; try done; lia.
  - destruct Hfd as [Hl Hr]. destruct (launch l i o e (w_next w)) as [a n1] eqn:El. destruct (launch r i o e n1) as [b n2] eqn:Er. cbn [fst snd].
    apply (does_fork _ _ _ _ _ _ _ _ _ n1); [lia| |].
    + intros w' N F P. pose proof (IHl i o e w' Hl ltac:(lia) ltac:(lia)) as H. rewrite N, El in H. exact H.
    + intros w' N F P. apply (does_seq _ _ _ 0 0 _ _ [] b n1); [rewrite <- N; apply does_wait|]. intros w2 N2 F2 P2.
      pose proof (IHr i o e w2 Hr ltac:(lia) ltac:(lia)) as H. rewrite N2, Er in H. exact H.
  - destruct (launch c i o e (w_next w)) as [a n1] eqn:El. cbn [fst snd]. pose proof (does_fork (runcmd can_open can_exec c (std i o e)) (mret tt) w (forks c) (pipes c) 0 0 a [] n1 n1) as H.
    rewrite !Nat.add_0_r, app_nil_r in H. apply H; [lia| |intros w' N _ _; rewrite <- N; apply does_ret].
    intros w' N F P. pose proof (IH i o e w' Hfd ltac:(lia) ltac:(lia)) as H'. rewrite N, El in H'. exact H'.
Qed.

(** ** What the grammar gives to run *)

Lemma fd_ok_redirs rs a : fd_ok a -> fd_ok (foldl add_redir a rs).
Proof. revert a. induction rs as [|[c f] rs IH]; intros a Ha; [done|]. apply IH. unfold add_redir. cbn [fst snd]. destruct (c =? 60); cbn; auto. Qed.
Lemma fd_ok_iter n a : fd_ok a -> fd_ok (Nat.iter n backcmd a).
Proof. intros H. by induction n. Qed.
Lemma grammar_fd_ok : (forall ts a, g_line ts a -> fd_ok a) /\ (forall ts a, g_pipe ts a -> fd_ok a) /\ (forall ts a, g_exec ts a -> fd_ok a).
Proof.
  apply grammar_ind; intros; cbn [fd_ok]; try done; try (by apply fd_ok_iter).
  - split; [by apply fd_ok_iter|done].
  - by apply fd_ok_redirs.
  - by apply fd_ok_redirs.
Qed.
Lemma parsecmd_result l : Forall (fun c => c <> 0) l -> (exists t b, parsecmd l = Ok t b /\ fd_ok (map_cmd (str_at b) t)) \/ exists msg, parsecmd l = Panic msg.
Proof.
  intros Hl. destruct (lexes_total (length l) l) as [ts Ht]; [done..|]. destruct (parsecmd_sound l Hl ts Ht) as [(t & b & a & E & Hg & Hm)|H]; [left|by right].
  exists t, b. split; [done|]. rewrite Hm. by eapply (proj1 grammar_fd_ok).
Qed.

(** ** Lines *)

Lemma read_one fd c x : concat fd = c :: x -> exists fd', read 1 fd = ([c], fd') /\ concat fd' = x.
Proof.
  induction fd as [|p fd IH]; [done|]. destruct p as [|d p]; cbn [concat app read]; [done|]. intros [= -> <-]. by exists (p :: fd).
Qed.
Lemma read_none fd : concat fd = [] -> read 1 fd = ([], []).
Proof. induction fd as [|[|d p] fd IH]; [done| |done]. cbn. done. Qed.
Definition line_ok (l : list Z) : Prop := (length l < 99)%nat /\ Forall (fun c => c <> 0 /\ c <> 10 /\ c <> 13) l.
Lemma gets_line l x : forall k fd, Forall (fun c => c <> 0 /\ c <> 10 /\ c <> 13) l -> (length l < k)%nat -> concat fd = l ++ 10 :: x ->
  exists fd', gets_loop k fd = (l ++ [10], fd') /\ concat fd' = x.
Proof.
  induction l as [|c l IH]; intros k fd Hl Hk E; (destruct k as [|k]; [cbn in Hk; lia|]); cbn [gets_loop].
  - destruct (read_one _ _ _ E) as (fd' & -> & <-). by exists fd'.
  - apply Forall_cons in Hl as [(_ & N1 & N2) Hl]. destruct (read_one _ _ _ E) as (fd' & -> & E'). rewrite (proj2 (Z.eqb_neq _ _) N1), (proj2 (Z.eqb_neq _ _) N2). cbn [orb].
    destruct (IH k fd' Hl ltac:(cbn in Hk; lia) E') as (fd2 & -> & E2). by exists fd2.
Qed.
Lemma getcmd_line l x input : line_ok l -> concat input = l ++ 10 :: x -> exists z input', getcmd input = (Some (l ++ 10 :: 0 :: z), input') /\ concat input' = x.
Proof.
  intros [Hn Hl] E. destruct (gets_line l x 99 input Hl Hn E) as (fd' & Eg & E'). unfold getcmd, ugets. change (BUFLEN - 1)%nat with 99%nat. rewrite Eg.
  exists (replicate (BUFLEN - length ((l ++ [10%Z]) ++ [0%Z])) 0), fd'. split; [|done]. rewrite <- !app_assoc. cbn [app]. f_equal. destruct l as [|c l]; [done|]. apply Forall_cons in Hl as [(N0 & _) _]. cbn [app]. by destruct c.
Qed.
Lemma getcmd_end input : concat input = [] -> getcmd input = (None, []).
Proof. intros E. unfold getcmd, ugets. change (BUFLEN - 1)%nat with (S 98). cbn [gets_loop]. rewrite (read_none _ E). done. Qed.
Lemma until_nul_line l z : Forall (fun c => c <> 0 /\ c <> 10 /\ c <> 13) l -> until_nul (l ++ 0 :: z) = l.
Proof. induction 1 as [|c l [N0 _] _ IH]; [done|]. cbn [app until_nul]. by rewrite (proj2 (Z.eqb_neq _ _) N0), IH. Qed.
Lemma until_nul_nl l z : Forall (fun c => c <> 0 /\ c <> 10 /\ c <> 13) l -> until_nul (l ++ 10 :: 0 :: z) = l ++ [10].
Proof. induction 1 as [|c l [N0 _] _ IH]; [done|]. cbn [app until_nul]. by rewrite (proj2 (Z.eqb_neq _ _) N0), IH. Qed.
Lemma is_cd_line l z : is_cd (l ++ 10 :: z) = is_cd l.
Proof. destruct l as [|c [|d [|s l]]], z as [|x [|y z]]; try done; unfold is_cd; cbn [app Z.eqb Pos.eqb]; by rewrite ?andb_false_r. Qed.

(** ** Sessions *)

(** What a line makes the shell do, and the forks and pipes it needs. *)
Definition line_acts (i o e : obj) (l : list Z) (n : nat) : list act * nat :=
  if is_cd l then ([if can_cd (drop 3 l) then AChdir (drop 3 l) else AMessage (bytes_of "cannot cd " ++ drop 3 l ++ [10])], n)
  else match parsecmd (l ++ [10]) with
       | Ok c b => launch (map_cmd (str_at b) c) i o e n
       | Panic msg => ([AMessage (bytes_of msg ++ [10])], n)
       | _ => ([], n)
       end.
Fixpoint script (i o e : obj) (lines : list (list Z)) (n : nat) : list act * nat :=
  match lines with
  | [] => ([], n)
  | l :: lines' => let '(a, n1) := line_acts i o e l n in let '(b, n2) := script i o e lines' n1 in (a ++ b, n2)
  end.
Definition line_needs (need : cmd (list Z) -> nat) (base : nat) (l : list Z) : nat :=
  if is_cd l then 0 else (base + match parsed (l ++ [10%Z]) with Some c => need c | None => 0 end)%nat.
Fixpoint needs (need : cmd (list Z) -> nat) (base : nat) (lines : list (list Z)) : nat :=
  match lines with [] => O | l :: lines' => (line_needs need base l + needs need base lines')%nat end.

Lemma sh_loop_does i o e lines : forall fuel input w, Forall line_ok lines -> concat input = lines ≫= (fun l => l ++ [10]) -> (length lines < fuel)%nat ->
  (needs forks 1 lines <= w_forks w)%nat -> (needs pipes 0 lines <= w_pipes w)%nat ->
  does (sh_loop can_open can_exec can_cd fuel input (std i o e)) w (needs forks 1 lines) (needs pipes 0 lines) (fst (script i o e lines (w_next w))) (snd (script i o e lines (w_next w))).
Proof.
  induction lines as [|l lines IH]; intros fuel input w Hl E Hf HF HP; (destruct fuel as [|fuel]; [lia|]); cbn [sh_loop].
  { rewrite (getcmd_end _ E). apply does_ret. }
  apply Forall_cons in Hl as [Hl0 Hl]. cbn [mbind list_bind] in E. rewrite <- app_assoc in E. cbn [app] in E.
  destruct (getcmd_line l _ input Hl0 E) as (z & input' & -> & E'). destruct Hl0 as [_ Hl0]. rewrite is_cd_line.
  cbn [needs script] in *. unfold line_needs, line_acts in *.
  destruct (is_cd l) eqn:Ecd.
  - rewrite until_nul_nl by done. replace (length (l ++ [10%Z]) - 1)%nat with (length l) by (rewrite length_app; cbn; lia). rewrite insert_mid.
    assert (until_nul (drop 3 (l ++ 0 :: 0 :: z)) = drop 3 l) as ->.
    { destruct l as [|c [|d [|s l]]]; try done. cbn [app drop]. apply (until_nul_line l (0 :: z)). do 3 apply Forall_cons in Hl0 as [_ Hl0]. done. }
    destruct (script i o e lines (w_next w)) as [b n2] eqn:Es. cbn [fst snd].
    apply (does_seq _ _ _ 0 0 _ _ _ b (w_next w)).
    + destruct (can_cd (drop 3 l)); [apply (does_note (AChdir _))|apply (does_note (AMessage _))].
    + intros w' N F P. pose proof (IH fuel input' w' Hl E' ltac:(cbn in Hf; lia) ltac:(lia) ltac:(lia)) as H. rewrite N, Es in H. exact H.
  - rewrite until_nul_nl by done. unfold parsed in *. assert (Forall (fun c => c <> 0) (l ++ [10])) as Hnz.
    { apply Forall_app. split; [by eapply Forall_impl; [exact Hl0|]; intros c []|by constructor]. }
    destruct (parsecmd_result _ Hnz) as [(t & b & Ep & Hfd)|[msg Ep]]; rewrite Ep in *.
    + set (c := map_cmd (str_at b) t) in *. destruct (launch c i o e (w_next w)) as [a1 n1] eqn:E1. destruct (script i o e lines n1) as [a2 n2] eqn:E2. cbn [fst snd].
      apply (does_fork _ _ _ (forks c) (pipes c) _ _ _ _ n1); [lia| |].
      * intros w' N F P. pose proof (runcmd_does c i o e w' Hfd ltac:(lia) ltac:(lia)) as H. rewrite N, E1 in H. exact H.
      * intros w' N F P. apply (does_seq _ _ _ 0 0 _ _ [] a2 n1); [rewrite <- N; apply does_wait|]. intros w2 N2 F2 P2.
        pose proof (IH fuel input' w2 Hl E' ltac:(cbn in Hf; lia) ltac:(lia) ltac:(lia)) as H. rewrite N2, E2 in H. exact H.
    + destruct (script i o e lines (w_next w)) as [a2 n2] eqn:E2. cbn [fst snd]. apply (does_fork _ _ _ 0 0 _ _ _ _ (w_next w)); [lia| |].
      * intros w' N F P. rewrite <- N. apply (does_note (AMessage _)).
      * intros w' N F P. apply (does_seq _ _ _ 0 0 _ _ [] a2 (w_next w)); [rewrite <- N; apply does_wait|]. intros w2 N2 F2 P2.
        pose proof (IH fuel input' w2 Hl E' ltac:(cbn in Hf; lia) ltac:(lia) ltac:(lia)) as H. rewrite N2, E2 in H. exact H.
Qed.
Lemma sh_main_does i o e lines fuel input w : can_open (bytes_of "console") 2 = true -> Forall line_ok lines -> concat input = lines ≫= (fun l => l ++ [10]) -> (length lines < fuel)%nat ->
  (needs forks 1 lines <= w_forks w)%nat -> (needs pipes 0 lines <= w_pipes w)%nat ->
  does (sh_main can_open can_exec can_cd fuel input (std i o e)) w (needs forks 1 lines) (needs pipes 0 lines) (fst (script i o e lines (w_next w))) (snd (script i o e lines (w_next w))).
Proof.
  intros Hc Hl E Hf HF HP. assert (open_console can_open (S NFD) (std i o e) w = Ok (std i o e) w) as Eo by (unfold open_console, open; by rewrite Hc).
  unfold does, sh_main. rewrite (bind_Ok _ _ _ _ _ Eo). by apply sh_loop_does.
Qed.
End reference.

(** C24. A session of the shell. For input in lines of at most 98 bytes without carriage returns or zeros,
    read in any pieces, when the console opens, forks and pipes do not run out, and what the kernel answers
    about files and directories stays the same for the session, the shell does
    line by line what the reference semantics of the parsed commands says: each program is
    started with its arguments and with exactly three descriptors, which are the streams
    of the session, the files of its redirections and the ends of the pipes to its
    neighbours; a line that does not parse gives its message, cd changes directory, and
    the shell ends at the end of its input. A process that waits has no end of a pipe
    open but its own standard streams, so that readers see the end of their input. *)
Theorem shell_session (can_open : list Z -> Z -> bool) (can_exec can_cd : list Z -> bool) (i o e : obj) (lines input : list (list Z)) (fuel : nat) (w : world) :
  can_open (bytes_of "console") 2 = true -> Forall line_ok lines -> concat input = lines ≫= (fun l => l ++ [10]) -> (length lines < fuel)%nat ->
  (needs forks 1 lines <= w_forks w)%nat -> (needs pipes 0 lines <= w_pipes w)%nat ->
  exists w' evs, sh_main can_open can_exec can_cd fuel input (std i o e) w = Ok tt w' /\ w_log w' = w_log w ++ evs /\
    shows evs (fst (script can_open can_exec can_cd i o e lines (w_next w))).
Proof. intros Hc Hl E Hf HF HP. destruct (sh_main_does can_open can_exec can_cd i o e lines fuel input w Hc Hl E Hf HF HP) as (w' & evs & H1 & H2 & H3 & _). by exists w', evs. Qed.
Definition demo_lines : list (list Z) := [bytes_of "cd d"; bytes_of "cat <f | grep x >>g"; bytes_of "a ; (b|"].
Lemma shell_session_witness : exists w' evs,
  sh_main (fun _ _ => true) (fun _ => true) (fun _ => true) 9 (map (fun l => l ++ [10]) demo_lines) (std (Given 0) (Given 1) (Given 2)) (World 9 9 0 []) = Ok tt w' /\ w_log w' = evs /\
  shows evs [AChdir (bytes_of "d"); AStarted [bytes_of "cat"] (Opened (bytes_of "f") SH_RDONLY) (WriteEnd 0) (Given 2);
    AStarted [bytes_of "grep"; bytes_of "x"] (ReadEnd 0) (Opened (bytes_of "g") SH_WRCREATE) (Given 2); AMessage (bytes_of "syntax - missing )" ++ [10])].
Proof.
  destruct (shell_session (fun _ _ => true) (fun _ => true) (fun _ => true) (Given 0) (Given 1) (Given 2) demo_lines (map (fun l => l ++ [10]) demo_lines) 9 (World 9 9 0 [])) as (w' & evs & H1 & H2 & H3).
  - reflexivity.
  - repeat constructor; cbn; lia.
  - reflexivity.
  - cbn. lia.
  - vm_compute. lia.
  - vm_compute. lia.
  - exists w', evs. split; [exact H1|]. split; [exact H2|]. exact H3.
Defined.
